(* ===== verification/_CoqProject ===== *)
-Q . S2P
Prelude.v
Text.v
Words.v
Json.v
Unicode.v
Dates.v
Decimals.v
Floats.v
Arithmetic.v
Hashing.v
Acquisition.v
Crypto.v
Events.v
Responses.v
EventTypes.v
Rulings.v
Conversations.v
Postings.v
LedgerProperties.v
RulingProperties.v
Quantity.v
Envelope.v
Compute.v
ComputeLaws.v
ComputeProperties.v
Quotients.v
Schedule.v
Normalize.v
Render.v
NormalizeLaws.v
ReadBack.v
Readings.v
ReadDates.v
Accounts.v
Goals.v
GoalService.v
GoalLaws.v
GoalProperties.v
GoalPlan.v
BalanceLaws.v
StoreFormat.v
StoreLaws.v
EventStore.v
Ledger.v
VaultLaws.v
VaultProperties.v
LedgerLaws.v
LiveLedger.v
GoalLedger.v
Policy.v
Grammars.v
GrammarProperties.v
Wake.v
WakeLaws.v
WakeProperties.v
Identity.v
IdentityProperties.v
Dictionaries.v
Registry.v
Visibility.v
BalanceProperties.v
LiveProjection.v
RegistryProperties.v
Overlays.v
OverlayProperties.v
Merchants.v
Movements.v
Transfers.v
TransferLaws.v
MovementLaws.v
TransferProperties.v
MovementProperties.v
Holdings.v
HoldingsLaws.v
HoldingsProperties.v
Statements.v
StatementProperties.v
StatementPosting.v
PostingLaws.v
PostingProperties.v
