(* ===== verification/Prelude.v ===== *)
(** * OrionViva: a verification library for the program's deterministic core

    OrionViva keeps one person's financial history in an encrypted, append-only event log,
    books what documents and people say as double-entry postings, and answers questions with
    figures that carry where they came from.  This library models the parts that carry that
    promise, as functions and steps over explicit state, and proves what makes them correct.

    ** The program's parts and where they are modelled

    The vault.  [Crypto] is product/viva/crypto.py: the sealed envelope, the key derivation,
    the vault header.  [StoreFormat] and [EventStore] are product/viva/ledger/store.py: the
    bytes of a log, its MACs, heads and cursors, and the handle with every method, over a
    disk whose writes may fail or be cut short.  AES-GCM and scrypt are the class
    [CryptoLib]; their laws are [CryptoLaws], and the end of [VaultLaws] gives a cipher that
    has them.
    [StoreLaws] and [VaultLaws] are the lemmas, [VaultProperties] the guarantees: an append
    commits exactly what the decision saw and chose, a failure or a crash leaves the old
    history or the whole new one, rollback, forgery and reentry are refused, and the store
    refines an append-only list ([store_refines_list]).

    The ledger.  [Ledger] is product/viva/ledger/ledger.py over the class [Projection], what
    the facade needs of a fold of events (ledger/projection/__init__.py): basis, published
    views, forks, staged work.  [LedgerLaws] and [LiveLedger] are about the facade over a fold
    that agrees with its rebuild: any number of ledgers over one log behave as one list of
    events and its replay.  [GoalLedger] instantiates the fold with the goals and proves that
    one decision settles a proposal, whichever ledger takes it.

    What a projection folds.  A document may be read again, and what was booked of the reading
    before stops counting.  [Visibility] is the chain of observations and [visible_events] of
    ledger/instruments.py, with the loop of [ProjectionCore.__init__] that folds what they let
    through, over any slice of the core; what holds of balances, movement keys and the
    net-worth curve over a log is stated of that loop.  [LiveProjection] is
    [LedgerProjection.apply], which folds one event on without looking at visibility or builds
    again, and proves that over a log whose events stand by themselves the two agree
    ([folding_on_is_replaying]), with the event on which they do not.

    The vocabulary.  [Events], [EventTypes], [Rulings], [Conversations] are
    product/viva/ledger/events.py, every constructor with its guards; [Postings] is
    ledger/postings.py; [Acquisition], [Responses] are acquisition.py,
    normalization_context.py and extraction_responses.py; [Arithmetic] is
    core/vivacore/verify/arithmetic.py.  [LedgerProperties] and [RulingProperties] hold what
    they guarantee: identities are exact and catch any single misread figure, posted
    transactions balance, rulings are guarded, learned rules keep their grounds.

    Reading and writing figures.  [Normalize] is core/vivacore/verify/normalize.py; [Render]
    is the figures of product/viva/render.py, and core/vivacore/verify/match.py.
    [NormalizeLaws] says what a printed numeral can mean under a convention and compares the
    code's choice with it, and follows the passes of [parse_amount]; [ReadBack]
    proves that what [money] writes is read back; [Readings] and [ReadDates] that no figure
    and no date is guessed, and that a comparison always ends in a verdict.

    Account identity.  [Identity] is ledger/identity.py: number signals, masking, account
    keys and the tokens of an account; [IdentityProperties] proves that a label shown hides
    every long number, and that a distinctive token names one account and no other is lost.

    Accounts, movements and transfers.  [Registry] is the slice of projection/core.py that
    says what each account is, and projection/accounts.py: whose statement a document is.
    [RegistryProperties] proves that nothing known of an account is lost and that a statement
    is booked to a held account only on grounds.  [Overlays] is the slice that keeps links,
    categories, rulings and the merchant catalog ([OverlayProperties]: what is known is not
    weakened), [Merchants] is ledger/merchant_keys.py and projection/merchants.py,
    [Movements] projection/movements.py, [Transfers] product/viva/ingest/transfers.py.  A scan
    of [Transfers] reads the core of [Overlays] through the movements and appends events that
    the core folds.  [TransferLaws], [MovementLaws] are the lemmas;
    [TransferProperties] proves that the pairs chosen are mutual best, that scans and
    decisions keep links a matching, that links rest on evidence, and that scanning settles;
    [MovementProperties] that a movement's key is one line's and stays it while no reading is
    corrected, that a link nets both legs and nothing else, and that spending is an exact sum.
    [Dictionaries] holds the laws of dictionaries they share.

    Statements.  [Statements] is ingest/registry.py, the facts of ingest/statement.py and
    ingest/diagnose.py; [StatementProperties] proves that a correction is forced exactly when
    one misread figure explains everything printed.  [StatementPosting] is
    ingest/statement_projector.py: the reconciliation ladder, whose account and which period,
    the booking, and the two healings, over the core of [Overlays], the accounts of
    [Accounts] and the coverage slice of the core.  [PostingLaws] holds the lemmas;
    [PostingProperties] proves that only what reconciles is posted and everything else moves
    no money, that a period is posted once, that healing ends, and that a posted statement
    leaves its closing as the account's balance.

    Balances and goals.  [Accounts] is the account slice of projection/core.py and
    projection/balances.py; [BalanceLaws] and [BalanceProperties] prove that the balance
    answered is the abstract history of the account in the events that are visible.  [Schedule] and [Goals] are the goal
    slice of core.py and projection/goals.py, [GoalService] is product/viva/goals.py;
    [GoalLaws], [GoalProperties], [GoalPlan] prove the calendar, the settling of proposals,
    that confirmed funds are covered, and what a plan says.

    Holdings and net worth.  [Holdings] is the slice of core.py that keeps position
    measurements, projection/positions.py, and the part of ledger/networth.py that reads
    measured accounts; [HoldingsLaws] holds the lemmas.  [HoldingsProperties]
    proves that an account is valued by the last measurements made of it by a day, that
    values and subtotals are exact sums, that a point accounts for every account, and that
    later events that correct no reading leave the lines of an earlier point as they were.

    The compute tool.  [Quantity], [Envelope], [Compute] are product/viva/quantity.py,
    tools/envelope.py, tools/compute.py; [ComputeLaws], [ComputeProperties]
    prove that a result that says exact is, that grade, boundary, quantity and provenance
    follow the operands, and that every path ends in an envelope.

    Unattended work.  [Grammars] is merchant/merchantcore/profile.py, the line grammars and
    their store; [GrammarProperties] proves that writing the next version edits nothing.
    [Policy] is product/viva/agent/policy.py with the journal of
    ledger/projection/activity.py; [Wake] is agent/run.py and agent/act.py, over the class
    [Surroundings], what the wake sees and what an action does outside the ledger, whose
    promises are [SurroundingsLaws].  [WakeLaws] and [WakeProperties] prove that a wake ends,
    keeps its ceiling but for what enrichment spends beyond its estimate, is billed for what it
    spent and does not buy a refusal twice.

    Under all of them: [Prelude] (exceptions, the result and state monads, their tactics and
    hints), [Text], [Words], [Unicode] (Python text as UTF-8 bytes), [Json] (values, printer,
    parser and their round trip), [Dates], [Decimals] (the General Decimal Arithmetic at the
    default context's precision), [Floats] (the exact decimal of a binary64), [Quotients],
    [Hashing] (hex, base64 and the hash interface).

    ** How code becomes definitions

    A Python function that raises returns [res], the value or the exception's class; methods
    of a mutable object are in the state-passing monad [M S A], whose state survives an
    exception; a step that other parties interleave is a step of a relation or of a list of
    requests.  Dictionaries are association lists in insertion order, since the code prints
    and compares them; text is a string of UTF-8 bytes; a decimal is a sign, a coefficient
    and an exponent; a float is the token it is printed as.  The texts of error messages are
    constructors, or are left out where only the class is observed.

    Recursion that is not structural has fuel, with a lemma that it suffices:
    [months_left] for the contribution calendar ([contribution_loop_fuel]); the length of the
    text for the scans of [Text], [Normalize], [Render], [Compute] and [Grammars], each of
    which shortens its text at every step; the bit length for printed digits; the exponent
    range for factors of two in [Floats]; the number of rules and pairs for the loop of a
    wake ([wake_ends] proves that many turns end it); one turn for each document held, and one
    more, for the healings of [StatementPosting] ([healing_ends]).

    ** What is an argument

    Ciphers and hashes; the clock, the day and minted identities; letter case and word
    characters beyond ASCII ([CaseMap], [WordTable]); [ast.parse] and [repr]; matching a
    regular expression; how one descriptor decomposes ([Descriptors]); which accounts an
    instrument restricts and how it allocates a payment; the payloads of instrument
    observations ([Payloads]) and whether the receipt of a known allocation still holds.  What the code relies on of
    them is a class of laws, and every theorem that uses one has a witness at an instance.

    ** What is not modelled

    The read store and the SQL authority (SQL text run by sqlite); model clients, the desktop
    bridge and HTTP handlers (I/O); PDF reading, the reading of a model's reply into facts, and
    the projectors of pay stubs, brokerage statements and instruments; the answer program's
    tables of intents; the remaining ledger projections (the lines rulings assert of net worth,
    the bounded capture of a value's sources, streams, derived categories and tags, instrument
    overlays, and with them the guard against duplicate instrument effects); personas and
    wording.  Of the ledger facade: weak references, thread locks and deep copies are values,
    and a stage's cleanup callbacks are counted, not run.  Of the agent: what an observation reads off the disk, the inducer and
    the catalog, which are the interface above.  Of the grammars: the regular expressions of
    the shapes, and the slots a match shares.

    ** What the models showed

    Beside the theorems stand small lemmas that record where the code does something its
    documents do not say; each is named for what it shows ([passes_beyond_precision],
    [empty_rhythm_accepted], [long_negative_rounds], [enrichment_runs_unattended],
    [override_passes_the_ceiling], [queued_brands_pass_the_ceiling], [tenth_grammar_unused],
    [unlinked_pair_is_linked_again], [document_link_shares], [hidden_effect_folded_live],
    [suffix_read_takes_an_older_head], [zero_line_leaves_half_a_statement],
    [later_statement_taken_as_earlier], [later_opening_moves_the_curve], and the like). *)
From stdpp Require Import base strings list numbers.
From Stdlib Require Import ZArith Lia.

(** ** Python exceptions

    The exception classes the modelled code raises or catches.  [CommittedPrefixMismatch]
    is a subclass of [CryptoError], [JSONDecodeError] and [ProfileError] of [ValueError], [UnknownGoalError] and
    [UnknownAccountError] of [KeyError] in the source;
    [exn_isinstance] below is Python's [except] test. *)
Inductive exn : Type :=
  | CryptoError
  | CommittedPrefixMismatch
  | OSError
  | TypeError
  | ValueError
  | JSONDecodeError
  | KeyError
  | IndexError
  | UnknownGoalError
  | UnknownAccountError
  | AttributeError
  | InvalidOperation
  | DecimalOverflow
  | DecimalInexact
  | ZeroDivisionError
  | OverflowError
  | JobCancelled
  | BridgeRequestError
  | AssertionError
  | RuntimeError
  | ProfileError
  | RegexError         (** [re.error] *)
  | Refusal (tag : string).   (** the walk of tools/compute.py: [_Refuse], by its tag *)

#[export] Instance exn_eq_dec : EqDecision exn.
Proof. solve_decision. Defined.

(** [isinstance(e, cls)] over the classes above. *)
Definition exn_isinstance (e cls : exn) : bool :=
  bool_decide (e = cls)
  || bool_decide (e = CommittedPrefixMismatch /\ cls = CryptoError)
  || bool_decide ((e = JSONDecodeError \/ e = ProfileError) /\ cls = ValueError)
  || bool_decide ((e = UnknownGoalError \/ e = UnknownAccountError) /\ cls = KeyError).

(** ** Results: a value or a raised exception *)
Inductive res (A : Type) : Type :=
  | Ok (a : A)
  | Raise (e : exn).
Arguments Ok {A} a.
Arguments Raise {A} e.

#[export] Instance res_eq_dec {A} `{EqDecision A} : EqDecision (res A).
Proof. solve_decision. Defined.

Definition rbind {A B} (m : res A) (k : A -> res B) : res B :=
  match m with
  | Ok a => k a
  | Raise e => Raise e
  end.

Definition is_ok {A} (m : res A) : bool :=
  match m with Ok _ => true | Raise _ => false end.

(** [raise cls] when the guard holds. *)
Definition raise_if (b : bool) (e : exn) : res unit :=
  if b then Raise e else Ok tt.

Definition res_of_option {A} (e : exn) (o : option A) : res A :=
  match o with Some a => Ok a | None => Raise e end.

(** [except (classes) as exc: raise target from exc] around a result. *)
Definition reraise_as {A} (classes : list exn) (target : exn) (m : res A) : res A :=
  match m with
  | Raise e => if existsb (exn_isinstance e) classes then Raise target else Raise e
  | Ok a => Ok a
  end.

(** ** State with exceptions

    A Python statement that raises keeps every effect it had before it raised, so the
    state comes back on both outcomes. *)
Definition M (S A : Type) : Type := S -> res A * S.

Definition mret {S A} (a : A) : M S A := fun s => (Ok a, s).
Definition mraise {S A} (e : exn) : M S A := fun s => (Raise e, s).
Definition mbind {S A B} (m : M S A) (k : A -> M S B) : M S B :=
  fun s => match m s with
           | (Ok a, s') => k a s'
           | (Raise e, s') => (Raise e, s')
           end.
Definition mget {S} : M S S := fun s => (Ok s, s).
Definition mmodify {S} (f : S -> S) : M S unit := fun s => (Ok tt, f s).
Definition mlift {S A} (r : res A) : M S A := fun s => (r, s).
Definition mwhen {S} (b : bool) (m : M S unit) : M S unit :=
  if b then m else mret tt.
(** [except Exception: handler; raise]: run the handler's effect and re-raise. *)
Definition on_exception {S A} (m : M S A) (h : S -> S) : M S A :=
  fun s => match m s with
           | (Ok a, s') => (Ok a, s')
           | (Raise e, s') => (Raise e, h s')
           end.

Declare Scope viva_scope.
Delimit Scope viva_scope with viva.
Notation "'let?' x ':=' m 'in' k" := (rbind m (fun x => k))
  (at level 10, x pattern, m at level 100, k at level 200) : viva_scope.
Notation "'do!' x '<-' m ';' k" := (mbind m (fun x => k))
  (at level 10, x pattern, m at level 100, k at level 200) : viva_scope.
Notation "'run!' m ';' k" := (mbind m (fun _ => k))
  (at level 10, m at level 100, k at level 200) : viva_scope.
#[global] Open Scope viva_scope.

(** ** Automation shared by every file *)
Create HintDb viva discriminated.

Lemma Ok_inj {A} (a b : A) : Ok a = Ok b -> a = b.
Proof. congruence. Qed.

Lemma rbind_ok {A B} (m : res A) (k : A -> res B) b :
  rbind m k = Ok b -> exists a, m = Ok a /\ k a = Ok b.
Proof. destruct m; simpl; [eauto | discriminate]. Qed.

Lemma mbind_ok {S A B} (m : M S A) (k : A -> M S B) s b s' :
  mbind m k s = (Ok b, s') ->
  exists a s1, m s = (Ok a, s1) /\ k a s1 = (Ok b, s').
Proof. unfold mbind. destruct (m s) as [[a|e] s1]; [eauto | discriminate]. Qed.

Lemma raise_if_ok b e u : raise_if b e = Ok u -> b = false.
Proof. destruct b; [discriminate | done]. Qed.

Lemma res_of_option_ok {A} e (o : option A) a : res_of_option e o = Ok a -> o = Some a.
Proof. destruct o; simpl; congruence. Qed.

Lemma reraise_as_ok {A} cs t (m : res A) a : reraise_as cs t m = Ok a <-> m = Ok a.
Proof.
  destruct m as [x|e]; simpl; [done|].
  destruct (existsb _ _); split; discriminate.
Qed.

(** Decompose successful monadic computations in the context. *)
Ltac run_ok :=
  repeat match goal with
  | H : rbind _ _ = Ok _ |- _ =>
      let a := fresh "a" in let E := fresh "E" in
      apply rbind_ok in H as (a & E & H)
  | H : mbind _ _ _ = (Ok _, _) |- _ =>
      let a := fresh "a" in let s := fresh "s" in let E := fresh "E" in
      apply mbind_ok in H as (a & s & E & H)
  | H : raise_if _ _ = Ok _ |- _ => apply raise_if_ok in H
  | H : res_of_option _ _ = Ok _ |- _ => apply res_of_option_ok in H
  | H : reraise_as _ _ _ = Ok _ |- _ => apply reraise_as_ok in H
  | H : Ok _ = Ok _ |- _ => injection H; clear H; intros; try subst
  | H : (Ok _, _) = (Ok _, _) |- _ => injection H; clear H; intros; try subst
  | H : mret _ _ = (Ok _, _) |- _ => unfold mret in H
  | H : mlift _ _ = (Ok _, _) |- _ => unfold mlift in H
  end.

(** ** Lists *)

(** Folding an exception-raising step over a list, left to right (a Python [for]). *)
Fixpoint rfold {A B} (f : A -> B -> res A) (l : list B) (a : A) : res A :=
  match l with
  | [] => Ok a
  | b :: l' => let? a' := f a b in rfold f l' a'
  end.

Lemma rfold_app {A B} (f : A -> B -> res A) l1 l2 a :
  rfold f (l1 ++ l2) a = (let? a' := rfold f l1 a in rfold f l2 a').
Proof.
  revert a; induction l1 as [|b l1 IH]; intros a; simpl; [done|].
  destruct (f a b); simpl; auto.
Qed.

(** A left fold whose step preserves an invariant preserves it. *)
Lemma rfold_inv {A B} (f : A -> B -> res A) (P : A -> Prop) l a a' :
  (forall x b x', P x -> f x b = Ok x' -> P x') ->
  P a -> rfold f l a = Ok a' -> P a'.
Proof.
  intros Hstep; revert a; induction l as [|b l IH]; simpl; intros a Ha H; run_ok; eauto.
Qed.

Fixpoint rmap {A B} (f : A -> res B) (l : list A) : res (list B) :=
  match l with
  | [] => Ok []
  | a :: l' => let? b := f a in let? bs := rmap f l' in Ok (b :: bs)
  end.

Lemma rmap_ok {A B} (f : A -> res B) l bs :
  rmap f l = Ok bs <-> Forall2 (fun a b => f a = Ok b) l bs.
Proof.
  revert bs; induction l as [|a l IH]; simpl; intros bs; split; intros H.
  - run_ok. constructor.
  - inv H. done.
  - run_ok. constructor; [done|]. by apply IH.
  - inv H. match goal with Hf : f a = _ |- _ => rewrite Hf end. simpl.
    match goal with Hl : Forall2 _ l _ |- _ => apply IH in Hl; rewrite Hl end. done.
Qed.

(** Keeping what a raising test keeps, each tested in turn. *)
Fixpoint rfilter {A} (f : A -> res bool) (l : list A) : res (list A) :=
  match l with
  | [] => Ok []
  | x :: r => let? b := f x in let? k := rfilter f r in Ok (if b then x :: k else k)
  end.
Definition holds_ok (b : res bool) : bool := match b with Ok b => b | Raise _ => false end.
Lemma rfilter_ok {A} (f : A -> res bool) l k : rfilter f l = Ok k ->
  k = List.filter (fun x => holds_ok (f x)) l /\ Forall (fun x => is_ok (f x) = true) l.
Proof.
  revert k; induction l as [|x l IH]; simpl; intros k H; [by injection H as <-|]. run_ok.
  match goal with Hl : rfilter f l = Ok ?y, Hf : f x = Ok ?b |- _ => destruct (IH y Hl) as [-> Hall]; rewrite Hf; destruct b end;
    simpl; split; try done; constructor; try done; match goal with Hf : f x = _ |- _ => by rewrite Hf end.
Qed.
Lemma rfilter_total {A} (f : A -> res bool) l : Forall (fun x => is_ok (f x) = true) l ->
  rfilter f l = Ok (List.filter (fun x => holds_ok (f x)) l).
Proof.
  induction 1 as [|x l Hx Hl IH]; simpl; [done|]. destruct (f x) as [b|]; [|done]. simpl. rewrite IH. simpl. by destruct b.
Qed.

Lemma rmap_length {A B} (f : A -> res B) l bs :
  rmap f l = Ok bs -> length bs = length l.
Proof. intros H%rmap_ok%Forall2_length. done. Qed.
