(* ===== verification/Text.v ===== *)
(** * Text: Python [str] and [bytes] as the modelled code uses them

    A Python [bytes] value is a [list ascii]; a Python [str] is a Rocq [string] holding
    its UTF-8 encoding ([str.encode] and [bytes.decode] are [enc] and [dec]).  Code-point
    order on [str] is byte order on its encoding.  The file gives decimal and hexadecimal
    digits, line splitting, white-space stripping and substring tests, each with the
    lemmas the codecs above it use. *)
From Stdlib Require Import ZArith NArith Ascii String Lia ZifyBool ZifyN ZifyNat.
From stdpp Require Import base list numbers strings.
From S2P Require Import Prelude.
#[local] Open Scope N_scope.

Abbreviation bytes := (list ascii).

Definition enc (s : string) : bytes := list_ascii_of_string s.
Definition dec (b : bytes) : string := string_of_list_ascii b.

Lemma dec_enc s : dec (enc s) = s.
Proof. apply string_of_list_ascii_of_string. Qed.
Lemma enc_dec b : enc (dec b) = b.
Proof. apply list_ascii_of_string_of_list_ascii. Qed.

Lemma enc_inj s t : enc s = enc t -> s = t.
Proof. intros H. by rewrite <- (dec_enc s), H, dec_enc. Qed.

Create Rewrite HintDb text.
#[export] Hint Rewrite dec_enc enc_dec : text.

(** ** Byte classes *)
Definition code (c : ascii) : N := N_of_ascii c.
Definition chr (n : N) : ascii := ascii_of_N n.

Lemma code_chr n : n < 256 -> code (chr n) = n.
Proof. apply N_ascii_embedding. Qed.
Lemma chr_code c : chr (code c) = c.
Proof. apply ascii_N_embedding. Qed.
Lemma code_bound c : code c < 256.
Proof. apply N_ascii_bounded. Qed.

Definition is_digit (c : ascii) : bool := (48 <=? code c) && (code c <=? 57).

(** ** Longest prefix satisfying a test *)
Fixpoint span (f : ascii -> bool) (l : bytes) : bytes * bytes :=
  match l with
  | [] => ([], [])
  | c :: l' => if f c then let '(a, b) := span f l' in (c :: a, b) else ([], l)
  end.

(** [rest] cannot extend a maximal [f]-prefix. *)
Definition stops (f : ascii -> bool) (rest : bytes) : Prop :=
  match rest with [] => True | c :: _ => f c = false end.

Lemma span_app f l rest :
  Forall (fun c => f c = true) l -> stops f rest -> span f (l ++ rest) = (l, rest).
Proof.
  intros Hl Hr. induction Hl as [|c l Hc Hl IH]; simpl.
  - destruct rest as [|c r]; simpl in *; [done|]. by rewrite Hr.
  - by rewrite Hc, IH.
Qed.

Lemma span_spec f l a b :
  span f l = (a, b) -> l = a ++ b /\ Forall (fun c => f c = true) a /\ stops f b.
Proof.
  revert a b; induction l as [|c l IH]; simpl; intros a b H.
  - inv H. repeat split; constructor.
  - destruct (f c) eqn:Hc; [|inv H; simpl; auto].
    destruct (span f l) as [a' b'] eqn:E. inv H.
    destruct (IH _ _ eq_refl) as (-> & ? & ?). repeat split; auto.
Qed.

(** ** Decimal digits *)
Definition digit_char (d : N) : ascii := chr (48 + d).
Definition digit_val (c : ascii) : N := code c - 48.

Fixpoint digits_fuel (fuel : nat) (n : N) (acc : bytes) : bytes :=
  match fuel with
  | O => acc
  | S f => let acc' := digit_char (n mod 10) :: acc in
           if n <? 10 then acc' else digits_fuel f (n / 10) acc'
  end.

(** Decimal digits of a natural number; the bit length bounds their count. *)
Definition digits_of_N (n : N) : bytes := digits_fuel (S (N.size_nat n)) n [].
Definition value_of_digits (l : bytes) : N :=
  fold_left (fun acc c => acc * 10 + digit_val c) l 0.

Lemma digit_char_val d : d < 10 -> digit_val (digit_char d) = d.
Proof. intros H. unfold digit_val, digit_char. rewrite code_chr; lia. Qed.

Lemma digit_char_is_digit d : d < 10 -> is_digit (digit_char d) = true.
Proof. intros H. unfold is_digit, digit_char. rewrite code_chr by lia. lia. Qed.

Lemma size_nat_mono a b : a <= b -> (N.size_nat a <= N.size_nat b)%nat.
Proof.
  intros H. destruct (decide (a = b)) as [->|Hne]; [lia|].
  destruct a as [|p], b as [|q]; simpl; try lia.
  apply Pos.size_nat_monotone. lia.
Qed.

Lemma size_nat_div10 n : 10 <= n -> (N.size_nat (n / 10) < N.size_nat n)%nat.
Proof.
  intros H. apply Nat.le_lt_trans with (N.size_nat (N.div2 n)).
  - apply size_nat_mono. rewrite N.div2_div. apply N.div_le_compat_l. lia.
  - destruct n as [|[p|p|]]; simpl; try lia; exfalso; clear -H; by apply H.
Qed.

Lemma value_of_digits_app l c :
  value_of_digits (l ++ [c]) = value_of_digits l * 10 + digit_val c.
Proof. unfold value_of_digits. by rewrite fold_left_app. Qed.

Lemma digits_fuel_app fuel n acc : digits_fuel fuel n acc = digits_fuel fuel n [] ++ acc.
Proof.
  revert n acc; induction fuel as [|f IH]; intros n acc; simpl; [done|].
  destruct (n <? 10); [done|]. rewrite IH, (IH _ [_]), <- app_assoc. done.
Qed.

Lemma digits_fuel_value fuel n :
  (N.size_nat n < fuel)%nat -> value_of_digits (digits_fuel fuel n []) = n.
Proof.
  revert n; induction fuel as [|f IH]; intros n Hf; [lia|].
  assert (Hm : n mod 10 < 10) by (apply N.mod_upper_bound; lia).
  simpl. destruct (N.ltb_spec n 10) as [Hn|Hn].
  - unfold value_of_digits; simpl. rewrite digit_char_val by done.
    rewrite N.mod_small; lia.
  - rewrite digits_fuel_app, value_of_digits_app, IH, digit_char_val by
      (try done; pose proof (size_nat_div10 n Hn); lia).
    pose proof (N.div_mod n 10). lia.
Qed.

Lemma value_digits n : value_of_digits (digits_of_N n) = n.
Proof. apply digits_fuel_value. lia. Qed.

Lemma digits_fuel_all fuel n : Forall (fun c => is_digit c = true) (digits_fuel fuel n []).
Proof.
  revert n; induction fuel as [|f IH]; intros n; simpl; [constructor|].
  assert (Hm : n mod 10 < 10) by (apply N.mod_upper_bound; lia).
  destruct (n <? 10); [by repeat constructor; apply digit_char_is_digit|].
  rewrite digits_fuel_app. apply Forall_app. split; [done|].
  by repeat constructor; apply digit_char_is_digit.
Qed.

Lemma digits_all n : Forall (fun c => is_digit c = true) (digits_of_N n).
Proof. apply digits_fuel_all. Qed.

Lemma digits_nonempty n : digits_of_N n <> [].
Proof.
  unfold digits_of_N. simpl. destruct (n <? 10); [done|].
  rewrite digits_fuel_app. by intros [_ ?]%app_eq_nil.
Qed.

(** The first digit is a zero only for the number zero. *)
Lemma digits_fuel_head fuel n c l :
  (N.size_nat n < fuel)%nat -> digits_fuel fuel n [] = c :: l -> c = "0"%char -> n = 0.
Proof.
  revert n c l; induction fuel as [|f IH]; intros n c l Hf H ->; [lia|].
  simpl in H. assert (Hm : n mod 10 < 10) by (apply N.mod_upper_bound; lia).
  destruct (N.ltb_spec n 10) as [Hn|Hn].
  - injection H as H _. apply (f_equal digit_val) in H.
    rewrite digit_char_val in H by done. change (digit_val "0") with 0 in H.
    rewrite N.mod_small in H; lia.
  - rewrite digits_fuel_app in H. pose proof (size_nat_div10 n Hn).
    destruct (digits_fuel f (n / 10) []) as [|c' l'] eqn:E.
    + destruct f; [lia|]. simpl in E. destruct (n / 10 <? 10); [done|].
      rewrite digits_fuel_app in E. by apply app_eq_nil in E as [_ ?].
    + injection H as -> _. eapply IH in E; [|lia|done].
      pose proof (N.div_mod n 10). lia.
Qed.

Lemma digits_head n c l : digits_of_N n = c :: l -> c = "0"%char -> n = 0.
Proof. intros H. eapply digits_fuel_head; [|exact H]. lia. Qed.

Lemma digits_of_0 : digits_of_N 0 = ["0"%char].
Proof. reflexivity. Qed.

(** Decimal text of an integer: [str(int)]. *)
Definition Z_text (z : Z) : bytes :=
  match z with
  | Zneg p => "-"%char :: digits_of_N (Npos p)
  | _ => digits_of_N (Z.to_N z)
  end.

(** ** Hexadecimal digits *)
Definition hex_char (d : N) : ascii := if d <? 10 then chr (48 + d) else chr (87 + d).
Definition hex_of_byte (c : ascii) : bytes := [hex_char (code c / 16); hex_char (code c mod 16)].
(** [bytes.hex] / [hexdigest]. *)
Definition hexlify (b : bytes) : string := dec (List.concat (List.map hex_of_byte b)).

Definition hex_val (c : ascii) : option N :=
  let n := code c in
  if (48 <=? n) && (n <=? 57) then Some (n - 48)
  else if (97 <=? n) && (n <=? 102) then Some (n - 87)
  else if (65 <=? n) && (n <=? 70) then Some (n - 55)
  else None.

Lemma hex_char_val d : d < 16 -> hex_val (hex_char d) = Some d.
Proof.
  intros H. unfold hex_val, hex_char.
  destruct (N.ltb_spec d 10); rewrite code_chr by lia.
  - replace ((48 <=? 48 + d) && (48 + d <=? 57)) with true by lia. f_equal; lia.
  - replace ((48 <=? 87 + d) && (87 + d <=? 57)) with false by lia.
    replace ((97 <=? 87 + d) && (87 + d <=? 102)) with true by lia. f_equal; lia.
Qed.

(** ** Substrings *)
Fixpoint starts_with (p l : bytes) : option bytes :=
  match p, l with
  | [], _ => Some l
  | a :: p', b :: l' => if ascii_dec a b then starts_with p' l' else None
  | _ :: _, [] => None
  end.

Lemma starts_with_app p l : starts_with p (p ++ l) = Some l.
Proof. induction p as [|a p IH]; simpl; [done|]. by destruct (ascii_dec a a). Qed.

Lemma starts_with_Some p l r : starts_with p l = Some r -> l = p ++ r.
Proof.
  revert l; induction p as [|a p IH]; intros [|b l] H; simpl in *; try congruence.
  destruct (ascii_dec a b) as [->|]; [|done]. f_equal. auto.
Qed.

(** ** White space: [str.strip] over the UTF-8 encodings of Python's space characters *)
Definition spaces : list bytes :=
  List.map enc (List.map (fun n => String (chr n) "") [9; 10; 11; 12; 13; 28; 29; 30; 31; 32])
  ++ [[chr 194; chr 133]; [chr 194; chr 160]; [chr 225; chr 154; chr 128];
      [chr 226; chr 128; chr 168]; [chr 226; chr 128; chr 169]; [chr 226; chr 128; chr 175];
      [chr 226; chr 129; chr 159]; [chr 227; chr 128; chr 128]]
  ++ List.map (fun k => [chr 226; chr 128; chr (128 + k)]) [0; 1; 2; 3; 4; 5; 6; 7; 8; 9; 10].

Fixpoint first_prefix (ps : list bytes) (l : bytes) : option bytes :=
  match ps with
  | [] => None
  | p :: ps' => match starts_with p l with
                | Some r => Some r
                | None => first_prefix ps' l
                end
  end.

Fixpoint lstrip_fuel (ps : list bytes) (fuel : nat) (l : bytes) : bytes :=
  match fuel with
  | O => l
  | S f => match first_prefix ps l with
           | Some r => lstrip_fuel ps f r
           | None => l
           end
  end.
Definition lstrip (l : bytes) : bytes := lstrip_fuel spaces (length l) l.
Definition rstrip (l : bytes) : bytes :=
  rev (lstrip_fuel (List.map (@rev ascii) spaces) (length l) (rev l)).
Definition strip_bytes (l : bytes) : bytes := rstrip (lstrip l).
(** [str.strip()]. *)
Definition strip (s : string) : string := dec (strip_bytes (enc s)).
(** [not s.strip()]. *)
Definition blank (s : string) : bool := bool_decide (strip s = EmptyString).

(** What holds of every byte holds of every byte of the stripped text. *)
Lemma first_prefix_suffix ps l r : first_prefix ps l = Some r -> exists a, l = a ++ r.
Proof.
  induction ps as [|p ps IH]; simpl; [done|]. destruct (starts_with p l) eqn:E; [|auto].
  intros [= ->]. exists p. by apply starts_with_Some.
Qed.
Lemma lstrip_Forall (P : ascii -> Prop) ps fuel l : Forall P l -> Forall P (lstrip_fuel ps fuel l).
Proof.
  revert l; induction fuel as [|n IH]; intros l H; simpl; [done|].
  destruct (first_prefix ps l) as [r|] eqn:E; [|done]. apply IH.
  apply first_prefix_suffix in E as [a ->]. by apply Forall_app in H as [_ H].
Qed.
Lemma strip_bytes_Forall (P : ascii -> Prop) l : Forall P l -> Forall P (strip_bytes l).
Proof.
  intros H. unfold strip_bytes, rstrip, lstrip. apply Forall_rev, lstrip_Forall, Forall_rev.
  by apply lstrip_Forall.
Qed.

(** ** Lines *)
Definition newline : ascii := chr 10.
Definition is_newline (c : ascii) : bool := if ascii_dec c newline then true else false.

(** [readline()]: the line without its newline, whether a newline ended it, the rest. *)
Definition readline (l : bytes) : bytes * bool * bytes :=
  match span (fun c => negb (is_newline c)) l with
  | (a, []) => (a, false, [])
  | (a, _ :: r) => (a, true, r)
  end.

Definition no_newline (l : bytes) : Prop := Forall (fun c => is_newline c = false) l.

Lemma readline_line a r : no_newline a -> readline (a ++ newline :: r) = (a, true, r).
Proof.
  intros Ha. unfold readline.
  rewrite (span_app _ a (newline :: r)); [done| |done].
  eapply Forall_impl; [exact Ha|]. intros c Hc. simpl in *. by rewrite Hc.
Qed.

Lemma readline_eof a : no_newline a -> readline a = (a, false, []).
Proof.
  intros Ha. unfold readline. rewrite <- (app_nil_r a) at 1.
  rewrite span_app; [done| |done].
  eapply Forall_impl; [exact Ha|]. intros c Hc. simpl in *. by rewrite Hc.
Qed.

(** What [readline] returns puts the input back together. *)
Lemma readline_true l a r : readline l = (a, true, r) -> l = a ++ newline :: r /\ no_newline a.
Proof.
  unfold readline. destruct (span _ l) as [a' b] eqn:E.
  apply span_spec in E as (-> & Ha & Hb). intros H.
  destruct b as [|c b]; [done|]. inv H. simpl in Hb.
  assert (Hc : is_newline c = true) by (destruct (is_newline c); done).
  unfold is_newline in Hc. destruct (ascii_dec c newline) as [->|]; [|done].
  split; [done|]. eapply Forall_impl; [exact Ha|]. intros x Hx; simpl in Hx.
  by destruct (is_newline x).
Qed.

Lemma readline_false l a r : readline l = (a, false, r) -> l = a /\ r = [] /\ no_newline a.
Proof.
  unfold readline. destruct (span _ l) as [a' b] eqn:E.
  apply span_spec in E as (-> & Ha & Hb). intros H.
  destruct b as [|c b]; [|done]. inv H. rewrite app_nil_r.
  repeat split; auto. eapply Forall_impl; [exact Ha|]. intros x Hx; simpl in Hx.
  by destruct (is_newline x).
Qed.
