(* ===== verification/Words.v ===== *)
(** * Words: vocabularies, splitting and sorted sets of text

    Membership in a closed vocabulary, [str.split], [str.partition] and [str.join] for a
    one-character separator, and [sorted({...})].  The laws: splitting what was joined, and
    a sorted set depends on its members only. *)
From Stdlib Require Import ZArith NArith Ascii String Lia Sorting OrdersEx.
From stdpp Require Import base list numbers strings sorting.
From S2P Require Import Prelude Text.
#[local] Open Scope string_scope.

(** [s in l]. *)
Definition in_words (s : string) (l : list string) : bool := existsb (String.eqb s) l.

Lemma in_words_spec s l : in_words s l = true <-> s ∈ l.
Proof.
  unfold in_words. rewrite existsb_exists, list_elem_of_In. split.
  - intros (x & H & ->%String.eqb_eq). done.
  - intros H. exists s. split; [done|]. apply String.eqb_refl.
Qed.
Lemma in_words_false s l : in_words s l = false <-> s ∉ l.
Proof. rewrite <- in_words_spec. destruct (in_words s l); split; intros; congruence. Qed.

Lemma existsb_none {A} (f : A -> bool) l x : existsb f l = false -> x ∈ l -> f x = false.
Proof.
  intros H Hx. destruct (f x) eqn:E; [|done]. exfalso.
  assert (existsb f l = true); [|congruence]. apply existsb_exists. exists x. by rewrite <- list_elem_of_In.
Qed.

(** No word of the list twice. *)
Definition distinct (l : list string) : bool := bool_decide (NoDup l).

Fixpoint split_on (sep : ascii) (l : bytes) : list bytes :=
  match l with
  | [] => [[]]
  | c :: r => if ascii_dec c sep then [] :: split_on sep r
              else match split_on sep r with
                   | w :: ws => (c :: w) :: ws
                   | [] => [[c]]
                   end
  end.
(** [s.split(sep)]. *)
Definition split (sep : ascii) (s : string) : list string := List.map dec (split_on sep (enc s)).

Definition is_sep (sep c : ascii) : bool := if ascii_dec c sep then true else false.
(** [s.partition(sep)]: before, whether the separator was there, after. *)
Definition partition (sep : ascii) (s : string) : string * bool * string :=
  match span (fun c => negb (is_sep sep c)) (enc s) with
  | (a, []) => (dec a, false, "")
  | (a, _ :: b) => (dec a, true, dec b)
  end.

(** [sep.join(l)]. *)
Fixpoint join_words (sep : ascii) (l : list string) : string :=
  match l with
  | [] => ""
  | [w] => w
  | w :: l' => w ++ String sep (join_words sep l')
  end.

Definition free_of (sep : ascii) (s : string) : Prop := Forall (fun c => c <> sep) (enc s).
#[export] Instance free_of_dec sep s : Decision (free_of sep s).
Proof. unfold free_of. apply _. Defined.

Lemma free_span sep l r : Forall (fun c => c <> sep) l ->
  span (fun c => negb (is_sep sep c)) (l ++ sep :: r)%list = (l, sep :: r).
Proof.
  intros H. rewrite (span_app _ l (sep :: r)); [done| |].
  - eapply Forall_impl; [exact H|]. intros c Hc. unfold is_sep. by destruct (ascii_dec c sep).
  - simpl. unfold is_sep. by destruct (ascii_dec sep sep).
Qed.

Lemma enc_app s t : enc (s ++ t) = (enc s ++ enc t)%list.
Proof.
  induction s as [|c s IH]; [done|]. change (enc (String c s ++ t)) with (c :: enc (s ++ t)). by rewrite IH.
Qed.

Lemma partition_app sep a b : free_of sep a ->
  partition sep (a ++ String sep b) = (a, true, b).
Proof.
  intros H. unfold partition. rewrite enc_app. change (enc (String sep b)) with (sep :: enc b).
  rewrite free_span by done. by rewrite !dec_enc.
Qed.

Lemma split_on_free sep l : Forall (fun c => c <> sep) l -> split_on sep l = [l].
Proof.
  induction 1 as [|c l Hc Hl IH]; [done|]. cbn [split_on].
  destruct (ascii_dec c sep); [done|]. by rewrite IH.
Qed.
Lemma split_on_app sep l r : Forall (fun c => c <> sep) l ->
  split_on sep (l ++ sep :: r)%list = l :: split_on sep r.
Proof.
  induction 1 as [|c l Hc Hl IH]; cbn [app split_on].
  - by destruct (ascii_dec sep sep).
  - destruct (ascii_dec c sep); [done|]. by rewrite IH.
Qed.

(** Splitting what was joined gives the words back. *)
Lemma split_join sep l : l <> [] -> Forall (free_of sep) l -> split sep (join_words sep l) = l.
Proof.
  intros Hne H. induction H as [|w l Hw Hl IH]; [done|]. clear Hne. destruct l as [|w' l].
  - cbn [join_words]. unfold split. rewrite split_on_free by done. cbn. by rewrite dec_enc.
  - change (join_words sep (w :: w' :: l)) with (w ++ String sep (join_words sep (w' :: l))).
    unfold split in *. rewrite enc_app. change (enc (String sep ?s)) with (sep :: enc s).
    rewrite split_on_app by done. cbn [List.map]. rewrite dec_enc, IH by done. done.
Qed.

(** ** [sorted({...})] *)
Fixpoint insert_word (w : string) (l : list string) : list string :=
  match l with
  | [] => [w]
  | x :: l' => match String.compare w x with
               | Lt => w :: l
               | Eq => l
               | Gt => x :: insert_word w l'
               end
  end.
Definition sorted_set (l : list string) : list string := fold_right insert_word [] l.

Definition word_lt (a b : string) : Prop := String.compare a b = Lt.

#[export] Instance word_lt_trans : Transitive word_lt.
Proof. intros a b c. apply String_as_OT.lt_strorder. Qed.
Lemma word_lt_irrefl a : ~ word_lt a a.
Proof. apply String_as_OT.lt_strorder. Qed.
Lemma word_gt a b : String.compare a b = Gt -> word_lt b a.
Proof. unfold word_lt. rewrite String.compare_antisym. by destruct (String.compare b a). Qed.

Lemma insert_word_elem w l x : x ∈ insert_word w l <-> x = w \/ x ∈ l.
Proof.
  induction l as [|y l IH]; cbn [insert_word]; [by rewrite list_elem_of_singleton, elem_of_nil; tauto|].
  destruct (String.compare w y) eqn:E; [apply String.compare_eq_iff in E as ->|..];
    rewrite ?elem_of_cons, ?IH, ?elem_of_cons; tauto.
Qed.
Lemma sorted_set_elem l x : x ∈ sorted_set l <-> x ∈ l.
Proof.
  induction l as [|w l IH]; [done|]. change (sorted_set (w :: l)) with (insert_word w (sorted_set l)).
  rewrite insert_word_elem, IH, elem_of_cons. done.
Qed.

Lemma insert_word_sorted w l : StronglySorted word_lt l -> StronglySorted word_lt (insert_word w l).
Proof.
  induction 1 as [|x l Hl IH Hx]; cbn [insert_word]; [repeat constructor|].
  destruct (String.compare w x) eqn:E.
  - by constructor.
  - constructor; [by constructor|]. constructor; [done|]. eapply Forall_impl; [exact Hx|].
    intros y Hy. by transitivity x.
  - constructor; [done|]. apply Forall_forall. intros y [->|Hy]%insert_word_elem; [by apply word_gt|].
    by eapply Forall_forall in Hx.
Qed.
Lemma sorted_set_sorted l : StronglySorted word_lt (sorted_set l).
Proof. induction l as [|w l IH]; [constructor|]. by apply insert_word_sorted. Qed.

(** Two sorted sets with the same members are the same list. *)
Lemma sorted_unique l1 l2 : StronglySorted word_lt l1 -> StronglySorted word_lt l2 ->
  (forall x, x ∈ l1 <-> x ∈ l2) -> l1 = l2.
Proof.
  intros H1. revert l2. induction H1 as [|x l1 Hl1 IH Hx]; intros l2 H2 Heq.
  - destruct l2 as [|y l2]; [done|]. exfalso. eapply elem_of_nil, (Heq y), list_elem_of_here.
  - destruct H2 as [|y l2 Hl2 Hy]; [exfalso; eapply elem_of_nil, (Heq x), list_elem_of_here|].
    rewrite Forall_forall in Hx, Hy.
    assert (x = y) as ->.
    { pose proof (proj1 (Heq x)) as Hxy. pose proof (proj2 (Heq y)) as Hyx.
      destruct (proj1 (elem_of_cons l2 x y)) as [|Hx2]; [apply Hxy, list_elem_of_here|done|].
      destruct (proj1 (elem_of_cons l1 y x)) as [|Hy2]; [apply Hyx, list_elem_of_here|done|].
      exfalso. apply (word_lt_irrefl x). transitivity y; auto. }
    f_equal. apply IH; [done|]. intros z. pose proof (Heq z) as Hz. rewrite !elem_of_cons in Hz.
    split; intros Hin.
    + destruct Hz as [Hz _]. destruct Hz as [->|]; [by right| |done]. exfalso. eapply word_lt_irrefl; eauto.
    + destruct Hz as [_ Hz]. destruct Hz as [->|]; [by right| |done]. exfalso. eapply word_lt_irrefl; eauto.
Qed.

Lemma sorted_set_ext l1 l2 : (forall x, x ∈ l1 <-> x ∈ l2) -> sorted_set l1 = sorted_set l2.
Proof.
  intros H. apply sorted_unique; [apply sorted_set_sorted..|]. intros x. by rewrite !sorted_set_elem.
Qed.
