(* ===== verification/Json.v ===== *)
(** * Json: the [json] values, printer and parser the code stores its records with

    [dumps] is [json.dumps(..., ensure_ascii=False)] with the separators the code passes
    ([Spaced] is the default, [Compact] is [separators=(",", ":")]), [sort_keys] is the
    keyword of the same name and [canonical] the [_canonical] of ledger/store.py.
    [loads] is [json.loads]: objects keep the last of two equal keys, and a number with
    a fraction or an exponent stays the token it was read as ([JFloat]).  The round trip
    [loads_dumps] is what every codec in the development rests on. *)
From Stdlib Require Import ZArith NArith Ascii String Lia ZifyBool ZifyN ZifyNat.
From stdpp Require Import base list numbers strings.
From S2P Require Import Prelude Text.
#[local] Open Scope N_scope.

#[warnings="-register-all"]
Inductive json : Type :=
  | JNull
  | JBool (b : bool)
  | JInt (z : Z)
  | JFloat (text : string)
  | JStr (s : string)
  | JArr (l : list json)
  | JObj (kv : list (string * json)).

(** Structural induction through the nested lists. *)
Section json_ind.
Variable P : json -> Prop.
Hypothesis Hnull : P JNull.
Hypothesis Hbool : forall b, P (JBool b).
Hypothesis Hint : forall z, P (JInt z).
Hypothesis Hfloat : forall t, P (JFloat t).
Hypothesis Hstr : forall s, P (JStr s).
Hypothesis Harr : forall l, Forall P l -> P (JArr l).
Hypothesis Hobj : forall kv, Forall (fun p => P p.2) kv -> P (JObj kv).
Fixpoint json_ind' (v : json) : P v :=
  match v with
  | JNull => Hnull
  | JBool b => Hbool b
  | JInt z => Hint z
  | JFloat t => Hfloat t
  | JStr s => Hstr s
  | JArr l => Harr l ((fix go l := match l return Forall P l with
                       | [] => Forall_nil_2 P
                       | x :: l' => Forall_cons_2 P x l' (json_ind' x) (go l')
                       end) l)
  | JObj kv => Hobj kv ((fix go l := match l return Forall (fun p => P p.2) l with
                       | [] => Forall_nil_2 _
                       | x :: l' => Forall_cons_2 (fun p => P p.2) x l' (json_ind' x.2) (go l')
                       end) kv)
  end.
End json_ind.

Definition json_eq_dec_aux : forall a b : json, {a = b} + {a <> b}.
Proof.
  fix go 1. intros a b.
  pose proof (list_eq_dec (dec := go)) as Hl.
  assert (Hp : EqDecision (string * json)).
  { intros [k v] [k' v']. destruct (decide (k = k')) as [->|], (go v v') as [->|];
      (left; congruence) || (right; congruence). }
  pose proof (list_eq_dec (dec := Hp)) as Hkv.
  destruct a, b; try (right; congruence).
  - by left.
  - destruct (decide (b0 = b)) as [->|]; [by left | right; congruence].
  - destruct (decide (z = z0)) as [->|]; [by left | right; congruence].
  - destruct (decide (text = text0)) as [->|]; [by left | right; congruence].
  - destruct (decide (s = s0)) as [->|]; [by left | right; congruence].
  - destruct (Hl l l0) as [->|]; [by left | right; congruence].
  - destruct (Hkv kv kv0) as [->|]; [by left | right; congruence].
Defined.
#[export] Instance json_eq_dec : EqDecision json := json_eq_dec_aux.

(** ** Printing *)
Inductive style := Compact | Spaced.
Definition sep_tail (st : style) : bytes :=
  match st with Compact => [] | Spaced => [" "%char] end.
Definition item_sep (st : style) : bytes := ","%char :: sep_tail st.
Definition key_sep (st : style) : bytes := ":"%char :: sep_tail st.

Definition dquote : ascii := chr 34.
Definition backslash : ascii := chr 92.

(** The escapes of [json.dumps] with [ensure_ascii=False]. *)
Definition escape_char (c : ascii) : bytes :=
  let n := code c in
  if n =? 34 then [backslash; dquote]
  else if n =? 92 then [backslash; backslash]
  else if n =? 10 then [backslash; "n"%char]
  else if n =? 13 then [backslash; "r"%char]
  else if n =? 9 then [backslash; "t"%char]
  else if n =? 12 then [backslash; "f"%char]
  else if n =? 8 then [backslash; "b"%char]
  else if n <? 32 then backslash :: "u"%char :: "0"%char :: "0"%char :: hex_of_byte c
  else [c].
Definition quote_str (s : string) : bytes :=
  dquote :: flat_map escape_char (enc s) ++ [dquote].

Fixpoint join (sep : bytes) (l : list bytes) : bytes :=
  match l with
  | [] => []
  | [x] => x
  | x :: l' => x ++ sep ++ join sep l'
  end.

Fixpoint dumps (st : style) (v : json) : bytes :=
  match v with
  | JNull => enc "null"
  | JBool true => enc "true"
  | JBool false => enc "false"
  | JInt z => Z_text z
  | JFloat t => enc t
  | JStr s => quote_str s
  | JArr l => "["%char :: join (item_sep st) (List.map (dumps st) l) ++ ["]"%char]
  | JObj kv => "{"%char ::
      join (item_sep st)
        (List.map (fun p => quote_str p.1 ++ key_sep st ++ dumps st p.2) kv) ++ ["}"%char]
  end.

(** [sort_keys=True], applied at every depth. *)
Fixpoint insert_key {A} (p : string * A) (kv : list (string * A)) : list (string * A) :=
  match kv with
  | [] => [p]
  | q :: kv' => if String.leb p.1 q.1 then p :: kv else q :: insert_key p kv'
  end.
Definition sort_items {A} (kv : list (string * A)) : list (string * A) :=
  fold_right insert_key [] kv.
Fixpoint sort_keys (v : json) : json :=
  match v with
  | JArr l => JArr (List.map sort_keys l)
  | JObj kv => JObj (sort_items (List.map (fun p => (p.1, sort_keys p.2)) kv))
  | _ => v
  end.

(** [_canonical] of ledger/store.py. *)
Definition canonical (v : json) : bytes := dumps Compact (sort_keys v).

(** ** Parsing *)

(** UTF-8 encoding of a code point (surrogates as [surrogatepass] writes them). *)
Definition utf8 (n : N) : bytes :=
  if n <? 128 then [chr n]
  else if n <? 2048 then [chr (192 + n / 64); chr (128 + n mod 64)]
  else if n <? 65536 then
    [chr (224 + n / 4096); chr (128 + (n / 64) mod 64); chr (128 + n mod 64)]
  else [chr (240 + n / 262144); chr (128 + (n / 4096) mod 64);
        chr (128 + (n / 64) mod 64); chr (128 + n mod 64)].

Definition hex4 (a b c d : ascii) : option N :=
  match hex_val a, hex_val b, hex_val c, hex_val d with
  | Some w, Some x, Some y, Some z => Some (w * 4096 + x * 256 + y * 16 + z)
  | _, _, _, _ => None
  end.

Definition simple_escape (e : ascii) : option ascii :=
  let n := code e in
  if n =? 34 then Some dquote
  else if n =? 92 then Some backslash
  else if n =? 47 then Some "/"%char
  else if n =? 98 then Some (chr 8)
  else if n =? 102 then Some (chr 12)
  else if n =? 110 then Some (chr 10)
  else if n =? 114 then Some (chr 13)
  else if n =? 116 then Some (chr 9)
  else None.

Definition prepend (p : bytes) (o : option (bytes * bytes)) : option (bytes * bytes) :=
  match o with Some (a, r) => Some (p ++ a, r) | None => None end.

(** The text of a string after its opening quote, and what follows its closing one. *)
Fixpoint parse_str (l : bytes) : option (bytes * bytes) :=
  match l with
  | [] => None
  | c :: r =>
    if code c =? 34 then Some ([], r)
    else if code c =? 92 then
      match r with
      | [] => None
      | e :: r1 =>
        match simple_escape e with
        | Some b => prepend [b] (parse_str r1)
        | None =>
          if code e =? 117 then
            match r1 with
            | h1 :: h2 :: h3 :: h4 :: r2 =>
              match hex4 h1 h2 h3 h4 with
              | None => None
              | Some n =>
                if (55296 <=? n) && (n <? 56320) then
                  match r2 with
                  | b :: u :: g1 :: g2 :: g3 :: g4 :: r3 =>
                    match hex4 g1 g2 g3 g4 with
                    | Some m =>
                      if (code b =? 92) && (code u =? 117) && (56320 <=? m) && (m <? 57344)
                      then prepend (utf8 (65536 + (n - 55296) * 1024 + (m - 56320)))
                                   (parse_str r3)
                      else prepend (utf8 n) (parse_str r2)
                    | None => prepend (utf8 n) (parse_str r2)
                    end
                  | _ => prepend (utf8 n) (parse_str r2)
                  end
                else prepend (utf8 n) (parse_str r2)
              end
            | _ => None
            end
          else None
        end
      end
    else if code c <? 32 then None
    else prepend [c] (parse_str r)
  end.

(** The number token of the [json] scanner: sign, integer part, fraction, exponent. *)
Definition lex_int (l : bytes) : option (bytes * bytes) :=
  match span is_digit l with
  | ([], _) => None
  | (d :: ds, r) => if code d =? 48 then Some ([d], ds ++ r) else Some (d :: ds, r)
  end.
Definition lex_frac (l : bytes) : bytes * bytes :=
  match l with
  | c :: l' => if code c =? 46 then
                 match span is_digit l' with
                 | ([], _) => ([], l)
                 | (ds, r) => (c :: ds, r)
                 end
               else ([], l)
  | [] => ([], [])
  end.
Definition is_sign (c : ascii) : bool := (code c =? 43) || (code c =? 45).
Definition lex_sign (l : bytes) : bytes * bytes :=
  match l with
  | s :: l' => if is_sign s then ([s], l') else ([], l)
  | [] => ([], [])
  end.
Definition lex_exp (l : bytes) : bytes * bytes :=
  match l with
  | c :: l' => if (code c =? 101) || (code c =? 69) then
                 let '(sg, l2) := lex_sign l' in
                 match span is_digit l2 with
                 | ([], _) => ([], l)
                 | (ds, r) => (c :: sg ++ ds, r)
                 end
               else ([], l)
  | [] => ([], [])
  end.
Definition lex_neg (l : bytes) : bool * bytes :=
  match l with
  | c :: l' => if code c =? 45 then (true, l') else (false, l)
  | [] => (false, [])
  end.
Definition signed_value (neg : bool) (ip : bytes) : Z :=
  let n := Z.of_N (value_of_digits ip) in if neg then Z.opp n else n.
Definition lex_number (l : bytes) : option (json * bytes) :=
  let '(neg, l1) := lex_neg l in
  match lex_int l1 with
  | None => None
  | Some (ip, r) =>
    let '(fp, r1) := lex_frac r in
    let '(ep, r2) := lex_exp r1 in
    match fp, ep with
    | [], [] => Some (JInt (signed_value neg ip), r2)
    | _, _ => Some (JFloat (dec ((if neg then ["-"%char] else []) ++ ip ++ fp ++ ep)), r2)
    end
  end.

(** [dict] insertion: a repeated key keeps its place and takes the later value. *)
Fixpoint dict_set {A} (kv : list (string * A)) (k : string) (v : A) : list (string * A) :=
  match kv with
  | [] => [(k, v)]
  | (k', v') :: kv' => if String.eqb k k' then (k', v) :: kv' else (k', v') :: dict_set kv' k v
  end.
Definition dict_of {A} (l : list (string * A)) : list (string * A) :=
  fold_left (fun d p => dict_set d p.1 p.2) l [].
Fixpoint dict_get {A} (kv : list (string * A)) (k : string) : option A :=
  match kv with
  | [] => None
  | (k', v') :: kv' => if String.eqb k k' then Some v' else dict_get kv' k
  end.

Definition is_ws (c : ascii) : bool :=
  (code c =? 32) || (code c =? 9) || (code c =? 10) || (code c =? 13).
Definition skip_ws (l : bytes) : bytes := snd (span is_ws l).

Definition literal (l : bytes) : option (json * bytes) :=
  match starts_with (enc "null") l with
  | Some r => Some (JNull, r)
  | None => match starts_with (enc "true") l with
  | Some r => Some (JBool true, r)
  | None => match starts_with (enc "false") l with
  | Some r => Some (JBool false, r)
  | None => match starts_with (enc "NaN") l with
  | Some r => Some (JFloat "NaN", r)
  | None => match starts_with (enc "Infinity") l with
  | Some r => Some (JFloat "Infinity", r)
  | None => match starts_with (enc "-Infinity") l with
  | Some r => Some (JFloat "-Infinity", r)
  | None => lex_number l
  end end end end end end.

Fixpoint parse_value (fuel : nat) (l : bytes) : option (json * bytes) :=
  match fuel with
  | O => None
  | S f =>
    match l with
    | [] => None
    | c :: r =>
      if code c =? 34 then
        match parse_str r with Some (s, r') => Some (JStr (dec s), r') | None => None end
      else if code c =? 91 then
        match skip_ws r with
        | c' :: r' =>
          if code c' =? 93 then Some (JArr [], r')
          else match parse_elems f (c' :: r') with
               | Some (vs, r'') => Some (JArr vs, r'')
               | None => None
               end
        | [] => None
        end
      else if code c =? 123 then
        match skip_ws r with
        | c' :: r' =>
          if code c' =? 125 then Some (JObj [], r')
          else match parse_members f (c' :: r') with
               | Some (kvs, r'') => Some (JObj (dict_of kvs), r'')
               | None => None
               end
        | [] => None
        end
      else literal l
    end
  end
with parse_elems (fuel : nat) (l : bytes) : option (list json * bytes) :=
  match fuel with
  | O => None
  | S f =>
    match parse_value f l with
    | None => None
    | Some (v, r) =>
      match skip_ws r with
      | c :: r' =>
        if code c =? 93 then Some ([v], r')
        else if code c =? 44 then
          match parse_elems f (skip_ws r') with
          | Some (vs, r'') => Some (v :: vs, r'')
          | None => None
          end
        else None
      | [] => None
      end
    end
  end
with parse_members (fuel : nat) (l : bytes) : option (list (string * json) * bytes) :=
  match fuel with
  | O => None
  | S f =>
    match l with
    | c :: r =>
      if code c =? 34 then
        match parse_str r with
        | None => None
        | Some (k, r1) =>
          match skip_ws r1 with
          | c1 :: r2 =>
            if code c1 =? 58 then
              match parse_value f (skip_ws r2) with
              | None => None
              | Some (v, r3) =>
                match skip_ws r3 with
                | c3 :: r4 =>
                  if code c3 =? 125 then Some ([(dec k, v)], r4)
                  else if code c3 =? 44 then
                    match parse_members f (skip_ws r4) with
                    | Some (kvs, r5) => Some ((dec k, v) :: kvs, r5)
                    | None => None
                    end
                  else None
                | [] => None
                end
              end
            else None
          | [] => None
          end
        end
      else None
    | [] => None
    end
  end.

(** [json.loads]. *)
Definition loads (l : bytes) : res json :=
  match parse_value (S (length l)) (skip_ws l) with
  | Some (v, r) => match skip_ws r with [] => Ok v | _ => Raise JSONDecodeError end
  | None => Raise JSONDecodeError
  end.

(** ** The round trip *)

Lemma span_stable f l x y rest :
  span f l = (x, y) -> stops f rest -> span f (l ++ rest) = (x, y ++ rest).
Proof.
  intros H Hr. apply span_spec in H as (-> & Hx & Hy).
  rewrite <- app_assoc. apply span_app; [done|].
  destruct y; simpl in *; done.
Qed.

(** What may follow a number token without being read into it. *)
Definition num_char (c : ascii) : bool :=
  is_digit c || (code c =? 46) || (code c =? 101) || (code c =? 69)
  || (code c =? 43) || (code c =? 45).

Lemma stops_digit rest : stops num_char rest -> stops is_digit rest.
Proof. destruct rest as [|c r]; simpl; [done|]. unfold num_char. destruct (is_digit c); done. Qed.

Lemma lex_frac_stable l x y rest :
  lex_frac l = (x, y) -> stops num_char rest -> lex_frac (l ++ rest) = (x, y ++ rest).
Proof.
  intros H Hr. destruct l as [|c l]; simpl in *.
  - inv H. destruct rest as [|c r]; [done|]. simpl in *. unfold num_char in Hr.
    destruct (code c =? 46) eqn:E; [|done]. rewrite !orb_true_r in Hr. done.
  - destruct (code c =? 46); [|by inv H].
    destruct (span is_digit l) as [ds r] eqn:E.
    erewrite span_stable by (eauto using stops_digit).
    destruct ds; by inv H.
Qed.

Lemma lex_sign_stable l x y rest :
  lex_sign l = (x, y) -> stops num_char rest -> lex_sign (l ++ rest) = (x, y ++ rest).
Proof.
  intros H Hr. destruct l as [|c l]; simpl in *.
  - inv H. destruct rest as [|c r]; [done|]. simpl in *. unfold num_char, is_sign in *.
    destruct (code c =? 43), (code c =? 45); simpl; try done; rewrite ?orb_true_r in Hr; done.
  - destruct (is_sign c); by inv H.
Qed.

Lemma lex_exp_stable l x y rest :
  lex_exp l = (x, y) -> stops num_char rest -> lex_exp (l ++ rest) = (x, y ++ rest).
Proof.
  intros H Hr. destruct l as [|c l]; simpl in *.
  - inv H. destruct rest as [|c r]; [done|]. simpl in *. unfold num_char in Hr.
    destruct (code c =? 101), (code c =? 69); simpl; try done;
      rewrite ?orb_true_r in Hr; done.
  - destruct ((code c =? 101) || (code c =? 69)); [|by inv H].
    destruct (lex_sign l) as [sg l2] eqn:Es. erewrite lex_sign_stable by eauto.
    destruct (span is_digit l2) as [ds r] eqn:E.
    erewrite span_stable by (eauto using stops_digit).
    destruct ds; by inv H.
Qed.

Lemma lex_int_stable l x y rest :
  lex_int l = Some (x, y) -> stops num_char rest -> lex_int (l ++ rest) = Some (x, y ++ rest).
Proof.
  intros H Hr. unfold lex_int in *. destruct (span is_digit l) as [ds r] eqn:E.
  erewrite span_stable by (eauto using stops_digit).
  destruct ds as [|d ds]; [done|]. destruct (code d =? 48); inv H; by rewrite <- ?app_assoc.
Qed.

Lemma lex_number_stable l v r rest :
  lex_number l = Some (v, r) -> stops num_char rest ->
  lex_number (l ++ rest) = Some (v, r ++ rest).
Proof.
  intros H Hr. unfold lex_number in *.
  destruct l as [|c l]; [done|].
  assert (Hn : lex_neg ((c :: l) ++ rest) =
               ((lex_neg (c :: l)).1, (lex_neg (c :: l)).2 ++ rest)).
  { simpl. by destruct (code c =? 45). }
  rewrite Hn. destruct (lex_neg (c :: l)) as [neg l1]; simpl.
  destruct (lex_int l1) as [[ip r0]|] eqn:E1; [|done].
  rewrite (lex_int_stable _ _ _ _ E1 Hr).
  destruct (lex_frac r0) as [fp r1] eqn:E2. rewrite (lex_frac_stable _ _ _ _ E2 Hr).
  destruct (lex_exp r1) as [ep r2] eqn:E3. rewrite (lex_exp_stable _ _ _ _ E3 Hr).
  destruct fp, ep; by inv H.
Qed.

Lemma code_zero c : code c = 48 -> c = "0"%char.
Proof. intros H. rewrite <- (chr_code c), H. reflexivity. Qed.

Lemma lex_int_digits n : lex_int (digits_of_N n) = Some (digits_of_N n, []).
Proof.
  unfold lex_int. rewrite <- (app_nil_r (digits_of_N n)) at 1.
  rewrite span_app by (simpl; auto using digits_all).
  destruct (digits_of_N n) as [|d ds] eqn:E; [by apply digits_nonempty in E|].
  destruct (N.eqb_spec (code d) 48) as [Hd|]; [|done].
  apply code_zero in Hd. pose proof (digits_head n d ds E Hd) as ->.
  rewrite digits_of_0 in E. by inv E.
Qed.

Lemma digit_not_minus n : lex_neg (digits_of_N n) = (false, digits_of_N n).
Proof.
  pose proof (digits_all n) as H. destruct (digits_of_N n) as [|c l]; simpl; [done|].
  inv H. destruct (N.eqb_spec (code c) 45); [|done].
  unfold is_digit in *. lia.
Qed.

Lemma lex_number_Z z : lex_number (Z_text z) = Some (JInt z, []).
Proof.
  unfold lex_number.
  assert (Hp : forall neg n, (match lex_int (digits_of_N n) with
    | None => None
    | Some (ip, r) =>
      let '(fp, r1) := lex_frac r in
      let '(ep, r2) := lex_exp r1 in
      match fp, ep with
      | [], [] => Some (JInt (signed_value neg ip), r2)
      | _, _ => Some (JFloat (dec ((if neg then ["-"%char] else []) ++ ip ++ fp ++ ep)), r2)
      end
    end) = Some (JInt (if neg : bool then Z.opp (Z.of_N n) else Z.of_N n), [])).
  { intros neg n. rewrite lex_int_digits. simpl. unfold signed_value.
    by rewrite value_digits. }
  destruct z as [|p|p]; unfold Z_text; simpl Z.to_N;
    try (rewrite digit_not_minus; cbv beta iota; rewrite Hp; done).
  change (lex_neg ("-"%char :: digits_of_N (N.pos p))) with (true, digits_of_N (N.pos p)).
  cbv beta iota. rewrite Hp. done.
Qed.

Lemma literal_number l v r : lex_number l = Some (v, r) -> literal l = Some (v, r).
Proof.
  intros H. unfold literal.
  repeat match goal with
  | |- context [starts_with ?p l] =>
      let Hs := fresh in destruct (starts_with p l) eqn:Hs;
      [apply starts_with_Some in Hs; subst l; lazy in H; discriminate H|]
  end. done.
Qed.

Lemma lex_number_head c l v r :
  lex_number (c :: l) = Some (v, r) -> code c <> 34 /\ code c <> 91 /\ code c <> 123.
Proof.
  intros H. repeat split; intros Hc; revert H;
    unfold lex_number; simpl; rewrite Hc; simpl; unfold lex_int; simpl;
    unfold is_digit; rewrite Hc; done.
Qed.

Lemma parse_number f l v r rest :
  lex_number l = Some (v, r) -> stops num_char rest ->
  parse_value (S f) (l ++ rest) = Some (v, r ++ rest).
Proof.
  intros H Hr. destruct l as [|c l]; [done|].
  pose proof (lex_number_head _ _ _ _ H) as (H1 & H2 & H3).
  apply (lex_number_stable _ _ _ rest) in H; [|done].
  apply literal_number in H. simpl app in *. simpl.
  destruct (N.eqb_spec (code c) 34), (N.eqb_spec (code c) 91), (N.eqb_spec (code c) 123);
    try lia; done.
Qed.

Lemma prepend_some p a r : prepend p (Some (a, r)) = Some (p ++ a, r).
Proof. done. Qed.

Ltac code_cases c :=
  repeat match goal with
  | |- context [N.eqb (code c) ?k] => destruct (N.eqb_spec (code c) k) as [?Hc|?Hc]
  | |- context [N.ltb (code c) ?k] => destruct (N.ltb_spec (code c) k) as [?Hc|?Hc]
  end.

(** A character is known from its code. *)
Lemma code_eq c n : code c = n -> c = chr n.
Proof. intros <-. by rewrite chr_code. Qed.

Lemma parse_str_escape c l :
  parse_str (escape_char c ++ l) = prepend [c] (parse_str l).
Proof.
  unfold escape_char. code_cases c;
    try (rewrite (code_eq c _ ltac:(eassumption)); reflexivity).
  - (* control characters are written as four hexadecimal digits *)
    assert (Hh : exists d, c = chr d /\ d < 32).
    { exists (code c). rewrite chr_code. auto. }
    destruct Hh as (d & -> & Hd).
    unfold hex_of_byte. rewrite code_chr by lia. simpl.
    unfold hex4. rewrite !hex_char_val by
      (try apply N.mod_upper_bound; try (apply N.Div0.div_lt_upper_bound); lia).
    change (hex_val "0"%char) with (Some 0). simpl.
    replace (0 * 4096 + 0 * 256 + d / 16 * 16 + d mod 16) with d by (pose proof (N.div_mod d 16); lia).
    replace ((55296 <=? d) && (d <? 56320)) with false by lia.
    unfold utf8. replace (d <? 128) with true by lia. done.
  - simpl. code_cases c; try lia. done.
Qed.

Lemma parse_str_quote s rest :
  parse_str (flat_map escape_char s ++ dquote :: rest) = Some (s, rest).
Proof.
  induction s as [|c s IH]; simpl; [done|].
  rewrite <- app_assoc, parse_str_escape, IH. done.
Qed.

Lemma parse_value_str f s rest :
  parse_value (S f) (quote_str s ++ rest) = Some (JStr s, rest).
Proof.
  unfold quote_str. simpl. rewrite <- app_assoc. simpl.
  rewrite parse_str_quote, dec_enc. done.
Qed.

(** Values whose text reads back: distinct keys in every object, floats that are float
    tokens. *)
Fixpoint wf_json (v : json) : Prop :=
  match v with
  | JFloat t => lex_number (enc t) = Some (JFloat t, [])
  | JArr l => fold_right (fun v P => wf_json v /\ P) True l
  | JObj kv => NoDup kv.*1 /\ fold_right (fun p P => wf_json p.2 /\ P) True kv
  | _ => True
  end.

Lemma wf_arr l : wf_json (JArr l) <-> Forall wf_json l.
Proof.
  simpl. induction l as [|v l IH]; simpl; [by split|].
  rewrite Forall_cons, <- IH. done.
Qed.
Lemma wf_obj kv : wf_json (JObj kv) <-> NoDup kv.*1 /\ Forall (fun p => wf_json p.2) kv.
Proof.
  simpl. assert (Hf : fold_right (fun p P => wf_json p.2 /\ P) True kv
                      <-> Forall (fun p => wf_json p.2) kv).
  { induction kv as [|p kv IH]; simpl; [by split|]. by rewrite Forall_cons, <- IH. }
  tauto.
Qed.

(** Fuel that a value's text needs. *)
Fixpoint jsize (v : json) : nat :=
  match v with
  | JArr l => S (fold_right (fun v n => S (jsize v + n)) O l)
  | JObj kv => S (fold_right (fun p n => S (jsize p.2 + n)) O kv)
  | _ => 1
  end.

Definition parses_back (st : style) (v : json) : Prop :=
  forall f rest, (jsize v <= f)%nat -> stops num_char rest ->
  parse_value f (dumps st v ++ rest) = Some (v, rest).

Lemma skip_ws_sep st c l : is_ws c = false -> skip_ws (sep_tail st ++ c :: l) = c :: l.
Proof. intros H. destruct st; unfold skip_ws; simpl; rewrite H; done. Qed.

Lemma skip_ws_non c l : is_ws c = false -> skip_ws (c :: l) = c :: l.
Proof. intros H. unfold skip_ws. simpl. by rewrite H. Qed.

Lemma join_cons sep x l : l <> [] -> join sep (x :: l) = x ++ sep ++ join sep l.
Proof. by destruct l. Qed.

(** The first byte of a printed value is neither white space nor a closing bracket. *)
Lemma dumps_head st v : wf_json v ->
  exists c l, dumps st v = c :: l /\ is_ws c = false /\ code c <> 93 /\ code c <> 125.
Proof.
  assert (Hnum : forall l w, lex_number l = Some (w, []) ->
    exists c l', l = c :: l' /\ is_ws c = false /\ code c <> 93 /\ code c <> 125).
  { intros [|c l] w H; [done|]. exists c, l. split; [done|]. revert H.
    unfold lex_number, lex_neg. destruct (N.eqb_spec (code c) 45) as [Hc|Hc].
    - intros _. unfold is_ws. rewrite Hc. repeat split; try done; lia.
    - unfold lex_int. simpl. destruct (is_digit c) eqn:Hd; [|done]. intros _.
      unfold is_digit, is_ws in *. repeat split; lia. }
  intros Hwf. destruct v as [|[]|z|t|s|l|kv]; simpl;
    try (eexists _, _; repeat split; [reflexivity..|by intros ?|by intros ?]; fail).
  - apply (Hnum _ _ (lex_number_Z z)).
  - apply (Hnum _ _ Hwf).
Qed.

(** A separated list starts as its first item does. *)
Lemma join_head sep x c t l : x = c :: t -> exists t', join sep (x :: l) = c :: t'.
Proof. intros ->. destruct l; simpl; eauto. Qed.

Lemma skip_sep_items st x l c t rest :
  x = c :: t -> is_ws c = false ->
  skip_ws (sep_tail st ++ join (item_sep st) (x :: l) ++ rest)
  = join (item_sep st) (x :: l) ++ rest.
Proof.
  intros Hx Hc. destruct (join_head (item_sep st) x c t l Hx) as [t' ->].
  by apply skip_ws_sep.
Qed.

Lemma elems_back st l f rest :
  Forall wf_json l -> Forall (parses_back st) l -> l <> [] ->
  (fold_right (fun v n => S (jsize v + n)) O l <= f)%nat ->
  parse_elems f (join (item_sep st) (List.map (dumps st) l) ++ "]"%char :: rest)
  = Some (l, rest).
Proof.
  revert f; induction l as [|v l IH]; intros f Hwf Hp Hne Hf; [done|].
  inv Hwf. inv Hp. destruct f as [|f]; [simpl in Hf; lia|].
  destruct l as [|w l].
  - simpl. simpl in Hf. rewrite H3 by (done || lia). simpl. done.
  - cbn [List.map]. rewrite join_cons, <- !app_assoc by done.
    cbn [parse_elems]. simpl in Hf. rewrite H3 by (done || lia).
    unfold item_sep at 1. cbn [app]. rewrite (skip_ws_non ","%char) by done.
    change (code ","%char =? 93) with false.
    change (code ","%char =? 44) with true. cbv beta iota.
    destruct (dumps_head st w) as (c & t & Ec & Hc & _); [by inv H2|].
    rewrite (skip_sep_items st _ _ c t) by done.
    change (dumps st w :: List.map (dumps st) l) with (List.map (dumps st) (w :: l)).
    rewrite IH; try done. simpl; lia.
Qed.

Lemma members_back st kv f rest :
  Forall (fun p => wf_json p.2) kv -> Forall (fun p => parses_back st p.2) kv -> kv <> [] ->
  (fold_right (fun p n => S (jsize p.2 + n)) O kv <= f)%nat ->
  parse_members f (join (item_sep st)
    (List.map (fun p => quote_str p.1 ++ key_sep st ++ dumps st p.2) kv) ++ "}"%char :: rest)
  = Some (kv, rest).
Proof.
  revert f; induction kv as [|[k v] kv IH]; intros f Hwf Hp Hne Hf; [done|].
  inv Hwf. inv Hp. destruct f as [|f]; [simpl in Hf; lia|]. simpl in H1, H3.
  set (after := match kv with
                | [] => "}"%char :: rest
                | _ => ","%char :: sep_tail st ++ join (item_sep st)
                    (List.map (fun p => quote_str p.1 ++ key_sep st ++ dumps st p.2) kv)
                    ++ "}"%char :: rest
                end).
  assert (Eg : join (item_sep st)
      (List.map (fun p => quote_str p.1 ++ key_sep st ++ dumps st p.2) ((k, v) :: kv))
      ++ "}"%char :: rest
    = dquote :: flat_map escape_char (enc k) ++ dquote :: ":"%char :: sep_tail st
      ++ dumps st v ++ after).
  { unfold after. destruct kv as [|q kv].
    - simpl. unfold quote_str, key_sep. simpl. rewrite <- !app_assoc. simpl.
      by rewrite <- !app_assoc.
    - cbn [List.map]. rewrite join_cons by done. unfold quote_str at 1, key_sep at 1. simpl.
      rewrite <- !app_assoc. simpl. rewrite <- !app_assoc. done. }
  rewrite Eg. clear Eg. cbn [parse_members]. change (code dquote =? 34) with true. cbv beta iota.
  rewrite parse_str_quote. rewrite (skip_ws_non ":"%char) by done.
  change (code ":"%char =? 58) with true. cbv beta iota.
  destruct (dumps_head st v H1) as (c & t & Ec & Hc & _).
  assert (Es : skip_ws (sep_tail st ++ dumps st v ++ after) = dumps st v ++ after).
  { rewrite Ec. by apply skip_ws_sep. }
  rewrite Es. simpl in Hf. rewrite H3 by (lia || (unfold after; by destruct kv)).
  unfold after. destruct kv as [|q kv].
  - rewrite skip_ws_non by done. change (code "}"%char =? 125) with true. by rewrite dec_enc.
  - rewrite skip_ws_non by done. change (code ","%char =? 125) with false.
    change (code ","%char =? 44) with true. cbv beta iota. cbn [List.map].
    rewrite (skip_sep_items st _ _ dquote
      (flat_map escape_char (enc q.1) ++ [dquote] ++ key_sep st ++ dumps st q.2))
      by (try done; unfold quote_str; simpl; by rewrite <- app_assoc).
    pose proof (IH f H2 H4 ltac:(done) ltac:(simpl in *; lia)) as IH'. cbn [List.map] in IH'.
    rewrite IH'. by rewrite dec_enc.
Qed.

Lemma dict_set_fresh {A} (d : list (string * A)) k v : k ∉ d.*1 -> dict_set d k v = d ++ [(k, v)].
Proof.
  induction d as [|[k' v'] d IH]; simpl; intros H; [done|].
  apply not_elem_of_cons in H as [Hk H]. apply String.eqb_neq in Hk. rewrite Hk. by rewrite IH.
Qed.

Lemma dict_of_nodup {A} (l : list (string * A)) : NoDup l.*1 -> dict_of l = l.
Proof.
  intros H. unfold dict_of.
  assert (Hg : forall d, NoDup (d ++ l).*1 ->
    fold_left (fun d p => dict_set d p.1 p.2) l d = d ++ l).
  { clear H. induction l as [|[k v] l IH]; intros d H; simpl; [by rewrite app_nil_r|].
    rewrite dict_set_fresh.
    - rewrite IH; rewrite <- app_assoc; done.
    - rewrite fmap_app in H. apply NoDup_app in H as (_ & H & _). simpl in H.
      intros Hk. apply (H k Hk). by left. }
  by apply (Hg []).
Qed.

#[global] Arguments quote_str : simpl never.
#[global] Arguments key_sep : simpl never.

(** Every well-formed value reads back from its own text, whatever follows it. *)
Lemma dumps_back st v : wf_json v -> parses_back st v.
Proof.
  induction v as [|b|z|t|s|l IH|kv IH] using json_ind'; intros Hwf f rest Hf Hr;
    (destruct f as [|f]; [simpl in Hf; lia|]).
  - reflexivity.
  - destruct b; reflexivity.
  - apply (parse_number f _ _ [] rest (lex_number_Z z) Hr).
  - apply (parse_number f _ _ [] rest Hwf Hr).
  - apply parse_value_str.
  - apply wf_arr in Hwf. simpl dumps. simpl app. rewrite <- app_assoc.
    cbn [parse_value]. change (code "["%char =? 34) with false.
    change (code "["%char =? 91) with true. cbv beta iota.
    destruct l as [|w l]; [reflexivity|].
    destruct (dumps_head st w) as (c & t & Ec & Hc & H93 & _); [by inv Hwf|].
    assert (HE : parse_elems f (join (item_sep st) (List.map (dumps st) (w :: l))
        ++ "]"%char :: rest) = Some (w :: l, rest)).
    { apply elems_back; try done; [|simpl in Hf; simpl; lia].
      clear -IH Hwf. induction IH; inv Hwf; constructor; auto. }
    destruct (join_head (item_sep st) _ c t (List.map (dumps st) l) Ec) as [t' Ej].
    cbn [List.map] in HE |- *. rewrite Ej in HE |- *. simpl app in HE |- *.
    rewrite skip_ws_non by done. apply N.eqb_neq in H93. rewrite H93. by rewrite HE.
  - apply wf_obj in Hwf as [Hnd Hwf].
    change (dumps st (JObj kv) ++ rest) with ("{"%char :: (join (item_sep st)
      (List.map (fun p => quote_str p.1 ++ key_sep st ++ dumps st p.2) kv) ++ ["}"%char])
      ++ rest). rewrite <- app_assoc.
    cbn [parse_value]. change (code "{"%char =? 34) with false.
    change (code "{"%char =? 91) with false. change (code "{"%char =? 123) with true.
    cbv beta iota. destruct kv as [|w kv]; [reflexivity|].
    assert (HE : parse_members f (join (item_sep st)
        (List.map (fun p => quote_str p.1 ++ key_sep st ++ dumps st p.2) (w :: kv))
        ++ "}"%char :: rest) = Some (w :: kv, rest)).
    { apply members_back; try done; [|simpl in Hf; simpl; lia].
      clear -IH Hwf. induction IH; inv Hwf; constructor; auto. }
    assert (Ej : exists t', join (item_sep st) (List.map (fun p =>
        quote_str p.1 ++ key_sep st ++ dumps st p.2) (w :: kv)) = dquote :: t').
    { eapply join_head. unfold quote_str. simpl. reflexivity. }
    destruct Ej as [t' Ej]. rewrite Ej in HE |- *. cbn [app] in HE |- *.
    rewrite skip_ws_non by done. change (code dquote =? 125) with false. cbv beta iota.
    rewrite HE. by rewrite dict_of_nodup.
Qed.

(** The text of a value is at least as long as the fuel it needs. *)
Lemma join_length_elems st l :
  Forall (fun v => wf_json v -> (jsize v <= length (dumps st v))%nat) l ->
  Forall wf_json l ->
  (fold_right (fun v n => S (jsize v + n)) O l
   <= S (length (join (item_sep st) (List.map (dumps st) l))))%nat.
Proof.
  induction l as [|v l IH]; intros H Hwf; [simpl; lia|].
  apply Forall_cons in H as [Hv H]. apply Forall_cons in Hwf as [Hwv Hwf].
  specialize (IH H Hwf). specialize (Hv Hwv). destruct l as [|w l].
  - simpl in *. lia.
  - cbn [List.map]. rewrite join_cons, !length_app by done. unfold item_sep at 1.
    cbn [fold_right List.map] in IH |- *. cbn [length]. lia.
Qed.

Lemma join_length_members st (kv : list (string * json)) :
  Forall (fun p => wf_json p.2 -> (jsize p.2 <= length (dumps st p.2))%nat) kv ->
  Forall (fun p => wf_json p.2) kv ->
  (fold_right (fun p n => S (jsize p.2 + n)) O kv
   <= S (length (join (item_sep st)
          (List.map (fun p => quote_str p.1 ++ key_sep st ++ dumps st p.2) kv))))%nat.
Proof.
  induction kv as [|v l IH]; intros H Hwf; [simpl; lia|].
  apply Forall_cons in H as [Hv H]. apply Forall_cons in Hwf as [Hwv Hwf].
  specialize (IH H Hwf). specialize (Hv Hwv). destruct l as [|w l].
  - cbn [List.map join fold_right]. rewrite !length_app. lia.
  - cbn [List.map]. rewrite join_cons, !length_app by done. unfold item_sep at 1.
    cbn [fold_right List.map] in IH |- *. cbn [length]. rewrite ?length_app. lia.
Qed.

Lemma jsize_length st v : wf_json v -> (jsize v <= length (dumps st v))%nat.
Proof.
  induction v as [|b|z|t|s|l IH|kv IH] using json_ind'; intros Hwf.
  - simpl; lia.
  - destruct b; simpl; lia.
  - destruct (dumps_head st (JInt z)) as (c & x & -> & _); [done|]. simpl; lia.
  - destruct (dumps_head st (JFloat t)) as (c & x & -> & _); [done|]. simpl; lia.
  - simpl; lia.
  - apply wf_arr in Hwf. pose proof (join_length_elems st l IH Hwf).
    cbn [dumps jsize length]. rewrite length_app. cbn [length]. lia.
  - apply wf_obj in Hwf as [_ Hwf]. pose proof (join_length_members st kv IH Hwf).
    cbn [dumps jsize length]. rewrite length_app. cbn [length]. lia.
Qed.

Definition all_ws (l : bytes) : Prop := Forall (fun c => is_ws c = true) l.

Lemma skip_ws_all l : all_ws l -> skip_ws l = [].
Proof.
  intros H. unfold skip_ws. rewrite <- (app_nil_r l), span_app by (done || by simpl).
  reflexivity.
Qed.

(** [json.loads(json.dumps(v)) == v], with any white space after it. *)
Lemma loads_dumps_ws st v rest : wf_json v -> all_ws rest -> loads (dumps st v ++ rest) = Ok v.
Proof.
  intros Hwf Hr. unfold loads.
  destruct (dumps_head st v Hwf) as (c & t & Ec & Hc & _).
  assert (Hs : skip_ws (dumps st v ++ rest) = dumps st v ++ rest).
  { rewrite Ec. by apply skip_ws_non. }
  rewrite Hs, dumps_back; [by rewrite skip_ws_all|done| |].
  - rewrite length_app. pose proof (jsize_length st v Hwf). lia.
  - destruct rest as [|x r]; simpl; [done|]. inv Hr. unfold is_ws, num_char, is_digit in *. lia.
Qed.

Lemma loads_dumps st v : wf_json v -> loads (dumps st v) = Ok v.
Proof. intros H. rewrite <- (app_nil_r (dumps st v)). apply loads_dumps_ws; [done|constructor]. Qed.

Lemma dumps_inj st v w : wf_json v -> wf_json w -> dumps st v = dumps st w -> v = w.
Proof.
  intros Hv Hw H. apply (loads_dumps st) in Hv. apply (loads_dumps st) in Hw.
  rewrite H in Hv. congruence.
Qed.

(** ** Sorted keys *)
Lemma insert_key_perm {A} (p : string * A) kv : insert_key p kv ≡ₚ p :: kv.
Proof.
  induction kv as [|q kv IH]; simpl; [done|].
  destruct (String.leb p.1 q.1); [done|]. rewrite IH. apply Permutation_swap.
Qed.
Lemma sort_items_perm {A} (kv : list (string * A)) : sort_items kv ≡ₚ kv.
Proof. induction kv as [|p kv IH]; simpl; [done|]. by rewrite insert_key_perm, IH. Qed.

Lemma sort_keys_wf v : wf_json v -> wf_json (sort_keys v).
Proof.
  induction v as [|b|z|t|s|l IH|kv IH] using json_ind'; intros Hwf; try done.
  - cbn [sort_keys]. apply wf_arr. apply wf_arr in Hwf.
    induction IH; inv Hwf; simpl; constructor; auto.
  - cbn [sort_keys]. apply wf_obj. apply wf_obj in Hwf as [Hnd Hwf].
    rewrite !sort_items_perm. split.
    + assert (E : (List.map (fun p => (p.1, sort_keys p.2)) kv).*1 = kv.*1).
      { clear. induction kv as [|p kv IH]; simpl; [done|]. by f_equal. }
      by rewrite E.
    + clear Hnd. induction IH; inv Hwf; simpl; constructor; auto.
Qed.

(** Equal canonical texts come from values that differ in key order only. *)
Lemma canonical_inj v w : wf_json v -> wf_json w -> canonical v = canonical w ->
  sort_keys v = sort_keys w.
Proof. intros Hv Hw. apply dumps_inj; by apply sort_keys_wf. Qed.

(** Distinct literal keys. *)
Ltac nodup_keys := apply (bool_decide_unpack _); vm_compute; exact I.

(** ** Python operations on parsed values *)

(** [v[k]]: a missing key is a [KeyError], anything but a [dict] a [TypeError]. *)
Definition py_getitem (v : json) (k : string) : res json :=
  match v with
  | JObj kv => match dict_get kv k with Some x => Ok x | None => Raise KeyError end
  | _ => Raise TypeError
  end.
(** [v.get(k, d)]: only a [dict] has it. *)
Definition py_get_default (v : json) (k : string) (d : json) : res json :=
  match v with
  | JObj kv => match dict_get kv k with Some x => Ok x | None => Ok d end
  | _ => Raise AttributeError
  end.
Definition py_get (v : json) (k : string) : res json := py_get_default v k JNull.

(** [bool(v)]; a float token counts as true unless it is a zero literal. *)
Definition py_truthy (v : json) : bool :=
  match v with
  | JNull => false
  | JBool b => b
  | JInt z => negb (bool_decide (z = 0%Z))
  | JFloat t => negb (String.eqb t "0.0" || String.eqb t "-0.0")
  | JStr s => negb (String.eqb s "")
  | JArr l => match l with [] => false | _ => true end
  | JObj kv => match kv with [] => false | _ => true end
  end.

(** [v == s] for a string [s]. *)
Definition py_eq_str (v : json) (s : string) : bool :=
  match v with JStr t => String.eqb t s | _ => false end.

Lemma py_eq_str_true v s : py_eq_str v s = true <-> v = JStr s.
Proof.
  destruct v; simpl; try (split; discriminate).
  rewrite String.eqb_eq. split; congruence.
Qed.

(** [v == n] for an integer [n]: [True] and [False] are the integers one and zero; a
    float token is never equal to an integer here. *)
Definition py_eq_int (v : json) (n : Z) : bool :=
  match v with
  | JInt z => bool_decide (z = n)
  | JBool b => bool_decide (n = if b then 1%Z else 0%Z)
  | _ => false
  end.

(** ** Printed text holds no control character, so no line break *)
Definition printable (l : bytes) : Prop := Forall (fun c => 32 <= code c) l.

Lemma printable_no_newline l : printable l -> no_newline l.
Proof.
  intros H. eapply Forall_impl; [exact H|]. intros c Hc. simpl in Hc. unfold is_newline.
  destruct (ascii_dec c newline) as [->|]; [|done]. by vm_compute in Hc.
Qed.

Lemma digits_printable l : Forall (fun c => is_digit c = true) l -> printable l.
Proof. intros H. eapply Forall_impl; [exact H|]. unfold is_digit. intros c Hc; simpl in *; lia. Qed.

Lemma lex_int_printable l x y : lex_int l = Some (x, y) -> printable x.
Proof.
  unfold lex_int. destruct (span is_digit l) as [ds r] eqn:E. apply span_spec in E as (_ & H & _).
  apply digits_printable in H. destruct ds as [|d ds]; [done|]. inv H.
  destruct (code d =? 48); intros [= <- _]; repeat constructor; done.
Qed.

Lemma lex_frac_printable l x y : lex_frac l = (x, y) -> printable x.
Proof.
  unfold lex_frac. destruct l as [|c l]; [intros [= <- _]; constructor|].
  destruct (N.eqb_spec (code c) 46); [|intros [= <- _]; constructor].
  destruct (span is_digit l) as [ds r] eqn:E. apply span_spec in E as (_ & H & _).
  apply digits_printable in H. destruct ds; intros [= <- _]; [constructor|].
  constructor; [lia|done].
Qed.

Lemma lex_exp_printable l x y : lex_exp l = (x, y) -> printable x.
Proof.
  unfold lex_exp. destruct l as [|c l]; [intros [= <- _]; constructor|].
  destruct ((code c =? 101) || (code c =? 69)) eqn:Hc; [|intros [= <- _]; constructor].
  destruct (lex_sign l) as [sg l2] eqn:Es.
  assert (Hs : printable sg).
  { revert Es. unfold lex_sign. destruct l as [|s l']; [intros [= <- _]; constructor|].
    unfold is_sign. destruct ((code s =? 43) || (code s =? 45)) eqn:Hb; intros [= <- _];
      repeat constructor. lia. }
  destruct (span is_digit l2) as [ds r] eqn:E. apply span_spec in E as (_ & H & _).
  apply digits_printable in H. destruct ds; intros [= <- _]; [constructor|].
  constructor; [lia|]. by apply Forall_app.
Qed.

Lemma float_printable t : lex_number (enc t) = Some (JFloat t, []) -> printable (enc t).
Proof.
  unfold lex_number. destruct (lex_neg (enc t)) as [neg l1].
  destruct (lex_int l1) as [[ip r]|] eqn:E1; [|done]. apply lex_int_printable in E1.
  destruct (lex_frac r) as [fp r1] eqn:E2. apply lex_frac_printable in E2.
  destruct (lex_exp r1) as [ep r2] eqn:E3. apply lex_exp_printable in E3.
  assert (Hp : printable ((if neg then ["-"%char] else []) ++ ip ++ fp ++ ep)).
  { repeat (apply Forall_app; split; [first [done | by destruct neg; repeat constructor]|]). done. }
  destruct fp, ep; intros H; try done;
    apply (f_equal (fun o => match o with Some (JFloat t', _) => enc t' | _ => [] end)) in H;
    rewrite enc_dec in H; rewrite <- H; done.
Qed.

Lemma hex_char_printable d : d < 16 -> 32 <= code (hex_char d).
Proof. intros H. unfold hex_char. destruct (N.ltb_spec d 10); rewrite code_chr; lia. Qed.

Lemma escape_printable c : printable (escape_char c).
Proof.
  unfold escape_char. pose proof (code_bound c).
  code_cases c; repeat constructor; try done; try lia;
    apply hex_char_printable; [apply N.Div0.div_lt_upper_bound | apply N.mod_upper_bound]; lia.
Qed.

Lemma quote_printable s : printable (quote_str s).
Proof.
  unfold quote_str. constructor; [done|]. apply Forall_app. split; [|by repeat constructor].
  induction (enc s) as [|c l IH]; simpl; [constructor|]. apply Forall_app.
  split; [apply escape_printable|done].
Qed.

Lemma join_printable st l :
  Forall printable l -> printable (join (item_sep st) l).
Proof.
  induction 1 as [|x l Hx Hl IH]; [constructor|]. destruct l as [|y l]; [done|].
  rewrite join_cons by done. apply Forall_app. split; [done|]. apply Forall_app.
  split; [|done]. destruct st; repeat constructor; done.
Qed.

Lemma Z_text_printable z : printable (Z_text z).
Proof. destruct z; simpl; try constructor; try apply digits_printable, digits_all; done. Qed.

Lemma dumps_printable st v : wf_json v -> printable (dumps st v).
Proof.
  induction v as [|b|z|t|s|l IH|kv IH] using json_ind'; intros Hwf.
  - repeat constructor; done.
  - destruct b; repeat constructor; done.
  - apply Z_text_printable.
  - by apply float_printable.
  - apply quote_printable.
  - apply wf_arr in Hwf. cbn [dumps]. constructor; [done|]. apply Forall_app.
    split; [|by repeat constructor]. apply join_printable.
    induction IH; inv Hwf; simpl; constructor; auto.
  - apply wf_obj in Hwf as [_ Hwf]. cbn [dumps]. constructor; [done|]. apply Forall_app.
    split; [|by repeat constructor]. apply join_printable.
    induction IH; inv Hwf; cbn [List.map]; constructor; auto.
    apply Forall_app. split; [apply quote_printable|]. apply Forall_app.
    split; [destruct st; repeat constructor; done|]. by apply H.
Qed.

Lemma dict_get_fst_fresh {A} (kv : list (string * A)) k : k ∉ kv.*1 -> dict_get kv k = None.
Proof.
  induction kv as [|[k' v] kv IH]; simpl; [done|].
  intros [Hk H]%not_elem_of_cons. apply String.eqb_neq in Hk. rewrite Hk. auto.
Qed.
