(* ===== verification/Unicode.v ===== *)
(** * Unicode: code points and digits

    Texts are UTF-8; [uchars] reads their code points and [of_uchars] writes them.  The
    digit tables are the interpreter's: the zeros of the decimal digit runs
    ([str.isdecimal], the regular expression [\d]) and the further characters with a
    digit value ([str.isdigit], [unicodedata.digit]).  Case mapping is the interpreter's
    too; [CaseMap] is its interface and [ascii_case] the instance the examples use. *)
From Stdlib Require Import ZArith NArith Ascii String Lia ZifyBool ZifyN ZifyNat.
From stdpp Require Import base list numbers strings.
From S2P Require Import Prelude Text Json.
#[local] Open Scope N_scope.

Fixpoint uchars (l : bytes) : list N :=
  match l with
  | [] => []
  | a :: r =>
      if code a <? 128 then code a :: uchars r
      else if code a <? 224 then
        match r with
        | b :: r' => ((code a - 192) * 64 + (code b - 128)) :: uchars r'
        | [] => [code a]
        end
      else if code a <? 240 then
        match r with
        | b :: c :: r' => ((code a - 224) * 4096 + (code b - 128) * 64 + (code c - 128)) :: uchars r'
        | _ => [code a]
        end
      else
        match r with
        | b :: c :: d :: r' =>
            ((code a - 240) * 262144 + (code b - 128) * 4096 + (code c - 128) * 64 + (code d - 128)) :: uchars r'
        | _ => [code a]
        end
  end.
Definition of_uchars (l : list N) : bytes := List.concat (List.map utf8 l).

(** The zeros of the runs of ten decimal digits. *)
Definition decimal_zeros : list N :=
  [48; 1632; 1776; 1984; 2406; 2534; 2662; 2790; 2918; 3046; 3174; 3302; 3430; 3558; 3664;
   3792; 3872; 4160; 4240; 6112; 6160; 6470; 6608; 6784; 6800; 6992; 7088; 7232; 7248; 42528;
   43216; 43264; 43472; 43504; 43600; 44016; 65296; 66720; 68912; 69734; 69872; 69942; 70096;
   70384; 70736; 70864; 71248; 71360; 71472; 71904; 72016; 72784; 73040; 73120; 92768; 92864;
   93008; 120782; 120792; 120802; 120812; 120822; 123200; 123632; 125264; 130032].
(** Runs (first code point, its digit, length) of the other characters with a digit value. *)
Definition other_digits : list (N * N * N) :=
  [(178, 2, 2); (185, 1, 1); (4969, 1, 9); (6618, 1, 1); (8304, 0, 1); (8308, 4, 6);
   (8320, 0, 10); (9312, 1, 9); (9332, 1, 9); (9352, 1, 9); (9450, 0, 1); (9461, 1, 9);
   (9471, 0, 1); (10102, 1, 9); (10112, 1, 9); (10122, 1, 9); (68160, 1, 4); (69216, 1, 9);
   (69714, 1, 9); (127232, 0, 1); (127233, 0, 10)].

Definition decimal_digit (c : N) : option N :=
  match List.find (fun z => (z <=? c) && (c <? z + 10)) decimal_zeros with
  | Some z => Some (c - z)
  | None => None
  end.
(** [unicodedata.digit(ch)] where [ch.isdigit()]. *)
Definition unicode_digit (c : N) : option N :=
  match decimal_digit c with
  | Some d => Some d
  | None =>
      match List.find (fun '(s, _, n) => (s <=? c) && (c <? s + n)) other_digits with
      | Some (s, d, _) => Some (d + (c - s))
      | None => None
      end
  end.
Definition is_decimal (c : N) : bool := match decimal_digit c with Some _ => true | None => false end.

(** Every decimal digit as its ASCII one. *)
Definition fold_decimal (c : N) : N :=
  match decimal_digit c with Some d => 48 + d | None => c end.
Definition fold_decimals (l : bytes) : bytes := of_uchars (List.map fold_decimal (uchars l)).

Lemma utf8_ascii c : code c < 128 -> utf8 (code c) = [c].
Proof.
  intros H. unfold utf8. replace (code c <? 128) with true by lia. by rewrite chr_code.
Qed.

Lemma fold_decimal_ascii c : c < 128 -> fold_decimal c = c.
Proof.
  intros H. unfold fold_decimal, decimal_digit.
  destruct (List.find _ _) as [z|] eqn:E; [|done]. apply List.find_some in E as [Hin Hz].
  apply andb_true_iff in Hz as [H1 H2]. assert (z = 48); [|lia].
  unfold decimal_zeros in Hin. repeat (destruct Hin as [<-|Hin]; [lia|]). done.
Qed.

Lemma fold_decimals_ascii l : Forall (fun c => code c < 128) l -> fold_decimals l = l.
Proof.
  unfold fold_decimals, of_uchars. induction 1 as [|c l Hc Hl IH]; [done|]. cbn [uchars].
  replace (code c <? 128) with true by lia. cbn [List.map List.concat].
  rewrite fold_decimal_ascii, utf8_ascii, IH by done. done.
Qed.

Class CaseMap := { str_lower : string -> string; str_upper : string -> string }.

Definition ascii_lower (c : ascii) : ascii :=
  if (65 <=? code c) && (code c <=? 90) then chr (code c + 32) else c.
Definition ascii_upper (c : ascii) : ascii :=
  if (97 <=? code c) && (code c <=? 122) then chr (code c - 32) else c.
Definition ascii_case : CaseMap :=
  {| str_lower := fun s => dec (List.map ascii_lower (enc s));
     str_upper := fun s => dec (List.map ascii_upper (enc s)) |}.

Example arabic : fold_decimals (of_uchars [1634; 1637; 46]) = enc "25.".
Proof. reflexivity. Qed.
Example utf8_round : uchars (enc "a−é€😀") = [97; 8722; 233; 8364; 128512].
Proof. reflexivity. Qed.
