(* ===== verification/Dates.v ===== *)
(** * Dates: [datetime.date]

    The proleptic Gregorian calendar and [date.fromisoformat] as CPython 3.11 reads it: the
    basic and extended calendar forms, the ISO week forms, and text after the eight digits
    of the basic form, which that version ignores when the whole is ten characters long. *)
From Stdlib Require Import ZArith NArith Ascii String Lia ZifyBool ZifyN ZifyNat.
From stdpp Require Import base list numbers strings.
From S2P Require Import Prelude Text.
#[local] Open Scope Z_scope.

Record date := mkDate { year : Z; month : Z; day : Z }.

#[export] Instance date_eq_dec : EqDecision date.
Proof. solve_decision. Defined.

Definition is_leap (y : Z) : bool := (y mod 4 =? 0) && (negb (y mod 100 =? 0) || (y mod 400 =? 0)).
Definition days_in_month (y m : Z) : Z :=
  if m =? 2 then (if is_leap y then 29 else 28)
  else if (m =? 4) || (m =? 6) || (m =? 9) || (m =? 11) then 30 else 31.

Definition valid_date (d : date) : bool :=
  (1 <=? year d) && (year d <=? 9999) && (1 <=? month d) && (month d <=? 12)
  && (1 <=? day d) && (day d <=? days_in_month (year d) (month d)).

(** [date(y, m, d)]. *)
Definition new_date (y m d : Z) : res date :=
  if valid_date (mkDate y m d) then Ok (mkDate y m d) else Raise ValueError.

Definition days_before_year (y : Z) : Z :=
  let p := y - 1 in p * 365 + p / 4 - p / 100 + p / 400.
Definition days_before_month (y m : Z) : Z :=
  fold_right Z.add 0 (List.map (fun k => days_in_month y (Z.of_nat k)) (seq 1 (Z.to_nat (m - 1)))).
(** [date.toordinal()]. *)
Definition toordinal (d : date) : Z :=
  days_before_year (year d) + days_before_month (year d) (month d) + day d.

(** The month and day of the [n]-th day (from one) of a year. *)
Fixpoint month_of (fuel : nat) (y m n : Z) : Z * Z :=
  match fuel with
  | O => (m, n)
  | S f => if n <=? days_in_month y m then (m, n) else month_of f y (m + 1) (n - days_in_month y m)
  end.
(** [iso_to_ymd]: the date of a weekday of an ISO week. *)
Definition iso_to_date (y week dow : Z) : res date :=
  if (y <? 1) || (9999 <? y) then Raise ValueError else
  let first := days_before_year y + 1 in
  let first_weekday := (first + 6) mod 7 in   (* Monday is 0 *)
  if (week <=? 0) || (54 <=? week) then Raise ValueError
  else if (week =? 53) && negb ((first_weekday =? 3) || ((first_weekday =? 2) && is_leap y))
  then Raise ValueError
  else if (dow <=? 0) || (8 <=? dow) then Raise ValueError
  else
    let monday1 := first - first_weekday + (if 3 <? first_weekday then 7 else 0) in
    let n := monday1 + (week - 1) * 7 + dow - 1 in
    let y' := if n <? first then y - 1
              else if n <? days_before_year (y + 1) + 1 then y else y + 1 in
    let '(m, d) := month_of 12 y' 1 (n - days_before_year y') in
    new_date y' m d.

(** [parse_digits]: exactly [n] ASCII digits. *)
Fixpoint parse_digits (n : nat) (acc : Z) (l : bytes) : option (Z * bytes) :=
  match n, l with
  | O, _ => Some (acc, l)
  | S k, c :: r => if is_digit c then parse_digits k (acc * 10 + Z.of_N (digit_val c)) r else None
  | S _, [] => None
  end.
Definition is_dash (c : ascii) : bool := (code c =? 45)%N.

(** The separator, when the form has them. *)
Definition parse_sep (sep : bool) (l : bytes) : option bytes :=
  if sep then match l with c :: r => if is_dash c then Some r else None | [] => None end
  else Some l.

Definition fromisoformat (s : string) : res date :=
  let l := enc s in
  let n := List.length l in
  if negb ((n =? 7) || (n =? 8) || (n =? 10))%nat then Raise ValueError else
  match parse_digits 4 0 l with
  | None => Raise ValueError
  | Some (y, r) =>
      let sep := match r with c :: _ => is_dash c | [] => false end in
      let r := if sep then tail r else r in
      match r with
      | c :: r1 =>
          if (code c =? 87)%N then
            match parse_digits 2 0 r1 with
            | None => Raise ValueError
            | Some (w, []) => iso_to_date y w 1
            | Some (w, r2) =>
                match parse_sep sep r2 with
                | None => Raise ValueError
                | Some r3 => match parse_digits 1 0 r3 with
                             | None => Raise ValueError
                             | Some (d, _) => iso_to_date y w d
                             end
                end
            end
          else
            match parse_digits 2 0 r with
            | None => Raise ValueError
            | Some (m, r2) =>
                match parse_sep sep r2 with
                | None => Raise ValueError
                | Some r3 => match parse_digits 2 0 r3 with
                             | None => Raise ValueError
                             | Some (d, _) => new_date y m d
                             end
                end
            end
      | [] => Raise ValueError
      end
  end.

Example iso_plain : fromisoformat "2024-02-29" = Ok (mkDate 2024 2 29).
Proof. reflexivity. Qed.
Example iso_week : fromisoformat "2020-W01" = Ok (mkDate 2019 12 30).
Proof. reflexivity. Qed.
Example iso_trailing : fromisoformat "2020010199" = Ok (mkDate 2020 1 1).
Proof. reflexivity. Qed.
Example iso_bad : fromisoformat "2023-02-29" = Raise ValueError.
Proof. reflexivity. Qed.
