(* ===== verification/Decimals.v ===== *)
(** * Decimals: Python's [decimal.Decimal]

    The General Decimal Arithmetic the program computes money with: construction from
    text, [str], the four operations rounded half-even to the context's precision, exact
    comparison, [quantize].  The exponent limits are the default context's; InvalidOperation,
    DivisionByZero and Overflow trap as they do there, Inexact when the context says so.
    Construction has no exponent limit here (the library's is about 10^18).
    The last part is the arithmetic the rest of the library uses: within the precision,
    decimals on one scale are integers. *)
From Stdlib Require Import ZArith NArith Ascii String Lia ZifyBool ZifyN ZifyNat.
From stdpp Require Import base list numbers strings.
From S2P Require Import Prelude Text Json Unicode.
#[local] Open Scope N_scope.

Inductive decimal :=
  | Fin (neg : bool) (coef : N) (exp : Z)
  | Inf (neg : bool)
  | NaN (neg signaling : bool) (payload : N).

#[export] Instance decimal_eq_dec : EqDecision decimal.
Proof. solve_decision. Defined.

Record ctx := mkCtx { prec : N; trap_inexact : bool }.
(** The thread's default context. *)
Definition default_ctx : ctx := mkCtx 28 false.
Definition Emin : Z := -999999.
Definition Emax : Z := 999999.
Definition Etiny (c : ctx) : Z := Emin - Z.of_N (prec c) + 1.
Definition Etop (c : ctx) : Z := Emax - Z.of_N (prec c) + 1.

Definition ndigits (c : N) : nat := List.length (digits_of_N c).
Definition pow10 (k : Z) : N := 10 ^ Z.to_N k.
(** [d.adjusted()] of a finite value. *)
Definition adjusted (c : N) (e : Z) : Z := e + Z.of_nat (ndigits c) - 1.

(** The coefficient with its last [k] digits rounded off half-even, and whether that lost
    anything. *)
Definition round_half_even (c : N) (k : Z) : N * bool :=
  let p := pow10 k in
  let q := c / p in
  let r := c mod p in
  let up := (p <? 2 * r) || ((p =? 2 * r) && N.odd q) in
  (if up then q + 1 else q, negb (r =? 0)).

(** [_fix]: a value into the context. *)
Definition fix_dec (cx : ctx) (d : decimal) : res decimal :=
  match d with
  | Fin s c e =>
      if c =? 0 then Ok (Fin s 0 (Z.min (Z.max e (Etiny cx)) Emax))
      else
        let n := Z.of_nat (ndigits c) in
        let exp_min := (n + e - Z.of_N (prec cx))%Z in
        if (Etop cx <? exp_min)%Z then Raise DecimalOverflow
        else
          let exp_min := Z.max exp_min (Etiny cx) in
          if (e <? exp_min)%Z then
            let '(q, changed) :=
              if (n + e - exp_min <? 0)%Z then (0, true) else round_half_even c (exp_min - e) in
            let '(q, e') :=
              if (Z.of_N (prec cx) <? Z.of_nat (ndigits q))%Z then (q / 10, (exp_min + 1)%Z)
              else (q, exp_min) in
            if (Etop cx <? e')%Z then Raise DecimalOverflow
            else if changed && trap_inexact cx then Raise DecimalInexact
            else Ok (Fin s q e')
          else Ok d
  | _ => Ok d
  end.

(** A NaN operand: a signaling one raises, a quiet one is the result. *)
Definition check_nans (a b : decimal) (k : res decimal) : res decimal :=
  match a, b with
  | NaN _ true _, _ | _, NaN _ true _ => Raise InvalidOperation
  | NaN _ _ _, _ => Ok a
  | _, NaN _ _ _ => Ok b
  | _, _ => k
  end.

Definition signed (s : bool) (c : N) : Z := if s then (- Z.of_N c)%Z else Z.of_N c.

(** [a + b]. *)
Definition dadd (cx : ctx) (a b : decimal) : res decimal :=
  check_nans a b
    match a, b with
    | Inf s, Inf t => if bool_decide (s = t) then Ok a else Raise InvalidOperation
    | Inf _, _ => Ok a
    | _, Inf _ => Ok b
    | Fin s c e, Fin t d f =>
        let x := Z.min e f in
        let z := (signed s c * Z.of_N (pow10 (e - x)) + signed t d * Z.of_N (pow10 (f - x)))%Z in
        fix_dec cx (Fin (if (z =? 0)%Z then s && t else (z <? 0)%Z) (Z.abs_N z) x)
    | _, _ => Ok a
    end.

Definition copy_negate (a : decimal) : decimal :=
  match a with
  | Fin s c e => Fin (negb s) c e
  | Inf s => Inf (negb s)
  | NaN s g p => NaN (negb s) g p
  end.

(** [a - b]: a NaN keeps its own sign. *)
Definition dsub (cx : ctx) (a b : decimal) : res decimal :=
  check_nans a b (dadd cx a (copy_negate b)).

(** [-a]: a zero loses its sign, the rest is rounded like any result. *)
Definition dneg (cx : ctx) (a : decimal) : res decimal :=
  match a with
  | NaN _ true _ => Raise InvalidOperation
  | NaN _ _ _ => Ok a
  | Fin _ 0 e => fix_dec cx (Fin false 0 e)
  | _ => fix_dec cx (copy_negate a)
  end.
(** [abs(a)]. *)
Definition dabs (cx : ctx) (a : decimal) : res decimal :=
  match a with
  | NaN _ true _ => Raise InvalidOperation
  | NaN _ _ _ => Ok a
  | Fin _ c e => fix_dec cx (Fin false c e)
  | Inf _ => Ok (Inf false)
  end.

Definition is_zero (a : decimal) : bool := match a with Fin _ 0 _ => true | _ => false end.
Definition sign_of (a : decimal) : bool := match a with Fin s _ _ | Inf s | NaN s _ _ => s end.

(** [a * b]. *)
Definition dmul (cx : ctx) (a b : decimal) : res decimal :=
  check_nans a b
    match a, b with
    | Fin s c e, Fin t d f => fix_dec cx (Fin (xorb s t) (c * d) (e + f))
    | _, _ => if is_zero a || is_zero b then Raise InvalidOperation
              else Ok (Inf (xorb (sign_of a) (sign_of b)))
    end.

(** Drop trailing zeros of a quotient while its exponent is below the ideal one. *)
Fixpoint strip_zeros (fuel : nat) (c : N) (e ideal : Z) : N * Z :=
  match fuel with
  | O => (c, e)
  | S n => if (e <? ideal)%Z && (c mod 10 =? 0) then strip_zeros n (c / 10) (e + 1) ideal else (c, e)
  end.

(** [a / b]. *)
Definition ddiv (cx : ctx) (a b : decimal) : res decimal :=
  check_nans a b
    match a, b with
    | Inf _, Inf _ => Raise InvalidOperation
    | Inf _, _ => Ok (Inf (xorb (sign_of a) (sign_of b)))
    | _, Inf _ => fix_dec cx (Fin (xorb (sign_of a) (sign_of b)) 0 (Etiny cx))
    | Fin s c e, Fin t d f =>
        if d =? 0 then Raise (if c =? 0 then InvalidOperation else ZeroDivisionError)
        else if c =? 0 then fix_dec cx (Fin (xorb s t) 0 (e - f))
        else
          let shift := (Z.of_nat (ndigits d) - Z.of_nat (ndigits c) + Z.of_N (prec cx) + 1)%Z in
          let '(x, y) := if (0 <=? shift)%Z then (c * pow10 shift, d) else (c, d * pow10 (- shift)) in
          let q := x / y in
          if x mod y =? 0 then
            let '(q', e') := strip_zeros (ndigits q) q (e - f - shift) (e - f) in
            fix_dec cx (Fin (xorb s t) q' e')
          else fix_dec cx (Fin (xorb s t) (if q mod 5 =? 0 then q + 1 else q) (e - f - shift))
    | _, _ => Ok a
    end.

(** [a.quantize(Decimal((0, (1,), x)))] for a finite value. *)
Definition quantize (cx : ctx) (a : decimal) (x : Z) : res decimal :=
  match a with
  | NaN _ true _ => Raise InvalidOperation
  | NaN _ _ _ => Ok a
  | Inf _ => Raise InvalidOperation
  | Fin s c e =>
      if ((x <? Etiny cx) || (Emax <? x))%Z then Raise InvalidOperation
      else if c =? 0 then fix_dec cx (Fin s 0 x)
      else if (Emax <? adjusted c e)%Z then Raise InvalidOperation
      else if (Z.of_N (prec cx) <? adjusted c e - x + 1)%Z then Raise InvalidOperation
      else
        let '(q, changed) :=
          if (x <=? e)%Z then (c * pow10 (e - x), false)
          else if (Z.of_nat (ndigits c) + e - x <? 0)%Z then (0, true)
          else round_half_even c (x - e) in
        if (Emax <? adjusted q x)%Z then Raise InvalidOperation
        else if (Z.of_N (prec cx) <? Z.of_nat (ndigits q))%Z then Raise InvalidOperation
        else if changed && trap_inexact cx then Raise DecimalInexact
        else fix_dec cx (Fin s q x)
  end.

(** [a.quantize(Decimal((0, (1,), x)), rounding=ROUND_CEILING)]. *)
Definition round_ceiling (s : bool) (c : N) (k : Z) : N * bool :=
  let p := pow10 k in
  let r := c mod p in
  (if (r =? 0) || s then c / p else c / p + 1, negb (r =? 0)).
Definition quantize_ceiling (cx : ctx) (a : decimal) (x : Z) : res decimal :=
  match a with
  | NaN _ true _ => Raise InvalidOperation
  | NaN _ _ _ => Ok a
  | Inf _ => Raise InvalidOperation
  | Fin s c e =>
      if ((x <? Etiny cx) || (Emax <? x))%Z then Raise InvalidOperation
      else if c =? 0 then fix_dec cx (Fin s 0 x)
      else if (Emax <? adjusted c e)%Z then Raise InvalidOperation
      else if (Z.of_N (prec cx) <? adjusted c e - x + 1)%Z then Raise InvalidOperation
      else
        let '(q, changed) :=
          if (x <=? e)%Z then (c * pow10 (e - x), false) else round_ceiling s c (x - e) in
        if (Emax <? adjusted q x)%Z then Raise InvalidOperation
        else if (Z.of_N (prec cx) <? Z.of_nat (ndigits q))%Z then Raise InvalidOperation
        else if changed && trap_inexact cx then Raise DecimalInexact
        else fix_dec cx (Fin s q x)
  end.
(** [int(a.to_integral_value(rounding=ROUND_CEILING))]: an infinity or a NaN is no integer. *)
Definition ceiling_int (a : decimal) : res Z :=
  match a with
  | Fin s c e =>
      if (0 <=? e)%Z then Ok (signed s (c * pow10 e)) else Ok (signed s (fst (round_ceiling s c (- e))))
  | Inf _ => Raise OverflowError
  | NaN _ true _ => Raise InvalidOperation
  | NaN _ false _ => Raise ValueError
  end.

(** ** Comparison is exact *)
Definition cmp_fin (s : bool) (c : N) (e : Z) (t : bool) (d : N) (f : Z) : comparison :=
  let x := Z.min e f in
  (signed s c * Z.of_N (pow10 (e - x)) ?= signed t d * Z.of_N (pow10 (f - x)))%Z.
Definition dcmp (a b : decimal) : option comparison :=
  match a, b with
  | NaN _ _ _, _ | _, NaN _ _ _ => None
  | Fin s c e, Fin t d f => Some (cmp_fin s c e t d f)
  | Inf s, Inf t => Some (match s, t with
                          | true, false => Lt | false, true => Gt | _, _ => Eq end)
  | Inf s, _ => Some (if s then Lt else Gt)
  | _, Inf t => Some (if t then Gt else Lt)
  end.
Definition is_snan (a : decimal) : bool := match a with NaN _ g _ => g | _ => false end.

(** [a == b] is false for a quiet NaN; the orderings raise for any. *)
Definition deq (a b : decimal) : res bool :=
  if is_snan a || is_snan b then Raise InvalidOperation
  else Ok (match dcmp a b with Some Eq => true | _ => false end).
Definition dle (a b : decimal) : res bool :=
  match dcmp a b with
  | None => Raise InvalidOperation
  | Some Gt => Ok false
  | Some _ => Ok true
  end.
Definition dlt (a b : decimal) : res bool :=
  match dcmp a b with
  | None => Raise InvalidOperation
  | Some Lt => Ok true
  | Some _ => Ok false
  end.

(** ** Text *)
Definition zeros (k : Z) : bytes := List.repeat "0"%char (Z.to_nat k).
Definition signed_exponent (z : Z) : bytes :=
  ((if (z <? 0)%Z then "-"%char else "+"%char) :: digits_of_N (Z.abs_N z))%list.

(** [str(d)]: plain digits, or one digit and an exponent. *)
Definition dec_text (d : decimal) : bytes :=
  match d with
  | Inf s => ((if s then enc "-" else []) ++ enc "Infinity")%list
  | NaN s g p => ((if s then enc "-" else []) ++ (if g then enc "sNaN" else enc "NaN")
                  ++ (if p =? 0 then [] else digits_of_N p))%list
  | Fin s c e =>
      let ds := digits_of_N c in
      let n := Z.of_nat (List.length ds) in
      let left := (e + n)%Z in
      let dot := if (e <=? 0)%Z && (-6 <? left)%Z then left else 1%Z in
      let body :=
        if (dot <=? 0)%Z then (enc "0." ++ zeros (- dot) ++ ds)%list
        else if (n <=? dot)%Z then (ds ++ zeros (dot - n))%list
        else (take (Z.to_nat dot) ds ++ enc "." ++ drop (Z.to_nat dot) ds)%list in
      ((if s then enc "-" else []) ++ body
        ++ (if (left =? dot)%Z then [] else "E"%char :: signed_exponent (left - dot)))%list
  end.
Definition dec_str (d : decimal) : string := dec (dec_text d).

Definition lower (c : ascii) : ascii :=
  if (65 <=? code c) && (code c <=? 90) then chr (code c + 32) else c.

Definition read_sign (l : bytes) : bool * bytes :=
  match l with
  | c :: l' => if code c =? 45 then (true, l') else if code c =? 43 then (false, l') else (false, l)
  | [] => (false, [])
  end.

(** The exponent part: nothing, or [E], a sign and digits to the end. *)
Definition read_exponent (l : bytes) : option Z :=
  match l with
  | [] => Some 0%Z
  | c :: l' =>
      if code (lower c) =? 101 then
        let '(neg, l2) := read_sign l' in
        match span is_digit l2 with
        | ([], _) => None
        | (ds, []) => Some (signed neg (value_of_digits ds))
        | _ => None
        end
      else None
  end.

(** The finite numerals: digits with at most one point, then the exponent. *)
Definition read_finite (neg : bool) (l : bytes) : option decimal :=
  let '(ip, r) := span is_digit l in
  let '(fp, r1) := match r with
                   | c :: r' => if code c =? 46 then span is_digit r' else ([], r)
                   | [] => ([], [])
                   end in
  if bool_decide (ip = [] /\ fp = []) then None
  else match read_exponent r1 with
       | Some e => Some (Fin neg (value_of_digits (ip ++ fp)) (e - Z.of_nat (List.length fp)))
       | None => None
       end.

Definition read_payload (l : bytes) : option N :=
  match span is_digit l with (ds, []) => Some (value_of_digits ds) | _ => None end.

(** [Decimal(text)]. *)
Definition Decimal_of_text (text : bytes) : res decimal :=
  let l := fold_decimals (List.filter (fun c => negb (code c =? 95)) (strip_bytes text)) in
  let '(neg, l1) := read_sign l in
  let low := List.map lower l1 in
  res_of_option InvalidOperation
    (if bool_decide (low = enc "inf" \/ low = enc "infinity") then Some (Inf neg)
     else match starts_with (enc "nan") low, starts_with (enc "snan") low with
          | Some r, _ => NaN neg false <$> read_payload r
          | None, Some r => NaN neg true <$> read_payload r
          | None, None => read_finite neg l1
          end).
Definition Decimal_of_str (s : string) : res decimal := Decimal_of_text (enc s).
Definition Decimal_of_Z (z : Z) : decimal := Fin (z <? 0)%Z (Z.abs_N z) 0.

(** What [Decimal] and the functions over it are called with. *)
Inductive number :=
  | NumDec (d : decimal)
  | NumStr (s : string)
  | NumInt (z : Z)
  | NumFloat (exact : decimal).   (** a float, as the exact decimal it is *)

(** [Decimal(x)]: a float converts exactly. *)
Definition Decimal (x : number) : res decimal :=
  match x with
  | NumDec d => Ok d
  | NumStr s => Decimal_of_str s
  | NumInt z => Ok (Decimal_of_Z z)
  | NumFloat d => Ok d
  end.

Example str_cents : dec_str (Fin true 123456 (-2)) = "-1234.56"%string.
Proof. reflexivity. Qed.
Example str_sci : dec_str (Fin false 15 3) = "1.5E+4"%string.
Proof. reflexivity. Qed.
Example str_small : dec_str (Fin false 7 (-9)) = "7E-9"%string.
Proof. reflexivity. Qed.
Example parse_under : Decimal_of_str " -1_000.50 " = Ok (Fin true 100050 (-2)).
Proof. reflexivity. Qed.
Example add_rounds : dadd default_ctx (Fin false 1 28) (Fin false 1 0) = Ok (Fin false (10 ^ 27) 1).
Proof. reflexivity. Qed.
Example third : ddiv default_ctx (Fin false 1 0) (Fin false 3 0) = Ok (Fin false 3333333333333333333333333333 (-28)).
Proof. reflexivity. Qed.
Example div_exact : ddiv default_ctx (Fin false 10 0) (Fin false 4 0) = Ok (Fin false 25 (-1)).
Proof. reflexivity. Qed.

(** ** Exact arithmetic on a common scale *)

(** The value as a whole number of units of [10^e0]. *)
Definition units (e0 : Z) (d : decimal) : Z :=
  match d with Fin s c e => (signed s c * Z.of_N (pow10 (e - e0)))%Z | _ => 0%Z end.
(** Finite, no finer than [10^e0]. *)
Definition on_scale (e0 : Z) (d : decimal) : Prop :=
  match d with Fin _ _ e => (e0 <= e)%Z | _ => False end.
(** A scale the context's exponent range leaves room for. *)
Definition scale_ok (cx : ctx) (e0 : Z) : Prop := (Etiny cx <= e0 <= Etop cx)%Z /\ 1 <= prec cx.
(** A number of units within the precision. *)
Definition fits (cx : ctx) (z : Z) : Prop := (Z.abs z < Z.of_N (10 ^ prec cx))%Z.

Lemma digits_fuel_bounds fuel n : (N.size_nat n < fuel)%nat ->
  n < 10 ^ N.of_nat (List.length (digits_fuel fuel n []))
  /\ (n <> 0 -> 10 ^ N.of_nat (List.length (digits_fuel fuel n []) - 1) <= n).
Proof.
  revert n; induction fuel as [|f IH]; intros n Hf; [lia|]. cbn [digits_fuel].
  destruct (N.ltb_spec n 10) as [Hn|Hn].
  - cbn [List.length Nat.sub]. change (N.of_nat 1) with 1. rewrite N.pow_1_r.
    change (10 ^ N.of_nat 0) with 1. lia.
  - rewrite digits_fuel_app, List.length_app. cbn [List.length].
    pose proof (size_nat_div10 n Hn). destruct (IH (n / 10)) as [H1 H2]; [lia|].
    set (k := List.length (digits_fuel f (n / 10) [])) in *.
    replace (N.of_nat (k + 1)) with (N.succ (N.of_nat k)) by lia.
    replace (k + 1 - 1)%nat with k by lia. rewrite N.pow_succ_r'.
    pose proof (N.div_mod n 10). pose proof (N.mod_upper_bound n 10).
    split; [lia|]. intros _. assert (Hk : n / 10 <> 0) by (intros E; rewrite E in *; lia).
    specialize (H2 Hk). destruct k as [|k]; [change (10 ^ N.of_nat 0) with 1; lia|].
    replace (N.of_nat (S k)) with (N.succ (N.of_nat k)) by lia. rewrite N.pow_succ_r'.
    replace (S k - 1)%nat with k in H2 by lia. lia.
Qed.

Lemma ndigits_upper c : c < 10 ^ N.of_nat (ndigits c).
Proof. apply digits_fuel_bounds. lia. Qed.
Lemma ndigits_lower c : c <> 0 -> 10 ^ N.of_nat (ndigits c - 1) <= c.
Proof. apply digits_fuel_bounds. lia. Qed.
Lemma ndigits_pos c : (1 <= ndigits c)%nat.
Proof.
  unfold ndigits. pose proof (digits_nonempty c). destruct (digits_of_N c); [done|]. simpl. lia.
Qed.

(** A coefficient below a power of ten has no more digits than its exponent. *)
Lemma ndigits_le c k : c <> 0 -> c < 10 ^ k -> (Z.of_nat (ndigits c) <= Z.of_N k)%Z.
Proof.
  intros H0 H. pose proof (ndigits_lower c H0). pose proof (ndigits_pos c).
  assert (N.of_nat (ndigits c - 1) < k); [|lia].
  apply (N.pow_lt_mono_r_iff 10); lia.
Qed.

Lemma pow10_pos k : 0 < pow10 k.
Proof. unfold pow10. pose proof (N.pow_nonzero 10 (Z.to_N k)). lia. Qed.
Lemma pow10_add a b : (0 <= a)%Z -> (0 <= b)%Z -> pow10 (a + b) = pow10 a * pow10 b.
Proof. intros Ha Hb. unfold pow10. rewrite <- N.pow_add_r. f_equal. lia. Qed.

Lemma signed_abs z : signed (z <? 0)%Z (Z.abs_N z) = z.
Proof. unfold signed. destruct (Z.ltb_spec z 0); lia. Qed.

(** A finite value whose units fit the precision passes through the context unchanged. *)
Lemma fix_exact cx e0 s c e : scale_ok cx e0 -> (e0 <= e)%Z -> fits cx (units e0 (Fin s c e)) ->
  exists r, fix_dec cx (Fin s c e) = Ok r /\ on_scale e0 r /\ units e0 r = units e0 (Fin s c e).
Proof.
  intros [[Hs1 Hs2] Hp] He Hf. unfold fix_dec. destruct (N.eqb_spec c 0) as [->|Hc].
  - eexists. split; [done|]. split; [simpl; unfold Etop in *; lia|]. by destruct s.
  - assert (Hn : (Z.of_nat (ndigits c) + (e - e0) <= Z.of_N (prec cx))%Z).
    { unfold fits, units in Hf. assert (Hb : c * pow10 (e - e0) < 10 ^ prec cx).
      { unfold signed in Hf. destruct s; lia. }
      assert (Hlt : pow10 (e - e0) < 10 ^ prec cx).
      { pose proof (pow10_pos (e - e0)). nia. }
      unfold pow10 in Hlt, Hb. apply (N.pow_lt_mono_r_iff 10) in Hlt; [|lia].
      replace (prec cx) with (Z.to_N (e - e0) + (prec cx - Z.to_N (e - e0))) in Hb by lia.
      rewrite N.pow_add_r in Hb.
      assert (Hc2 : c < 10 ^ (prec cx - Z.to_N (e - e0))).
      { pose proof (N.pow_nonzero 10 (Z.to_N (e - e0))). nia. }
      apply ndigits_le in Hc2; [|done]. lia. }
    destruct (Z.ltb_spec (Etop cx) (Z.of_nat (ndigits c) + e - Z.of_N (prec cx))); [unfold Etop in *; lia|].
    destruct (Z.ltb_spec e (Z.max (Z.of_nat (ndigits c) + e - Z.of_N (prec cx)) (Etiny cx))); [lia|].
    eexists. split; [done|]. split; [exact He|done].
Qed.

Lemma units_align e0 s c e x : (e0 <= x)%Z -> (x <= e)%Z ->
  (signed s c * Z.of_N (pow10 (e - x)) * Z.of_N (pow10 (x - e0)) = units e0 (Fin s c e))%Z.
Proof.
  intros H1 H2. unfold units. replace (e - e0)%Z with ((e - x) + (x - e0))%Z by lia.
  rewrite pow10_add by lia. lia.
Qed.

(** [+] on a common scale is integer addition while the sum fits. *)
Lemma dadd_exact cx e0 a b : scale_ok cx e0 -> on_scale e0 a -> on_scale e0 b ->
  fits cx (units e0 a + units e0 b) ->
  exists r, dadd cx a b = Ok r /\ on_scale e0 r /\ units e0 r = (units e0 a + units e0 b)%Z.
Proof.
  intros Hs Ha Hb Hf. destruct a as [s c e| |]; [|done..]. destruct b as [t d f| |]; [|done..].
  simpl in Ha, Hb. unfold dadd, check_nans.
  set (x := Z.min e f).
  set (z := (signed s c * Z.of_N (pow10 (e - x)) + signed t d * Z.of_N (pow10 (f - x)))%Z).
  set (sg := if (z =? 0)%Z then s && t else (z <? 0)%Z).
  assert (Hz : units e0 (Fin sg (Z.abs_N z) x) = (units e0 (Fin s c e) + units e0 (Fin t d f))%Z).
  { rewrite <- (units_align e0 s c e x), <- (units_align e0 t d f x) by lia.
    assert (Hsg : signed sg (Z.abs_N z) = z).
    { unfold sg. destruct (Z.eqb_spec z 0) as [E|]; [rewrite E; by destruct (s && t)|apply signed_abs]. }
    unfold units. rewrite Hsg. unfold z. lia. }
  rewrite <- Hz in Hf |- *. apply fix_exact; [done|lia|done].
Qed.

Lemma units_negate e0 a : units e0 (copy_negate a) = (- units e0 a)%Z.
Proof. destruct a as [s c e| |]; try done. unfold units, copy_negate, signed. destruct s; simpl; lia. Qed.
Lemma on_scale_negate e0 a : on_scale e0 a -> on_scale e0 (copy_negate a).
Proof. by destruct a. Qed.
Lemma fits_opp cx z : fits cx z -> fits cx (- z).
Proof. unfold fits. lia. Qed.

Lemma dsub_exact cx e0 a b : scale_ok cx e0 -> on_scale e0 a -> on_scale e0 b ->
  fits cx (units e0 a - units e0 b) ->
  exists r, dsub cx a b = Ok r /\ on_scale e0 r /\ units e0 r = (units e0 a - units e0 b)%Z.
Proof.
  intros Hs Ha Hb Hf. destruct (dadd_exact cx e0 a (copy_negate b)) as (r & E & H1 & H2);
    [done|done|by apply on_scale_negate|rewrite units_negate; done|].
  exists r. rewrite units_negate in H2. split; [|split; [done|lia]].
  destruct a; [|done..]. destruct b; [|done..]. exact E.
Qed.

Lemma dneg_exact cx e0 a : scale_ok cx e0 -> on_scale e0 a -> fits cx (units e0 a) ->
  exists r, dneg cx a = Ok r /\ on_scale e0 r /\ units e0 r = (- units e0 a)%Z.
Proof.
  intros Hs Ha Hf. destruct a as [s c e| |]; [|done..]. unfold dneg.
  rewrite <- units_negate.
  destruct c as [|p].
  - replace (units e0 (copy_negate (Fin s 0 e))) with (units e0 (Fin false 0 e)) by (by destruct s).
    apply fix_exact; [done|done|]. unfold fits. simpl. pose proof (N.pow_nonzero 10 (prec cx)). lia.
  - apply fix_exact; [done|done|].
    change (Fin (negb s) (N.pos p) e) with (copy_negate (Fin s (N.pos p) e)).
    rewrite units_negate. by apply fits_opp.
Qed.

Lemma dabs_exact cx e0 a : scale_ok cx e0 -> on_scale e0 a -> fits cx (units e0 a) ->
  exists r, dabs cx a = Ok r /\ on_scale e0 r /\ units e0 r = Z.abs (units e0 a).
Proof.
  intros Hs Ha Hf. destruct a as [s c e| |]; [|done..]. unfold dabs.
  assert (E : units e0 (Fin false c e) = Z.abs (units e0 (Fin s c e))).
  { unfold units, signed. destruct s; lia. }
  rewrite <- E. apply fix_exact; [done|done|]. rewrite E. unfold fits in *. lia.
Qed.

(** Comparison on a common scale is integer comparison. *)
Lemma dcmp_units e0 a b : on_scale e0 a -> on_scale e0 b ->
  dcmp a b = Some (units e0 a ?= units e0 b)%Z.
Proof.
  intros Ha Hb. destruct a as [s c e| |]; [|done..]. destruct b as [t d f| |]; [|done..].
  simpl in Ha, Hb. cbn [dcmp]. f_equal. unfold cmp_fin. set (x := Z.min e f).
  rewrite <- (units_align e0 s c e x), <- (units_align e0 t d f x) by lia.
  pose proof (pow10_pos (x - e0)).
  rewrite <- Zmult_compare_compat_r; [done|lia].
Qed.

Lemma dle_units e0 a b : on_scale e0 a -> on_scale e0 b -> dle a b = Ok (units e0 a <=? units e0 b)%Z.
Proof.
  intros Ha Hb. unfold dle. rewrite (dcmp_units e0) by done. unfold Z.leb.
  by destruct (units e0 a ?= units e0 b)%Z.
Qed.
Lemma dlt_units e0 a b : on_scale e0 a -> on_scale e0 b -> dlt a b = Ok (units e0 a <? units e0 b)%Z.
Proof.
  intros Ha Hb. unfold dlt. rewrite (dcmp_units e0) by done. unfold Z.ltb.
  by destruct (units e0 a ?= units e0 b)%Z.
Qed.
Lemma deq_units e0 a b : on_scale e0 a -> on_scale e0 b -> deq a b = Ok (units e0 a =? units e0 b)%Z.
Proof.
  intros Ha Hb. unfold deq. rewrite (dcmp_units e0) by done.
  destruct a; [|done..]. destruct b; [|done..]. cbn [is_snan orb]. f_equal.
  rewrite Z.eqb_compare. done.
Qed.

(** ** [Decimal(str(d))] is [d] *)

Definition plain (c : ascii) : Prop := 32 < code c /\ code c < 127 /\ code c <> 95.

Definition starts_oddly (p : bytes) : bool :=
  match p with d :: _ => (code d <=? 32) || (127 <=? code d) | [] => false end.

Lemma first_prefix_plain ps c l : forallb starts_oddly ps = true -> plain c ->
  first_prefix ps (c :: l) = None.
Proof.
  intros H (H1 & H2 & _). induction ps as [|p ps IH]; [done|]. cbn [forallb] in H.
  apply andb_true_iff in H as [Hp Hps]. cbn [first_prefix].
  destruct p as [|d p]; [done|]. cbn [starts_with starts_oddly] in *.
  destruct (ascii_dec d c) as [->|]; [lia|auto].
Qed.

Lemma lstrip_plain ps fuel l : forallb starts_oddly ps = true ->
  Forall plain l -> lstrip_fuel ps fuel l = l.
Proof.
  intros Hp Hl. destruct fuel as [|n]; [done|]. cbn [lstrip_fuel].
  destruct l as [|c l].
  - assert (E : first_prefix ps [] = None); [|by rewrite E].
    induction ps as [|p ps IH]; [done|]. cbn [forallb] in Hp. apply andb_true_iff in Hp as [Hp Hps].
    destruct p as [|d p]; [done|]. by apply IH.
  - inv Hl. by rewrite first_prefix_plain.
Qed.

Lemma strip_plain l : Forall plain l -> strip_bytes l = l.
Proof.
  intros H. unfold strip_bytes, lstrip. rewrite lstrip_plain by (by vm_compute || done).
  unfold rstrip. rewrite lstrip_plain; [apply rev_involutive|by vm_compute|by apply Forall_rev].
Qed.

Lemma filter_plain l : Forall plain l -> List.filter (fun c => negb (code c =? 95)) l = l.
Proof.
  induction 1 as [|c l (_ & _ & Hc) Hl IH]; [done|]. cbn [List.filter].
  destruct (N.eqb_spec (code c) 95); [done|]. by rewrite IH.
Qed.

Lemma fold_plain l : Forall plain l -> fold_decimals l = l.
Proof.
  intros H. apply fold_decimals_ascii. eapply Forall_impl; [exact H|]. intros c (_ & Hc & _). lia.
Qed.

Lemma digit_plain c : is_digit c = true -> plain c.
Proof. unfold is_digit, plain. lia. Qed.

Lemma value_zeros k l : value_of_digits (zeros k ++ l) = value_of_digits l.
Proof.
  unfold zeros. induction (Z.to_nat k) as [|n IH]; [done|]. cbn [List.repeat app].
  unfold value_of_digits in *. cbn [fold_left]. change (0 * 10 + digit_val "0") with 0. exact IH.
Qed.

Lemma zeros_length k : (0 <= k)%Z -> Z.of_nat (List.length (zeros k)) = k.
Proof. intros H. unfold zeros. rewrite List.repeat_length. lia. Qed.

Lemma zeros_digits k : Forall (fun c => is_digit c = true) (zeros k).
Proof. unfold zeros. induction (Z.to_nat k); cbn; constructor; done. Qed.

(** The pieces [str] prints: an integer part, perhaps a fraction, perhaps an exponent. *)
Definition frac_text (fp : bytes) : bytes := match fp with [] => [] | _ => "."%char :: fp end.
Definition exp_text (z : Z) : bytes := if (z =? 0)%Z then [] else "E"%char :: signed_exponent z.

Lemma frac_text_nonempty fp : fp <> [] -> frac_text fp = "."%char :: fp.
Proof. by destruct fp. Qed.

Lemma read_exponent_text z : read_exponent (exp_text z) = Some z.
Proof.
  unfold exp_text. destruct (Z.eqb_spec z 0) as [->|Hz]; [done|].
  unfold read_exponent, signed_exponent. cbn [lower]. change (code (lower "E")) with 101.
  cbn [N.eqb Pos.eqb]. set (sg := if (z <? 0)%Z then _ else _).
  assert (E : read_sign (sg :: digits_of_N (Z.abs_N z)) = ((z <? 0)%Z, digits_of_N (Z.abs_N z)))
    by (unfold sg; by destruct (z <? 0)%Z).
  rewrite E. rewrite <- (app_nil_r (digits_of_N (Z.abs_N z))).
  rewrite span_app by (apply digits_all || done).
  destruct (digits_of_N (Z.abs_N z)) as [|d ds] eqn:Ed; [by apply digits_nonempty in Ed|].
  rewrite <- Ed, value_digits. f_equal. apply signed_abs.
Qed.

Lemma stops_frac fp z : stops is_digit (frac_text fp ++ exp_text z).
Proof. destruct fp; cbn; [|done]. unfold exp_text. by destruct (z =? 0)%Z. Qed.

Lemma read_finite_text neg ip fp z : ip <> [] ->
  Forall (fun c => is_digit c = true) ip -> Forall (fun c => is_digit c = true) fp ->
  read_finite neg (ip ++ frac_text fp ++ exp_text z)
  = Some (Fin neg (value_of_digits (ip ++ fp)) (z - Z.of_nat (List.length fp))).
Proof.
  intros Hne Hi Hf. unfold read_finite. rewrite span_app by (done || apply stops_frac).
  destruct fp as [|d fp].
  - cbn [frac_text app].
    assert (E : (match exp_text z with
                 | [] => ([], []) | c :: r' => if code c =? 46 then span is_digit r' else ([], exp_text z)
                 end) = ([], exp_text z))
      by (unfold exp_text; by destruct (z =? 0)%Z).
    rewrite E. clear E. rewrite bool_decide_eq_false_2 by (by intros [? _]).
    rewrite read_exponent_text. done.
  - change (frac_text (d :: fp) ++ exp_text z) with ("."%char :: (d :: fp) ++ exp_text z).
    cbn beta iota. change (code "." =? 46) with true. cbn beta iota.
    rewrite span_app; [|done|unfold exp_text; by destruct (z =? 0)%Z].
    rewrite bool_decide_eq_false_2 by (by intros [? _]). by rewrite read_exponent_text.
Qed.

(** [str] of a finite value in those pieces. *)
Lemma dec_text_pieces s c e : exists ip fp z,
  dec_text (Fin s c e) = (if s then enc "-" else []) ++ ip ++ frac_text fp ++ exp_text z
  /\ ip <> [] /\ Forall (fun c => is_digit c = true) ip /\ Forall (fun c => is_digit c = true) fp
  /\ value_of_digits (ip ++ fp) = c /\ (z - Z.of_nat (List.length fp))%Z = e.
Proof.
  unfold dec_text. set (ds := digits_of_N c). set (n := Z.of_nat (List.length ds)).
  assert (Hn : (1 <= n)%Z) by (pose proof (ndigits_pos c); unfold n, ds, ndigits in *; lia).
  set (left := (e + n)%Z).
  set (dot := if (e <=? 0)%Z && (-6 <? left)%Z then left else 1%Z).
  assert (Hdot : (dot = left /\ e <= 0)%Z \/ dot = 1%Z)
    by (unfold dot; destruct (e <=? 0)%Z eqn:E; destruct (-6 <? left)%Z; cbn; lia).
  assert (Hexp : (if (left =? dot)%Z then [] else "E"%char :: signed_exponent (left - dot))
                 = exp_text (left - dot)).
  { unfold exp_text. destruct (Z.eqb_spec left dot) as [E|E], (Z.eqb_spec (left - dot) 0); try lia; done. }
  rewrite Hexp. pose proof (digits_all c) as Hall. fold ds in Hall.
  pose proof (value_digits c) as Hv. fold ds in Hv.
  assert (Hds : ds <> []) by apply digits_nonempty. clearbody ds.
  destruct (Z.leb_spec dot 0).
  - exists ["0"%char], (zeros (- dot) ++ ds), (left - dot)%Z.
    split; [|split; [done|split; [by repeat constructor|split]]].
    + rewrite frac_text_nonempty.
      { change (enc "0.") with ["0"%char; "."%char]. cbn [app]. by rewrite <- !app_assoc. }
      by intros [_ E]%app_eq_nil.
    + apply Forall_app. split; [apply zeros_digits|done].
    + change (["0"%char] ++ zeros (- dot) ++ ds) with (zeros 1 ++ zeros (- dot) ++ ds).
      rewrite !value_zeros. split; [done|]. rewrite List.length_app, Nat2Z.inj_add.
      rewrite zeros_length by lia. fold n. lia.
  - destruct (Z.leb_spec n dot).
    + exists ds, [], (left - dot)%Z.
      replace (zeros (dot - n)) with (@nil ascii) by (unfold zeros; by replace (Z.to_nat (dot - n)) with 0%nat by lia).
      rewrite !app_nil_r. split; [done|]. split; [done|].
      split; [done|]. split; [constructor|]. split; [done|]. cbn. lia.
    + assert (Hk : (Z.to_nat dot < List.length ds)%nat) by (unfold n in *; lia).
      exists (take (Z.to_nat dot) ds), (drop (Z.to_nat dot) ds), (left - dot)%Z.
      split; [|split; [|split; [by apply Forall_take|split; [by apply Forall_drop|split]]]].
      * rewrite frac_text_nonempty.
        { change (enc ".") with ["."%char]. cbn [app]. by rewrite <- !app_assoc. }
        intros E. apply (f_equal (@List.length ascii)) in E. rewrite List.length_skipn in E. cbn in E. lia.
      * intros E. apply (f_equal (@List.length ascii)) in E. rewrite List.length_firstn in E. cbn in E. lia.
      * by rewrite take_drop.
      * rewrite List.length_skipn. unfold n in *. lia.
Qed.

Lemma exp_plain z : Forall plain (exp_text z).
Proof.
  unfold exp_text. destruct (z =? 0)%Z; [constructor|]. constructor; [by vm_compute|].
  unfold signed_exponent. constructor; [destruct (z <? 0)%Z; by vm_compute|].
  eapply Forall_impl; [apply digits_all|]. apply digit_plain.
Qed.

(** Text that starts with a digit is no sign and no special value. *)
Lemma digit_start neg c l : is_digit c = true ->
  read_sign (c :: l) = (false, c :: l)
  /\ (forall t, bool_decide (List.map lower (c :: l) = enc "inf" \/ List.map lower (c :: l) = enc "infinity") = t -> t = false)
  /\ starts_with (enc "nan") (List.map lower (c :: l)) = None
  /\ starts_with (enc "snan") (List.map lower (c :: l)) = None
  /\ read_sign ((if neg : bool then enc "-" else []) ++ c :: l) = (neg, c :: l).
Proof.
  intros Hc. unfold is_digit in Hc.
  assert (Hl : lower c = c) by (unfold lower; replace ((65 <=? code c) && (code c <=? 90)) with false by lia; done).
  assert (Hi : forall x : ascii, 90 < code x -> x <> c) by (intros x Hx ->; lia).
  assert (Hs : read_sign (c :: l) = (false, c :: l)).
  { unfold read_sign. replace (code c =? 45) with false by lia. by replace (code c =? 43) with false by lia. }
  split; [exact Hs|]. cbn [List.map]. rewrite Hl. split; [|split; [|split]].
  - intros t <-. apply bool_decide_eq_false_2. intros [H|H]; injection H as H _; revert H;
      apply not_eq_sym, Hi; by vm_compute.
  - change (enc "nan") with ("n"%char :: enc "an"). cbn [starts_with]. destruct (ascii_dec "n" c) as [E|]; [|done]. exfalso. eapply Hi; [|exact E]. by vm_compute.
  - change (enc "snan") with ("s"%char :: enc "nan"). cbn [starts_with]. destruct (ascii_dec "s" c) as [E|]; [|done]. exfalso. eapply Hi; [|exact E]. by vm_compute.
  - destruct neg; [done|exact Hs].
Qed.

(** Reading back what [str] printed gives the same sign, coefficient and exponent. *)
Lemma Decimal_str_round s c e : Decimal_of_str (dec_str (Fin s c e)) = Ok (Fin s c e).
Proof.
  unfold Decimal_of_str, dec_str. rewrite enc_dec.
  destruct (dec_text_pieces s c e) as (ip & fp & z & E & Hne & Hi & Hf & Hv & He).
  assert (Hp : Forall plain (dec_text (Fin s c e))).
  { rewrite E. apply Forall_app. split; [destruct s; repeat constructor; by vm_compute|].
    apply Forall_app. split; [by eapply Forall_impl; [exact Hi|apply digit_plain]|].
    apply Forall_app. split; [|apply exp_plain]. destruct fp as [|d fp]; [constructor|].
    constructor; [by vm_compute|]. by eapply Forall_impl; [exact Hf|apply digit_plain]. }
  unfold Decimal_of_text. rewrite strip_plain, filter_plain, fold_plain by done. rewrite E.
  destruct ip as [|d ip]; [done|]. pose proof (Forall_inv Hi) as Hd. cbn beta in Hd.
  cbn [app]. destruct (digit_start s d (ip ++ frac_text fp ++ exp_text z) Hd) as (_ & H1 & H2 & H3 & H4).
  rewrite H4, (H1 _ eq_refl), H2, H3.
  change (d :: ip ++ frac_text fp ++ exp_text z) with ((d :: ip) ++ frac_text fp ++ exp_text z).
  rewrite read_finite_text by done. by rewrite Hv, He.
Qed.
