(* ===== verification/Floats.v ===== *)
(** * Floats: the decimals of binary64 values

    [Decimal(x)] of a float is the float's exact value.  A float reaches the ledger as a
    JSON number token; it is the nearest binary64 value, ties to even. *)
From Stdlib Require Import ZArith NArith Ascii String Lia ZifyBool ZifyN ZifyNat.
From stdpp Require Import base list numbers strings.
From S2P Require Import Prelude Text Json Unicode Decimals.
#[local] Open Scope N_scope.

(** [num / den] as [m * 2^k], [m] of at most 53 bits and [k] at least -1074. *)
Definition nearest_binary (num den : N) : N * Z :=
  let k0 := (Z.of_N (N.size num) - Z.of_N (N.size den) - 53)%Z in
  let scaled k := if (0 <=? k)%Z then num / (den * 2 ^ Z.to_N k) else (num * 2 ^ Z.to_N (- k)) / den in
  let k := Z.max (if (2 ^ 53 <=? scaled k0)%N then k0 + 1 else k0)%Z (-1074) in
  let '(x, y) := if (0 <=? k)%Z then (num, den * 2 ^ Z.to_N k) else (num * 2 ^ Z.to_N (- k), den) in
  let q := x / y in
  let r := x mod y in
  let up := (y <? 2 * r) || ((y =? 2 * r) && N.odd q) in
  (if up then q + 1 else q, k).

(** Factors of two out of [m] while [k] is negative. *)
Fixpoint lowest_terms (fuel : nat) (m : N) (k : Z) : N * Z :=
  match fuel with
  | O => (m, k)
  | S f => if (k <? 0)%Z && N.even m then lowest_terms f (m / 2) (k + 1) else (m, k)
  end.

(** [Decimal.from_float] of the float nearest to a finite decimal. *)
Definition float_of (s : bool) (c : N) (e : Z) : decimal :=
  if c =? 0 then Fin s 0 0
  else
    let '(num, den) := if (0 <=? e)%Z then (c * pow10 e, 1) else (c, pow10 (- e)) in
    let '(m, k) := nearest_binary num den in
    if m =? 0 then Fin s 0 0
    else if (1024 <? Z.of_N (N.size m) + k)%Z then Inf s
    else
      let '(m, k) := lowest_terms 1100 m k in
      if (0 <=? k)%Z then Fin s (m * 2 ^ Z.to_N k) 0 else Fin s (m * 5 ^ Z.to_N (- k)) k.

(** The decimal of a JSON number token with a fraction or an exponent. *)
Definition float_token (t : string) : res decimal :=
  let '(neg, l) := read_sign (enc t) in
  match read_finite neg l with
  | Some (Fin s c e) => Ok (float_of s c e)
  | _ => Raise ValueError
  end.

Definition json_digit (v : json) : option N :=
  match v with
  | JInt z => if ((0 <=? z) && (z <=? 9))%Z then Some (Z.to_N z) else None
  | JBool b => Some (if b then 1 else 0)
  | _ => None
  end.
Definition json_digits (l : list json) : option N :=
  fold_left (fun acc v => match acc, json_digit v with
                          | Some n, Some d => Some (n * 10 + d)
                          | _, _ => None
                          end) l (Some 0).

(** [Decimal((sign, digits, exponent))]. *)
Definition Decimal_of_triple (l : list json) : res decimal :=
  match l with
  | [sg; ds; ex] =>
      match json_digit sg with
      | Some sg =>
          if 1 <? sg then Raise ValueError else
          let neg := sg =? 1 in
          match ds with
          | JArr ds =>
              match json_digits ds with
              | None => Raise ValueError
              | Some n =>
                  match ex with
                  | JStr s => if String.eqb s "F" then Ok (Inf neg)
                              else if String.eqb s "n" || String.eqb s "N" then Ok (NaN neg (String.eqb s "N") n)
                              else Raise ValueError
                  | JInt e => Ok (Fin neg n e)
                  | JBool b => Ok (Fin neg n (if b then 1 else 0))
                  | _ => Raise ValueError
                  end
              end
          | _ => Raise ValueError
          end
      | None => Raise ValueError
      end
  | _ => Raise ValueError
  end.

(** [Decimal(v)] of a parsed value. *)
Definition Decimal_of_json (v : json) : res decimal :=
  match v with
  | JStr s => Decimal_of_str s
  | JInt z => Ok (Decimal_of_Z z)
  | JBool b => Ok (Decimal_of_Z (if b then 1 else 0))
  | JFloat t => float_token t
  | JArr l => Decimal_of_triple l
  | JNull | JObj _ => Raise TypeError
  end.
