(* ===== verification/Arithmetic.v ===== *)
(** * Arithmetic: core/vivacore/verify/arithmetic.py

    The identities a financial document imposes on itself, over [Decimals] in the default
    context.  Each check converts its arguments in the order the code does, sums its items
    lazily from zero, and compares [abs(delta)] with the tolerance.  The laws say what a
    verdict means: while the figures fit the context's precision, [passed] is the exact
    identity on integers of a common unit. *)
From Stdlib Require Import ZArith NArith Ascii String Lia ZifyBool ZifyN.
From stdpp Require Import base list numbers strings.
From S2P Require Import Prelude Text Json Decimals.
#[local] Open Scope string_scope.

Record CheckResult := mkCheckResult {
  passed : bool;
  check : string;
  expected : string;
  actual : string;
  delta : string;
  tolerance : string
}.

#[export] Instance CheckResult_eq_dec : EqDecision CheckResult.
Proof. solve_decision. Defined.

Definition explain (r : CheckResult) : string :=
  "[" ++ (if passed r then "PASS" else "FAIL") ++ "] " ++ check r ++ ": expected " ++ expected r
  ++ ", got " ++ actual r ++ " (delta " ++ delta r ++ ", tolerance " ++ tolerance r ++ ")".

Definition as_decimal (x : number) : res decimal :=
  match x with
  | NumFloat _ => Raise TypeError
  | _ => Decimal x
  end.

(** [sum((_as_decimal(x) for x in xs), start=Decimal("0"))]. *)
Definition sum_decimals (xs : list number) : res decimal :=
  rfold (fun acc x => let? d := as_decimal x in dadd default_ctx acc d) xs (Fin false 0 0).

(** The comparison and record every check ends with. *)
Definition verdict (label : string) (expected_d actual_d tol : decimal) : res CheckResult :=
  let? d := dsub default_ctx actual_d expected_d in
  let? a := dabs default_ctx d in
  let? ok := dle a tol in
  Ok (mkCheckResult ok label (dec_str expected_d) (dec_str actual_d) (dec_str d) (dec_str tol)).

Definition check_balance_identity (opening : number) (transactions : list number)
    (closing tol : number) : res CheckResult :=
  let? opening_d := as_decimal opening in
  let? closing_d := as_decimal closing in
  let? tol_d := as_decimal tol in
  let? total := sum_decimals transactions in
  let? expected_d := dadd default_ctx opening_d total in
  verdict "balance identity (opening + transactions = closing)" expected_d closing_d tol_d.

Definition check_paystub_identity (gross : number) (deductions : list number)
    (net tol : number) : res CheckResult :=
  let? gross_d := as_decimal gross in
  let? net_d := as_decimal net in
  let? tol_d := as_decimal tol in
  let? total_ded := sum_decimals deductions in
  let? expected_net := dsub default_ctx gross_d total_ded in
  verdict "pay-stub identity (gross - deductions = net)" expected_net net_d tol_d.

Definition check_brokerage_identity (position_values : list number)
    (cash total tol : number) : res CheckResult :=
  let? cash_d := as_decimal cash in
  let? total_d := as_decimal total in
  let? tol_d := as_decimal tol in
  let? holdings := sum_decimals position_values in
  let? expected_d := dadd default_ctx holdings cash_d in
  verdict "brokerage identity (Σ positions + cash = total)" expected_d total_d tol_d.

Definition check_sum (items : list number) (total : number) (label : string)
    (tol : number) : res CheckResult :=
  let? tol_d := as_decimal tol in
  let? total_d := as_decimal total in
  let? expected_d := sum_decimals items in
  verdict label expected_d total_d tol_d.

(** The default tolerance. *)
Definition no_tolerance : number := NumStr "0".

Example statement_reconciles :
  (passed <$> (match check_balance_identity (NumStr "100.00") [NumStr "-30.25"; NumStr "5"]
                       (NumStr "74.75") no_tolerance with Ok r => Some r | _ => None end)) = Some true.
Proof. reflexivity. Qed.
Example statement_off_by_a_cent :
  (explain <$> (match check_balance_identity (NumStr "100.00") [NumStr "-30.25"; NumStr "5"]
                       (NumStr "74.76") no_tolerance with Ok r => Some r | _ => None end))
  = Some "[FAIL] balance identity (opening + transactions = closing): expected 74.75, got 74.76 (delta 0.01, tolerance 0)".
Proof. reflexivity. Qed.

(** ** What a verdict means *)

(** A figure that reads as a whole number of units of [10^e0]. *)
Definition reads (e0 : Z) (x : number) (z : Z) : Prop :=
  exists d, as_decimal x = Ok d /\ on_scale e0 d /\ units e0 d = z.
Definition zsum (l : list Z) : Z := fold_right Z.add 0%Z l.
Definition mags (l : list Z) : Z := zsum (List.map Z.abs l).

Lemma zsum_cons z l : zsum (z :: l) = (z + zsum l)%Z.
Proof. done. Qed.
Lemma mags_cons z l : mags (z :: l) = (Z.abs z + mags l)%Z.
Proof. done. Qed.
Lemma mags_nonneg l : (0 <= mags l)%Z.
Proof. induction l; [done|]. rewrite mags_cons. lia. Qed.
Lemma zsum_mags l : (Z.abs (zsum l) <= mags l)%Z.
Proof. induction l; [done|]. rewrite mags_cons, zsum_cons. lia. Qed.

Lemma fits_le cx a b : fits cx b -> (Z.abs a <= Z.abs b)%Z -> fits cx a.
Proof. unfold fits. lia. Qed.

Lemma rfold_exact e0 xs zs acc : scale_ok default_ctx e0 -> on_scale e0 acc ->
  Forall2 (reads e0) xs zs -> fits default_ctx (Z.abs (units e0 acc) + mags zs) ->
  exists r, rfold (fun a x => let? d := as_decimal x in dadd default_ctx a d) xs acc = Ok r
    /\ on_scale e0 r /\ units e0 r = (units e0 acc + zsum zs)%Z.
Proof.
  intros Hs Ha H. revert acc Ha. induction H as [|x z xs zs (d & Ed & Hd & Hz) H IH]; intros acc Ha Hf.
  - exists acc. split; [done|]. split; [done|]. cbn. lia.
  -
    pose proof (mags_nonneg zs). rewrite mags_cons in Hf. cbn [rfold]. rewrite Ed. cbn [rbind].
    destruct (dadd_exact default_ctx e0 acc d Hs Ha Hd) as (r & -> & Hr & Hu).
    { eapply fits_le; [exact Hf|]. lia. }
    cbn [rbind]. destruct (IH r Hr) as (r' & E & Hr' & Hu').
    { eapply fits_le; [exact Hf|]. lia. }
    exists r'. split; [exact E|]. split; [done|]. rewrite zsum_cons. lia.
Qed.

Lemma sum_exact e0 xs zs : scale_ok default_ctx e0 -> (e0 <= 0)%Z ->
  Forall2 (reads e0) xs zs -> fits default_ctx (mags zs) ->
  exists r, sum_decimals xs = Ok r /\ on_scale e0 r /\ units e0 r = zsum zs.
Proof.
  intros Hs He H Hf. destruct (rfold_exact e0 xs zs (Fin false 0 0)) as (r & E & Hr & Hu); try done.
  exists r. split; [exact E|]. split; [done|]. rewrite Hu. cbn. lia.
Qed.

(** A verdict that says what it should: passing is the inequality on units, and the
    printed difference is the difference. *)
Definition verdict_says (e0 want got tol : Z) (r : CheckResult) : Prop :=
  passed r = (Z.abs (got - want) <=? tol)%Z
  /\ exists d, Decimal_of_str (delta r) = Ok d /\ on_scale e0 d /\ units e0 d = (got - want)%Z.

Lemma verdict_exact label e0 w g t : scale_ok default_ctx e0 ->
  on_scale e0 w -> on_scale e0 g -> on_scale e0 t ->
  fits default_ctx (units e0 g - units e0 w) ->
  exists r, verdict label w g t = Ok r /\ check r = label
    /\ expected r = dec_str w /\ actual r = dec_str g
    /\ verdict_says e0 (units e0 w) (units e0 g) (units e0 t) r.
Proof.
  intros Hs Hw Hg Ht Hf. unfold verdict.
  destruct (dsub_exact default_ctx e0 g w Hs Hg Hw Hf) as (d & -> & Hd & Hu). cbn [rbind].
  destruct (dabs_exact default_ctx e0 d Hs Hd) as (a & -> & Ha & Hua); [by rewrite Hu|]. cbn [rbind].
  rewrite (dle_units e0) by done. cbn [rbind]. eexists. split; [done|]. split; [done|].
  split; [done|]. split; [done|]. split; [cbn; by rewrite Hua, Hu|].
  exists d. split; [|by split]. destruct d as [s c e| |]; [|done..]. apply Decimal_str_round.
Qed.

(** ** The four checks on figures of one scale *)
Section Exact.
Context (e0 : Z) (Hs : scale_ok default_ctx e0) (He : (e0 <= 0)%Z).
Context (tol : number) (zt : Z) (Ht : reads e0 tol zt).

Lemma balance_check_exact a xs b za zs zb : reads e0 a za -> Forall2 (reads e0) xs zs -> reads e0 b zb ->
  fits default_ctx (Z.abs za + mags zs + Z.abs zb) ->
  exists r, check_balance_identity a xs b tol = Ok r /\ verdict_says e0 (za + zsum zs) zb zt r.
Proof using Hs He Ht.
  intros (ad & Ea & Ha & Hua) Hx (bd & Eb & Hb & Hub) Hf. destruct Ht as (td & Et & Htd & Hut).
  pose proof (mags_nonneg zs). pose proof (zsum_mags zs).
  unfold check_balance_identity. rewrite Ea, Eb, Et. cbn [rbind].
  destruct (sum_exact e0 xs zs Hs He Hx) as (t & -> & Hst & Hts); [eapply fits_le; [exact Hf|]; lia|].
  cbn [rbind]. destruct (dadd_exact default_ctx e0 ad t Hs Ha Hst) as (w & -> & Hw & Huw);
    [eapply fits_le; [exact Hf|]; lia|].
  cbn [rbind]. destruct (verdict_exact "balance identity (opening + transactions = closing)" e0 w bd td)
    as (r & -> & _ & _ & _ & Hr); try done; [eapply fits_le; [exact Hf|]; lia|].
  exists r. split; [done|]. by rewrite <- Hua, <- Hub, <- Hut, <- Hts, <- Huw.
Qed.

Lemma paystub_check_exact a xs b za zs zb : reads e0 a za -> Forall2 (reads e0) xs zs -> reads e0 b zb ->
  fits default_ctx (Z.abs za + mags zs + Z.abs zb) ->
  exists r, check_paystub_identity a xs b tol = Ok r /\ verdict_says e0 (za - zsum zs) zb zt r.
Proof using Hs He Ht.
  intros (ad & Ea & Ha & Hua) Hx (bd & Eb & Hb & Hub) Hf. destruct Ht as (td & Et & Htd & Hut).
  pose proof (mags_nonneg zs). pose proof (zsum_mags zs).
  unfold check_paystub_identity. rewrite Ea, Eb, Et. cbn [rbind].
  destruct (sum_exact e0 xs zs Hs He Hx) as (t & -> & Hst & Hts); [eapply fits_le; [exact Hf|]; lia|].
  cbn [rbind]. destruct (dsub_exact default_ctx e0 ad t Hs Ha Hst) as (w & -> & Hw & Huw);
    [eapply fits_le; [exact Hf|]; lia|].
  cbn [rbind]. destruct (verdict_exact "pay-stub identity (gross - deductions = net)" e0 w bd td)
    as (r & -> & _ & _ & _ & Hr); try done; [eapply fits_le; [exact Hf|]; lia|].
  exists r. split; [done|]. by rewrite <- Hua, <- Hub, <- Hut, <- Hts, <- Huw.
Qed.

Lemma brokerage_check_exact a xs b za zs zb : reads e0 a za -> Forall2 (reads e0) xs zs -> reads e0 b zb ->
  fits default_ctx (Z.abs za + mags zs + Z.abs zb) ->
  exists r, check_brokerage_identity xs a b tol = Ok r /\ verdict_says e0 (zsum zs + za) zb zt r.
Proof using Hs He Ht.
  intros (ad & Ea & Ha & Hua) Hx (bd & Eb & Hb & Hub) Hf. destruct Ht as (td & Et & Htd & Hut).
  pose proof (mags_nonneg zs). pose proof (zsum_mags zs).
  unfold check_brokerage_identity. rewrite Ea, Eb, Et. cbn [rbind].
  destruct (sum_exact e0 xs zs Hs He Hx) as (t & -> & Hst & Hts); [eapply fits_le; [exact Hf|]; lia|].
  cbn [rbind]. destruct (dadd_exact default_ctx e0 t ad Hs Hst Ha) as (w & -> & Hw & Huw);
    [eapply fits_le; [exact Hf|]; lia|].
  cbn [rbind]. destruct (verdict_exact "brokerage identity (Σ positions + cash = total)" e0 w bd td)
    as (r & -> & _ & _ & _ & Hr); try done; [eapply fits_le; [exact Hf|]; lia|].
  exists r. split; [done|]. by rewrite <- Hua, <- Hub, <- Hut, <- Hts, <- Huw.
Qed.

Lemma sum_check_exact label xs b zs zb : Forall2 (reads e0) xs zs -> reads e0 b zb ->
  fits default_ctx (mags zs + Z.abs zb) ->
  exists r, check_sum xs b label tol = Ok r /\ check r = label /\ verdict_says e0 (zsum zs) zb zt r.
Proof using Hs He Ht.
  intros Hx (bd & Eb & Hb & Hub) Hf. destruct Ht as (td & Et & Htd & Hut).
  pose proof (mags_nonneg zs). pose proof (zsum_mags zs).
  unfold check_sum. rewrite Et, Eb. cbn [rbind].
  destruct (sum_exact e0 xs zs Hs He Hx) as (t & -> & Hst & Hts); [eapply fits_le; [exact Hf|]; lia|].
  cbn [rbind]. destruct (verdict_exact label e0 t bd td) as (r & -> & Hl & _ & _ & Hr); try done;
    [eapply fits_le; [exact Hf|]; lia|].
  exists r. split; [done|]. split; [done|]. by rewrite <- Hub, <- Hut, <- Hts.
Qed.
End Exact.

(** A float among the items is never summed. *)
Lemma sum_floats xs acc r :
  rfold (fun a x => let? d := as_decimal x in dadd default_ctx a d) xs acc = Ok r ->
  Forall (fun x => forall d, x <> NumFloat d) xs.
Proof.
  revert acc. induction xs as [|x xs IH]; intros acc H; [constructor|]. cbn [rfold] in H. run_ok.
  constructor; [|by eapply IH]. intros d ->. done.
Qed.

(** Past the context's 28 digits the sums round: this statement is four tenths off, and passes. *)
Lemma passes_beyond_precision :
  exists r, check_balance_identity (NumStr "1E+28") [NumStr "0.4"] (NumStr "1E+28") no_tolerance = Ok r
    /\ passed r = true /\ delta r = "0E+1".
Proof. eexists. split; [vm_compute; reflexivity|]. by split. Qed.
