(* ===== verification/Hashing.v ===== *)
(** * Hashing: the parts of [hashlib], [hmac] and [base64] the program calls

    SHA-256 (FIPS 180-4) over byte lists, HMAC-SHA-256 (RFC 2104), and RFC 4648 base64
    with the lenient decoder of CPython's [b64decode].  All are executable; test vectors
    close the file.  Nothing is assumed about SHA-256: a theorem that needs it to
    separate messages names the finite list of them that must not collide. *)
From Stdlib Require Import ZArith NArith Ascii String Lia ZifyBool ZifyN ZifyNat.
From stdpp Require Import base list numbers strings.
From S2P Require Import Prelude Text.
#[local] Open Scope N_scope.

(** ** SHA-256 *)
Definition w32 (n : N) : N := N.land n 4294967295.
Definition rotr (k x : N) : N := w32 (N.lor (N.shiftr x k) (N.shiftl x (32 - k))).
Definition wnot (x : N) : N := N.lxor x 4294967295.
Definition sum32 (l : list N) : N := w32 (fold_right N.add 0 l).

Definition Ch x y z := N.lxor (N.land x y) (N.land (wnot x) z).
Definition Maj x y z := N.lxor (N.lxor (N.land x y) (N.land x z)) (N.land y z).
Definition big0 x := N.lxor (N.lxor (rotr 2 x) (rotr 13 x)) (rotr 22 x).
Definition big1 x := N.lxor (N.lxor (rotr 6 x) (rotr 11 x)) (rotr 25 x).
Definition small0 x := N.lxor (N.lxor (rotr 7 x) (rotr 18 x)) (N.shiftr x 3).
Definition small1 x := N.lxor (N.lxor (rotr 17 x) (rotr 19 x)) (N.shiftr x 10).

Definition sha_K : list N :=
  [1116352408; 1899447441; 3049323471; 3921009573; 961987163; 1508970993; 2453635748;
   2870763221; 3624381080; 310598401; 607225278; 1426881987; 1925078388; 2162078206;
   2614888103; 3248222580; 3835390401; 4022224774; 264347078; 604807628; 770255983;
   1249150122; 1555081692; 1996064986; 2554220882; 2821834349; 2952996808; 3210313671;
   3336571891; 3584528711; 113926993; 338241895; 666307205; 773529912; 1294757372;
   1396182291; 1695183700; 1986661051; 2177026350; 2456956037; 2730485921; 2820302411;
   3259730800; 3345764771; 3516065817; 3600352804; 4094571909; 275423344; 430227734;
   506948616; 659060556; 883997877; 958139571; 1322822218; 1537002063; 1747873779;
   1955562222; 2024104815; 2227730452; 2361852424; 2428436474; 2756734187; 3204031479;
   3329325298].
Definition sha_H0 : list N :=
  [1779033703; 3144134277; 1013904242; 2773480762; 1359893119; 2600822924; 528734635;
   1541459225].

Definition word_bytes (w : N) : bytes :=
  [chr (N.land (N.shiftr w 24) 255); chr (N.land (N.shiftr w 16) 255);
   chr (N.land (N.shiftr w 8) 255); chr (N.land w 255)].

(** Message padding: a one bit, zeros to 56 modulo 64, the bit length in 8 bytes. *)
Definition sha_pad (m : bytes) : bytes :=
  let n := N.of_nat (length m) in
  let z := (119 - n mod 64) mod 64 in
  m ++ chr 128 :: repeat (chr 0) (N.to_nat z)
    ++ word_bytes (N.shiftr (8 * n) 32) ++ word_bytes (w32 (8 * n)).

Fixpoint words_of (l : bytes) : list N :=
  match l with
  | a :: b :: c :: d :: l' =>
      N.lor (N.shiftl (code a) 24) (N.lor (N.shiftl (code b) 16)
        (N.lor (N.shiftl (code c) 8) (code d))) :: words_of l'
  | _ => []
  end.

(** The message schedule, newest word first: [W[t]] for [t] from 16 to 63. *)
Fixpoint schedule (n : nat) (w : list N) : list N :=
  match n with
  | O => w
  | S n' =>
      match w with
      | _ :: w1 :: _ :: _ :: _ :: _ :: w6 :: _ :: _ :: _ :: _ :: _ :: _ :: _ :: w14 :: w15 :: _ =>
          schedule n' (sum32 [small1 w1; w6; small0 w14; w15] :: w)
      | _ => w
      end
  end.

Definition sha_round (st : list N) (kw : N * N) : list N :=
  match st with
  | [a; b; c; d; e; f; g; h] =>
      let t1 := sum32 [h; big1 e; Ch e f g; kw.1; kw.2] in
      let t2 := sum32 [big0 a; Maj a b c] in
      [sum32 [t1; t2]; a; b; c; sum32 [d; t1]; e; f; g]
  | _ => st
  end.

Definition sha_block (st : list N) (ws : list N) : list N :=
  let w := rev (schedule 48 (rev ws)) in
  zip_with (fun x y => sum32 [x; y]) st (fold_left sha_round (zip sha_K w) st).

Fixpoint sha_blocks (n : nat) (st : list N) (ws : list N) : list N :=
  match n with
  | O => st
  | S n' => sha_blocks n' (sha_block st (take 16 ws)) (drop 16 ws)
  end.

(** [hashlib.sha256(m).digest()] and [.hexdigest()]. *)
Definition sha256 (m : bytes) : bytes :=
  let ws := words_of (sha_pad m) in
  flat_map word_bytes (sha_blocks (Nat.div (length ws) 16) sha_H0 ws).
Definition sha256_hex (m : bytes) : string := hexlify (sha256 m).

(** No two distinct messages of a given list share a digest.  It is a property of that
    list: over all messages it would be false. *)
Definition collision_free (texts : list bytes) : Prop :=
  forall m m', m ∈ texts -> m' ∈ texts -> sha256_hex m = sha256_hex m' -> m = m'.

(** ** HMAC *)
Definition hmac_block (key : bytes) : bytes :=
  let k := if decide (length key <= 64)%nat then key else sha256 key in
  k ++ repeat (chr 0) (64 - length k).
Definition xor_pad (p : N) (k : bytes) : bytes :=
  List.map (fun c => chr (N.lxor (code c) p)) k.
(** [hmac.new(key, msg, hashlib.sha256).digest()]. *)
Definition hmac_sha256 (key msg : bytes) : bytes :=
  let k := hmac_block key in
  sha256 (xor_pad 92 k ++ sha256 (xor_pad 54 k ++ msg)).

(** [hmac.compare_digest] of two [str]: it accepts ASCII text only. *)
Definition is_ascii (s : string) : bool := forallb (fun c => code c <? 128) (enc s).
Definition compare_digest (a b : string) : res bool :=
  if is_ascii a && is_ascii b then Ok (String.eqb a b) else Raise TypeError.

Lemma hexlify_ascii b : is_ascii (hexlify b) = true.
Proof.
  unfold is_ascii, hexlify. rewrite enc_dec. apply forallb_forall. intros c Hc.
  apply in_concat in Hc as (l & Hl & Hc). apply in_map_iff in Hl as (x & <- & _).
  pose proof (code_bound x).
  assert (Hd : forall d, d < 16 -> code (hex_char d) < 128).
  { intros d Hd. unfold hex_char. destruct (N.ltb_spec d 10); rewrite code_chr; lia. }
  apply N.ltb_lt. destruct Hc as [<-|[<-|[]]]; apply Hd.
  - apply N.Div0.div_lt_upper_bound; lia.
  - by apply N.mod_lt.
Qed.

Lemma compare_digest_refl s : is_ascii s = true -> compare_digest s s = Ok true.
Proof. intros H. unfold compare_digest. by rewrite H, String.eqb_refl. Qed.

Lemma compare_digest_true a b : compare_digest a b = Ok true -> a = b.
Proof.
  unfold compare_digest. destruct (_ && _); [|discriminate]. intros [= H]. by apply String.eqb_eq.
Qed.

(** ** Base64 *)
Definition b64_char (n : N) : ascii :=
  if n <? 26 then chr (65 + n)
  else if n <? 52 then chr (97 + (n - 26))
  else if n <? 62 then chr (48 + (n - 52))
  else if n =? 62 then "+"%char else "/"%char.
Definition b64_val (c : ascii) : option N :=
  let n := code c in
  if (65 <=? n) && (n <=? 90) then Some (n - 65)
  else if (97 <=? n) && (n <=? 122) then Some (n - 71)
  else if (48 <=? n) && (n <=? 57) then Some (n + 4)
  else if n =? 43 then Some 62
  else if n =? 47 then Some 63
  else None.

Fixpoint b64_encode (l : bytes) : bytes :=
  match l with
  | a :: b :: c :: l' =>
      b64_char (code a / 4) :: b64_char ((code a mod 4) * 16 + code b / 16)
      :: b64_char ((code b mod 16) * 4 + code c / 64) :: b64_char (code c mod 64)
      :: b64_encode l'
  | [a; b] => [b64_char (code a / 4); b64_char ((code a mod 4) * 16 + code b / 16);
               b64_char ((code b mod 16) * 4); "="%char]
  | [a] => [b64_char (code a / 4); b64_char ((code a mod 4) * 16); "="%char; "="%char]
  | [] => []
  end.

(** CPython's non-strict decoder: characters outside the alphabet are skipped, a full
    padding ends the input, anything left over is an error ([None]).  [quad] counts the
    sextets of the current group, [left] holds their pending bits. *)
Fixpoint b64_decode_loop (l : bytes) (quad pads : nat) (left : N) : option bytes :=
  match l with
  | [] => if (decide (quad = 0%nat)) then Some [] else None
  | c :: l' =>
      if code c =? 61 then
        if (decide (2 <= quad /\ 4 <= quad + S pads)%nat) then Some []
        else b64_decode_loop l' quad (if (decide (2 <= quad)%nat) then S pads else pads) left
      else match b64_val c with
      | None => b64_decode_loop l' quad pads left
      | Some v =>
          match quad with
          | 0%nat => b64_decode_loop l' 1 0 v
          | 1%nat => (cons (chr (left * 4 + v / 16))) <$> b64_decode_loop l' 2 0 (v mod 16)
          | 2%nat => (cons (chr (left * 16 + v / 4))) <$> b64_decode_loop l' 3 0 (v mod 4)
          | _ => (cons (chr (left * 64 + v))) <$> b64_decode_loop l' 0 0 0
          end
      end
  end.
Definition b64_decode (l : bytes) : option bytes := b64_decode_loop l 0 0 0.

Lemma b64_char_val n : n < 64 -> b64_val (b64_char n) = Some n /\ (code (b64_char n) =? 61) = false.
Proof.
  intros H. unfold b64_char.
  destruct (N.ltb_spec n 26), (N.ltb_spec n 52), (N.ltb_spec n 62), (N.eqb_spec n 62);
    try lia; unfold b64_val; rewrite ?code_chr by lia;
    change (code "+"%char) with 43; change (code "/"%char) with 47.
  all: repeat match goal with
       | |- context [?a && ?b] => destruct (a && b) eqn:?; try lia
       | |- context [if ?a =? ?b then _ else _] => destruct (N.eqb_spec a b); try lia
       end.
  all: split; try (f_equal; lia); lia.
Qed.

Lemma b64_step l quad pads left v :
  v < 64 ->
  b64_decode_loop (b64_char v :: l) quad pads left =
  match quad with
  | 0%nat => b64_decode_loop l 1 0 v
  | 1%nat => (cons (chr (left * 4 + v / 16))) <$> b64_decode_loop l 2 0 (v mod 16)
  | 2%nat => (cons (chr (left * 16 + v / 4))) <$> b64_decode_loop l 3 0 (v mod 4)
  | _ => (cons (chr (left * 64 + v))) <$> b64_decode_loop l 0 0 0
  end.
Proof. intros [H1 H2]%b64_char_val. cbn [b64_decode_loop]. by rewrite H2, H1. Qed.

Lemma b64_pad2 left : b64_decode_loop ["="%char; "="%char] 2 0 left = Some [].
Proof. reflexivity. Qed.
Lemma b64_pad1 left : b64_decode_loop ["="%char] 3 0 left = Some [].
Proof. reflexivity. Qed.

Lemma chr_as c n : n = code c -> chr n = c.
Proof. intros ->. apply chr_code. Qed.

Lemma b64_decode_encode_loop l : b64_decode_loop (b64_encode l) 0 0 0 = Some l.
Proof.
  revert l. fix IH 1. intros [|a [|b [|c l]]].
  - reflexivity.
  - cbn [b64_encode]. pose proof (code_bound a).
    rewrite !b64_step by (zify; Z.to_euclidean_division_equations; lia).
    rewrite b64_pad2. cbn [fmap option_fmap option_map].
    do 2 f_equal. apply chr_as. zify; Z.to_euclidean_division_equations; lia.
  - cbn [b64_encode]. pose proof (code_bound a). pose proof (code_bound b).
    rewrite !b64_step by (zify; Z.to_euclidean_division_equations; lia).
    rewrite b64_pad1. cbn [fmap option_fmap option_map].
    f_equal. f_equal; [|f_equal]; apply chr_as;
      zify; Z.to_euclidean_division_equations; lia.
  - cbn [b64_encode]. pose proof (code_bound a). pose proof (code_bound b).
    pose proof (code_bound c).
    rewrite !b64_step by (zify; Z.to_euclidean_division_equations; lia).
    rewrite IH. cbn [fmap option_fmap option_map]. f_equal.
    f_equal; [|f_equal; [|f_equal]]; apply chr_as;
      zify; Z.to_euclidean_division_equations; lia.
Qed.

(** [b64decode(b64encode(b)) == b]. *)
Lemma b64_decode_encode l : b64_decode (b64_encode l) = Some l.
Proof. apply b64_decode_encode_loop. Qed.

(** Encoded text is ASCII. *)
Lemma b64_char_ascii n : n < 64 -> code (b64_char n) < 128.
Proof.
  intros H. unfold b64_char. destruct (N.ltb_spec n 26), (N.ltb_spec n 52), (N.ltb_spec n 62),
    (N.eqb_spec n 62); rewrite ?code_chr by lia; try lia; done.
Qed.

Lemma b64_encode_ascii l : Forall (fun c => code c < 128) (b64_encode l).
Proof.
  revert l. fix IH 1. intros [|a [|b [|c l]]]; cbn [b64_encode].
  - constructor.
  - pose proof (code_bound a). repeat constructor; try done; apply b64_char_ascii;
      zify; Z.to_euclidean_division_equations; lia.
  - pose proof (code_bound a). pose proof (code_bound b).
    repeat constructor; try done; apply b64_char_ascii;
      zify; Z.to_euclidean_division_equations; lia.
  - pose proof (code_bound a). pose proof (code_bound b). pose proof (code_bound c).
    repeat (constructor; [apply b64_char_ascii; zify; Z.to_euclidean_division_equations; lia|]).
    apply IH.
Qed.

(** ** Test vectors: FIPS 180-4, RFC 4231, RFC 4648 *)
Example sha256_abc : sha256_hex (enc "abc")
  = "ba7816bf8f01cfea414140de5dae2223b00361a396177a9cb410ff61f20015ad"%string.
Proof. vm_compute. reflexivity. Qed.
Example sha256_empty : sha256_hex []
  = "e3b0c44298fc1c149afbf4c8996fb92427ae41e4649b934ca495991b7852b855"%string.
Proof. vm_compute. reflexivity. Qed.
Example hmac_jefe : hexlify (hmac_sha256 (enc "Jefe") (enc "what do ya want for nothing?"))
  = "5bdcc146bf60754e6a042426089575c75a003f089d2739839dec58b964ec3843"%string.
Proof. vm_compute. reflexivity. Qed.
Example b64_foobar : dec (b64_encode (enc "foobar")) = "Zm9vYmFy"%string.
Proof. vm_compute. reflexivity. Qed.
Example b64_foob : dec (b64_encode (enc "foob")) = "Zm9vYg=="%string.
Proof. vm_compute. reflexivity. Qed.

(** Proofs never look inside a digest; evaluation still does. *)
#[global] Opaque sha256 hmac_sha256.
