(* ===== verification/Acquisition.v ===== *)
(** * Acquisition: the closed side bodies of a reading

    product/viva/acquisition.py (provenance of a locally curated reading),
    normalization_context.py (the inputs one extraction was interpreted under) and
    extraction_responses.py (the audit record of one provider response).  Their inputs are
    values read back from a log, so they are [json] here and every check is on the value's
    type as well as on its content. *)
From Stdlib Require Import ZArith NArith Ascii String Lia ZifyBool ZifyN ZifyNat.
From stdpp Require Import base list numbers strings.
From S2P Require Import Prelude Text Words Json Hashing.
#[local] Open Scope string_scope.

(** [set(kv) == set(ks)]. *)
Definition same_keys (kv : list (string * json)) (ks : list string) : bool :=
  forallb (fun k => in_words k ks) kv.*1 && forallb (fun k => in_words k kv.*1) ks.
Definition has_key (kv : list (string * json)) (k : string) : bool := in_words k kv.*1.
(** [kv[k]] where the keys are known. *)
Definition field (kv : list (string * json)) (k : string) : json :=
  match dict_get kv k with Some v => v | None => JNull end.
Definition is_str (v : json) : bool := match v with JStr _ => true | _ => false end.
Definition is_bool (v : json) : bool := match v with JBool _ => true | _ => false end.
(** [type(v) is str and v]. *)
Definition nonempty_str (v : json) : bool := match v with JStr s => negb (String.eqb s "") | _ => false end.
(** [type(v) is int and 0 <= v]. *)
Definition nonneg_int (v : json) : bool := match v with JInt z => (0 <=? z)%Z | _ => false end.

(** ** acquisition.py *)
Definition VERSION_BINDINGS : list (string * list (string * string * string)) :=
  [("five-year-life-v1",
    [("97a92df2512beb4938c498d7f1b43d20d4e3800cc38e9ce83012dda252f46800",
      "dbd302f394113ecb66c730a6d4bb40636897ba40cb9c3e4345084fb215fe1eab", "curated-source-reading-v2")])].

Definition FIELDS : list string :=
  ["kind"; "sample_version"; "corpus_manifest_sha256"; "readings_sha256";
   "reading_contract"; "document_sha256"; "reading_sha256"].

(** [re.fullmatch("[0-9a-f]{64}", s)]. *)
Definition is_hex_digest (v : json) : bool :=
  match v with
  | JStr s => (String.length s =? 64)%nat
              && forallb (fun c => is_digit c || ((97 <=? code c)%N && (code c <=? 102)%N)) (enc s)
  | _ => false
  end.

Definition validate (value : json) : res (list (string * json)) :=
  match value with
  | JObj kv =>
      if negb (same_keys kv FIELDS) then Raise ValueError
      else if negb (py_eq_str (field kv "kind") "local-curation-v1")
              || negb (py_eq_str (field kv "sample_version") "five-year-life-v1")
              || negb (py_eq_str (field kv "reading_contract") "curated-source-reading-v2")
      then Raise ValueError
      else if negb (forallb (fun name => is_hex_digest (field kv name))
                      ["corpus_manifest_sha256"; "readings_sha256"; "document_sha256"; "reading_sha256"])
      then Raise ValueError
      else
        match dict_get VERSION_BINDINGS "five-year-life-v1" with
        | None => Raise KeyError
        | Some bindings =>
            if existsb (fun '(m, r, c) => py_eq_str (field kv "corpus_manifest_sha256") m
                                          && py_eq_str (field kv "readings_sha256") r
                                          && py_eq_str (field kv "reading_contract") c) bindings
            then Ok kv else Raise ValueError
        end
  | _ => Raise ValueError
  end.

Definition local_required : list string :=
  ["doc_id"; "doc_type"; "response_text"; "parse_ok"; "parse_error"; "phase"; "acquisition";
   "normalization_locale"; "source_currency"].
Definition model_claims : list string :=
  ["model"; "model_role"; "resolved_model"; "prompt_version"; "cost_usd"; "input_tokens";
   "output_tokens"; "usage_reported"].

(** [source[k] == v] for a field [validate] left a string. *)
Definition same_text (v w : json) : bool :=
  match v with JStr s => py_eq_str w s | _ => false end.

Definition local_read (body : list (string * json)) : res bool :=
  if negb (has_key body "acquisition") then Ok false
  else
    let? source := validate (field body "acquisition") in
    match dict_get body "response_text" with
    | Some (JStr text) =>
        if negb (same_text (field source "document_sha256") (field body "doc_id"))
           || negb (py_eq_str (field source "reading_sha256") (sha256_hex (enc text)))
        then Raise ValueError
        else if negb (forallb (fun k => has_key body k) local_required)
                || negb (forallb (fun k => in_words k local_required) body.*1)
        then Raise ValueError
        else if negb (py_eq_str (field body "phase") "extract")
                || negb (py_eq_str (field body "normalization_locale") "en-US")
                || negb (py_eq_str (field body "source_currency") "USD")
        then Raise ValueError
        else if existsb (fun k => in_words k model_claims) body.*1 then Raise ValueError
        else Ok true
    | _ => Raise ValueError
    end.

(** [acquisition] and [confidence] are [JNull] for None. *)
Definition classification (doc_id : string) (confidence acquisition : json) : res unit :=
  match acquisition with
  | JNull => match confidence with JNull => Raise ValueError | _ => Ok tt end
  | _ =>
      let? source := validate acquisition in
      match confidence with
      | JNull => if py_eq_str (field source "document_sha256") doc_id then Ok tt else Raise ValueError
      | _ => Raise ValueError
      end
  end.

(** ** normalization_context.py *)
Definition RULES_VERSION : string := "nv1".
Definition MORTGAGE_SOURCE_CONTRACT : string := "mortgage-principal-source-v2".
Definition MORTGAGE_PROMPT_PARTS : list (string * string) :=
  [("mortgage-base-v2", "mortgage-v2"); ("mortgage-base-v2", "mortgage-v3")].
Definition MORTGAGE_PROMPT_SUPPORT : list string :=
  ["untrusted-frame-v1"; "retry-syntax-v1"; "retry-value-v2"].

Record ExtractionNormalizationContext := mkContext {
  schema_version : json;
  normalization_rules_version : json;
  parser_locale : json;
  parser_currency : json;
  instrument_source_contract : json
}.

#[export] Instance context_eq_dec : EqDecision ExtractionNormalizationContext.
Proof. solve_decision. Defined.

(** [None], or text of at most [limit] bytes. *)
Definition bounded_text (v : json) (limit : nat) : bool :=
  match v with
  | JNull => true
  | JStr s => (String.length s <=? limit)%nat
  | _ => false
  end.

(** The size of [json.dumps(..., ensure_ascii=False)] of the values that got this far. *)
Definition char_size (c : ascii) : nat :=
  if existsb (N.eqb (code c)) [34; 92; 8; 9; 10; 12; 13]%N then 2
  else if (code c <? 32)%N then 6 else 1.
Definition json_size (v : json) : nat :=
  match v with
  | JStr s => 2 + fold_right (fun c n => char_size c + n)%nat 0%nat (enc s)
  | JInt z => List.length (Z_text z)
  | _ => 4
  end.
Definition context_fields (c : ExtractionNormalizationContext) : list (string * json) :=
  [("schema_version", schema_version c);
   ("normalization_rules_version", normalization_rules_version c);
   ("parser_locale", parser_locale c); ("parser_currency", parser_currency c);
   ("instrument_source_contract", instrument_source_contract c)].
(** Braces, then for each member its key, colon, value and separating comma. *)
Definition descriptor_size (c : ExtractionNormalizationContext) : nat :=
  1 + fold_right (fun '(k, v) n => String.length k + 3 + json_size v + 1 + n)%nat 0%nat (context_fields c).

Definition is_int (v : json) (z : Z) : bool :=
  match v with JInt n => (n =? z)%Z | _ => false end.
Definition is_null (v : json) : bool := match v with JNull => true | _ => false end.

Definition post_init (c : ExtractionNormalizationContext) : res unit :=
  let? _ := raise_if (negb (is_int (schema_version c) 1 || is_int (schema_version c) 2)) ValueError in
  let? _ := raise_if ((is_int (schema_version c) 1 && negb (is_null (instrument_source_contract c)))
                      || (is_int (schema_version c) 2
                          && negb (py_eq_str (instrument_source_contract c) MORTGAGE_SOURCE_CONTRACT)))
              ValueError in
  let? _ := raise_if (negb (py_eq_str (normalization_rules_version c) RULES_VERSION)) ValueError in
  let? _ := raise_if (negb (bounded_text (parser_locale c) 64)) ValueError in
  let? _ := raise_if (negb (bounded_text (parser_currency c) 16)) ValueError in
  raise_if (512 <? descriptor_size c)%nat ValueError.

(** The constructor runs [__post_init__]. *)
Definition new_context (v rules loc cur contract : json) : res ExtractionNormalizationContext :=
  let c := mkContext v rules loc cur contract in
  let? _ := post_init c in Ok c.

Definition encode_context (c : ExtractionNormalizationContext) : res json :=
  let? _ := post_init c in
  Ok (JObj (if is_int (schema_version c) 1 then take 4 (context_fields c) else context_fields c)).

Definition context_keys : list string :=
  ["schema_version"; "normalization_rules_version"; "parser_locale"; "parser_currency"].

Definition decode_context (value : json) : res ExtractionNormalizationContext :=
  match value with
  | JObj kv =>
      let v2 := py_eq_int (field kv "schema_version") 2 in
      if same_keys kv (if v2 then context_keys ++ ["instrument_source_contract"] else context_keys)%list
      then new_context (field kv "schema_version") (field kv "normalization_rules_version")
             (field kv "parser_locale") (field kv "parser_currency")
             (if v2 then field kv "instrument_source_contract" else JNull)
      else Raise ValueError
  | _ => Raise ValueError
  end.

Definition prompt_parts (prompt_version : json) : list string :=
  match prompt_version with
  | JStr s => match starts_with (enc "extract:") (enc s) with
              | Some r => split "+" (dec r)
              | None => []
              end
  | _ => []
  end.
Definition source_contract_for_claim (context : option ExtractionNormalizationContext)
    (doc_type prompt_version : json) : res json :=
  let? _ := match context with Some c => let? _ := encode_context c in Ok tt | None => Ok tt end in
  let parts := prompt_parts prompt_version in
  let selected := match context with Some c => instrument_source_contract c | None => JNull end in
  if negb (is_null selected) then
    let pair_ok := match parts with
                   | a :: b :: _ => existsb (fun '(x, y) => String.eqb x a && String.eqb y b) MORTGAGE_PROMPT_PARTS
                   | _ => false
                   end in
    if negb (py_eq_str doc_type "mortgage_statement") || negb pair_ok
       || existsb (fun p => negb (in_words p MORTGAGE_PROMPT_SUPPORT)) (drop 2 parts)
       || negb (distinct (drop 2 parts))
    then Raise ValueError else Ok selected
  else if existsb (fun p => existsb (fun '(x, y) => String.eqb p x || String.eqb p y) MORTGAGE_PROMPT_PARTS) parts
  then Raise ValueError else Ok selected.
