(* ===== verification/Crypto.v ===== *)
(** * Crypto: product/viva/crypto.py, the encryption-at-rest envelope

    AES-256-GCM and scrypt belong to the third-party [cryptography] package: the class
    [CryptoLib] carries them and [CryptoLaws] the behaviour its documentation promises
    (decryption inverts encryption, scrypt returns the length it is asked for).
    [os.urandom] is an argument of the functions that draw from it.  Everything else, the
    versioned envelope, the header and its check token, is translated. *)
From Stdlib Require Import ZArith NArith Ascii String Lia.
From stdpp Require Import base list numbers strings.
From S2P Require Import Prelude Text Json Hashing.
#[local] Open Scope string_scope.

(** The [cryptography] package.  [None] is an exception out of the call. *)
Class CryptoLib := {
  (** [AESGCM(key).encrypt(nonce, plaintext, aad)] *)
  aead_encrypt : bytes -> bytes -> bytes -> bytes -> bytes;
  (** [AESGCM(key).decrypt(nonce, ciphertext, aad)] *)
  aead_decrypt : bytes -> bytes -> bytes -> bytes -> option bytes;
  (** [Scrypt(salt, length=KEY_LEN, n, r, p).derive(passphrase)] *)
  scrypt : bytes -> Z -> Z -> Z -> bytes -> option bytes
}.

Definition KEY_LEN : nat := 32.

Class CryptoLaws (lib : CryptoLib) : Prop := {
  aead_inverse key nonce pt aad :
    aead_decrypt key nonce (aead_encrypt key nonce pt aad) aad = Some pt;
  scrypt_length salt n r p pass key : scrypt salt n r p pass = Some key -> length key = KEY_LEN
}.

Definition VERSION : string := "viva-vault-aesgcm-scrypt-v1".
Definition HEAD_BOUND_HEADER_VERSION : string := "viva-vault-aesgcm-scrypt-h1".
Definition HEAD_CAPABILITY_VERSION : string := "head-v1".
Definition SCRYPT_N : Z := 32768.
Definition SCRYPT_R : Z := 8.
Definition SCRYPT_P : Z := 1.
Definition SALT_LEN : nat := 16.
Definition NONCE_LEN : nat := 12.

Definition b64e (b : bytes) : string := dec (b64_encode b).
(** [s.encode("ascii")] refuses anything else with a [ValueError], as [binascii] does a bad
    padding. *)
Definition b64d (s : string) : res bytes :=
  if forallb (fun c => (code c <? 128)%N) (enc s)
  then res_of_option ValueError (b64_decode (enc s)) else Raise ValueError.

Lemma b64d_b64e b : b64d (b64e b) = Ok b.
Proof.
  unfold b64d, b64e. rewrite enc_dec, b64_decode_encode.
  rewrite (proj2 (forallb_forall _ _)); [done|].
  intros c Hc%list_elem_of_In. pose proof (b64_encode_ascii b) as H.
  rewrite Forall_forall in H. apply N.ltb_lt. by apply H.
Qed.

#[global] Arguments b64d : simpl never.
#[global] Arguments b64e : simpl never.

Record KdfParams := mkKdf { salt : bytes; kdf_n : Z; kdf_r : Z; kdf_p : Z }.

#[export] Instance KdfParams_eq_dec : EqDecision KdfParams.
Proof. solve_decision. Defined.

Definition KdfParams_to_dict (k : KdfParams) : json :=
  JObj [("salt", JStr (b64e (salt k))); ("n", JInt (kdf_n k));
        ("r", JInt (kdf_r k)); ("p", JInt (kdf_p k))].

(** [int(v)] for a parsed value; a decimal string is the only text accepted here. *)
Definition py_int (v : json) : res Z :=
  match v with
  | JInt z => Ok z
  | JBool b => Ok (if b then 1 else 0)%Z
  | JStr s => match lex_number (strip_bytes (enc s)) with
              | Some (JInt z, []) => Ok z
              | _ => Raise ValueError
              end
  | JFloat _ => Raise ValueError
  | _ => Raise TypeError
  end.

Definition py_str_arg (v : json) : res string :=
  match v with JStr s => Ok s | _ => Raise AttributeError end.

Definition KdfParams_from_dict (d : json) : res KdfParams :=
  let? s := py_getitem d "salt" in
  let? s' := py_str_arg s in
  let? b := b64d s' in
  let? n := py_getitem d "n" in let? n' := py_int n in
  let? r := py_getitem d "r" in let? r' := py_int r in
  let? p := py_getitem d "p" in let? p' := py_int p in
  Ok (mkKdf b n' r' p').

(** [KdfParams.new()], the salt drawn from [os.urandom(SALT_LEN)]. *)
Definition KdfParams_new (random_salt : bytes) : KdfParams :=
  mkKdf random_salt SCRYPT_N SCRYPT_R SCRYPT_P.

Definition CHECK_TOKEN : bytes := enc "viva-vault-ok".
Definition CHECK_AAD : bytes := enc "header".

Section crypto.
Context `{lib : CryptoLib}.

Definition derive_key (passphrase : string) (params : KdfParams) : res bytes :=
  if String.eqb passphrase "" then Raise CryptoError
  else res_of_option ValueError
         (scrypt (salt params) (kdf_n params) (kdf_r params) (kdf_p params)
                 (enc passphrase)).

(** [nonce] is [os.urandom(NONCE_LEN)]. *)
Definition seal (key nonce plaintext aad : bytes) : res json :=
  if decide (length key <> KEY_LEN) then Raise CryptoError
  else Ok (JObj [("v", JStr VERSION); ("nonce", JStr (b64e nonce));
                 ("ct", JStr (b64e (aead_encrypt key nonce plaintext aad)))]).

Definition open_sealed (key : bytes) (sealed : json) (aad : bytes) : res bytes :=
  let? v := py_get sealed "v" in
  if negb (py_eq_str v VERSION) then Raise CryptoError
  else
    match (let? n := py_getitem sealed "nonce" in
           let? n' := py_str_arg n in
           let? nonce := b64d n' in
           let? c := py_getitem sealed "ct" in
           let? c' := py_str_arg c in
           let? ct := b64d c' in
           res_of_option ValueError (aead_decrypt key nonce ct aad)) with
    | Ok pt => Ok pt
    | Raise _ => Raise CryptoError
    end.

Definition header_check_aad (version : json) : res bytes :=
  if py_eq_str version VERSION then Ok CHECK_AAD
  else if py_eq_str version HEAD_BOUND_HEADER_VERSION then
    Ok ((CHECK_AAD ++ enc ":"
        ++ canonical (JObj [("event_head", JStr HEAD_CAPABILITY_VERSION)]))%list)
  else Raise CryptoError.

Definition new_vault_header (passphrase header_version : string) (random_salt nonce : bytes)
  : res (json * bytes) :=
  let? aad := header_check_aad (JStr header_version) in
  let kdf := KdfParams_new random_salt in
  let? key := derive_key passphrase kdf in
  let? check := seal key nonce CHECK_TOKEN aad in
  Ok (JObj [("v", JStr header_version); ("kdf", KdfParams_to_dict kdf); ("check", check)],
      key).

Definition rebind_vault_header (header : json) (key : bytes) (header_version : string)
    (nonce : bytes) : res json :=
  let? aad := header_check_aad (JStr header_version) in
  let? kdf := py_getitem header "kdf" in
  match kdf with
  | JObj _ =>
      let? check := seal key nonce CHECK_TOKEN aad in
      Ok (JObj [("v", JStr header_version); ("kdf", kdf); ("check", check)])
  | _ => Raise TypeError
  end.

Definition verify_vault_header (header : json) (key : bytes) : res json :=
  let? version := py_get header "v" in
  let? aad := header_check_aad version in
  let? opened := reraise_as [KeyError; TypeError] CryptoError
      (let? check := py_getitem header "check" in open_sealed key check aad) in
  if decide (opened <> CHECK_TOKEN) then Raise CryptoError else Ok version.

Definition open_vault_header (header : json) (passphrase : string) : res bytes :=
  let? key := reraise_as [KeyError; TypeError; ValueError] CryptoError
      (let? kdf := py_getitem header "kdf" in
       let? params := KdfParams_from_dict kdf in
       derive_key passphrase params) in
  let? _ := verify_vault_header header key in
  Ok key.

(** Some ciphertext opens under associated data it was not sealed with. *)
Definition aead_forgery : Prop :=
  exists key nonce pt aad aad' pt', aad <> aad' /\
    aead_decrypt key nonce (aead_encrypt key nonce pt aad) aad' = Some pt'.

Context `{laws : !CryptoLaws lib}.

Lemma KdfParams_round k : KdfParams_from_dict (KdfParams_to_dict k) = Ok k.
Proof. unfold KdfParams_from_dict. cbn. rewrite b64d_b64e. by destruct k. Qed.

Lemma open_seal key nonce pt aad sealed :
  seal key nonce pt aad = Ok sealed -> open_sealed key sealed aad = Ok pt.
Proof.
  unfold seal. destruct (decide _); [done|]. intros [= <-].
  unfold open_sealed. cbn. rewrite b64d_b64e. cbn. rewrite b64d_b64e. cbn.
  by rewrite aead_inverse.
Qed.

Lemma seal_wf key nonce pt aad sealed : seal key nonce pt aad = Ok sealed -> wf_json sealed.
Proof.
  unfold seal. destruct (decide _); [done|]. intros [= <-]. cbn.
  split; [nodup_keys|done].
Qed.

Lemma derive_key_length pass params key : derive_key pass params = Ok key -> length key = KEY_LEN.
Proof.
  unfold derive_key. destruct (String.eqb _ _); [done|]. intros H%res_of_option_ok.
  by eapply scrypt_length.
Qed.

Lemma seal_total key nonce pt aad : length key = KEY_LEN -> exists s, seal key nonce pt aad = Ok s.
Proof. intros H. unfold seal. rewrite decide_False by lia. eauto. Qed.

(** A freshly minted header authenticates under the key it returned. *)
Lemma verify_new pass ver rsalt nonce header key :
  new_vault_header pass ver rsalt nonce = Ok (header, key) ->
  verify_vault_header header key = Ok (JStr ver).
Proof.
  unfold new_vault_header. intros H. run_ok.
  unfold verify_vault_header. simpl. rewrite E. simpl. by erewrite open_seal by eauto.
Qed.
End crypto.
