(* ===== verification/Events.v ===== *)
(** * Events: product/viva/ledger/events.py, the ledger's event vocabulary

    [Provenance], [Posting] and [Event] with their dictionary forms, and the typed
    constructors.  Event fields are Python values of any type in the source (the
    annotations are not enforced), so they are [json] values here. *)
From Stdlib Require Import ZArith NArith Ascii String Lia.
From stdpp Require Import base list numbers strings.
From S2P Require Import Prelude Text Json.
#[local] Open Scope string_scope.

(** ** Provenance *)
Record Provenance := mkProvenance { doc_id : json; page : json; region : json; note : json }.

#[export] Instance Provenance_eq_dec : EqDecision Provenance.
Proof. solve_decision. Defined.

(** [Provenance()] and [Provenance(doc_id=...)]. *)
Definition Provenance_empty : Provenance := mkProvenance (JStr "") JNull (JStr "") (JStr "").
Definition Provenance_doc (d : string) : Provenance :=
  mkProvenance (JStr d) JNull (JStr "") (JStr "").

Definition Provenance_to_dict (p : Provenance) : json :=
  JObj [("doc_id", doc_id p); ("page", page p); ("region", region p); ("note", note p)].

Definition Provenance_from_dict (d : json) : res Provenance :=
  let d := if py_truthy d then d else JObj [] in
  let? doc := py_get_default d "doc_id" (JStr "") in
  let? pg := py_get d "page" in
  let? rg := py_get_default d "region" (JStr "") in
  let? nt := py_get_default d "note" (JStr "") in
  Ok (mkProvenance doc pg rg nt).

(** ** Event *)
Record Event := mkEvent {
  event_type : json;
  occurred_at : json;
  body : json;
  provenance : Provenance;
  event_id : json
}.

#[export] Instance Event_eq_dec : EqDecision Event.
Proof. solve_decision. Defined.

Definition Event_to_dict (e : Event) : json :=
  JObj [("event_type", event_type e); ("event_id", event_id e);
        ("occurred_at", occurred_at e); ("provenance", Provenance_to_dict (provenance e));
        ("body", body e)].

(** [fresh] is the [uuid.uuid4().hex] a dictionary without an identity would be given. *)
Definition Event_from_dict (fresh : string) (d : json) : res Event :=
  let? t := py_getitem d "event_type" in
  let? o := py_getitem d "occurred_at" in
  let? b := py_get_default d "body" (JObj []) in
  let? pd := py_get d "provenance" in
  let? p := Provenance_from_dict pd in
  let? i := py_get_default d "event_id" (JStr fresh) in
  Ok (mkEvent t o b p i).

Lemma Provenance_round p : Provenance_from_dict (Provenance_to_dict p) = Ok p.
Proof. by destruct p. Qed.

Lemma Event_round fresh e : Event_from_dict fresh (Event_to_dict e) = Ok e.
Proof.
  unfold Event_from_dict. cbn -[Provenance_from_dict Provenance_to_dict].
  rewrite Provenance_round. by destruct e.
Qed.

(** An event whose values all have a JSON text. *)
Definition wf_event (e : Event) : Prop :=
  wf_json (event_type e) /\ wf_json (occurred_at e) /\ wf_json (body e)
  /\ wf_json (event_id e) /\ wf_json (doc_id (provenance e)) /\ wf_json (page (provenance e))
  /\ wf_json (region (provenance e)) /\ wf_json (note (provenance e)).

Lemma Event_to_dict_wf e : wf_event e -> wf_json (Event_to_dict e).
Proof.
  intros (H1 & H2 & H3 & H4 & H5 & H6 & H7 & H8). cbn.
  repeat split; try done; nodup_keys.
Qed.
