(* ===== verification/Responses.v ===== *)
(** * Responses: product/viva/extraction_responses.py

    The closed audit record of one provider response, and the check that a read's links
    name exactly the responses retained for its phase, in order. *)
From Stdlib Require Import ZArith NArith Ascii String Lia ZifyBool ZifyN ZifyNat.
From stdpp Require Import base list numbers strings.
From S2P Require Import Prelude Text Words Json Hashing Acquisition Events.
#[local] Open Scope string_scope.

Definition RESPONSE_EVENT : string := "ModelExtractionResponseRecorded".
Definition SCOPED_FIELDS : list string :=
  ["transport_receipt_ids"; "transport_complete"; "extraction_id"; "phase_attempt"].
Definition RESPONSE_FIELDS : list string :=
  ["schema_version"; "doc_id"; "extraction_id"; "phase"; "phase_attempt"; "transport_attempt";
   "adapter_kind"; "configured_model"; "prompt_version"; "input_mode"; "response_status";
   "response_bytes_base64"; "response_encoding"].

(** [base64.b64decode(s, validate=True)] as 3.11 has it: whether it raises. *)
Fixpoint b64_strict_loop (l : bytes) (quad pads : nat) (started : bool) : bool :=
  match l with
  | [] => (quad =? 0)%nat
  | c :: l' =>
      if (code c =? 61)%N then
        if (2 <=? quad)%nat then
          if (4 <=? quad + S pads)%nat then match l' with [] => true | _ => false end
          else b64_strict_loop l' quad (S pads) true
        else b64_strict_loop l' quad pads true
      else match b64_val c with
           | None => false
           | Some _ => negb started && b64_strict_loop l' (if (quad =? 3)%nat then 0 else S quad) 0 false
           end
  end.
Definition b64_strict (s : string) : bool :=
  match enc s with
  | c :: _ => if (code c =? 61)%N then false else b64_strict_loop (enc s) 0 0 false
  | [] => true
  end.

Definition validate_response_body (body : json) : res unit :=
  match body with
  | JObj kv =>
      let? _ := raise_if (negb (same_keys kv RESPONSE_FIELDS)) ValueError in
      let? _ := raise_if (negb (is_int (field kv "schema_version") 1)) ValueError in
      let? _ := raise_if (negb (py_eq_str (field kv "phase") "classify" || py_eq_str (field kv "phase") "extract")
                          || negb (py_eq_str (field kv "adapter_kind") "openai_compatible"
                                   || py_eq_str (field kv "adapter_kind") "anthropic")) ValueError in
      let? _ := raise_if (negb (forallb (fun k => nonempty_str (field kv k))
                            ["doc_id"; "extraction_id"; "configured_model"; "prompt_version"; "input_mode"])) ValueError in
      let? _ := raise_if (negb (forallb (fun k => nonneg_int (field kv k))
                            ["phase_attempt"; "transport_attempt"; "response_status"])) ValueError in
      match field kv "response_bytes_base64" with
      | JStr s =>
          let? _ := raise_if (negb (py_eq_str (field kv "response_encoding") "base64")) ValueError in
          raise_if (negb (b64_strict s)) ValueError
      | _ => Raise ValueError
      end
  | _ => Raise ValueError
  end.

Definition response_body (document extraction phase : string) (phase_attempt ordinal : Z)
    (kind model prompt mode : string) (status : Z) (raw : bytes) : res json :=
  let body := JObj
    [("schema_version", JInt 1); ("doc_id", JStr document); ("extraction_id", JStr extraction);
     ("phase", JStr phase); ("phase_attempt", JInt phase_attempt); ("transport_attempt", JInt ordinal);
     ("adapter_kind", JStr kind); ("configured_model", JStr model); ("prompt_version", JStr prompt);
     ("input_mode", JStr mode); ("response_status", JInt status);
     ("response_bytes_base64", JStr (dec (b64_encode raw))); ("response_encoding", JStr "base64")] in
  let? _ := validate_response_body body in Ok body.

(** One event of the loop of [validate_links]: what is matched so far is carried along. *)
Definition link_step (body : list (string * json)) (matching : list json) (e : Event) : res (list json) :=
  if negb (py_eq_str (event_type e) RESPONSE_EVENT) then Ok matching
  else
    let? _ := validate_response_body (Events.body e) in
    let source := match Events.body e with JObj kv => kv | _ => [] end in
    if forallb (fun k => bool_decide (field source k = field body k))
         ["doc_id"; "extraction_id"; "phase"; "phase_attempt"]
    then
      let? _ := raise_if (negb (bool_decide (doc_id (provenance e) = field body "doc_id"))) ValueError in
      let? _ := raise_if (negb (is_int (field source "transport_attempt") (Z.of_nat (List.length matching)))) ValueError in
      let mode := if has_key body "input_mode" then field body "input_mode" else JStr "text+image" in
      let? _ := raise_if (negb (bool_decide (field source "configured_model" = field body "model"))
                          || negb (bool_decide (field source "prompt_version" = field body "prompt_version"))
                          || negb (bool_decide (field source "input_mode" = mode))) ValueError in
      Ok (matching ++ [event_id e])%list
    else Ok matching.

Definition validate_links (body : list (string * json)) (events : list Event) : res unit :=
  let present := List.filter (fun k => has_key body k) SCOPED_FIELDS in
  match present with
  | [] => Ok tt
  | _ =>
      let? _ := raise_if (negb (forallb (fun k => has_key body k) SCOPED_FIELDS)) ValueError in
      match field body "transport_receipt_ids" with
      | JArr links =>
          let? _ := raise_if (existsb (fun v => negb (nonempty_str v)) links
                              || negb (bool_decide (NoDup links))
                              || negb (is_bool (field body "transport_complete"))
                              || negb (nonempty_str (field body "extraction_id"))
                              || negb (nonneg_int (field body "phase_attempt"))) ValueError in
          let? matching := rfold (link_step body) events [] in
          raise_if (negb (bool_decide (matching = links))) ValueError
      | _ => Raise ValueError
      end
  end.

Example strict_ok : List.map b64_strict [""; "YQ=="; "YWI="; "YWJj="; "YR=="] = repeat true 5.
Proof. reflexivity. Qed.
Example strict_bad :
  List.map b64_strict ["YQ="; "YQ"; "YQ==="; "=YQ="; "YWI=YWI="; "Y=Q="; "===="; "Y Q="] = repeat false 8.
Proof. reflexivity. Qed.
