(* ===== verification/EventTypes.v ===== *)
(** * Event types: the typed constructors of product/viva/ledger/events.py

    [Posting] and the constructors for accounts, balances, documents, reads, transfers,
    categories, merchants, positions and transactions.  Conversation, goal and rule events
    are in the files after this one.  [fresh] is the [uuid.uuid4().hex] each new event is
    given; an absent provenance is [None]. *)
From Stdlib Require Import ZArith NArith Ascii String Lia ZifyBool ZifyN ZifyNat.
From stdpp Require Import base list numbers strings.
From S2P Require Import Prelude Text Words Json Unicode Decimals Floats Hashing Acquisition Events Responses.
#[local] Open Scope string_scope.

(** ** Grades *)
Definition VERIFIED : string := "verified".
Definition CORROBORATED : string := "corroborated".
Definition UNVERIFIED : string := "unverified".
Definition CONFLICTED : string := "conflicted".
Definition GRADES : list string := [VERIFIED; CORROBORATED; UNVERIFIED; CONFLICTED].

(** ** Postings *)
Record Posting := mkPosting { account : json; amount : decimal; grade : string }.

#[export] Instance Posting_eq_dec : EqDecision Posting.
Proof. solve_decision. Defined.

(** [Posting(account, amount, grade)]: [__post_init__] coerces and checks. *)
Definition new_posting (acct : json) (x : number) (g : string) : res Posting :=
  match x with
  | NumFloat _ => Raise TypeError
  | _ =>
      let? d := Decimal x in
      if in_words g GRADES then Ok (mkPosting acct d g) else Raise ValueError
  end.

Definition Posting_to_dict (p : Posting) : json :=
  JObj [("account", account p); ("amount", JStr (dec_str (amount p))); ("grade", JStr (grade p))].

Definition Posting_from_dict (d : json) : res Posting :=
  let? a := py_getitem d "account" in
  let? x := py_getitem d "amount" in
  let? x := Decimal_of_json x in
  let? g := py_get_default d "grade" (JStr UNVERIFIED) in
  match g with
  | JStr g => new_posting a (NumDec x) g
  | _ => Raise ValueError
  end.

(** ** Building an event *)
Definition ISSUED : string := "issued".
Definition ASSERTED : string := "asserted".
Definition ORIGINS : list string := [ISSUED; ASSERTED].

(** [list(names or [])]. *)
Definition words (l : list string) : json := JArr (List.map JStr l).
(** [provenance or Provenance()], [provenance or Provenance(doc_id=d)]. *)
Definition or_empty (p : option Provenance) : Provenance := default Provenance_empty p.
Definition or_doc (d : string) (p : option Provenance) : Provenance := default (Provenance_doc d) p.

Section Constructors.
Context (fresh : string).

(** [Event(event_type, occurred_at, body, provenance)]. *)
Definition event (t at_ : string) (body : list (string * json)) (p : Provenance) : Event :=
  mkEvent (JStr t) (JStr at_) (JObj body) p (JStr fresh).

Definition account_opened (account_id kind name currency occurred_at jurisdiction institution
    account_number : string) (account_names : list string) (origin : string)
    (provenance : option Provenance) : res Event :=
  let? _ := raise_if (negb (in_words origin ORIGINS)) ValueError in
  Ok (event "AccountOpened" occurred_at
        [("account_id", JStr account_id); ("kind", JStr kind); ("name", JStr name);
         ("currency", JStr currency); ("jurisdiction", JStr jurisdiction);
         ("institution", JStr institution); ("account_number", JStr account_number);
         ("account_names", words account_names); ("origin", JStr origin)]
        (or_empty provenance)).

Definition account_identity_observed (account_id occurred_at institution account_number : string)
    (account_names : list string) (provenance : option Provenance) : Event :=
  event "AccountIdentityObserved" occurred_at
    [("account_id", JStr account_id); ("institution", JStr institution);
     ("account_number", JStr account_number); ("account_names", words account_names)]
    (or_empty provenance).

Definition opening_balance_observed (account_id : string) (amount : number) (occurred_at : string)
    (provenance : option Provenance) : res Event :=
  let? a := Decimal amount in
  Ok (event "OpeningBalanceObserved" occurred_at
        [("account_id", JStr account_id); ("amount", JStr (dec_str a))] (or_empty provenance)).

Definition closing_balance_observed (account_id : string) (amount : number) (occurred_at : string)
    (provenance : option Provenance) (confirmed_by : string) : res Event :=
  let? a := Decimal amount in
  Ok (event "ClosingBalanceObserved" occurred_at
        [("account_id", JStr account_id); ("amount", JStr (dec_str a));
         ("confirmed_by", JStr confirmed_by)] (or_empty provenance)).

Definition statement_held (doc : string) (facts_dict finding_dict : json) (reason occurred_at : string)
    (provenance : option Provenance) : Event :=
  event "StatementHeld" occurred_at
    [("doc_id", JStr doc); ("reason", JStr reason); ("facts", facts_dict); ("finding", finding_dict)]
    (or_doc doc provenance).

Definition brokerage_activity_held (doc : string) (facts_dict finding_dict : json)
    (occurred_at : string) (provenance : option Provenance) : Event :=
  event "BrokerageActivityHeld" occurred_at
    [("doc_id", JStr doc); ("reason", JStr "activity"); ("facts", facts_dict); ("finding", finding_dict)]
    (or_doc doc provenance).

Definition brokerage_activity_resolved (doc occurred_at : string) (provenance : option Provenance) : Event :=
  event "BrokerageActivityResolved" occurred_at [("doc_id", JStr doc)] (or_doc doc provenance).

Definition correction_applied (doc target from_value to_value occurred_at by_ : string)
    (provenance : option Provenance) : Event :=
  event "CorrectionApplied" occurred_at
    [("doc_id", JStr doc); ("target", JStr target); ("from", JStr from_value);
     ("to", JStr to_value); ("by", JStr by_)] (or_doc doc provenance).

Definition document_captured (doc filename : string) (byte_len : Z) (doc_type : string)
    (doc_type_confidence : json) (occurred_at : string) (provenance : option Provenance)
    (acquisition : option json) : res Event :=
  let body := [("doc_id", JStr doc); ("filename", JStr filename); ("byte_len", JInt byte_len);
               ("doc_type", JStr doc_type)] in
  match acquisition with
  | None => Ok (event "DocumentCaptured" occurred_at
                  (body ++ [("doc_type_confidence", doc_type_confidence)])%list (or_doc doc provenance))
  | Some a =>
      let? v := validate a in
      Ok (event "DocumentCaptured" occurred_at
            (body ++ [("acquisition", JObj v)])%list (or_doc doc provenance))
  end.

Definition account_alias_confirmed (alias_key account_id doc occurred_at by_ : string)
    (provenance : option Provenance) (learn_signal : bool) (match_names : option (list string))
    (match_label kind : option string) : Event :=
  let body := [("alias_key", JStr alias_key); ("account_id", JStr account_id);
               ("doc_id", JStr doc); ("by", JStr by_); ("learn_signal", JBool learn_signal)] in
  let signature := match match_names, match_label, kind with
                   | None, None, None => []
                   | _, _, _ => [("match_names", words (default [] match_names));
                                 ("match_label", JStr (default "" match_label));
                                 ("kind", JStr (default "" kind))]
                   end in
  event "AccountAliasConfirmed" occurred_at (body ++ signature)%list (or_doc doc provenance).

(** [transport_receipt_ids], [transport_complete], [extraction_id] and [phase_attempt] are
    checked by type, so they are values; [JNull] is None. *)
Definition read_recorded (doc model prompt_version input_mode response_text : string)
    (cost_usd : json) (input_tokens output_tokens : Z) (parse_ok : bool) (parse_error : json)
    (occurred_at : string) (provenance : option Provenance) (phase resolved_model : string)
    (usage_reported : option bool) (normalization_context : option ExtractionNormalizationContext)
    (transport_receipt_ids transport_complete extraction_id phase_attempt : json) : res Event :=
  let body := [("doc_id", JStr doc); ("model", JStr model); ("model_role", JStr "configured_route");
               ("prompt_version", JStr prompt_version); ("input_mode", JStr input_mode);
               ("response_text", JStr response_text); ("cost_usd", cost_usd);
               ("parse_ok", JBool parse_ok); ("parse_error", parse_error); ("phase", JStr phase)] in
  let? links :=
    match transport_receipt_ids with
    | JNull =>
        if negb (is_null transport_complete) || negb (py_eq_str extraction_id "")
           || negb (is_int phase_attempt 0)
        then Raise ValueError else Ok []
    | JArr ids =>
        if existsb (fun v => negb (nonempty_str v)) ids || negb (is_bool transport_complete)
           || negb (nonempty_str extraction_id) || negb (nonneg_int phase_attempt)
        then Raise ValueError
        else Ok [("transport_receipt_ids", JArr ids); ("transport_complete", transport_complete);
                 ("extraction_id", extraction_id); ("phase_attempt", phase_attempt)]
    | _ => Raise ValueError
    end in
  let? ctx := match normalization_context with
              | None => Ok []
              | Some c => if negb (String.eqb phase "extract") then Raise ValueError
                          else let? e := encode_context c in Ok [("normalization_context", e)]
              end in
  let reported := if String.eqb resolved_model "" then [] else [("resolved_model", JStr resolved_model)] in
  let measured := match usage_reported with
                  | Some b => b
                  | None => (0 <? input_tokens)%Z || (0 <? output_tokens)%Z
                  end in
  let usage := if measured then [("input_tokens", JInt input_tokens);
                                 ("output_tokens", JInt output_tokens); ("usage_reported", JBool true)]
               else [] in
  Ok (event "ReadRecorded" occurred_at (body ++ links ++ ctx ++ reported ++ usage)%list
        (or_doc doc provenance)).

Definition curated_read_recorded (doc doc_type response_text : string) (parse_ok : bool)
    (parse_error : json) (occurred_at : string) (acquisition : json) : res Event :=
  let? source := validate acquisition in
  let? _ := raise_if (negb (py_eq_str (field source "document_sha256") doc)
                      || negb (py_eq_str (field source "reading_sha256") (sha256_hex (enc response_text))))
              ValueError in
  Ok (event "ReadRecorded" occurred_at
        [("doc_id", JStr doc); ("doc_type", JStr doc_type); ("response_text", JStr response_text);
         ("parse_ok", JBool parse_ok); ("parse_error", parse_error); ("phase", JStr "extract");
         ("acquisition", JObj source); ("normalization_locale", JStr "en-US");
         ("source_currency", JStr "USD")] (Provenance_doc doc)).

Definition transfer_linked (movement_a movement_b grade : string) (evidence : json)
    (occurred_at by_ : string) (provenance : option Provenance) : Event :=
  event "TransferLinked" occurred_at
    [("a", JStr movement_a); ("b", JStr movement_b); ("grade", JStr grade);
     ("evidence", evidence); ("by", JStr by_); ("status", JStr "linked")] (or_empty provenance).

Definition transfer_unlinked (movement_a movement_b occurred_at by_ : string)
    (provenance : option Provenance) : Event :=
  event "TransferUnlinked" occurred_at
    [("a", JStr movement_a); ("b", JStr movement_b); ("by", JStr by_); ("status", JStr "unlinked")]
    (or_empty provenance).

Definition transfer_suggested (movement_a : string) (candidates : list string) (evidence : json)
    (occurred_at : string) (provenance : option Provenance) : Event :=
  event "TransferSuggested" occurred_at
    [("a", JStr movement_a); ("candidates", words candidates); ("evidence", evidence);
     ("status", JStr "suggested")] (or_empty provenance).

(** [a or b] on text. *)
Definition or_text (a b : string) : string := if String.eqb a "" then b else a.

Definition category_assigned (movement_key descriptor category grade occurred_at by_ nature : string)
    (provenance : option Provenance)
    (subcategory category_grade subcategory_grade category_by subcategory_by : string) : Event :=
  let category_source := or_text category_by by_ in
  let subcategory_source := or_text subcategory_by by_ in
  event "CategoryAssigned" occurred_at
    ([("movement_key", JStr movement_key); ("descriptor", JStr descriptor);
      ("category", JStr category); ("grade", JStr grade);
      ("by", JStr (if String.eqb category_source subcategory_source then category_source else "mixed"));
      ("nature", JStr nature); ("category_grade", JStr (or_text category_grade grade));
      ("subcategory_grade", JStr (or_text subcategory_grade grade));
      ("category_by", JStr category_source); ("subcategory_by", JStr subcategory_source)]
     ++ if String.eqb subcategory "" then [] else [("subcategory", JStr subcategory)])%list
    (or_empty provenance).

Definition merchant_categorized (merchant category grade occurred_at by_ : string)
    (provenance : option Provenance) : Event :=
  event "MerchantCategorized" occurred_at
    [("merchant", JStr merchant); ("category", JStr category); ("grade", JStr grade); ("by", JStr by_)]
    (or_empty provenance).

Definition merchant_enriched (merchant category subcategory canonical_name : string)
    (attributes : list (string * json)) (grade occurred_at by_ : string)
    (provenance : option Provenance) (aliases : list string)
    (category_grade subcategory_grade category_by subcategory_by : string) : Event :=
  event "MerchantEnriched" occurred_at
    [("merchant", JStr merchant); ("category", JStr category); ("subcategory", JStr subcategory);
     ("canonical_name", JStr canonical_name); ("attributes", JObj attributes);
     ("aliases", words aliases); ("grade", JStr grade); ("by", JStr by_);
     ("category_grade", JStr (or_text category_grade grade));
     ("subcategory_grade", JStr (or_text subcategory_grade grade));
     ("category_by", JStr (or_text category_by by_));
     ("subcategory_by", JStr (or_text subcategory_by by_))]
    (or_empty provenance).

(** [x in (None, "")]. *)
Definition absent (x : option number) : bool :=
  match x with
  | None => true
  | Some (NumStr s) => String.eqb s ""
  | Some _ => false
  end.
(** [Decimal(x)] unless absent. *)
Definition optional_decimal (x : option number) : res (option decimal) :=
  match x with
  | Some n => if absent x then Ok None else let? d := Decimal n in Ok (Some d)
  | None => Ok None
  end.
Definition optional_text (d : option decimal) : string :=
  match d with Some d => dec_str d | None => "" end.

Definition position_observed (account_id instrument : string) (units market_value : number)
    (currency occurred_at : string) (cost_basis : option number) (valuation_class grade : string)
    (provenance : option Provenance) : res Event :=
  let? u := Decimal units in
  let? v := Decimal market_value in
  let? c := optional_decimal cost_basis in
  Ok (event "PositionObserved" occurred_at
        [("account_id", JStr account_id); ("instrument", JStr instrument);
         ("units", JStr (dec_str u)); ("market_value", JStr (dec_str v));
         ("currency", JStr currency); ("valuation_class", JStr valuation_class);
         ("grade", JStr grade); ("cost_basis", JStr (optional_text c))]
        (or_empty provenance)).

Definition transaction_recorded (postings : list Posting) (description occurred_at : string)
    (tags : list string) (provenance : option Provenance) : Event :=
  event "TransactionRecorded" occurred_at
    [("description", JStr description); ("postings", JArr (List.map Posting_to_dict postings));
     ("tags", words tags)] (or_empty provenance).

(** ** Tags, declines, findings, the unattended-work journal *)
Definition SCOPE_MOVEMENT : string := "movement".
Definition SCOPE_MERCHANT : string := "merchant".

Definition movement_tagged `{CaseMap} (subject : string) (tags : list string)
    (occurred_at scope by_ : string) (provenance : option Provenance) : res Event :=
  let? _ := raise_if (negb (in_words scope [SCOPE_MOVEMENT; SCOPE_MERCHANT])) ValueError in
  let clean := sorted_set (List.map (fun t => str_lower (strip t))
                             (List.filter (fun t => negb (String.eqb t "") && negb (blank t)) tags)) in
  Ok (event "MovementTagged" occurred_at
        [("subject", JStr subject); ("scope", JStr scope); ("tags", words clean); ("by", JStr by_)]
        (or_empty provenance)).

Definition DECLINE_REASONS : list string := ["not_now"; "dont_know"].

Definition question_declined (question_id kind occurred_at reason amount : string) (count : Z)
    (pack_version by_ : string) (provenance : option Provenance) : res Event :=
  let? _ := raise_if (negb (in_words reason DECLINE_REASONS)) ValueError in
  let? _ := raise_if (String.eqb question_id "") ValueError in
  Ok (event "QuestionDeclined" occurred_at
        [("question_id", JStr question_id); ("kind", JStr kind); ("reason", JStr reason);
         ("amount", JStr amount); ("count", JInt count); ("pack_version", JStr pack_version);
         ("by", JStr by_)] (or_empty provenance)).

(** [isinstance(v, dict) and v]. *)
Definition nonempty_dict (v : json) : bool := match v with JObj (_ :: _) => true | _ => false end.

Definition finding_set_aside (finding_id kind : string) (stake : json) (occurred_at by_ : string)
    (provenance : option Provenance) : res Event :=
  let? _ := raise_if (blank finding_id) ValueError in
  let? _ := raise_if (blank kind) ValueError in
  let? _ := raise_if (negb (nonempty_dict stake)) ValueError in
  Ok (event "FindingSetAside" occurred_at
        [("finding_id", JStr finding_id); ("kind", JStr kind); ("stake", stake); ("by", JStr by_)]
        (or_empty provenance)).

Definition ACT_OUTCOMES : list string := ["done"; "refused"; "failed"].

Definition agent_acted (rule kind target outcome occurred_at : string) (calls : Z)
    (stake : list (string * json)) (produced replaced detail by_ : string)
    (provenance : option Provenance) : res Event :=
  let? _ := raise_if (negb (in_words outcome ACT_OUTCOMES)) ValueError in
  let? _ := raise_if (String.eqb rule "" || String.eqb target "") ValueError in
  let? _ := raise_if (calls <? 0)%Z ValueError in
  Ok (event "AgentActed" occurred_at
        [("rule", JStr rule); ("kind", JStr kind); ("target", JStr target); ("outcome", JStr outcome);
         ("calls", JInt calls); ("stake", JObj stake); ("produced", JStr produced);
         ("replaced", JStr replaced); ("detail", JStr detail); ("by", JStr by_)]
        (or_empty provenance)).

Definition model_extraction_response_recorded (body : json) (occurred_at : string) : res Event :=
  let? _ := validate_response_body body in
  let? d := py_getitem body "doc_id" in
  Ok (mkEvent (JStr "ModelExtractionResponseRecorded") (JStr occurred_at) body
        (mkProvenance d JNull (JStr "") (JStr "")) (JStr fresh)).
End Constructors.

(** [postings_of(event)]. *)
Definition postings_of (e : Event) : res (list Posting) :=
  let? ps := py_get_default (body e) "postings" (JArr []) in
  match ps with
  | JArr l => rmap Posting_from_dict l
  | JObj [] | JStr "" => Ok []
  | _ => Raise TypeError
  end.
