(* ===== verification/Rulings.v ===== *)
(** * Rulings: what a person says something is, product/viva/ledger/events.py

    The generic scoped ruling with its guards, the rhythm vocabulary, the reading of numbers
    in a sentence, and the accounting-rule events built on a ruling.  Legs are dictionaries
    of text. *)
From Stdlib Require Import ZArith NArith Ascii String Lia ZifyBool ZifyN ZifyNat Sorting.
From stdpp Require Import base list numbers strings sorting.
From S2P Require Import Prelude Text Words Json Unicode Dates Decimals Hashing Acquisition Events EventTypes.
#[local] Open Scope string_scope.

Definition MAJORS : list string := ["expense"; "asset"; "liability"; "income"].
Definition SCOPE_ACCOUNT : string := "account".
Definition SCOPE_CATEGORY : string := "category".
Definition SCOPE_TAG : string := "tag".
Definition SCOPE_ATTRIBUTE : string := "attribute".
Definition SCOPE_RHYTHM : string := "rhythm".
Definition SCOPES : list string :=
  [SCOPE_MOVEMENT; SCOPE_MERCHANT; SCOPE_ACCOUNT; SCOPE_CATEGORY; SCOPE_TAG; SCOPE_ATTRIBUTE; SCOPE_RHYTHM].
Definition RHYTHM_DIRECTIONS : list string := ["in"; "out"].
Definition PERIODICITIES : list string := ["monthly"; "annual"; "one_time"; "irregular"].
Definition PERIODICITY_SEPARATOR : ascii := "+".
Definition RHYTHM_SEPARATOR : ascii := "|".

(** ** Rhythms *)
Definition rhythm_subject (merchant direction : string) : string :=
  merchant ++ String RHYTHM_SEPARATOR direction.

Definition rhythm_parts (subject : string) : string * string :=
  let '(merchant, sep, direction) := partition RHYTHM_SEPARATOR subject in
  if sep && negb (String.eqb merchant "") && negb (String.eqb direction "")
  then (merchant, direction) else ("", "").

Definition nonempty (s : string) : bool := negb (String.eqb s "").

Definition periodicity_value (periods : list string) : string :=
  let said := List.map strip periods in
  let known := List.filter (fun p => in_words p said) PERIODICITIES in
  let rest := sorted_set (List.filter (fun p => nonempty p && negb (in_words p PERIODICITIES)) said) in
  join_words PERIODICITY_SEPARATOR (known ++ rest).

Definition periodicities_in (value : string) : list string :=
  List.filter nonempty (split PERIODICITY_SEPARATOR value).

(** ** Numbers in a sentence *)
Fixpoint drop_while {A} (f : A -> bool) (l : list A) : list A :=
  match l with
  | [] => []
  | c :: r => if f c then drop_while f r else l
  end.
Definition rdrop_while {A} (f : A -> bool) (l : list A) : list A := rev (drop_while f (rev l)).

(** Comma, stop, space, apostrophe, and the no-break space, narrow space and right quote. *)
Definition grouping : list N := [44; 46; 32; 39; 160; 8239; 8217]%N.

(** One character of the folding loop: the text it adds, or [None] for a character of no
    number. *)
Definition fold_char (c : N) : option bytes :=
  match unicode_digit c with
  | Some d => Some [digit_char d]
  | None => if existsb (N.eqb c) grouping then Some (if (c =? 46)%N then ["."%char] else []) else None
  end.
Fixpoint fold_number (l : list N) : option bytes :=
  match l with
  | [] => Some []
  | c :: r => match fold_char c, fold_number r with
              | Some a, Some b => Some (a ++ b)%list
              | _, _ => None
              end
  end.

Definition is_dot (c : ascii) : bool := if ascii_dec c "."%char then true else false.
Definition is_zero_char (c : ascii) : bool := if ascii_dec c "0"%char then true else false.
(** [t.replace(".", "", 1)] and [t.partition(".")]. *)
Definition cut_dot (t : bytes) : bytes * option bytes :=
  match span (fun c => negb (is_dot c)) t with
  | (a, []) => (a, None)
  | (a, _ :: b) => (a, Some b)
  end.
Definition or_zero (t : bytes) : bytes := match t with [] => ["0"%char] | _ => t end.

(** The last steps, on folded text. *)
Definition trim_number (t : bytes) : bytes :=
  let '(whole, frac) := cut_dot t in
  let all := (whole ++ default [] frac)%list in
  if bool_decide (t = []) || bool_decide (all = []) || negb (forallb is_digit all) then []
  else
    let t := match frac with
             | Some f => match rdrop_while is_zero_char f with
                         | [] => whole
                         | f' => (whole ++ "."%char :: f')%list
                         end
             | None => whole
             end in
    or_zero (drop_while is_zero_char t).

Definition is_plus_minus (c : N) : bool := ((c =? 43) || (c =? 45))%N.
Definition canonical_number (text : string) : string :=
  let raw := drop_while is_plus_minus (uchars (enc (strip text))) in
  match fold_number raw with
  | Some t => dec (trim_number t)
  | None => ""
  end.

(** Digits of any script and the separators a token may hold: no space. *)
Definition token_char (c : N) : bool :=
  is_decimal c || existsb (N.eqb c) [46; 44; 39; 160; 8239; 8217]%N.
(** The maximal runs of token characters. *)
Fixpoint tokens_acc (l : list N) (cur : list N) : list (list N) :=
  match l with
  | [] => [rev cur]
  | c :: r => if token_char c then tokens_acc r (c :: cur) else rev cur :: tokens_acc r []
  end.
Definition is_stop_comma (c : N) : bool := ((c =? 46) || (c =? 44))%N.

Definition numbers_said (said : string) : list string :=
  List.filter nonempty
    (List.map (fun t => canonical_number (dec (of_uchars (rdrop_while is_stop_comma (drop_while is_stop_comma t)))))
       (tokens_acc (uchars (enc said)) [])).
Definition numbers_in (value : string) : list string := numbers_said value.

(** [_ISO_DATE.fullmatch]: the shape, not the calendar. *)
Definition iso_shape (s : string) : bool :=
  match uchars (enc s) with
  | [a; b; c; d; x; e; f; y; g; h] =>
      forallb is_decimal [a; b; c; d; e; f; g; h] && (x =? 45)%N && (y =? 45)%N
  | _ => false
  end.

Definition is_finite (value : string) : bool :=
  match Decimal_of_str (strip value) with
  | Ok (Fin _ _ _) => true
  | Ok _ => false
  | Raise _ => true
  end.

(** [str(value).strip()[0] in "-−"]. *)
Definition signed_minus (value : string) : bool :=
  match uchars (enc (strip value)) with
  | c :: _ => ((c =? 45) || (c =? 8722))%N
  | [] => false
  end.

(** ** The ruling *)
Definition unsaid (value said : string) : list string :=
  if iso_shape (strip value) then []
  else List.filter (fun n => negb (in_words n (numbers_said said))) (numbers_in value).

Definition rhythm_guard (subject value : string) : res unit :=
  let? _ := raise_if (negb (in_words (rhythm_parts subject).2 RHYTHM_DIRECTIONS)) ValueError in
  let outside := List.filter (fun p => negb (in_words p PERIODICITIES)) (periodicities_in value) in
  raise_if (negb (nonempty value) || match outside with [] => false | _ => true end) ValueError.

Definition attribute_guard (subject value currency said : string) : res unit :=
  let? _ := raise_if (negb (existsb (fun c => if ascii_dec c ":"%char then true else false) (enc subject))) ValueError in
  let? _ := raise_if (nonempty value && blank said) ValueError in
  let? _ := raise_if (nonempty value && nonempty currency && negb (nonempty (canonical_number value))) ValueError in
  let? _ := raise_if (nonempty value && negb (is_finite value)) ValueError in
  let? _ := raise_if (nonempty value && nonempty (canonical_number value) && signed_minus value) ValueError in
  raise_if (match unsaid value said with [] => false | _ => true end) ValueError.

Definition leg_get (leg : list (string * string)) (k : string) : string := default "" (dict_get leg k).
Definition clean_leg (leg : list (string * string)) : res json :=
  let major := leg_get leg "major" in
  let? _ := raise_if (negb (in_words major MAJORS)) ValueError in
  let? _ := raise_if (in_words "amount" leg.*1) ValueError in
  Ok (JObj [("major", JStr major); ("account", JStr (leg_get leg "account"));
            ("share", JStr (leg_get leg "share"))]).

Section Rulings.
Context (fresh : string).

Definition optional (k : string) (v : json) (given : bool) : list (string * json) :=
  if given then [(k, v)] else [].

Definition ruling_recorded (scope subject occurred_at : string) (legs : list (list (string * string)))
    (by_ grade said corroborates prompt_version same_as value currency : string)
    (provenance : option Provenance) (grounds : string) (source_refs : list string)
    (evidence_signature : string) : res Event :=
  let? _ := raise_if (negb (in_words scope SCOPES)) ValueError in
  let? _ := raise_if (negb (nonempty subject)) ValueError in
  let? _ := raise_if (nonempty value && negb (in_words scope [SCOPE_ATTRIBUTE; SCOPE_RHYTHM])) ValueError in
  let? _ := if String.eqb scope SCOPE_RHYTHM then rhythm_guard subject value else Ok tt in
  let? _ := if String.eqb scope SCOPE_ATTRIBUTE then attribute_guard subject value currency said else Ok tt in
  let? clean := rmap clean_leg legs in
  Ok (event fresh "RulingRecorded" occurred_at
        ([("scope", JStr scope); ("subject", JStr subject); ("legs", JArr clean); ("by", JStr by_);
          ("grade", JStr grade); ("said", JStr said); ("corroborates", JStr corroborates);
          ("same_as", JStr same_as); ("value", JStr value); ("currency", JStr currency);
          ("prompt_version", JStr prompt_version)]
         ++ optional "grounds" (JStr grounds) (nonempty grounds)
         ++ optional "source_refs" (words source_refs) (match source_refs with [] => false | _ => true end)
         ++ optional "evidence_signature" (JStr evidence_signature) (nonempty evidence_signature))%list
        (or_empty provenance)).

(** ** Accounting rules *)
Definition context_required : list string :=
  ["party"; "private"; "direction"; "source_role"; "source_account"; "category"; "subcategory"].
Definition in_or_out (v : json) : bool := py_eq_str v "in" || py_eq_str v "out".

(** [ruling_recorded(SCOPE_MOVEMENT, subject, occurred_at, legs=legs, said=said).body["legs"]]. *)
Definition checked_legs (subject occurred_at : string) (legs : list (list (string * string))) (said : string)
    : res (list json) :=
  let? e := ruling_recorded SCOPE_MOVEMENT subject occurred_at legs "human" VERIFIED said "" "" "" "" "" None "" [] "" in
  let? l := py_getitem (body e) "legs" in
  match l with JArr l => Ok l | _ => Raise TypeError end.

Definition date_guard (value : string) : res unit :=
  if nonempty value then let? _ := fromisoformat value in Ok tt else Ok tt.

Definition accounting_rule_recorded (rule_id anchor anchor_date : string) (context : list (string * json))
    (legs : list (list (string * string))) (occurred_at category starts ends recurrence : string)
    (excluded : list string) (said prompt_version : string) : res Event :=
  let? _ := raise_if (negb (nonempty rule_id) || negb (nonempty anchor) || negb (same_keys context context_required)
                      || negb (py_truthy (field context "party"))) ValueError in
  let? _ := raise_if (negb (in_or_out (field context "direction")) || negb (is_bool (field context "private"))) ValueError in
  let? _ := raise_if (py_truthy (field context "private") && negb (py_truthy (field context "source_account"))) ValueError in
  let? _ := date_guard anchor_date in
  let? _ := date_guard starts in
  let? _ := date_guard ends in
  let? _ := raise_if (nonempty starts && nonempty ends && String.ltb ends starts) ValueError in
  let? _ := raise_if (negb (in_words recurrence [""; "monthly"; "weekly"; "yearly"])) ValueError in
  let? checked := checked_legs anchor occurred_at legs said in
  let? _ := raise_if (match checked with [] => true | _ => false end || blank said) ValueError in
  Ok (event fresh "AccountingRuleRecorded" occurred_at
        [("rule_id", JStr rule_id); ("anchor", JStr anchor); ("anchor_date", JStr anchor_date);
         ("context", JObj context); ("legs", JArr checked); ("category", JStr category);
         ("starts", JStr starts); ("ends", JStr ends); ("recurrence", JStr recurrence);
         ("excluded", words excluded); ("said", JStr said); ("prompt_version", JStr prompt_version)]
        Provenance_empty).

Definition accounting_rule_applied (rule_id movement : string) (previous previous_category : list (string * json))
    (occurred_at : string) : res Event :=
  let? _ := raise_if (negb (nonempty rule_id) || negb (nonempty movement)) ValueError in
  Ok (event fresh "AccountingRuleApplied" occurred_at
        [("rule_id", JStr rule_id); ("movement", JStr movement); ("previous", JObj previous);
         ("previous_category", JObj previous_category)] Provenance_empty).

(** [created_accounts] is checked by type, so it is a value; [JNull] is None. *)
Definition created_guard (created : json) : res (list string) :=
  match created with
  | JNull => Ok []
  | JArr l => rmap (fun v => match v with
                             | JStr s => if blank s then Raise ValueError else Ok s
                             | _ => Raise ValueError
                             end) l
  | _ => Raise ValueError
  end.

Definition accounting_correction_recorded (correction_id rule_id : string) (movements : list string)
    (previous : list (string * json)) (legs : list (list (string * string))) (said occurred_at : string)
    (context : option (list (string * json))) (created_accounts : json) : res Event :=
  match movements with
  | [] => Raise ValueError
  | first :: _ =>
      let? _ := raise_if (negb (nonempty correction_id) || negb (same_keys previous movements)) ValueError in
      let? _ := match context with
                | None => Ok tt
                | Some c => raise_if (negb (same_keys c context_required) || negb (in_or_out (field c "direction"))
                                      || negb (is_bool (field c "private"))) ValueError
                end in
      let? created := created_guard created_accounts in
      let? checked := checked_legs first occurred_at legs said in
      let accounts := List.map (fun l => match py_getitem l "account" with Ok v => v | _ => JNull end) checked in
      let? _ := raise_if (existsb (fun a => negb (existsb (fun v => py_eq_str v a) accounts)) created) ValueError in
      Ok (event fresh "AccountingCorrectionRecorded" occurred_at
            ([("correction_id", JStr correction_id); ("rule_id", JStr rule_id); ("movements", words movements);
              ("previous", JObj previous); ("legs", JArr checked); ("said", JStr said)]
             ++ match context with Some (_ :: _ as c) => [("context", JObj c)] | _ => [] end
             ++ optional "created_accounts" (words created) (match created with [] => false | _ => true end))%list
            Provenance_empty)
  end.

Definition accounting_correction_undone (correction_id rule_id occurred_at : string) : res Event :=
  let? _ := raise_if (negb (nonempty correction_id)) ValueError in
  Ok (event fresh "AccountingCorrectionUndone" occurred_at
        [("correction_id", JStr correction_id); ("rule_id", JStr rule_id)] Provenance_empty).

Definition accounting_treatment_restored (movement : string) (previous previous_category : list (string * json))
    (occurred_at : string) : res Event :=
  let? _ := raise_if (negb (nonempty movement)) ValueError in
  Ok (event fresh "AccountingTreatmentRestored" occurred_at
        [("movement", JStr movement); ("previous", JObj previous);
         ("previous_category", JObj previous_category)] Provenance_empty).
End Rulings.

Example grouped : List.map canonical_number ["250,000"; "2,50,000"; "250000.00"; "+٢٥٠٠٠٠"; " 0,5"; "12kg"]
  = ["250000"; "250000"; "250000"; "250000"; "5"; ""].
Proof. reflexivity. Qed.
Example said_numbers : numbers_said "paid 1,250,000 on 3 items, 0.50 each." = ["1250000"; "3"; ".5"].
Proof. reflexivity. Qed.

(** ** Rhythm laws *)
Lemma partition_true sep s a b : partition sep s = (a, true, b) -> s = a ++ String sep b.
Proof.
  unfold partition. destruct (span (fun c => negb (is_sep sep c)) (enc s)) as [l r] eqn:E.
  apply span_spec in E as (E & _ & Hr). destruct r as [|c r]; [done|].
  intros [= <- <-]. apply enc_inj. rewrite enc_app, enc_dec, E. f_equal.
  cbn [stops] in Hr. unfold is_sep in Hr. destruct (ascii_dec c sep) as [->|]; [|done].
  change (enc (String sep (dec r))) with (sep :: enc (dec r)). by rewrite enc_dec.
Qed.

Lemma rhythm_parts_direction subject d : (rhythm_parts subject).2 = d -> d <> "" ->
  exists m, m <> "" /\ subject = rhythm_subject m d /\ rhythm_parts subject = (m, d).
Proof.
  unfold rhythm_parts. destruct (partition RHYTHM_SEPARATOR subject) as [[m sep] d'] eqn:E.
  destruct (sep && negb (String.eqb m "") && negb (String.eqb d' "")) eqn:B; intros <-; [|done].
  intros _. destruct sep; [|done]. exists m. cbn [snd].
  split; [|split; [by apply partition_true|done]]. intros ->. done.
Qed.

Lemma rhythm_parts_subject m d : free_of "|" m -> m <> "" -> d <> "" ->
  rhythm_parts (rhythm_subject m d) = (m, d).
Proof.
  intros Hm Hm0 Hd0. unfold rhythm_parts, rhythm_subject. rewrite partition_app by done.
  apply String.eqb_neq in Hm0, Hd0. by rewrite Hm0, Hd0.
Qed.

Lemma known_free p : p ∈ PERIODICITIES -> free_of "+" p.
Proof.
  revert p. apply Forall_forall. repeat constructor; by apply (bool_decide_unpack _).
Qed.

Lemma nonempty_spec s : nonempty s = true <-> s <> "".
Proof. unfold nonempty. destruct (String.eqb_spec s ""); naive_solver. Qed.

(** Every word of the vocabulary, in its order, that the person said. *)
Definition confirmed (ps : list string) : list string :=
  List.filter (fun p => in_words p (List.map strip ps)) PERIODICITIES.
Definition all_known (ps : list string) : Prop := Forall (fun p => strip p ∈ PERIODICITIES) ps.

Lemma filter_elem {A} (f : A -> bool) l x : x ∈ List.filter f l <-> x ∈ l /\ f x = true.
Proof. rewrite !list_elem_of_In. apply List.filter_In. Qed.

Lemma rest_of_known ps : all_known ps ->
  List.filter (fun p => nonempty p && negb (in_words p PERIODICITIES)) (List.map strip ps) = [].
Proof.
  induction 1 as [|p ps Hp Hps IH]; [done|]. cbn [List.map List.filter]. apply in_words_spec in Hp.
  rewrite Hp, andb_false_r. exact IH.
Qed.

Lemma periodicity_value_known ps : all_known ps -> periodicity_value ps = join_words "+" (confirmed ps).
Proof.
  intros H. unfold periodicity_value. rewrite rest_of_known by done. cbn [sorted_set fold_right].
  by rewrite app_nil_r.
Qed.

Lemma confirmed_nonempty ps : all_known ps -> ps <> [] -> confirmed ps <> [].
Proof.
  intros H Hne. destruct H as [|p ps Hp Hps]; [done|]. intros E.
  assert (Hin : strip p ∈ confirmed (p :: ps)).
  { apply filter_elem. split; [done|]. apply in_words_spec. cbn [List.map]. by constructor. }
  rewrite E in Hin. by apply elem_of_nil in Hin.
Qed.

Lemma confirmed_free ps : Forall (free_of "+") (confirmed ps).
Proof. apply Forall_forall. intros p [Hp _]%filter_elem. by apply known_free. Qed.
Lemma confirmed_known ps p : p ∈ confirmed ps -> p ∈ PERIODICITIES /\ p <> "".
Proof.
  intros [Hp _]%filter_elem. split; [done|]. revert p Hp. apply Forall_forall. by repeat constructor.
Qed.

Lemma filter_all {A} (f : A -> bool) l : (forall x, x ∈ l -> f x = true) -> List.filter f l = l.
Proof.
  induction l as [|x l IH]; [done|]. intros H. cbn [List.filter]. rewrite (H x) by constructor.
  f_equal. apply IH. intros y Hy. apply H. by constructor.
Qed.
Lemma filter_none {A} (f : A -> bool) l : (forall x, x ∈ l -> f x = false) -> List.filter f l = [].
Proof.
  induction l as [|x l IH]; [done|]. intros H. cbn [List.filter]. rewrite (H x) by constructor.
  apply IH. intros y Hy. apply H. by constructor.
Qed.

Lemma periodicities_round ps : all_known ps -> ps <> [] ->
  periodicities_in (periodicity_value ps) = confirmed ps.
Proof.
  intros H Hne. rewrite periodicity_value_known by done. unfold periodicities_in.
  rewrite split_join; [|by apply confirmed_nonempty|apply confirmed_free].
  apply filter_all. intros p [_ Hp]%confirmed_known. by apply nonempty_spec.
Qed.

Lemma joined_nonempty sep w l : w <> "" -> join_words sep (w :: l) <> "".
Proof. intros Hw. destruct w; [done|]. by destruct l. Qed.

Lemma rhythm_guard_accepts m d ps : free_of "|" m -> m <> "" -> d ∈ RHYTHM_DIRECTIONS ->
  all_known ps -> ps <> [] -> rhythm_guard (rhythm_subject m d) (periodicity_value ps) = Ok tt.
Proof.
  intros Hm Hm0 Hd Hk Hne. assert (Hd0 : d <> "").
  { intros ->. unfold RHYTHM_DIRECTIONS in Hd. apply in_words_spec in Hd. done. }
  unfold rhythm_guard. rewrite rhythm_parts_subject by done. cbn [snd].
  apply in_words_spec in Hd. rewrite Hd. cbn [negb raise_if rbind].
  rewrite periodicities_round by done. rewrite filter_none.
  - rewrite periodicity_value_known by done. pose proof (confirmed_nonempty ps Hk Hne).
    destruct (confirmed ps) as [|w l] eqn:E; [done|]. rewrite (proj2 (nonempty_spec _)); [done|].
    apply joined_nonempty. apply (confirmed_known ps). rewrite E. constructor.
  - intros p [Hp _]%confirmed_known. apply in_words_spec in Hp. by rewrite Hp.
Qed.

(** One answer has one written form. *)
Lemma periodicity_value_ext ps qs :
  (forall p, p ∈ List.map strip ps <-> p ∈ List.map strip qs) -> periodicity_value ps = periodicity_value qs.
Proof.
  intros H. unfold periodicity_value. f_equal. f_equal.
  - apply List.filter_ext. intros p. apply eq_true_iff_eq. by rewrite !in_words_spec.
  - apply sorted_set_ext. intros p. rewrite !filter_elem. by rewrite H.
Qed.
