(* ===== verification/Conversations.v ===== *)
(** * Conversations and goals: product/viva/ledger/events.py

    The durable conversation turns and proposals, and the save-up goals: their terms, the
    funds set aside for them, and their proposals. *)
From Stdlib Require Import ZArith NArith Ascii String Lia ZifyBool ZifyN ZifyNat.
From stdpp Require Import base list numbers strings.
From S2P Require Import Prelude Text Words Json Unicode Dates Decimals Acquisition Events EventTypes.
#[local] Open Scope string_scope.

Definition CONVERSATION_TURN_KINDS : list string := ["ask"; "answer"; "decline"; "confirm"].
Definition CONVERSATION_CONTEXT_MODES : list string := ["new_question"; "follow_up"].
Definition CONVERSATION_OUTCOMES : list string :=
  ["completed"; "refused"; "proposal"; "waiting"; "stale"; "set_aside"].
Definition GOAL_STATES : list string := ["active"; "paused"; "set_aside"].
Definition GOAL_RELEASE_REASONS : list string := ["reassigned"; "used_elsewhere"].
Definition GOAL_PROPOSAL_VERBS : list string :=
  ["create"; "change_terms"; "reserve"; "release"; "pause"; "resume"; "set_aside"].
Definition GOAL_PROPOSAL_OUTCOMES : list string := ["completed"; "refused"; "stale"; "set_aside"].

Section Conversations.
Context (fresh : string).

Definition conversation_turn_opened (turn_id kind prompt occurred_at said question_id : string)
    (mirrored : bool) (context_mode : option string) (provenance : option Provenance) : res Event :=
  let? _ := raise_if (blank turn_id) ValueError in
  let? _ := raise_if (negb (in_words kind CONVERSATION_TURN_KINDS)) ValueError in
  let? _ := raise_if (blank prompt) ValueError in
  let? _ := raise_if (in_words kind ["answer"; "decline"] && blank question_id) ValueError in
  let? mode := match context_mode with
               | None => Ok []
               | Some m => if negb (String.eqb kind "ask") then Raise ValueError
                           else if negb (in_words m CONVERSATION_CONTEXT_MODES) then Raise ValueError
                           else Ok [("context_mode", JStr m)]
               end in
  Ok (event fresh "ConversationTurnOpened" occurred_at
        ([("turn_id", JStr turn_id); ("kind", JStr kind); ("prompt", JStr prompt); ("said", JStr said);
          ("question_id", JStr question_id); ("mirrored", JBool mirrored)] ++ mode)%list
        (or_empty provenance)).

Definition conversation_turn_settled (turn_id outcome message occurred_at reason : string)
    (answer : list (string * json)) (proposal_id : string) (provenance : option Provenance) : res Event :=
  let? _ := raise_if (blank turn_id) ValueError in
  let? _ := raise_if (negb (in_words outcome CONVERSATION_OUTCOMES)) ValueError in
  let? _ := raise_if (String.eqb outcome "refused" && blank reason) ValueError in
  let? _ := raise_if (String.eqb outcome "proposal" && blank proposal_id) ValueError in
  Ok (event fresh "ConversationTurnSettled" occurred_at
        [("turn_id", JStr turn_id); ("outcome", JStr outcome); ("message", JStr message);
         ("reason", JStr reason); ("answer", JObj answer); ("proposal_id", JStr proposal_id)]
        (or_empty provenance)).

(** [proposal] and [stake] are checked by type, so they are values. *)
Definition conversation_proposal_recorded (proposal_id turn_id question_id summary : string)
    (proposal stake : json) (occurred_at : string) (provenance : option Provenance) : res Event :=
  let? _ := raise_if (blank proposal_id || blank turn_id) ValueError in
  let? _ := raise_if (blank question_id) ValueError in
  let? _ := raise_if (negb (nonempty_dict proposal)) ValueError in
  let? _ := raise_if (negb (nonempty_dict stake)) ValueError in
  Ok (event fresh "ConversationProposalRecorded" occurred_at
        [("proposal_id", JStr proposal_id); ("turn_id", JStr turn_id); ("question_id", JStr question_id);
         ("summary", JStr summary); ("proposal", proposal); ("stake", stake)]
        (or_empty provenance)).

Definition conversation_proposal_resolved (proposal_id turn_id outcome message occurred_at reason : string)
    (provenance : option Provenance) : res Event :=
  let? _ := raise_if (blank proposal_id || blank turn_id) ValueError in
  let? _ := raise_if (negb (in_words outcome ["completed"; "refused"; "stale"; "set_aside"])) ValueError in
  let? _ := raise_if (String.eqb outcome "refused" && blank reason) ValueError in
  Ok (event fresh "ConversationProposalResolved" occurred_at
        [("proposal_id", JStr proposal_id); ("turn_id", JStr turn_id); ("outcome", JStr outcome);
         ("message", JStr message); ("reason", JStr reason)] (or_empty provenance)).

(** ** Goals *)
Definition goal_decimal (value : number) : res decimal :=
  match value with
  | NumFloat _ => Raise TypeError
  | _ =>
      match Decimal value with
      | Raise _ => Raise ValueError
      | Ok (Fin s c e) =>
          let? low := dle (Fin s c e) (Fin false 0 0) in
          if low then Raise ValueError else Ok (Fin s c e)
      | Ok _ => Raise ValueError
      end
  end.

(** [1 <= day <= 28], and neither a bool nor anything else. *)
Definition valid_day (v : json) : bool :=
  match v with JInt d => ((1 <=? d) && (d <=? 28))%Z | _ => false end.
Definition given (v : json) : bool := match v with JNull => false | _ => true end.

(** [contribution_day] is checked by type, so it is a value; [JNull] is None. *)
Definition goal_terms `{CaseMap} (goal_id title currency : string) (target_amount : number)
    (target_date : string) (monthly_contribution : option number) (contribution_day : json)
    : res (list (string * json)) :=
  let? _ := raise_if (blank goal_id) ValueError in
  let? _ := raise_if (blank title) ValueError in
  let? _ := raise_if (blank currency) ValueError in
  let? target := goal_decimal target_amount in
  let date_text := strip target_date in
  let? _ := if String.eqb date_text "" then Ok tt
            else let? _ := fromisoformat date_text in Ok tt in
  let? contribution := match monthly_contribution with
                       | Some x => if absent (Some x) then Ok ""
                                   else let? d := goal_decimal x in Ok (dec_str d)
                       | None => Ok ""
                       end in
  let? _ := raise_if (given contribution_day && negb (valid_day contribution_day)) ValueError in
  let? _ := raise_if (negb (String.eqb contribution "") && negb (given contribution_day)) ValueError in
  let? _ := raise_if (given contribution_day && String.eqb contribution "" && String.eqb date_text "") ValueError in
  Ok [("goal_id", JStr (strip goal_id)); ("kind", JStr "save_up"); ("title", JStr (strip title));
      ("currency", JStr (str_upper (strip currency))); ("target_amount", JStr (dec_str target));
      ("target_date", JStr date_text); ("monthly_contribution", JStr contribution);
      ("contribution_day", contribution_day)].

Definition goal_event `{CaseMap} (event_type goal_id title currency : string) (target_amount : number)
    (occurred_at target_date : string) (monthly_contribution : option number) (contribution_day : json)
    (proposal_id : string) (provenance : option Provenance) : res Event :=
  let? body := goal_terms goal_id title currency target_amount target_date monthly_contribution contribution_day in
  Ok (event fresh event_type occurred_at (body ++ [("proposal_id", JStr proposal_id)])%list (or_empty provenance)).
Definition goal_created `{CaseMap} := goal_event "GoalCreated".
Definition goal_terms_changed `{CaseMap} := goal_event "GoalTermsChanged".

Definition goal_funds_reserved (goal_id account_id : string) (amount : number)
    (occurred_at proposal_id : string) (provenance : option Provenance) : res Event :=
  let? _ := raise_if (blank goal_id || blank account_id) ValueError in
  let? a := goal_decimal amount in
  Ok (event fresh "GoalFundsReserved" occurred_at
        [("goal_id", JStr (strip goal_id)); ("account_id", JStr (strip account_id));
         ("amount", JStr (dec_str a)); ("proposal_id", JStr proposal_id)] (or_empty provenance)).

Definition goal_funds_released (goal_id account_id : string) (amount : number)
    (reason occurred_at proposal_id : string) (provenance : option Provenance) : res Event :=
  let? _ := raise_if (blank goal_id || blank account_id) ValueError in
  let? _ := raise_if (negb (in_words reason GOAL_RELEASE_REASONS)) ValueError in
  let? a := goal_decimal amount in
  Ok (event fresh "GoalFundsReleased" occurred_at
        [("goal_id", JStr (strip goal_id)); ("account_id", JStr (strip account_id));
         ("amount", JStr (dec_str a)); ("reason", JStr reason); ("proposal_id", JStr proposal_id)]
        (or_empty provenance)).

Definition goal_state_changed (goal_id state occurred_at proposal_id : string)
    (provenance : option Provenance) : res Event :=
  let? _ := raise_if (blank goal_id) ValueError in
  let? _ := raise_if (negb (in_words state GOAL_STATES)) ValueError in
  Ok (event fresh "GoalStateChanged" occurred_at
        [("goal_id", JStr (strip goal_id)); ("state", JStr state); ("proposal_id", JStr proposal_id)]
        (or_empty provenance)).

Definition goal_proposal_recorded (proposal_id verb summary : string) (proposal stake : json)
    (occurred_at : string) (provenance : option Provenance) : res Event :=
  let? _ := raise_if (blank proposal_id) ValueError in
  let? _ := raise_if (negb (in_words verb GOAL_PROPOSAL_VERBS)) ValueError in
  let? _ := raise_if (negb (nonempty_dict proposal)) ValueError in
  let? _ := raise_if (negb (nonempty_dict stake)) ValueError in
  Ok (event fresh "GoalProposalRecorded" occurred_at
        [("proposal_id", JStr (strip proposal_id)); ("verb", JStr verb); ("summary", JStr summary);
         ("proposal", proposal); ("stake", stake)] (or_empty provenance)).

Definition goal_proposal_resolved (proposal_id outcome occurred_at reason : string)
    (provenance : option Provenance) : res Event :=
  let? _ := raise_if (blank proposal_id) ValueError in
  let? _ := raise_if (negb (in_words outcome GOAL_PROPOSAL_OUTCOMES)) ValueError in
  Ok (event fresh "GoalProposalResolved" occurred_at
        [("proposal_id", JStr (strip proposal_id)); ("outcome", JStr outcome); ("reason", JStr reason)]
        (or_empty provenance)).
End Conversations.

(** What the terms of a goal promise. *)
Definition positive_amount (v : json) : Prop :=
  exists s c e, v = JStr (dec_str (Fin s c e)) /\ Decimal_of_str (dec_str (Fin s c e)) = Ok (Fin s c e)
    /\ dlt (Fin false 0 0) (Fin s c e) = Ok true.
Definition terms_hold (kv : list (string * json)) : Prop :=
  positive_amount (field kv "target_amount")
  /\ (field kv "monthly_contribution" = JStr "" \/ positive_amount (field kv "monthly_contribution"))
  /\ (field kv "contribution_day" = JNull \/ exists d, field kv "contribution_day" = JInt d /\ (1 <= d <= 28)%Z)
  /\ (field kv "monthly_contribution" <> JStr "" -> field kv "contribution_day" <> JNull)
  /\ (field kv "contribution_day" <> JNull ->
      field kv "monthly_contribution" <> JStr "" \/ field kv "target_date" <> JStr "")
  /\ (exists t, field kv "target_date" = JStr t /\ (t <> "" -> exists d, fromisoformat t = Ok d)).

Lemma goal_decimal_ok x d : goal_decimal x = Ok d -> positive_amount (JStr (dec_str d)).
Proof.
  intros H. assert (Hp : exists sg c e, d = Fin sg c e /\ dle (Fin sg c e) (Fin false 0 0) = Ok false).
  { unfold goal_decimal in H.
    destruct x; try done;
      (match type of H with context [Decimal ?n] => destruct (Decimal n) as [[sg c e| |]|] end; try done;
       run_ok; match goal with E : dle _ _ = Ok ?b |- _ => destruct b; [done|] end;
       injection H as <-; by exists sg, c, e). }
  destruct Hp as (sg & c & e & -> & Hle). exists sg, c, e. split; [done|]. split; [apply Decimal_str_round|].
  rewrite (dle_units (Z.min e 0)) in Hle by (cbn; lia). apply Ok_inj in Hle.
  rewrite (dlt_units (Z.min e 0)) by (cbn; lia). f_equal. lia.
Qed.

Lemma goal_terms_hold `{CaseMap} goal_id title currency target date contribution day kv :
  goal_terms goal_id title currency target date contribution day = Ok kv -> terms_hold kv.
Proof.
  unfold goal_terms. intros Hx. run_ok. unfold terms_hold.
  match goal with H : goal_decimal target = Ok _ |- _ => apply goal_decimal_ok in H; rename H into Ht end.
  match goal with H : match contribution with _ => _ end = Ok ?c |- _ => rename H into Hc; rename c into con end.
  assert (Hcon : con = "" \/ positive_amount (JStr con)).
  { destruct contribution as [x|]; [|injection Hc as <-; by left].
    destruct (absent (Some x)); [injection Hc as <-; by left|]. run_ok. subst. right. by eapply goal_decimal_ok. }
  cbn [field dict_get String.eqb Ascii.eqb Bool.eqb]. clear Hc.
  split; [done|]. split; [destruct Hcon as [->|]; [by left|by right]|].
  match goal with H : given day && negb (valid_day day) = false |- _ => rename H into Hd end.
  match goal with H : negb (String.eqb con "") && _ = false |- _ => rename H into Hcd end.
  match goal with H : given day && String.eqb con "" && _ = false |- _ => rename H into Hdc end.
  match goal with H : (if String.eqb (strip date) "" then _ else _) = Ok _ |- _ => rename H into Hdate end.
  split; [|split; [|split]].
  - destruct day; try done; [by left|]. right. exists z. split; [done|]. cbn in Hd. lia.
  - intros Hn ->. cbn in Hcd. destruct (String.eqb_spec con "") as [->|]; [by apply Hn|done].
  - intros Hn. destruct (given day) eqn:Hg; [|by destruct day].
    destruct (String.eqb_spec con "") as [->|]; [|left; congruence].
    destruct (String.eqb_spec (strip date) ""); [done|right; congruence].
  - exists (strip date). split; [done|]. intros Hn%String.eqb_neq. rewrite Hn in Hdate. run_ok. by eexists.
Qed.
