(* ===== verification/Postings.v ===== *)
(** * Postings: product/viva/ledger/postings.py

    The double-entry shapes: which counter-leg a movement gets, and the builders whose
    legs [_require_balanced] accepts.  Amounts are [Decimals] in the default context, so a
    negation or a sum rounds to 28 digits.  The lemmas relate what a builder returns to
    the legs read back from the event ([postings_of]) and to sums of whole units. *)
From Stdlib Require Import ZArith NArith Ascii String Lia ZifyBool ZifyN ZifyNat.
From stdpp Require Import base list numbers strings.
From S2P Require Import Prelude Text Words Json Unicode Decimals Floats Arithmetic Acquisition Events EventTypes.
#[local] Open Scope string_scope.

Definition EQUITY_OPENING : string := "Equity:OpeningBalance".
Definition INCOME_UNCATEGORIZED : string := "Income:Uncategorized".
Definition EXPENSE_UNCATEGORIZED : string := "Expenses:Uncategorized".
Definition TRANSFERS_UNCATEGORIZED : string := "Transfers:Uncategorized".
Definition LIABILITIES_UNCATEGORIZED : string := "Liabilities:Uncategorized".

Definition MAJOR_ROOTS : list (string * string) :=
  [("expense", "Expenses"); ("asset", "Assets"); ("liability", "Liabilities"); ("income", "Income")].
Definition MAJOR_UNCATEGORIZED : list (string * string) :=
  [("expense", EXPENSE_UNCATEGORIZED); ("asset", "Assets:Uncategorized");
   ("liability", LIABILITIES_UNCATEGORIZED); ("income", INCOME_UNCATEGORIZED)].

(** [p.strip().replace(":", " ").strip()]. *)
Definition clean_part (p : string) : string :=
  strip (dec (List.map (fun c => if ascii_dec c ":" then " "%char else c) (enc (strip p)))).

Definition account_path (major : string) (parts : list string) : res string :=
  match dict_get MAJOR_ROOTS major with
  | None => Raise ValueError
  | Some root =>
      let clean := List.map clean_part parts in
      Ok (join_words ":" (root :: List.filter (fun p => negb (String.eqb p "")) clean))
  end.

Definition dzero : decimal := Fin false 0 0.
(** [amount > 0]. *)
Definition positive (d : decimal) : res bool := dlt dzero d.

Definition counter_account (kind : string) (amount : decimal) : res string :=
  let? up := positive amount in
  if String.eqb kind "liability" then Ok (if up then EXPENSE_UNCATEGORIZED else TRANSFERS_UNCATEGORIZED)
  else Ok (if up then INCOME_UNCATEGORIZED else EXPENSE_UNCATEGORIZED).

Definition INCOME_SALARY : string := "Income:Salary".
Definition DEDUCTION_ACCOUNTS : list (string * string) :=
  [("tax", "Expenses:Tax"); ("retirement", "Assets:Retirement");
   ("insurance", "Expenses:Insurance"); ("other", "Expenses:Other")].

Definition INCOME_DIVIDENDS : string := "Income:Dividends".
Definition INCOME_INTEREST : string := "Income:Interest".
Definition INCOME_CAPITAL_GAINS : string := "Income:CapitalGains".
Definition EXPENSE_FEES : string := "Expenses:Fees".
Definition ASSET_INVESTMENTS : string := "Assets:Investments".

Definition BROKERAGE_CASH_IN : list string := ["contribution"; "dividend"; "interest"; "sell"].
Definition BROKERAGE_CASH_OUT : list string := ["withdrawal"; "fee"; "buy"].

Definition brokerage_cash_effect (kind : string) (amount : number) : res decimal :=
  let? amt := Decimal amount in
  if in_words kind BROKERAGE_CASH_IN then Ok amt
  else if in_words kind BROKERAGE_CASH_OUT then dneg default_ctx amt
  else Raise ValueError.

(** ** The double-entry law *)
Definition transaction_balances (postings : list Posting) (tol : number) : res CheckResult :=
  check_sum (List.map (fun p => NumDec (amount p)) postings) (NumDec dzero)
    "transaction postings sum to zero" tol.

Definition require_balanced (postings : list Posting) : res (list Posting) :=
  let? r := transaction_balances postings no_tolerance in
  if passed r then Ok postings else Raise ValueError.

(** [Posting(account, amount, grade)] on a [Decimal]. *)
Definition leg (acct : string) (d : decimal) (g : string) : res Posting :=
  new_posting (JStr acct) (NumDec d) g.

(** [event.body[key] = v]. *)
Definition set_body (e : Event) (k : string) (v : json) : Event :=
  match body e with
  | JObj kv => mkEvent (event_type e) (occurred_at e) (JObj (dict_set kv k v)) (provenance e) (event_id e)
  | _ => e
  end.

Section Builders.
Context (fresh : string).

(** The counter-legs of one brokerage activity. *)
Definition brokerage_counter (kind : string) (cash : decimal) (realized_gain : option number)
    : res (list Posting) :=
  let one acct g := let? n := dneg default_ctx cash in let? p := leg acct n g in Ok [p] in
  if in_words kind ["contribution"; "withdrawal"] then one TRANSFERS_UNCATEGORIZED UNVERIFIED
  else if String.eqb kind "dividend" then one INCOME_DIVIDENDS VERIFIED
  else if String.eqb kind "interest" then one INCOME_INTEREST VERIFIED
  else if String.eqb kind "fee" then one EXPENSE_FEES VERIFIED
  else if String.eqb kind "buy" then one ASSET_INVESTMENTS VERIFIED
  else if String.eqb kind "sell" then
    let? gain := optional_decimal realized_gain in
    match gain with
    | None => one ASSET_INVESTMENTS VERIFIED
    | Some gain =>
        let? basis := dsub default_ctx cash gain in
        let? nb := dneg default_ctx basis in
        let? p := leg ASSET_INVESTMENTS nb VERIFIED in
        let? ng := dneg default_ctx gain in
        let? q := leg INCOME_CAPITAL_GAINS ng VERIFIED in
        Ok [p; q]
    end
  else Raise ValueError.

Definition brokerage_activity_transaction (account kind : string) (amount : number)
    (description occurred_at instrument : string) (realized_gain : option number)
    (provenance : option Provenance) : res Event :=
  let? amt := Decimal amount in
  let? low := dle amt dzero in
  let? _ := raise_if low ValueError in
  let? cash := brokerage_cash_effect kind (NumDec amt) in
  let? counter := brokerage_counter kind cash realized_gain in
  let label := or_text description (strip (kind ++ " " ++ instrument)) in
  let? first := leg account cash VERIFIED in
  let? legs := require_balanced (first :: counter) in
  Ok (transaction_recorded fresh legs label occurred_at [] provenance).

(** An object with [.amount] and [.category]. *)
Record Deduction := mkDeduction { ded_category : string; ded_amount : number }.

Definition deduction_account (category : string) : string :=
  match dict_get DEDUCTION_ACCOUNTS category with Some a => a | None => "Expenses:Other" end.

Definition deduction_leg (d : Deduction) : res Posting :=
  let? x := Decimal (ded_amount d) in
  let? a := dabs default_ctx x in
  leg (deduction_account (ded_category d)) a UNVERIFIED.

Definition paystub_decomposition (gross net : number) (deductions : list Deduction)
    (description occurred_at : string) (provenance : option Provenance)
    (matched_movement_key matched_currency : string) : res Event :=
  let? gross_d := Decimal gross in
  let? net_d := Decimal net in
  let? ng := dneg default_ctx gross_d in
  let? salary := leg INCOME_SALARY ng VERIFIED in
  let? placeholder := leg INCOME_UNCATEGORIZED net_d UNVERIFIED in
  let? ded := rmap deduction_leg deductions in
  let? legs := require_balanced (salary :: placeholder :: ded) in
  let e := transaction_recorded fresh legs description occurred_at [] provenance in
  if String.eqb matched_movement_key "" then Ok e
  else if String.eqb matched_currency "" then Raise ValueError
  else Ok (set_body (set_body e "matched_movement_key" (JStr matched_movement_key))
             "matched_currency" (JStr matched_currency)).

(** The references are checked by type, so they are values. *)
Definition simple_transaction (account : string) (amount : number) (description occurred_at : string)
    (tags : list string) (provenance : option Provenance) (account_grade kind : string)
    (source_reference counterparty_reference : json) : res Event :=
  let? amt := Decimal amount in
  let? zero := deq amt dzero in
  let? _ := raise_if zero ValueError in
  let? counter := counter_account kind amt in
  let? p := leg account amt account_grade in
  let? n := dneg default_ctx amt in
  let? q := leg counter n UNVERIFIED in
  let? postings := require_balanced [p; q] in
  let? _ := raise_if (negb (is_str source_reference) || negb (is_str counterparty_reference)) ValueError in
  let e := transaction_recorded fresh postings description occurred_at tags provenance in
  if py_truthy source_reference || py_truthy counterparty_reference then
    Ok (set_body (set_body e "source_reference" source_reference)
          "counterparty_reference" counterparty_reference)
  else Ok e.

(** One pair of the loop over [splits]: the running total and the legs so far. *)
Definition split_step (sign : decimal) (acc : decimal * list Posting) (s : string * number)
    : res (decimal * list Posting) :=
  let '(total, legs) := acc in
  let? m := Decimal s.2 in
  let? low := dle m dzero in
  let? _ := raise_if low ValueError in
  let? total := dadd default_ctx total m in
  let? x := dmul default_ctx sign m in
  let? p := leg s.1 x UNVERIFIED in
  Ok (total, legs ++ [p])%list.

(** [total != abs(amt)]. *)
Definition dne (a b : decimal) : res bool := let? e := deq a b in Ok (negb e).

Definition split_transaction (account : string) (amount : number) (splits : list (string * number))
    (description occurred_at : string) (tags : list string) (provenance : option Provenance) : res Event :=
  let? amt := Decimal amount in
  let? zero := deq amt dzero in
  let? _ := raise_if zero ValueError in
  let? up := positive amt in
  let sign := Decimal_of_Z (if up then -1 else 1) in
  let? first := leg account amt VERIFIED in
  let? tl := rfold (split_step sign) splits (dzero, [first]) in
  let '(total, legs) := tl in
  let? a := dabs default_ctx amt in
  let? off := dne total a in
  let? _ := raise_if off ValueError in
  let? legs := require_balanced legs in
  Ok (transaction_recorded fresh legs description occurred_at tags provenance).
End Builders.

(** ** Legs *)
Definition finite (d : decimal) : Prop := match d with Fin _ _ _ => True | _ => False end.
(** A posting the constructor could have made from a finite amount. *)
Definition sound (p : Posting) : Prop := finite (amount p) /\ in_words (grade p) GRADES = true.

Lemma new_posting_ok a d g p : new_posting a (NumDec d) g = Ok p ->
  p = mkPosting a d g /\ in_words g GRADES = true.
Proof. unfold new_posting. cbn [Decimal rbind]. destruct (in_words g GRADES); [|done]. by intros [= <-]. Qed.
Lemma leg_ok acct d g p : leg acct d g = Ok p ->
  p = mkPosting (JStr acct) d g /\ in_words g GRADES = true.
Proof. apply new_posting_ok. Qed.
Ltac leg_facts := repeat match goal with H : leg _ _ _ = Ok _ |- _ => apply leg_ok in H as [-> ?] end.

Lemma posting_round p : sound p -> Posting_from_dict (Posting_to_dict p) = Ok p.
Proof.
  intros [Hf Hg]. destruct p as [a d g]. destruct d as [s c e| |]; [|done..].
  unfold Posting_from_dict, Posting_to_dict. cbn [account amount grade] in *.
  cbn [py_getitem py_get_default dict_get String.eqb Ascii.eqb Bool.eqb rbind Decimal_of_json].
  rewrite Decimal_str_round. cbn [rbind]. unfold new_posting. cbn [Decimal rbind]. by rewrite Hg.
Qed.
Lemma postings_round ps : Forall sound ps -> rmap Posting_from_dict (List.map Posting_to_dict ps) = Ok ps.
Proof.
  induction 1 as [|p ps Hp Hps IH]; [done|]. cbn [List.map rmap]. by rewrite posting_round, IH.
Qed.

(** ** What [_require_balanced] accepts *)
Lemma fix_not_finite cx d r : fix_dec cx d = Ok r -> finite r -> finite d.
Proof. unfold fix_dec. destruct d; [done| |]; intros [= <-]; exact id. Qed.

Lemma dadd_finite cx a b r : dadd cx a b = Ok r -> finite r -> finite a /\ finite b.
Proof.
  unfold dadd, check_nans.
  destruct a as [s c e|s|s [] n], b as [t d f|t|t [] m]; try done;
    try (intros [= <-]; done); intros H Hr; try (injection H as <-; done).
  destruct (bool_decide _); [|done]. injection H as <-. done.
Qed.
Lemma dsub_finite cx a b r : dsub cx a b = Ok r -> finite r -> finite a /\ finite b.
Proof.
  unfold dsub, check_nans. intros H Hr.
  destruct a as [s c e|s|s [] n], b as [t d f|t|t [] m]; try done; try (injection H as <-; done);
    apply dadd_finite in H as [H1 H2]; done.
Qed.

Lemma sum_finite xs acc r : 
  rfold (fun a x => let? d := as_decimal x in dadd default_ctx a d) xs acc = Ok r -> finite r ->
  finite acc /\ Forall (fun x => forall d, as_decimal x = Ok d -> finite d) xs.
Proof.
  revert acc. induction xs as [|x xs IH]; intros acc H Hr; cbn [rfold] in H.
  - injection H as <-. done.
  - run_ok. apply IH in H as [Hf H]; [|done]. apply dadd_finite in E as [Ha Hd]; [|done].
    split; [done|]. constructor; [|done]. intros d' Hd'. congruence.
Qed.

(** A difference within a zero tolerance is finite, so everything in it is. *)
Lemma verdict_finite label w g t r : verdict label w g t = Ok r -> passed r = true ->
  t = dzero -> finite w /\ finite g.
Proof.
  unfold verdict. intros H Hp ->. run_ok. cbn in Hp. subst.
  assert (Hd : finite a).
  { destruct a as [| |s [] n]; [done|..]; cbn in E0; try done; injection E0 as <-; done. }
  apply dsub_finite in E as [? ?]; done.
Qed.

Lemma balanced_ok ps ps' : require_balanced ps = Ok ps' ->
  ps' = ps /\ Forall (fun p => finite (amount p)) ps.
Proof.
  unfold require_balanced, transaction_balances, check_sum. intros H. run_ok.
  destruct (passed a) eqn:Hp; [|done]. injection H as <-. split; [done|].
  cbn [as_decimal no_tolerance Decimal] in *. run_ok.
  match goal with H : verdict _ _ _ ?t = Ok _ |- _ =>
    apply verdict_finite in H as [Hf _]; [|done|] end.
  - match goal with H : sum_decimals _ = Ok _ |- _ => apply sum_finite in H as [_ Hall]; [|done] end.
    rewrite Forall_map in Hall. eapply Forall_impl; [exact Hall|]. intros p Hx. by apply Hx.
  - match goal with H : Decimal_of_str _ = Ok _ |- _ => by vm_compute in H; injection H as <- end.
Qed.

(** The legs of a posted transaction sum to exactly zero, while they fit the precision. *)
Definition in_scale (e0 : Z) (ps : list Posting) : Prop :=
  Forall (fun p => on_scale e0 (amount p)) ps
  /\ fits default_ctx (mags (List.map (fun p => units e0 (amount p)) ps)).
Definition leg_sum (e0 : Z) (ps : list Posting) : Z := zsum (List.map (fun p => units e0 (amount p)) ps).

Lemma legs_read e0 ps : Forall (fun p => on_scale e0 (amount p)) ps ->
  Forall2 (reads e0) (List.map (fun p => NumDec (amount p)) ps)
          (List.map (fun p => units e0 (amount p)) ps).
Proof. induction 1; cbn; constructor; [by eexists|done]. Qed.

Lemma balances_iff e0 ps : scale_ok default_ctx e0 -> (e0 <= 0)%Z -> in_scale e0 ps ->
  require_balanced ps = if (leg_sum e0 ps =? 0)%Z then Ok ps else Raise ValueError.
Proof.
  intros Hs He [Hps Hf]. unfold require_balanced, transaction_balances, check_sum.
  replace (as_decimal no_tolerance) with (@Ok decimal dzero) by (by vm_compute).
  cbn [rbind as_decimal Decimal].
  destruct (sum_exact e0 _ _ Hs He (legs_read e0 ps Hps) Hf) as (r & -> & Hr & Hu). cbn [rbind].
  destruct (verdict_exact "transaction postings sum to zero" e0 r dzero dzero) as (v & -> & _ & _ & _ & [Hv _]); try done.
  - rewrite Hu. cbn [units dzero signed]. eapply fits_le; [exact Hf|].
    pose proof (zsum_mags (List.map (fun p => units e0 (amount p)) ps)). cbn. lia.
  - cbn [rbind]. rewrite Hv, Hu. unfold leg_sum. cbn.
    destruct (Z.eqb_spec (zsum (List.map (fun p => units e0 (amount p)) ps)) 0) as [->|Hn]; [done|].
    by replace (Z.abs _ <=? 0)%Z with false by lia.
Qed.

Lemma balanced_zero e0 ps ps' : scale_ok default_ctx e0 -> (e0 <= 0)%Z -> in_scale e0 ps ->
  require_balanced ps = Ok ps' -> leg_sum e0 ps = 0%Z.
Proof.
  intros Hs He Hp. rewrite (balances_iff e0) by done. by destruct (Z.eqb_spec (leg_sum e0 ps) 0).
Qed.

(** ** What a builder returns *)

(** The event carries these legs, and they balance. *)
Definition posted (e : Event) (legs : list Posting) : Prop :=
  postings_of e = Ok legs /\ Forall sound legs /\ require_balanced legs = Ok legs.
Definition graded (p : Posting) : Prop := in_words (grade p) GRADES = true.

Lemma dict_set_same {A} (d : list (string * A)) k v : dict_get (dict_set d k v) k = Some v.
Proof.
  induction d as [|[k' v'] d IH]; cbn [dict_set dict_get]; [by rewrite String.eqb_refl|].
  destruct (String.eqb_spec k k') as [->|Hk]; cbn [dict_get]; [by rewrite String.eqb_refl|].
  apply String.eqb_neq in Hk. by rewrite Hk.
Qed.
Lemma dict_get_set {A} (kv : list (string * A)) k k' v : k <> k' ->
  dict_get (dict_set kv k v) k' = dict_get kv k'.
Proof.
  intros Hk. induction kv as [|[j w] kv IH]; cbn [dict_set dict_get].
  - apply not_eq_sym, String.eqb_neq in Hk. by rewrite Hk.
  - destruct (String.eqb_spec k j) as [->|Hj]; cbn [dict_get]; [|by rewrite IH].
    apply not_eq_sym, String.eqb_neq in Hk. by rewrite Hk.
Qed.

Lemma set_body_posted e k v legs : k <> "postings" -> posted e legs -> posted (set_body e k v) legs.
Proof.
  intros Hk [H Hr]. split; [|done]. rewrite <- H. destruct e as [t o b p i].
  unfold set_body. cbn [body event_type occurred_at provenance event_id].
  destruct b; try done. unfold postings_of. cbn [body]. cbn [py_get_default].
  by rewrite dict_get_set.
Qed.

Lemma recorded_posted fresh ps ps' d o tags prov : Forall graded ps -> require_balanced ps = Ok ps' ->
  posted (transaction_recorded fresh ps' d o tags prov) ps.
Proof.
  intros Hg Hb. pose proof (balanced_ok _ _ Hb) as [-> Hf].
  assert (Hs : Forall sound ps) by (by apply Forall_and).
  split; [|done]. unfold postings_of, transaction_recorded, event. cbn [body].
  cbn [py_get_default dict_get String.eqb Ascii.eqb Bool.eqb rbind]. by apply postings_round.
Qed.

(** The bucket for an account kind and a direction. *)
Definition counter_of (kind : string) (up : bool) : string :=
  if String.eqb kind "liability" then (if up then EXPENSE_UNCATEGORIZED else TRANSFERS_UNCATEGORIZED)
  else (if up then INCOME_UNCATEGORIZED else EXPENSE_UNCATEGORIZED).

Section BuilderLaws.
Context (fresh : string).

Lemma simple_ok acct x d o tags prov g kind sref cref e :
  simple_transaction fresh acct x d o tags prov g kind sref cref = Ok e ->
  exists amt counter n, Decimal x = Ok amt /\ deq amt dzero = Ok false
    /\ counter_account kind amt = Ok counter /\ dneg default_ctx amt = Ok n
    /\ posted e [mkPosting (JStr acct) amt g; mkPosting (JStr counter) n UNVERIFIED].
Proof.
  unfold simple_transaction. intros H. run_ok. subst.
  leg_facts.
  exists a, a2, a4. do 4 (split; [done|]).
  match goal with H : require_balanced _ = Ok _ |- _ =>
    eapply recorded_posted with (d := d) (o := o) (tags := tags) (prov := prov) (fresh := fresh) in H
  end; [|by repeat constructor].
  destruct (py_truthy sref || py_truthy cref); injection H as <-; [|done].
  by repeat (apply set_body_posted; [done|]).
Qed.

Lemma split_loop sign splits total legs total' legs' : Forall graded legs ->
  rfold (split_step sign) splits (total, legs) = Ok (total', legs') ->
  Forall graded legs' /\ exists ms xs, Forall2 (fun s m => Decimal s.2 = Ok m /\ dle m dzero = Ok false) splits ms
    /\ Forall2 (fun m x => dmul default_ctx sign m = Ok x) ms xs
    /\ rfold (dadd default_ctx) ms total = Ok total'
    /\ legs' = (legs ++ zip_with (fun s x => mkPosting (JStr s.1) x UNVERIFIED) splits xs)%list.
Proof.
  revert total legs. induction splits as [|s splits IH]; intros total legs Hg H; cbn [rfold] in H.
  - injection H as <- <-. split; [done|]. exists [], []. rewrite app_nil_r. by repeat constructor.
  - run_ok. unfold split_step in E. run_ok. subst.
    match goal with H : leg _ _ _ = Ok _ |- _ => apply leg_ok in H as [-> Hu] end.
    apply IH in H as (Hg' & ms & xs & H1 & H2 & H3 & ->); [|apply Forall_app; split; [done|by repeat constructor]].
    split; [done|]. eexists (_ :: ms), (_ :: xs). split; [by constructor|]. split; [by constructor|].
    split; [cbn [rfold]; by match goal with H : dadd _ _ _ = Ok _ |- _ => rewrite H end|].
    cbn [zip_with]. by rewrite <- app_assoc.
Qed.
End BuilderLaws.

(** ** Exact legs *)
Lemma zero_units e0 : units e0 dzero = 0%Z.
Proof. done. Qed.
Lemma zero_scale e0 : (e0 <= 0)%Z -> on_scale e0 dzero.
Proof. done. Qed.
#[export] Hint Resolve zero_scale : viva.

Lemma is_zero_units e0 d : (e0 <= 0)%Z -> on_scale e0 d -> deq d dzero = Ok (units e0 d =? 0)%Z.
Proof. intros He Hd. by rewrite (deq_units e0) by auto with viva. Qed.
Lemma positive_units e0 d : (e0 <= 0)%Z -> on_scale e0 d -> positive d = Ok (0 <? units e0 d)%Z.
Proof. intros He Hd. unfold positive. by rewrite (dlt_units e0) by auto with viva. Qed.
Lemma low_units e0 d : (e0 <= 0)%Z -> on_scale e0 d -> dle d dzero = Ok (units e0 d <=? 0)%Z.
Proof. intros He Hd. by rewrite (dle_units e0) by auto with viva. Qed.

Lemma counter_units e0 kind d : (e0 <= 0)%Z -> on_scale e0 d ->
  counter_account kind d = Ok (counter_of kind (0 <? units e0 d)%Z).
Proof.
  intros He Hd. unfold counter_account, counter_of. rewrite (positive_units e0) by done. cbn [rbind].
  by destruct (String.eqb kind "liability").
Qed.

Lemma leg_make acct d g : in_words g GRADES = true -> leg acct d g = Ok (mkPosting (JStr acct) d g).
Proof. intros H. unfold leg, new_posting. cbn [Decimal rbind]. by rewrite H. Qed.

(** [Decimal(-1) * m] and [Decimal(1) * m]. *)
Lemma dmul_sign e0 s m : scale_ok default_ctx e0 -> on_scale e0 m -> fits default_ctx (units e0 m) ->
  exists r, dmul default_ctx (Fin s 1 0) m = Ok r /\ on_scale e0 r
    /\ units e0 r = (if s then - units e0 m else units e0 m)%Z.
Proof.
  intros Hs Hm Hf. destruct m as [t d f| |]; [|done..]. unfold dmul, check_nans.
  assert (Hu : units e0 (Fin (xorb s t) (1 * d) (0 + f)) = (if s then - units e0 (Fin t d f) else units e0 (Fin t d f))%Z).
  { unfold units, signed. rewrite N.mul_1_l. change (0 + f)%Z with f. destruct s, t; cbn [xorb]; lia. }
  destruct (fix_exact default_ctx e0 (xorb s t) (1 * d) (0 + f) Hs) as (r & E & Hr & Hu').
  - exact Hm.
  - rewrite Hu. destruct s; [by apply fits_opp|done].
  - exists r. split; [exact E|]. split; [done|]. by rewrite Hu'.
Qed.

(** A magnitude the split loop accepts: that many positive units. *)
Definition magnitude (e0 : Z) (s : string * number) (z : Z) : Prop :=
  exists m, Decimal s.2 = Ok m /\ on_scale e0 m /\ units e0 m = z /\ (0 < z)%Z.

Lemma split_loop_exact e0 sg splits zs total legs : scale_ok default_ctx e0 -> (e0 <= 0)%Z ->
  on_scale e0 total -> Forall2 (magnitude e0) splits zs ->
  fits default_ctx (Z.abs (units e0 total) + mags zs) ->
  exists total' new, rfold (split_step (Fin sg 1 0)) splits (total, legs) = Ok (total', legs ++ new)%list
    /\ on_scale e0 total' /\ units e0 total' = (units e0 total + zsum zs)%Z
    /\ Forall graded new /\ Forall (fun p => on_scale e0 (amount p)) new
    /\ List.map account new = List.map (fun s => JStr s.1) splits
    /\ List.map (fun p => units e0 (amount p)) new = List.map (fun z => if sg then - z else z)%Z zs.
Proof.
  intros Hs He Ht H. revert total legs Ht. induction H as [|s z splits zs (m & Em & Hm & Hz & Hp) H IH]; intros total legs Ht Hf.
  - exists total, []. rewrite app_nil_r. cbn. repeat split; try done; try lia; constructor.
  - rewrite mags_cons in Hf. pose proof (mags_nonneg zs). cbn [rfold]. unfold split_step at 1.
    rewrite Em. cbn [rbind]. rewrite (low_units e0) by done. cbn [rbind]. rewrite Hz.
    replace (z <=? 0)%Z with false by lia. cbn [raise_if rbind].
    destruct (dadd_exact default_ctx e0 total m Hs Ht Hm) as (t' & -> & Ht' & Hu').
    { eapply fits_le; [exact Hf|]. lia. }
    destruct (dmul_sign e0 sg m Hs Hm) as (x & Ex & Hx & Hux).
    { eapply fits_le; [exact Hf|]. lia. }
    cbn [rbind]. rewrite Ex. cbn [rbind]. rewrite leg_make by done. cbn [rbind].
    destruct (IH t' (legs ++ [mkPosting (JStr s.1) x UNVERIFIED])%list Ht')
      as (t2 & new & E & H1 & H2 & H3 & H4 & H5 & H6).
    { eapply fits_le; [exact Hf|]. lia. }
    exists t2, (mkPosting (JStr s.1) x UNVERIFIED :: new). rewrite E, <- app_assoc. split; [done|].
    rewrite zsum_cons. cbn [List.map account amount]. rewrite H5, H6, Hux, Hz.
    split; [done|]. split; [lia|]. split; [by constructor|]. split; [by constructor|].
    split; [done|]. by destruct sg.
Qed.

Lemma mags_opp zs : mags (List.map Z.opp zs) = mags zs.
Proof. induction zs as [|z zs IH]; [done|]. cbn [List.map]. rewrite !mags_cons, IH. lia. Qed.
Lemma zsum_opp zs : zsum (List.map Z.opp zs) = (- zsum zs)%Z.
Proof. induction zs as [|z zs IH]; [done|]. cbn [List.map]. rewrite !zsum_cons, IH. lia. Qed.
Lemma zsum_app a b : zsum (a ++ b) = (zsum a + zsum b)%Z.
Proof. induction a as [|z a IH]; [done|]. cbn [app]. rewrite !zsum_cons, IH. lia. Qed.
Lemma magnitude_sum e0 splits zs : Forall2 (magnitude e0) splits zs -> mags zs = zsum zs.
Proof.
  induction 1 as [|s z splits zs (m & _ & _ & _ & Hz) H IH]; [done|].
  rewrite mags_cons, zsum_cons. lia.
Qed.

(** Legs on one scale, of a total size that fits, are accepted when they sum to zero. *)
Lemma require_balanced_exact e0 ps zs : scale_ok default_ctx e0 -> (e0 <= 0)%Z ->
  Forall (fun p => on_scale e0 (amount p)) ps -> List.map (fun p => units e0 (amount p)) ps = zs ->
  fits default_ctx (mags zs) ->
  require_balanced ps = if (zsum zs =? 0)%Z then Ok ps else Raise ValueError.
Proof. intros Hs He Hp <- Hf. by apply balances_iff. Qed.

Lemma split_exact fresh acct x splits d o tags prov e0 z zs : scale_ok default_ctx e0 -> (e0 <= 0)%Z ->
  reads e0 x z -> z <> 0%Z -> Forall2 (magnitude e0) splits zs ->
  fits default_ctx (Z.abs z + zsum zs) ->
  exists r legs, split_transaction fresh acct x splits d o tags prov
      = (if (zsum zs =? Z.abs z)%Z then Ok r else Raise ValueError)
    /\ (zsum zs = Z.abs z -> posted r legs)
    /\ List.map account legs = JStr acct :: List.map (fun s => JStr s.1) splits
    /\ List.map (fun p => units e0 (amount p)) legs = z :: List.map (fun m => if (0 <? z)%Z then - m else m)%Z zs.
Proof.
  intros Hs He (amt & Ea & Hamt & Hz) Hnz Hsp Hf. unfold split_transaction.
  assert (Ed : Decimal x = Ok amt) by (by destruct x). rewrite Ed. cbn [rbind].
  rewrite (is_zero_units e0) by done. cbn [rbind]. replace (units e0 amt =? 0)%Z with false by lia.
  cbn [raise_if rbind]. rewrite (positive_units e0) by done. cbn [rbind]. rewrite leg_make by done. cbn [rbind].
  pose proof (magnitude_sum _ _ _ Hsp) as Hms. pose proof (mags_nonneg zs).
  replace (Decimal_of_Z (if (0 <? units e0 amt)%Z then -1 else 1)) with (Fin (0 <? units e0 amt)%Z 1 0)
    by (by destruct (0 <? units e0 amt)%Z). rewrite Hz.
  destruct (split_loop_exact e0 (0 <? z)%Z splits zs dzero [mkPosting (JStr acct) amt VERIFIED])
    as (t & new & -> & Ht & Hut & Hg & Hsc & Hac & Hun); try done.
  { eapply fits_le; [exact Hf|]. rewrite zero_units. lia. }
  cbn [rbind]. destruct (dabs_exact default_ctx e0 amt Hs Hamt) as (a & -> & Hsa & Hua).
  { eapply fits_le; [exact Hf|]. lia. }
  cbn [rbind]. unfold dne. rewrite (deq_units e0) by done. cbn [rbind]. rewrite Hut, Hua, zero_units, Hz.
  change (0 + zsum zs)%Z with (zsum zs).
  set (legs := ([mkPosting (JStr acct) amt VERIFIED] ++ new)%list).
  assert (Hl : Forall (fun p => on_scale e0 (amount p)) legs) by (by constructor).
  assert (Hu : List.map (fun p => units e0 (amount p)) legs
               = z :: List.map (fun m => if (0 <? z)%Z then - m else m)%Z zs)
    by (unfold legs; cbn; by rewrite Hz, Hun).
  exists (transaction_recorded fresh legs d o tags prov), legs.
  destruct (Z.eqb_spec (zsum zs) (Z.abs z)) as [E|E].
  - cbn [negb raise_if rbind].
    assert (Hb : require_balanced legs = Ok legs).
    { rewrite (require_balanced_exact e0 legs _ Hs He Hl Hu).
      - rewrite zsum_cons. destruct (Z.ltb_spec 0 z); [rewrite zsum_opp|rewrite List.map_id]; by replace (_ =? 0)%Z with true by lia.
      - rewrite mags_cons. destruct (Z.ltb_spec 0 z); [rewrite mags_opp|rewrite List.map_id]; eapply fits_le; try exact Hf; lia. }
    rewrite Hb. cbn [rbind]. split; [done|]. split; [|split; [|done]].
    + intros _. eapply recorded_posted; [|done]. by constructor.
    + unfold legs. cbn. by rewrite Hac.
  - cbn [negb raise_if rbind]. split; [done|]. split; [done|]. split; [|done].
    unfold legs. cbn. by rewrite Hac.
Qed.

Lemma simple_exact fresh acct x d o tags prov g kind s1 s2 e0 z : scale_ok default_ctx e0 -> (e0 <= 0)%Z ->
  reads e0 x z -> z <> 0%Z -> in_words g GRADES = true -> fits default_ctx (Z.abs z + Z.abs z) ->
  exists r counter n, simple_transaction fresh acct x d o tags prov g kind (JStr s1) (JStr s2) = Ok r
    /\ posted r [mkPosting (JStr acct) n.1 g; mkPosting (JStr counter) n.2 UNVERIFIED]
    /\ on_scale e0 n.1 /\ units e0 n.1 = z /\ on_scale e0 n.2 /\ units e0 n.2 = (- z)%Z
    /\ counter = counter_of kind (0 <? z)%Z.
Proof.
  intros Hs He (amt & Ea & Hamt & Hz) Hnz Hg Hf. unfold simple_transaction.
  assert (Ed : Decimal x = Ok amt) by (by destruct x). rewrite Ed. cbn [rbind].
  rewrite (is_zero_units e0) by done. cbn [rbind]. replace (units e0 amt =? 0)%Z with false by lia.
  cbn [raise_if rbind]. rewrite (counter_units e0) by done. rewrite Hz. set (counter := counter_of _ _).
  cbn [rbind]. rewrite leg_make by done. cbn [rbind].
  destruct (dneg_exact default_ctx e0 amt Hs Hamt) as (n & -> & Hn & Hun).
  { eapply fits_le; [exact Hf|]. lia. }
  cbn [rbind]. rewrite leg_make by done. cbn [rbind]. set (legs := [_; _]).
  assert (Hb : require_balanced legs = Ok legs).
  { rewrite (require_balanced_exact e0 legs [z; - z]%Z Hs He).
    - by replace (zsum [z; - z]%Z =? 0)%Z with true by (cbn; lia).
    - by repeat constructor.
    - unfold legs. cbn. by rewrite Hun, Hz.
    - eapply fits_le; [exact Hf|]. cbn. lia. }
  rewrite Hb. cbn [rbind is_str negb orb raise_if].
  assert (Hp : posted (transaction_recorded fresh legs d o tags prov) legs)
    by (apply recorded_posted; [repeat constructor; done|done]).
  eexists _, counter, (amt, n). split.
  { instantiate (1 := if py_truthy (JStr s1) || py_truthy (JStr s2)
      then set_body (set_body (transaction_recorded fresh legs d o tags prov) "source_reference" (JStr s1))
             "counterparty_reference" (JStr s2)
      else transaction_recorded fresh legs d o tags prov). by destruct (_ || _). }
  split; [destruct (_ || _); [by repeat (apply set_body_posted; [done|])|done]|].
  cbn [fst snd]. rewrite Hun, Hz. done.
Qed.

(** ** Pay stubs *)
Lemma deduction_loop e0 ds zs : scale_ok default_ctx e0 ->
  Forall2 (fun d z => reads e0 (ded_amount d) z) ds zs -> fits default_ctx (mags zs) ->
  exists ps, rmap deduction_leg ds = Ok ps /\ Forall graded ps
    /\ Forall (fun p => on_scale e0 (amount p)) ps
    /\ List.map account ps = List.map (fun d => JStr (deduction_account (ded_category d))) ds
    /\ List.map (fun p => units e0 (amount p)) ps = List.map Z.abs zs.
Proof.
  intros Hs H Hf. induction H as [|d z ds zs (x & Ex & Hx & Hz) H IH].
  - exists []. repeat split; constructor.
  - rewrite mags_cons in Hf. pose proof (mags_nonneg zs).
    destruct IH as (ps & E & H1 & H2 & H3 & H4); [eapply fits_le; [exact Hf|]; lia|].
    assert (Ed : Decimal (ded_amount d) = Ok x) by (by destruct (ded_amount d)).
    cbn [rmap]. unfold deduction_leg at 1. rewrite Ed. cbn [rbind].
    destruct (dabs_exact default_ctx e0 x Hs Hx) as (a & -> & Ha & Hua); [eapply fits_le; [exact Hf|]; lia|].
    cbn [rbind]. rewrite leg_make by done. cbn [rbind]. rewrite E. cbn [rbind].
    eexists. split; [done|]. split; [by constructor|]. split; [by constructor|].
    cbn [List.map account amount]. rewrite H3, H4, Hua, Hz. done.
Qed.

Lemma mags_abs zs : mags (List.map Z.abs zs) = mags zs.
Proof. induction zs as [|z zs IH]; [done|]. cbn [List.map]. rewrite !mags_cons, IH. lia. Qed.
Lemma zsum_abs zs : zsum (List.map Z.abs zs) = mags zs.
Proof. done. Qed.

Lemma reads_Decimal e0 x z : reads e0 x z -> exists d, Decimal x = Ok d /\ on_scale e0 d /\ units e0 d = z.
Proof. intros (d & E & Hd). exists d. by destruct x. Qed.

Lemma paystub_exact fresh gross net ds d o prov key cur e0 g n zs : scale_ok default_ctx e0 -> (e0 <= 0)%Z ->
  reads e0 gross g -> reads e0 net n -> Forall2 (fun d z => reads e0 (ded_amount d) z) ds zs ->
  fits default_ctx (Z.abs g + Z.abs n + mags zs) ->
  key = "" \/ cur <> "" ->
  exists r legs, paystub_decomposition fresh gross net ds d o prov key cur
      = (if (n + mags zs =? g)%Z then Ok r else Raise ValueError)
    /\ ((n + mags zs = g)%Z -> posted r legs)
    /\ List.map account legs = JStr INCOME_SALARY :: JStr INCOME_UNCATEGORIZED
                               :: List.map (fun d => JStr (deduction_account (ded_category d))) ds
    /\ List.map (fun p => units e0 (amount p)) legs = (- g)%Z :: n :: List.map Z.abs zs.
Proof.
  intros Hs He Hg Hn Hds Hf Hk. unfold paystub_decomposition. pose proof (mags_nonneg zs).
  apply reads_Decimal in Hg as (gd & -> & Hgd & Hug). apply reads_Decimal in Hn as (nd & -> & Hnd & Hund).
  cbn [rbind]. destruct (dneg_exact default_ctx e0 gd Hs Hgd) as (ng & -> & Hng & Hung).
  { eapply fits_le; [exact Hf|]. lia. }
  cbn [rbind]. rewrite leg_make by done. cbn [rbind]. rewrite leg_make by done. cbn [rbind].
  destruct (deduction_loop e0 ds zs Hs Hds) as (ps & -> & Hgr & Hsc & Hac & Hun);
    [eapply fits_le; [exact Hf|]; lia|].
  cbn [rbind]. set (legs := mkPosting (JStr INCOME_SALARY) ng VERIFIED
                            :: mkPosting (JStr INCOME_UNCATEGORIZED) nd UNVERIFIED :: ps).
  assert (Hu : List.map (fun p => units e0 (amount p)) legs = (- g)%Z :: n :: List.map Z.abs zs)
    by (unfold legs; cbn; by rewrite Hung, Hug, Hund, Hun).
  assert (Hb : require_balanced legs = if (n + mags zs =? g)%Z then Ok legs else Raise ValueError).
  { rewrite (require_balanced_exact e0 legs _ Hs He (ltac:(by repeat constructor)) Hu)
      by (rewrite !mags_cons, mags_abs; eapply fits_le; [exact Hf|lia]).
    rewrite !zsum_cons, zsum_abs. destruct (Z.eqb_spec (n + mags zs) g); 
      [by replace (_ =? 0)%Z with true by lia|by replace (_ =? 0)%Z with false by lia]. }
  rewrite Hb. set (e := transaction_recorded fresh legs d o [] prov).
  exists (if String.eqb key "" then e
          else set_body (set_body e "matched_movement_key" (JStr key)) "matched_currency" (JStr cur)), legs.
  assert (Hgl : Forall graded legs) by (by repeat constructor).
  split; [|split; [|split; [unfold legs; cbn; by rewrite Hac|done]]].
  - destruct (n + mags zs =? g)%Z; [|done]. cbn [rbind]. fold e.
    destruct (String.eqb_spec key ""); [done|]. destruct (String.eqb_spec cur ""); [|done].
    by destruct Hk.
  - intros E. rewrite (proj2 (Z.eqb_eq _ _) E) in Hb.
    assert (Hp : posted e legs) by (eapply recorded_posted; eauto).
    destruct (String.eqb key ""); [done|]. by repeat (apply set_body_posted; [done|]).
Qed.

(** ** Brokerage activity *)
Definition activity_kinds : list string := (BROKERAGE_CASH_IN ++ BROKERAGE_CASH_OUT)%list.
Definition activity_account (kind : string) : string :=
  if in_words kind ["contribution"; "withdrawal"] then TRANSFERS_UNCATEGORIZED
  else if String.eqb kind "dividend" then INCOME_DIVIDENDS
  else if String.eqb kind "interest" then INCOME_INTEREST
  else if String.eqb kind "fee" then EXPENSE_FEES
  else ASSET_INVESTMENTS.
(** The signed cash of [z] units of an activity. *)
Definition cash_sign (kind : string) (z : Z) : Z := if in_words kind BROKERAGE_CASH_IN then z else (- z)%Z.

(** A realized gain that was not reported, or reads as [g] units. *)
Definition gain_reads (e0 : Z) (x : option number) (g : option Z) : Prop :=
  match g with
  | None => absent x = true
  | Some g => exists n, x = Some n /\ absent x = false /\ reads e0 n g
  end.
(** The counter-legs an activity of cash [c] is booked with. *)
Definition counters (kind : string) (c : Z) (g : option Z) : list (string * Z) :=
  match g with
  | Some g => if String.eqb kind "sell" then [(ASSET_INVESTMENTS, - (c - g)); (INCOME_CAPITAL_GAINS, - g)]%Z
              else [(activity_account kind, - c)]%Z
  | None => [(activity_account kind, - c)]%Z
  end.

Lemma cash_effect_exact e0 kind d : scale_ok default_ctx e0 -> on_scale e0 d -> kind ∈ activity_kinds ->
  fits default_ctx (units e0 d) ->
  exists c, brokerage_cash_effect kind (NumDec d) = Ok c /\ on_scale e0 c
    /\ units e0 c = cash_sign kind (units e0 d).
Proof.
  intros Hs Hd Hk Hf. unfold brokerage_cash_effect, cash_sign. cbn [Decimal rbind].
  destruct (in_words kind BROKERAGE_CASH_IN) eqn:E; [by exists d|].
  apply elem_of_app in Hk as [Hk|Hk]; [by apply in_words_spec in Hk; congruence|].
  apply in_words_spec in Hk. rewrite Hk. by apply dneg_exact.
Qed.

Lemma optional_absent x : absent x = true -> optional_decimal x = Ok None.
Proof. destruct x as [n|]; [|done]. cbn [optional_decimal]. by intros ->. Qed.

(** One counter-leg of the whole cash. *)
Lemma one_counter e0 acct g c : scale_ok default_ctx e0 -> on_scale e0 c -> fits default_ctx (units e0 c) ->
  in_words g GRADES = true ->
  exists p, (let? n := dneg default_ctx c in let? p := leg acct n g in Ok [p]) = Ok [p]
    /\ graded p /\ on_scale e0 (amount p) /\ account p = JStr acct /\ units e0 (amount p) = (- units e0 c)%Z.
Proof.
  intros Hs Hc Hf Hg. destruct (dneg_exact default_ctx e0 c Hs Hc Hf) as (n & -> & Hn & Hu).
  cbn [rbind]. rewrite leg_make by done. cbn [rbind]. by eexists.
Qed.

Lemma counter_exact e0 kind c x g : scale_ok default_ctx e0 -> on_scale e0 c -> kind ∈ activity_kinds ->
  gain_reads e0 x g ->
  fits default_ctx (Z.abs (units e0 c) + match g with Some g => Z.abs g | None => 0 end)%Z ->
  exists ps, brokerage_counter kind c x = Ok ps /\ Forall graded ps
    /\ Forall (fun p => on_scale e0 (amount p)) ps
    /\ List.map account ps = List.map (fun q => JStr q.1) (counters kind (units e0 c) g)
    /\ List.map (fun p => units e0 (amount p)) ps = List.map snd (counters kind (units e0 c) g).
Proof.
  intros Hs Hc Hk Hx Hf. assert (Hfc : fits default_ctx (units e0 c)).
  { eapply fits_le; [exact Hf|]. destruct g; lia. }
  assert (Hone : forall acct gr, in_words gr GRADES = true -> activity_account kind = acct ->
     counters kind (units e0 c) g = [(acct, - units e0 c)%Z] ->
     exists ps, (let? n := dneg default_ctx c in let? p := leg acct n gr in Ok [p]) = Ok ps
      /\ Forall graded ps /\ Forall (fun p => on_scale e0 (amount p)) ps
      /\ List.map account ps = List.map (fun q => JStr q.1) (counters kind (units e0 c) g)
      /\ List.map (fun p => units e0 (amount p)) ps = List.map snd (counters kind (units e0 c) g)).
  { intros acct gr Hgr _ ->. destruct (one_counter e0 acct gr c Hs Hc Hfc Hgr) as (p & E & H1 & H2 & H3 & H4).
    exists [p]. split; [exact E|]. cbn. rewrite H3, H4. repeat split; by constructor. }
  destruct (String.eqb_spec kind "sell") as [->|Hsell].
  - unfold brokerage_counter. cbn [in_words existsb String.eqb Ascii.eqb Bool.eqb orb].
    destruct g as [g|]; cbn [gain_reads] in Hx.
    + destruct Hx as (n & -> & Ha & Hn). apply reads_Decimal in Hn as (gd & Eg & Hgd & Hug).
      cbn [optional_decimal]. rewrite Ha, Eg. cbn [rbind].
      destruct (dsub_exact default_ctx e0 c gd Hs Hc Hgd) as (b & -> & Hb & Hub).
      { eapply fits_le; [exact Hf|]. lia. }
      cbn [rbind]. destruct (dneg_exact default_ctx e0 b Hs Hb) as (nb & -> & Hnb & Hunb).
      { eapply fits_le; [exact Hf|]. lia. }
      cbn [rbind]. rewrite leg_make by done. cbn [rbind].
      destruct (dneg_exact default_ctx e0 gd Hs Hgd) as (ng & -> & Hng & Hung).
      { eapply fits_le; [exact Hf|]. lia. }
      cbn [rbind]. rewrite leg_make by done. cbn [rbind]. eexists. split; [done|].
      split; [by repeat constructor|]. split; [by repeat constructor|].
      cbn. by rewrite Hunb, Hub, Hung, Hug.
    + rewrite optional_absent by done. cbn [rbind]. by apply Hone.
  - assert (Hc1 : counters kind (units e0 c) g = [(activity_account kind, - units e0 c)%Z])
      by (unfold counters; destruct g; [|done]; apply String.eqb_neq in Hsell; by rewrite Hsell).
    unfold activity_kinds in Hk. 
    repeat (apply elem_of_cons in Hk as [->|Hk]; [try done; by apply Hone|]). by apply elem_of_nil in Hk.
Qed.

Lemma counters_sum kind c g : zsum (List.map snd (counters kind c g)) = (- c)%Z.
Proof. unfold counters. destruct g; [destruct (String.eqb kind "sell")|]; cbn; lia. Qed.
Lemma counters_mags kind c g :
  (mags (List.map snd (counters kind c g)) <= Z.abs c + 2 * match g with Some g => Z.abs g | None => 0 end)%Z.
Proof. unfold counters. destruct g; [destruct (String.eqb kind "sell")|]; cbn; lia. Qed.
Lemma cash_sign_abs kind z : Z.abs (cash_sign kind z) = Z.abs z.
Proof. unfold cash_sign. destruct (in_words kind BROKERAGE_CASH_IN); lia. Qed.

Lemma brokerage_exact fresh acct kind x d o instrument gain prov e0 z g :
  scale_ok default_ctx e0 -> (e0 <= 0)%Z -> reads e0 x z -> (0 < z)%Z -> kind ∈ activity_kinds ->
  gain_reads e0 gain g ->
  fits default_ctx (2 * z + 2 * match g with Some g => Z.abs g | None => 0 end)%Z ->
  exists r legs, brokerage_activity_transaction fresh acct kind x d o instrument gain prov = Ok r
    /\ posted r legs
    /\ List.map account legs = JStr acct :: List.map (fun q => JStr q.1) (counters kind (cash_sign kind z) g)
    /\ List.map (fun p => units e0 (amount p)) legs
       = cash_sign kind z :: List.map snd (counters kind (cash_sign kind z) g).
Proof.
  intros Hs He Hx Hz Hk Hg Hf. apply reads_Decimal in Hx as (amt & Ea & Hamt & Hu).
  set (gz := match g with Some g => Z.abs g | None => 0 end%Z) in *. assert (0 <= gz)%Z by (unfold gz; destruct g; lia).
  unfold brokerage_activity_transaction. rewrite Ea. cbn [rbind]. rewrite (low_units e0) by done. rewrite Hu.
  replace (z <=? 0)%Z with false by lia. cbn [rbind raise_if].
  destruct (cash_effect_exact e0 kind amt Hs Hamt Hk) as (c & -> & Hc & Huc).
  { eapply fits_le; [exact Hf|]. lia. }
  rewrite Hu in Huc. pose proof (cash_sign_abs kind z) as Habs. cbn [rbind].
  destruct (counter_exact e0 kind c gain g Hs Hc Hk Hg) as (ps & -> & Hgr & Hsc & Hac & Hun).
  { fold gz. rewrite Huc. eapply fits_le; [exact Hf|]. lia. }
  rewrite Huc in Hac, Hun. cbn [rbind]. rewrite leg_make by done. cbn [rbind]. set (legs := _ :: ps).
  assert (Hul : List.map (fun p => units e0 (amount p)) legs
                = cash_sign kind z :: List.map snd (counters kind (cash_sign kind z) g))
    by (unfold legs; cbn; by rewrite Huc, Hun).
  assert (Hb : require_balanced legs = Ok legs).
  { rewrite (require_balanced_exact e0 legs _ Hs He (ltac:(by constructor)) Hul).
    - rewrite zsum_cons, counters_sum. by replace (_ =? 0)%Z with true by lia.
    - rewrite mags_cons. pose proof (counters_mags kind (cash_sign kind z) g). fold gz in H0.
      pose proof (mags_nonneg (List.map snd (counters kind (cash_sign kind z) g))).
      eapply fits_le; [exact Hf|]. lia. }
  rewrite Hb. cbn [rbind]. eexists _, legs. split; [done|]. split.
  - eapply recorded_posted; [|done]. by constructor.
  - split; [unfold legs; cbn; by rewrite Hac|done].
Qed.

(** ** Every builder books balanced legs *)
Lemma counter_graded kind c x ps : brokerage_counter kind c x = Ok ps -> Forall graded ps.
Proof.
  unfold brokerage_counter. intros H.
  repeat match type of H with (if ?b then _ else _) = _ => destruct b end; try done; run_ok; subst;
    try match goal with H : match ?o with Some _ => _ | None => _ end = Ok _ |- _ => destruct o; run_ok; subst end;
    leg_facts;
    by repeat constructor.
Qed.

Lemma brokerage_posted fresh acct kind x d o instrument gain prov e :
  brokerage_activity_transaction fresh acct kind x d o instrument gain prov = Ok e ->
  exists legs, posted e legs.
Proof.
  unfold brokerage_activity_transaction. intros H. run_ok. subst. eexists.
  eapply recorded_posted; [|eassumption]. leg_facts.
  constructor; [done|]. by eapply counter_graded.
Qed.

Lemma deduction_graded ds ps : rmap deduction_leg ds = Ok ps -> Forall graded ps.
Proof.
  intros H%rmap_ok. induction H as [|d p ds ps Hd H IH]; [constructor|]. constructor; [|done].
  unfold deduction_leg in Hd. run_ok. by leg_facts.
Qed.

Lemma paystub_posted fresh gross net ds d o prov key cur e :
  paystub_decomposition fresh gross net ds d o prov key cur = Ok e -> exists legs, posted e legs.
Proof.
  unfold paystub_decomposition. intros H. run_ok. subst.
  leg_facts.
  match goal with H : require_balanced ?l = Ok ?l' |- _ =>
    assert (Hp : posted (transaction_recorded fresh l' d o [] prov) l) end.
  { eapply recorded_posted; [|eassumption]. constructor; [done|]. constructor; [done|].
    by eapply deduction_graded. }
  eexists. destruct (String.eqb key ""); [injection H as <-; exact Hp|].
  destruct (String.eqb cur ""); [done|]. injection H as <-. by repeat (apply set_body_posted; [done|]).
Qed.

Lemma split_posted fresh acct x splits d o tags prov e :
  split_transaction fresh acct x splits d o tags prov = Ok e -> exists legs, posted e legs.
Proof.
  unfold split_transaction. intros H. run_ok. destruct a4 as [total legs]. run_ok. subst. leg_facts.
  match goal with H : rfold _ _ _ = Ok _ |- _ => apply split_loop in H as [Hg _] end; [|by repeat constructor].
  eexists. by eapply recorded_posted.
Qed.

(** An event one of the four builders returned. *)
Inductive builds (fresh : string) : Event -> Prop :=
  | by_simple acct x d o tags prov g kind sref cref e :
      simple_transaction fresh acct x d o tags prov g kind sref cref = Ok e -> builds fresh e
  | by_split acct x splits d o tags prov e :
      split_transaction fresh acct x splits d o tags prov = Ok e -> builds fresh e
  | by_paystub gross net ds d o prov key cur e :
      paystub_decomposition fresh gross net ds d o prov key cur = Ok e -> builds fresh e
  | by_brokerage acct kind x d o instrument gain prov e :
      brokerage_activity_transaction fresh acct kind x d o instrument gain prov = Ok e -> builds fresh e.

Lemma builds_posted fresh e : builds fresh e -> exists legs, posted e legs.
Proof.
  intros H. destruct H as [acct x d o tags prov g kind sref cref e H| | |].
  - apply simple_ok in H as (amt & counter & n & _ & _ & _ & _ & H). by eexists.
  - by eapply split_posted.
  - by eapply paystub_posted.
  - by eapply brokerage_posted.
Qed.

(** ** Account paths *)
Lemma colon_free p : free_of ":" (clean_part p).
Proof.
  unfold free_of, clean_part, strip. rewrite enc_dec.
  assert (H : forall l, Forall (fun c => c <> ":"%char)
            (List.map (fun c => if ascii_dec c ":" then " "%char else c) l)).
  { intros l. rewrite Forall_map. apply Forall_forall. intros c _. by destruct (ascii_dec c ":"). }
  rewrite enc_dec. set (l := List.map _ _). assert (Hl : Forall (fun c => c <> ":"%char) l) by apply H.
  clearbody l. by apply strip_bytes_Forall.
Qed.

Lemma path_levels root parts : free_of ":" root ->
  split ":" (join_words ":" (root :: List.filter (fun p => negb (String.eqb p "")) (List.map clean_part parts)))
  = root :: List.filter (fun p => negb (String.eqb p "")) (List.map clean_part parts).
Proof.
  intros Hr. apply split_join; [done|]. constructor; [done|]. apply List.Forall_forall.
  intros p [Hp _]%List.filter_In. apply in_map_iff in Hp as (q & <- & _). apply colon_free.
Qed.
