(* ===== verification/LedgerProperties.v ===== *)
(** * Ledger properties: the identities and the double-entry builders

    What a passing check means, what a posted transaction's legs are, and that they balance.
    Amounts are whole units of [10^e0] throughout; [fits default_ctx] is the 28 digits the
    context computes with. *)
From Stdlib Require Import ZArith NArith Ascii String Lia ZifyBool ZifyN ZifyNat.
From stdpp Require Import base list numbers strings.
From S2P Require Import Prelude Text Words Json Decimals Floats Arithmetic Acquisition Events EventTypes Postings.
#[local] Open Scope string_scope.

Lemma cents_scale : scale_ok default_ctx (-2).
Proof. split; [split|]; vm_compute; discriminate. Qed.

(** C33: The four document identities are exact.  While the figures are whole units of
    [10^e0] and fit the context's digits, each check returns a result, its verdict is the
    integer inequality [|actual - expected| <= tolerance] for the identity it names, and the
    difference it prints reads back as that difference. *)
Theorem identities_are_exact e0 tol zt a za xs zs b zb label :
  scale_ok default_ctx e0 -> (e0 <= 0)%Z -> reads e0 tol zt ->
  reads e0 a za -> Forall2 (reads e0) xs zs -> reads e0 b zb ->
  fits default_ctx (Z.abs za + mags zs + Z.abs zb) ->
  (exists r, check_balance_identity a xs b tol = Ok r /\ verdict_says e0 (za + zsum zs) zb zt r)
  /\ (exists r, check_paystub_identity a xs b tol = Ok r /\ verdict_says e0 (za - zsum zs) zb zt r)
  /\ (exists r, check_brokerage_identity xs a b tol = Ok r /\ verdict_says e0 (zsum zs + za) zb zt r)
  /\ (exists r, check_sum xs b label tol = Ok r /\ check r = label /\ verdict_says e0 (zsum zs) zb zt r).
Proof.
  intros Hs He Ht Ha Hx Hb Hf. split; [|split; [|split]].
  - by apply balance_check_exact.
  - by apply paystub_check_exact.
  - by apply brokerage_check_exact.
  - apply sum_check_exact; try done. eapply fits_le; [exact Hf|]. pose proof (mags_nonneg zs). lia.
Qed.

Lemma identities_are_exact_witness :
  exists r, check_balance_identity (NumStr "100.00") [NumStr "-30.25"; NumStr "5"] (NumStr "74.75") no_tolerance = Ok r
    /\ verdict_says (-2) (10000 + zsum [-3025; 500])%Z 7475 0 r.
Proof.
  apply (identities_are_exact (-2) no_tolerance 0 (NumStr "100.00") 10000
           [NumStr "-30.25"; NumStr "5"] [-3025; 500]%Z (NumStr "74.75") 7475 "items").
  - exact cents_scale.
  - discriminate.
  - by exists dzero.
  - by exists (Fin false 10000 (-2)).
  - constructor; [by exists (Fin true 3025 (-2))|]. constructor; [by exists (Fin false 5 0)|constructor].
  - by exists (Fin false 7475 (-2)).
  - vm_compute. reflexivity.
Defined.

Lemma says_pass e0 w g r : verdict_says e0 w g 0 r -> passed r = (g =? w)%Z.
Proof. intros [-> _]. lia. Qed.

(** A single misread figure is caught.  When a statement passes with no tolerance and
    one of its figures is replaced by one that reads differently, the balance, pay-stub and
    brokerage checks fail. *)
Theorem single_misread_fails e0 a za l l' x x' z z' zl zl' b zb :
  scale_ok default_ctx e0 -> (e0 <= 0)%Z ->
  reads e0 a za -> Forall2 (reads e0) l zl -> Forall2 (reads e0) l' zl' -> reads e0 b zb ->
  reads e0 x z -> reads e0 x' z' -> z <> z' ->
  fits default_ctx (Z.abs za + mags (zl ++ z :: zl')%list + Z.abs z' + Z.abs zb) ->
  (forall chk, chk = (fun xs => check_balance_identity a xs b no_tolerance)
     \/ chk = (fun xs => check_paystub_identity a xs b no_tolerance)
     \/ chk = (fun xs => check_brokerage_identity xs a b no_tolerance) ->
   forall r, chk (l ++ x :: l')%list = Ok r -> passed r = true ->
   exists r', chk (l ++ x' :: l')%list = Ok r' /\ passed r' = false).
Proof.
  intros Hs He Ha Hl Hl' Hb Hx Hx' Hne Hf chk Hchk r Hr Hp.
  assert (Ht : reads e0 no_tolerance 0) by (by exists dzero).
  assert (H1 : Forall2 (reads e0) (l ++ x :: l')%list (zl ++ z :: zl')%list) by (apply Forall2_app; [done|by constructor]).
  assert (H2 : Forall2 (reads e0) (l ++ x' :: l')%list (zl ++ z' :: zl')%list) by (apply Forall2_app; [done|by constructor]).
  assert (Hm : forall y, mags (zl ++ y :: zl')%list = (mags zl + Z.abs y + mags zl')%Z).
  { intros y. unfold mags. rewrite List.map_app. cbn [List.map]. rewrite zsum_app, zsum_cons. lia. }
  rewrite Hm in Hf. pose proof (mags_nonneg zl). pose proof (mags_nonneg zl').
  assert (Hf1 : fits default_ctx (Z.abs za + mags (zl ++ z :: zl')%list + Z.abs zb))
    by (rewrite Hm; eapply fits_le; [exact Hf|lia]).
  assert (Hf2 : fits default_ctx (Z.abs za + mags (zl ++ z' :: zl')%list + Z.abs zb))
    by (rewrite Hm; eapply fits_le; [exact Hf|lia]).
  destruct Hchk as [->|[->| ->]]; cbn beta in *.
  - destruct (balance_check_exact e0 Hs He _ _ Ht _ _ _ _ _ _ Ha H1 Hb Hf1) as (r1 & E1 & S1).
    destruct (balance_check_exact e0 Hs He _ _ Ht _ _ _ _ _ _ Ha H2 Hb Hf2) as (r2 & E2 & S2).
    apply says_pass in S1, S2. exists r2. split; [done|].
    rewrite E1 in Hr. injection Hr as ->. rewrite !zsum_app, !zsum_cons in *. lia.
  - destruct (paystub_check_exact e0 Hs He _ _ Ht _ _ _ _ _ _ Ha H1 Hb Hf1) as (r1 & E1 & S1).
    destruct (paystub_check_exact e0 Hs He _ _ Ht _ _ _ _ _ _ Ha H2 Hb Hf2) as (r2 & E2 & S2).
    apply says_pass in S1, S2. exists r2. split; [done|].
    rewrite E1 in Hr. injection Hr as ->. rewrite !zsum_app, !zsum_cons in *. lia.
  - destruct (brokerage_check_exact e0 Hs He _ _ Ht _ _ _ _ _ _ Ha H1 Hb Hf1) as (r1 & E1 & S1).
    destruct (brokerage_check_exact e0 Hs He _ _ Ht _ _ _ _ _ _ Ha H2 Hb Hf2) as (r2 & E2 & S2).
    apply says_pass in S1, S2. exists r2. split; [done|].
    rewrite E1 in Hr. injection Hr as ->. rewrite !zsum_app, !zsum_cons in *. lia.
Qed.

Lemma single_misread_fails_witness :
  exists r', check_brokerage_identity ([NumStr "10"] ++ NumStr "21" :: [])%list (NumStr "5") (NumStr "35") no_tolerance = Ok r'
    /\ passed r' = false.
Proof.
  eapply (single_misread_fails 0 (NumStr "5") 5 [NumStr "10"] [] (NumStr "20") (NumStr "21") 20 21 [10%Z] []
            (NumStr "35") 35) with (chk := fun xs => check_brokerage_identity xs (NumStr "5") (NumStr "35") no_tolerance).
  - split; [split|]; vm_compute; discriminate.
  - discriminate.
  - by exists (Fin false 5 0).
  - constructor; [by exists (Fin false 10 0)|constructor].
  - constructor.
  - by exists (Fin false 35 0).
  - by exists (Fin false 20 0).
  - by exists (Fin false 21 0).
  - discriminate.
  - vm_compute. reflexivity.
  - by right; right.
  - vm_compute. reflexivity.
  - reflexivity.
Defined.

(** C34: Double entry.  Whatever builder made it, a posted transaction carries legs that read
    back from the event, pass the balance check, and, while they fit the precision, sum to
    exactly zero. *)
Theorem posted_transactions_balance fresh e : builds fresh e ->
  exists legs, postings_of e = Ok legs /\ require_balanced legs = Ok legs
    /\ (forall e0, scale_ok default_ctx e0 -> (e0 <= 0)%Z -> in_scale e0 legs -> leg_sum e0 legs = 0%Z).
Proof.
  intros (legs & Hp & _ & Hb)%builds_posted. exists legs. split; [done|]. split; [done|].
  intros e0 Hs He Hi. by eapply balanced_zero.
Qed.

Definition a_card_purchase : res Event :=
  simple_transaction "id" "Liabilities:Card" (NumStr "42.10") "grocer" "2026-01-02" [] None VERIFIED
    "liability" (JStr "") (JStr "").

Lemma posted_transactions_balance_witness :
  exists e legs, a_card_purchase = Ok e /\ postings_of e = Ok legs /\ require_balanced legs = Ok legs
    /\ (forall e0, scale_ok default_ctx e0 -> (e0 <= 0)%Z -> in_scale e0 legs -> leg_sum e0 legs = 0%Z).
Proof.
  destruct a_card_purchase as [e|] eqn:E; [|vm_compute in E; discriminate E].
  exists e. destruct (posted_transactions_balance "id" e) as (legs & H).
  - exact (by_simple "id" _ _ _ _ _ _ _ _ _ _ e E).
  - exists legs. split; [reflexivity|exact H].
Defined.

(** A simple movement has two legs: the account's, with the amount and the caller's
    grade, and the counter-bucket's, with exactly its opposite and no grade.  Money out of an
    asset and a charge on a liability are expenses, money into an asset is income, a payment
    on a liability is a transfer and never income.  A zero amount is refused. *)
Theorem simple_transaction_legs fresh acct x d o tags prov g kind s1 s2 e0 z :
  scale_ok default_ctx e0 -> (e0 <= 0)%Z -> reads e0 x z -> in_words g GRADES = true ->
  fits default_ctx (Z.abs z + Z.abs z) ->
  let result := simple_transaction fresh acct x d o tags prov g kind (JStr s1) (JStr s2) in
  (z = 0%Z -> result = Raise ValueError)
  /\ (z <> 0%Z -> exists r legs, result = Ok r /\ posted r legs
      /\ List.map account legs = [JStr acct; JStr (counter_of kind (0 <? z)%Z)]
      /\ List.map (fun p => units e0 (amount p)) legs = [z; (- z)%Z]
      /\ List.map grade legs = [g; UNVERIFIED])
  /\ (kind = "liability" -> counter_of kind (0 <? z)%Z <> INCOME_UNCATEGORIZED).
Proof.
  intros Hs He Hx Hg Hf. cbn zeta. split; [|split].
  - intros ->. apply reads_Decimal in Hx as (amt & E & Ha & Hu). unfold simple_transaction.
    rewrite E. cbn [rbind]. rewrite (is_zero_units e0) by done. by rewrite Hu.
  - intros Hz. destruct (simple_exact fresh acct x d o tags prov g kind s1 s2 e0 z) as
      (r & c & n & Hr & Hp & H1 & H2 & H3 & H4 & ->); try done.
    eexists _, _. split; [exact Hr|]. split; [exact Hp|]. cbn. by rewrite H2, H4.
  - intros ->. unfold counter_of. cbn [String.eqb Ascii.eqb Bool.eqb]. by destruct (0 <? z)%Z.
Qed.

Lemma simple_transaction_legs_witness :
  exists r legs, a_card_purchase = Ok r /\ posted r legs
    /\ List.map account legs = [JStr "Liabilities:Card"; JStr EXPENSE_UNCATEGORIZED]
    /\ List.map (fun p => units (-2) (amount p)) legs = [4210; -4210]%Z
    /\ List.map grade legs = [VERIFIED; UNVERIFIED].
Proof.
  apply (simple_transaction_legs "id" "Liabilities:Card" (NumStr "42.10") "grocer" "2026-01-02" [] None
           VERIFIED "liability" "" "" (-2) 4210 cents_scale).
  - discriminate.
  - by exists (Fin false 4210 (-2)).
  - reflexivity.
  - vm_compute. reflexivity.
  - discriminate.
Defined.

(** A split accounts for the whole movement.  For positive magnitudes the builder
    succeeds exactly when they sum to the movement's size, and refuses with ValueError
    otherwise; the legs are the account's, then one per split in order, signed against it. *)
Theorem split_transaction_accounts_for_all fresh acct x splits d o tags prov e0 z zs :
  scale_ok default_ctx e0 -> (e0 <= 0)%Z -> reads e0 x z -> z <> 0%Z ->
  Forall2 (magnitude e0) splits zs -> fits default_ctx (Z.abs z + zsum zs) ->
  exists r legs, split_transaction fresh acct x splits d o tags prov
      = (if (zsum zs =? Z.abs z)%Z then Ok r else Raise ValueError)
    /\ (zsum zs = Z.abs z -> posted r legs)
    /\ List.map account legs = JStr acct :: List.map (fun s => JStr s.1) splits
    /\ List.map (fun p => units e0 (amount p)) legs = z :: List.map (fun m => if (0 <? z)%Z then - m else m)%Z zs.
Proof. intros. by apply split_exact. Qed.

Lemma split_transaction_accounts_for_all_witness :
  exists r legs, split_transaction "id" "Assets:Checking" (NumStr "-100.00")
      [("Expenses:Food", NumStr "60"); ("Expenses:Home", NumStr "40.00")] "shop" "2026-01-02" [] None = Ok r
    /\ (zsum [6000; 4000] = Z.abs (-10000) -> posted r legs)%Z
    /\ List.map account legs = [JStr "Assets:Checking"; JStr "Expenses:Food"; JStr "Expenses:Home"]
    /\ List.map (fun p => units (-2) (amount p)) legs = [-10000; 6000; 4000]%Z.
Proof.
  apply (split_transaction_accounts_for_all "id" "Assets:Checking" (NumStr "-100.00")
           [("Expenses:Food", NumStr "60"); ("Expenses:Home", NumStr "40.00")] "shop" "2026-01-02" [] None
           (-2) (-10000) [6000; 4000]%Z cents_scale).
  - discriminate.
  - by exists (Fin true 10000 (-2)).
  - discriminate.
  - constructor; [by exists (Fin false 60 0)|]. constructor; [by exists (Fin false 4000 (-2))|constructor].
  - vm_compute. reflexivity.
Defined.

(** A pay stub decomposes only when it adds up.  The builder succeeds exactly when net
    plus the deductions' magnitudes is gross; its legs are minus gross from salary, net
    against the uncategorized placeholder, and each deduction into its bucket. *)
Theorem paystub_decomposes_when_it_adds_up fresh gross net ds d o prov key cur e0 g n zs :
  scale_ok default_ctx e0 -> (e0 <= 0)%Z ->
  reads e0 gross g -> reads e0 net n -> Forall2 (fun d z => reads e0 (ded_amount d) z) ds zs ->
  fits default_ctx (Z.abs g + Z.abs n + mags zs) -> key = "" \/ cur <> "" ->
  exists r legs, paystub_decomposition fresh gross net ds d o prov key cur
      = (if (n + mags zs =? g)%Z then Ok r else Raise ValueError)
    /\ ((n + mags zs = g)%Z -> posted r legs)
    /\ List.map account legs = JStr INCOME_SALARY :: JStr INCOME_UNCATEGORIZED
                               :: List.map (fun d => JStr (deduction_account (ded_category d))) ds
    /\ List.map (fun p => units e0 (amount p)) legs = (- g)%Z :: n :: List.map Z.abs zs.
Proof. intros. by apply paystub_exact. Qed.

Lemma paystub_decomposes_when_it_adds_up_witness :
  exists r legs, paystub_decomposition "id" (NumStr "5000") (NumStr "3700.00")
      [mkDeduction "tax" (NumStr "1000"); mkDeduction "gym" (NumStr "-300")] "pay" "2026-01-31" None "" "" = Ok r
    /\ ((3700_00 + mags [1000_00; -300_00] = 5000_00)%Z -> posted r legs)
    /\ List.map account legs = [JStr INCOME_SALARY; JStr INCOME_UNCATEGORIZED; JStr "Expenses:Tax"; JStr "Expenses:Other"]
    /\ List.map (fun p => units (-2) (amount p)) legs = [-5000_00; 3700_00; 1000_00; 300_00]%Z.
Proof.
  apply (paystub_decomposes_when_it_adds_up "id" (NumStr "5000") (NumStr "3700.00")
      [mkDeduction "tax" (NumStr "1000"); mkDeduction "gym" (NumStr "-300")] "pay" "2026-01-31" None "" ""
      (-2) 5000_00 3700_00 [1000_00; -300_00]%Z cents_scale).
  - discriminate.
  - by exists (Fin false 5000 0).
  - by exists (Fin false 370000 (-2)).
  - constructor; [by exists (Fin false 1000 0)|]. constructor; [by exists (Fin true 300 0)|constructor].
  - vm_compute. reflexivity.
  - by left.
Defined.

(** A brokerage activity books its cash against the reason it moved.  Contributions,
    dividends, interest and sales bring cash in, withdrawals, fees and purchases take it out;
    a sale with a reported gain splits the proceeds into basis and gain; the counter-legs
    cancel the cash.  An amount that is not positive, or another kind, is refused. *)
Theorem brokerage_activity_books fresh acct kind x d o instrument gain prov e0 z g :
  scale_ok default_ctx e0 -> (e0 <= 0)%Z -> reads e0 x z ->
  let result := brokerage_activity_transaction fresh acct kind x d o instrument gain prov in
  ((z <= 0)%Z \/ kind ∉ activity_kinds -> result = Raise ValueError)
  /\ ((0 < z)%Z -> kind ∈ activity_kinds -> gain_reads e0 gain g ->
      fits default_ctx (2 * z + 2 * match g with Some g => Z.abs g | None => 0 end)%Z ->
      exists r legs, result = Ok r /\ posted r legs
        /\ List.map account legs = JStr acct :: List.map (fun q => JStr q.1) (counters kind (cash_sign kind z) g)
        /\ List.map (fun p => units e0 (amount p)) legs
           = cash_sign kind z :: List.map snd (counters kind (cash_sign kind z) g)
        /\ zsum (List.map snd (counters kind (cash_sign kind z) g)) = (- cash_sign kind z)%Z).
Proof.
  intros Hs He Hx. cbn zeta. split.
  - intros Hbad. apply reads_Decimal in Hx as (amt & E & Ha & Hu). unfold brokerage_activity_transaction.
    rewrite E. cbn [rbind]. rewrite (low_units e0) by done. rewrite Hu. cbn [rbind].
    destruct (Z.leb_spec z 0) as [|Hz]; [done|]. destruct Hbad as [|Hk]; [lia|].
    cbn [raise_if rbind]. unfold brokerage_cash_effect. cbn [Decimal rbind].
    unfold activity_kinds in Hk. rewrite not_elem_of_app in Hk. destruct Hk as [H1 H2].
    apply in_words_false in H1, H2. by rewrite H1, H2.
  - intros Hz Hk Hg Hf.
    destruct (brokerage_exact fresh acct kind x d o instrument gain prov e0 z g) as (r & legs & H1 & H2 & H3 & H4); try done.
    exists r, legs. do 4 (split; [done|]). apply counters_sum.
Qed.

Lemma brokerage_activity_books_witness :
  exists r legs, brokerage_activity_transaction "id" "Assets:Broker" "sell" (NumStr "1500.00") "" "2026-02-01" "ACME"
      (Some (NumStr "200")) None = Ok r
    /\ posted r legs
    /\ List.map account legs = [JStr "Assets:Broker"; JStr ASSET_INVESTMENTS; JStr INCOME_CAPITAL_GAINS]
    /\ List.map (fun p => units (-2) (amount p)) legs = [1500_00; -1300_00; -200_00]%Z
    /\ zsum [-1300_00; -200_00]%Z = (- 1500_00)%Z.
Proof.
  apply (brokerage_activity_books "id" "Assets:Broker" "sell" (NumStr "1500.00") "" "2026-02-01" "ACME"
      (Some (NumStr "200")) None (-2) 1500_00 (Some 200_00%Z) cents_scale).
  - discriminate.
  - by exists (Fin false 150000 (-2)).
  - reflexivity.
  - apply in_words_spec. reflexivity.
  - exists (NumStr "200"). split; [reflexivity|]. split; [reflexivity|]. by exists (Fin false 200 0).
  - vm_compute. reflexivity.
Defined.

(** A name cannot inject a level into the chart of accounts.  A path over a known major
    splits at its colons into the major's fixed root and one level per part that is not
    blank, each free of colons; an unknown major is refused. *)
Theorem account_path_levels major parts :
  match dict_get MAJOR_ROOTS major with
  | None => account_path major parts = Raise ValueError
  | Some root => exists p, account_path major parts = Ok p
      /\ split ":" p = root :: List.filter (fun q => negb (String.eqb q "")) (List.map clean_part parts)
      /\ Forall (free_of ":") (split ":" p)
      /\ (List.length (split ":" p) <= 1 + List.length parts)%nat
  end.
Proof.
  unfold account_path. destruct (dict_get MAJOR_ROOTS major) as [root|] eqn:E; [|done].
  assert (Hr : free_of ":" root).
  { unfold MAJOR_ROOTS in E. cbn [dict_get] in E.
    repeat match type of E with (if ?b then _ else _) = _ => destruct b; [injection E as <-; by apply (bool_decide_unpack _)|] end. done. }
  eexists. split; [done|]. rewrite path_levels by done. split; [done|]. split.
  - constructor; [done|]. apply List.Forall_forall. intros q [Hq _]%List.filter_In.
    apply List.in_map_iff in Hq as (r & <- & _). apply colon_free.
  - cbn [List.length]. pose proof (List.filter_length_le (fun q => negb (String.eqb q "")) (List.map clean_part parts)).
    rewrite List.length_map in H. lia.
Qed.

(** Past 28 digits a negated amount is rounded, and the check sums rounded amounts too: this
    movement is booked, and its legs are four tenths apart. *)
Lemma books_beyond_precision :
  exists e p q, simple_transaction "id" "Assets:Checking" (NumStr "10000000000000000000000000000.4") "wire"
      "2026-01-02" [] None VERIFIED "depository" (JStr "") (JStr "") = Ok e
    /\ postings_of e = Ok [p; q] /\ (units (-1) (amount p) + units (-1) (amount q) = 4)%Z.
Proof. eexists _, _, _. split; [vm_compute; reflexivity|]. by split. Qed.
