(* ===== verification/RulingProperties.v ===== *)
(** * Ruling and goal properties: what can be in a recorded ruling, rule or goal *)
From Stdlib Require Import ZArith NArith Ascii String Lia Sorting.
From stdpp Require Import base list numbers strings sorting.
From S2P Require Import Prelude Text Words Json Unicode Dates Decimals Acquisition Events EventTypes Rulings Conversations.
#[local] Open Scope string_scope.

Definition leg_closed (l : json) : Prop :=
  exists major account share, major ∈ MAJORS
    /\ l = JObj [("major", JStr major); ("account", JStr account); ("share", JStr share)].

Lemma clean_leg_ok leg l : clean_leg leg = Ok l -> leg_closed l /\ "amount" ∉ leg.*1.
Proof.
  unfold clean_leg. intros H. run_ok. subst. split.
  - eexists _, _, _. split; [|done]. apply in_words_spec. by apply negb_false_iff.
  - by apply in_words_false.
Qed.

Lemma clean_legs_ok legs ls : rmap clean_leg legs = Ok ls -> Forall leg_closed ls /\ List.length ls = List.length legs.
Proof.
  intros H. split; [|by eapply rmap_length]. apply rmap_ok in H.
  induction H as [|x l legs ls Hx H IH]; constructor; [by apply clean_leg_ok in Hx as [? _]|done].
Qed.

Lemma rmap_raises {A B} (f : A -> res B) (e : exn) l x : (forall a y, f a = Raise y -> y = e) ->
  rmap f l = Raise x -> x = e.
Proof.
  intros Hf. induction l as [|a l IH]; [done|]. cbn [rmap]. destruct (f a) eqn:E; cbn [rbind].
  - destruct (rmap f l); cbn [rbind]; [done|]. intros [= ->]. by apply IH.
  - intros [= ->]. by eapply Hf.
Qed.

Ltac only_value_error :=
  repeat match goal with
  | |- rbind (raise_if ?b ValueError) _ = Raise _ -> _ =>
      destruct b; [by intros [= <-]|cbn [raise_if rbind]]
  | |- raise_if ?b ValueError = Raise _ -> _ => destruct b; [by intros [= <-]|done]
  end.

Lemma attribute_guard_ok subject value currency said u : attribute_guard subject value currency said = Ok u ->
  value <> "" -> blank said = false /\ is_finite value = true
    /\ (iso_shape (strip value) = false -> forall n, n ∈ numbers_in value -> n ∈ numbers_said said).
Proof.
  unfold attribute_guard. intros H Hv%nonempty_spec. run_ok. rewrite Hv in *. cbn [andb] in *.
  split; [done|]. split; [by apply negb_false_iff|]. intros Hi n Hn. unfold unsaid in *. rewrite Hi in *.
  destruct (in_words n (numbers_said said)) eqn:E'; [by apply in_words_spec|]. exfalso.
  match goal with H : match ?l with [] => _ | _ => _ end = _ |- _ =>
    assert (Hin : n ∈ l) by (apply filter_elem; split; [done|by rewrite E']); destruct l; [by apply elem_of_nil in Hin|done] end.
Qed.

Lemma rhythm_guard_ok subject value u : rhythm_guard subject value = Ok u ->
  value <> "" /\ Forall (fun p => p ∈ PERIODICITIES) (periodicities_in value)
  /\ exists m d, m <> "" /\ d ∈ RHYTHM_DIRECTIONS /\ subject = rhythm_subject m d /\ rhythm_parts subject = (m, d).
Proof.
  unfold rhythm_guard. intros H. run_ok.
  match goal with H : _ || _ = false |- _ => apply orb_false_iff in H as [Hv Ho] end.
  split; [by apply nonempty_spec, negb_false_iff|]. split.
  - apply Forall_forall. intros p Hp. destruct (in_words p PERIODICITIES) eqn:E'; [by apply in_words_spec|].
    exfalso. set (l := List.filter _ _) in Ho. assert (Hin : p ∈ l) by (apply filter_elem; split; [done|by rewrite E']).
    clearbody l. destruct l; [by apply elem_of_nil in Hin|done].
  - match goal with H : negb (in_words _ RHYTHM_DIRECTIONS) = false |- _ =>
      apply negb_false_iff, in_words_spec in H; rename H into Hd end.
    destruct (rhythm_parts_direction subject _ eq_refl) as (m & Hm & Hs & Hp).
    { intros E'. rewrite E' in Hd. by apply in_words_spec in Hd. }
    exists m, (rhythm_parts subject).2. done.
Qed.

(** A recorded ruling is closed.  Its scope is one of the seven and its subject is
    named; every leg has a major of the four and no amount; a value is only an attribute's or
    a rhythm's; a rhythm names a counterparty, one of the two directions and only known
    periodicities, which may be none ([empty_rhythm_accepted]); a figure stated about an attribute is finite and every number in it was in
    what the person said, an ISO date apart.  What is not recorded is refused with
    ValueError. *)
Theorem rulings_are_closed fresh scope subject at_ legs by_ g said cor pv same value cur prov gr refs sig :
  match ruling_recorded fresh scope subject at_ legs by_ g said cor pv same value cur prov gr refs sig with
  | Raise x => x = ValueError
  | Ok e =>
      scope ∈ SCOPES /\ subject <> "" /\ (value <> "" -> scope ∈ [SCOPE_ATTRIBUTE; SCOPE_RHYTHM])
      /\ Forall (fun l => "amount" ∉ l.*1) legs
      /\ (exists ls, py_getitem (body e) "legs" = Ok (JArr ls) /\ Forall leg_closed ls
            /\ List.length ls = List.length legs)
      /\ (scope = SCOPE_RHYTHM -> value <> "" /\ Forall (fun p => p ∈ PERIODICITIES) (periodicities_in value)
            /\ exists m d, m <> "" /\ d ∈ RHYTHM_DIRECTIONS /\ subject = rhythm_subject m d)
      /\ (scope = SCOPE_ATTRIBUTE -> value <> "" -> blank said = false /\ is_finite value = true
            /\ (iso_shape (strip value) = false -> forall n, n ∈ numbers_in value -> n ∈ numbers_said said))
  end.
Proof.
  destruct (ruling_recorded _ _ _ _ _ _ _ _ _ _ _ _ _ _ _ _ _) as [e|x] eqn:H.
  - unfold ruling_recorded in H. run_ok. subst.
    match goal with H : rmap clean_leg _ = Ok _ |- _ => rename H into Hlegs end.
    split; [by apply in_words_spec, negb_false_iff|]. split; [by apply nonempty_spec, negb_false_iff|].
    split; [intros Hv%nonempty_spec; rewrite Hv in *; by apply in_words_spec, negb_false_iff|].
    split; [|split; [|split]].
    + apply rmap_ok in Hlegs. induction Hlegs as [|l l' legs ls Hl Hls IH]; constructor; [|done].
      by apply clean_leg_ok in Hl as [_ ?].
    + eexists. split; [reflexivity|]. by apply clean_legs_ok.
    + intros ->. rewrite String.eqb_refl in *.
      match goal with H : rhythm_guard _ _ = Ok _ |- _ => apply rhythm_guard_ok in H as (? & ? & m & d & ? & ? & ? & _) end.
      split; [done|]. split; [done|]. by exists m, d.
    + intros -> Hv. rewrite String.eqb_refl in *.
      match goal with H : attribute_guard _ _ _ _ = Ok _ |- _ => by eapply attribute_guard_ok in H end.
  - revert H. unfold ruling_recorded. only_value_error.
    destruct (if String.eqb scope SCOPE_RHYTHM then _ else _) eqn:E1; cbn [rbind].
    2:{ intros [= <-]. revert E1. destruct (String.eqb scope SCOPE_RHYTHM); [|done].
        unfold rhythm_guard. only_value_error. }
    destruct (if String.eqb scope SCOPE_ATTRIBUTE then _ else _) eqn:E2; cbn [rbind].
    2:{ intros [= <-]. revert E2. destruct (String.eqb scope SCOPE_ATTRIBUTE); [|done].
        unfold attribute_guard. only_value_error. }
    destruct (rmap clean_leg legs) eqn:E3; cbn [rbind]; [done|]. intros [= <-].
    eapply rmap_raises; [|exact E3]. intros leg y. unfold clean_leg. only_value_error. done.
Qed.

(** A confirmed rhythm is recorded and read back.  The subject and value the two writers
    make are accepted by the ruling's guard; the readers give back the counterparty, the
    direction and the confirmed periodicities in the vocabulary's order; the written value
    depends only on the set of answers. *)
Theorem rhythm_ruling_round_trip fresh m d ps at_ by_ g said cor pv same cur prov gr refs sig :
  free_of "|" m -> m <> "" -> d ∈ RHYTHM_DIRECTIONS -> all_known ps -> ps <> [] ->
  exists e, ruling_recorded fresh SCOPE_RHYTHM (rhythm_subject m d) at_ [] by_ g said cor pv same
              (periodicity_value ps) cur prov gr refs sig = Ok e
    /\ py_getitem (body e) "subject" = Ok (JStr (rhythm_subject m d))
    /\ py_getitem (body e) "value" = Ok (JStr (periodicity_value ps))
    /\ rhythm_parts (rhythm_subject m d) = (m, d)
    /\ periodicities_in (periodicity_value ps) = List.filter (fun p => in_words p (List.map strip ps)) PERIODICITIES
    /\ (forall qs, (forall p, p ∈ List.map strip ps <-> p ∈ List.map strip qs) ->
        periodicity_value qs = periodicity_value ps).
Proof.
  intros Hm Hm0 Hd Hk Hne. unfold ruling_recorded.
  change (in_words SCOPE_RHYTHM SCOPES) with true. cbn [negb raise_if rbind].
  assert (Hs : nonempty (rhythm_subject m d) = true) by (apply nonempty_spec; unfold rhythm_subject; by destruct m).
  rewrite Hs. change (in_words SCOPE_RHYTHM [SCOPE_ATTRIBUTE; SCOPE_RHYTHM]) with true.
  cbn [negb]. rewrite andb_false_r. cbn [raise_if rbind]. rewrite String.eqb_refl.
  rewrite rhythm_guard_accepts by done. change (String.eqb SCOPE_RHYTHM SCOPE_ATTRIBUTE) with false.
  cbn [rbind rmap]. eexists. split; [reflexivity|]. split; [reflexivity|]. split; [reflexivity|].
  assert (Hd0 : d <> "") by (intros ->; by apply in_words_spec in Hd).
  split; [by apply rhythm_parts_subject|]. split; [by apply periodicities_round|].
  intros qs Hq. symmetry. by apply periodicity_value_ext.
Qed.

Lemma rhythm_ruling_round_trip_witness :
  exists e, ruling_recorded "id" SCOPE_RHYTHM (rhythm_subject "acme" "out") "2026-01-01" [] "human" VERIFIED
              "monthly, and a yearly fee" "" "" "" (periodicity_value [" annual"; "monthly"; "annual"]) "" None "" [] "" = Ok e
    /\ py_getitem (body e) "subject" = Ok (JStr "acme|out")
    /\ py_getitem (body e) "value" = Ok (JStr "monthly+annual")
    /\ rhythm_parts "acme|out" = ("acme", "out")
    /\ periodicities_in "monthly+annual" = ["monthly"; "annual"]
    /\ (forall qs, (forall p, p ∈ ["annual"; "monthly"; "annual"] <-> p ∈ List.map strip qs) ->
        periodicity_value qs = "monthly+annual").
Proof.
  apply (rhythm_ruling_round_trip "id" "acme" "out" [" annual"; "monthly"; "annual"] "2026-01-01" "human" VERIFIED
              "monthly, and a yearly fee" "" "" "" "" None "" [] "").
  - by apply (bool_decide_unpack _).
  - discriminate.
  - apply in_words_spec. reflexivity.
  - repeat constructor; apply in_words_spec; reflexivity.
  - discriminate.
Defined.

(** A rhythm value of separators alone carries no periodicity and is accepted. *)
Lemma empty_rhythm_accepted :
  (exists e, ruling_recorded "id" SCOPE_RHYTHM "acme|out" "2026-01-01" [] "human" VERIFIED "" "" "" "" "+" "" None "" [] "" = Ok e)
  /\ periodicities_in "+" = [].
Proof. split; [eexists; vm_compute|]; reflexivity. Qed.

Lemma checked_legs_ok fresh subject at_ legs said ls : checked_legs fresh subject at_ legs said = Ok ls ->
  Forall leg_closed ls /\ List.length ls = List.length legs.
Proof.
  unfold checked_legs, ruling_recorded. intros H. run_ok. subst.
  match goal with H : match ?j with JArr _ => _ | _ => _ end = Ok _, E : py_getitem _ _ = Ok ?j |- _ =>
    cbn in E; injection E as <-; injection H as <- end.
  by apply clean_legs_ok.
Qed.

Lemma same_keys_spec kv ks : same_keys kv ks = true <-> (forall k, k ∈ kv.*1 <-> k ∈ ks).
Proof.
  unfold same_keys. rewrite andb_true_iff, !forallb_forall. split.
  - intros [H1 H2] k. rewrite !list_elem_of_In. split; intros H; apply list_elem_of_In, in_words_spec; auto.
  - intros H. split; intros k Hk%list_elem_of_In; apply in_words_spec, H; done.
Qed.

Lemma date_guard_ok v u : date_guard v = Ok u -> v <> "" -> exists d, fromisoformat v = Ok d.
Proof. unfold date_guard. intros H Hv%nonempty_spec. rewrite Hv in H. run_ok. by eexists. Qed.

Lemma created_guard_ok v l : created_guard v = Ok l -> Forall (fun s => blank s = false) l.
Proof.
  destruct v; try done; cbn [created_guard]; [by intros [= <-]|]. intros H%rmap_ok.
  induction H as [|x s l0 l Hx H IH]; [constructor|]. constructor; [|done].
  destruct x; try done. destruct (blank s0) eqn:E; [done|]. by injection Hx as <-.
Qed.

(** Learning keeps its grounds.  A learned rule has a human explanation, at least one
    closed leg, the complete matching context, a source account when it is private, and
    readable dates.  A correction has a prior view of exactly the movements it selects, only
    closed legs, and creates no account outside its own treatment. *)
Theorem learning_keeps_its_grounds fresh :
  (forall rule_id anchor anchor_date context legs at_ category starts ends recurrence excluded said pv e,
    accounting_rule_recorded fresh rule_id anchor anchor_date context legs at_ category starts ends
      recurrence excluded said pv = Ok e ->
    blank said = false
    /\ (exists l ls, py_getitem (body e) "legs" = Ok (JArr (l :: ls)) /\ Forall leg_closed (l :: ls))
    /\ (forall k, k ∈ context.*1 <-> k ∈ context_required)
    /\ (py_truthy (field context "private") = true -> py_truthy (field context "source_account") = true)
    /\ Forall (fun v => v <> "" -> exists d, fromisoformat v = Ok d) [anchor_date; starts; ends])
  /\ (forall cid rule_id movements previous legs said at_ context created e,
    accounting_correction_recorded fresh cid rule_id movements previous legs said at_ context created = Ok e ->
    movements <> [] /\ (forall k, k ∈ previous.*1 <-> k ∈ movements)
    /\ exists ls, py_getitem (body e) "legs" = Ok (JArr ls) /\ Forall leg_closed ls
      /\ exists accounts, created_guard created = Ok accounts
      /\ Forall (fun a => blank a = false /\ exists l, l ∈ ls /\ py_getitem l "account" = Ok (JStr a)) accounts).
Proof.
  split.
  - intros rule_id anchor anchor_date context legs at_ category starts ends recurrence excluded said pv e H.
    unfold accounting_rule_recorded in H. run_ok. subst.
    repeat match goal with H : _ || _ = false |- _ => apply orb_false_iff in H as [? ?] end.
    match goal with H : checked_legs _ _ _ _ _ = Ok _ |- _ => apply checked_legs_ok in H as [Hl _] end.
    split; [done|]. split; [|split; [|split]].
    + match goal with H : context [match ?l with [] => true | cons _ _ => false end] |- _ => destruct l as [|l0 ls]; [done|] end.
      exists l0, ls. split; [reflexivity|done].
    + apply same_keys_spec. by apply negb_false_iff.
    + intros Hp. match goal with H : py_truthy (field context "private") && _ = false |- _ => rewrite Hp in H end.
      by apply negb_false_iff.
    + repeat constructor; by eapply date_guard_ok.
  - intros cid rule_id movements previous legs said at_ context created e H.
    unfold accounting_correction_recorded in H. destruct movements as [|first rest]; [done|].
    run_ok. subst. repeat match goal with H : _ || _ = false |- _ => apply orb_false_iff in H as [? ?] end.
    split; [done|]. split; [apply same_keys_spec; by apply negb_false_iff|].
    match goal with H : checked_legs _ _ _ _ _ = Ok ?l |- _ => apply checked_legs_ok in H as [Hl _]; exists l end.
    split; [reflexivity|]. split; [done|].
    match goal with H : created_guard _ = Ok ?l |- _ => exists l; split; [done|]; apply created_guard_ok in H; rename H into Hc end.
    match goal with H : existsb _ _ = false |- _ => rename H into Hex end.
    rewrite Forall_forall in Hc |- *. intros x Hx. split; [by apply Hc|].
    apply (existsb_none _ _ _ Hex) in Hx as Hn. apply negb_false_iff, existsb_exists in Hn as (v & Hv & E').
    apply py_eq_str_true in E' as ->. apply List.in_map_iff in Hv as (l & Hlv & Hin%list_elem_of_In).
    exists l. split; [done|]. rewrite Forall_forall in Hl. destruct (Hl l Hin) as (major & acct & share & _ & ->).
    cbn in Hlv. injection Hlv as ->. reflexivity.
Qed.

Lemma learning_keeps_its_grounds_witness :
  exists e, accounting_rule_recorded "id" "r1" "a1" "2026-01-05"
      [("party", JStr "acme"); ("private", JBool false); ("direction", JStr "out"); ("source_role", JStr "");
       ("source_account", JStr ""); ("category", JStr "food"); ("subcategory", JStr "")]
      [[("major", "expense"); ("account", "Expenses:Food")]] "2026-01-05" "food" "" "" "monthly" [] "groceries" "" = Ok e
    /\ blank "groceries" = false.
Proof.
  destruct (accounting_rule_recorded _ _ _ _ _ _ _ _ _ _ _ _ _ _) as [e|x] eqn:E; [|vm_compute in E; discriminate E].
  exists e. split; [reflexivity|]. exact (proj1 (proj1 (learning_keeps_its_grounds "id") _ _ _ _ _ _ _ _ _ _ _ _ _ _ E)).
Defined.

(** The dates of a rule are compared as text, and more than one form is read: this rule
    starts on the fifth of January and ends on the first. *)
Lemma rule_ends_before_it_starts :
  (exists e, accounting_rule_recorded "id" "r1" "a1" ""
      [("party", JStr "acme"); ("private", JBool false); ("direction", JStr "out"); ("source_role", JStr "");
       ("source_account", JStr ""); ("category", JStr "food"); ("subcategory", JStr "")]
      [[("major", "expense")]] "2026-01-05" "" "2026-01-05" "20260101" "" [] "groceries" "" = Ok e)
  /\ fromisoformat "2026-01-05" = Ok (mkDate 2026 1 5) /\ fromisoformat "20260101" = Ok (mkDate 2026 1 1).
Proof. split; [eexists; vm_compute; reflexivity|]. split; reflexivity. Qed.

(** ** Goals *)
Definition body_fields (e : Event) : list (string * json) := match body e with JObj kv => kv | _ => [] end.

Lemma goal_event_terms `{CaseMap} fresh t goal_id title currency target at_ date contribution day pid prov e :
  goal_event fresh t goal_id title currency target at_ date contribution day pid prov = Ok e ->
  terms_hold (body_fields e).
Proof.
  unfold goal_event. intros Hx. run_ok. subst. cbn [body_fields body event].
  match goal with H : goal_terms _ _ _ _ _ _ _ = Ok ?kv |- _ =>
    pose proof (goal_terms_hold _ _ _ _ _ _ _ _ H) as Ht; unfold goal_terms in H end.
  run_ok. subst. exact Ht.
Qed.

(** A goal's terms are usable.  Whatever creates or changes a goal leaves a target that
    is a positive amount and reads back, a contribution that is absent or positive, a day
    between 1 and 28 exactly when something is due on it, and a date that is absent or
    readable; funds are reserved and released in positive amounts only. *)
Theorem goal_terms_usable `{CaseMap} fresh :
  (forall goal_id title currency target at_ date contribution day pid prov e,
    goal_created fresh goal_id title currency target at_ date contribution day pid prov = Ok e
    \/ goal_terms_changed fresh goal_id title currency target at_ date contribution day pid prov = Ok e ->
    terms_hold (body_fields e))
  /\ (forall goal_id account amount at_ pid prov e,
    goal_funds_reserved fresh goal_id account amount at_ pid prov = Ok e ->
    positive_amount (field (body_fields e) "amount"))
  /\ (forall goal_id account amount reason at_ pid prov e,
    goal_funds_released fresh goal_id account amount reason at_ pid prov = Ok e ->
    reason ∈ GOAL_RELEASE_REASONS /\ positive_amount (field (body_fields e) "amount")).
Proof.
  split; [|split].
  - intros goal_id title currency target at_ date contribution day pid prov e [He|He]; by eapply goal_event_terms.
  - intros goal_id account amount at_ pid prov e He. unfold goal_funds_reserved in He. run_ok. subst.
    by eapply goal_decimal_ok.
  - intros goal_id account amount reason at_ pid prov e He. unfold goal_funds_released in He. run_ok. subst.
    split; [by apply in_words_spec, negb_false_iff|]. by eapply goal_decimal_ok.
Qed.

#[local] Existing Instance ascii_case.

Lemma goal_terms_usable_witness :
  exists e, goal_created "id" " g1 " "House" "usd" (NumStr "25000.00") "2026-01-01" "2027-06-30"
              (Some (NumInt 500)) (JInt 5) "" None = Ok e /\ terms_hold (body_fields e).
Proof.
  destruct (goal_created "id" " g1 " "House" "usd" (NumStr "25000.00") "2026-01-01" "2027-06-30"
              (Some (NumInt 500)) (JInt 5) "" None) as [e|x] eqn:E; [|vm_compute in E; discriminate E].
  exists e. split; [reflexivity|].
  exact (proj1 (goal_terms_usable "id") _ _ _ _ _ _ _ _ _ _ e (or_introl E)).
Defined.

(** The target date is read by the interpreter's [date.fromisoformat], which ignores what
    follows an eight-digit date in a text of ten characters; the text is recorded as it was. *)
Lemma goal_date_with_a_tail :
  (exists e, goal_created "id" "g1" "House" "usd" (NumStr "1") "2026-01-01" "20270630zz"
              None JNull "" None = Ok e /\ field (body_fields e) "target_date" = JStr "20270630zz").
Proof. eexists. split; vm_compute; reflexivity. Qed.

(** ** Extraction contexts *)
Lemma context_decodes c v : encode_context c = Ok v -> decode_context v = Ok c.
Proof.
  unfold encode_context. intros H. run_ok. destruct a. destruct c as [sv rules loc cur con].
  assert (Hs : (sv = JInt 1 /\ con = JNull) \/ sv = JInt 2).
  { unfold post_init in E. cbn [schema_version instrument_source_contract] in E. run_ok.
    match goal with H : negb (_ || _) = false |- _ => apply negb_false_iff, orb_true_iff in H as [Hv|Hv] end;
      destruct sv; try done; cbn [is_int] in Hv; apply Z.eqb_eq in Hv as ->; [left|by right].
    split; [done|]. destruct con; done. }
  destruct Hs as [[-> ->]| ->].
  - change (new_context (JInt 1) rules loc cur JNull = Ok (mkContext (JInt 1) rules loc cur JNull)).
    unfold new_context. by rewrite E.
  - change (new_context (JInt 2) rules loc cur con = Ok (mkContext (JInt 2) rules loc cur con)).
    unfold new_context. by rewrite E.
Qed.

(** A recorded extraction context is the context that was used.  What [encode_context]
    writes, [decode_context] reads back; it writes nothing for a context outside the closed
    schemas, and what [decode_context] accepts from a log can be written again and read as
    the same context. *)
Theorem extraction_context_round_trip :
  (forall c v, encode_context c = Ok v -> decode_context v = Ok c)
  /\ (forall v c, decode_context v = Ok c -> exists w, encode_context c = Ok w /\ decode_context w = Ok c)
  /\ (forall c x, encode_context c = Raise x -> x = ValueError).
Proof.
  split; [exact context_decodes|]. split.
  - intros v c H. assert (Hp : post_init c = Ok tt).
    { unfold decode_context in H. destruct v; try done.
      destruct (same_keys _ _); [|done]. unfold new_context in H. run_ok. subst. by destruct a. }
    assert (E : exists w, encode_context c = Ok w) by (unfold encode_context; rewrite Hp; by eexists).
    destruct E as [w E]. exists w. split; [done|]. by apply context_decodes.
  - intros c x. unfold encode_context. destruct (post_init c) eqn:E; [done|]. intros [= <-]. revert E.
    unfold post_init. only_value_error.
Qed.

Lemma extraction_context_round_trip_witness :
  let c := mkContext (JInt 2) (JStr "nv1") (JStr "en-US") JNull (JStr MORTGAGE_SOURCE_CONTRACT) in
  exists v, encode_context c = Ok v /\ decode_context v = Ok c.
Proof.
  cbn zeta. destruct (encode_context (mkContext (JInt 2) (JStr "nv1") (JStr "en-US") JNull (JStr MORTGAGE_SOURCE_CONTRACT)))
    as [v|x] eqn:E; [|vm_compute in E; discriminate E].
  exists v. split; [reflexivity|]. exact (proj1 extraction_context_round_trip _ v E).
Defined.
