(* ===== verification/Quantity.v ===== *)
(** * Quantity: product/viva/quantity.py

    The closed vocabulary of what a magnitude measures. *)
From Stdlib Require Import ZArith NArith Ascii String Lia.
From stdpp Require Import base list numbers strings.
From S2P Require Import Prelude Text Words Decimals.
#[local] Open Scope string_scope.

Definition SPENDING : string := "spending".
Definition INCOME : string := "income".
Definition BALANCE : string := "balance".
Definition OWED : string := "owed".
Definition NET_WORTH : string := "net_worth".
Definition GROSS_FLOW : string := "gross_flow".
Definition NET_MOVEMENT : string := "net_movement".
Definition MOVEMENT : string := "movement".
Definition REPAYMENT : string := "repayment".
Definition COUNT : string := "count".
Definition RATIO : string := "ratio".
Definition TIME : string := "time".
Definition PER_HUNDRED : decimal := Decimal_of_Z 100.

Definition ratio_of (kind : string) : string := RATIO ++ "_of_" ++ kind.

Definition COMPARABLE : list string :=
  [SPENDING; INCOME; BALANCE; OWED; NET_WORTH; GROSS_FLOW; NET_MOVEMENT; MOVEMENT; REPAYMENT; COUNT].
Definition RATIOS : list string := List.map ratio_of COMPARABLE.

Definition INVESTMENT_DEDICATED : list string :=
  ["security_units"; "holding_cost_basis"; "investment_contribution"; "investment_dividend";
   "sale_proceeds"; "disposed_cost_basis"; "realized_gain"].
Definition DEDICATED : list string :=
  (["deposit_contract_principal"; "loan_original_principal"; "instrument_rate";
    "allocation_percentage_points"] ++ INVESTMENT_DEDICATED)%list.

Definition KINDS : list string :=
  ([SPENDING; INCOME; BALANCE; OWED; NET_WORTH; GROSS_FLOW; NET_MOVEMENT; MOVEMENT; REPAYMENT; COUNT;
    RATIO; TIME] ++ RATIOS ++ DEDICATED)%list.

Definition is_ratio (name : string) : bool := String.eqb name RATIO || in_words name RATIOS.

Definition ASSERTS_DIRECTION : list string := [OWED].
Definition STOCKS : list string := [BALANCE; OWED; NET_WORTH].
Definition FLOWS : list string := [SPENDING; INCOME; GROSS_FLOW; NET_MOVEMENT; MOVEMENT].
Definition UNMEASURED : string := "unmeasured".
Definition MEASURES : list string := (KINDS ++ [UNMEASURED])%list.

Lemma ratio_of_measured kind : kind ∈ COMPARABLE -> ratio_of kind ∈ MEASURES.
Proof.
  intros H. unfold MEASURES, KINDS. rewrite !elem_of_app. left. right. left.
  unfold RATIOS. apply list_elem_of_In, in_map, list_elem_of_In. exact H.
Qed.
