(* ===== verification/Envelope.v ===== *)
(** * Envelope: product/viva/tools/envelope.py

    Figures, the boundaries that say what set a figure was taken over, and the result every
    tool returns.  A figure's optional subject and a result's prose are left out; a figure's
    values are the texts its dictionary holds. *)
From Stdlib Require Import ZArith NArith Ascii String Lia ZifyBool.
From stdpp Require Import base list numbers strings.
From S2P Require Import Prelude Text Words Json Decimals EventTypes Quantity.
#[local] Open Scope string_scope.

Definition FINANCIAL : string := "financial".
Definition ACTIVITY : string := "activity".
Definition COMPUTED : string := "computed".
Definition HYPOTHETICAL : string := "hypothetical".
Definition GRADED_KINDS : list string := [FINANCIAL; COMPUTED].
Definition STRENGTH : list string := [VERIFIED; CORROBORATED; UNVERIFIED; CONFLICTED].
Definition EXACT : string := "exact".
Definition ROUNDED : string := "rounded".

(** [STRENGTH.index(g)], for a member. *)
Fixpoint index (g : string) (l : list string) : nat :=
  match l with
  | [] => 0
  | x :: l' => if String.eqb g x then 0 else S (index g l')
  end.
Definition strength (g : string) : nat := index g STRENGTH.

Definition weakest (grades : list string) : string :=
  match List.filter (fun g => in_words g STRENGTH) grades with
  | [] => ""
  | present => nth (fold_right Nat.max 0%nat (List.map strength present)) STRENGTH ""
  end.

(** ** Boundaries *)
Definition SELECTED_KINDS : list string :=
  ["account"; "category"; "merchant"; "period"; "since"; "until"; "subcategory"; "tag"; "currency";
   "kind"; "security"; "account_set"].
Definition TWO_ENDED : list string := ["period"].
Definition GAP_REASONS : list string := ["refused"; "unobserved"].
Definition MUST_NAME_A_REMEDY : list string := ["refused"].

Record Narrowing := mkNarrowing { n_kind : string; n_value : string; n_to : string }.
Record Gap := mkGap { g_account : string; g_reason : string; g_settled_by : string }.
(** The fields [bounded] leaves out are [None], [] and zero here. *)
Record Boundary := mkBoundary {
  whole : bool;
  accounts : option (Z * Z);
  selected : list Narrowing;
  cut : list Narrowing;
  unmeasured : list Gap;
  unposted : Z
}.
#[export] Instance Narrowing_eq_dec : EqDecision Narrowing.
Proof. solve_decision. Defined.
#[export] Instance Gap_eq_dec : EqDecision Gap.
Proof. solve_decision. Defined.
#[export] Instance Boundary_eq_dec : EqDecision Boundary.
Proof. solve_decision. Defined.

Definition narrowing_guard (n : Narrowing) : res unit :=
  let? _ := raise_if (negb (in_words (n_kind n) SELECTED_KINDS)) ValueError in
  let? _ := raise_if (String.eqb (n_value n) "") ValueError in
  raise_if (negb (Bool.eqb (negb (String.eqb (n_to n) "")) (in_words (n_kind n) TWO_ENDED))) ValueError.
Definition gap_guard (g : Gap) : res unit :=
  let? _ := raise_if (String.eqb (g_account g) "") ValueError in
  let? _ := raise_if (negb (in_words (g_reason g) GAP_REASONS)) ValueError in
  raise_if (negb (Bool.eqb (negb (String.eqb (g_settled_by g) "")) (in_words (g_reason g) MUST_NAME_A_REMEDY)))
    ValueError.

(** [slice_of.sort(key=kind)]: stable. *)
Fixpoint insert_narrowing (n : Narrowing) (l : list Narrowing) : list Narrowing :=
  match l with
  | [] => [n]
  | m :: l' => if String.leb (n_kind n) (n_kind m) then n :: l else m :: insert_narrowing n l'
  end.
Definition sort_cut (l : list Narrowing) : list Narrowing := fold_right insert_narrowing [] l.

Definition bounded (w : bool) (counted held : Z) (sel ct : list Narrowing) (gaps : list Gap) (unp : Z)
    : res Boundary :=
  let? _ := raise_if ((counted <? 0) || (held <? counted))%Z ValueError in
  let? _ := rmap narrowing_guard (sel ++ ct)%list in
  let? _ := raise_if (negb (distinct (List.map n_kind ct))) ValueError in
  let? _ := rmap gap_guard gaps in
  let? _ := raise_if (unp <? 0)%Z ValueError in
  Ok (mkBoundary w (if (held =? 0)%Z then None else Some (counted, held)) sel (sort_cut ct) gaps unp).

(** [bounded(whole=False)]. *)
Definition over_neither : Boundary := mkBoundary false None [] [] [] 0.
Example over_neither_bounded : bounded false 0 0 [] [] [] 0 = Ok over_neither.
Proof. reflexivity. Qed.

Fixpoint all_present {A} (l : list (option A)) : option (list A) :=
  match l with
  | [] => Some []
  | None :: _ => None
  | Some a :: l' => match all_present l' with Some r => Some (a :: r) | None => None end
  end.
Definition cut_set (sel : list Narrowing) (slices : list (option Narrowing)) : list Narrowing :=
  match all_present slices with
  | None => []
  | Some l => (fold_left (fun axes n => dict_set axes (n_kind n) n) (sel ++ l)%list []).*2
  end.

(** ** Figures *)
Record Figure := mkFigure {
  f_id : string;
  f_value : string;
  f_currency : string;
  f_quantity : string;
  f_kind : string;
  f_grade : string;
  f_dated : string;
  f_record_ids : list string;
  f_exactness : string;
  f_boundary : option Boundary;
  f_what : string;
  f_claim : string
}.

(** Without a subject; [value] is already text, a new figure has no id and no claim. *)
Definition figure (value what quantity kind grade dated currency : string) (record_ids : list string)
    (exactness : string) (boundary : option Boundary) : res Figure :=
  let? _ := raise_if (negb (String.eqb grade "") && negb (in_words grade STRENGTH)) ValueError in
  let? _ := raise_if (negb (in_words exactness [EXACT; ROUNDED])) ValueError in
  let? _ := raise_if (negb (in_words quantity MEASURES)) ValueError in
  Ok (mkFigure "" value currency quantity kind (if in_words kind GRADED_KINDS then grade else "") dated
        record_ids exactness boundary what "").

Definition recorded_boundary (fig : Figure) : option Boundary := f_boundary fig.

Record ToolResult := mkToolResult {
  tool : string;
  ok : bool;
  data : json;
  figures : list Figure;
  r_grade : string;
  r_record_ids : list string;
  refused : string
}.
(** [refusal(tool, reason, ...)] with the payload it is given. *)
Definition refusal (tool reason : string) (extra : json) : ToolResult :=
  mkToolResult tool false extra [] "" [] reason.

(** ** The ladder *)
Lemma weakest_pair a b : weakest [a; b] = "" \/ weakest [a; b] ∈ STRENGTH.
Proof.
  unfold weakest. cbn [List.filter].
  destruct (in_words a STRENGTH) eqn:Ea, (in_words b STRENGTH) eqn:Eb; [right..|by left];
    repeat match goal with H : in_words ?x STRENGTH = true |- _ => apply in_words_spec in H end;
    unfold STRENGTH in *;
    repeat match goal with H : _ ∈ _ :: _ |- _ => apply elem_of_cons in H as [->|H]
                         | H : _ ∈ [] |- _ => by apply elem_of_nil in H end;
    by apply in_words_spec.
Qed.

Lemma max_strength l : Forall (fun g => g ∈ STRENGTH) l ->
  (fold_right Nat.max 0 (List.map strength l) < 4)%nat.
Proof.
  induction 1 as [|x l Hx Hl IH]; [cbn; lia|]. cbn [List.map fold_right].
  assert (strength x < 4)%nat; [|lia]. unfold STRENGTH in Hx.
  repeat (apply elem_of_cons in Hx as [->|Hx]; [by vm_compute; lia|]). by apply elem_of_nil in Hx.
Qed.

(** The weaker of two is at least as weak as each. *)
Lemma weakest_covers a b g : g ∈ [a; b] -> g ∈ STRENGTH -> (strength g <= strength (weakest [a; b]))%nat.
Proof.
  intros Hg Hs. assert (Hp : g ∈ List.filter (fun g => in_words g STRENGTH) [a; b]).
  { apply list_elem_of_In, List.filter_In. split; [by apply list_elem_of_In|by apply in_words_spec]. }
  unfold weakest. set (present := List.filter _ _) in *.
  assert (Hall : Forall (fun g => g ∈ STRENGTH) present).
  { apply List.Forall_forall. intros x [_ Hx]%List.filter_In. by apply in_words_spec. }
  clearbody present. destruct present as [|p ps]; [by apply elem_of_nil in Hp|].
  set (m := fold_right _ _ _).
  assert (Hm : (strength g <= m)%nat).
  { unfold m. clear m Hall. induction (p :: ps) as [|x l IH]; [by apply elem_of_nil in Hp|].
    cbn [List.map fold_right]. apply elem_of_cons in Hp as [->|Hp]; [lia|]. specialize (IH Hp). lia. }
  assert (Hb : (m < 4)%nat) by (by apply max_strength).
  clearbody m. do 4 (destruct m as [|m]; [exact Hm|]). lia.
Qed.
