(* ===== verification/Compute.v ===== *)
(** * Compute: product/viva/tools/compute.py

    Arithmetic over figures.  Every value carries its annotations and each operator combines
    them for itself.  The interpreter's [ast.parse] is the [ast_parse] argument of [compute];
    the tree is the syntax below, a node of any other kind standing for all the walk
    refuses.  An operand is the text [str] gives of it.  A refusal is its tag; the sentence
    spoken with it is left out. *)
From Stdlib Require Import ZArith NArith Ascii String Lia ZifyBool ZifyN ZifyNat.
From stdpp Require Import base list numbers strings.
From S2P Require Import Prelude Text Words Json Unicode Decimals Rulings Quantity Envelope.
#[local] Open Scope string_scope.

Definition MAX_DEPTH : nat := 100.
Definition MAX_EXPRESSION : nat := 2000.
Definition PRECISION : N := 400.
(** The exponent of [MONEY_SCALE]. *)
Definition MONEY_SCALE : Z := -2.
Definition SIGNIFICANT_FIGURES : Z := 6.
Definition TOOL : string := "compute".
Definition SCALAR : string := "".
Definition UNSTATED : string := "?".
Definition MIXED_DIMENSIONS : string := "mixed_dimensions".
Definition MIXED_CURRENCIES : string := "mixed_currencies".
Definition MIXED_QUANTITIES : string := "mixed_quantities".
Definition UNDEFINED_QUANTITY : string := "undefined_quantity".

(** The walk's context, and the same with the Inexact trap lifted. *)
Definition exact_ctx : ctx := mkCtx PRECISION true.
Definition loose_ctx : ctx := mkCtx PRECISION false.

(** ** Quantities *)

(** What an operand says of the set it was taken over. *)
Inductive over := Undeclared | NotASet | Declared (b : Boundary).
#[export] Instance over_eq_dec : EqDecision over.
Proof. solve_decision. Defined.

(** [records] is a set; the result sorts it. *)
Record Qty := mkQ {
  amount : decimal;
  dimension : string;
  records : list string;
  grade : string;
  supposed : bool;
  exactness : string;
  quantity : string;
  boundary : over
}.

Definition stated (q : Qty) : bool := negb (String.eqb (quantity q) UNMEASURED).
Definition money (q : Qty) : bool := negb (String.eqb (dimension q) SCALAR).
Definition attested (q : Qty) : bool := match records q with [] => false | _ => true end.

Definition rescaled (lq rq : Qty) : list string * string :=
  ((records lq ++ records rq)%list, weakest [grade lq; grade rq]).

Definition summed (lq rq : Qty) : list string * string :=
  if attested lq && attested rq
  then ((records lq ++ records rq)%list, weakest [grade lq; grade rq])
  else ([], "").

Definition agreeing (lq rq : Boundary) : over :=
  if bool_decide (lq = rq) then Declared lq else Declared over_neither.

Definition over_rescaled (lq rq : Qty) : over :=
  match boundary lq, boundary rq with
  | Undeclared, _ | _, Undeclared => Undeclared
  | NotASet, NotASet => Declared over_neither
  | NotASet, b => b
  | b, NotASet => b
  | Declared a, Declared b => agreeing a b
  end.

Definition over_summed (lq rq : Qty) : over :=
  match boundary lq, boundary rq with
  | Undeclared, _ | _, Undeclared => Undeclared
  | NotASet, _ | _, NotASet => Declared over_neither
  | Declared a, Declared b => agreeing a b
  end.

Definition declared (o : over) : option Boundary :=
  match o with
  | Undeclared => None
  | NotASet => Some over_neither
  | Declared b => Some b
  end.

Definition carried (lq rq : Qty) (came_out : string) : bool * string :=
  (supposed lq || supposed rq,
   if String.eqb EXACT (exactness lq) && String.eqb (exactness lq) (exactness rq)
      && String.eqb (exactness rq) came_out
   then EXACT else ROUNDED).

(** [except Inexact]: Overflow is a subclass of it. *)
Definition carefully (step : ctx -> res decimal) : res (decimal * string) :=
  match step exact_ctx with
  | Ok d => Ok (d, EXACT)
  | Raise DecimalInexact | Raise DecimalOverflow => let? d := step loose_ctx in Ok (d, ROUNDED)
  | Raise e => Raise e
  end.

(** [d.adjusted()], zero for a special value. *)
Definition dec_adjusted (d : decimal) : Z := match d with Fin _ c e => adjusted c e | _ => 0 end.

Definition written (amt : decimal) (is_money : bool) : res decimal :=
  if is_money then quantize loose_ctx amt MONEY_SCALE
  else if is_zero amt then Ok amt
  else
    let? unit_ := fix_dec loose_ctx (Fin false 1 (dec_adjusted amt - SIGNIFICANT_FIGURES + 1)) in
    match unit_ with
    | Fin _ _ e => quantize loose_ctx amt e
    | _ => Raise InvalidOperation
    end.

Definition totalled (lq rq : Qty) (subtracting : bool) : res string :=
  if negb (stated lq) then Ok (quantity rq)
  else if negb (stated rq) || String.eqb (quantity lq) (quantity rq) then Ok (quantity lq)
  else if subtracting && in_words (quantity lq) STOCKS && in_words (quantity rq) FLOWS
  then Ok (quantity lq)
  else Raise (Refusal MIXED_QUANTITIES).

Definition product (lq rq : Qty) (is_money : bool) : string :=
  if is_money then (if money lq then quantity lq else quantity rq)
  else if (String.eqb (quantity lq) UNMEASURED || is_ratio (quantity lq)) && stated rq
  then quantity rq else quantity lq.

Definition compared (lq rq : string) : string :=
  if String.eqb lq rq && in_words lq COMPARABLE then ratio_of lq else RATIO.

Definition quotient (lq rq : Qty) (is_money : bool) : res string :=
  if is_money then Ok (quantity lq)
  else if money lq && money rq then Ok (compared (quantity lq) (quantity rq))
  else if stated lq && stated rq then Ok (compared (quantity lq) (quantity rq))
  else if stated lq then Ok (quantity lq)
  else if stated rq then Raise (Refusal UNDEFINED_QUANTITY)
  else Ok UNMEASURED.

Definition same_currency (lq rq : Qty) : res string :=
  if String.eqb UNSTATED (dimension lq) || String.eqb UNSTATED (dimension rq)
  then Ok (if String.eqb (dimension lq) UNSTATED then dimension rq else dimension lq)
  else if negb (String.eqb (dimension lq) (dimension rq)) then Raise (Refusal MIXED_CURRENCIES)
  else Ok (dimension lq).

Definition added (lq rq : Qty) (step : ctx -> decimal -> decimal -> res decimal) (subtracting : bool) : res Qty :=
  let? _ := raise_if (negb (Bool.eqb (money lq) (money rq))) (Refusal MIXED_DIMENSIONS) in
  let? dim := if money lq then same_currency lq rq else Ok SCALAR in
  let? measures := totalled lq rq subtracting in
  let '(recs, g) := summed lq rq in
  let? r := carefully (fun c => step c (amount lq) (amount rq)) in
  let '(amt, came_out) := r in
  let '(sup, ex) := carried lq rq came_out in
  Ok (mkQ amt dim recs g sup ex measures (over_summed lq rq)).

Definition multiplied (lq rq : Qty) : res Qty :=
  let? _ := raise_if (money lq && money rq) (Refusal MIXED_DIMENSIONS) in
  let dim := if money lq then dimension lq else if money rq then dimension rq else SCALAR in
  let measures := product lq rq (money lq || money rq) in
  let '(recs, g) := rescaled lq rq in
  let? r := carefully (fun c => dmul c (amount lq) (amount rq)) in
  let '(amt, came_out) := r in
  let '(sup, ex) := carried lq rq came_out in
  Ok (mkQ amt dim recs g sup ex measures (over_rescaled lq rq)).

Definition divided (lq rq : Qty) : res Qty :=
  let? _ := raise_if (money rq && negb (money lq)) (Refusal MIXED_DIMENSIONS) in
  let? dim := if money lq && money rq then let? _ := same_currency lq rq in Ok SCALAR
              else Ok (dimension lq) in
  let? measures := quotient lq rq (negb (String.eqb dim SCALAR)) in
  let '(recs, g) := rescaled lq rq in
  let? r := carefully (fun c => ddiv c (amount lq) (amount rq)) in
  let '(amt, came_out) := r in
  let '(sup, ex) := carried lq rq came_out in
  Ok (mkQ amt dim recs g sup ex measures (over_rescaled lq rq)).

(** ** The walk *)
Inductive binop := Add | Sub | Mult | Div | OtherBin.
Inductive unop := USub | UAdd | OtherUn.
(** An integer literal, or any other constant (a bool, a float, text, ...). *)
Inductive const := CInt (z : Z) | COther.
Inductive node :=
  | BinOp (op : binop) (lq rq : node)
  | UnaryOp (op : unop) (operand : node)
  | Name (id : string)
  | Constant (c : const)
  | OtherNode.

Definition literal (z : Z) : Qty := mkQ (Decimal_of_Z z) SCALAR [] "" false EXACT UNMEASURED NotASet.

Definition negated (v : Qty) : res Qty :=
  let? r := carefully (fun c => dneg c (amount v)) in
  let '(amt, came_out) := r in
  let '(sup, ex) := carried v v came_out in
  Ok (mkQ amt (dimension v) (records v) (grade v) sup ex (quantity v) (boundary v)).

Definition apply_binop (op : binop) (lq rq : Qty) : res Qty :=
  match op with
  | Add => added lq rq dadd false
  | Sub => added lq rq dsub true
  | Mult => multiplied lq rq
  | Div => divided lq rq
  | OtherBin => Raise ValueError
  end.

(** [_evaluate] of the body of the expression, which is one level down. *)
Fixpoint evaluate (n : node) (bound : list (string * Qty)) (depth : nat) : res Qty :=
  if (MAX_DEPTH <? depth)%nat then Raise ValueError
  else
    match n with
    | BinOp op l r =>
        let? lq := evaluate l bound (S depth) in
        let? rq := evaluate r bound (S depth) in
        apply_binop op lq rq
    | UnaryOp op v =>
        let? value := evaluate v bound (S depth) in
        match op with
        | USub => negated value
        | UAdd => Ok value
        | OtherUn => Raise ValueError
        end
    | Name id => match dict_get bound id with Some q => Ok q | None => Raise ValueError end
    | Constant (CInt z) => Ok (literal z)
    | Constant COther => Raise ValueError
    | OtherNode => Raise ValueError
    end.

(** ** Binding the operands *)

(** [re.findall(r"\d[\d,]*(?:\.\d+)?", text)] with the commas dropped: one match from a
    digit, the rest of the text. *)
Fixpoint nspan (f : N -> bool) (l : list N) : list N * list N :=
  match l with
  | c :: l' => if f c then let '(a, b) := nspan f l' in (c :: a, b) else ([], l)
  | [] => ([], [])
  end.
Definition is_comma (c : N) : bool := (c =? 44)%N.
Definition match_number (l : list N) : list N * list N :=
  let '(a, r) := nspan (fun c => is_decimal c || is_comma c) l in
  match r with
  | dot :: r' =>
      if (dot =? 46)%N then
        match nspan is_decimal r' with
        | ([], _) => (a, r)
        | (ds, r2) => ((a ++ dot :: ds)%list, r2)
        end
      else (a, r)
  | [] => (a, r)
  end.
Fixpoint find_numbers (fuel : nat) (l : list N) : list (list N) :=
  match fuel, l with
  | S f, c :: l' => if is_decimal c then let '(t, r) := match_number l in t :: find_numbers f r
                    else find_numbers f l'
  | _, _ => []
  end.
Definition drop_commas (l : list N) : list N := List.filter (fun c => negb (is_comma c)) l.
(** [numbers_said] of this module. *)
Definition numbers_stated (text : string) : list string :=
  let l := uchars (enc text) in
  List.map (fun t => dec (of_uchars (drop_commas t))) (find_numbers (List.length l) l).

(** One value of [inputs]: an object stipulating an amount, or the id of a figure. *)
Inductive operand := Stipulated (amount : string) | ByFigure (fid : string).

(** [RETIREMENT_CLAIMS | MORTGAGE_DERIVED_CLAIMS] of instrument_claims.py. *)
Definition DEDICATED_CLAIMS : list string :=
  ["employee_retirement_contributions"; "direct_rollover_amount"; "rollover_source_outflow";
   "rollover_destination_inflow"; "rollover_checking_receipts"; "rollover_attributed_income";
   "rollover_date"; "rollover_reference"; "rollover_source_account"; "rollover_destination_account";
   "payment_net_unallocated"].

Definition of_figure (fig : Figure) : res Qty :=
  let? v := Decimal_of_str (f_value fig) in
  Ok (mkQ v (f_currency fig) (f_record_ids fig) (f_grade fig) (String.eqb (f_kind fig) HYPOTHETICAL)
        (f_exactness fig) (f_quantity fig)
        (match recorded_boundary fig with Some b => Declared b | None => Undeclared end)).

Definition of_stipulated (amt : string) : res Qty :=
  let? v := Decimal_of_text (enc (dec (of_uchars (drop_commas (uchars (enc amt)))))) in
  Ok (mkQ v UNSTATED [] "" true EXACT UNMEASURED (Declared over_neither)).

(** One turn of the binding loop: the quantity and the figure used, or the tag of the
    refusal. *)
Definition bind_operand (figs : list (string * Figure)) (said : list string) (v : operand)
    : (Qty * option Figure) + string :=
  match v with
  | Stipulated amt =>
      let ns := numbers_stated amt in
      if negb (forallb (fun n => in_words n said) ns) || match ns with [] => true | _ => false end
      then inr "bad_input"
      else match of_stipulated amt with
           | Ok q => inl (q, None)
           | Raise _ => inr "bad_input"
           end
  | ByFigure fid =>
      match dict_get figs fid with
      | None => inr "bad_input"
      | Some fig =>
          if in_words (f_quantity fig) DEDICATED || in_words (f_claim fig) DEDICATED_CLAIMS
          then inr "dedicated_authority_required"
          else match of_figure fig with
               | Ok q => inl (q, Some fig)
               | Raise _ => inr "bad_input"
               end
      end
  end.
Fixpoint bind_inputs (figs : list (string * Figure)) (said : list string) (inputs : list (string * operand))
    : (list (string * Qty) * list Figure) + string :=
  match inputs with
  | [] => inl ([], [])
  | (name, v) :: rest =>
      match bind_operand figs said v with
      | inr tag => inr tag
      | inl (q, fig) =>
          match bind_inputs figs said rest with
          | inr tag => inr tag
          | inl (bound, used) => inl ((name, q) :: bound, match fig with Some f => f :: used | None => used end)
          end
      end
  end.

(** What [ast.parse(expression, mode="eval")] comes to. *)
Inductive parsed := Tree (n : node) | Unreadable.

(** The handlers around the walk: the tag of the refusal each exception becomes. *)
Definition walk_tag (e : exn) : string :=
  match e with
  | Refusal tag => tag
  | ValueError => "bad_expression"
  | ZeroDivisionError => "division_by_zero"
  | _ => "bad_expression"
  end.

Definition finish (q : Qty) : res Qty :=
  if String.eqb (exactness q) EXACT then Ok q
  else let? a := written (amount q) (money q) in
       Ok (mkQ a (dimension q) (records q) (grade q) (supposed q) (exactness q) (quantity q) (boundary q)).

Definition mixed (kinds : list string) : bool :=
  in_words ACTIVITY kinds && existsb (fun k => negb (String.eqb k ACTIVITY)) kinds.
Definition only_activity (kinds : list string) : bool :=
  match kinds with [] => false | _ => forallb (String.eqb ACTIVITY) kinds end.

Fixpoint insert_input (p : string * string) (l : list (string * string)) : list (string * string) :=
  match l with
  | [] => [p]
  | x :: l' => if String.leb p.1 x.1 then p :: l else x :: insert_input p l'
  end.

(** [data["inputs"]]: each name with its amount, by name. *)
Definition shown_inputs (bound : list (string * Qty)) : json :=
  JObj (List.map (fun p => (p.1, JStr p.2))
          (fold_right insert_input [] (List.map (fun p => (p.1, dec_str (amount p.2))) bound))).

(** [inputs] is [None] when it is not an object. *)
Definition compute (ast_parse : string -> parsed) (expression : string)
    (inputs : option (list (string * operand))) (figs : list (string * Figure)) (question : string)
    : res ToolResult :=
  match inputs with
  | None => Ok (refusal TOOL "bad_input" JNull)
  | Some inputs =>
      match bind_inputs figs (numbers_stated question) inputs with
      | inr tag => Ok (refusal TOOL tag JNull)
      | inl (bound, used) =>
          if (MAX_EXPRESSION <? List.length (uchars (enc expression)))%nat
          then Ok (refusal TOOL "bad_expression" JNull)
          else
            match ast_parse expression with
            | Unreadable => Ok (refusal TOOL "bad_expression" JNull)
            | Tree tree =>
                let kinds := List.map f_kind used in
                if mixed kinds then Ok (refusal TOOL "mixed_kinds" JNull)
                else
                  match (let? q := evaluate tree bound 1 in finish q) with
                  | Raise e => Ok (refusal TOOL (walk_tag e) JNull)
                  | Ok q =>
                      let record_ids := sorted_set (records q) in
                      let kind := if supposed q then HYPOTHETICAL
                                  else if only_activity kinds then ACTIVITY else COMPUTED in
                      let? result := figure (dec_str (amount q)) ("the result of " ++ expression)
                        (quantity q) kind (grade q) ""
                        (if String.eqb (dimension q) UNSTATED then "" else dimension q)
                        record_ids (exactness q) (declared (boundary q)) in
                      Ok (mkToolResult TOOL true
                            (JObj [("expression", JStr expression); ("inputs", shown_inputs bound)])
                            [result] (f_grade result) record_ids "")
                  end
            end
      end
  end.
