(* ===== verification/ComputeLaws.v ===== *)
(** * ComputeLaws: exact decimals, and what the annotations of a result come from

    With the Inexact trap set, an operation that returns a finite value returns the rational
    result: the trap is what makes a returned value exact, whatever the precision. *)
From Stdlib Require Import ZArith NArith QArith Qpower Ascii String Lia ZifyBool ZifyN ZifyNat.
From stdpp Require Import base list numbers strings.
From S2P Require Import Prelude Text Words Json Unicode Decimals Rulings EventTypes Quantity Envelope Compute.
#[local] Open Scope Q_scope.

Definition ten : Q := inject_Z 10.
(** The rational a finite decimal is; zero for the special values. *)
Definition value (d : decimal) : Q :=
  match d with Fin s c e => inject_Z (signed s c) * ten ^ e | _ => 0 end.
Definition is_finite_dec (d : decimal) : bool := match d with Fin _ _ _ => true | _ => false end.

Lemma ten_nz : ~ ten == 0.
Proof. intros H. by vm_compute in H. Qed.
Lemma ten_plus a b : ten ^ (a + b) == ten ^ a * ten ^ b.
Proof. apply Qpower_plus, ten_nz. Qed.
Lemma ten_pow10 k : (0 <= k)%Z -> inject_Z (Z.of_N (pow10 k)) == ten ^ k.
Proof.
  intros Hk. unfold ten. rewrite <- Zpower_Qpower by done. apply inject_Z_injective. unfold pow10.
  rewrite N2Z.inj_pow. f_equal. lia.
Qed.

(** A coefficient moved along the scale. *)
Lemma value_shift (z : Z) e k : (0 <= k)%Z ->
  inject_Z (z * Z.of_N (pow10 k)) * ten ^ e == inject_Z z * ten ^ (e + k).
Proof. intros Hk. rewrite inject_Z_mult, ten_pow10, ten_plus by done. ring. Qed.

Lemma signed_mul s c d : signed s (c * d) = (signed s c * Z.of_N d)%Z.
Proof. unfold signed. destruct s; lia. Qed.

Lemma div_exact_N c p : p <> 0%N -> (c mod p = 0)%N -> c = (c / p * p)%N.
Proof. intros Hp H. rewrite N.mul_comm. by apply N.Div0.div_exact. Qed.

(** ** The context under the trap *)
Lemma fix_trap cx s c e r : trap_inexact cx = true -> fix_dec cx (Fin s c e) = Ok r ->
  is_finite_dec r = true /\ value r == value (Fin s c e)
  /\ (c <> 0%N -> (prec cx < N.of_nat (ndigits c))%N -> (c mod 10 = 0)%N).
Proof.
  intros Ht. unfold fix_dec. destruct (N.eqb_spec c 0) as [->|Hc].
  - intros [= <-]. split; [done|]. split; [|done]. unfold value.
    replace (signed s 0) with 0%Z by (by destruct s). ring.
  - set (n := Z.of_nat (ndigits c)). set (m := (n + e - Z.of_N (prec cx))%Z).
    destruct (Etop cx <? m)%Z; [done|]. set (x := Z.max m (Etiny cx)).
    destruct (Z.ltb_spec e x) as [Hx|Hx].
    2:{ intros [= <-]. split; [done|]. split; [done|]. intros _ Hp. unfold x, m, n in Hx. lia. }
    rewrite Ht. destruct (Z.ltb_spec (n + e - x) 0) as [Hn|Hn].
    { destruct (Z.of_N (prec cx) <? Z.of_nat (ndigits 0))%Z; destruct (Etop cx <? _)%Z; done. }
    unfold round_half_even. set (k := (x - e)%Z). pose proof (pow10_pos k) as Hpos.
    destruct (N.eqb_spec (c mod pow10 k) 0) as [Hmod|Hmod].
    2:{ cbn [negb]. match goal with |- context [if ?u then (_ + 1)%N else _] => set (q := if u then _ else _) end.
        destruct (Z.of_N (prec cx) <? Z.of_nat (ndigits q))%Z; destruct (Etop cx <? _)%Z; done. }
    cbn [negb]. rewrite Hmod. change (2 * 0)%N with 0%N.
    replace (pow10 k <? 0)%N with false by lia. replace (pow10 k =? 0)%N with false by lia.
    cbn [orb andb]. set (q := (c / pow10 k)%N).
    assert (Hq : c = (q * pow10 k)%N) by (apply div_exact_N; [lia|done]).
    assert (Hq0 : q <> 0%N) by (intros E; rewrite E in Hq; lia).
    assert (Hnd : (Z.of_nat (ndigits q) <= Z.of_N (prec cx))%Z).
    { apply ndigits_le; [done|]. pose proof (ndigits_upper c) as Hu.
      assert (Hle : (10 ^ N.of_nat (ndigits c) <= 10 ^ prec cx * pow10 k)%N).
      { unfold pow10. rewrite <- N.pow_add_r. apply N.pow_le_mono_r; [done|]. unfold k, x, m, n. lia. }
      apply (N.mul_lt_mono_pos_r (pow10 k)); [done|]. lia. }
    replace (Z.of_N (prec cx) <? Z.of_nat (ndigits q))%Z with false by lia.
    destruct (Etop cx <? x)%Z; [done|]. intros [= <-]. split; [done|]. split.
    + unfold value. rewrite Hq, signed_mul, value_shift by (unfold k; lia).
      replace (e + k)%Z with x by (unfold k; lia). done.
    + intros _ _. unfold k in Hq. assert (E : pow10 (x - e) = (10 * pow10 (x - e - 1))%N).
      { replace (x - e)%Z with (1 + (x - e - 1))%Z at 1 by lia. rewrite pow10_add by lia. done. }
      rewrite Hq, E. replace (q * (10 * pow10 (x - e - 1)))%N with (q * pow10 (x - e - 1) * 10)%N by lia.
      apply N.Div0.mod_mul.
Qed.

Section Trapped.
Context (cx : ctx) (Ht : trap_inexact cx = true).

Lemma dadd_value a b r : is_finite_dec a = true -> is_finite_dec b = true -> dadd cx a b = Ok r ->
  is_finite_dec r = true /\ value r == value a + value b.
Proof using Ht.
  destruct a as [s c e| |]; [|done..]. destruct b as [t d f| |]; [|done..]. intros _ _.
  unfold dadd, check_nans. set (x := Z.min e f). set (z := (_ + _)%Z).
  intros H. apply fix_trap in H as (H1 & H2 & _); [|done]. split; [done|]. rewrite H2.
  assert (Hz : value (Fin (if (z =? 0)%Z then s && t else (z <? 0)%Z) (Z.abs_N z) x) == inject_Z z * ten ^ x).
  { unfold value. destruct (Z.eqb_spec z 0) as [->|Hz]; [by destruct (s && t)|]. by rewrite signed_abs. }
  rewrite Hz. unfold z. rewrite inject_Z_plus, Qmult_plus_distr_l, !value_shift by (unfold x; lia).
  unfold value. replace (x + (e - x))%Z with e by lia. replace (x + (f - x))%Z with f by lia. reflexivity.
Qed.

Lemma value_negate a : value (copy_negate a) == - value a.
Proof using Type.
  clear Ht.
  destruct a as [s c e| |]; [|reflexivity..]. unfold value, copy_negate.
  replace (signed (negb s) c) with (- signed s c)%Z by (destruct s; unfold signed; cbn; lia).
  rewrite inject_Z_opp. ring.
Qed.
Lemma finite_negate a : is_finite_dec (copy_negate a) = is_finite_dec a.
Proof using Type. clear Ht. by destruct a. Qed.

Lemma dsub_value a b r : is_finite_dec a = true -> is_finite_dec b = true -> dsub cx a b = Ok r ->
  is_finite_dec r = true /\ value r == value a - value b.
Proof using Ht.
  intros Ha Hb H. assert (E : dadd cx a (copy_negate b) = Ok r) by (by destruct a, b).
  apply dadd_value in E as [H1 H2]; [|done|by rewrite finite_negate]. split; [done|].
  rewrite H2, value_negate. reflexivity.
Qed.

Lemma dneg_value a r : is_finite_dec a = true -> dneg cx a = Ok r ->
  is_finite_dec r = true /\ value r == - value a.
Proof using Ht.
  destruct a as [s c e| |]; [|done..]. intros _. unfold dneg.
  assert (Hf : forall u, fix_dec cx (Fin u c e) = Ok r -> value (Fin u c e) == - value (Fin s c e) ->
               is_finite_dec r = true /\ value r == - value (Fin s c e)).
  { intros u H Hu. apply fix_trap in H as (H1 & H2 & _); [|done]. split; [done|]. by rewrite H2. }
  destruct c as [|p]; intros H.
  - apply (Hf false H). unfold value. change (signed false 0) with 0%Z. replace (signed s 0) with 0%Z by (by destruct s). ring.
  - apply (Hf (negb s) H). apply (value_negate (Fin s (N.pos p) e)).
Qed.

Lemma dmul_value a b r : is_finite_dec a = true -> is_finite_dec b = true -> dmul cx a b = Ok r ->
  is_finite_dec r = true /\ value r == value a * value b.
Proof using Ht.
  destruct a as [s c e| |]; [|done..]. destruct b as [t d f| |]; [|done..]. intros _ _.
  unfold dmul, check_nans. intros H. apply fix_trap in H as (H1 & H2 & _); [|done]. split; [done|].
  rewrite H2. unfold value. rewrite ten_plus.
  replace (signed (xorb s t) (c * d)) with (signed s c * signed t d)%Z by (unfold signed; destruct s, t; cbn; lia).
  rewrite inject_Z_mult. ring.
Qed.

(** Stripping trailing zeros moves the value nowhere. *)
Lemma strip_zeros_value fuel s c e ideal c' e' : strip_zeros fuel c e ideal = (c', e') ->
  value (Fin s c' e') == value (Fin s c e).
Proof using Type.
  clear Ht.
  revert c e. induction fuel as [|n IH]; intros c e; cbn [strip_zeros]; [by intros [= <- <-]|].
  destruct (Z.ltb_spec e ideal); [|by intros [= <- <-]]. cbn [andb].
  destruct (N.eqb_spec (c mod 10) 0) as [Hm|]; [|by intros [= <- <-]].
  intros H'. rewrite (IH _ _ H'). apply div_exact_N in Hm; [|done]. unfold value. rewrite Hm at 2.
  change 10%N with (pow10 1). rewrite signed_mul, value_shift by lia. reflexivity.
Qed.

(** The quotient the division computes: more digits than the precision. *)
Lemma quotient_digits c d p shift x y : c <> 0%N -> d <> 0%N ->
  shift = (Z.of_nat (ndigits d) - Z.of_nat (ndigits c) + Z.of_N p + 1)%Z ->
  (x, y) = (if (0 <=? shift)%Z then (c * pow10 shift, d) else (c, d * pow10 (- shift)))%N ->
  (10 ^ p <= x / y)%N /\ y <> 0%N.
Proof using Type.
  clear Ht.
  intros Hc Hd Hs Hxy. pose proof (ndigits_lower c Hc). pose proof (ndigits_upper d). pose proof (ndigits_pos c).
  destruct (Z.leb_spec 0 shift) as [H'|H']; injection Hxy as -> ->.
  - split; [|done]. apply N.div_le_lower_bound; [done|].
    transitivity (10 ^ N.of_nat (ndigits c - 1) * pow10 shift)%N; [|by apply N.mul_le_mono_r].
    unfold pow10. rewrite <- N.pow_add_r.
    transitivity (10 ^ N.of_nat (ndigits d) * 10 ^ p)%N; [apply N.mul_le_mono_r; lia|].
    rewrite <- N.pow_add_r. apply N.pow_le_mono_r; [done|]. lia.
  - pose proof (pow10_pos (- shift)). split; [|lia]. apply N.div_le_lower_bound; [lia|].
    transitivity (10 ^ N.of_nat (ndigits c - 1))%N; [|done].
    transitivity (10 ^ N.of_nat (ndigits d) * pow10 (- shift) * 10 ^ p)%N.
    { apply N.mul_le_mono_r, N.mul_le_mono_r. lia. }
    unfold pow10. rewrite <- !N.pow_add_r. apply N.pow_le_mono_r; [done|]. lia.
Qed.

Lemma many_digits q p : (10 ^ p <= q)%N -> (p < N.of_nat (ndigits q))%N.
Proof using Type. clear Ht. intros H. apply (N.pow_lt_mono_r_iff 10); [done|]. pose proof (ndigits_upper q). lia. Qed.

Lemma ddiv_value a b r : is_finite_dec a = true -> is_finite_dec b = true -> ddiv cx a b = Ok r ->
  is_finite_dec r = true /\ ~ value b == 0 /\ value r * value b == value a.
Proof using Ht.
  destruct a as [s c e| |]; [|done..]. destruct b as [t d f| |]; [|done..]. intros _ _.
  unfold ddiv, check_nans. destruct (N.eqb_spec d 0) as [|Hd]; [by destruct (c =? 0)%N|].
  assert (Hb : ~ value (Fin t d f) == 0).
  { unfold value. intros [E1|E1]%Qmult_integral; [|by apply Qpower_not_0 in E1; [|apply ten_nz]].
    assert (Hz : signed t d = 0%Z) by (by apply inject_Z_injective). unfold signed in Hz. destruct t; lia. }
  destruct (N.eqb_spec c 0) as [->|Hc].
  - intros H. apply fix_trap in H as (H1 & H2 & _); [|done]. split; [done|]. split; [done|].
    rewrite H2. unfold value. replace (signed (xorb s t) 0) with 0%Z by (by destruct (xorb s t)).
    replace (signed s 0) with 0%Z by (by destruct s). ring.
  - set (shift := (_ - _ + _ + 1)%Z).
    destruct (if (0 <=? shift)%Z then _ else _) as [x y] eqn:Exy.
    destruct (quotient_digits c d (prec cx) shift x y Hc Hd eq_refl (eq_sym Exy)) as [Hq Hy].
    destruct (N.eqb_spec (x mod y) 0) as [Hm|Hm].
    + destruct (strip_zeros _ _ _ _) as [q' e'] eqn:Es. intros H.
      apply fix_trap in H as (H1 & H2 & _); [|done]. split; [done|]. split; [done|].
      rewrite H2, (strip_zeros_value _ _ _ _ _ _ _ Es). apply div_exact_N in Hm; [|done].
      set (q := (x / y)%N) in *. unfold value.
      assert (Hsg : (signed (xorb s t) q * signed t d = signed s (q * d))%Z)
        by (unfold signed; destruct s, t; cbn; lia).
      transitivity (inject_Z (signed (xorb s t) q * signed t d) * ten ^ (e - shift)).
      { rewrite inject_Z_mult. replace (e - shift)%Z with ((e - f - shift) + f)%Z by lia.
        rewrite (ten_plus (e - f - shift) f). ring. }
      rewrite Hsg. destruct (Z.leb_spec 0 shift) as [H0|H0]; injection Exy as <- <-.
      * replace (q * d)%N with (c * pow10 shift)%N by lia. rewrite signed_mul, value_shift by lia.
        by replace (e - shift + shift)%Z with e by lia.
      * rewrite Hm. replace (q * (d * pow10 (- shift)))%N with (q * d * pow10 (- shift))%N by lia.
        rewrite (signed_mul s (q * d)), value_shift by lia. by replace (e + - shift)%Z with (e - shift)%Z by lia.
    + set (q := (x / y)%N) in *. set (q' := if (q mod 5 =? 0)%N then (q + 1)%N else q). intros H. exfalso.
      apply fix_trap in H as (_ & _ & H3); [|done].
      assert (Hq' : (q <= q')%N) by (unfold q'; destruct (q mod 5 =? 0)%N; lia).
      pose proof (N.pow_nonzero 10 (prec cx)).
      assert (E : (q' mod 10 = 0)%N) by (apply H3; [lia|apply many_digits; lia]).
      assert (E5 : (q' mod 5 = 0)%N).
      { apply div_exact_N in E; [|done]. rewrite E. replace (q' / 10 * 10)%N with (q' / 10 * 2 * 5)%N by lia.
        apply N.Div0.mod_mul. }
      unfold q' in E5. destruct (N.eqb_spec (q mod 5) 0) as [E0|E0]; [|done].
      rewrite N.Div0.add_mod, E0 in E5. by vm_compute in E5.
Qed.
End Trapped.

(** * What the annotations of a result come from

    One induction over the expression gives everything a result inherits from the operands
    it names; a second shows that what it measures depends on what they measure alone. *)
Fixpoint names (n : node) : list string :=
  match n with
  | BinOp _ l r => (names l ++ names r)%list
  | UnaryOp _ v => names v
  | Name id => [id]
  | Constant _ | OtherNode => []
  end.
Fixpoint height (n : node) : nat :=
  match n with
  | BinOp _ l r => S (Nat.max (height l) (height r))
  | UnaryOp _ v => S (height v)
  | _ => 0
  end.
(** The bound values of the names, in order. *)
Definition operands (n : node) (bound : list (string * Qty)) : list Qty :=
  omap (dict_get bound) (names n).

Lemma operands_app (bound : list (string * Qty)) (l1 l2 : list string) :
  omap (dict_get bound) (l1 ++ l2) = (omap (dict_get bound) l1 ++ omap (dict_get bound) l2)%list.
Proof. induction l1 as [|x l IH]; [done|]. cbn. destruct (dict_get bound x); cbn; by rewrite IH. Qed.

(** ** Inheritance *)
Definition graded (g : string) : Prop := g = ""%string \/ g ∈ STRENGTH.
Definition covers (o q : Qty) : Prop :=
  grade o ∈ STRENGTH -> grade q ∈ STRENGTH /\ (strength (grade o) <= strength (grade q))%nat.

Record inherits (ops : list Qty) (q : Qty) : Prop := mkInherits {
  in_supposed : supposed q = existsb supposed ops;
  in_records : forall r, r ∈ records q -> exists o, o ∈ ops /\ r ∈ records o /\ covers o q;
  in_exact : exactness q = EXACT -> Forall (fun o => exactness o = EXACT) ops;
  in_declared : forall b, boundary q = Declared b -> b <> over_neither ->
                Forall (fun o => boundary o = Declared b) ops;
  in_undeclared : boundary q = Undeclared <-> Exists (fun o => boundary o = Undeclared) ops;
  in_not_a_set : boundary q = NotASet -> ops = []
}.

Lemma weakest_in a b g : g ∈ [a; b] -> g ∈ STRENGTH -> weakest [a; b] ∈ STRENGTH.
Proof.
  intros Hg Hs. destruct (weakest_pair a b) as [E|]; [|done]. exfalso.
  pose proof (weakest_covers a b g Hg Hs) as Hc.
  unfold weakest in E. set (present := List.filter _ _) in E.
  assert (Hp : g ∈ present) by (apply list_elem_of_In, List.filter_In; split; [by apply list_elem_of_In|by apply in_words_spec]).
  assert (Hall : Forall (fun g => g ∈ STRENGTH) present)
    by (apply List.Forall_forall; intros x [_ Hx]%List.filter_In; by apply in_words_spec).
  clearbody present. destruct present as [|p ps]; [by apply elem_of_nil in Hp|].
  set (m := fold_right _ _ _) in E. assert (Hm : (m < 4)%nat) by (by apply max_strength).
  clearbody m. do 4 (destruct m as [|m]; [by vm_compute in E|]). lia.
Qed.

Lemma covers_pair o v w q : covers o v -> v = w -> grade q = grade w -> covers o q.
Proof. intros H -> Hg Ho. rewrite Hg. by apply H. Qed.
Lemma covers_left o l r q : covers o l -> grade q = weakest [grade l; grade r] -> covers o q.
Proof.
  intros H Hq Ho. destruct (H Ho) as [Hl Hle]. rewrite Hq.
  split; [eapply weakest_in; [|exact Hl]; constructor|].
  etransitivity; [exact Hle|]. apply weakest_covers; [constructor|done].
Qed.
Lemma covers_right o l r q : covers o r -> grade q = weakest [grade l; grade r] -> covers o q.
Proof.
  intros H Hq Ho. destruct (H Ho) as [Hl Hle]. rewrite Hq.
  split; [eapply weakest_in; [|exact Hl]; repeat constructor|].
  etransitivity; [exact Hle|]. apply weakest_covers; [repeat constructor|done].
Qed.

(** What every binary operator gives its result, and the two shapes it may have. *)
Definition combines (l r q : Qty) : Prop :=
  (exists out, supposed q = (carried l r out).1 /\ exactness q = (carried l r out).2)
  /\ ((records q, grade q) = rescaled l r /\ boundary q = over_rescaled l r
      \/ (records q, grade q) = summed l r /\ boundary q = over_summed l r).

Lemma added_combines l r step sub q : added l r step sub = Ok q -> combines l r q.
Proof.
  unfold added. intros H. run_ok. destruct (summed l r) as [recs g] eqn:E'. run_ok.
  match goal with H : (let '(_, _) := ?p in _) = Ok _ |- _ => destruct p as [amt out] end.
  destruct (carried l r out) as [sup ex] eqn:Ec. injection H as <-. split.
  - exists out. by rewrite Ec.
  - right. by rewrite E'.
Qed.
Lemma multiplied_combines l r q : multiplied l r = Ok q -> combines l r q.
Proof.
  unfold multiplied. intros H. run_ok. destruct (rescaled l r) as [recs g] eqn:E'. run_ok.
  match goal with H : (let '(_, _) := ?p in _) = Ok _ |- _ => destruct p as [amt out] end.
  destruct (carried l r out) as [sup ex] eqn:Ec. injection H as <-. split.
  - exists out. by rewrite Ec.
  - left. by rewrite E'.
Qed.
Lemma divided_combines l r q : divided l r = Ok q -> combines l r q.
Proof.
  unfold divided. intros H. run_ok. destruct (rescaled l r) as [recs g] eqn:E'. run_ok.
  match goal with H : (let '(_, _) := ?p in _) = Ok _ |- _ => destruct p as [amt out] end.
  destruct (carried l r out) as [sup ex] eqn:Ec. injection H as <-. split.
  - exists out. by rewrite Ec.
  - left. by rewrite E'.
Qed.
Lemma binop_combines op l r q : apply_binop op l r = Ok q -> combines l r q.
Proof.
  destruct op; cbn [apply_binop]; intros H;
    [by eapply added_combines|by eapply added_combines|by apply multiplied_combines|by apply divided_combines|done].
Qed.

Lemma carried_exact l r out : (carried l r out).2 = EXACT -> exactness l = EXACT /\ exactness r = EXACT.
Proof.
  unfold carried. cbn [snd]. destruct (String.eqb_spec EXACT (exactness l)) as [<-|]; [|done].
  cbn [andb]. by destruct (String.eqb_spec EXACT (exactness r)) as [<-|].
Qed.

Lemma agreeing_declared a b c : agreeing a b = Declared c -> c <> over_neither -> a = c /\ b = c.
Proof. unfold agreeing. case_bool_decide as E; intros [= <-]; [by subst|done]. Qed.
Lemma agreeing_is a b : exists c, agreeing a b = Declared c.
Proof. unfold agreeing. case_bool_decide; by eexists. Qed.

Lemma combines_inherits l r q ops1 ops2 : combines l r q -> inherits ops1 l -> inherits ops2 r ->
  inherits (ops1 ++ ops2) q.
Proof.
  intros ((out & Hsup & Hex) & Hshape) Hl Hr. split.
  - rewrite Hsup, existsb_app, <- (in_supposed _ _ Hl), <- (in_supposed _ _ Hr). done.
  - intros x Hx.
    assert (Hrec : x ∈ records l ++ records r /\ grade q = weakest [grade l; grade r]).
    { destruct Hshape as [[E _]|[E _]].
      - unfold rescaled in E. injection E as E1 E2. by rewrite <- E1.
      - unfold summed in E. destruct (attested l && attested r); injection E as E1 E2; [by rewrite <- E1|].
        rewrite E1 in Hx. by apply elem_of_nil in Hx. }
    destruct Hrec as [[Hx'|Hx']%elem_of_app Hg].
    + destruct (in_records _ _ Hl x Hx') as (o & Ho & Hro & Hc). exists o.
      split; [apply elem_of_app; by left|]. split; [done|]. by eapply covers_left.
    + destruct (in_records _ _ Hr x Hx') as (o & Ho & Hro & Hc). exists o.
      split; [apply elem_of_app; by right|]. split; [done|]. by eapply covers_right.
  - rewrite Hex. intros [E1 E2]%carried_exact. apply Forall_app.
    split; [by apply (in_exact _ _ Hl)|by apply (in_exact _ _ Hr)].
  - intros b Hb Hne. apply Forall_app.
    assert (Hb' : (ops1 = [] \/ boundary l = Declared b) /\ (ops2 = [] \/ boundary r = Declared b)).
    { destruct Hshape as [[_ E]|[_ E]]; rewrite E in Hb; unfold over_rescaled, over_summed in Hb;
        destruct (boundary l) as [| |bl] eqn:El, (boundary r) as [| |br] eqn:Er; try done;
        try (injection Hb as <-; done);
        try (apply agreeing_declared in Hb as [-> ->]; [|done]; by split; right).
      - split; [left; by apply (in_not_a_set _ _ Hl)|by right].
      - split; [by right|left; by apply (in_not_a_set _ _ Hr)]. }
    destruct Hb' as [[->|H1] [->|H2]]; split; try constructor;
      first [by eapply (in_declared _ _ Hl)|by eapply (in_declared _ _ Hr)].
  - rewrite Exists_app, <- (in_undeclared _ _ Hl), <- (in_undeclared _ _ Hr).
    destruct Hshape as [[_ E]|[_ E]]; rewrite E; unfold over_rescaled, over_summed;
      destruct (boundary l) as [| |bl], (boundary r) as [| |br];
      try (split; [by auto|intros [?|?]; done]);
      destruct (agreeing_is bl br) as [c ->]; (split; [done|intros [?|?]; done]).
  - intros Hn. assert (Hb : boundary l = NotASet /\ boundary r = NotASet).
    { destruct Hshape as [[_ E]|[_ E]]; rewrite E in Hn; unfold over_rescaled, over_summed in Hn;
        destruct (boundary l) as [| |bl], (boundary r) as [| |br]; try done;
        destruct (agreeing_is bl br) as [c Hc]; rewrite Hc in Hn; done. }
    exfalso. destruct Hb as [Hb1 Hb2].
    destruct Hshape as [[_ E]|[_ E]]; rewrite E in Hn; unfold over_rescaled, over_summed in Hn;
      rewrite Hb1, Hb2 in Hn; done.
Qed.

Lemma negated_inherits v q ops : negated v = Ok q -> inherits ops v -> inherits ops q.
Proof.
  unfold negated. intros H Hv. run_ok. destruct a as [amt out].
  destruct (carried v v out) as [sup ex] eqn:Ec. injection H as <-. destruct Hv as [H1 H2 H3 H4 H5 H6].
  split; cbn [supposed records exactness boundary]; try done.
  - rewrite <- H1. unfold carried in Ec. injection Ec as <- _. by destruct (supposed v).
  - intros ->. apply H3. eapply (carried_exact v v out). by rewrite Ec.
Qed.

Lemma leaf_inherits q : boundary q <> NotASet -> inherits [q] q.
Proof.
  intros Hb. split; try done.
  - cbn. by rewrite orb_false_r.
  - intros r Hr. exists q. split; [constructor|]. split; [done|]. intros Hs. by split.
  - intros E. by constructor.
  - intros b E _. by constructor.
  - rewrite Exists_cons, Exists_nil. split; [by left|by intros [?|?]].
Qed.
Lemma literal_inherits z : inherits [] (literal z).
Proof.
  split; try done; cbn [literal records boundary].
  - intros r Hr. by apply elem_of_nil in Hr.
  - rewrite Exists_nil. done.
Qed.

(** No bound value is a literal. *)
Definition emitted_values (bound : list (string * Qty)) : Prop := Forall (fun p => boundary p.2 <> NotASet) bound.
Lemma dict_get_Forall {A} (P : string * A -> Prop) kv k v : Forall P kv -> dict_get kv k = Some v ->
  exists k', P (k', v).
Proof.
  induction 1 as [|[k' v'] kv Hp H IH]; [done|]. cbn [dict_get].
  destruct (String.eqb k k'); [intros [= <-]; by eexists|done].
Qed.

Lemma evaluate_inherits n bound depth q : emitted_values bound ->
  evaluate n bound depth = Ok q -> inherits (operands n bound) q.
Proof.
  intros Hb. revert depth q. induction n as [op l IHl r IHr|op v IHv|id|c|]; intros depth q H;
    cbn [evaluate] in H; destruct (MAX_DEPTH <? depth)%nat; try done.
  - run_ok. unfold operands. cbn [names]. rewrite operands_app.
    eapply combines_inherits; [by eapply binop_combines|by eapply IHl|by eapply IHr].
  - run_ok. unfold operands. cbn [names]. apply IHv in E.
    destruct op; [by eapply negated_inherits|by injection H as <-|done].
  - destruct (dict_get bound id) as [v|] eqn:E; [|done]. injection H as <-.
    unfold operands. cbn. rewrite E. apply leaf_inherits.
    by apply (dict_get_Forall _ _ _ _ Hb) in E as [k' Hk].
  - destruct c; [|done]. injection H as <-. apply literal_inherits.
Qed.

(** ** What a result measures is static *)

(** A dimension and a quantity, and a value of which only those are known. *)
Definition ty : Type := string * string.
Definition of_ty (t : ty) : Qty := mkQ (Fin false 0 0) t.1 [] "" false EXACT t.2 NotASet.
Definition ty_of (q : Qty) : ty := (dimension q, quantity q).

Definition ty_added (l r : Qty) (subtracting : bool) : res ty :=
  let? _ := raise_if (negb (Bool.eqb (money l) (money r))) (Refusal MIXED_DIMENSIONS) in
  let? dim := if money l then same_currency l r else Ok SCALAR in
  let? measures := totalled l r subtracting in
  Ok (dim, measures).
Definition ty_binop (op : binop) (l r : Qty) : res ty :=
  match op with
  | Add => ty_added l r false
  | Sub => ty_added l r true
  | Mult =>
      let? _ := raise_if (money l && money r) (Refusal MIXED_DIMENSIONS) in
      Ok (if money l then dimension l else if money r then dimension r else SCALAR,
          product l r (money l || money r))
  | Div =>
      let? _ := raise_if (money r && negb (money l)) (Refusal MIXED_DIMENSIONS) in
      let? dim := if money l && money r then let? _ := same_currency l r in Ok SCALAR
                  else Ok (dimension l) in
      let? measures := quotient l r (negb (String.eqb dim SCALAR)) in
      Ok (dim, measures)
  | OtherBin => Raise ValueError
  end.

(** The type of an expression, from the types of its names. *)
Fixpoint type_of (n : node) (env : list (string * ty)) : res ty :=
  match n with
  | BinOp op l r =>
      let? tl := type_of l env in
      let? tr := type_of r env in
      ty_binop op (of_ty tl) (of_ty tr)
  | UnaryOp OtherUn v => let? _ := type_of v env in Raise ValueError
  | UnaryOp _ v => type_of v env
  | Name id => match dict_get env id with Some t => Ok t | None => Raise ValueError end
  | Constant (CInt _) => Ok (SCALAR, UNMEASURED)
  | _ => Raise ValueError
  end.
Definition types (bound : list (string * Qty)) : list (string * ty) :=
  List.map (fun p => (p.1, ty_of p.2)) bound.

Lemma dict_get_types bound id : dict_get (types bound) id = ty_of <$> dict_get bound id.
Proof.
  induction bound as [|[k v] bound IH]; [done|]. cbn. destruct (String.eqb id k); [done|exact IH].
Qed.

(** The typing rules look at nothing else. *)
Lemma ty_binop_of_ty op l r : ty_binop op (of_ty (ty_of l)) (of_ty (ty_of r)) = ty_binop op l r.
Proof. destruct op; reflexivity. Qed.

Lemma binop_type op l r q : apply_binop op l r = Ok q -> ty_binop op l r = Ok (ty_of q).
Proof.
  destruct op; cbn [apply_binop ty_binop]; intros H; [| | | |done].
  1,2: unfold added in H; unfold ty_added; run_ok; destruct (summed l r); run_ok;
    match goal with H : (let '(_, _) := ?p in _) = Ok _ |- _ => destruct p as [amt out] end;
    destruct (carried l r out); injection H as <-;
    repeat match goal with H : _ = _ |- context [rbind ?x _] => rewrite H; cbn [raise_if rbind] end; done.
  - unfold multiplied in H. run_ok. destruct (rescaled l r). run_ok.
    match goal with H : (let '(_, _) := ?p in _) = Ok _ |- _ => destruct p as [amt out] end.
    destruct (carried l r out). injection H as <-.
    match goal with H : _ && _ = false |- _ => rewrite H end. done.
  - unfold divided in H. run_ok. destruct (rescaled l r). run_ok.
    match goal with H : (let '(_, _) := ?p in _) = Ok _ |- _ => destruct p as [amt out] end.
    destruct (carried l r out). injection H as <-.
    repeat match goal with H : _ = _ |- context [rbind ?x _] => rewrite H; cbn [raise_if rbind] end. done.
Qed.

Lemma negated_type v q : negated v = Ok q -> ty_of q = ty_of v.
Proof.
  unfold negated. intros H. run_ok. destruct a as [amt out]. destruct (carried v v out). by injection H as <-.
Qed.

Lemma evaluate_type n bound depth q : evaluate n bound depth = Ok q -> type_of n (types bound) = Ok (ty_of q).
Proof.
  revert depth q. induction n as [op l IHl r IHr|op v IHv|id|c|]; intros depth q H;
    cbn [evaluate] in H; destruct (MAX_DEPTH <? depth)%nat; try done; cbn [type_of].
  - run_ok. rewrite (IHl _ _ E), (IHr _ _ E0). cbn [rbind]. rewrite ty_binop_of_ty. by apply binop_type.
  - run_ok. rewrite (IHv _ _ E). destruct op; [|by injection H as <-|done].
    apply negated_type in H. by rewrite H.
  - rewrite dict_get_types. destruct (dict_get bound id); [by injection H as <-|done].
  - destruct c; [by injection H as <-|done].
Qed.

(** ** Depth *)
Fixpoint unbounded (n : node) (bound : list (string * Qty)) : res Qty :=
  match n with
  | BinOp op l r => let? lq := unbounded l bound in let? rq := unbounded r bound in apply_binop op lq rq
  | UnaryOp op v => let? q := unbounded v bound in
                    match op with USub => negated q | UAdd => Ok q | OtherUn => Raise ValueError end
  | Name id => match dict_get bound id with Some q => Ok q | None => Raise ValueError end
  | Constant (CInt z) => Ok (literal z)
  | _ => Raise ValueError
  end.

Lemma evaluate_unbounded n bound depth : (depth + height n <= MAX_DEPTH)%nat ->
  evaluate n bound depth = unbounded n bound.
Proof.
  revert depth. induction n as [op l IHl r IHr|op v IHv|id|c|]; intros depth H; cbn [evaluate height unbounded] in *;
    (destruct (Nat.ltb_spec MAX_DEPTH depth); [lia|]); try done; try (by destruct c).
  - by rewrite IHl, IHr by lia.
  - by rewrite IHv by lia.
Qed.
Lemma evaluate_too_deep n bound depth q : (MAX_DEPTH < depth + height n)%nat -> evaluate n bound depth <> Ok q.
Proof.
  revert depth q. induction n as [op l IHl r IHr|op v IHv|id|c|]; intros depth q H; cbn [evaluate height] in *;
    (destruct (Nat.ltb_spec MAX_DEPTH depth); [done|]); try lia.
  - intros Hq. run_ok. destruct (Nat.max_spec (height l) (height r)) as [[_ Hm]|[_ Hm]]; rewrite Hm in H.
    + eapply (IHr (S depth)); [lia|eassumption].
    + eapply (IHl (S depth)); [lia|eassumption].
  - intros Hq. run_ok. eapply (IHv (S depth)); [lia|eassumption].
Qed.

(** ** Well-formed results *)
Record sound_value (q : Qty) : Prop := mkSoundValue {
  sv_quantity : quantity q ∈ MEASURES;
  sv_grade : graded (grade q);
  sv_exact : exactness q = EXACT \/ exactness q = ROUNDED
}.
Lemma unmeasured_measured : UNMEASURED ∈ MEASURES.
Proof. apply in_words_spec. reflexivity. Qed.
Lemma ratio_measured : RATIO ∈ MEASURES.
Proof. apply in_words_spec. reflexivity. Qed.

Lemma compared_measured a b : compared a b ∈ MEASURES.
Proof.
  unfold compared. destruct (String.eqb a b && in_words a COMPARABLE) eqn:E; [|apply ratio_measured].
  apply andb_true_iff in E as [_ E]. by apply ratio_of_measured, in_words_spec.
Qed.
Lemma binop_measured op l r t : quantity l ∈ MEASURES -> quantity r ∈ MEASURES ->
  ty_binop op l r = Ok t -> t.2 ∈ MEASURES.
Proof.
  intros Hl Hr. assert (Ht : forall s m, totalled l r s = Ok m -> m ∈ MEASURES).
  { intros s m. unfold totalled. destruct (negb (stated l)); [by intros [= <-]|].
    destruct (_ || _); [by intros [= <-]|]. destruct (_ && _); [by intros [= <-]|done]. }
  destruct op; cbn [ty_binop]; intros H; [| | | |done].
  - unfold ty_added in H. run_ok. subst. by eapply Ht.
  - unfold ty_added in H. run_ok. subst. by eapply Ht.
  - run_ok. subst. cbn [snd]. unfold product.
    by repeat match goal with |- context [if ?b then _ else _] => destruct b end.
  - run_ok. subst. cbn [snd]. match goal with H : quotient _ _ _ = Ok _ |- _ => revert H end. unfold quotient.
    repeat match goal with |- context [if ?b then _ else _] => destruct b end; try done; intros Hq;
      apply Ok_inj in Hq as <-; auto using compared_measured, unmeasured_measured.
Qed.

Lemma carried_either l r out : (carried l r out).2 = EXACT \/ (carried l r out).2 = ROUNDED.
Proof. unfold carried. cbn [snd]. destruct (_ && _ && _); [by left|by right]. Qed.

Lemma binop_sound op l r q : sound_value l -> sound_value r -> apply_binop op l r = Ok q -> sound_value q.
Proof.
  intros [Ql Gl El] [Qr Gr Er] H. pose proof (binop_combines _ _ _ _ H) as ((out & _ & Hex) & Hshape).
  split.
  - by apply (binop_measured op l r _ Ql Qr (binop_type _ _ _ _ H)).
  - destruct Hshape as [[E _]|[E _]].
    + unfold rescaled in E. injection E as _ ->. apply weakest_pair.
    + unfold summed in E. destruct (attested l && attested r); injection E as _ ->; [apply weakest_pair|by left].
  - rewrite Hex. apply carried_either.
Qed.
Lemma negated_sound v q : sound_value v -> negated v = Ok q -> sound_value q.
Proof.
  intros [Qv Gv Ev] H. unfold negated in H. run_ok. destruct a as [amt out].
  destruct (carried v v out) as [sup ex] eqn:Ec. injection H as <-. split; [done..|].
  cbn [exactness]. pose proof (carried_either v v out). by rewrite Ec in *.
Qed.
Lemma evaluate_sound n bound depth q : Forall (fun p => sound_value p.2) bound ->
  evaluate n bound depth = Ok q -> sound_value q.
Proof.
  intros Hb. revert depth q. induction n as [op l IHl r IHr|op v IHv|id|c|]; intros depth q H;
    cbn [evaluate] in H; destruct (MAX_DEPTH <? depth)%nat; try done.
  - run_ok. eapply binop_sound; [by eapply IHl|by eapply IHr|done].
  - run_ok. apply IHv in E. destruct op; [by eapply negated_sound|by injection H as <-|done].
  - destruct (dict_get bound id) eqn:E; [|done]. injection H as <-.
    by apply (dict_get_Forall _ _ _ _ Hb) in E as [k Hk].
  - destruct c; [|done]. injection H as <-. split; [apply unmeasured_measured|by left|by left].
Qed.

(** ** Bound operands *)
(** A figure [figure] returned: a tool emitted it. *)
Definition emitted (f : Figure) : Prop :=
  exists value what q k g dated cur ids ex b f0, figure value what q k g dated cur ids ex b = Ok f0
    /\ f_quantity f = f_quantity f0 /\ f_grade f = f_grade f0 /\ f_exactness f = f_exactness f0
    /\ f_value f = f_value f0 /\ f_currency f = f_currency f0 /\ f_kind f = f_kind f0
    /\ f_record_ids f = f_record_ids f0 /\ f_boundary f = f_boundary f0.

Lemma figure_sound value what q k g dated cur ids ex b f : figure value what q k g dated cur ids ex b = Ok f ->
  f_quantity f ∈ MEASURES /\ graded (f_grade f) /\ (f_exactness f = EXACT \/ f_exactness f = ROUNDED).
Proof.
  unfold figure. intros H. run_ok. subst. cbn [f_quantity f_grade f_exactness].
  repeat match goal with H : negb (in_words _ _) = false |- _ => apply negb_false_iff, in_words_spec in H end.
  split; [done|]. split.
  - unfold graded. match goal with |- context [if ?b then g else _] => destruct b end; [|by left].
    destruct (String.eqb_spec g ""); [by left|]. right. apply in_words_spec. by apply negb_false_iff.
  - match goal with H : _ ∈ [EXACT; ROUNDED] |- _ =>
      apply elem_of_cons in H as [->|H]; [by left|apply list_elem_of_singleton in H as ->; by right] end.
Qed.

Lemma of_figure_sound f q : emitted f -> of_figure f = Ok q -> sound_value q /\ boundary q <> NotASet.
Proof.
  intros (v & w & qy & k & g & d & c & ids & ex & b & f0 & Hf & E1 & E2 & E3 & _) H.
  apply figure_sound in Hf as (H1 & H2 & H3). unfold of_figure in H. run_ok. subst. split.
  - split; cbn; by rewrite ?E1, ?E2, ?E3.
  - cbn. by destruct (recorded_boundary f).
Qed.
Lemma of_stipulated_sound s q : of_stipulated s = Ok q -> sound_value q /\ boundary q <> NotASet.
Proof.
  unfold of_stipulated. intros H. run_ok. subst. split; [|done].
  split; [apply unmeasured_measured|by left|by left].
Qed.

Lemma bind_inputs_sound figs said inputs bound used : Forall (fun p => emitted p.2) figs ->
  bind_inputs figs said inputs = inl (bound, used) ->
  Forall (fun p => sound_value p.2 /\ boundary p.2 <> NotASet) bound.
Proof.
  intros Hf. revert bound used. induction inputs as [|[name v] rest IH]; intros bound used H; cbn [bind_inputs] in H.
  - injection H as <- <-. constructor.
  - destruct (bind_operand figs said v) as [[q fig]|] eqn:E; [|done].
    destruct (bind_inputs figs said rest) as [[b u]|] eqn:E'; [|done]. injection H as <- <-.
    constructor; [|by eapply IH]. cbn [snd]. revert E. unfold bind_operand. destruct v as [amt|fid].
    + destruct (_ || _); [done|]. destruct (of_stipulated amt) eqn:Es; [|done]. intros [= <- <-].
      by eapply of_stipulated_sound.
    + destruct (dict_get figs fid) as [f|] eqn:Ef; [|done]. destruct (_ || _); [done|].
      destruct (of_figure f) eqn:Eo; [|done]. intros [= <- <-].
      apply (dict_get_Forall _ _ _ _ Hf) in Ef as [k Hk]. by eapply of_figure_sound.
Qed.

Lemma finish_keeps q q' : finish q = Ok q' ->
  ty_of q' = ty_of q /\ records q' = records q /\ grade q' = grade q /\ supposed q' = supposed q
  /\ exactness q' = exactness q /\ boundary q' = boundary q /\ (exactness q = EXACT -> q' = q).
Proof.
  unfold finish. destruct (String.eqb_spec (exactness q) EXACT) as [E|E]; [by intros [= <-]|].
  intros H. run_ok. subst. by repeat split.
Qed.

(** ** The exact value *)

(** The rational an expression denotes. *)
Fixpoint denote (n : node) (bound : list (string * Qty)) : option Q :=
  match n with
  | BinOp op l r =>
      match denote l bound, denote r bound with
      | Some x, Some y =>
          match op with
          | Add => Some (x + y)%Q
          | Sub => Some (x - y)%Q
          | Mult => Some (x * y)%Q
          | Div => if Qeq_bool y 0 then None else Some (x / y)%Q
          | OtherBin => None
          end
      | _, _ => None
      end
  | UnaryOp op v =>
      match denote v bound with
      | Some x => match op with USub => Some (- x)%Q | UAdd => Some x | OtherUn => None end
      | None => None
      end
  | Name id => match dict_get bound id with
               | Some q => if is_finite_dec (amount q) then Some (value (amount q)) else None
               | None => None
               end
  | Constant (CInt z) => Some (inject_Z z)
  | _ => None
  end.
Definition finite_values (bound : list (string * Qty)) : Prop :=
  Forall (fun p => is_finite_dec (amount p.2) = true) bound.

Lemma carried_out l r out : (carried l r out).2 = EXACT -> out = EXACT.
Proof.
  unfold carried. cbn [snd]. destruct (String.eqb_spec EXACT (exactness l)) as [<-|]; [|done].
  destruct (String.eqb_spec EXACT (exactness r)) as [<-|]; [|done].
  by destruct (String.eqb_spec EXACT out) as [<-|].
Qed.
Lemma carefully_exact step d : carefully step = Ok (d, EXACT) -> step exact_ctx = Ok d.
Proof.
  unfold carefully. destruct (step exact_ctx) as [x|e]; [by intros [= <-]|].
  destruct e; try done; intros H; run_ok; done.
Qed.

Lemma binop_exact op l r q : apply_binop op l r = Ok q -> exactness q = EXACT ->
  exists step, step exact_ctx = Ok (amount q)
    /\ step = match op with
              | Add => fun c => dadd c (amount l) (amount r)
              | Sub => fun c => dsub c (amount l) (amount r)
              | Mult => fun c => dmul c (amount l) (amount r)
              | _ => fun c => ddiv c (amount l) (amount r)
              end.
Proof.
  destruct op; cbn [apply_binop]; intros H Hex; [| | | |done]; eexists; (split; [|reflexivity]); cbn beta.
  1,2: unfold added in H; run_ok; destruct (summed l r); run_ok.
  3: unfold multiplied in H; run_ok; destruct (rescaled l r); run_ok.
  4: unfold divided in H; run_ok; destruct (rescaled l r); run_ok.
  all: match goal with H : (let '(_, _) := ?p in _) = Ok _ |- _ => destruct p as [amt out] end;
    destruct (carried l r out) as [sup ex] eqn:Ec; injection H as <-; cbn [exactness amount] in *; subst ex;
    assert (out = EXACT) as -> by (eapply (carried_out l r); by rewrite Ec);
    match goal with H : carefully _ = Ok _ |- _ => by apply carefully_exact in H end.
Qed.

Lemma evaluate_exact n bound depth q : finite_values bound -> evaluate n bound depth = Ok q ->
  exactness q = EXACT ->
  is_finite_dec (amount q) = true /\ exists v, denote n bound = Some v /\ (value (amount q) == v)%Q.
Proof.
  intros Hb. revert depth q. induction n as [op l IHl r IHr|op v IHv|id|c|]; intros depth q H Hex;
    cbn [evaluate] in H; destruct (MAX_DEPTH <? depth)%nat; try done; cbn [denote].
  - run_ok. pose proof (binop_combines _ _ _ _ H) as ((out & _ & Hc) & _).
    assert (Hlr : exactness a = EXACT /\ exactness a0 = EXACT) by (apply (carried_exact _ _ out); congruence).
    destruct (IHl _ _ E (proj1 Hlr)) as (Fl & x & -> & Ex). destruct (IHr _ _ E0 (proj2 Hlr)) as (Fr & y & -> & Ey).
    destruct (binop_exact _ _ _ _ H Hex) as (step & Hs & ->). destruct op; [| | | |done].
    + apply dadd_value in Hs as [H1 H2]; try done. split; [done|]. eexists. split; [done|]. by rewrite H2, Ex, Ey.
    + apply dsub_value in Hs as [H1 H2]; try done. split; [done|]. eexists. split; [done|]. by rewrite H2, Ex, Ey.
    + apply dmul_value in Hs as [H1 H2]; try done. split; [done|]. eexists. split; [done|]. by rewrite H2, Ex, Ey.
    + apply ddiv_value in Hs as (H1 & H2 & H3); try done. split; [done|]. rewrite Ey in H2, H3. rewrite Ex in H3.
      destruct (Qeq_bool y 0) eqn:E0'; [by apply Qeq_bool_iff in E0'|]. eexists. split; [done|].
      rewrite <- H3. field. done.
  - run_ok. destruct op; [| |done].
    + unfold negated in H. run_ok. destruct a0 as [amt out]. destruct (carried a a out) as [sup ex] eqn:Ec.
      injection H as <-. cbn [exactness amount] in *. subst ex.
      assert (Ha : exactness a = EXACT) by (apply (carried_exact a a out); by rewrite Ec).
      assert (out = EXACT) as -> by (eapply (carried_out a a); by rewrite Ec).
      destruct (IHv _ _ E Ha) as (Fv & x & -> & Ex). apply carefully_exact in E0.
      apply dneg_value in E0 as [H1 H2]; [|done..]. split; [done|]. eexists. split; [done|]. by rewrite H2, Ex.
    + injection H as <-. destruct (IHv _ _ E Hex) as (Fv & x & -> & Ex). split; [done|]. by exists x.
  - destruct (dict_get bound id) as [w|] eqn:E; [|done]. injection H as <-.
    apply (dict_get_Forall _ _ _ _ Hb) in E as [k Hk]. cbn [snd] in Hk. rewrite Hk. split; [done|]. by eexists.
  - destruct c as [z|]; [|done]. injection H as <-. split; [done|]. eexists. split; [done|].
    cbn [literal amount Decimal_of_Z value]. rewrite signed_abs. unfold ten. cbn. ring.
Qed.
