(* ===== verification/ComputeProperties.v ===== *)
(** * Compute properties: what a computed figure may claim *)
From Stdlib Require Import ZArith NArith QArith Ascii String Lia ZifyBool ZifyN ZifyNat.
From stdpp Require Import base list numbers strings.
From S2P Require Import Prelude Text Words Json Unicode Decimals Rulings EventTypes Quantity Envelope Compute ComputeLaws.
#[local] Open Scope string_scope.

(** A successful call: the tree it read, the operands it bound, the value it walked to and
    the figure it returned. *)
Record computed (parse : string -> parsed) (expression : string) (inputs : list (string * operand))
    (figs : list (string * Figure)) (question : string) (r : ToolResult)
    (tree : node) (bound : list (string * Qty)) (used : list Figure) (q q' : Qty) (f : Figure) : Prop := mkComputed {
  c_parse : parse expression = Tree tree;
  c_bound : bind_inputs figs (numbers_stated question) inputs = inl (bound, used);
  c_walk : evaluate tree bound 1 = Ok q;
  c_finish : finish q = Ok q';
  c_figure : figure (dec_str (amount q')) ("the result of " ++ expression) (quantity q')
               (if supposed q' then HYPOTHETICAL else if only_activity (List.map f_kind used) then ACTIVITY else COMPUTED)
               (grade q') "" (if String.eqb (dimension q') UNSTATED then "" else dimension q')
               (sorted_set (records q')) (exactness q') (declared (boundary q')) = Ok f;
  c_result : figures r = [f] /\ r_record_ids r = sorted_set (records q') /\ r_grade r = f_grade f
}.

Lemma compute_ok parse expression inputs figs question r :
  compute parse expression inputs figs question = Ok r -> ok r = true ->
  exists ins tree bound used q q' f, inputs = Some ins
    /\ computed parse expression ins figs question r tree bound used q q' f.
Proof.
  unfold compute. destruct inputs as [ins|]; [|by intros [= <-]].
  destruct (bind_inputs figs (numbers_stated question) ins) as [[bound used]|] eqn:Eb; [|by intros [= <-]].
  destruct (MAX_EXPRESSION <? _)%nat; [by intros [= <-]|].
  destruct (parse expression) as [tree|] eqn:Ep; [|by intros [= <-]].
  destruct (mixed _); [by intros [= <-]|].
  destruct (evaluate tree bound 1) as [q|] eqn:Ee; cbn [rbind]; [|by intros [= <-]].
  destruct (finish q) as [q'|] eqn:Ef; [|by intros [= <-]].
  intros H Hok. run_ok. subst. exists ins, tree, bound, used, q, q'. eexists. split; [done|].
  split; try done.
Qed.

(** Two figures and a parser on which the witnesses run: spending in two currencies. *)
Definition groceries : Figure :=
  mkFigure "f1" "120.50" "USD" SPENDING FINANCIAL VERIFIED "" ["d1"; "d2"] EXACT
    (Some (mkBoundary true None [] [] [] 0)) "groceries" "".
Definition rent : Figure :=
  mkFigure "f2" "900" "USD" SPENDING FINANCIAL UNVERIFIED "" ["d3"] EXACT
    (Some (mkBoundary true None [] [] [] 0)) "rent" "".
Definition some_figures : list (string * Figure) := [("f1", groceries); ("f2", rent)].
Definition some_inputs : list (string * operand) := [("a", ByFigure "f1"); ("b", ByFigure "f2")].
(** [(a + b) / 2] *)
Definition half_the_sum : node := BinOp Div (BinOp Add (Name "a") (Name "b")) (Constant (CInt 2)).
Definition read_half (s : string) : parsed := Tree half_the_sum.

(** C35: An exact figure is the arithmetic.  When a result says EXACT and its operands are
    finite numbers, the text of its value reads back as a finite decimal whose value is the
    rational number the expression denotes, division included: nothing was rounded on the
    way. *)
Theorem exact_results_are_exact parse expression inputs figs question r f :
  compute parse expression inputs figs question = Ok r -> ok r = true -> figures r = [f] ->
  f_exactness f = EXACT ->
  exists ins tree bound used, inputs = Some ins /\ parse expression = Tree tree
    /\ bind_inputs figs (numbers_stated question) ins = inl (bound, used)
    /\ (finite_values bound -> exists s c e v, Decimal_of_str (f_value f) = Ok (Fin s c e)
        /\ denote tree bound = Some v /\ (value (Fin s c e) == v)%Q).
Proof.
  intros H Hok Hf Hex. destruct (compute_ok _ _ _ _ _ _ H Hok) as (ins & tree & bound & used & q & q' & f' & -> & Hc).
  destruct Hc as [H1 H2 H3 H4 H5 [H6 _]]. rewrite Hf in H6. injection H6 as <-.
  exists ins, tree, bound, used. do 3 (split; [done|]). intros Hfin.
  assert (Hx : exactness q' = EXACT /\ f_value f = dec_str (amount q')).
  { unfold figure in H5. run_ok. subst. done. }
  destruct Hx as [Hq' Hv]. destruct (finish_keeps _ _ H4) as (_ & _ & _ & _ & He & _ & Heq).
  rewrite He in Hq'. specialize (Heq Hq') as ->.
  destruct (evaluate_exact _ _ _ _ Hfin H3 Hq') as (Hfd & v & Hd & Hval).
  destruct (amount q) as [s c e| |] eqn:Ea; [|done..].
  exists s, c, e, v. rewrite Hv, Decimal_str_round. done.
Qed.

#[local] Abbreviation half_result := (compute read_half "(a + b) / 2" (Some some_inputs) some_figures "").
Lemma half_result_is : exists r f, half_result = Ok r /\ ok r = true /\ figures r = [f]
  /\ f_value f = "510.25" /\ f_exactness f = EXACT /\ f_grade f = UNVERIFIED
  /\ f_record_ids f = ["d1"; "d2"; "d3"] /\ f_quantity f = SPENDING /\ f_currency f = "USD".
Proof. eexists _, _. vm_compute. repeat split. Qed.

Lemma exact_results_are_exact_witness :
  exists r f, half_result = Ok r /\ figures r = [f] /\
  exists ins tree bound used, Some some_inputs = Some ins /\ read_half "(a + b) / 2" = Tree tree
    /\ bind_inputs some_figures (numbers_stated "") ins = inl (bound, used)
    /\ (finite_values bound -> exists s c e v, Decimal_of_str (f_value f) = Ok (Fin s c e)
        /\ denote tree bound = Some v /\ (value (Fin s c e) == v)%Q).
Proof.
  destruct half_result_is as (r & f & H1 & H2 & H3 & _ & H4 & _). exists r, f.
  split; [exact H1|]. split; [exact H3|].
  exact (exact_results_are_exact read_half "(a + b) / 2" (Some some_inputs) some_figures "" r f H1 H2 H3 H4).
Defined.

(** ** Every path is an envelope *)
Definition TAGS : list string :=
  ["bad_input"; "dedicated_authority_required"; "bad_expression"; "mixed_kinds"; "division_by_zero";
   MIXED_DIMENSIONS; MIXED_CURRENCIES; MIXED_QUANTITIES; UNDEFINED_QUANTITY].
Definition closed_exn (e : exn) : Prop := walk_tag e ∈ TAGS.
Definition closed_raise {A} (m : res A) : Prop := forall e, m = Raise e -> closed_exn e.

Lemma closed_ok {A} (a : A) : closed_raise (Ok a).
Proof. done. Qed.
Lemma closed_bind {A B} (m : res A) (k : A -> res B) : closed_raise m -> (forall a, m = Ok a -> closed_raise (k a)) ->
  closed_raise (rbind m k).
Proof. intros Hm Hk e. destruct m; cbn [rbind]; [by apply Hk|]. intros [= ->]. by apply Hm. Qed.
Lemma closed_literal {A} e : in_words (walk_tag e) TAGS = true -> closed_raise (@Raise A e).
Proof. intros H e' [= <-]. by apply in_words_spec. Qed.
Lemma closed_if {A} (b : bool) (m k : res A) : closed_raise m -> closed_raise k -> closed_raise (if b then m else k).
Proof. by destruct b. Qed.
Lemma closed_raise_if b e : in_words (walk_tag e) TAGS = true -> closed_raise (raise_if b e).
Proof. intros H. destruct b; [by apply closed_literal|apply closed_ok]. Qed.

Lemma fix_closed cx d : closed_raise (fix_dec cx d).
Proof.
  unfold fix_dec. destruct d as [s c e| |]; try apply closed_ok.
  repeat first [apply closed_if|apply closed_ok|by apply closed_literal
    |match goal with |- closed_raise (let '(_, _) := ?p in _) => destruct p end].
Qed.
Ltac closed_cases :=
  cbv zeta; repeat first [apply closed_ok|by apply closed_literal|apply fix_closed|apply closed_if
    |match goal with |- closed_raise (match ?x with _ => _ end) => destruct x
                   | |- closed_raise (Raise (if ?b then _ else _)) => destruct b end].
Lemma dadd_closed cx a b : closed_raise (dadd cx a b).
Proof. unfold dadd, check_nans. closed_cases. Qed.
Lemma dsub_closed cx a b : closed_raise (dsub cx a b).
Proof. unfold dsub, check_nans. pose proof (dadd_closed cx a (copy_negate b)). by closed_cases. Qed.
Lemma dmul_closed cx a b : closed_raise (dmul cx a b).
Proof. unfold dmul, check_nans. closed_cases. Qed.
Lemma ddiv_closed cx a b : closed_raise (ddiv cx a b).
Proof. unfold ddiv, check_nans. closed_cases. Qed.
Lemma dneg_closed cx a : closed_raise (dneg cx a).
Proof. unfold dneg. closed_cases. Qed.
Lemma quantize_closed cx a x : closed_raise (quantize cx a x).
Proof. unfold quantize. closed_cases. Qed.

Lemma carefully_closed step : (forall cx, closed_raise (step cx)) -> closed_raise (carefully step).
Proof.
  intros H. unfold carefully. destruct (step exact_ctx) as [d|e] eqn:E; [apply closed_ok|].
  assert (He : @closed_raise (decimal * string) (Raise e)) by (intros e' [= <-]; by eapply H).
  assert (Hl : closed_raise (let? d := step loose_ctx in Ok (d, ROUNDED)))
    by (apply closed_bind; [apply H|intros; apply closed_ok]).
  by destruct e.
Qed.
Lemma written_closed a m : closed_raise (written a m).
Proof.
  unfold written. destruct m; [apply quantize_closed|]. apply closed_if; [apply closed_ok|].
  apply closed_bind; [apply fix_closed|]. intros u _. destruct u; try by apply closed_literal.
  apply quantize_closed.
Qed.
Lemma finish_closed q : closed_raise (finish q).
Proof.
  unfold finish. apply closed_if; [apply closed_ok|]. apply closed_bind; [apply written_closed|].
  intros; apply closed_ok.
Qed.

Lemma totalled_closed l r s : closed_raise (totalled l r s).
Proof. unfold totalled. closed_cases. Qed.
Lemma same_currency_closed l r : closed_raise (same_currency l r).
Proof. unfold same_currency. closed_cases. Qed.
Lemma quotient_closed l r m : closed_raise (quotient l r m).
Proof. unfold quotient. closed_cases. Qed.

Lemma binop_closed op l r : closed_raise (apply_binop op l r).
Proof.
  destruct op; cbn [apply_binop]; [| | | |by apply closed_literal].
  1,2: unfold added; apply closed_bind; [by apply closed_raise_if|intros _ _];
    apply closed_bind; [apply closed_if; [apply same_currency_closed|apply closed_ok]|intros dim _];
    apply closed_bind; [apply totalled_closed|intros m _]; destruct (summed l r);
    apply closed_bind; [apply carefully_closed; intros; first [apply dadd_closed|apply dsub_closed]|];
    intros [amt out] _; destruct (carried l r out); apply closed_ok.
  - unfold multiplied. apply closed_bind; [by apply closed_raise_if|intros _ _]. destruct (rescaled l r).
    apply closed_bind; [apply carefully_closed; intros; apply dmul_closed|].
    intros [amt out] _. destruct (carried l r out). apply closed_ok.
  - unfold divided. apply closed_bind; [by apply closed_raise_if|intros _ _].
    apply closed_bind.
    { apply closed_if; [|apply closed_ok]. apply closed_bind; [apply same_currency_closed|intros; apply closed_ok]. }
    intros dim _. apply closed_bind; [apply quotient_closed|intros m _]. destruct (rescaled l r).
    apply closed_bind; [apply carefully_closed; intros; apply ddiv_closed|].
    intros [amt out] _. destruct (carried l r out). apply closed_ok.
Qed.

Lemma evaluate_closed n bound depth : closed_raise (evaluate n bound depth).
Proof.
  revert depth. induction n as [op l IHl r IHr|op v IHv|id|c|]; intros depth; cbn [evaluate];
    (apply closed_if; [by apply closed_literal|]).
  - apply closed_bind; [apply IHl|intros lq _]. apply closed_bind; [apply IHr|intros rq _]. apply binop_closed.
  - apply closed_bind; [apply IHv|intros q _]. destruct op; [|apply closed_ok|by apply closed_literal].
    unfold negated. apply closed_bind; [apply carefully_closed; intros; apply dneg_closed|].
    intros [amt out] _. destruct (carried q q out). apply closed_ok.
  - destruct (dict_get bound id); [apply closed_ok|by apply closed_literal].
  - destruct c; [apply closed_ok|by apply closed_literal].
  - by apply closed_literal.
Qed.

Lemma bind_operand_tag figs said v tag : bind_operand figs said v = inr tag -> tag ∈ TAGS.
Proof.
  unfold bind_operand. intros H. apply in_words_spec. revert H. destruct v.
  - destruct (_ || _); [by intros [= <-]|]. destruct (of_stipulated amount); [done|by intros [= <-]].
  - destruct (dict_get figs fid); [|by intros [= <-]]. destruct (_ || _); [by intros [= <-]|].
    destruct (of_figure f); [done|by intros [= <-]].
Qed.
Lemma bind_inputs_tag figs said inputs tag : bind_inputs figs said inputs = inr tag -> tag ∈ TAGS.
Proof.
  induction inputs as [|[name v] rest IH]; [done|]. cbn [bind_inputs].
  destruct (bind_operand figs said v) as [[q f]|t] eqn:E; [|intros [= <-]; by eapply bind_operand_tag].
  destruct (bind_inputs figs said rest) as [[b u]|t] eqn:E'; [done|]. intros [= <-]. by apply IH.
Qed.

(** A figure is refused only for what it declares. *)
Lemma figure_made value what q k g dated cur ids ex b :
  q ∈ MEASURES -> graded g -> ex = EXACT \/ ex = ROUNDED ->
  exists f, figure value what q k g dated cur ids ex b = Ok f.
Proof.
  intros Hq Hg Hx. unfold figure.
  replace (negb (String.eqb g "") && negb (in_words g STRENGTH)) with false.
  2:{ destruct Hg as [->|Hg]; [done|]. apply in_words_spec in Hg. by rewrite Hg, andb_false_r. }
  replace (in_words ex [EXACT; ROUNDED]) with true by (by destruct Hx as [->| ->]).
  apply in_words_spec in Hq. rewrite Hq. cbn [negb raise_if rbind]. by eexists.
Qed.

(** C36: Every path out is an envelope.  Over figures some tool emitted, a call of [compute]
    returns a result whatever the expression, the operands and their amounts: no exception
    crosses the boundary, and a refusal carries one of nine tags. *)
Theorem compute_always_answers parse expression inputs figs question :
  Forall (fun p => emitted p.2) figs ->
  exists r, compute parse expression inputs figs question = Ok r
    /\ (ok r = false -> refused r ∈ TAGS /\ figures r = []).
Proof.
  intros Hf. assert (Hr : forall tag, tag ∈ TAGS ->
    exists r, Ok (refusal TOOL tag JNull) = Ok r /\ (ok r = false -> refused r ∈ TAGS /\ figures r = []))
    by (intros tag Ht; by eexists).
  assert (Hin : forall tag, in_words tag TAGS = true -> tag ∈ TAGS) by (intros tag; apply in_words_spec).
  unfold compute. destruct inputs as [ins|]; [|by apply Hr, Hin].
  destruct (bind_inputs figs (numbers_stated question) ins) as [[bound used]|] eqn:Eb;
    [|apply Hr; by eapply bind_inputs_tag].
  destruct (MAX_EXPRESSION <? _)%nat; [by apply Hr, Hin|].
  destruct (parse expression) as [tree|]; [|by apply Hr, Hin]. destruct (mixed _); [by apply Hr, Hin|].
  pose proof (bind_inputs_sound _ _ _ _ _ Hf Eb) as Hs.
  assert (Hb : Forall (fun p : string * Qty => sound_value p.2) bound) by (eapply Forall_impl; [exact Hs|by intros p [? _]]).
  destruct (evaluate tree bound 1) as [q|e] eqn:Ee; cbn [rbind]; [|apply Hr; by apply (evaluate_closed _ _ _ _ Ee)].
  destruct (finish q) as [q'|e] eqn:Ef; [|apply Hr; by apply (finish_closed _ _ Ef)].
  apply (evaluate_sound _ _ _ _ Hb) in Ee as [S1 S2 S3].
  destruct (finish_keeps _ _ Ef) as (Ht & _ & Hg & _ & Hx & _). injection Ht as _ Hq.
  rewrite <- Hq in S1. rewrite <- Hg in S2. rewrite <- Hx in S3.
  destruct (figure_made (dec_str (amount q')) ("the result of " ++ expression) (quantity q')
     (if supposed q' then HYPOTHETICAL else if only_activity (List.map f_kind used) then ACTIVITY else COMPUTED)
     (grade q') "" (if String.eqb (dimension q') UNSTATED then "" else dimension q')
     (sorted_set (records q')) (exactness q') (declared (boundary q')) S1 S2 S3) as [f ->].
  cbn [rbind]. eexists. by split.
Qed.

Lemma groceries_emitted : emitted groceries.
Proof.
  exists "120.50", "groceries", SPENDING, FINANCIAL, VERIFIED, "", "USD", ["d1"; "d2"], EXACT,
    (Some (mkBoundary true None [] [] [] 0)). eexists. split; [reflexivity|]. by repeat split.
Qed.

Lemma compute_always_answers_witness :
  exists r, compute (fun _ => Tree (BinOp Div (Name "a") (Constant (CInt 0)))) "a / 0" (Some [("a", ByFigure "f1")])
              [("f1", groceries)] "" = Ok r
    /\ (ok r = false -> refused r ∈ TAGS /\ figures r = []).
Proof.
  apply (compute_always_answers (fun _ => Tree (BinOp Div (Name "a") (Constant (CInt 0)))) "a / 0"
           (Some [("a", ByFigure "f1")]) [("f1", groceries)] "").
  constructor; [exact groceries_emitted|constructor].
Defined.

(** ** What the operands were *)

(** [bound] answers for a name exactly as binding what [inputs] holds for it does. *)
Lemma bound_lookup figs said inputs bound used n : bind_inputs figs said inputs = inl (bound, used) ->
  match dict_get inputs n with
  | Some v => exists q fig, dict_get bound n = Some q /\ bind_operand figs said v = inl (q, fig)
  | None => dict_get bound n = None
  end.
Proof.
  revert bound used. induction inputs as [|[name v] rest IH]; intros bound used H; cbn [bind_inputs] in H.
  - by injection H as <- <-.
  - destruct (bind_operand figs said v) as [[q fig]|] eqn:Ev; [|done].
    destruct (bind_inputs figs said rest) as [[b u]|] eqn:Er; [|done]. injection H as <- <-.
    cbn [dict_get]. destruct (String.eqb n name); [by exists q, fig|]. by eapply IH.
Qed.

Lemma bound_figure figs said v q fig : bind_operand figs said v = inl (q, fig) ->
  match v with
  | Stipulated _ => supposed q = true /\ records q = [] /\ boundary q = Declared over_neither
  | ByFigure fid => exists f, dict_get figs fid = Some f /\ of_figure f = Ok q
  end.
Proof.
  destruct v as [amt|fid]; cbn [bind_operand].
  - destruct (_ || _); [done|]. destruct (of_stipulated amt) as [x|] eqn:E; [|done]. intros [= <- _].
    unfold of_stipulated in E. run_ok. by subst.
  - destruct (dict_get figs fid) as [f|] eqn:Ef; [|done]. destruct (_ || _); [done|].
    destruct (of_figure f) as [x|] eqn:E; [|done]. intros [= <- _]. by exists f.
Qed.

Lemma of_figure_is f q : of_figure f = Ok q ->
  records q = f_record_ids f /\ grade q = f_grade f /\ supposed q = String.eqb (f_kind f) HYPOTHETICAL
  /\ exactness q = f_exactness f
  /\ boundary q = match f_boundary f with Some b => Declared b | None => Undeclared end.
Proof. unfold of_figure. intros H. run_ok. by subst. Qed.

Lemma operand_named n bound o : o ∈ operands n bound <-> exists x, x ∈ names n /\ dict_get bound x = Some o.
Proof. unfold operands. apply list_elem_of_omap. Qed.

Lemma evaluate_names n bound depth q : evaluate n bound depth = Ok q ->
  forall x, x ∈ names n -> exists o, dict_get bound x = Some o.
Proof.
  revert depth q. induction n as [op l IHl r IHr|op v IHv|id|c|]; intros depth q H;
    cbn [evaluate] in H; destruct (MAX_DEPTH <? depth)%nat; try done; cbn [names]; intros x Hx.
  - run_ok. apply elem_of_app in Hx as [Hx|Hx]; [by eapply IHl|by eapply IHr].
  - run_ok. by eapply IHv.
  - apply list_elem_of_singleton in Hx as ->. destruct (dict_get bound id); [by eexists|done].
  - by apply elem_of_nil in Hx.
Qed.

(** The figure an expression's name stands for. *)
Definition cites (tree : node) (ins : list (string * operand)) (figs : list (string * Figure)) (fig : Figure) : Prop :=
  exists x fid, x ∈ names tree /\ dict_get ins x = Some (ByFigure fid) /\ dict_get figs fid = Some fig.
(** A supposition the expression names: a stipulated amount, or a figure that is one. *)
Definition supposes (tree : node) (ins : list (string * operand)) (figs : list (string * Figure)) : Prop :=
  (exists x amt, x ∈ names tree /\ dict_get ins x = Some (Stipulated amt))
  \/ (exists fig, cites tree ins figs fig /\ f_kind fig = HYPOTHETICAL).

(** A successful result, laid out: its figure, and the walk's value it was made of. *)
Lemma result_figure parse expression figs question r ins tree bound used q q' f :
  Forall (fun p => emitted p.2) figs ->
  computed parse expression ins figs question r tree bound used q q' f ->
  inherits (operands tree bound) q'
  /\ f_record_ids f = sorted_set (records q') /\ f_exactness f = exactness q'
  /\ f_boundary f = declared (boundary q') /\ f_quantity f = quantity q'
  /\ f_currency f = (if String.eqb (dimension q') UNSTATED then "" else dimension q')
  /\ f_kind f = (if supposed q' then HYPOTHETICAL
                 else if only_activity (List.map f_kind used) then ACTIVITY else COMPUTED)
  /\ f_grade f = (if in_words (f_kind f) GRADED_KINDS then grade q' else "").
Proof.
  intros Hf [H1 H2 H3 H4 H5 _]. pose proof (bind_inputs_sound _ _ _ _ _ Hf H2) as Hs.
  assert (He : emitted_values bound) by (eapply Forall_impl; [exact Hs|by intros p [_ ?]]).
  apply (evaluate_inherits _ _ _ _ He) in H3 as [I1 I2 I3 I4 I5 I6].
  destruct (finish_keeps _ _ H4) as (_ & Er & Eg & Es & Ex & Eb & _). split.
  { split; rewrite ?Es, ?Er, ?Ex, ?Eb; try done. intros x Hx. destruct (I2 x Hx) as (o & Ho & Hro & Hc).
    exists o. split; [done|]. split; [done|]. intros Hg. rewrite Eg. by apply Hc. }
  unfold figure in H5. run_ok. by subst.
Qed.

(** An operand the walk inherited from, as the input it was bound to. *)
Lemma operand_input figs said ins bound used tree o : bind_inputs figs said ins = inl (bound, used) ->
  o ∈ operands tree bound ->
  (exists x amt, x ∈ names tree /\ dict_get ins x = Some (Stipulated amt)
     /\ supposed o = true /\ records o = [] /\ boundary o = Declared over_neither)
  \/ (exists fig, cites tree ins figs fig /\ of_figure fig = Ok o).
Proof.
  intros Hb (x & Hx & Ho)%operand_named. pose proof (bound_lookup _ _ _ _ _ x Hb) as Hl.
  destruct (dict_get ins x) as [v|] eqn:Ev; [|congruence]. destruct Hl as (q & fig & Hq & Hv).
  assert (q = o) as -> by congruence. apply bound_figure in Hv. destruct v as [amt|fid].
  - left. exists x, amt. tauto.
  - destruct Hv as (f & Hf & Hq'). right. exists f. split; [by exists x, fid|done].
Qed.
Lemma input_operand figs said ins bound used tree x v : bind_inputs figs said ins = inl (bound, used) ->
  x ∈ names tree -> dict_get ins x = Some v ->
  exists o, o ∈ operands tree bound /\ exists fig, bind_operand figs said v = inl (o, fig).
Proof.
  intros Hb Hx Hv. pose proof (bound_lookup _ _ _ _ _ x Hb) as Hl. rewrite Hv in Hl.
  destruct Hl as (q & fig & Hq & Ho). exists q. split; [|by exists fig]. apply operand_named. by exists x.
Qed.

(** A result keeps its provenance.  Every record behind a computed figure is a record of
    a figure the expression names, no better graded than the result says; the result is
    hypothetical exactly when the expression names a supposition, and then carries no grade;
    and it is exact only when every figure named was. *)
Theorem computed_provenance parse expression inputs figs question r :
  Forall (fun p => emitted p.2) figs ->
  compute parse expression inputs figs question = Ok r -> ok r = true ->
  exists ins tree f, inputs = Some ins /\ parse expression = Tree tree /\ figures r = [f]
    /\ r_record_ids r = f_record_ids f /\ r_grade r = f_grade f
    /\ (forall x, x ∈ f_record_ids f -> exists fig, cites tree ins figs fig /\ x ∈ f_record_ids fig
          /\ (f_kind f = COMPUTED -> f_grade fig ∈ STRENGTH ->
              f_grade f ∈ STRENGTH /\ (strength (f_grade fig) <= strength (f_grade f))%nat))
    /\ (f_kind f = HYPOTHETICAL <-> supposes tree ins figs)
    /\ (f_kind f = HYPOTHETICAL -> f_grade f = "")
    /\ (f_exactness f = EXACT -> forall fig, cites tree ins figs fig -> f_exactness fig = EXACT).
Proof.
  intros Hf H Hok. destruct (compute_ok _ _ _ _ _ _ H Hok) as (ins & tree & bound & used & q & q' & f & -> & Hc).
  destruct (result_figure _ _ _ _ _ _ _ _ _ _ _ _ Hf Hc) as (Hi & Fr & Fx & _ & _ & _ & Fk & Fg).
  destruct Hc as [Hp Hb _ _ _ (Hfs & Hrs & Hg)]. destruct Hi as [I1 I2 I3 _ _ _].
  exists ins, tree, f. do 5 (split; [congruence|]). split; [|split; [|split]].
  - intros x Hx. rewrite Fr, sorted_set_elem in Hx. destruct (I2 x Hx) as (o & Ho & Hxo & Hcov).
    destruct (operand_input _ _ _ _ _ _ _ Hb Ho) as [(y & amt & _ & _ & _ & Hno & _)|(fig & Hcite & Hfig)].
    { rewrite Hno in Hxo. by apply elem_of_nil in Hxo. }
    apply of_figure_is in Hfig as (R1 & R2 & _). exists fig. split; [done|]. split; [by rewrite <- R1|].
    intros Hk. rewrite Hk in Fg. change (in_words COMPUTED GRADED_KINDS) with true in Fg.
    rewrite Fg, <- R2. apply Hcov.
  - assert (Hs : f_kind f = HYPOTHETICAL <-> supposed q' = true).
    { rewrite Fk. destruct (supposed q'); [done|]. destruct (only_activity _); by split. }
    rewrite Hs, I1, existsb_exists. split.
    + intros (o & Ho%list_elem_of_In & Hso).
      destruct (operand_input _ _ _ _ _ _ _ Hb Ho) as [(y & amt & Hy & Hd & _)|(fig & Hcite & Hfig)].
      * left. by exists y, amt.
      * right. exists fig. split; [done|]. apply of_figure_is in Hfig as (_ & _ & R & _). rewrite R in Hso.
        by apply String.eqb_eq.
    + intros [(x & amt & Hx & Hd)|(fig & (x & fid & Hx & Hd & Hfd) & Hk)];
        destruct (input_operand _ _ _ _ _ _ _ _ Hb Hx Hd) as (o & Ho & u & Hbo); exists o;
        (split; [by apply list_elem_of_In|]); apply bound_figure in Hbo; [apply Hbo|].
      destruct Hbo as (f' & Hf' & Ho'). assert (f' = fig) as -> by congruence.
      apply of_figure_is in Ho' as (_ & _ & R & _). rewrite R, Hk. apply String.eqb_refl.
  - intros Hk. by rewrite Fg, Hk.
  - rewrite Fx. intros He fig (x & fid & Hx & Hd & Hfd).
    destruct (input_operand _ _ _ _ _ _ _ _ Hb Hx Hd) as (o & Ho & u & Hbo). apply bound_figure in Hbo as (f' & Hf' & Ho').
    assert (f' = fig) as -> by congruence. apply of_figure_is in Ho' as (_ & _ & _ & R & _). rewrite <- R.
    apply I3 in He. rewrite Forall_forall in He. by apply He.
Qed.

Lemma rent_emitted : emitted rent.
Proof.
  exists "900", "rent", SPENDING, FINANCIAL, UNVERIFIED, "", "USD", ["d3"], EXACT,
    (Some (mkBoundary true None [] [] [] 0)). eexists. split; [reflexivity|]. by repeat split.
Qed.
Lemma some_figures_emitted : Forall (fun p => emitted p.2) some_figures.
Proof. constructor; [exact groceries_emitted|]. constructor; [exact rent_emitted|constructor]. Qed.

Lemma computed_provenance_witness :
  exists r, half_result = Ok r /\
  exists ins tree f, Some some_inputs = Some ins /\ read_half "(a + b) / 2" = Tree tree /\ figures r = [f]
    /\ r_record_ids r = f_record_ids f /\ r_grade r = f_grade f
    /\ (forall x, x ∈ f_record_ids f -> exists fig, cites tree ins some_figures fig /\ x ∈ f_record_ids fig
          /\ (f_kind f = COMPUTED -> f_grade fig ∈ STRENGTH ->
              f_grade f ∈ STRENGTH /\ (strength (f_grade fig) <= strength (f_grade f))%nat))
    /\ (f_kind f = HYPOTHETICAL <-> supposes tree ins some_figures)
    /\ (f_kind f = HYPOTHETICAL -> f_grade f = "")
    /\ (f_exactness f = EXACT -> forall fig, cites tree ins some_figures fig -> f_exactness fig = EXACT).
Proof.
  destruct half_result_is as (r & f & H1 & H2 & _). exists r. split; [exact H1|].
  exact (computed_provenance read_half "(a + b) / 2" (Some some_inputs) some_figures "" r some_figures_emitted H1 H2).
Defined.

(** ** What a result measures *)
Inductive subterm (s : node) : node -> Prop :=
  | sub_here : subterm s s
  | sub_left op l r : subterm s l -> subterm s (BinOp op l r)
  | sub_right op l r : subterm s r -> subterm s (BinOp op l r)
  | sub_under op v : subterm s v -> subterm s (UnaryOp op v).

Lemma subterm_typed s n env t : subterm s n -> type_of n env = Ok t -> exists t', type_of s env = Ok t'.
Proof.
  intros Hs. revert t. induction Hs; intros t Ht; [by exists t|cbn [type_of] in Ht..].
  - run_ok. by eapply IHHs.
  - run_ok. by eapply IHHs.
  - destruct op; [by eapply IHHs|by eapply IHHs|]. by destruct (type_of v env).
Qed.

(** Two things a sum may be of: one dimension, one quantity, save that an unstated currency
    takes the other's, an unmeasured quantity the other's, and a flow comes off a stock. *)
Definition summable (op : binop) (a b : ty) : Prop :=
  (a.1 = b.1 \/ (a.1 <> SCALAR /\ b.1 <> SCALAR /\ (a.1 = UNSTATED \/ b.1 = UNSTATED)))
  /\ (a.2 = b.2 \/ a.2 = UNMEASURED \/ b.2 = UNMEASURED
      \/ op = Sub /\ a.2 ∈ STOCKS /\ b.2 ∈ FLOWS).

Lemma sum_typed (sub : bool) a b t : ty_added (of_ty a) (of_ty b) sub = Ok t ->
  summable (if sub then Sub else Add) a b.
Proof.
  unfold ty_added. intros H. run_ok.
  repeat match goal with H : negb _ = false |- _ => apply negb_false_iff in H end. split.
  - match goal with H : Bool.eqb _ _ = true |- _ => apply eqb_prop in H end.
    unfold money, same_currency in *. cbn [dimension of_ty] in *.
    destruct (String.eqb_spec a.1 SCALAR) as [Ea|Ea], (String.eqb_spec b.1 SCALAR) as [Eb|Eb]; try done; cbn [negb] in *.
    { left. congruence. }
    destruct (String.eqb_spec UNSTATED a.1), (String.eqb_spec UNSTATED b.1); cbn [orb] in *;
      try (right; split; [done|split; [done|]]; by auto).
    destruct (String.eqb_spec a.1 b.1); [by left|done].
  - unfold totalled, stated in *. cbn [quantity of_ty] in *.
    destruct (String.eqb_spec a.2 UNMEASURED); [tauto|]. destruct (String.eqb_spec b.2 UNMEASURED); [tauto|].
    cbn [negb orb] in *. destruct (String.eqb_spec a.2 b.2); [tauto|].
    destruct sub; [|done]. cbn [andb] in *.
    destruct (in_words a.2 STOCKS) eqn:Es; [|done]. destruct (in_words b.2 FLOWS) eqn:Ef; [|done].
    right. right. right. split; [done|]. split; by apply in_words_spec.
Qed.

(** What a result measures is settled before any amount is read.  A computed figure's
    quantity and currency are those the expression has by its operands' dimensions and
    quantities alone; and wherever the expression adds or subtracts, the two sides are of one
    dimension and currency, and of one quantity or a stock less a flow. *)
Theorem computed_figure_is_typed parse expression inputs figs question r :
  compute parse expression inputs figs question = Ok r -> ok r = true ->
  exists ins tree bound used f t, inputs = Some ins /\ parse expression = Tree tree /\ figures r = [f]
    /\ bind_inputs figs (numbers_stated question) ins = inl (bound, used)
    /\ type_of tree (types bound) = Ok t /\ f_quantity f = t.2
    /\ f_currency f = (if String.eqb t.1 UNSTATED then "" else t.1)
    /\ forall op a b, subterm (BinOp op a b) tree -> op = Add \/ op = Sub ->
         exists ta tb, type_of a (types bound) = Ok ta /\ type_of b (types bound) = Ok tb /\ summable op ta tb.
Proof.
  intros H Hok. destruct (compute_ok _ _ _ _ _ _ H Hok) as (ins & tree & bound & used & q & q' & f & -> & Hc).
  destruct Hc as [Hp Hb Hw Hfin Hfig [Hfs _]]. destruct (finish_keeps _ _ Hfin) as (Ht & _).
  apply evaluate_type in Hw. injection Ht as Hd Hq.
  assert (Hm : f_quantity f = quantity q' /\ f_currency f = (if String.eqb (dimension q') UNSTATED then "" else dimension q'))
    by (unfold figure in Hfig; run_ok; by subst).
  rewrite Hd, Hq in Hm.
  exists ins, tree, bound, used, f, (ty_of q). do 5 (split; [done|]). split; [apply Hm|]. split; [apply Hm|].
  intros op a b Hs Hop. destruct (subterm_typed _ _ _ _ Hs Hw) as [t Hty]. cbn [type_of] in Hty. run_ok.
  match goal with H1 : type_of a _ = Ok ?x, H2 : type_of b _ = Ok ?y |- _ => exists x, y; do 2 (split; [done|]) end.
  destruct Hop as [->| ->]; cbn [ty_binop] in *; [by eapply (sum_typed false)|by eapply (sum_typed true)].
Qed.

Lemma computed_figure_is_typed_witness :
  exists r, half_result = Ok r /\
  exists ins tree bound used f t, Some some_inputs = Some ins /\ read_half "(a + b) / 2" = Tree tree /\ figures r = [f]
    /\ bind_inputs some_figures (numbers_stated "") ins = inl (bound, used)
    /\ type_of tree (types bound) = Ok t /\ f_quantity f = t.2
    /\ f_currency f = (if String.eqb t.1 UNSTATED then "" else t.1)
    /\ forall op a b, subterm (BinOp op a b) tree -> op = Add \/ op = Sub ->
         exists ta tb, type_of a (types bound) = Ok ta /\ type_of b (types bound) = Ok tb /\ summable op ta tb.
Proof.
  destruct half_result_is as (r & f & H1 & H2 & _). exists r. split; [exact H1|].
  exact (computed_figure_is_typed read_half "(a + b) / 2" (Some some_inputs) some_figures "" r H1 H2).
Defined.

(** A result's coverage is its operands'.  A computed figure says what set it was taken
    over (beyond saying it has none) only when every name of the expression is a figure that
    says exactly that; and it is silent about it exactly when some figure named was. *)
Theorem computed_coverage parse expression inputs figs question r :
  Forall (fun p => emitted p.2) figs ->
  compute parse expression inputs figs question = Ok r -> ok r = true ->
  exists ins tree f, inputs = Some ins /\ parse expression = Tree tree /\ figures r = [f]
    /\ (forall b, f_boundary f = Some b -> b <> over_neither -> forall x, x ∈ names tree ->
          exists fid fig, dict_get ins x = Some (ByFigure fid) /\ dict_get figs fid = Some fig /\ f_boundary fig = Some b)
    /\ (f_boundary f = None <-> exists fig, cites tree ins figs fig /\ f_boundary fig = None).
Proof.
  intros Hf H Hok. destruct (compute_ok _ _ _ _ _ _ H Hok) as (ins & tree & bound & used & q & q' & f & -> & Hc).
  destruct (result_figure _ _ _ _ _ _ _ _ _ _ _ _ Hf Hc) as (Hi & _ & _ & Fb & _).
  destruct Hc as [Hp Hb Hw _ _ (Hfs & _)]. destruct Hi as [_ _ _ I4 I5 _].
  exists ins, tree, f. do 3 (split; [done|]). split.
  - intros b Hfb Hne x Hx. rewrite Fb in Hfb. destruct (boundary q') as [| |b'] eqn:Eb; [done|by injection Hfb as <-|].
    injection Hfb as ->. specialize (I4 b eq_refl Hne). rewrite Forall_forall in I4.
    destruct (evaluate_names _ _ _ _ Hw x Hx) as [o Ho]. pose proof (bound_lookup _ _ _ _ _ x Hb) as Hl.
    assert (Hob : boundary o = Declared b) by (apply I4, operand_named; by exists x).
    destruct (dict_get ins x) as [v|] eqn:Ev; [|congruence]. destruct Hl as (o' & u & Ho' & Hv).
    assert (o' = o) as -> by congruence. apply bound_figure in Hv. destruct v as [amt|fid].
    + destruct Hv as (_ & _ & Hd). congruence.
    + destruct Hv as (fig & Hfig & Ho2). exists fid, fig. do 2 (split; [done|]).
      apply of_figure_is in Ho2 as (_ & _ & _ & _ & R). rewrite R in Hob. destruct (f_boundary fig); congruence.
  - assert (Hn : f_boundary f = None <-> boundary q' = Undeclared) by (rewrite Fb; by destruct (boundary q')).
    rewrite Hn, I5, Exists_exists. split.
    + intros (o & Ho & Hu). destruct (operand_input _ _ _ _ _ _ _ Hb Ho) as [(y & amt & _ & _ & _ & _ & R)|(fig & Hcite & Hfig)];
        [congruence|]. exists fig. split; [done|]. apply of_figure_is in Hfig as (_ & _ & _ & _ & R).
      rewrite R in Hu. by destruct (f_boundary fig).
    + intros (fig & (x & fid & Hx & Hd & Hfd) & Hu). destruct (input_operand _ _ _ _ _ _ _ _ Hb Hx Hd) as (o & Ho & u & Hbo).
      exists o. split; [done|]. apply bound_figure in Hbo as (f' & Hf' & Ho'). assert (f' = fig) as -> by congruence.
      apply of_figure_is in Ho' as (_ & _ & _ & _ & R). by rewrite R, Hu.
Qed.

Lemma computed_coverage_witness :
  exists r, half_result = Ok r /\
  exists ins tree f, Some some_inputs = Some ins /\ read_half "(a + b) / 2" = Tree tree /\ figures r = [f]
    /\ (forall b, f_boundary f = Some b -> b <> over_neither -> forall x, x ∈ names tree ->
          exists fid fig, dict_get ins x = Some (ByFigure fid) /\ dict_get some_figures fid = Some fig
            /\ f_boundary fig = Some b)
    /\ (f_boundary f = None <-> exists fig, cites tree ins some_figures fig /\ f_boundary fig = None).
Proof.
  destruct half_result_is as (r & f & H1 & H2 & _). exists r. split; [exact H1|].
  exact (computed_coverage read_half "(a + b) / 2" (Some some_inputs) some_figures "" r some_figures_emitted H1 H2).
Defined.

(** The walk's depth limit only ever refuses.  An expression no higher than the limit is
    evaluated as though there were none; a result means the expression read was within both
    the limit on its text and the one on its depth. *)
Theorem depth_limit_only_refuses parse expression inputs figs question :
  (forall tree bound, (S (height tree) <= MAX_DEPTH)%nat -> evaluate tree bound 1 = unbounded tree bound)
  /\ (forall r, compute parse expression inputs figs question = Ok r -> ok r = true ->
        (List.length (uchars (enc expression)) <= MAX_EXPRESSION)%nat
        /\ exists tree, parse expression = Tree tree /\ (S (height tree) <= MAX_DEPTH)%nat).
Proof.
  split; [intros tree bound H; by apply evaluate_unbounded|].
  intros r H Hok. destruct (compute_ok _ _ _ _ _ _ H Hok) as (ins & tree & bound & used & q & q' & f & -> & Hc).
  split.
  - unfold compute in H. rewrite (c_bound _ _ _ _ _ _ _ _ _ _ _ _ Hc) in H.
    destruct (Nat.ltb_spec MAX_EXPRESSION (List.length (uchars (enc expression)))); [|done].
    injection H as <-. done.
  - exists tree. split; [exact (c_parse _ _ _ _ _ _ _ _ _ _ _ _ Hc)|].
    destruct (Nat.leb_spec (S (height tree)) MAX_DEPTH) as [|Hd]; [done|].
    by destruct (evaluate_too_deep tree bound 1 q Hd (c_walk _ _ _ _ _ _ _ _ _ _ _ _ Hc)).
Qed.

Lemma depth_limit_only_refuses_witness :
  (forall tree bound, (S (height tree) <= MAX_DEPTH)%nat -> evaluate tree bound 1 = unbounded tree bound)
  /\ exists r, half_result = Ok r /\ ok r = true
       /\ exists tree, read_half "(a + b) / 2" = Tree tree /\ (S (height tree) <= MAX_DEPTH)%nat.
Proof.
  pose proof (depth_limit_only_refuses read_half "(a + b) / 2" (Some some_inputs) some_figures "") as [Hd Hr].
  split; [exact Hd|]. destruct half_result_is as (r & f & H1 & H2 & _). exists r.
  split; [exact H1|]. split; [exact H2|]. exact (proj2 (Hr r H1 H2)).
Defined.
