(* ===== verification/Quotients.v ===== *)
(** * Quotients: dividing money and rounding up

    The division rounds to the context's digits and the caller then rounds up.  For amounts
    of fewer than 26 digits the two roundings give the quotient rounded up, as if the division
    were exact: no quotient of such numbers is close enough to a whole one to be mistaken
    for it. *)
From Stdlib Require Import ZArith NArith Ascii String Lia ZifyBool ZifyN ZifyNat.
From stdpp Require Import base list numbers strings.
From S2P Require Import Prelude Text Json Unicode Decimals.
#[local] Open Scope Z_scope.

Definition tens (k : Z) : Z := 10 ^ k.
Lemma tens_pos k : 0 <= k -> 0 < tens k.
Proof. intros H. unfold tens. by apply Z.pow_pos_nonneg. Qed.
Lemma tens_add a b : 0 <= a -> 0 <= b -> tens (a + b) = tens a * tens b.
Proof. intros. unfold tens. by apply Z.pow_add_r. Qed.
Lemma tens_le a b : a <= b -> tens a <= tens b.
Proof. intros. unfold tens. by apply Z.pow_le_mono_r. Qed.
Lemma tens_lt_inv a b : 0 <= b -> tens a < tens b -> a < b.
Proof. intros Hb H. unfold tens in H. by apply (Z.pow_lt_mono_r_iff 10). Qed.
Lemma pow10_tens k : 0 <= k -> Z.of_N (pow10 k) = tens k.
Proof. intros H. unfold pow10, tens. rewrite N2Z.inj_pow. f_equal. lia. Qed.

Definition digits (c : N) : Z := Z.of_nat (ndigits c).
Lemma digits_pos c : 1 <= digits c.
Proof. unfold digits. pose proof (ndigits_pos c). lia. Qed.
Lemma digits_upper c : Z.of_N c < tens (digits c).
Proof.
  pose proof (ndigits_upper c) as H. apply N2Z.inj_lt in H. rewrite N2Z.inj_pow in H. unfold tens, digits.
  by replace (Z.of_N (N.of_nat (ndigits c))) with (Z.of_nat (ndigits c)) in H by lia.
Qed.
Lemma digits_lower c : c <> 0%N -> tens (digits c - 1) <= Z.of_N c.
Proof.
  intros Hc. pose proof (ndigits_lower c Hc) as H. apply N2Z.inj_le in H. rewrite N2Z.inj_pow in H. unfold tens, digits.
  pose proof (ndigits_pos c). by replace (Z.of_N (N.of_nat (ndigits c - 1))) with (Z.of_nat (ndigits c) - 1) in H by lia.
Qed.
Lemma digits_at_most c k : c <> 0%N -> 0 <= k -> Z.of_N c < tens k -> digits c <= k.
Proof.
  intros Hc Hk H. pose proof (digits_lower c Hc). pose proof (digits_pos c).
  assert (digits c - 1 < k); [|lia]. apply tens_lt_inv; lia.
Qed.

(** ** Rounding to the context *)
Lemma round_near c k : 0 <= k -> let q := Z.of_N (fst (round_half_even c k)) in
  2 * Z.abs (q * tens k - Z.of_N c) <= tens k /\ (Z.of_N c mod tens k = 0 -> q * tens k = Z.of_N c)
  /\ q <= Z.of_N c / tens k + 1.
Proof.
  intros Hk. pose proof (pow10_tens k Hk) as Hp. pose proof (tens_pos k Hk). unfold round_half_even. cbn [fst].
  set (p := pow10 k) in *. pose proof (N.div_mod c p). pose proof (N.mod_upper_bound c p).
  assert (Hd : Z.of_N c / tens k = Z.of_N (c / p)) by (rewrite <- Hp; symmetry; apply N2Z.inj_div).
  assert (Hm : Z.of_N c mod tens k = Z.of_N (c mod p)) by (rewrite <- Hp; symmetry; apply N2Z.inj_mod).
  rewrite Hd, Hm, <- Hp. set (q := (c / p)%N) in *. set (r := (c mod p)%N) in *.
  assert (Hz : Z.of_N c = Z.of_N q * Z.of_N p + Z.of_N r) by lia. clearbody q r. clear Hd Hm.
  set (up := (_ || _)%bool).
  assert (Hup : (up = true -> (0 < r /\ p <= 2 * r)%N) /\ (up = false -> (2 * r <= p)%N)) by (unfold up; lia).
  destruct Hup as [Hu1 Hu2]. destruct up.
  - replace (Z.of_N (q + 1)) with (Z.of_N q + 1) by lia. rewrite Z.mul_add_distr_r. destruct (Hu1 eq_refl). lia.
  - specialize (Hu2 eq_refl). lia.
Qed.

(** A coefficient of up to 31 digits, with a small exponent, in the default context: the
    last digits past the 28th are rounded off. *)
Lemma fix_near s c e : c <> 0%N -> digits c <= 31 -> -2000 <= e <= 2000 ->
  exists q k, fix_dec default_ctx (Fin s c e) = Ok (Fin s q (e + k)) /\ 0 <= k <= 4 /\ digits q <= 28 /\ q <> 0%N
    /\ let over := Z.max 0 (digits c - 28) in
       (if digits c <=? 28 then k = 0 else True)
       /\ 2 * Z.abs (Z.of_N q * tens k - Z.of_N c) <= tens over - (if digits c <=? 28 then 1 else 0)
       /\ (Z.of_N c mod tens over = 0 -> Z.of_N q * tens k = Z.of_N c).
Proof.
  intros Hc Hd He. pose proof (digits_pos c). unfold fix_dec. destruct (N.eqb_spec c 0); [done|]. cbv zeta.
  fold (digits c). change (Z.of_N (prec default_ctx)) with 28. change (Etop default_ctx) with 999972. change (Etiny default_ctx) with (-1000026).
  replace (Z.max (digits c + e - 28) (-1000026)) with (digits c + e - 28) by lia.
  replace (999972 <? digits c + e - 28) with false by lia.
  destruct (Z.leb_spec (digits c) 28) as [Hle|Hgt].
  { replace (e <? digits c + e - 28) with false by lia. exists c, 0. rewrite Z.add_0_r. split; [done|]. split; [lia|].
    split; [done|]. split; [done|]. cbv zeta. split; [done|]. replace (Z.max 0 (digits c - 28)) with 0 by lia.
    change (tens 0) with 1. lia. }
  replace (e <? digits c + e - 28) with true by lia. replace (digits c + e - (digits c + e - 28) <? 0) with false by lia.
  replace (digits c + e - 28 - e) with (digits c - 28) by lia. set (k := digits c - 28) in *.
  destruct (round_near c k) as (N1 & N2 & N3); [lia|]. destruct (round_half_even c k) as [q ch]. cbn [fst] in *.
  pose proof (digits_upper c) as Hu. pose proof (digits_lower c Hc) as Hl. pose proof (tens_pos k ltac:(lia)) as Hk.
  assert (Hq1 : Z.of_N q <= tens 28).
  { replace (digits c) with (k + 28) in Hu by lia. rewrite tens_add in Hu by lia.
    assert (Z.of_N c / tens k < tens 28) by (apply Z.div_lt_upper_bound; lia). lia. }
  assert (Hq0 : q <> 0%N).
  { replace (digits c - 1) with (k + 27) in Hl by lia. rewrite tens_add in Hl by lia. intros ->.
    assert (1000 <= tens 27) by (vm_compute; discriminate). change (Z.of_N 0) with 0 in N1. nia. }
  assert (Hmax : Z.max 0 k = k) by lia. rewrite Hmax. fold (digits q).
  destruct (Z.ltb_spec 28 (digits q)) as [H28|H28].
  - pose proof (digits_lower q Hq0) as Hlq. pose proof (tens_le 28 (digits q - 1) ltac:(lia)).
    assert (Eq : q = (10 ^ 28)%N) by (apply N2Z.inj; rewrite N2Z.inj_pow; change (Z.of_N 10 ^ Z.of_N 28) with (tens 28); lia).
    rewrite (proj2 (Z.ltb_ge _ _)) by lia. rewrite andb_false_r. subst q. exists (10 ^ 27)%N, (k + 1).
    split; [replace (e + (k + 1)) with (digits c + e - 28 + 1) by lia; by vm_compute|]. split; [lia|].
    assert (Ev : Z.of_N (10 ^ 27) * tens (k + 1) = Z.of_N (10 ^ 28) * tens k).
    { rewrite tens_add by lia. change (tens 1) with 10.
      replace (Z.of_N (10 ^ 28)) with (Z.of_N (10 ^ 27) * 10) by (vm_compute; reflexivity). lia. }
    split; [vm_compute; discriminate|]. split; [vm_compute; discriminate|]. cbv zeta. rewrite Ev. split; [done|]. split; [lia|exact N2].
  - rewrite (proj2 (Z.ltb_ge _ _)) by lia. rewrite andb_false_r. exists q, k.
    split; [by replace (e + k) with (digits c + e - 28) by lia|]. split; [lia|]. split; [lia|]. split; [done|]. cbv zeta. split; [done|]. split; [lia|exact N2].
Qed.

Lemma strip_zeros_is fuel c e ideal c' e' : strip_zeros fuel c e ideal = (c', e') ->
  exists i, 0 <= i <= Z.of_nat fuel /\ e' = e + i /\ Z.of_N c = Z.of_N c' * tens i.
Proof.
  revert c e. induction fuel as [|n IH]; intros c e; cbn [strip_zeros].
  { intros [= <- <-]. exists 0. change (tens 0) with 1. lia. }
  destruct (_ && _)%bool eqn:E; [|intros [= <- <-]; exists 0; change (tens 0) with 1; lia].
  intros (i & Hi & -> & Hc)%IH. apply andb_true_iff in E as [_ E].
  exists (i + 1). split; [lia|]. split; [lia|]. rewrite tens_add by lia. change (tens 1) with 10.
  pose proof (N.div_mod c 10). lia.
Qed.

Lemma near_bound v q a b : 0 < b -> q * b <= a < (q + 1) * b -> q - 500 <= v <= q + 501 ->
  Z.abs (v * b - a) <= 501 * b.
Proof.
  intros Hb [H1 H2] [H3 H4]. assert (v * b <= (q + 501) * b) by (apply Z.mul_le_mono_nonneg_r; lia).
  assert ((q - 500) * b <= v * b) by (apply Z.mul_le_mono_nonneg_r; lia). lia.
Qed.

Lemma whole_quotient q m b t : 0 < b -> q * b <= m * b * t < (q + 1) * b -> q = m * t.
Proof.
  intros Hb. replace (m * b * t) with (m * t * b) by lia. intros [H1 H2].
  apply Z.mul_le_mono_pos_r in H1; [|done]. apply Z.mul_lt_mono_pos_r in H2; [|done]. lia.
Qed.

Lemma whole_divides n m i t : n <> 0%N -> 0 <= i -> 0 <= t -> Z.of_N n * tens i = m * tens t -> 0 < m < tens 25 ->
  Z.of_N n mod tens (Z.max 0 (digits n - 28)) = 0.
Proof.
  intros Hn Hi Ht E [Hm0 Hm]. destruct (Z.le_gt_cases (digits n) 28) as [H|H].
  { replace (Z.max 0 (digits n - 28)) with 0 by lia. change (tens 0) with 1. apply Z.mod_1_r. }
  pose proof (tens_pos i Hi) as Hti. pose proof (tens_pos t Ht) as Htt. destruct (Z.lt_ge_cases t i) as [Hlt|Hge].
  - exfalso. replace i with ((i - t) + t) in E by lia. rewrite tens_add, Z.mul_assoc in E by lia.
    apply Z.mul_reg_r in E; [|lia]. pose proof (tens_pos (i - t) ltac:(lia)).
    assert (digits n <= 25); [|lia]. apply digits_at_most; [done|lia|]. nia.
  - replace t with ((t - i) + i) in E by lia. rewrite tens_add, Z.mul_assoc in E by lia. apply Z.mul_reg_r in E; [|lia].
    pose proof (tens_pos (t - i) ltac:(lia)).
    assert (Hd : digits n <= 25 + (t - i)).
    { apply digits_at_most; [done|lia|]. rewrite E, tens_add by lia. by apply Z.mul_lt_mono_pos_r. }
    rewrite E. replace (t - i) with ((t - i - Z.max 0 (digits n - 28)) + Z.max 0 (digits n - 28)) by lia.
    rewrite tens_add, Z.mul_assoc by lia. apply Z.mod_mul. pose proof (tens_pos (Z.max 0 (digits n - 28)) ltac:(lia)). lia.
Qed.

Lemma round_up c k m : 0 <= k -> Z.of_N (fst (round_ceiling false c k)) <= m <-> Z.of_N c <= m * tens k.
Proof.
  intros Hk. unfold round_ceiling. cbn [fst]. rewrite orb_false_r. rewrite <- (pow10_tens k Hk).
  pose proof (pow10_pos k). set (p := pow10 k) in *. pose proof (N.div_mod c p ltac:(lia)). pose proof (N.mod_upper_bound c p ltac:(lia)).
  set (q := (c / p)%N) in *. set (r := (c mod p)%N) in *. clearbody p q r. destruct (N.eqb_spec r 0); split; nia.
Qed.

(** ** The division *)
Section Division.
Context (c d : N) (e f z w : Z).
Hypothesis Hc : c <> 0%N.
Hypothesis Hd : d <> 0%N.
Hypothesis He : -100 <= z <= e.
Hypothesis Hf : -100 <= w <= f.
Hypothesis Hz : z <= 100.
Hypothesis Hw : w <= 100.
#[local] Abbreviation A := (Z.of_N c * tens (e - z)).
#[local] Abbreviation B := (Z.of_N d * tens (f - w)).
Hypothesis HA : A < tens 25.
Hypothesis HB : B < tens 25.

Definition shift_of : Z := digits d - digits c + 29.
(** The quotient's exponent, and how far it lies below [z - w]. *)
Definition fine : Z := e - f - shift_of.
Definition depth : Z := z - w - fine.

Lemma sizes : 1 <= digits c /\ digits c + (e - z) <= 25 /\ 1 <= digits d /\ digits d + (f - w) <= 25.
Proof using Hc Hd He Hf HA HB.
  clear Hz Hw.
  pose proof (digits_pos c). pose proof (digits_pos d).
  assert (Hsz : forall n k, n <> 0%N -> 0 <= k -> Z.of_N n * tens k < tens 25 -> digits n + k <= 25).
  { intros n k Hn Hk Hlt. pose proof (digits_lower n Hn) as Hl. pose proof (digits_pos n). pose proof (tens_pos k Hk).
    assert (tens (digits n - 1 + k) < tens 25) by (rewrite tens_add by lia; nia).
    assert (digits n - 1 + k < 25) by (by apply tens_lt_inv). lia. }
  pose proof (Hsz c (e - z) Hc). pose proof (Hsz d (f - w) Hd). lia.
Qed.

(** The quotient before rounding, against [A * 10^depth]. *)
Lemma quotient_is x y : (x, y) = (if 0 <=? shift_of then ((c * pow10 shift_of)%N, d) else (c, (d * pow10 (- shift_of))%N)) ->
  let q := Z.of_N (x / y)%N in
  q * B <= A * tens depth < (q + 1) * B /\ ((x mod y)%N = 0%N <-> q * B = A * tens depth).
Proof using Hc Hd He Hf HA HB.
  clear Hz Hw.
  destruct sizes as (S1 & S2 & S3 & S4). intros Hxy.
  assert (Hs : 4 <= depth) by (unfold depth, fine, shift_of; lia).
  assert (Hy : (y <> 0)%N /\ Z.of_N x * B = Z.of_N y * (A * tens depth)).
  { pose proof (pow10_pos (- shift_of)). destruct (Z.leb_spec 0 shift_of) as [Hsh|Hsh]; injection Hxy as -> ->; (split; [lia|]).
    - rewrite N2Z.inj_mul, pow10_tens by lia.
      replace (Z.of_N c * tens shift_of * B) with (Z.of_N d * (Z.of_N c * (tens shift_of * tens (f - w)))) by lia.
      rewrite <- tens_add by lia. replace (shift_of + (f - w)) with ((e - z) + depth) by (unfold depth, fine; lia).
      rewrite tens_add by lia. lia.
    - rewrite N2Z.inj_mul, pow10_tens by lia.
      replace (Z.of_N d * tens (- shift_of) * (A * tens depth))
        with (Z.of_N c * Z.of_N d * (tens (- shift_of) * (tens (e - z) * tens depth))) by lia.
      rewrite <- !tens_add by lia. replace (- shift_of + (e - z + depth)) with (f - w) by (unfold depth, fine; lia). lia. }
  destruct Hy as [Hy Hxy']. cbv zeta. pose proof (N.div_mod x y Hy) as Hdm. pose proof (N.mod_upper_bound x y Hy) as Hmd.
  set (q := (x / y)%N) in *. set (r := (x mod y)%N) in *. clearbody q r. clear Hxy.
  pose proof (tens_pos depth ltac:(lia)). pose proof (tens_pos (f - w) ltac:(lia)).
  set (b := B) in *. set (a := A * tens depth) in *. assert (0 < b) by (unfold b; lia). clearbody a b.
  assert (Hx : Z.of_N x = Z.of_N y * Z.of_N q + Z.of_N r) by lia. rewrite Hx in Hxy'.
  assert (E : Z.of_N y * (a - Z.of_N q * b) = Z.of_N r * b) by lia.
  assert (Hr : Z.of_N r * b < Z.of_N y * b) by (apply Z.mul_lt_mono_pos_r; lia).
  assert (0 <= a - Z.of_N q * b) by nia. assert (a - Z.of_N q * b < b) by nia.
  split; [lia|]. split.
  - intros ->. rewrite Z.mul_0_l in E. apply Z.mul_eq_0 in E. lia.
  - intros E'. assert (Hrb : Z.of_N r * b = 0) by (rewrite <- E; lia). apply Z.mul_eq_0 in Hrb. lia.
Qed.

(** A value of the quotient's exponent or coarser, as near to [A / B] as the rounding leaves it:
    below a whole number exactly when the true quotient is. *)
Definition near (v : Z) : Prop := forall m, v <= m * tens depth <-> A <= m * B.

Lemma near_of v : Z.abs (v * B - A * tens depth) <= 501 * B -> (forall m, A = m * B -> v = m * tens depth) -> near v.
Proof using Hc Hd He Hf HA HB.
  clear Hz Hw. destruct sizes as (S1 & S2 & S3 & S4). intros Ha He' m.
  pose proof (digits_upper d) as Hu. pose proof (tens_pos (f - w) ltac:(lia)) as Ht.
  assert (Hb : 501 * B < tens depth).
  { assert (depth = digits d + (f - w) + 4 + (25 - (digits c + (e - z)))) as -> by (unfold depth, fine, shift_of; lia).
    rewrite !tens_add by lia. change (tens 4) with 10000. pose proof (tens_pos (25 - (digits c + (e - z))) ltac:(lia)).
    assert (B < tens (digits d) * tens (f - w)) by (apply Z.mul_lt_mono_pos_r; lia). nia. }
  assert (HB0 : 0 < B) by lia. pose proof (tens_pos depth ltac:(unfold depth, fine, shift_of; lia)) as Hd0.
  set (b := B) in *. set (a := A) in *. set (T := tens depth) in *. clearbody a b T. clear Hu Ht.
  destruct (Z.eq_dec (a mod b) 0) as [E|E].
  - assert (Ea : a = a / b * b) by (pose proof (Z.div_mod a b); lia). rewrite (He' _ Ea). rewrite Ea at 2.
    rewrite <- !Z.mul_le_mono_pos_r by lia. done.
  - pose proof (Z.div_mod a b ltac:(lia)) as Hdm. pose proof (Z.mod_pos_bound a b HB0).
    set (q := a / b) in *. set (r := a mod b) in *. clearbody q r.
    split; intros H'.
    + destruct (Z.le_gt_cases (q + 1) m); [nia|]. assert (m * T <= q * T) by nia.
      assert (v * b <= q * T * b) by nia. nia.
    + assert (q + 1 <= m) by nia. assert (v * b <= a * T + 501 * b) by lia.
      assert (a <= (q + 1) * b - 1) by lia. assert (v * b < (q + 1) * T * b) by nia.
      assert (v < (q + 1) * T) by nia. nia.
Qed.

Lemma quotient_size q : q * B <= A * tens depth < (q + 1) * B -> 0 < q < tens 30.
Proof using Hc Hd He Hf HA HB.
  clear Hz Hw. destruct sizes as (S1 & S2 & S3 & S4). intros [H1 H2].
  pose proof (digits_upper d) as Hu. pose proof (digits_lower d Hd) as Hl. pose proof (digits_upper c) as Hcu.
  pose proof (digits_lower c Hc) as Hcl. pose proof (tens_pos (f - w) ltac:(lia)) as Ht. pose proof (tens_pos (e - z) ltac:(lia)) as Hte.
  assert (Hdp : depth + digits c + (e - z) = digits d + (f - w) + 29) by (unfold depth, fine, shift_of; lia).
  assert (Hd4 : 4 <= depth) by lia. pose proof (tens_pos depth ltac:(lia)).
  assert (Ea : A * tens depth < tens (digits d + (f - w) + 29)).
  { rewrite <- Hdp, !tens_add by lia. assert (A < tens (digits c) * tens (e - z)) by (apply Z.mul_lt_mono_pos_r; lia). nia. }
  assert (Eb : tens (digits d - 1 + (f - w)) <= B) by (rewrite tens_add by lia; apply Z.mul_le_mono_nonneg_r; lia).
  assert (El : tens (digits c - 1 + (e - z) + depth) <= A * tens depth).
  { rewrite !tens_add by lia. apply Z.mul_le_mono_nonneg_r; [lia|]. apply Z.mul_le_mono_nonneg_r; lia. }
  assert (Eu : B < tens (digits d + (f - w))) by (rewrite tens_add by lia; apply Z.mul_lt_mono_pos_r; lia).
  replace (digits d + (f - w) + 29) with (digits d - 1 + (f - w) + 30) in Ea by lia. rewrite tens_add in Ea by lia.
  replace (digits c - 1 + (e - z) + depth) with (digits d + (f - w) + 28) in El by lia. rewrite tens_add in El by lia.
  assert (1 < tens 28) by (vm_compute; reflexivity). pose proof (tens_pos (digits d - 1 + (f - w)) ltac:(lia)).
  set (b := B) in *. set (a := A * tens depth) in *. clearbody a b. assert (Hq0 : 0 < q) by nia. split; [done|].
  set (t := tens (digits d - 1 + (f - w))) in *. assert (q * t <= q * b) by (apply Z.mul_le_mono_nonneg_l; lia).
  apply (Z.mul_lt_mono_pos_l t); lia.
Qed.

(** The division of the default context. *)
Lemma ddiv_near : exists Q g, ddiv default_ctx (Fin false c e) (Fin false d f) = Ok (Fin false Q g)
  /\ fine <= g <= 2000 /\ Q <> 0%N /\ digits Q <= 28 /\ near (Z.of_N Q * tens (g - fine)).
Proof using Hc Hd He Hf Hz Hw HA HB.
  destruct sizes as (S1 & S2 & S3 & S4).
  assert (Hfin : -300 <= fine <= 300) by (unfold fine, shift_of; lia).
  assert (Hdep : 4 <= depth) by (unfold depth, fine, shift_of; lia).
  unfold ddiv, check_nans. apply N.eqb_neq in Hd as Hd'. apply N.eqb_neq in Hc as Hc'. rewrite Hd', Hc'. cbv zeta.
  fold (digits d) (digits c). change (Z.of_N (prec default_ctx)) with 28.
  replace (digits d - digits c + 28 + 1) with shift_of by (unfold shift_of; lia).
  fold fine. destruct (if 0 <=? shift_of then _ else _) as [x y] eqn:Exy.
  destruct (quotient_is x y (eq_sym Exy)) as [Hq Hm]. cbv zeta in Hq, Hm. set (q := (x / y)%N) in *.
  pose proof (quotient_size _ Hq) as Hqs. assert (HB0 : 0 < B) by (pose proof (tens_pos (f - w) ltac:(lia)); lia).
  destruct (N.eqb_spec (x mod y) 0) as [Em|Em]; cbn [xorb].
  - apply Hm in Em. destruct (strip_zeros _ _ _ _) as [q' e'] eqn:Es.
    apply strip_zeros_is in Es as (i & Hi & -> & Eq).
    assert (Hq' : q' <> 0%N) by (intros ->; lia). pose proof (digits_lower q' Hq') as Hl. pose proof (digits_pos q').
    pose proof (tens_pos i ltac:(lia)) as Hti.
    assert (Hsz : digits q' + i <= 30).
    { assert (tens (digits q' - 1 + i) < tens 30) by (rewrite tens_add by lia; nia).
      assert (digits q' - 1 + i < 30) by (apply tens_lt_inv; lia). lia. }
    destruct (fix_near false q' (fine + i) Hq' ltac:(lia) ltac:(lia)) as (Q & k & -> & Hk & HQ & HQ0 & Hov). cbv zeta in Hov.
    destruct Hov as (_ & Hov & Hex). exists Q, (fine + i + k). split; [reflexivity|]. split; [clear - Hfin Hi Hk Hsz H S1 S2 S3 S4; lia|]. split; [exact HQ0|]. split; [exact HQ|].
    replace (fine + i + k - fine) with (k + i) by (clear; lia). rewrite tens_add by (clear - Hk Hi; lia).
    rewrite Z.mul_assoc. set (V := Z.of_N Q * tens k) in *.
    assert (Hov' : V = Z.of_N q' \/ (28 < digits q' /\ Z.abs (V - Z.of_N q') * tens i <= 50)).
    { destruct (Z.leb_spec (digits q') 28) as [H28|H28].
      - left. replace (Z.max 0 (digits q' - 28)) with 0 in Hov by (clear - H28; lia). change (tens 0) with 1 in Hov. clear - Hov. lia.
      - right. split; [exact H28|]. assert (Ho : tens (Z.max 0 (digits q' - 28)) * tens i <= tens 2).
        { rewrite <- tens_add by (clear - H28 Hi; lia). apply tens_le. clear - H28 Hsz. lia. }
        change (tens 2) with 100 in Ho. clear - Hov Ho Hti. nia. }
    apply near_of.
    + apply (near_bound _ (Z.of_N q)); [exact HB0|exact Hq|]. rewrite Eq. clear - Hov' Hti.
      destruct Hov' as [->|[_ H]]; [|nia]. lia.
    + intros m Ea. rewrite Ea in Hq. apply whole_quotient in Hq; [|exact HB0]. rewrite <- Hq, Eq. f_equal. apply Hex.
      apply (whole_divides q' m i depth Hq'); [clear - Hi; lia|clear - Hdep; lia|rewrite <- Eq; exact Hq|].
      clear - Ea HA HB0 Hqs Hq Hdep. pose proof (tens_pos depth ltac:(lia)). assert (0 < m) by nia. split; [done|]. nia.
  - set (q2 := if (q mod 5 =? 0)%N then (q + 1)%N else q). assert (Hq2 : Z.of_N q <= Z.of_N q2 <= Z.of_N q + 1) by (unfold q2; clear; destruct (q mod 5 =? 0)%N; lia).
    assert (Hq0 : q2 <> 0%N) by lia. pose proof (digits_pos q2).
    assert (Hsz : digits q2 <= 31).
    { apply digits_at_most; [done|lia|]. change (tens 31) with (tens 30 * 10). lia. }
    destruct (fix_near false q2 fine Hq0 Hsz ltac:(lia)) as (Q & k & -> & Hk & HQ & HQ0 & Hov). cbv zeta in Hov.
    destruct Hov as (_ & Hov & _). exists Q, (fine + k). split; [reflexivity|]. split; [clear - Hfin Hk; lia|]. split; [exact HQ0|]. split; [exact HQ|].
    replace (fine + k - fine) with k by (clear; lia). apply near_of.
    + assert (Ho : tens (Z.max 0 (digits q2 - 28)) <= tens 3) by (apply tens_le; lia). change (tens 3) with 1000 in Ho.
      set (V := Z.of_N Q * tens k) in *. assert (H0 : Z.abs (V - Z.of_N q2) <= 500) by (clear - Hov Ho; destruct (digits q2 <=? 28); lia).
      apply (near_bound _ (Z.of_N q)); [exact HB0|exact Hq|]. fold V. clear - H0 Hq2. lia.
    + intros m Ea. exfalso. apply Em, Hm. rewrite Ea in Hq. apply whole_quotient in Hq; [|exact HB0]. rewrite Ea, Hq. clear. lia.
Qed.

(** A near value rounded up at [z - w] is the quotient rounded up. *)
Definition up (q : N) (g x : Z) : N := if x <=? g then (q * pow10 (g - x))%N else fst (round_ceiling false q (x - g)).
Lemma up_is q g : fine <= g -> near (Z.of_N q * tens (g - fine)) ->
  forall m, Z.of_N (up q g (z - w)) <= m <-> A <= m * B.
Proof using Hc Hd He Hf HA HB.
  destruct sizes as (S1 & S2 & S3 & S4). assert (Hdep : 4 <= depth) by (clear - S1 S2 S3 S4 He Hf; unfold depth, fine, shift_of; lia).
  clear Hz Hw HA HB. intros Hg Hn m. rewrite <- (Hn m). unfold up, depth in *. set (x := z - w) in *. clearbody x.
  destruct (Z.leb_spec x g) as [Hxg|Hxg].
  - rewrite N2Z.inj_mul, pow10_tens by lia. replace (g - fine) with ((g - x) + (x - fine)) by lia.
    rewrite tens_add, Z.mul_assoc by lia. apply Z.mul_le_mono_pos_r, tens_pos. lia.
  - replace (x - fine) with ((x - g) + (g - fine)) by lia. rewrite tens_add, Z.mul_assoc by lia.
    rewrite <- Z.mul_le_mono_pos_r by (apply tens_pos; lia). by apply round_up; lia.
Qed.
End Division.

(** A positive amount divided and rounded up to whole units, at the scale of the money or to
    an integer. *)
Section RoundedUp.
Context (c d : N) (e f z w : Z).
Hypothesis Hc : c <> 0%N.
Hypothesis Hd : d <> 0%N.
Hypothesis He : -100 <= z <= e.
Hypothesis Hf : -100 <= w <= f.
Hypothesis Hz : z <= 100.
Hypothesis Hw : w <= 100.
#[local] Abbreviation A := (Z.of_N c * tens (e - z)).
#[local] Abbreviation B := (Z.of_N d * tens (f - w)).
Hypothesis HA : A < tens 25.
Hypothesis HB : B < tens 25.

Lemma up_bounds n : (forall m, Z.of_N n <= m <-> A <= m * B) -> n <> 0%N /\ digits n <= 25
  /\ (Z.of_N n - 1) * B < A <= Z.of_N n * B.
Proof using Hc Hd He Hf HA HB.
  clear Hz Hw. intros Hn. pose proof (tens_pos (e - z) ltac:(lia)) as Ht1. pose proof (tens_pos (f - w) ltac:(lia)) as Ht2.
  assert (Ha : 0 < A) by lia. assert (Hb : 0 < B) by lia. set (a := A) in *. set (b := B) in *. clearbody a b.
  assert (Hn0 : n <> 0%N) by (intros ->; assert (a <= 0 * b) by (apply Hn; lia); lia).
  assert (Hna : Z.of_N n <= a) by (apply Hn; nia). split; [done|]. split; [apply digits_at_most; [done|lia|lia]|].
  split; [|by apply Hn]. apply Z.nle_gt. intros H. apply Hn in H. lia.
Qed.

Lemma divided_up : exists q, ddiv default_ctx (Fin false c e) (Fin false d f) = Ok q
  /\ exists n, (Z.of_N n - 1) * B < A <= Z.of_N n * B /\ n <> 0%N /\ digits n <= 25
     /\ quantize_ceiling default_ctx q (z - w) = Ok (Fin false n (z - w))
     /\ (z = w -> ceiling_int q = Ok (Z.of_N n)).
Proof using Hc Hd He Hf Hz Hw HA HB.
  destruct (ddiv_near c d e f z w Hc Hd He Hf Hz Hw HA HB) as (Q & g & Hq & Hg & HQ0 & HQ & Hn).
  destruct (sizes c d e f z w Hc Hd He Hf HA HB) as (S1 & S2 & S3 & S4).
  assert (Hfin : -300 <= fine c d e f <= 300) by (unfold fine, shift_of; lia).
  destruct (up_bounds _ (up_is c d e f z w Hc Hd He Hf HA HB Q g ltac:(lia) Hn)) as (Hn0 & Hnd & Hb).
  eexists. split; [exact Hq|]. exists (up Q g (z - w)). split; [exact Hb|]. split; [exact Hn0|]. split; [exact Hnd|].
  clear Hb Hn Hq HA HB. pose proof (digits_pos Q) as Hp. pose proof (digits_pos (up Q g (z - w))) as Hp2.
  assert (Hx : -200 <= z - w <= 200) by lia. split.
  - unfold quantize_ceiling. change (Etiny default_ctx) with (-1000026). change Emax with 999999. change (Z.of_N (prec default_ctx)) with 28.
    set (x := z - w) in *. replace (x <? -1000026) with false by lia. replace (999999 <? x) with false by lia. cbn [orb].
    apply N.eqb_neq in HQ0 as HQ0'. rewrite HQ0'. unfold adjusted. fold (digits Q).
    replace (999999 <? g + digits Q - 1) with false by lia.
    assert (Hsz : g + digits Q - 1 - x + 1 <= 28).
    { unfold up in Hnd. destruct (Z.leb_spec x g) as [H|H]; [|clear - H HQ; lia].
      pose proof (digits_upper (Q * pow10 (g - x))) as Hu. pose proof (digits_lower Q HQ0) as Hl.
      rewrite N2Z.inj_mul, pow10_tens in Hu by (clear - H; lia). pose proof (tens_pos (g - x) ltac:(clear - H; lia)).
      pose proof (tens_le _ 25 Hnd). assert (tens (digits Q - 1 + (g - x)) < tens 25) as Hlt.
      { rewrite tens_add by (clear - H Hp; lia). nia. }
      apply tens_lt_inv in Hlt; [|done]. clear - Hlt. lia. }
    replace (28 <? g + digits Q - 1 - x + 1) with false by (clear - Hsz; lia).
    assert (Hup : exists ch, (if x <=? g then ((Q * pow10 (g - x))%N, false) else round_ceiling false Q (x - g)) = (up Q g x, ch)).
    { unfold up. destruct (x <=? g); [by eexists|]. destruct (round_ceiling _ _ _). by eexists. }
    destruct Hup as [ch ->]. fold (digits (up Q g x)). set (n := up Q g x) in *. clearbody n.
    replace (999999 <? x + digits n - 1) with false by (clear - Hnd Hx; lia).
    replace (28 <? digits n) with false by (clear - Hnd; lia). rewrite andb_false_r.
    destruct (fix_near false n x Hn0 ltac:(clear - Hnd; lia) ltac:(clear - Hx; lia)) as (r & k & -> & _ & _ & _ & Hov).
    cbv zeta in Hov. replace (digits n <=? 28) with true in Hov by (clear - Hnd; lia).
    replace (Z.max 0 (digits n - 28)) with 0 in Hov by (clear - Hnd; lia). change (tens 0) with 1 in Hov. destruct Hov as (-> & Hr & _).
    change (tens 0) with 1 in Hr. rewrite Z.add_0_r. do 2 f_equal. clear - Hr. lia.
  - intros ->. rewrite Z.sub_diag. unfold ceiling_int, up. replace (g - 0) with g by (clear; lia). change (0 - g) with (- g). by destruct (0 <=? g).
Qed.
End RoundedUp.
