(* ===== verification/Schedule.v ===== *)
(** * Schedule: the contribution calendar of product/viva/ledger/projection/goals.py

    Monthly contributions fall on a day every month owns.  The schedule's loop runs month by
    month to the end of year 9999; [months_left] is its fuel, and [contribution_loop_fuel]
    says more changes nothing. *)
From Stdlib Require Import ZArith NArith Ascii String Lia ZifyBool ZifyN ZifyNat Sorting.
From stdpp Require Import base list numbers strings.
From S2P Require Import Prelude Text Unicode Dates Json Decimals Acquisition.
#[local] Open Scope Z_scope.

(** ** Dates in order *)

(** [a < b] on dates: year, month, day. *)
Definition date_ltb (a b : date) : bool :=
  (year a <? year b)
  || ((year a =? year b) && ((month a <? month b) || ((month a =? month b) && (day a <? day b)))).

Definition pad (width : nat) (z : Z) : bytes :=
  let ds := digits_of_N (Z.to_N z) in (List.repeat "0"%char (width - List.length ds) ++ ds)%list.
(** [d.isoformat()]. *)
Definition isoformat (d : date) : string :=
  dec (pad 4 (year d) ++ "-"%char :: pad 2 (month d) ++ "-"%char :: pad 2 (day d))%list.

(** [s[:10]]: characters, not bytes. *)
Definition first_ten (s : string) : string := dec (of_uchars (take 10 (uchars (enc s)))).

Definition read_date (value : string) : res date := fromisoformat (first_ten value).
Definition target_date (value : string) : res (option date) :=
  if String.eqb value "" then Ok None else let? d := fromisoformat (first_ten value) in Ok (Some d).

Definition next_month (y m : Z) : Z * Z := if m =? 12 then (y + 1, 1) else (y, m + 1).

(** ** The schedule *)
Definition months_left (y m : Z) : nat := Z.to_nat ((9999 - y) * 12 + 13 - m).

(** The loop, [n] occurrences already out. *)
Fixpoint contribution_loop (fuel : nat) (y m cd : Z) (start : date) (end_ : option date)
    (limit : option Z) (n : Z) : list date :=
  match fuel with
  | O => []
  | S f =>
      if 9999 <? y then []
      else
        let candidate := mkDate y m cd in
        let '(y', m') := next_month y m in
        if date_ltb candidate start then contribution_loop f y' m' cd start end_ limit n
        else if match end_ with Some e => date_ltb e candidate | None => false end then []
        else candidate ::
             (if match limit with Some k => k <=? n + 1 | None => false end then []
              else contribution_loop f y' m' cd start end_ limit (n + 1))
  end.

(** [contribution_day] is checked by type, so it is a value. *)
Definition day_of_month (v : json) : res Z :=
  match v with
  | JInt d => if (1 <=? d) && (d <=? 28) then Ok d else Raise ValueError
  | _ => Raise ValueError
  end.

Definition contribution_days (today : string) (contribution_day : json) (through : string)
    (limit : option Z) : res (list date) :=
  let? cd := day_of_month contribution_day in
  let? start := read_date today in
  let? end_ := target_date through in
  let? _ := raise_if (match end_, limit with
                      | None, Some k => k <? 1
                      | None, None => true
                      | Some _, _ => false
                      end) ValueError in
  Ok (contribution_loop (months_left (year start) (month start)) (year start) (month start) cd
        start end_ limit 0).
Definition contribution_dates (today : string) (contribution_day : json) (through : string)
    (limit : option Z) : res (list string) :=
  let? l := contribution_days today contribution_day through limit in Ok (List.map isoformat l).

(** [l[0]]. *)
Definition first_of {A} (l : list A) : res A :=
  match l with a :: _ => Ok a | [] => Raise IndexError end.

Definition nth_contribution (today : string) (contribution_day : json) (occurrence : Z) : res string :=
  let? l := contribution_dates today contribution_day "" (Some 1) in
  let? f := first_of l in
  let? first := read_date f in
  let? cd := day_of_month contribution_day in
  let absolute_month := year first * 12 + month first - 1 + (occurrence - 1) in
  let y := absolute_month / 12 in
  let month_index := absolute_month mod 12 in
  if 9999 <? y then Ok ""%string
  else let? d := new_date y (month_index + 1) cd in Ok (isoformat d).

Example three_months :
  contribution_dates "2026-11-20" (JInt 15) "2027-02-15" None
  = Ok ["2026-12-15"; "2027-01-15"; "2027-02-15"]%string.
Proof. reflexivity. Qed.
Example fifth_contribution : nth_contribution "2026-11-20" (JInt 20) 5 = Ok "2027-03-20"%string.
Proof. reflexivity. Qed.

(** ** Months as one number *)
Definition month_index (y m : Z) : Z := y * 12 + m - 1.
Definition last_month : Z := month_index 9999 12.
(** The contribution of a month. *)
Definition occurrence_in (cd i : Z) : date := mkDate (i / 12) (i mod 12 + 1) cd.
Definition date_key (d : date) : Z := month_index (year d) (month d) * 32 + day d.
Definition placed (d : date) : Prop := 1 <= month d <= 12 /\ 0 <= day d < 32.

Lemma occurrence_key cd i : date_key (occurrence_in cd i) = i * 32 + cd.
Proof. unfold date_key, month_index, occurrence_in. cbn [year month day]. pose proof (Z.div_mod i 12). lia. Qed.
Lemma occurrence_placed cd i : 0 <= cd < 32 -> placed (occurrence_in cd i).
Proof. intros H. split; [|done]. cbn. pose proof (Z.mod_pos_bound i 12). lia. Qed.

Lemma date_ltb_key a b : placed a -> placed b -> date_ltb a b = (date_key a <? date_key b).
Proof.
  intros [Ha1 Ha2] [Hb1 Hb2]. unfold date_ltb, date_key, month_index.
  destruct a as [y m d], b as [y' m' d']; cbn in *. apply eq_true_iff_eq. rewrite !orb_true_iff, !andb_true_iff,
    !orb_true_iff, !andb_true_iff, !Z.ltb_lt, !Z.eqb_eq. lia.
Qed.

Lemma days_in_month_bounds y m : 28 <= days_in_month y m <= 31.
Proof. unfold days_in_month. destruct (m =? 2); [destruct (is_leap y); lia|]. destruct (_ || _); lia. Qed.
Lemma valid_placed d : valid_date d = true -> placed d /\ 1 <= year d <= 9999 /\ 1 <= day d.
Proof.
  unfold valid_date, placed. rewrite !andb_true_iff, !Z.leb_le. pose proof (days_in_month_bounds (year d) (month d)). lia.
Qed.
Lemma occurrence_valid cd i : 1 <= cd <= 28 -> 12 <= i <= last_month -> valid_date (occurrence_in cd i) = true.
Proof.
  intros Hc Hi. unfold valid_date, occurrence_in, last_month, month_index in *. cbn [year month day].
  pose proof (Z.mod_pos_bound i 12). pose proof (Z.div_mod i 12).
  pose proof (days_in_month_bounds (i / 12) (i mod 12 + 1)).
  rewrite !andb_true_iff, !Z.leb_le. lia.
Qed.
Lemma date_ext a b : placed a -> placed b -> date_key a = date_key b -> a = b.
Proof.
  destruct a as [y m d], b as [y' m' d']. unfold placed, date_key, month_index. cbn. intros. f_equal; lia.
Qed.
Lemma occurrence_of d : placed d -> d = occurrence_in (day d) (month_index (year d) (month d)).
Proof.
  intros H. apply date_ext; [done|by apply occurrence_placed, H|]. by rewrite occurrence_key.
Qed.

Lemma next_month_index i : next_month (i / 12) (i mod 12 + 1) = ((i + 1) / 12, (i + 1) mod 12 + 1).
Proof.
  unfold next_month. pose proof (Z.mod_pos_bound i 12). pose proof (Z.div_mod i 12).
  pose proof (Z.mod_pos_bound (i + 1) 12). pose proof (Z.div_mod (i + 1) 12).
  destruct (Z.eqb_spec (i mod 12 + 1) 12); f_equal; lia.
Qed.
Lemma months_left_index i : months_left (i / 12) (i mod 12 + 1) = Z.to_nat (last_month - i + 1).
Proof.
  unfold months_left, last_month, month_index. pose proof (Z.div_mod i 12). f_equal. lia.
Qed.

(** ** What the loop gives *)

(** The first month whose contribution is not before [start], the last not after [e]. *)
Definition first_index (cd : Z) (start : date) : Z :=
  let i := month_index (year start) (month start) in if cd <? day start then i + 1 else i.
Definition final_index (cd : Z) (e : option date) : Z :=
  match e with
  | None => last_month
  | Some e => let i := month_index (year e) (month e) in
              Z.min last_month (if day e <? cd then i - 1 else i)
  end.
Definition cap (limit : option Z) (n k : Z) : Z :=
  match limit with None => k | Some l => Z.min k (Z.max 1 (l - n)) end.

Section Loop.
Context (cd : Z) (start : date) (e : option date).
Hypothesis Hcd : 1 <= cd <= 28.
Hypothesis Hs : placed start.
Hypothesis He : match e with Some e => placed e | None => True end.

Lemma before_start i : date_ltb (occurrence_in cd i) start = (i <? first_index cd start).
Proof using Hcd Hs.
  rewrite date_ltb_key by (done || apply occurrence_placed; lia). rewrite occurrence_key.
  unfold date_key, first_index. destruct Hs as [_ Hd]. apply eq_true_iff_eq. rewrite !Z.ltb_lt.
  destruct (Z.ltb_spec cd (day start)); lia.
Qed.
Lemma after_end i : i <= last_month ->
  match e with Some e => date_ltb e (occurrence_in cd i) | None => false end = (final_index cd e <? i).
Proof using Hcd He.
  intros Hi. destruct e as [e'|]; cbn [final_index]; [|symmetry; apply Z.ltb_ge; lia].
  rewrite date_ltb_key by (done || apply occurrence_placed; lia). rewrite occurrence_key.
  unfold date_key. destruct He as [_ Hd]. apply eq_true_iff_eq. rewrite !Z.ltb_lt.
  destruct (Z.ltb_spec (day e') cd); lia.
Qed.

Lemma loop_from limit fuel i n : first_index cd start <= i -> (Z.to_nat (last_month - i + 1) <= fuel)%nat ->
  contribution_loop fuel (i / 12) (i mod 12 + 1) cd start e limit n
  = List.map (occurrence_in cd) (seqZ i (cap limit n (final_index cd e - i + 1))).
Proof using Hcd Hs He.
  assert (Hfin : final_index cd e <= last_month) by (destruct e; cbn [final_index]; lia).
  revert i n. induction fuel as [|f IH]; intros i n Hi Hf.
  { assert (cap limit n (final_index cd e - i + 1) <= 0) by (destruct limit; cbn [cap]; lia).
    by rewrite seqZ_nil by done. }
  cbn [contribution_loop]. destruct (Z.ltb_spec 9999 (i / 12)) as [Hy|Hy].
  { assert (last_month < i) by (unfold last_month, month_index; pose proof (Z.div_mod i 12); lia).
    assert (cap limit n (final_index cd e - i + 1) <= 0) by (destruct limit; cbn [cap]; lia).
    by rewrite seqZ_nil by done. }
  assert (Hil : i <= last_month).
  { unfold last_month, month_index. pose proof (Z.div_mod i 12). pose proof (Z.mod_pos_bound i 12). lia. }
  rewrite next_month_index. change (mkDate (i / 12) (i mod 12 + 1) cd) with (occurrence_in cd i).
  rewrite before_start, after_end by done. replace (i <? first_index cd start) with false by lia.
  destruct (Z.ltb_spec (final_index cd e) i) as [Hx|Hx].
  { assert (cap limit n (final_index cd e - i + 1) <= 0) by (destruct limit; cbn [cap]; lia).
    by rewrite seqZ_nil by done. }
  rewrite seqZ_cons by (destruct limit; cbn [cap]; lia). cbn [List.map]. f_equal.
  destruct limit as [k|]; cbn [cap].
  - destruct (Z.leb_spec k (n + 1)).
    + rewrite seqZ_nil by lia. done.
    + rewrite IH by lia. do 2 f_equal; cbn [cap]; lia.
  - rewrite IH by lia. do 2 f_equal; cbn [cap]; lia.
Qed.
End Loop.

Lemma month_index_split y m : 1 <= m <= 12 -> month_index y m / 12 = y /\ month_index y m mod 12 + 1 = m.
Proof. unfold month_index. intros H. split; [|]; Z.to_euclidean_division_equations; lia. Qed.

(** The whole schedule, with at least the fuel it is given. *)
Lemma contribution_loop_enough cd start e limit fuel : 1 <= cd <= 28 -> valid_date start = true ->
  match e with Some e => placed e | None => True end ->
  (months_left (year start) (month start) <= fuel)%nat ->
  contribution_loop fuel (year start) (month start) cd start e limit 0
  = List.map (occurrence_in cd)
      (seqZ (first_index cd start) (cap limit 0 (final_index cd e - first_index cd start + 1))).
Proof.
  intros Hcd Hv He Hf. destruct (valid_placed _ Hv) as (Hs & Hy & Hd). set (i := month_index (year start) (month start)).
  destruct (month_index_split (year start) (month start)) as [E1 E2]; [apply Hs|]. fold i in E1, E2.
  rewrite <- E1, <- E2 in Hf |- * at 1. rewrite months_left_index in Hf.
  assert (Hi : i <= last_month) by (unfold i, last_month, month_index; destruct Hs; lia).
  destruct (Z.eq_dec (first_index cd start) i) as [E|E].
  { rewrite <- E in Hf |- *. apply loop_from; try done; lia. }
  assert (Hfi : first_index cd start = i + 1) by (unfold first_index in *; fold i in E |- *; destruct (cd <? day start); lia).
  destruct fuel as [|f]; [lia|]. cbn [contribution_loop]. replace (9999 <? i / 12) with false by lia.
  rewrite next_month_index. change (mkDate (i / 12) (i mod 12 + 1) cd) with (occurrence_in cd i).
  rewrite before_start by done. replace (i <? first_index cd start) with true by lia.
  rewrite Hfi. apply loop_from; try done; lia.
Qed.
Lemma contribution_loop_is cd start e limit : 1 <= cd <= 28 -> valid_date start = true ->
  match e with Some e => placed e | None => True end ->
  contribution_loop (months_left (year start) (month start)) (year start) (month start) cd start e limit 0
  = List.map (occurrence_in cd)
      (seqZ (first_index cd start) (cap limit 0 (final_index cd e - first_index cd start + 1))).
Proof. intros. by apply contribution_loop_enough. Qed.

(** The fuel is enough: no more of it changes the schedule. *)
Lemma contribution_loop_fuel cd start e limit fuel : 1 <= cd <= 28 -> valid_date start = true ->
  match e with Some e => placed e | None => True end ->
  (months_left (year start) (month start) <= fuel)%nat ->
  contribution_loop fuel (year start) (month start) cd start e limit 0
  = contribution_loop (months_left (year start) (month start)) (year start) (month start) cd start e limit 0.
Proof. intros Hcd Hv He Hf. by rewrite !contribution_loop_enough. Qed.

(** ** Written dates read back *)
Lemma pad_digits w z : 0 <= z < 10 ^ Z.of_nat w -> (1 <= w)%nat ->
  Forall (fun c => is_digit c = true) (pad w z) /\ List.length (pad w z) = w
  /\ Z.of_N (value_of_digits (pad w z)) = z.
Proof.
  intros Hz Hw. unfold pad. set (n := Z.to_N z).
  assert (Hl : (List.length (digits_of_N n) <= w)%nat).
  { destruct (N.eq_dec n 0%N) as [E|E]; [rewrite E, digits_of_0; cbn; lia|].
    assert (n < 10 ^ N.of_nat w)%N by (unfold n; apply N2Z.inj_lt; rewrite N2Z.inj_pow; lia).
    pose proof (ndigits_le n (N.of_nat w) E). unfold ndigits in *. lia. }
  split; [|split].
  - apply Forall_app. split; [|apply digits_all]. apply List.Forall_forall. intros c Hc%List.repeat_spec. by subst.
  - rewrite length_app, List.repeat_length. lia.
  - replace (List.repeat "0"%char (w - List.length (digits_of_N n)))
      with (zeros (Z.of_nat (w - List.length (digits_of_N n)))) by (unfold zeros; by rewrite Nat2Z.id).
    rewrite value_zeros, value_digits. unfold n. lia.
Qed.

Lemma parse_digits_app ds : forall acc r, Forall (fun c => is_digit c = true) ds ->
  parse_digits (List.length ds) acc (ds ++ r)
  = Some (fold_left (fun a c => a * 10 + Z.of_N (digit_val c)) ds acc, r).
Proof.
  induction ds as [|c ds IH]; intros acc r H; [done|]. inv H. cbn [List.length parse_digits app fold_left].
  match goal with H : is_digit c = true |- _ => rewrite H end. by rewrite IH.
Qed.
Lemma fold_digits_value ds : forall acc,
  fold_left (fun a c => a * 10 + Z.of_N (digit_val c)) ds (Z.of_N acc)
  = Z.of_N (fold_left (fun a c => (a * 10 + digit_val c)%N) ds acc).
Proof.
  induction ds as [|c ds IH]; intros acc; [done|]. cbn [fold_left]. rewrite <- IH. f_equal. lia.
Qed.
Lemma parse_pad w z r : 0 <= z < 10 ^ Z.of_nat w -> (1 <= w)%nat -> parse_digits w 0 (pad w z ++ r) = Some (z, r).
Proof.
  intros Hz Hw. destruct (pad_digits w z Hz Hw) as (Hd & Hl & Hv).
  rewrite <- Hl at 1. rewrite parse_digits_app by done. change 0 with (Z.of_N 0).
  rewrite fold_digits_value. do 3 f_equal. exact Hv.
Qed.

Lemma uchars_ascii l : Forall (fun c => (code c < 128)%N) l -> uchars l = List.map code l.
Proof.
  induction 1 as [|c l Hc Hl IH]; [done|]. cbn [uchars List.map]. replace (code c <? 128)%N with true by lia.
  by rewrite IH.
Qed.
Lemma of_uchars_ascii l : Forall (fun c => (code c < 128)%N) l -> of_uchars (List.map code l) = l.
Proof.
  unfold of_uchars. induction 1 as [|c l Hc Hl IH]; [done|]. cbn [List.map List.concat].
  by rewrite utf8_ascii, IH.
Qed.
Lemma first_ten_ascii l : Forall (fun c => (code c < 128)%N) l -> first_ten (dec l) = dec (take 10 l).
Proof.
  intros H. unfold first_ten. rewrite enc_dec, uchars_ascii by done. f_equal.
  change (take 10 (List.map code l)) with (take 10 (code <$> l)). rewrite <- fmap_take.
  apply of_uchars_ascii. by apply Forall_take.
Qed.

Lemma iso_parts d : valid_date d = true ->
  let l := (pad 4 (year d) ++ "-"%char :: pad 2 (month d) ++ "-"%char :: pad 2 (day d))%list in
  Forall (fun c => (code c < 128)%N) l /\ List.length l = 10%nat.
Proof.
  intros Hv. destruct (valid_placed d Hv) as ((Hm & Hd) & Hy & _). cbn zeta.
  destruct (pad_digits 4 (year d)) as (A1 & A2 & _); [lia..|].
  destruct (pad_digits 2 (month d)) as (B1 & B2 & _); [lia..|].
  destruct (pad_digits 2 (day d)) as (C1 & C2 & _); [lia..|].
  assert (Hlow : forall l, Forall (fun c => is_digit c = true) l -> Forall (fun c => (code c < 128)%N) l).
  { intros l H. eapply Forall_impl; [exact H|]. intros c Hc. unfold is_digit in Hc. lia. }
  split.
  - apply Forall_app. split; [by apply Hlow|]. constructor; [by vm_compute|].
    apply Forall_app. split; [by apply Hlow|]. constructor; [by vm_compute|by apply Hlow].
  - rewrite length_app. cbn [List.length]. rewrite length_app. cbn [List.length]. lia.
Qed.

Lemma fromisoformat_iso d : valid_date d = true -> fromisoformat (isoformat d) = Ok d.
Proof.
  intros Hv. destruct (valid_placed d Hv) as ((Hm & Hd) & Hy & _). destruct (iso_parts d Hv) as [_ Hl].
  unfold fromisoformat, isoformat. rewrite enc_dec. cbv zeta. rewrite Hl. cbn [Nat.eqb orb negb].
  rewrite (parse_pad 4 (year d)) by lia. cbn [is_dash]. change (is_dash "-") with true. cbn [tail].
  destruct (pad_digits 2 (month d)) as (B1 & B2 & _); [lia..|].
  destruct (pad 2 (month d)) as [|c l] eqn:E; [done|]. cbn [app].
  assert (Hc : is_digit c = true) by (by inv B1). replace (code c =? 87)%N with false by (unfold is_digit in Hc; lia).
  rewrite app_comm_cons, <- E, (parse_pad 2 (month d)) by lia. cbn [parse_sep]. change (is_dash "-") with true. cbv iota.
  rewrite <- (app_nil_r (pad 2 (day d))), (parse_pad 2 (day d)) by lia. unfold new_date.
  replace (mkDate (year d) (month d) (day d)) with d by (by destruct d). by rewrite Hv.
Qed.
Lemma first_ten_iso d : valid_date d = true -> first_ten (isoformat d) = isoformat d.
Proof.
  intros Hv. destruct (iso_parts d Hv) as [Ha Hl]. unfold isoformat. rewrite first_ten_ascii by done.
  f_equal. by rewrite take_ge by lia.
Qed.

Lemma new_date_valid y m d x : new_date y m d = Ok x -> valid_date x = true.
Proof. unfold new_date. destruct (valid_date _) eqn:E; [|done]. by intros [= <-]. Qed.
Lemma iso_to_date_valid y w d x : iso_to_date y w d = Ok x -> valid_date x = true.
Proof.
  unfold iso_to_date. repeat (match goal with |- (if ?b then _ else _) = _ -> _ => destruct b end; [done|]).
  cbv zeta. destruct (month_of _ _ _ _). apply new_date_valid.
Qed.
Lemma fromisoformat_valid s d : fromisoformat s = Ok d -> valid_date d = true.
Proof.
  unfold fromisoformat. cbv zeta. intros H.
  repeat match type of H with
  | new_date _ _ _ = _ => exact (new_date_valid _ _ _ _ H)
  | iso_to_date _ _ _ = _ => exact (iso_to_date_valid _ _ _ _ H)
  | Raise _ = _ => discriminate H
  | (match ?x with _ => _ end) = _ => destruct x
  end.
Qed.
Lemma read_date_valid s d : read_date s = Ok d -> valid_date d = true.
Proof. apply fromisoformat_valid. Qed.
Lemma target_date_valid s e : target_date s = Ok (Some e) -> valid_date e = true.
Proof.
  unfold target_date. destruct (String.eqb s ""); [done|]. intros H. run_ok. by eapply fromisoformat_valid.
Qed.

Lemma contribution_days_is today v through limit l : contribution_days today v through limit = Ok l ->
  exists cd start e, v = JInt cd /\ 1 <= cd <= 28 /\ read_date today = Ok start /\ target_date through = Ok e
    /\ (e = None -> exists k, limit = Some k /\ 1 <= k)
    /\ l = List.map (occurrence_in cd)
             (seqZ (first_index cd start) (cap limit 0 (final_index cd e - first_index cd start + 1))).
Proof.
  unfold contribution_days. intros H. run_ok. unfold day_of_month in *.
  destruct v as [| |cd| | | |]; try done. destruct ((1 <=? cd) && (cd <=? 28)) eqn:Hcd; [|done].
  match goal with H : Ok cd = Ok ?x |- _ => apply Ok_inj in H; subst x | _ => idtac end.
  match goal with H1 : read_date today = Ok ?s, H2 : target_date through = Ok ?e |- _ => exists cd, s, e end.
  split; [done|]. split; [lia|]. do 2 (split; [done|]).
  split; [intros ->; destruct limit as [k|]; [exists k; split; [done|lia]|done]|].
  apply contribution_loop_is; [lia|by eapply read_date_valid|].
  match goal with H : target_date through = Ok ?e |- _ => destruct e as [e'|]; [|done]; apply target_date_valid in H end.
  by apply valid_placed.
Qed.

Definition date_lt (a b : date) : Prop := date_ltb a b = true.
Definition on_schedule (cd : Z) (start : date) (d : date) : Prop :=
  valid_date d = true /\ day d = cd /\ date_ltb d start = false.

Lemma first_index_low cd start : valid_date start = true -> 12 <= first_index cd start.
Proof.
  intros (Hs & Hy & _)%valid_placed. unfold first_index, month_index. destruct Hs. destruct (cd <? day start); lia.
Qed.

(** The days between two dates, without end for [None]. *)
Lemma schedule_elem cd start e d : 1 <= cd <= 28 -> valid_date start = true ->
  match e with Some e => placed e | None => True end ->
  d ∈ List.map (occurrence_in cd) (seqZ (first_index cd start) (final_index cd e - first_index cd start + 1))
  <-> (on_schedule cd start d /\ match e with Some e => date_ltb e d = false | None => True end).
Proof.
  intros Hcd Hv He. pose proof (first_index_low cd start Hv) as Hlow. destruct (valid_placed _ Hv) as (Hs & _).
  assert (Hfin : final_index cd e <= last_month) by (destruct e; cbn [final_index]; lia).
  change (List.map (occurrence_in cd)) with (fmap (M := list) (occurrence_in cd)).
  rewrite list_elem_of_fmap. setoid_rewrite elem_of_seqZ. split.
  - intros (i & -> & Hi). unfold on_schedule. rewrite before_start by done.
    split; [split; [apply occurrence_valid; lia|split; [done|lia]]|].
    pose proof (after_end cd e Hcd He i ltac:(lia)) as Ha. destruct e; [|done]. rewrite Ha. lia.
  - intros ((Hd & Hday & Hst) & Hen). destruct (valid_placed _ Hd) as (Hp & Hy & _).
    set (i := month_index (year d) (month d)). assert (Hdi : d = occurrence_in cd i) by (rewrite <- Hday; by apply occurrence_of).
    assert (Hil : i <= last_month) by (unfold i, last_month, month_index; destruct Hp; lia).
    exists i. split; [done|]. rewrite Hdi, before_start in Hst by done.
    pose proof (after_end cd e Hcd He i Hil) as Ha.
    assert ((final_index cd e <? i) = false); [|lia]. rewrite <- Ha. destruct e; [|done]. by rewrite Hdi in Hen.
Qed.

Lemma schedule_sorted cd k n : 1 <= cd <= 28 -> StronglySorted date_lt (List.map (occurrence_in cd) (seqZ k n)).
Proof.
  intros Hcd. destruct (Z.le_gt_cases n 0) as [Hn|Hn]; [by rewrite seqZ_nil by done; constructor|].
  rewrite <- (Z2Nat.id n) by lia. clear Hn. revert k. induction (Z.to_nat n) as [|m IH]; intros k; [constructor|].
  rewrite seqZ_cons by lia. replace (Z.pred (Z.of_nat (S m))) with (Z.of_nat m) by lia. cbn [List.map].
  constructor; [apply IH|]. apply List.Forall_forall. intros d (i & <- & Hi)%List.in_map_iff.
  apply list_elem_of_In, elem_of_seqZ in Hi. unfold date_lt.
  rewrite date_ltb_key by (apply occurrence_placed; lia). rewrite !occurrence_key. lia.
Qed.

Lemma seqZ_nth k n j : seqZ k n !! j = (if Z.of_nat j <? n then Some (k + Z.of_nat j) else None).
Proof.
  destruct (Z.ltb_spec (Z.of_nat j) n) as [H|H].
  - apply lookup_seqZ. lia.
  - apply lookup_seqZ_ge. lia.
Qed.

(** The [k]-th contribution, reached directly, is the [k]-th of the open schedule. *)
Lemma nth_contribution_is today cd k l : 1 <= k -> contribution_days today (JInt cd) "" (Some k) = Ok l -> l <> [] ->
  nth_contribution today (JInt cd) k
  = Ok (match l !! Z.to_nat (k - 1) with Some d => isoformat d | None => ""%string end).
Proof.
  intros Hk Hl Hne. destruct (contribution_days_is _ _ _ _ _ Hl) as (c & start & e & [= <-] & Hcd & Hs & He & _ & ->).
  injection He as <-. cbn [cap final_index] in *. set (fi := first_index cd start) in *.
  pose proof (first_index_low cd start (read_date_valid _ _ Hs)) as Hlow. fold fi in Hlow.
  assert (Hfi : fi <= last_month).
  { destruct (Z.le_gt_cases fi last_month); [done|]. exfalso. apply Hne. by rewrite seqZ_nil by lia. }
  assert (Hone : contribution_days today (JInt cd) "" (Some 1) = Ok [occurrence_in cd fi]).
  { unfold contribution_days in Hl |- *. run_ok. unfold day_of_month in *.
    destruct ((1 <=? cd) && (cd <=? 28)); [|done]. cbn [rbind]. rewrite Hs. cbn [rbind]. change (target_date "") with (@Ok (option date) None).
    cbn [rbind raise_if Z.ltb]. change (1 <? 1) with false. cbn [raise_if rbind].
    rewrite contribution_loop_is by (done || by eapply read_date_valid). fold fi. cbn [cap final_index].
    rewrite seqZ_cons by lia. rewrite seqZ_nil by lia. done. }
  assert (Hval : valid_date (occurrence_in cd fi) = true) by (by apply occurrence_valid).
  unfold nth_contribution, contribution_dates. rewrite Hone. cbn [rbind List.map first_of].
  unfold read_date. rewrite first_ten_iso, fromisoformat_iso by done. cbn [rbind].
  unfold day_of_month. replace ((1 <=? cd) && (cd <=? 28)) with true by lia. cbn [rbind].
  replace (year (occurrence_in cd fi) * 12 + month (occurrence_in cd fi) - 1 + (k - 1)) with (fi + (k - 1))
    by (cbn [year month occurrence_in]; pose proof (Z.div_mod fi 12); lia).
  set (i := fi + (k - 1)). change (List.map (occurrence_in cd)) with (fmap (M := list) (occurrence_in cd)).
  rewrite list_lookup_fmap, seqZ_nth, Z2Nat.id by lia. fold i.
  destruct (Z.ltb_spec 9999 (i / 12)) as [Hy|Hy].
  - replace (k - 1 <? _) with false; [done|]. unfold i, last_month, month_index in *. symmetry.
    apply Z.ltb_ge. Z.to_euclidean_division_equations; lia.
  - assert (Hil : i <= last_month) by (unfold last_month, month_index; Z.to_euclidean_division_equations; lia).
    replace (k - 1 <? _) with true by lia. cbn [fmap option_fmap option_map].
    unfold new_date. change (mkDate (i / 12) (i mod 12 + 1) cd) with (occurrence_in cd i).
    rewrite occurrence_valid by lia. done.
Qed.
