(* ===== verification/Normalize.v ===== *)
(** * Normalize: core/vivacore/verify/normalize.py

    Printed amounts and dates read to a canonical form, or to a reason why not.  Texts are
    UTF-8; an amount is read byte by byte, a date by code points.  The messages of reasons
    and assumptions are constructors carrying what the code formats into them. *)
From Stdlib Require Import ZArith NArith Ascii String Lia ZifyBool ZifyN ZifyNat.
From stdpp Require Import base list numbers strings.
From S2P Require Import Prelude Text Words Json Unicode Dates Decimals Schedule.
#[local] Open Scope string_scope.

Definition RULES_VERSION : string := "nv1".
Definition COMMA_DECIMAL_LOCALES : list string := ["de"; "fr"; "es"; "it"; "pt"; "nl"; "tr"].
Definition DOT_DECIMAL_LOCALES : list string := ["en"; "ja"; "zh"; "ko"; "hi"; "th"].

(** Euro, pound, yen, rupee, won, and the minus sign, as UTF-8. *)
Definition EURO : bytes := utf8 8364.
Definition POUND : bytes := utf8 163.
Definition YEN : bytes := utf8 165.
Definition RUPEE : bytes := utf8 8377.
Definition WON : bytes := utf8 8361.
Definition MINUS : bytes := utf8 8722.

(** In the order the code tries them: longest first, then as written. *)
Definition CURRENCY_SYMBOLS : list (bytes * string) :=
  [(enc "US$", "USD"); (enc "CHF", "CHF"); (enc "C$", "CAD"); (enc "A$", "AUD"); (enc "$", "USD");
   (EURO, "EUR"); (POUND, "GBP"); (YEN, "JPY"); (RUPEE, "INR"); (WON, "KRW")].
Definition CURRENCY_CODES : list string :=
  ["USD"; "EUR"; "GBP"; "JPY"; "INR"; "CAD"; "AUD"; "CHF"; "CNY"; "KRW"].

(** No-break space, thin space, narrow no-break space, space. *)
Definition SPACES : list bytes := [utf8 160; utf8 8201; utf8 8239; enc " "].

(** ** The result *)
Inductive status := Fine | Ambiguous | Invalid.
#[export] Instance status_eq_dec : EqDecision status.
Proof. solve_decision. Defined.

Inductive assumption :=
  | ParenthesesNegative | TrailingDR | TrailingCR | TrailingMinus
  | BothSeparators (point : ascii) | RepeatedSeparator (sep : ascii)
  | SingleSeparator (sep : ascii) (digits : nat)
  | LocaleDecimal (locale : string) (sep : ascii) | LocaleGrouping (locale : string) (sep : ascii)
  | YearFirst | MonthNamed | TwoDigitYear | OnlyFirstMonth | OnlySecondMonth
  | MonthFirst (locale : string) | DayFirst (locale : string)
  | StatementYear (year : Z) | FirstIsMonth | SecondIsMonth.

Inductive reason :=
  | EmptyValue | CurrencyConflict (printed declared : string) | NotANumber (raw : string)
  | Unparseable (text : string) | SeparatorUndecided (head : string) (sep : ascii) (tail : string)
  | MultiplePoints (candidate : string)
  | UnknownMonth (raw : string) | NoMonthReading (raw : string) | OrderUndecided (raw : string)
  | UnknownDate (raw : string) | MonthOutOfRange (month : Z) | DayInvalid (day month : Z)
  | NotALeapYear (year : Z).

Record Normalized := mkNormalized {
  n_status : status;
  n_value : option string;
  n_currency : option string;
  n_assumptions : list assumption;
  n_reason : option reason;
  n_rules_version : string
}.
Definition refused (st : status) (why : reason) (currency : option string) (assumptions : list assumption) : Normalized :=
  mkNormalized st None currency assumptions (Some why) RULES_VERSION.
Definition accepted (value : string) (currency : option string) (assumptions : list assumption) : Normalized :=
  mkNormalized Fine (Some value) currency assumptions None RULES_VERSION.

(** [Normalized.ok] and [Normalized.decimal]. *)
Definition n_ok (n : Normalized) : bool := bool_decide (n_status n = Fine).
Definition n_decimal (n : Normalized) : res decimal :=
  match n_status n, n_value n with
  | Fine, Some v => Decimal_of_str v
  | _, _ => Raise ValueError
  end.

(** ** Locales *)
Definition locale_language `{CaseMap} (locale : string) : string :=
  str_lower (hd "" (split "-" locale)).
Definition decimal_separator_for `{CaseMap} (locale : option string) : option ascii :=
  match locale with
  | None | Some "" => None
  | Some l =>
      let lang := locale_language l in
      if in_words lang COMMA_DECIMAL_LOCALES then Some ","%char
      else if in_words lang DOT_DECIMAL_LOCALES then Some "."%char else None
  end.
(** The grouping separator is a text: none for a language without a convention. *)
Definition separators_for `{CaseMap} (locale : option string) : ascii * bytes :=
  match decimal_separator_for locale with
  | None => ("."%char, [])
  | Some d => (d, [if ascii_dec d "," then "."%char else ","%char])
  end.
Definition known_language_tags : list string := sorted_set (COMMA_DECIMAL_LOCALES ++ DOT_DECIMAL_LOCALES).
(** [(locale or "").strip().replace("_", "-").lower()]. *)
Definition normalize_locale `{CaseMap} (locale : option string) : string :=
  str_lower (dec (List.map (fun c => if ascii_dec c "_" then "-"%char else c) (strip_bytes (enc (default "" locale))))).

(** ** Text operations *)

(** What [re] calls a word character beyond ASCII is the interpreter's table. *)
Class WordTable := { word_char : N -> bool }.
Definition ascii_word : WordTable :=
  {| word_char n := ((48 <=? n) && (n <=? 57) || (65 <=? n) && (n <=? 90) || (97 <=? n) && (n <=? 122) || (n =? 95))%N |}.
Definition starts_word `{WordTable} (l : bytes) : bool :=
  match uchars l with c :: _ => word_char c | [] => false end.
Definition ends_word `{WordTable} (l : bytes) : bool :=
  match List.rev (uchars l) with c :: _ => word_char c | [] => false end.

Definition drop_suffix (p l : bytes) : option bytes :=
  option_map (@List.rev ascii) (starts_with (List.rev p) (List.rev l)).
Definition has_prefix (p l : bytes) : bool := bool_decide (is_Some (starts_with p l)).
Definition has_suffix (p l : bytes) : bool := bool_decide (is_Some (drop_suffix p l)).
(** [s.removeprefix(p)], [s.removesuffix(p)]. *)
Definition remove_prefix (p l : bytes) : bytes := default l (starts_with p l).
Definition remove_suffix (p l : bytes) : bytes := default l (drop_suffix p l).

(** [s.replace(p, new)] for a nonempty [p]. *)
Fixpoint replace_fuel (p new : bytes) (fuel : nat) (l : bytes) : bytes :=
  match fuel with
  | O => l
  | S f => match starts_with p l, l with
           | Some r, _ => new ++ replace_fuel p new f r
           | None, c :: l' => c :: replace_fuel p new f l'
           | None, [] => []
           end
  end%list.
Definition replace_text (p new l : bytes) : bytes := replace_fuel p new (length l) l.
(** [s.replace(c, "")]. *)
Definition without (c : ascii) (l : bytes) : bytes := List.filter (fun x => negb (is_sep c x)) l.
Definition has_char (c : ascii) (l : bytes) : bool := existsb (is_sep c) l.
Definition count_char (c : ascii) (l : bytes) : nat := length (List.filter (is_sep c) l).
(** [s.rfind(c)] as what follows the last occurrence; a longer rest is an earlier one. *)
Fixpoint after_last (c : ascii) (l : bytes) : nat :=
  match l with
  | [] => 0
  | x :: r => if has_char c r then after_last c r else if is_sep c x then length r else after_last c r
  end.

(** ** Separators *)
Definition validate_single_decimal (candidate : bytes) (assumptions : list assumption)
    : (bytes + (status * reason)) * list assumption :=
  if (1 <? count_char "." candidate)%nat then (inr (Invalid, MultiplePoints (dec candidate)), assumptions)
  else (inl candidate, assumptions).

(** The value as decimal text, or why there is none, and the assumptions so far. *)
Definition resolve_separators `{CaseMap} (text : bytes) (locale : option string) (assumptions : list assumption)
    : (bytes + (status * reason)) * list assumption :=
  match has_char "." text, has_char "," text with
  | false, false => (inl text, assumptions)
  | true, true =>
      let point := if (after_last "," text <? after_last "." text)%nat then ","%char else "."%char in
      let group := if ascii_dec point "," then "."%char else ","%char in
      let cleaned := List.map (fun c => if ascii_dec c point then "."%char else c) (without group text) in
      validate_single_decimal cleaned (assumptions ++ [BothSeparators point])%list
  | dot, _ =>
      let sep := if dot then "."%char else ","%char in
      match split_on sep text with
      | [head; tail] =>
          if negb (bool_decide (length tail = 3%nat)) then
            validate_single_decimal (head ++ "."%char :: tail)%list (assumptions ++ [SingleSeparator sep (length tail)])%list
          else
            match decimal_separator_for locale with
            | None => (inr (Ambiguous, SeparatorUndecided (dec head) sep (dec tail)), assumptions)
            | Some d =>
                let l := default "" locale in
                if ascii_dec sep d then
                  validate_single_decimal (head ++ "."%char :: tail)%list (assumptions ++ [LocaleDecimal l sep])%list
                else (inl (head ++ tail)%list, assumptions ++ [LocaleGrouping l sep])%list
            end
      | _ => (inl (without sep text), assumptions ++ [RepeatedSeparator sep])%list
      end
  end.

(** ** Amounts *)
Section Amounts.
Context `{CaseMap} `{WordTable}.

(** [re.search(r"\b(DR|CR)\.?\s*$", text, re.IGNORECASE)] on stripped text: whether it says
    DR, and what precedes it. *)
Definition debit_suffix (text : bytes) : option (bool * bytes) :=
  let body := remove_suffix (enc ".") text in
  match List.rev body with
  | r :: d :: before =>
      let low := (lower d, lower r) in
      let head := List.rev before in
      if ends_word head then None
      else if bool_decide (low = ("d", "r")%char) then Some (true, head)
      else if bool_decide (low = ("c", "r")%char) then Some (false, head)
      else None
  | _ => None
  end.

(** The negativity conventions, in the order the code peels them. *)
Definition peel_parentheses (p : bytes * bool * list assumption) : bytes * bool * list assumption :=
  let '(text, negative, notes) := p in
  if has_prefix (enc "(") text && has_suffix (enc ")") text then
    (strip_bytes (removelast (tl text)), true, notes ++ [ParenthesesNegative])%list
  else p.
Definition peel_debit (p : bytes * bool * list assumption) : bytes * bool * list assumption :=
  let '(text, negative, notes) := p in
  match debit_suffix text with
  | Some (true, head) => (strip_bytes head, true, notes ++ [TrailingDR])%list
  | Some (false, head) => (strip_bytes head, negative, notes ++ [TrailingCR])%list
  | None => p
  end.
Definition peel_trailing_minus (p : bytes * bool * list assumption) : bytes * bool * list assumption :=
  let '(text, negative, notes) := p in
  match drop_suffix (enc "-") text with
  | Some r => (strip_bytes r, true, notes ++ [TrailingMinus])%list
  | None => p
  end.
Definition peel_leading_minus (p : bytes * bool * list assumption) : bytes * bool * list assumption :=
  let '(text, negative, notes) := p in
  if has_prefix (enc "-") text || has_prefix MINUS text then
    (strip_bytes (lstrip_fuel [enc "-"; MINUS] (length text) text), true, notes)
  else p.
Definition peel_plus (p : bytes * bool * list assumption) : bytes * bool * list assumption :=
  let '(text, negative, notes) := p in
  match starts_with (enc "+") text with
  | Some r => (strip_bytes r, negative, notes)
  | None => p
  end.
Definition peel_sign (text : bytes) : bytes * bool * list assumption :=
  peel_plus (peel_leading_minus (peel_trailing_minus (peel_debit (peel_parentheses (text, false, []))))).

Fixpoint peel_symbol (symbols : list (bytes * string)) (text : bytes) : option (string * bytes) :=
  match symbols with
  | [] => None
  | (s, name) :: symbols' =>
      if has_prefix s text || has_suffix s text
      then Some (name, strip_bytes (remove_suffix s (remove_prefix s text)))
      else peel_symbol symbols' text
  end.
(** [(^code\b)|(\bcode$)]: at the start, at the end, or both. *)
Definition code_first (code text : bytes) : option bytes :=
  match starts_with code text with
  | Some r => if starts_word r then None else Some r
  | None => None
  end.
Definition code_last (code text : bytes) : option bytes :=
  match drop_suffix code text with
  | Some r => if ends_word r then None else Some r
  | None => None
  end.
Fixpoint peel_code (codes : list string) (text : bytes) : option (string * bytes) :=
  match codes with
  | [] => None
  | c :: codes' =>
      let code := enc c in
      match code_first code text, code_last code text with
      | Some r, _ => Some (c, strip_bytes (default r (code_last code r)))
      | None, Some r => Some (c, strip_bytes r)
      | None, None => peel_code codes' text
      end
  end.
Definition peel_currency (text : bytes) : option string * bytes :=
  match peel_symbol CURRENCY_SYMBOLS text with
  | Some (name, r) => (Some name, r)
  | None => match peel_code CURRENCY_CODES text with
            | Some (c, r) => (Some c, r)
            | None => (None, text)
            end
  end.

(** [re.fullmatch(r"[0-9.,']+", text)]. *)
Definition numeral_char (c : ascii) : bool := is_digit c || is_sep "." c || is_sep "," c || is_sep "'" c.
Definition numeral (text : bytes) : bool := negb (bool_decide (text = [])) && forallb numeral_char text.

Definition declared_currency (currency : option string) : option string :=
  match currency with None | Some "" => None | Some c => Some (str_upper c) end.

(** What is left of the text, as a number under the locale. *)
Definition read_numeral (raw : string) (text : bytes) (locale currency : option string) (negative : bool)
    (notes : list assumption) : res Normalized :=
  let text := without " " text in
  if negb (numeral text) then Ok (refused Invalid (NotANumber raw) None notes)
  else
    match resolve_separators (without "'" text) locale notes with
    | (inr (st, why), notes) => Ok (refused st why currency notes)
    | (inl plain, notes) =>
        match Decimal_of_text plain with
        | Raise e => if exn_isinstance e InvalidOperation
                     then Ok (refused Invalid (Unparseable (dec plain)) None notes) else Raise e
        | Ok value =>
            let? value := if negative then dneg default_ctx value else Ok value in
            Ok (accepted (dec_str value) currency notes)
        end
    end.

Definition parse_amount (raw : option string) (locale currency : option string) : res Normalized :=
  let r := default "" raw in
  if blank r then Ok (refused Invalid EmptyValue None [])
  else
    let text := strip_bytes (fold_left (fun t s => replace_text s (enc " ") t) SPACES (enc r)) in
    let '(text, negative, notes) := peel_sign text in
    let '(detected, text) := peel_currency text in
    let declared := declared_currency currency in
    match detected, declared with
    | Some d, Some c =>
        if String.eqb d c then read_numeral r text locale detected negative notes
        else Ok (refused Invalid (CurrencyConflict d c) None notes)
    | Some _, None => read_numeral r text locale detected negative notes
    | None, _ => read_numeral r text locale declared negative notes
    end.
End Amounts.

(** ** Dates *)
Definition MONTHS : list (string * Z) :=
  [("jan", 1); ("feb", 2); ("mar", 3); ("apr", 4); ("may", 5); ("jun", 6); ("jul", 7); ("aug", 8);
   ("sep", 9); ("sept", 9); ("oct", 10); ("nov", 11); ("dec", 12)]%Z.
Definition MONTH_FIRST_LOCALES : list string := ["en-us"; "en-ph"].
Definition DAYS_IN_MONTH : list Z := [31; 29; 31; 30; 31; 30; 31; 31; 30; 31; 30; 31]%Z.

(** [f"{z:0{w}d}"]. *)
Definition zero_padded (w : nat) (z : Z) : bytes :=
  if (z <? 0)%Z then "-"%char :: pad (w - 1) (- z) else pad w z.

Definition make_date (y m d : Z) (notes : list assumption) : Normalized :=
  if negb ((1 <=? m) && (m <=? 12))%Z then refused Invalid (MonthOutOfRange m) None []
  else if negb ((1 <=? d) && (d <=? nth (Z.to_nat (m - 1)) DAYS_IN_MONTH 0))%Z then refused Invalid (DayInvalid d m) None []
  else if ((m =? 2) && (d =? 29))%Z && negb (is_leap y) then refused Invalid (NotALeapYear y) None []
  else accepted (dec (zero_padded 4 y ++ "-"%char :: zero_padded 2 m ++ "-"%char :: zero_padded 2 d)%list) None notes.

(** Code points: a run of decimal digits and its value, and the classes the patterns use. *)
Fixpoint take_while (f : N -> bool) (l : list N) : list N * list N :=
  match l with
  | c :: r => if f c then let '(a, b) := take_while f r in (c :: a, b) else ([], l)
  | [] => ([], [])
  end.
Definition digits_value (l : list N) : Z :=
  fold_left (fun n c => n * 10 + Z.of_N (default 0%N (decimal_digit c)))%Z l 0%Z.
Definition date_sep (c : N) : bool := (c =? 45)%N || (c =? 47)%N || (c =? 46)%N.
Definition space_point (c : N) : bool := existsb (fun s => bool_decide (utf8 c = s)) spaces.
Definition letter (c : N) : bool := ((65 <=? c) && (c <=? 90) || (97 <=? c) && (c <=? 122))%N.
Definition run_of (lo hi : nat) (l : list N) : bool := (lo <=? length l)%nat && (length l <=? hi)%nat.

(** A number of [lo] to [hi] digits, and a separator or the end after it. *)
Definition field_of (lo hi : nat) (l : list N) : option (Z * list N) :=
  let '(ds, r) := take_while is_decimal l in
  if run_of lo hi ds then Some (digits_value ds, r) else None.
Definition after_sep (l : list N) : option (list N) :=
  match l with c :: r => if date_sep c then Some r else None | [] => None end.
(** [a SEP b SEP c] and [a SEP b], with their digit counts. *)
Definition three_fields (la ha lb hb lc hc : nat) (l : list N) : option (Z * Z * Z) :=
  match field_of la ha l with
  | Some (a, r1) =>
      match after_sep r1 with
      | Some r2 =>
          match field_of lb hb r2 with
          | Some (b, r3) =>
              match after_sep r3 with
              | Some r4 => match field_of lc hc r4 with Some (c, []) => Some (a, b, c) | _ => None end
              | None => None
              end
          | None => None
          end
      | None => None
      end
  | None => None
  end.
Definition two_fields (l : list N) : option (Z * Z) :=
  match field_of 1 2 l with
  | Some (a, r1) =>
      match after_sep r1 with
      | Some r2 => match field_of 1 2 r2 with Some (b, []) => Some (a, b) | _ => None end
      | None => None
      end
  | None => None
  end.

(** The month-name pattern: the day before, the name, the day after and the year, the first
    alternative the matcher finds.  A run of five or six digits at the end is a day and a
    year with nothing between. *)
Definition name_gap (c : N) : bool := space_point c || (c =? 45)%N.
Definition name_sep (c : N) : bool := name_gap c || (c =? 44)%N.
Definition day_and_year (l : list N) : option (option Z * Z) :=
  let '(ds, r) := take_while is_decimal l in
  match r with
  | [] =>
      let n := length ds in
      if (n =? 4)%nat then Some (None, digits_value ds)
      else if (n =? 5)%nat || (n =? 6)%nat
           then Some (Some (digits_value (take (n - 4) ds)), digits_value (drop (n - 4) ds))
           else None
  | _ =>
      if run_of 1 2 ds then
        let r := match r with c :: r' => if (c =? 44)%N then r' else r | [] => [] end in
        let '(_, r) := take_while space_point r in
        match field_of 4 4 r with
        | Some (y, []) => Some (Some (digits_value ds), y)
        | _ => None
        end
      else None
  end.
Definition named_date (l : list N) : option (option Z * string * option Z * Z) :=
  let '(before, rest) :=
    let '(ds, r) := take_while is_decimal l in
    let '(gap, r') := take_while name_gap r in
    if run_of 1 2 ds && negb (bool_decide (gap = [])) then (Some (digits_value ds), r') else (None, l) in
  let '(name, r) := take_while letter rest in
  if run_of 3 9 name then
    let r := match r with c :: r' => if (c =? 46)%N then r' else r | [] => [] end in
    let '(sep, r) := take_while name_sep r in
    if bool_decide (sep = []) then None
    else match day_and_year r with
         | Some (after, y) => Some (before, dec (of_uchars name), after, y)
         | None => None
         end
  else None.
Definition month_number (name : string) : option Z :=
  let low := List.map lower (enc name) in
  match dict_get MONTHS (dec (take 4 low)) with
  | Some m => Some m
  | None => dict_get MONTHS (dec (take 3 low))
  end.

Section ReadDates.
Context `{CaseMap}.

(** A month and a day in either order, by what can be a month and then by the locale. *)
Definition ordered_date (raw : string) (a b y : Z) (locale : option string) (notes : list assumption)
    (first second : assumption) : Normalized :=
  let month_like z := ((1 <=? z) && (z <=? 12))%Z in
  if month_like a && negb (month_like b) then make_date y a b (notes ++ [first])
  else if month_like b && negb (month_like a) then make_date y b a (notes ++ [second])
  else if negb (month_like a) && negb (month_like b) then refused Invalid (NoMonthReading raw) None []
  else if (a =? b)%Z then make_date y a b notes
  else if in_words (normalize_locale locale) MONTH_FIRST_LOCALES
       then make_date y a b (notes ++ [MonthFirst (default "" locale)])
  else match locale with
       | None | Some "" => refused Ambiguous (OrderUndecided raw) None []
       | Some l => make_date y b a (notes ++ [DayFirst l])
       end.

Definition parse_date (raw locale : option string) (default_year : option Z) : Normalized :=
  let r := default "" raw in
  if blank r then refused Invalid EmptyValue None []
  else
    let text := uchars (strip_bytes (enc r)) in
    match three_fields 4 4 1 2 1 2 text with
    | Some (y, a, b) => make_date y a b [YearFirst]
    | None =>
    match named_date text with
    | Some (before, name, after, y) =>
        match month_number name, (match before with Some d => Some d | None => after end) with
        | Some m, Some d => make_date y m d [MonthNamed]
        | _, _ => refused Invalid (UnknownMonth r) None []
        end
    | None =>
    match three_fields 1 2 1 2 2 4 text with
    | Some (a, b, y) =>
        let '(y, notes) := if (y <? 100)%Z then (y + 2000, [TwoDigitYear])%Z else (y, []) in
        ordered_date r a b y locale notes OnlyFirstMonth OnlySecondMonth
    | None =>
    match two_fields text, default_year with
    | Some (a, b), Some y => ordered_date r a b y locale [StatementYear y] FirstIsMonth SecondIsMonth
    | _, _ => refused Invalid (UnknownDate r) None []
    end end end end.
End ReadDates.
