(* ===== verification/Render.v ===== *)
(** * Render: the figures of product/viva/render.py, and core/vivacore/verify/match.py

    A value becomes words under a locale's conventions; two readings of the same words are
    compared.  A rendered thing is its text. *)
From Stdlib Require Import ZArith NArith Ascii String Lia ZifyBool ZifyN ZifyNat.
From stdpp Require Import base list numbers strings.
From S2P Require Import Prelude Text Words Json Unicode Dates Decimals Schedule Quantity Normalize.
#[local] Open Scope string_scope.

(** ** Figures *)
Definition CENTS : Z := -2.
Definition RATE_FIGURES : Z := 6.

(** [_grouped]: digits in threes from the right; the text is given backwards. *)
Fixpoint groups_of (fuel : nat) (backwards : bytes) : list bytes :=
  match fuel with
  | O => [List.rev backwards]
  | S f => if (3 <? length backwards)%nat
           then (groups_of f (drop 3 backwards) ++ [List.rev (take 3 backwards)])%list
           else [List.rev backwards]
  end.
Fixpoint join_bytes (sep : bytes) (l : list bytes) : bytes :=
  match l with
  | [] => []
  | [w] => w
  | w :: l' => (w ++ sep ++ join_bytes sep l')%list
  end.
Definition grouped (digits separator : bytes) : bytes :=
  join_bytes separator (groups_of (length digits) (List.rev digits)).

Definition copy_abs (a : decimal) : decimal :=
  match a with Fin _ c e => Fin false c e | Inf _ => Inf false | NaN _ g p => NaN false g p end.
(** The digits of the coefficient and [adjusted()], none for a value that is not finite. *)
Definition digit_count (a : decimal) : Z :=
  match a with Fin _ c _ => Z.of_nat (ndigits c) | Inf _ => 1 | NaN _ _ p => if (p =? 0)%N then 0 else Z.of_nat (ndigits p) end.
Definition adjusted_of (a : decimal) : Z :=
  match a with Fin _ c e => adjusted c e | _ => 0 end.

Definition money_value (raw : decimal) : res decimal :=
  quantize (mkCtx (Z.to_N (Z.max 28 (Z.max (digit_count raw) (adjusted_of raw + 4)))) false) raw CENTS.
Definition money `{CaseMap} (raw : decimal) (currency locale : string) : res string :=
  let? value := money_value raw in
  let '(point, group) := separators_for (Some locale) in
  let? negative := dlt value (Fin false 0 0) in
  let '(whole, rest) := span (fun c => negb (is_sep "." c)) (dec_text (copy_abs value)) in
  let whole := if bool_decide (group = []) then whole else grouped whole group in
  let written := (whole ++ point :: tl rest)%list in
  let sign := if negative then enc "-" else [] in
  Ok (dec (if String.eqb currency "" then sign ++ written
           else sign ++ enc currency ++ enc " " ++ written)%list).

Definition count (number : decimal) : res string :=
  let? whole := quantize default_ctx number 0 in
  Ok (dec_str (if is_zero whole then copy_abs whole else whole)).

(** [f"{value:f}"]: no exponent, whatever the value. *)
Definition fixed_text (d : decimal) : bytes :=
  match d with
  | Fin s c e =>
      let ds := digits_of_N c in
      let n := Z.of_nat (length ds) in
      let body :=
        if (0 <=? e)%Z then (if (c =? 0)%N then enc "0" else ds ++ zeros e)%list
        else if (n <=? - e)%Z then (enc "0." ++ zeros (- e - n) ++ ds)%list
        else (take (Z.to_nat (n + e)) ds ++ enc "." ++ drop (Z.to_nat (n + e)) ds)%list in
      ((if s then enc "-" else []) ++ body)%list
  | d => dec_text d
  end.
(** [s.rstrip(c)]. *)
Definition rstrip_char (c : ascii) (l : bytes) : bytes := List.rev (snd (span (is_sep c) (List.rev l))).
Definition rate `{CaseMap} (proportion : decimal) (locale : string) : res string :=
  let? scaled := dmul default_ctx proportion PER_HUNDRED in
  let? value := if is_zero scaled then Ok scaled
                else quantize default_ctx scaled (adjusted_of scaled - RATE_FIGURES + 1) in
  let text := fixed_text value in
  let text := if has_char "." text then rstrip_char "." (rstrip_char "0" text) else text in
  let '(point, _) := separators_for (Some locale) in
  Ok (dec (List.map (fun c => if ascii_dec c "." then point else c) text ++ enc "%")%list).

Definition date_words (iso : string) : string := iso.
Definition period_words (start end_ : string) : string := start ++ " to " ++ end_.

(** ** Comparing a reading with the truth *)
Inductive detail :=
  | Exact | EqualNormalized | Differs (extracted truth : option string)
  | TruthUnread (why : option reason) | ExtractedUnread (why : option reason)
  | EqualIgnoring | DiffersText.
Record MatchResult := mkMatch { m_strict : bool; m_normalized : option bool; m_detail : detail }.
(** [MatchResult.correct]. *)
Definition m_correct (m : MatchResult) : bool := default false (m_normalized m).

Definition strict_equal (a b : string) : bool := String.eqb (strip a) (strip b).
(** The verdict once both sides were read. *)
Definition verdict_of (strict : bool) (ext tru : Normalized) (same : res bool) : res MatchResult :=
  if negb (n_ok tru) then Ok (mkMatch strict None (TruthUnread (n_reason tru)))
  else if negb (n_ok ext) then Ok (mkMatch strict (Some false) (ExtractedUnread (n_reason ext)))
  else
    let? same := same in
    Ok (mkMatch strict (Some same)
          (if strict then Exact else if same then EqualNormalized else Differs (n_value ext) (n_value tru))).

Section Match.
Context `{CaseMap} `{WordTable}.

Definition match_amount (extracted truth : string) (locale currency : option string) : res MatchResult :=
  let? ext := parse_amount (Some extracted) locale currency in
  let? tru := parse_amount (Some truth) locale currency in
  verdict_of (strict_equal extracted truth) ext tru
    (let? a := n_decimal ext in let? b := n_decimal tru in deq a b).

Definition match_date (extracted truth : string) (locale : option string) : res MatchResult :=
  let ext := parse_date (Some extracted) locale None in
  let tru := parse_date (Some truth) locale None in
  verdict_of (strict_equal extracted truth) ext tru (Ok (bool_decide (n_value ext = n_value tru))).

(** [re.sub(r"\s+", " ", s)]. *)
Fixpoint fold_spaces (inside : bool) (l : list N) : list N :=
  match l with
  | [] => []
  | c :: r => if space_point c then (if inside then fold_spaces true r else 32%N :: fold_spaces true r)
              else c :: fold_spaces false r
  end.
Definition folded_text (s : string) : list N := fold_spaces false (uchars (enc (str_lower (strip s)))).
Definition match_text (extracted truth : string) : MatchResult :=
  let strict := strict_equal extracted truth in
  let same := bool_decide (folded_text extracted = folded_text truth) in
  mkMatch strict (Some same) (if strict then Exact else if same then EqualIgnoring else DiffersText).
End Match.
