(* ===== verification/NormalizeLaws.v ===== *)
(** * NormalizeLaws: what a printed numeral can mean, and what amounts read to

    A convention is a decimal mark and a grouping mark; [read_as] is what a numeral means
    under one, the last group being of three digits, as grouping has it.  The code's choice
    of separators is compared with it, and the passes of [parse_amount] are followed. *)
From Stdlib Require Import ZArith NArith Ascii String Lia ZifyBool ZifyN ZifyNat.
From stdpp Require Import base list numbers strings.
From S2P Require Import Prelude Text Words Json Unicode Dates Decimals Schedule Quantity Normalize Render.
#[local] Open Scope list_scope.

(** ** Cutting at a separator *)
Lemma is_sep_eq s c : is_sep s c = true <-> c = s.
Proof. unfold is_sep. by destruct (ascii_dec c s). Qed.
Lemma has_char_In s l : has_char s l = true <-> s ∈ l.
Proof.
  unfold has_char. rewrite List.existsb_exists, list_elem_of_In.
  split; [intros (x & Hx & Hs); by apply is_sep_eq in Hs as ->|intros H; exists s; split; [done|by apply is_sep_eq]].
Qed.
Lemma has_char_free s l : has_char s l = false <-> Forall (fun c => c <> s) l.
Proof.
  unfold has_char. induction l as [|c l IH]; cbn; [done|]. rewrite orb_false_iff, IH, Forall_cons.
  unfold is_sep. destruct (ascii_dec c s); intuition congruence.
Qed.
Lemma without_free s l : has_char s l = false -> without s l = l.
Proof.
  unfold has_char, without. induction l as [|c l IH]; cbn; [done|]. intros [H1 H2]%orb_false_iff.
  rewrite H1. cbn. f_equal. by apply IH.
Qed.
Lemma without_app s a b : without s (a ++ b) = without s a ++ without s b.
Proof. apply List.filter_app. Qed.
Lemma without_sep s l : without s (s :: l) = without s l.
Proof. unfold without. cbn. unfold is_sep. by destruct (ascii_dec s s). Qed.
Lemma without_other s o l : s <> o -> without s (o :: l) = o :: without s l.
Proof. intros H. unfold without. cbn. unfold is_sep. by destruct (ascii_dec o s). Qed.
Lemma has_char_app s a b : has_char s (a ++ b) = has_char s a || has_char s b.
Proof. apply List.existsb_app. Qed.
Lemma has_char_cons s c l : has_char s (c :: l) = is_sep s c || has_char s l.
Proof. done. Qed.
Lemma is_sep_refl s : is_sep s s = true.
Proof. by apply is_sep_eq. Qed.
Lemma is_sep_other s o : s <> o -> is_sep s o = false.
Proof. unfold is_sep. intros H. by destruct (ascii_dec o s). Qed.
Lemma has_char_without s o l : s <> o -> has_char s (without o l) = has_char s l.
Proof.
  intros Hso. unfold without. induction l as [|c l IH]; [done|]. cbn [List.filter].
  destruct (is_sep o c) eqn:E; cbn [negb]; rewrite !has_char_cons, IH; [|done].
  apply is_sep_eq in E as ->. by rewrite is_sep_other.
Qed.

Lemma has_char_gone s l : has_char s (without s l) = false.
Proof.
  unfold without. induction l as [|c l IH]; [done|]. cbn [List.filter]. destruct (is_sep s c) eqn:E; cbn [negb]; [done|].
  by rewrite has_char_cons, E.
Qed.

(** One part, two parts, or more. *)
Lemma split_one s t : has_char s t = false -> split_on s t = [t].
Proof. rewrite has_char_free. apply split_on_free. Qed.
Lemma split_two s h t : has_char s h = false -> split_on s (h ++ s :: t) = h :: split_on s t.
Proof. rewrite has_char_free. apply split_on_app. Qed.
Lemma split_cases s t : (has_char s t = false /\ split_on s t = [t])
  \/ exists h r, t = h ++ s :: r /\ has_char s h = false /\ split_on s t = h :: split_on s r.
Proof.
  induction t as [|c t IH]; [by left|]. destruct (is_sep s c) eqn:Ec.
  - apply is_sep_eq in Ec as ->. right. exists [], t. split; [done|]. split; [done|]. by apply (split_two s []).
  - destruct IH as [[H1 H2]|(h & r & -> & Hh & E)].
    + left. rewrite has_char_cons, Ec, H1. split; [done|]. apply split_one. by rewrite has_char_cons, Ec, H1.
    + right. exists (c :: h), r. split; [done|]. assert (has_char s (c :: h) = false) by (by rewrite has_char_cons, Ec).
      split; [done|]. by apply (split_two s (c :: h)).
Qed.
Lemma split_shape s t :
  (has_char s t = false /\ split_on s t = [t])
  \/ (exists h r, t = h ++ s :: r /\ has_char s h = false /\ has_char s r = false /\ split_on s t = [h; r])
  \/ (exists h m r l, split_on s t = h :: m :: r :: l /\ has_char s t = true /\ (1 < count_char s t)%nat).
Proof.
  destruct (split_cases s t) as [H|(h & r & -> & Hh & E)]; [by left|right].
  destruct (split_cases s r) as [[Hr Er]|(m & q & -> & Hm & Eq)].
  - left. exists h, r. by rewrite E, Er.
  - right. destruct (split_on s q) as [|x l] eqn:Ex; [by destruct (split_cases s q) as [[? Hx]|(? & ? & ? & ? & Hx)]; rewrite Hx in Ex|].
    exists h, m, x, l. rewrite E, Eq. split; [done|].
    split; [by rewrite has_char_app, has_char_cons, is_sep_refl, orb_true_r|].
    unfold count_char. rewrite List.filter_app. cbn [List.filter]. rewrite is_sep_refl, List.filter_app. cbn [List.filter].
    rewrite is_sep_refl, !List.length_app. cbn [length]. rewrite List.length_app. cbn [length]. lia.
Qed.

(** ** What a numeral means under a convention *)
Definition well_grouped (group : ascii) (i : bytes) : bool :=
  match split_on group i with [_] => true | parts => (length (List.last parts []) =? 3)%nat end.
Definition read_as (point group : ascii) (t : bytes) : option bytes :=
  match split_on point t with
  | [i] => if well_grouped group i then Some (without group i) else None
  | [i; f] => if well_grouped group i && negb (has_char group f) then Some (without group i ++ "."%char :: f) else None
  | _ => None
  end.
Definition other (c : ascii) : ascii := if ascii_dec c "," then "."%char else ","%char.
Definition mark (c : ascii) : Prop := c = "."%char \/ c = ","%char.
Lemma mark_other c : mark c -> mark (other c) /\ c <> other c /\ other (other c) = c.
Proof. intros [-> | ->]; vm_compute; (split; [by auto|by split]). Qed.

(** A numeral without marks, with one kind of mark, or with both. *)
Lemma read_plain point group t : has_char point t = false -> has_char group t = false -> read_as point group t = Some t.
Proof.
  intros Hp Hg. unfold read_as. rewrite (split_one _ _ Hp). unfold well_grouped. rewrite (split_one _ _ Hg).
  by rewrite without_free.
Qed.
(** The mark that occurs taken as the decimal one. *)
Lemma read_point s o t : has_char s t = true -> has_char o t = false ->
  read_as s o t = match split_on s t with [h; r] => Some (h ++ "."%char :: r) | _ => None end.
Proof.
  intros Hs Ho. unfold read_as. destruct (split_shape s t) as [[Hn _]|[(h & r & -> & Hh & Hr & E)|(h & m & r & l & E & _)]].
  - congruence.
  - rewrite E. rewrite has_char_app, has_char_cons in Ho. apply orb_false_iff in Ho as [H1 [_ H2]%orb_false_iff].
    unfold well_grouped. rewrite (split_one _ _ H1), H2. cbn. by rewrite without_free.
  - by rewrite E.
Qed.
(** The mark that occurs taken as grouping. *)
Lemma read_group s o t : has_char s t = true -> has_char o t = false ->
  read_as o s t = if (length (List.last (split_on s t) []) =? 3)%nat then Some (without s t) else None.
Proof.
  intros Hs Ho. unfold read_as. rewrite (split_one _ _ Ho). unfold well_grouped.
  destruct (split_shape s t) as [[Hn _]|[(h & r & _ & _ & _ & E)|(h & m & r & l & E & _)]]; [congruence|by rewrite E..].
Qed.

(** *** Where a mark last occurs *)
Lemma after_last_bound s t : has_char s t = true -> (after_last s t < length t)%nat.
Proof.
  induction t as [|c t IH]; [done|]. rewrite has_char_cons. cbn [after_last length].
  destruct (has_char s t); [intros _; specialize (IH eq_refl); lia|].
  rewrite orb_false_r. intros ->. lia.
Qed.
Lemma after_last_app s h r : has_char s r = true -> after_last s (h ++ r) = after_last s r.
Proof.
  intros Hr. induction h as [|c h IH]; [done|]. cbn [app after_last].
  by rewrite has_char_app, Hr, orb_true_r.
Qed.
Lemma after_last_here s h r : has_char s r = false -> after_last s (h ++ s :: r) = length r.
Proof.
  intros Hr. rewrite after_last_app by (by rewrite has_char_cons, is_sep_refl). cbn [after_last]. by rewrite Hr, is_sep_refl.
Qed.
Lemma after_last_early s h r : has_char s h = true -> has_char s r = false -> (length r <= after_last s (h ++ r))%nat.
Proof.
  intros Hh Hr. induction h as [|c h IH]; [done|]. rewrite has_char_cons in Hh. cbn [app after_last].
  rewrite has_char_app, Hr, orb_false_r. destruct (has_char s h); [by apply IH|].
  rewrite orb_false_r in Hh. rewrite Hh, length_app. lia.
Qed.
Lemma after_last_ne a b t : a <> b -> has_char a t = true -> has_char b t = true -> after_last a t <> after_last b t.
Proof.
  intros Hab. induction t as [|c t IH]; [done|]. rewrite !has_char_cons. cbn [after_last].
  destruct (has_char a t) eqn:Ha, (has_char b t) eqn:Hb.
  - intros _ _. by apply IH.
  - rewrite orb_false_r. intros _ ->. pose proof (after_last_bound a t Ha). lia.
  - rewrite orb_false_r. intros -> _. pose proof (after_last_bound b t Hb). lia.
  - rewrite !orb_false_r. intros Hca%is_sep_eq Hcb%is_sep_eq. congruence.
Qed.

Lemma map_mark p l : has_char p l = false -> List.map (fun c => if ascii_dec c p then "."%char else c) l = l.
Proof.
  rewrite has_char_free. induction 1 as [|c l Hc Hl IH]; [done|]. cbn. destruct (ascii_dec c p); [done|]. by rewrite IH.
Qed.
Lemma one_point a b : has_char "." a = false -> has_char "." b = false -> (1 <? count_char "." (a ++ "."%char :: b))%nat = false.
Proof.
  intros Ha Hb. assert (Hz : forall l, has_char "." l = false -> count_char "." l = 0%nat).
  { unfold count_char. induction l as [|c l IH]; [done|]. rewrite has_char_cons. intros [H1 H2]%orb_false_iff.
    cbn [List.filter]. rewrite H1. by apply IH. }
  unfold count_char in *. rewrite List.filter_app. cbn [List.filter]. rewrite is_sep_refl, length_app. cbn [length].
  rewrite (Hz a Ha), (Hz b Hb). done.
Qed.

(** The later of two marks is the only one that can be decimal; taken so, the numeral means
    what the code makes of it. *)
Definition cleaned (p o : ascii) (t : bytes) : bytes :=
  List.map (fun c => if ascii_dec c p then "."%char else c) (without o t).
Lemma read_later p t : mark p -> has_char p t = true -> has_char (other p) t = true ->
  (after_last p t < after_last (other p) t)%nat ->
  read_as (other p) p t = None /\
  forall v, read_as p (other p) t = Some v -> cleaned p (other p) t = v /\ (1 <? count_char "." v)%nat = false.
Proof.
  intros Hm Hp Ho Hlt. destruct (mark_other p Hm) as (_ & Hne & _). set (o := other p) in *. unfold read_as. split.
  - destruct (split_shape o t) as [[H _]|[(h & r & E & Hh & Hr & Es)|(h & m & r & l & Es & _)]]; [congruence| |by rewrite Es].
    rewrite Es. destruct (has_char p r) eqn:Hpr; [by rewrite andb_false_r|]. exfalso.
    subst t. assert (Hf : has_char p (o :: r) = false) by (by rewrite has_char_cons, Hpr, is_sep_other).
    rewrite has_char_app, Hf, orb_false_r in Hp. rewrite (after_last_here o) in Hlt by done.
    pose proof (after_last_early p h (o :: r) Hp Hf) as H. cbn [length] in H. lia.
  - intros v Hv. destruct (split_shape p t) as [[H _]|[(h & r & E & Hh & Hr & Es)|(h & m & r & l & Es & _)]];
      [congruence| |by rewrite Es in Hv].
    rewrite Es in Hv. destruct (well_grouped o h && negb (has_char o r)) eqn:W; [|done]. injection Hv as <-.
    apply andb_true_iff in W as [_ Hor%negb_true_iff]. unfold cleaned. rewrite E, without_app, without_other by done.
    rewrite List.map_app. cbn [List.map]. destruct (ascii_dec p p); [|done].
    rewrite (without_free o r) by done.
    rewrite !map_mark by (rewrite ?(has_char_without p o); done). split; [done|].
    assert (Hfree : forall l, has_char p l = false -> has_char o l = false -> has_char "." l = false).
    { intros l H1 H2. unfold o in H2. destruct Hm as [-> | ->]; [exact H1|exact H2]. }
    apply one_point; apply Hfree; [by rewrite has_char_without|apply has_char_gone|done|done].
Qed.

(** ** The code's choice *)
Section Choice.
Context `{CaseMap}.

Lemma locale_mark loc d : decimal_separator_for loc = Some d -> mark d.
Proof.
  unfold decimal_separator_for. destruct loc as [l|]; [|done]. intros Hd.
  assert (Hc : (if in_words (locale_language l) COMMA_DECIMAL_LOCALES then Some ","%char
    else if in_words (locale_language l) DOT_DECIMAL_LOCALES then Some "."%char else None) = Some d) by (by destruct l).
  destruct (in_words _ _); [injection Hc as <-; by right|]. destruct (in_words _ _); [injection Hc as <-; by left|done].
Qed.

(** Both marks: the later is decimal, whatever the locale. *)
Lemma resolve_both loc notes t : has_char "." t = true -> has_char "," t = true ->
  exists p, mark p /\ read_as (other p) p t = None
    /\ (forall v, read_as p (other p) t = Some v -> cleaned p (other p) t = v /\ (1 <? count_char "." v)%nat = false)
    /\ (resolve_separators t loc notes).1 = (validate_single_decimal (cleaned p (other p) t) []).1.
Proof.
  intros Hd Hc. unfold resolve_separators. rewrite Hd, Hc.
  pose proof (after_last_ne "." "," t ltac:(done) Hd Hc) as Hne.
  destruct (Nat.ltb_spec (after_last "," t) (after_last "." t)).
  - exists ","%char. split; [by right|]. destruct (read_later ","%char t) as [H1 H2]; [by right|done..|].
    split; [exact H1|]. split; [exact H2|]. unfold validate_single_decimal. by destruct (_ <? _)%nat.
  - exists "."%char. split; [by left|]. destruct (read_later "."%char t) as [H1 H2]; [by left|done|done|cbn; lia|].
    split; [exact H1|]. split; [exact H2|]. unfold validate_single_decimal. by destruct (_ <? _)%nat.
Qed.

(** One kind of mark. *)
Lemma resolve_single loc notes s t : mark s -> has_char s t = true -> has_char (other s) t = false ->
  (resolve_separators t loc notes).1 =
    match split_on s t with
    | [h; r] =>
        if (length r =? 3)%nat then
          match decimal_separator_for loc with
          | None => inr (Ambiguous, SeparatorUndecided (dec h) s (dec r))
          | Some d => if ascii_dec s d then inl (h ++ "."%char :: r) else inl (h ++ r)
          end
        else inl (h ++ "."%char :: r)
    | _ => inl (without s t)
    end.
Proof.
  intros Hm Hs Ho. unfold resolve_separators.
  assert (E : match has_char "." t, has_char "," t with
    | false, false => False | true, true => False | dot, _ => (if dot then "."%char else ","%char) = s end).
  { destruct Hm as [-> | ->]; cbn in Ho; by rewrite Hs, Ho. }
  assert (Hv : forall h r l, split_on s t = [h; r] -> (validate_single_decimal (h ++ "."%char :: r) l).1 = inl (h ++ "."%char :: r)).
  { intros h r l Es. destruct (split_shape s t) as [[? _]|[(h' & r' & -> & Hh & Hr & Es')|(? & ? & ? & ? & Es' & _)]]; [congruence| |congruence].
    rewrite Es' in Es. injection Es as <- <-. unfold validate_single_decimal. rewrite one_point; [done|..];
      (rewrite has_char_app, has_char_cons in Ho; apply orb_false_iff in Ho as [Ho1 [_ Ho2]%orb_false_iff];
       destruct Hm as [-> | ->]; [by cbn in *|by cbn in *]). }
  destruct (has_char "." t), (has_char "," t); try done; subst s.
  all: destruct (split_on _ t) as [|h [|r [|x l]]] eqn:Es; try done.
  all: destruct (Nat.eqb_spec (length r) 3) as [E3|E3]; [rewrite (bool_decide_true _ E3)|rewrite (bool_decide_false _ E3)]; cbn [negb].
  all: try (rewrite Hv; done).
  all: destruct (decimal_separator_for loc) as [d|]; [|done]; destruct (ascii_dec _ d); [by rewrite Hv|done].
Qed.

Lemma mark_cases t : (has_char "." t = false /\ has_char "," t = false) \/ (has_char "." t = true /\ has_char "," t = true)
  \/ exists s, mark s /\ has_char s t = true /\ has_char (other s) t = false.
Proof using Type.
  destruct (has_char "." t) eqn:Hd, (has_char "," t) eqn:Hc; [by right; left|right; right|right; right|by left].
  - exists "."%char. split; [by left|by split].
  - exists ","%char. split; [by right|by split].
Qed.
Lemma resolve_neither loc notes t : has_char "." t = false -> has_char "," t = false ->
  (resolve_separators t loc notes).1 = inl t.
Proof. intros H1 H2. unfold resolve_separators. by rewrite H1, H2. Qed.
Lemma mark_two d p : mark d -> mark p -> d = p \/ d = other p.
Proof using Type. intros [-> | ->] [-> | ->]; auto. Qed.

(** With a locale whose language has a convention, a numeral that means something under it
    is read so. *)
Lemma resolve_with loc notes t d v : decimal_separator_for loc = Some d -> read_as d (other d) t = Some v ->
  (resolve_separators t loc notes).1 = inl v.
Proof.
  intros Hd Hv. pose proof (locale_mark _ _ Hd) as Hm. destruct (mark_other d Hm) as (Hmo & Hne & Hoo).
  destruct (mark_cases t) as [[H1 H2]|[[H1 H2]|(s & Hs & H1 & H2)]].
  - rewrite resolve_neither by done. f_equal.
    assert (Hr : read_as d (other d) t = Some t) by (apply read_plain; destruct Hm as [-> | ->]; done). congruence.
  - destruct (resolve_both loc notes t H1 H2) as (p & Hp & Hno & Hyes & ->).
    destruct (mark_two d p Hm Hp) as [-> | ->]; [|destruct (mark_other p Hp) as (_ & _ & E); rewrite E in Hv; congruence].
    destruct (Hyes v Hv) as [-> Hc]. unfold validate_single_decimal. by rewrite Hc.
  - rewrite (resolve_single loc notes s t Hs H1 H2), Hd. destruct (mark_two d s Hm Hs) as [-> | ->].
    + rewrite read_point in Hv by done. destruct (split_on s t) as [|h [|r [|x l]]]; try done. injection Hv as <-.
      destruct (ascii_dec s s); [|done]. by destruct (_ =? _)%nat.
    + destruct (mark_other s Hs) as (_ & Hso & E). rewrite E in Hv. rewrite read_group in Hv by done.
      destruct (split_shape s t) as [[? _]|[(h & r & -> & Hh & Hr & Es)|(h & m & r & l & Es & _)]]; [congruence| |].
      * rewrite Es in *. cbn [List.last] in Hv. destruct (length r =? 3)%nat; [|done]. injection Hv as <-.
        destruct (ascii_dec s (other s)); [done|]. by rewrite without_app, without_sep, !without_free.
      * rewrite Es in *. destruct (length _ =? 3)%nat; [|done]. by injection Hv as <-.
Qed.

(** Without one, a reading is returned only when no convention reads the numeral
    otherwise; the numeral is ambiguous when two conventions read it differently, and
    invalid only when none reads it. *)
Lemma resolve_without loc notes t : decimal_separator_for loc = None ->
  match (resolve_separators t loc notes).1 with
  | inl v => forall d w, mark d -> read_as d (other d) t = Some w -> w = v
  | inr (Ambiguous, _) => exists v w, read_as "." "," t = Some v /\ read_as "," "." t = Some w /\ v <> w
  | inr _ => forall d, mark d -> read_as d (other d) t = None
  end.
Proof.
  intros Hloc. destruct (mark_cases t) as [[H1 H2]|[[H1 H2]|(s & Hs & H1 & H2)]].
  - rewrite resolve_neither by done. intros d w Hm Hw. assert (Hr : read_as d (other d) t = Some t); [|congruence].
    apply read_plain; destruct Hm as [-> | ->]; done.
  - destruct (resolve_both loc notes t H1 H2) as (p & Hp & Hno & Hyes & ->).
    assert (Hd : forall d w, mark d -> read_as d (other d) t = Some w -> d = p).
    { intros d w Hm Hw. destruct (mark_two d p Hm Hp) as [->|E]; [done|]. subst d.
      destruct (mark_other p Hp) as (_ & _ & E). rewrite E in Hw. congruence. }
    unfold validate_single_decimal. destruct (1 <? _)%nat eqn:Ec; cbn [fst].
    + intros d Hm. destruct (read_as d (other d) t) as [w|] eqn:Ew; [|done].
      rewrite (Hd d w Hm Ew) in Ew. destruct (Hyes w Ew) as [E' Hc]. rewrite E' in Ec. congruence.
    + intros d w Hm Hw. pose proof (Hd d w Hm Hw) as ->. destruct (Hyes w Hw) as [E' _]. done.
  - rewrite (resolve_single loc notes s t Hs H1 H2), Hloc. destruct (mark_other s Hs) as (_ & Hso & Eso).
    pose proof (read_point s (other s) t H1 H2) as Rp. pose proof (read_group s (other s) t H1 H2) as Rg.
    assert (Hd : forall d w, mark d -> read_as d (other d) t = Some w ->
      (read_as s (other s) t = Some w) \/ read_as (other s) s t = Some w).
    { intros d w Hm Hw. destruct (mark_two d s Hm Hs) as [->|E]; [by left|right]. subst d. by rewrite Eso in Hw. }
    destruct (split_shape s t) as [[? _]|[(h & r & Et & Hh & Hr & Es)|(h & m & r & l & Es & _)]]; [congruence| |].
    + rewrite Es in *. cbn [List.last] in Rg. assert (Hw : without s t = h ++ r).
      { by rewrite Et, without_app, without_sep, !without_free. }
      rewrite Hw in Rg. destruct (length r =? 3)%nat.
      * assert (Hne : h ++ "."%char :: r <> h ++ r).
        { intros E. apply (f_equal length) in E. rewrite !length_app in E. cbn [length] in E. lia. }
        destruct Hs as [-> | ->]; cbn in Rp, Rg |- *; do 2 eexists; (split; [eassumption|]; split; [eassumption|]); congruence.
      * intros d w Hm Hdw. destruct (Hd d w Hm Hdw); congruence.
    + rewrite Es in *. intros d w Hm Hdw. destruct (Hd d w Hm Hdw) as [E|E]; [congruence|].
      rewrite Rg in E. destruct (length _ =? 3)%nat; congruence.
Qed.
End Choice.

(** * What amounts read to, and figures that read back

    The passes of [parse_amount] over a text: the ones with nothing to do leave it alone,
    the ones that have something to do take exactly that. *)
(** ** Texts with quiet ends *)

(** The first and the last character are printed ones. *)
Definition tight (t : bytes) : Prop :=
  (exists c r, t = c :: r /\ plain c) /\ exists r c, t = r ++ [c] /\ plain c.

Lemma lstrip_first ps fuel c r : forallb starts_oddly ps = true -> plain c -> lstrip_fuel ps fuel (c :: r) = c :: r.
Proof. intros Hp Hc. destruct fuel; [done|]. cbn [lstrip_fuel]. by rewrite first_prefix_plain. Qed.
Lemma strip_tight t : tight t -> strip_bytes t = t.
Proof.
  intros [(c & r & E & Hc) (r' & c' & E' & Hc')]. unfold strip_bytes, lstrip. rewrite E at 2.
  rewrite lstrip_first by (by vm_compute || done). rewrite <- E. unfold rstrip. rewrite E', List.rev_unit.
  rewrite lstrip_first by (by vm_compute || done). cbn [List.rev]. by rewrite List.rev_involutive.
Qed.
Lemma strip_space t : tight t -> strip_bytes (" "%char :: t) = t.
Proof.
  intros T. pose proof (strip_tight t T) as E. destruct T as [(c & r & Ec & Hc) _]. unfold strip_bytes, lstrip in *.
  subst t. rewrite lstrip_first in E by (by vm_compute || done).
  replace (lstrip_fuel spaces (length (" "%char :: c :: r)) (" "%char :: c :: r)) with (c :: r); [done|].
  cbn [length lstrip_fuel]. change (first_prefix spaces (" "%char :: c :: r)) with (Some (c :: r)).
  cbn [lstrip_fuel]. by rewrite first_prefix_plain by (by vm_compute || done).
Qed.

Definition ascii_text (t : bytes) : Prop := Forall (fun c => (code c < 128)%N) t.
Lemma replace_absent a p new fuel l : (128 <= code a)%N -> ascii_text l -> replace_fuel (a :: p) new fuel l = l.
Proof.
  intros Ha Hl. revert l Hl. induction fuel as [|f IH]; intros l Hl; [done|]. cbn [replace_fuel].
  destruct l as [|c l]; [done|]. apply Forall_cons in Hl as [Hc Hl]. cbn [starts_with].
  destruct (ascii_dec a c) as [->|]; [lia|]. by rewrite IH.
Qed.
Lemma replace_same c fuel l : replace_fuel [c] [c] fuel l = l.
Proof.
  revert l. induction fuel as [|f IH]; intros l; [done|]. cbn [replace_fuel]. destruct l as [|x l]; [done|].
  cbn [starts_with]. destruct (ascii_dec c x) as [->|]; cbn [app]; by rewrite IH.
Qed.
Lemma no_printed_spaces t : ascii_text t -> fold_left (fun t s => replace_text s (enc " ") t) SPACES t = t.
Proof.
  intros Ht. unfold SPACES. cbn [fold_left]. unfold replace_text.
  assert (Hu : forall n, (128 <= n < 65536)%N -> exists a p, utf8 n = a :: p /\ (128 <= code a)%N).
  { intros n Hn. unfold utf8. destruct (n <? 128)%N eqn:E1; [lia|]. destruct (n <? 2048)%N eqn:E2.
    - do 2 eexists. split; [reflexivity|]. rewrite code_chr; [lia|]. assert (n / 64 < 32)%N by (apply N.Div0.div_lt_upper_bound; lia). lia.
    - replace (n <? 65536)%N with true by lia. do 2 eexists. split; [reflexivity|]. rewrite code_chr; [lia|].
      assert (n / 4096 < 16)%N by (apply N.Div0.div_lt_upper_bound; lia). lia. }
  assert (Hr : forall n fuel l, (128 <= n < 65536)%N -> ascii_text l -> replace_fuel (utf8 n) (enc " ") fuel l = l).
  { intros n fuel l Hn Hl. destruct (Hu n Hn) as (a & p & -> & Ha). by apply replace_absent. }
  rewrite (Hr 160%N _ t), (Hr 8201%N _ t), (Hr 8239%N _ t) by (done || lia). apply replace_same.
Qed.

(** ** The sign *)
Lemma starts_other a b p l : a <> b -> starts_with (a :: p) (b :: l) = None.
Proof. intros H. cbn. by destruct (ascii_dec a b). Qed.
Lemma suffix_other a p r c : a <> c -> drop_suffix (p ++ [a]) (r ++ [c]) = None.
Proof. intros H. unfold drop_suffix. rewrite !List.rev_unit. by rewrite starts_other. Qed.
Lemma has_suffix_other a p r c : a <> c -> has_suffix (p ++ [a]) (r ++ [c]) = false.
Proof. intros H. unfold has_suffix. rewrite suffix_other by done. apply bool_decide_eq_false_2. by intros [? ?]. Qed.
Lemma has_prefix_other a b p l : a <> b -> has_prefix (a :: p) (b :: l) = false.
Proof. intros H. unfold has_prefix. rewrite starts_other by done. apply bool_decide_eq_false_2. by intros [? ?]. Qed.

(** The last character is one of a numeral's, and so is the one before a final point. *)
Definition quiet_end (t : bytes) : Prop :=
  exists r c, t = r ++ [c] /\ numeral_char c = true
    /\ (c = "."%char -> r = [] \/ exists r' c', r = r' ++ [c'] /\ numeral_char c' = true).
Definition quiet_start (t : bytes) : Prop :=
  exists c r, t = c :: r /\ plain c /\ c <> "("%char /\ c <> "-"%char /\ c <> "+"%char.

Lemma numeral_char_code c : numeral_char c = true -> (code c <= 57)%N /\ (39 <= code c)%N.
Proof.
  unfold numeral_char, is_digit, is_sep. intros Hc.
  destruct (ascii_dec c ".") as [->|]; [by vm_compute|]. destruct (ascii_dec c ",") as [->|]; [by vm_compute|].
  destruct (ascii_dec c "'") as [->|]; [by vm_compute|]. rewrite !orb_false_r in Hc. lia.
Qed.
Lemma numeral_not c x : numeral_char c = true -> (57 <? code x)%N || (code x <? 39)%N = true -> x <> c.
Proof. intros Hc%numeral_char_code Hx ->. lia. Qed.

Section Sign.
Context `{WordTable}.

Lemma debit_none t : quiet_end t -> debit_suffix t = None.
Proof.
  assert (Hd : forall c l, numeral_char c = true ->
    (match List.rev (l ++ [c]) with
     | r :: d :: before => if ends_word (List.rev before) then None
         else if bool_decide ((lower d, lower r) = ("d", "r")%char) then Some (true, List.rev before)
         else if bool_decide ((lower d, lower r) = ("c", "r")%char) then Some (false, List.rev before) else None
     | _ => None end) = None :> option (bool * bytes)).
  { intros c l Hc. rewrite List.rev_unit. destruct (List.rev l) as [|d before]; [done|].
    assert (Hr : lower c <> "r"%char).
    { apply numeral_char_code in Hc. unfold lower. replace ((65 <=? code c) && (code c <=? 90))%N with false by lia.
      intros ->. vm_compute in Hc. by destruct Hc as [[] ?]. }
    destruct (ends_word _); [done|]. rewrite !bool_decide_false by congruence. done. }
  intros (r & c & -> & Hc & Hpt). unfold debit_suffix, remove_suffix.
  destruct (ascii_dec c ".") as [->|Hne].
  - change (enc ".") with ([] ++ ["."%char]). unfold drop_suffix. rewrite !List.rev_unit. cbn [starts_with List.rev app].
    destruct (ascii_dec "." "."); [|done]. cbn [option_map from_option id]. rewrite List.rev_involutive.
    destruct (Hpt eq_refl) as [->|(r' & c' & -> & Hc')]; [done|]. by apply Hd.
  - change (enc ".") with ([] ++ ["."%char]). rewrite suffix_other by congruence. cbn [from_option]. by apply Hd.
Qed.

Lemma not_minus t : quiet_end t -> drop_suffix (enc "-") t = None.
Proof using Type. intros (r & c & -> & Hc & _). change (enc "-") with ([] ++ ["-"%char]). apply suffix_other. intros <-. by vm_compute in Hc. Qed.

(** A text with quiet ends has no sign; one with a minus in front has that one. *)
Lemma peel_sign_quiet t : quiet_start t -> quiet_end t -> peel_sign t = (t, false, []).
Proof.
  intros (c & r & -> & Hp & H1 & H2 & H3) He. unfold peel_sign.
  assert (E1 : peel_parentheses (c :: r, false, []) = (c :: r, false, [])).
  { unfold peel_parentheses. change (enc "(") with ["("%char]. by rewrite has_prefix_other by congruence. }
  rewrite E1. unfold peel_debit. rewrite debit_none by done. unfold peel_trailing_minus. rewrite not_minus by done.
  unfold peel_leading_minus. change (enc "-") with ["-"%char]. rewrite has_prefix_other by congruence.
  change MINUS with (chr 226 :: tl MINUS). rewrite has_prefix_other by (intros <-; destruct Hp as (_ & Hp & _); by vm_compute in Hp).
  cbn [orb]. unfold peel_plus. change (enc "+") with ["+"%char]. by rewrite starts_other by congruence.
Qed.
Lemma peel_sign_minus t : tight t -> quiet_start t -> (exists r c, t = r ++ [c] /\ is_digit c = true) ->
  peel_sign ("-"%char :: t) = (t, true, []).
Proof.
  intros T (c & r & -> & Hp & H1 & H2 & H3) (r' & d & E & Hd). unfold peel_sign.
  assert (He : quiet_end ("-"%char :: c :: r)).
  { exists ("-"%char :: r'), d. rewrite E. split; [done|]. unfold numeral_char. rewrite Hd. split; [done|].
    intros ->. by vm_compute in Hd. }
  unfold peel_parentheses. change (enc "(") with ["("%char]. rewrite has_prefix_other by done. cbn [andb].
  unfold peel_debit. rewrite debit_none by done. unfold peel_trailing_minus. rewrite not_minus by done.
  unfold peel_leading_minus. change (has_prefix (enc "-") ("-"%char :: c :: r)) with true. cbn [orb].
  assert (El : lstrip_fuel [enc "-"; MINUS] (length ("-"%char :: c :: r)) ("-"%char :: c :: r) = c :: r).
  { cbn [length lstrip_fuel]. change (first_prefix [enc "-"; MINUS] ("-"%char :: c :: r)) with (Some (c :: r)).
    cbn [lstrip_fuel]. assert (Ef : first_prefix [enc "-"; MINUS] (c :: r) = None); [|by rewrite Ef].
    cbn [first_prefix]. change (enc "-") with ["-"%char]. rewrite starts_other by congruence.
    change MINUS with (chr 226 :: tl MINUS).
    by rewrite starts_other by (intros <-; destruct Hp as (_ & Hp & _); by vm_compute in Hp). }
  rewrite El, strip_tight by done. unfold peel_plus. change (enc "+") with ["+"%char]. by rewrite starts_other by congruence.
Qed.
End Sign.

(** ** The currency *)
Definition starts_apart (s : bytes) : bool := match s with a :: _ => negb (numeral_char a) | [] => false end.
Definition ends_apart (s : bytes) : bool := starts_apart (List.rev s).
Lemma prefix_apart s c r : starts_apart s = true -> numeral_char c = true -> starts_with s (c :: r) = None.
Proof.
  unfold starts_apart. destruct s as [|a s]; [done|]. intros Ha Hc. apply starts_other. intros ->. by rewrite Hc in Ha.
Qed.
Lemma suffix_apart s r c : ends_apart s = true -> numeral_char c = true -> drop_suffix s (r ++ [c]) = None.
Proof. intros Hs Hc. unfold drop_suffix. rewrite List.rev_unit. by rewrite prefix_apart. Qed.
Lemma has_none {A} (o : option A) : o = None -> bool_decide (is_Some o) = false.
Proof. intros ->. apply bool_decide_eq_false_2. by intros [? ?]. Qed.

Lemma peel_symbol_none symbols t : (forall s n, (s, n) ∈ symbols -> has_prefix s t = false /\ has_suffix s t = false) ->
  peel_symbol symbols t = None.
Proof.
  induction symbols as [|[s n] symbols IH]; intros Hs; [done|]. cbn [peel_symbol].
  destruct (Hs s n) as [-> ->]; [by left|]. cbn [orb]. apply IH. intros s' n' Hin. apply (Hs s' n'). by right.
Qed.
Lemma symbols_end t : (exists r c, t = r ++ [c] /\ numeral_char c = true) ->
  forall s n, (s, n) ∈ CURRENCY_SYMBOLS -> has_suffix s t = false.
Proof.
  intros (r & c & -> & Hc) s n Hin. apply has_none, suffix_apart; [|done].
  assert (Hall : forallb (fun p => ends_apart p.1) CURRENCY_SYMBOLS = true) by (by vm_compute).
  rewrite List.forallb_forall in Hall. apply (Hall (s, n)). by apply list_elem_of_In.
Qed.
Lemma symbols_start c r : numeral_char c = true -> forall s n, (s, n) ∈ CURRENCY_SYMBOLS -> has_prefix s (c :: r) = false.
Proof.
  intros Hc s n Hin. apply has_none, prefix_apart; [|done].
  assert (Hall : forallb (fun p => starts_apart p.1) CURRENCY_SYMBOLS = true) by (by vm_compute).
  rewrite List.forallb_forall in Hall. apply (Hall (s, n)). by apply list_elem_of_In.
Qed.
Lemma prefix_short s p rest : (length s <= length p)%nat -> is_Some (starts_with s (p ++ rest)) <-> is_Some (starts_with s p).
Proof.
  revert p. induction s as [|a s IH]; intros p Hl; [cbn; split; by eexists|].
  destruct p as [|b p]; [cbn in Hl; lia|]. cbn [app starts_with]. destruct (ascii_dec a b); [|done]. apply IH. cbn in Hl. lia.
Qed.
Lemma starts_same_length a b rest : length a = length b ->
  starts_with a (b ++ rest) = if bool_decide (a = b) then Some rest else None.
Proof.
  revert b. induction a as [|x a IH]; intros [|y b] Hl; try discriminate Hl; [done|]. cbn [app starts_with].
  destruct (ascii_dec x y) as [->|Hne]; [|by rewrite bool_decide_false by congruence].
  injection Hl as Hl. rewrite IH by done. destruct (decide (a = b)) as [->|Hab]; [by rewrite !bool_decide_true|].
  rewrite !bool_decide_false; [done|congruence|done].
Qed.

(** The characters of the ASCII range are word characters as everywhere. *)
Class WordLaws `{WordTable} := word_ascii n : (n < 128)%N -> word_char n = @word_char ascii_word n.
#[export] Instance ascii_word_laws : @WordLaws ascii_word.
Proof. done. Qed.

Section Currency.
Context `{laws : WordLaws}.

Lemma peel_currency_none t : (exists c r, t = c :: r /\ numeral_char c = true) ->
  (exists r c, t = r ++ [c] /\ numeral_char c = true) -> peel_currency t = (None, t).
Proof using Type.
  intros (c & r & E & Hc) He. unfold peel_currency. rewrite peel_symbol_none.
  2: { intros s n Hin. split; [rewrite E; by eapply symbols_start|by eapply symbols_end]. }
  assert (Hcodes : forallb (fun x => starts_apart (enc x) && ends_apart (enc x)) CURRENCY_CODES = true) by (by vm_compute).
  assert (G : forall codes, forallb (fun x => starts_apart (enc x) && ends_apart (enc x)) codes = true -> peel_code codes t = None).
  { destruct He as (r' & d & E' & Hd). induction codes as [|x codes IH]; [done|]. cbn [forallb peel_code].
    intros [[H1 H2]%andb_true_iff Hx]%andb_true_iff. unfold code_first, code_last.
    rewrite E at 1. rewrite prefix_apart by done. rewrite E' at 1. rewrite suffix_apart by done. by apply IH. }
  by rewrite G.
Qed.

Lemma space_apart body : starts_word (" "%char :: body) = false.
Proof.
  unfold starts_word. change (uchars (" "%char :: body)) with (32%N :: uchars body).
  change (word_char 32%N = false). by rewrite (word_ascii 32%N).
Qed.

(** A code in front, a space, and a numeral to the end.  The Swiss franc's code is also
    among the symbols, which are tried first. *)
Lemma code_length x : x ∈ CURRENCY_CODES -> length (enc x) = 3%nat /\ ends_apart (enc x) = true.
Proof using Type.
  assert (Hall : forallb (fun x => (length (enc x) =? 3)%nat && ends_apart (enc x)) CURRENCY_CODES = true) by (by vm_compute).
  rewrite List.forallb_forall in Hall. intros Hx. specialize (Hall x). rewrite <- list_elem_of_In in Hall.
  specialize (Hall Hx). by apply andb_true_iff in Hall as [?%Nat.eqb_eq ?].
Qed.
Lemma code_not_symbol x s n : x ∈ CURRENCY_CODES -> x <> "CHF"%string -> (s, n) ∈ CURRENCY_SYMBOLS ->
  forall rest, has_prefix s (enc x ++ rest) = false.
Proof using Type.
  intros Hx Hne Hs rest.
  assert (Hall : forallb (fun x => String.eqb x "CHF" || forallb (fun p => (length p.1 <=? length (enc x))%nat && negb (has_prefix p.1 (enc x))) CURRENCY_SYMBOLS)
                   CURRENCY_CODES = true) by (by vm_compute).
  rewrite List.forallb_forall in Hall. specialize (Hall x). rewrite <- list_elem_of_In in Hall. specialize (Hall Hx).
  apply orb_true_iff in Hall as [Hall%String.eqb_eq|Hall]; [done|].
  rewrite List.forallb_forall in Hall. specialize (Hall (s, n)). rewrite <- list_elem_of_In in Hall. specialize (Hall Hs).
  apply andb_true_iff in Hall as [Hl%Nat.leb_le Hp%negb_true_iff]. cbn [fst] in *. unfold has_prefix in *.
  apply bool_decide_eq_false in Hp. apply bool_decide_eq_false_2. by rewrite prefix_short.
Qed.
Lemma peel_code_first code body codes : tight body -> (exists r c, body = r ++ [c] /\ numeral_char c = true) ->
  code ∈ CURRENCY_CODES -> code ∈ codes -> (forall x, x ∈ codes -> x ∈ CURRENCY_CODES) ->
  peel_code codes (enc code ++ " "%char :: body) = Some (code, body).
Proof.
  intros T (r & d & E & Hd) Hin. induction codes as [|x codes IH]; intros Hc Hx; [by apply elem_of_nil in Hc|].
  cbn [peel_code]. destruct (code_length x) as [Hl He]; [apply Hx; by left|]. destruct (code_length code Hin) as [Hl' _].
  assert (H1 : code_last (enc x) (enc code ++ " "%char :: body) = None /\ code_last (enc x) (" "%char :: body) = None).
  { unfold code_last. rewrite E. split.
    - replace (enc code ++ " "%char :: r ++ [d]) with ((enc code ++ " "%char :: r) ++ [d]) by (by rewrite <- app_assoc).
      by rewrite suffix_apart.
    - replace (" "%char :: r ++ [d]) with ((" "%char :: r) ++ [d]) by done. by rewrite suffix_apart. }
  destruct H1 as [H1 H2]. unfold code_first. rewrite starts_same_length by congruence. rewrite H1.
  destruct (decide (x = code)) as [->|Hne].
  - rewrite bool_decide_true by done. rewrite space_apart, H2. cbn [from_option id]. by rewrite strip_space.
  - rewrite bool_decide_false by (intros Hx'; by apply enc_inj in Hx'). apply IH; [|intros y Hy; apply Hx; by right].
    apply elem_of_cons in Hc as [->|Hc]; done.
Qed.
Lemma peel_currency_code code body : code ∈ CURRENCY_CODES -> tight body ->
  (exists r c, body = r ++ [c] /\ numeral_char c = true) ->
  peel_currency (enc code ++ " "%char :: body) = (Some code, body).
Proof.
  intros Hin T He. unfold peel_currency.
  assert (Hend : exists r c, enc code ++ " "%char :: body = r ++ [c] /\ numeral_char c = true).
  { destruct He as (r & d & -> & Hd). exists (enc code ++ " "%char :: r), d. split; [by rewrite <- app_assoc|done]. }
  pose proof (symbols_end _ Hend) as Hsuf. destruct (decide (code = "CHF"%string)) as [->|Hne].
  - assert (E : peel_symbol CURRENCY_SYMBOLS (enc "CHF" ++ " "%char :: body) = Some ("CHF"%string, body)); [|by rewrite E].
    unfold CURRENCY_SYMBOLS. cbn [peel_symbol].
    assert (H1 := Hsuf (enc "US$") "USD"%string ltac:(left)). assert (H2 := Hsuf (enc "CHF") "CHF"%string ltac:(right; left)).
    rewrite H1. change (has_prefix (enc "US$") (enc "CHF" ++ " "%char :: body)) with false.
    change (has_prefix (enc "CHF") (enc "CHF" ++ " "%char :: body)) with true. cbn [orb].
    unfold remove_prefix. change (starts_with (enc "CHF") (enc "CHF" ++ " "%char :: body)) with (Some (" "%char :: body)).
    cbn [from_option id]. destruct He as (r & d & E & Hd). unfold remove_suffix.
    replace (drop_suffix (enc "CHF") (" "%char :: body)) with (@None bytes).
    + cbn [from_option]. by rewrite strip_space.
    + rewrite E. symmetry. apply (suffix_apart (enc "CHF") (" "%char :: r) d); done.
  - rewrite peel_symbol_none; [by rewrite peel_code_first|]. intros s n Hs. split; [by eapply code_not_symbol|by eapply Hsuf].
Qed.
End Currency.
