(* ===== verification/ReadBack.v ===== *)
(** * ReadBack: amounts in words, and back

    What [money] writes, [parse_amount] reads: the cents it rounds to, the groups it cuts the
    digits in, and the whole line under the same locale. *)
From Stdlib Require Import ZArith NArith Ascii String Lia ZifyBool ZifyN ZifyNat.
From stdpp Require Import base list numbers strings.
From S2P Require Import Prelude Text Words Json Unicode Dates Decimals Schedule Quantity Normalize Render NormalizeLaws.
#[local] Open Scope list_scope.

(** ** Cents *)
Lemma coefficient_quotient c k n : (c < 10 ^ n)%N -> (k <= n)%N -> (c / 10 ^ k < 10 ^ (n - k))%N.
Proof.
  intros Hc Hk. apply N.Div0.div_lt_upper_bound. rewrite <- N.pow_add_r. by replace (k + (n - k))%N with n by lia.
Qed.
Lemma round_size c k n : (c < 10 ^ n)%N -> (0 <= k)%Z -> (Z.to_N k <= n)%N ->
  (fst (round_half_even c k) < 10 ^ (n - Z.to_N k + 1))%N.
Proof.
  intros Hc Hk Hn. unfold round_half_even, pow10. pose proof (coefficient_quotient c _ n Hc Hn) as Hq.
  rewrite N.pow_add_r. pose proof (N.pow_nonzero 10 (n - Z.to_N k)). cbn [fst].
  destruct (_ || _); lia.
Qed.
Lemma size_digits q k : (q < 10 ^ k)%N -> (Z.of_nat (ndigits q) <= Z.max 1 (Z.of_N k))%Z.
Proof.
  intros Hq. destruct (N.eq_dec q 0%N) as [->|H0]; [cbn; lia|]. pose proof (ndigits_le q k H0 Hq). lia.
Qed.
Lemma fix_keeps cx s q x : (Etiny cx <= x <= Emax)%Z -> (Z.of_nat (ndigits q) <= Z.of_N (prec cx))%Z ->
  (adjusted q x <= Emax)%Z -> fix_dec cx (Fin s q x) = Ok (Fin s q x).
Proof.
  intros Hx Hn Ha. unfold fix_dec. destruct (N.eqb_spec q 0) as [->|H0].
  - do 3 f_equal. lia.
  - destruct (Z.ltb_spec (Etop cx) (Z.of_nat (ndigits q) + x - Z.of_N (prec cx)));
      [unfold Etop, adjusted in *; lia|].
    destruct (Z.ltb_spec x (Z.max (Z.of_nat (ndigits q) + x - Z.of_N (prec cx)) (Etiny cx))); [lia|done].
Qed.

(** A finite amount below the exponent limit always rounds to cents. *)
Lemma money_value_total s c e : (adjusted c e < Emax)%Z ->
  exists q, money_value (Fin s c e) = Ok (Fin s q CENTS) /\ (Z.of_nat (ndigits q) <= Z.max 1 (adjusted c e + 4))%Z
    /\ ((-2 <= e)%Z -> q = (c * pow10 (e + 2))%N).
Proof.
  intros Ha. unfold money_value. set (cx := mkCtx _ false).
  assert (Hp : (28 <= Z.of_N (prec cx))%Z /\ (adjusted c e + 4 <= Z.of_N (prec cx))%Z).
  { unfold cx, digit_count, adjusted_of, prec. lia. }
  assert (Ht : (Etiny cx <= CENTS <= Emax)%Z) by (unfold Etiny, Emin, CENTS, Emax in *; lia).
  unfold quantize. destruct (Z.ltb_spec CENTS (Etiny cx)); [lia|]. destruct (Z.ltb_spec Emax CENTS); [lia|]. cbn [orb].
  destruct (N.eqb_spec c 0) as [->|Hc0].
  { exists 0%N. rewrite fix_keeps; [split; [done|]; split; [cbn; lia|by intros _]|done|change (ndigits 0) with 1%nat; lia|by vm_compute]. }
  destruct (Z.ltb_spec Emax (adjusted c e)); [lia|]. destruct (Z.ltb_spec (Z.of_N (prec cx)) (adjusted c e - CENTS + 1)); [unfold CENTS in *; lia|].
  set (r := if (CENTS <=? e)%Z then _ else _).
  assert (Hr : (Z.of_nat (ndigits (fst r)) <= Z.max 1 (adjusted c e + 4))%Z /\ ((-2 <= e)%Z -> fst r = (c * pow10 (e + 2))%N)).
  { unfold r. pose proof (ndigits_upper c) as Hu. unfold adjusted in *. destruct (Z.leb_spec CENTS e); unfold CENTS in *.
    - cbn [fst]. replace (e - -2)%Z with (e + 2)%Z by lia. split; [|done].
      assert (Hb : (c * pow10 (e + 2) < 10 ^ (N.of_nat (ndigits c) + Z.to_N (e + 2)))%N).
      { rewrite N.pow_add_r. unfold pow10. pose proof (N.pow_nonzero 10 (Z.to_N (e + 2))). nia. }
      apply size_digits in Hb. lia.
    - split; [|lia]. destruct (Z.ltb_spec (Z.of_nat (ndigits c) + e - -2) 0); [cbn; lia|].
      assert (Hb := round_size c (-2 - e) (N.of_nat (ndigits c)) Hu ltac:(lia) ltac:(lia)).
      apply size_digits in Hb. lia. }
  destruct r as [q changed]. cbn [fst] in Hr. destruct Hr as [Hq Hx].
  assert (Hadj : (adjusted q CENTS <= Emax)%Z) by (unfold adjusted, CENTS in *; unfold Emax in *; lia).
  destruct (Z.ltb_spec Emax (adjusted q CENTS)); [lia|].
  destruct (Z.ltb_spec (Z.of_N (prec cx)) (Z.of_nat (ndigits q))); [lia|]. rewrite andb_false_r.
  exists q. rewrite fix_keeps; [by split|done|lia|done].
Qed.

(** The plain text of an amount in cents: digits, a point and two digits. *)
Lemma cents_text q : exists ip f, dec_text (Fin false q CENTS) = ip ++ "."%char :: f
  /\ ip <> [] /\ Forall (fun c => is_digit c = true) ip /\ Forall (fun c => is_digit c = true) f /\ length f = 2%nat.
Proof.
  unfold dec_text, CENTS. pose proof (ndigits_pos q) as Hn. unfold ndigits in Hn. pose proof (digits_all q) as Hall.
  set (ds := digits_of_N q) in *. set (n := Z.of_nat (length ds)).
  replace ((-2 <=? 0)%Z && (-6 <? -2 + n)%Z) with true by lia. rewrite Z.eqb_refl, app_nil_r. cbn [app].
  destruct (Z.leb_spec (-2 + n) 0).
  - exists ["0"%char], (zeros (- (-2 + n)) ++ ds). split; [done|]. split; [done|]. split; [by repeat constructor|].
    split; [apply Forall_app; split; [apply zeros_digits|done]|].
    pose proof (zeros_length (- (-2 + n)) ltac:(lia)). rewrite length_app. unfold n in *. lia.
  - destruct (Z.leb_spec n (-2 + n)); [lia|]. change (enc ".") with ["."%char].
    exists (take (Z.to_nat (-2 + n)) ds), (drop (Z.to_nat (-2 + n)) ds).
    split; [done|]. split; [|split; [by apply Forall_take|split; [by apply Forall_drop|]]].
    + intros E. apply (f_equal length) in E. rewrite length_take in E. cbn [length] in E. unfold n in *. lia.
    + rewrite length_drop. unfold n. lia.
Qed.

(** ** Groups of three *)
Definition digits (l : bytes) : Prop := Forall (fun c => is_digit c = true) l.

Lemma groups_shape fuel l : digits l -> exists g gs, groups_of fuel l = g :: gs
  /\ List.concat (g :: gs) = List.rev l /\ Forall digits (g :: gs)
  /\ (gs <> [] -> length (List.last (g :: gs) []) = 3%nat) /\ (l <> [] -> g <> []).
Proof.
  revert l. induction fuel as [|fuel IH]; intros l Hl; cbn [groups_of].
  - exists (List.rev l), []. cbn [List.concat]. rewrite app_nil_r. split; [done|]. split; [done|].
    split; [by repeat constructor; apply Forall_rev|]. split; [done|].
    intros Hne E. apply Hne. rewrite <- (List.rev_involutive l), E. done.
  - destruct (Nat.ltb_spec 3 (length l)) as [H3|H3].
    + destruct (IH (drop 3 l)) as (g & gs & E & Hc & Hd & _ & Hg); [by apply Forall_drop|].
      rewrite E. exists g, (gs ++ [List.rev (take 3 l)]). split; [done|].
      change (g :: gs ++ [List.rev (take 3 l)]) with ((g :: gs) ++ [List.rev (take 3 l)]).
      split; [|split; [|split]].
      * rewrite List.concat_app, Hc. cbn [List.concat]. rewrite app_nil_r, <- List.rev_app_distr. by rewrite take_drop.
      * apply Forall_app. split; [done|]. constructor; [|constructor]. apply Forall_rev, Forall_take, Hl.
      * intros _. rewrite List.last_last, List.length_rev, length_take. lia.
      * intros _. apply Hg. intros E'. apply (f_equal length) in E'. rewrite length_drop in E'. cbn [length] in E'. lia.
    + exists (List.rev l), []. cbn [List.concat]. rewrite app_nil_r. split; [done|]. split; [done|].
      split; [by repeat constructor; apply Forall_rev|]. split; [done|].
      intros Hne E. apply Hne. rewrite <- (List.rev_involutive l), E. done.
Qed.

Lemma digits_free s l : is_digit s = false -> digits l -> has_char s l = false.
Proof.
  intros Hs Hl. apply has_char_free. eapply Forall_impl; [exact Hl|]. cbn beta. intros c Hc ->. congruence.
Qed.
Lemma join_groups g s p gs : join_bytes [s] (g :: p :: gs) = g ++ s :: join_bytes [s] (p :: gs).
Proof. done. Qed.
Lemma split_groups s gs : gs <> [] -> Forall (fun g => has_char s g = false) gs -> split_on s (join_bytes [s] gs) = gs.
Proof.
  intros Hne. induction 1 as [|g gs Hg Hgs IH]; [done|]. destruct gs as [|p gs].
  - cbn [join_bytes]. by apply split_one.
  - rewrite join_groups, split_two by done. by rewrite IH.
Qed.
Lemma without_join s gs : Forall (fun g => has_char s g = false) gs -> without s (join_bytes [s] gs) = List.concat gs.
Proof.
  induction 1 as [|g gs Hg Hgs IH]; [done|]. destruct gs as [|p gs].
  - cbn [join_bytes List.concat]. rewrite app_nil_r. by apply without_free.
  - rewrite join_groups, without_app, without_sep, IH. by rewrite without_free.
Qed.
Lemma join_chars (P : ascii -> Prop) s gs : P s -> Forall (Forall P) gs -> Forall P (join_bytes [s] gs).
Proof.
  intros Hs. induction 1 as [|g gs Hg Hgs IH]; [constructor|]. destruct gs as [|p gs]; [done|].
  rewrite join_groups. apply Forall_app. split; [done|]. by constructor.
Qed.

(** Digits cut in groups: they begin with a digit, are grouped well, and are the digits
    without the marks. *)
Lemma grouped_shape s ip : mark s -> ip <> [] -> digits ip ->
  (exists c r, grouped ip [s] = c :: r /\ is_digit c = true) /\ Forall (fun c => is_digit c = true \/ c = s) (grouped ip [s])
  /\ well_grouped s (grouped ip [s]) = true /\ without s (grouped ip [s]) = ip.
Proof.
  intros Hs Hne Hip. assert (Hsd : is_digit s = false) by (destruct Hs as [-> | ->]; by vm_compute).
  unfold grouped. destruct (groups_shape (length ip) (List.rev ip)) as (g & gs & E & Hc & Hd & Hl & Hg); [by apply Forall_rev|].
  rewrite E, List.rev_involutive in *.
  assert (Hfree : Forall (fun g => has_char s g = false) (g :: gs)).
  { eapply Forall_impl; [exact Hd|]. intros x Hx. by apply digits_free. }
  assert (Hg' : g <> []).
  { apply Hg. intros E'. apply Hne. rewrite <- (List.rev_involutive ip), E'. done. }
  split; [|split; [|split]].
  - destruct g as [|c g]; [done|]. apply Forall_cons in Hd as [Hd _]. apply Forall_cons in Hd as [Hd _].
    destruct gs as [|p gs]; [by exists c, g|]. rewrite join_groups. by eexists c, _.
  - apply join_chars; [by right|]. eapply Forall_impl; [exact Hd|]. intros x Hx. eapply Forall_impl; [exact Hx|].
    cbn beta. intros c Hcd. by left.
  - unfold well_grouped. rewrite split_groups by done. destruct gs as [|p gs]; [done|]. apply Nat.eqb_eq. by apply Hl.
  - by rewrite without_join.
Qed.

(** ** The line under a locale *)
Section Line.
Context `{CaseMap}.

(** The integer part as the locale groups it. *)
Definition whole_text (locale : option string) (ip : bytes) : bytes :=
  let group := (separators_for locale).2 in if bool_decide (group = []) then ip else grouped ip group.
Definition figure (locale : option string) (ip f : bytes) : bytes :=
  whole_text locale ip ++ (separators_for locale).1 :: f.

Lemma figure_shape locale ip f : ip <> [] -> digits ip -> digits f -> f <> [] ->
  Forall (fun c => is_digit c = true \/ c = "."%char \/ c = ","%char) (figure locale ip f)
  /\ (exists c r, figure locale ip f = c :: r /\ is_digit c = true)
  /\ (exists r c, figure locale ip f = r ++ [c] /\ is_digit c = true).
Proof.
  intros Hne Hip Hf Hfne. assert (Hdig : forall l, digits l -> Forall (fun c => is_digit c = true \/ c = "."%char \/ c = ","%char) l).
  { intros l Hl. eapply Forall_impl; [exact Hl|]. by left. }
  unfold figure, whole_text, separators_for. destruct (decimal_separator_for locale) as [d|] eqn:Hd; cbn [fst snd].
  - pose proof (locale_mark _ _ Hd) as Hm. destruct (mark_other d Hm) as (Hmo & _).
    change (if ascii_dec d "," then "."%char else ","%char) with (other d).
    rewrite bool_decide_false by done. destruct (grouped_shape (other d) ip Hmo Hne Hip) as ((c & r & E & Hc) & Hall & _).
    split; [|split].
    + apply Forall_app. split; [|constructor; [destruct Hm as [-> | ->]; auto|by apply Hdig]].
      eapply Forall_impl; [exact Hall|]. cbn beta. intros x [Hx| ->]; [by left|destruct Hmo as [-> | ->]; auto].
    + rewrite E. by exists c, (r ++ d :: f).
    + destruct (exists_last Hfne) as (r' & x & ->). exists (grouped ip [other d] ++ d :: r'), x.
      rewrite <- app_assoc. split; [done|]. apply Forall_app in Hf as [_ Hf]. by apply Forall_cons in Hf as [Hf _].
  - rewrite bool_decide_true by done. split; [|split].
    + apply Forall_app. split; [by apply Hdig|]. constructor; [auto|by apply Hdig].
    + destruct ip as [|c ip]; [done|]. apply Forall_cons in Hip as [Hc _]. by eexists c, _.
    + destruct (exists_last Hfne) as (r' & x & ->). exists (ip ++ "."%char :: r'), x.
      rewrite <- app_assoc. split; [done|]. apply Forall_app in Hf as [_ Hf]. by apply Forall_cons in Hf as [Hf _].
Qed.

(** Read under the locale it was written for, the figure is the plain number again. *)
Lemma figure_read locale ip f notes : ip <> [] -> digits ip -> digits f -> length f = 2%nat ->
  (resolve_separators (figure locale ip f) locale notes).1 = inl (ip ++ "."%char :: f).
Proof.
  intros Hne Hip Hf H2. unfold figure, whole_text, separators_for. destruct (decimal_separator_for locale) as [d|] eqn:Hd; cbn [fst snd].
  - pose proof (locale_mark _ _ Hd) as Hm. destruct (mark_other d Hm) as (Hmo & Hno & _).
    change (if ascii_dec d "," then "."%char else ","%char) with (other d). rewrite bool_decide_false by done.
    eapply resolve_with; [exact Hd|].
    destruct (grouped_shape (other d) ip Hmo Hne Hip) as (_ & Hall & Hw & Hwo).
    assert (Hfd : is_digit d = false) by (destruct Hm as [-> | ->]; by vm_compute).
    assert (Hfo : is_digit (other d) = false) by (destruct Hm as [-> | ->]; by vm_compute).
    unfold read_as. rewrite split_two, split_one.
    + rewrite Hw, (digits_free (other d) f) by done. cbn [andb negb]. by rewrite Hwo.
    + by apply digits_free.
    + apply has_char_free. eapply Forall_impl; [exact Hall|]. cbn beta. intros c [Hc| ->] E; congruence.
  - rewrite bool_decide_true by done. assert (Hp : has_char "." ip = false) by (by apply digits_free).
    assert (Hfp : has_char "." f = false) by (by apply digits_free).
    rewrite (resolve_single locale notes "."%char).
    + rewrite split_two, split_one by done. by rewrite H2.
    + by left.
    + by rewrite has_char_app, has_char_cons, is_sep_refl, orb_true_r.
    + change (other ".") with ","%char. rewrite has_char_app, has_char_cons, !digits_free by done. done.
Qed.
End Line.

(** ** A whole amount *)
Lemma figure_char c : (is_digit c = true \/ c = "."%char \/ c = ","%char) ->
  numeral_char c = true /\ plain c /\ c <> " "%char /\ c <> "'"%char /\ c <> "("%char /\ c <> "-"%char /\ c <> "+"%char.
Proof.
  intros [Hc|[-> | ->]]; [|by vm_compute..]. split; [unfold numeral_char; by rewrite Hc|].
  split; [by apply digit_plain|]. repeat split; intros ->; by vm_compute in Hc.
Qed.
Lemma plain_ascii t : Forall (fun c => plain c \/ c = " "%char) t -> ascii_text t.
Proof. intros Ht. eapply Forall_impl; [exact Ht|]. intros c [(_ & Hc & _)| ->]; [lia|by vm_compute]. Qed.
Lemma tight_app a b : (exists c r, a = c :: r /\ plain c) -> (exists r c, b = r ++ [c] /\ plain c) -> tight (a ++ b).
Proof.
  intros (c & r & -> & Hc) (r' & c' & -> & Hc'). split; [by eexists c, _|].
  exists ((c :: r) ++ r'), c'. by rewrite <- app_assoc.
Qed.
Lemma decimal_of_cents q : Decimal_of_text (dec_text (Fin false q CENTS)) = Ok (Fin false q CENTS).
Proof. pose proof (Decimal_str_round false q CENTS) as H. unfold Decimal_of_str, dec_str in H. by rewrite enc_dec in H. Qed.
Lemma tight_not_blank t : tight t -> blank (dec t) = false.
Proof.
  intros T. unfold blank, strip. rewrite enc_dec, strip_tight by done. destruct T as [(c & r & -> & _) _]. done.
Qed.

Section Amount.
Context `{case_map : CaseMap} `{word_table : !WordTable} `{laws : !WordLaws}.

(** The numeral's part of a line: a figure in cents, perhaps to be negated. *)
Lemma read_figure raw locale ip f q currency negative : ip <> [] -> digits ip -> digits f -> length f = 2%nat ->
  dec_text (Fin false q CENTS) = ip ++ "."%char :: f ->
  exists notes, read_numeral raw (figure locale ip f) locale currency negative []
  = let? value := if negative then dneg default_ctx (Fin false q CENTS) else Ok (Fin false q CENTS) in
    Ok (accepted (dec_str value) currency notes).
Proof using Type.
  intros Hne Hip Hf H2 E. assert (Hfne : f <> []) by (by intros ->).
  destruct (figure_shape locale ip f Hne Hip Hf Hfne) as (Hall & (c & r & Ec & Hc) & _).
  assert (Hchars : Forall (fun c => numeral_char c = true /\ plain c /\ c <> " "%char /\ c <> "'"%char /\ c <> "("%char /\ c <> "-"%char /\ c <> "+"%char)
    (figure locale ip f)) by (eapply Forall_impl; [exact Hall|]; intros x Hx; by apply figure_char).
  unfold read_numeral. rewrite (without_free " ") by (apply has_char_free; eapply Forall_impl; [exact Hchars|]; by intros x (_ & _ & Hx & _)).
  replace (numeral (figure locale ip f)) with true.
  2: { symmetry. unfold numeral. rewrite bool_decide_false by (by rewrite Ec). cbn [negb andb]. apply forallb_forall.
       intros x Hx%list_elem_of_In. rewrite Forall_forall in Hchars. by apply Hchars. }
  cbn [negb]. rewrite (without_free "'") by (apply has_char_free; eapply Forall_impl; [exact Hchars|]; by intros x (_ & _ & _ & Hx & _)).
  pose proof (figure_read locale ip f [] Hne Hip Hf H2) as Hr. destruct (resolve_separators _ _ _) as [got notes] eqn:Er.
  cbn [fst] in Hr. subst got. exists notes. rewrite <- E, decimal_of_cents. done.
Qed.

(** The line before it: a sign, a code and a space. *)
Definition line (negative : bool) (currency : string) (fig : bytes) : bytes :=
  if String.eqb currency "" then (if negative then enc "-" else []) ++ fig
  else (if negative then enc "-" else []) ++ enc currency ++ enc " " ++ fig.

Lemma code_start name : name ∈ CURRENCY_CODES ->
  exists c r, enc name = c :: r /\ Forall plain (c :: r) /\ c <> "("%char /\ c <> "-"%char /\ c <> "+"%char.
Proof using Type.
  assert (Hall : forallb (fun x => match enc x with c :: r => forallb (fun c => (65 <=? code c) && (code c <=? 90))%N (c :: r) | [] => false end)
                   CURRENCY_CODES = true) by (by vm_compute).
  rewrite List.forallb_forall in Hall. intros Hx. specialize (Hall name). rewrite <- list_elem_of_In in Hall.
  specialize (Hall Hx). destruct (enc name) as [|c r]; [done|]. exists c, r. split; [done|]. rewrite forallb_forall in Hall.
  split; [apply Forall_forall; intros x Hin%list_elem_of_In; apply Hall in Hin; unfold plain; lia|].
  specialize (Hall c (or_introl eq_refl)). repeat split; intros ->; by vm_compute in Hall.
Qed.

(** The passes over such a line leave the figure, its sign and its currency. *)
Lemma parse_line negative currency locale fig : currency = "" \/ currency ∈ CURRENCY_CODES ->
  Forall (fun c => is_digit c = true \/ c = "."%char \/ c = ","%char) fig ->
  (exists c r, fig = c :: r /\ is_digit c = true) -> (exists r c, fig = r ++ [c] /\ is_digit c = true) ->
  let text := dec (line negative currency fig) in
  parse_amount (Some text) locale None
  = read_numeral text fig locale (if String.eqb currency "" then None else Some currency) negative [].
Proof.
  intros Hcur Hall (c & r & Ec & Hc) (r' & d & Ed & Hd) text.
  assert (Hfp : Forall plain fig) by (eapply Forall_impl; [exact Hall|]; intros x Hx; apply figure_char in Hx; tauto).
  assert (Hdn : numeral_char d = true) by (unfold numeral_char; by rewrite Hd).
  (* the line after its sign *)
  set (core := if String.eqb currency "" then fig else enc currency ++ " "%char :: fig).
  assert (Hline : line negative currency fig = (if negative then enc "-" else []) ++ core)
    by (unfold line, core; by destruct (String.eqb currency "")).
  assert (Tfig : tight fig) by (split; [exists c, r; split; [done|by apply digit_plain]|exists r', d; split; [done|by apply digit_plain]]).
  assert (Hcore : tight core /\ quiet_start core /\ (exists r c, core = r ++ [c] /\ is_digit c = true)
            /\ Forall (fun c => plain c \/ c = " "%char) core
            /\ peel_currency core = (if String.eqb currency "" then None else Some currency, fig)).
  { unfold core. destruct (String.eqb_spec currency "") as [_|Hne].
    - split; [done|]. split; [|split; [by exists r', d|split; [eapply Forall_impl; [exact Hfp|by left]|]]].
      + exists c, r. split; [done|]. assert (Hq := figure_char c (or_introl Hc)). tauto.
      + apply peel_currency_none; [|by exists r', d]. exists c, r. split; [done|unfold numeral_char; by rewrite Hc].
    - destruct Hcur as [?|Hin]; [done|]. destruct (code_start currency Hin) as (k & l & E & Hp & H1 & H2 & H3).
      pose proof (Forall_inv Hp) as Hk. cbn beta in Hk.
      split; [|split; [|split; [|split]]].
      + apply tight_app; [by rewrite E; exists k, l|]. exists (" "%char :: r'), d. rewrite Ed. split; [done|by apply digit_plain].
      + rewrite E. by exists k, (l ++ " "%char :: fig).
      + exists (enc currency ++ " "%char :: r'), d. rewrite Ed, <- app_assoc. done.
      + rewrite E. apply Forall_app. split; [eapply Forall_impl; [exact Hp|by left]|].
        constructor; [by right|]. eapply Forall_impl; [exact Hfp|by left].
      + apply peel_currency_code; [done|done|]. by exists r', d. }
  destruct Hcore as (Tcore & Qcore & Ecore & Pcore & Hpeel).
  assert (Tline : tight (line negative currency fig)).
  { rewrite Hline. destruct negative; [|done]. apply tight_app; [by eexists _, _|]. by destruct Tcore as [_ ?]. }
  assert (Aline : ascii_text (line negative currency fig)).
  { rewrite Hline. apply Forall_app. split; [destruct negative; repeat constructor; by vm_compute|by apply plain_ascii]. }
  assert (Hsign : peel_sign (line negative currency fig) = (core, negative, [])).
  { rewrite Hline. destruct negative.
    - change (enc "-") with ["-"%char]. cbn [app]. by apply peel_sign_minus.
    - cbn [app]. apply peel_sign_quiet; [done|]. destruct Ecore as (x & y & -> & Hy). exists x, y. split; [done|].
      split; [unfold numeral_char; by rewrite Hy|]. intros ->. by vm_compute in Hy. }
  unfold parse_amount. cbn [from_option id]. unfold text. rewrite tight_not_blank, enc_dec by done.
  rewrite no_printed_spaces, strip_tight, Hsign, Hpeel by done. cbn [declared_currency].
  by destruct (String.eqb currency "").
Qed.
End Amount.

(** ** The claim *)
Lemma span_at_point ip f : has_char "." ip = false -> span (fun c => negb (is_sep "." c)) (ip ++ "."%char :: f) = (ip, "."%char :: f).
Proof.
  intros Hf. apply span_app; [|done]. apply has_char_free in Hf. eapply Forall_impl; [exact Hf|].
  cbn beta. intros c Hc. rewrite is_sep_other; [done|congruence].
Qed.
Lemma money_line `{CaseMap} s c e q currency locale : money_value (Fin s c e) = Ok (Fin s q CENTS) ->
  exists ip f, dec_text (Fin false q CENTS) = ip ++ "."%char :: f
  /\ ip <> [] /\ digits ip /\ digits f /\ length f = 2%nat
  /\ money (Fin s c e) currency locale = Ok (dec (line (s && (0 <? q)%N) currency (figure (Some locale) ip f))).
Proof.
  intros Hv. destruct (cents_text q) as (ip & f & E & Hne & Hip & Hf & H2). exists ip, f. repeat (split; [done|]).
  unfold money. rewrite Hv. cbn [rbind]. unfold line, figure, whole_text.
  destruct (separators_for (Some locale)) as [point group].
  rewrite (dlt_units CENTS) by (by vm_compute). cbn [rbind copy_abs fst snd]. rewrite E, span_at_point by (by apply digits_free).
  cbn [tl]. replace (units CENTS (Fin s q CENTS) <? units CENTS (Fin false 0 0))%Z with (s && (0 <? q)%N); [done|].
  unfold units, signed. change (pow10 (CENTS - CENTS)) with 1%N. destruct s; lia.
Qed.

(** C25: an amount in words reads back: whatever the locale's convention, or none, and with
    any of the known currency codes or no currency, what [money] writes for a finite amount is
    read by [parse_amount] under the same locale, with that currency, to the amount rounded
    to cents; an amount in whole cents is read back to itself.  A negative amount is one of
    less than ten to the 25, since reading negates within the context's 28 digits. *)
Theorem money_reads_back `{case_map : CaseMap} `{word_table : !WordTable} `{laws : !WordLaws} s c e currency locale :
  (adjusted c e < Emax)%Z -> (s = true -> adjusted c e < 25)%Z -> currency = "" \/ currency ∈ CURRENCY_CODES ->
  exists value text n read, money_value (Fin s c e) = Ok value /\ money (Fin s c e) currency locale = Ok text
    /\ parse_amount (Some text) (Some locale) None = Ok n /\ n_ok n = true
    /\ n_currency n = (if String.eqb currency "" then None else Some currency)
    /\ n_decimal n = Ok read /\ deq read value = Ok true
    /\ ((-2 <= e)%Z -> deq read (Fin s c e) = Ok true).
Proof.
  intros Ha Hneg Hcur. destruct (money_value_total s c e Ha) as (q & Hv & Hq & Hx).
  destruct (money_line s c e q currency locale Hv) as (ip & f & E & Hne & Hip & Hf & H2 & Hm).
  assert (Hfne : f <> []) by (by intros ->).
  destruct (figure_shape (Some locale) ip f Hne Hip Hf Hfne) as (Hall & Hstart & Hend).
  exists (Fin s q CENTS). eexists.
  destruct (read_figure (dec (line (s && (0 <? q)%N) currency (figure (Some locale) ip f))) (Some locale) ip f q
    (if String.eqb currency "" then None else Some currency) (s && (0 <? q)%N) Hne Hip Hf H2 E) as (notes & Hr).
  rewrite <- parse_line in Hr by done.
  assert (Hread : exists s' q' e', (if s && (0 <? q)%N then dneg default_ctx (Fin false q CENTS) else Ok (Fin false q CENTS)) = Ok (Fin s' q' e')
    /\ on_scale CENTS (Fin s' q' e') /\ units CENTS (Fin s' q' e') = units CENTS (Fin s q CENTS)).
  { destruct s; cbn [andb]; [destruct (N.ltb_spec 0 q)|].
    - assert (Hfit : fits default_ctx (units CENTS (Fin false q CENTS))).
      { unfold fits, units, signed. change (pow10 (CENTS - CENTS)) with 1%N. pose proof (ndigits_upper q) as Hu.
        assert (10 ^ N.of_nat (ndigits q) <= 10 ^ prec default_ctx)%N; [|lia].
        apply N.pow_le_mono_r; [done|]. cbn [prec default_ctx]. specialize (Hneg eq_refl). lia. }
      destruct (dneg_exact default_ctx CENTS (Fin false q CENTS)) as (r & Er & Hs & Hu); [by vm_compute|done|done|].
      destruct r as [s' q' e'| |]; [|done..]. exists s', q', e'. split; [done|]. split; [done|]. rewrite Hu.
      unfold units, signed. change (pow10 (CENTS - CENTS)) with 1%N. lia.
    - do 3 eexists. split; [done|]. split; [done|]. replace q with 0%N by lia. done.
    - do 3 eexists. by split. }
  destruct Hread as (s' & q' & e' & Er & Hs & Hu). rewrite Er in Hr. cbn [rbind] in Hr.
  exists (accepted (dec_str (Fin s' q' e')) (if String.eqb currency "" then None else Some currency) notes), (Fin s' q' e').
  split; [done|]. split; [done|]. split; [done|]. split; [done|]. split; [done|].
  split; [apply Decimal_str_round|]. split; [rewrite (deq_units CENTS) by done; f_equal; lia|].
  intros He. rewrite (deq_units CENTS) by done. f_equal. rewrite Hu. apply Z.eqb_eq.
  unfold units. rewrite (Hx He). change (pow10 (CENTS - CENTS)) with 1%N. unfold CENTS, signed.
  replace (e - -2)%Z with (e + 2)%Z by lia. destruct s; lia.
Qed.

Lemma money_reads_back_witness :
  exists value text n read, money_value (Fin true 123456789 (-2)) = Ok value
    /\ money (H := ascii_case) (Fin true 123456789 (-2)) "CHF" "de-DE" = Ok text
    /\ parse_amount (H := ascii_case) (H0 := ascii_word) (Some text) (Some "de-DE"%string) None = Ok n /\ n_ok n = true
    /\ n_currency n = Some "CHF"%string
    /\ n_decimal n = Ok read /\ deq read value = Ok true
    /\ ((-2 <= -2)%Z -> deq read (Fin true 123456789 (-2)) = Ok true).
Proof.
  apply (money_reads_back (case_map := ascii_case) (word_table := ascii_word) true 123456789 (-2) "CHF" "de-DE").
  - by vm_compute.
  - by vm_compute.
  - right. vm_compute. by repeat constructor.
Defined.
Example money_reads_back_text : money (H := ascii_case) (Fin true 123456789 (-2)) "CHF" "de-DE" = Ok "-CHF 1.234.567,89"%string.
Proof. by vm_compute. Qed.
