(* ===== verification/Readings.v ===== *)
(** * Readings: no figure and no date is guessed

    What [parse_amount] and [parse_date] return is the one thing the text can mean, and a
    comparison of two readings always gives a verdict. *)
From Stdlib Require Import ZArith NArith Ascii String Lia ZifyBool ZifyN ZifyNat.
From stdpp Require Import base list numbers strings.
From S2P Require Import Prelude Text Words Json Unicode Dates Decimals Schedule Quantity Normalize Render NormalizeLaws ReadBack.
#[local] Open Scope list_scope.

(** ** A numeral is a finite number or none *)
Definition numerals (l : bytes) : Prop := Forall (fun c => numeral_char c = true) l.

Lemma numerals_plain l : numerals l -> Forall plain l /\ Forall (fun c => (code c < 65)%N) l.
Proof.
  intros Hl. split; (eapply Forall_impl; [exact Hl|]); cbn beta; intros c Hc%numeral_char_code; unfold plain; lia.
Qed.
Lemma value_upper l : digits l -> (value_of_digits l < 10 ^ N.of_nat (length l))%N.
Proof.
  induction l as [|c l IH] using List.rev_ind; [done|]. intros [Hl Hc]%Forall_app. apply Forall_cons in Hc as [Hc _].
  rewrite value_of_digits_app, length_app. cbn [length]. specialize (IH Hl).
  replace (N.of_nat (length l + 1)) with (N.succ (N.of_nat (length l))) by lia. rewrite N.pow_succ_r'.
  unfold is_digit, digit_val in *. lia.
Qed.
Lemma no_exponent l e : Forall (fun c => (code c < 65)%N) l -> read_exponent l = Some e -> l = [] /\ e = 0%Z.
Proof.
  intros Hl. destruct l as [|c l]; [by intros [= <-]|]. cbn [read_exponent]. apply Forall_cons in Hl as [Hc _].
  unfold lower. replace ((65 <=? code c) && (code c <=? 90))%N with false by lia. by replace (code c =? 101)%N with false by lia.
Qed.
Lemma read_finite_small neg l d : Forall (fun c => (code c < 65)%N) l -> read_finite neg l = Some d ->
  exists c e, d = Fin neg c e /\ (e <= 0)%Z /\ (Z.of_nat (ndigits c) + e <= Z.of_nat (length l) + 1)%Z.
Proof.
  intros Hl. unfold read_finite. destruct (span is_digit l) as [ip r] eqn:E1. apply span_spec in E1 as (-> & Hip & _).
  apply Forall_app in Hl as [_ Hr].
  assert (G : forall fp r1, digits fp -> Forall (fun c => (code c < 65)%N) r1 -> (length fp <= length r)%nat ->
    (if bool_decide (ip = [] /\ fp = []) then None else match read_exponent r1 with
      | Some e => Some (Fin neg (value_of_digits (ip ++ fp)) (e - Z.of_nat (length fp))) | None => None end) = Some d ->
    exists c e, d = Fin neg c e /\ (e <= 0)%Z /\ (Z.of_nat (ndigits c) + e <= Z.of_nat (length (ip ++ r)) + 1)%Z).
  { intros fp r1 Hfp Hr1 Hlen. destruct (bool_decide _); [done|]. destruct (read_exponent r1) as [e|] eqn:E; [|done].
    intros [= <-]. apply no_exponent in E as [_ ->]; [|done]. do 2 eexists. split; [done|]. split; [lia|].
    pose proof (value_upper (ip ++ fp)) as Hv. apply size_digits in Hv; [|by apply Forall_app].
    rewrite length_app in *. lia. }
  destruct r as [|c r]; [apply (G [] []); [constructor|constructor|cbn; lia]|]. destruct (code c =? 46)%N.
  - destruct (span is_digit r) as [fp r1] eqn:E2. apply span_spec in E2 as (-> & Hfp & _).
    apply Forall_cons in Hr as [_ Hr]. apply Forall_app in Hr as [_ Hr]. apply G; [done|done|]. cbn [length]. rewrite length_app. lia.
  - apply (G [] (c :: r)); [constructor|done|cbn [length]; lia].
Qed.
Lemma numeral_number t d : numerals t -> Decimal_of_text t = Ok d ->
  exists s c e, d = Fin s c e /\ (e <= 0)%Z /\ (Z.of_nat (ndigits c) + e <= Z.of_nat (length t) + 1)%Z.
Proof.
  intros Ht. destruct (numerals_plain t Ht) as [Hp H65]. unfold Decimal_of_text.
  rewrite strip_plain, filter_plain, fold_plain by done. destruct (read_sign t) as [neg l1] eqn:Es.
  assert (Hl : Forall (fun c => (code c < 65)%N) l1 /\ (length l1 <= length t)%nat).
  { unfold read_sign in Es. destruct t as [|c t]; [by injection Es as <- <-|]. apply Forall_cons in H65 as [Hc Ht'].
    destruct (code c =? 45)%N; [injection Es as <- <-; split; [done|cbn [length]; lia]|].
    destruct (code c =? 43)%N; injection Es as <- <-; ((split; [done|cbn [length]; lia]) || (split; [by constructor|done])). }
  destruct Hl as [Hl Hlen].
  assert (Hlow : List.map lower l1 = l1).
  { clear -Hl. induction Hl as [|c l Hc Hl IH]; [done|]. cbn [List.map]. rewrite IH. f_equal.
    unfold lower. by replace ((65 <=? code c) && (code c <=? 90))%N with false by lia. }
  rewrite Hlow.
  assert (Hstart : forall a p, (65 <= code a)%N -> starts_with (a :: p) l1 = None).
  { intros a p Ha. destruct l1 as [|c l1]; [done|]. apply Forall_cons in Hl as [Hc _]. apply starts_other. intros ->. lia. }
  rewrite bool_decide_false.
  2: { intros [E|E]; rewrite E in Hl; apply Forall_cons in Hl as [Hl _]; by vm_compute in Hl. }
  change (enc "nan") with ("n"%char :: enc "an"). change (enc "snan") with ("s"%char :: enc "nan").
  rewrite !Hstart by (by vm_compute). intros H. destruct (read_finite neg l1) as [x|] eqn:E; [|done].
  injection H as <-. apply read_finite_small in E as (c & e & -> & He & Hn); [|done]. exists neg, c, e. split; [done|]. split; lia.
Qed.
Lemma Decimal_of_text_fails t e : Decimal_of_text t = Raise e -> e = InvalidOperation.
Proof.
  unfold Decimal_of_text. destruct (read_sign _) as [neg l1]. destruct (if bool_decide _ then _ else _); [done|].
  by intros [= <-].
Qed.

(** ** What the separators leave *)
Lemma resolve_chars `{CaseMap} (P : ascii -> Prop) t loc notes v : P "."%char -> Forall P t ->
  (resolve_separators t loc notes).1 = inl v -> Forall P v /\ (length v <= length t)%nat.
Proof.
  intros Hdot Ht.
  assert (Hmap : forall p l, Forall P l -> Forall P (List.map (fun c => if ascii_dec c p then "."%char else c) l)).
  { intros p l. induction 1 as [|c l Hc Hl IH]; [constructor|]. cbn. constructor; [by destruct (ascii_dec c p)|done]. }
  assert (Hwo : forall s l, Forall P l -> Forall P (without s l) /\ (length (without s l) <= length l)%nat).
  { intros s l. unfold without. induction 1 as [|c l Hc Hl [IH1 IH2]]; [by split|]. cbn [List.filter].
    destruct (is_sep s c); cbn [negb length]; (split; [by try constructor|lia]). }
  assert (Hval : forall c l, (validate_single_decimal c l).1 = inl v -> v = c).
  { intros c l. unfold validate_single_decimal. destruct (1 <? _)%nat; [done|]. by intros [= ->]. }
  destruct (mark_cases t) as [[H1 H2]|[[H1 H2]|(s & Hs & H1 & H2)]].
  - rewrite resolve_neither by done. by intros [= <-].
  - unfold resolve_separators. rewrite H1, H2. intros ->%Hval.
    destruct (Hwo (if ascii_dec (if (after_last "," t <? after_last "." t)%nat then ","%char else "."%char) "," then "."%char else ","%char) t Ht).
    split; [by apply Hmap|]. by rewrite List.length_map.
  - rewrite (resolve_single loc notes s t Hs H1 H2).
    destruct (split_shape s t) as [[? _]|[(h & r & -> & _ & _ & E)|(h & m & r & l & E & _)]]; [congruence| |].
    + rewrite E. apply Forall_app in Ht as [Hh Hr]. apply Forall_cons in Hr as [_ Hr].
      assert (G : forall mid, Forall P mid -> (length mid <= 1)%nat -> Forall P (h ++ mid ++ r) /\ (length (h ++ mid ++ r) <= length (h ++ s :: r))%nat).
      { intros mid Hm Hl. split; [by repeat (apply Forall_app; split)|]. rewrite !length_app. cbn [length]. lia. }
      assert (G1 := G ["."%char] ltac:(by repeat constructor) ltac:(cbn; lia)). assert (G0 := G [] ltac:(constructor) ltac:(cbn; lia)).
      destruct (length r =? 3)%nat; [destruct (decimal_separator_for loc) as [d|]; [destruct (ascii_dec s d)|done]|]; by intros [= <-].
    + rewrite E. intros [= <-]. by apply Hwo.
Qed.

(** ** Every pass shortens *)
Lemma starts_shorter p l r : starts_with p l = Some r -> (length r <= length l)%nat.
Proof.
  revert l. induction p as [|a p IH]; intros l; [by intros [= ->]|]. destruct l as [|b l]; [done|].
  cbn [starts_with length]. destruct (ascii_dec a b); [|done]. intros H%IH. lia.
Qed.
Lemma first_shorter ps l r : first_prefix ps l = Some r -> (length r <= length l)%nat.
Proof.
  induction ps as [|p ps IH]; [done|]. cbn [first_prefix]. destruct (starts_with p l) as [x|] eqn:E; [|done].
  intros [= <-]. by eapply starts_shorter.
Qed.
Lemma lstrip_shorter ps fuel l : (length (lstrip_fuel ps fuel l) <= length l)%nat.
Proof.
  revert l. induction fuel as [|f IH]; intros l; [done|]. cbn [lstrip_fuel].
  destruct (first_prefix ps l) as [r|] eqn:E; [|done]. apply first_shorter in E. specialize (IH r). lia.
Qed.
Lemma strip_shorter l : (length (strip_bytes l) <= length l)%nat.
Proof.
  unfold strip_bytes, rstrip, lstrip. rewrite List.length_rev. etransitivity; [apply lstrip_shorter|].
  rewrite List.length_rev. apply lstrip_shorter.
Qed.
Lemma suffix_shorter p l r : drop_suffix p l = Some r -> (length r <= length l)%nat.
Proof.
  unfold drop_suffix. destruct (starts_with _ _) as [x|] eqn:E; [|done]. intros [= <-].
  apply starts_shorter in E. by rewrite !List.length_rev in *.
Qed.
Lemma remove_prefix_shorter p l : (length (remove_prefix p l) <= length l)%nat.
Proof. unfold remove_prefix. destruct (starts_with p l) eqn:E; [by eapply starts_shorter|done]. Qed.
Lemma remove_suffix_shorter p l : (length (remove_suffix p l) <= length l)%nat.
Proof. unfold remove_suffix. destruct (drop_suffix p l) eqn:E; [by eapply suffix_shorter|done]. Qed.
Lemma replace_shorter p new l : p <> [] -> (length new <= length p)%nat -> (length (replace_text p new l) <= length l)%nat.
Proof.
  intros Hp Hn. unfold replace_text. generalize (length l) at 1 as fuel. intros fuel. revert l.
  assert (Hst : forall q l r, starts_with q l = Some r -> (length r + length q <= length l)%nat).
  { induction q as [|a q IH]; intros l r; [intros [= ->]; cbn; lia|]. destruct l as [|b l]; [done|].
    cbn [starts_with length]. destruct (ascii_dec a b); [|done]. intros H%IH. lia. }
  induction fuel as [|f IH]; intros l; [done|]. cbn [replace_fuel].
  destruct (starts_with p l) as [r|] eqn:E.
  - apply Hst in E. rewrite length_app. specialize (IH r). lia.
  - destruct l as [|c l]; [done|]. cbn [length]. specialize (IH l). lia.
Qed.
Lemma no_spaces_shorter l : (length (fold_left (fun t s => replace_text s (enc " ") t) SPACES l) <= length l)%nat.
Proof.
  unfold SPACES. cbn [fold_left]. repeat (etransitivity; [apply replace_shorter; [by vm_compute|vm_compute; lia]|]). done.
Qed.

Section Passes.
Context `{case_map : CaseMap} `{word_table : !WordTable}.
Definition shorter (p q : bytes * bool * list assumption) : Prop := (length p.1.1 <= length q.1.1)%nat.

Lemma parentheses_shorter p : shorter (peel_parentheses p) p.
Proof.
  unfold shorter.
  destruct p as [[t neg] notes]. unfold peel_parentheses. destruct (_ && _); [|done]. cbn [fst].
  etransitivity; [apply strip_shorter|]. destruct t as [|c t]; [done|]. cbn [tl length].
  assert (H : forall l : bytes, (length (removelast l) <= length l)%nat); [|specialize (H t); lia].
  induction l as [|x l IH]; [done|]. destruct l; cbn [removelast length] in *; lia.
Qed.
Lemma debit_shorter p : shorter (peel_debit p) p.
Proof using Type.
  unfold shorter.
  destruct p as [[t neg] notes]. unfold peel_debit, debit_suffix. pose proof (remove_suffix_shorter (enc ".") t) as Hs.
  destruct (List.rev (remove_suffix (enc ".") t)) as [|r [|d before]] eqn:E; [done..|].
  assert (Hb : (length before <= length t)%nat).
  { apply (f_equal length) in E. rewrite List.length_rev in E. cbn [length] in E. lia. }
  destruct (ends_word _); [done|].
  assert (Hst : (length (strip_bytes (List.rev before)) <= length t)%nat).
  { etransitivity; [apply strip_shorter|]. by rewrite List.length_rev. }
  repeat case_bool_decide; done.
Qed.
Lemma signs_shorter p : shorter (peel_plus (peel_leading_minus (peel_trailing_minus p))) p.
Proof.
  unfold shorter.
  assert (H1 : forall p, shorter (peel_trailing_minus p) p).
  { intros [[t neg] notes]. unfold shorter, peel_trailing_minus. destruct (drop_suffix _ t) eqn:E; [|done].
    cbn [fst]. etransitivity; [apply strip_shorter|]. by eapply suffix_shorter. }
  assert (H2 : forall p, shorter (peel_leading_minus p) p).
  { intros [[t neg] notes]. unfold shorter, peel_leading_minus. destruct (_ || _); [|done].
    cbn [fst]. etransitivity; [apply strip_shorter|]. apply lstrip_shorter. }
  assert (H3 : forall p, shorter (peel_plus p) p).
  { intros [[t neg] notes]. unfold shorter, peel_plus. destruct (starts_with _ t) eqn:E; [|done].
    cbn [fst]. etransitivity; [apply strip_shorter|]. by eapply starts_shorter. }
  etransitivity; [apply H3|]. etransitivity; [apply H2|]. apply H1.
Qed.
Lemma sign_shorter t : (length (peel_sign t).1.1 <= length t)%nat.
Proof using Type.
  unfold peel_sign. etransitivity;  [apply signs_shorter|]. etransitivity; [apply debit_shorter|]. apply parentheses_shorter.
Qed.
Lemma currency_shorter t : (length (peel_currency t).2 <= length t)%nat.
Proof using Type.
  unfold peel_currency.
  assert (Hs : forall syms name r, peel_symbol syms t = Some (name, r) -> (length r <= length t)%nat).
  { induction syms as [|[s n] syms IH]; intros name r; [done|]. cbn [peel_symbol]. destruct (_ || _); [|apply IH].
    intros [= <- <-]. etransitivity; [apply strip_shorter|]. etransitivity; [apply remove_suffix_shorter|]. apply remove_prefix_shorter. }
  assert (Hc : forall codes name r, peel_code codes t = Some (name, r) -> (length r <= length t)%nat).
  { assert (Hl : forall c l r, code_last c l = Some r -> (length r <= length l)%nat).
    { intros c l r. unfold code_last. destruct (drop_suffix c l) eqn:E; [|done]. destruct (ends_word _); [done|].
      intros [= <-]. by eapply suffix_shorter. }
    induction codes as [|c codes IH]; intros name r; [done|]. cbn [peel_code].
    destruct (code_first (enc c) t) as [x|] eqn:E1.
    - intros [= <- <-]. etransitivity; [apply strip_shorter|]. unfold code_first in E1.
      destruct (starts_with _ t) as [y|] eqn:E; [|done]. destruct (starts_word y); [done|]. injection E1 as <-.
      apply starts_shorter in E. destruct (code_last (enc c) y) as [z|] eqn:E2; [|done]. apply Hl in E2. cbn. lia.
    - destruct (code_last (enc c) t) as [x|] eqn:E2; [|apply IH]. intros [= <- <-].
      etransitivity; [apply strip_shorter|]. by eapply Hl. }
  destruct (peel_symbol _ t) as [[name r]|] eqn:E1; [by eapply Hs|].
  destruct (peel_code _ t) as [[name r]|] eqn:E2; [by eapply Hc|done].
Qed.

(** ** A reading, or a reason *)

(** An accepted amount carries the text of a finite decimal. *)
Definition answered (n : Normalized) : Prop :=
  n_ok n = true -> exists s c e, n_value n = Some (dec_str (Fin s c e)).

Lemma read_numeral_answers raw t loc cur negative notes : (Z.of_nat (length t) < 999999)%Z ->
  exists n, read_numeral raw t loc cur negative notes = Ok n /\ answered n.
Proof using Type.
  intros Hl. unfold read_numeral. destruct (numeral (without " " t)) eqn:Hn; cbn [negb]; [|by eexists].
  destruct (resolve_separators _ _ _) as [[v|[st why]] notes'] eqn:Er.
  2: { eexists. split; [done|]. unfold answered, n_ok. cbn.
       destruct (decide (st = Fine)) as [->|]; [|by rewrite bool_decide_false].
       exfalso. revert Er. unfold resolve_separators, validate_single_decimal.
       repeat (case_match; try done). }
  unfold numeral in Hn. apply andb_true_iff in Hn as [_ Hn].
  assert (Hwo : forall s l, (length (without s l) <= length l)%nat) by (intros; apply List.filter_length_le).
  assert (Ht : numerals (without "'" (without " " t))).
  { apply Forall_forall. intros x Hx%list_elem_of_In. unfold without in Hx. apply List.filter_In in Hx as [Hx _].
    rewrite forallb_forall in Hn. by apply Hn. }
  destruct (resolve_chars (fun c => numeral_char c = true) _ loc notes v eq_refl Ht) as [Hv Hlen]; [by rewrite Er|].
  pose proof (Hwo "'"%char (without " " t)). pose proof (Hwo " "%char t).
  destruct (Decimal_of_text v) as [d|e] eqn:Ed.
  2: { apply Decimal_of_text_fails in Ed as ->. by eexists. }
  destruct (numeral_number v d Hv Ed) as (s & c & e & -> & He & Hs).
  assert (Hfin : forall s c e, answered (accepted (dec_str (Fin s c e)) cur notes')) by (intros s' c' e' _; by do 3 eexists).
  destruct negative; cbn [rbind]; [|eexists; split; [done|apply Hfin]].
  assert (Hneg : exists s' c' e', dneg default_ctx (Fin s c e) = Ok (Fin s' c' e')).
  { assert (Hfix : forall s c e, (e <= 0)%Z -> (Z.of_nat (ndigits c) + e <= 999999)%Z ->
      exists c' e', fix_dec default_ctx (Fin s c e) = Ok (Fin s c' e')).
    { clear. intros s c e He Hs. unfold fix_dec. destruct (c =? 0)%N; [by do 2 eexists|].
      change (Z.of_N (prec default_ctx)) with 28%Z. unfold Etop, Etiny, Emax, Emin in *. change (Z.of_N (prec default_ctx)) with 28%Z.
      destruct (Z.ltb_spec (999999 - 28 + 1) (Z.of_nat (ndigits c) + e - 28)); [lia|].
      destruct (e <? _)%Z; [|by do 2 eexists].
      destruct (if (_ <? 0)%Z then (0%N, true) else _) as [q ch]. cbn [trap_inexact default_ctx]. rewrite andb_false_r.
      destruct (28 <? Z.of_nat (ndigits q))%Z.
      - destruct (Z.ltb_spec (999999 - 28 + 1) (Z.max (Z.of_nat (ndigits c) + e - 28) (-999999 - 28 + 1) + 1)); [lia|by do 2 eexists].
      - destruct (Z.ltb_spec (999999 - 28 + 1) (Z.max (Z.of_nat (ndigits c) + e - 28) (-999999 - 28 + 1))); [lia|by do 2 eexists]. }
    unfold dneg, copy_negate. destruct c as [|p].
    - destruct (Hfix false 0%N e He) as (c' & e' & ->); [lia|]. by do 3 eexists.
    - destruct (Hfix (negb s) (N.pos p) e He) as (c' & e' & ->); [lia|]. by do 3 eexists. }
  destruct Hneg as (s' & c' & e' & ->). eexists. split; [done|apply Hfin].
Qed.
End Passes.

Lemma parse_amount_answered `{case_map : CaseMap} `{word_table : !WordTable} raw loc cur :
  (Z.of_nat (length (enc (default "" raw))) < 999999)%Z ->
  exists n, parse_amount raw loc cur = Ok n /\ answered n.
Proof.
  intros Hl. unfold parse_amount. destruct (blank _); [by eexists|].
  set (t := strip_bytes _).
  assert (Ht : (length t <= length (enc (default "" raw)))%nat)
    by (unfold t; etransitivity; [apply strip_shorter|]; apply no_spaces_shorter).
  pose proof (sign_shorter t) as H1. destruct (peel_sign t) as [[t1 neg] notes]. cbn [fst] in H1.
  pose proof (currency_shorter t1) as H2. destruct (peel_currency t1) as [detected t2]. cbn [snd] in H2.
  assert (Hr : forall c, exists n, read_numeral (default "" raw) t2 loc c neg notes = Ok n /\ answered n)
    by (intros c; apply read_numeral_answers; lia).
  destruct detected as [d|]; [|apply Hr]. destruct (declared_currency cur) as [c|]; [|apply Hr].
  destruct (String.eqb d c); [apply Hr|by eexists].
Qed.

(** comparing two printed amounts always ends in a verdict.  Whatever the two texts, up
    to some million bytes each, nothing is raised: the truth does not read and there is no
    verdict, or the extraction does not read and is wrong, or both read and the verdict is
    whether the decimals are equal. *)
Theorem match_amount_gives_a_verdict `{case_map : CaseMap} `{word_table : !WordTable} extracted truth loc cur :
  (Z.of_nat (String.length extracted) < 999999)%Z -> (Z.of_nat (String.length truth) < 999999)%Z ->
  exists m ext tru, match_amount extracted truth loc cur = Ok m
    /\ parse_amount (Some extracted) loc cur = Ok ext /\ parse_amount (Some truth) loc cur = Ok tru
    /\ match n_ok tru, n_ok ext with
       | false, _ => m_normalized m = None /\ m_correct m = false
       | true, false => m_normalized m = Some false
       | true, true => exists a b same, n_decimal ext = Ok a /\ n_decimal tru = Ok b /\ deq a b = Ok same
                       /\ m_normalized m = Some same /\ m_correct m = same
       end.
Proof.
  intros He Ht.
  assert (Hlen : forall s : string, length (enc s) = String.length s) by (induction s as [|c s IH]; [done|]; cbn [String.length]; rewrite <- IH; done).
  destruct (parse_amount_answered (Some extracted) loc cur) as (ext & Ee & Ae); [cbn; by rewrite Hlen|].
  destruct (parse_amount_answered (Some truth) loc cur) as (tru & Et & At); [cbn; by rewrite Hlen|].
  unfold match_amount. rewrite Ee, Et. cbn [rbind]. unfold verdict_of.
  destruct (n_ok tru) eqn:Ot; cbn [negb].
  2: { eexists _, ext, tru. do 3 (split; [done|]). by rewrite Ot. }
  destruct (n_ok ext) eqn:Oe; cbn [negb].
  2: { eexists _, ext, tru. do 3 (split; [done|]). by rewrite Ot, Oe. }
  assert (Hd : forall n, n_ok n = true -> answered n -> exists s c e, n_decimal n = Ok (Fin s c e)).
  { intros n On An. destruct (An On) as (s & c & e & E). exists s, c, e. unfold n_decimal, n_ok in *.
    apply bool_decide_eq_true in On. rewrite On, E. apply Decimal_str_round. }
  destruct (Hd ext Oe Ae) as (s & c & e & Eext). destruct (Hd tru Ot At) as (s' & c' & e' & Etru).
  rewrite Eext, Etru. cbn [rbind]. unfold deq. cbn [is_snan orb rbind]. eexists _, ext, tru.
  do 3 (split; [done|]). rewrite Ot, Oe. do 3 eexists. split; [done|]. split; [done|]. by split.
Qed.
Lemma match_amount_gives_a_verdict_witness :
  exists m ext tru, match_amount (H := ascii_case) (H0 := ascii_word) "1.234,50 EUR" "1234.5" (Some "de"%string) None = Ok m
    /\ parse_amount (H := ascii_case) (H0 := ascii_word) (Some "1.234,50 EUR"%string) (Some "de"%string) None = Ok ext
    /\ parse_amount (H := ascii_case) (H0 := ascii_word) (Some "1234.5"%string) (Some "de"%string) None = Ok tru
    /\ match n_ok tru, n_ok ext with
       | false, _ => m_normalized m = None /\ m_correct m = false
       | true, false => m_normalized m = Some false
       | true, true => exists a b same, n_decimal ext = Ok a /\ n_decimal tru = Ok b /\ deq a b = Ok same
                       /\ m_normalized m = Some same /\ m_correct m = same
       end.
Proof.
  apply (match_amount_gives_a_verdict (case_map := ascii_case) (word_table := ascii_word)); by vm_compute.
Defined.

(** ** Numerals *)
Definition printed_numeral (t : bytes) : Prop :=
  t <> [] /\ Forall (fun c => is_digit c = true \/ c = "."%char \/ c = ","%char) t.

Lemma parse_printed `{case_map : CaseMap} `{word_table : !WordTable} t loc cur : printed_numeral t ->
  exists why, parse_amount (Some (dec t)) loc cur
  = match (resolve_separators t loc []).1 with
    | inl v => match Decimal_of_text v with
               | Ok value => Ok (accepted (dec_str value) (declared_currency cur) (resolve_separators t loc []).2)
               | Raise _ => Ok (refused Invalid why None (resolve_separators t loc []).2) end
    | inr (st, why) => Ok (refused st why (declared_currency cur) (resolve_separators t loc []).2)
    end.
Proof.
  intros [Hne Hall].
  assert (Hc : Forall (fun c => numeral_char c = true /\ plain c /\ c <> " "%char /\ c <> "'"%char /\ c <> "("%char /\ c <> "-"%char /\ c <> "+"%char) t)
    by (eapply Forall_impl; [exact Hall|]; intros x Hx; by apply figure_char).
  destruct (exists_last Hne) as (r & c & Er).
  destruct t as [|a t]; [done|]. pose proof (Forall_inv Hc) as Ha. cbn beta in Ha.
  assert (Hc' : numeral_char c = true /\ plain c) by (rewrite Er in Hc; apply Forall_app in Hc as [_ Hc]; apply Forall_inv in Hc; tauto).
  assert (T : tight (a :: t)) by (split; [exists a, t; tauto|exists r, c; tauto]).
  assert (Q : quiet_end (a :: t)).
  { exists r, c. split; [done|]. split; [tauto|]. intros _. destruct r as [|x r _] using List.rev_ind; [by left|right].
    exists r, x. split; [done|]. rewrite Er in Hc. rewrite <- app_assoc in Hc. apply Forall_app in Hc as [_ Hc].
    apply Forall_inv in Hc. tauto. }
  unfold parse_amount. cbn [from_option id]. rewrite tight_not_blank, enc_dec by done.
  rewrite no_printed_spaces, strip_tight, peel_sign_quiet by
    (done || (exists a, t; tauto) || (apply plain_ascii; eapply Forall_impl; [exact Hc|]; cbn beta; tauto)).
  rewrite peel_currency_none by ((exists a, t; tauto) || (exists r, c; tauto)). unfold read_numeral.
  rewrite (without_free " ") by (apply has_char_free; eapply Forall_impl; [exact Hc|]; cbn beta; tauto).
  replace (numeral (a :: t)) with true.
  2: { symmetry. unfold numeral. rewrite bool_decide_false by done. cbn [negb andb]. apply forallb_forall.
       intros x Hx%list_elem_of_In. rewrite Forall_forall in Hc. by apply Hc. }
  cbn [negb]. rewrite (without_free "'") by (apply has_char_free; eapply Forall_impl; [exact Hc|]; cbn beta; tauto).
  destruct (resolve_separators _ _ _) as [[v|[st why]] notes]; cbn [fst snd]; [|by exists EmptyValue].
  exists (Unparseable (dec v)). destruct (Decimal_of_text v) as [x|e] eqn:E; [done|].
  by apply Decimal_of_text_fails in E as ->.
Qed.

(** C26: a printed numeral is never guessed.  Under a locale whose language has a decimal
    convention, a numeral that is a number by it is accepted as that number.  Without one, it
    is accepted only as what every convention that can read it reads, called ambiguous only
    with two conventions that read it differently, and invalid only when it is a number under
    none. *)
Theorem amounts_are_never_guessed `{case_map : CaseMap} `{word_table : !WordTable} t loc cur : printed_numeral t ->
  exists n, parse_amount (Some (dec t)) loc cur = Ok n
  /\ match decimal_separator_for loc with
     | Some d => forall v x, read_as d (other d) t = Some v -> Decimal_of_text v = Ok x ->
         n_ok n = true /\ n_value n = Some (dec_str x) /\ n_currency n = declared_currency cur
     | None =>
         match n_status n with
         | Fine => forall d v x, mark d -> read_as d (other d) t = Some v -> Decimal_of_text v = Ok x -> n_value n = Some (dec_str x)
         | Ambiguous => exists v w, read_as "." "," t = Some v /\ read_as "," "." t = Some w /\ v <> w
         | Invalid => forall d v, mark d -> read_as d (other d) t = Some v -> Decimal_of_text v = Raise InvalidOperation
         end
     end.
Proof.
  intros Hp. destruct (parse_printed t loc cur Hp) as (why & ->).
  destruct (decimal_separator_for loc) as [d|] eqn:Hd.
  - destruct (resolve_separators t loc []) as [[v|[st y]] notes] eqn:Er; cbn [fst snd].
    + destruct (Decimal_of_text v) as [x|e] eqn:E; eexists; (split; [done|]); intros w y Hw Hy;
        pose proof (resolve_with loc [] t d w Hd Hw) as Hr; rewrite Er in Hr; injection Hr as <-; rewrite E in Hy; [|done].
      by injection Hy as <-.
    + eexists. split; [done|]. intros w x Hw _. pose proof (resolve_with loc [] t d w Hd Hw) as Hr. by rewrite Er in Hr.
  - pose proof (resolve_without loc [] t Hd) as Hr.
    destruct (resolve_separators t loc []) as [[v|[st y]] notes]; cbn [fst snd] in *.
    + destruct (Decimal_of_text v) as [x|e] eqn:E; eexists; (split; [done|]); cbn [n_status accepted refused].
      * intros d w x' Hm Hw Hx. pose proof (Hr d w Hm Hw) as ->. rewrite E in Hx. by injection Hx as <-.
      * intros d w Hm Hw. pose proof (Hr d w Hm Hw) as ->. by apply Decimal_of_text_fails in E as Ee; rewrite E, Ee.
    + eexists. split; [done|]. destruct st; cbn [n_status refused]; [|exact Hr|].
      * intros d v x Hm Hv. rewrite (Hr d Hm) in Hv. done.
      * intros d v Hm Hv. rewrite (Hr d Hm) in Hv. done.
Qed.
Lemma amounts_are_never_guessed_witness :
  exists n, parse_amount (H := ascii_case) (H0 := ascii_word) (Some (dec (enc "1,234"))) None None = Ok n
  /\ match decimal_separator_for (H := ascii_case) None with
     | Some d => forall v x, read_as d (other d) (enc "1,234") = Some v -> Decimal_of_text v = Ok x ->
         n_ok n = true /\ n_value n = Some (dec_str x) /\ n_currency n = None
     | None =>
         match n_status n with
         | Fine => forall d v x, mark d -> read_as d (other d) (enc "1,234") = Some v -> Decimal_of_text v = Ok x -> n_value n = Some (dec_str x)
         | Ambiguous => exists v w, read_as "." "," (enc "1,234") = Some v /\ read_as "," "." (enc "1,234") = Some w /\ v <> w
         | Invalid => forall d v, mark d -> read_as d (other d) (enc "1,234") = Some v -> Decimal_of_text v = Raise InvalidOperation
         end
     end.
Proof.
  apply (amounts_are_never_guessed (case_map := ascii_case) (word_table := ascii_word)). split; [done|].
  constructor; [by left|]. constructor; [by right; right|]. repeat (constructor; [by left|]). constructor.
Defined.

(** ** Observed readings *)

(** The canonical value is not always a plain decimal string. *)
Lemma small_amount_has_exponent : exists n,
  parse_amount (H := ascii_case) (H0 := ascii_word) (Some "0.0000001"%string) None None = Ok n /\ n_value n = Some "1E-7"%string.
Proof. eexists. split; vm_compute; reflexivity. Qed.
(** A currency code beyond the ten known ones is written and not read. *)
Lemma unknown_code_unread : exists n,
  money (H := ascii_case) (Fin false 1200 (-2)) "SGD" "en" = Ok "SGD 12.00"%string
  /\ parse_amount (H := ascii_case) (H0 := ascii_word) (Some "SGD 12.00"%string) (Some "en"%string) None = Ok n /\ n_ok n = false.
Proof. eexists. split; [|split]; vm_compute; reflexivity. Qed.
(** A negative amount of more than 28 digits is rounded, the positive one is not. *)
Lemma long_negative_rounds : exists n m,
  parse_amount (H := ascii_case) (H0 := ascii_word) (Some "-12345678901234567890123456789.5"%string) (Some "en"%string) None = Ok n
  /\ parse_amount (H := ascii_case) (H0 := ascii_word) (Some "12345678901234567890123456789.5"%string) (Some "en"%string) None = Ok m
  /\ n_value n = Some "-1.234567890123456789012345679E+28"%string /\ n_value m = Some "12345678901234567890123456789.5"%string.
Proof. do 2 eexists. split; [|split; [|split]]; vm_compute; reflexivity. Qed.
(** A figure of three decimals printed without a convention does not read back without one. *)
Lemma canonical_is_ambiguous : exists n,
  separators_for (H := ascii_case) None = ("."%char, [])
  /\ parse_amount (H := ascii_case) (H0 := ascii_word) (Some "1.234"%string) None None = Ok n /\ n_status n = Ambiguous.
Proof. eexists. split; [|split]; vm_compute; reflexivity. Qed.
