(* ===== verification/ReadDates.v ===== *)
(** * ReadDates: no date is guessed

    The two orders a numeric date can be read in, and what [parse_date] makes of them. *)
From Stdlib Require Import ZArith NArith Ascii String Lia ZifyBool ZifyN ZifyNat.
From stdpp Require Import base list numbers strings.
From S2P Require Import Prelude Text Words Json Unicode Dates Decimals Schedule Quantity Normalize Render.
#[local] Open Scope list_scope.

(** ** A day of the calendar *)
Definition calendar (y m d : Z) : bool := ((1 <=? m) && (m <=? 12) && (1 <=? d) && (d <=? days_in_month y m))%Z.

Lemma make_date_reads y m d notes : (0 <= y)%Z ->
  if calendar y m d then make_date y m d notes = accepted (isoformat (mkDate y m d)) None notes
  else n_status (make_date y m d notes) = Invalid.
Proof.
  intros Hy. unfold make_date, calendar.
  destruct ((1 <=? m) && (m <=? 12))%Z eqn:Hm; cbn [negb]; [|done].
  assert (Hd : forall k, nth (Z.to_nat (m - 1)) DAYS_IN_MONTH 0%Z = k ->
    days_in_month y m = if (m =? 2)%Z && negb (is_leap y) then 28%Z else k).
  { intros k <-. assert (Hc : m ∈ [1;2;3;4;5;6;7;8;9;10;11;12]%Z) by (rewrite !elem_of_cons; lia).
    unfold days_in_month. repeat (apply elem_of_cons in Hc as [->|Hc]; [by destruct (is_leap y)|]). by apply elem_of_nil in Hc. }
  rewrite (Hd _ eq_refl). set (k := nth _ _ _).
  assert (Hk : m = 2%Z -> k = 29%Z) by (by intros ->).
  assert (Hval : dec (zero_padded 4 y ++ "-"%char :: zero_padded 2 m ++ "-"%char :: zero_padded 2 d)%list
                 = isoformat (mkDate y m d) \/ (d < 0)%Z).
  { destruct (Z.ltb_spec d 0); [by right|left]. unfold zero_padded, isoformat. cbn [year month day].
    replace (y <? 0)%Z with false by lia. replace (m <? 0)%Z with false by lia. by replace (d <? 0)%Z with false by lia. }
  destruct (Z.leb_spec 1 d); cbn [andb negb].
  2: { done. }
  destruct Hval as [Hval|]; [|lia]. destruct (Z.leb_spec d k); cbn [negb].
  - destruct (Z.eqb_spec m 2); cbn [andb].
    + specialize (Hk e). destruct (is_leap y) eqn:Hl; cbn [negb].
      * rewrite andb_false_r. replace (d <=? k)%Z with true by lia. by rewrite Hval.
      * rewrite andb_true_r. destruct (Z.eqb_spec d 29); [by replace (d <=? 28)%Z with false by lia|].
        replace (d <=? 28)%Z with true by lia. by rewrite Hval.
    + replace (d <=? k)%Z with true by lia. by rewrite Hval.
  - destruct ((m =? 2)%Z && negb (is_leap y)) eqn:E.
    + apply andb_true_iff in E as [E%Z.eqb_eq _]. specialize (Hk E). by replace (d <=? 28)%Z with false by lia.
    + by replace (d <=? k)%Z with false by lia.
Qed.
Lemma calendar_small y m d : (1 <= m <= 12)%Z -> (1 <= d <= 12)%Z -> calendar y m d = true.
Proof.
  intros Hm Hd. unfold calendar, days_in_month.
  destruct (m =? 2)%Z; [destruct (is_leap y); lia|]. destruct ((m =? 4) || (m =? 6) || (m =? 9) || (m =? 11))%Z; lia.
Qed.
Lemma calendar_month y m d : calendar y m d = true -> (1 <= m <= 12)%Z.
Proof. unfold calendar. lia. Qed.

(** ** Two orders *)

(** What [ordered_date] may answer for the two fields [a] and [b] of year [y]. *)
Definition month_first `{CaseMap} (locale : option string) : bool := in_words (normalize_locale locale) MONTH_FIRST_LOCALES.
Definition named (locale : option string) : bool := match locale with None | Some "" => false | Some _ => true end.
Definition order_ok `{CaseMap} (a b y : Z) (locale : option string) (n : Normalized) : Prop :=
  match n_status n with
  | Fine => exists m d, (m = a /\ d = b \/ m = b /\ d = a) /\ calendar y m d = true
      /\ n_value n = Some (isoformat (mkDate y m d))
      /\ (calendar y d m = true -> d <> m -> named locale || month_first locale = true /\ m = if month_first locale then a else b)
  | Ambiguous => named locale = false /\ calendar y a b = true /\ calendar y b a = true /\ a <> b
  | Invalid => calendar y a b = false /\ calendar y b a = false
  end.

Lemma ordered_date_ok `{CaseMap} raw a b y locale notes first second : (0 <= y)%Z ->
  order_ok a b y locale (ordered_date raw a b y locale notes first second).
Proof.
  intros Hy. unfold ordered_date.
  assert (Hone : forall m d n, (m = a /\ d = b \/ m = b /\ d = a) -> calendar y d m = false \/ d = m \/
      named locale || month_first locale = true /\ m = (if month_first locale then a else b) /\ calendar y m d = true ->
    order_ok a b y locale (make_date y m d n)).
  { intros m d n Hmd Hother. pose proof (make_date_reads y m d n Hy) as Hr. unfold order_ok.
    destruct (calendar y m d) eqn:Hc.
    - rewrite Hr. cbn [n_status accepted n_value]. exists m, d. split; [done|]. split; [done|]. split; [done|].
      intros H1 H2. destruct Hother as [E|[E|(E1 & E2 & _)]]; [congruence|done|by split].
    - rewrite Hr. assert (calendar y d m = false) by (destruct Hother as [E|[E|(_ & _ & E)]]; [done|subst; done|congruence]).
      by destruct Hmd as [[-> ->]|[-> ->]]. }
  assert (Hnot : forall m d, ((1 <=? m) && (m <=? 12))%Z = false -> calendar y m d = false).
  { intros m d Hm. unfold calendar. by rewrite Hm. }
  destruct ((1 <=? a) && (a <=? 12))%Z eqn:Ha, ((1 <=? b) && (b <=? 12))%Z eqn:Hb; cbn [andb negb].
  - destruct (Z.eqb_spec a b) as [->|Hab]; [apply Hone; auto|].
    assert (C1 : calendar y a b = true) by (apply calendar_small; lia).
    assert (C2 : calendar y b a = true) by (apply calendar_small; lia).
    fold (month_first locale). destruct (month_first locale) eqn:Hm; [apply Hone; [auto|right; right; split; [by rewrite orb_true_r|by split]]|].
    destruct locale as [[|c l]|]; [|apply Hone; [auto|right; right; by split]|]; unfold order_ok; cbn; auto.
  - apply Hone; [auto|left; by apply Hnot].
  - apply Hone; [auto|left; by apply Hnot].
  - unfold order_ok. cbn. split; by apply Hnot.
Qed.

(** ** Numeric dates *)
Definition numeric_text (raw : string) : list N := uchars (strip_bytes (enc raw)).
Lemma take_while_spec f l a r : take_while f l = (a, r) -> l = a ++ r /\ Forall (fun c => f c = true) a
  /\ match r with c :: _ => f c = false | [] => True end.
Proof.
  revert a r. induction l as [|c l IH]; intros a r; cbn [take_while]; [by intros [= <- <-]|].
  destruct (f c) eqn:Hc; [|by intros [= <- <-]]. destruct (take_while f l) as [a' r'] eqn:E.
  intros [= <- <-]. destruct (IH a' r' eq_refl) as (-> & Ha & Hr). split; [done|]. split; [by constructor|done].
Qed.
Lemma field_of_spec lo hi l v r : field_of lo hi l = Some (v, r) ->
  exists ds, take_while is_decimal l = (ds, r) /\ (lo <= length ds <= hi)%nat /\ v = digits_value ds.
Proof.
  unfold field_of. destruct (take_while is_decimal l) as [ds r'] eqn:E. destruct (run_of lo hi ds) eqn:Hr; [|done].
  intros [= <- <-]. exists ds. split; [done|]. unfold run_of in Hr. split; [lia|done].
Qed.
Lemma digits_value_nonneg l : (0 <= digits_value l)%Z.
Proof.
  unfold digits_value. assert (G : forall acc, (0 <= acc -> 0 <= fold_left (fun n c => n * 10 + Z.of_N (default 0%N (decimal_digit c))) l acc)%Z); [|by apply G].
  induction l as [|c l IH]; intros acc Ha; cbn [fold_left]; [done|]. apply IH. lia.
Qed.

(** A digit starts no month name, no gap before one and no separator. *)
Lemma decimal_apart c : is_decimal c = true -> name_gap c = false /\ letter c = false /\ date_sep c = false.
Proof.
  assert (Hall : forallb (fun z => forallb (fun k => negb (name_gap (z + k)) && negb (letter (z + k)) && negb (date_sep (z + k)))
                   [0;1;2;3;4;5;6;7;8;9]%N) decimal_zeros = true) by (by vm_compute).
  unfold is_decimal, decimal_digit. destruct (List.find _ decimal_zeros) as [z|] eqn:E; [|done]. intros _.
  apply List.find_some in E as [Hin Hz]. rewrite List.forallb_forall in Hall. specialize (Hall z Hin).
  rewrite List.forallb_forall in Hall. specialize (Hall (c - z)%N). replace (z + (c - z))%N with c in Hall by lia.
  assert (Hk : List.In (c - z)%N [0;1;2;3;4;5;6;7;8;9]%N) by (cbn [List.In]; lia). specialize (Hall Hk).
  apply andb_true_iff in Hall as [[H1%negb_true_iff H2%negb_true_iff]%andb_true_iff H3%negb_true_iff]. done.
Qed.

(** One or two digits, a separator, and a digit. *)
Definition numeric_start (l : list N) : Prop := exists ds s c r,
  take_while is_decimal l = (ds, s :: c :: r) /\ (1 <= length ds <= 2)%nat /\ date_sep s = true /\ is_decimal c = true.

Lemma take_while_stop f c r : f c = false -> take_while f (c :: r) = ([], c :: r).
Proof. cbn. by intros ->. Qed.
Lemma field_start l v r s r' : field_of 1 2 l = Some (v, s :: r) -> date_sep s = true ->
  forall lo hi, (1 <= lo)%nat -> field_of lo hi r = Some r' -> numeric_start l.
Proof.
  intros (ds & E & Hl & _)%field_of_spec Hs lo hi Hlo H2. destruct r' as [v' r'].
  apply field_of_spec in H2 as (ds' & E' & Hl' & _). destruct r as [|c r].
  - cbn in E'. injection E' as <- <-. cbn in Hl'. lia.
  - cbn in E'. destruct (is_decimal c) eqn:Hc; [by exists ds, s, c, r|]. injection E' as <- <-. cbn in Hl'. lia.
Qed.
Lemma numeric_not_year l : numeric_start l -> three_fields 4 4 1 2 1 2 l = None.
Proof.
  intros (ds & s & c & r & E & Hl & _ & _). unfold three_fields, field_of. rewrite E. unfold run_of.
  by replace ((4 <=? length ds)%nat && (length ds <=? 4)%nat) with false by lia.
Qed.
Lemma numeric_not_named l : numeric_start l -> named_date l = None.
Proof.
  intros (ds & s & c & r & E & Hl & Hs & Hc). unfold named_date. rewrite E.
  destruct (decimal_apart c Hc) as (Hg & Hlet & _).
  assert (Hname : forall x l', is_decimal x = true -> take_while letter (x :: l') = ([], x :: l')).
  { intros x l' Hx. apply take_while_stop. by apply decimal_apart. }
  assert (Hr : exists before x l', (let '(gap, r') := take_while name_gap (s :: c :: r) in
     if run_of 1 2 ds && negb (bool_decide (gap = [])) then (Some (digits_value ds), r') else (None, l)) = (before, x :: l')
     /\ is_decimal x = true).
  { cbn [take_while]. rewrite Hg. destruct (name_gap s).
    - unfold run_of. replace ((1 <=? length ds)%nat && (length ds <=? 2)%nat) with true by lia.
      rewrite bool_decide_false by done. cbn. by do 3 eexists.
    - rewrite bool_decide_true, andb_false_r by done. apply take_while_spec in E as (-> & Hd & _).
      destruct ds as [|x ds]; [cbn in Hl; lia|]. apply Forall_cons in Hd as [Hd _]. by do 3 eexists. }
  destruct Hr as (before & x & l' & -> & Hx). by rewrite Hname.
Qed.

(** The two fields and the year a numeric date shows. *)
Definition numeric_date (raw : string) (default_year : option Z) : option (Z * Z * Z) :=
  match three_fields 1 2 1 2 2 4 (numeric_text raw) with
  | Some (a, b, y) => Some (a, b, if (y <? 100)%Z then y + 2000 else y)%Z
  | None => match two_fields (numeric_text raw), default_year with
            | Some (a, b), Some y => Some (a, b, y)
            | _, _ => None
            end
  end.
Lemma three_fields_start lc hc l a b y : three_fields 1 2 1 2 lc hc l = Some (a, b, y) -> numeric_start l /\ (0 <= y)%Z.
Proof.
  unfold three_fields. destruct (field_of 1 2 l) as [[a' r1]|] eqn:E1; [|done].
  destruct (after_sep r1) as [r2|] eqn:E2; [|done]. destruct (field_of 1 2 r2) as [[b' r3]|] eqn:E3; [|done].
  destruct (after_sep r3) as [r4|]; [|done]. destruct (field_of lc hc r4) as [[c' [|]]|] eqn:E5; [|done..]. intros [= <- <- <-].
  unfold after_sep in E2. destruct r1 as [|s r1]; [done|]. destruct (date_sep s) eqn:Hs; [|done]. injection E2 as <-.
  split; [eapply field_start; [exact E1|exact Hs| |exact E3]; lia|].
  apply field_of_spec in E5 as (ds & _ & _ & ->). apply digits_value_nonneg.
Qed.
Lemma two_fields_start l a b : two_fields l = Some (a, b) -> numeric_start l.
Proof.
  unfold two_fields. destruct (field_of 1 2 l) as [[a' r1]|] eqn:E1; [|done].
  destruct (after_sep r1) as [r2|] eqn:E2; [|done]. destruct (field_of 1 2 r2) as [[b' [|]]|] eqn:E3; [|done..]. intros _.
  unfold after_sep in E2. destruct r1 as [|s r1]; [done|]. destruct (date_sep s) eqn:Hs; [|done]. injection E2 as <-.
  eapply field_start; [exact E1|exact Hs| |exact E3]; lia.
Qed.
Lemma numeric_not_blank l : numeric_start l -> l <> [].
Proof. intros (ds & s & c & r & E & _) ->. done. Qed.

(** C27: a numeric date is never guessed.  Of the two orders its fields can be read in, an
    accepted date is one that is a day of the calendar; when the other order is a day too and
    another one, a locale was given and it is the order the locale names.  It is called
    ambiguous exactly when both are days, different ones, and no locale was given, and invalid
    only when neither is a day. *)
Theorem dates_are_never_guessed `{CaseMap} raw a b y locale default_year :
  match default_year with Some dy => (0 <= dy)%Z | None => True end ->
  numeric_date raw default_year = Some (a, b, y) ->
  let n := parse_date (Some raw) locale default_year in
  match n_status n with
  | Fine => exists m d, (m = a /\ d = b \/ m = b /\ d = a) /\ calendar y m d = true
      /\ n_value n = Some (isoformat (mkDate y m d))
      /\ (calendar y d m = true -> d <> m -> named locale || month_first locale = true /\ m = if month_first locale then a else b)
  | Ambiguous => named locale = false /\ calendar y a b = true /\ calendar y b a = true /\ a <> b
  | Invalid => calendar y a b = false /\ calendar y b a = false
  end.
Proof.
  intros Hdy Hn. cbn zeta. change (order_ok a b y locale (parse_date (Some raw) locale default_year)).
  assert (Hs : numeric_start (numeric_text raw)).
  { unfold numeric_date in Hn. destruct (three_fields 1 2 1 2 2 4 (numeric_text raw)) as [[[a' b'] y']|] eqn:E; [by apply three_fields_start in E as [? _]|].
    destruct (two_fields (numeric_text raw)) as [[a' b']|] eqn:E2; [|done]. by eapply two_fields_start. }
  unfold parse_date. cbn [from_option id]. fold (numeric_text raw).
  assert (Hb : blank raw = false).
  { apply bool_decide_eq_false_2. unfold strip. intros E. apply numeric_not_blank in Hs. apply Hs. unfold numeric_text.
    rewrite <- (enc_dec (strip_bytes (enc raw))), E. done. }
  rewrite Hb, numeric_not_year, numeric_not_named by done. unfold numeric_date in Hn.
  destruct (three_fields 1 2 1 2 2 4 (numeric_text raw)) as [[[a' b'] y']|] eqn:E.
  - injection Hn as <- <- <-. apply three_fields_start in E as [_ Hy]. destruct (y' <? 100)%Z; apply ordered_date_ok; lia.
  - destruct (two_fields (numeric_text raw)) as [[a' b']|]; [|done]. destruct default_year as [dy|]; [|done].
    injection Hn as <- <- <-. by apply ordered_date_ok.
Qed.
Lemma dates_are_never_guessed_witness :
  let n := parse_date (H := ascii_case) (Some "03/04/2026"%string) None None in
  match n_status n with
  | Fine => exists m d, (m = 3 /\ d = 4 \/ m = 4 /\ d = 3)%Z /\ calendar 2026 m d = true
      /\ n_value n = Some (isoformat (mkDate 2026 m d))
      /\ (calendar 2026 d m = true -> d <> m -> named None || month_first (H := ascii_case) None = true /\ m = (if month_first (H := ascii_case) None then 3 else 4)%Z)
  | Ambiguous => named None = false /\ calendar 2026 3 4 = true /\ calendar 2026 4 3 = true /\ 3%Z <> 4%Z
  | Invalid => calendar 2026 3 4 = false /\ calendar 2026 4 3 = false
  end.
Proof.
  apply (dates_are_never_guessed (H := ascii_case) "03/04/2026" 3 4 2026 None None); [done|by vm_compute].
Defined.

(** ** Observed readings *)

(** Year zero is accepted, and is no date of the calendar library. *)
Lemma year_zero_accepted :
  let n := parse_date (H := ascii_case) (Some "0000-01-01"%string) None None in
  n_value n = Some "0000-01-01"%string /\ fromisoformat "0000-01-01" = Raise ValueError.
Proof. by split. Qed.
(** A second day beside the month's name is dropped. *)
Lemma second_day_dropped :
  n_value (parse_date (H := ascii_case) (Some "5 Jan 7 2026"%string) None None) = Some "2026-01-05"%string.
Proof. reflexivity. Qed.
