(* ===== verification/Accounts.v ===== *)
(** * Accounts: the account slice of product/viva/ledger/projection/core.py, and balances.py

    [account_state] is the part of [_AccountState] that balances and goals read; the fold
    below is [ProjectionCore._apply] on the events that write it.  The holdings, the
    account's identity, the transaction lines and the instrument overlays the same handlers
    feed are left out, and so is what those overlays refuse.  An
    account's identity is text; an event that names it by another kind of value is a
    TypeError here. *)
From Stdlib Require Import ZArith NArith Ascii String Lia ZifyBool ZifyN ZifyNat.
From stdpp Require Import base list numbers strings.
From S2P Require Import Prelude Text Words Json Decimals Floats Arithmetic Events EventTypes Postings.
#[local] Open Scope string_scope.

Definition text (v : json) : res string := match v with JStr s => Ok s | _ => Raise TypeError end.
(** [event.body.get(k, "")] and [event.body[k]] as text. *)
Definition body_text (e : Event) (k : string) : res string :=
  let? v := py_get_default (body e) k (JStr "") in text v.
Definition body_item (e : Event) (k : string) : res string :=
  let? v := py_getitem (body e) k in text v.
Definition doc_of (e : Event) : json := doc_id (provenance e).

Record account_state := mkAccount {
  balance_sum : decimal;                 (** [balance]: the running sum of all postings *)
  opening : option decimal;
  opening_date : string;
  opening_prov : Provenance;
  closing : option decimal;
  closing_date : string;
  closing_prov : Provenance;
  closing_confirmed : bool;
  closings : list (string * decimal * string * json);
  period_deltas : list decimal;
  seen : bool;
  kind : json;
  currency : json;
  name : json;
  origin : json;
  opened_at : string
}.
(** [_AccountState()]. *)
Definition new_account : account_state :=
  mkAccount dzero None "" Provenance_empty None "" Provenance_empty false [] [] false
    (JStr "") (JStr "") (JStr "") (JStr ISSUED) "".

Definition accounts : Type := list (string * account_state).
Definition state_of (s : accounts) (a : string) : account_state := default new_account (dict_get s a).

Definition open_account (e : Event) (at_ : string) (st : account_state) : res account_state :=
  let? k := py_get_default (body e) "kind" (JStr "") in
  let? c := py_get_default (body e) "currency" (JStr "") in
  let? n := py_get_default (body e) "name" (JStr "") in
  let? o := py_get_default (body e) "origin" (JStr ISSUED) in
  Ok (mkAccount (balance_sum st) (opening st) (opening_date st) (opening_prov st) (closing st)
        (closing_date st) (closing_prov st) (closing_confirmed st) (closings st) (period_deltas st)
        true k c n o (if String.eqb (opened_at st) "" then at_ else opened_at st)).

(** The earliest opening is kept. *)
Definition observe_opening (a : decimal) (at_ : string) (p : Provenance) (st : account_state) : account_state :=
  let earlier := match opening st with None => true | Some _ => String.ltb at_ (opening_date st) end in
  mkAccount (balance_sum st) (if earlier then Some a else opening st)
    (if earlier then at_ else opening_date st) (if earlier then p else opening_prov st)
    (closing st) (closing_date st) (closing_prov st) (closing_confirmed st) (closings st)
    (period_deltas st) true (kind st) (currency st) (name st) (origin st) (opened_at st).

(** The latest closing is kept; every one is listed. *)
Definition observe_closing (a : decimal) (at_ : string) (p : Provenance) (human : bool) (st : account_state)
    : account_state :=
  let latest := match closing st with None => true | Some _ => negb (String.ltb at_ (closing_date st)) end in
  mkAccount (balance_sum st) (opening st) (opening_date st) (opening_prov st)
    (if latest then Some a else closing st) (if latest then at_ else closing_date st)
    (if latest then p else closing_prov st) (if latest then human else closing_confirmed st)
    (closings st ++ [(at_, a, if human then VERIFIED else CORROBORATED,
                      if py_truthy (doc_id p) then doc_id p else JStr "")])%list
    (period_deltas st) true (kind st) (currency st) (name st) (origin st) (opened_at st).

(** One posting onto its account. *)
Definition post (acct : string) (x : decimal) (st : account_state) : res account_state :=
  let? b := dadd default_ctx (balance_sum st) x in
  Ok (mkAccount b (opening st) (opening_date st) (opening_prov st) (closing st) (closing_date st)
        (closing_prov st) (closing_confirmed st) (closings st)
        (if String.eqb acct EQUITY_OPENING then period_deltas st else period_deltas st ++ [x])%list
        true (kind st) (currency st) (name st) (origin st) (opened_at st)).
Definition post_leg (s : accounts) (p : Posting) : res accounts :=
  let? a := text (account p) in
  let? st := post a (amount p) (state_of s a) in
  Ok (dict_set s a st).

Definition INSTRUMENT_ROLES : list string :=
  ["principal"; "escrow_deposit"; "escrow_tax"; "escrow_insurance"; "escrow_adjustment";
   "term_funding"; "term_interest"; "term_redemption"; "term_fee"; "refinance_fee"].
Definition record_transaction (s : accounts) (e : Event) : res accounts :=
  let? reference := py_get_default (body e) "source_reference" (JStr "") in
  let? counterparty := py_get_default (body e) "counterparty_reference" (JStr "") in
  let? _ := raise_if (match reference, counterparty with JStr _, JStr _ => false | _, _ => true end) ValueError in
  let? role := py_get (body e) "instrument_role" in
  let? _ := match role with
            | JNull => Ok tt
            | JStr r => raise_if (negb (in_words r INSTRUMENT_ROLES)) ValueError
            | JArr _ | JObj _ => Raise TypeError
            | _ => Raise ValueError
            end in
  let? ps := postings_of e in
  rfold post_leg ps s.

(** [_state]: the account's entry, made when it is new. *)
Definition setdefault_state (s : accounts) (a : string) : accounts := dict_set s a (state_of s a).

(** A measured holding makes its account known; its figures are read, and no balance moves. *)
Definition mark_seen (st : account_state) : account_state :=
  mkAccount (balance_sum st) (opening st) (opening_date st) (opening_prov st) (closing st)
    (closing_date st) (closing_prov st) (closing_confirmed st) (closings st) (period_deltas st)
    true (kind st) (currency st) (name st) (origin st) (opened_at st).
Definition observe_position (s : accounts) (e : Event) : res accounts :=
  let? a := body_item e "account_id" in
  let? _ := py_getitem (body e) "instrument" in
  let? cb := py_get_default (body e) "cost_basis" (JStr "") in
  let? u := py_getitem (body e) "units" in
  let? _ := Decimal_of_json u in
  let? v := py_getitem (body e) "market_value" in
  let? _ := Decimal_of_json v in
  let? _ := match cb with
            | JNull => Ok dzero
            | JStr t => if String.eqb t "" then Ok dzero else Decimal_of_json cb
            | _ => Decimal_of_json cb
            end in
  Ok (dict_set s a (mark_seen (state_of s a))).

Definition apply_account (s : accounts) (e : Event) : res accounts :=
  let? et := text (event_type e) in
  let? at_ := text (occurred_at e) in
  if String.eqb et "AccountOpened" then
    let? a := body_item e "account_id" in
    let? st := open_account e at_ (state_of s a) in
    Ok (dict_set s a st)
  else if String.eqb et "AccountIdentityObserved" then
    let? a := body_item e "account_id" in
    Ok (setdefault_state s a)
  else if String.eqb et "OpeningBalanceObserved" then
    let? a := body_item e "account_id" in
    let? v := py_getitem (body e) "amount" in
    let? d := Decimal_of_json v in
    Ok (dict_set s a (observe_opening d at_ (provenance e) (state_of s a)))
  else if String.eqb et "ClosingBalanceObserved" then
    let? a := body_item e "account_id" in
    let? v := py_getitem (body e) "amount" in
    let? d := Decimal_of_json v in
    let? by_ := py_get (body e) "confirmed_by" in
    Ok (dict_set s a (observe_closing d at_ (provenance e) (py_eq_str by_ "human") (state_of s a)))
  else if String.eqb et "PositionObserved" then observe_position s e
  else if String.eqb et "TransactionRecorded" then record_transaction s e
  else Ok s.

(** ** Balances *)
Definition effective (st : account_state) : res decimal :=
  dadd default_ctx (match opening st with
                    | Some d => if is_zero d then dzero else d
                    | None => dzero
                    end) (balance_sum st).

Definition running_balance (s : accounts) (a : string) : res (option decimal) :=
  match dict_get s a with
  | Some st => if seen st then let? d := effective st in Ok (Some d) else Ok None
  | None => Ok None
  end.
Definition earliest_opening (s : accounts) (a : string) : option decimal :=
  match dict_get s a with Some st => opening st | None => None end.
Definition is_seeded (s : accounts) (a : string) : bool :=
  match dict_get s a with Some st => match opening st with Some _ => true | None => false end | None => false end.

Record BalanceAnswer := mkBalance {
  b_account : string;
  b_amount : decimal;
  b_grade : string;
  b_as_of : option string;
  b_provenance : Provenance;
  reconciliation : option CheckResult;
  explanation : string;
  b_currency : json;
  b_dated : string
}.

Definition reconcile (o c : decimal) (st : account_state) : res CheckResult :=
  check_balance_identity (NumDec o) (List.map NumDec (period_deltas st)) (NumDec c) no_tolerance.

Definition balance (s : accounts) (as_of : option string) (a : string) : res BalanceAnswer :=
  match dict_get s a with
  | None => Raise UnknownAccountError
  | Some st =>
      if negb (seen st) then Raise UnknownAccountError
      else
        let answer d g p r why :=
          mkBalance a d g as_of p r why (currency st)
            (if String.eqb (closing_date st) "" then opening_date st else closing_date st) in
        match closing st, opening st with
        | None, _ =>
            let? d := effective st in
            Ok (answer d UNVERIFIED (opening_prov st) None
                  "Computed by replaying opening balance and transactions; no closing figure was attested to check it against.")
        | Some c, None =>
            Ok (answer c VERIFIED (closing_prov st) None
                  "Attested closing balance; no opening figure or transactions to corroborate it against.")
        | Some c, Some o =>
            let? r := reconcile o c st in
            if passed r then
              Ok (answer c (if closing_confirmed st then VERIFIED else CORROBORATED) (closing_prov st) (Some r)
                    ("Attested closing balance, "
                     ++ (if closing_confirmed st then "confirmed by you and reconciled"
                         else "opening plus the period's transactions reconcile to it to the cent") ++ "."))
            else
              Ok (answer c CONFLICTED (closing_prov st) (Some r)
                    ("The attested closing balance and the transactions disagree: " ++ explain r
                     ++ ". Surfaced, not averaged."))
        end
  end.

(** [income_by_currency]. *)
Definition starts_with_text (p s : string) : bool := String.prefix p s.
Definition held_currencies (s : accounts) : list json :=
  List.map (fun p => currency p.2)
    (List.filter (fun p => seen p.2 && existsb (py_eq_str (kind p.2)) ["depository"; "liability"; "investment"]
                           && py_truthy (currency p.2)) s).
Definition income_by_currency (s : accounts) : res (list (string * decimal)) :=
  let? default_ := match remove_dups (held_currencies s) with
                   | [c] => text c
                   | _ => Ok "?"
                   end in
  rfold (fun out p =>
           let '(a, st) := p in
           if negb (seen st) || negb (starts_with_text "Income:" a) || String.eqb a INCOME_UNCATEGORIZED then Ok out
           else
             let? d := effective st in
             let? amt := dneg default_ctx d in
             let? zero := deq amt dzero in
             if zero then Ok out
             else
               let? cur := if py_truthy (currency st) then text (currency st) else Ok default_ in
               let? total := dadd default_ctx (default dzero (dict_get out cur)) amt in
               Ok (dict_set out cur total)) s [].
