(* ===== verification/Goals.v ===== *)
(** * Goals: the goal slice of projection/core.py, and product/viva/ledger/projection/goals.py

    A goal row is the dictionary the projection keeps: [terms] holds the event's own keys and
    what [GoalTermsChanged] overwrites, the other fields are the keys the fold adds.  Goal and
    account identities are text, as every goal event's constructor makes them; a row keyed by
    another kind of value is a TypeError here.  Which accounts an instrument restricts is the
    [restricted] argument: the instrument overlay is not modelled. *)
From Stdlib Require Import ZArith NArith Ascii String Lia ZifyBool ZifyN ZifyNat.
From stdpp Require Import base list numbers strings.
From S2P Require Import Prelude Text Words Json Unicode Dates Decimals Floats Acquisition Events EventTypes Postings Schedule Accounts.
#[local] Open Scope string_scope.

(** ** The fold *)
Record goal_row := mkGoal {
  terms : list (string * json);
  g_state : json;
  created_at : string;
  updated_at : string;
  event_ids : list json;
  reservations : list (string * decimal);
  reservation_history : list (list (string * json));
  issues : list string
}.
Definition goal_rows : Type := list (string * goal_row).
Definition proposals : Type := list (string * list (string * json)).

Definition body_dict (e : Event) : res (list (string * json)) :=
  match body e with JObj kv => Ok kv | _ => Raise TypeError end.
(** [{**a, **b}]. *)
Definition dict_update (a b : list (string * json)) : list (string * json) :=
  fold_left (fun d p => dict_set d p.1 p.2) b a.

(** [max(a, b)] keeps the first unless the second is greater. *)
Definition dmax (a b : decimal) : res decimal := let? lt := dlt a b in Ok (if lt then b else a).

(** [d.get(v)] and [v not in d], the keys being text. *)
Definition known {A} (s : list (string * A)) (v : json) : res (option (string * A)) :=
  match v with
  | JStr id => Ok (match dict_get s id with Some a => Some (id, a) | None => None end)
  | JArr _ | JObj _ => Raise TypeError
  | _ => Ok None
  end.

Definition create_goal (s : goal_rows) (e : Event) (at_ : string) : res goal_rows :=
  let? v := py_get_default (body e) "goal_id" (JStr "") in
  if negb (py_truthy v) then Ok s
  else
    let? found := known s v in
    match found with
    | Some _ => Ok s
    | None =>
        let? id := text v in
        let? kv := body_dict e in
        Ok (dict_set s id (mkGoal kv (JStr "active") at_ at_ [event_id e] [] [] []))
    end.

Definition TERM_KEYS : list string :=
  ["kind"; "title"; "currency"; "target_amount"; "target_date"; "monthly_contribution";
   "contribution_day"; "proposal_id"].
Definition change_terms (e : Event) (at_ : string) (g : goal_row) : res goal_row :=
  let? t := rfold (fun t k => let? v := py_get_default (body e) k (JStr "") in Ok (dict_set t k v)) TERM_KEYS (terms g) in
  Ok (mkGoal t (g_state g) (created_at g) at_ (event_ids g ++ [event_id e])%list (reservations g)
        (reservation_history g) (issues g)).

(** [direction] is one or minus one. *)
Definition move_funds (reserving : bool) (e : Event) (at_ : string) (g : goal_row) : res goal_row :=
  let? acct := body_text e "account_id" in
  let? v := py_get_default (body e) "amount" (JStr "0") in
  let? amt := Decimal_of_json v in
  let direction := if reserving then Fin false 1 0 else Fin true 1 0 in
  let before := default dzero (dict_get (reservations g) acct) in
  let? over := if reserving then Ok false else dlt before amt in
  let? applied := if over then dmax before dzero else Ok amt in
  let? i := if over then let? ev := text (event_id e) in
                         Ok (issues g ++ [("release_exceeds_reserved:" ++ acct ++ ":" ++ ev)%string])%list
            else Ok (issues g) in
  let? moved := dmul default_ctx direction applied in
  let? total := dadd default_ctx before moved in
  let? held := dmax total dzero in
  let? same := deq applied amt in
  let? kv := body_dict e in
  Ok (mkGoal (terms g) (g_state g) (created_at g) at_ (event_ids g ++ [event_id e])%list
        (dict_set (reservations g) acct held)
        (reservation_history g ++
         [dict_update kv [("kind", JStr (if reserving then "reserved" else "released"));
                          ("applied_amount", JStr (dec_str applied)); ("valid", JBool same);
                          ("occurred_at", JStr at_); ("event_id", event_id e)]])%list
        i).

Definition change_state (e : Event) (at_ : string) (g : goal_row) : res goal_row :=
  let? st := py_get_default (body e) "state" (g_state g) in
  let? pid := py_get_default (body e) "proposal_id" (JStr "") in
  Ok (mkGoal (dict_set (terms g) "proposal_id" pid) st (created_at g) at_ (event_ids g ++ [event_id e])%list
        (reservations g) (reservation_history g) (issues g)).

(** A handler that updates the goal the event names, when it is known. *)
Definition on_goal (s : goal_rows) (e : Event) (f : goal_row -> res goal_row) : res goal_rows :=
  let? v := py_get_default (body e) "goal_id" (JStr "") in
  let? found := known s v in
  match found with
  | None => Ok s
  | Some (id, g) => let? g' := f g in Ok (dict_set s id g')
  end.

Definition apply_goal (s : goal_rows) (e : Event) : res goal_rows :=
  let? et := text (event_type e) in
  let? at_ := text (occurred_at e) in
  if String.eqb et "GoalCreated" then create_goal s e at_
  else if String.eqb et "GoalTermsChanged" then on_goal s e (change_terms e at_)
  else if String.eqb et "GoalFundsReserved" then on_goal s e (move_funds true e at_)
  else if String.eqb et "GoalFundsReleased" then on_goal s e (move_funds false e at_)
  else if String.eqb et "GoalStateChanged" then on_goal s e (change_state e at_)
  else Ok s.

Definition apply_proposal (s : proposals) (e : Event) : res proposals :=
  let? et := text (event_type e) in
  let? at_ := text (occurred_at e) in
  if String.eqb et "GoalProposalRecorded" then
    let? v := py_get_default (body e) "proposal_id" (JStr "") in
    if negb (py_truthy v) then Ok s
    else
      let? found := known s v in
      match found with
      | Some _ => Ok s
      | None =>
          let? id := text v in
          let? kv := body_dict e in
          Ok (dict_set s id
                (dict_update kv [("occurred_at", JStr at_); ("event_id", event_id e); ("status", JStr "open");
                                 ("outcome", JStr "proposal"); ("reason", JStr "")]))
      end
  else if String.eqb et "GoalProposalResolved" then
    let? v := py_get_default (body e) "proposal_id" (JStr "") in
    let? found := known s v in
    match found with
    | None => Ok s
    | Some (id, row) =>
        if py_eq_str (field row "status") "open" then
          let? out := py_get_default (body e) "outcome" (JStr "") in
          let? why := py_get_default (body e) "reason" (JStr "") in
          Ok (dict_set s id (dict_update row [("status", JStr "resolved"); ("outcome", out); ("reason", why);
                                              ("resolved_event_id", event_id e)]))
        else Ok s
    end
  else Ok s.

(** The slice of [ProjectionCore] this library models, and its fold. *)
Record core := mkCore {
  as_of : option string;
  acct : accounts;
  goals_ : goal_rows;
  goal_proposals_ : proposals
}.
Definition empty_core (horizon : option string) : core := mkCore horizon [] [] [].
Definition apply (c : core) (e : Event) : res core :=
  let? at_ := text (occurred_at e) in
  if match as_of c with Some h => String.ltb h at_ | None => false end then Ok c
  else
    let? a := apply_account (acct c) e in
    let? g := apply_goal (goals_ c) e in
    let? p := apply_proposal (goal_proposals_ c) e in
    Ok (mkCore (as_of c) a g p).
(** The loop of [ProjectionCore(events, as_of)] over the events it is to fold, which
    [Visibility.visible_events] picks from a log. *)
Definition project (horizon : option string) (events : list Event) : res core :=
  rfold apply events (empty_core horizon).

(** ** Reservations and what an account has left *)
Definition reserved_by_account (c : core) : res (list (string * decimal)) :=
  rfold (fun totals (p : string * goal_row) =>
           rfold (fun totals (r : string * decimal) =>
                    let? t := dadd default_ctx (default dzero (dict_get totals r.1)) r.2 in
                    Ok (dict_set totals r.1 t)) (reservations p.2) totals)
        (goals_ c) [].

Record GoalAccountAvailability := mkAvailability {
  a_account_id : string;
  a_name : json;
  a_currency : json;
  a_balance : decimal;
  a_reserved : decimal;
  a_available : decimal;
  a_grade : string;
  a_dated : string;
  a_as_of : option string;
  a_provenance : Provenance;
  a_explanation : string
}.
Record GoalAccountExclusion := mkExclusion { x_account_id : string; x_name : json; x_currency : json; x_reason : string }.

Section Availability.
Context (restricted : string -> bool).

(** Why an account may not back a goal; the balance's own conflict comes last. *)
Definition exclusion (account_id cur : string) (st : account_state) (ans : BalanceAnswer) : string :=
  if negb (py_eq_str (kind st) "depository") then "account_not_depository"
  else if negb (py_eq_str (origin st) ISSUED) then "account_not_issuer"
  else if negb (py_truthy (currency st)) then "account_currency_unstated"
  else if negb (py_eq_str (currency st) cur) then "account_currency_differs"
  else if restricted account_id then "account_restricted"
  else if String.eqb (b_grade ans) CONFLICTED then "account_balance_conflicted"
  else "".

Definition opt_text (s : option string) : json := match s with Some s => JStr s | None => JNull end.

Definition account_stake (c : core) (account_id cur : string) : res json :=
  match dict_get (acct c) account_id with
  | Some st =>
      if negb (seen st) then Ok (JObj [("account_id", JStr account_id); ("present", JBool false)])
      else
        let? ans := balance (acct c) (as_of c) account_id in
        let? all := reserved_by_account c in
        let held := default dzero (dict_get all account_id) in
        let reason := exclusion account_id cur st ans in
        let? free := dsub default_ctx (b_amount ans) held in
        let? free := dmax free dzero in
        Ok (JObj [("account_id", JStr account_id); ("present", JBool true);
                  ("eligible", JBool (String.eqb reason "")); ("exclusion_reason", JStr reason);
                  ("balance", JStr (dec_str (b_amount ans))); ("currency", currency st);
                  ("grade", JStr (b_grade ans)); ("dated", JStr (b_dated ans)); ("as_of", opt_text (b_as_of ans));
                  ("record_id", doc_id (b_provenance ans)); ("reserved", JStr (dec_str held));
                  ("available", JStr (dec_str free))])
  | None => Ok (JObj [("account_id", JStr account_id); ("present", JBool false)])
  end.

(** One account of [_availability]: nothing, an exclusion or an availability. *)
Definition judge (c : core) (reserved : list (string * decimal)) (cur : string) (account_id : string)
    : res (option (GoalAccountExclusion + GoalAccountAvailability)) :=
  let st := state_of (acct c) account_id in
  if negb (seen st) || negb (existsb (py_eq_str (kind st)) ["depository"; "liability"; "investment"])
  then Ok None
  else
    let? ans := balance (acct c) (as_of c) account_id in
    let reason := exclusion account_id cur st ans in
    if negb (String.eqb reason "")
    then Ok (Some (inl (mkExclusion account_id (name st) (currency st) reason)))
    else
      let held := default dzero (dict_get reserved account_id) in
      let? free := dsub default_ctx (b_amount ans) held in
      let? free := dmax free dzero in
      Ok (Some (inr (mkAvailability account_id (name st) (currency st) (b_amount ans) held free
                       (b_grade ans) (b_dated ans) (b_as_of ans) (b_provenance ans) (explanation ans)))).

Definition availability (c : core) (cur : string)
    : res (list GoalAccountAvailability * list GoalAccountExclusion) :=
  let? reserved := reserved_by_account c in
  let? judged := rmap (judge c reserved cur) (sorted_set ((acct c).*1)) in
  Ok (omap (fun j => match j with Some (inr a) => Some a | _ => None end) judged,
      omap (fun j => match j with Some (inl x) => Some x | _ => None end) judged).

(** ** The plan *)
Record plan := mkPlan {
  p_reserved : decimal;
  p_remaining : decimal;
  p_required : option decimal;
  p_projected : string;
  p_status : string;
  p_deviation : option decimal;
  p_next : string
}.
Definition MONEY_SCALE : Z := -2.
Definition ceil_money (d : decimal) : res decimal := quantize_ceiling default_ctx d MONEY_SCALE.
(** [row.get(k, d)]. *)
Definition get_or (t : list (string * json)) (k : string) (d : json) : json := default d (dict_get t k).
(** [Decimal(v) if v else None]. *)
Definition decimal_if (v : json) : res (option decimal) :=
  if py_truthy v then let? d := Decimal_of_json v in Ok (Some d) else Ok None.
(** [v[:10]] of a date: falsy is no date. *)
Definition date_text (v : json) : res string := if py_truthy v then text v else Ok "".
(** [bool(d)]. *)
Definition nonzero (d : decimal) : bool := negb (is_zero d).

Definition required_amount (remaining : decimal) (target_on : option date) (occurrences : list string)
    : res (option decimal) :=
  match target_on with
  | None => Ok None
  | Some _ =>
      if nonzero remaining then
        match occurrences with
        | [] => Ok None
        | _ => let? share := ddiv default_ctx remaining (Decimal_of_Z (Z.of_nat (List.length occurrences))) in
               let? r := ceil_money share in Ok (Some r)
        end
      else Ok (Some dzero)
  end.

Definition projected_date (remaining : decimal) (monthly : option decimal) (day : json) (today : string) : res string :=
  match monthly, day, nonzero remaining with
  | _, _, false => Ok (first_ten today)
  | None, _, true => Ok ""
  | Some _, JNull, true => Ok ""
  | Some m, _, true =>
      let? share := ddiv default_ctx remaining m in
      let? count := ceiling_int share in
      nth_contribution today day count
  end.

Definition plan_status (remaining : decimal) (state : json) (target_on : option date) (read_on : date)
    (monthly : option decimal) (projected : string) (occurrences : list string) : string :=
  if negb (nonzero remaining) then "complete"
  else if py_eq_str state "paused" then "paused"
  else if match target_on with Some t => date_ltb t read_on | None => false end then "at_risk"
  else match monthly, target_on with
       | None, _ => "unscheduled"
       | Some _, None => "on_track"
       | Some _, Some t =>
           if String.eqb projected "" || String.ltb (isoformat t) projected then "at_risk"
           else if existsb (fun o => String.ltb projected o) occurrences then "ahead" else "on_track"
       end.

Definition plan_math (t : list (string * json)) (rs : list decimal) (state : json) (today : string) : res plan :=
  let? v := res_of_option KeyError (dict_get t "target_amount") in
  let? target := Decimal_of_json v in
  let? reserved := rfold (dadd default_ctx) rs dzero in
  let? rest := dsub default_ctx target reserved in
  let? remaining := dmax rest dzero in
  let? monthly := decimal_if (get_or t "monthly_contribution" (JStr "")) in
  let day := get_or t "contribution_day" JNull in
  let? tt_ := date_text (get_or t "target_date" (JStr "")) in
  let? target_on := target_date tt_ in
  let? occurrences := match day, target_on with
                      | JNull, _ | _, None => Ok []
                      | _, Some d => contribution_dates today day (isoformat d) None
                      end in
  let? required := required_amount remaining target_on occurrences in
  let? projected := projected_date remaining monthly day today in
  let? read_on := read_date today in
  let status := plan_status remaining state target_on read_on monthly projected occurrences in
  let? deviation := match monthly, required with
                    | Some m, Some r => let? d := dsub default_ctx m r in Ok (Some d)
                    | _, _ => Ok None
                    end in
  let? upcoming := match monthly, day with
                   | None, _ | _, JNull => Ok ""
                   | Some _, _ => let? l := contribution_dates today day "" (Some 1%Z) in first_of l
                   end in
  Ok (mkPlan reserved remaining required projected status deviation upcoming).
End Availability.

(** ** The views *)
Record GoalActivity := mkActivity {
  h_kind : json;
  h_account_id : json;
  h_amount : decimal;
  h_applied_amount : decimal;
  h_reason : json;
  h_occurred_at : json;
  h_event_id : json;
  h_proposal_id : json;
  h_valid : bool
}.
Definition goal_activity (item : list (string * json)) : res GoalActivity :=
  let amount_ := get_or item "amount" (JStr "0") in
  let? a := Decimal_of_json amount_ in
  let? b := Decimal_of_json (get_or item "applied_amount" amount_) in
  let str k := get_or item k (JStr "") in
  Ok (mkActivity (str "kind") (str "account_id") a b (str "reason") (str "occurred_at") (str "event_id")
        (str "proposal_id") (py_truthy (get_or item "valid" (JBool true)))).

Record GoalView := mkView {
  v_goal_id : string;
  v_terms : list (string * json);
  v_state : json;
  v_currency : json;
  v_target_amount : decimal;
  v_monthly_contribution : option decimal;
  v_reservations : list (string * decimal);
  v_plan : plan;
  v_available : list GoalAccountAvailability;
  v_exclusions : list GoalAccountExclusion;
  v_history : list GoalActivity;
  v_issues : list string;
  v_event_ids : list json;
  v_created_at : string;
  v_updated_at : string
}.

(** [tuple(sorted(d.items()))], by key. *)
Definition sorted_items (rs : list (string * decimal)) : list (string * decimal) :=
  omap (fun k => match dict_get rs k with Some d => Some (k, d) | None => None end) (sorted_set (rs.*1)).

Definition goal_view (restricted : string -> bool) (c : core) (today : string) (id : string) (g : goal_row)
    : res GoalView :=
  let? p := plan_math (terms g) ((reservations g).*2) (g_state g) today in
  let? cur := text (get_or (terms g) "currency" (JStr "")) in
  let? av := availability restricted c cur in
  let? hist := rmap goal_activity (reservation_history g) in
  let? tv := res_of_option KeyError (dict_get (terms g) "target_amount") in
  let? target := Decimal_of_json tv in
  let? monthly := decimal_if (get_or (terms g) "monthly_contribution" (JStr "")) in
  Ok (mkView id (terms g) (g_state g) (JStr cur) target monthly (sorted_items (reservations g)) p av.1 av.2 hist
        (issues g) (event_ids g) (created_at g) (updated_at g)).

Definition goals (restricted : string -> bool) (c : core) (today : string) : res (list GoalView) :=
  rmap (fun id => match dict_get (goals_ c) id with
                  | Some g => goal_view restricted c today id g
                  | None => Raise KeyError
                  end) (sorted_set ((goals_ c).*1)).
Definition goal (restricted : string -> bool) (c : core) (goal_id : string) (today : string) : res GoalView :=
  let? l := goals restricted c today in
  res_of_option UnknownGoalError (List.find (fun v => String.eqb (v_goal_id v) goal_id) l).

Definition goal_proposals (c : core) (open_only : bool) : list (list (string * json)) :=
  let rows := (goal_proposals_ c).*2 in
  if open_only then List.filter (fun r => py_eq_str (field r "status") "open") rows else rows.
Definition goal_proposal (c : core) (proposal_id : string) : option (list (string * json)) :=
  dict_get (goal_proposals_ c) proposal_id.
