(* ===== verification/GoalService.v ===== *)
(** * GoalService: product/viva/goals.py

    Drafting, proposing, confirming and declining a save-up goal action over a projection.
    [propose], [confirm] and [decline] are the decisions the ledger runs: from the projection
    they give the answer and the events to append.  The clock's day and the minted identities
    are arguments, and so is [repr], the text [str] gives of a list, an object or a float.
    The fields of a recorded proposal are text where [propose] writes text. *)
From Stdlib Require Import ZArith NArith Ascii String Lia ZifyBool ZifyN ZifyNat.
From stdpp Require Import base list numbers strings.
From S2P Require Import Prelude Text Words Json Unicode Dates Decimals Floats Acquisition Events EventTypes Conversations Postings Schedule Accounts Goals.
#[local] Open Scope string_scope.

Record GoalDraftResult := mkDraft {
  d_state : string;
  d_reason : string;
  d_verb : string;
  d_payload : list (string * json);
  d_calculated : list (string * json)
}.
Record GoalActionResult := mkAction {
  r_kind : string;
  r_reason : string;
  r_proposal_id : string;
  r_summary : string;
  r_goal_id : string;
  r_proposal : list (string * json)
}.
Definition draft_refused (reason : string) : GoalDraftResult := mkDraft "refused" reason "" [] [].
Definition draft_waits (reason : string) : GoalDraftResult := mkDraft "needs_input" reason "" [] [].
Definition action (kind reason : string) (proposal : list (string * json)) : GoalActionResult :=
  mkAction kind reason "" "" "" proposal.
(** [result.draft]: empty unless the draft is ready. *)
Definition draft_dict (d : GoalDraftResult) : list (string * json) :=
  if String.eqb (d_verb d) "" then []
  else [("verb", JStr (d_verb d)); ("payload", JObj (d_payload d)); ("calculated", JObj (d_calculated d))].

Definition TERM_FIELDS : list string :=
  ["title"; "currency"; "target_amount"; "target_date"; "monthly_contribution"; "contribution_day"].
(** [_FIELDS[verb]] and [required[verb]]. *)
Definition fields_of (verb : string) : list string :=
  if String.eqb verb "create" then TERM_FIELDS
  else if String.eqb verb "change_terms" then ("goal_id" :: TERM_FIELDS)%list
  else if String.eqb verb "reserve" then ["goal_id"; "account_id"; "amount"]
  else if String.eqb verb "release" then ["goal_id"; "account_id"; "amount"; "reason"]
  else ["goal_id"].
Definition required_of (verb : string) : list string :=
  if String.eqb verb "create" then ["title"; "currency"; "target_amount"]
  else if String.eqb verb "change_terms" then ["goal_id"; "title"; "currency"; "target_amount"]
  else fields_of verb.
Definition on_terms (verb : string) : bool := String.eqb verb "create" || String.eqb verb "change_terms".
Definition on_funds (verb : string) : bool := String.eqb verb "reserve" || String.eqb verb "release".

(** [v in (None, "")]. *)
Definition unsaid_value (v : json) : bool := match v with JNull => true | JStr s => String.eqb s "" | _ => false end.

(** A JSON value as [Decimal] and [_goal_decimal] take it; what they refuse is no numeral. *)
Definition number_of (v : json) : number :=
  match v with
  | JStr s => NumStr s
  | JInt z => NumInt z
  | JBool _ | JFloat _ => NumFloat dzero
  | JArr _ => match Decimal_of_json v with Ok d => NumDec d | Raise _ => NumStr "?" end
  | JNull | JObj _ => NumStr "?"
  end.
(** [v or None]. *)
Definition number_or_none (v : json) : option number := if py_truthy v then Some (number_of v) else None.

(** [a == b] on JSON values: an object is equal to any ordering of it. *)
Fixpoint json_eq (a b : json) {struct a} : bool :=
  let as_int v := match v with JInt z => Some z | JBool b => Some (if b then 1%Z else 0%Z) | _ => None end in
  match a, b with
  | JNull, JNull => true
  | JStr s, JStr t => String.eqb s t
  | JFloat s, JFloat t => String.eqb s t
  | JArr l, JArr m =>
      (fix go (l m : list json) : bool :=
         match l, m with
         | [], [] => true
         | x :: l', y :: m' => json_eq x y && go l' m'
         | _, _ => false
         end) l m
  | JObj kv, JObj kw =>
      (List.length kv =? List.length kw)%nat
      && (fix go (kv : list (string * json)) : bool :=
            match kv with
            | [] => true
            | (k, x) :: kv' => match dict_get kw k with Some y => json_eq x y | None => false end && go kv'
            end) kv
  | _, _ => match as_int a, as_int b with Some x, Some y => (x =? y)%Z | _, _ => false end
  end.

Section Service.
Context `{CaseMap} (restricted : string -> bool) (repr : json -> string).

(** [str(v or d)]. *)
Definition str_or (v : json) (d : string) : string :=
  if py_truthy v then
    match v with
    | JStr s => s
    | JInt z => dec (Z_text z)
    | JBool _ => "True"
    | _ => repr v
    end
  else d.

(** ** Drafts *)

(** An error whose text the caller knows is its [Refusal]. *)
Definition normalized (verb : string) (payload : list (string * json)) : res (list (string * json)) :=
  let got k := field payload k in
  if on_terms verb then
    let? e := goal_created "" (str_or (got "goal_id") "draft") (str_or (got "title") "") (str_or (got "currency") "")
                (if py_truthy (got "target_amount") then number_of (got "target_amount") else NumStr "0")
                "2000-01-01" (str_or (got "target_date") "") (number_or_none (got "monthly_contribution"))
                (got "contribution_day") "" None in
    let? kv := body_dict e in
    let t := List.map (fun k => (k, field kv k)) TERM_FIELDS in
    Ok (if String.eqb verb "change_terms"
        then (t ++ [("goal_id", JStr (strip (str_or (got "goal_id") "")))])%list else t)
  else
    let goal_id := strip (str_or (got "goal_id") "") in
    if on_funds verb then
      let account_id := strip (str_or (got "account_id") "") in
      match got "amount" with
      | JFloat _ | JBool _ => Raise (Refusal "amount_not_exact")
      | raw =>
          let? a := Decimal_of_json raw in
          match a with
          | Fin _ _ _ =>
              let? low := dle a dzero in
              if low then Raise (Refusal "amount_not_positive")
              else
                let out := [("goal_id", JStr goal_id); ("account_id", JStr account_id); ("amount", JStr (dec_str a))] in
                if String.eqb verb "release" then
                  let reason := str_or (got "reason") "" in
                  if negb (in_words reason GOAL_RELEASE_REASONS) then Raise (Refusal "release_reason_invalid")
                  else Ok (out ++ [("reason", JStr reason)])%list
                else Ok out
          | _ => Raise (Refusal "amount_not_positive")
          end
      end
    else Ok [("goal_id", JStr goal_id)].

Definition optional_dec (d : option decimal) : json := JStr (match d with Some d => dec_str d | None => "" end).
Definition calculated_of (p : plan) : list (string * json) :=
  [("reserved", JStr (dec_str (p_reserved p))); ("remaining", JStr (dec_str (p_remaining p)));
   ("required_monthly", optional_dec (p_required p)); ("projected_completion_date", JStr (p_projected p));
   ("deviation", optional_dec (p_deviation p)); ("status", JStr (p_status p));
   ("next_contribution_date", JStr (p_next p))].

(** [projection.goal(id, today)] with UnknownGoalError caught. *)
Definition find_goal (c : core) (goal_id today : string) : res (option GoalView) :=
  match goal restricted c goal_id today with
  | Ok v => Ok (Some v)
  | Raise UnknownGoalError => Ok None
  | Raise e => Raise e
  end.

Definition draft_ready (c : core) (verb : string) (t : list (string * json)) (today : string) : res GoalDraftResult :=
  if on_terms verb then
    if py_truthy (field t "target_date") && negb (py_truthy (field t "monthly_contribution"))
       && negb (given (field t "contribution_day"))
    then Ok (draft_waits "contribution_day_required")
    else
      let? current := if String.eqb verb "change_terms" then
                        let? id := text (field t "goal_id") in
                        let? v := find_goal c id today in
                        Ok (match v with Some v => Some ((v_reservations v).*2, v_state v) | None => None end)
                      else Ok (Some ([], JStr "active")) in
      match current with
      | None => Ok (draft_refused "unknown_goal")
      | Some (rs, state) =>
          let? p := plan_math t rs state today in
          Ok (mkDraft "ready" "" verb t (calculated_of p))
      end
  else if negb (py_truthy (field t "goal_id")) then Ok (draft_waits "goal_id_required")
  else
    let? id := text (field t "goal_id") in
    let? v := find_goal c id today in
    match v with
    | None => Ok (draft_refused "unknown_goal")
    | Some _ => Ok (mkDraft "ready" "" verb t [])
    end.

Definition draft (c : core) (payload : json) (today : string) : res GoalDraftResult :=
  match payload with
  | JObj kv =>
      match field kv "verb" with
      | JStr verb =>
          if negb (in_words verb GOAL_PROPOSAL_VERBS) then Ok (draft_refused "unknown_goal_verb")
          else if existsb (fun k => negb (String.eqb k "verb") && negb (in_words k (fields_of verb))) kv.*1
          then Ok (draft_refused "unexpected_fields")
          else if existsb (fun k => unsaid_value (field kv k)) (required_of verb)
          then Ok (draft_waits "goal_action_fields_required")
          else match normalized verb kv with
               | Ok t => draft_ready c verb t today
               | Raise (Refusal tag) => Ok (draft_refused tag)
               | Raise TypeError | Raise ValueError => Ok (draft_refused "invalid_goal_terms")
               | Raise e => Raise e
               end
      | _ => Ok (draft_refused "unknown_goal_verb")
      end
  | _ => Ok (draft_refused "payload_not_object")
  end.

(** ** The live state *)
Definition goal_stake (v : GoalView) : json :=
  let term k d := get_or (v_terms v) k d in
  JObj [("goal_id", JStr (v_goal_id v)); ("title", term "title" (JStr "")); ("state", v_state v);
        ("currency", v_currency v); ("target_amount", JStr (dec_str (v_target_amount v)));
        ("target_date", term "target_date" (JStr ""));
        ("monthly_contribution", optional_dec (v_monthly_contribution v));
        ("contribution_day", term "contribution_day" JNull);
        ("reservations", JArr (List.map (fun p => JArr [JStr p.1; JStr (dec_str p.2)]) (v_reservations v)));
        ("event_ids", JArr (v_event_ids v))].

(** [d[k]] as text. *)
Definition item_text (d : list (string * json)) (k : string) : res string :=
  let? v := res_of_option KeyError (dict_get d k) in text v.

Definition stake (c : core) (verb : string) (proposal : list (string * json)) (today : string) : res json :=
  let? goal_id := item_text proposal "goal_id" in
  if String.eqb verb "create" then
    let? v := find_goal c goal_id today in
    Ok (JObj [("goal_id", JStr goal_id); ("absent", JBool (match v with Some _ => false | None => true end))])
  else
    let? row := goal restricted c goal_id today in
    let? account := if on_funds verb then
                      let? a := item_text proposal "account_id" in
                      let? cur := text (v_currency row) in
                      let? s := account_stake restricted c a cur in
                      Ok [("account", s)]
                    else Ok [] in
    Ok (JObj (("goal", goal_stake row) :: account)).

Definition live_refusal (c : core) (verb : string) (proposal : list (string * json)) (today : string) : res string :=
  let? goal_id := item_text proposal "goal_id" in
  if String.eqb verb "create" then
    let? v := find_goal c goal_id today in
    Ok (match v with Some _ => "goal_id_exists" | None => "" end)
  else
    let? v := find_goal c goal_id today in
    match v with
    | None => Ok "unknown_goal"
    | Some row =>
        if py_eq_str (v_state row) "set_aside" then Ok "goal_set_aside"
        else if String.eqb verb "change_terms" then
          if nonzero (p_reserved (v_plan row)) then
            let? cur := res_of_option KeyError (dict_get proposal "currency") in
            Ok (if json_eq cur (v_currency row) then "" else "reserved_goal_currency_fixed")
          else Ok ""
        else if String.eqb verb "reserve" then
          let? a := item_text proposal "account_id" in
          match List.find (fun x => String.eqb (a_account_id x) a) (v_available row) with
          | None => Ok "account_not_eligible"
          | Some x =>
              let? raw := res_of_option KeyError (dict_get proposal "amount") in
              let? amt := Decimal_of_json raw in
              let? over := dlt (a_available x) amt in
              Ok (if over then "reservation_exceeds_available" else "")
          end
        else if String.eqb verb "release" then
          let? a := item_text proposal "account_id" in
          let? raw := res_of_option KeyError (dict_get proposal "amount") in
          let? amt := Decimal_of_json raw in
          let? over := dlt (default dzero (dict_get (v_reservations row) a)) amt in
          Ok (if over then "release_exceeds_reserved" else "")
        else if String.eqb verb "pause" then
          Ok (if py_eq_str (v_state row) "active" then "" else "goal_not_active")
        else if String.eqb verb "resume" then
          Ok (if py_eq_str (v_state row) "paused" then "" else "goal_not_paused")
        else if String.eqb verb "set_aside" then
          Ok (if nonzero (p_reserved (v_plan row)) then "goal_still_reserved" else "")
        else Ok ""
    end.

(** ** The decisions *)

(** [fresh] is the identity of the new event; [mint] the two the service mints. *)
Definition propose (c : core) (payload : json) (today fresh mint_goal mint_proposal : string)
    : res (GoalActionResult * list Event) :=
  let? d := draft c payload today in
  if negb (String.eqb (d_state d) "ready") then
    Ok (action (if String.eqb (d_state d) "needs_input" then "waiting" else "refused") (d_reason d) (draft_dict d), [])
  else
    let verb := d_verb d in
    let proposal := if String.eqb verb "create" then dict_set (d_payload d) "goal_id" (JStr mint_goal) else d_payload d in
    let? reason := live_refusal c verb proposal today in
    if negb (String.eqb reason "") then Ok (action "refused" reason (draft_dict d), [])
    else
      let? sk := stake c verb proposal today in
      let? id := item_text proposal "goal_id" in
      let summary := verb ++ ":" ++ id in
      let? e := goal_proposal_recorded fresh mint_proposal verb summary (JObj proposal) sk today None in
      Ok (mkAction "proposal" "" mint_proposal summary id proposal, [e]).

(** [_event]. *)
Definition goal_action_event (verb : string) (p : list (string * json)) (proposal_id today fresh : string) : res Event :=
  let? goal_id := item_text p "goal_id" in
  if on_terms verb then
    let? title := item_text p "title" in
    let? cur := item_text p "currency" in
    let? target := res_of_option KeyError (dict_get p "target_amount") in
    let? td := text (get_or p "target_date" (JStr "")) in
    let make := if String.eqb verb "create" then goal_created fresh else goal_terms_changed fresh in
    make goal_id title cur (number_of target) today td (number_or_none (field p "monthly_contribution"))
      (field p "contribution_day") proposal_id None
  else if String.eqb verb "reserve" then
    let? a := item_text p "account_id" in
    let? v := res_of_option KeyError (dict_get p "amount") in
    goal_funds_reserved fresh goal_id a (number_of v) today proposal_id None
  else if String.eqb verb "release" then
    let? a := item_text p "account_id" in
    let? v := res_of_option KeyError (dict_get p "amount") in
    let? reason := item_text p "reason" in
    goal_funds_released fresh goal_id a (number_of v) reason today proposal_id None
  else
    let? st := res_of_option KeyError
                 (dict_get [("pause", "paused"); ("resume", "active"); ("set_aside", "set_aside")] verb) in
    goal_state_changed fresh goal_id st today proposal_id None.

(** [dict(held.get("proposal") or {})]. *)
Definition held_proposal (held : list (string * json)) : res (list (string * json)) :=
  let v := field held "proposal" in
  if py_truthy v then match v with JObj kv => Ok kv | _ => Raise TypeError end else Ok [].
Definition open_proposal (c : core) (proposal_id : string) : option (list (string * json)) :=
  match goal_proposal c proposal_id with
  | Some held => if py_eq_str (field held "status") "open" then Some held else None
  | None => None
  end.

(** [decide] of [confirm], [fresh] and [fresh2] the identities of its events. *)
Definition confirm (c : core) (proposal_id today fresh fresh2 : string) : res (GoalActionResult * list Event) :=
  if blank proposal_id then Ok (action "refused" "proposal_id_required" [], [])
  else
    match open_proposal c proposal_id with
    | None => Ok (action "refused" "proposal_not_open" [], [])
    | Some held =>
        let verb := str_or (field held "verb") "" in
        let? proposal := held_proposal held in
        let? live_reason := live_refusal c verb proposal today in
        let? live_stake := stake c verb proposal today in
        let answer kind reason :=
          mkAction kind reason proposal_id (str_or (field held "summary") "")
            (str_or (field proposal "goal_id") "") proposal in
        if negb (String.eqb live_reason "") || negb (json_eq live_stake (field held "stake")) then
          let reason := if String.eqb live_reason "" then "proposal_basis_changed" else live_reason in
          let? e := goal_proposal_resolved fresh proposal_id "stale" today reason None in
          Ok (answer "stale" reason, [e])
        else
          let? e := goal_action_event verb proposal proposal_id today fresh in
          let? e2 := goal_proposal_resolved fresh2 proposal_id "completed" today "" None in
          Ok (answer "completed" "", [e; e2])
    end.

Definition decline (c : core) (proposal_id today fresh : string) : res (GoalActionResult * list Event) :=
  if blank proposal_id then Ok (action "refused" "proposal_id_required" [], [])
  else
    match open_proposal c proposal_id with
    | None => Ok (action "refused" "proposal_not_open" [], [])
    | Some held =>
        let? proposal := held_proposal held in
        let? e := goal_proposal_resolved fresh proposal_id "set_aside" today "declined" None in
        Ok (mkAction "set_aside" "declined" proposal_id (str_or (field held "summary") "")
              (str_or (field proposal "goal_id") "") proposal, [e])
    end.
End Service.
