(* ===== verification/GoalLaws.v ===== *)
(** * Goal laws: what the fold keeps, and what a decision rests on *)
From Stdlib Require Import ZArith NArith Ascii String Lia ZifyBool ZifyN ZifyNat.
From stdpp Require Import base list numbers strings.
From S2P Require Import Prelude Text Words Json Unicode Dates Decimals Floats Arithmetic Acquisition Events EventTypes Conversations Postings Schedule Accounts Goals GoalService.
#[local] Open Scope string_scope.

(** ** One event *)

(** An event of a type the account fold passes over. *)
Definition not_account (t : string) : Prop :=
  t ∉ ["AccountOpened"; "AccountIdentityObserved"; "OpeningBalanceObserved"; "ClosingBalanceObserved"; "PositionObserved";
         "TransactionRecorded"].
Lemma apply_account_other s e t at_ : event_type e = JStr t -> occurred_at e = JStr at_ -> not_account t ->
  apply_account s e = Ok s.
Proof.
  intros Ht Ha Hn. unfold apply_account. rewrite Ht, Ha. cbn [text rbind].
  repeat match goal with |- context [String.eqb t ?x] =>
    destruct (String.eqb_spec t x) as [->|]; [by destruct Hn; repeat constructor|] end. done.
Qed.

Ltac not_an_account := unfold not_account; rewrite <- in_words_spec; vm_compute; discriminate.

(** ** Settled proposals *)
Definition settled (c : core) (pid : string) : Prop :=
  exists row, goal_proposal c pid = Some row /\ py_eq_str (field row "status") "open" = false.

Lemma settled_not_open c pid : settled c pid -> open_proposal c pid = None.
Proof. intros (row & E & H). unfold open_proposal. by rewrite E, H. Qed.

Lemma known_text {A} (s : list (string * A)) v x : known s v = Ok x ->
  match v with
  | JStr id => x = match dict_get s id with Some a => Some (id, a) | None => None end
  | _ => x = None
  end.
Proof. by destruct v; cbn [known]; try done; intros [= <-]. Qed.

Lemma apply_proposal_settled s e s' pid row : apply_proposal s e = Ok s' ->
  dict_get s pid = Some row -> py_eq_str (field row "status") "open" = false -> dict_get s' pid = Some row.
Proof.
  unfold apply_proposal. intros H Hrow Hst.
  apply rbind_ok in H as (et & _ & H). apply rbind_ok in H as (at_ & _ & H).
  destruct (String.eqb et "GoalProposalRecorded"); [|destruct (String.eqb et "GoalProposalResolved"); [|by apply Ok_inj in H as <-]];
    apply rbind_ok in H as (v & _ & H).
  - destruct (negb (py_truthy v)); [by apply Ok_inj in H as <-|].
    apply rbind_ok in H as (x & Hx%known_text & H). destruct x as [[id row']|]; [by apply Ok_inj in H as <-|].
    apply rbind_ok in H as (id & Hid & H). apply rbind_ok in H as (kv & _ & H). apply Ok_inj in H as <-.
    destruct v; try done. apply Ok_inj in Hid as ->. destruct (dict_get s id) eqn:Eg; [done|].
    rewrite dict_get_set; [done|]. intros ->. congruence.
  - apply rbind_ok in H as (x & Hx%known_text & H). destruct x as [[id row']|]; [|by apply Ok_inj in H as <-].
    destruct (py_eq_str (field row' "status") "open") eqn:Hop; [|by apply Ok_inj in H as <-].
    apply rbind_ok in H as (o & _ & H). apply rbind_ok in H as (w & _ & H). apply Ok_inj in H as <-.
    rewrite dict_get_set; [done|]. intros ->. destruct v; try done.
    destruct (dict_get s s0) eqn:Eg; [|done]. injection Hx as -> ->. congruence.
Qed.

Lemma apply_settled c e c' pid : apply c e = Ok c' -> settled c pid -> settled c' pid.
Proof.
  unfold apply. intros H (row & E & Hst). apply rbind_ok in H as (at_ & _ & H).
  destruct (match as_of c with Some _ => _ | None => _ end); [apply Ok_inj in H as <-; by exists row|].
  apply rbind_ok in H as (a & _ & H). apply rbind_ok in H as (g & _ & H). apply rbind_ok in H as (p & Hp & H).
  apply Ok_inj in H as <-. exists row. split; [|done]. by eapply apply_proposal_settled.
Qed.
Lemma rfold_settled l c c' pid : rfold apply l c = Ok c' -> settled c pid -> settled c' pid.
Proof.
  revert c. induction l as [|e l IH]; intros c H Hs; [by apply Ok_inj in H as <-|]. cbn [rfold] in H.
  apply rbind_ok in H as (c1 & H1 & H). eapply IH; [exact H|]. by eapply apply_settled.
Qed.

(** Resolving an open proposal settles it. *)
Lemma resolved_settles fresh c c' pid outcome today reason e : open_proposal c pid <> None -> strip pid = pid ->
  as_of c = None -> goal_proposal_resolved fresh pid outcome today reason None = Ok e -> apply c e = Ok c' -> settled c' pid.
Proof.
  intros Ho Hpid Has He H. unfold goal_proposal_resolved in He.
  run_ok. rewrite Hpid in H.
  unfold apply in H. rewrite Has in H. cbn [occurred_at event text rbind] in H.
  apply rbind_ok in H as (accs & _ & H). apply rbind_ok in H as (g & _ & H). apply rbind_ok in H as (p & Hp & H).
  apply Ok_inj in H as <-. unfold open_proposal, goal_proposal in *.
  destruct (dict_get (goal_proposals_ c) pid) as [row|] eqn:Er; [|done].
  destruct (py_eq_str (field row "status") "open") eqn:Hop; [|done].
  unfold apply_proposal in Hp. cbn in Hp. rewrite Er, Hop in Hp. cbn in Hp. apply Ok_inj in Hp as <-.
  eexists. unfold goal_proposal. cbn [goal_proposals_]. rewrite dict_set_same. split; [done|].
  unfold dict_update. cbn [fold_left fst snd]. unfold field.
  rewrite !dict_get_set by done. by rewrite dict_set_same.
Qed.

(** ** What a confirmation comes to *)
Section Confirm.
Context `{CaseMap} (restricted : string -> bool) (repr : json -> string).
#[local] Abbreviation confirm := (confirm restricted repr).
#[local] Abbreviation decline := (decline repr).

Lemma confirm_cases c pid today fresh fresh2 r evs : confirm c pid today fresh fresh2 = Ok (r, evs) ->
  (evs = [] /\ r_kind r = "refused" /\ (blank pid = true \/ open_proposal c pid = None))
  \/ (exists held, blank pid = false /\ open_proposal c pid = Some held /\
      ((exists e, evs = [e] /\ r_kind r = "stale" /\ goal_proposal_resolved fresh pid "stale" today (r_reason r) None = Ok e)
       \/ (exists p e e2, evs = [e; e2] /\ r_kind r = "completed" /\ held_proposal held = Ok p
           /\ live_refusal restricted c (str_or repr (field held "verb") "") p today = Ok ""
           /\ goal_action_event (str_or repr (field held "verb") "") p pid today fresh = Ok e
           /\ goal_proposal_resolved fresh2 pid "completed" today "" None = Ok e2
           /\ exists sk, stake restricted c (str_or repr (field held "verb") "") p today = Ok sk
                /\ json_eq sk (field held "stake") = true))).
Proof.
  unfold GoalService.confirm. destruct (blank pid) eqn:Eb; [intros [= <- <-]; left; tauto|].
  destruct (open_proposal c pid) as [held|] eqn:Eo; [|intros [= <- <-]; left; tauto].
  intros Hx. right. exists held. do 2 (split; [done|]).
  apply rbind_ok in Hx as (p & Hp & Hx). apply rbind_ok in Hx as (lr & Hlr & Hx). apply rbind_ok in Hx as (sk & Hsk & Hx).
  destruct (negb (String.eqb lr "") || negb (json_eq sk (field held "stake"))) eqn:Es.
  - apply rbind_ok in Hx as (e & He & Hx). injection Hx as <- <-. left. exists e. done.
  - apply orb_false_iff in Es as [E1%negb_false_iff%String.eqb_eq E2%negb_false_iff]. subst lr.
    apply rbind_ok in Hx as (e & He & Hx). apply rbind_ok in Hx as (e2 & He2 & Hx). injection Hx as <- <-.
    right. exists p, e, e2. repeat (split; [done|]). by exists sk.
Qed.

Lemma decline_cases c pid today fresh r evs : decline c pid today fresh = Ok (r, evs) ->
  (evs = [] /\ r_kind r = "refused" /\ (blank pid = true \/ open_proposal c pid = None))
  \/ (exists held e, blank pid = false /\ open_proposal c pid = Some held /\ evs = [e] /\ r_kind r = "set_aside"
      /\ goal_proposal_resolved fresh pid "set_aside" today "declined" None = Ok e).
Proof using Type.
  clear restricted.
  unfold GoalService.decline. destruct (blank pid) eqn:Eb; [intros [= <- <-]; left; tauto|].
  destruct (open_proposal c pid) as [held|] eqn:Eo; [|intros [= <- <-]; left; tauto].
  intros Hx. right. apply rbind_ok in Hx as (p & Hp & Hx). apply rbind_ok in Hx as (e & He & Hx).
  injection Hx as <- <-. by exists held, e.
Qed.

(** A settled proposal is refused, and nothing is appended. *)
Lemma settled_refused c pid today fresh fresh2 : settled c pid ->
  (exists r, confirm c pid today fresh fresh2 = Ok (r, []) /\ r_kind r = "refused")
  /\ exists r, decline c pid today fresh = Ok (r, []) /\ r_kind r = "refused".
Proof.
  intros Hs%settled_not_open. unfold GoalService.confirm, GoalService.decline. rewrite Hs.
  by destruct (blank pid); split; eexists.
Qed.
End Confirm.

Definition GOAL_EVENTS : list string :=
  ["GoalCreated"; "GoalTermsChanged"; "GoalFundsReserved"; "GoalFundsReleased"; "GoalStateChanged"].
Lemma goal_event_type `{CaseMap} verb p pid today fresh e : goal_action_event verb p pid today fresh = Ok e ->
  exists t, t ∈ GOAL_EVENTS /\ event_type e = JStr t /\ occurred_at e = JStr today.
Proof.
  assert (Hin : forall t, in_words t GOAL_EVENTS = true -> t ∈ GOAL_EVENTS) by (intros t; apply in_words_spec).
  unfold goal_action_event. intros Hx. apply rbind_ok in Hx as (id & _ & Hx).
  destruct (on_terms verb); [|destruct (String.eqb verb "reserve"); [|destruct (String.eqb verb "release")]].
  - apply rbind_ok in Hx as (ti & _ & Hx). apply rbind_ok in Hx as (cu & _ & Hx).
    apply rbind_ok in Hx as (ta & _ & Hx). apply rbind_ok in Hx as (td & _ & Hx).
    destruct (String.eqb verb "create"); unfold goal_created, goal_terms_changed, goal_event in Hx;
      apply rbind_ok in Hx as (b & _ & Hx); apply Ok_inj in Hx as <-; (eexists; split; [|split; reflexivity]; by apply Hin).
  - unfold goal_funds_reserved in Hx. run_ok. subst. eexists; split; [|split; reflexivity]; by apply Hin.
  - unfold goal_funds_released in Hx. run_ok. subst. eexists; split; [|split; reflexivity]; by apply Hin.
  - unfold goal_state_changed in Hx. run_ok. subst. eexists; split; [|split; reflexivity]; by apply Hin.
Qed.
Lemma apply_goal_event c e c' t at_ : t ∈ GOAL_EVENTS -> event_type e = JStr t -> occurred_at e = JStr at_ ->
  as_of c = None -> apply c e = Ok c' ->
  exists g, apply_goal (goals_ c) e = Ok g /\ c' = mkCore None (acct c) g (goal_proposals_ c).
Proof.
  intros Ht Het Hat Has Hx. unfold apply in Hx. rewrite Hat, Has in Hx. cbn [text rbind] in Hx.
  assert (Hn : not_account t /\ t <> "GoalProposalRecorded" /\ t <> "GoalProposalResolved").
  { unfold GOAL_EVENTS in Ht. repeat (apply elem_of_cons in Ht as [->|Ht]; [split; [not_an_account|by split]|]).
    by apply elem_of_nil in Ht. }
  rewrite (apply_account_other _ _ t at_) in Hx by tauto. cbn [rbind] in Hx.
  apply rbind_ok in Hx as (g & Hg & Hx). exists g. split; [done|].
  unfold apply_proposal in Hx. rewrite Het, Hat in Hx. cbn [text rbind] in Hx.
  destruct Hn as (_ & N1%String.eqb_neq & N2%String.eqb_neq). rewrite N1, N2 in Hx. cbn [rbind] in Hx.
  by apply Ok_inj in Hx.
Qed.

(** ** What is set aside on an account, in units of [10^e0] *)
Section Totals.
Context (e0 : Z).
Hypothesis Hs : scale_ok default_ctx e0.
Hypothesis He0 : (e0 <= 0)%Z.

Definition entries_total (a : string) (rs : list (string * decimal)) : Z :=
  zsum (List.map (fun r => if String.eqb r.1 a then units e0 r.2 else 0%Z) rs).
Definition total (a : string) (rows : goal_rows) : Z :=
  zsum (List.map (fun p => entries_total a (reservations p.2)) rows).
(** Every amount set aside on the account is a whole number of units, none negative. *)
Definition measured (a : string) (rs : list (string * decimal)) : Prop :=
  Forall (fun r => r.1 = a -> on_scale e0 r.2 /\ (0 <= units e0 r.2)%Z) rs.
Definition all_measured (a : string) (rows : goal_rows) : Prop :=
  Forall (fun p => measured a (reservations p.2)) rows.
Definition held_in (d : list (string * decimal)) (a : string) : decimal := default dzero (dict_get d a).

Lemma dzero_scale : on_scale e0 dzero /\ units e0 dzero = 0%Z.
Proof using He0. by split. Qed.

Lemma entries_nonneg a rs : measured a rs -> (0 <= entries_total a rs)%Z.
Proof using Type.
  clear Hs He0. induction 1 as [|[k d] rs Hk _ IH]; [done|]. unfold entries_total in *. cbn [List.map fst snd].
  rewrite zsum_cons. cbn [fst snd] in *. destruct (String.eqb_spec k a) as [->|]; [destruct (Hk eq_refl)|]; lia.
Qed.
Lemma total_nonneg a rows : all_measured a rows -> (0 <= total a rows)%Z.
Proof using Type.
  clear Hs He0. induction 1 as [|p rows Hp _ IH]; [done|]. unfold total in *. cbn [List.map]. rewrite zsum_cons.
  pose proof (entries_nonneg a _ Hp). lia.
Qed.

Lemma held_measured a rs : measured a rs -> on_scale e0 (held_in rs a) /\ (0 <= units e0 (held_in rs a))%Z.
Proof using He0.
  intros H. unfold held_in. destruct (dict_get rs a) as [d|] eqn:E; [|destruct dzero_scale; cbn [default id]; split; [done|lia]].
  induction H as [|[k x] rs Hk _ IH]; [done|]. cbn [dict_get] in E.
  destruct (String.eqb_spec a k) as [->|]; [injection E as ->; by apply Hk|by apply IH].
Qed.
Lemma held_le_total a rs : measured a rs -> (units e0 (held_in rs a) <= entries_total a rs)%Z.
Proof using He0.
  intros H. unfold held_in. induction H as [|[k x] rs Hk Hrs IH]; [done|]. cbn [dict_get].
  unfold entries_total in *. cbn [List.map fst snd]. rewrite zsum_cons. pose proof (entries_nonneg a rs Hrs).
  unfold entries_total in *. rewrite String.eqb_sym.
  destruct (String.eqb_spec k a) as [->|]; cbn [default id]; lia.
Qed.

Lemma entries_set a rs d : entries_total a (dict_set rs a d) = (entries_total a rs - units e0 (held_in rs a) + units e0 d)%Z.
Proof using He0.
  unfold held_in. induction rs as [|[k x] rs IH]; cbn [dict_set dict_get].
  - unfold entries_total. cbn [List.map fst snd]. rewrite String.eqb_refl, zsum_cons. cbn [default id].
    destruct dzero_scale as [_ ->]. change (zsum []) with 0%Z. lia.
  - rewrite String.eqb_sym. unfold entries_total in *. destruct (String.eqb_spec k a) as [->|Hk].
    + cbn [List.map fst snd default id]. rewrite String.eqb_refl, !zsum_cons. lia.
    + apply String.eqb_neq in Hk. cbn [List.map fst snd]. rewrite Hk, !zsum_cons. lia.
Qed.
Lemma measured_set a rs d : measured a rs -> on_scale e0 d -> (0 <= units e0 d)%Z -> measured a (dict_set rs a d).
Proof using Type.
  clear Hs He0. intros H Hd Hu. induction H as [|[k x] rs Hk Hrs IH]; cbn [dict_set].
  - by repeat constructor.
  - by destruct (String.eqb a k); constructor.
Qed.
Lemma total_set a rows id g g' : dict_get rows id = Some g ->
  total a (dict_set rows id g')
  = (total a rows - entries_total a (reservations g) + entries_total a (reservations g'))%Z.
Proof using Type.
  clear Hs He0. induction rows as [|[k x] rows IH]; cbn [dict_get dict_set]; [done|].
  unfold total in *. destruct (String.eqb id k); [intros [= ->]|intros Hg]; cbn [List.map snd]; rewrite !zsum_cons; [|rewrite IH by done]; lia.
Qed.
Lemma all_measured_set a rows id g' : all_measured a rows -> measured a (reservations g') ->
  all_measured a (dict_set rows id g').
Proof using Type.
  clear Hs He0. intros H Hg. induction H as [|[k x] rows Hk Hr IH]; cbn [dict_set]; [by repeat constructor|].
  destruct (String.eqb id k); by constructor.
Qed.
Lemma all_measured_get a rows id g : all_measured a rows -> dict_get rows id = Some g ->
  measured a (reservations g) /\ (entries_total a (reservations g) <= total a rows)%Z.
Proof using Type.
  clear Hs He0. intros H. induction H as [|[k x] rows Hk Hr IH]; cbn [dict_get]; [done|].
  unfold total in *. cbn [List.map snd]. rewrite zsum_cons. pose proof (total_nonneg a rows Hr). unfold total in *.
  cbn [snd] in Hk. pose proof (entries_nonneg a _ Hk).
  destruct (String.eqb id k); [intros [= ->]|intros [? ?]%IH]; split; try done; lia.
Qed.

(** [reserved_by_account] adds up what the account's entries are worth. *)
Lemma reserve_entries a rs t t' :
  rfold (fun totals (r : string * decimal) =>
           let? x := dadd default_ctx (default dzero (dict_get totals r.1)) r.2 in Ok (dict_set totals r.1 x)) rs t = Ok t' ->
  measured a rs -> on_scale e0 (held_in t a) -> (0 <= units e0 (held_in t a))%Z ->
  fits default_ctx (units e0 (held_in t a) + entries_total a rs) ->
  on_scale e0 (held_in t' a) /\ units e0 (held_in t' a) = (units e0 (held_in t a) + entries_total a rs)%Z.
Proof using Hs He0.
  intros H Hm. revert t H. induction Hm as [|[k d] rs Hk Hrs IH]; intros t H Ht Hu Hf.
  - apply Ok_inj in H as <-. unfold entries_total. cbn. split; [done|lia].
  - cbn [rfold fst snd] in H. apply rbind_ok in H as (t1 & H1 & H). apply rbind_ok in H1 as (x & Hx & H1).
    apply Ok_inj in H1 as <-. pose proof (entries_nonneg a rs Hrs) as Hn.
    unfold entries_total in Hf |- *. cbn [List.map fst snd] in Hf |- *. rewrite zsum_cons in Hf |- *.
    fold (entries_total a rs) in Hf |- *. destruct (String.eqb_spec k a) as [->|Hne].
    + destruct (Hk eq_refl) as [Hd1 Hd2]. cbn [snd] in *.
      destruct (dadd_exact default_ctx e0 (held_in t a) d Hs Ht Hd1) as (y & Hy & Hy1 & Hy2); [eapply fits_le; [exact Hf|lia]|].
      unfold held_in in Hy at 1. rewrite Hy in Hx. apply Ok_inj in Hx as <-.
      assert (Ey : held_in (dict_set t a y) a = y) by (unfold held_in; by rewrite dict_set_same).
      destruct (IH _ H) as [I1 I2]; [by rewrite Ey|rewrite Ey; lia|rewrite Ey; eapply fits_le; [exact Hf|lia]|].
      split; [done|].
      rewrite I2, Ey. lia.
    + assert (Ey : held_in (dict_set t k x) a = held_in t a) by (unfold held_in; by rewrite dict_get_set).
      destruct (IH _ H) as [I1 I2]; [by rewrite Ey..|]. split; [done|]. by rewrite I2, Ey.
Qed.

Lemma reserve_rows a rows t t' :
  rfold (fun totals (p : string * goal_row) =>
           rfold (fun totals (r : string * decimal) =>
                    let? x := dadd default_ctx (default dzero (dict_get totals r.1)) r.2 in
                    Ok (dict_set totals r.1 x)) (reservations p.2) totals) rows t = Ok t' ->
  all_measured a rows -> on_scale e0 (held_in t a) -> (0 <= units e0 (held_in t a))%Z ->
  fits default_ctx (units e0 (held_in t a) + total a rows) ->
  on_scale e0 (held_in t' a) /\ units e0 (held_in t' a) = (units e0 (held_in t a) + total a rows)%Z.
Proof using Hs He0.
  intros H Hm. revert t H. induction Hm as [|p rows Hp Hr IH]; intros t H Ht Hu Hf.
  - apply Ok_inj in H as <-. unfold total. cbn. split; [done|lia].
  - cbn [rfold] in H. apply rbind_ok in H as (t1 & H1 & H).
    unfold total in Hf |- *. cbn [List.map] in Hf |- *. rewrite zsum_cons in Hf |- *. fold (total a rows) in Hf |- *.
    pose proof (entries_nonneg a _ Hp). pose proof (total_nonneg a _ Hr).
    destruct (reserve_entries a _ _ _ H1 Hp Ht Hu) as [I1 I2]; [eapply fits_le; [exact Hf|lia]|].
    destruct (IH _ H I1) as [J1 J2]; [lia|eapply fits_le; [exact Hf|lia]|]. split; [done|]. lia.
Qed.

Lemma reserved_total a c t : reserved_by_account c = Ok t -> all_measured a (goals_ c) ->
  fits default_ctx (total a (goals_ c)) ->
  on_scale e0 (held_in t a) /\ units e0 (held_in t a) = total a (goals_ c).
Proof using Hs He0.
  intros H Hm Hf. destruct (reserve_rows a (goals_ c) [] t H Hm) as [I1 I2]; [exact He0|by vm_compute|exact Hf|].
  by split.
Qed.
End Totals.

(** ** From a decision back to the projection *)
Lemma rmap_elem {A B} (f : A -> res B) l bs b : rmap f l = Ok bs -> b ∈ bs -> exists a, a ∈ l /\ f a = Ok b.
Proof.
  intros H%rmap_ok Hb. induction H as [|x y l bs Hxy _ IH]; [by apply elem_of_nil in Hb|].
  apply elem_of_cons in Hb as [->|Hb]; [exists x; split; [constructor|done]|].
  destruct (IH Hb) as (a & Ha & E). exists a. split; [by constructor|done].
Qed.

Lemma goal_is restricted c id today v : goal restricted c id today = Ok v ->
  v_goal_id v = id /\ exists g, dict_get (goals_ c) id = Some g /\ goal_view restricted c today id g = Ok v.
Proof.
  unfold goal. intros H. apply rbind_ok in H as (l & Hl & H). apply res_of_option_ok in H.
  apply List.find_some in H as [Hv E%String.eqb_eq]. split; [done|].
  apply list_elem_of_In in Hv. destruct (rmap_elem _ _ _ _ Hl Hv) as (k & _ & Hk).
  destruct (dict_get (goals_ c) k) as [g|] eqn:Eg; [|done].
  assert (k = id) as <-; [|by exists g].
  unfold goal_view in Hk. repeat (apply rbind_ok in Hk as (? & _ & Hk)). by apply Ok_inj in Hk as <-.
Qed.
Lemma find_goal_is restricted c id today v : find_goal restricted c id today = Ok (Some v) ->
  goal restricted c id today = Ok v.
Proof.
  unfold find_goal. destruct (goal restricted c id today) as [w|e]; [by intros [= ->]|]. by destruct e.
Qed.

Lemma goal_view_is restricted c today id g v : goal_view restricted c today id g = Ok v ->
  v_state v = g_state g /\ v_reservations v = sorted_items (reservations g)
  /\ exists cur x, get_or (terms g) "currency" (JStr "") = JStr cur /\ availability restricted c cur = Ok (v_available v, x).
Proof.
  unfold goal_view. intros H. apply rbind_ok in H as (p & _ & H). apply rbind_ok in H as (cur & Hcur & H).
  apply rbind_ok in H as ([av x] & Hav & H). repeat (apply rbind_ok in H as (? & _ & H)).
  apply Ok_inj in H as <-. split; [done|]. split; [done|]. exists cur, x. split; [|done].
  destruct (get_or (terms g) "currency" (JStr "")); try done. by injection Hcur as ->.
Qed.

(** An account that may back a goal in a currency: a depository account known from its
    issuer's documents, in that currency, under no restriction, whose figures agree. *)
Record may_back (restricted : string -> bool) (c : core) (cur a : string) (ans : BalanceAnswer) : Prop := {
  mb_seen : seen (state_of (acct c) a) = true;
  mb_kind : kind (state_of (acct c) a) = JStr "depository";
  mb_origin : origin (state_of (acct c) a) = JStr ISSUED;
  mb_currency : currency (state_of (acct c) a) = JStr cur /\ cur <> "";
  mb_free : restricted a = false;
  mb_agrees : b_grade ans <> CONFLICTED
}.
Lemma text_equal v t : py_eq_str v t = true -> v = JStr t.
Proof. destruct v; try done. by intros ->%String.eqb_eq. Qed.
Lemma backs restricted c cur a ans : seen (state_of (acct c) a) = true -> exclusion restricted a cur (state_of (acct c) a) ans = "" ->
  may_back restricted c cur a ans.
Proof.
  unfold exclusion. intros Hseen Ex.
  repeat match type of Ex with (if ?b then _ else _) = _ => destruct b eqn:?; [done|] end.
  repeat match goal with H : negb _ = false |- _ => apply negb_false_iff in H end.
  repeat match goal with H : py_eq_str _ _ = true |- _ => apply text_equal in H end.
  split; try done.
  - split; [done|]. intros ->. match goal with H : py_truthy _ = true |- _ => rename H into Ht end.
    match goal with H : currency _ = JStr "" |- _ => rewrite H in Ht end. done.
  - intros Eg. by rewrite Eg in *.
Qed.

Lemma availability_is restricted c cur l x a : availability restricted c cur = Ok (l, x) -> a ∈ l ->
  exists t ans f, reserved_by_account c = Ok t
    /\ balance (acct c) (as_of c) (a_account_id a) = Ok ans
    /\ dsub default_ctx (b_amount ans) (held_in t (a_account_id a)) = Ok f /\ dmax f dzero = Ok (a_available a)
    /\ may_back restricted c cur (a_account_id a) ans.
Proof.
  unfold availability. intros H Ha. apply rbind_ok in H as (t & Ht & H). apply rbind_ok in H as (j & Hj & H).
  injection H as <- _. apply list_elem_of_omap in Ha as (o & Ho & E). destruct o as [[?|a']|]; try done. injection E as ->.
  destruct (rmap_elem _ _ _ _ Hj Ho) as (k & _ & Hk). unfold judge in Hk.
  destruct (negb _ || negb _) eqn:Eseen; [done|]. apply orb_false_iff in Eseen as [Eseen _]. apply negb_false_iff in Eseen.
  apply rbind_ok in Hk as (ans & Hans & Hk).
  destruct (negb (String.eqb (exclusion restricted k cur _ ans) "")) eqn:Ex; [done|].
  apply rbind_ok in Hk as (f & Hf & Hk). apply rbind_ok in Hk as (free & Hfree & Hk). injection Hk as <-.
  cbn [a_account_id a_available]. exists t, ans, f. repeat (split; [done|]).
  apply negb_false_iff, String.eqb_eq in Ex. by apply backs.
Qed.

Lemma sorted_items_get rs a : dict_get (sorted_items rs) a = dict_get rs a.
Proof.
  unfold sorted_items. assert (Hin : forall k d, dict_get rs k = Some d -> k ∈ rs.*1).
  { induction rs as [|[k' d'] rs IH]; intros k d; cbn [dict_get]; [done|].
    destruct (String.eqb_spec k k') as [->|]; [intros _; constructor|]. intros H. constructor. by eapply IH. }
  assert (Hks : forall ks, a ∈ ks \/ dict_get rs a = None ->
    dict_get (omap (fun k => match dict_get rs k with Some d => Some (k, d) | None => None end) ks) a = dict_get rs a).
  { induction ks as [|k ks IH]; intros Hk.
    - destruct Hk as [Hk|Hk]; [by apply elem_of_nil in Hk|by rewrite Hk].
    - cbn. destruct (dict_get rs k) as [d|] eqn:Ek.
      + cbn [dict_get]. destruct (String.eqb_spec a k) as [->|Hne]; [done|]. apply IH.
        destruct Hk as [[?|Hk]%elem_of_cons|Hk]; [done|by left|by right].
      + apply IH. destruct Hk as [[->|Hk]%elem_of_cons|Hk]; [by right|by left|by right]. }
  apply Hks. destruct (dict_get rs a) as [d|] eqn:E; [left|by right]. apply sorted_set_elem. by eapply Hin.
Qed.

(** ** Moving funds *)
Lemma goal_decimal_is x d : goal_decimal x = Ok d ->
  Decimal x = Ok d /\ (forall f, x <> NumFloat f) /\ exists s c e, d = Fin s c e /\ dle d dzero = Ok false.
Proof.
  unfold goal_decimal. intros H. destruct x as [y|y|y|y]; try done.
  1-3: destruct (Decimal _) as [[s c e| |]|] eqn:E in H; try done; apply rbind_ok in H as (b & Hb & H);
    destruct b; try done; apply Ok_inj in H as <-; split; [exact E|split; [done|by exists s, c, e]].
Qed.
Lemma number_of_decimal raw d : goal_decimal (number_of raw) = Ok d -> Decimal_of_json raw = Ok d.
Proof.
  intros (E & Hf & _)%goal_decimal_is. destruct raw as [|b|z|t|s|l|kv]; cbn [number_of] in *; try done.
  - by destruct (Hf dzero).
  - by destruct (Hf dzero).
  - by destruct (Decimal_of_json (JArr l)).
Qed.

Lemma dmul_one s t c e : dmul default_ctx (Fin s 1 0) (Fin t c e) = fix_dec default_ctx (Fin (xorb s t) c e).
Proof. cbn [dmul check_nans]. by rewrite N.mul_1_l, Z.add_0_l. Qed.

Section Moves.
Context (e0 : Z).
Hypothesis Hs : scale_ok default_ctx e0.
Hypothesis He0 : (e0 <= 0)%Z.

Lemma dmax_zero d : on_scale e0 d -> (0 <= units e0 d)%Z -> dmax d dzero = Ok d.
Proof using He0.
  intros Hd Hu. destruct (dzero_scale e0 He0) as [Hz Ez]. unfold dmax. rewrite (dlt_units e0) by done. rewrite Ez.
  replace (units e0 d <? 0)%Z with false by lia. done.
Qed.

Lemma move_funds_exact (reserving : bool) fresh t gid a amt pid at_ g : on_scale e0 amt -> (0 < units e0 amt)%Z ->
  on_scale e0 (held_in (reservations g) a) -> (0 <= units e0 (held_in (reservations g) a))%Z ->
  fits default_ctx (units e0 (held_in (reservations g) a) + units e0 amt) ->
  (reserving = false -> (units e0 amt <= units e0 (held_in (reservations g) a))%Z) ->
  forall more, exists g' held,
    move_funds reserving (event fresh t at_ ([("goal_id", JStr gid); ("account_id", JStr a);
                                              ("amount", JStr (dec_str amt))] ++ more)%list pid) at_ g = Ok g'
    /\ reservations g' = dict_set (reservations g) a held /\ on_scale e0 held
    /\ units e0 held = (units e0 (held_in (reservations g) a) + (if reserving then units e0 amt else - units e0 amt))%Z
    /\ issues g' = issues g /\ g_state g' = g_state g /\ terms g' = terms g.
Proof using Hs He0.
  intros Ha Hp Hb Hbn Hf Hle more. destruct amt as [s c ex| |]; [|done..]. set (amt := Fin s c ex) in *.
  set (before := held_in (reservations g) a) in *.
  assert (Hm : exists m, dmul default_ctx (if reserving then Fin false 1 0 else Fin true 1 0) amt = Ok m
                 /\ on_scale e0 m /\ units e0 m = (if reserving then units e0 amt else - units e0 amt)%Z).
  { assert (Hfa : fits default_ctx (units e0 amt)) by (eapply fits_le; [exact Hf|lia]).
    destruct reserving; unfold amt in *; rewrite dmul_one; cbn [xorb].
    - destruct s; by apply (fix_exact default_ctx e0).
    - destruct (fix_exact default_ctx e0 (negb s) c ex Hs) as (m & E1 & E2 & E3); [exact Ha| |].
      + change (Fin (negb s) c ex) with (copy_negate (Fin s c ex)). rewrite units_negate. by apply fits_opp.
      + exists m. change (xorb true s) with (negb s) in *. split; [destruct s; exact E1|]. split; [done|].
        rewrite E3. change (Fin (negb s) c ex) with (copy_negate (Fin s c ex)). apply units_negate. }
  destruct Hm as (m & Em & Hm1 & Hm2).
  destruct (dadd_exact default_ctx e0 before m Hs Hb Hm1) as (h & Eh & Hh1 & Hh2).
  { eapply fits_le; [exact Hf|]. rewrite Hm2. destruct reserving; [lia|]. specialize (Hle eq_refl). lia. }
  assert (Hh0 : (0 <= units e0 h)%Z) by (rewrite Hh2, Hm2; destruct reserving; [lia|specialize (Hle eq_refl); lia]).
  eexists _, h. split.
  - unfold move_funds. cbn [body event body_text py_get_default dict_get app String.eqb Ascii.eqb Bool.eqb text rbind].
    cbn [Decimal_of_json]. unfold amt at 1. rewrite Decimal_str_round. cbn [rbind]. fold amt.
    change (default dzero (dict_get (reservations g) a)) with before.
    assert (Ho : (if reserving then Ok false else dlt before amt) = Ok false).
    { destruct reserving; [done|]. rewrite (dlt_units e0) by done. f_equal. specialize (Hle eq_refl). lia. }
    rewrite Ho. cbn [rbind]. rewrite Em. cbn [rbind]. rewrite Eh. cbn [rbind]. rewrite dmax_zero by done. cbn [rbind].
    rewrite (deq_units e0) by done. rewrite Z.eqb_refl. cbn [rbind body_dict body event]. reflexivity.
  - cbn [reservations issues g_state terms]. split; [done|]. split; [done|]. split; [by rewrite Hh2, Hm2|done].
Qed.
End Moves.

(** ** The funds a decision moves *)
Lemma fund_event `{CaseMap} verb p pid today fresh e : on_funds verb = true ->
  goal_action_event verb p pid today fresh = Ok e ->
  exists gid a raw amt more, item_text p "goal_id" = Ok gid /\ item_text p "account_id" = Ok a
    /\ dict_get p "amount" = Some raw /\ Decimal_of_json raw = Ok amt
    /\ (exists s c x, amt = Fin s c x /\ dle amt dzero = Ok false)
    /\ e = event fresh (if String.eqb verb "reserve" then "GoalFundsReserved" else "GoalFundsReleased") today
             ([("goal_id", JStr (strip gid)); ("account_id", JStr (strip a)); ("amount", JStr (dec_str amt))] ++ more)%list
             Provenance_empty.
Proof.
  unfold on_funds. intros Hv Hx. unfold goal_action_event in Hx. apply rbind_ok in Hx as (gid & Hg & Hx).
  assert (Ht : on_terms verb = false).
  { apply orb_true_iff in Hv as [->%String.eqb_eq| ->%String.eqb_eq]; done. }
  rewrite Ht in Hx. destruct (String.eqb_spec verb "reserve") as [->|Hn]; [|cbn [orb] in Hv; rewrite Hv in Hx];
    apply rbind_ok in Hx as (a & Ha & Hx); apply rbind_ok in Hx as (raw & Hr%res_of_option_ok & Hx).
  - unfold goal_funds_reserved in Hx. apply rbind_ok in Hx as (u & _ & Hx). apply rbind_ok in Hx as (amt & Hamt & Hx).
    apply Ok_inj in Hx as <-. exists gid, a, raw, amt, [("proposal_id", JStr pid)].
    repeat (split; [done || by apply number_of_decimal|]). split; [by apply goal_decimal_is in Hamt as (_ & _ & ?)|done].
  - apply rbind_ok in Hx as (why & _ & Hx). unfold goal_funds_released in Hx. apply rbind_ok in Hx as (u & _ & Hx).
    apply rbind_ok in Hx as (u' & _ & Hx). apply rbind_ok in Hx as (amt & Hamt & Hx).
    apply Ok_inj in Hx as <-. exists gid, a, raw, amt, [("reason", JStr why); ("proposal_id", JStr pid)].
    repeat (split; [done || by apply number_of_decimal|]). split; [by apply goal_decimal_is in Hamt as (_ & _ & ?)|done].
Qed.

(** What a funds decision found in the live state. *)
Lemma funds_live restricted c verb p today gid a raw amt : on_funds verb = true ->
  live_refusal restricted c verb p today = Ok "" ->
  item_text p "goal_id" = Ok gid -> item_text p "account_id" = Ok a -> dict_get p "amount" = Some raw ->
  Decimal_of_json raw = Ok amt ->
  exists g, dict_get (goals_ c) gid = Some g /\ py_eq_str (g_state g) "set_aside" = false
    /\ if String.eqb verb "reserve"
       then exists cur t ans f free, get_or (terms g) "currency" (JStr "") = JStr cur /\ reserved_by_account c = Ok t
              /\ balance (acct c) (as_of c) a = Ok ans /\ may_back restricted c cur a ans
              /\ dsub default_ctx (b_amount ans) (held_in t a) = Ok f /\ dmax f dzero = Ok free
              /\ dlt free amt = Ok false
       else dlt (held_in (reservations g) a) amt = Ok false.
Proof.
  intros Hv Hx Hg Ha Hr Hd. unfold live_refusal in Hx. rewrite Hg in Hx. cbn [rbind] in Hx.
  assert (Hne : String.eqb verb "create" = false /\ String.eqb verb "change_terms" = false
                /\ (String.eqb verb "reserve" = false -> verb = "release")).
  { unfold on_funds in Hv. destruct (String.eqb_spec verb "reserve") as [->|]; [done|].
    cbn [orb] in Hv. apply String.eqb_eq in Hv as ->. done. }
  destruct Hne as (N1 & N2 & N3). rewrite N1 in Hx. apply rbind_ok in Hx as ([row|] & Hrow & Hx); [|done].
  apply find_goal_is, goal_is in Hrow as (Eid & g & Eg & Hview).
  apply goal_view_is in Hview as (Est & Ers & cur & excl & Hcur & Hav). exists g. split; [done|].
  rewrite Est in Hx. destruct (py_eq_str (g_state g) "set_aside"); [done|]. split; [done|]. rewrite N2 in Hx.
  destruct (String.eqb verb "reserve").
  - rewrite Ha in Hx. cbn [rbind] in Hx. destruct (List.find _ _) as [x|] eqn:Ef; [|done].
    apply List.find_some in Ef as [Hin Eq%String.eqb_eq]. rewrite Hr in Hx. cbn [res_of_option rbind] in Hx.
    rewrite Hd in Hx. cbn [rbind] in Hx. apply rbind_ok in Hx as (over & Ho & Hx). destruct over; [done|].
    apply list_elem_of_In in Hin.
    destruct (availability_is _ _ _ _ _ _ Hav Hin) as (t & ans & f & H1 & H2 & H3 & H4 & H5).
    rewrite Eq in *. by exists cur, t, ans, f, (a_available x).
  - rewrite (N3 eq_refl) in Hx. cbn [String.eqb Ascii.eqb Bool.eqb] in Hx. rewrite Ha, Hr in Hx. cbn [res_of_option rbind] in Hx.
    rewrite Hd in Hx. cbn [rbind] in Hx. apply rbind_ok in Hx as (over & Ho & Hx). destruct over; [done|].
    rewrite Ers, sorted_items_get in Ho. exact Ho.
Qed.

(** The event that closes a proposal folds, and moves nothing. *)
Lemma apply_resolution fresh pid outcome today reason e c : as_of c = None ->
  goal_proposal_resolved fresh pid outcome today reason None = Ok e ->
  exists p, apply c e = Ok (mkCore None (acct c) (goals_ c) p).
Proof.
  intros Has He. unfold goal_proposal_resolved in He. apply rbind_ok in He as (u & _ & He).
  apply rbind_ok in He as (u' & _ & He). apply Ok_inj in He as <-.
  unfold apply. cbn [occurred_at event text rbind]. rewrite Has.
  rewrite (apply_account_other _ _ "GoalProposalResolved" today) by (done || not_an_account). cbn [rbind].
  unfold apply_goal at 1. cbn [event_type occurred_at event text rbind String.eqb Ascii.eqb Bool.eqb].
  unfold apply_proposal. cbn [event_type occurred_at event text rbind String.eqb Ascii.eqb Bool.eqb body py_get_default dict_get known].
  destruct (dict_get (goal_proposals_ c) (strip pid)) as [row|]; [|by eexists].
  destruct (py_eq_str (field row "status") "open"); [|by eexists].
  cbn [py_get_default body event dict_get String.eqb Ascii.eqb Bool.eqb rbind]. by eexists.
Qed.

(** A funds event updates the goal it names, and nothing else. *)
Lemma apply_funds (reserving : bool) fresh gid rest at_ pid c g g' : as_of c = None ->
  dict_get (goals_ c) gid = Some g ->
  let e := event fresh (if reserving then "GoalFundsReserved" else "GoalFundsReleased") at_
             (("goal_id", JStr gid) :: rest) pid in
  move_funds reserving e at_ g = Ok g' ->
  apply c e = Ok (mkCore None (acct c) (dict_set (goals_ c) gid g') (goal_proposals_ c)).
Proof.
  intros Has Hg e Hm. unfold apply. subst e. cbn [occurred_at event text rbind]. rewrite Has.
  rewrite (apply_account_other _ _ (if reserving then "GoalFundsReserved" else "GoalFundsReleased") at_);
    [|done|done|destruct reserving; not_an_account].
  assert (Hp : apply_proposal (goal_proposals_ c)
      (event fresh (if reserving then "GoalFundsReserved" else "GoalFundsReleased") at_ (("goal_id", JStr gid) :: rest) pid)
      = Ok (goal_proposals_ c)) by (by destruct reserving).
  rewrite Hp. cbn [rbind].
  assert (Ho : apply_goal (goals_ c)
      (event fresh (if reserving then "GoalFundsReserved" else "GoalFundsReleased") at_ (("goal_id", JStr gid) :: rest) pid)
      = on_goal (goals_ c) (event fresh (if reserving then "GoalFundsReserved" else "GoalFundsReleased") at_
                              (("goal_id", JStr gid) :: rest) pid)
          (move_funds reserving (event fresh (if reserving then "GoalFundsReserved" else "GoalFundsReleased") at_
                                   (("goal_id", JStr gid) :: rest) pid) at_)) by (by destruct reserving).
  rewrite Ho. unfold on_goal. cbn [body event py_get_default dict_get String.eqb Ascii.eqb Bool.eqb rbind known].
  rewrite Hg. cbn [rbind]. by rewrite Hm.
Qed.

Lemma entries_set_other e0 a b rs d : a <> b -> entries_total e0 b (dict_set rs a d) = entries_total e0 b rs.
Proof.
  intros Hab. unfold entries_total. induction rs as [|[k x] rs IH]; cbn [dict_set List.map fst snd].
  - apply String.eqb_neq in Hab. by rewrite Hab.
  - destruct (String.eqb_spec a k) as [->|Hk]; cbn [List.map fst snd]; rewrite !zsum_cons; [|by rewrite IH].
    apply String.eqb_neq in Hab. by rewrite Hab.
Qed.

(** An amount the available money does not fall short of fits beside what is held. *)
Lemma room_left e0 bal held amt f free : scale_ok default_ctx e0 -> (e0 <= 0)%Z ->
  on_scale e0 bal -> on_scale e0 held -> on_scale e0 amt -> fits default_ctx (units e0 bal - units e0 held) ->
  dsub default_ctx bal held = Ok f -> dmax f dzero = Ok free -> dlt free amt = Ok false -> (0 < units e0 amt)%Z ->
  (units e0 held + units e0 amt <= units e0 bal)%Z.
Proof.
  intros Hs He0 Hb Hh Ha Hfit Hf Hm Hl Hp. destruct (dzero_scale e0 He0) as [Hz1 Hz2].
  destruct (dsub_exact default_ctx e0 bal held Hs Hb Hh Hfit) as (f' & E & Hf1 & Hf2).
  rewrite Hf in E. apply Ok_inj in E as <-.
  unfold dmax in Hm. rewrite (dlt_units e0) in Hm by done. cbn [rbind] in Hm. apply Ok_inj in Hm as <-.
  destruct (units e0 f <? units e0 dzero)%Z; rewrite (dlt_units e0) in Hl by done; apply Ok_inj in Hl; lia.
Qed.

(** What a confirmed funds action rests on, and the two events it appends. *)
Lemma confirmed_funds `{CaseMap} restricted repr c pid today f1 f2 r e1 e2 held p gid a raw amt :
  confirm restricted repr c pid today f1 f2 = Ok (r, [e1; e2]) ->
  open_proposal c pid = Some held -> held_proposal held = Ok p -> on_funds (str_or repr (field held "verb") "") = true ->
  item_text p "goal_id" = Ok gid -> strip gid = gid -> item_text p "account_id" = Ok a -> strip a = a ->
  dict_get p "amount" = Some raw -> Decimal_of_json raw = Ok amt ->
  exists more g,
    e1 = event f1 (if String.eqb (str_or repr (field held "verb") "") "reserve" then "GoalFundsReserved"
                   else "GoalFundsReleased") today
           (("goal_id", JStr gid) :: ("account_id", JStr a) :: ("amount", JStr (dec_str amt)) :: more)%list Provenance_empty
    /\ (exists s n x, amt = Fin s n x /\ dle amt dzero = Ok false)
    /\ goal_proposal_resolved f2 pid "completed" today "" None = Ok e2
    /\ dict_get (goals_ c) gid = Some g
    /\ if String.eqb (str_or repr (field held "verb") "") "reserve"
       then exists cur t ans f free, get_or (terms g) "currency" (JStr "") = JStr cur /\ reserved_by_account c = Ok t
              /\ balance (acct c) (as_of c) a = Ok ans /\ may_back restricted c cur a ans
              /\ dsub default_ctx (b_amount ans) (held_in t a) = Ok f /\ dmax f dzero = Ok free
              /\ dlt free amt = Ok false
       else dlt (held_in (reservations g) a) amt = Ok false.
Proof.
  intros Hc Ho Hp Hv Hg Hsg Ha Hsa Hr Hamt.
  apply confirm_cases in Hc as [(? & _)|(held' & _ & Ho' & [(e & ? & _)|
    (p' & e & e2' & E & _ & Hp' & Hlive & He & He2 & _)])]; [done..|].
  injection E as <- <-. rewrite Ho in Ho'. injection Ho' as <-. rewrite Hp in Hp'. injection Hp' as <-.
  destruct (fund_event _ _ _ _ _ _ Hv He) as (gid' & a' & raw' & amt' & more & G1 & G2 & G3 & G4 & Hpos & Ee).
  rewrite Hg in G1. injection G1 as <-. rewrite Ha in G2. injection G2 as <-. rewrite Hr in G3. injection G3 as <-.
  rewrite Hamt in G4. injection G4 as <-. rewrite Hsg, Hsa in Ee.
  destruct (funds_live _ _ _ _ _ _ _ _ _ Hv Hlive Hg Ha Hr Hamt) as (g & Eg & _ & Hcase).
  exists more, g. split; [exact Ee|]. done.
Qed.
