(* ===== verification/GoalProperties.v ===== *)
(** * Goal properties: the contribution calendar, and what a confirmed action does *)
From Stdlib Require Import ZArith NArith Ascii String Lia ZifyBool ZifyN ZifyNat Sorting.
From stdpp Require Import base list numbers strings.
From S2P Require Import Prelude Text Words Json Unicode Dates Decimals Floats Arithmetic Acquisition Events EventTypes Conversations Postings Schedule Accounts Goals GoalService GoalLaws.
#[local] Open Scope string_scope.

(** The contribution calendar.  Between two days the schedule is, in order, exactly the
    days of every month that fall on the contribution day, and each is written so that it
    reads back; the k-th contribution reached by counting months is the k-th of the schedule
    built day by day, and no date once the calendar ends. *)
Theorem contribution_calendar today cd through :
  (forall l start last_, contribution_days today (JInt cd) through None = Ok l ->
     read_date today = Ok start -> target_date through = Ok (Some last_) ->
     StronglySorted date_lt l
     /\ (forall d, d ∈ l <-> (valid_date d = true /\ day d = cd /\ date_ltb d start = false /\ date_ltb last_ d = false))
     /\ Forall (fun d => read_date (isoformat d) = Ok d) l)
  /\ (forall k l, (1 <= k)%Z -> contribution_days today (JInt cd) "" (Some k) = Ok l -> l <> [] ->
     nth_contribution today (JInt cd) k
     = Ok (match l !! Z.to_nat (k - 1) with Some d => isoformat d | None => "" end)).
Proof.
  split; [|intros k l; apply nth_contribution_is].
  intros l start last_ Hl Hst Hla.
  destruct (contribution_days_is _ _ _ _ _ Hl) as (c & st & e & Ec & Hcd & Hs & He & _ & ->).
  injection Ec as <-. assert (st = start) as -> by congruence. assert (e = Some last_) as -> by congruence.
  assert (Hp : placed last_) by (by apply target_date_valid, valid_placed in Hla as [? _]).
  pose proof (read_date_valid _ _ Hst) as Hv. cbn [cap].
  assert (Hin : forall d, d ∈ List.map (occurrence_in cd)
      (seqZ (first_index cd start) (final_index cd (Some last_) - first_index cd start + 1))
      <-> (valid_date d = true /\ day d = cd /\ date_ltb d start = false /\ date_ltb last_ d = false)).
  { intros d. rewrite (schedule_elem cd start (Some last_) d) by done. unfold on_schedule. tauto. }
  split; [by apply schedule_sorted|]. split; [exact Hin|].
  apply Forall_forall. intros d (Hd & _)%Hin. unfold read_date. by rewrite first_ten_iso, fromisoformat_iso.
Qed.

Lemma contribution_calendar_witness :
  let l := [mkDate 2026 12 15; mkDate 2027 1 15; mkDate 2027 2 15] in
  contribution_days "2026-11-20" (JInt 15) "2027-02-15" None = Ok l
  /\ (forall d, d ∈ l <-> (valid_date d = true /\ day d = 15%Z /\ date_ltb d (mkDate 2026 11 20) = false
                           /\ date_ltb (mkDate 2027 2 15) d = false))
  /\ nth_contribution "2026-11-20" (JInt 15) 3 = Ok "2027-02-15".
Proof.
  assert (H : contribution_days "2026-11-20" (JInt 15) "2027-02-15" None
              = Ok [mkDate 2026 12 15; mkDate 2027 1 15; mkDate 2027 2 15]) by (vm_compute; reflexivity).
  assert (H3 : contribution_days "2026-11-20" (JInt 15) "" (Some 3%Z)
              = Ok [mkDate 2026 12 15; mkDate 2027 1 15; mkDate 2027 2 15]) by (vm_compute; reflexivity).
  split; [exact H|]. destruct (contribution_calendar "2026-11-20" 15 "2027-02-15") as [Hc Hn]. split.
  - apply (Hc _ (mkDate 2026 11 20) (mkDate 2027 2 15) H); vm_compute; reflexivity.
  - rewrite (Hn 3%Z _ ltac:(lia) H3 ltac:(done)). vm_compute. reflexivity.
Defined.

(** ** A proposal is settled once *)
Section Settlement.
Context `{CaseMap} (restricted : string -> bool) (repr : json -> string).

Lemma apply_horizon c e c' : apply c e = Ok c' -> as_of c' = as_of c.
Proof.
  unfold apply. intros Hx. apply rbind_ok in Hx as (u & _ & Hx).
  destruct (match as_of c with Some _ => _ | None => _ end); [by apply Ok_inj in Hx as <-|].
  do 3 apply rbind_ok in Hx as (? & _ & Hx). by apply Ok_inj in Hx as <-.
Qed.

Lemma confirm_settles c pid today f1 f2 r evs c' : as_of c = None -> strip pid = pid ->
  confirm restricted repr c pid today f1 f2 = Ok (r, evs) -> rfold apply evs c = Ok c' -> evs <> [] -> settled c' pid.
Proof.
  intros Has Hpid Hc Hf Hne. apply confirm_cases in Hc as [(-> & _)|(held & Hb & Ho & [(e & -> & _ & He)|
    (p & e & e2 & -> & _ & _ & _ & He & He2 & _)])].
  1: done. all: cbn [rfold] in Hf.
  - apply rbind_ok in Hf as (c1 & H1 & Hf). apply Ok_inj in Hf as <-.
    eapply resolved_settles; [|exact Hpid|exact Has|exact He|exact H1]; congruence.
  - apply rbind_ok in Hf as (c1 & H1 & Hf). apply rbind_ok in Hf as (c2 & H2 & Hf). apply Ok_inj in Hf as <-.
    destruct (goal_event_type _ _ _ _ _ _ He) as (t & Ht & Et & Ea).
    destruct (apply_goal_event _ _ _ _ _ Ht Et Ea Has H1) as (g & _ & ->).
    eapply resolved_settles; [|exact Hpid| |exact He2|exact H2]; [|done].
    unfold open_proposal, goal_proposal in *. cbn [goal_proposals_]. by rewrite Ho.
Qed.
Lemma decline_settles c pid today f1 r evs c' : as_of c = None -> strip pid = pid ->
  decline repr c pid today f1 = Ok (r, evs) -> rfold apply evs c = Ok c' -> evs <> [] -> settled c' pid.
Proof.
  intros Has Hpid Hc Hf Hne. apply decline_cases in Hc as [(-> & _)|(held & e & Hb & Ho & -> & _ & He)]; [done|].
  cbn [rfold] in Hf. apply rbind_ok in Hf as (c1 & H1 & Hf). apply Ok_inj in Hf as <-.
  eapply resolved_settles; [|exact Hpid|exact Has|exact He|exact H1]. congruence.
Qed.
End Settlement.

(** C37: A proposal is settled once.  Confirming or declining one that is not open
    (or names none) appends nothing; otherwise what is appended closes it, and whatever the log holds afterwards,
    every later confirmation or refusal of it is refused and appends nothing. *)
Theorem proposal_settles_once `{CaseMap} restricted repr c pid today f1 f2 r evs c' :
  as_of c = None -> strip pid = pid ->
  confirm restricted repr c pid today f1 f2 = Ok (r, evs) \/ decline repr c pid today f1 = Ok (r, evs) ->
  rfold apply evs c = Ok c' ->
  (evs = [] <-> blank pid = true \/ open_proposal c pid = None)
  /\ (evs = [] -> r_kind r = "refused")
  /\ (evs <> [] -> forall later c'' day_ g1 g2, rfold apply later c' = Ok c'' ->
        (exists r', confirm restricted repr c'' pid day_ g1 g2 = Ok (r', []) /\ r_kind r' = "refused")
        /\ exists r', decline repr c'' pid day_ g1 = Ok (r', []) /\ r_kind r' = "refused").
Proof.
  intros Has Hpid Hd Hf.
  assert (Hc : (evs = [] /\ r_kind r = "refused" /\ (blank pid = true \/ open_proposal c pid = None))
               \/ (evs <> [] /\ blank pid = false /\ open_proposal c pid <> None /\ settled c' pid)).
  { destruct Hd as [Hd|Hd].
    - pose proof (confirm_settles restricted repr _ _ _ _ _ _ _ _ Has Hpid Hd Hf) as Hs.
      apply confirm_cases in Hd as [Hd|(held & Hb & Ho & Hd)]; [by left|right].
      assert (evs <> []) as Hne by (destruct Hd as [(e & -> & _)|(p & e & e2 & -> & _)]; done).
      split; [done|]. split; [done|]. split; [congruence|by apply Hs].
    - pose proof (decline_settles repr _ _ _ _ _ _ _ Has Hpid Hd Hf) as Hs.
      apply decline_cases in Hd as [Hd|(held & e & Hb & Ho & -> & _)]; [by left|right].
      split; [done|]. split; [done|]. split; [congruence|by apply Hs]. }
  split; [|split].
  - destruct Hc as [(-> & _ & Hb)|(Hn & Hb & Ho & _)]; [done|]. split; [done|]. intros [Hb'|?]; [congruence|done].
  - intros He. destruct Hc as [(_ & Hr & _)|(Hn & _)]; [done|by destruct Hn].
  - intros Hn later c'' day_ g1 g2 Hl. destruct Hc as [(He & _)|(_ & _ & _ & Hs)]; [by destruct Hn|].
    apply settled_refused. by eapply rfold_settled.
Qed.

(** A checking account with 1000 and a goal of 500, and a proposal to set 200.50 aside. *)
Definition blank_event : Event := event "" "" "" [] Provenance_empty.
Definition house_events : list Event :=
  List.map (fun r => match r with Ok e => e | Raise _ => blank_event end)
    [account_opened "e1" "Assets:Chk" "depository" "Checking" "USD" "2026-01-01" "" "" "" [] "issued" None;
     opening_balance_observed "e2" "Assets:Chk" (NumStr "1000") "2026-01-01" None;
     goal_created (H := ascii_case) "e3" "g1" "House" "usd" (NumStr "500") "2026-01-02" "2026-12-31"
       (Some (NumStr "60")) (JInt 15) "" None].
Definition set_aside_200 : json :=
  JObj [("verb", JStr "reserve"); ("goal_id", JStr "g1"); ("account_id", JStr "Assets:Chk"); ("amount", JStr "200.50")].
Definition house (more : list Event) : core :=
  match project None (house_events ++ more) with Ok c => c | Raise _ => empty_core None end.
Definition house_proposal : list Event :=
  match propose (H := ascii_case) (fun _ => false) (fun _ => "") (house []) set_aside_200 "2026-02-01" "f1" "m1" "p1" with
  | Ok (_, l) => l
  | Raise _ => []
  end.
(** What the user's confirmation of that proposal appends. *)
Definition house_confirmed : res (GoalActionResult * list Event) :=
  confirm (H := ascii_case) (fun _ => false) (fun _ => "") (house house_proposal) "p1" "2026-02-02" "f2" "f3".

Lemma proposal_settles_once_witness :
  exists r evs c' c'', house_confirmed = Ok (r, evs) /\ (r_kind r, List.map event_type evs)
      = ("completed", [JStr "GoalFundsReserved"; JStr "GoalProposalResolved"])
    /\ rfold apply evs (house house_proposal) = Ok c' /\ rfold apply house_proposal c' = Ok c''
    /\ exists r', confirm (H := ascii_case) (fun _ => false) (fun _ => "") c'' "p1" "2026-02-03" "f4" "f5" = Ok (r', [])
       /\ r_kind r' = "refused".
Proof.
  destruct house_confirmed as [[r evs]|] eqn:Ec; [|vm_compute in Ec; discriminate].
  destruct (rfold apply evs (house house_proposal)) as [c'|] eqn:Ef.
  2: vm_compute in Ec; injection Ec as <- <-; vm_compute in Ef; discriminate.
  destruct (rfold apply house_proposal c') as [c''|] eqn:El.
  2: vm_compute in Ec; injection Ec as <- <-; vm_compute in Ef; injection Ef as <-; vm_compute in El; discriminate.
  exists r, evs, c', c''. split; [done|]. split; [vm_compute in Ec; injection Ec as <- <-; reflexivity|].
  split; [exact Ef|]. split; [exact El|].
  destruct (proposal_settles_once (H := ascii_case) (fun _ => false) (fun _ => "") (house house_proposal) "p1" "2026-02-02"
    "f2" "f3" r evs c' ltac:(by vm_compute) ltac:(by vm_compute) (or_introl Ec) Ef) as (_ & _ & Hl).
  destruct (Hl ltac:(vm_compute in Ec; injection Ec as <- <-; discriminate) _ _ "2026-02-03" "f4" "f5" El) as [Hr _]. exact Hr.
Defined.

(** C38: A confirmed funds action is covered.  Confirming a reservation or a release always
    folds: the account's other goals and every other account keep what they hold, the goal
    gains no issue, and what is set aside on the account moves by exactly the amount the user
    saw -- up, with the sum still within the balance of an account that may back the goal (a
    depository account of its issuer's, seen, in the goal's currency, unrestricted, with
    figures that agree), or down, by no more than the goal held there. *)
Theorem confirmed_funds_are_covered `{CaseMap} e0 restricted repr c pid today f1 f2 r e1 e2 held p gid a raw amt :
  scale_ok default_ctx e0 -> (e0 <= 0)%Z -> as_of c = None ->
  confirm restricted repr c pid today f1 f2 = Ok (r, [e1; e2]) ->
  open_proposal c pid = Some held -> held_proposal held = Ok p -> on_funds (str_or repr (field held "verb") "") = true ->
  item_text p "goal_id" = Ok gid -> strip gid = gid -> item_text p "account_id" = Ok a -> strip a = a ->
  dict_get p "amount" = Some raw -> Decimal_of_json raw = Ok amt -> on_scale e0 amt ->
  all_measured e0 a (goals_ c) -> fits default_ctx (total e0 a (goals_ c) + units e0 amt) ->
  (forall ans, balance (acct c) None a = Ok ans ->
     on_scale e0 (b_amount ans) /\ fits default_ctx (units e0 (b_amount ans) - total e0 a (goals_ c))) ->
  exists c' g g', rfold apply [e1; e2] c = Ok c' /\ acct c' = acct c
    /\ dict_get (goals_ c) gid = Some g /\ goals_ c' = dict_set (goals_ c) gid g' /\ issues g' = issues g
    /\ all_measured e0 a (goals_ c') /\ (forall b, a <> b -> total e0 b (goals_ c') = total e0 b (goals_ c))
    /\ if String.eqb (str_or repr (field held "verb") "") "reserve"
       then total e0 a (goals_ c') = (total e0 a (goals_ c) + units e0 amt)%Z
            /\ exists cur ans, get_or (terms g) "currency" (JStr "") = JStr cur /\ balance (acct c) None a = Ok ans
                 /\ may_back restricted c cur a ans /\ (total e0 a (goals_ c') <= units e0 (b_amount ans))%Z
       else total e0 a (goals_ c') = (total e0 a (goals_ c) - units e0 amt)%Z
            /\ (units e0 amt <= units e0 (held_in (reservations g) a))%Z.
Proof.
  intros Hs He0 Has Hc Ho Hp Hv Hg Hsg Ha Hsa Hr Hamt Hsc Hm Hfit Hbal.
  destruct (confirmed_funds restricted repr _ _ _ _ _ _ _ _ _ _ _ _ _ _ Hc Ho Hp Hv Hg Hsg Ha Hsa Hr Hamt)
    as (more & g & Ee & Hpos & He2 & Eg & Hcase). set (verb := str_or repr (field held "verb") "") in *.
  destruct (all_measured_get e0 a _ _ _ Hm Eg) as [Hmg Hle].
  destruct (held_measured e0 He0 a _ Hmg) as [Hh1 Hh2]. pose proof (held_le_total e0 He0 a _ Hmg) as Hh3.
  destruct (dzero_scale e0 He0) as [Hz1 Hz2].
  assert (Hap : (0 < units e0 amt)%Z).
  { destruct Hpos as (s & cc & x & -> & Hx). rewrite (dle_units e0) in Hx by done. rewrite Hz2 in Hx.
    apply Ok_inj in Hx. lia. }
  destruct (move_funds_exact e0 Hs He0 (String.eqb verb "reserve") f1
    (if String.eqb verb "reserve" then "GoalFundsReserved" else "GoalFundsReleased") gid a amt Provenance_empty today g
    Hsc Hap Hh1 Hh2) with (more := more) as (g' & h & Hmv & Er & Hs1 & Hu1 & Hi & _).
  { eapply fits_le; [exact Hfit|]. lia. }
  { intros E. rewrite E, (dlt_units e0) in Hcase by done. apply Ok_inj in Hcase. lia. }
  pose proof (apply_funds (String.eqb verb "reserve") f1 gid _ today Provenance_empty c g g' Has Eg Hmv) as Hap1.
  destruct (apply_resolution _ _ _ _ _ _ (mkCore None (acct c) (dict_set (goals_ c) gid g') (goal_proposals_ c))
    eq_refl He2) as (pr & Hap2).
  eexists _, g, g'. split; [cbn [rfold]; rewrite Ee, Hap1; cbn [rbind]; rewrite Hap2; reflexivity|].
  cbn [acct goals_]. do 3 (split; [done|]). split; [done|].
  split; [by apply all_measured_set; [|rewrite Er; apply measured_set; [done..|destruct (String.eqb verb "reserve") eqn:Ev;
    [|rewrite (dlt_units e0) in Hcase by done; apply Ok_inj in Hcase]; lia]]|].
  split; [intros b Hb; rewrite (total_set _ _ _ _ _ _ Eg), Er, entries_set_other by done; lia|].
  assert (Htot : total e0 a (dict_set (goals_ c) gid g')
    = (total e0 a (goals_ c) + if String.eqb verb "reserve" then units e0 amt else - units e0 amt)%Z).
  { rewrite (total_set _ _ _ _ _ _ Eg), Er, (entries_set e0 He0), Hu1. lia. }
  rewrite Htot. destruct (String.eqb verb "reserve").
  - split; [done|]. destruct Hcase as (cur & t & ans & f & free & Hcur & Ht & Hans & Hgr & Hf & Hfree & Hlt).
    rewrite Has in Hans. exists cur, ans. split; [done|]. split; [done|]. split; [done|].
    destruct (Hbal _ Hans) as [Hb1 Hb2].
    destruct (reserved_total e0 Hs He0 a c t Ht Hm) as [Ht1 Ht2]; [eapply fits_le; [exact Hfit|]|].
    { pose proof (total_nonneg e0 a _ Hm). lia. }
    rewrite <- Ht2. eapply room_left; [exact Hs|done..| | | | |done]; [by rewrite Ht2|exact Hf|exact Hfree|exact Hlt].
  - split; [lia|]. rewrite (dlt_units e0) in Hcase by done. apply Ok_inj in Hcase. lia.
Qed.

Lemma confirmed_funds_are_covered_witness :
  exists r e1 e2 c' g g', house_confirmed = Ok (r, [e1; e2]) /\ rfold apply [e1; e2] (house house_proposal) = Ok c'
    /\ dict_get (goals_ (house house_proposal)) "g1" = Some g /\ goals_ c' = dict_set (goals_ (house house_proposal)) "g1" g'
    /\ total (-2) "Assets:Chk" (goals_ c') = 20050%Z.
Proof.
  destruct house_confirmed as [[r evs]|] eqn:Ec; [|vm_compute in Ec; discriminate].
  destruct evs as [|e1 [|e2 [|? ?]]]; try (vm_compute in Ec; discriminate).
  destruct (open_proposal (house house_proposal) "p1") as [held|] eqn:Eo; [|vm_compute in Eo; discriminate].
  destruct (held_proposal held) as [p|] eqn:Ep; [|vm_compute in Eo; injection Eo as <-; vm_compute in Ep; discriminate].
  assert (Hh : (field held "verb", item_text p "goal_id", item_text p "account_id", dict_get p "amount")
               = (JStr "reserve", Ok "g1", Ok "Assets:Chk", Some (JStr "200.50"))).
  { vm_compute in Eo; injection Eo as <-; vm_compute in Ep; injection Ep as <-. reflexivity. }
  injection Hh as Hv Hg Ha Hr.
  destruct (confirmed_funds_are_covered (H := ascii_case) (-2) (fun _ => false) (fun _ => "") (house house_proposal)
    "p1" "2026-02-02" "f2" "f3" r e1 e2 held p "g1" "Assets:Chk" (JStr "200.50") (Fin false 20050 (-2))
    ltac:(unfold scale_ok; split; [split|]; vm_compute; discriminate)
    ltac:(lia) ltac:(vm_compute; reflexivity) Ec Eo Ep ltac:(rewrite Hv; reflexivity)
    Hg ltac:(vm_compute; reflexivity) Ha ltac:(vm_compute; reflexivity) Hr ltac:(vm_compute; reflexivity)
    ltac:(vm_compute; congruence)) as (c' & g & g' & Hf & _ & Hg1 & Hg2 & _ & _ & _ & Ht).
  - vm_compute. repeat constructor.
  - vm_compute. reflexivity.
  - intros ans Hans. vm_compute in Hans. injection Hans as <-. vm_compute. split; congruence.
  - exists r, e1, e2, c', g, g'. rewrite Hv in Ht. destruct Ht as (Ht & _). split; [reflexivity|].
    split; [exact Hf|]. split; [exact Hg1|]. split; [exact Hg2|]. rewrite Ht. vm_compute. reflexivity.
Defined.

(** An amount that is no number at all is neither refused nor asked for again: the decimal
    module's own error leaves [draft]. *)
Example unread_amount_escapes :
  draft (H := ascii_case) (fun _ => false) (fun _ => "") (house [])
    (JObj [("verb", JStr "reserve"); ("goal_id", JStr "g1"); ("account_id", JStr "Assets:Chk"); ("amount", JStr "abc")])
    "2026-02-01" = Raise InvalidOperation.
Proof. vm_compute. reflexivity. Qed.
