(* ===== verification/GoalPlan.v ===== *)
(** * The goal plan: what a saving plan says about its schedule

    The laws of the plan of [Goals]: dates compare as their ISO text does, the contribution
    that completes a goal is the quotient rounded up, and the status compares what the
    remaining contributions bring with what remains. *)
From Stdlib Require Import ZArith NArith Ascii String Lia ZifyBool ZifyN ZifyNat Sorting.
From stdpp Require Import base list numbers strings.
From S2P Require Import Prelude Text Words Json Unicode Dates Decimals Floats Arithmetic Acquisition Events EventTypes Postings Quotients Schedule Accounts Goals.
#[local] Open Scope Z_scope.

(** ** Dates compare as their text *)
Definition value_from (a : N) (l : bytes) : N := fold_left (fun a c => (a * 10 + digit_val c)%N) l a.

Lemma value_from_lt l1 l2 a1 a2 : List.length l1 = List.length l2 ->
  Forall (fun c => is_digit c = true) l1 -> Forall (fun c => is_digit c = true) l2 -> (a1 < a2)%N ->
  (value_from a1 l1 < value_from a2 l2)%N.
Proof.
  revert l2 a1 a2. induction l1 as [|c l1 IH]; intros [|d l2] a1 a2 Hl H1 H2 Ha; try done. inv H1. inv H2.
  cbn [value_from fold_left]. apply IH; [cbn in Hl; lia|done..|]. unfold is_digit, digit_val in *. lia.
Qed.
Lemma compare_digits l1 l2 a r1 r2 : List.length l1 = List.length l2 ->
  Forall (fun c => is_digit c = true) l1 -> Forall (fun c => is_digit c = true) l2 ->
  String.compare (dec (l1 ++ r1)) (dec (l2 ++ r2))
  = match (value_from a l1 ?= value_from a l2)%N with Eq => String.compare (dec r1) (dec r2) | o => o end.
Proof.
  revert l2 a. induction l1 as [|c l1 IH]; intros [|d l2] a Hl H1 H2; try done.
  { cbn. by rewrite N.compare_refl. }
  inv H1. inv H2. assert (Hl' : List.length l1 = List.length l2) by (cbn in Hl; lia). cbn [app dec string_of_list_ascii String.compare]. fold (dec (l1 ++ r1)) (dec (l2 ++ r2)).
  unfold Ascii.compare. fold (code c) (code d). unfold is_digit, digit_val in *.
  destruct (N.compare_spec (code c) (code d)) as [E|E|E].
  - rewrite (IH l2 (a * 10 + digit_val c)%N) by done. cbn [value_from fold_left]. unfold digit_val. by rewrite E.
  - assert (value_from a (c :: l1) < value_from a (d :: l2))%N as ->%N.compare_lt_iff; [|done].
    change (value_from (a * 10 + digit_val c) l1 < value_from (a * 10 + digit_val d) l2)%N. apply value_from_lt; try done. unfold digit_val. lia.
  - assert (value_from a (d :: l2) < value_from a (c :: l1))%N as ->%N.compare_gt_iff; [|done].
    change (value_from (a * 10 + digit_val d) l2 < value_from (a * 10 + digit_val c) l1)%N. apply value_from_lt; try done. unfold digit_val. lia.
Qed.
Lemma compare_pad w z1 z2 r1 r2 : 0 <= z1 < 10 ^ Z.of_nat w -> 0 <= z2 < 10 ^ Z.of_nat w -> (1 <= w)%nat ->
  String.compare (dec (pad w z1 ++ r1)) (dec (pad w z2 ++ r2))
  = match z1 ?= z2 with Eq => String.compare (dec r1) (dec r2) | o => o end.
Proof.
  intros H1 H2 Hw. destruct (pad_digits w z1 H1 Hw) as (D1 & L1 & V1). destruct (pad_digits w z2 H2 Hw) as (D2 & L2 & V2).
  rewrite (compare_digits _ _ 0%N) by (done || by rewrite L1, L2).
  assert (E : (value_from 0 (pad w z1) ?= value_from 0 (pad w z2))%N = (z1 ?= z2)); [|by rewrite E].
  rewrite <- N2Z.inj_compare. exact (f_equal2 Z.compare V1 V2).
Qed.
Lemma iso_order a b : valid_date a = true -> valid_date b = true ->
  String.ltb (isoformat a) (isoformat b) = date_ltb a b.
Proof.
  intros ((Hma & Hda) & Hya & _)%valid_placed ((Hmb & Hdb) & Hyb & _)%valid_placed.
  unfold String.ltb, isoformat, date_ltb.
  rewrite (compare_pad 4) by lia. destruct (Z.compare_spec (year a) (year b)) as [E|E|E];
    [|by replace (year a <? year b) with true by lia|replace (year a <? year b) with false by lia; by replace (year a =? year b) with false by lia].
  replace (year a <? year b) with false by lia. replace (year a =? year b) with true by lia. cbn [orb andb].
  change (String.compare (dec ("-"%char :: ?x)) (dec ("-"%char :: ?y))) with (String.compare (dec x) (dec y)).
  rewrite (compare_pad 2) by lia. destruct (Z.compare_spec (month a) (month b)) as [E'|E'|E'];
    [|by replace (month a <? month b) with true by lia|replace (month a <? month b) with false by lia; by replace (month a =? month b) with false by lia].
  replace (month a <? month b) with false by lia. replace (month a =? month b) with true by lia. cbn [orb andb].
  change (String.compare (dec ("-"%char :: ?x)) (dec ("-"%char :: ?y))) with (String.compare (dec x) (dec y)).
  rewrite <- (app_nil_r (pad 2 (day a))), <- (app_nil_r (pad 2 (day b))), (compare_pad 2) by lia.
  destruct (Z.compare_spec (day a) (day b)); cbn; lia.
Qed.

Lemma iso_nonempty d : valid_date d = true -> String.eqb (isoformat d) "" = false.
Proof.
  intros Hv. apply String.eqb_neq. intros E. destruct (iso_parts _ Hv) as [_ Hl]. apply (f_equal enc) in E.
  unfold isoformat in E. rewrite enc_dec in E. by rewrite E in Hl.
Qed.

(** ** The contribution a count reaches *)
Lemma days_limited today cd k l : 1 <= k -> contribution_days today (JInt cd) "" (Some 1) = Ok l ->
  exists start, read_date today = Ok start /\ 1 <= cd <= 28
    /\ contribution_days today (JInt cd) "" (Some k)
       = Ok (List.map (occurrence_in cd) (seqZ (first_index cd start) (Z.min (last_month - first_index cd start + 1) k))).
Proof.
  intros Hk H. destruct (contribution_days_is _ _ _ _ _ H) as (c & start & e & [= <-] & Hcd & Hs & He & _ & ->).
  exists start. split; [done|]. split; [done|]. injection He as <-. unfold contribution_days, day_of_month in H |- *.
  replace ((1 <=? cd) && (cd <=? 28)) with true by lia. cbn [rbind]. rewrite Hs. cbn [rbind].
  change (target_date "") with (@Ok (option date) None). cbn [rbind]. replace (k <? 1) with false by lia. cbn [raise_if rbind].
  rewrite contribution_loop_is by (done || by eapply read_date_valid). cbn [cap final_index]. do 3 f_equal. lia.
Qed.
Lemma nth_reached today cd k s : 1 <= k -> nth_contribution today (JInt cd) k = Ok s ->
  exists start, read_date today = Ok start /\ 1 <= cd <= 28 /\ first_index cd start <= last_month
    /\ let i := first_index cd start + (k - 1) in
       s = (if i <=? last_month then isoformat (occurrence_in cd i) else ""%string).
Proof.
  intros Hk Hn. assert (H1 : exists l, contribution_days today (JInt cd) "" (Some 1) = Ok l /\ l <> []).
  { unfold nth_contribution, contribution_dates in Hn. apply rbind_ok in Hn as (l & Hl & Hn).
    apply rbind_ok in Hl as (l' & Hl' & Hl). apply Ok_inj in Hl as <-. exists l'. split; [done|]. by intros ->. }
  destruct H1 as (l & Hl & Hne). destruct (days_limited _ _ 1 _ ltac:(lia) Hl) as (start & Hs & Hcd & H1).
  rewrite Hl in H1. apply Ok_inj in H1 as ->. exists start. split; [done|]. split; [done|].
  assert (Hfi : first_index cd start <= last_month).
  { destruct (Z.le_gt_cases (first_index cd start) last_month); [done|]. exfalso. apply Hne. by rewrite seqZ_nil by lia. }
  split; [done|]. destruct (days_limited _ _ k _ Hk Hl) as (start' & Hs' & _ & Hlk). rewrite Hs in Hs'. apply Ok_inj in Hs' as <-.
  rewrite (nth_contribution_is _ _ _ _ Hk Hlk) in Hn.
  2: { rewrite seqZ_cons by lia. done. }
  apply Ok_inj in Hn as <-. cbv zeta. change (List.map (occurrence_in cd)) with (fmap (M := list) (occurrence_in cd)).
  rewrite list_lookup_fmap, seqZ_nth, Z2Nat.id by lia.
  destruct (Z.leb_spec (first_index cd start + (k - 1)) last_month); [replace (k - 1 <? _) with true by lia|replace (k - 1 <? _) with false by lia]; done.
Qed.

(** ** The plan of a goal with money to save, a contribution and a day to save it by *)
Section Plan.
Context (today : string) (t : list (string * json)) (rs : list decimal) (state : json) (p : plan).
Context (cd : Z) (m : decimal) (start last_ : date).
Hypothesis Hplan : plan_math t rs state today = Ok p.
Hypothesis Hmonthly : decimal_if (get_or t "monthly_contribution" (JStr "")) = Ok (Some m).
Hypothesis Hday : get_or t "contribution_day" JNull = JInt cd.
Hypothesis Htarget : (let? tt_ := date_text (get_or t "target_date" (JStr "")) in target_date tt_) = Ok (Some last_).
Hypothesis Hstart : read_date today = Ok start.

(** What the plan computed. *)
Lemma plan_parts : exists days required projected deviation upcoming,
  contribution_days today (JInt cd) (isoformat last_) None = Ok days
  /\ required_amount (p_remaining p) (Some last_) (List.map isoformat days) = Ok required
  /\ projected_date (p_remaining p) (Some m) (JInt cd) today = Ok projected
  /\ match required with Some r => exists d, dsub default_ctx m r = Ok d /\ deviation = Some d | None => deviation = None end
  /\ p = mkPlan (p_reserved p) (p_remaining p) required projected
           (plan_status (p_remaining p) state (Some last_) start (Some m) projected (List.map isoformat days)) deviation upcoming.
Proof using Hplan Hmonthly Hday Htarget Hstart.
  unfold plan_math in Hplan. apply rbind_ok in Hplan as (v & _ & Hx). apply rbind_ok in Hx as (target & _ & Hx).
  apply rbind_ok in Hx as (reserved & _ & Hx). apply rbind_ok in Hx as (rest & _ & Hx). apply rbind_ok in Hx as (remaining & _ & Hx).
  rewrite Hmonthly in Hx. cbn [rbind] in Hx. rewrite Hday in Hx.
  destruct (date_text _) as [tt_|] eqn:Ett; [|done]. cbn [rbind] in Hx, Htarget. rewrite Htarget in Hx. cbn [rbind] in Hx.
  apply rbind_ok in Hx as (occ & Hocc & Hx). unfold contribution_dates in Hocc. apply rbind_ok in Hocc as (days & Hdays & Hocc).
  apply Ok_inj in Hocc as <-. apply rbind_ok in Hx as (required & Hreq & Hx). apply rbind_ok in Hx as (projected & Hproj & Hx).
  rewrite Hstart in Hx. cbn [rbind] in Hx. apply rbind_ok in Hx as (dev & Hdev & Hx). apply rbind_ok in Hx as (up & _ & Hx).
  apply Ok_inj in Hx as <-. exists days, required, projected, dev, up. cbn. split; [done|]. split; [done|]. split; [done|].
  split; [|done]. destruct required as [r|]; [|by apply Ok_inj in Hdev]. apply rbind_ok in Hdev as (d & Hd & Hdev).
  apply Ok_inj in Hdev as <-. by exists d.
Qed.

#[local] Abbreviation R := (units (-2) (p_remaining p)).
#[local] Abbreviation M := (units (-2) m).
Hypothesis HR : on_scale (-2) (p_remaining p) /\ 0 < R < tens 25.
Hypothesis HM : on_scale (-2) m /\ 0 < M < tens 25.

Lemma positive_form d : on_scale (-2) d -> 0 < units (-2) d ->
  exists c e, d = Fin false c e /\ c <> 0%N /\ -2 <= e /\ units (-2) d = Z.of_N c * tens (e - -2).
Proof using Type.
  destruct d as [s c e| |]; [|done..]. cbn [on_scale units]. intros He Hu. destruct s.
  { cbn [signed] in Hu. exfalso. lia. }
  exists c, e. split; [done|]. split; [intros ->; cbn in Hu; lia|]. split; [done|]. cbn [signed]. by rewrite pow10_tens by lia.
Qed.

Lemma positive_nonzero d : on_scale (-2) d -> 0 < units (-2) d -> nonzero d = true.
Proof using Type. intros Hs Hp. destruct (positive_form d Hs Hp) as (c & e & -> & Hc & _). unfold nonzero. by destruct c. Qed.

(** The contribution each remaining day needs. *)
Lemma required_is n : 0 < n < tens 25 -> exists q r, ddiv default_ctx (p_remaining p) (Decimal_of_Z n) = Ok q
  /\ ceil_money q = Ok r /\ on_scale (-2) r /\ (units (-2) r - 1) * n < R <= units (-2) r * n /\ 0 < units (-2) r < tens 25.
Proof using HR.
  intros Hn. destruct HR as (Hs & Hp & Hlt). destruct (positive_form _ Hs Hp) as (c & e & E & Hc & He & Eu).
  destruct (divided_up c (Z.abs_N n) e 0 (-2) 0) as (q & Hq & r & Hr & Hr0 & Hd & Hqr & _);
    [done|lia|lia|lia|lia|lia|by rewrite <- Eu|change (tens (0 - 0)) with 1; lia|].
  exists q, (Fin false r (-2)). rewrite Eu, E. split; [rewrite <- Hq; unfold Decimal_of_Z; by replace (n <? 0) with false by lia|].
  split; [exact Hqr|]. split; [done|]. change (tens (0 - 0)) with 1 in Hr.
  assert (Hu : units (-2) (Fin false r (-2)) = Z.of_N r) by (cbn [units signed]; change (Z.of_N (pow10 (-2 - -2))) with 1; lia).
  rewrite Hu. replace (Z.of_N (Z.abs_N n) * 1) with n in Hr by lia. split; [exact Hr|].
  pose proof (digits_upper r). pose proof (tens_le _ 25 Hd). lia.
Qed.

(** The contribution that completes the goal. *)
Lemma completes_at projected : projected_date (p_remaining p) (Some m) (JInt cd) today = Ok projected ->
  exists k, (k - 1) * M < R <= k * M /\ 1 <= cd <= 28 /\ first_index cd start <= last_month
    /\ let i := first_index cd start + (k - 1) in
       projected = (if i <=? last_month then isoformat (occurrence_in cd i) else ""%string) /\ 1 <= k.
Proof using HR HM Hstart.
  intros Hx. destruct HR as (Hs & Hp & Hlt). destruct HM as (Hsm & Hpm & Hltm).
  destruct (positive_form _ Hs Hp) as (c & e & E & Hc & He & Eu). destruct (positive_form _ Hsm Hpm) as (d & f & E' & Hd & Hf & Eu').
  destruct (divided_up c d e f (-2) (-2)) as (q & Hq & k & Hk & Hk0 & _ & _ & Hint);
    [done|done|lia|lia|lia|lia|by rewrite <- Eu|by rewrite <- Eu'|].
  unfold projected_date in Hx. rewrite (positive_nonzero _ Hs Hp), E, E', Hq in Hx. cbn [rbind] in Hx. rewrite (Hint eq_refl) in Hx. cbn [rbind] in Hx.
  apply nth_reached in Hx as (st & Hst & Hcd & Hfi & Hi); [|lia]. rewrite Hstart in Hst. apply Ok_inj in Hst as <-.
  exists (Z.of_N k). rewrite Eu, Eu'. split; [done|]. split; [done|]. split; [done|]. split; [exact Hi|lia].
Qed.

Hypothesis Hstate : py_eq_str state "paused" = false.
Hypothesis Hahead : date_ltb last_ start = false.
Hypothesis Hlast : valid_date last_ = true.

(** The schedule up to the target day, by its months. *)
Lemma target_days days : contribution_days today (JInt cd) (isoformat last_) None = Ok days ->
  1 <= cd <= 28 /\ let fi := first_index cd start in let n := final_index cd (Some last_) - fi + 1 in
  days = List.map (occurrence_in cd) (seqZ fi n) /\ Z.of_nat (List.length days) = Z.max 0 n.
Proof using Hstart Hlast.
  clear Hstate Hahead HR HM. intros H. destruct (contribution_days_is _ _ _ _ _ H) as (c & st & e & [= <-] & Hcd & Hst & He & _ & ->).
  rewrite Hstart in Hst. apply Ok_inj in Hst as <-. split; [done|]. unfold target_date in He.
  rewrite iso_nonempty, first_ten_iso, fromisoformat_iso in He by done. injection He as <-. cbn [cap].
  split; [done|]. rewrite List.length_map, length_seqZ. lia.
Qed.

Lemma status_is days k projected : 1 <= cd <= 28 -> 1 <= k -> first_index cd start <= last_month ->
  (let fi := first_index cd start in days = List.map (occurrence_in cd) (seqZ fi (final_index cd (Some last_) - fi + 1))) ->
  (let i := first_index cd start + (k - 1) in
   projected = (if i <=? last_month then isoformat (occurrence_in cd i) else ""%string)) ->
  plan_status (p_remaining p) state (Some last_) start (Some m) projected (List.map isoformat days)
  = (let n := Z.max 0 (final_index cd (Some last_) - first_index cd start + 1) in
     if n <? k then "at_risk"%string else if k =? n then "on_track"%string else "ahead"%string).
Proof using HR Hstate Hahead Hlast Hstart.
  intros Hcd Hk Hfi -> ->. cbv zeta. set (fi := first_index cd start) in *. set (fin := final_index cd (Some last_)) in *.
  set (i := fi + (k - 1)). destruct HR as (Hs & Hp & _).
  pose proof (first_index_low cd start (read_date_valid _ _ Hstart)) as Hlow. fold fi in Hlow.
  destruct (valid_placed _ Hlast) as (Hpl & _).
  assert (Hfin : fin <= last_month) by (unfold fin; cbn [final_index]; lia).
  unfold plan_status. rewrite (positive_nonzero _ Hs Hp), Hstate, Hahead. cbn [negb].
  destruct (Z.leb_spec i last_month) as [Hil|Hil].
  - assert (Hvi : valid_date (occurrence_in cd i) = true) by (apply occurrence_valid; lia).
    rewrite (iso_nonempty _ Hvi). cbn [orb]. rewrite iso_order by done.
    pose proof (after_end cd (Some last_) Hcd Hpl i Hil) as Ha. cbn beta iota in Ha. rewrite Ha. fold fin.
    destruct (Z.ltb_spec fin i) as [Hfi'|Hfi'].
    { by replace (Z.max 0 (fin - fi + 1) <? k) with true by lia. }
    replace (Z.max 0 (fin - fi + 1) <? k) with false by lia.
    assert (Hex : existsb (fun o => String.ltb (isoformat (occurrence_in cd i)) o)
                    (List.map isoformat (List.map (occurrence_in cd) (seqZ fi (fin - fi + 1)))) = (i <? fin)).
    { apply eq_true_iff_eq. rewrite List.existsb_exists, Z.ltb_lt. split.
      - intros (o & Ho & Hlt). apply List.in_map_iff in Ho as (d & <- & Ho). apply List.in_map_iff in Ho as (j & <- & Ho).
        apply list_elem_of_In, elem_of_seqZ in Ho. rewrite iso_order in Hlt by (done || apply occurrence_valid; lia).
        rewrite date_ltb_key, !occurrence_key in Hlt by (apply occurrence_placed; lia). lia.
      - intros Hlt. exists (isoformat (occurrence_in cd fin)). split.
        + apply List.in_map, List.in_map, list_elem_of_In, elem_of_seqZ. lia.
        + rewrite iso_order by (done || apply occurrence_valid; lia).
          rewrite date_ltb_key, !occurrence_key by (apply occurrence_placed; lia). lia. }
    rewrite Hex. destruct (Z.ltb_spec i fin); [by replace (k =? _) with false by lia|by replace (k =? _) with true by lia].
  - cbn [String.eqb orb]. by replace (Z.max 0 (fin - fi + 1) <? k) with true by lia.
Qed.
End Plan.

(** C40: A plan keeps its word.  A goal with money still to save, a monthly contribution and
    a target day not yet past is at risk exactly when what the scheduled days up to the target
    day bring falls short of what remains; otherwise it is on track when all of those days are
    needed and ahead when fewer are, and the projected day is the scheduled day whose
    contribution completes it.  The required amount is the least amount of whole cents whose
    contributions cover what remains, and the deviation is the contribution less that. *)
Theorem plan_keeps_its_word today t rs state p cd m start last_ :
  plan_math t rs state today = Ok p ->
  decimal_if (get_or t "monthly_contribution" (JStr "")) = Ok (Some m) -> get_or t "contribution_day" JNull = JInt cd ->
  (let? tt_ := date_text (get_or t "target_date" (JStr "")) in target_date tt_) = Ok (Some last_) ->
  read_date today = Ok start -> date_ltb last_ start = false -> py_eq_str state "paused" = false ->
  let R := units (-2) (p_remaining p) in let M := units (-2) m in
  on_scale (-2) (p_remaining p) /\ 0 < R < tens 25 -> on_scale (-2) m /\ 0 < M < tens 25 ->
  exists days, contribution_days today (JInt cd) (isoformat last_) None = Ok days /\
  let n := Z.of_nat (List.length days) in
  p_status p = (if n * M <? R then "at_risk"%string else if (n - 1) * M <? R then "on_track"%string else "ahead"%string)
  /\ (R <= n * M -> exists k d, (k - 1) * M < R <= k * M /\ days !! Z.to_nat (k - 1) = Some d /\ p_projected p = isoformat d)
  /\ (n = 0 -> p_required p = None /\ p_deviation p = None)
  /\ (0 < n -> exists r v, p_required p = Some r /\ p_deviation p = Some v /\ on_scale (-2) r /\ on_scale (-2) v
       /\ (units (-2) r - 1) * n < R <= units (-2) r * n /\ units (-2) v = M - units (-2) r).
Proof.
  intros Hplan Hmon Hday Htar Hst Hah Hsta. cbv zeta. intros HR HM.
  destruct (plan_parts _ _ _ _ _ _ _ _ _ Hplan Hmon Hday Htar Hst) as (days & req & proj & dev & upc & Hd & Hreq & Hproj & Hdev & Hp).
  pose proof (f_equal p_status Hp) as Es. pose proof (f_equal p_projected Hp) as Ep.
  pose proof (f_equal p_required Hp) as Er. pose proof (f_equal p_deviation Hp) as Ev. cbn in Es, Ep, Er, Ev. clear Hp.
  exists days. split; [done|]. rewrite Es, Ep, Er, Ev. clear Es Ep Er Ev.
  assert (Hlast : valid_date last_ = true) by (apply rbind_ok in Htar as (tt_ & _ & Htar); by eapply target_date_valid).
  destruct (target_days today cd start last_ Hst Hlast days Hd) as (Hcd & Edays & En). cbv zeta in Edays, En.
  destruct (completes_at today p cd m start Hst HR HM proj Hproj) as (k & Hk & _ & Hfi & Eproj & Hk1).
  rewrite (status_is today state p cd m start last_ Hst HR Hsta Hah Hlast days k proj Hcd Hk1 Hfi Edays Eproj). cbv zeta. rewrite <- En.
  set (n := Z.of_nat (List.length days)) in *. set (R := units (-2) (p_remaining p)) in *. set (M := units (-2) m) in *.
  destruct HM as (HMs & HM1 & HM2). assert (Hn0 : 0 <= n) by lia.
  assert (Hnz : nonzero (p_remaining p) = true) by (apply positive_nonzero; tauto).
  assert (C1 : (n <? k) = (n * M <? R)) by (apply eq_true_iff_eq; rewrite !Z.ltb_lt; nia).
  assert (C2 : (n * M <? R) = false -> (k =? n) = ((n - 1) * M <? R)) by (intros H; apply eq_true_iff_eq; rewrite Z.eqb_eq, Z.ltb_lt; nia).
  split; [rewrite C1; destruct (n * M <? R) eqn:E; [done|by rewrite C2]|]. split; [|split].
  - intros H. exists k, (occurrence_in cd (first_index cd start + (k - 1))). assert (k <= n) by nia.
    split; [done|]. rewrite Edays. change (List.map (occurrence_in cd)) with (fmap (M := list) (occurrence_in cd)).
    rewrite list_lookup_fmap, seqZ_nth, Z2Nat.id by lia. replace (k - 1 <? _) with true by lia. split; [done|].
    rewrite Eproj. replace (_ <=? last_month) with true; [done|]. cbn [final_index] in En. lia.
  - intros H. destruct days; [|unfold n in H; cbn in H; lia]. cbn in Hreq. rewrite Hnz in Hreq. by apply Ok_inj in Hreq as <-.
  - intros H. assert (Hn25 : n < tens 25).
    { assert (last_month < tens 25) by (vm_compute; reflexivity). cbn [final_index] in En.
      pose proof (first_index_low cd start (read_date_valid _ _ Hst)). lia. }
    destruct (required_is p HR n (conj H Hn25)) as (q & r & Hq & Hr & Hrs & Hrb & Hr0 & Hr1).
    unfold required_amount in Hreq. rewrite Hnz, List.length_map in Hreq. fold n in Hreq. rewrite Hq in Hreq. cbn [rbind] in Hreq.
    rewrite Hr in Hreq. cbn [rbind] in Hreq. destruct days as [|d0 days']; [unfold n in H; cbn in H; lia|]. cbn [List.map] in Hreq.
    apply Ok_inj in Hreq as <-. destruct Hdev as (v & Hv & ->).
    destruct (dsub_exact default_ctx (-2) m r ltac:(vm_compute; repeat split; discriminate) HMs Hrs) as (v' & Ev & Hvs & Hvu).
    { unfold fits. change (Z.of_N (10 ^ prec default_ctx)) with (tens 28). assert (tens 25 < tens 28) by (vm_compute; reflexivity).
      unfold M in *. lia. }
    rewrite Hv in Ev. apply Ok_inj in Ev as <-. exists r, v. done.
Qed.

Definition house_terms : list (string * json) :=
  [("target_amount", JStr "500"); ("target_date", JStr "2027-02-15"); ("monthly_contribution", JStr "120.00");
   ("contribution_day", JInt 15)]%string.
Lemma plan_keeps_its_word_witness : exists p r,
  plan_math house_terms [Fin false 200 0] (JStr "active") "2026-11-20" = Ok p /\ p_status p = "on_track"%string
  /\ p_projected p = "2027-02-15"%string /\ p_required p = Some r /\ units (-2) r = 10000.
Proof.
  destruct (plan_math house_terms [Fin false 200 0] (JStr "active") "2026-11-20") as [p|] eqn:E; [|vm_compute in E; discriminate].
  assert (Hr : p_remaining p = Fin false 300 0) by (vm_compute in E; injection E as <-; reflexivity).
  destruct (plan_keeps_its_word "2026-11-20" house_terms [Fin false 200 0] (JStr "active") p 15 (Fin false 12000 (-2))
    (mkDate 2026 11 20) (mkDate 2027 2 15) E ltac:(vm_compute; reflexivity) ltac:(vm_compute; reflexivity)
    ltac:(vm_compute; reflexivity) ltac:(vm_compute; reflexivity) ltac:(vm_compute; reflexivity) ltac:(vm_compute; reflexivity))
    as (days & Hd & Hs & Hp & _ & Hq).
  - rewrite Hr. split; [vm_compute; discriminate|split; vm_compute; reflexivity].
  - split; [vm_compute; discriminate|split; vm_compute; reflexivity].
  - vm_compute in Hd. injection Hd as <-. rewrite Hr in Hs, Hp, Hq.
    destruct Hq as (r & v & Hq1 & _ & _ & _ & Hq2 & _); [vm_compute; reflexivity|].
    destruct Hp as (k & d & Hk & Hl & Hpd); [vm_compute; discriminate|].
    exists p, r. split; [done|]. split; [rewrite Hs; vm_compute; reflexivity|].
    change (units (-2) (Fin false 300 0)) with 30000 in *. change (units (-2) (Fin false 12000 (-2))) with 12000 in Hk.
    cbn [List.length] in Hq2. assert (k = 3) as -> by lia. cbn in Hl. injection Hl as <-.
    split; [rewrite Hpd; vm_compute; reflexivity|]. split; [done|]. lia.
Defined.
