(* ===== verification/BalanceLaws.v ===== *)
(** * Balance laws: what a replay keeps of an account, read off the log

    [history] is the abstract account: the figures the log states about it, in order.  The
    fold of [Accounts] keeps the earliest opening, the latest closing, the postings and
    their sum of that history. *)
From Stdlib Require Import ZArith NArith Ascii String Lia ZifyBool ZifyN ZifyNat.
From stdpp Require Import base list numbers strings.
From S2P Require Import Prelude Text Words Json Decimals Floats Arithmetic Events EventTypes Postings Accounts.
#[local] Open Scope string_scope.

(** ** The first of the least, and the last of the greatest *)
Section Extremes.
Context {A : Type} (at_ : A -> string).

Definition earliest (l : list A) (o : option A) : Prop :=
  match o with
  | None => l = []
  | Some x => exists l1 l2, l = (l1 ++ x :: l2)%list
      /\ Forall (fun y => word_lt (at_ x) (at_ y)) l1 /\ Forall (fun y => ~ word_lt (at_ y) (at_ x)) l2
  end.
Definition latest (l : list A) (o : option A) : Prop :=
  match o with
  | None => l = []
  | Some x => exists l1 l2, l = (l1 ++ x :: l2)%list
      /\ Forall (fun y => ~ word_lt (at_ x) (at_ y)) l1 /\ Forall (fun y => word_lt (at_ y) (at_ x)) l2
  end.

Lemma ltb_word a b : String.ltb a b = true <-> word_lt a b.
Proof. unfold String.ltb, word_lt. by destruct (String.compare a b). Qed.
Lemma ltb_word_not a b : String.ltb a b = false <-> ~ word_lt a b.
Proof. rewrite <- ltb_word. by destruct (String.ltb a b). Qed.
Lemma word_tri a b : word_lt a b \/ a = b \/ word_lt b a.
Proof.
  destruct (String.compare a b) eqn:E; [right; left; by apply String.compare_eq_iff|by left|right; right; by apply word_gt].
Qed.
Lemma word_lt_not_lt a b c : word_lt a b -> ~ word_lt c b -> word_lt a c.
Proof.
  intros H1 H2. destruct (word_tri b c) as [H| [-> |H]]; [by transitivity b|done|done].
Qed.
Lemma word_not_lt_lt a b c : ~ word_lt b a -> word_lt b c -> word_lt a c.
Proof. intros H1 H2. destruct (word_tri a b) as [H| [<- |H]]; [by transitivity b|done|done]. Qed.

Lemma earliest_snoc l o y : earliest l o ->
  earliest (l ++ [y])%list
    (Some (match o with None => y | Some x => if String.ltb (at_ y) (at_ x) then y else x end)).
Proof.
  destruct o as [x|]; [|intros ->; exists [], []; by repeat constructor].
  intros (l1 & l2 & -> & H1 & H2). destruct (String.ltb (at_ y) (at_ x)) eqn:E.
  - apply ltb_word in E. exists (l1 ++ x :: l2)%list, []. split; [done|]. split; [|constructor].
    apply Forall_app. split; [|constructor; [done|]]; (eapply Forall_impl; [eassumption|]); cbn.
    + intros z Hz. by transitivity (at_ x).
    + intros z Hz. by eapply word_lt_not_lt.
  - apply ltb_word_not in E. exists l1, (l2 ++ [y])%list. rewrite <- app_assoc. split; [done|]. split; [done|].
    apply Forall_app. split; [done|]. by repeat constructor.
Qed.
Lemma latest_snoc l o y : latest l o ->
  latest (l ++ [y])%list
    (Some (match o with None => y | Some x => if String.ltb (at_ y) (at_ x) then x else y end)).
Proof.
  destruct o as [x|]; [|intros ->; exists [], []; by repeat constructor].
  intros (l1 & l2 & -> & H1 & H2). destruct (String.ltb (at_ y) (at_ x)) eqn:E.
  - apply ltb_word in E. exists l1, (l2 ++ [y])%list. rewrite <- app_assoc. split; [done|]. split; [done|].
    apply Forall_app. split; [done|]. by repeat constructor.
  - apply ltb_word_not in E. exists (l1 ++ x :: l2)%list, []. split; [done|]. split; [|constructor].
    apply Forall_app. split; [|constructor; [done|]]; (eapply Forall_impl; [eassumption|]); cbn.
    + intros z Hz Hyz. by apply Hz, (word_not_lt_lt _ (at_ y)).
    + intros z Hz Hyz. apply E. by transitivity (at_ z).
Qed.
End Extremes.

(** ** What one event states about an account *)
Record history := mkHistory {
  h_openings : list (string * decimal);
  h_closings : list (string * decimal * bool);
  h_posted : list decimal;
  h_seen : bool
}.
Definition unstated : history := mkHistory [] [] [] false.
Definition join (a b : history) : history :=
  mkHistory (h_openings a ++ h_openings b) (h_closings a ++ h_closings b) (h_posted a ++ h_posted b)
    (h_seen a || h_seen b).

Definition names (e : Event) (a : string) : bool :=
  match body_item e "account_id" with Ok b => String.eqb b a | Raise _ => false end.
Definition amount_in (e : Event) : res decimal := let? v := py_getitem (body e) "amount" in Decimal_of_json v.
Definition dated_at (e : Event) : string := match occurred_at e with JStr t => t | _ => "" end.
Definition by_human (e : Event) : bool :=
  match py_get (body e) "confirmed_by" with Ok v => py_eq_str v "human" | Raise _ => false end.
Definition legs_on (ps : list Posting) (a : string) : list decimal :=
  omap (fun p => match account p with JStr b => if String.eqb b a then Some (amount p) else None | _ => None end) ps.
Definition states (e : Event) (a : string) : history :=
  let of_type t := py_eq_str (event_type e) t in
  let amounts := match amount_in e with Ok d => [d] | Raise _ => [] end in
  if of_type "TransactionRecorded" then
    let legs := match postings_of e with Ok ps => legs_on ps a | Raise _ => [] end in
    mkHistory [] [] legs (match legs with [] => false | _ => true end)
  else if negb (names e a) then unstated
  else if of_type "AccountOpened" || of_type "PositionObserved" then mkHistory [] [] [] true
  else if of_type "OpeningBalanceObserved" then mkHistory (List.map (pair (dated_at e)) amounts) [] [] true
  else if of_type "ClosingBalanceObserved" then
    mkHistory [] (List.map (fun d => (dated_at e, d, by_human e)) amounts) [] true
  else unstated.
Definition history_of (events : list Event) (a : string) : history :=
  fold_left (fun h e => join h (states e a)) events unstated.

(** ** What the fold keeps *)
Section Kept.
Context (e0 : Z).
Hypothesis Hs : scale_ok default_ctx e0.
Hypothesis He0 : (e0 <= 0)%Z.

Definition zunits (l : list decimal) : list Z := List.map (units e0) l.
Record keeps (a : string) (h : history) (st : account_state) : Prop := {
  k_opening : earliest fst (h_openings h) (d ← opening st; Some (opening_date st, d));
  k_closing : latest (fun c => c.1.1) (h_closings h)
                (d ← closing st; Some (closing_date st, d, closing_confirmed st));
  k_deltas : period_deltas st = if String.eqb a EQUITY_OPENING then [] else h_posted h;
  k_sum : on_scale e0 (balance_sum st) /\ units e0 (balance_sum st) = zsum (zunits (h_posted h));
  k_seen : seen st = h_seen h
}.

Lemma keeps_new a : keeps a unstated new_account.
Proof using He0.
  split; try done. by destruct (String.eqb a EQUITY_OPENING).
Qed.
Lemma join_unstated h : join h unstated = h.
Proof using Type. clear Hs He0. destruct h. unfold join. cbn. by rewrite !app_nil_r, orb_false_r. Qed.

Lemma keeps_seen a h st : keeps a h st -> keeps a (join h (mkHistory [] [] [] true)) (mark_seen st).
Proof using Type.
  clear Hs He0. intros [K1 K2 K3 K4 K5]. split; cbn; rewrite ?app_nil_r; try done. by rewrite orb_true_r.
Qed.
Lemma keeps_opened a h st e at_ st' : open_account e at_ st = Ok st' -> keeps a h st ->
  keeps a (join h (mkHistory [] [] [] true)) st'.
Proof using Type.
  clear Hs He0. unfold open_account. intros Hx K%keeps_seen. do 4 apply rbind_ok in Hx as (? & _ & Hx).
  apply Ok_inj in Hx as <-. destruct K as [K1 K2 K3 K4 K5]. by split.
Qed.
Lemma keeps_opening a h st d t p : keeps a h st ->
  keeps a (join h (mkHistory [(t, d)] [] [] true)) (observe_opening d t p st).
Proof using Type.
  clear Hs He0. intros [K1 K2 K3 K4 K5]. split; cbn; rewrite ?app_nil_r; try done; [|by rewrite orb_true_r].
  pose proof (earliest_snoc _ _ _ (t, d) K1) as Hx. destruct (opening st) as [d'|]; cbn in *; [|done].
  by destruct (String.ltb t (opening_date st)).
Qed.
Lemma keeps_closing a h st d t p b : keeps a h st ->
  keeps a (join h (mkHistory [] [(t, d, b)] [] true)) (observe_closing d t p b st).
Proof using Type.
  clear Hs He0. intros [K1 K2 K3 K4 K5]. split; cbn; rewrite ?app_nil_r; try done; [|by rewrite orb_true_r].
  pose proof (latest_snoc _ _ _ (t, d, b) K2) as Hx. destruct (closing st) as [d'|]; cbn in *; [|done].
  by destruct (String.ltb t (closing_date st)).
Qed.

Lemma keeps_posted a h st x : keeps a h st -> on_scale e0 x ->
  fits default_ctx (mags (zunits (h_posted h ++ [x])%list)) ->
  exists st', post a x st = Ok st' /\ keeps a (join h (mkHistory [] [] [x] true)) st'.
Proof using Hs.
  intros [K1 K2 K3 [K4 K4'] K5] Hx Hf. unfold post.
  assert (Hb : fits default_ctx (units e0 (balance_sum st) + units e0 x)).
  { eapply fits_le; [exact Hf|]. rewrite K4'. unfold zunits in *. rewrite List.map_app. unfold mags.
    rewrite List.map_app, zsum_app. cbn [List.map]. rewrite zsum_cons. pose proof (zsum_mags (List.map (units e0) (h_posted h))).
    unfold mags in *. change (zsum []) with 0%Z. lia. }
  destruct (dadd_exact default_ctx e0 _ _ Hs K4 Hx Hb) as (y & -> & Hy & Hu). cbn [rbind]. eexists. split; [reflexivity|].
  split; cbn; rewrite ?app_nil_r; try done; [|split|].
  - rewrite K3. by destruct (String.eqb a EQUITY_OPENING).
  - done.
  - rewrite Hu, K4'. unfold zunits. rewrite List.map_app, zsum_app. cbn [List.map]. rewrite zsum_cons. change (zsum []) with 0%Z. lia.
  - by rewrite orb_true_r.
Qed.

(** One event, then the log. *)
Lemma state_of_set s b st a : state_of (dict_set s b st) a = if String.eqb b a then st else state_of s a.
Proof using Type.
  clear Hs He0. unfold state_of. destruct (String.eqb_spec b a) as [->|Hne]; [by rewrite dict_set_same|].
  rewrite dict_get_set; [done|]. congruence.
Qed.
Lemma join_join a b c : join (join a b) c = join a (join b c).
Proof using Type. clear Hs He0. unfold join. cbn. by rewrite !app_assoc, orb_assoc. Qed.
Lemma keeps_set a b h st s : keeps a h (state_of s a) -> (b = a -> keeps a (join h (mkHistory [] [] [] true)) st) ->
  keeps a (join h (if String.eqb b a then mkHistory [] [] [] true else unstated)) (state_of (dict_set s b st) a).
Proof using Type.
  clear Hs He0. intros K Hst. rewrite state_of_set. destruct (String.eqb_spec b a); [by apply Hst|]. by rewrite join_unstated.
Qed.

Definition legs_history (legs : list decimal) : history :=
  mkHistory [] [] legs (match legs with [] => false | _ => true end).
Lemma mags_app l k : mags (l ++ k) = (mags l + mags k)%Z.
Proof using Type. clear Hs He0. unfold mags. by rewrite List.map_app, zsum_app. Qed.
Lemma keeps_legs a ps s s' h : rfold post_leg ps s = Ok s' -> keeps a h (state_of s a) ->
  Forall (on_scale e0) (legs_on ps a) -> fits default_ctx (mags (zunits (h_posted h ++ legs_on ps a)%list)) ->
  keeps a (join h (legs_history (legs_on ps a))) (state_of s' a).
Proof using Hs.
  revert s h. induction ps as [|p ps IH]; intros s h Hf K Hp Hm.
  - apply Ok_inj in Hf as <-. cbn. by rewrite join_unstated.
  - cbn [rfold] in Hf. apply rbind_ok in Hf as (s1 & H1 & Hf). unfold post_leg in H1.
    apply rbind_ok in H1 as (b & Hb & H1). apply rbind_ok in H1 as (st & Hst & H1). apply Ok_inj in H1 as <-.
    destruct (account p) as [| | | |b'| |] eqn:Ea; try done. injection Hb as ->.
    assert (El : legs_on (p :: ps) a = if String.eqb b a then amount p :: legs_on ps a else legs_on ps a).
    { unfold legs_on. cbn. rewrite Ea. by destruct (String.eqb b a). }
    rewrite El in *. destruct (String.eqb_spec b a) as [->|Hne].
    + inversion_clear Hp as [|? ? Hx Hp']. unfold zunits in Hm.
      destruct (keeps_posted a h (state_of s a) (amount p)) as (st' & E & K'); [done..| |].
      { eapply fits_le; [exact Hm|]. unfold zunits. rewrite !List.map_app, !mags_app. cbn [List.map]. rewrite !mags_cons.
        pose proof (mags_nonneg (List.map (units e0) (h_posted h))). pose proof (mags_nonneg (List.map (units e0) (legs_on ps a))).
        change (mags []) with 0%Z. lia. }
      rewrite Hst in E. injection E as <-.
      assert (Ej : join h (legs_history (amount p :: legs_on ps a))
                   = join (join h (mkHistory [] [] [amount p] true)) (legs_history (legs_on ps a))).
      { rewrite join_join. unfold join. cbn. by destruct (legs_on ps a). }
      rewrite Ej. eapply IH; [exact Hf| |done|].
      * rewrite state_of_set, String.eqb_refl. exact K'.
      * cbn [join h_posted]. by rewrite <- app_assoc.
    + eapply IH; [exact Hf| |done|done]. rewrite state_of_set.
      apply String.eqb_neq in Hne. by rewrite Hne.
Qed.

Lemma keeps_named e b a h s x st : body_item e "account_id" = Ok b -> keeps a h (state_of s a) ->
  (b = a -> keeps a (join h x) st) ->
  keeps a (join h (if negb (names e a) then unstated else x)) (state_of (dict_set s b st) a).
Proof using Type.
  clear Hs He0. intros Hb K Hst. rewrite state_of_set. unfold names. rewrite Hb.
  destruct (String.eqb_spec b a); [by apply Hst|]. by rewrite join_unstated.
Qed.

Lemma keeps_event a h s e s' : apply_account s e = Ok s' -> keeps a h (state_of s a) ->
  Forall (on_scale e0) (h_posted (states e a)) -> fits default_ctx (mags (zunits (h_posted (join h (states e a))))) ->
  keeps a (join h (states e a)) (state_of s' a).
Proof using Hs.
  intros Hx K Hp Hm. unfold apply_account in Hx. apply rbind_ok in Hx as (et & Het & Hx). apply rbind_ok in Hx as (t & Ht & Hx).
  unfold states in *. unfold dated_at. destruct (event_type e) as [| | | |et'| |]; try done. injection Het as ->.
  destruct (occurred_at e) as [| | | |t'| |]; try done. injection Ht as ->. cbn [py_eq_str] in *.
  repeat match type of Hx with (if String.eqb et ?k then _ else _) = _ =>
    destruct (String.eqb_spec et k) as [->|]; [cbn [String.eqb Ascii.eqb Bool.eqb orb] in *|] end.
  - apply rbind_ok in Hx as (b & Hb & Hx). apply rbind_ok in Hx as (st & Hst & Hx). apply Ok_inj in Hx as <-.
    apply keeps_named; [done..|]. intros ->. by eapply keeps_opened.
  - apply rbind_ok in Hx as (b & Hb & Hx). apply Ok_inj in Hx as <-. apply keeps_named; [done..|].
    intros ->. by rewrite join_unstated.
  - apply rbind_ok in Hx as (b & Hb & Hx). apply rbind_ok in Hx as (v & Hv & Hx). apply rbind_ok in Hx as (d & Hd & Hx).
    apply Ok_inj in Hx as <-. apply keeps_named; [done..|]. intros ->. unfold amount_in. rewrite Hv. cbn [rbind]. rewrite Hd.
    by apply keeps_opening.
  - apply rbind_ok in Hx as (b & Hb & Hx). apply rbind_ok in Hx as (v & Hv & Hx). apply rbind_ok in Hx as (d & Hd & Hx).
    apply rbind_ok in Hx as (w & Hw & Hx). apply Ok_inj in Hx as <-. apply keeps_named; [done..|]. intros ->.
    unfold amount_in, by_human. rewrite Hv, Hw. cbn [rbind]. rewrite Hd. by apply keeps_closing.
  - unfold observe_position in Hx. apply rbind_ok in Hx as (b & Hb & Hx). do 7 apply rbind_ok in Hx as (? & _ & Hx).
    apply Ok_inj in Hx as <-. apply keeps_named; [done..|]. intros ->. by apply keeps_seen.
  - unfold record_transaction in Hx. do 5 apply rbind_ok in Hx as (? & _ & Hx). apply rbind_ok in Hx as (ps & Hps & Hx).
    rewrite Hps in *. by eapply keeps_legs.
  - apply Ok_inj in Hx as <-. destruct (negb (names e a)); by rewrite join_unstated.
Qed.

(** A replay keeps the history of every account. *)
Lemma history_snoc l e a : history_of (l ++ [e])%list a = join (history_of l a) (states e a).
Proof using Type. clear Hs He0. unfold history_of. by rewrite fold_left_app. Qed.
Lemma keeps_history events s a : rfold apply_account events [] = Ok s ->
  Forall (on_scale e0) (h_posted (history_of events a)) ->
  fits default_ctx (mags (zunits (h_posted (history_of events a)))) -> keeps a (history_of events a) (state_of s a).
Proof using Hs He0.
  revert s. induction events as [|e l IH] using rev_ind; intros s Hf Hp Hm.
  - apply Ok_inj in Hf as <-. by apply keeps_new.
  - rewrite rfold_app in Hf. apply rbind_ok in Hf as (s1 & H1 & Hf). cbn [rfold] in Hf. apply rbind_ok in Hf as (s2 & H2 & Hf).
    apply Ok_inj in Hf as <-. rewrite history_snoc in *. cbn [join h_posted] in Hp. apply Forall_app in Hp as [Hp1 Hp2].
    eapply keeps_event; [exact H2| |done|done]. apply IH; [done..|]. eapply fits_le; [exact Hm|].
    cbn [join h_posted]. unfold zunits. rewrite List.map_app, mags_app.
    pose proof (mags_nonneg (List.map (units e0) (h_posted (history_of l a)))).
    pose proof (mags_nonneg (List.map (units e0) (h_posted (states e a)))). lia.
Qed.
End Kept.
