(* ===== verification/StoreFormat.v ===== *)
(** * StoreFormat: the bytes of an event log (product/viva/ledger/store.py)

    The pure half of the event store: record hashes, the authenticated head file, the
    header upgrade, the scans that walk a log, recovery to the committed boundary and the
    keyless chain verification.  A log is its bytes: a header line, then one JSON record
    per line, then possibly the suffix of an append that never committed. *)
From Stdlib Require Import ZArith NArith Ascii String Lia.
From stdpp Require Import base list numbers strings.
From S2P Require Import Prelude Text Json Hashing Crypto Events.
#[local] Open Scope string_scope.

Definition GENESIS : string := dec (repeat "0"%char 64).

(** [_record_hash]. *)
Definition record_body (seq prev_hash sealed : json) : json :=
  JObj [("seq", seq); ("prev_hash", prev_hash); ("sealed", sealed)].
Definition record_hash (seq prev_hash sealed : json) : string :=
  sha256_hex (canonical (record_body seq prev_hash sealed)).

(** ** The head record *)
Definition head_body (count : Z) (head_hash : json) : json :=
  JObj [("count", JInt count); ("head_hash", head_hash)].

Definition head_mac (key : bytes) (body : json) : string :=
  let subkey := hmac_sha256 key (enc "viva-head-mac-v1") in
  hexlify (hmac_sha256 subkey (canonical body)).

Definition cursor_mac (key : bytes) (count : Z) (head_hash : json) (end_offset : Z) : string :=
  let subkey := hmac_sha256 key (enc "viva-event-cursor-mac-v1") in
  hexlify (hmac_sha256 subkey (canonical
    (JObj [("count", JInt count); ("head_hash", head_hash); ("end_offset", JInt end_offset)]))).

(** The text [write_head] renames over the head file. *)
Definition write_head (key : bytes) (count : nat) (head_hash : json) : bytes :=
  let mac := head_mac key (head_body (Z.of_nat count) head_hash) in
  (dumps Spaced (JObj [("count", JInt (Z.of_nat count)); ("head_hash", head_hash);
                      ("mac", JStr mac)]) ++ [newline])%list.

(** [_authenticated_head]: [head] is the head file's content, [None] when it is missing. *)
Definition authenticated_head (key : bytes) (head : option bytes) (required : bool)
  : res (option (nat * string)) :=
  match head with
  | None => if required then Raise CryptoError else Ok None
  | Some text =>
      let? (count, head_hash, mac) :=
        reraise_as [JSONDecodeError; KeyError; TypeError] CryptoError
          (let? head := loads text in
           let? count := py_getitem head "count" in
           let? head_hash := py_getitem head "head_hash" in
           let? mac := py_getitem head "mac" in
           Ok (count, head_hash, mac)) in
      match count, head_hash, mac with
      | JInt c, JStr h, JStr m =>
          if (c <? 0)%Z then Raise CryptoError
          else
            let? same := compare_digest (head_mac key (head_body c (JStr h))) m in
            if negb same then Raise CryptoError else Ok (Some (Z.to_nat c, h))
      | _, _, _ => Raise CryptoError
      end
  end.

(** [_header_requires_head]. *)
Definition header_requires_head (header : json) : res bool :=
  match header with
  | JObj kv =>
      match dict_get kv "head" with
      | Some _ => Raise CryptoError
      | None => let? v := py_get header "v" in Ok (py_eq_str v HEAD_BOUND_HEADER_VERSION)
      end
  | _ => Raise TypeError
  end.

(** ** Records *)

(** The four fields of a parsed record line, of whatever type the line gave them. *)
Record raw := mkRaw { raw_seq : json; raw_prev : json; raw_sealed : json; raw_hash : json }.

Definition parse_raw (rec : json) : res raw :=
  let? seq := py_getitem rec "seq" in
  let? prev := py_getitem rec "prev_hash" in
  let? sealed := py_getitem rec "sealed" in
  let? hash := py_getitem rec "record_hash" in
  Ok (mkRaw seq prev sealed hash).

(** The hash a record's own fields determine. *)
Definition hash_of (r : raw) : string := record_hash (raw_seq r) (raw_prev r) (raw_sealed r).

(** The strict walk shared by [_committed_prefix_end] and [_committed_suffix_from_cursor]:
    [n] more records from sequence number [seq] on, each complete, each chained to
    [previous]; [step] is what the caller does with one of them. *)
Section scan.
Context {A : Type} (step : nat -> raw -> res A).
Fixpoint scan (n seq : nat) (previous : json) (off : nat) (rest : bytes)
  : res (list A * json * nat) :=
  match n with
  | O => Ok ([], previous, off)
  | S n' =>
      let '(line, complete, rest') := readline rest in
      if negb complete then Raise CryptoError
      else
        let? rec := loads (line ++ [newline])%list in
        let? r := parse_raw rec in
        if negb (py_eq_int (raw_seq r) (Z.of_nat seq) && bool_decide (raw_prev r = previous))
        then Raise CryptoError
        else if negb (py_eq_str (raw_hash r) (hash_of r)) then Raise CryptoError
        else
          let? x := step seq r in
          let? (xs, last, e) := scan n' (S seq) (JStr (hash_of r)) (off + S (length line)) rest' in
          Ok (x :: xs, last, e)
  end.
End scan.

(** The check [_committed_prefix_end] makes at the commit a handle already observed. *)
Definition prefix_check (expected_prefix : option (nat * string)) (seq : nat) (r : raw) : res unit :=
  match expected_prefix with
  | Some (prefix_count, prefix_hash) =>
      raise_if (bool_decide (S seq = prefix_count) && negb (String.eqb (hash_of r) prefix_hash))
               CryptoError
  | None => Ok tt
  end.

Definition committed_prefix_end (log : bytes) (count : nat) (expected_hash : string)
    (expected_prefix : option (nat * string)) : res nat :=
  let prefix_count := match expected_prefix with Some (c, _) => c | None => 0 end in
  if decide (count < prefix_count) then Raise CryptoError
  else
    let? (_, previous, e) :=
      reraise_as [JSONDecodeError; KeyError; TypeError] CryptoError
        (let '(header, complete, rest) := readline log in
         if negb complete then Raise CryptoError
         else scan (prefix_check expected_prefix) count 0 (JStr GENESIS) (S (length header)) rest) in
    if negb (py_eq_str previous expected_hash) then Raise CryptoError else Ok e.

(** [_recover_to_authenticated_head]: the result, and the log it leaves behind. *)
Definition recover_to_authenticated_head (key : bytes) (log : bytes) (head : option bytes)
    (required : bool) (expected_head : option (nat * string))
  : res (option (nat * string * nat)) * bytes :=
  match authenticated_head key head required with
  | Raise e => (Raise e, log)
  | Ok None => (Ok None, log)
  | Ok (Some (count, committed_hash)) =>
      let moved_back :=
        match expected_head with
        | Some (ec, eh) =>
            bool_decide (count < ec)
            || (bool_decide (count = ec) && negb (String.eqb committed_hash eh))
        | None => false
        end in
      if moved_back : bool then (Raise CryptoError, log)
      else
        match committed_prefix_end log count committed_hash expected_head with
        | Raise e => (Raise e, log)
        | Ok e =>
            let size := length log in
            if decide (e < size) then
              let log' := take e log in
              if decide (length log' <> e) then (Raise CryptoError, log')
              else (Ok (Some (count, committed_hash, e)), log')
            else if decide (size < e) then (Raise CryptoError, log)
            else (Ok (Some (count, committed_hash, size)), log)
        end
  end.

(** [bytes.strip()] leaves nothing: ASCII white space only. *)
Definition ascii_blank (l : bytes) : bool :=
  forallb (fun c => let n := code c in (n =? 32) || ((9 <=? n) && (n <=? 13)))%N l.

(** Where the last line starts: after the last newline before the final byte. *)
Definition last_line_start (log : bytes) : nat :=
  let tail := fst (span (fun c => negb (is_newline c)) (rev (removelast log))) in
  length log - 1 - length tail.

(** [_fast_committed_boundary]. *)
Definition fast_committed_boundary (log : bytes) (count : nat) (head_hash : string)
  : res (option nat) :=
  let e := length log in
  if decide (count = 0) then
    let '(header, complete, rest) := readline log in
    Ok (if complete && ascii_blank rest then Some e else None)
  else
    let '(line, complete, _) := readline (drop (last_line_start log) log) in
    let text := if complete then (line ++ [newline])%list else line in
    match (let? record := loads text in
           let? seq := py_get record "seq" in
           if negb (py_eq_int seq (Z.of_nat count - 1)) then Ok false
           else
             let? rh := py_get record "record_hash" in
             if negb (py_eq_str rh head_hash) then Ok false
             else
               let? seq' := py_getitem record "seq" in
               let? prev := py_getitem record "prev_hash" in
               let? sealed := py_getitem record "sealed" in
               Ok (String.eqb (record_hash seq' prev sealed) head_hash)) with
    | Ok b => Ok (if b : bool then Some e else None)
    | Raise err =>
        if existsb (exn_isinstance err) [JSONDecodeError; KeyError; TypeError]
        then Ok None else Raise err
    end.

(** ** The lenient walk: [_iter_raw] *)

(** Text mode reads every line ending as a newline. *)
Fixpoint universal_newlines (l : bytes) : bytes :=
  match l with
  | [] => []
  | c :: l' =>
      if (code c =? 13)%N then
        match l' with
        | d :: l'' => if (code d =? 10)%N then newline :: universal_newlines l''
                      else newline :: universal_newlines l'
        | [] => [newline]
        end
      else c :: universal_newlines l'
  end.

Fixpoint text_lines (fuel : nat) (l : bytes) : list (bytes * bool) :=
  match fuel, l with
  | S f, _ :: _ =>
      let '(a, complete, r) := readline l in
      (a, complete) :: (if complete : bool then text_lines f r else [])
  | _, _ => []
  end.

(** The generator's output; an error is its last element. *)
Fixpoint iter_lines (lines : list (bytes * bool)) (first : bool) (limit : option nat)
  : list (res raw) :=
  match lines with
  | [] => []
  | (a, complete) :: lines' =>
      let line := strip_bytes a in
      if decide (line = []) then iter_lines lines' first limit
      else if first then iter_lines lines' false limit
      else
        match limit with
        | Some 0 => []
        | _ =>
            if negb complete then [Raise CryptoError]
            else
              match (let? rec := loads line in parse_raw rec) with
              | Ok r => Ok r :: iter_lines lines' false (Nat.pred <$> limit)
              | Raise e => [Raise e]
              end
        end
  end.

Definition iter_raw (log : option bytes) (limit : option nat) : list (res raw) :=
  match log with
  | None => []
  | Some l => let t := universal_newlines l in iter_lines (text_lines (length t) t) true limit
  end.

(** The walk of [verify_chain]: [inl] the count reached at the first break, [inr] the count
    and last hash of an unbroken chain. *)
Fixpoint verify_walk (rs : list (res raw)) (prev : string) (count : nat)
  : res (nat + nat * string) :=
  match rs with
  | [] => Ok (inr (count, prev))
  | Raise e :: _ => Raise e
  | Ok r :: rs' =>
      if negb (py_eq_str (raw_prev r) prev) then Ok (inl count)
      else if negb (py_eq_str (raw_hash r) (hash_of r)) then Ok (inl count)
      else verify_walk rs' (hash_of r) (S count)
  end.

(** [verify_chain]: needs no key. *)
Definition verify_chain (log head : option bytes) : res (bool * nat) :=
  let? walk := verify_walk (iter_raw log None) GENESIS 0 in
  match walk with
  | inl count => Ok (false, count)
  | inr (count, prev) =>
      match head with
      | None => Ok (true, count)
      | Some text =>
          match (let? h := loads text in
                 let? c := py_getitem h "count" in
                 let? hh := py_getitem h "head_hash" in
                 Ok (py_eq_int c (Z.of_nat count) && py_eq_str hh prev)) with
          | Ok true => Ok (true, count)
          | Ok false => Ok (false, count)
          | Raise err =>
              if existsb (exn_isinstance err) [JSONDecodeError; KeyError; TypeError]
              then Ok (false, count) else Raise err
          end
      end
  end.

Section upgrade.
Context `{lib : CryptoLib}.

(** [_upgrade_header_in_place]: the log with its first line rewritten. *)
Definition upgrade_header_in_place (log key nonce : bytes) : res bytes :=
  let '(line, complete, rest) := readline log in
  if negb complete then Raise CryptoError
  else
    let? header := reraise_as [JSONDecodeError] CryptoError (loads (line ++ [newline])%list) in
    let? upgraded := rebind_vault_header header key HEAD_BOUND_HEADER_VERSION nonce in
    let compact := dumps Compact upgraded in
    let capacity := length line in
    if decide (capacity < length compact) then Raise CryptoError
    else Ok (compact ++ repeat " "%char (capacity - length compact) ++ newline :: rest)%list.
End upgrade.

#[global] Opaque GENESIS.
#[global] Arguments write_head : simpl never.
#[global] Arguments head_mac : simpl never.
#[global] Arguments cursor_mac : simpl never.
