(* ===== verification/StoreLaws.v ===== *)
(** * StoreLaws: what the scans of StoreFormat promise

    A chain of written records reads back through every scan; what follows it is what
    recovery removes; and two logs that one head accepts hold the same records unless
    SHA-256 collides. *)
From Stdlib Require Import ZArith NArith Ascii String Lia.
From stdpp Require Import base list numbers strings.
From S2P Require Import Prelude Text Json Hashing Crypto Events StoreFormat.
#[local] Open Scope string_scope.

#[global] Arguments record_hash : simpl never.
#[global] Arguments hash_of : simpl never.
#[global] Arguments GENESIS : simpl never.

(** ** Written records *)

(** A record as [append_atomically] builds it. *)
Record wrec := mkWrec { w_seq : nat; w_prev : string; w_sealed : json }.
Definition w_hash (r : wrec) : string :=
  record_hash (JInt (Z.of_nat (w_seq r))) (JStr (w_prev r)) (w_sealed r).
Definition w_json (r : wrec) : json :=
  JObj [("seq", JInt (Z.of_nat (w_seq r))); ("prev_hash", JStr (w_prev r));
        ("sealed", w_sealed r); ("record_hash", JStr (w_hash r))].
Definition w_line (r : wrec) : bytes := (dumps Spaced (w_json r) ++ [newline])%list.
Definition w_lines (rs : list wrec) : bytes := List.concat (List.map w_line rs).
Definition w_raw (r : wrec) : raw :=
  mkRaw (JInt (Z.of_nat (w_seq r))) (JStr (w_prev r)) (w_sealed r) (JStr (w_hash r)).

(** Consecutive sequence numbers, each record carrying its predecessor's hash. *)
Fixpoint chain (seq : nat) (prev : string) (rs : list wrec) : Prop :=
  match rs with
  | [] => True
  | r :: rs' => w_seq r = seq /\ w_prev r = prev /\ wf_json (w_sealed r)
                /\ chain (S seq) (w_hash r) rs'
  end.
Definition last_hash (prev : string) (rs : list wrec) : string :=
  fold_left (fun _ r => w_hash r) rs prev.

Lemma last_hash_app prev rs rs' : last_hash prev (rs ++ rs') = last_hash (last_hash prev rs) rs'.
Proof. unfold last_hash. by rewrite fold_left_app. Qed.

Lemma chain_app seq prev rs rs' :
  chain seq prev (rs ++ rs') <->
  chain seq prev rs /\ chain (seq + length rs) (last_hash prev rs) rs'.
Proof.
  revert seq prev; induction rs as [|r rs IH]; intros seq prev; simpl.
  - rewrite Nat.add_0_r. tauto.
  - rewrite IH. replace (seq + S (length rs)) with (S seq + length rs) by lia.
    change (last_hash prev (r :: rs)) with (last_hash (w_hash r) rs). tauto.
Qed.

Lemma w_lines_app rs rs' : w_lines (rs ++ rs') = (w_lines rs ++ w_lines rs')%list.
Proof. unfold w_lines. by rewrite List.map_app, List.concat_app. Qed.

Lemma w_json_wf r : wf_json (w_sealed r) -> wf_json (w_json r).
Proof. intros H. split; [nodup_keys|]. by repeat split. Qed.

Lemma readline_dumps st v rest : wf_json v ->
  readline ((dumps st v ++ [newline]) ++ rest)%list = (dumps st v, true, rest).
Proof.
  intros H. rewrite <- app_assoc. apply readline_line.
  by apply printable_no_newline, dumps_printable.
Qed.

Lemma loads_line st v : wf_json v -> loads (dumps st v ++ [newline])%list = Ok v.
Proof. intros H. apply loads_dumps_ws; [done|]. by repeat constructor. Qed.

Lemma parse_w_json r : parse_raw (w_json r) = Ok (w_raw r).
Proof. reflexivity. Qed.

Lemma hash_w_raw r : hash_of (w_raw r) = w_hash r.
Proof. reflexivity. Qed.

Lemma py_eq_int_refl z : py_eq_int (JInt z) z = true.
Proof. simpl. by apply bool_decide_true. Qed.
Lemma py_eq_str_refl s : py_eq_str (JStr s) s = true.
Proof. by apply py_eq_str_true. Qed.

(** ** The strict walk on written records *)

Lemma scan_w_line {A} (step : nat -> raw -> res A) n seq prev off r rest :
  w_seq r = seq -> w_prev r = prev -> wf_json (w_sealed r) ->
  scan step (S n) seq (JStr prev) off (w_line r ++ rest)%list =
  (let? x := step seq (w_raw r) in
   let? (xs, last, e) := scan step n (S seq) (JStr (w_hash r)) (off + length (w_line r)) rest in
   Ok (x :: xs, last, e)).
Proof.
  intros Hs Hp Hw. pose proof (w_json_wf r Hw) as Hj. unfold w_line. cbn [scan].
  rewrite readline_dumps by done. cbn [negb]. rewrite loads_line by done. cbn [rbind].
  rewrite parse_w_json. cbn [rbind]. rewrite hash_w_raw. simpl raw_seq. simpl raw_prev.
  simpl raw_hash. rewrite Hs, Hp, py_eq_int_refl, py_eq_str_refl, bool_decide_true by done. cbn [andb negb].
  rewrite length_app. cbn [length]. replace (length (dumps Spaced (w_json r)) + 1)
    with (S (length (dumps Spaced (w_json r)))) by lia. done.
Qed.

Lemma scan_written {A} (step : nat -> raw -> res A) rs xs seq prev off rest :
  chain seq prev rs ->
  Forall2 (fun r x => step (w_seq r) (w_raw r) = Ok x) rs xs ->
  scan step (length rs) seq (JStr prev) off (w_lines rs ++ rest)%list
  = Ok (xs, JStr (last_hash prev rs), off + length (w_lines rs)).
Proof.
  revert xs seq prev off; induction rs as [|r rs IH]; intros xs seq prev off Hc H2.
  - inv H2. cbn. by rewrite Nat.add_0_r.
  - inv H2. destruct Hc as (Hs & Hp & Hw & Hc).
    change (w_lines (r :: rs)) with (w_line r ++ w_lines rs)%list. rewrite <- app_assoc.
    cbn [length]. rewrite scan_w_line by done.
    match goal with H : step (w_seq r) _ = _ |- _ => rewrite Hs in H; rewrite H end.
    cbn [rbind]. erewrite IH by done. cbn [rbind].
    change (last_hash prev (r :: rs)) with (last_hash (w_hash r) rs).
    do 2 f_equal. rewrite length_app. lia.
Qed.

(** Reading a whole committed log: a header line, the records, anything after them. *)
Definition log_bytes (hdr : bytes) (rs : list wrec) (suffix : bytes) : bytes :=
  (hdr ++ newline :: w_lines rs ++ suffix)%list.
Definition committed_size (hdr : bytes) (rs : list wrec) : nat := S (length hdr) + length (w_lines rs).

(** A commit this log's chain goes through. *)
Definition extends (rs : list wrec) (expected : option (nat * string)) : Prop :=
  match expected with
  | None => True
  | Some (c, h) => c <= length rs /\ (0 < c -> last_hash GENESIS (take c rs) = h)
  end.

Lemma prefix_check_written rs seq prev expected :
  chain seq prev rs ->
  (forall c h, expected = Some (c, h) -> seq < c -> c <= seq + length rs ->
     last_hash prev (take (c - seq) rs) = h) ->
  Forall2 (fun r x => prefix_check expected (w_seq r) (w_raw r) = Ok x) rs
          (List.repeat tt (length rs)).
Proof.
  revert seq prev; induction rs as [|r rs IH]; intros seq prev Hc He; simpl; constructor.
  - destruct Hc as (Hs & _). unfold prefix_check. destruct expected as [[c h]|]; [|done].
    rewrite hash_w_raw. destruct (bool_decide (S (w_seq r) = c)) eqn:Hb; [|done].
    apply bool_decide_eq_true in Hb. subst c.
    specialize (He _ h eq_refl). rewrite Hs in He.
    replace (S seq - seq) with 1 in He by lia. simpl in He.
    rewrite <- He by lia. cbn. by rewrite String.eqb_refl.
  - destruct Hc as (_ & _ & _ & Hc). apply (IH _ _ Hc). intros c h E H1 H2.
    specialize (He c h E). replace (c - seq) with (S (c - S seq)) in He by lia. apply He; simpl; lia.
Qed.

Lemma committed_prefix_end_written hdr rs suffix expected :
  no_newline hdr -> chain 0 GENESIS rs -> extends rs expected ->
  committed_prefix_end (log_bytes hdr rs suffix) (length rs) (last_hash GENESIS rs) expected
  = Ok (committed_size hdr rs).
Proof.
  intros Hh Hc He. unfold committed_prefix_end.
  rewrite decide_False by (destruct expected as [[c h]|]; simpl in *; lia).
  unfold log_bytes. rewrite readline_line by done. cbn [negb].
  rewrite (scan_written _ rs (List.repeat tt (length rs))); [|done|].
  - cbn. by rewrite String.eqb_refl.
  - apply (prefix_check_written rs 0 GENESIS); [done|].
    intros c h -> H1 H2. rewrite Nat.sub_0_r. by apply He.
Qed.

(** ** The head file *)
Lemma head_fields key count h :
  loads (write_head key count (JStr h)) =
  Ok (JObj [("count", JInt (Z.of_nat count)); ("head_hash", JStr h);
            ("mac", JStr (head_mac key (head_body (Z.of_nat count) (JStr h))))]).
Proof. unfold write_head. apply loads_line. split; [nodup_keys|done]. Qed.

(** The head a writer left authenticates under the writer's key. *)
Lemma authenticated_write_head key count h required :
  authenticated_head key (Some (write_head key count (JStr h))) required = Ok (Some (count, h)).
Proof.
  unfold authenticated_head. rewrite head_fields. cbn.
  destruct (Z.ltb_spec (Z.of_nat count) 0); [lia|].
  rewrite compare_digest_refl by apply hexlify_ascii. cbn. by rewrite Nat2Z.id.
Qed.

(** An accepted head carries the key's MAC over its own count and hash. *)
Lemma authenticated_head_sound key text required c h :
  authenticated_head key (Some text) required = Ok (Some (c, h)) ->
  exists j, loads text = Ok j /\ py_getitem j "count" = Ok (JInt (Z.of_nat c))
    /\ py_getitem j "head_hash" = Ok (JStr h)
    /\ py_getitem j "mac" = Ok (JStr (head_mac key (head_body (Z.of_nat c) (JStr h)))).
Proof.
  unfold authenticated_head. destruct (reraise_as _ _ _) as [[[cj hj] mj]|] eqn:E; [|done].
  apply reraise_as_ok in E. cbn [rbind]. intros H.
  apply rbind_ok in E as (j & Hj & E). apply rbind_ok in E as (c' & Hc & E).
  apply rbind_ok in E as (h' & Hh & E). apply rbind_ok in E as (m' & Hm & E).
  injection E as -> -> ->. destruct cj, hj, mj; try discriminate.
  destruct (Z.ltb_spec z 0); [discriminate|].
  apply rbind_ok in H as ([|] & Hs & H); [|discriminate]. apply compare_digest_true in Hs as <-.
  injection H as <- <-. exists j. rewrite Z2Nat.id by lia. auto.
Qed.

(** ** Recovery *)
Lemma log_bytes_take hdr rs suffix :
  take (committed_size hdr rs) (log_bytes hdr rs suffix) = log_bytes hdr rs [].
Proof.
  unfold committed_size, log_bytes. rewrite app_nil_r.
  replace (S (length hdr) + length (w_lines rs))
    with (length (hdr ++ newline :: w_lines rs)%list) by (rewrite length_app; simpl; lia).
  rewrite (assoc_L app hdr (newline :: w_lines rs) suffix : (hdr ++ newline :: w_lines rs ++ suffix)%list = _).
  apply take_app_length.
Qed.

Lemma log_bytes_length hdr rs suffix :
  length (log_bytes hdr rs suffix) = committed_size hdr rs + length suffix.
Proof. unfold log_bytes, committed_size. rewrite length_app. simpl. rewrite length_app. lia. Qed.

Definition head_moved (count : nat) (h : string) (expected : option (nat * string)) : bool :=
  match expected with
  | Some (ec, eh) =>
      bool_decide (count < ec) || (bool_decide (count = ec) && negb (String.eqb h eh))
  | None => false
  end.

(** Recovery drops exactly the uncommitted suffix and reports the committed boundary. *)
Lemma recover_written key hdr rs suffix required expected :
  no_newline hdr -> chain 0 GENESIS rs -> extends rs expected ->
  head_moved (length rs) (last_hash GENESIS rs) expected = false ->
  recover_to_authenticated_head key (log_bytes hdr rs suffix)
    (Some (write_head key (length rs) (JStr (last_hash GENESIS rs)))) required expected
  = (Ok (Some (length rs, last_hash GENESIS rs, committed_size hdr rs)), log_bytes hdr rs []).
Proof.
  intros Hh Hc He Hm. unfold recover_to_authenticated_head.
  rewrite authenticated_write_head.
  change (match expected with Some (ec, eh) => bool_decide (length rs < ec)
    || bool_decide (length rs = ec) && negb (String.eqb (last_hash GENESIS rs) eh)
    | None => false end) with (head_moved (length rs) (last_hash GENESIS rs) expected).
  rewrite Hm, committed_prefix_end_written by done. rewrite log_bytes_length.
  destruct suffix as [|c suffix].
  - cbn [length]. rewrite Nat.add_0_r, !decide_False by lia. done.
  - rewrite decide_True by (cbn [length]; lia). rewrite log_bytes_take.
    rewrite decide_False; [done|]. rewrite log_bytes_length. cbn [length]. lia.
Qed.

(** Whatever recovery accepts is a prefix of the log, never shorter than the commit the
    handle had observed, and at that commit unchanged. *)
Lemma recover_ok key log head required expected c h size log' :
  recover_to_authenticated_head key log head required expected
    = (Ok (Some (c, h, size)), log') ->
  authenticated_head key head required = Ok (Some (c, h))
  /\ log' = take size log /\ length log' = size
  /\ committed_prefix_end log c h expected = Ok size
  /\ head_moved c h expected = false.
Proof.
  unfold recover_to_authenticated_head.
  destruct (authenticated_head key head required) as [[[c0 h0]|]|e] eqn:Ea; try discriminate.
  fold (head_moved c0 h0 expected).
  destruct (head_moved c0 h0 expected) eqn:Em; [discriminate|].
  destruct (committed_prefix_end log c0 h0 expected) as [e|] eqn:Ec; [|discriminate].
  destruct (decide (e < length log)).
  - destruct (decide (length (take e log) <> e)); [discriminate|].
    intros [= <- <- <- <-]. repeat split; auto. apply dec_stable; done.
  - destruct (decide (length log < e)); [discriminate|].
    intros [= <- <- <- <-]. assert (e = length log) as -> by lia.
    repeat split; auto. by rewrite firstn_all.
Qed.

(** A recovery that fails leaves the log as it was, or cut to the commit. *)
Lemma recover_log key log head required expected r log' :
  recover_to_authenticated_head key log head required expected = (r, log') ->
  log' = log \/ exists e, log' = take e log.
Proof.
  unfold recover_to_authenticated_head. intros H.
  repeat (match type of H with context [match ?x with _ => _ end] => destruct x end;
          try (injection H as <- <-; eauto)).
Qed.

(** ** Tamper evidence *)

(** The part of a record its hash covers, as the hash sees it. *)
Definition sealed_text (r : raw) : bytes :=
  canonical (record_body (raw_seq r) (raw_prev r) (raw_sealed r)).

Fixpoint raw_chain (prev : string) (rs : list raw) : Prop :=
  match rs with
  | [] => True
  | r :: rs' => raw_prev r = JStr prev /\ raw_chain (hash_of r) rs'
  end.
Definition raw_last (prev : string) (rs : list raw) : string :=
  fold_left (fun _ r => hash_of r) rs prev.

Lemma sealed_text_prev r r' : sealed_text r = sealed_text r' ->
  forall p p', raw_prev r = JStr p -> raw_prev r' = JStr p' -> p = p'.
Proof.
  destruct r as [s1 pr1 e1 x1], r' as [s2 pr2 e2 x2]. unfold sealed_text, canonical, record_body.
  cbn [raw_seq raw_prev raw_sealed]. intros H p p' -> ->. revert H. cbn [sort_keys List.map fst snd].
  cbn [sort_items fold_right]. cbn. intros H. injection H as H.
  unfold quote_str in H. rewrite <- !app_assoc in H. cbn [app] in H.
  repeat (injection H as H; try done).
  apply (f_equal parse_str) in H. rewrite <- !app_assoc in H. cbn [app] in H.
  rewrite !parse_str_quote in H. injection H as H _. by apply enc_inj.
Qed.

Lemma raw_chain_app p rs rs' :
  raw_chain p (rs ++ rs') <-> raw_chain p rs /\ raw_chain (raw_last p rs) rs'.
Proof.
  revert p; induction rs as [|r rs IH]; intros p; simpl; [tauto|].
  rewrite IH. change (raw_last p (r :: rs)) with (raw_last (hash_of r) rs). tauto.
Qed.

Lemma raw_last_snoc p rs r : raw_last p (rs ++ [r]) = hash_of r.
Proof. unfold raw_last. by rewrite fold_left_app. Qed.

(** Two chains of one length with one last hash are the same sealed records, as long as
    SHA-256 tells those records apart. *)
Lemma raw_chain_determined p p' rs rs' :
  raw_chain p rs -> raw_chain p' rs' -> length rs = length rs' ->
  raw_last p rs = raw_last p' rs' ->
  collision_free (List.map sealed_text (rs ++ rs')) ->
  List.map sealed_text rs = List.map sealed_text rs'.
Proof.
  revert rs'; induction rs as [|r rs IH] using rev_ind; intros rs' Hc Hc' Hl Hh Hf.
  - destruct rs'; [done|discriminate].
  - destruct rs' as [|r' rs' _] using rev_ind; [rewrite length_app in Hl; simpl in Hl; lia|].
    rewrite !length_app in Hl. simpl in Hl. rewrite !raw_last_snoc in Hh.
    apply raw_chain_app in Hc as [Hc [Hp _]]. apply raw_chain_app in Hc' as [Hc' [Hp' _]].
    assert (Hs : sealed_text r = sealed_text r').
    { apply Hf; [| |exact Hh]; apply list_elem_of_In, in_map, in_app_iff;
        [left|right]; apply in_app_iff; right; by left. }
    rewrite !List.map_app. cbn [List.map]. rewrite Hs. f_equal.
    apply IH; auto; [lia| by eapply sealed_text_prev |].
    intros m m' Hm Hm'. apply Hf.
    + rewrite !List.map_app, !elem_of_app in *. tauto.
    + rewrite !List.map_app, !elem_of_app in *. tauto.
Qed.

(** An unbroken walk is a chain from where it started. *)
Lemma verify_walk_chain rs prev n c h :
  verify_walk rs prev n = Ok (inr (c, h)) ->
  exists raws, rs = List.map Ok raws /\ raw_chain prev raws
    /\ h = raw_last prev raws /\ c = n + length raws.
Proof.
  revert prev n; induction rs as [|[r|e] rs IH]; simpl; intros prev n H; [|  |discriminate].
  - injection H as <- <-. exists []. simpl. rewrite Nat.add_0_r. auto.
  - destruct (py_eq_str (raw_prev r) prev) eqn:Hp; [|discriminate].
    destruct (py_eq_str (raw_hash r) (hash_of r)) eqn:Hr; [|discriminate]. simpl in H.
    apply IH in H as (raws & -> & Hc & -> & ->). exists (r :: raws).
    apply py_eq_str_true in Hp. simpl. rewrite <- plus_n_Sm. auto.
Qed.

(** ** The lenient walk on written records *)

(** A header line's bytes: printable text that starts an object. *)
Definition header_line (hdr : bytes) : Prop := printable hdr /\ exists m, hdr = "{"%char :: m.

(** Stripping never empties a text that starts with a brace. *)
Lemma first_prefix_brace ps x r :
  Forall (fun p => last p <> Some "{"%char /\ p <> []) ps ->
  first_prefix ps (x ++ ["{"%char]) = Some r -> exists y, r = (y ++ ["{"%char])%list.
Proof.
  induction 1 as [|p ps [Hp Hne] Hps IH]; [done|]. cbn [first_prefix].
  destruct (starts_with p _) as [r'|] eqn:E; [|done]. intros [= ->].
  apply starts_with_Some in E. destruct r as [|c r _] using rev_ind.
  - rewrite app_nil_r in E. subst p. by rewrite last_snoc in Hp.
  - rewrite app_assoc in E. apply app_inj_tail in E as [_ <-]. by exists r.
Qed.

Lemma lstrip_fuel_brace ps fuel x :
  Forall (fun p => last p <> Some "{"%char /\ p <> []) ps ->
  exists y, lstrip_fuel ps fuel (x ++ ["{"%char]) = (y ++ ["{"%char])%list.
Proof.
  intros H. revert x; induction fuel as [|fuel IH]; intros x; cbn [lstrip_fuel]; [eauto|].
  destruct (first_prefix ps _) as [r|] eqn:E; [|eauto].
  apply first_prefix_brace in E as [y ->]; [|done]. apply IH.
Qed.

Lemma strip_brace_nonempty m : strip_bytes ("{"%char :: m) <> [].
Proof.
  assert (Hl : forall n l, lstrip_fuel spaces n ("{"%char :: l) = ("{"%char :: l)) by (intros [|n] l; done).
  unfold strip_bytes, lstrip. rewrite Hl. unfold rstrip. cbn [rev].
  destruct (lstrip_fuel_brace (List.map (@rev ascii) spaces) (length ("{"%char :: m)) (rev m))
    as [y ->]; [|by rewrite rev_app_distr].
  repeat constructor; done.
Qed.

Lemma header_line_no_newline hdr : header_line hdr -> no_newline hdr.
Proof. intros [H _]. by apply printable_no_newline. Qed.

Definition no_return (l : bytes) : Prop := Forall (fun c => code c <> 13%N) l.

Lemma printable_no_return l : printable l -> no_return l.
Proof. intros H. eapply Forall_impl; [exact H|]. intros c Hc; simpl in *; lia. Qed.

Lemma universal_newlines_id l : no_return l -> universal_newlines l = l.
Proof.
  induction l as [|c l IH]; [done|]. intros H. inv H. cbn [universal_newlines].
  destruct (N.eqb_spec (code c) 13); [done|]. f_equal. auto.
Qed.

Lemma strip_braces m : strip_bytes ("{"%char :: m ++ ["}"%char]) = ("{"%char :: m ++ ["}"%char])%list.
Proof.
  assert (Hl : forall n l, lstrip_fuel spaces n ("{"%char :: l) = ("{"%char :: l)) by (intros [|n] l; done).
  assert (Hr : forall n l, lstrip_fuel (List.map (@rev ascii) spaces) n ("}"%char :: l) = ("}"%char :: l))
    by (intros [|n] l; done).
  unfold strip_bytes, lstrip. rewrite Hl. unfold rstrip.
  replace (rev ("{"%char :: m ++ ["}"%char])) with ("}"%char :: rev m ++ ["{"%char])%list.
  - rewrite Hr. cbn [rev]. rewrite rev_app_distr, rev_involutive. done.
  - cbn [rev]. by rewrite rev_app_distr.
Qed.

Lemma dumps_obj_braces st kv : exists m, dumps st (JObj kv) = ("{"%char :: m ++ ["}"%char])%list.
Proof. cbn [dumps]. eexists. reflexivity. Qed.

Lemma strip_obj st kv : strip_bytes (dumps st (JObj kv)) = dumps st (JObj kv).
Proof. destruct (dumps_obj_braces st kv) as [m ->]. apply strip_braces. Qed.

Lemma obj_header_line st kv : wf_json (JObj kv) -> header_line (dumps st (JObj kv)).
Proof.
  intros H. split; [by apply dumps_printable|]. destruct (dumps_obj_braces st kv) as [m ->]. eauto.
Qed.

Lemma chain_sealed seq prev rs : chain seq prev rs -> Forall (fun r => wf_json (w_sealed r)) rs.
Proof.
  revert seq prev; induction rs as [|r rs IH]; intros seq prev; [constructor|].
  intros (_ & _ & Hw & Hc). constructor; eauto.
Qed.

Lemma w_lines_no_return rs : Forall (fun r => wf_json (w_sealed r)) rs -> no_return (w_lines rs).
Proof.
  induction 1 as [|r rs Hr Hrs IH]; [constructor|].
  change (w_lines (r :: rs)) with (w_line r ++ w_lines rs)%list. apply Forall_app. split; [|done].
  apply Forall_app. split; [|by repeat constructor].
  by apply printable_no_return, dumps_printable, w_json_wf.
Qed.

Lemma text_lines_line a rest fuel : no_newline a ->
  text_lines (S fuel) (a ++ newline :: rest) = (a, true) :: text_lines fuel rest.
Proof.
  intros H. destruct (a ++ newline :: rest)%list as [|c l] eqn:E; [by destruct a|].
  cbn [text_lines]. rewrite <- E, readline_line by done. done.
Qed.

Lemma text_lines_written rs tail fuel : Forall (fun r => wf_json (w_sealed r)) rs ->
  length rs <= fuel ->
  text_lines fuel (w_lines rs ++ tail)
  = (List.map (fun r => (dumps Spaced (w_json r), true)) rs
      ++ text_lines (fuel - length rs) tail)%list.
Proof.
  intros H. revert fuel; induction H as [|r rs Hr Hrs IH]; intros fuel Hl; simpl in Hl.
  - cbn. by rewrite Nat.sub_0_r.
  - change (w_lines (r :: rs)) with (w_line r ++ w_lines rs)%list. unfold w_line.
    destruct fuel as [|fuel]; [lia|]. rewrite <- !app_assoc. cbn [app].
    rewrite text_lines_line by (by apply printable_no_newline, dumps_printable, w_json_wf).
    cbn [List.map app length Nat.sub]. by rewrite IH by lia.
Qed.

Definition take_limit {A} (limit : option nat) (l : list A) : list A :=
  match limit with Some k => take k l | None => l end.

Lemma w_json_nonempty r : dumps Spaced (w_json r) <> [].
Proof. unfold w_json. edestruct (dumps_obj_braces Spaced) as [m ->]. done. Qed.

Lemma strip_w_json r : strip_bytes (dumps Spaced (w_json r)) = dumps Spaced (w_json r).
Proof. apply strip_obj. Qed.

Lemma iter_lines_stop lines : iter_lines lines false (Some 0) = [].
Proof. induction lines as [|[a c] lines IH]; [done|]. cbn. by destruct (decide _). Qed.

Lemma iter_lines_written rs tail limit : Forall (fun r => wf_json (w_sealed r)) rs ->
  iter_lines (List.map (fun r => (dumps Spaced (w_json r), true)) rs ++ tail)%list false limit
  = (List.map (fun r => Ok (w_raw r)) (take_limit limit rs)
     ++ iter_lines tail false ((fun k => k - length rs) <$> limit))%list.
Proof.
  intros H. revert limit; induction H as [|r rs Hr Hrs IH]; intros limit.
  - destruct limit as [k|]; cbn; [|done]. by rewrite firstn_nil, Nat.sub_0_r.
  - destruct limit as [[|k]|]; [rewrite iter_lines_stop; symmetry; apply iter_lines_stop | |];
      cbn [List.map app iter_lines]; rewrite strip_w_json;
      (rewrite decide_False by apply w_json_nonempty);
      cbn [negb]; (rewrite loads_dumps by (by apply w_json_wf)); cbn [rbind];
      rewrite parse_w_json.
    + change (Nat.pred <$> Some (S k)) with (Some k). by rewrite IH.
    + change (Nat.pred <$> None) with (@None nat). by rewrite IH.
Qed.

(** What [_iter_raw] yields on a log of written records, whatever incomplete bytes follow. *)
Lemma iter_raw_written hdr rs suffix limit :
  header_line hdr -> Forall (fun r => wf_json (w_sealed r)) rs ->
  no_return suffix -> no_newline suffix ->
  iter_raw (Some (log_bytes hdr rs suffix)) limit
  = (List.map (fun r => Ok (w_raw r)) (take_limit limit rs)
     ++ iter_lines (match suffix with [] => [] | _ => [(suffix, false)] end) false
          ((fun k => k - length rs) <$> limit))%list.
Proof.
  intros [Hp [m Hm]] Hr Hs Hn. unfold iter_raw. rewrite universal_newlines_id.
  2:{ apply Forall_app. split; [by apply printable_no_return|]. constructor; [done|].
      apply Forall_app. split; [by apply w_lines_no_return|done]. }
  rewrite log_bytes_length. unfold log_bytes, committed_size.
  cbn [Nat.add]. rewrite text_lines_line by (by apply printable_no_newline).
  cbn [iter_lines]. rewrite decide_False by (rewrite Hm; apply strip_brace_nonempty).
  assert (Hlen : length rs <= length (w_lines rs)).
  { clear. induction rs as [|r rs IH]; [done|].
    change (w_lines (r :: rs)) with (w_line r ++ w_lines rs)%list.
    unfold w_line. rewrite !length_app. simpl. lia. }
  rewrite text_lines_written by (done || lia).
  rewrite iter_lines_written by done. f_equal. f_equal.
  destruct suffix as [|c suffix]; [by destruct (_ - _)|].
  cbn [length]. replace (length hdr + length (w_lines rs) + S (length suffix) - length rs)
    with (S (length hdr + length (w_lines rs) + length suffix - length rs)) by lia.
  cbn [text_lines]. by rewrite readline_eof by done.
Qed.

Lemma iter_raw_committed hdr rs limit :
  header_line hdr -> Forall (fun r => wf_json (w_sealed r)) rs ->
  iter_raw (Some (log_bytes hdr rs [])) limit = List.map (fun r => Ok (w_raw r)) (take_limit limit rs).
Proof.
  intros Hh Hr. rewrite iter_raw_written by (done || constructor). cbn. apply app_nil_r.
Qed.

(** ** The quick look at the end of the file *)

(** Text that starts an object is one, or is not JSON. *)
Lemma loads_brace m : (exists kv, loads ("{"%char :: m) = Ok (JObj kv))
                      \/ loads ("{"%char :: m) = Raise JSONDecodeError.
Proof.
  unfold loads. rewrite skip_ws_non by done.
  destruct (parse_value (S (length ("{"%char :: m))) ("{"%char :: m)) as [[v r]|] eqn:E; [|auto].
  destruct (skip_ws r); [|auto]. left. revert E. cbn [parse_value].
  change (code "{"%char) with 123%N. cbn [N.eqb Pos.eqb].
  destruct (skip_ws m) as [|c r']; [discriminate|].
  destruct (_ =? 125)%N; [intros [= <- _]; eauto|].
  destruct (parse_members _ _) as [[kvs r'']|]; [|discriminate]. intros [= <- _]. eauto.
Qed.

Lemma removelast_no_newline b x : no_newline b -> no_newline (removelast (b ++ [x])).
Proof. by rewrite removelast_last. Qed.

(** A last line is found right after the newline before it. *)
Lemma last_line_start_spec a b : b <> [] -> no_newline (removelast b) ->
  last_line_start (a ++ newline :: b) = S (length a).
Proof.
  intros Hb Hn. unfold last_line_start.
  replace (a ++ newline :: b)%list with ((a ++ [newline]) ++ b)%list by (by rewrite <- app_assoc).
  rewrite removelast_app by done. rewrite !rev_app_distr. cbn [rev app].
  rewrite span_app; [| |done].
  - cbn [fst]. rewrite length_app, length_rev. destruct b as [|x b _] using rev_ind; [done|].
    rewrite removelast_last, !length_app. cbn [length]. lia.
  - apply Forall_rev. eapply Forall_impl; [exact Hn|]. intros c Hc; simpl in *. by rewrite Hc.
Qed.

(** A log whose last line starts an object: the look concludes something. *)
Lemma fast_total a b count h : 0 < count -> no_newline (removelast ("{"%char :: b)) ->
  exists f, fast_committed_boundary (a ++ newline :: "{"%char :: b) count h = Ok f.
Proof.
  intros Hc Hn. unfold fast_committed_boundary. rewrite decide_False by lia.
  rewrite last_line_start_spec by done.
  replace (a ++ newline :: "{"%char :: b)%list with ((a ++ [newline]) ++ "{"%char :: b)%list
    by (by rewrite <- app_assoc).
  replace (S (length a)) with (length (a ++ [newline])) by (rewrite length_app; cbn; lia).
  rewrite drop_app_length.
  assert (Hr : exists m c r, readline ("{"%char :: b) = ("{"%char :: m, c, r)).
  { unfold readline. cbn [span negb is_newline]. change (is_newline "{"%char) with false. cbn [negb].
    destruct (span _ b) as [x y]. destruct y; eauto. }
  destruct Hr as (m & c & r & ->).
  set (text := if c then _ else _).
  assert (Ht : exists m', text = "{"%char :: m') by (destruct c; eexists; reflexivity).
  destruct Ht as [m' ->].
  destruct (loads_brace m') as [[kv ->]| ->]; [|eauto]. cbn [rbind py_get py_get_default].
  destruct (dict_get kv "seq") as [sq|] eqn:E1; cbn [rbind]; [|eauto].
  destruct (negb (py_eq_int sq _)); cbn [rbind]; [eauto|].
  destruct (dict_get kv "record_hash") as [rh|]; cbn [rbind]; [|eauto].
  destruct (negb (py_eq_str rh h)); [eauto|]. cbn [py_getitem]. rewrite E1. cbn [rbind].
  destruct (dict_get kv "prev_hash"); cbn [rbind]; [|eauto].
  destruct (dict_get kv "sealed"); cbn [rbind]; eauto.
Qed.

Lemma fast_total_empty log h : exists f, fast_committed_boundary log 0 h = Ok f.
Proof. unfold fast_committed_boundary. rewrite decide_True by done.
  destruct (readline log) as [[l c] r]. eauto. Qed.

Lemma w_line_brace r : exists b, w_line r = "{"%char :: b.
Proof. unfold w_line, w_json. edestruct (dumps_obj_braces Spaced) as [m ->]. cbn. eauto. Qed.

Lemma w_line_last r : exists d, w_line r = (d ++ [newline])%list.
Proof. unfold w_line. eauto. Qed.

(** Where a written log may have been cut inside its last batch: the last line starts an
    object whatever the cut. *)
Lemma torn_last_line hdr rs added k :
  Forall (fun r => wf_json (w_sealed r)) (rs ++ added) -> rs <> [] ->
  exists a b, log_bytes hdr rs (take k (w_lines added)) = (a ++ newline :: "{"%char :: b)%list
    /\ no_newline (removelast ("{"%char :: b)).
Proof.
  revert k rs; induction added as [|r added IH]; intros k rs Hw Hne.
  - destruct rs as [|r0 rs _] using rev_ind; [done|].
    rewrite app_nil_r in Hw. apply Forall_app in Hw as [_ Hw]. inv Hw.
    rewrite firstn_nil. unfold log_bytes. rewrite w_lines_app, app_nil_r.
    cbn [w_lines List.map List.concat]. rewrite app_nil_r.
    destruct (w_line_brace r0) as [b Hb].
    assert (Hn : no_newline (removelast ("{"%char :: b))).
    { rewrite <- Hb. unfold w_line. apply removelast_no_newline.
      by apply printable_no_newline, dumps_printable, w_json_wf. }
    destruct rs as [|r1 rs _] using rev_ind.
    + exists hdr, b. by rewrite Hb.
    + destruct (w_line_last r1) as [d Hd].
      exists (hdr ++ newline :: w_lines rs ++ d)%list, b. split; [|done].
      rewrite w_lines_app. cbn [w_lines List.map List.concat].
      rewrite app_nil_r, Hd, Hb, <- !app_assoc. cbn [app]. by rewrite <- !app_assoc.
  - change (w_lines (r :: added)) with (w_line r ++ w_lines added)%list.
    destruct (decide (k = 0)) as [->|Hk].
    { destruct (IH 0 rs) as (a & b & E & Hn); [|done|by exists a, b].
      apply Forall_app in Hw as [Hw1 Hw2]. inv Hw2. by apply Forall_app. }
    destruct (decide (k <= length (w_line r))) as [Hle|Hgt].
    + rewrite take_app_le by done. destruct (w_line_brace r) as [b Hb].
      assert (Hw' : wf_json (w_sealed r)) by (apply Forall_app in Hw as [_ Hw]; by inv Hw).
      destruct k as [|k]; [done|]. rewrite Hb. cbn [take].
      destruct rs as [|r1 rs _] using rev_ind; [done|]. destruct (w_line_last r1) as [d Hd].
      exists (hdr ++ newline :: w_lines rs ++ d)%list, (take k b). split.
      * unfold log_bytes. rewrite w_lines_app. cbn [w_lines List.map List.concat].
        rewrite app_nil_r, Hd, <- !app_assoc. cbn [app]. by rewrite <- !app_assoc.
      * change ("{"%char :: take k b) with (take (S k) ("{"%char :: b)). rewrite <- Hb.
        rewrite removelast_firstn_len. unfold w_line in Hle |- *.
        rewrite length_app in Hle. cbn [length] in Hle.
        rewrite take_take, take_app_le by (rewrite length_take, length_app; cbn [length]; lia).
        apply Forall_take. by apply printable_no_newline, dumps_printable, w_json_wf.
    + rewrite take_app_ge by lia.
      destruct (IH (k - length (w_line r)) (rs ++ [r])%list) as (a & b & E & Hn).
      * by rewrite <- app_assoc.
      * by destruct rs.
      * exists a, b. split; [|done]. rewrite <- E. unfold log_bytes. rewrite w_lines_app.
        cbn [w_lines List.map List.concat]. by rewrite app_nil_r, <- !app_assoc.
Qed.
