(* ===== verification/EventStore.v ===== *)
(** * EventStore: the handle of product/viva/ledger/store.py and its operations

    The state is the disk (the log's bytes and the head file's) together with one handle's
    fields.  Every method runs under the writer lock, so it is one step of the state; a
    method that raises keeps the effects it had.  The clock, the nonces and the identities
    a method draws come from an [oracle]; where a durable write can fail, a [fault] says
    how far it got; [me] is the calling thread. *)
From Stdlib Require Import ZArith NArith Ascii String Lia.
From stdpp Require Import base list numbers strings.
From S2P Require Import Prelude Text Json Hashing Crypto Events StoreFormat.
#[local] Open Scope string_scope.

(** ** Values that cross the boundary *)

(** [_freeze] and [_thaw]: mapping proxies and tuples for dictionaries and lists. *)
Inductive frozen :=
  | FScalar (v : json)
  | FTuple (l : list frozen)
  | FMap (kv : list (string * frozen)).

Fixpoint freeze (v : json) : frozen :=
  match v with
  | JObj kv => FMap (List.map (fun p => (fst p, freeze (snd p))) kv)
  | JArr l => FTuple (List.map freeze l)
  | v => FScalar v
  end.
Fixpoint thaw (v : frozen) : json :=
  match v with
  | FMap kv => JObj (List.map (fun p => (fst p, thaw (snd p))) kv)
  | FTuple l => JArr (List.map thaw l)
  | FScalar v => v
  end.

Record ImmutableEvent := mkImmutable {
  ie_type : json; ie_id : json; ie_occurred_at : json; ie_provenance : frozen; ie_body : frozen }.

Definition ImmutableEvent_from_event (e : Event) : ImmutableEvent :=
  mkImmutable (event_type e) (event_id e) (occurred_at e)
              (freeze (Provenance_to_dict (provenance e))) (freeze (body e)).
Definition ImmutableEvent_to_dict (e : ImmutableEvent) : json :=
  JObj [("event_type", ie_type e); ("event_id", ie_id e); ("occurred_at", ie_occurred_at e);
        ("provenance", thaw (ie_provenance e)); ("body", thaw (ie_body e))].

(** [_immutable_event]. *)
Definition immutable_event (fresh : string) (payload : json) : res ImmutableEvent :=
  let? data := py_get payload "event" in
  match data with
  | JObj kv =>
      match dict_get kv "event_id" with
      | Some (JStr i) =>
          if String.eqb i EmptyString then Raise CryptoError
          else let? e := Event_from_dict fresh data in Ok (ImmutableEvent_from_event e)
      | _ => Raise CryptoError
      end
  | _ => Raise CryptoError
  end.

Record CommittedIdentity := mkIdentity {
  id_count : Z; id_head_hash : json; id_end_offset : option Z; id_cursor_mac : option string }.
Record CommittedEvent := mkCommitted {
  ce_sequence : json; ce_record_hash : json; ce_event : ImmutableEvent }.
Record CommittedSnapshot := mkSnapshot {
  cs_identity : CommittedIdentity; cs_events : list CommittedEvent }.

(** [_cached_identity]'s witness. *)
Definition witness : Type := option nat * option json * nat.

(** ** State *)
Record handle := mkHandle {
  h_key : bytes;
  h_kdf : KdfParams;
  h_write_failed : bool;
  h_decrypted : list (json * (json * json));
  h_decision_owner : option nat;
  h_observer_owner : option nat;
  h_commit_observer : option nat;
  h_head_required : bool;
  h_committed_head : option (nat * string);
  h_last_hash : json;
  h_count : nat;
  h_size : nat
}.
Record store := mkStore { st_log : option bytes; st_head : option bytes; st_handle : handle }.

(** What a method draws from outside, by the position of the event it is for. *)
Record oracle := mkOracle {
  o_recorded_at : nat -> string;  (** [time.strftime(...)] *)
  o_nonce : nat -> bytes;         (** [os.urandom(NONCE_LEN)], per record *)
  o_header_nonce : bytes;         (** the same, for a header's check token *)
  o_salt : bytes;                 (** [os.urandom(SALT_LEN)] *)
  o_uuid : nat -> string          (** [uuid.uuid4().hex] *)
}.

(** How far the durable writes of an append get before one of them raises. *)
Inductive fault :=
  | NoFault
  | SealHeadFails (replaced : bool)   (** the legacy adoption's [_seal_head] *)
  | UpgradeFails (written : nat)      (** [_upgrade_header_in_place], after these bytes *)
  | BatchFails (written : nat)        (** the batch write, flush, fsync or size check *)
  | HeadFails (replaced : bool).      (** [write_head], before or after its rename *)

Definition with_handle (f : handle -> handle) (s : store) : store :=
  mkStore (st_log s) (st_head s) (f (st_handle s)).
Definition set_log (l : bytes) (s : store) : store := mkStore (Some l) (st_head s) (st_handle s).
Definition set_head (h : bytes) (s : store) : store := mkStore (st_log s) (Some h) (st_handle s).
Definition set_write_failed (b : bool) (h : handle) : handle :=
  mkHandle (h_key h) (h_kdf h) b (h_decrypted h) (h_decision_owner h) (h_observer_owner h)
    (h_commit_observer h) (h_head_required h) (h_committed_head h) (h_last_hash h) (h_count h) (h_size h).
Definition set_decrypted (c : list (json * (json * json))) (h : handle) : handle :=
  mkHandle (h_key h) (h_kdf h) (h_write_failed h) c (h_decision_owner h) (h_observer_owner h)
    (h_commit_observer h) (h_head_required h) (h_committed_head h) (h_last_hash h) (h_count h) (h_size h).
Definition set_decision_owner (o : option nat) (h : handle) : handle :=
  mkHandle (h_key h) (h_kdf h) (h_write_failed h) (h_decrypted h) o (h_observer_owner h)
    (h_commit_observer h) (h_head_required h) (h_committed_head h) (h_last_hash h) (h_count h) (h_size h).
Definition set_observer_owner (o : option nat) (h : handle) : handle :=
  mkHandle (h_key h) (h_kdf h) (h_write_failed h) (h_decrypted h) (h_decision_owner h) o
    (h_commit_observer h) (h_head_required h) (h_committed_head h) (h_last_hash h) (h_count h) (h_size h).
Definition set_commit_observer (o : option nat) (h : handle) : handle :=
  mkHandle (h_key h) (h_kdf h) (h_write_failed h) (h_decrypted h) (h_decision_owner h)
    (h_observer_owner h) o (h_head_required h) (h_committed_head h) (h_last_hash h) (h_count h) (h_size h).
Definition set_head_required (b : bool) (h : handle) : handle :=
  mkHandle (h_key h) (h_kdf h) (h_write_failed h) (h_decrypted h) (h_decision_owner h)
    (h_observer_owner h) (h_commit_observer h) b (h_committed_head h) (h_last_hash h) (h_count h) (h_size h).
Definition set_committed_head (c : option (nat * string)) (h : handle) : handle :=
  mkHandle (h_key h) (h_kdf h) (h_write_failed h) (h_decrypted h) (h_decision_owner h)
    (h_observer_owner h) (h_commit_observer h) (h_head_required h) c (h_last_hash h) (h_count h) (h_size h).
Definition set_tail (count : nat) (last : json) (size : nat) (h : handle) : handle :=
  mkHandle (h_key h) (h_kdf h) (h_write_failed h) (h_decrypted h) (h_decision_owner h)
    (h_observer_owner h) (h_commit_observer h) (h_head_required h) (h_committed_head h) last count size.

Definition getting {A} (f : store -> A) : M store A := fun s => (Ok (f s), s).
Definition the_handle : M store handle := getting st_handle.
Definition the_log (s : store) : bytes := default [] (st_log s).
Definition update (f : handle -> handle) : M store unit := mmodify (with_handle f).
(** [except Exception: self._write_failed = True; raise]. *)
Definition marking_failure {A} (m : M store A) : M store A :=
  on_exception m (with_handle (set_write_failed true)).
(** [self.path.open("a")] and [lock_writer]: a missing log comes into being empty. *)
Definition locked {A} (m : M store A) : M store A :=
  run! mmodify (fun s => set_log (the_log s) s); m.

(** [f"{seq}:{prev}"] for scalars; [str] of a container is not needed, since the replay
    cache rejects one as a key first. *)
Definition py_str (v : json) : bytes :=
  match v with
  | JStr s => enc s
  | JInt z => Z_text z
  | JBool true => enc "True"
  | JBool false => enc "False"
  | JNull => enc "None"
  | JFloat t => enc t
  | v => dumps Spaced v
  end.
Definition record_aad (seq prev : json) : bytes := (py_str seq ++ enc ":" ++ py_str prev)%list.

(** Dictionary keys: a container is not hashable, [True] is the key [1]. *)
Definition cache_key (v : json) : res json :=
  match v with
  | JArr _ | JObj _ => Raise TypeError
  | JBool b => Ok (JInt (if b then 1 else 0))
  | v => Ok v
  end.
Fixpoint cache_get (c : list (json * (json * json))) (k : json) : option (json * json) :=
  match c with
  | [] => None
  | (k', v) :: c' => if decide (k' = k) then Some v else cache_get c' k
  end.

(** A decision's result: an [Event], or anything else a callback may return. *)
Inductive item := IEvent (e : Event) | INotEvent.
Definition events_of (l : list item) : res (list Event) :=
  rmap (fun i => match i with IEvent e => Ok e | INotEvent => Raise TypeError end) l.

(** [finally]. *)
Definition finally {S A} (m : M S A) (f : S -> S) : M S A :=
  fun s => let '(r, s') := m s in (r, f s').

Definition cached_identity (h : handle) : witness :=
  match h_committed_head h with
  | None => (None, None, h_size h)
  | Some (c, hash) => (Some c, Some (JStr hash), h_size h)
  end.

(** [header = source.readline()] with the newline it was read with. *)
Definition header_line_of (log : bytes) : bytes :=
  let '(line, complete, _) := readline log in
  if complete then (line ++ [newline])%list else line.

(** The count and last record hash of a log without an authenticated boundary. *)
Fixpoint legacy_tail (rs : list (res raw)) (count : nat) (last : json) : res (nat * json) :=
  match rs with
  | [] => Ok (count, last)
  | Ok r :: rs' => legacy_tail rs' (S count) (raw_hash r)
  | Raise e :: _ => Raise e
  end.

(** The hash a replayed tail ends with; a replay accepts nothing but a [str] there. *)
Definition is_str (v : json) : bool := match v with JStr _ => true | _ => false end.
Definition as_str (v : json) : string := match v with JStr s => s | _ => EmptyString end.

Section operations.
Context `{lib : CryptoLib} (me : nat) (env : oracle).

(** ** Guards *)
Definition refuse_observer_reentry : M store unit :=
  do! h <- the_handle;
  if decide (h_observer_owner h = Some me) then mraise CryptoError else mret tt.
Definition refuse_decision_reentry : M store unit :=
  run! refuse_observer_reentry;
  do! h <- the_handle;
  if decide (h_decision_owner h = Some me) then mraise CryptoError else mret tt.
(** The two guards every read, and [append_atomically], opens with. *)
Definition usable : M store unit :=
  run! refuse_decision_reentry;
  do! h <- the_handle;
  if h_write_failed h then mraise CryptoError else mret tt.

(** ** The commit boundary *)
Definition authenticate_current_header (s : store) : res bool :=
  let h := st_handle s in
  let? header :=
    reraise_as [JSONDecodeError; KeyError; TypeError; ValueError] CryptoError
      (let? header := loads (header_line_of (the_log s)) in
       let? _ := verify_vault_header header (h_key h) in
       let? k := py_getitem header "kdf" in
       let? kdf := KdfParams_from_dict k in
       if decide (kdf <> h_kdf h) then Raise CryptoError else Ok header) in
  header_requires_head header.

Definition authenticated_mode : M store bool :=
  do! s <- mget;
  do! required <- mlift (authenticate_current_header s);
  if h_head_required (st_handle s) && negb required then mraise CryptoError
  else mret required.

Definition reread_tail : M store unit :=
  do! required <- authenticated_mode;
  run! mwhen required (update (set_head_required true));
  do! s <- mget;
  let h := st_handle s in
  let '(r, log') :=
    recover_to_authenticated_head (h_key h) (the_log s) (st_head s)
      (required || h_head_required h || bool_decide (is_Some (h_committed_head h)))
      (h_committed_head h) in
  run! mmodify (set_log log');
  do! recovered <- mlift r;
  match recovered with
  | None =>
      do! (count, last) <- mlift (legacy_tail (iter_raw (Some (the_log s)) None) 0 (JStr GENESIS));
      update (set_tail count last (length (the_log s)))
  | Some (count, last, size) =>
      run! update (set_committed_head (Some (count, last)));
      update (set_tail count (JStr last) size)
  end.

Definition seal_head : M store unit :=
  do! h <- the_handle;
  mmodify (set_head (write_head (h_key h) (h_count h) (h_last_hash h))).

(** ** Replay *)
Definition open_record (key : bytes) (r : raw) : res json :=
  let? text := open_sealed key (raw_sealed r) (record_aad (raw_seq r) (raw_prev r)) in
  loads text.

(** The body of [_events_unlocked] on the records the log yields, the cache its state. *)
Fixpoint replay (key : bytes) (i : nat) (rs : list (res raw)) (prev : json)
  : M (list (json * (json * json))) (list Event) :=
  match rs with
  | [] => mret []
  | Raise e :: _ => mraise e
  | Ok r :: rs' =>
      if negb (bool_decide (raw_prev r = prev)) then mraise CryptoError
      else if negb (py_eq_str (raw_hash r) (hash_of r)) then mraise CryptoError
      else
        do! k <- mlift (cache_key (raw_seq r));
        do! c <- mget;
        let decrypt :=
          do! event <- mlift (let? payload := open_record key r in py_getitem payload "event");
          run! mmodify (cons (k, (raw_hash r, event)));
          mret event in
        do! event <- match cache_get c k with
                     | Some (rh, event) => if decide (rh = raw_hash r) then mret event else decrypt
                     | None => decrypt
                     end;
        do! e <- mlift (Event_from_dict (o_uuid env i) event);
        do! es <- replay key (S i) rs' (raw_hash r);
        mret (e :: es)
  end.

Definition events_unlocked : M store (list Event) :=
  do! s <- mget;
  let h := st_handle s in
  if h_write_failed h then mraise CryptoError
  else
    fun s => let '(r, c) := replay (h_key h) 0 (iter_raw (st_log s) (Some (h_count h)))
                              (JStr GENESIS) (h_decrypted h) in
             (r, with_handle (set_decrypted c) s).

(** ** append_atomically *)
Definition event_payload (i seq : nat) (e : Event) : json :=
  JObj [("seq", JInt (Z.of_nat seq)); ("recorded_at", JStr (o_recorded_at env i));
        ("event", Event_to_dict e)].

(** The loop that builds the batch: the records, their lines, the candidate tail. *)
Fixpoint prepare (key : bytes) (i seq : nat) (prev : json) (events : list Event)
  : res (list json * bytes * nat * json) :=
  match events with
  | [] => Ok ([], [], seq, prev)
  | e :: events' =>
      let? sealed := seal key (o_nonce env i) (canonical (event_payload i seq e))
                       (record_aad (JInt (Z.of_nat seq)) prev) in
      let rec_hash := JStr (record_hash (JInt (Z.of_nat seq)) prev sealed) in
      let record := JObj [("seq", JInt (Z.of_nat seq)); ("prev_hash", prev);
                          ("sealed", sealed); ("record_hash", rec_hash)] in
      let? (records, lines, count, last) := prepare key (S i) (S seq) rec_hash events' in
      Ok (record :: records, (dumps Spaced record ++ newline :: lines)%list, count, last)
  end.

(** The first nonempty append to a legacy log establishes its boundary. *)
Definition adopt_head (ft : fault) : M store unit :=
  do! h <- the_handle;
  if h_head_required h then mret tt
  else
    run! match ft with
         | SealHeadFails true => run! seal_head; mraise OSError
         | SealHeadFails false => mraise OSError
         | _ => seal_head
         end;
    run! marking_failure
           (do! s <- mget;
            do! upgraded <- mlift (upgrade_header_in_place (the_log s) (h_key h) (o_header_nonce env));
            match ft with
            | UpgradeFails k =>
                run! mmodify (set_log (take k upgraded ++ drop k (the_log s)));
                mraise OSError
            | _ => mmodify (set_log upgraded)
            end);
    run! update (set_head_required true);
    run! update (set_committed_head (Some (h_count h, as_str (h_last_hash h))));
    do! s <- mget;
    update (set_tail (h_count h) (h_last_hash h) (length (the_log s))).

(** The durable writes of a prepared batch; the size read after them. *)
Definition write_batch (ft : fault) (content : bytes) (count : nat) (last : json) : M store nat :=
  do! s <- mget;
  let h := st_handle s in
  match ft with
  | BatchFails k =>
      run! mmodify (set_log (the_log s ++ take k content)); mraise OSError
  | _ =>
      run! mmodify (set_log (the_log s ++ content));
      do! s1 <- mget;
      if decide (length (the_log s1) <> h_size h + length content) then mraise OSError
      else
        let head := write_head (h_key h) count last in
        match ft with
        | HeadFails false => mraise OSError
        | HeadFails true => run! mmodify (set_head head); mraise OSError
        | _ => run! mmodify (set_head head); getting (fun s => length (the_log s))
        end
  end.

(** Once writing starts a failure is ambiguous: the tail is read again before the handle
    may be used, and the failure is re-raised. *)
Definition rereading {A} (m : M store A) : M store A :=
  fun s => match m s with
           | (Ok a, s') => (Ok a, s')
           | (Raise e, s') =>
               match reread_tail s' with
               | (Ok _, s2) => (Raise e, with_handle (set_write_failed false) s2)
               | (Raise _, s2) => (Raise e, with_handle (set_write_failed true) s2)
               end
           end.

(** The owner's callback after a commit: told the witness, never able to fail the append. *)
Definition notify_commit (observe : nat -> witness -> M store unit) : M store unit :=
  do! h <- the_handle;
  match h_commit_observer h with
  | None => mret tt
  | Some o =>
      run! update (set_observer_owner (Some me));
      fun s => let '(_, s') := observe o (cached_identity (st_handle s)) s in
               (Ok tt, with_handle (set_observer_owner None) s')
  end.

Definition run_decision (decide_events : list Event -> M store (list item)) (current : list Event)
  : M store (list Event) :=
  run! update (set_decision_owner (Some me));
  do! items <- finally (decide_events current) (with_handle (set_decision_owner None));
  mlift (events_of items).

Definition append_atomically (ft : fault) (decide_events : list Event -> M store (list item))
    (observe : nat -> witness -> M store unit) : M store (list json) :=
  run! usable;
  do! records <- locked
    (run! marking_failure reread_tail;
     do! current <- events_unlocked;
     do! events <- run_decision decide_events current;
     match events with
     | [] => mret []
     | _ :: _ =>
         run! adopt_head ft;
         do! h <- the_handle;
         do! (records, content, count, last) <-
           mlift (prepare (h_key h) 0 (h_count h) (h_last_hash h) events);
         do! size <- rereading (write_batch ft content count last);
         run! update (set_tail count last size);
         run! update (set_committed_head (Some (count, as_str last)));
         mret records
     end);
  run! mwhen (negb (bool_decide (records = []))) (notify_commit observe);
  mret records.

(** [append(event)]: a decision that ignores the stream; its record is the first. *)
Definition append (ft : fault) (e : Event) (observe : nat -> witness -> M store unit) : M store json :=
  do! records <- append_atomically ft (fun _ => mret [IEvent e]) observe;
  mlift (res_of_option KeyError (hd_error records)).

(** ** Reads *)
Definition snapshot_events_with_identity : M store (list Event * witness) :=
  run! usable;
  locked
    (run! marking_failure reread_tail;
     do! events <- events_unlocked;
     do! h <- the_handle;
     mret (events, cached_identity h)).
Definition snapshot_events : M store (list Event) :=
  run! refuse_decision_reentry;
  do! (events, _) <- snapshot_events_with_identity;
  mret events.
(** [events()]: an iterator over the snapshot. *)
Definition events : M store (list Event) :=
  run! refuse_decision_reentry; snapshot_events.

Definition identity_for (key : bytes) (count : nat) (head_hash : json) (end_offset : nat)
  : CommittedIdentity :=
  mkIdentity (Z.of_nat count) head_hash (Some (Z.of_nat end_offset))
    (Some (cursor_mac key (Z.of_nat count) head_hash (Z.of_nat end_offset))).
Definition committed_identity (h : handle) (end_offset : nat) : CommittedIdentity :=
  identity_for (h_key h) (h_count h) (h_last_hash h) end_offset.

(** One record of a committed read, decrypted. *)
Definition committed_event (key : bytes) (seq : nat) (r : raw) : res CommittedEvent :=
  let? payload := open_record key r in
  let? e := immutable_event (o_uuid env seq) payload in
  Ok (mkCommitted (raw_seq r) (raw_hash r) e).

(** The loop of [_committed_entries_unlocked]. *)
Fixpoint committed_entries (key : bytes) (start : Z) (seq : nat) (rs : list raw) (previous : json)
  : res (list CommittedEvent) :=
  match rs with
  | [] => Ok []
  | r :: rs' =>
      if negb (py_eq_int (raw_seq r) (Z.of_nat seq) && bool_decide (raw_prev r = previous))
      then Raise CryptoError
      else if negb (py_eq_str (raw_hash r) (hash_of r)) then Raise CryptoError
      else
        let? payload := open_record key r in
        if (start <=? Z.of_nat seq)%Z then
          let? e := immutable_event (o_uuid env seq) payload in
          let? es := committed_entries key start (S seq) rs' (raw_hash r) in
          Ok (mkCommitted (raw_seq r) (raw_hash r) e :: es)
        else committed_entries key start (S seq) rs' (raw_hash r)
  end.

(** The hash a complete scan saw at the caller's prefix. *)
Definition observed_prefix (rs : list raw) (prefix_count : Z) : json :=
  if (prefix_count <=? 0)%Z then JStr GENESIS
  else match rs !! (Z.to_nat prefix_count - 1) with
       | Some r => raw_hash r
       | None => JStr GENESIS
       end.

Definition committed_entries_unlocked (start : Z) (expected_prefix : option CommittedIdentity)
    (s : store) : res (list CommittedEvent * nat) :=
  let h := st_handle s in
  let? records := rmap (fun r => r) (iter_raw (st_log s) (Some (h_count h))) in
  if decide (length records <> h_count h) then Raise CryptoError
  else
    let? entries := committed_entries (h_key h) start 0 records (JStr GENESIS) in
    let? _ := match expected_prefix with
              | None => Ok tt
              | Some prefix =>
                  if (Z.of_nat (h_count h) <? id_count prefix)%Z then Raise CommittedPrefixMismatch
                  else raise_if (negb (bool_decide (observed_prefix records (id_count prefix)
                                                    = id_head_hash prefix)))
                         CommittedPrefixMismatch
              end in
    Ok (entries, length (the_log s)).

Definition committed_snapshot : M store CommittedSnapshot :=
  run! usable;
  locked
    (do! (entries, e) <-
       marking_failure (run! reread_tail;
                        do! s <- mget; mlift (committed_entries_unlocked 0 None s));
     do! h <- the_handle;
     mret (mkSnapshot (committed_identity h e) entries)).

(** [_committed_suffix_from_cursor]; the caller has checked that the offset is there and
    not negative. *)
Definition committed_suffix_from_cursor (s : store) (prefix : CommittedIdentity)
    (count : nat) (head_hash : string) : res (list CommittedEvent * nat) :=
  let log := the_log s in
  let key := h_key (st_handle s) in
  match id_end_offset prefix with
  | None => Raise AssertionError
  | Some off =>
      let o := Z.to_nat off in
      if decide (length log < o) then Raise CommittedPrefixMismatch
      else
        let? (entries, previous, e) :=
          reraise_as [JSONDecodeError; KeyError; TypeError] CryptoError
            (let? _ := raise_if (negb (bool_decide (o = 0))
                                 && negb (bool_decide (log !! (o - 1) = Some newline)))
                         CommittedPrefixMismatch in
             let from := Z.to_nat (id_count prefix) in
             scan (committed_event key) (count - from) from (id_head_hash prefix) o (drop o log)) in
        if negb (py_eq_str previous head_hash) then Raise CryptoError else Ok (entries, e)
  end.

(** The checks [committed_suffix_after] makes of a cursor before it trusts its offset. *)
Definition cursor_accepted (key : bytes) (prefix : CommittedIdentity) : res bool :=
  match id_end_offset prefix, id_cursor_mac prefix with
  | Some off, Some mac =>
      if (off <? 0)%Z then Ok false
      else compare_digest (cursor_mac key (id_count prefix) (id_head_hash prefix) off) mac
  | _, _ => Ok false
  end.

(** [except CommittedPrefixMismatch: raise; except Exception: self._write_failed = True]. *)
Definition marking_unless_mismatch {A} (m : M store A) : M store A :=
  fun s => match m s with
           | (Raise CommittedPrefixMismatch, s') => (Raise CommittedPrefixMismatch, s')
           | (Raise e, s') => (Raise e, with_handle (set_write_failed true) s')
           | ok => ok
           end.

Definition committed_suffix_after (prefix : CommittedIdentity) : M store CommittedSnapshot :=
  run! refuse_decision_reentry;
  if (id_count prefix <? 0)%Z || negb (is_str (id_head_hash prefix))
  then mraise ValueError
  else
    run! usable;
    locked
      (marking_unless_mismatch
        (do! s <- mget;
         do! required <- mlift (authenticate_current_header s);
         do! head <- mlift (authenticated_head (h_key (st_handle s)) (st_head s) required);
         match head with
         | None =>
             run! reread_tail;
             do! s' <- mget;
             do! (entries, e) <- mlift (committed_entries_unlocked (id_count prefix) (Some prefix) s');
             mret (mkSnapshot (committed_identity (st_handle s') e) entries)
         | Some (count, head_hash) =>
             let key := h_key (st_handle s) in
             if (Z.of_nat count <? id_count prefix)%Z then mraise CommittedPrefixMismatch
             else
               do! accepted <- mlift (cursor_accepted key prefix);
               if negb accepted then mraise CommittedPrefixMismatch
               else if (id_count prefix =? Z.of_nat count)%Z
                       && negb (py_eq_str (id_head_hash prefix) head_hash)
               then mraise CommittedPrefixMismatch
               else
                 do! (entries, e) <- mlift (committed_suffix_from_cursor s prefix count head_hash);
                 mret (mkSnapshot (identity_for key count (JStr head_hash) e) entries)
         end)).

Definition verify_committed_log : M store CommittedIdentity :=
  run! usable;
  locked
    (do! (_, e) <-
       marking_failure (run! reread_tail;
                        do! s <- mget; mlift (committed_entries_unlocked 0 None s));
     do! h <- the_handle;
     mret (committed_identity h e)).

Definition authenticated_identity : M store witness :=
  run! usable;
  locked (run! marking_failure reread_tail; do! h <- the_handle; mret (cached_identity h)).

(** [verify_chain] of the handle's own log and head. *)
Definition store_verify_chain : M store (bool * nat) :=
  run! refuse_decision_reentry;
  do! s <- mget; mlift (verify_chain (st_log s) (st_head s)).

(** [len(store)]. *)
Definition store_len : M store nat :=
  run! refuse_decision_reentry;
  run! authenticated_identity;
  do! h <- the_handle; mret (h_count h).

Definition observe_commits (o : option nat) : M store unit :=
  run! refuse_decision_reentry; update (set_commit_observer o).

(** ** Forking *)

(** Where the committed log ends, from the boundary the handle trusts. *)
Definition trusted_end (s : store) (count : nat) (head_hash : string) : res nat :=
  let h := st_handle s in
  let log := the_log s in
  if decide (count = h_count h) then
    let e := h_size h in
    if decide (length log < e) then Raise CryptoError
    else if negb (bool_decide (e = 0)) && negb (bool_decide (log !! (e - 1) = Some newline))
    then Raise CryptoError
    else Ok e
  else
    let? (_, e) := committed_suffix_from_cursor s
                     (identity_for (h_key h) (h_count h) (h_last_hash h) (h_size h))
                     count head_hash in
    Ok e.

Definition refresh_trusted_tail : M store unit :=
  do! required <- authenticated_mode;
  if negb required then reread_tail
  else
    run! update (set_head_required true);
    do! s <- mget;
    let h := st_handle s in
    let log := the_log s in
    do! head <- mlift (authenticated_head (h_key h) (st_head s) true);
    match head with
    | None => mraise AssertionError
    | Some (count, head_hash) =>
        if bool_decide (count < h_count h)
           || (bool_decide (count = h_count h) && negb (py_eq_str (h_last_hash h) head_hash))
        then mraise CryptoError
        else
          do! e <- mlift (trusted_end s count head_hash);
          run! mwhen (bool_decide (e < length log)) (mmodify (set_log (take e log)));
          run! update (set_tail count (JStr head_hash) e);
          update (set_committed_head (Some (count, head_hash)))
    end.

(** A handle as [__init__] makes it. *)
Definition new_handle (key : bytes) (kdf : KdfParams) (count : nat) (last : json) (size : nat)
  : handle :=
  mkHandle key kdf false [] None None None false None last count size.

Definition fork : M store handle :=
  run! refuse_decision_reentry;
  do! h <- the_handle;
  if h_write_failed h then mraise CryptoError
  else
    locked
      (run! marking_failure refresh_trusted_tail;
       do! h <- the_handle;
       mret (set_committed_head (h_committed_head h)
               (set_head_required (h_head_required h)
                  (new_handle (h_key h) (h_kdf h) (h_count h) (h_last_hash h) (h_size h))))).

(** ** Opening *)
Definition check_head (key : bytes) (head : option bytes) (required : bool) (h : handle) : res unit :=
  let? recorded := authenticated_head key head required in
  match recorded with
  | None => Ok tt
  | Some (count, hash) =>
      raise_if (negb (bool_decide (count = h_count h) && py_eq_str (h_last_hash h) hash)) CryptoError
  end.

(** [open] on an existing log: the handle, and the log it leaves. *)
Definition open_existing (log : bytes) (head : option bytes) (passphrase : string)
  : res handle * bytes :=
  let line := header_line_of (universal_newlines log) in
  match (if decide (strip_bytes line = []) then Raise CryptoError
         else
           let? header := loads line in
           let? key := open_vault_header header passphrase in
           let? required := header_requires_head header in
           let? recorded := authenticated_head key head required in
           let? fast := match recorded with
                        | Some (c, h) => fast_committed_boundary log c h
                        | None => Ok None
                        end in
           Ok (header, key, required, recorded, fast)) with
  | Raise e => (Raise e, log)
  | Ok (header, key, required, recorded, fast) =>
      let '(recovered, log') :=
        match recorded, fast with
        | Some (c, h), Some e => (Ok (Some (c, h, e)), log)
        | _, _ => recover_to_authenticated_head key log head required None
        end in
      ((let? trusted := recovered in
        let? k := py_getitem header "kdf" in
        let? kdf := KdfParams_from_dict k in
        let? h := match trusted with
                  | Some (c, hash, e) =>
                      Ok (set_committed_head (Some (c, hash)) (new_handle key kdf c (JStr hash) e))
                  | None =>
                      let? (c, last) := legacy_tail (iter_raw (Some log') None) 0 (JStr GENESIS) in
                      Ok (new_handle key kdf c last (length log'))
                  end in
        let h := set_head_required required h in
        let? _ := check_head key head required h in
        Ok h), log')
  end.

(** The first durable write of a new store: its header line. *)
Definition new_log (passphrase : string) : res (json * bytes * bytes) :=
  let? (header, key) := new_vault_header passphrase HEAD_BOUND_HEADER_VERSION
                          (o_salt env) (o_header_nonce env) in
  Ok (header, key, (dumps Spaced header ++ [newline])%list).

Definition open_new (passphrase : string) : res store :=
  let? (header, key, log) := new_log passphrase in
  let? k := py_getitem header "kdf" in
  let? kdf := KdfParams_from_dict k in
  let? (count, last) := legacy_tail (iter_raw (Some log) None) 0 (JStr GENESIS) in
  let h := new_handle key kdf count last (length log) in
  Ok (mkStore (Some log) (Some (write_head key count last))
        (set_committed_head (Some (count, as_str last)) (set_head_required true h))).

Definition open (log head : option bytes) (passphrase : string)
  : res store * (option bytes * option bytes) :=
  match log with
  | Some l =>
      let '(r, l') := open_existing l head passphrase in
      ((let? h := r in Ok (mkStore (Some l') head h)), (Some l', head))
  | None =>
      match open_new passphrase with
      | Ok s => (Ok s, (st_log s, st_head s))
      | Raise e => (Raise e, (None, head))
      end
  end.
End operations.
