(* ===== verification/Ledger.v ===== *)
(** * Ledger: product/viva/ledger/ledger.py, the facade over the store and its fold

    A [Ledger] keeps one authenticated fold of the log, the basis, never given to a caller,
    and publishes copies of it, the views; a decision is handed a copy of its own.  The
    fold itself is an interface here, [Projection]: what [LedgerProjection] of
    ledger/projection/__init__.py asks of its core.  Copies are values, so what a caller
    does to a copy it holds is a step of its own ([view_apply] for the published one). *)
From Stdlib Require Import ZArith NArith Ascii String Lia.
From stdpp Require Import base list numbers strings.
From S2P Require Import Prelude Text Json Hashing Crypto Events StoreFormat EventStore.
#[local] Open Scope string_scope.

(** ** The fold *)

(** What the facade needs of a core: replay a list of events under a horizon, fold one more
    event, and say which event makes it replay everything instead.  Building, in the source,
    folds only the events that are visible; folding one more on looks at nothing.
    [LiveProjection] is the instance with both as they are, and says when they agree. *)
Class Projection (P : Type) := {
  build : option string -> list Event -> res P;
  fold_in : P -> Event -> res P;
  changes_prior : P -> Event -> res bool
}.

(** [LedgerProjection]: the source events, the horizon, the core, and the core's
    [_classification_revision]. *)
Record LedgerProjection (P : Type) := mkProjection {
  source_events : list Event;
  horizon : option string;
  core_of : P;
  revision : nat * json
}.
Arguments mkProjection {P}.
Arguments source_events {P}.
Arguments horizon {P}.
Arguments core_of {P}.
Arguments revision {P}.

(** [ProjectionCore.apply]: an event past the horizon leaves the revision. *)
Definition next_revision (h : option string) (r : nat * json) (e : Event) : nat * json :=
  match h, occurred_at e with
  | Some d, JStr at_ => if String.ltb d at_ then r else (S r.1, event_id e)
  | _, _ => (S r.1, event_id e)
  end.

Section Fold.
Context {P : Type} `{!Projection P}.

Definition LedgerProjection_new (events : list Event) (h : option string) : res (LedgerProjection P) :=
  let? c := build h events in
  Ok (mkProjection events h c (List.fold_left (next_revision h) events (0, JStr ""))).

(** [LedgerProjection.apply]. *)
Definition projection_apply (p : LedgerProjection P) (e : Event) : res (LedgerProjection P) :=
  let events := (source_events p ++ [e])%list in
  let? again := changes_prior (core_of p) e in
  let? c := if again then build (horizon p) events else fold_in (core_of p) e in
  Ok (mkProjection events (horizon p) c (next_revision (horizon p) (revision p) e)).

Definition event_count (p : LedgerProjection P) : nat := length (source_events p).
End Fold.

(** ** State *)

(** [_ProjectionOwnership]: what made the published view the ledger's own. *)
Record claim := mkClaim { c_generation : nat; c_revision : nat * json; c_identity : nat * string }.
#[export] Instance claim_eq_dec : EqDecision claim.
Proof. solve_decision. Defined.

Record view (P : Type) := mkView { v_projection : LedgerProjection P; v_claim : option claim }.
Arguments mkView {P}.
Arguments v_projection {P}.
Arguments v_claim {P}.

Record ledger (P : Type) := mkLedger {
  l_store : store;
  l_proj : option (view P);
  l_basis : option (LedgerProjection P);
  l_generation : nat;
  l_identity : witness
}.
Arguments mkLedger {P}.
Arguments l_store {P}.
Arguments l_proj {P}.
Arguments l_basis {P}.
Arguments l_generation {P}.
Arguments l_identity {P}.

(** [Ledger.__init__]. *)
Definition new_ledger {P} (s : store) : ledger P := mkLedger s None None 0 (cached_identity (st_handle s)).

(** [type(count) is int and isinstance(head, str) and head]. *)
Definition named_commit (w : witness) : option (nat * string) :=
  match w with
  | (Some c, Some (JStr h), _) => if String.eqb h "" then None else Some (c, h)
  | _ => None
  end.
(** [identity[:2]]. *)
Definition commit_of (w : witness) : option nat * option json := w.1.

Section Ledger.
Context {P : Type} `{!Projection P} `{lib : CryptoLib} (me : nat) (env : oracle).

Definition on_store {A} (m : M store A) : M (ledger P) A := fun g =>
  let '(r, s) := m (l_store g) in
  (r, mkLedger s (l_proj g) (l_basis g) (l_generation g) (l_identity g)).
Definition reading {A} (f : ledger P -> A) : M (ledger P) A := fun g => (Ok (f g), g).

(** [_revoke_projection] of the published view. *)
Definition revoke_view (g : ledger P) : ledger P :=
  mkLedger (l_store g) (option_map (fun v => mkView (v_projection v) None) (l_proj g))
    (l_basis g) (l_generation g) (l_identity g).
Definition revoke_cache (g : ledger P) : ledger P :=
  let g := revoke_view g in
  mkLedger (l_store g) (l_proj g) (l_basis g) (S (l_generation g)) (l_identity g).
(** [except BaseException: self._revoke_cache(); self._proj = None; self._basis = None]. *)
Definition forget (g : ledger P) : ledger P :=
  let g := revoke_cache g in mkLedger (l_store g) None None (l_generation g) (l_identity g).

Definition set_basis (p : LedgerProjection P) (identity : witness) (witnessed : bool) (g : ledger P)
    : ledger P :=
  let count := identity.1.1 in
  let keep := witnessed && match count with None => true | Some c => bool_decide (c = event_count p) end in
  mkLedger (l_store g) None (if keep then Some p else None) (l_generation g) identity.

Definition basis_reusable (g : ledger P) : bool :=
  match l_basis g, named_commit (l_identity g) with
  | Some p, Some (c, _) => bool_decide (c = event_count p)
  | _, _ => false
  end.

Definition publish_basis : M (ledger P) unit := fun g =>
  match l_basis g with
  | None => (Raise AssertionError, g)
  | Some p =>
      let g := revoke_cache g in
      let owned := match named_commit (l_identity g) with
                   | Some (c, h) => if bool_decide (c = event_count p)
                                    then Some (mkClaim (l_generation g) (revision p) (c, h)) else None
                   | None => None
                   end in
      (Ok tt, mkLedger (l_store g) (Some (mkView p owned)) (l_basis g) (l_generation g) (l_identity g))
  end.

(** [_owned_projection_identity(self._proj)]: the claim still holds, or it is revoked. *)
Definition claim_holds (g : ledger P) (v : view P) (c : claim) : bool :=
  bool_decide (l_generation g = c_generation c)
  && bool_decide (horizon (v_projection v) = None)
  && bool_decide (revision (v_projection v) = c_revision c)
  && bool_decide (commit_of (l_identity g) = (Some (c_identity c).1, Some (JStr (c_identity c).2)))
  && bool_decide (commit_of (cached_identity (st_handle (l_store g)))
                  = (Some (c_identity c).1, Some (JStr (c_identity c).2)))
  && negb (h_write_failed (st_handle (l_store g))).
Definition owned_projection_identity : M (ledger P) (option (nat * string)) := fun g =>
  match l_proj g with
  | Some (mkView p (Some c)) =>
      if claim_holds g (mkView p (Some c)) c then (Ok (Some (c_identity c)), g)
      else (Ok None, revoke_view g)
  | _ => (Ok None, g)
  end.

(** The basis with the suffix folded in, or everything replayed. *)
Definition advance_cache (g : ledger P) (events : list Event) (reusable : bool) : res (LedgerProjection P) :=
  if reusable then
    match l_basis g with
    | Some p => rfold projection_apply (drop (event_count p) events) p
    | None => Raise AssertionError
    end
  else LedgerProjection_new events None.

(** [_install_cache]. *)
Definition install_cache (events : list Event) (identity : witness) (witnessed : bool) : M (ledger P) unit :=
  run! mmodify revoke_cache;
  do! p <- mlift (LedgerProjection_new events None);
  mmodify (set_basis p identity witnessed).

(** ** Reads *)

(** [if self._proj is None or _owned_projection_identity(self._proj) is None]. *)
Definition ensure_published : M (ledger P) unit :=
  do! g <- mget;
  do! owned <- match l_proj g with
               | None => mret None
               | Some _ => owned_projection_identity
               end;
  match owned with None => publish_basis | Some _ => mret tt end.

(** The stale branch: a snapshot, and the basis advanced to it. *)
Definition refresh_basis (reusable : bool) : M (ledger P) unit :=
  do! g <- mget;
  run! mmodify revoke_cache;
  do! (events, identity) <- on_store (snapshot_events_with_identity me env);
  do! p <- mlift (advance_cache g events reusable);
  mmodify (set_basis p identity true).

Definition sync_if_external_write (publish : bool) : M (ledger P) unit :=
  do! reusable <- reading basis_reusable;
  on_exception
    (do! identity <- on_store (authenticated_identity me);
     do! g <- mget;
     run! mwhen (bool_decide (l_basis g = None :> option _) || negb (bool_decide (identity = l_identity g))
                 || negb reusable)
       (refresh_basis reusable);
     mwhen publish ensure_published)
    forget.

Definition projection : M (ledger P) (LedgerProjection P) :=
  run! sync_if_external_write true;
  do! g <- mget;
  mlift (res_of_option AssertionError (option_map v_projection (l_proj g))).

(** [is_resolved] is a question put to the basis itself; no view is published for it. *)
Definition is_resolved {A} (ask : LedgerProjection P -> A) : M (ledger P) A :=
  run! sync_if_external_write false;
  do! g <- mget;
  mlift (let? p := res_of_option AssertionError (l_basis g) in Ok (ask p)).

Definition replay_projection (h : option string) : M (ledger P) (LedgerProjection P) :=
  do! events <- on_store (snapshot_events me env);
  mlift (LedgerProjection_new events h).
(** [_replay]. *)
Definition fresh_projection : M (ledger P) (LedgerProjection P) := replay_projection None.
Definition snapshot_projection : M (ledger P) (LedgerProjection P * list Event) :=
  do! events <- on_store (snapshot_events me env);
  mlift (let? p := LedgerProjection_new events None in Ok (p, events)).
Definition projection_as_of (h : option string) : M (ledger P) (LedgerProjection P) :=
  match h with None => projection | Some _ => replay_projection h end.
Definition ledger_events : M (ledger P) (list Event) := on_store (snapshot_events me env).
Definition ledger_len : M (ledger P) nat := on_store (store_len me).
Definition fork_ledger : M (ledger P) (ledger P) :=
  do! h <- on_store (fork me env);
  reading (fun g => new_ledger (mkStore (st_log (l_store g)) (st_head (l_store g)) h)).

(** ** Decisions *)

(** What a decision may look at, or the events already chosen. *)
Inductive decision :=
  | Decide (decide : LedgerProjection P -> res (list item))
  | Submitted (items : list item).
Definition decided (d : decision) (p : LedgerProjection P) : res (list item) :=
  match d with Decide f => f p | Submitted items => Ok items end.

(** [choose]: the callback the store runs inside its transaction. *)
Definition choose (g : ledger P) (reusable : bool) (d : decision) (events : list Event)
    : M store (list item) :=
  mlift (let? p := advance_cache g events reusable in decided d p).

(** The last record's place against the identity reported after the append. *)
Definition witnessed_by (records : list json) (before after : witness) : res bool :=
  match List.last records JNull with
  | JNull => Ok (bool_decide (before = after))
  | r =>
      let? seq := py_getitem r "seq" in
      let? hash := py_getitem r "record_hash" in
      match seq with
      | JInt z => Ok (bool_decide (commit_of after = (Some (Z.to_nat (z + 1)), Some hash)))
      | _ => Raise TypeError
      end
  end.

(** [_append_decision].  [choose] records the projection it built, what it chose and the
    identity it was called at; the store calls it on exactly what a snapshot taken at that
    moment reads, so the three are recomputed from [seen]. *)
Definition append_decision (ft : fault) (observe : nat -> witness -> M store unit) (d : decision)
    : M (ledger P) (list json) :=
  do! reusable <- reading basis_reusable;
  run! mmodify revoke_cache;
  on_exception
    (do! g <- mget;
     let seen := fst (snapshot_events_with_identity me env (l_store g)) in
     do! records <- on_store (append_atomically me env ft (choose g reusable d) observe);
     do! identity <- reading (fun g => cached_identity (st_handle (l_store g)));
     do! (events, prefix_identity) <- mlift seen;
     do! p <- mlift (let? p := advance_cache g events reusable in
                     let? items := decided d p in
                     let? chosen := events_of items in
                     rfold projection_apply chosen p);
     do! witnessed <- mlift (witnessed_by records prefix_identity identity);
     run! mmodify (set_basis p identity witnessed);
     mret records)
    forget.

Definition append_many (ft : fault) (observe : nat -> witness -> M store unit) (items : list item)
    : M (ledger P) (list json) := append_decision ft observe (Submitted items).
(** [append]. *)
Definition append_one (ft : fault) (observe : nat -> witness -> M store unit) (i : item)
    : M (ledger P) json :=
  do! records <- append_many ft observe [i];
  mlift (res_of_option IndexError (hd_error records)).
(** [append_atomically]. *)
Definition append_chosen (ft : fault) (observe : nat -> witness -> M store unit)
    (f : LedgerProjection P -> res (list item)) : M (ledger P) (list json) :=
  append_decision ft observe (Decide f).

(** A caller folds an event into the view it was handed: its own copy, and no longer the
    ledger's. *)
Definition view_apply (e : Event) : M (ledger P) unit :=
  do! g <- mget;
  match l_proj g with
  | None => mret tt
  | Some v =>
      run! mmodify revoke_view;
      do! p <- mlift (projection_apply (v_projection v) e);
      mmodify (fun g => mkLedger (l_store g) (Some (mkView p None)) (l_basis g)
                          (l_generation g) (l_identity g))
  end.

(** ** Staged work *)

(** [_StagedLedger]: a speculative basis of its own, the view made of it, and what was
    added.  The work registered for cleanup is a count, since a cleanup's exceptions are
    swallowed and its calls back are refused. *)
Record staged := mkStaged {
  s_basis : LedgerProjection P;
  s_view : option (LedgerProjection P);
  s_additions : list Event;
  s_active : bool;
  s_failed : bool;
  s_generation : nat;
  s_cleanup : nat
}.
Definition new_staged (p : LedgerProjection P) : staged := mkStaged p None [] true false 0 0.

(** [_check_active]: within its operation, only its two flags can refuse it. *)
Definition check_active : M staged unit :=
  do! s <- mget; if s_active s && negb (s_failed s) then mret tt else mraise RuntimeError.
Definition invalidate_work (s : staged) : staged :=
  mkStaged (s_basis s) (s_view s) (s_additions s) (s_active s) (s_failed s) (S (s_generation s)) 0.
Definition drop_view (s : staged) : staged :=
  mkStaged (s_basis s) None (s_additions s) (s_active s) (s_failed s) (s_generation s) (s_cleanup s).
Definition fail_stage (s : staged) : staged :=
  invalidate_work (mkStaged (s_basis s) None (s_additions s) (s_active s) true (s_generation s) (s_cleanup s)).

Definition staged_projection : M staged (LedgerProjection P) :=
  run! check_active;
  do! s <- mget;
  match s_view s with
  | Some p => mret p
  | None =>
      run! mmodify (fun s => mkStaged (s_basis s) (Some (s_basis s)) (s_additions s) (s_active s)
                               (s_failed s) (s_generation s) (s_cleanup s));
      mret (s_basis s)
  end.

(** The loop of a staged append: each event is folded as it is met. *)
Fixpoint fold_staged (items : list item) : M staged unit :=
  match items with
  | [] => mret tt
  | INotEvent :: _ => mraise TypeError
  | IEvent e :: rest =>
      do! s <- mget;
      do! p <- mlift (projection_apply (s_basis s) e);
      run! mmodify (fun s => mkStaged p (s_view s) (s_additions s) (s_active s) (s_failed s)
                               (s_generation s) (s_cleanup s));
      fold_staged rest
  end.
Definition staged_append_many (items : list item) : M staged unit :=
  run! check_active;
  on_exception
    (match items with
     | [] => mret tt
     | _ :: _ =>
         run! mmodify invalidate_work;
         run! mmodify drop_view;
         run! fold_staged items;
         do! added <- mlift (events_of items);
         mmodify (fun s => mkStaged (s_basis s) (s_view s) (s_additions s ++ added)%list (s_active s)
                             (s_failed s) (s_generation s) (s_cleanup s))
     end)
    fail_stage.
Definition staged_append (i : item) : M staged unit := staged_append_many [i].
Definition staged_append_atomically (f : LedgerProjection P -> res (list item)) : M staged (list item) :=
  run! check_active;
  do! s <- mget;
  do! chosen <- mlift (f (s_basis s));
  run! staged_append_many chosen;
  mret chosen.
Definition staged_events : M staged (list Event) :=
  run! check_active; do! s <- mget; mret (source_events (s_basis s)).
Definition staged_len : M staged nat :=
  run! check_active; do! s <- mget; mret (event_count (s_basis s)).
(** [_stage_on_invalidation]. *)
Definition stage_on_invalidation : M staged bool :=
  do! s <- mget;
  if s_active s && negb (s_failed s) then
    run! mmodify (fun s => mkStaged (s_basis s) (s_view s) (s_additions s) (s_active s) (s_failed s)
                             (s_generation s) (S (s_cleanup s)));
    mret true
  else mret false.

(** The decision [stage_atomically] submits: the operation's additions, if it returns and
    the stage is still usable. *)
Definition stage_result {A} (operation : M staged A) (p : LedgerProjection P) : res (A * list Event) :=
  fst ((do! a <- operation; run! check_active; do! s <- mget; mret (a, s_additions s)) (new_staged p)).
Definition stage_decision {A} (operation : M staged A) (p : LedgerProjection P) : res (list item) :=
  let? (_, added) := stage_result operation p in Ok (List.map IEvent added).
(** The value is delivered once the append has returned; it is the one the operation
    returned on the projection the decision was handed. *)
Definition stage_atomically {A} (ft : fault) (observe : nat -> witness -> M store unit)
    (operation : M staged A) : M (ledger P) A :=
  do! g <- mget;
  let seen := let? (events, _) := fst (snapshot_events_with_identity me env (l_store g)) in
              let? p := advance_cache g events (basis_reusable g) in
              stage_result operation p in
  run! append_chosen ft observe (stage_decision operation);
  do! (a, _) <- mlift seen;
  mret a.
End Ledger.
