(* ===== verification/VaultLaws.v ===== *)
(** * VaultLaws: what the event store promises

    The abstract state of a vault is the list of its events; [vault] says when a disk and
    a handle hold that list.  The lemmas here carry the operations of EventStore through
    it; the file VaultProperties states the guarantees.  A concrete cipher, clock and vault
    follow, on which the witnesses evaluate. *)
From Stdlib Require Import ZArith NArith Ascii String Lia.
From stdpp Require Import base list numbers strings.
From S2P Require Import Prelude Text Json Hashing Crypto Events StoreFormat StoreLaws EventStore.
#[local] Open Scope string_scope.

#[global] Arguments iter_raw : simpl never.
#[global] Arguments committed_size : simpl never.

(** ** Event values *)
Lemma thaw_freeze v : thaw (freeze v) = v.
Proof.
  induction v as [| | | | |l IH|kv IH] using json_ind'; try done; simpl; f_equal;
    rewrite List.map_map.
  - induction IH as [|x l Hx Hl IH']; simpl; [done|]. by rewrite Hx, IH'.
  - induction IH as [|[k x] l Hx Hl IH']; cbn in *; [done|]. by rewrite Hx, IH'.
Qed.

(** An event as a replay returns it: JSON objects come back with their keys sorted, which
    Python's dictionary equality does not see. *)
Definition canonical_event (e : Event) : Event :=
  mkEvent (sort_keys (event_type e)) (sort_keys (occurred_at e)) (sort_keys (body e))
    (mkProvenance (sort_keys (doc_id (provenance e))) (sort_keys (page (provenance e)))
                  (sort_keys (region (provenance e))) (sort_keys (note (provenance e))))
    (sort_keys (event_id e)).

Lemma Event_from_sorted fresh e :
  Event_from_dict fresh (sort_keys (Event_to_dict e)) = Ok (canonical_event e).
Proof. destruct e as [t o b [d p r n] i]. reflexivity. Qed.

(** Events a log can hold: every value has a JSON text, and the identity is a name. *)
Definition storable (e : Event) : Prop :=
  wf_event e /\ exists i, event_id e = JStr i /\ i <> EmptyString.

(** ** Abstract state *)

(** The record opens under the key to a payload whose event reads back as [e]. *)
Definition holds `{lib : CryptoLib} (key : bytes) (r : wrec) (e : Event) : Prop :=
  exists kv d i, open_record key (w_raw r) = Ok (JObj kv)
    /\ dict_get kv "event" = Some (JObj d)
    /\ (forall fresh, Event_from_dict fresh (JObj d) = Ok e)
    /\ dict_get d "event_id" = Some (JStr i) /\ i <> EmptyString.

(** A header that authenticates under the key, requires a head, and carries the KDF
    parameters. *)
Definition authentic `{lib : CryptoLib} (key : bytes) (kdf : KdfParams) (hdr : bytes) : Prop :=
  header_line hdr /\ exists header k,
    loads (hdr ++ [newline])%list = Ok header
    /\ verify_vault_header header key = Ok (JStr HEAD_BOUND_HEADER_VERSION)
    /\ py_getitem header "kdf" = Ok k /\ KdfParams_from_dict k = Ok kdf
    /\ header_requires_head header = Ok true.

(** The commit a handle remembers is one this chain went through. *)
Definition observed (rs : list wrec) (seen : option (nat * string)) : Prop :=
  match seen with
  | None => True
  | Some (c, x) => c <= length rs /\ last_hash GENESIS (take c rs) = x
  end.

(** Every cached decryption is of a record of this chain. *)
Definition cache_ok (rs : list wrec) (evs : list Event) (c : list (json * (json * json))) : Prop :=
  forall k rh d, cache_get c k = Some (rh, d) ->
  exists i r e, k = JInt (Z.of_nat i) /\ rs !! i = Some r /\ evs !! i = Some e
    /\ rh = JStr (w_hash r) /\ (forall fresh, Event_from_dict fresh d = Ok e).

Record vault `{lib : CryptoLib} (hdr : bytes) (rs : list wrec) (evs : list Event) (suffix : bytes)
    (s : store) : Prop := {
  v_log : st_log s = Some (log_bytes hdr rs suffix);
  v_head : st_head s
           = Some (write_head (h_key (st_handle s)) (length rs) (JStr (last_hash GENESIS rs)));
  v_chain : chain 0 GENESIS rs;
  v_events : Forall2 (holds (h_key (st_handle s))) rs evs;
  v_header : authentic (h_key (st_handle s)) (h_kdf (st_handle s)) hdr;
  v_key : length (h_key (st_handle s)) = KEY_LEN;
  v_observed : observed rs (h_committed_head (st_handle s));
  v_cache : cache_ok rs evs (h_decrypted (st_handle s))
}.

(** The handle has not seen a failed write, and no callback of this thread is running. *)
Definition idle (me : nat) (h : handle) : Prop :=
  h_write_failed h = false /\ h_decision_owner h <> Some me /\ h_observer_owner h <> Some me.

(** The handle's tail fields name the end of this chain. *)
Definition at_tail (hdr : bytes) (rs : list wrec) (h : handle) : Prop :=
  h_count h = length rs /\ h_last_hash h = JStr (last_hash GENESIS rs)
  /\ h_size h = committed_size hdr rs
  /\ h_committed_head h = Some (length rs, last_hash GENESIS rs) /\ h_head_required h = true.

Definition same_keys (s s' : store) : Prop :=
  h_key (st_handle s') = h_key (st_handle s) /\ h_kdf (st_handle s') = h_kdf (st_handle s).

(** ** Recovery under a handle *)
Lemma observed_extends rs seen : observed rs seen -> extends rs seen.
Proof. destruct seen as [[c x]|]; simpl; tauto. Qed.

Lemma observed_not_moved rs seen : observed rs seen ->
  head_moved (length rs) (last_hash GENESIS rs) seen = false.
Proof.
  destruct seen as [[c x]|]; [|done]. intros [Hc Hx]. simpl.
  rewrite bool_decide_eq_false_2 by lia. simpl.
  destruct (bool_decide (length rs = c)) eqn:E; [|done]. apply bool_decide_eq_true in E. subst c.
  rewrite firstn_all in Hx. subst x. simpl. by rewrite String.eqb_refl.
Qed.

Lemma header_line_of_log hdr rs suffix :
  no_newline hdr -> header_line_of (log_bytes hdr rs suffix) = (hdr ++ [newline])%list.
Proof. intros H. unfold header_line_of, log_bytes. by rewrite readline_line. Qed.

Section laws.
Context `{lib : CryptoLib} (me : nat) (env : oracle).

Lemma vault_authenticates hdr rs evs suffix s : vault hdr rs evs suffix s ->
  authenticate_current_header s = Ok true.
Proof.
  intros []. destruct v_header0 as (Hl & header & k & H1 & H2 & H3 & H4 & H5).
  unfold authenticate_current_header, the_log. rewrite v_log0. cbn [from_option id].
  rewrite header_line_of_log by (by apply header_line_no_newline).
  rewrite H1. cbn [rbind]. rewrite H2. cbn [rbind]. rewrite H3. cbn [rbind]. rewrite H4.
  cbn [rbind]. rewrite decide_False by (intros H; by apply H). cbn. by rewrite H5.
Qed.

(** The state after the tail was read again: the uncommitted suffix is gone and the
    handle names the committed boundary. *)
Definition synced (hdr : bytes) (rs : list wrec) (s : store) : store :=
  mkStore (Some (log_bytes hdr rs [])) (st_head s)
    (set_tail (length rs) (JStr (last_hash GENESIS rs)) (committed_size hdr rs)
      (set_committed_head (Some (length rs, last_hash GENESIS rs))
        (set_head_required true (st_handle s)))).

Lemma reread_vault hdr rs evs suffix s : vault hdr rs evs suffix s ->
  reread_tail s = (Ok tt, synced hdr rs s).
Proof.
  intros V. pose proof (vault_authenticates _ _ _ _ _ V) as Ha. destruct V.
  destruct v_header0 as (Hl & _), s as [log hd h]. cbn [st_log st_head st_handle] in *. subst.
  unfold reread_tail, authenticated_mode, mbind, mget, mlift. rewrite Ha. cbn [negb andb].
  rewrite andb_false_r. cbn -[recover_to_authenticated_head observed].
  rewrite recover_written;
    [done | by apply header_line_no_newline | done | by apply observed_extends
    | by apply observed_not_moved].
Qed.

Lemma synced_vault hdr rs evs suffix s : vault hdr rs evs suffix s ->
  vault hdr rs evs [] (synced hdr rs s) /\ at_tail hdr rs (st_handle (synced hdr rs s)).
Proof.
  intros []. split; [split|]; try done; cbn.
  split; [done|]. by rewrite firstn_all.
Qed.

(** *** Replay *)
Lemma cache_ok_cons rs evs c i r e d : cache_ok rs evs c ->
  rs !! i = Some r -> evs !! i = Some e -> (forall fresh, Event_from_dict fresh d = Ok e) ->
  cache_ok rs evs ((JInt (Z.of_nat i), (JStr (w_hash r), d)) :: c).
Proof.
  intros Hc Hr He Hd k rh d'. cbn [cache_get]. destruct (decide _) as [<-|].
  - intros [= <- <-]. by exists i, r, e.
  - apply Hc.
Qed.

(** One record: its event, from the cache or decrypted, and the cache still right. *)
Lemma replay_step key rs evs c i r e n rest :
  cache_ok rs evs c -> rs !! i = Some r -> evs !! i = Some e -> w_seq r = i -> holds key r e ->
  exists c', cache_ok rs evs c' /\
    replay env key n (Ok (w_raw r) :: rest) (JStr (w_prev r)) c
    = (do! es <- replay env key (S n) rest (JStr (w_hash r)); mret (e :: es)) c'.
Proof.
  intros Hc Hr He Hs (kv & d & x & Ho & Hd & Hf & _). cbn [replay].
  rewrite bool_decide_true, hash_w_raw by done. cbn [negb raw_hash w_raw].
  rewrite py_eq_str_refl. cbn [negb raw_seq w_raw cache_key].
  unfold mbind, mlift, mget.
  assert (Hmiss : forall c0, cache_ok rs evs c0 ->
    cache_ok rs evs ((JInt (Z.of_nat (w_seq r)), (JStr (w_hash r), JObj d)) :: c0)).
  { intros c0 H0. rewrite Hs. by eapply cache_ok_cons. }
  destruct (cache_get c (JInt (Z.of_nat (w_seq r)))) as [[rh d']|] eqn:Hg; [case_decide as Hh|].
  - exists c. split; [done|]. cbn [mret]. apply Hc in Hg as (i' & r' & e' & Hi & Hr' & He' & _ & Hd').
    assert (i' = i) as -> by (injection Hi; lia). rewrite He in He'. injection He' as <-.
    rewrite Hd'. done.
  - eexists. split; [by apply Hmiss|]. rewrite Ho. cbn [rbind py_getitem]. rewrite Hd.
    cbn [rbind mmodify mret res_of_option]. by rewrite Hf.
  - eexists. split; [by apply Hmiss|]. rewrite Ho. cbn [rbind py_getitem]. rewrite Hd.
    cbn [rbind mmodify mret res_of_option]. by rewrite Hf.
Qed.

Lemma replay_holds key rs0 evs0 rs evs n prev c :
  length rs0 = length evs0 -> chain (length rs0) prev rs -> Forall2 (holds key) rs evs ->
  cache_ok (rs0 ++ rs) (evs0 ++ evs) c ->
  exists c', cache_ok (rs0 ++ rs) (evs0 ++ evs) c' /\
    replay env key n (List.map (fun r => Ok (w_raw r)) rs) (JStr prev) c = (Ok evs, c').
Proof.
  intros Hl Hch H2. revert rs0 evs0 n prev c Hl Hch.
  induction H2 as [|r e rs evs Hh H2 IH]; intros rs0 evs0 n prev c Hl Hch Hc.
  - exists c. done.
  - destruct Hch as (Hs & Hp & _ & Hch). subst prev.
    destruct (replay_step key (rs0 ++ r :: rs) (evs0 ++ e :: evs) c (length rs0) r e n
                (List.map (fun r => Ok (w_raw r)) rs)) as (c1 & Hc1 & E); try done.
    { by rewrite list_lookup_middle. } { by rewrite list_lookup_middle. }
    cbn [List.map]. rewrite E.
    rewrite (app_assoc rs0 [r] rs : rs0 ++ r :: rs = _)%list in Hc1 |- *.
    rewrite (app_assoc evs0 [e] evs : evs0 ++ e :: evs = _)%list in Hc1 |- *.
    destruct (IH (rs0 ++ [r]) (evs0 ++ [e]) (S n) (w_hash r) c1)%list as (c2 & Hc2 & E2).
    + rewrite !length_app. cbn. lia.
    + rewrite length_app. cbn. by rewrite Nat.add_1_r.
    + done.
    + exists c2. split; [done|]. unfold mbind. by rewrite E2.
Qed.

(** A handle at the tail replays exactly the committed events. *)
Lemma events_vault hdr rs evs s :
  vault hdr rs evs [] s -> at_tail hdr rs (st_handle s) -> h_write_failed (st_handle s) = false ->
  exists c, cache_ok rs evs c /\
    events_unlocked env s = (Ok evs, with_handle (set_decrypted c) s).
Proof.
  intros [] (Hcount & _) Hw. unfold events_unlocked, mbind, mget. rewrite Hw, v_log0, Hcount.
  destruct v_header0 as (Hl & _).
  rewrite iter_raw_committed by (done || by eapply chain_sealed). cbn [take_limit].
  rewrite firstn_all.
  destruct (replay_holds (h_key (st_handle s)) [] [] rs evs 0 GENESIS (h_decrypted (st_handle s)))
    as (c & Hc & E); try done.
  exists c. split; [done|]. by rewrite E.
Qed.

(** *** Preparing a batch *)
Context `{laws : !CryptoLaws lib}.

Lemma payload_wf i seq e : wf_event e -> wf_json (event_payload env i seq e).
Proof.
  intros H%Event_to_dict_wf. apply wf_obj. split; [nodup_keys|].
  rewrite !Forall_cons. split; [done|]. split; [done|]. split; [exact H|by constructor].
Qed.

(** What was sealed for an event opens to that event. *)
Lemma sealed_holds key i seq prev sealed e : storable e ->
  seal key (o_nonce env i) (canonical (event_payload env i seq e))
    (record_aad (JInt (Z.of_nat seq)) (JStr prev)) = Ok sealed ->
  holds key (mkWrec seq prev sealed) (canonical_event e).
Proof.
  intros (Hw & x & Hx & Hne) Hs. unfold holds, open_record, w_raw. cbn [raw_seq raw_prev raw_sealed
    w_seq w_prev w_sealed].
  rewrite (open_seal _ _ _ _ _ Hs). cbn [rbind]. unfold canonical.
  rewrite loads_dumps by (by apply sort_keys_wf, payload_wf).
  destruct e as [t o b [d p r n] ei]. cbn in Hx. subst ei.
  do 3 eexists. split; [reflexivity|]. split; [reflexivity|]. split; [intros fresh; reflexivity|].
  split; [reflexivity|done].
Qed.

Lemma prepare_ok key i seq prev es : length key = KEY_LEN -> Forall storable es ->
  exists added,
    prepare env key i seq (JStr prev) es
    = Ok (List.map w_json added, w_lines added, seq + length added, JStr (last_hash prev added))
    /\ chain seq prev added /\ Forall2 (holds key) added (List.map canonical_event es).
Proof.
  intros Hk Hes. revert i seq prev. induction Hes as [|e es He Hes IH]; intros i seq prev.
  - exists []. cbn. by rewrite Nat.add_0_r.
  - cbn [prepare].
    destruct (seal_total key (o_nonce env i) (canonical (event_payload env i seq e))
                (record_aad (JInt (Z.of_nat seq)) (JStr prev)) Hk) as [sealed Hs].
    rewrite Hs. cbn [rbind]. set (r := mkWrec seq prev sealed).
    destruct (IH (S i) (S seq) (w_hash r)) as (added & E & Hc & H2).
    exists (r :: added). change (record_hash (JInt (Z.of_nat seq)) (JStr prev) sealed) with (w_hash r).
    rewrite E. cbn [rbind]. split; [|split].
    + change (w_lines (r :: added)) with (w_line r ++ w_lines added)%list. unfold w_line.
      change (last_hash prev (r :: added)) with (last_hash (w_hash r) added).
      rewrite <- app_assoc. cbn [app length]. by rewrite Nat.add_succ_r.
    + repeat split; try done. by eapply seal_wf.
    + constructor; [by eapply sealed_holds|done].
Qed.

(** *** Moving the chain forward *)
Lemma observed_app rs added seen : observed rs seen -> observed (rs ++ added) seen.
Proof.
  destruct seen as [[c x]|]; [|done]. intros [Hc Hx]. split; [rewrite length_app; lia|].
  by rewrite take_app_le.
Qed.

Lemma cache_ok_app rs evs added es c : cache_ok rs evs c -> cache_ok (rs ++ added) (evs ++ es) c.
Proof.
  intros H k rh d E. apply H in E as (i & r & e & -> & Hr & He & -> & Hd).
  exists i, r, e. repeat split; try done; by apply lookup_app_l_Some.
Qed.

Lemma committed_size_app hdr rs added :
  committed_size hdr (rs ++ added) = committed_size hdr rs + length (w_lines added).
Proof. unfold committed_size. rewrite w_lines_app, length_app. lia. Qed.

Lemma log_bytes_app hdr rs added : log_bytes hdr rs (w_lines added) = log_bytes hdr (rs ++ added) [].
Proof. unfold log_bytes. by rewrite w_lines_app, app_nil_r. Qed.

(** *** Appending *)
Lemma usable_idle s : idle me (st_handle s) -> usable me s = (Ok tt, s).
Proof.
  intros (Hw & Hd & Ho). unfold usable, refuse_decision_reentry, refuse_observer_reentry,
    the_handle, getting, mbind. rewrite decide_False by done. cbn [mret].
  rewrite decide_False by done. cbn [mret]. by rewrite Hw.
Qed.

Lemma locked_present {A} (m : M store A) s l : st_log s = Some l -> locked m s = m s.
Proof. intros H. destruct s as [lg hd h]. cbn in H. by subst. Qed.

(** The handle after the read phase of an append: at the tail, its cache filled. *)
Definition ready (hdr : bytes) (rs : list wrec) (evs : list Event) (s : store) : Prop :=
  vault hdr rs evs [] s /\ at_tail hdr rs (st_handle s) /\ h_write_failed (st_handle s) = false
  /\ h_decision_owner (st_handle s) <> Some me /\ h_observer_owner (st_handle s) <> Some me.

Lemma ready_idle hdr rs evs s : ready hdr rs evs s -> idle me (st_handle s).
Proof. intros (_ & _ & H). exact H. Qed.

(** The writes of an append, once the decision returned [es]. *)
Definition commit_events (ft : fault) (es : list Event) : M store (list json) :=
  match es with
  | [] => mret []
  | _ :: _ =>
      run! adopt_head env ft;
      do! h <- the_handle;
      do! (records, content, count, last) <-
        mlift (prepare env (h_key h) 0 (h_count h) (h_last_hash h) es);
      do! size <- rereading (write_batch ft content count last);
      run! update (set_tail count last size);
      run! update (set_committed_head (Some (count, as_str last)));
      mret records
  end.

Lemma rmap_ievent es : events_of (List.map IEvent es) = Ok es.
Proof. induction es as [|e es IH]; [done|]. unfold events_of in *. cbn. by rewrite IH. Qed.

(** The read phase of an append: the decision sees exactly the committed events. *)
Lemma read_phase hdr rs evs suffix s dec es :
  vault hdr rs evs suffix s -> idle me (st_handle s) ->
  (forall s', dec evs s' = (Ok (List.map IEvent es), s')) ->
  exists s1 s2, ready hdr rs evs s2 /\ same_keys s s2
    /\ h_commit_observer (st_handle s2) = h_commit_observer (st_handle s)
    /\ reread_tail s = (Ok tt, synced hdr rs s)
    /\ events_unlocked env (synced hdr rs s) = (Ok evs, s1)
    /\ run_decision me dec evs s1 = (Ok es, s2).
Proof.
  intros V I Hdec. pose proof (synced_vault _ _ _ _ _ V) as [V1 T1].
  pose proof (reread_vault _ _ _ _ _ V) as Er. destruct I as (Hw & Hd & Ho).
  destruct (events_vault hdr rs evs (synced hdr rs s) V1 T1) as (c & Hc & Ee); [done|].
  set (s1 := with_handle (set_decrypted c) (synced hdr rs s)) in *.
  exists s1, (with_handle (set_decision_owner None) s1).
  split; [|split; [done|split; [done|]]].
  - split; [|done]. destruct V1. split; done.
  - split; [exact Er|]. split; [exact Ee|]. unfold run_decision, update, mmodify, mbind, finally.
    rewrite Hdec. unfold mlift. by rewrite rmap_ievent.
Qed.

Lemma append_reads hdr rs evs suffix s ft dec observe es :
  vault hdr rs evs suffix s -> idle me (st_handle s) ->
  (forall s', dec evs s' = (Ok (List.map IEvent es), s')) ->
  exists s2, ready hdr rs evs s2 /\ same_keys s s2
    /\ h_commit_observer (st_handle s2) = h_commit_observer (st_handle s)
    /\ append_atomically me env ft dec observe s
       = (do! records <- commit_events ft es;
          run! mwhen (negb (bool_decide (records = []))) (notify_commit me observe);
          mret records) s2.
Proof.
  intros V I Hdec.
  destruct (read_phase _ _ _ _ _ _ _ V I Hdec) as (s1 & s2 & R & Hk & Ho & E1 & E2 & E3).
  exists s2. split; [exact R|]. split; [exact Hk|]. split; [exact Ho|].
  unfold append_atomically. unfold mbind at 1. rewrite usable_idle by done.
  unfold mbind at 1. rewrite (locked_present _ _ _ (v_log _ _ _ _ _ V)).
  unfold mbind at 1, marking_failure, on_exception. rewrite E1.
  unfold mbind at 1. rewrite E2. unfold mbind at 1. rewrite E3. done.
Qed.

(** A vault stays one when only callbacks, tail fields or the failure mark change. *)
Lemma vault_handle hdr rs evs suffix s f :
  (forall h, h_key (f h) = h_key h /\ h_kdf (f h) = h_kdf h
     /\ h_committed_head (f h) = h_committed_head h /\ h_decrypted (f h) = h_decrypted h) ->
  vault hdr rs evs suffix s -> vault hdr rs evs suffix (with_handle f s).
Proof.
  intros Hf []. destruct (Hf (st_handle s)) as (H1 & H2 & H3 & H4).
  split; cbn; rewrite ?H1, ?H2, ?H3, ?H4; done.
Qed.

Lemma synced_ready hdr rs evs suffix s :
  vault hdr rs evs suffix s -> idle me (st_handle s) ->
  ready hdr rs evs (with_handle (set_write_failed false) (synced hdr rs s)).
Proof.
  intros V (_ & Hd & Ho). destruct (synced_vault _ _ _ _ _ V) as [V1 T1].
  split; [by apply vault_handle|]. by repeat split.
Qed.

(** The vault after some bytes followed the committed prefix. *)
Lemma vault_suffix hdr rs evs s bytes' :
  vault hdr rs evs [] s -> vault hdr rs evs bytes' (set_log (log_bytes hdr rs [] ++ bytes') s).
Proof.
  intros []. split; try done. cbn. f_equal. unfold log_bytes. by rewrite app_nil_r, <- app_assoc.
Qed.

(** The vault once a head for the longer chain replaced the old one. *)
Lemma vault_extended hdr rs evs s added es :
  vault hdr rs evs [] s -> chain (length rs) (last_hash GENESIS rs) added ->
  Forall2 (holds (h_key (st_handle s))) added es ->
  vault hdr (rs ++ added) (evs ++ es) []
    (set_head (write_head (h_key (st_handle s)) (length (rs ++ added))
                 (JStr (last_hash GENESIS (rs ++ added))))
       (set_log (log_bytes hdr rs [] ++ w_lines added) s)).
Proof.
  intros [] Hc H2. split; try done; cbn.
  - rewrite <- log_bytes_app. f_equal. unfold log_bytes. by rewrite app_nil_r, <- app_assoc.
  - apply chain_app. done.
  - by apply Forall2_app.
  - by apply observed_app.
  - by apply cache_ok_app.
Qed.

(** What an append leaves behind, by how far its writes got. *)
Definition committed_by (ft : fault) : bool :=
  match ft with BatchFails _ | HeadFails false => false | _ => true end.
Definition fails (ft : fault) : bool :=
  match ft with BatchFails _ | HeadFails _ => true | _ => false end.

(** The disk after the batch's writes, as far as [ft] let them go. *)
Definition written (ft : fault) (content head : bytes) (s : store) : store :=
  match ft with
  | BatchFails k => set_log (the_log s ++ take k content) s
  | HeadFails false => set_log (the_log s ++ content) s
  | _ => set_head head (set_log (the_log s ++ content) s)
  end.

Lemma write_batch_result ft content count last s :
  h_size (st_handle s) = length (the_log s) ->
  write_batch ft content count last s
  = ((if fails ft then Raise OSError else Ok (length (the_log s ++ content))),
     written ft content (write_head (h_key (st_handle s)) count last) s).
Proof.
  intros Hs. unfold write_batch, mbind, mget, mmodify. rewrite Hs.
  assert (He : forall c : bytes, ~ length (the_log s ++ c) <> length (the_log s) + length c)
    by (intros c; rewrite length_app; lia).
  destruct ft as [|b|k|k|[|]]; cbn; rewrite ?(decide_False _ _ (He content)); done.
Qed.

Lemma rereading_fails {A} (m : M store A) hdr rs evs suffix s s1 e :
  m s = (Raise e, s1) -> vault hdr rs evs suffix s1 ->
  rereading m s = (Raise e, with_handle (set_write_failed false) (synced hdr rs s1)).
Proof. intros E V. unfold rereading. by rewrite E, (reread_vault _ _ _ _ _ V). Qed.

(** The handle's fields follow a committed batch. *)
Lemma advance_ready hdr rs evs s :
  vault hdr rs evs [] s -> h_head_required (st_handle s) = true -> idle me (st_handle s) ->
  ready hdr rs evs
    (with_handle (set_committed_head (Some (length rs, last_hash GENESIS rs)))
      (with_handle (set_tail (length rs) (JStr (last_hash GENESIS rs)) (committed_size hdr rs)) s)).
Proof.
  intros V Hr I. split; [|split; [by repeat split|exact I]].
  destruct V. split; try done. cbn. by rewrite firstn_all.
Qed.

(** The prepared batch, and what its writes leave at the point [ft] stops them. *)
Lemma batch_prepared hdr rs evs s ft es :
  ready hdr rs evs s -> Forall storable es ->
  exists added, length added = length es
    /\ chain (length rs) (last_hash GENESIS rs) added
    /\ Forall2 (holds (h_key (st_handle s))) added (List.map canonical_event es)
    /\ prepare env (h_key (st_handle s)) 0 (length rs) (JStr (last_hash GENESIS rs)) es
       = Ok (List.map w_json added, w_lines added, length (rs ++ added),
             JStr (last_hash GENESIS (rs ++ added)))
    /\ write_batch ft (w_lines added) (length (rs ++ added))
         (JStr (last_hash GENESIS (rs ++ added))) s
       = ((if fails ft then Raise OSError
           else Ok (length (log_bytes hdr rs [] ++ w_lines added))),
          written ft (w_lines added)
            (write_head (h_key (st_handle s)) (length (rs ++ added))
               (JStr (last_hash GENESIS (rs ++ added)))) s).
Proof.
  intros (V & (Tc & Tl & Ts & Th & Tr) & W) Hes.
  destruct (prepare_ok (h_key (st_handle s)) 0 (length rs) (last_hash GENESIS rs) es
              (v_key _ _ _ _ _ V) Hes) as (added & Ep & Hc & H2).
  assert (Hlog : the_log s = log_bytes hdr rs []) by (unfold the_log; by rewrite (v_log _ _ _ _ _ V)).
  exists added. split; [apply Forall2_length in H2; by rewrite length_map in H2|].
  split; [exact Hc|]. split; [exact H2|].
  rewrite <- last_hash_app, <- length_app in Ep. split; [exact Ep|].
  rewrite write_batch_result; [by rewrite Hlog|].
  rewrite Ts, Hlog, log_bytes_length. cbn [length]. lia.
Qed.

Lemma commit_result hdr rs evs s ft es :
  ready hdr rs evs s -> es <> [] -> Forall storable es ->
  exists added s', length added = length es
    /\ commit_events ft es s
       = ((if fails ft then Raise OSError else Ok (List.map w_json added)), s')
    /\ h_commit_observer (st_handle s') = h_commit_observer (st_handle s) /\ same_keys s s'
    /\ (if committed_by ft
        then ready hdr (rs ++ added) (evs ++ List.map canonical_event es) s'
        else ready hdr rs evs s').
Proof.
  intros R Hne Hes.
  destruct (batch_prepared _ _ _ _ ft _ R Hes) as (added & Hl & Hc & H2 & Ep & Ew).
  destruct R as (V & (Tc & Tl & Ts & Th & Tr) & W).
  assert (Hlog : the_log s = log_bytes hdr rs []) by (unfold the_log; by rewrite (v_log _ _ _ _ _ V)).
  unfold written in Ew. rewrite Hlog in Ew.
  pose proof (vault_extended hdr rs evs s added _ V Hc H2) as Ve.
  exists added. unfold commit_events. destruct es as [|e0 es0] eqn:Ees; [done|]. rewrite <- Ees in *.
  unfold mbind at 1, adopt_head. unfold mbind at 1, the_handle at 1, getting. rewrite Tr.
  cbn [mret]. unfold mbind at 1, the_handle, getting. unfold mbind at 1, mlift at 1.
  rewrite Tc, Tl, Ep. unfold mbind at 1.
  destruct ft as [|b|k|k|[|]]; cbn [fails committed_by] in *.
  4,5,6: (eexists; split; [exact Hl|]; erewrite rereading_fails;
    [|exact Ew|first [exact Ve | apply vault_suffix, V]]; split; [done|]; split; [done|]; split; [done|];
    eapply synced_ready; [first [exact Ve | apply vault_suffix, V]|exact W]).
  all: (eexists; split; [exact Hl|]; unfold rereading; rewrite Ew; split; [reflexivity|];
    split; [done|]; split; [done|]; rewrite (length_app (log_bytes _ _ _)), log_bytes_length;
    cbn [length]; rewrite Nat.add_0_r, <- committed_size_app; by apply advance_ready).
Qed.

(** *** Opening *)

(** The passphrase opens this header line, and the header requires a head. *)
Definition unlocks (pass : string) (hdr : bytes) (key : bytes) (kdf : KdfParams) : Prop :=
  header_line hdr /\ exists header k,
    loads (hdr ++ [newline])%list = Ok header /\ open_vault_header header pass = Ok key
    /\ header_requires_head header = Ok true
    /\ py_getitem header "kdf" = Ok k /\ KdfParams_from_dict k = Ok kdf.

Lemma unlocks_authentic pass hdr key kdf : unlocks pass hdr key kdf -> authentic key kdf hdr.
Proof.
  intros (Hl & header & k & H1 & H2 & H3 & H4 & H5). split; [done|]. exists header, k.
  repeat split; try done. unfold open_vault_header in H2.
  apply rbind_ok in H2 as (key' & _ & H2). apply rbind_ok in H2 as (v & H2 & E).
  injection E as <-. rewrite H2. f_equal. unfold verify_vault_header in H2.
  apply rbind_ok in H2 as (v' & Hv & H2). apply rbind_ok in H2 as (aad & _ & H2).
  apply rbind_ok in H2 as (o & _ & H2). destruct (decide _); [discriminate|]. injection H2 as <-.
  unfold header_requires_head in H3. destruct header; try discriminate.
  destruct (dict_get _ "head"); [discriminate|]. apply rbind_ok in H3 as (v2 & Hv2 & H3).
  rewrite Hv in Hv2. injection Hv2 as <-. injection H3 as H3. by apply py_eq_str_true.
Qed.

Lemma unlocks_key_length pass hdr key kdf : unlocks pass hdr key kdf -> length key = KEY_LEN.
Proof.
  intros (_ & header & k & _ & H2 & _). unfold open_vault_header in H2.
  apply rbind_ok in H2 as (key' & H & H2). apply reraise_as_ok in H.
  apply rbind_ok in H2 as (v & _ & E). injection E as <-.
  apply rbind_ok in H as (kd & _ & H). apply rbind_ok in H as (ps & _ & H).
  by eapply derive_key_length.
Qed.

Lemma universal_newlines_app hdr rest : no_return hdr ->
  universal_newlines (hdr ++ newline :: rest) = (hdr ++ newline :: universal_newlines rest)%list.
Proof.
  induction 1 as [|c l Hc Hl IH]; [done|]. cbn [app universal_newlines].
  destruct (N.eqb_spec (code c) 13); [done|]. by rewrite IH.
Qed.

(** Opening a log whose head names its committed prefix yields a handle on that prefix,
    whatever the quick look at the end of the file concluded. *)
Lemma open_vault pass hdr key kdf rs evs suffix fast :
  unlocks pass hdr key kdf -> chain 0 GENESIS rs -> Forall2 (holds key) rs evs ->
  fast_committed_boundary (log_bytes hdr rs suffix) (length rs) (last_hash GENESIS rs) = Ok fast ->
  exists s' suffix', (suffix' = suffix \/ suffix' = [])
    /\ fst (open env (Some (log_bytes hdr rs suffix))
             (Some (write_head key (length rs) (JStr (last_hash GENESIS rs)))) pass) = Ok s'
    /\ vault hdr rs evs suffix' s' /\ idle me (st_handle s')
    /\ h_commit_observer (st_handle s') = None
    /\ h_key (st_handle s') = key /\ h_kdf (st_handle s') = kdf.
Proof.
  intros Hu Hc H2 Hf. pose proof (unlocks_authentic _ _ _ _ Hu) as Ha.
  pose proof (unlocks_key_length _ _ _ _ Hu) as Hk.
  destruct Hu as (Hl & header & k & H1 & Ho & H3 & H4 & H5).
  unfold open, open_existing.
  assert (E : header_line_of (universal_newlines (log_bytes hdr rs suffix)) = (hdr ++ [newline])%list).
  { unfold log_bytes, header_line_of. rewrite universal_newlines_app by apply printable_no_return, Hl.
    by rewrite readline_line by (by apply header_line_no_newline). }
  rewrite E. clear E. destruct (proj2 Hl) as [m Hm].
  rewrite decide_False by (rewrite Hm; apply strip_brace_nonempty).
  rewrite H1. cbn [rbind]. rewrite Ho. cbn [rbind]. rewrite H3. cbn [rbind].
  rewrite authenticated_write_head. cbn [rbind]. rewrite Hf. cbn [rbind].
  set (log' := match fast with Some _ => log_bytes hdr rs suffix | None => log_bytes hdr rs [] end).
  set (h := set_head_required true (set_committed_head (Some (length rs, last_hash GENESIS rs))
    (new_handle key kdf (length rs) (JStr (last_hash GENESIS rs))
       (match fast with Some e => e | None => committed_size hdr rs end)))).
  exists (mkStore (Some log') (Some (write_head key (length rs) (JStr (last_hash GENESIS rs)))) h),
    (match fast with Some _ => suffix | None => [] end).
  split; [destruct fast; auto|]. split; [|split; [|by repeat split]].
  - destruct fast as [e|].
    + cbn [rbind]. rewrite H4. cbn [rbind]. rewrite H5. cbn [rbind].
      unfold check_head. rewrite authenticated_write_head. cbn [rbind].
      cbn -[write_head]. rewrite bool_decide_true by done. by rewrite String.eqb_refl.
    + rewrite recover_written; [|by apply header_line_no_newline|done|done|done].
      cbn [rbind]. rewrite H4. cbn [rbind]. rewrite H5. cbn [rbind].
      unfold check_head. rewrite authenticated_write_head. cbn [rbind].
      cbn -[write_head]. rewrite bool_decide_true by done. by rewrite String.eqb_refl.
  - unfold log'. split; try done; [by destruct fast|]. cbn. by rewrite firstn_all.
Qed.

Lemma KdfParams_to_dict_wf kdf : wf_json (KdfParams_to_dict kdf).
Proof. split; [nodup_keys|done]. Qed.

(** The header line a new store writes: it unlocks with the passphrase it was made from. *)
Lemma new_log_unlocks pass header key log :
  new_log env pass = Ok (header, key, log) ->
  exists hdr, log = log_bytes hdr [] []
    /\ unlocks pass hdr key (KdfParams_new (o_salt env))
    /\ py_getitem header "kdf" = Ok (KdfParams_to_dict (KdfParams_new (o_salt env))).
Proof.
  unfold new_log. intros H. apply rbind_ok in H as ([header' key'] & H & E).
  injection E as <- <- <-. pose proof (verify_new _ _ _ _ _ _ H) as Hv.
  unfold new_vault_header in H. apply rbind_ok in H as (aad & Ha & H).
  apply rbind_ok in H as (k' & Hk & H). apply rbind_ok in H as (check & Hs & H).
  injection H as <- <-.
  set (hd := JObj [("v", JStr HEAD_BOUND_HEADER_VERSION);
    ("kdf", KdfParams_to_dict (KdfParams_new (o_salt env))); ("check", check)]) in *.
  assert (Hw : wf_json hd).
  { apply wf_obj. split; [nodup_keys|]. rewrite !Forall_cons. split; [done|].
    split; [apply KdfParams_to_dict_wf|]. split; [by eapply seal_wf|by constructor]. }
  exists (dumps Spaced hd). split; [done|]. split; [|done].
  split; [by apply obj_header_line|]. exists hd, (KdfParams_to_dict (KdfParams_new (o_salt env))).
  split; [by apply loads_line|]. split; [|split; [done|split; [done|apply KdfParams_round]]].
  unfold open_vault_header. cbn [py_getitem hd dict_get String.eqb Ascii.eqb Bool.eqb].
  cbn [res_of_option]. change (py_getitem hd "kdf") with (Ok (KdfParams_to_dict (KdfParams_new (o_salt env)))).
  cbn [rbind]. rewrite KdfParams_round. cbn [rbind]. rewrite Hk. cbn [reraise_as rbind].
  by rewrite Hv.
Qed.

(** A new store is an empty vault. *)
Lemma open_new_vault pass s : open_new env pass = Ok s ->
  exists hdr, vault hdr [] [] [] s /\ at_tail hdr [] (st_handle s) /\ idle me (st_handle s)
    /\ unlocks pass hdr (h_key (st_handle s)) (h_kdf (st_handle s))
    /\ h_commit_observer (st_handle s) = None.
Proof.
  unfold open_new. intros H. apply rbind_ok in H as ([[header key] log] & Hn & H).
  apply new_log_unlocks in Hn as (hdr & -> & Hu & Hd). rewrite Hd in H. cbn [rbind] in H.
  rewrite KdfParams_round in H. cbn [rbind] in H.
  rewrite iter_raw_committed in H by (apply Hu || constructor).
  cbn [take_limit List.map legacy_tail rbind] in H. injection H as <-.
  exists hdr. pose proof (unlocks_key_length _ _ _ _ Hu).
  pose proof (unlocks_authentic _ _ _ _ Hu) as Ha.
  split; [|split; [|split; [by repeat split|by split]]].
  - split; try done; try constructor; try done.
  - repeat split. cbn -[log_bytes]. rewrite log_bytes_length. cbn [length]. lia.
Qed.

(** *** Reading *)
Lemma snapshot_vault hdr rs evs suffix s : vault hdr rs evs suffix s -> idle me (st_handle s) ->
  exists s', snapshot_events_with_identity me env s
      = (Ok (evs, (Some (length rs), Some (JStr (last_hash GENESIS rs)), committed_size hdr rs)), s')
    /\ ready hdr rs evs s' /\ same_keys s s'.
Proof.
  intros V I. pose proof (synced_vault _ _ _ _ _ V) as [V1 T1].
  pose proof (reread_vault _ _ _ _ _ V) as Er. destruct I as (Hw & Hd & Ho).
  destruct (events_vault hdr rs evs (synced hdr rs s) V1 T1) as (c & Hc & Ee); [done|].
  exists (with_handle (set_decrypted c) (synced hdr rs s)). split; [|split; [split; [|done]|done]].
  - unfold snapshot_events_with_identity. unfold mbind at 1. rewrite usable_idle by done.
    rewrite (locked_present _ _ _ (v_log _ _ _ _ _ V)).
    unfold mbind at 1, marking_failure, on_exception. rewrite Er.
    unfold mbind at 1. rewrite Ee. done.
  - destruct V1. split; done.
Qed.

Lemma refuse_idle s : idle me (st_handle s) -> refuse_decision_reentry me s = (Ok tt, s).
Proof.
  intros (Hw & Hd & Ho). unfold refuse_decision_reentry, refuse_observer_reentry,
    the_handle, getting, mbind. rewrite decide_False by done. cbn [mret].
  by rewrite decide_False by done.
Qed.

Lemma snapshot_events_vault hdr rs evs suffix s :
  vault hdr rs evs suffix s -> idle me (st_handle s) ->
  exists s', snapshot_events me env s = (Ok evs, s') /\ ready hdr rs evs s' /\ same_keys s s'.
Proof.
  intros V I. destruct (snapshot_vault _ _ _ _ _ V I) as (s' & E & R & K).
  exists s'. split; [|done]. unfold snapshot_events, mbind. rewrite refuse_idle by done. by rewrite E.
Qed.

(** The committed form of a record and its event. *)
Definition entry (r : wrec) (e : Event) : CommittedEvent :=
  mkCommitted (JInt (Z.of_nat (w_seq r))) (JStr (w_hash r)) (ImmutableEvent_from_event e).

Lemma immutable_holds key r e : holds key r e ->
  exists kv, open_record key (w_raw r) = Ok (JObj kv)
    /\ forall fresh, immutable_event fresh (JObj kv) = Ok (ImmutableEvent_from_event e).
Proof.
  intros (kv & d & i & Ho & Hd & Hf & Hi & Hne). exists kv. split; [done|]. intros fresh.
  unfold immutable_event. cbn [py_get py_get_default]. rewrite Hd. cbn [rbind]. rewrite Hi.
  destruct (String.eqb_spec i EmptyString); [done|]. by rewrite Hf.
Qed.

Lemma committed_event_holds key seq r e : holds key r e ->
  committed_event env key seq (w_raw r) = Ok (entry r e).
Proof.
  intros (kv & Ho & Hi)%immutable_holds. unfold committed_event. rewrite Ho. cbn [rbind].
  by rewrite Hi.
Qed.

Lemma committed_entries_holds key start seq prev rs evs :
  chain seq prev rs -> Forall2 (holds key) rs evs ->
  committed_entries env key start seq (List.map w_raw rs) (JStr prev)
  = Ok (drop (Z.to_nat start - seq) (zip_with entry rs evs)).
Proof.
  intros Hc H2. revert seq prev Hc. induction H2 as [|r e rs evs Hh H2 IH]; intros seq prev Hc.
  - cbn [zip_with]. by rewrite drop_nil.
  - destruct Hc as (Hs & Hp & _ & Hc). cbn [List.map committed_entries].
    pose proof (immutable_holds _ _ _ Hh) as (kv & Ho & Hi).
    rewrite Ho. cbn [raw_seq raw_prev raw_hash w_raw]. rewrite Hs, py_eq_int_refl, Hp.
    rewrite bool_decide_true, hash_w_raw, py_eq_str_refl by done. cbn [andb negb rbind].
    rewrite Hi, (IH _ _ Hc). cbn [rbind zip_with].
    destruct (Z.leb_spec start (Z.of_nat seq)).
    + replace (Z.to_nat start - S seq) with 0 by lia. replace (Z.to_nat start - seq) with 0 by lia.
      cbn [drop]. unfold entry at 2. by rewrite Hs.
    + replace (Z.to_nat start - seq) with (S (Z.to_nat start - S seq)) by lia. done.
Qed.

Lemma rmap_id_ok {A} (l : list A) : rmap (fun r => r) (List.map Ok l) = Ok l.
Proof. induction l as [|a l IH]; [done|]. cbn. by rewrite IH. Qed.

(** The scan of a synchronized handle decrypts every committed record. *)
Lemma entries_vault hdr rs evs s start : vault hdr rs evs [] s -> at_tail hdr rs (st_handle s) ->
  committed_entries_unlocked env start None s
  = Ok (drop (Z.to_nat start) (zip_with entry rs evs), committed_size hdr rs).
Proof.
  intros V (Tc & _). unfold committed_entries_unlocked. rewrite (v_log _ _ _ _ _ V), Tc.
  destruct (v_header _ _ _ _ _ V) as (Hl & _).
  rewrite iter_raw_committed by (done || eapply chain_sealed, v_chain, V). cbn [take_limit].
  rewrite firstn_all, <- (List.map_map w_raw Ok), rmap_id_ok. cbn [rbind].
  rewrite length_map, decide_False by (intros H; by apply H).
  rewrite (committed_entries_holds _ start 0 GENESIS rs evs (v_chain _ _ _ _ _ V) (v_events _ _ _ _ _ V)).
  cbn [rbind]. unfold the_log. rewrite (v_log _ _ _ _ _ V). cbn [from_option id].
  rewrite log_bytes_length, Nat.sub_0_r. cbn [length]. by rewrite Nat.add_0_r.
Qed.

Lemma committed_snapshot_vault hdr rs evs suffix s :
  vault hdr rs evs suffix s -> idle me (st_handle s) ->
  committed_snapshot me env s
  = (Ok (mkSnapshot (identity_for (h_key (st_handle s)) (length rs) (JStr (last_hash GENESIS rs))
                       (committed_size hdr rs)) (zip_with entry rs evs)),
     synced hdr rs s).
Proof.
  intros V I. pose proof (synced_vault _ _ _ _ _ V) as [V1 T1].
  unfold committed_snapshot. unfold mbind at 1. rewrite usable_idle by done.
  rewrite (locked_present _ _ _ (v_log _ _ _ _ _ V)).
  unfold mbind at 1, marking_failure, on_exception. unfold mbind at 1.
  rewrite (reread_vault _ _ _ _ _ V). unfold mbind at 1, mget, mlift.
  rewrite (entries_vault _ _ _ _ 0 V1 T1). done.
Qed.

Lemma verify_committed_vault hdr rs evs suffix s :
  vault hdr rs evs suffix s -> idle me (st_handle s) ->
  verify_committed_log me env s
  = (Ok (identity_for (h_key (st_handle s)) (length rs) (JStr (last_hash GENESIS rs))
           (committed_size hdr rs)), synced hdr rs s).
Proof.
  intros V I. pose proof (synced_vault _ _ _ _ _ V) as [V1 T1].
  unfold verify_committed_log. unfold mbind at 1. rewrite usable_idle by done.
  rewrite (locked_present _ _ _ (v_log _ _ _ _ _ V)).
  unfold mbind at 1, marking_failure, on_exception. unfold mbind at 1.
  rewrite (reread_vault _ _ _ _ _ V). unfold mbind at 1, mget, mlift.
  rewrite (entries_vault _ _ _ _ 0 V1 T1). done.
Qed.

(** *** Suffix reads *)
Lemma log_bytes_drop hdr rs suffix k : k <= length rs ->
  drop (committed_size hdr (take k rs)) (log_bytes hdr rs suffix)
  = (w_lines (drop k rs) ++ suffix)%list.
Proof.
  intros Hk. rewrite <- (take_drop k rs) at 2. unfold log_bytes, committed_size.
  rewrite w_lines_app, <- !app_assoc.
  replace (hdr ++ newline :: w_lines (take k rs) ++ w_lines (drop k rs) ++ suffix)%list
    with ((hdr ++ newline :: w_lines (take k rs)) ++ w_lines (drop k rs) ++ suffix)%list
    by (by rewrite <- app_assoc).
  rewrite drop_app_length'; [done|]. rewrite length_app. cbn [length]. lia.
Qed.

Lemma w_lines_last rs : rs <> [] -> exists d, w_lines rs = (d ++ [newline])%list.
Proof.
  destruct rs as [|r rs _] using rev_ind; [done|]. intros _. rewrite w_lines_app.
  cbn [w_lines List.map List.concat]. destruct (w_line_last r) as [d ->].
  exists (w_lines rs ++ d)%list. by rewrite app_nil_r, <- app_assoc.
Qed.

(** Every committed boundary follows a newline. *)
Lemma boundary_newline hdr rs suffix k : k <= length rs ->
  log_bytes hdr rs suffix !! (committed_size hdr (take k rs) - 1) = Some newline.
Proof.
  intros Hk. assert (H : exists d, log_bytes hdr rs suffix
    = (d ++ newline :: w_lines (drop k rs) ++ suffix)%list /\ length d = committed_size hdr (take k rs) - 1).
  { assert (E : log_bytes hdr rs suffix = log_bytes hdr (take k rs ++ drop k rs) suffix)
      by (by rewrite take_drop).
    rewrite E. unfold log_bytes, committed_size. rewrite w_lines_app.
    destruct (decide (take k rs = [])) as [->|Hne].
    - exists hdr. cbn. split; [done|lia].
    - destruct (w_lines_last _ Hne) as [d ->]. exists (hdr ++ newline :: d)%list.
      rewrite <- !app_assoc. split; [done|].
      rewrite !length_app. cbn [length]. lia. }
  destruct H as (d & -> & <-). by rewrite list_lookup_middle.
Qed.

(** The cursor of the first [k] records of a log. *)
Definition cursor (key hdr : bytes) (rs : list wrec) (k : nat) : CommittedIdentity :=
  identity_for key k (JStr (last_hash GENESIS (take k rs))) (committed_size hdr (take k rs)).

Lemma cursor_authentic key hdr rs k : cursor_accepted key (cursor key hdr rs k) = Ok true.
Proof.
  unfold cursor_accepted. cbn [cursor identity_for id_end_offset id_cursor_mac id_count id_head_hash].
  destruct (Z.ltb_spec (Z.of_nat (committed_size hdr (take k rs))) 0); [lia|].
  by apply compare_digest_refl, hexlify_ascii.
Qed.

(** From a cursor of this log the walk yields exactly the later records. *)
Lemma suffix_from_cursor hdr rs evs suffix s k : vault hdr rs evs suffix s -> k <= length rs ->
  committed_suffix_from_cursor env s (cursor (h_key (st_handle s)) hdr rs k) (length rs)
    (last_hash GENESIS rs)
  = Ok (drop k (zip_with entry rs evs), committed_size hdr rs).
Proof.
  intros V Hk. unfold committed_suffix_from_cursor.
  cbn [cursor identity_for id_end_offset id_cursor_mac id_count id_head_hash].
  unfold the_log. rewrite (v_log _ _ _ _ _ V). cbn [from_option id]. rewrite !Nat2Z.id.
  assert (Hsz : committed_size hdr rs
                = committed_size hdr (take k rs) + length (w_lines (drop k rs))).
  { rewrite <- (take_drop k rs) at 1. by rewrite committed_size_app. }
  rewrite decide_False by (rewrite log_bytes_length; lia).
  rewrite bool_decide_eq_true_2 with (P := log_bytes _ _ _ !! _ = _) by (by apply boundary_newline).
  rewrite andb_false_r. cbn [raise_if rbind]. rewrite log_bytes_drop by done.
  pose proof (v_chain _ _ _ _ _ V) as Hc. rewrite <- (take_drop k rs) in Hc.
  apply chain_app in Hc as [_ Hc]. rewrite length_take_le, Nat.add_0_l in Hc by done.
  rewrite <- (length_drop rs k).
  rewrite (scan_written _ (drop k rs) (drop k (zip_with entry rs evs))).
  - cbn [reraise_as rbind]. rewrite <- last_hash_app, take_drop, py_eq_str_refl. cbn [negb].
    by rewrite Hsz.
  - exact Hc.
  - apply Forall2_drop. pose proof (v_events _ _ _ _ _ V) as H2.
    clear -H2. induction H2 as [|r e rs evs Hh H2 IH]; constructor; [|done].
    by apply committed_event_holds.
Qed.

Lemma suffix_after_vault hdr rs evs suffix s k :
  vault hdr rs evs suffix s -> idle me (st_handle s) -> k <= length rs ->
  committed_suffix_after me env (cursor (h_key (st_handle s)) hdr rs k) s
  = (Ok (mkSnapshot (identity_for (h_key (st_handle s)) (length rs) (JStr (last_hash GENESIS rs))
                       (committed_size hdr rs)) (drop k (zip_with entry rs evs))), s).
Proof.
  intros V I Hk. unfold committed_suffix_after. unfold mbind at 1. rewrite refuse_idle by done.
  cbn [cursor identity_for id_count id_head_hash is_str negb].
  destruct (Z.ltb_spec (Z.of_nat k) 0); [lia|]. cbn [orb].
  unfold mbind at 1. rewrite usable_idle by done. rewrite (locked_present _ _ _ (v_log _ _ _ _ _ V)).
  unfold marking_unless_mismatch. unfold mbind at 1, mget. unfold mbind at 1, mlift.
  rewrite (vault_authenticates _ _ _ _ _ V). unfold mbind at 1.
  rewrite (v_head _ _ _ _ _ V), authenticated_write_head.
  destruct (Z.ltb_spec (Z.of_nat (length rs)) (Z.of_nat k)); [lia|].
  unfold mbind at 1. change (mkIdentity _ _ _ _) with (cursor (h_key (st_handle s)) hdr rs k).
  rewrite cursor_authentic. cbn [negb].
  assert (E : (Z.of_nat k =? Z.of_nat (length rs))%Z
    && negb (py_eq_str (JStr (last_hash GENESIS (take k rs))) (last_hash GENESIS rs)) = false).
  { destruct (Z.eqb_spec (Z.of_nat k) (Z.of_nat (length rs))) as [E|]; [|done].
    replace k with (length rs) by lia. by rewrite firstn_all, py_eq_str_refl. }
  rewrite E. unfold mbind. by rewrite (suffix_from_cursor _ _ _ _ _ _ V Hk).
Qed.

(** *** Forking *)

(** The handle's tail names some earlier commit of this chain. *)
Definition at_commit (hdr : bytes) (rs : list wrec) (k : nat) (h : handle) : Prop :=
  k <= length rs /\ h_count h = k /\ h_last_hash h = JStr (last_hash GENESIS (take k rs))
  /\ h_size h = committed_size hdr (take k rs).

Lemma at_tail_commit hdr rs h : at_tail hdr rs h -> at_commit hdr rs (length rs) h.
Proof. intros (H1 & H2 & H3 & _). split; [done|]. rewrite firstn_all. done. Qed.

Lemma trusted_end_vault hdr rs evs suffix s k :
  vault hdr rs evs suffix s -> at_commit hdr rs k (st_handle s) ->
  trusted_end env s (length rs) (last_hash GENESIS rs) = Ok (committed_size hdr rs).
Proof.
  intros V (Hk & Tc & Tl & Ts). pose proof (boundary_newline hdr rs suffix k Hk) as Hb.
  unfold trusted_end. rewrite Tc, Tl, Ts. unfold the_log. rewrite (v_log _ _ _ _ _ V).
  cbn [from_option id]. destruct (decide (length rs = k)) as [Ek|Ek].
  - rewrite (bool_decide_eq_true_2 (_ !! _ = _)) by done. rewrite andb_false_r.
    rewrite <- Ek, firstn_all, decide_False by (rewrite log_bytes_length; lia). done.
  - pose proof (suffix_from_cursor hdr rs evs suffix s k V Hk) as E. unfold cursor in E.
    by rewrite E.
Qed.

Lemma refresh_vault hdr rs evs suffix s k :
  vault hdr rs evs suffix s -> at_commit hdr rs k (st_handle s) ->
  refresh_trusted_tail env s = (Ok tt, synced hdr rs s).
Proof.
  intros V T. pose proof (vault_authenticates _ _ _ _ _ V) as Ha.
  assert (Hm : authenticated_mode s = (Ok true, s)).
  { unfold authenticated_mode, mbind, mget, mlift. rewrite Ha. cbn [negb].
    by rewrite andb_false_r. }
  unfold refresh_trusted_tail. unfold mbind at 1. rewrite Hm. cbn [negb].
  unfold mbind at 1, update, mmodify.
  set (s1 := with_handle (set_head_required true) s).
  assert (V1 : vault hdr rs evs suffix s1) by (by apply vault_handle).
  pose proof (trusted_end_vault _ _ _ _ s1 k V1 T) as Et.
  destruct T as (Hk & Tc & Tl & Ts).
  unfold mbind at 1, mget. unfold mbind at 1, mlift at 1.
  rewrite (v_head _ _ _ _ _ V1), authenticated_write_head.
  change (h_count (st_handle s1)) with (h_count (st_handle s)).
  change (h_last_hash (st_handle s1)) with (h_last_hash (st_handle s)).
  rewrite Tc, Tl. rewrite bool_decide_eq_false_2 by lia. cbn [orb].
  assert (E : bool_decide (length rs = k)
    && negb (py_eq_str (JStr (last_hash GENESIS (take k rs))) (last_hash GENESIS rs)) = false).
  { destruct (bool_decide (length rs = k)) eqn:E; [|done]. apply bool_decide_eq_true in E.
    rewrite <- E. by rewrite firstn_all, py_eq_str_refl. }
  rewrite E. clear E. unfold mbind at 1, mlift. rewrite Et.
  pose proof (v_log _ _ _ _ _ V) as Hl. unfold the_log. change (st_log s1) with (st_log s).
  rewrite Hl. cbn [from_option id].
  case_bool_decide as Hs; cbn [mwhen].
  - by rewrite log_bytes_take.
  - rewrite log_bytes_length in Hs. destruct suffix as [|c suffix]; [|cbn in Hs; lia].
    unfold synced, mbind, mret, s1, with_handle. cbn. by rewrite Hl.
Qed.

(** The handle a fork returns: the shared key, the committed tail, and nothing else. *)
Definition forked (hdr : bytes) (rs : list wrec) (s : store) : handle :=
  set_committed_head (Some (length rs, last_hash GENESIS rs))
    (set_head_required true
      (new_handle (h_key (st_handle s)) (h_kdf (st_handle s)) (length rs)
         (JStr (last_hash GENESIS rs)) (committed_size hdr rs))).

Lemma fork_vault hdr rs evs suffix s k :
  vault hdr rs evs suffix s -> idle me (st_handle s) -> at_commit hdr rs k (st_handle s) ->
  fork me env s = (Ok (forked hdr rs s), synced hdr rs s).
Proof.
  intros V I T. unfold fork. unfold mbind at 1. rewrite refuse_idle by done.
  unfold mbind at 1, the_handle, getting. rewrite (proj1 I).
  rewrite (locked_present _ _ _ (v_log _ _ _ _ _ V)).
  unfold mbind at 1, marking_failure, on_exception. by rewrite (refresh_vault _ _ _ _ _ k V T).
Qed.

Lemma forked_vault hdr rs evs suffix s : vault hdr rs evs suffix s ->
  vault hdr rs evs [] (mkStore (Some (log_bytes hdr rs [])) (st_head s) (forked hdr rs s))
  /\ at_tail hdr rs (forked hdr rs s) /\ idle me (forked hdr rs s).
Proof.
  intros []. split; [split; try done|by repeat split].
  cbn. by rewrite firstn_all.
Qed.
End laws.

(** * A concrete cipher, clock and vault

    The theorems quantify over the cipher library, the clock and the random draws.  This
    file gives one instance of each, on which the witnesses evaluate.  The cipher is not
    secret; it obeys the laws, and binds key, nonce and associated data. *)
(** A digest of the key, the nonce and the associated data, in front of the text. *)
Definition tag (key nonce aad : bytes) : bytes :=
  enc (sha256_hex (enc (hexlify key) ++ enc ":" ++ enc (hexlify nonce) ++ enc ":" ++ enc (hexlify aad))%list).
Definition clear_cipher : CryptoLib := {|
  aead_encrypt key nonce pt aad := (tag key nonce aad ++ pt)%list;
  aead_decrypt key nonce ct aad := starts_with (tag key nonce aad) ct;
  scrypt salt n r p pass := Some (take 32 (pass ++ salt ++ repeat "k"%char 32))%list
|}.

#[export] Instance clear_laws : CryptoLaws clear_cipher.
Proof.
  split.
  - intros. apply starts_with_app.
  - intros salt n r p pass key [= <-]. rewrite length_take, !length_app. cbn [length]. unfold KEY_LEN. lia.
Qed.

Definition a_salt : bytes := repeat "s"%char 16.
Definition an_oracle : oracle := {|
  o_recorded_at _ := "2026-01-01T00:00:00Z";
  o_nonce i := repeat (chr (N.of_nat i)) 12;
  o_header_nonce := repeat "h"%char 12;
  o_salt := a_salt;
  o_uuid _ := "00000000000000000000000000000000"
|}.

Definition an_event (name : string) : Event :=
  mkEvent (JStr "account.opened") (JStr "2026-01-01") (JObj [("account", JStr name)])
    Provenance_empty (JStr ("event-" ++ name)).

Lemma an_event_storable name : storable (an_event name).
Proof.
  split; [repeat split; try done; nodup_keys|]. by exists ("event-" ++ name).
Qed.

(** A store just created, under this cipher. *)
Definition a_key : bytes := take 32 (enc "open sesame" ++ a_salt ++ repeat "k"%char 32)%list.
Definition a_store : store :=
  match open_new (lib := clear_cipher) an_oracle "open sesame" with
  | Ok s => s
  | Raise _ => mkStore None None (new_handle [] (KdfParams_new []) 0 JNull 0)
  end.

Lemma a_store_opens : open_new (lib := clear_cipher) an_oracle "open sesame" = Ok a_store.
Proof. vm_compute. reflexivity. Qed.

Lemma a_store_vault : exists hdr,
  vault (lib := clear_cipher) hdr [] [] [] a_store /\ at_tail hdr [] (st_handle a_store)
  /\ idle 0 (st_handle a_store)
  /\ unlocks (lib := clear_cipher) "open sesame" hdr (h_key (st_handle a_store)) (h_kdf (st_handle a_store))
  /\ h_commit_observer (st_handle a_store) = None.
Proof. apply open_new_vault with (env := an_oracle); [apply _ | apply a_store_opens]. Qed.

#[global] Opaque a_store.
