(* ===== verification/VaultProperties.v ===== *)
(** * VaultProperties: the guarantees of the event store

    Commit, failure, crash and recovery; what a successful read proves about the disk;
    what tampering, rollback and re-entry meet.  Every statement is about the methods of
    EventStore as they are written. *)
From Stdlib Require Import ZArith NArith Ascii String Lia.
From stdpp Require Import base list numbers strings.
From S2P Require Import Prelude Text Json Hashing Crypto Events StoreFormat StoreLaws EventStore VaultLaws.
From S2P Require Import VaultLaws.
#[local] Open Scope string_scope.

(** A commit observer that leaves the store alone; it may raise. *)
Definition quiet (observe : nat -> witness -> M store unit) : Prop :=
  forall o w s, snd (observe o w s) = s.

(** A decision that, shown [seen], asks for [news] and touches nothing. *)
Definition decides (dec : list Event -> M store (list item)) (seen news : list Event) : Prop :=
  forall s, dec seen s = (Ok (List.map IEvent news), s).

(** The batch's faults; the others belong to the adoption of a legacy log. *)
Definition batch_fault (ft : fault) : bool :=
  match ft with NoFault | BatchFails _ | HeadFails _ => true | _ => false end.

Section append.
Context `{lib : CryptoLib} (me : nat) (env : oracle) `{laws : !CryptoLaws lib}.

(** The process dies inside [append_atomically], at the point of its writes [ft] names:
    what it had done to the store by then. *)
Definition interrupted (ft : fault) (dec : list Event -> M store (list item)) : M store unit :=
  run! usable me;
  locked
    (run! marking_failure reread_tail;
     do! current <- events_unlocked env;
     do! events <- run_decision me dec current;
     match events with
     | [] => mret tt
     | _ :: _ =>
         run! adopt_head env ft;
         do! h <- the_handle;
         do! (records, content, count, last) <-
           mlift (prepare env (h_key h) 0 (h_count h) (h_last_hash h) events);
         run! write_batch ft content count last;
         mret tt
     end).

Lemma notify_ready hdr rs evs observe s : quiet observe -> ready me hdr rs evs s ->
  exists s', notify_commit me observe s = (Ok tt, s') /\ ready me hdr rs evs s'
    /\ same_keys s s'.
Proof.
  intros Q R. unfold notify_commit, mbind, the_handle, getting.
  destruct (h_commit_observer (st_handle s)) as [o|] eqn:Eo; [|by exists s].
  unfold update, mmodify.
  set (s1 := with_handle (set_observer_owner (Some me)) s).
  pose proof (Q o (cached_identity (st_handle s1)) s1) as E.
  destruct (observe o (cached_identity (st_handle s1)) s1) as [r s2]. cbn in E. subst s2.
  eexists. split; [reflexivity|]. split; [|done].
  destruct R as (V & T & Hw & Hd & Ho). split; [|split; [exact T|]].
  - by repeat apply vault_handle.
  - repeat split; try done.
Qed.

Lemma append_result hdr rs evs suffix s ft dec observe news :
  vault hdr rs evs suffix s -> idle me (st_handle s) -> decides dec evs news ->
  news <> [] -> Forall storable news -> quiet observe ->
  exists added s', length added = length news
    /\ append_atomically me env ft dec observe s
       = ((if fails ft then Raise OSError else Ok (List.map w_json added)), s')
    /\ same_keys s s'
    /\ (if committed_by ft
        then ready me hdr (rs ++ added) (evs ++ List.map canonical_event news) s'
        else ready me hdr rs evs s').
Proof.
  intros V I Hd Hne Hn Q.
  destruct (append_reads me env hdr rs evs suffix s ft dec observe news V I Hd) as (s2 & R & K1 & _ & E).
  destruct (commit_result me env hdr rs evs s2 ft news R Hne Hn) as (added & s3 & Hl & E2 & _ & K2 & R2).
  assert (K : same_keys s s3) by (destruct K1, K2; split; congruence).
  rewrite E. unfold mbind at 1. rewrite E2. destruct (fails ft) eqn:Ef; [by exists added, s3|].
  destruct (committed_by ft) eqn:Ec; [|by destruct ft as [| | | |[|]]].
  destruct (notify_ready _ _ _ observe s3 Q R2) as (s4 & E3 & R3 & K3).
  exists added, s4. split; [done|].
  split; [|split; [destruct K, K3; split; congruence|done]].
  unfold mbind. rewrite bool_decide_false; [cbn [negb mwhen]; by rewrite E3|].
  destruct added; [|done]. by destruct news.
Qed.

(** Where an interrupted append leaves the disk. *)
Lemma interrupted_disk hdr rs evs suffix s ft dec news :
  vault hdr rs evs suffix s -> idle me (st_handle s) -> decides dec evs news ->
  news <> [] -> Forall storable news ->
  exists added s2, length added = length news /\ ready me hdr rs evs s2
    /\ h_key (st_handle s2) = h_key (st_handle s) /\ h_kdf (st_handle s2) = h_kdf (st_handle s)
    /\ chain (length rs) (last_hash GENESIS rs) added
    /\ Forall2 (holds (h_key (st_handle s2))) added (List.map canonical_event news)
    /\ snd (interrupted ft dec s)
       = written ft (w_lines added)
           (write_head (h_key (st_handle s2)) (length (rs ++ added))
              (JStr (last_hash GENESIS (rs ++ added)))) s2.
Proof.
  intros V I Hd Hne Hn.
  destruct (read_phase me env _ _ _ _ _ _ _ V I Hd) as (s1 & s2 & R & [Hk Hkdf] & _ & E1 & E2 & E3).
  destruct (batch_prepared me env _ _ _ _ ft _ R Hn) as (added & Hl & Hc & H2 & Ep & Ew).
  exists added, s2. split; [done|]. split; [exact R|].
  split; [exact Hk|]. split; [exact Hkdf|].
  split; [done|]. split; [done|].
  pose proof R as (_ & (Tc & Tl & _ & _ & Tr) & _).
  unfold interrupted. unfold mbind at 1. rewrite usable_idle by done.
  rewrite (locked_present _ _ _ (v_log _ _ _ _ _ V)).
  unfold mbind at 1, marking_failure, on_exception. rewrite E1.
  unfold mbind at 1. rewrite E2. unfold mbind at 1. rewrite E3.
  destruct news as [|e0 news0] eqn:En; [done|]. rewrite <- En in *.
  unfold mbind at 1, adopt_head. unfold mbind at 1, the_handle at 1, getting. rewrite Tr.
  cbn [mret]. unfold mbind at 1, the_handle, getting. unfold mbind at 1, mlift at 1.
  rewrite Tc, Tl, Ep. unfold mbind at 1. rewrite Ew. by destruct (fails ft).
Qed.
End append.

Section properties.
Context `{lib : CryptoLib} (me : nat) (env : oracle) `{laws : !CryptoLaws lib}.

(** C1: an append commits exactly its decision.  On a vault holding [evs], whatever
    uncommitted bytes follow the commit, [append_atomically] hands [evs] to the decision
    and, when the decision asks for a nonempty batch of events, returns one record per
    event and leaves a vault holding [evs] followed by the batch, nothing after it, the
    handle at its end. *)
Theorem append_commits hdr rs evs suffix s dec observe news :
  vault hdr rs evs suffix s -> idle me (st_handle s) -> decides dec evs news ->
  news <> [] -> Forall storable news -> quiet observe ->
  exists added s', append_atomically me env NoFault dec observe s = (Ok (List.map w_json added), s')
    /\ length added = length news
    /\ vault hdr (rs ++ added) (evs ++ List.map canonical_event news) [] s'
    /\ at_tail hdr (rs ++ added) (st_handle s') /\ idle me (st_handle s').
Proof.
  intros V I Hd Hne Hn Q.
  destruct (append_result me env hdr rs evs suffix s NoFault dec observe news V I Hd Hne Hn Q)
    as (added & s' & Hl & E & _ & V' & T & W).
  exists added, s'. split; [exact E|]. split; [done|]. by split.
Qed.

(** C2: a failed append is all or nothing, and the handle knows which.  When the batch
    write or the head write raises, however many bytes reached the disk, the append
    raises and the vault holds either the events it held or, when the new head had
    already replaced the old one, those and the whole batch; no uncommitted bytes stay
    behind and the handle may append again. *)
Theorem append_failure_atomic hdr rs evs suffix s ft dec observe news :
  vault hdr rs evs suffix s -> idle me (st_handle s) -> decides dec evs news ->
  news <> [] -> Forall storable news -> quiet observe -> fails ft = true ->
  exists added s', append_atomically me env ft dec observe s = (Raise OSError, s')
    /\ length added = length news /\ idle me (st_handle s')
    /\ if committed_by ft
       then vault hdr (rs ++ added) (evs ++ List.map canonical_event news) [] s'
            /\ at_tail hdr (rs ++ added) (st_handle s')
       else vault hdr rs evs [] s' /\ at_tail hdr rs (st_handle s').
Proof.
  intros V I Hd Hne Hn Q Hf.
  destruct (append_result me env hdr rs evs suffix s ft dec observe news V I Hd Hne Hn Q)
    as (added & s' & Hl & E & _ & R). rewrite Hf in E.
  exists added, s'. split; [done|]. split; [done|].
  destruct (committed_by ft); destruct R as (V' & T & W); by split; [exact W|].
Qed.
End properties.

(** A toy run: the vault of VaultLaws, one batch of two events. *)
Definition a_batch : list Event := [an_event "checking"; an_event "savings"].
Definition a_decision (news : list Event) : list Event -> M store (list item) :=
  fun _ => mret (List.map IEvent news).
Lemma a_batch_storable : Forall storable a_batch.
Proof. do 2 (constructor; [apply an_event_storable|]). constructor. Qed.
Definition no_observer : nat -> witness -> M store unit := fun _ _ => mret tt.

Lemma append_commits_witness : exists hdr added s',
  append_atomically (lib := clear_cipher) 0 an_oracle NoFault (a_decision a_batch) no_observer a_store
    = (Ok (List.map w_json added), s')
  /\ vault (lib := clear_cipher) hdr added (List.map canonical_event a_batch) [] s'.
Proof.
  destruct a_store_vault as (hdr & V & T & I & _).
  destruct (append_commits (lib := clear_cipher) 0 an_oracle hdr [] [] [] a_store (a_decision a_batch) no_observer a_batch)
    as (added & s' & E & _ & V' & _).
  - exact V.
  - exact I.
  - intros s'. reflexivity.
  - discriminate.
  - apply a_batch_storable.
  - intros o w s'. reflexivity.
  - exists hdr, added, s'. split; [exact E|exact V'].
Defined.

Lemma append_failure_atomic_witness : exists hdr s',
  append_atomically (lib := clear_cipher) 0 an_oracle (BatchFails 7) (a_decision a_batch) no_observer
    a_store = (Raise OSError, s')
  /\ vault (lib := clear_cipher) hdr [] [] [] s'.
Proof.
  destruct a_store_vault as (hdr & V & T & I & _).
  destruct (append_failure_atomic (lib := clear_cipher) 0 an_oracle hdr [] [] [] a_store (BatchFails 7)
              (a_decision a_batch) no_observer a_batch)
    as (added & s' & E & _ & _ & V' & _).
  - exact V.
  - exact I.
  - intros s'. reflexivity.
  - discriminate.
  - apply a_batch_storable.
  - intros o w s'. reflexivity.
  - reflexivity.
  - exists hdr, s'. split; [exact E|exact V'].
Defined.

(** ** Crash and recovery *)
Section crash.
Context `{lib : CryptoLib} (me : nat) (env : oracle) `{laws : !CryptoLaws lib}.

(** A disk whose last batch was cut anywhere opens to the committed events. *)
Lemma reopen_torn pass hdr key kdf rs evs added k :
  unlocks pass hdr key kdf -> chain 0 GENESIS (rs ++ added) -> Forall2 (holds key) rs evs ->
  exists s' suffix',
    fst (open env (Some (log_bytes hdr rs (take k (w_lines added))))
           (Some (write_head key (length rs) (JStr (last_hash GENESIS rs)))) pass) = Ok s'
    /\ vault hdr rs evs suffix' s' /\ idle me (st_handle s')
    /\ h_key (st_handle s') = key /\ h_kdf (st_handle s') = kdf.
Proof.
  intros Hu Hc H2.
  assert (Hf : exists f, fast_committed_boundary (log_bytes hdr rs (take k (w_lines added)))
                           (length rs) (last_hash GENESIS rs) = Ok f).
  { destruct rs as [|r rs]; [apply fast_total_empty|].
    destruct (torn_last_line hdr (r :: rs) added k) as (a & b & -> & Hn);
      [by eapply chain_sealed|done|]. apply fast_total; [simpl; lia|done]. }
  destruct Hf as [f Hf]. apply chain_app in Hc as [Hc _].
  destruct (open_vault me env pass hdr key kdf rs evs _ f Hu Hc H2 Hf)
    as (s' & suffix' & _ & E & V & I & _ & K1 & K2).
  by exists s', suffix'.
Qed.

Lemma crash_then_open_full pass hdr rs evs suffix s ft dec news :
  vault hdr rs evs suffix s -> idle me (st_handle s) -> decides dec evs news ->
  unlocks pass hdr (h_key (st_handle s)) (h_kdf (st_handle s)) ->
  news <> [] -> Forall storable news -> batch_fault ft = true ->
  exists added s' suffix', length added = length news
    /\ fst (open env (st_log (snd (interrupted me env ft dec s)))
              (st_head (snd (interrupted me env ft dec s))) pass) = Ok s'
    /\ idle me (st_handle s')
    /\ h_key (st_handle s') = h_key (st_handle s) /\ h_kdf (st_handle s') = h_kdf (st_handle s)
    /\ if committed_by ft
       then vault hdr (rs ++ added) (evs ++ List.map canonical_event news) suffix' s'
       else vault hdr rs evs suffix' s'.
Proof.
  intros V I Hd Hu Hne Hn Hb.
  destruct (interrupted_disk me env _ _ _ _ _ ft _ _ V I Hd Hne Hn)
    as (added & s2 & Hl & (V2 & _) & Hk & Hkdf & Hc & H2 & ->).
  rewrite <- Hk, <- Hkdf in Hu |- *. pose proof (v_events _ _ _ _ _ V2) as Hev.
  pose proof (v_head _ _ _ _ _ V2) as Hhd.
  assert (Hca : chain 0 GENESIS (rs ++ added)) by (apply chain_app; split; [by destruct V2|done]).
  assert (Hlog : the_log s2 = log_bytes hdr rs []) by (unfold the_log; by rewrite (v_log _ _ _ _ _ V2)).
  assert (Hsuf : forall b, (log_bytes hdr rs [] ++ b = log_bytes hdr rs b)%list).
  { intros b. unfold log_bytes. by rewrite app_nil_r, <- app_assoc. }
  assert (Hold : forall k, exists s' suffix',
    fst (open env (Some (log_bytes hdr rs [] ++ take k (w_lines added))%list) (st_head s2) pass) = Ok s'
    /\ idle me (st_handle s')
    /\ h_key (st_handle s') = h_key (st_handle s2) /\ h_kdf (st_handle s') = h_kdf (st_handle s2)
    /\ vault hdr rs evs suffix' s').
  { intros k. destruct (reopen_torn pass hdr _ _ rs evs added k Hu Hca Hev) as (s' & x & E & V' & I' & K1 & K2).
    exists s', x. rewrite Hsuf, Hhd. done. }
  assert (Hnew : exists s' suffix',
    fst (open env (Some (log_bytes hdr rs [] ++ w_lines added)%list)
           (Some (write_head (h_key (st_handle s2)) (length (rs ++ added))
                    (JStr (last_hash GENESIS (rs ++ added))))) pass) = Ok s'
    /\ idle me (st_handle s')
    /\ h_key (st_handle s') = h_key (st_handle s2) /\ h_kdf (st_handle s') = h_kdf (st_handle s2)
    /\ vault hdr (rs ++ added) (evs ++ List.map canonical_event news) suffix' s').
  { destruct (reopen_torn pass hdr _ _ (rs ++ added) (evs ++ List.map canonical_event news) [] 0 Hu)
      as (s' & x & E & V' & I' & K1 & K2); [by rewrite app_nil_r|by apply Forall2_app|].
    exists s', x. by rewrite Hsuf, log_bytes_app. }
  exists added. unfold written. rewrite Hlog.
  destruct ft as [|b|k|k|[|]]; try discriminate; cbn [committed_by set_log set_head st_log st_head].
  - destruct Hnew as (s' & x & H). by exists s', x.
  - destruct (Hold k) as (s' & x & H). by exists s', x.
  - destruct Hnew as (s' & x & H). by exists s', x.
  - destruct (Hold (length (w_lines added))) as (s' & x & H). rewrite firstn_all in H. by exists s', x.
Qed.

(** C3: a crash loses nothing committed and invents nothing.  A process that dies inside
    [append_atomically], after any number of bytes of its batch or on either side of the
    head's rename, leaves a disk that opens with the passphrase to the vault it had or
    to that vault with the whole batch, the latter exactly when the head had been
    replaced. *)
Theorem crash_then_open pass hdr rs evs suffix s ft dec news :
  vault hdr rs evs suffix s -> idle me (st_handle s) -> decides dec evs news ->
  unlocks pass hdr (h_key (st_handle s)) (h_kdf (st_handle s)) ->
  news <> [] -> Forall storable news -> batch_fault ft = true ->
  exists added s' suffix', length added = length news
    /\ fst (open env (st_log (snd (interrupted me env ft dec s)))
              (st_head (snd (interrupted me env ft dec s))) pass) = Ok s'
    /\ idle me (st_handle s')
    /\ if committed_by ft
       then vault hdr (rs ++ added) (evs ++ List.map canonical_event news) suffix' s'
       else vault hdr rs evs suffix' s'.
Proof.
  intros V I Hd Hu Hne Hn Hb.
  destruct (crash_then_open_full _ _ _ _ _ _ ft _ _ V I Hd Hu Hne Hn Hb)
    as (added & s' & x & Hl & E & I' & _ & _ & H).
  by exists added, s', x.
Qed.
End crash.

Lemma crash_then_open_witness : exists hdr s' suffix',
  fst (open (lib := clear_cipher) an_oracle
         (st_log (snd (interrupted (lib := clear_cipher) 0 an_oracle (BatchFails 300) (a_decision a_batch) a_store)))
         (st_head (snd (interrupted (lib := clear_cipher) 0 an_oracle (BatchFails 300) (a_decision a_batch) a_store)))
         "open sesame") = Ok s'
  /\ vault (lib := clear_cipher) hdr [] [] suffix' s'.
Proof.
  destruct a_store_vault as (hdr & V & T & I & U & _).
  destruct (crash_then_open (lib := clear_cipher) 0 an_oracle "open sesame" hdr [] [] [] a_store
              (BatchFails 300) (a_decision a_batch) a_batch)
    as (added & s' & x & _ & E & _ & V').
  - exact V.
  - exact I.
  - intros s'. reflexivity.
  - exact U.
  - discriminate.
  - apply a_batch_storable.
  - reflexivity.
  - exists hdr, s', x. split; [exact E|exact V'].
Defined.

(** ** The store refines a list of events *)

(** What a client of the store sees happen. *)
Inductive label :=
  | Committed (news : list Event)
  | Unchanged
  | Saw (evs : list Event).

(** The abstract store: a list of events that only grows. *)
Definition spec_step (evs : list Event) (l : label) (evs' : list Event) : Prop :=
  match l with
  | Committed news => evs' = (evs ++ List.map canonical_event news)%list
  | Unchanged => evs' = evs
  | Saw seen => seen = evs /\ evs' = evs
  end.
Fixpoint spec_run (evs : list Event) (ls : list label) (evs' : list Event) : Prop :=
  match ls with
  | [] => evs' = evs
  | l :: ls' => exists evs1, spec_step evs l evs1 /\ spec_run evs1 ls' evs'
  end.

Section refinement.
Context `{lib : CryptoLib} (me : nat) (pass : string) `{laws : !CryptoLaws lib}.

Definition outcome (ft : fault) (news : list Event) : label :=
  if committed_by ft then Committed news else Unchanged.

(** One step of the concrete store: an append that may fail, a read, or a crash inside
    an append followed by a new process opening the files. *)
Inductive step : store -> label -> store -> Prop :=
  | step_append env ft news observe s r s' :
      batch_fault ft = true -> news <> [] -> Forall storable news -> quiet observe ->
      append_atomically me env ft (fun _ => mret (List.map IEvent news)) observe s = (r, s') ->
      step s (outcome ft news) s'
  | step_read env s evs s' :
      snapshot_events me env s = (Ok evs, s') -> step s (Saw evs) s'
  | step_crash env ft news s s1 s' :
      batch_fault ft = true -> news <> [] -> Forall storable news ->
      snd (interrupted me env ft (fun _ => mret (List.map IEvent news)) s) = s1 ->
      fst (open env (st_log s1) (st_head s1) pass) = Ok s' ->
      step s (outcome ft news) s'.

Inductive run : store -> list label -> store -> Prop :=
  | run_done s : run s [] s
  | run_step s l s1 ls s' : step s l s1 -> run s1 ls s' -> run s (l :: ls) s'.

(** The store's disk and handle stand for this list of events. *)
Definition stands_for (s : store) (evs : list Event) : Prop :=
  exists hdr rs suffix, vault hdr rs evs suffix s /\ idle me (st_handle s)
    /\ unlocks pass hdr (h_key (st_handle s)) (h_kdf (st_handle s)).

Lemma step_refines s l s' evs : step s l s' -> stands_for s evs ->
  exists evs', spec_step evs l evs' /\ stands_for s' evs'.
Proof.
  intros H (hdr & rs & suffix & V & I & U). destruct H as [env ft news observe s r s' Hb Hne Hn Q E
    | env s seen s' E | env ft news s s1 s' Hb Hne Hn E1 E2].
  - destruct (append_result me env hdr rs evs suffix s ft (fun _ => mret (List.map IEvent news))
                observe news V I (fun _ => eq_refl) Hne Hn Q) as (added & s2 & _ & E2 & [K1 K2] & R).
    rewrite E2 in E. injection E as _ <-. unfold outcome.
    destruct (committed_by ft); destruct R as (V' & _ & W); (eexists; split; [reflexivity|]);
      eexists _, _, _; rewrite K1, K2; (split; [exact V'|]); by split.
  - destruct (snapshot_events_vault me env _ _ _ _ _ V I) as (s2 & E2 & (V' & _ & W) & [K1 K2]).
    rewrite E2 in E. injection E as <- <-. exists evs. split; [done|].
    eexists _, _, _. rewrite K1, K2. split; [exact V'|]. by split.
  - destruct (crash_then_open_full me env pass _ _ _ _ _ ft (fun _ => mret (List.map IEvent news)) news V I (fun _ => eq_refl) U Hne Hn Hb)
      as (added & s2 & x & _ & Eo & I' & K1 & K2 & V').
    subst s1. rewrite Eo in E2. injection E2 as <-. unfold outcome.
    destruct (committed_by ft); (eexists; split; [reflexivity|]); eexists _, _, _; rewrite K1, K2;
      (split; [exact V'|]); by split.
Qed.

(** C4: the event store refines an append-only list.  Over any run of appends (committed,
    failed at any byte, failed on either side of the head's rename), snapshots, and
    crashes inside an append followed by a reopen, the store behaves as a list of events
    that each step leaves alone or extends by its whole batch, and every snapshot returns
    that list. *)
Theorem store_refines_list s ls s' evs : run s ls s' -> stands_for s evs ->
  exists evs', spec_run evs ls evs' /\ stands_for s' evs'.
Proof.
  intros H. revert evs. induction H as [s|s l s1 ls s' Hs Hr IH]; intros evs Hf.
  - by exists evs.
  - destruct (step_refines _ _ _ _ Hs Hf) as (evs1 & H1 & Hf1).
    destruct (IH _ Hf1) as (evs' & H2 & Hf'). exists evs'. split; [|done]. by exists evs1.
Qed.
End refinement.

Lemma a_run : exists s', run (lib := clear_cipher) 0 "open sesame" a_store
  [Committed a_batch; Saw (List.map canonical_event a_batch)] s'.
Proof.
  destruct a_store_vault as (hdr & V & T & I & U & _).
  destruct (append_result (lib := clear_cipher) 0 an_oracle hdr [] [] [] a_store NoFault (a_decision a_batch)
    no_observer a_batch V I (fun _ => eq_refl) ltac:(discriminate) a_batch_storable (fun _ _ _ => eq_refl))
    as (added & s1 & _ & E & _ & R).
  destruct R as (V1 & _ & W).
  destruct (snapshot_events_vault (lib := clear_cipher) 0 an_oracle _ _ _ _ _ V1 W) as (s2 & E2 & _).
  exists s2. eapply (run_step _ _ _ (outcome NoFault a_batch)).
  - eapply step_append; [done|discriminate|apply a_batch_storable| |exact E].
    intros o w s'. reflexivity.
  - eapply run_step; [by eapply step_read|]. constructor.
Qed.

Lemma store_refines_list_witness : exists s' evs',
  spec_run [] [Committed a_batch; Saw (List.map canonical_event a_batch)] evs'
  /\ stands_for (lib := clear_cipher) 0 "open sesame" s' evs'.
Proof.
  destruct a_run as [s' R]. destruct a_store_vault as (hdr & V & T & I & U & _).
  exists s'. apply (store_refines_list (lib := clear_cipher) 0 "open sesame" a_store _ s' []); [exact R|].
  exists hdr, [], []. split; [exact V|]. split; [exact I|exact U].
Defined.

(** ** What a successful read proves *)

(** A method raises [CryptoError], writes nothing to the log, and marks the handle. *)
Definition refused_for_good {A} (op : M store A) (s : store) : Prop :=
  exists s', op s = (Raise CryptoError, s') /\ st_log s' = st_log s
    /\ h_write_failed (st_handle s') = true.

Section soundness.
Context `{lib : CryptoLib} (me : nat) (env : oracle).

(** The records a replay accepted form a chain from the genesis hash. *)
Lemma replay_chain key i rs prev c es c' : replay env key i rs (JStr prev) c = (Ok es, c') ->
  exists raws, rs = List.map Ok raws /\ raw_chain prev raws /\ length es = length raws.
Proof.
  revert i prev c es c'. induction rs as [|[r|e] rs IH]; intros i prev c es c' H; [|  |discriminate].
  - injection H as <- <-. by exists [].
  - cbn [replay] in H. destruct (bool_decide (raw_prev r = JStr prev)) eqn:Ep; [|discriminate].
    apply bool_decide_eq_true in Ep. cbn [negb] in H.
    destruct (py_eq_str (raw_hash r) (hash_of r)) eqn:Eh; [|discriminate]. cbn [negb] in H.
    apply py_eq_str_true in Eh. rewrite Eh in H.
    apply mbind_ok in H as (k & c1 & _ & H). apply mbind_ok in H as (c2 & c3 & _ & H).
    apply mbind_ok in H as (d & c4 & _ & H). apply mbind_ok in H as (e & c5 & _ & H).
    apply mbind_ok in H as (es' & c6 & H & E). injection E as <- <-.
    apply IH in H as (raws & -> & Hc & Hl). exists (r :: raws). cbn. rewrite Hl. auto.
Qed.

Lemma set_log_present s l : st_log s = Some l -> set_log (the_log s) s = s.
Proof. intros H. destruct s as [lg hd h]. cbn in H. by subst. Qed.

Lemma locked_ok {A} (m : M store A) s a s' : locked m s = (Ok a, s') ->
  m (set_log (the_log s) s) = (Ok a, s').
Proof. done. Qed.

Lemma marking_failure_ok {A} (m : M store A) s a s' :
  marking_failure m s = (Ok a, s') -> m s = (Ok a, s').
Proof. unfold marking_failure, on_exception. destruct (m s) as [[]]; [done|discriminate]. Qed.

Lemma usable_ok s u s' : usable me s = (Ok u, s') -> s' = s /\ idle me (st_handle s).
Proof.
  unfold usable, refuse_decision_reentry, refuse_observer_reentry, the_handle, getting, mbind.
  destruct (decide (h_observer_owner _ = _)); [discriminate|]. cbn [mret].
  destruct (decide (h_decision_owner _ = _)); [discriminate|]. cbn [mret].
  destruct (h_write_failed (st_handle s)) eqn:E; [discriminate|]. intros [= _ <-]. by repeat split.
Qed.

(** A tail that was read again in head-required mode: what had to be true of the disk. *)
Lemma reread_sound s u s' : reread_tail s = (Ok u, s') ->
  h_head_required (st_handle s') = true ->
  exists c h size, authenticated_head (h_key (st_handle s)) (st_head s) true = Ok (Some (c, h))
    /\ committed_prefix_end (the_log s) c h (h_committed_head (st_handle s)) = Ok size
    /\ head_moved c h (h_committed_head (st_handle s)) = false
    /\ st_log s' = Some (take size (the_log s))
    /\ st_handle s' = set_tail c (JStr h) size (set_committed_head (Some (c, h))
                        (set_head_required true (st_handle s))).
Proof.
  unfold reread_tail. intros H Hr.
  apply mbind_ok in H as (req & s1 & H1 & H). unfold authenticated_mode in H1.
  apply mbind_ok in H1 as (s0 & s0' & H0 & H1). injection H0 as <- <-.
  apply mbind_ok in H1 as (req' & s1' & H0 & H1). unfold mlift in H0. injection H0 as Ha <-.
  destruct (h_head_required (st_handle s) && negb req') eqn:Ed; [discriminate|].
  injection H1 as <- <-.
  apply mbind_ok in H as (u1 & s2 & H2 & H). apply mbind_ok in H as (s2' & s2'' & E & H).
  injection E as <- <-.
  assert (Hreq : h_head_required (st_handle s2) = true).
  { destruct req'; cbn [mwhen] in H2; injection H2 as _ <-; [done|].
    revert H. destruct (recover_to_authenticated_head _ _ _ _ _) as [r log'].
    intros H. apply mbind_ok in H as (u2 & s3 & E & H). injection E as _ <-.
    apply mbind_ok in H as (rec & s4 & E & H). unfold mlift in E. injection E as _ <-.
    destruct rec as [[[c h] sz]|].
    - apply mbind_ok in H as (u3 & s5 & E & H). injection E as _ <-. injection H as _ <-.
      done.
    - apply mbind_ok in H as ([c l] & s5 & E & H). unfold mlift in E. injection E as _ <-.
      injection H as _ <-. done. }
  assert (E2 : st_handle s2 = set_head_required true (st_handle s) /\ st_head s2 = st_head s
               /\ st_log s2 = st_log s).
  { destruct req'; cbn [mwhen] in H2; injection H2 as _ <-; [done|].
    split; [|done]. destruct s as [lg hd h]. cbn in *. by rewrite <- Hreq; destruct h. }
  destruct E2 as (E2 & E3 & E4). rewrite E2 in H. unfold the_log in H. rewrite E3, E4 in H.
  cbn [h_key set_head_required h_head_required h_committed_head] in H.
  rewrite orb_true_r in H. cbn [orb] in H.
  destruct (recover_to_authenticated_head _ _ _ _ _) as [r log'] eqn:Er.
  apply mbind_ok in H as (u2 & s3 & E & H). injection E as _ <-.
  apply mbind_ok in H as (rec & s4 & E & H). unfold mlift in E. injection E as -> <-.
  destruct rec as [[[c h] sz]|].
  - apply recover_ok in Er as (R1 & R2 & R3 & R4 & R5).
    apply mbind_ok in H as (u3 & s5 & E & H). injection E as _ <-. injection H as _ <-.
    exists c, h, sz. split; [done|]. split; [done|]. split; [done|].
    cbn. rewrite E2. by rewrite R2.
  - exfalso. clear -Er. unfold recover_to_authenticated_head, authenticated_head in Er.
    destruct (st_head s); [|discriminate]. 
    destruct (reraise_as _ _ _) as [[[cj hj] mj]|]; [|discriminate]. cbn [rbind] in Er.
    destruct cj, hj, mj; try discriminate. destruct (_ <? 0)%Z; [discriminate|].
    destruct (compare_digest _ _) as [[|]|]; try discriminate. cbn in Er.
    repeat (match type of Er with context [if ?b then _ else _] => destruct b end; try discriminate).
    all: destruct (committed_prefix_end _ _ _ _); try discriminate.
    all: repeat (match type of Er with context [if ?b then _ else _] => destruct b end; try discriminate).
Qed.

(** a snapshot returns nothing the head did not authenticate.  Whatever bytes are on
    disk, when a snapshot of a head-required handle succeeds, the head file carries the
    key's MAC over the count and hash returned, that commit extends the one the handle
    had seen, the log's first bytes are a strict chain of that many records ending in
    that hash and are all the log keeps, and the events returned are one per record of
    an unbroken chain from the genesis hash. *)
Theorem snapshot_sound s evs w s' :
  snapshot_events_with_identity me env s = (Ok (evs, w), s') ->
  h_head_required (st_handle s') = true ->
  exists c h size raws, w = (Some c, Some (JStr h), size)
    /\ authenticated_head (h_key (st_handle s)) (st_head s) true = Ok (Some (c, h))
    /\ committed_prefix_end (the_log s) c h (h_committed_head (st_handle s)) = Ok size
    /\ head_moved c h (h_committed_head (st_handle s)) = false
    /\ st_log s' = Some (take size (the_log s))
    /\ iter_raw (st_log s') (Some c) = List.map Ok raws
    /\ raw_chain GENESIS raws /\ length evs = length raws.
Proof.
  intros H Hr. unfold snapshot_events_with_identity in H.
  apply mbind_ok in H as (u & s0 & Hu & H). apply usable_ok in Hu as [-> _].
  apply locked_ok in H. apply mbind_ok in H as (u1 & s1 & H1 & H).
  apply marking_failure_ok in H1. apply mbind_ok in H as (es & s2 & H2 & H).
  apply mbind_ok in H as (h0 & s3 & Hh & H). injection Hh as <- <-. injection H as <- <- <-.
  unfold events_unlocked in H2. apply mbind_ok in H2 as (s1' & s1'' & E & H2). injection E as <- <-.
  destruct (h_write_failed (st_handle s1)); [discriminate|].
  destruct (replay _ _ _ _ _ _) as [r c'] eqn:Er. injection H2 as -> <-.
  apply reread_sound in H1 as (c & h & size & Ha & Hc & Hm & Hl & E); [|exact Hr].
  cbn [st_handle with_handle st_log] in *. rewrite E in Er |- *.
  cbn [h_key h_count set_tail] in Er.
  apply replay_chain in Er as (raws & Hi & Hch & Hlen).
  exists c, h, size, raws. repeat split; try done.
Qed.

(** The head file is gone, or names a commit behind or beside the one observed. *)
Definition taken_back (s : store) : Prop :=
  exists ec eh, h_committed_head (st_handle s) = Some (ec, eh) /\
  match st_head s with
  | None => True
  | Some text => exists c h, authenticated_head (h_key (st_handle s)) (Some text) true = Ok (Some (c, h))
                   /\ head_moved c h (Some (ec, eh)) = true
  end.

Lemma reread_refused s l required : st_log s = Some l ->
  authenticate_current_header s = Ok required -> taken_back s ->
  exists s', reread_tail s = (Raise CryptoError, s') /\ st_log s' = Some l.
Proof.
  intros Hl Ha (ec & eh & Hc & Hh). unfold reread_tail, authenticated_mode, mbind, mget, mlift.
  rewrite Ha. destruct (h_head_required (st_handle s) && negb required); [by exists s|]. cbn [mret].
  assert (E : (mwhen required (update (set_head_required true)) s)
              = (Ok tt, if required then with_handle (set_head_required true) s else s))
    by (by destruct required).
  rewrite E. clear E. set (s1 := if required then _ else _).
  assert (E : h_committed_head (st_handle s1) = Some (ec, eh) /\ the_log s1 = l
              /\ st_head s1 = st_head s /\ h_key (st_handle s1) = h_key (st_handle s))
    by (unfold the_log, s1; destruct required; cbn; by rewrite ?Hl).
  destruct E as (E1 & E2 & E3 & E4). rewrite E1, E2, E3, E4.
  rewrite (bool_decide_eq_true_2 (is_Some (Some (ec, eh)))) by (by eexists). rewrite orb_true_r.
  destruct (st_head s) as [text|]; [|cbn; eauto].
  destruct Hh as (c & h & Eh & Hm). unfold recover_to_authenticated_head. rewrite Eh.
  fold (head_moved c h (Some (ec, eh))). rewrite Hm. cbn. eauto.
Qed.

(** A method that first reads the tail again, under the guards, meets its refusal. *)
Lemma refused_by_reread {A} (op : M store A) (k : M store A) s s' l :
  idle me (st_handle s) -> st_log s = Some l -> reread_tail s = (Raise CryptoError, s') ->
  st_log s' = Some l ->
  op s = (run! usable me; locked (run! marking_failure reread_tail; k)) s -> refused_for_good op s.
Proof.
  intros I Hl Hr Hl' E. exists (with_handle (set_write_failed true) s').
  rewrite E. unfold mbind at 1. rewrite usable_idle by done. rewrite (locked_present _ _ _ Hl).
  unfold mbind, marking_failure, on_exception. rewrite Hr. cbn. by rewrite Hl, Hl'.
Qed.

(** C32: an observed commit cannot be taken back under an append or a whole read.  When the
    handle has seen a commit and the head file is missing, or authenticates to a shorter log
    or to another hash at that length, [append_atomically], the two snapshots, the full
    verification and [authenticated_identity] raise [CryptoError], leave the log's bytes as
    they are, and refuse to be used again.  [committed_suffix_after] is not among them: it
    trusts the head it finds ([suffix_read_takes_an_older_head]). *)
Theorem rollback_refused s l required :
  idle me (st_handle s) -> st_log s = Some l -> authenticate_current_header s = Ok required ->
  taken_back s ->
  (forall ft dec observe, refused_for_good (append_atomically me env ft dec observe) s)
  /\ refused_for_good (snapshot_events_with_identity me env) s
  /\ refused_for_good (committed_snapshot me env) s
  /\ refused_for_good (verify_committed_log me env) s
  /\ refused_for_good (authenticated_identity me) s.
Proof.
  intros I Hl Ha Ht. destruct (reread_refused s l required Hl Ha Ht) as (s' & Hr & Hl').
  repeat split; [intros ft dec observe| | | |].
  all: apply (refused_by_reread _ (mraise CryptoError) s s' l); [exact I|exact Hl|exact Hr|exact Hl'|].
  all: unfold append_atomically, snapshot_events_with_identity, committed_snapshot,
    verify_committed_log, authenticated_identity.
  all: unfold mbind at 1; rewrite usable_idle by done; symmetry;
    unfold mbind at 1; rewrite usable_idle by done.
  all: unfold locked, mbind, mmodify, marking_failure, on_exception; rewrite (set_log_present _ _ Hl), Hr.
  all: reflexivity.
Qed.
End soundness.

Lemma snapshot_sound_witness : exists c h size raws,
  authenticated_head a_key (st_head a_store) true = Ok (Some (c, h))
  /\ iter_raw (Some (take size (the_log a_store))) (Some c) = List.map Ok raws
  /\ raw_chain GENESIS raws.
Proof.
  destruct a_store_vault as (hdr & V & T & I & _).
  destruct (snapshot_vault (lib := clear_cipher) 0 an_oracle _ _ _ _ _ V I) as (s' & E & (V' & T' & _) & _).
  destruct (snapshot_sound (lib := clear_cipher) 0 an_oracle a_store _ _ s' E)
    as (c & h & size & raws & _ & Ha & _ & _ & Hl & Hi & Hc & _).
  - apply T'.
  - exists c, h, size, raws. rewrite <- Hl. split; [exact Ha|]. by split.
Defined.

(** The toy vault after someone deleted its head file. *)
Definition a_headless_store : store := mkStore (st_log a_store) None (st_handle a_store).

Lemma rollback_refused_witness :
  refused_for_good (snapshot_events_with_identity (lib := clear_cipher) 0 an_oracle)
    a_headless_store.
Proof.
  destruct a_store_vault as (hdr & V & T & I & _).
  apply (rollback_refused (lib := clear_cipher) 0 an_oracle a_headless_store
           (log_bytes hdr [] []) true).
  - exact I.
  - apply V.
  - apply (vault_authenticates (lib := clear_cipher) hdr [] [] [] a_store V).
  - exists 0, (last_hash GENESIS []). split; [apply T|exact Logic.I].
Defined.

(** The toy vault under a handle that has seen one commit more than the head file says. *)
Definition a_stale_store : store := with_handle (set_committed_head (Some (1, "seen before"))) a_store.
Lemma suffix_read_takes_an_older_head : taken_back a_stale_store
  /\ match committed_snapshot (lib := clear_cipher) 0 an_oracle a_store with
     | (Ok whole, _) => is_ok (committed_suffix_after (lib := clear_cipher) 0 an_oracle (cs_identity whole) a_stale_store).1
     | _ => false
     end = true.
Proof.
  split; [|by vm_compute].
  exists 1, "seen before". split; [reflexivity|]. vm_compute. do 2 eexists. split; reflexivity.
Qed.

(** ** Tampering *)

(** What [verify_chain] accepted: an unbroken chain whose length and last hash are the
    head file's. *)
Lemma verify_chain_accepts log text n : verify_chain log (Some text) = Ok (true, n) ->
  exists raws c hh h, iter_raw log None = List.map Ok raws /\ raw_chain GENESIS raws
    /\ n = length raws /\ loads text = Ok h /\ py_getitem h "count" = Ok c
    /\ py_getitem h "head_hash" = Ok hh /\ py_eq_int c (Z.of_nat n) = true
    /\ hh = JStr (raw_last GENESIS raws).
Proof.
  unfold verify_chain. intros H. apply rbind_ok in H as ([k|[k prev]] & Hw & H); [discriminate|].
  apply verify_walk_chain in Hw as (raws & Hi & Hc & -> & ->). cbn [Nat.add] in H.
  destruct (loads text) as [h|e] eqn:El; cbn [rbind] in H.
  2:{ destruct (existsb _ _); discriminate. }
  destruct (py_getitem h "count") as [c|e] eqn:Ec; cbn [rbind] in H.
  2:{ destruct (existsb _ _); discriminate. }
  destruct (py_getitem h "head_hash") as [hh|e] eqn:Eh; cbn [rbind] in H.
  2:{ destruct (existsb _ _); discriminate. }
  destruct (py_eq_int c _ && py_eq_str hh _) eqn:E; [|discriminate]. injection H as <-.
  apply andb_true_iff in E as [E1 E2]. apply py_eq_str_true in E2.
  by exists raws, c, hh, h.
Qed.

Lemma py_eq_int_same v n m : py_eq_int v n = true -> py_eq_int v m = true -> n = m.
Proof.
  destruct v; try discriminate; cbn.
  - intros H1%bool_decide_eq_true H2%bool_decide_eq_true. destruct b; lia.
  - intros H1%bool_decide_eq_true H2%bool_decide_eq_true. lia.
Qed.

(** one head, one history.  Two logs that [verify_chain] accepts against the same head
    file hold the same records, in the same order, byte for byte as their hashes see them,
    as long as SHA-256 separates the records of these two logs: nothing can be edited,
    dropped, inserted or reordered under a head that is kept. *)
Theorem verify_chain_determines log log' text n n' :
  verify_chain log (Some text) = Ok (true, n) -> verify_chain log' (Some text) = Ok (true, n') ->
  exists raws raws', iter_raw log None = List.map Ok raws /\ iter_raw log' None = List.map Ok raws'
    /\ n = n'
    /\ (collision_free (List.map sealed_text (raws ++ raws')) ->
        List.map sealed_text raws = List.map sealed_text raws').
Proof.
  intros (raws & c & hh & h & Hi & Hc & -> & El & Ec & Eh & E1 & E2)%verify_chain_accepts
    (raws' & c' & hh' & h' & Hi' & Hc' & -> & El' & Ec' & Eh' & E1' & E2')%verify_chain_accepts.
  rewrite El in El'. injection El' as <-. rewrite Ec in Ec'. injection Ec' as <-.
  rewrite Eh in Eh'. injection Eh' as <-. subst hh. injection E2' as E2'.
  assert (Hl : length raws = length raws') by (pose proof (py_eq_int_same _ _ _ E1 E1'); lia).
  exists raws, raws'. split; [done|]. split; [done|]. split; [done|].
  by eapply raw_chain_determined.
Qed.

Lemma w_raws_chain seq prev rs : chain seq prev rs ->
  verify_walk (List.map (fun r => Ok (w_raw r)) rs) prev seq
  = Ok (inr (seq + length rs, last_hash prev rs)).
Proof.
  revert seq prev; induction rs as [|r rs IH]; intros seq prev; [by rewrite Nat.add_0_r|].
  intros (Hs & Hp & _ & Hc). cbn [List.map verify_walk]. rewrite hash_w_raw.
  cbn [raw_prev raw_hash w_raw]. rewrite Hp, !py_eq_str_refl. cbn [negb].
  rewrite (IH _ _ Hc). cbn [length]. by rewrite <- plus_n_Sm.
Qed.

Lemma verify_chain_cut key hdr rs k :
  header_line hdr -> chain 0 GENESIS rs -> k <= length rs ->
  verify_chain (Some (log_bytes hdr (take k rs) []))
    (Some (write_head key (length rs) (JStr (last_hash GENESIS rs))))
  = Ok (bool_decide (k = length rs), k).
Proof.
  intros Hh Hc Hk. unfold verify_chain.
  assert (Hck : chain 0 GENESIS (take k rs)).
  { rewrite <- (take_drop k rs) in Hc. by apply chain_app in Hc as [Hc _]. }
  rewrite iter_raw_committed by (done || by eapply chain_sealed). cbn [take_limit].
  rewrite (w_raws_chain 0 GENESIS _ Hck). cbn [rbind Nat.add].
  rewrite length_take_le by done. rewrite head_fields. cbn [rbind].
  change (py_getitem _ "count") with (Ok (JInt (Z.of_nat (length rs)))). cbn [rbind].
  change (py_getitem _ "head_hash") with (Ok (JStr (last_hash GENESIS rs))). cbn [rbind].
  destruct (decide (k = length rs)) as [->|Hne].
  - rewrite firstn_all, py_eq_int_refl, py_eq_str_refl, bool_decide_true by done. done.
  - rewrite (bool_decide_false (k = _)) by done. cbn [py_eq_int].
    rewrite bool_decide_eq_false_2 by lia. done.
Qed.

(** truncation shows without the key.  Against the head of a whole written log,
    [verify_chain] accepts exactly the whole log: cut back to its first [k] records it
    reports a broken chain and the length that is left. *)
Theorem verify_chain_sees_truncation key hdr rs k :
  header_line hdr -> chain 0 GENESIS rs -> k <= length rs ->
  verify_chain (Some (log_bytes hdr (take k rs) []))
    (Some (write_head key (length rs) (JStr (last_hash GENESIS rs))))
  = Ok (bool_decide (k = length rs), k).
Proof. apply verify_chain_cut. Qed.

Lemma verify_chain_sees_truncation_witness :
  let r := mkWrec 0 GENESIS (JStr "x") in
  verify_chain (Some (log_bytes (enc "{}") [] []))
    (Some (write_head [] 1 (JStr (w_hash r)))) = Ok (false, 0).
Proof.
  intros r. apply (verify_chain_sees_truncation [] (enc "{}") [r] 0).
  - split; [repeat constructor; done|by eexists].
  - by repeat split.
  - simpl. lia.
Defined.

Lemma verify_chain_determines_witness :
  let r := mkWrec 0 GENESIS (JStr "x") in
  let text := write_head [] 1 (JStr (w_hash r)) in
  exists raws raws', iter_raw (Some (log_bytes (enc "{}") [r] [])) None = List.map Ok raws
    /\ iter_raw (Some (log_bytes (enc "{ }") [r] [])) None = List.map Ok raws'
    /\ (collision_free (List.map sealed_text (raws ++ raws')) ->
        List.map sealed_text raws = List.map sealed_text raws').
Proof.
  intros r text.
  assert (H : forall hdr, header_line hdr -> verify_chain (Some (log_bytes hdr [r] [])) (Some text) = Ok (true, 1)).
  { intros hdr Hh. apply (verify_chain_cut [] hdr [r] 1 Hh); [by repeat split|simpl; lia]. }
  destruct (verify_chain_determines (Some (log_bytes (enc "{}") [r] []))
    (Some (log_bytes (enc "{ }") [r] [])) text 1 1) as (raws & raws' & H1 & H2 & _ & H3).
  - apply H. split; [repeat constructor; done|by eexists].
  - apply H. split; [repeat constructor; done|by eexists].
  - exists raws, raws'. split; [exact H1|]. split; [exact H2|exact H3].
Defined.

(** ** Re-entry, empty decisions, cursors and forks *)

(** The methods a callback of the running operation could call back into. *)
Definition refuses {A} (op : M store A) (s : store) : Prop := op s = (Raise CryptoError, s).

Section methods.
Context `{lib : CryptoLib} (me : nat) (env : oracle).

(** no re-entry.  While a decision or a commit observer of this thread runs, every
    method of the store raises [CryptoError] and changes neither disk nor handle. *)
Theorem callbacks_cannot_reenter s :
  h_decision_owner (st_handle s) = Some me \/ h_observer_owner (st_handle s) = Some me ->
  (forall ft dec observe, refuses (append_atomically me env ft dec observe) s)
  /\ (forall ft e observe, refuses (append me env ft e observe) s)
  /\ refuses (events me env) s /\ refuses (snapshot_events me env) s
  /\ refuses (snapshot_events_with_identity me env) s /\ refuses (committed_snapshot me env) s
  /\ (forall prefix, refuses (committed_suffix_after me env prefix) s)
  /\ refuses (verify_committed_log me env) s /\ refuses (authenticated_identity me) s
  /\ refuses (store_verify_chain me) s /\ refuses (store_len me) s /\ refuses (fork me env) s
  /\ (forall o, refuses (observe_commits me o) s).
Proof.
  intros H. assert (E : refuse_decision_reentry me s = (Raise CryptoError, s)).
  { unfold refuse_decision_reentry, refuse_observer_reentry, the_handle, getting, mbind.
    destruct (decide (h_observer_owner _ = _)); [done|]. cbn [mret].
    destruct H; [by rewrite decide_True by done|done]. }
  assert (U : usable me s = (Raise CryptoError, s)) by (unfold usable, mbind; by rewrite E).
  unfold refuses. repeat split; intros.
  all: unfold append, append_atomically, events, snapshot_events, snapshot_events_with_identity,
    committed_snapshot, committed_suffix_after, verify_committed_log, authenticated_identity,
    store_verify_chain, store_len, fork, observe_commits.
  all: unfold mbind; rewrite ?E, ?U; done.
Qed.

(** an empty decision writes nothing.  On a vault with nothing after its commit, an
    append whose decision returns no event returns no record and leaves log and head
    byte for byte as they were. *)
Theorem empty_append_writes_nothing hdr rs evs s dec observe ft :
  vault hdr rs evs [] s -> idle me (st_handle s) -> decides dec evs [] ->
  exists s', append_atomically me env ft dec observe s = (Ok [], s')
    /\ st_log s' = st_log s /\ st_head s' = st_head s.
Proof.
  intros V I Hd. pose proof (synced_vault _ _ _ _ _ V) as [V1 T1].
  destruct (append_reads me env _ _ _ _ _ ft dec observe [] V I Hd) as (s2 & (V2 & _) & [K1 K2] & _ & E).
  exists s2. rewrite E. split; [done|].
  rewrite (v_log _ _ _ _ _ V2), (v_log _ _ _ _ _ V), (v_head _ _ _ _ _ V2), (v_head _ _ _ _ _ V).
  by rewrite K1.
Qed.

(** a suffix read is the end of a full read.  From the cursor of the first [k]
    committed records, [committed_suffix_after] returns exactly the committed events from
    [k] on, the identity [committed_snapshot] mints, and touches nothing. *)
Theorem suffix_is_rest_of_snapshot hdr rs evs suffix s k :
  vault hdr rs evs suffix s -> idle me (st_handle s) -> k <= length rs ->
  exists whole s', committed_snapshot me env s = (Ok whole, s')
    /\ length (cs_events whole) = length rs
    /\ committed_suffix_after me env (cursor (h_key (st_handle s)) hdr rs k) s
       = (Ok (mkSnapshot (cs_identity whole) (drop k (cs_events whole))), s).
Proof.
  intros V I Hk. do 2 eexists. split; [by eapply committed_snapshot_vault|]. cbn [cs_events cs_identity].
  split; [|by eapply suffix_after_vault].
  rewrite length_zip_with. pose proof (Forall2_length _ _ _ (v_events _ _ _ _ _ V)). lia.
Qed.

(** only minted cursors are believed.  On a vault, a cursor whose offset or MAC is
    missing or negative, or whose MAC is ASCII text other than the key's own for its
    count, hash and offset, raises [CommittedPrefixMismatch] and leaves disk and handle
    unchanged: the caller can fall back to a full read. *)
Theorem forged_cursor_refused hdr rs evs suffix s prefix x :
  vault hdr rs evs suffix s -> idle me (st_handle s) -> (0 <= id_count prefix)%Z ->
  id_head_hash prefix = JStr x ->
  match id_end_offset prefix, id_cursor_mac prefix with
  | Some off, Some mac =>
      (off < 0)%Z \/ is_ascii mac = true /\ mac <> cursor_mac (h_key (st_handle s)) (id_count prefix) (JStr x) off
  | _, _ => True
  end ->
  committed_suffix_after me env prefix s = (Raise CommittedPrefixMismatch, s).
Proof.
  intros V I Hc Hx Hm. unfold committed_suffix_after. unfold mbind at 1. rewrite refuse_idle by done.
  rewrite Hx. destruct (Z.ltb_spec (id_count prefix) 0); [lia|]. cbn [is_str negb orb].
  unfold mbind at 1. rewrite usable_idle by done. rewrite (locked_present _ _ _ (v_log _ _ _ _ _ V)).
  unfold marking_unless_mismatch. unfold mbind at 1, mget. unfold mbind at 1, mlift.
  rewrite (vault_authenticates _ _ _ _ _ V). unfold mbind at 1.
  rewrite (v_head _ _ _ _ _ V), authenticated_write_head.
  destruct (_ <? _)%Z; [done|].
  assert (E : cursor_accepted (h_key (st_handle s)) prefix = Ok false).
  { unfold cursor_accepted. destruct (id_end_offset prefix) as [off|], (id_cursor_mac prefix) as [mac|]; try done.
    destruct (Z.ltb_spec off 0); [done|]. destruct Hm as [Hm|[Ha Hne]]; [lia|].
    unfold compare_digest. unfold cursor_mac at 1. rewrite hexlify_ascii, Ha, Hx. cbn [andb].
    f_equal. apply String.eqb_neq. congruence. }
  unfold mbind. by rewrite E.
Qed.

(** a fork shares the commit and nothing else.  From a handle whose tail is any
    earlier commit of the log, [fork] advances it to the committed end, drops what follows
    the commit, and returns a handle on the same vault with the same key, an empty cache,
    no observer and no owner. *)
Theorem fork_shares_commit hdr rs evs suffix s k :
  vault hdr rs evs suffix s -> idle me (st_handle s) -> at_commit hdr rs k (st_handle s) ->
  exists h s', fork me env s = (Ok h, s')
    /\ vault hdr rs evs [] s' /\ at_tail hdr rs (st_handle s')
    /\ vault hdr rs evs [] (mkStore (st_log s') (st_head s') h) /\ at_tail hdr rs h /\ idle me h
    /\ h_decrypted h = [] /\ h_commit_observer h = None
    /\ h_decision_owner h = None /\ h_observer_owner h = None.
Proof.
  intros V I T. destruct (synced_vault _ _ _ _ _ V) as [V1 T1].
  destruct (forked_vault me _ _ _ _ _ V) as (V2 & T2 & I2).
  exists (forked hdr rs s), (synced hdr rs s). split; [by eapply fork_vault|].
  split; [done|]. split; [done|]. split; [exact V2|]. split; [exact T2|]. by split.
Qed.
End methods.

(** ** Headers *)
Section headers.
Context `{lib : CryptoLib} (me : nat) (env : oracle) `{laws : !CryptoLaws lib}.

(** the header upgrade moves no record.  Upgrading a legacy header in place changes
    only the first line, keeps its length, so every record keeps its offset and its
    bytes; the new line is a header with the old KDF parameters that authenticates under
    the key and requires a head. *)
Theorem header_upgrade_in_place log key nonce log' kdf header line rest :
  readline log = (line, true, rest) -> loads (line ++ [newline])%list = Ok header ->
  py_getitem header "kdf" = Ok kdf -> wf_json kdf ->
  upgrade_header_in_place log key nonce = Ok log' ->
  exists line' upgraded, log' = (line' ++ newline :: rest)%list /\ length line' = length line
    /\ length log' = length log
    /\ loads (line' ++ [newline])%list = Ok upgraded
    /\ py_getitem upgraded "kdf" = Ok kdf
    /\ verify_vault_header upgraded key = Ok (JStr HEAD_BOUND_HEADER_VERSION)
    /\ header_requires_head upgraded = Ok true.
Proof.
  intros Hr Hl Hk Hw H. unfold upgrade_header_in_place in H. rewrite Hr in H. cbn [negb] in H.
  rewrite Hl in H. cbn [reraise_as rbind] in H.
  apply rbind_ok in H as (up & Hu & H). unfold rebind_vault_header in Hu.
  apply rbind_ok in Hu as (aad & Ha & Hu). rewrite Hk in Hu. cbn [rbind] in Hu.
  destruct kdf as [| | | | | |kv]; try discriminate. apply rbind_ok in Hu as (check & Hs & Hu).
  injection Hu as <-.
  set (up := JObj [("v", JStr HEAD_BOUND_HEADER_VERSION); ("kdf", JObj kv); ("check", check)]) in *.
  destruct (decide _) as [|Hlen]; [discriminate|]. apply Ok_inj in H as <-.
  assert (Hwf : wf_json up).
  { apply wf_obj. split; [nodup_keys|]. rewrite !Forall_cons. split; [done|].
    split; [exact Hw|]. split; [by eapply seal_wf|by constructor]. }
  set (pad := repeat " "%char (length line - length (dumps Compact up))).
  assert (Hpl : length (dumps Compact up ++ pad) = length line).
  { rewrite length_app. unfold pad. rewrite List.repeat_length. lia. }
  exists (dumps Compact up ++ pad)%list, up. split; [by rewrite <- app_assoc|].
  split; [exact Hpl|]. split.
  { apply readline_true in Hr as [-> _]. rewrite app_assoc, !(length_app _ (newline :: rest)).
    by rewrite Hpl. }
  split.
  { rewrite <- app_assoc. apply loads_dumps_ws; [done|]. apply Forall_app. split; [|by repeat constructor].
    apply Forall_forall. intros c Hc. apply list_elem_of_In, repeat_spec in Hc as ->. done. }
  split; [done|]. split; [|done].
  unfold verify_vault_header. cbn [py_get py_get_default up dict_get String.eqb Ascii.eqb Bool.eqb rbind].
  change (py_get up "v") with (Ok (JStr HEAD_BOUND_HEADER_VERSION)). cbn [rbind].
  rewrite Ha. cbn [rbind]. change (py_getitem up "check") with (Ok check). cbn [rbind].
  by rewrite (open_seal _ _ _ _ _ Hs).
Qed.

(** the head requirement cannot be edited away.  Take the header of a store this
    code created and relabel it with the legacy version: as long as the cipher refuses
    that check token under the legacy associated data, as an AEAD must, [verify_vault_header],
    which opening and every locked operation go through, raises [CryptoError]. *)
Theorem header_downgrade_refused pass header key log aad :
  new_log env pass = Ok (header, key, log) ->
  header_check_aad (JStr HEAD_BOUND_HEADER_VERSION) = Ok aad ->
  aead_decrypt key (o_header_nonce env) (aead_encrypt key (o_header_nonce env) CHECK_TOKEN aad)
    CHECK_AAD = None ->
  forall kv, header = JObj kv ->
  verify_vault_header (JObj (dict_set kv "v" (JStr VERSION))) key = Raise CryptoError.
Proof.
  intros H Ha Hd kv ->. unfold new_log in H. apply rbind_ok in H as ([h k] & H & E).
  injection E as -> -> _. unfold new_vault_header in H. rewrite Ha in H. cbn [rbind] in H.
  apply rbind_ok in H as (k' & Hk & H). apply rbind_ok in H as (check & Hs & H).
  injection H as <- ->. unfold seal in Hs. destruct (decide _); [discriminate|].
  apply Ok_inj in Hs as <-. unfold verify_vault_header.
  match goal with |- context [py_get (JObj (dict_set ?l _ _)) "v"] => set (kv := l) end.
  change (py_get (JObj (dict_set kv "v" (JStr VERSION))) "v") with (Ok (JStr VERSION)). cbn [rbind].
  change (header_check_aad (JStr VERSION)) with (Ok CHECK_AAD). cbn [rbind].
  set (ct := aead_encrypt _ _ _ _) in *.
  change (py_getitem (JObj (dict_set kv "v" (JStr VERSION))) "check")
    with (Ok (JObj [("v", JStr VERSION); ("nonce", JStr (b64e (o_header_nonce env))); ("ct", JStr (b64e ct))])).
  cbn [rbind]. clearbody ct. unfold open_sealed. cbn -[CHECK_AAD]. rewrite b64d_b64e.
  cbn -[CHECK_AAD]. rewrite b64d_b64e. cbn -[CHECK_AAD]. by rewrite Hd.
Qed.

(** a half-made store stays closed.  If the process dies after writing a new store's
    header and before sealing its head, opening the file raises [CryptoError]: the header
    already requires the head that is missing, and the log is left as it was. *)
Theorem unsealed_store_refused pass header key log :
  new_log env pass = Ok (header, key, log) ->
  open env (Some log) None pass = (Raise CryptoError, (Some log, None)).
Proof.
  intros H. apply new_log_unlocks in H as (hdr & -> & (Hl & hd & k & H1 & H2 & H3 & _) & _); [|done].
  unfold open, open_existing.
  assert (E : header_line_of (universal_newlines (log_bytes hdr [] [])) = (hdr ++ [newline])%list).
  { unfold log_bytes, header_line_of. rewrite universal_newlines_app by apply printable_no_return, Hl.
    by rewrite readline_line by (by apply header_line_no_newline). }
  rewrite E. destruct (proj2 Hl) as [m Hm].
  rewrite decide_False by (rewrite Hm; apply strip_brace_nonempty).
  rewrite H1. cbn [rbind]. rewrite H2. cbn [rbind]. by rewrite H3.
Qed.
End headers.

(** ** Witnesses on the toy vault *)

(** The toy vault while a decision of thread 0 runs. *)
Definition a_deciding_store : store := with_handle (set_decision_owner (Some 0)) a_store.

Lemma callbacks_cannot_reenter_witness :
  refuses (snapshot_events (lib := clear_cipher) 0 an_oracle) a_deciding_store.
Proof. apply (callbacks_cannot_reenter (lib := clear_cipher) 0 an_oracle a_deciding_store). left. reflexivity. Defined.

Lemma empty_append_writes_nothing_witness : exists s',
  append_atomically (lib := clear_cipher) 0 an_oracle NoFault (a_decision []) no_observer a_store = (Ok [], s')
  /\ st_log s' = st_log a_store /\ st_head s' = st_head a_store.
Proof.
  destruct a_store_vault as (hdr & V & T & I & _).
  apply (empty_append_writes_nothing (lib := clear_cipher) 0 an_oracle hdr [] [] a_store); [exact V|exact I|].
  intros s'. reflexivity.
Defined.

(** The toy vault with one batch committed. *)
Lemma a_full_store : exists hdr rs s, length rs = 2
  /\ vault (lib := clear_cipher) hdr rs (List.map canonical_event a_batch) [] s
  /\ at_tail hdr rs (st_handle s) /\ idle 0 (st_handle s).
Proof.
  destruct a_store_vault as (hdr & V & T & I & _).
  destruct (append_result (lib := clear_cipher) 0 an_oracle hdr [] [] [] a_store NoFault (a_decision a_batch)
    no_observer a_batch V I (fun _ => eq_refl) ltac:(discriminate) a_batch_storable (fun _ _ _ => eq_refl))
    as (added & s1 & Hl & _ & _ & R).
  destruct R as (V1 & T1 & W). exists hdr, added, s1.
  split; [exact Hl|]. split; [exact V1|]. split; [exact T1|exact W].
Qed.

Lemma suffix_is_rest_of_snapshot_witness : exists s whole s' prefix,
  committed_snapshot (lib := clear_cipher) 0 an_oracle s = (Ok whole, s')
  /\ length (cs_events whole) = 2
  /\ committed_suffix_after (lib := clear_cipher) 0 an_oracle prefix s
     = (Ok (mkSnapshot (cs_identity whole) (drop 1 (cs_events whole))), s).
Proof.
  destruct a_full_store as (hdr & rs & s & Hl & V & T & I).
  destruct (suffix_is_rest_of_snapshot (lib := clear_cipher) 0 an_oracle hdr rs _ [] s 1 V I)
    as (whole & s' & E1 & E2 & E3); [rewrite Hl; lia|].
  exists s, whole, s', (cursor (h_key (st_handle s)) hdr rs 1).
  split; [exact E1|]. split; [rewrite E2; exact Hl|exact E3].
Defined.

Lemma forged_cursor_refused_witness :
  committed_suffix_after (lib := clear_cipher) 0 an_oracle (mkIdentity 0 (JStr GENESIS) (Some 0%Z) None) a_store
  = (Raise CommittedPrefixMismatch, a_store).
Proof.
  destruct a_store_vault as (hdr & V & T & I & _).
  apply (forged_cursor_refused (lib := clear_cipher) 0 an_oracle hdr [] [] [] a_store _ GENESIS V I);
    [reflexivity|reflexivity|exact Logic.I].
Defined.

Lemma fork_shares_commit_witness : exists h s',
  fork (lib := clear_cipher) 0 an_oracle a_store = (Ok h, s') /\ h_decrypted h = [].
Proof.
  destruct a_store_vault as (hdr & V & T & I & _).
  destruct (fork_shares_commit (lib := clear_cipher) 0 an_oracle hdr [] [] [] a_store 0 V I)
    as (h & s' & E & _ & _ & _ & _ & _ & Hd & _); [exact (at_tail_commit hdr [] _ T)|].
  exists h, s'. split; [exact E|exact Hd].
Defined.

(** A legacy log: its header has no head capability. *)
Definition a_legacy_header : json :=
  match new_vault_header (lib := clear_cipher) "open sesame" VERSION a_salt (repeat "n"%char 12) with
  | Ok (h, _) => h | Raise _ => JNull end.
Definition a_legacy_log : bytes := (dumps Spaced a_legacy_header ++ [newline])%list.

Lemma header_upgrade_in_place_witness : exists log' line' upgraded,
  upgrade_header_in_place (lib := clear_cipher) a_legacy_log a_key (repeat "n"%char 12) = Ok log'
  /\ log' = (line' ++ [newline])%list
  /\ verify_vault_header (lib := clear_cipher) upgraded a_key = Ok (JStr HEAD_BOUND_HEADER_VERSION).
Proof.
  destruct (upgrade_header_in_place (lib := clear_cipher) a_legacy_log a_key (repeat "n"%char 12))
    as [log'|e] eqn:E; [|exfalso; revert E; vm_compute; discriminate].
  destruct (header_upgrade_in_place (lib := clear_cipher) a_legacy_log a_key (repeat "n"%char 12) log'
    (KdfParams_to_dict (KdfParams_new a_salt)) a_legacy_header (dumps Spaced a_legacy_header) [])
    as (line' & up & E1 & _ & _ & _ & _ & E2 & _).
  - vm_compute. reflexivity.
  - vm_compute. reflexivity.
  - vm_compute. reflexivity.
  - apply KdfParams_to_dict_wf.
  - exact E.
  - exists log', line', up. split; [reflexivity|]. split; [exact E1|exact E2].
Defined.

Lemma header_downgrade_refused_witness : exists header key log kv,
  new_log (lib := clear_cipher) an_oracle "open sesame" = Ok (header, key, log) /\ header = JObj kv
  /\ verify_vault_header (lib := clear_cipher) (JObj (dict_set kv "v" (JStr VERSION))) key = Raise CryptoError.
Proof.
  destruct (new_log (lib := clear_cipher) an_oracle "open sesame") as [[[header key] log]|e] eqn:E;
    [|exfalso; revert E; vm_compute; discriminate].
  destruct header as [| | | | | |kv]; try (exfalso; revert E; vm_compute; discriminate).
  exists (JObj kv), key, log, kv. split; [reflexivity|]. split; [reflexivity|].
  destruct (header_check_aad (JStr HEAD_BOUND_HEADER_VERSION)) as [aad|] eqn:Ha;
    [|exfalso; revert Ha; vm_compute; discriminate].
  apply (header_downgrade_refused (lib := clear_cipher) an_oracle "open sesame" (JObj kv) key log aad E Ha);
    [|reflexivity].
  assert (Hk : key = a_key) by (apply (f_equal (fun r => match r with Ok (_, k, _) => k | _ => [] end)) in E;
    vm_compute in E; rewrite <- E; vm_compute; reflexivity).
  rewrite Hk. vm_compute in Ha. injection Ha as <-. vm_compute. reflexivity.
Defined.

Lemma unsealed_store_refused_witness : exists log,
  open (lib := clear_cipher) an_oracle (Some log) None "open sesame" = (Raise CryptoError, (Some log, None)).
Proof.
  destruct (new_log (lib := clear_cipher) an_oracle "open sesame") as [[[header key] log]|e] eqn:E;
    [|exfalso; revert E; vm_compute; discriminate].
  exists log. exact (unsealed_store_refused (lib := clear_cipher) an_oracle "open sesame" header key log E).
Defined.
