(* ===== verification/LedgerLaws.v ===== *)
(** * LedgerLaws: folding on is replaying, and what each ledger operation keeps

    [agree] compares outcomes up to which exception was raised.  [live] is the invariant of
    a ledger over a vault: its basis, when it has one, is the replay of a list of events
    that reads as a prefix of the log, and a claimed view is a copy of that basis. *)
From Stdlib Require Import ZArith NArith Ascii String Lia.
From stdpp Require Import base list numbers strings.
From S2P Require Import Prelude Text Json Hashing Crypto Events StoreFormat StoreLaws EventStore VaultLaws Ledger.
From S2P Require Import VaultLaws VaultProperties.
#[local] Open Scope string_scope.

(** ** Outcomes up to the exception *)
Definition agree {A} (r r' : res A) : Prop :=
  match r, r' with Ok a, Ok b => a = b | Raise _, Raise _ => True | _, _ => False end.

#[export] Instance agree_equivalence {A} : Equivalence (@agree A).
Proof.
  split; [intros [|]; done|intros [|] [|]; try done; cbn; congruence|].
  intros [|] [|] [|]; try done; cbn; congruence.
Qed.
#[export] Instance rbind_agree {A B} :
  Proper (agree ==> pointwise_relation A agree ==> agree) (@rbind A B).
Proof. intros [a|] [b|] H f g Hf; try done; cbn in *. subst. apply Hf. Qed.

Lemma agree_ok {A} (r : res A) a : agree r (Ok a) <-> r = Ok a.
Proof. destruct r; cbn; [|done]. split; congruence. Qed.
Lemma agree_raise {A} (r : res A) e : agree r (Raise e) <-> exists e', r = Raise e'.
Proof. destruct r; cbn; [split; [done|by intros [? ?]]|split; eauto]. Qed.
Lemma agree_is_ok {A} (r r' : res A) : agree r r' -> is_ok r = is_ok r'.
Proof. by destruct r, r'. Qed.

(** What one more event does to a fold, against replaying everything.  The source's own
    projection has this while its log is one [LiveProjection.written] describes
    ([LiveProjection.folding_on_is_replaying]) and not beyond it
    ([LiveProjection.hidden_effect_folded_live]); a fold that looks at every event has it
    always. *)
Class ProjectionAgrees (P : Type) `{!Projection P} := {
  build_agrees h l (e : Event) :
    agree (build h (l ++ [e])%list)
      (let? p := build h l in
       let? again := changes_prior p e in
       if again then build h (l ++ [e])%list else fold_in p e)
}.

Section Folding.
Context {P : Type} `{!Projection P, !ProjectionAgrees P}.

Lemma apply_agrees h l (p : LedgerProjection P) e : LedgerProjection_new l h = Ok p ->
  agree (projection_apply p e) (LedgerProjection_new (l ++ [e])%list h).
Proof.
  unfold LedgerProjection_new. intros H. apply rbind_ok in H as (c & Hc & H). apply Ok_inj in H as <-.
  unfold projection_apply. cbn [source_events horizon core_of revision]. rewrite List.fold_left_app. cbn [List.fold_left].
  pose proof (build_agrees h l e) as A. rewrite Hc in A. cbn [rbind] in A.
  destruct (changes_prior c e) as [b|x]; cbn [rbind] in *.
  - destruct b; [done|]. symmetry in A. destruct (fold_in c e), (build h (l ++ [e])); cbn in *; congruence.
  - by destruct (build h (l ++ [e])).
Qed.

Lemma replay_raises h l e x : LedgerProjection_new l h = Raise x -> exists y : exn,
  LedgerProjection_new (l ++ [e])%list h = Raise y :> res (LedgerProjection P).
Proof.
  unfold LedgerProjection_new. intros H. pose proof (build_agrees h l e) as A.
  destruct (build h l) as [c|y] eqn:E; cbn in H; [discriminate|]. cbn [rbind] in A.
  destruct (build h (l ++ [e])); [done|]. by eexists.
Qed.
Lemma replay_raises_app h l news x : LedgerProjection_new l h = Raise x :> res (LedgerProjection P) -> exists y : exn,
  LedgerProjection_new (l ++ news)%list h = Raise y :> res (LedgerProjection P).
Proof.
  intros H. induction news as [|e news IH] using rev_ind; [rewrite app_nil_r; by eexists|].
  destruct IH as [y Hy]. rewrite app_assoc. by eapply replay_raises.
Qed.

(** Folding the news into a replayed projection is replaying them with it. *)
Lemma fold_agrees h l news (p : LedgerProjection P) : LedgerProjection_new l h = Ok p ->
  agree (rfold projection_apply news p) (LedgerProjection_new (l ++ news)%list h).
Proof.
  revert l p. induction news as [|e news IH]; intros l p H; cbn [rfold]; [by rewrite app_nil_r, H|].
  pose proof (apply_agrees _ _ _ e H) as A. replace (l ++ e :: news)%list with ((l ++ [e]) ++ news)%list by (by rewrite <- app_assoc).
  destruct (projection_apply p e) as [q|x]; cbn [rbind].
  - symmetry in A. apply agree_ok in A. by apply IH.
  - symmetry in A. apply agree_raise in A as [y A]. symmetry. apply agree_raise. by eapply replay_raises_app.
Qed.

Lemma replayed_sources h l (p : LedgerProjection P) : LedgerProjection_new l h = Ok p ->
  source_events p = l /\ horizon p = h.
Proof. unfold LedgerProjection_new. intros H. apply rbind_ok in H as (c & _ & H). by apply Ok_inj in H as <-. Qed.
End Folding.

Lemma rbind_assoc {A B C} (m : res A) (f : A -> res B) (k : B -> res C) :
  (let? b := (let? a := m in f a) in k b) = (let? a := m in let? b := f a in k b).
Proof. by destruct m. Qed.

(** ** The invariant *)

(** The events of a fold as the log holds them: the ones read back are the log's own, the
    ones appended from here were folded before the log put them in canonical form. *)
Definition reads (l evs : list Event) : Prop := Forall2 (fun e e' => e' = e \/ e' = canonical_event e) l evs.

Lemma reads_refl evs : reads evs evs.
Proof. induction evs; constructor; auto. Qed.
Lemma reads_app l evs l' evs' : reads l evs -> reads l' evs' -> reads (l ++ l') (evs ++ evs').
Proof. apply Forall2_app. Qed.
Lemma reads_canonical news : reads news (List.map canonical_event news).
Proof. induction news; constructor; auto. Qed.

Section Live.
Context {P : Type} `{!Projection P, !ProjectionAgrees P} `{lib : CryptoLib} (me : nat) (env : oracle).

(** The basis is the replay of what the log held when [l_identity] was its commit. *)
Definition basis_ok (rs : list wrec) (evs : list Event) (g : ledger P) : Prop :=
  forall p, l_basis g = Some p -> exists c, c <= length rs
    /\ commit_of (l_identity g) = (Some c, Some (JStr (last_hash GENESIS (take c rs))))
    /\ reads (source_events p) (take c evs)
    /\ LedgerProjection_new (source_events p) None = Ok p.
Definition view_ok (g : ledger P) : Prop :=
  forall p c, l_proj g = Some (mkView p (Some c)) -> l_basis g = Some p.
(** The store is a vault, idle for this thread, its tail some commit of the log. *)
Definition standing (hdr : bytes) (rs : list wrec) (evs : list Event) (suffix : bytes) (s : store) : Prop :=
  vault hdr rs evs suffix s /\ idle me (st_handle s) /\ exists k, at_commit hdr rs k (st_handle s).
Record live (hdr : bytes) (rs : list wrec) (evs : list Event) (suffix : bytes) (g : ledger P) : Prop := {
  l_standing : standing hdr rs evs suffix (l_store g);
  l_basis_ok : basis_ok rs evs g;
  l_view_ok : view_ok g
}.

Lemma l_vault hdr rs evs suffix g : live hdr rs evs suffix g -> vault hdr rs evs suffix (l_store g).
Proof. by intros [(V & _) _ _]. Qed.
Lemma l_idle hdr rs evs suffix g : live hdr rs evs suffix g -> idle me (st_handle (l_store g)).
Proof. by intros [(_ & I & _) _ _]. Qed.
Lemma ready_standing hdr rs evs s : ready me hdr rs evs s -> standing hdr rs evs [] s.
Proof. intros (V & T & W). split; [done|]. split; [done|]. by eexists; apply at_tail_commit. Qed.

(** The store of a ledger replaced by a later one. *)
Definition with_store (s : store) (g : ledger P) : ledger P :=
  mkLedger s (l_proj g) (l_basis g) (l_generation g) (l_identity g).

Lemma live_store hdr rs evs suffix suffix' g s : live hdr rs evs suffix g ->
  standing hdr rs evs suffix' s -> live hdr rs evs suffix' (with_store s g).
Proof. intros [] S. by split. Qed.

Lemma on_store_is {A} (m : M store A) g r s : m (l_store g) = (r, s) -> on_store m g = (r, with_store s g).
Proof. intros E. unfold on_store. by rewrite E. Qed.

(** The log grows under a basis that stays. *)
Lemma basis_grows rs evs added es g : length rs = length evs -> basis_ok rs evs g ->
  basis_ok (rs ++ added) (evs ++ es) g.
Proof.
  intros Hl B p Hp. destruct (B p Hp) as (c & Hc & Hi & Hr & Hn). exists c.
  rewrite length_app, !take_app_le by lia. split; [lia|done].
Qed.
Lemma vault_lengths hdr rs evs suffix s : vault hdr rs evs suffix s -> length rs = length evs.
Proof. intros V. by eapply Forall2_length, v_events. Qed.

Lemma live_revoked hdr rs evs suffix g : live hdr rs evs suffix g -> live hdr rs evs suffix (revoke_cache g).
Proof.
  intros []. split; try done. intros p c. unfold revoke_cache, revoke_view. cbn.
  destruct (l_proj g) as [[q d]|]; discriminate.
Qed.
Lemma live_view_revoked hdr rs evs suffix g : live hdr rs evs suffix g -> live hdr rs evs suffix (revoke_view g).
Proof.
  intros []. split; try done. intros p c. unfold revoke_view. cbn.
  destruct (l_proj g) as [[q d]|]; discriminate.
Qed.
Lemma live_forgotten hdr rs evs suffix g : standing hdr rs evs suffix (l_store g) ->
  live hdr rs evs suffix (forget g).
Proof. by split. Qed.

(** A basis set from a projection of the whole log. *)
Lemma live_set hdr rs evs suffix g (p : LedgerProjection P) w b :
  standing hdr rs evs suffix (l_store g) ->
  commit_of w = (Some (length rs), Some (JStr (last_hash GENESIS rs))) ->
  reads (source_events p) evs -> LedgerProjection_new (source_events p) None = Ok p ->
  live hdr rs evs suffix (set_basis p w b g).
Proof.
  intros S Hw Hr Hn. pose proof (vault_lengths _ _ _ _ _ (proj1 S)) as Hl.
  split; [done| |done]. intros q Hq. exists (length rs). cbn in *.
  rewrite !firstn_all, Hl, firstn_all. split; [lia|]. rewrite <- Hl. split; [done|].
  destruct (_ && _); [|discriminate]. injection Hq as <-. done.
Qed.
Lemma set_basis_kept (p : LedgerProjection P) w g : w.1.1 = Some (event_count p) ->
  l_basis (set_basis p w true g) = Some p.
Proof. intros H. unfold set_basis. cbn. by rewrite H, bool_decide_true. Qed.

(** *** The authenticated reads on a vault *)
Lemma identity_vault hdr rs evs suffix s : vault hdr rs evs suffix s -> idle me (st_handle s) ->
  authenticated_identity me s
  = (Ok (Some (length rs), Some (JStr (last_hash GENESIS rs)), committed_size hdr rs), synced hdr rs s).
Proof.
  intros V I. unfold authenticated_identity. unfold mbind at 1. rewrite usable_idle by done.
  rewrite (locked_present _ _ _ (v_log _ _ _ _ _ V)).
  unfold mbind at 1, marking_failure, on_exception. by rewrite (reread_vault _ _ _ _ _ V).
Qed.
Lemma synced_idle hdr rs s : idle me (st_handle s) -> idle me (st_handle (synced hdr rs s)).
Proof. done. Qed.

(** The projection a basis grows into: the replay of the basis's events and the suffix, or
    of the log. *)
Lemma advance_agrees hdr rs evs suffix g b : live hdr rs evs suffix g -> (b = true -> basis_reusable g = true) ->
  exists l, reads l evs /\ agree (advance_cache g evs b) (LedgerProjection_new l None).
Proof.
  intros L Hb. destruct b; [|exists evs; split; [apply reads_refl|done]].
  specialize (Hb eq_refl). unfold basis_reusable in Hb. unfold advance_cache.
  destruct (l_basis g) as [p|] eqn:Ep; [|done].
  destruct (l_basis_ok _ _ _ _ _ L p Ep) as (c & Hc & Hi & Hr & Hn).
  assert (Hlen : event_count p = c).
  { unfold event_count. rewrite (Forall2_length _ _ _ Hr), length_take.
    pose proof (vault_lengths _ _ _ _ _ (l_vault _ _ _ _ _ L)). lia. }
  exists (source_events p ++ drop c evs)%list. rewrite Hlen. split; [|by apply fold_agrees].
  rewrite <- (take_drop c evs) at 2. apply reads_app; [done|apply reads_refl].
Qed.
(** *** Publishing *)
Lemma publish_live hdr rs evs suffix g p : live hdr rs evs suffix g -> l_basis g = Some p ->
  exists g' c, publish_basis g = (Ok tt, g') /\ live hdr rs evs suffix g' /\ l_store g' = l_store g
    /\ l_basis g' = Some p /\ l_proj g' = Some (mkView p c).
Proof.
  intros L Ep. unfold publish_basis. rewrite Ep. do 2 eexists. split; [reflexivity|].
  split; [|split; [done|]; split; [exact Ep|done]].
  destruct L as [S B W]. split; [exact S|exact B|].
  intros q c. cbn. intros [= -> _]. exact Ep.
Qed.

Lemma ensured_live hdr rs evs suffix g p : live hdr rs evs suffix g -> l_basis g = Some p ->
  exists g' c, ensure_published g = (Ok tt, g') /\ live hdr rs evs suffix g' /\ l_store g' = l_store g
    /\ l_basis g' = Some p /\ l_proj g' = Some (mkView p c).
Proof.
  intros L Ep. unfold ensure_published. unfold mbind at 1, mget.
  assert (Hp : forall g0, live hdr rs evs suffix g0 -> l_store g0 = l_store g -> l_basis g0 = Some p ->
    exists g' c, publish_basis g0 = (Ok tt, g') /\ live hdr rs evs suffix g' /\ l_store g' = l_store g
      /\ l_basis g' = Some p /\ l_proj g' = Some (mkView p c)).
  { intros g0 L0 Hs H0. destruct (publish_live _ _ _ _ _ _ L0 H0) as (g' & c & E & L' & Es & H).
    exists g', c. rewrite Es. by split. }
  destruct (l_proj g) as [[q [c|]]|] eqn:Ev; [| |by apply Hp].
  - unfold mbind, owned_projection_identity. rewrite Ev. destruct (claim_holds g _ c).
    + exists g, (Some c). rewrite (l_view_ok _ _ _ _ _ L q c Ev) in Ep. injection Ep as <-.
      split; [done|]. split; [done|]. split; [done|]. split; [|done]. by apply (l_view_ok _ _ _ _ _ L q c).
    + apply Hp; [by apply live_view_revoked|done|done].
  - unfold mbind, owned_projection_identity. rewrite Ev. by apply Hp.
Qed.

(** *** Synchronizing: the basis becomes the replay of the log, or the ledger forgets *)
Lemma refresh_live hdr rs evs suffix g b : live hdr rs evs suffix g -> (b = true -> basis_reusable g = true) ->
  exists l s g', reads l evs /\ ready me hdr rs evs s /\ same_keys (l_store g) s /\ l_store g' = s /\
    match LedgerProjection_new l None with
    | Ok p => refresh_basis me env b g = (Ok tt, g') /\ live hdr rs evs [] g' /\ l_basis g' = Some p
    | Raise _ => exists x, refresh_basis me env b g = (Raise x, g')
    end.
Proof.
  intros L Hb. destruct (advance_agrees _ _ _ _ _ b L Hb) as (l & Hl & A).
  destruct (snapshot_vault me env _ _ _ _ _ (l_vault _ _ _ _ _ L) (l_idle _ _ _ _ _ L)) as (s & Es & R & K).
  exists l, s. unfold refresh_basis, mbind, mget, mmodify, on_store, mlift. cbv beta iota zeta.
  change (l_store (revoke_cache g)) with (l_store g). rewrite Es. cbv beta iota zeta.
  pose proof R as (V & _ & W).
  destruct (LedgerProjection_new l None) as [p|x] eqn:En.
  - apply agree_ok in A. rewrite A. destruct (replayed_sources _ _ _ En) as [Hsrc _].
    eexists. split; [done|]. split; [done|]. split; [done|]. split; [|split; [reflexivity|split]]; [done|..].
    + apply live_set; cbn; [by apply ready_standing|done|by rewrite Hsrc|by rewrite Hsrc].
    + apply set_basis_kept. cbn. unfold event_count. rewrite Hsrc, (Forall2_length _ _ _ Hl).
      by rewrite (vault_lengths _ _ _ _ _ V).
  - apply agree_raise in A as [y A]. rewrite A.
    eexists. split; [done|]. split; [done|]. split; [done|]. split; [|by eexists]. done.
Qed.

(** The whole of the synchronization, whoever wrote since. *)
Lemma sync_live hdr rs evs suffix g publish : live hdr rs evs suffix g ->
  exists l g', reads l evs /\ live hdr rs evs [] g' /\ same_keys (l_store g) (l_store g') /\
    match LedgerProjection_new l None with
    | Ok p => sync_if_external_write me env publish g = (Ok tt, g') /\ l_basis g' = Some p
        /\ (publish = true -> exists c, l_proj g' = Some (mkView p c))
    | Raise _ => exists x, sync_if_external_write me env publish g = (Raise x, g')
    end.
Proof.
  intros L. unfold sync_if_external_write, mbind, reading, on_exception, mget.
  rewrite (on_store_is _ g _ _ (identity_vault _ _ _ _ _ (l_vault _ _ _ _ _ L) (l_idle _ _ _ _ _ L))).
  destruct (synced_vault _ _ _ _ _ (l_vault _ _ _ _ _ L)) as [V1 T1].
  assert (S1 : standing hdr rs evs [] (synced hdr rs (l_store g))).
  { split; [done|]. split; [apply (l_idle _ _ _ _ _ L)|]. by eexists; apply at_tail_commit. }
  pose proof (live_store _ _ _ _ _ _ _ L S1) as L1.
  set (g1 := with_store _ g) in *.
  assert (Hend : forall g2 l p, live hdr rs evs [] g2 -> reads l evs -> LedgerProjection_new l None = Ok p ->
    l_basis g2 = Some p -> exists g', live hdr rs evs [] g' /\ l_store g' = l_store g2 /\
      mwhen publish ensure_published g2 = (Ok tt, g') /\ l_basis g' = Some p
      /\ (publish = true -> exists c, l_proj g' = Some (mkView p c))).
  { intros g2 l p L2 Hl Hn Hp. destruct publish; [|by exists g2].
    destruct (ensured_live _ _ _ _ _ _ L2 Hp) as (g' & c & E & L' & Es & Hb & Hv).
    exists g'. split; [done|]. split; [done|]. split; [exact E|]. split; [done|]. intros _. by exists c. }
  destruct (bool_decide (l_basis g1 = None) || _ || _) eqn:Stale.
  - destruct (refresh_live _ _ _ _ g1 (basis_reusable g) L1 (fun H => H)) as (l & s & g2 & Hl & R & K & Es & H).
    exists l. cbn [mwhen]. destruct (LedgerProjection_new l None) as [p|x] eqn:En.
    + destruct H as (E & L2 & Hb). destruct (Hend g2 l p L2 Hl En Hb) as (g' & L' & Es' & E' & Hb' & Hv).
      exists g'. split; [done|]. split; [done|]. split; [by rewrite Es', Es|].
      rewrite E, E'. done.
    + destruct H as [y E]. exists (forget g2). split; [done|].
      split; [apply live_forgotten; rewrite Es; by apply ready_standing|]. split; [cbn; by rewrite Es|].
      exists y. by rewrite E.
  - apply orb_false_iff in Stale as [Stale Hr]. apply orb_false_iff in Stale as [Hn Hi].
    apply bool_decide_eq_false in Hn. apply negb_false_iff, bool_decide_eq_true in Hi.
    destruct (l_basis g1) as [p|] eqn:Ep; [|done].
    destruct (l_basis_ok _ _ _ _ _ L1 p Ep) as (c & Hc & Hw & Hrd & Hnew).
    assert (Hcl : c = length rs) by (rewrite <- Hi in Hw; cbn in Hw; congruence).
    rewrite Hcl, (vault_lengths _ _ _ _ _ V1), firstn_all in Hrd.
    destruct (Hend g1 _ p L1 Hrd Hnew Ep) as (g' & L' & Es' & E' & Hb' & Hv).
    exists (source_events p), g'. split; [done|]. split; [done|]. split; [by rewrite Es'|].
    rewrite Hnew. cbn [mwhen]. unfold mret. rewrite E'. done.
Qed.
(** *** Appending, on the store's side *)
Lemma events_of_items items news : events_of items = Ok news -> items = List.map IEvent news.
Proof.
  revert news. induction items as [|[e|] items IH]; intros news H; cbn in H; [by injection H as <-| |discriminate].
  apply rbind_ok in H as (l & H & E). injection E as <-. cbn. f_equal. by apply IH.
Qed.

(** A decision that raises, or returns something that is not an event, leaves the log. *)
Lemma append_refused hdr rs evs suffix s ft dec observe r e :
  vault hdr rs evs suffix s -> idle me (st_handle s) -> (forall s', dec evs s' = (r, s')) ->
  (let? items := r in events_of items) = Raise e ->
  exists s', append_atomically me env ft dec observe s = (Raise e, s')
    /\ ready me hdr rs evs s' /\ same_keys s s'.
Proof.
  intros V I Hd He. pose proof (synced_vault _ _ _ _ _ V) as [V1 T1].
  pose proof (reread_vault _ _ _ _ _ V) as Er. pose proof I as (Hw & Hdo & Ho).
  destruct (events_vault env hdr rs evs (synced hdr rs s) V1 T1) as (c & Hc & Ee); [done|].
  set (s1 := with_handle (set_decrypted c) (synced hdr rs s)) in *.
  exists (with_handle (set_decision_owner None) s1). split; [|split; [|done]].
  - unfold append_atomically. unfold mbind at 1. rewrite usable_idle by done.
    unfold mbind at 1. rewrite (locked_present _ _ _ (v_log _ _ _ _ _ V)).
    unfold mbind at 1, marking_failure, on_exception. rewrite Er. unfold mbind at 1. rewrite Ee.
    unfold mbind at 1, run_decision, update, mmodify, mbind, finally. rewrite Hd.
    destruct r as [items|x]; cbn [rbind] in He; [|by injection He as ->].
    unfold mlift. by rewrite He.
  - split; [|done]. destruct V1. split; done.
Qed.

(** An empty decision writes nothing, whatever the disk would have done. *)
Lemma append_nothing hdr rs evs suffix s ft dec observe :
  vault hdr rs evs suffix s -> idle me (st_handle s) -> decides dec evs [] ->
  exists s', append_atomically me env ft dec observe s = (Ok [], s')
    /\ ready me hdr rs evs s' /\ same_keys s s'.
Proof.
  intros V I Hd. destruct (append_reads me env _ _ _ _ _ ft dec observe [] V I Hd) as (s2 & R & K & _ & E).
  exists s2. rewrite E. done.
Qed.
End Live.

(** What the disk did to a batch: whether it was committed, and whether the caller was
    told of a failure; an empty batch is never written. *)
Definition lands (ft : fault) (news : list Event) : bool := negb (bool_decide (news = [])) && committed_by ft.
Definition breaks (ft : fault) (news : list Event) : bool := negb (bool_decide (news = [])) && fails ft.
Definition grown (ft : fault) (news evs : list Event) : list Event :=
  if lands ft news then (evs ++ List.map canonical_event news)%list else evs.

Section Appending.
Context {P : Type} `{!Projection P, !ProjectionAgrees P} `{lib : CryptoLib} (me : nat) (env : oracle).
Context `{laws : !CryptoLaws lib}.

Lemma append_settles hdr rs evs suffix s ft dec observe r :
  vault hdr rs evs suffix s -> idle me (st_handle s) -> (forall s', dec evs s' = (r, s')) -> quiet observe ->
  (forall news, (let? items := r in events_of items) = Ok news -> Forall storable news) ->
  match (let? items := r in events_of items) with
  | Raise e => exists s', append_atomically me env ft dec observe s = (Raise e, s')
      /\ ready me hdr rs evs s' /\ same_keys s s'
  | Ok news => exists added s', length added = length news
      /\ append_atomically me env ft dec observe s
         = ((if breaks ft news then Raise OSError else Ok (List.map w_json added)), s')
      /\ ready me hdr (if lands ft news then rs ++ added else rs) (grown ft news evs) s' /\ same_keys s s'
  end.
Proof.
  intros V I Hd Q Hs. destruct (let? items := r in events_of items) as [news|e] eqn:E;
    [|by eapply append_refused].
  specialize (Hs news eq_refl). apply rbind_ok in E as (items & -> & E). apply events_of_items in E as ->.
  unfold grown, lands, breaks. destruct (decide (news = [])) as [->|Hne].
  - destruct (append_nothing me env _ _ _ _ _ ft dec observe V I Hd) as (s' & E & R & K).
    exists [], s'. done.
  - destruct (append_result me env _ _ _ _ _ ft dec observe news V I Hd Hne Hs Q) as (added & s' & Hl & E & K & R).
    exists added, s'. rewrite bool_decide_false by done. cbn [negb andb].
    split; [done|]. split; [done|]. split; [|done]. by destruct (committed_by ft).
Qed.

(** The records an append returns always name their place. *)
Lemma witnessed_total added before after :
  exists b, witnessed_by (List.map w_json added) before after = Ok b.
Proof.
  unfold witnessed_by. destruct added as [|r added _] using rev_ind; [by eexists|].
  rewrite List.map_app. cbn [List.map]. rewrite List.last_last. by eexists.
Qed.

(** What an append decided: on the replay of what the log holds. *)
Definition chosen_on (d : decision) (l : list Event) : res (list Event) :=
  let? p := LedgerProjection_new l None in
  let? items := decided d p in events_of items.
(** Every batch the decision can ask for can be written. *)
Definition writable (d : decision (P := P)) : Prop :=
  forall p items news, decided d p = Ok items -> events_of items = Ok news -> Forall storable news.

Lemma append_on hdr rs evs suffix g ft observe d l :
  live me hdr rs evs suffix g -> quiet observe -> writable d -> reads l evs ->
  agree (advance_cache g evs (basis_reusable g)) (LedgerProjection_new l None) ->
  exists r g', append_decision me env ft observe d g = (r, g')
    /\ same_keys (l_store g) (l_store g') /\
    match chosen_on d l with
    | Raise _ => is_ok r = false /\ live me hdr rs evs [] g'
    | Ok news => exists added, length added = length news
        /\ live me hdr (if lands ft news then rs ++ added else rs) (grown ft news evs) [] g'
        /\ is_ok r = negb (breaks ft news) && is_ok (LedgerProjection_new (P := P) (l ++ news) None)
        /\ forall records, r = Ok records -> records = List.map w_json added
    end.
Proof.
  intros L Q Hw Hl A.
  destruct (snapshot_vault me env _ _ _ _ _ (l_vault _ _ _ _ _ _ L) (l_idle _ _ _ _ _ _ L)) as (s0 & Es & R0 & K0).
  pose proof (live_revoked me _ _ _ _ _ L) as L1. set (g1 := revoke_cache g) in *.
  set (b := basis_reusable g) in *.
  assert (Hch : forall s', choose g1 b d evs s' = (let? p := advance_cache g evs b in decided d p, s')) by done.
  set (c := let? p := advance_cache g evs b in decided d p) in *.
  assert (Hag : agree (let? items := c in events_of items) (chosen_on d l)).
  { unfold c, chosen_on. rewrite rbind_assoc. by rewrite A. }
  assert (Hc : forall news, (let? items := c in events_of items) = Ok news -> Forall storable news).
  { intros news E. apply rbind_ok in E as (items & Ec & E). apply rbind_ok in Ec as (p & _ & Ec). by eapply Hw. }
  pose proof (append_settles _ _ _ _ _ ft _ observe _ (l_vault _ _ _ _ _ _ L1) (l_idle _ _ _ _ _ _ L1) Hch Q Hc) as S.
  unfold append_decision, mbind, mmodify, reading, on_exception, mget, mlift.
  fold g1. fold b. change (l_store g1) with (l_store g) in *. rewrite Es. cbn [fst].
  destruct (let? items := c in events_of items) as [news|e] eqn:Ec.
  - destruct S as (added & s & Hlen & Ea & R & K). erewrite on_store_is by exact Ea. cbv beta iota.
    symmetry in Hag. apply agree_ok in Hag. rewrite Hag. pose proof R as (V & (_ & _ & _ & T & _) & W).
    apply rbind_ok in Ec as (items & Ec & En). apply rbind_ok in Ec as (p & Ep & Ed).
    rewrite Ep in A. symmetry in A. apply agree_ok in A.
    pose proof (fold_agrees None l news p A) as F.
    destruct (breaks ft news) eqn:Eb.
    { do 2 eexists. split; [reflexivity|]. split; [exact K|].
      exists added. split; [done|]. split; [by apply live_forgotten, ready_standing|]. done. }
    cbv beta iota. change (advance_cache g1 evs b) with (advance_cache g evs b). rewrite Ep. cbn [rbind]. rewrite Ed. cbn [rbind]. rewrite En. cbn [rbind].
    destruct (rfold projection_apply news p) as [q|x] eqn:Eq.
    + symmetry in F. apply agree_ok in F. destruct (replayed_sources _ _ _ F) as [Hsrc _].
      cbn [l_store with_store].
      match goal with |- context [witnessed_by ?r ?x ?y] => destruct (witnessed_total added x y) as [wb Ewb]; rewrite Ewb end.
      do 2 eexists. split; [reflexivity|]. split; [exact K|].
      exists added. split; [done|]. rewrite F. split; [|split; [done|by intros ? [= ->]]].
      apply live_set; cbn [l_store with_store]; rewrite ?Hsrc.
      * by apply ready_standing.
      * unfold cached_identity. by rewrite T.
      * unfold grown. destruct (lands ft news) eqn:El; [apply reads_app; [done|apply reads_canonical]|].
        unfold lands, breaks in *. destruct (decide (news = [])) as [->|]; [by rewrite app_nil_r|].
        rewrite bool_decide_false in * by done. cbn in *. by destruct ft as [| | | |[|]].
      * done.
    + symmetry in F. apply agree_raise in F as [y F]. rewrite F.
      do 2 eexists. split; [reflexivity|]. split; [exact K|].
      exists added. split; [done|]. split; [by apply live_forgotten, ready_standing|]. done.
  - destruct S as (s & Ea & R & K). erewrite on_store_is by exact Ea. cbv beta iota.
    symmetry in Hag. apply agree_raise in Hag as [y Hag]. rewrite Hag.
    do 2 eexists. split; [reflexivity|]. split; [exact K|]. split; [done|].
    by apply live_forgotten, ready_standing.
Qed.

Lemma append_live hdr rs evs suffix g ft observe d :
  live me hdr rs evs suffix g -> quiet observe -> writable d ->
  exists l r g', reads l evs /\ append_decision me env ft observe d g = (r, g')
    /\ same_keys (l_store g) (l_store g') /\
    match chosen_on d l with
    | Raise _ => is_ok r = false /\ live me hdr rs evs [] g'
    | Ok news => exists added, length added = length news
        /\ live me hdr (if lands ft news then rs ++ added else rs) (grown ft news evs) [] g'
        /\ is_ok r = negb (breaks ft news) && is_ok (LedgerProjection_new (P := P) (l ++ news) None)
        /\ forall records, r = Ok records -> records = List.map w_json added
    end.
Proof.
  intros L Q Hw. destruct (advance_agrees me _ _ _ _ g (basis_reusable g) L (fun H => H)) as (l & Hl & A).
  destruct (append_on _ _ _ _ _ ft observe d l L Q Hw Hl A) as (r & g' & H). by exists l, r, g'.
Qed.
End Appending.
