(* ===== verification/LiveLedger.v ===== *)
(** * LiveLedger: several ledgers over one log are one fold of one list

    A [world] is the two files on disk and the ledgers open on them, each with its own
    handle, basis and view.  Requests interleave in any order; the abstract machine has a
    list of events and nothing else.  All of it is over a fold that agrees with its rebuild
    ([ProjectionAgrees]): it is about caches, views, forks and failures, and says nothing of
    observations that are corrected, which [Visibility] and [LiveProjection] are about. *)
From Stdlib Require Import ZArith NArith Ascii String Lia.
From stdpp Require Import base list numbers strings.
From S2P Require Import Prelude Text Json Hashing Crypto Events StoreFormat StoreLaws EventStore VaultLaws Ledger.
From S2P Require Import VaultLaws VaultProperties LedgerLaws.
#[local] Open Scope string_scope.

Section World.
Context {P : Type} `{!Projection P} `{lib : CryptoLib} (me : nat).

Record world := mkWorld { w_log : option bytes; w_head : option bytes; w_ledgers : list (ledger P) }.

(** A ledger reaches the files through its own handle. *)
Definition on_disk (w : world) (g : ledger P) : ledger P :=
  with_store (mkStore (w_log w) (w_head w) (st_handle (l_store g))) g.

(** What a caller asks of a ledger, and what comes back. *)
Inductive request :=
  | Append (ft : fault) (observe : nat -> witness -> M store unit) (d : decision (P := P))
  | Project (h : option string)
  | FoldView (e : Event)
  | Fork.
Inductive answer :=
  | Appended (r : res (list json))
  | Projected (r : res (LedgerProjection P))
  | Folded (r : res unit)
  | Forked (r : res (ledger P)).

Definition serve (env : oracle) (q : request) (g : ledger P) : answer * ledger P :=
  match q with
  | Append ft observe d => let '(r, g') := append_decision me env ft observe d g in (Appended r, g')
  | Project h => let '(r, g') := projection_as_of me env h g in (Projected r, g')
  | FoldView e => let '(r, g') := view_apply e g in (Folded r, g')
  | Fork => let '(r, g') := fork_ledger me env g in (Forked r, g')
  end.

(** The ledgers after an answer: the one asked, and the fork when one was made. *)
Definition joined (a : answer) (gs : list (ledger P)) : list (ledger P) :=
  match a with Forked (Ok g) => (gs ++ [g])%list | _ => gs end.
Definition step_world (env : oracle) (i : nat) (q : request) (w : world) : option (answer * world) :=
  match w_ledgers w !! i with
  | None => None
  | Some g =>
      let '(a, g') := serve env q (on_disk w g) in
      Some (a, mkWorld (st_log (l_store g')) (st_head (l_store g')) (joined a (<[i := g']> (w_ledgers w))))
  end.

(** Requests a program makes: batches the log can hold, observers that leave it alone. *)
Definition proper_request (q : request) : Prop :=
  match q with Append _ observe d => quiet observe /\ writable d | _ => True end.

Inductive world_run : world -> list (request * answer) -> world -> Prop :=
  | world_done w : world_run w [] w
  | world_step env i q a w w1 ls w' : proper_request q -> step_world env i q w = Some (a, w1) ->
      world_run w1 ls w' -> world_run w ((q, a) :: ls) w'.

(** ** The abstract machine *)
Definition spec_serve (evs : list Event) (q : request) (a : answer) (evs' : list Event) : Prop :=
  match q, a with
  | Append ft _ d, Appended r => exists l, reads l evs /\
      match chosen_on d l with
      | Raise _ => is_ok r = false /\ evs' = evs
      | Ok news => evs' = grown ft news evs
          /\ is_ok r = negb (breaks ft news) && is_ok (LedgerProjection_new (P := P) (l ++ news) None)
          /\ forall records, r = Ok records -> length records = length news
      end
  | Project h, Projected r => evs' = evs /\ exists l, reads l evs /\ agree r (LedgerProjection_new l h)
  | FoldView _, Folded _ => evs' = evs
  | Fork, Forked r => evs' = evs /\ is_ok r = true
  | _, _ => False
  end.
Fixpoint spec_serves (evs : list Event) (ls : list (request * answer)) (evs' : list Event) : Prop :=
  match ls with
  | [] => evs' = evs
  | (q, a) :: ls' => exists evs1, spec_serve evs q a evs1 /\ spec_serves evs1 ls' evs'
  end.
End World.

Section Refines.
Context {P : Type} `{!Projection P, !ProjectionAgrees P} `{lib : CryptoLib} (me : nat) (env : oracle).
Context `{laws : !CryptoLaws lib}.

(** Every ledger of the world is live over the same records and holds the same key. *)
Definition settled (key : bytes) (kdf : KdfParams) (hdr : bytes) (rs : list wrec) (evs : list Event)
    (suffix : bytes) (w : world (P := P)) : Prop :=
  Forall (fun g => live me hdr rs evs suffix (on_disk w g)
    /\ h_key (st_handle (l_store g)) = key /\ h_kdf (st_handle (l_store g)) = kdf) (w_ledgers w).
Definition world_for (evs : list Event) (w : world (P := P)) : Prop :=
  exists key kdf hdr rs suffix, settled key kdf hdr rs evs suffix w.

Lemma projection_live hdr rs evs suffix h (g : ledger P) : live me hdr rs evs suffix g ->
  exists r g', projection_as_of me env h g = (r, g') /\ live me hdr rs evs [] g'
    /\ same_keys (l_store g) (l_store g') /\ exists l, reads l evs /\ agree r (LedgerProjection_new l h).
Proof.
  intros L. destruct h as [h|]; cbn [projection_as_of].
  - destruct (snapshot_events_vault me env _ _ _ _ _ (l_vault _ _ _ _ _ _ L) (l_idle _ _ _ _ _ _ L)) as (s & E & R & K).
    unfold replay_projection, mbind, mlift. erewrite on_store_is by exact E.
    do 2 eexists. split; [reflexivity|].
    split; [by eapply live_store, ready_standing|]. split; [done|]. exists evs. split; [apply reads_refl|done].
  - destruct (sync_live me env _ _ _ _ g true L) as (l & g' & Hl & L' & K & H).
    unfold projection, mbind, mlift, mget. destruct (LedgerProjection_new l None) as [p|x] eqn:En.
    + destruct H as (E & _ & Hv). destruct (Hv eq_refl) as [c Ec]. rewrite E, Ec.
      do 2 eexists. split; [reflexivity|]. split; [done|]. split; [done|]. exists l. rewrite En. by split.
    + destruct H as [y E]. rewrite E. do 2 eexists. split; [reflexivity|]. split; [done|].
      split; [done|]. exists l. rewrite En. by split.
Qed.

Lemma view_apply_live hdr rs evs suffix e (g : ledger P) : live me hdr rs evs suffix g ->
  exists r g', view_apply e g = (r, g') /\ live me hdr rs evs suffix g' /\ same_keys (l_store g) (l_store g').
Proof.
  intros L. unfold view_apply, mbind, mget, mmodify, mlift.
  destruct (l_proj g) as [v|] eqn:Ev; [|by do 2 eexists].
  pose proof (live_view_revoked me _ _ _ _ _ L) as [S B W].
  destruct (projection_apply (v_projection v) e) as [p|x]; do 2 eexists; (split; [reflexivity|]; split; [|done]).
  - split; [exact S|exact B|]. intros q c. discriminate.
  - by split.
Qed.

Lemma fork_live hdr rs evs suffix (g : ledger P) : live me hdr rs evs suffix g ->
  exists f g', fork_ledger me env g = (Ok f, g') /\ live me hdr rs evs [] g' /\ live me hdr rs evs [] f
    /\ same_keys (l_store g) (l_store g') /\ same_keys (l_store g) (l_store f)
    /\ st_log (l_store f) = st_log (l_store g') /\ st_head (l_store f) = st_head (l_store g').
Proof.
  intros L. pose proof L as [(V & I & k & T) _ _]. unfold fork_ledger, mbind, reading.
  erewrite on_store_is by (by eapply fork_vault). destruct (synced_vault _ _ _ _ _ V) as [V1 T1].
  destruct (forked_vault me _ _ _ _ _ V) as (V2 & T2 & I2).
  do 2 eexists. split; [reflexivity|]. split; [|split; [|done]].
  - eapply live_store; [done|]. split; [done|]. split; [done|]. by eexists; apply at_tail_commit.
  - split; [|done|done]. split; [exact V2|]. split; [exact I2|]. by eexists; apply at_tail_commit.
Qed.

(** One request, on the ledger it was put to. *)
Lemma serve_live hdr rs evs suffix q g : live me hdr rs evs suffix g -> proper_request q ->
  exists a g' added es suffix', serve me env q g = (a, g') /\ same_keys (l_store g) (l_store g')
    /\ live me hdr (rs ++ added) (evs ++ es) suffix' g' /\ spec_serve evs q a (evs ++ es)
    /\ forall f, a = Forked (Ok f) -> live me hdr (rs ++ added) (evs ++ es) suffix' f
         /\ same_keys (l_store g) (l_store f)
         /\ st_log (l_store f) = st_log (l_store g') /\ st_head (l_store f) = st_head (l_store g').
Proof.
  intros L Hq. destruct q as [ft observe d|h|e|]; cbn [serve].
  - destruct Hq as [Q Hw].
    destruct (append_live me env _ _ _ _ g ft observe d L Q Hw) as (l & r & g' & Hl & E & K & H). rewrite E.
    destruct (chosen_on d l) as [news|x] eqn:Ec.
    + destruct H as (added & Hlen & L' & Ho & Hrec).
      exists (Appended r), g', (if lands ft news then added else []),
        (if lands ft news then List.map canonical_event news else []), [].
      split; [done|]. split; [done|].
      assert (Hg : (evs ++ if lands ft news then List.map canonical_event news else [])%list = grown ft news evs).
      { unfold grown. destruct (lands ft news); [done|by rewrite app_nil_r]. }
      rewrite Hg. split; [destruct (lands ft news); [done|by rewrite app_nil_r]|].
      split; [|done]. exists l. split; [done|]. rewrite Ec. split; [done|]. split; [done|].
      intros records Er. rewrite (Hrec _ Er). by rewrite length_map.
    + destruct H as [Hr L']. exists (Appended r), g', [], [], []. rewrite !app_nil_r.
      split; [done|]. split; [done|]. split; [done|]. split; [|done]. exists l. by rewrite Ec.
  - destruct (projection_live _ _ _ _ h g L) as (r & g' & E & L' & K & Hs). rewrite E.
    exists (Projected r), g', [], [], []. by rewrite !app_nil_r.
  - destruct (view_apply_live _ _ _ _ e g L) as (r & g' & E & L' & K). rewrite E.
    exists (Folded r), g', [], [], suffix. by rewrite !app_nil_r.
  - destruct (fork_live _ _ _ _ g L) as (f & g' & E & L' & Lf & K & Kf & Hlog & Hhead). rewrite E.
    exists (Forked (Ok f)), g', [], [], []. rewrite !app_nil_r. split; [done|]. split; [done|]. split; [done|].
    split; [done|]. by intros f' [= <-].
Qed.

(** What another ledger's write leaves of this one. *)
Lemma standing_elsewhere hdr rs evs suffix added es suffix' s s' :
  standing me hdr rs evs suffix s -> vault hdr (rs ++ added) (evs ++ es) suffix' s' -> same_keys s s' ->
  standing me hdr (rs ++ added) (evs ++ es) suffix' (mkStore (st_log s') (st_head s') (st_handle s)).
Proof.
  intros (V & I & k & Hk & Tc & Tl & Ts) V' [Kk Kd]. split; [|split; [exact I|]].
  - destruct V, V'. split; cbn; rewrite <- ?Kk, <- ?Kd; try done.
    + by apply observed_app.
    + by apply cache_ok_app.
  - exists k. cbn. unfold at_commit. rewrite length_app, !take_app_le by lia. split; [lia|done].
Qed.
Lemma live_elsewhere hdr rs evs suffix added es suffix' (g : ledger P) s' :
  live me hdr rs evs suffix g -> vault hdr (rs ++ added) (evs ++ es) suffix' s' -> same_keys (l_store g) s' ->
  live me hdr (rs ++ added) (evs ++ es) suffix' (with_store (mkStore (st_log s') (st_head s') (st_handle (l_store g))) g).
Proof.
  intros [S B W] V' K. split; [by eapply standing_elsewhere|cbn|done].
  apply basis_grows; [by eapply vault_lengths, S|done].
Qed.

Lemma step_settled key kdf hdr rs evs suffix i q a w w' :
  settled key kdf hdr rs evs suffix w -> proper_request q -> step_world me env i q w = Some (a, w') ->
  exists added es suffix', settled key kdf hdr (rs ++ added) (evs ++ es) suffix' w'
    /\ spec_serve evs q a (evs ++ es).
Proof.
  intros Hw Hq H. unfold step_world in H. destruct (w_ledgers w !! i) as [g|] eqn:Ei; [|discriminate].
  pose proof (Forall_lookup_1 _ _ _ _ Hw Ei) as (L & Hk & Hd).
  destruct (serve_live _ _ _ _ q _ L Hq) as (a' & g' & added & es & suffix' & E & [K1 K2] & L' & Hs & Hf).
  rewrite E in H. injection H as <- <-. exists added, es, suffix'. split; [|done].
  cbn in K1, K2. rewrite Hk in K1. rewrite Hd in K2.
  assert (Hall : Forall (fun x => live me hdr (rs ++ added) (evs ++ es) suffix'
      (with_store (mkStore (st_log (l_store g')) (st_head (l_store g')) (st_handle (l_store x))) x)
    /\ h_key (st_handle (l_store x)) = key /\ h_kdf (st_handle (l_store x)) = kdf) (<[i := g']> (w_ledgers w))).
  { apply Forall_insert; [|by destruct g' as [[]]].
    eapply Forall_impl; [exact Hw|]. intros x (Lx & Hkx & Hdx). split; [|done].
    refine (live_elsewhere _ _ _ _ _ _ _ _ (l_store g') Lx (l_vault _ _ _ _ _ _ L') _).
    split; cbn; congruence. }
  unfold settled. cbn [w_ledgers w_log w_head]. destruct a' as [| | |[f|]]; cbn [joined]; try exact Hall.
  apply Forall_app. split; [exact Hall|]. constructor; [|done].
  destruct (Hf f eq_refl) as (Lf & [F1 F2] & Hlog & Hhead). cbn in F1, F2.
  split; [|split; congruence]. unfold on_disk. cbn [w_log w_head]. rewrite <- Hlog, <- Hhead. by destruct f as [[]].
Qed.
End Refines.

Section Runs.
Context {P : Type} `{!Projection P, !ProjectionAgrees P} `{lib : CryptoLib} (me : nat) `{laws : !CryptoLaws lib}.

Lemma world_refines w ls w' evs : world_run me w ls w' -> world_for me (P := P) evs w ->
  exists evs', spec_serves evs ls evs' /\ world_for me evs' w'.
Proof.
  intros H. revert evs. induction H as [w|env i q a w w1 ls w' Hq Hs Hr IH]; intros evs Hw.
  - by exists evs.
  - destruct Hw as (key & kdf & hdr & rs & suffix & Hw).
    eapply step_settled in Hs as (added & es & suffix' & Hw1 & H1); [|exact laws|exact Hw|exact Hq].
    destruct (IH (evs ++ es)%list) as (evs' & H2 & Hw'); [by do 5 eexists|].
    exists evs'. split; [|done]. by exists (evs ++ es)%list.
Qed.

(** A ledger just opened on a store is such a world. *)
Lemma new_world hdr rs evs suffix s : standing me hdr rs evs suffix s ->
  world_for me evs (mkWorld (st_log s) (st_head s) [new_ledger (P := P) s]).
Proof.
  intros S. exists (h_key (st_handle s)), (h_kdf (st_handle s)), hdr, rs, suffix.
  constructor; [|constructor]. split; [|done]. split; [by destruct s|intros p H; discriminate H|intros p c H; discriminate H].
Qed.

(** Over a fold that agrees with its rebuild, every ledger is one fold of one log.  Open a ledger on a vault holding [evs] and let
    it, its forks and theirs serve any requests in any order, with writes failing where they
    may, callers folding what they like into the views they were handed, and decisions
    raising or choosing what is no event.  The answers are those of a single list of events:
    a decision is shown the replay of that list and its batch extends it whole or not at
    all; a projection, live or as of a day, is the replay of that list up to the key order of
    the events this process wrote, and raises only where replaying raises; nothing a caller
    did to a view can be seen in any answer. *)
Theorem ledgers_are_one_fold hdr rs evs suffix s ls w' : standing me hdr rs evs suffix s ->
  world_run me (mkWorld (st_log s) (st_head s) [new_ledger (P := P) s]) ls w' ->
  exists evs', spec_serves evs ls evs' /\ world_for me evs' w'.
Proof. intros S R. eapply world_refines; [exact R|]. by eapply new_world. Qed.
End Runs.

(** ** A world run *)

(** A script says which ledger each request is put to. *)
Fixpoint run_script {P} `{!Projection P} `{lib : CryptoLib} (me : nat) (env : oracle)
    (script : list (nat * request (P := P))) (w : world (P := P)) : option (list (request * answer) * world) :=
  match script with
  | [] => Some ([], w)
  | (i, q) :: script' =>
      match step_world me env i q w with
      | None => None
      | Some (a, w1) =>
          match run_script me env script' w1 with
          | None => None
          | Some (ls, w') => Some ((q, a) :: ls, w')
          end
      end
  end.
Lemma script_runs {P} `{!Projection P} `{lib : CryptoLib} me env script (w : world (P := P)) ls w' :
  Forall (fun p => proper_request p.2) script -> run_script me env script w = Some (ls, w') ->
  world_run me w ls w' /\ ls.*1 = script.*2.
Proof.
  revert w ls. induction script as [|[i q] script IH]; intros w ls Hp H; cbn in H.
  - injection H as <- <-. split; [constructor|done].
  - destruct (step_world me env i q w) as [[a w1]|] eqn:E; [|discriminate].
    destruct (run_script me env script w1) as [[ls1 w2]|] eqn:E2; [|discriminate]. injection H as <- <-.
    inv Hp. destruct (IH w1 ls1) as [Hr Hq]; [done..|]. split; [by econstructor|]. cbn. by f_equal.
Qed.

(** ** Staged work *)
Section Staging.
Context {P : Type} `{!Projection P, !ProjectionAgrees P} `{lib : CryptoLib} (me : nat) (env : oracle).
Context `{laws : !CryptoLaws lib}.

Lemma stage_decides {A} (op : M staged A) l : agree (chosen_on (Decide (stage_decision op)) l)
  (let? p := LedgerProjection_new (P := P) l None in let? (_, added) := stage_result op p in Ok added).
Proof.
  unfold chosen_on, decided, stage_decision. destruct (LedgerProjection_new l None) as [p|]; [|done]. cbn [rbind].
  destruct (stage_result op p) as [[a added]|]; [|done]. cbn [rbind]. by rewrite rmap_ievent.
Qed.

(** Staged work is one append.  [stage_atomically] runs its operation on a stage whose
    basis is the replay of the log; when the operation raises, or leaves its stage failed,
    it raises and the log is as it was; otherwise everything the operation added is
    committed as one batch or, when the disk fails before the commit, not at all, and the
    value delivered is the one the operation returned. *)
Theorem staged_work_is_one_append {A} hdr rs evs suffix g ft observe (op : M (staged (P := P)) A) :
  live me hdr rs evs suffix g -> quiet observe ->
  (forall p a added, stage_result op p = Ok (a, added) -> Forall storable added) ->
  exists l r g', reads l evs /\ stage_atomically me env ft observe op g = (r, g') /\
    match (let? p := LedgerProjection_new l None in stage_result op p) with
    | Raise _ => is_ok r = false /\ live me hdr rs evs [] g'
    | Ok (a, added) => exists records, length records = length added
        /\ live me hdr (if lands ft added then rs ++ records else rs) (grown ft added evs) [] g'
        /\ is_ok r = negb (breaks ft added) && is_ok (LedgerProjection_new (P := P) (l ++ added) None)
        /\ forall x, r = Ok x -> x = a
    end.
Proof.
  intros L Q Hs.
  assert (Hw : writable (Decide (stage_decision op))).
  { intros p items news Hi Hn. cbn [decided] in Hi. unfold stage_decision in Hi.
    apply rbind_ok in Hi as ([a added] & Hr & Hi). apply Ok_inj in Hi as <-. rewrite rmap_ievent in Hn.
    apply Ok_inj in Hn as <-. by eapply Hs. }
  destruct (advance_agrees me _ _ _ _ g (basis_reusable g) L (fun H => H)) as (l & Hl & A0).
  destruct (append_on me env _ _ _ _ _ ft observe (Decide (stage_decision op)) l L Q Hw Hl A0) as (r & g' & E & _ & H).
  pose proof (stage_decides op l) as C. exists l.
  destruct (snapshot_vault me env _ _ _ _ _ (l_vault _ _ _ _ _ _ L) (l_idle _ _ _ _ _ _ L)) as (s0 & Es & _).
  unfold stage_atomically, append_chosen, mbind, mget, mlift. rewrite Es, E. cbn [fst rbind].
  destruct (LedgerProjection_new l None) as [p|x] eqn:En; cbn [rbind] in *.
  - apply agree_ok in A0. rewrite A0. cbn [rbind].
    destruct (stage_result op p) as [[a added]|x]; cbn [rbind] in C.
    + apply agree_ok in C. rewrite C in H. destruct H as (records & Hlen & L' & Ho & _).
      destruct r as [rr|e]; do 2 eexists; (split; [done|]; split; [reflexivity|]); exists records;
        (split; [done|]; split; [done|]); rewrite <- Ho; (split; [done|]); [by intros x [= ->]|done].
    + apply agree_raise in C as [y C]. rewrite C in H. destruct H as [Hr L']. destruct r as [|e]; [done|].
      do 2 eexists. split; [done|]. split; [reflexivity|]. done.
  - apply agree_raise in C as [y C]. rewrite C in H. destruct H as [Hr L']. destruct r as [|e]; [done|].
    do 2 eexists. split; [done|]. split; [reflexivity|]. done.
Qed.

(** What a stage holds: the replay of the log it began on and of everything added since. *)
Definition stage_ok (l : list Event) (s : staged (P := P)) : Prop :=
  LedgerProjection_new (l ++ s_additions s)%list None = Ok (s_basis s).

Lemma fold_staged_is items s : exists s', snd (fold_staged items s) = s' /\ s_additions s' = s_additions s /\
  forall u, fst (fold_staged items s) = Ok u -> exists es, events_of items = Ok es
    /\ rfold projection_apply es (s_basis s) = Ok (s_basis s').
Proof.
  revert s. induction items as [|[e|] items IH]; intros s; cbn [fold_staged].
  - exists s. split; [done|]. split; [done|]. intros u _. by exists [].
  - unfold mbind, mget, mlift, mmodify. cbv beta iota zeta. destruct (projection_apply (s_basis s) e) as [q|x] eqn:Eq.
    + set (s1 := mkStaged _ _ _ _ _ _ _). destruct (IH s1) as (s' & Es & Ea & Hs).
      exists s'. split; [exact Es|]. split; [exact Ea|]. intros u Hu. destruct (Hs u Hu) as (es & He & Hf).
      exists (e :: es). unfold events_of in *. cbn. rewrite He. split; [done|]. by rewrite Eq.
    + exists s. split; [done|]. split; [done|]. discriminate.
  - exists s. split; [done|]. split; [done|]. discriminate.
Qed.

Lemma staged_append_is items s : match staged_append_many items s with
  | (Ok _, s') => exists es, events_of items = Ok es /\ s_additions s' = (s_additions s ++ es)%list
      /\ rfold projection_apply es (s_basis s) = Ok (s_basis s')
  | (Raise _, s') => s_failed s' = true \/ s' = s
  end.
Proof.
  unfold staged_append_many. unfold mbind at 1, check_active, mget, mbind at 1.
  destruct (s_active s && negb (s_failed s)); [|by right]. unfold mret at 1, on_exception.
  destruct items as [|i items].
  { cbn. exists []. by rewrite app_nil_r. }
  unfold mbind at 1 2, mmodify at 1 2. set (s1 := drop_view (invalidate_work s)).
  destruct (fold_staged_is (i :: items) s1) as (s' & Es & Ea & Hf). unfold mbind.
  destruct (fold_staged (i :: items) s1) as [[u|x] s2]; cbn [fst snd] in *; [|by left]. subst s2.
  destruct (Hf u eq_refl) as (es & He & Hfold). unfold mlift. rewrite He. unfold mmodify. cbn.
  exists es. by rewrite Ea.
Qed.

(** A staged append that returns keeps that; one that raises leaves a stage every later
    operation refuses. *)
Lemma staged_append_keeps l items s : stage_ok l s ->
  match staged_append_many items s with
  | (Ok _, s') => stage_ok l s'
  | (Raise _, s') => s_failed s' = true \/ s' = s
  end.
Proof.
  intros Ok_s. pose proof (staged_append_is items s) as H.
  destruct (staged_append_many items s) as [[u|x] s']; [|done]. destruct H as (es & _ & Ha & Hf).
  unfold stage_ok in *. rewrite Ha. pose proof (fold_agrees None _ es _ Ok_s) as A. rewrite Hf in A.
  symmetry in A. apply agree_ok in A. by rewrite app_assoc.
Qed.
End Staging.
