(* ===== verification/GoalLedger.v ===== *)
(** * GoalLedger: goal decisions on a ledger

    The core of accounts and goals is a fold a ledger can keep; [GoalService]'s decisions
    are put to it.  The life of a proposal is an automaton read off the log, the same for
    the events as this process wrote them and as the log gives them back. *)
From Stdlib Require Import ZArith NArith Ascii String Lia.
From stdpp Require Import base list numbers strings.
From S2P Require Import Prelude Text Words Json Unicode Decimals Acquisition Events EventTypes Conversations Postings Accounts Goals GoalService GoalLaws GoalProperties.
From S2P Require Import Crypto StoreFormat StoreLaws EventStore Ledger VaultLaws VaultProperties LedgerLaws LiveLedger.
#[local] Open Scope string_scope.

(** ** The core as a ledger's fold

    Every event is folded here.  The source hides the effects of an observation that was
    corrected or retracted, transactions and measurements of accounts; no event of a goal or
    of a proposal is one, so what this says of proposals does not depend on it, while of the
    accounts it is the core before any reading is corrected. *)

(** [_changes_prior_instrument_visibility], on a core without instrument allocations: only
    an observation that names a prior one. *)
Definition retires_prior (e : Event) : bool :=
  match event_type e, body e with
  | JStr t, JObj kv =>
      String.eqb t "InstrumentObservationRecorded" &&
      match dict_get kv "record" with
      | Some (JObj record) => py_truthy (field record "prior_id")
      | _ => false
      end
  | _, _ => false
  end.

#[export] Instance core_projection : Projection core := {
  build := project;
  fold_in := apply;
  changes_prior _ e := Ok (retires_prior e)
}.

#[export] Instance core_agrees : ProjectionAgrees core.
Proof.
  split. intros h l e. cbn [build fold_in changes_prior core_projection rbind]. unfold project.
  rewrite rfold_app. destruct (rfold apply l (empty_core h)) as [c|x]; cbn [rbind]; [|done].
  destruct (retires_prior e); [done|]. cbn [rfold]. by destruct (apply c e).
Qed.

(** ** The life of a proposal *)
Inductive life := Unknown | Open | Settled.

(** What an event says of the proposal [pid]. *)
Definition names (pid : string) (e : Event) : bool :=
  match body e with
  | JObj kv => match dict_get kv "proposal_id" with Some (JStr p) => String.eqb p pid | _ => false end
  | _ => false
  end.
Definition next_life (pid : string) (s : life) (e : Event) : life :=
  match event_type e with
  | JStr t =>
      if String.eqb t "GoalProposalRecorded" then
        match s with Unknown => if names pid e then Open else s | _ => s end
      else if String.eqb t "GoalProposalResolved" then
        match s with Open => if names pid e then Settled else s | _ => s end
      else s
  | _ => s
  end.
Definition life_after (pid : string) (l : list Event) : life := List.fold_left (next_life pid) l Unknown.

Lemma settled_stays pid l : List.fold_left (next_life pid) l Settled = Settled.
Proof.
  induction l as [|e l IH]; [done|]. cbn [List.fold_left].
  replace (next_life pid Settled e) with Settled; [done|]. unfold next_life.
  destruct (event_type e); try done. destruct (String.eqb _ _); [done|]. by destruct (String.eqb _ _).
Qed.

(** The key order of a body is not part of what it says. *)
Lemma insert_key_get {A} (p : string * A) kv k :
  dict_get (insert_key p kv) k = if String.eqb k p.1 then Some p.2 else dict_get kv k.
Proof.
  induction kv as [|[k' v'] kv IH]; [by destruct p|]. cbn [insert_key dict_get fst].
  destruct (String.leb p.1 k') eqn:El; [by destruct p|]. cbn [dict_get]. rewrite IH.
  destruct (String.eqb_spec k k') as [->|]; [|done].
  destruct (String.eqb_spec k' p.1) as [->|]; [|done].
  destruct (String.leb_total p.1 p.1); congruence.
Qed.
Lemma sort_items_get {A} (kv : list (string * A)) k : dict_get (sort_items kv) k = dict_get kv k.
Proof.
  induction kv as [|[k' v'] kv IH]; [done|]. cbn [sort_items fold_right]. rewrite insert_key_get. cbn.
  unfold sort_items in IH. by rewrite IH.
Qed.
Lemma dict_get_mapped {A B} (f : A -> B) (kv : list (string * A)) k :
  dict_get (List.map (fun p => (p.1, f p.2)) kv) k = option_map f (dict_get kv k).
Proof. induction kv as [|[k' v'] kv IH]; [done|]. cbn. by destruct (String.eqb k k'). Qed.

Lemma names_canonical pid e : names pid (canonical_event e) = names pid e.
Proof.
  unfold names. cbn [canonical_event body]. destruct (body e) as [| | | | |l|kv]; try done.
  cbn [sort_keys]. rewrite sort_items_get, dict_get_mapped. by destruct (dict_get kv "proposal_id") as [[]|].
Qed.
Lemma next_life_canonical pid s e : next_life pid s (canonical_event e) = next_life pid s e.
Proof. unfold next_life. rewrite names_canonical. cbn [canonical_event event_type]. by destruct (event_type e). Qed.

Lemma life_reads pid l evs : reads l evs -> life_after pid l = life_after pid evs.
Proof.
  unfold life_after. generalize Unknown. intros s H. revert s.
  induction H as [|e e' l evs He H IH]; intros s; [done|]. cbn [List.fold_left].
  destruct He as [-> | ->]; [apply IH|]. by rewrite next_life_canonical.
Qed.

(** ** The core follows the automaton *)
Lemma update_status row v rest : Forall (fun p => p.1 <> "status") rest ->
  field (dict_update row (("status", v) :: rest)) "status" = v.
Proof.
  intros H. unfold dict_update. cbn [fold_left fst snd].
  assert (Hg : forall l d, Forall (fun p : string * json => p.1 <> "status") l ->
    dict_get (fold_left (fun d p => dict_set d p.1 p.2) l d) "status" = dict_get d "status").
  { induction l as [|[k x] l IH]; intros d Hl; [done|]. inv Hl. cbn [fold_left fst snd].
    rewrite IH by done. by apply dict_get_set. }
  unfold field. by rewrite Hg, dict_set_same.
Qed.

Lemma names_default pid e v : py_get_default (body e) "proposal_id" (JStr "") = Ok v -> pid <> "" ->
  names pid e = match v with JStr p => String.eqb p pid | _ => false end.
Proof.
  unfold names, py_get_default. destruct (body e) as [| | | | |l|kv]; try discriminate. intros H Hp.
  destruct (dict_get kv "proposal_id") as [x|]; apply Ok_inj in H as <-; [done|].
  by destruct pid.
Qed.

Definition row_life (row : list (string * json)) : life :=
  if py_eq_str (field row "status") "open" then Open else Settled.
Definition life_at (s : proposals) (pid : string) : life :=
  match dict_get s pid with None => Unknown | Some row => row_life row end.
Lemma life_at_set s id row pid :
  life_at (dict_set s id row) pid = if String.eqb id pid then row_life row else life_at s pid.
Proof.
  unfold life_at. destruct (String.eqb_spec id pid) as [->|Hne]; [by rewrite dict_set_same|].
  by rewrite dict_get_set.
Qed.

(** One event moves a proposal exactly as the automaton says. *)
Lemma proposal_life s e s' pid t : pid <> "" -> event_type e = JStr t -> apply_proposal s e = Ok s' ->
  life_at s' pid = next_life pid (life_at s pid) e.
Proof.
  intros Hpid Ht H. unfold apply_proposal, next_life in *. rewrite Ht in *. cbn [text rbind] in H.
  apply rbind_ok in H as (at_ & _ & H).
  destruct (String.eqb t "GoalProposalRecorded");
    [|destruct (String.eqb t "GoalProposalResolved"); [|by apply Ok_inj in H as <-]];
    apply rbind_ok in H as (v & Hv & H); rewrite (names_default _ _ _ Hv Hpid).
  - destruct (negb (py_truthy v)) eqn:Et.
    { apply Ok_inj in H as <-. destruct v as [| | | |p| |]; try by destruct (life_at s pid).
      destruct (String.eqb_spec p pid) as [->|]; [by destruct pid|by destruct (life_at s pid)]. }
    apply rbind_ok in H as (x & Hx%known_text & H). destruct x as [[id row]|].
    + apply Ok_inj in H as <-. destruct v as [| | | |p| |]; try discriminate.
      destruct (String.eqb_spec p pid) as [->|]; [|by destruct (life_at s pid)].
      unfold life_at. destruct (dict_get s pid); [|discriminate]. unfold row_life. by destruct (py_eq_str _ _).
    + apply rbind_ok in H as (id & Hid & H). apply rbind_ok in H as (kv & _ & H). apply Ok_inj in H as <-.
      destruct v as [| | | |p| |]; try discriminate. apply Ok_inj in Hid as ->.
      rewrite life_at_set. destruct (String.eqb_spec id pid) as [->|]; [|by destruct (life_at s pid)].
      unfold life_at. destruct (dict_get s pid); [discriminate|]. unfold row_life.
      assert (Hf : field (dict_update kv [("occurred_at", JStr at_); ("event_id", event_id e); ("status", JStr "open");
                           ("outcome", JStr "proposal"); ("reason", JStr "")]) "status" = JStr "open").
      { unfold field, dict_update. cbn [fold_left fst snd]. rewrite !dict_get_set by done. by rewrite dict_set_same. }
      by rewrite Hf.
  - apply rbind_ok in H as (x & Hx%known_text & H). destruct x as [[id row]|].
    + destruct v as [| | | |p| |]; try discriminate. destruct (dict_get s p) as [row0|] eqn:Eg; [|discriminate].
      injection Hx as -> ->. destruct (py_eq_str (field row0 "status") "open") eqn:Eo.
      * apply rbind_ok in H as (o & _ & H). apply rbind_ok in H as (w & _ & H). apply Ok_inj in H as <-.
        rewrite life_at_set. destruct (String.eqb_spec p pid) as [->|]; [|by destruct (life_at s pid)].
        unfold life_at. rewrite Eg. unfold row_life at 2. rewrite Eo. unfold row_life.
        rewrite update_status; [done|]. by repeat constructor.
      * apply Ok_inj in H as <-. destruct (String.eqb_spec p pid) as [->|]; [|by destruct (life_at s pid)].
        unfold life_at. rewrite Eg. unfold row_life. by rewrite Eo.
    + apply Ok_inj in H as <-. destruct v as [| | | |p| |]; try by destruct (life_at s pid).
      destruct (String.eqb_spec p pid) as [->|]; [|by destruct (life_at s pid)].
      unfold life_at. by destruct (dict_get s pid).
Qed.

Lemma apply_life pid c e c' : pid <> "" -> as_of c = None -> apply c e = Ok c' ->
  life_at (goal_proposals_ c') pid = next_life pid (life_at (goal_proposals_ c) pid) e /\ as_of c' = None.
Proof.
  intros Hpid Has H. unfold apply in H. rewrite Has in H. apply rbind_ok in H as (at_ & _ & H).
  apply rbind_ok in H as (a & Ha & H). apply rbind_ok in H as (g & Hg & H). apply rbind_ok in H as (p & Hp & H).
  apply Ok_inj in H as <-. split; [|done]. unfold apply_goal in Hg. apply rbind_ok in Hg as (t & Ht & _).
  destruct (event_type e) eqn:Ee; try discriminate. by eapply proposal_life.
Qed.

(** The replay of a list of events holds each proposal in the state the list leaves it. *)
Lemma project_life pid l c : pid <> "" -> project None l = Ok c -> life_at (goal_proposals_ c) pid = life_after pid l.
Proof.
  intros Hpid. unfold project, life_after.
  assert (G : forall c0 c, as_of c0 = None -> rfold apply l c0 = Ok c ->
    life_at (goal_proposals_ c) pid = List.fold_left (next_life pid) l (life_at (goal_proposals_ c0) pid)).
  { induction l as [|e l IH]; intros c0 c1 Has H; [by apply Ok_inj in H as <-|]. cbn [rfold] in H.
    apply rbind_ok in H as (c2 & H2 & H). destruct (apply_life _ _ _ _ Hpid Has H2) as [El Has2].
    cbn [List.fold_left]. rewrite <- El. by apply IH. }
  intros H. by rewrite (G (empty_core None) c eq_refl H).
Qed.

(** ** Decisions on a ledger *)
Section Decisions.
Context `{case_map : CaseMap} (restricted : string -> bool) (repr : json -> string).

(** [decide] of [confirm], on the projection the ledger hands it. *)
Definition confirm_decision (pid today fresh fresh2 : string) : decision (P := core) :=
  Decide (fun p => let? (_, evs) := confirm restricted repr (core_of p) pid today fresh fresh2 in
                   Ok (List.map IEvent evs)).
Definition decline_decision (pid today fresh : string) : decision (P := core) :=
  Decide (fun p => let? (_, evs) := decline repr (core_of p) pid today fresh in Ok (List.map IEvent evs)).

Lemma open_life c pid : open_proposal c pid <> None <-> life_at (goal_proposals_ c) pid = Open.
Proof using Type.
  unfold open_proposal, life_at, goal_proposal, row_life. destruct (dict_get _ pid); [destruct (py_eq_str _ _)|]; done.
Qed.

Lemma replayed_core l (p : LedgerProjection core) : LedgerProjection_new l None = Ok p -> project None l = Ok (core_of p).
Proof using Type. unfold LedgerProjection_new. intros H. apply rbind_ok in H as (c & E & H). by apply Ok_inj in H as <-. Qed.

(** What a settlement appends ends with the proposal's resolution. *)
Definition resolves (pid : string) (e : Event) : Prop :=
  event_type e = JStr "GoalProposalResolved" /\ names pid e = true.
Lemma resolution_resolves fresh pid outcome today reason e : strip pid = pid ->
  goal_proposal_resolved fresh pid outcome today reason None = Ok e -> resolves pid e.
Proof using Type.
  intros Hp H. unfold goal_proposal_resolved in H. run_ok. split; [done|]. unfold names. cbn.
  by rewrite Hp, String.eqb_refl.
Qed.

(** What the decisions choose, from the life of the proposal in the log they are shown. *)
Lemma settlement_chosen d pid today f1 f2 l news :
  d = confirm_decision pid today f1 f2 \/ d = decline_decision pid today f1 ->
  pid <> "" -> strip pid = pid -> chosen_on d l = Ok news ->
  (news = [] \/ exists e before, resolves pid e /\ news = (before ++ [e])%list)
  /\ (news <> [] -> life_after pid l = Open)
  /\ (life_after pid l <> Open -> news = []).
Proof.
  intros Hd Hp Hs Hc. unfold chosen_on in Hc. apply rbind_ok in Hc as (p & En & Hc).
  apply replayed_core in En. rewrite <- (project_life pid l (core_of p) Hp En).
  apply rbind_ok in Hc as (items & Hi & Hc). apply events_of_items in Hc as ->.
  assert (Hcase : (news = [] /\ (blank pid = true \/ open_proposal (core_of p) pid = None))
    \/ (open_proposal (core_of p) pid <> None /\ exists e before, resolves pid e /\ news = (before ++ [e])%list)).
  { destruct Hd as [-> | ->]; cbn [decided confirm_decision decline_decision] in Hi; apply rbind_ok in Hi as ([r evs] & Ec & Hi);
      apply Ok_inj in Hi; apply (list_fmap_eq_inj IEvent) in Hi as ->; [|by intros ? ? [= ->]| |by intros ? ? [= ->]].
    - apply confirm_cases in Ec as [(-> & _ & Ho)|(held & _ & Ho & Ec)]; [by left|right]. split; [congruence|].
      destruct Ec as [(e & -> & _ & He)|(q & e & e2 & -> & _ & _ & _ & _ & He & _)].
      + exists e, []. split; [by eapply resolution_resolves|done].
      + exists e2, [e]. split; [by eapply resolution_resolves|done].
    - apply decline_cases in Ec as [(-> & _ & Ho)|(held & e & _ & Ho & -> & _ & He)]; [by left|right].
      split; [congruence|]. exists e, []. split; [by eapply resolution_resolves|done]. }
  destruct Hcase as [(-> & Ho)|(Ho & e & before & He & ->)].
  - split; [by left|]. split; [done|]. done.
  - split; [right; by eauto|]. split; [intros _; by apply open_life|]. intros Hn. by apply open_life in Ho.
Qed.
End Decisions.

(** ** The batches of a decision can be written *)
Lemma event_storable fresh t at_ kv : fresh <> "" -> NoDup kv.*1 -> Forall (fun p => wf_json p.2) kv ->
  storable (event fresh t at_ kv (or_empty None)).
Proof.
  intros Hf Hn Hv. split; [|by exists fresh]. unfold wf_event. cbn [event event_type occurred_at body event_id].
  split; [done|]. split; [done|]. split; [by apply wf_obj|]. done.
Qed.
Ltac storable_event := apply event_storable; [done|cbn; nodup_keys|by repeat constructor].

Lemma resolution_storable fresh pid outcome today reason e : fresh <> "" ->
  goal_proposal_resolved fresh pid outcome today reason None = Ok e -> storable e.
Proof. intros Hf H. unfold goal_proposal_resolved in H. run_ok. storable_event. Qed.

Lemma goal_event_storable `{CaseMap} fresh t gid ti cur amt at_ td mc (day : json) pid e : fresh <> "" ->
  goal_event fresh t gid ti cur amt at_ td mc day pid None = Ok e -> storable e.
Proof.
  intros Hf Hx. unfold goal_event, goal_terms in Hx. apply rbind_ok in Hx as (kv & Hkv & Hx). apply Ok_inj in Hx as <-.
  repeat (apply rbind_ok in Hkv as (? & ? & Hkv)). apply Ok_inj in Hkv as <-.
  match goal with E : raise_if (given day && negb (valid_day day)) _ = _ |- _ => apply raise_if_ok in E; rename E into Ed end.
  assert (wf_json day) by (destruct day; cbn in Ed; done).
  apply event_storable; [done|cbn; nodup_keys|]. by repeat constructor.
Qed.

Lemma action_storable `{CaseMap} verb p pid today fresh e : fresh <> "" ->
  goal_action_event verb p pid today fresh = Ok e -> storable e.
Proof.
  intros Hf Hx. unfold goal_action_event in Hx. apply rbind_ok in Hx as (gid & _ & Hx).
  repeat match type of Hx with (if ?b then _ else _) = _ => destruct b end;
    repeat (apply rbind_ok in Hx as (? & ? & Hx));
    try (match type of Hx with context [if ?b then _ else _] => destruct b end; by eapply goal_event_storable).
  all: unfold goal_funds_reserved, goal_funds_released, goal_state_changed in Hx; run_ok; storable_event.
Qed.

Lemma decisions_writable `{case_map : CaseMap} restricted repr pid today f1 f2 : f1 <> "" -> f2 <> "" ->
  writable (confirm_decision restricted repr pid today f1 f2) /\ writable (decline_decision repr pid today f1).
Proof.
  intros H1 H2. split; intros p items news Hi Hn; apply events_of_items in Hn as ->; cbn [decided confirm_decision decline_decision] in Hi;
    apply rbind_ok in Hi as ([r evs] & Ec & Hi); apply Ok_inj in Hi;
    apply (list_fmap_eq_inj IEvent) in Hi as ->; try (by intros ? ? [= ->]).
  - apply confirm_cases in Ec as [(-> & _)|(held & _ & _ & [(e & -> & _ & He)|(q & e & e2 & -> & _ & _ & _ & He & He2 & _)])].
    + done.
    + constructor; [|done]. by eapply (resolution_storable f1).
    + constructor; [by eapply (action_storable _ _ _ _ f1)|]. constructor; [|done]. by eapply (resolution_storable f2).
  - apply decline_cases in Ec as [(-> & _)|(held & e & _ & _ & -> & _ & He)]; [done|].
    constructor; [|done]. by eapply (resolution_storable f1).
Qed.

(** ** The log only grows *)
Lemma serve_grows `{lib : CryptoLib} evs q a evs' : spec_serve (P := core) evs q a evs' ->
  exists more, evs' = (evs ++ more)%list.
Proof.
  assert (Hsame : exists more, evs = (evs ++ more)%list) by (exists []; by rewrite app_nil_r).
  unfold spec_serve. destruct q, a; try done.
  - intros (l & _ & H). destruct (chosen_on d l) as [news|]; [|by destruct H as [_ ->]].
    destruct H as [-> _]. unfold grown. destruct (lands ft news); [by eexists|done].
  - by intros [-> _].
  - by intros ->.
  - by intros [-> _].
Qed.
Lemma serves_grow `{lib : CryptoLib} evs ls evs' : spec_serves (P := core) evs ls evs' ->
  exists more, evs' = (evs ++ more)%list.
Proof.
  revert evs. induction ls as [|[q a] ls IH]; intros evs H; cbn in H.
  - exists []. by rewrite app_nil_r.
  - destruct H as (evs1 & H1 & H). apply serve_grows in H1 as [m1 ->]. apply IH in H as [m2 ->].
    exists (m1 ++ m2)%list. by rewrite app_assoc.
Qed.
Lemma spec_serves_app `{lib : CryptoLib} l1 l2 evs evs' : spec_serves (P := core) evs (l1 ++ l2) evs' ->
  exists mid, spec_serves evs l1 mid /\ spec_serves mid l2 evs'.
Proof.
  revert evs. induction l1 as [|[q a] l1 IH]; intros evs; cbn; [by exists evs|].
  intros (evs1 & H1 & H). apply IH in H as (mid & H2 & H3). exists mid. split; [|done]. by exists evs1.
Qed.

Lemma life_grows pid evs more : life_after pid evs = Settled -> life_after pid (evs ++ more) = Settled.
Proof. intros H. unfold life_after in *. rewrite List.fold_left_app, H. apply settled_stays. Qed.
Lemma life_resolved pid evs before e : life_after pid evs = Open -> resolves pid e ->
  life_after pid (evs ++ before ++ [e])%list = Settled.
Proof.
  intros Ho [Ht Hn]. unfold life_after in *. rewrite !List.fold_left_app, Ho. cbn [List.fold_left].
  assert (Hs : List.fold_left (next_life pid) before Open <> Unknown).
  { assert (G : forall s, s <> Unknown -> List.fold_left (next_life pid) before s <> Unknown); [|by apply G].
    induction before as [|b before IH]; intros s Hs; [done|]. cbn [List.fold_left]. apply IH.
    unfold next_life. destruct (event_type b), s, (names pid b); repeat destruct (String.eqb _ _); congruence. }
  destruct (List.fold_left (next_life pid) before Open); unfold next_life; rewrite Ht, ?Hn; [congruence|done|done].
Qed.

Section Once.
Context `{case_map : CaseMap} `{lib : CryptoLib} (me : nat) `{laws : !CryptoLaws lib}.
Context (restricted : string -> bool) (repr : json -> string).

(** A confirmation or refusal of the proposal, by any ledger, on any day, under any fault. *)
Definition settles (pid : string) (q : request (P := core)) : Prop :=
  exists ft observe d, q = Append ft observe d /\ exists today f1 f2,
    d = confirm_decision restricted repr pid today f1 f2 \/ d = decline_decision repr pid today f1.

(** A settlement that returned records leaves the proposal settled in the log; one put to a
    log where it is settled returns none and leaves the log. *)
Lemma settlement_served evs pid q r evs' : pid <> "" -> strip pid = pid -> settles pid q ->
  spec_serve evs q (Appended r) evs' ->
  (forall records, r = Ok records -> records <> [] -> life_after pid evs' = Settled)
  /\ (life_after pid evs = Settled -> evs' = evs /\ forall records, r = Ok records -> records = []).
Proof.
  intros Hp Hs (ft & observe & d & -> & today & f1 & f2 & Hd) (l & Hl & H).
  destruct (chosen_on d l) as [news|x] eqn:Ec.
  - destruct (settlement_chosen restricted repr d pid today f1 f2 l news Hd Hp Hs Ec) as (Hn & Ho & Hc).
    destruct H as (-> & Hr & Hlen). rewrite (life_reads pid l evs Hl) in Ho, Hc. split.
    + intros records -> Hne. cbn in Hr. symmetry in Hr. apply andb_true_iff in Hr as [Hb _].
      destruct Hn as [-> | (e & before & He & ->)]; [specialize (Hlen _ eq_refl); by destruct records|].
      assert (Hap : (before ++ [e])%list <> []) by (by destruct before). specialize (Ho Hap).
      assert (Hland : lands ft (before ++ [e])%list = true).
      { unfold lands, breaks in *. rewrite bool_decide_false in * by done. cbn in *. by destruct ft as [| | | |[|]]. }
      unfold grown. rewrite Hland, List.map_app. cbn [List.map].
      apply life_resolved; [done|]. destruct He as [Ht Hnm]. split; [cbn; by rewrite Ht|by rewrite names_canonical].
    + intros Hset. rewrite Hset in Hc. rewrite (Hc ltac:(done)) in *. split; [by unfold grown, lands; destruct ft|].
      intros records Er. specialize (Hlen _ Er). by destruct records.
  - destruct H as [Hr ->]. split; [by intros records ->|]. intros _. split; [done|]. by intros records ->.
Qed.

(** C5: A proposal is settled by one ledger, once.  Let any number of ledgers over one log
    serve any requests in any order, each with whatever it had read before.  Once one of
    them settled a proposal and was answered with records, the proposal stays settled in the
    log, and every later confirmation or refusal of it, on any ledger and under any fault of
    the disk, returns no record and leaves the log as it found it. *)
Theorem proposal_settled_by_one_ledger evs w before q1 rs1 between q2 a2 after_ w' pid :
  pid <> "" -> strip pid = pid -> settles pid q1 -> settles pid q2 -> rs1 <> [] ->
  world_for me evs w ->
  world_run me w (before ++ (q1, Appended (Ok rs1)) :: between ++ (q2, a2) :: after_) w' ->
  exists seen evs', world_for me evs' w'
    /\ spec_serve seen q2 a2 seen /\ life_after pid seen = Settled /\ life_after pid evs' = Settled
    /\ forall rs2, a2 = Appended (Ok rs2) -> rs2 = [].
Proof.
  intros Hp Hs H1 H2 Hne Hw R.
  destruct (world_refines me _ _ _ _ R Hw) as (evs' & S & Hw').
  apply spec_serves_app in S as (e1 & _ & S). destruct S as (e2 & S1 & S).
  apply spec_serves_app in S as (e3 & S2 & S). destruct S as (e4 & S3 & S4).
  destruct (settlement_served _ _ _ _ _ Hp Hs H1 S1) as [L2 _]. specialize (L2 _ eq_refl Hne).
  destruct (serves_grow _ _ _ S2) as [m ->]. pose proof (life_grows _ _ m L2) as L3.
  assert (Ha : exists r2, a2 = Appended r2).
  { destruct H2 as (ft & o & d & -> & _). destruct a2; try done. by eexists. }
  destruct Ha as [r2 ->]. destruct (settlement_served _ _ _ _ _ Hp Hs H2 S3) as [_ L4]. destruct (L4 L3) as [-> Hr].
  exists (e2 ++ m)%list, evs'. split; [done|]. split; [done|]. split; [done|].
  destruct (serves_grow _ _ _ S4) as [m' ->]. split; [by apply life_grows|]. intros rs2 [= ->]. by apply Hr.
Qed.
End Once.

(** ** Two ledgers, one proposal *)

(** A proposal on record, as [propose] would have recorded it. *)
Definition recorded_proposal : Event :=
  match goal_proposal_recorded "p1" "q1" "reserve" "reserve:g1" (JObj [("goal_id", JStr "g1")])
          (JObj [("goal", JStr "g1")]) "2026-02-01" None with
  | Ok e => e
  | Raise _ => event "" "" "" [] Provenance_empty
  end.
#[local] Instance a_case : CaseMap := ascii_case.
Definition refuse_it (fresh : string) : request (P := core) :=
  Append NoFault no_observer (decline_decision (fun _ => "") "q1" "2026-02-02" fresh).
Definition two_ledgers : list (nat * request (P := core)) :=
  [(0, Append NoFault no_observer (Submitted [IEvent recorded_proposal])); (0, Fork); (1, Project None);
   (0, refuse_it "e1"); (1, refuse_it "e2")].
Definition one_ledger : world (P := core) := mkWorld (st_log a_store) (st_head a_store) [new_ledger a_store].

(** How many records or events an answer carries. *)
Inductive outline := Records (n : nat) | Events (n : nat) | Another | Nothing.
Definition shape (a : answer (P := core)) : outline :=
  match a with
  | Appended (Ok rs) => Records (length rs)
  | Projected (Ok p) => Events (event_count p)
  | Forked (Ok _) => Another
  | _ => Nothing
  end.
Lemma two_ledgers_run : option_map (fun x => List.map (fun p => shape p.2) x.1)
    (run_script (lib := clear_cipher) 0 an_oracle two_ledgers one_ledger) = Some [Records 1; Another; Events 1; Records 1; Records 0].
Proof. vm_compute. reflexivity. Qed.

Lemma one_ledger_standing : exists hdr, standing (lib := clear_cipher) 0 hdr [] [] [] a_store.
Proof.
  destruct a_store_vault as (hdr & V & T & I & _). exists hdr. split; [exact V|]. split; [exact I|].
  eexists. by apply at_tail_commit.
Qed.
Lemma two_ledgers_proper : Forall (fun p => proper_request p.2) two_ledgers.
Proof.
  assert (Hd : forall fresh, fresh <> "" -> proper_request (refuse_it fresh)).
  { intros fresh Hf. split; [by intros o w s|].
    apply (decisions_writable (fun _ => false) (fun _ => "") "q1" "2026-02-02" fresh "e"); [exact Hf|discriminate]. }
  assert (Hs : storable recorded_proposal).
  { split; [|exists "p1"; split; [reflexivity|discriminate]].
    repeat split; try done; cbn; nodup_keys. }
  repeat (apply Forall_cons; split); try exact I; try (apply Hd; discriminate); [|apply Forall_nil; exact I].
  split; [by intros o w s|]. intros p items news Hi Hn. cbn [decided] in Hi. apply Ok_inj in Hi as <-.
  cbn in Hn. apply Ok_inj in Hn as <-. constructor; [exact Hs|constructor].
Qed.

(** Two ledgers over the store just created: the run, and what it shows. *)
Lemma ledgers_are_one_fold_witness : exists ls w' evs',
  world_run (lib := clear_cipher) 0 one_ledger ls w'
  /\ List.map (fun p => shape p.2) ls = [Records 1; Another; Events 1; Records 1; Records 0]
  /\ spec_serves [] ls evs'.
Proof.
  destruct one_ledger_standing as [hdr St].
  destruct (run_script (lib := clear_cipher) 0 an_oracle two_ledgers one_ledger) as [[ls w']|] eqn:E;
    pose proof two_ledgers_run as R; rewrite E in R; cbn [option_map fst] in R; [injection R as R|discriminate].
  destruct (script_runs _ _ _ _ _ _ two_ledgers_proper E) as [Hr _].
  destruct (ledgers_are_one_fold (lib := clear_cipher) 0 hdr [] [] [] a_store ls w' St Hr) as (evs' & S & _).
  exists ls, w', evs'. split; [exact Hr|]. split; [exact R|exact S].
Defined.

Lemma proposal_settled_by_one_ledger_witness : exists before r1 a2 w' seen evs',
  world_run (lib := clear_cipher) 0 one_ledger
    (before ++ (refuse_it "e1", Appended (Ok [r1])) :: [] ++ (refuse_it "e2", a2) :: [])%list w'
  /\ shape a2 = Records 0 /\ spec_serve seen (refuse_it "e2") a2 seen /\ life_after "q1" evs' = Settled.
Proof.
  destruct one_ledger_standing as [hdr St].
  destruct (run_script (lib := clear_cipher) 0 an_oracle two_ledgers one_ledger) as [[ls w']|] eqn:E;
    pose proof two_ledgers_run as R; rewrite E in R; cbn [option_map fst] in R; [injection R as R|discriminate].
  destruct (script_runs _ _ _ _ _ _ two_ledgers_proper E) as [Hr Hq]. clear E.
  destruct ls as [|[q0 a0] [|[q1 a1] [|[q2 a2] [|[q3 a3] [|[q4 a4] [|]]]]]]; try discriminate Hq.
  cbn in Hq. injection Hq as -> -> -> -> ->. cbn [List.map snd] in R. injection R as R0 R1 R2 R3 R4.
  assert (Ha : exists r1, a3 = Appended (Ok [r1])).
  { destruct a3 as [[[|r1 [|]]|]|[|]| |[|]]; try discriminate R3. by exists r1. }
  destruct Ha as [r1 ->]. 
  pose (before := [(Append (P := core) NoFault no_observer (Submitted [IEvent recorded_proposal]), a0); (Fork, a1); (Project None, a2)]).
  exists before, r1, a4, w'.
  destruct (proposal_settled_by_one_ledger (lib := clear_cipher) 0 (fun _ => false) (fun _ => "") [] one_ledger
    before (refuse_it "e1") [r1] [] (refuse_it "e2") a4 [] w' "q1") as (seen & evs' & _ & S2 & _ & L & _).
  - discriminate.
  - reflexivity.
  - do 3 eexists. split; [reflexivity|]. exists "2026-02-02", "e1", "e1". by right.
  - do 3 eexists. split; [reflexivity|]. exists "2026-02-02", "e2", "e2". by right.
  - discriminate.
  - by eapply new_world.
  - exact Hr.
  - exists seen, evs'. split; [exact Hr|]. split; [exact R4|]. split; [exact S2|exact L].
Defined.

(** One staged operation: record the proposal, then count what the stage holds. *)
Definition stage_it : M (staged (P := core)) nat :=
  run! staged_append (IEvent recorded_proposal); staged_len.
Lemma staged_work_is_one_append_witness : exists g' hdr records,
  stage_atomically (lib := clear_cipher) 0 an_oracle NoFault no_observer stage_it (new_ledger a_store) = (Ok 1, g')
  /\ live (lib := clear_cipher) 0 hdr records [canonical_event recorded_proposal] [] g'.
Proof.
  destruct one_ledger_standing as [hdr St].
  assert (L : live (lib := clear_cipher) 0 hdr [] [] [] (new_ledger (P := core) a_store)).
  { split; [exact St|intros p H; discriminate H|intros p c H; discriminate H]. }
  assert (Hs : forall p a added, stage_result stage_it p = Ok (a, added) -> Forall storable added).
  { intros p a added H. unfold stage_result, stage_it, staged_append in H.
    pose proof two_ledgers_proper as Hp. apply Forall_cons in Hp as [[_ Hp] _].
    specialize (Hp p [IEvent recorded_proposal] [recorded_proposal] eq_refl eq_refl).
    unfold mbind at 1 2 in H. pose proof (staged_append_is [IEvent recorded_proposal] (new_staged p)) as Ha.
    destruct (staged_append_many [IEvent recorded_proposal] (new_staged p)) as [[u|x] s']; [|discriminate].
    destruct Ha as (es & He & Ha & _). cbn in He. apply Ok_inj in He as <-. unfold staged_len, check_active, mbind, mget in H.
    do 2 (match type of H with context [if ?b then _ else _] => destruct b; [|discriminate] end; cbn -[recorded_proposal] in H).
    injection H as _ <-. rewrite Ha. exact Hp. }
  destruct (staged_work_is_one_append (lib := clear_cipher) 0 an_oracle hdr [] [] [] (new_ledger a_store) NoFault no_observer stage_it)
    as (l & r & g' & Hl & E & H).
  - exact L.
  - by intros o w s.
  - exact Hs.
  - apply Forall2_nil_inv_r in Hl as ->.
    destruct (LedgerProjection_new [] None) as [p|] eqn:En; [|vm_compute in En; discriminate]. cbn [rbind] in H.
    destruct (stage_result stage_it p) as [[a added]|] eqn:Es;
      [|vm_compute in En; injection En as <-; vm_compute in Es; discriminate].
    assert (Ha : a = 1 /\ added = [recorded_proposal]).
    { apply Ok_inj in En as <-. apply Ok_inj in Es. apply pair_equal_spec in Es as [<- <-].
      split; vm_compute; reflexivity. }
    destruct Ha as [-> ->]. destruct H as (records & _ & L' & Ho & Hx).
    exists g', hdr, records. rewrite E. split; [|exact L'].
    destruct r as [x|e]; [by rewrite (Hx x eq_refl)|]. vm_compute in Ho. discriminate.
Defined.
