(* ===== verification/Policy.v ===== *)
(** * Policy: product/viva/agent/policy.py, and the cooldown of agent/run.py

    What is worth doing to a vault, in what order and within what budget, and what was tried
    before against the same evidence.  A float is the token it is printed as. *)
From Stdlib Require Import ZArith NArith Ascii String Lia ZifyBool ZifyN ZifyNat.
From stdpp Require Import base list numbers strings.
From S2P Require Import Prelude Text Words Json Unicode Decimals Floats Events EventTypes Goals Normalize Render.
#[local] Open Scope string_scope.

(** ** Floats *)

(** [a >= b]; false when either is not a number. *)
Definition float_ge (a b : string) : bool :=
  match float_token a, float_token b with
  | Ok x, Ok y => match dle y x with Ok r => r | Raise _ => false end
  | _, _ => false
  end.
(** [round(x, places)]: half-even on the exact value; a float of 2^43 and more is its own
    rounding to three places or more. *)
Definition round_float (places : nat) (t : string) : string :=
  match float_token t with
  | Ok (Fin s c e) =>
      let p := Z.of_nat places in
      if (Z.of_N (2 ^ 43) * Z.of_N (pow10 (- e)) <=? Z.of_N (c * pow10 e))%Z then t
      else
        let q := if (- p <=? e)%Z then (c * pow10 (e + p))%N else fst (round_half_even c (- p - e)) in
        let text := fixed_text (Fin s q (- p)) in
        let cut := rstrip_char "0" text in
        dec (if bool_decide (List.last cut "."%char = "."%char) then cut ++ enc "0" else cut)%list
  | _ => t
  end.

(** [int(text)]: a sign, and digits with single underscores between them, 4300 at most. *)
Definition int_of_text (raw : string) : option Z :=
  let '(negative, l) := read_sign (fold_decimals (strip_bytes (enc raw))) in
  let parts := split_on "_" l in
  let ds := List.concat parts in
  if forallb (fun part => negb (bool_decide (part = [])) && forallb is_digit part) parts && (List.length ds <=? 4300)%nat
  then Some (signed negative (value_of_digits ds)) else None.

(** ** The rules *)
Definition CALLS (kind : string) : Z :=
  default 0%Z (dict_get [("induce", 3); ("reinduce", 3); ("sync", 0); ("enrich", 1)]%Z kind).

Record InduceRule := mkInduceRule { min_lines : Z; induce_best_of : option Z; induce_why : string }.
Record DriftRule := mkDriftRule { drop_at : string; min_recent_lines : Z; drift_best_of : option Z; drift_why : string }.
Record CountRule := mkCountRule { at_least : Z; count_why : string }.
Record Rules := mkRules {
  induce_missing : InduceRule; reinduce_drifted : DriftRule; enrich_unknown : CountRule; sync_known : CountRule
}.
Definition RULES : Rules := mkRules
  (mkInduceRule 30 (Some 3%Z) "this bank has enough lines to be characteristic and no grammar yet")
  (mkDriftRule "0.15" 20 (Some 3%Z) "the bank changed what it prints and the grammar stopped keeping up")
  (mkCountRule 1 "brands with no record, and a record is bought once and kept")
  (mkCountRule 1 "this vault holds merchants the local catalog already knows").
(** [{ **RULES, **(rules or {}) }]: a rule given replaces the whole entry. *)
Record Overrides := mkOverrides {
  with_induce : option InduceRule; with_drift : option DriftRule; with_enrich : option CountRule; with_sync : option CountRule
}.
Definition no_overrides : Overrides := mkOverrides None None None None.
Definition config (o : Overrides) : Rules := mkRules
  (default (induce_missing RULES) (with_induce o)) (default (reinduce_drifted RULES) (with_drift o))
  (default (enrich_unknown RULES) (with_enrich o)) (default (sync_known RULES) (with_sync o)).

Definition AUTONOMOUS : list string := ["induce_missing"; "reinduce_drifted"; "sync_known"].
Definition NEEDS_RATIFICATION : list string := ["publish_grammar"; "publish_merchant"].

(** [best_of(rule)], of a rule's [best_of] entry, and of the rule of a name. *)
Definition best_of (entry : option Z) : Z := Z.max 1 (default 1%Z entry).
Definition best_of_rule (cfg : Rules) (name : string) : Z :=
  best_of (if String.eqb name "induce_missing" then induce_best_of (induce_missing cfg)
           else if String.eqb name "reinduce_drifted" then drift_best_of (reinduce_drifted cfg) else None).

Record Action := mkAction {
  a_rule : string; a_kind : string; a_target : string; a_why : string;
  a_evidence : list (string * json); a_estimated_calls : Z
}.
Definition autonomous (a : Action) : bool :=
  in_words (a_rule a) AUTONOMOUS && negb (in_words (a_rule a) NEEDS_RATIFICATION).
Definition act_key (a : Action) : string * string := (a_rule a, a_target a).

(** ** What is seen *)
Definition counts : Type := list (string * Z).
Record Profile := mkProfile { profile_id : string; measured : string; templates : nat }.
(** [drift]: with recent lines, their coverage, their number and the drop. *)
Record Drift := mkDrift { drift_recent : option (string * Z * string) }.

Definition INDUCIBLE_KINDS : list string := ["depository"; "liability"].
Definition is_inducible `{CaseMap} (kind : string) : bool := in_words (str_lower (strip kind)) INDUCIBLE_KINDS.
Definition pair_get {A} (pairs : list (string * string * A)) (k : string * string) : option A :=
  option_map snd (List.find (fun p => bool_decide (p.1 = k)) pairs).
Definition count_of {A} (l : list A) : Z := Z.of_nat (List.length l).
Definition total (c : counts) : Z := fold_left (fun n p => n + p.2)%Z c 0%Z.

(** ** Assessing *)
Definition kind_order (kind : string) : Z :=
  default 9%Z (dict_get [("induce", 0); ("reinduce", 1); ("sync", 2); ("enrich", 3); ("publish", 4); ("wait", 5)]%Z kind).
(** [sorted(out, key=lambda a: (order.get(a.kind, 9), a.target))]. *)
Definition before (a b : Action) : bool :=
  (kind_order (a_kind a) <? kind_order (a_kind b))%Z
  || ((kind_order (a_kind a) =? kind_order (a_kind b))%Z && String.ltb (a_target a) (a_target b)).
Fixpoint place (a : Action) (l : list Action) : list Action :=
  match l with
  | [] => [a]
  | b :: l' => if before b a then b :: place a l' else a :: l
  end.
Definition in_order (l : list Action) : list Action := fold_right place [] l.

Section Assess.
Context `{case_map : CaseMap} (latest_for : string -> string -> res (option Profile))
  (drift : Profile -> counts -> option counts -> Drift).

(** One pair: nothing, or one action. *)
Definition assess_pair (cfg : Rules) (recent : list (string * string * counts)) (inst kind : string) (c : counts)
    : res (list Action) :=
  if negb (is_inducible kind) then Ok []
  else
    let target := inst ++ "/" ++ kind in
    let? current := latest_for inst kind in
    match current with
    | None =>
        let rule := induce_missing cfg in
        if (min_lines rule <=? count_of c)%Z then
          Ok [mkAction "induce_missing" "induce" target (induce_why rule)
                [("distinct_lines", JInt (count_of c)); ("movements", JInt (total c))]
                (CALLS "induce" * best_of (induce_best_of rule))]
        else
          Ok [mkAction "induce_missing" "wait" target
                ("only " ++ dec (Z_text (count_of c)) ++ " distinct line(s); a grammar fitted to that many memorises them")
                [("distinct_lines", JInt (count_of c)); ("needed", JInt (min_lines rule))] 0]
    | Some p =>
        let rule := reinduce_drifted cfg in
        let d := drift_recent (drift p c (pair_get recent (inst, kind))) in
        let lines := match d with Some (_, n, _) => n | None => 0%Z end in
        let drop := match d with Some (_, _, x) => x | None => "0.0" end in
        if (min_recent_lines rule <=? lines)%Z && float_ge drop (drop_at rule) then
          match d with
          | None => Raise KeyError
          | Some (seen, _, drop) =>
              Ok [mkAction "reinduce_drifted" "reinduce" target (drift_why rule)
                    [("profile", JStr (profile_id p)); ("measured", JFloat (measured p));
                     ("recent", JFloat seen); ("drop", JFloat drop)]
                    (CALLS "reinduce" * best_of (drift_best_of rule))]
          end
        else Ok []
    end.

Definition assess (pairs recent : list (string * string * counts)) (unknown_brands known_records_to_sync : Z)
    (cfg : Rules) : res (list Action) :=
  let? out := rfold (fun out p => let? l := assess_pair cfg recent p.1.1 p.1.2 p.2 in Ok (out ++ l)%list) pairs [] in
  let sync :=
    if (at_least (sync_known cfg) <=? known_records_to_sync)%Z then
      [mkAction "sync_known" "sync" "brands" (count_why (sync_known cfg))
         [("known_records_to_sync", JInt known_records_to_sync)] (CALLS "sync")]
    else [] in
  let enrich :=
    if (at_least (enrich_unknown cfg) <=? unknown_brands)%Z then
      [mkAction "enrich_unknown" "enrich" "brands" (count_why (enrich_unknown cfg))
         [("unknown_brands", JInt unknown_brands)] (Z.max 1 ((unknown_brands + 39) / 40) * CALLS "enrich")]
    else [] in
  Ok (in_order (out ++ sync ++ enrich)%list).
End Assess.

(** [within_budget], what is spent so far an argument. *)
Fixpoint budgeted (spent : Z) (actions : list Action) (remaining : Z) : list Action * list Action :=
  match actions with
  | [] => ([], [])
  | a :: actions' =>
      if String.eqb (a_kind a) "wait" || (spent + a_estimated_calls a <=? remaining)%Z then
        let '(fits, deferred) := budgeted (spent + a_estimated_calls a) actions' remaining in (a :: fits, deferred)
      else
        let '(fits, deferred) := budgeted spent actions' remaining in (fits, a :: deferred)
  end.
Definition within_budget (actions : list Action) (remaining_calls : Z) : list Action * list Action :=
  budgeted 0 actions remaining_calls.

(** ** The journal: ledger/projection/activity.py over core.py's [_agent_log] *)
Definition agent_entry (e : Event) : res (list (list (string * json))) :=
  if py_eq_str (event_type e) "AgentActed" then
    let? body := body_dict e in
    Ok [dict_update body [("occurred_at", occurred_at e); ("event_id", event_id e)]]
  else Ok [].
Definition agent_log (log : list Event) : res (list (list (string * json))) :=
  let? entries := rmap agent_entry log in Ok (List.concat entries).
(** The last attempt of a rule on a target. *)
Definition agent_attempts (entries : list (list (string * json))) (k : string * string) : option (list (string * json)) :=
  List.find (fun a => py_eq_str (get_or a "rule" (JStr "")) k.1 && py_eq_str (get_or a "target" (JStr "")) k.2)
    (List.rev entries).
(** [int(a.get("calls", 0))] of a count as [agent_acted] records it, an integer. *)
Definition calls_in (a : list (string * json)) : res Z :=
  match get_or a "calls" (JInt 0) with
  | JInt z => Ok z
  | JBool b => Ok (if b then 1%Z else 0%Z)
  | _ => Raise TypeError
  end.
(** [str(a.get("occurred_at", ""))[:10] >= since] for a text. *)
Definition on_or_after (since : string) (a : list (string * json)) : bool :=
  String.eqb since "" ||
  match get_or a "occurred_at" (JStr "") with
  | JStr s => negb (String.ltb (Schedule.first_ten s) since)
  | _ => false
  end.
Definition agent_calls_spent (entries : list (list (string * json))) (since : string) : res Z :=
  rfold (fun n a => if on_or_after since a then let? c := calls_in a in Ok (n + c)%Z else Ok n) entries 0%Z.
