(* ===== verification/Grammars.v ===== *)
(** * Grammars: merchant/merchantcore/profile.py

    A bank's line grammar, what its templates may say, and the store that keeps one file per
    version.  A file is the profile it holds; matching a line against a compiled template is
    the interpreter's regular expressions, an argument. *)
From Stdlib Require Import ZArith NArith Ascii String Lia ZifyBool ZifyN ZifyNat.
From stdpp Require Import base list numbers strings.
From S2P Require Import Prelude Text Words Json Unicode Dates Decimals Floats Schedule Normalize Render Policy.
#[local] Open Scope string_scope.

Definition PROFILE_FORMAT : string := "prof-v1".
Definition PACK_RULES : string := "pack-v6".
Definition SLOTS : list string :=
  ["brand"; "city"; "region"; "store_number"; "counterparty"; "counterparty_handle"; "institution"; "account_ref";
   "reference"; "trace"; "company_id"; "contact"; "date"; "amount"; "purpose"; "noise"].
Definition PERSONAL_SLOTS : list string := ["counterparty"; "counterparty_handle"; "account_ref"].
Definition PARTY_SLOTS : list string := ["counterparty"; "counterparty_handle"; "brand"].
Definition SHAPES : list string :=
  ["words"; "merchant"; "word"; "number"; "alnum"; "date"; "masked"; "contact"; "handle"; "rest"].
Definition SLOT_SHAPE : list (string * string) :=
  [("brand", "merchant"); ("noise", "merchant"); ("date", "date"); ("store_number", "number"); ("account_ref", "masked");
   ("amount", "number"); ("reference", "alnum"); ("region", "word"); ("trace", "alnum"); ("company_id", "alnum");
   ("contact", "contact"); ("counterparty_handle", "handle")].
Definition DEFAULT_SHAPE : string := "words".
Definition shape_for (slot : string) (explicit : option string) : string :=
  match explicit with
  | Some x => if String.eqb x "" then default DEFAULT_SHAPE (dict_get SLOT_SHAPE slot) else x
  | None => default DEFAULT_SHAPE (dict_get SLOT_SHAPE slot)
  end.

(** ** Templates *)

(** The braced constructs of a pattern, [_BRACED]: the text from a brace to the next closing
    one, and whether there was one. *)
Fixpoint braced (fuel : nat) (l : bytes) : list (bytes * bool) :=
  match fuel with
  | O => []
  | S f =>
      match span (fun c => negb (is_sep "{" c)) l with
      | (_, []) => []
      | (_, _ :: r) =>
          match span (fun c => negb (is_sep "}" c)) r with
          | (inside, []) => [(inside, false)]
          | (inside, _ :: rest) => (inside, true) :: braced f rest
          end
      end
  end.
Definition low_letter (c : ascii) : bool := ((97 <=? code c) && (code c <=? 122))%N.
(** [_HOLE] on what is between the braces: a name, and perhaps a shape. *)
Definition hole (inside : bytes) : option (string * option string) :=
  match span (fun c => low_letter c || is_sep "_" c) inside with
  | ([], _) => None
  | (name, []) => Some (dec name, None)
  | (name, c :: shape) =>
      if is_sep ":" c && negb (bool_decide (shape = [])) && forallb low_letter shape
      then Some (dec name, Some (dec shape)) else None
  end.
(** [Template.compile]'s own check: every construct a hole, of a known slot and
    shape, none but noise twice. *)
Fixpoint holes_ok (seen : list string) (l : list (bytes * bool)) : bool :=
  match l with
  | [] => true
  | (inside, closed) :: l' =>
      match hole inside with
      | Some (name, explicit) =>
          closed && in_words name SLOTS && in_words (shape_for name explicit) SHAPES
          && negb (in_words name seen && negb (String.eqb name "noise")) && holes_ok (name :: seen) l'
      | None => false
      end
  end.
Definition constructs (pattern : string) : list (bytes * bool) := braced (String.length pattern) (enc pattern).
(** The check lets noise stand twice; the expression built then names a group twice. *)
Definition noises (pattern : string) : nat :=
  List.length (List.filter (fun p => match hole p.1 with Some (n, _) => String.eqb n "noise" | None => false end) (constructs pattern)).
Definition compile (pattern : string) : res () :=
  if negb (holes_ok [] (constructs pattern)) then Raise ProfileError
  else if (1 <? noises pattern)%nat then Raise RegexError else Ok ().
(** [Template.slots], of a pattern that compiles. *)
Definition slots (pattern : string) : list (string * string) :=
  List.concat (List.map (fun p => match (if p.2 : bool then hole p.1 else None) with
                                  | Some (name, explicit) => [(name, shape_for name explicit)] | None => [] end) (constructs pattern)).

(** ** Grammars *)
Record Grammar := mkGrammar {
  g_institution : string; g_kind : string; g_version : string; g_templates : list string;
  g_induced_from : Z; g_measured : string; g_format : string
}.
#[export] Instance Grammar_eq_dec : EqDecision Grammar.
Proof. solve_decision. Defined.

(** [_slug]: runs of anything but letters and digits become one hyphen, none at the ends. *)
Definition slug_char (c : ascii) : bool := low_letter c || is_digit c.
Fixpoint hyphened (inside : bool) (l : bytes) : bytes :=
  match l with
  | [] => []
  | c :: r => if slug_char c then c :: hyphened false r else if inside then hyphened true r else "-"%char :: hyphened true r
  end.
Definition strip_hyphens (l : bytes) : bytes := rstrip_char "-" (snd (span (is_sep "-") l)).
Section Grammars.
Context `{case_map : CaseMap} (is_never_templatable : string -> bool) (rx_match : string -> string -> bool).

Definition slug (text : string) : string :=
  let s := dec (strip_hyphens (hyphened false (enc (str_lower (strip text))))) in
  if String.eqb s "" then "unknown" else s.
Definition pair_prefix (institution kind : string) : string := slug institution ++ "-" ++ slug kind ++ "-".
Definition grammar_id (g : Grammar) : string := pair_prefix (g_institution g) (g_kind g) ++ g_version g.

Definition explains (g : Grammar) (descriptor : string) : bool :=
  negb (is_never_templatable descriptor) && existsb (fun t => rx_match t descriptor) (g_templates g).
(** [weighted_coverage], the quotient rounded as a float is: its numerator and denominator. *)
Definition explained (g : Grammar) (c : counts) : Z := total (List.filter (fun p => explains g p.1) c).
Definition share (g : Grammar) (c : counts) : N * Z :=
  nearest_binary (Z.to_N (explained g c)) (if (total c =? 0)%Z then 1%N else Z.to_N (total c)).
Definition share_lt (a b : N * Z) : bool :=
  let k := Z.min a.2 b.2 in (a.1 * 2 ^ Z.to_N (a.2 - k) <? b.1 * 2 ^ Z.to_N (b.2 - k))%N.

Definition validate (g : Grammar) : res Grammar :=
  let? _ := raise_if (bool_decide (g_templates g = [])) ProfileError in
  let? _ := rmap compile (g_templates g) in
  Ok g.
Definition validate_evidence (g : Grammar) (c : counts) : res Grammar :=
  let supported t := negb (bool_decide (slots t = [])) || existsb (fun p => (1 <? p.2)%Z && rx_match t p.1) c in
  let? _ := raise_if (negb (forallb supported (g_templates g))) ProfileError in
  Ok g.
(** [to_dict] keeps four places of the measure; [from_dict] checks the format and validates. *)
Definition frozen (g : Grammar) : Grammar :=
  mkGrammar (g_institution g) (g_kind g) (g_version g) (g_templates g) (g_induced_from g)
    (round_float 4 (g_measured g)) (g_format g).
Definition from_dict (g : Grammar) : res Grammar :=
  let? _ := raise_if (negb (String.eqb (g_format g) PROFILE_FORMAT)) ProfileError in
  validate g.

(** ** The store *)
Record ProfileStore := mkStore { learned : list (string * Grammar); shipped : list (string * Grammar) }.
Definition ids (st : ProfileStore) : list string := sorted_set ((learned st).*1 ++ (shipped st).*1)%list.
(** [_file] and [load]. *)
Definition file (st : ProfileStore) (id : string) : option Grammar :=
  match dict_get (learned st) id with Some g => Some g | None => dict_get (shipped st) id end.
Definition load (st : ProfileStore) (id : string) : res Grammar :=
  match file st id with Some g => from_dict g | None => Raise ProfileError end.
Definition versions (st : ProfileStore) (institution kind : string) : list string :=
  List.filter (fun i => has_prefix (enc (pair_prefix institution kind)) (enc i)) (ids st).
(** The number of an id that ends in [-v] and digits. *)
Definition version_number (id : string) : option Z :=
  let '(ds, r) := take_while is_decimal (List.rev (uchars (enc id))) in
  match ds, r with
  | _ :: _, v :: h :: _ => if (v =? 118)%N && (h =? 45)%N then Some (digits_value (List.rev ds)) else None
  | _, _ => None
  end.
Definition used (st : ProfileStore) (institution kind : string) : list Z := omap version_number (versions st institution kind).
Definition next_version (st : ProfileStore) (institution kind : string) : string :=
  match used st institution kind with
  | [] => "v1"
  | n :: l => "v" ++ dec (Z_text (fold_left Z.max l n + 1))
  end.
Definition latest (st : ProfileStore) (institution kind : string) : res (option Grammar) :=
  match List.rev (versions st institution kind) with
  | [] => Ok None
  | i :: _ => let? g := load st i in Ok (Some g)
  end.
Definition latest_for (st : ProfileStore) (institution kind : string) : res (option Grammar) :=
  if is_inducible kind then latest st institution kind else Ok None.

Definition write (st : ProfileStore) (g : Grammar) (against : option counts) (force : bool) : res ProfileStore :=
  let evidence := match against with None | Some [] => None | c => c end in
  let? _ := validate g in
  let? _ := match evidence with Some c => validate_evidence g c | None => Ok g end in
  let? _ := raise_if (negb (is_inducible (g_kind g))) ProfileError in
  let? prior := latest st (g_institution g) (g_kind g) in
  let? _ := raise_if (match prior, evidence with
                      | Some p, Some c => negb force && share_lt (share g c) (share p c) | _, _ => false end) ProfileError in
  let? _ := raise_if (bool_decide (is_Some (dict_get (learned st) (grammar_id g)))) ProfileError in
  Ok (mkStore (dict_set (learned st) (grammar_id g) (frozen g)) (shipped st)).
End Grammars.
