(* ===== verification/GrammarProperties.v ===== *)
(** * GrammarProperties: a released grammar is never edited

    The ids of a pair, the next free version, and what writing leaves alone. *)
From Stdlib Require Import ZArith NArith Ascii String Lia ZifyBool ZifyN ZifyNat.
From stdpp Require Import base list numbers strings.
From S2P Require Import Prelude Text Words Json Unicode Dates Decimals Floats Schedule Normalize Render Policy Grammars.
#[local] Open Scope list_scope.

(** ** Ids are plain text *)
Definition id_char (c : ascii) : Prop := slug_char c = true \/ c = "-"%char.
Lemma id_char_ascii l : Forall id_char l -> Forall (fun c => (code c < 128)%N) l.
Proof.
  intros Hl. eapply Forall_impl; [exact Hl|]. intros c [Hc| ->]; [|by vm_compute].
  unfold slug_char, low_letter, is_digit in Hc. lia.
Qed.
Lemma hyphened_chars b l : Forall id_char (hyphened b l).
Proof.
  revert b. induction l as [|c l IH]; intros b; cbn [hyphened]; [constructor|].
  destruct (slug_char c) eqn:E; [constructor; [by left|apply IH]|]. destruct b; [apply IH|].
  constructor; [by right|apply IH].
Qed.
Lemma span_rest {A : ascii -> Prop} f l : Forall A l -> Forall A (snd (span f l)).
Proof.
  intros H. destruct (span f l) as [a r] eqn:E. apply span_spec in E as (-> & _ & _). by apply Forall_app in H as [_ H].
Qed.
Section Ids.
Context `{case_map : CaseMap}.
Lemma slug_chars text : Forall id_char (enc (slug text)).
Proof.
  unfold slug. destruct (String.eqb _ ""); [repeat constructor; by left|]. rewrite enc_dec. unfold strip_hyphens, rstrip_char.
  apply Forall_rev, span_rest, Forall_rev, span_rest, hyphened_chars.
Qed.
Lemma prefix_chars inst kind : Forall id_char (enc (pair_prefix inst kind)).
Proof.
  unfold pair_prefix. rewrite !enc_app. repeat (apply Forall_app; split); try apply slug_chars; repeat constructor; by right.
Qed.
End Ids.

(** ** The number at the end of an id *)
Lemma take_while_app f a r : Forall (fun c => f c = true) a -> match r with c :: _ => f c = false | [] => True end ->
  take_while f (a ++ r) = (a, r).
Proof.
  intros Ha Hr. induction Ha as [|c a Hc Ha IH]; cbn [app take_while].
  - destruct r as [|c r]; [done|]. cbn. by rewrite Hr.
  - by rewrite Hc, IH.
Qed.
Lemma digit_decimal c : is_digit c = true -> decimal_digit (code c) = Some (digit_val c).
Proof.
  intros Hc. assert (Hin : code c ∈ [48;49;50;51;52;53;54;55;56;57]%N) by (unfold is_digit in Hc; rewrite !elem_of_cons; lia).
  unfold digit_val. repeat (apply elem_of_cons in Hin as [->|Hin]; [by vm_compute|]). by apply elem_of_nil in Hin.
Qed.
Lemma digits_code_value l : Forall (fun c => is_digit c = true) l -> digits_value (List.map code l) = Z.of_N (value_of_digits l).
Proof.
  intros Hl. unfold digits_value, value_of_digits.
  assert (G : forall acc, fold_left (fun n c => n * 10 + Z.of_N (default 0%N (decimal_digit c)))%Z (List.map code l) (Z.of_N acc)
    = Z.of_N (fold_left (fun acc c => acc * 10 + digit_val c)%N l acc)); [|by apply (G 0%N)].
  induction Hl as [|c l Hc Hl IH]; intros acc; [done|]. cbn [List.map fold_left]. rewrite <- IH, (digit_decimal c Hc).
  cbn [from_option default id]. f_equal. lia.
Qed.
Lemma version_number_text p n : Forall id_char (enc p) ->
  version_number (p ++ "-" ++ "v" ++ dec (digits_of_N n)) = Some (Z.of_N n).
Proof.
  intros Hp. unfold version_number. rewrite !enc_app, enc_dec.
  change (enc "-") with ["-"%char]. change (enc "v") with ["v"%char].
  assert (Ha : Forall (fun c => (code c < 128)%N) (enc p ++ ["-"%char] ++ ["v"%char] ++ digits_of_N n)).
  { apply Forall_app. split; [by apply id_char_ascii|]. repeat (apply Forall_app; split); [by repeat constructor|by repeat constructor|].
    eapply Forall_impl; [apply digits_all|]. intros c Hc. unfold is_digit in Hc. lia. }
  rewrite uchars_ascii by done. rewrite !List.map_app, !List.rev_app_distr, <- !app_assoc.
  rewrite take_while_app.
  - destruct (List.rev (List.map code (digits_of_N n))) as [|x l] eqn:E.
    { apply (f_equal length) in E. rewrite List.length_rev, List.length_map in E. pose proof (ndigits_pos n). unfold ndigits in *. cbn [length] in E. lia. }
    change (List.rev (List.map code ["v"%char])) with [118%N]. change (List.rev (List.map code ["-"%char])) with [45%N].
    cbn [app N.eqb Pos.eqb andb]. rewrite <- E, List.rev_involutive, digits_code_value by apply digits_all. by rewrite value_digits.
  - apply Forall_rev. apply Forall_forall. intros x Hx. apply list_elem_of_In, List.in_map_iff in Hx as (c & <- & Hc).
    pose proof (digits_all n) as Hd. rewrite Forall_forall in Hd. specialize (Hd c (proj2 (list_elem_of_In _ _) Hc)).
    unfold is_decimal. by rewrite (digit_decimal c Hd).
  - done.
Qed.

(** ** The next version *)
Section Versions.
Context `{case_map : CaseMap}.
Lemma used_bound st inst kind n : n ∈ used st inst kind -> (0 <= n)%Z.
Proof.
  unfold used. intros (i & _ & Hi)%list_elem_of_omap. unfold version_number in Hi.
  destruct (take_while _ _) as [ds r]. destruct ds as [|d ds]; [done|]. destruct r as [|v [|h r]]; [done|done|].
  destruct (_ && _); [|done]. injection Hi as <-. unfold digits_value.
  assert (G : forall l acc, (0 <= acc -> 0 <= fold_left (fun n c => n * 10 + Z.of_N (default 0%N (decimal_digit c))) l acc)%Z); [|by apply G].
  induction l as [|c l IH]; intros acc Ha; cbn [fold_left]; [done|]. apply IH. lia.
Qed.
Lemma fold_max l : forall n, (n <= fold_left Z.max l n)%Z /\ forall m, m ∈ l -> (m <= fold_left Z.max l n)%Z.
Proof.
  induction l as [|x l IH]; intros n; cbn [fold_left]; [split; [lia|by intros m ?%elem_of_nil]|].
  destruct (IH (Z.max n x)) as [H1 H2]. split; [lia|]. intros m [->|Hm]%elem_of_cons; [lia|by apply H2].
Qed.
Lemma next_version_spec st inst kind : exists n, next_version st inst kind = ("v" ++ dec (digits_of_N n))%string
  /\ forall m, m ∈ used st inst kind -> (m < Z.of_N n)%Z.
Proof.
  unfold next_version. destruct (used st inst kind) as [|n l] eqn:E.
  - exists 1%N. split; [done|]. by intros m ?%elem_of_nil.
  - assert (Hn : (0 <= n)%Z) by (apply (used_bound st inst kind); rewrite E; by left).
    destruct (fold_max l n) as [H1 H2]. exists (Z.to_N (fold_left Z.max l n + 1)). split.
    + do 2 f_equal. unfold Z_text. destruct (fold_left Z.max l n + 1)%Z eqn:Ez; [done|done|lia].
    + intros m [->|Hm]%elem_of_cons; [lia|]. specialize (H2 m Hm). lia.
Qed.
Lemma ids_In st i : i ∈ ids st <-> is_Some (file st i).
Proof.
  assert (Hk : forall (l : list (string * Grammar)), i ∈ l.*1 <-> is_Some (dict_get l i)).
  { induction l as [|[k g] l IH]; cbn [dict_get fmap list_fmap fst].
    - split; [by intros ?%elem_of_nil|by intros [? ?]].
    - rewrite elem_of_cons. destruct (String.eqb_spec i k) as [->|Hne]; [split; [by eexists|by left]|].
      rewrite <- IH. split; [by intros [?|?]|by right]. }
  unfold ids, file. rewrite sorted_set_elem, elem_of_app, !Hk. destruct (dict_get (learned st) i); [split; [by eexists|by left; eexists]|].
  split; [by intros [[? ?]|?]|by right].
Qed.
Lemma starts_with_self p l : starts_with p (p ++ l) = Some l.
Proof. apply starts_with_app. Qed.
(** No id in the store is one of a version not yet used. *)
Lemma next_id_free st inst kind : (pair_prefix inst kind ++ next_version st inst kind)%string ∉ ids st.
Proof.
  intros Hin. destruct (next_version_spec st inst kind) as (n & Hn & Hmax). rewrite Hn in Hin.
  set (i := (pair_prefix inst kind ++ "v" ++ dec (digits_of_N n))%string) in *.
  assert (Hv : i ∈ versions st inst kind).
  { unfold versions. apply list_elem_of_In, List.filter_In. split; [by apply list_elem_of_In|].
    unfold has_prefix, i. rewrite enc_app. apply bool_decide_eq_true_2. rewrite starts_with_self. by eexists. }
  assert (Hnum : version_number i = Some (Z.of_N n)).
  { unfold i, pair_prefix. replace ((slug inst ++ "-" ++ slug kind ++ "-") ++ "v" ++ dec (digits_of_N n))%string
      with ((slug inst ++ "-" ++ slug kind) ++ "-" ++ "v" ++ dec (digits_of_N n))%string.
    - apply version_number_text. rewrite !enc_app. repeat (apply Forall_app; split); try apply slug_chars; repeat constructor; by right.
    - rewrite <- (dec_enc ((slug inst ++ "-" ++ slug kind) ++ _)), <- (dec_enc ((slug inst ++ "-" ++ slug kind ++ "-") ++ _)).
      f_equal. rewrite !enc_app, <- !app_assoc. done. }
  assert (Hu : Z.of_N n ∈ used st inst kind) by (unfold used; apply list_elem_of_omap; by exists i).
  specialize (Hmax _ Hu). lia.
Qed.
End Versions.

(** ** Writing *)
Section Writing.
Context `{case_map : CaseMap} (is_never_templatable : string -> bool) (rx_match : string -> string -> bool).

Lemma dict_set_other (l : list (string * Grammar)) k v i : i <> k -> dict_get (dict_set l k v) i = dict_get l i.
Proof using Type.
  intros Hne. induction l as [|[k' v'] l IH]; cbn [dict_set dict_get].
  - by destruct (String.eqb_spec i k).
  - destruct (String.eqb_spec k k') as [->|Hk]; cbn [dict_get]; [|by rewrite IH].
    by destruct (String.eqb_spec i k').
Qed.
Lemma dict_set_here (l : list (string * Grammar)) k v : dict_get (dict_set l k v) k = Some v.
Proof using Type.
  induction l as [|[k' v'] l IH]; cbn [dict_set dict_get]; [by rewrite String.eqb_refl|].
  destruct (String.eqb_spec k k') as [->|Hk]; cbn [dict_get]; [by rewrite String.eqb_refl|].
  by rewrite (proj2 (String.eqb_neq _ _) Hk).
Qed.
Lemma write_checks st g against force st' : write is_never_templatable rx_match st g against force = Ok st' ->
  validate g = Ok g /\ st' = mkStore (dict_set (learned st) (grammar_id g) (frozen g)) (shipped st)
  /\ exists prior, latest st (g_institution g) (g_kind g) = Ok prior
  /\ forall p c, prior = Some p -> against = Some c -> c <> [] -> force = false ->
      share_lt (share is_never_templatable rx_match g c) (share is_never_templatable rx_match p c) = false.
Proof using Type.
  unfold write. intros H. apply rbind_ok in H as (g' & Hv & H).
  assert (g' = g) as ->.
  { unfold validate in Hv. apply rbind_ok in Hv as (? & _ & Hv). apply rbind_ok in Hv as (? & _ & Hv). by injection Hv. }
  apply rbind_ok in H as (? & _ & H). apply rbind_ok in H as (? & _ & H). apply rbind_ok in H as (prior & Hp & H).
  apply rbind_ok in H as (u & Hs & H). apply rbind_ok in H as (? & _ & H). injection H as <-.
  split; [done|]. split; [done|]. exists prior. split; [done|]. intros p c -> -> Hc ->. destruct c as [|q c]; [done|].
  cbn [negb andb] in Hs. destruct (share_lt _ _); [by destruct u|done].
Qed.
End Writing.

(** a released grammar is never edited.  Writing a grammar under the next version its pair
    has, what [next_version] names, takes an id no file learned or shipped has: every id there
    was loads what it loaded, the new id loads the grammar as written, and, against lines it
    is checked on, it explains no smaller share of them than the one in use. *)
Theorem grammars_are_never_edited `{case_map : CaseMap} is_never_templatable rx_match st g against st' :
  g_version g = next_version st (g_institution g) (g_kind g) -> g_format g = PROFILE_FORMAT ->
  write is_never_templatable rx_match st g against false = Ok st' ->
  (grammar_id g ∉ ids st) /\ (forall id, id ∈ ids st -> load st' id = load st id)
  /\ load st' (grammar_id g) = Ok (frozen g)
  /\ exists prior, latest st (g_institution g) (g_kind g) = Ok prior
     /\ forall p c, prior = Some p -> against = Some c -> c <> [] ->
        share_lt (share is_never_templatable rx_match g c) (share is_never_templatable rx_match p c) = false.
Proof.
  intros Hver Hfmt Hw. destruct (write_checks _ _ _ _ _ _ _ Hw) as (Hv & -> & prior & Hp & Hshare).
  assert (Hfree : grammar_id g ∉ ids st) by (unfold grammar_id; rewrite Hver; apply next_id_free).
  split; [done|]. split; [|split; [|exists prior; split; [done|intros p c H1 H2 H3; by apply Hshare]]].
  - intros id Hin. unfold load, file. cbn [learned shipped]. rewrite dict_set_other; [done|]. by intros ->.
  - unfold load, file. cbn [learned]. rewrite dict_set_here. unfold from_dict. change (g_format (frozen g)) with (g_format g).
    rewrite Hfmt, String.eqb_refl. cbn [negb raise_if rbind]. unfold validate in *. change (g_templates (frozen g)) with (g_templates g).
    apply rbind_ok in Hv as (? & E1 & Hv). rewrite E1. cbn [rbind]. apply rbind_ok in Hv as (? & E2 & _). by rewrite E2.
Qed.

(** *** A store for the witness *)
Definition a_grammar (v : string) : Grammar :=
  mkGrammar "Northgate" "depository" v ["CARD {brand} {city}"]%string 40 "0.9" PROFILE_FORMAT.
Definition a_store (vs : list string) : ProfileStore :=
  mkStore (List.map (fun v => (grammar_id (case_map := ascii_case) (a_grammar v), a_grammar v)) vs) [].
Lemma grammars_are_never_edited_witness : exists st',
  write (case_map := ascii_case) (fun _ => false) (fun _ _ => true) (a_store ["v1"]%string) (a_grammar "v2") None false = Ok st'
  /\ (grammar_id (case_map := ascii_case) (a_grammar "v2") ∉ ids (a_store ["v1"]%string))
  /\ (forall id, id ∈ ids (a_store ["v1"]%string) -> load st' id = load (a_store ["v1"]%string) id)
  /\ load st' (grammar_id (case_map := ascii_case) (a_grammar "v2")) = Ok (frozen (a_grammar "v2"))
  /\ exists prior, latest (case_map := ascii_case) (a_store ["v1"]%string) "Northgate" "depository" = Ok prior
     /\ forall p c, prior = Some p -> None = Some c -> c <> [] ->
        share_lt (share (fun _ => false) (fun _ _ => true) (a_grammar "v2") c) (share (fun _ => false) (fun _ _ => true) p c) = false.
Proof.
  destruct (write (case_map := ascii_case) (fun _ => false) (fun _ _ => true) (a_store ["v1"]%string) (a_grammar "v2") None false)
    as [st'|e] eqn:E; [|by vm_compute in E].
  exists st'. split; [done|].
  apply (grammars_are_never_edited (case_map := ascii_case) (fun _ => false) (fun _ _ => true) (a_store ["v1"]%string) (a_grammar "v2") None st');
    [by vm_compute|done|exact E].
Defined.

(** ** Observed *)

(** From the tenth version on, the grammar in use is the ninth. *)
Lemma tenth_grammar_unused :
  let st := a_store ["v1"; "v2"; "v3"; "v4"; "v5"; "v6"; "v7"; "v8"; "v9"; "v10"]%string in
  latest (case_map := ascii_case) st "Northgate" "depository" = Ok (Some (a_grammar "v9"))
  /\ next_version (case_map := ascii_case) st "Northgate" "depository" = "v11"%string.
Proof. split; vm_compute; reflexivity. Qed.
(** A grammar that came with the package can be written over by a learned one of its id. *)
Lemma shipped_grammar_shadowed : exists st',
  write (case_map := ascii_case) (fun _ => false) (fun _ _ => true) (mkStore [] (learned (a_store ["v1"]%string)))
    (mkGrammar "Northgate" "depository" "v1" ["{brand}"]%string 1 "0.5" PROFILE_FORMAT) None false = Ok st'
  /\ load st' (grammar_id (case_map := ascii_case) (a_grammar "v1")) <> Ok (a_grammar "v1").
Proof. eexists. split; [vm_compute; reflexivity|]. vm_compute. discriminate. Qed.
(** Noise twice passes the vocabulary's check and is no regular expression. *)
Lemma repeated_noise_escapes : holes_ok [] (constructs "{noise} {brand} {noise}") = true
  /\ validate (mkGrammar "Northgate" "depository" "v1" ["{noise} {brand} {noise}"]%string 1 "0.5" PROFILE_FORMAT) = Raise RegexError.
Proof. split; vm_compute; reflexivity. Qed.
