(* ===== verification/Wake.v ===== *)
(** * Wake: product/viva/agent/run.py and act.py

    One unattended wake: look, decide, act within a ceiling, record, look again.  What is
    seen ([observe.py]) and what an action does outside the ledger (the grammar store, the
    inducer, the catalog) is the [Surroundings] interface; the dispatch, the choice among
    attempts, the cooldown, the budget and the loop are here.  The texts of details are
    constructors. *)
From Stdlib Require Import ZArith NArith Ascii String Lia ZifyBool ZifyN ZifyNat.
From stdpp Require Import base list numbers strings.
From S2P Require Import Prelude Text Words Json Unicode Decimals Floats Events EventTypes Goals Normalize Render Policy.
#[local] Open Scope string_scope.

(** ** What an action reports *)
Inductive detail :=
  | Silent | NoMovements (target : string) | TooFewLines (n : Z) | Raised (e : exn) | AllFailed (errors : list exn)
  | Verdict (said : string) | WriteRefused (e : exn) | Templates (n : nat) (scored : string)
  | Synced (n : Z) | Identified (n synced : Z) | NoneBack (submitted : Z) | NoHands (kind : string) | Planned.
Record Outcome := mkOutcome {
  o_outcome : string; o_calls : Z; o_produced : string; o_replaced : string; o_detail : detail
}.
Definition failed (calls : Z) (d : detail) : Outcome := mkOutcome "failed" calls "" "" d.
Definition refused_work (calls : Z) (replaced : string) (d : detail) : Outcome := mkOutcome "refused" calls "" replaced d.

(** An induction: its grammar if one came back, its score, its coverage, and its verdict. *)
Record Induction := mkInduction {
  i_profile : option Profile; i_scored : string; i_coverage : string; i_accepted : bool; i_verdict : string
}.

(** ** What the wake sees *)
Record Observation := mkObservation {
  pairs : list (string * string * counts); recent : list (string * string * counts);
  unknown_brands : Z; known_records_to_sync : Z; movements_seen : Z; brands_offered : Z; grammars : Z;
  journal : list (list (string * json))
}.
(** [Observation.summary]. *)
Definition summary `{CaseMap} (o : Observation) : list (string * Z) :=
  [("movements", movements_seen o); ("pairs", count_of (pairs o));
   ("inducible_pairs", count_of (List.filter (fun p => is_inducible p.1.2) (pairs o)));
   ("grammars", grammars o); ("brands_offered", brands_offered o); ("unknown_brands", unknown_brands o);
   ("known_records_to_sync", known_records_to_sync o)].

Class Surroundings (S : Type) := {
  (* everything of an observation but the journal, from the ledger's events and the disk *)
  look : list Event -> S -> res Observation;
  latest_for : S -> string -> string -> res (option Profile);
  drift : Profile -> counts -> option counts -> Drift;
  machinery_version : string;
  ENRICHMENT_VERSION : string;
  is_never_templatable : string -> bool;
  MIN_LINES_TO_INDUCE : Z;
  (* building the model client for a name may raise *)
  extractor : string -> S -> option exn;
  (* one attempt: what came back, and the model calls it made *)
  induce_once : string -> string -> counts -> S -> res Induction * Z * S;
  (* the profile with the store's next version and its measure, written against the lines *)
  write_profile : string -> string -> Profile -> string -> counts -> S -> res Profile * S;
  (* records applied for free, and the events that applied them *)
  sync_records : list Event -> S -> res Z * list Event * S;
  (* brands identified, synced, submitted; the calls made; the events *)
  enrich_merchants : list Event -> S -> res (Z * Z * Z) * Z * list Event * S;
  say : detail -> string
}.

Section Run.
Context `{case_map : CaseMap} {S : Type} `{surroundings : !Surroundings S}.

Definition world : Type := S * list Event.

(** [observe]. *)
Definition observe (w : world) : res Observation :=
  let? o := look (snd w) (fst w) in
  let? entries := agent_log (snd w) in
  Ok (mkObservation (pairs o) (recent o) (unknown_brands o) (known_records_to_sync o) (movements_seen o)
        (brands_offered o) (grammars o) entries).

(** ** Stakes and the cooldown *)
Definition machinery_for (kind : string) : string :=
  if String.eqb kind "induce" || String.eqb kind "reinduce" then machinery_version
  else if String.eqb kind "enrich" then ENRICHMENT_VERSION else "".
Definition rounded (v : json) : json := match v with JFloat t => JFloat (round_float 3 t) | v => v end.
(** Keyed in order; a dictionary's order plays no part in a comparison. *)
Definition stake_of (a : Action) : list (string * json) :=
  let stake := List.map (fun p => (p.1, rounded p.2)) (sort_items (a_evidence a)) in
  if String.eqb (machinery_for (a_kind a)) "" then stake
  else dict_set stake "machinery" (JStr (machinery_for (a_kind a))).

(** [==] of the values a stake holds: numbers by value, text by text. *)
Definition number_value (v : json) : option decimal :=
  match v with
  | JInt z => Some (Decimal_of_Z z)
  | JBool b => Some (Decimal_of_Z (if b then 1 else 0))
  | JFloat t => match float_token t with Ok d => Some d | Raise _ => None end
  | _ => None
  end.
Definition same_value (a b : json) : bool :=
  match number_value a, number_value b with
  | Some x, Some y => match deq x y with Ok r => r | Raise _ => false end
  | None, None => bool_decide (a = b)
  | _, _ => false
  end.
Definition same_stake (a b : list (string * json)) : bool :=
  (List.length a =? List.length b)%nat
  && forallb (fun p => match dict_get b p.1 with Some v => same_value p.2 v | None => false end) a.

(** Held back by its last attempt. *)
Definition cooled_by (entries : list (list (string * json))) (a : Action) : option (list (string * json)) :=
  match agent_attempts entries (act_key a) with
  | Some last =>
      if negb (py_eq_str (get_or last "outcome" JNull) "done")
         && match get_or last "stake" JNull with JObj stake => same_stake stake (stake_of a) | _ => false end
      then Some last else None
  | None => None
  end.
Fixpoint cool (actions : list Action) (entries : list (list (string * json)))
    : list Action * list (Action * list (string * json)) :=
  match actions with
  | [] => ([], [])
  | a :: actions' =>
      let '(live, cooled) := cool actions' entries in
      match cooled_by entries a with
      | Some last => (live, (a, last) :: cooled)
      | None => (a :: live, cooled)
      end
  end.

(** [_plan]: considered, cooled, fits, deferred. *)
Definition plan (s : S) (obs : Observation) (cfg : Rules) (ceiling_left : Z)
    : res (list Action * list (Action * list (string * json)) * list Action * list Action) :=
  let? actions := assess (latest_for s) drift (pairs obs) (recent obs) (unknown_brands obs) (known_records_to_sync obs) cfg in
  let '(live, cooled) := cool actions (journal obs) in
  let doable := List.filter (fun a => negb (in_words (a_kind a) ["wait"; "ask"])) live in
  let '(fits, deferred) := within_budget doable ceiling_left in
  Ok (actions, cooled, fits, deferred).
Definition needs_model (a : Action) : bool := in_words (a_kind a) ["induce"; "reinduce"; "enrich"].

(** ** Performing: act.py *)

(** [n] guarded attempts: what came back, what failed, the calls made. *)
Fixpoint attempts_of (n : nat) (inst kind : string) (c : counts) (s : S) : list Induction * list exn * Z * S :=
  match n with
  | O => ([], [], 0%Z, s)
  | Datatypes.S m =>
      let '(r, calls, s) := induce_once inst kind c s in
      let '(got, errors, more, s) := attempts_of m inst kind c s in
      match r with
      | Ok i => (i :: got, errors, (calls + more)%Z, s)
      | Raise e => (got, e :: errors, (calls + more)%Z, s)
      end
  end.
(** [max(attempts, key=...)]: the score, then the smaller grammar; the first of equals. *)
Definition better (a b : Induction) : bool :=
  let size i := match i_profile i with Some p => templates p | None => 0%nat end in
  if float_ge (i_scored b) (i_scored a) then float_ge (i_scored a) (i_scored b) && (size a <? size b)%nat
  else float_ge (i_scored a) (i_scored b).
Definition best_attempt (first : Induction) (rest : list Induction) : Induction :=
  fold_left (fun best i => if better i best then i else best) rest first.
(** [dict.fromkeys(errors)]. *)
Fixpoint distinct (l : list exn) : list exn :=
  match l with
  | [] => []
  | e :: l' => e :: List.filter (fun x => negb (bool_decide (x = e))) (distinct l')
  end.

Definition do_induce (a : Action) (obs : Observation) (best_of : Z) (s : S) : res Outcome * S :=
  let '(inst, _, kind) := partition "/" (a_target a) in
  match pair_get (pairs obs) (inst, kind) with
  | None | Some [] => (Ok (failed 0 (NoMovements (a_target a))), s)
  | Some c =>
      let eligible := count_of (List.filter (fun p => negb (is_never_templatable p.1)) c) in
      if (eligible <? MIN_LINES_TO_INDUCE)%Z then (Ok (refused_work 0 "" (TooFewLines eligible)), s)
      else match extractor "grammar-inducer" s with
      | Some e => (Ok (failed 0 (Raised e)), s)
      | None =>
          let '(got, errors, calls, s) := attempts_of (Z.to_nat (Z.max 1 best_of)) inst kind c s in
          match got with
          | [] => (Ok (failed calls (AllFailed (distinct errors))), s)
          | first :: rest =>
              let result := best_attempt first rest in
              match i_profile result, i_accepted result with
              | Some profile, true =>
                  match latest_for s inst kind with
                  | Raise e => (Raise e, s)
                  | Ok prior =>
                      let replaced := match prior with Some p => profile_id p | None => "" end in
                      match write_profile inst kind profile (i_coverage result) c s with
                      | (Ok written, s) =>
                          (Ok (mkOutcome "done" calls (profile_id written) replaced
                                 (Templates (templates profile) (i_scored result))), s)
                      | (Raise e, s) =>
                          if exn_isinstance e ProfileError then (Ok (refused_work calls replaced (WriteRefused e)), s)
                          else (Raise e, s)
                      end
                  end
              | _, _ => (Ok (refused_work calls "" (Verdict (i_verdict result))), s)
              end
          end
      end
  end.
Definition do_sync (w : world) : Outcome * world :=
  let '(r, events, s) := sync_records (snd w) (fst w) in
  (match r with
   | Ok n => mkOutcome "done" 0 "" "" (Synced n)
   | Raise e => failed 0 (Raised e)
   end, (s, snd w ++ events)%list).
Definition do_enrich (w : world) : Outcome * world :=
  match extractor "merchant-enricher" (fst w) with
  | Some e => (failed 0 (Raised e), w)
  | None =>
      let '(r, calls, events, s) := enrich_merchants (snd w) (fst w) in
      (match r with
       | Ok (enriched, synced, submitted) =>
           if (enriched =? 0)%Z then failed calls (NoneBack submitted)
           else mkOutcome "done" calls "" "" (Identified enriched synced)
       | Raise e => failed calls (Raised e)
       end, (s, snd w ++ events)%list)
  end.
Definition perform (a : Action) (obs : Observation) (best_of : Z) (w : world) : res Outcome * world :=
  if in_words (a_kind a) ["induce"; "reinduce"] then
    let '(r, s) := do_induce a obs best_of (fst w) in (r, (s, snd w))
  else if String.eqb (a_kind a) "sync" then let '(o, w) := do_sync w in (Ok o, w)
  else if String.eqb (a_kind a) "enrich" then let '(o, w) := do_enrich w in (Ok o, w)
  else (Ok (failed 0 (NoHands (a_kind a))), w).

(** ** The wake *)
Record Run := mkRun {
  considered : list Action; held_back : list (Action * list (string * json)); deferred : list Action;
  performed : list (Action * Outcome); calls_spent : Z; calls_budget : Z; calls_lifetime : Z;
  dry_run : bool; could_not_spend : bool; observation : list (string * Z)
}.
Definition DEFAULT_BUDGET_CALLS : Z := 60.
(** [budget_calls], from what the environment holds. *)
Definition budget_calls (raw : string) : Z :=
  if String.eqb raw "" then DEFAULT_BUDGET_CALLS
  else match int_of_text raw with Some n => Z.max 0 n | None => DEFAULT_BUDGET_CALLS end.

(** What one iteration adds to the run: an action, what it came to, and its record. *)
Definition acted (today : string) (fresh : string) (a : Action) (o : Outcome) : res Event :=
  agent_acted fresh (a_rule a) (a_kind a) (a_target a) (o_outcome o) today (o_calls o) (stake_of a)
    (o_produced o) (o_replaced o) (say (o_detail o)) "agent" None.

Record progress := mkProgress { attempted : list (string * string); done_so_far : list (Action * Outcome); spent : Z }.
Definition untried (p : progress) (a : Action) : bool := negb (bool_decide (act_key a ∈ attempted p)).

(** One iteration: the loop ends with what is deferred, or goes on in a new world. *)
Inductive turn := Ends (deferred : list Action) | GoesOn (p : progress) (w : world) (obs : Observation).
Definition wake_turn (cfg : Rules) (ceiling : Z) (override : option Z) (configured : bool) (today : string)
    (mint : list Event -> string) (p : progress) (w : world) (obs : Observation) : res turn * world :=
  match plan (fst w) obs cfg (ceiling - spent p) with
  | Raise e => (Raise e, w)
  | Ok (_, _, fits, later) =>
      let todo := List.filter (untried p) fits in
      let blocked := if configured then [] else List.filter needs_model todo in
      let todo := if configured then todo else List.filter (fun a => negb (needs_model a)) todo in
      match todo with
      | [] => (Ok (Ends (List.filter (untried p) (blocked ++ later)%list)), w)
      | a :: _ =>
          let tries := default (best_of_rule cfg (a_rule a)) override in
          match perform a obs tries w with
          | (Raise e, w) => (Raise e, w)
          | (Ok o, w) =>
              match acted today (mint (snd w)) a o with
              | Raise e => (Raise e, w)
              | Ok record =>
                  let w := (fst w, snd w ++ [record])%list in
                  let p := mkProgress (act_key a :: attempted p) (done_so_far p ++ [(a, o)])%list (spent p + o_calls o) in
                  match observe w with
                  | Raise e => (Raise e, w)
                  | Ok obs => (Ok (GoesOn p w obs), w)
                  end
              end
          end
      end
  end.
Fixpoint wake_loop (fuel : nat) (cfg : Rules) (ceiling : Z) (override : option Z) (configured : bool) (today : string)
    (mint : list Event -> string) (p : progress) (w : world) (obs : Observation) : option (res (progress * list Action) * world) :=
  match fuel with
  | O => None
  | Datatypes.S fuel' =>
      match wake_turn cfg ceiling override configured today mint p w obs with
      | (Raise e, w) => Some (Raise e, w)
      | (Ok (Ends later), w) => Some (Ok (p, later), w)
      | (Ok (GoesOn p w obs), _) => wake_loop fuel' cfg ceiling override configured today mint p w obs
      end
  end.
Definition planned : Outcome := mkOutcome "planned" 0 "" "" Planned.

Definition wake (fuel : nat) (cfg : Rules) (ceiling : Z) (dry_run : bool) (override : option Z) (configured : bool)
    (today : string) (mint : list Event -> string) (w : world) : option (res Run * world) :=
  match observe w with
  | Raise e => Some (Raise e, w)
  | Ok obs =>
      match plan (fst w) obs cfg ceiling, agent_calls_spent (journal obs) "" with
      | Raise e, _ | _, Raise e => Some (Raise e, w)
      | Ok (considered, held, fits, later), Ok lifetime =>
          let run := mkRun considered held later [] 0 ceiling lifetime dry_run false (summary obs) in
          if dry_run then
            Some (Ok (mkRun considered held later (List.map (fun a => (a, planned)) fits) 0 ceiling lifetime true false (summary obs)), w)
          else
            let no_model := existsb needs_model fits && negb configured in
            match wake_loop fuel cfg ceiling override configured today mint (mkProgress [] [] 0) w obs with
            | None => None
            | Some (Raise e, w) => Some (Raise e, w)
            | Some (Ok (p, later), w) =>
                Some (Ok (mkRun considered held later (done_so_far p) (spent p) ceiling lifetime false no_model (summary obs)), w)
            end
      end
  end.
End Run.
