(* ===== verification/WakeLaws.v ===== *)
(** * WakeLaws: what a plan holds and what a turn does

    The actions a plan proposes, the part of them a budget admits, the one step of the loop,
    and the invariants the claims about a wake are made of. *)
From Stdlib Require Import ZArith NArith Ascii String Lia ZifyBool ZifyN ZifyNat.
From stdpp Require Import base list numbers strings.
From S2P Require Import Prelude Text Words Json Unicode Decimals Floats Events EventTypes Goals Normalize Render Policy Wake.
#[local] Open Scope list_scope.

(** ** Ordering and splitting *)
Lemma place_In x a l : x ∈ place a l <-> x = a \/ x ∈ l.
Proof.
  induction l as [|b l IH]; cbn [place].
  - by rewrite elem_of_cons.
  - destruct (before b a); rewrite !elem_of_cons; [rewrite IH|]; tauto.
Qed.
Lemma in_order_In x l : x ∈ in_order l <-> x ∈ l.
Proof.
  unfold in_order. induction l as [|a l IH]; [done|]. cbn [fold_right]. rewrite place_In, elem_of_cons, IH. done.
Qed.
Lemma kept_elem {A} (f : A -> bool) x l : x ∈ List.filter f l <-> x ∈ l /\ f x = true.
Proof. rewrite !list_elem_of_In. apply List.filter_In. Qed.

(** What a budget admits: among the actions, and alone within what is left. *)
Lemma budgeted_fits actions : forall sp rem a, Forall (fun a => 0 <= a_estimated_calls a)%Z actions ->
  a ∈ (budgeted sp actions rem).1 -> a ∈ actions /\ (a_kind a = "wait"%string \/ (sp + a_estimated_calls a <= rem)%Z).
Proof.
  induction actions as [|b actions IH]; intros sp rem a Hall; cbn [budgeted]; [by intros ?%elem_of_nil|].
  apply Forall_cons in Hall as [Hb Hall].
  destruct (String.eqb (a_kind b) "wait" || (sp + a_estimated_calls b <=? rem)%Z) eqn:E.
  - destruct (budgeted (sp + a_estimated_calls b) actions rem) as [fits later] eqn:Eb. cbn [fst].
    intros [->|Hin]%elem_of_cons.
    + split; [by left|]. apply orb_true_iff in E as [E%String.eqb_eq|E]; [by left|right; lia].
    + specialize (IH (sp + a_estimated_calls b)%Z rem a Hall). rewrite Eb in IH. destruct (IH Hin) as [H1 H2].
      split; [by right|]. destruct H2 as [H2|H2]; [by left|right; lia].
  - destruct (budgeted sp actions rem) as [fits later] eqn:Eb. cbn [fst]. intros Hin.
    specialize (IH sp rem a Hall). rewrite Eb in IH. destruct (IH Hin) as [H1 H2]. split; [by right|done].
Qed.

Section Laws.
Context `{case_map : CaseMap} {S : Type} `{surroundings : !Surroundings S}.

(** ** What is proposed *)

(** The actions [assess] can propose, with their evidence and their cost. *)
Definition proposal (cfg : Rules) (obs : Observation) (a : Action) : Prop :=
  (exists inst kind c, (inst, kind, c) ∈ pairs obs /\ a_target a = (inst ++ "/" ++ kind)%string
     /\ (a_rule a = "induce_missing"%string \/ a_rule a = "reinduce_drifted"%string)
     /\ (a_kind a = "wait"%string \/ in_words (a_kind a) ["induce"%string; "reinduce"%string] = true
         /\ a_estimated_calls a = (3 * best_of_rule cfg (a_rule a))%Z))
  \/ (a_rule a = "sync_known"%string /\ a_kind a = "sync"%string /\ a_target a = "brands"%string /\ a_estimated_calls a = 0%Z)
  \/ (a_rule a = "enrich_unknown"%string /\ a_kind a = "enrich"%string /\ a_target a = "brands"%string
      /\ a_estimated_calls a = Z.max 1 ((unknown_brands obs + 39) / 40)).
Definition sound (a : Action) : Prop :=
  (0 <= a_estimated_calls a)%Z /\ NoDup (List.map fst (stake_of a)) /\ a_rule a <> ""%string /\ a_target a <> ""%string.

Lemma best_of_pos e : (1 <= best_of e)%Z.
Proof. unfold best_of. lia. Qed.
Lemma slash_nonempty inst kind : (inst ++ "/" ++ kind)%string <> ""%string.
Proof. by destruct inst. Qed.
Lemma stake_keys a : NoDup (List.map fst (a_evidence a)) -> NoDup (List.map fst (stake_of a)).
Proof.
  intros Hn. unfold stake_of.
  assert (Hk : List.map fst (List.map (fun p => (p.1, rounded p.2)) (sort_items (a_evidence a))) ≡ₚ List.map fst (a_evidence a)).
  { rewrite List.map_map. cbn [fst]. by rewrite sort_items_perm. }
  assert (Hd : NoDup (List.map fst (List.map (fun p => (p.1, rounded p.2)) (sort_items (a_evidence a))))) by (by rewrite Hk).
  destruct (String.eqb (machinery_for (a_kind a)) ""); [done|].
  assert (G : forall (l : list (string * json)) k v, NoDup (List.map fst l) -> NoDup (List.map fst (dict_set l k v))
     /\ forall x, x ∈ List.map fst (dict_set l k v) -> x = k \/ x ∈ List.map fst l); [|by apply G].
  clear. induction l as [|[k' v'] l IH]; intros k v Hl.
  - cbn. split; [apply NoDup_singleton|]. intros x ->%list_elem_of_singleton. by left.
  - cbn [dict_set]. destruct (String.eqb_spec k k') as [->|Hne]; cbn [List.map fst] in *.
    + split; [done|]. intros x Hx. by right.
    + apply NoDup_cons in Hl as [Hin Hl]. destruct (IH k v Hl) as [H1 H2]. split.
      * apply NoDup_cons. split; [|done]. intros [->|Hx]%H2; [done|by apply Hin].
      * intros x [->|Hx]%elem_of_cons; [right; by left|]. apply H2 in Hx as [->|Hx]; [by left|right; by right].
Qed.

Ltac evidence := apply (bool_decide_unpack _); vm_compute; exact I.
Lemma assess_pair_proposes cfg obs inst kind c latest l : (inst, kind, c) ∈ pairs obs ->
  assess_pair latest drift cfg (recent obs) inst kind c = Ok l ->
  Forall (fun a => proposal cfg obs a /\ sound a) l.
Proof.
  intros Hin. unfold assess_pair. destruct (is_inducible kind); cbn [negb]; [|intros [= <-]; constructor].
  intros H. apply rbind_ok in H as (current & Hc & H).
  assert (Hpair : forall a, a_target a = (inst ++ "/" ++ kind)%string ->
    (a_rule a = "induce_missing"%string \/ a_rule a = "reinduce_drifted"%string) ->
    (a_kind a = "wait"%string /\ a_estimated_calls a = 0%Z \/ in_words (a_kind a) ["induce"%string; "reinduce"%string] = true
       /\ a_estimated_calls a = (3 * best_of_rule cfg (a_rule a))%Z) ->
    NoDup (List.map fst (a_evidence a)) -> proposal cfg obs a /\ sound a).
  { intros a Ht Hr Hk He. split; [left; exists inst, kind, c; intuition|]. unfold sound.
    split; [|split; [by apply stake_keys|split; [destruct Hr as [-> | ->]; done|rewrite Ht; apply slash_nonempty]]].
    destruct Hk as [[_ ->]|[_ ->]]; [done|]. unfold best_of_rule. pose proof best_of_pos. destruct (String.eqb _ _); [specialize (H0 (induce_best_of (induce_missing cfg))); lia|].
    destruct (String.eqb _ _); [specialize (H0 (drift_best_of (reinduce_drifted cfg))); lia|]. specialize (H0 None). lia. }
  destruct current as [p|].
  - destruct (_ && _); [|injection H as <-; constructor].
    destruct (drift_recent _) as [[[seen n] drop]|]; [|done]. injection H as <-. constructor; [|constructor].
    apply Hpair; cbn; [done|by right|by right|evidence].
  - destruct (_ <=? _)%Z; injection H as <-; (constructor; [|constructor]); apply Hpair; cbn; [done|by left|by right|evidence|done|by left|by left|evidence].
Qed.
Lemma assess_proposes cfg obs latest l :
  assess latest drift (pairs obs) (recent obs) (unknown_brands obs) (known_records_to_sync obs) cfg = Ok l ->
  Forall (fun a => proposal cfg obs a /\ sound a) l.
Proof.
  unfold assess. intros H. apply rbind_ok in H as (out & Hout & H). injection H as <-.
  apply Forall_forall. intros a Ha. rewrite in_order_In in Ha.
  assert (Hpairs : Forall (fun a => proposal cfg obs a /\ sound a) out).
  { assert (G : forall ps acc r, (forall p, p ∈ ps -> p ∈ pairs obs) -> Forall (fun a => proposal cfg obs a /\ sound a) acc ->
      rfold (fun out p => let? l := assess_pair latest drift cfg (recent obs) p.1.1 p.1.2 p.2 in Ok (out ++ l)) ps acc = Ok r ->
      Forall (fun a => proposal cfg obs a /\ sound a) r).
    { induction ps as [|[[i k] c] ps IH]; intros acc r Hps Hacc Hr; cbn [rfold] in Hr; [by injection Hr as <-|].
      apply rbind_ok in Hr as (acc' & Ha' & Hr). apply rbind_ok in Ha' as (l & Hl & E). injection E as <-.
      eapply IH; [|apply Forall_app; split; [exact Hacc|]|exact Hr]; [intros p Hp; apply Hps; by right|].
      eapply assess_pair_proposes; [|exact Hl]. apply Hps. by left. }
    eapply G; [|constructor|exact Hout]. done. }
  rewrite Forall_forall in Hpairs. apply elem_of_app in Ha as [Ha|Ha]; [by apply Hpairs|].
  apply elem_of_app in Ha as [Ha|Ha].
  - destruct (_ <=? _)%Z; [|by apply elem_of_nil in Ha]. apply list_elem_of_singleton in Ha as ->.
    split; [right; left; by cbn|]. split; [done|]. split; [apply stake_keys; cbn; evidence|done].
  - destruct (_ <=? _)%Z; [|by apply elem_of_nil in Ha]. apply list_elem_of_singleton in Ha as ->.
    split; [right; right; cbn; split; [done|]; split; [done|]; split; [done|]; change (CALLS "enrich") with 1%Z; lia|].
    split; [cbn; change (CALLS "enrich") with 1%Z; lia|]. split; [apply stake_keys; cbn; evidence|done].
Qed.

(** ** The plan *)
Lemma cool_live actions entries a : a ∈ (cool actions entries).1 -> a ∈ actions /\ cooled_by entries a = None.
Proof.
  induction actions as [|b actions IH]; cbn [cool]; [by intros ?%elem_of_nil|].
  destruct (cool actions entries) as [live cooled]. cbn [fst] in *. destruct (cooled_by entries b) eqn:E; cbn [fst].
  - intros [H1 H2]%IH. split; [by right|done].
  - intros [->|Hin]%elem_of_cons; [split; [by left|done]|]. destruct (IH Hin). split; [by right|done].
Qed.
Lemma plan_fits s obs cfg left actions cooled fits later : plan s obs cfg left = Ok (actions, cooled, fits, later) ->
  forall a, a ∈ fits -> proposal cfg obs a /\ sound a /\ cooled_by (journal obs) a = None /\ a_kind a <> "wait"%string
    /\ (a_estimated_calls a <= left)%Z.
Proof.
  unfold plan. intros H a Ha. apply rbind_ok in H as (acts & Hacts & H). apply assess_proposes in Hacts.
  destruct (cool acts (journal obs)) as [live held] eqn:Ec.
  set (doable := List.filter _ live) in H. destruct (within_budget doable left) as [fits' later'] eqn:Ew.
  injection H as <- <- <- <-. rewrite Forall_forall in Hacts.
  assert (Hd : forall x, x ∈ doable -> proposal cfg obs x /\ sound x /\ cooled_by (journal obs) x = None /\ a_kind x <> "wait"%string).
  { intros x [Hx Hk]%kept_elem. pose proof (cool_live acts (journal obs) x) as Hl. rewrite Ec in Hl.
    destruct (Hl Hx) as [Hin Hc]. destruct (Hacts x Hin) as [H1 H2]. split; [done|]. split; [done|]. split; [done|].
    intros E. rewrite E in Hk. done. }
  pose proof (budgeted_fits doable 0 left a) as Hb. unfold within_budget in Ew. rewrite Ew in Hb.
  destruct Hb as [Hin Hc]; [|done|].
  { apply Forall_forall. intros x (_ & [Hs _] & _)%Hd. done. }
  destruct (Hd a Hin) as (H1 & H2 & H3 & H4). do 4 (split; [done|]). destruct Hc as [|Hc]; [done|lia].
Qed.

(** ** What performing does *)
Definition quiet (events : list Event) : Prop := Forall (fun e => py_eq_str (event_type e) "AgentActed" = false) events.

(** What the callees keep to: an attempt is at most three rounds of one call, an enrichment
    counts the calls it made, and neither writes the agent's own record.  Nothing bounds an
    enrichment by what was looked at: it asks about every brand the catalog has queued. *)
Class SurroundingsLaws := {
  attempt_calls inst kind c s r calls s' : induce_once inst kind c s = (r, calls, s') -> (0 <= calls <= 3)%Z;
  enrich_calls log s r calls events s' : enrich_merchants log s = (r, calls, events, s') -> (0 <= calls)%Z;
  sync_quiet log s r events s' : sync_records log s = (r, events, s') -> quiet events;
  enrich_quiet log s r calls events s' : enrich_merchants log s = (r, calls, events, s') -> quiet events
}.

Lemma agent_log_app l1 l2 e1 e2 : agent_log l1 = Ok e1 -> agent_log l2 = Ok e2 -> agent_log (l1 ++ l2) = Ok (e1 ++ e2).
Proof.
  unfold agent_log. intros H1 H2. apply rbind_ok in H1 as (a & Ha & E1). apply rbind_ok in H2 as (b & Hb & E2).
  injection E1 as <-. injection E2 as <-. apply rmap_ok in Ha, Hb.
  assert (Hr : rmap agent_entry (l1 ++ l2) = Ok (a ++ b)) by (apply rmap_ok, Forall2_app; done).
  rewrite Hr. cbn [rbind]. by rewrite List.concat_app.
Qed.
Lemma agent_log_quiet l : quiet l -> agent_log l = Ok [].
Proof.
  unfold agent_log, agent_entry. induction 1 as [|e l He Hl IH]; [done|]. cbn [rmap]. rewrite He. cbn [rbind].
  destruct (rmap _ l); [|done]. exact IH.
Qed.

Section Performing.
Context `{laws : SurroundingsLaws}.

Lemma attempts_calls n inst kind c : forall s got errors calls s', attempts_of n inst kind c s = (got, errors, calls, s') ->
  (0 <= calls <= 3 * Z.of_nat n)%Z.
Proof.
  induction n as [|n IH]; intros s got errors calls s'; cbn [attempts_of]; [intros [= <- <- <- <-]; lia|].
  destruct (induce_once inst kind c s) as [[r k] s1] eqn:E1. apply attempt_calls in E1.
  destruct (attempts_of n inst kind c s1) as [[[g er] more] s2] eqn:E2. apply IH in E2.
  destruct r; intros [= <- <- <- <-]; lia.
Qed.
Lemma do_induce_calls a obs tries s o s' : do_induce a obs tries s = (Ok o, s') ->
  (0 <= o_calls o <= 3 * Z.max 1 tries)%Z /\ in_words (o_outcome o) ACT_OUTCOMES = true.
Proof.
  unfold do_induce. destruct (partition "/" (a_target a)) as [[inst b] kind].
  assert (Hz : forall x, (Ok x, s) = (Ok o, s') -> o_calls x = 0%Z -> in_words (o_outcome x) ACT_OUTCOMES = true ->
    (0 <= o_calls o <= 3 * Z.max 1 tries)%Z /\ in_words (o_outcome o) ACT_OUTCOMES = true).
  { intros x [= <- <-] E1 E2. split; [lia|done]. }
  destruct (pair_get (pairs obs) (inst, kind)) as [[|q c]|]; try (intros H; eapply Hz; [exact H|done|done]).
  destruct (_ <? _)%Z; [intros H; eapply Hz; [exact H|done|done]|].
  destruct (extractor _ s); [intros H; eapply Hz; [exact H|done|done]|].
  destruct (attempts_of _ inst kind (q :: c) s) as [[[got errors] calls] s1] eqn:E. apply attempts_calls in E.
  assert (Hc : (0 <= calls <= 3 * Z.max 1 tries)%Z) by lia. clear Hz E.
  destruct got as [|first rest]; [intros [= <- <-]; by split|]. set (r := best_attempt first rest).
  destruct (i_profile r) as [pr|]; [|intros [= <- <-]; by split]. destruct (i_accepted r); [|intros [= <- <-]; by split].
  destruct (latest_for s1 inst kind) as [prior|]; [|done].
  destruct (write_profile inst kind pr (i_coverage r) (q :: c) s1) as [[written|e] s2]; [intros [= <- <-]; by split|].
  destruct (exn_isinstance e ProfileError); [intros [= <- <-]; by split|done].
Qed.
(** One action: what it may cost, what it reports, and that it leaves the journal alone. *)
Lemma perform_costs a obs tries w o w1 seen : observe w = Ok seen ->
  perform a obs tries w = (Ok o, w1) ->
  (0 <= o_calls o)%Z /\ in_words (o_outcome o) ACT_OUTCOMES = true /\ agent_log (snd w1) = agent_log (snd w)
  /\ (in_words (a_kind a) ["induce"; "reinduce"]%string = true -> o_calls o <= 3 * Z.max 1 tries)%Z
  /\ (a_kind a = "sync"%string -> o_calls o = 0)%Z.
Proof.
  intros Hobs. unfold observe in Hobs. apply rbind_ok in Hobs as (lk & Hlk & Hobs).
  apply rbind_ok in Hobs as (entries & He & Hobs). injection Hobs as <-.
  assert (Happ : forall events, quiet events -> agent_log (snd w ++ events) = agent_log (snd w)).
  { intros events Hq. rewrite (agent_log_app _ _ entries []); [by rewrite app_nil_r|done|by apply agent_log_quiet]. }
  unfold perform. destruct (in_words (a_kind a) ["induce"; "reinduce"]%string) eqn:Hk.
  { destruct (do_induce a obs tries (fst w)) as [r s1] eqn:E. intros [= -> <-]. apply do_induce_calls in E as [H1 H2].
    split; [lia|]. split; [done|]. split; [done|]. split; [lia|].
    intros Ea; rewrite Ea in Hk; by vm_compute in Hk. }
  destruct (String.eqb_spec (a_kind a) "sync") as [Es|Es].
  { unfold do_sync. destruct (sync_records (snd w) (fst w)) as [[r events] s1] eqn:E. apply sync_quiet in E.
    intros [= <- <-]. cbn [snd]. rewrite Happ by done. rewrite Es.
    destruct r; cbn; (split; [done|]; split; [done|]; split; [done|]; by split). }
  destruct (String.eqb_spec (a_kind a) "enrich") as [En|En].
  { unfold do_enrich. destruct (extractor _ (fst w)).
    { intros [= <- <-]. cbn. split; [done|]. split; [done|]. split; [done|]. by split. }
    destruct (enrich_merchants (snd w) (fst w)) as [[[r calls] events] s1] eqn:E.
    pose proof (enrich_calls _ _ _ _ _ _ E) as Hc. apply enrich_quiet in E.
    intros [= <- <-]. cbn [snd]. rewrite Happ by done. rewrite En.
    destruct r as [[[n m] sub]|]; [destruct (n =? 0)%Z|]; cbn; (split; [lia|]; split; [done|]; split; [done|]; by split). }
  intros [= <- <-]. cbn. split; [done|]. split; [done|]. split; [done|]. by split.
Qed.

(** The record of an action is written, and is the last attempt of its key. *)
Definition record_of (today fresh : string) (a : Action) (o : Outcome) (e : Event) : Prop :=
  event_type e = JStr "AgentActed" /\ exists entry, agent_entry e = Ok [entry]
  /\ get_or entry "rule" (JStr "") = JStr (a_rule a) /\ get_or entry "target" (JStr "") = JStr (a_target a)
  /\ get_or entry "outcome" JNull = JStr (o_outcome o) /\ get_or entry "calls" (JInt 0) = JInt (o_calls o)
  /\ get_or entry "stake" JNull = JObj (stake_of a).
Lemma acted_records today fresh a o : sound a -> in_words (o_outcome o) ACT_OUTCOMES = true -> (0 <= o_calls o)%Z ->
  exists e, acted today fresh a o = Ok e /\ record_of today fresh a o e.
Proof.
  intros (_ & _ & Hr & Ht) Ho Hc. unfold acted, agent_acted. rewrite Ho. cbn [negb raise_if rbind].
  rewrite (proj2 (String.eqb_neq _ _) Hr), (proj2 (String.eqb_neq _ _) Ht). cbn [orb raise_if rbind].
  replace (o_calls o <? 0)%Z with false by lia. cbn [raise_if rbind]. eexists. split; [done|].
  split; [done|]. eexists. split; [done|]. by repeat split.
Qed.
End Performing.
End Laws.
