(* ===== verification/WakeProperties.v ===== *)
(** * WakeProperties: a wake ends, keeps its ceiling but for enrichment, is billed, and does not repeat a refusal

    The loop's one step, its invariants, and the claims. *)
From Stdlib Require Import ZArith NArith Ascii String Lia ZifyBool ZifyN ZifyNat.
From stdpp Require Import base list numbers strings.
From S2P Require Import Prelude Text Words Json Unicode Decimals Floats Events EventTypes Goals Normalize Render Policy Wake WakeLaws.
#[local] Open Scope list_scope.

Section Loop.
Context `{case_map : CaseMap} {S : Type} {surroundings : Surroundings S} {laws : SurroundingsLaws (S := S)}
  (cfg : Rules) (ceiling : Z) (override : option Z) (configured : bool) (today : string) (mint : list Event -> string).
Definition tries_of (a : Action) : Z := default (best_of_rule cfg (a_rule a)) override.

(** One turn that goes on: an untried action of the plan, what it came to, and its record. *)
Record step (a : Action) (o : Outcome) (entry : list (string * json)) (p : progress) (obs : Observation)
    (p' : progress) (obs' : Observation) : Prop := {
  st_proposal : proposal cfg obs a; st_sound : sound a;
  st_warm : cooled_by (journal obs) a = None; st_doable : a_kind a <> "wait"%string;
  st_fits : (a_estimated_calls a <= ceiling - spent p)%Z;
  st_new : act_key a ∉ attempted p;
  st_calls : (0 <= o_calls o)%Z;
  st_induce : (in_words (a_kind a) ["induce"; "reinduce"]%string = true -> o_calls o <= 3 * Z.max 1 (tries_of a))%Z;
  st_sync : (a_kind a = "sync"%string -> o_calls o = 0)%Z;
  st_attempted : attempted p' = act_key a :: attempted p;
  st_done : done_so_far p' = done_so_far p ++ [(a, o)];
  st_spent : spent p' = (spent p + o_calls o)%Z;
  st_journal : journal obs' = journal obs ++ [entry];
  st_rule : get_or entry "rule" (JStr "") = JStr (a_rule a);
  st_target : get_or entry "target" (JStr "") = JStr (a_target a);
  st_said : get_or entry "outcome" JNull = JStr (o_outcome o);
  st_billed : get_or entry "calls" (JInt 0) = JInt (o_calls o);
  st_stake : get_or entry "stake" JNull = JObj (stake_of a)
}.

Lemma observe_journal (w : world) obs : observe w = Ok obs -> agent_log (snd w) = Ok (journal obs).
Proof.
  unfold observe. intros H. apply rbind_ok in H as (o & _ & H). apply rbind_ok in H as (e & He & H). by injection H as <-.
Qed.
Lemma turn_goes_on p w obs p' w' obs' wx : observe w = Ok obs ->
  wake_turn cfg ceiling override configured today mint p w obs = (Ok (GoesOn p' w' obs'), wx) ->
  observe w' = Ok obs' /\ exists a o entry, step a o entry p obs p' obs'.
Proof.
  intros Hobs. unfold wake_turn. destruct (plan (fst w) obs cfg (ceiling - spent p)) as [[[[acts held] fits] later]|] eqn:Hplan; [|done].
  set (todo := if configured then _ else List.filter (fun a => negb (needs_model a)) _). destruct todo as [|a rest] eqn:Et; [done|].
  assert (Ha : a ∈ List.filter (untried p) fits).
  { assert (Hin : a ∈ todo) by (rewrite Et; by left). unfold todo in Hin. destruct configured; [done|by apply kept_elem in Hin as [? _]]. }
  apply kept_elem in Ha as [Hfit Hnew]. destruct (plan_fits _ _ _ _ _ _ _ _ Hplan a Hfit) as (Hp & Hs & Hw & Hd & He).
  fold (tries_of a). destruct (perform a obs (tries_of a) w) as [[o|] w1] eqn:Hperf; [|done].
  destruct (perform_costs a obs (tries_of a) w o w1 obs Hobs Hperf) as (H0 & Hout & Hlog & Hi & Hsy).
  destruct (acted_records today (mint (snd w1)) a o Hs Hout H0) as (e & -> & Hty & entry & Hentry & R1 & R2 & R3 & R4 & R5).
  destruct (observe (fst w1, snd w1 ++ [e])) as [obs2|] eqn:Hobs2; [|done].
  intros E. injection E as <- <- <- <-. split; [done|]. exists a, o, entry.
  pose proof (observe_journal _ _ Hobs) as J1. pose proof (observe_journal _ _ Hobs2) as J2. cbn [snd] in J2.
  assert (He1 : agent_log [e] = Ok [entry]) by (unfold agent_log; cbn [rmap]; rewrite Hentry; done).
  rewrite <- Hlog in J1. rewrite (agent_log_app _ _ _ _ J1 He1) in J2. injection J2 as J2.
  constructor; try done. unfold untried in Hnew. by apply negb_true_iff, bool_decide_eq_false in Hnew.
Qed.

(** What every step keeps holds of what a finished loop returns. *)
Lemma loop_keeps (I : progress -> Observation -> Prop) :
  (forall a o entry p obs p' obs', I p obs -> step a o entry p obs p' obs' -> I p' obs') ->
  forall fuel p w obs p' later w', observe w = Ok obs -> I p obs ->
  wake_loop fuel cfg ceiling override configured today mint p w obs = Some (Ok (p', later), w') ->
  exists obs', observe w' = Ok obs' /\ I p' obs'.
Proof.
  intros Hstep. induction fuel as [|fuel IH]; intros p w obs p' later w' Hobs HI; cbn [wake_loop]; [done|].
  destruct (wake_turn _ _ _ _ _ _ p w obs) as [[[later1|p1 w1 obs1]|e] wx] eqn:Et; [|..|done].
  - intros [= <- <- <-]. exists obs. split; [|done]. revert Et. unfold wake_turn.
    destruct (plan _ _ _ _) as [[[[? ?] ?] ?]|]; [|done]. set (todo := if configured then _ else List.filter (fun a => negb (needs_model a)) _).
    destruct todo; [by intros [= _ <-]|]. destruct (perform _ _ _ _) as [[?|] ?]; [|done].
    destruct (acted _ _ _ _); [|done]. by destruct (observe (_, _)).
  - intros Hl. destruct (turn_goes_on _ _ _ _ _ _ _ Hobs Et) as (Hobs1 & a & o & entry & Hst).
    eapply IH; [exact Hobs1|by eapply Hstep|exact Hl].
Qed.

(** ** Every action once, and so an end *)
Definition universe (K : list (string * string)) : list (string * string) :=
  [("sync_known", "brands"); ("enrich_unknown", "brands")]%string
  ++ List.flat_map (fun k => [("induce_missing", k.1 ++ "/" ++ k.2); ("reinduce_drifted", k.1 ++ "/" ++ k.2)]%string) K.
Lemma universe_length K : length (universe K) = (2 * length K + 2)%nat.
Proof using Type.
  unfold universe. rewrite length_app. cbn [length].
  assert (E : length (List.flat_map (fun k : string * string => [("induce_missing", k.1 ++ "/" ++ k.2); ("reinduce_drifted", k.1 ++ "/" ++ k.2)]%string) K)
              = (2 * length K)%nat); [|lia].
  induction K as [|k K IH]; [done|]. cbn [List.flat_map]. rewrite length_app, IH. cbn [length]. lia.
Qed.
Lemma proposal_key K obs a : Forall (fun p => p.1 ∈ K) (pairs obs) -> proposal cfg obs a -> act_key a ∈ universe K.
Proof using Type.
  intros HK [(inst & kind & c & Hin & Ht & Hr & _)|[(Hr & _ & Ht & _)|(Hr & _ & Ht & _)]]; unfold act_key, universe; rewrite Ht.
  - rewrite Forall_forall in HK. specialize (HK _ Hin). cbn [fst] in HK. apply elem_of_app. right.
    apply list_elem_of_In, List.in_flat_map. exists (inst, kind). split; [by apply list_elem_of_In|]. cbn [fst snd].
    destruct Hr as [-> | ->]; cbn; auto.
  - rewrite Hr. by left.
  - rewrite Hr. right. by left.
Qed.
Lemma loop_ends K : (forall log s o, look log s = Ok o -> Forall (fun p => p.1 ∈ K) (pairs o)) ->
  forall fuel p w obs, observe w = Ok obs -> NoDup (attempted p) -> attempted p ⊆ universe K ->
  (length (universe K) - length (attempted p) < fuel)%nat ->
  is_Some (wake_loop fuel cfg ceiling override configured today mint p w obs).
Proof.
  intros HK. induction fuel as [|fuel IH]; intros p w obs Hobs Hn Hsub Hf; [lia|]. cbn [wake_loop].
  destruct (wake_turn _ _ _ _ _ _ p w obs) as [[[later1|p1 w1 obs1]|e] wx] eqn:Et; [by eexists| |by eexists].
  destruct (turn_goes_on _ _ _ _ _ _ _ Hobs Et) as (Hobs1 & a & o & entry & Hst).
  assert (Hin : act_key a ∈ universe K).
  { eapply proposal_key; [|exact (st_proposal _ _ _ _ _ _ _ Hst)]. unfold observe in Hobs.
    apply rbind_ok in Hobs as (o' & Hl & Hobs). apply HK in Hl. apply rbind_ok in Hobs as (en & _ & Hobs). by injection Hobs as <-. }
  assert (Hn1 : NoDup (attempted p1)) by (rewrite (st_attempted _ _ _ _ _ _ _ Hst); apply NoDup_cons; split; [exact (st_new _ _ _ _ _ _ _ Hst)|done]).
  assert (Hs1 : attempted p1 ⊆ universe K).
  { rewrite (st_attempted _ _ _ _ _ _ _ Hst). intros x [->|Hx]%elem_of_cons; [done|by apply Hsub]. }
  apply IH; [done|done|done|].
  pose proof (submseteq_length _ _ (NoDup_submseteq _ _ Hn1 Hs1)) as Hle.
  rewrite (st_attempted _ _ _ _ _ _ _ Hst) in *. cbn [length] in *. lia.
Qed.

(** ** A wake that finished *)
Lemma wake_finished fuel w run w' : wake fuel cfg ceiling false override configured today mint w = Some (Ok run, w') ->
  exists obs p later, observe w = Ok obs /\ agent_calls_spent (journal obs) "" = Ok (calls_lifetime run)
  /\ wake_loop fuel cfg ceiling override configured today mint (mkProgress [] [] 0) w obs = Some (Ok (p, later), w')
  /\ performed run = done_so_far p /\ calls_spent run = spent p /\ deferred run = later.
Proof using Type.
  unfold wake. destruct (observe w) as [obs|]; [|done].
  destruct (plan _ _ _ _) as [[[[con held] fits] later0]|]; [|done].
  destruct (agent_calls_spent _ _) as [life|] eqn:El; [|done].
  destruct (wake_loop _ _ _ _ _ _ _ _ _ _) as [[[[p later]|e] w1]|] eqn:E; [|done|done].
  intros [= <- <-]. exists obs, p, later. by repeat split.
Qed.
Lemma finished_keeps (I : progress -> Observation -> Prop) fuel w run w' :
  (forall obs, observe w = Ok obs -> I (mkProgress [] [] 0) obs) ->
  (forall a o entry p obs p' obs', I p obs -> step a o entry p obs p' obs' -> I p' obs') ->
  wake fuel cfg ceiling false override configured today mint w = Some (Ok run, w') ->
  exists p obs', I p obs' /\ observe w' = Ok obs' /\ performed run = done_so_far p /\ calls_spent run = spent p.
Proof.
  intros H0 Hstep Hw. destruct (wake_finished _ _ _ _ Hw) as (obs & p & later & Hobs & _ & Hl & Hp & Hs & _).
  destruct (loop_keeps I Hstep _ _ _ _ _ _ _ Hobs (H0 obs Hobs) Hl) as (obs' & Hobs' & HI). by exists p, obs'.
Qed.

(** ** The ceiling *)
Definition modest : Prop := match override with Some n => forall rule, (n <= best_of_rule cfg rule)%Z | None => True end.
Lemma best_of_rule_pos rule : (1 <= best_of_rule cfg rule)%Z.
Proof using Type. unfold best_of_rule. apply best_of_pos. Qed.
(** What an enrichment spent past its estimate; other actions stay within theirs. *)
Definition past_estimate (x : Action * Outcome) : Z :=
  if String.eqb (a_kind x.1) "enrich" then Z.max 0 (o_calls x.2 - a_estimated_calls x.1) else 0.
Definition overrun (l : list (Action * Outcome)) : Z := fold_right (fun x n => past_estimate x + n)%Z 0%Z l.
Lemma overrun_snoc l x : overrun (l ++ [x]) = (overrun l + past_estimate x)%Z.
Proof using Type. unfold overrun. induction l as [|y l IH]; cbn [app fold_right]; [lia|]. rewrite IH. lia. Qed.
Lemma no_overrun l : Forall (fun x => a_kind x.1 <> "enrich"%string) l -> overrun l = 0%Z.
Proof using Type. induction 1 as [|x l Hx _ IH]; [done|]. cbn [overrun fold_right]. fold (overrun l). rewrite IH. unfold past_estimate. by apply String.eqb_neq in Hx as ->. Qed.
Lemma past_estimate_pos x : (0 <= past_estimate x)%Z.
Proof using Type. unfold past_estimate. destruct (String.eqb _ _); lia. Qed.
Lemma overrun_pos l : (0 <= overrun l)%Z.
Proof using Type. induction l as [|x l IH]; [done|]. cbn [overrun fold_right]. fold (overrun l). pose proof (past_estimate_pos x). lia. Qed.
Lemma step_within a o entry p obs p' obs' : modest -> step a o entry p obs p' obs' -> (o_calls o <= a_estimated_calls a + past_estimate (a, o))%Z.
Proof.
  intros Hm Hst. assert (Htries : (Z.max 1 (tries_of a) <= best_of_rule cfg (a_rule a))%Z).
  { unfold tries_of, modest in *. pose proof (best_of_rule_pos (a_rule a)). destruct override as [n|]; cbn [from_option id default]; [specialize (Hm (a_rule a)); lia|lia]. }
  destruct (st_proposal _ _ _ _ _ _ _ Hst) as [(inst & kind & c & _ & _ & _ & [Hk|[Hk He]])|[(_ & Hk & _ & He)|(_ & Hk & _ & He)]].
  - by destruct (st_doable _ _ _ _ _ _ _ Hst).
  - rewrite He. pose proof (st_induce _ _ _ _ _ _ _ Hst Hk). pose proof (past_estimate_pos (a, o)). lia.
  - rewrite He, (st_sync _ _ _ _ _ _ _ Hst Hk). pose proof (past_estimate_pos (a, o)). lia.
  - unfold past_estimate. cbn [fst snd]. rewrite Hk. cbn [String.eqb Ascii.eqb Bool.eqb]. lia.
Qed.
Definition bill (l : list (Action * Outcome)) : Z := fold_right (fun p n => o_calls p.2 + n)%Z 0%Z l.
Lemma bill_app l1 l2 : bill (l1 ++ l2) = (bill l1 + bill l2)%Z.
Proof using Type. unfold bill. induction l1 as [|x l1 IH]; [done|]. cbn [app fold_right]. rewrite IH. lia. Qed.

(** ** The journal *)
Lemma spent_snoc entries e z n : agent_calls_spent entries "" = Ok z -> get_or e "calls" (JInt 0) = JInt n ->
  agent_calls_spent (entries ++ [e]) "" = Ok (z + n)%Z.
Proof using Type.
  unfold agent_calls_spent. intros H He. rewrite rfold_app, H. cbn [rbind rfold on_or_after String.eqb orb].
  unfold calls_in. by rewrite He.
Qed.
Lemma attempts_snoc entries e k : agent_attempts (entries ++ [e]) k =
  if py_eq_str (get_or e "rule" (JStr "")) k.1 && py_eq_str (get_or e "target" (JStr "")) k.2 then Some e else agent_attempts entries k.
Proof using Type. unfold agent_attempts. rewrite List.rev_unit. done. Qed.

(** A stake equals itself. *)
Lemma same_value_refl v : same_value v v = true.
Proof using Type.
  unfold same_value. assert (Hf : forall t d, float_token t = Ok d -> exists s c e, d = Fin s c e \/ d = Inf s).
  { intros t d. unfold float_token. destruct (read_sign (enc t)) as [neg l]. destruct (read_finite neg l) as [[s c e| |]|]; try done.
    intros [= <-]. unfold float_of. destruct (c =? 0)%N; [by do 3 eexists; left|].
    destruct (if (0 <=? e)%Z then _ else _) as [num den]. destruct (nearest_binary num den) as [m k].
    destruct (m =? 0)%N; [by do 3 eexists; left|]. destruct (1024 <? _)%Z; [by exists s, 0%N, 0%Z; right|].
    destruct (lowest_terms _ _ _) as [m' k']. destruct (0 <=? k')%Z; by do 3 eexists; left. }
  assert (Hd : forall d, (exists s c e, d = Fin s c e \/ d = Inf s) -> match deq d d with Ok r => r | Raise _ => false end = true).
  { intros d (s & c & e & [-> | ->]); unfold deq; cbn; [|by destruct s]. unfold cmp_fin. by rewrite Z.compare_refl. }
  destruct v; cbn [number_value]; try (by apply bool_decide_true); try (apply Hd; unfold Decimal_of_Z; by do 3 eexists; left).
  destruct (float_token text) as [d|] eqn:E; [apply Hd; by eapply Hf|by apply bool_decide_true].
Qed.
Lemma same_stake_refl l : NoDup (List.map fst l) -> same_stake l l = true.
Proof using Type.
  intros Hn. unfold same_stake. rewrite Nat.eqb_refl. cbn [andb]. apply forallb_forall. intros [k v] Hin%list_elem_of_In.
  assert (E : dict_get l k = Some v); [|cbn [fst snd]; rewrite E; apply same_value_refl].
  induction l as [|[k' v'] l IH]; [by apply elem_of_nil in Hin|]. cbn [List.map fst] in Hn. apply NoDup_cons in Hn as [Hk Hn].
  cbn [dict_get]. apply elem_of_cons in Hin as [E|Hin].
  - injection E as -> ->. by rewrite String.eqb_refl.
  - destruct (String.eqb_spec k k') as [->|]; [|by apply IH]. exfalso. apply Hk.
    apply list_elem_of_In, (List.in_map fst l (k', v)), list_elem_of_In, Hin.
Qed.
Lemma py_eq_itself s : py_eq_str (JStr s) s = true.
Proof using Type. apply String.eqb_refl. Qed.

(** What each performed action left in the journal. *)
Definition remembered (p : progress) (obs : Observation) : Prop :=
  Forall (fun ao => act_key ao.1 ∈ attempted p /\ NoDup (List.map fst (stake_of ao.1)) /\
    exists last, agent_attempts (journal obs) (act_key ao.1) = Some last
    /\ get_or last "outcome" JNull = JStr (o_outcome ao.2) /\ get_or last "stake" JNull = JObj (stake_of ao.1)) (done_so_far p).
Lemma step_remembers a o entry p obs p' obs' : remembered p obs -> step a o entry p obs p' obs' -> remembered p' obs'.
Proof.
  intros HI Hst. unfold remembered in *. rewrite (st_done _ _ _ _ _ _ _ Hst), (st_attempted _ _ _ _ _ _ _ Hst), (st_journal _ _ _ _ _ _ _ Hst).
  apply Forall_app. split.
  - eapply Forall_impl; [exact HI|]. intros [b ob] (Hin & Hnd & last & Hl & H1 & H2). cbn [fst snd] in *.
    split; [by right|]. split; [done|]. exists last. rewrite attempts_snoc, (st_rule _ _ _ _ _ _ _ Hst), (st_target _ _ _ _ _ _ _ Hst).
    destruct (py_eq_str (JStr (a_rule a)) (act_key b).1 && py_eq_str (JStr (a_target a)) (act_key b).2) eqn:E; [|done].
    apply andb_true_iff in E as [E1%String.eqb_eq E2%String.eqb_eq]. destruct (st_new _ _ _ _ _ _ _ Hst).
    replace (act_key a) with (act_key b); [done|]. unfold act_key in *. cbn [fst snd] in *. by rewrite E1, E2.
  - constructor; [|constructor]. cbn [fst snd]. split; [by left|]. split; [apply (st_sound _ _ _ _ _ _ _ Hst)|]. exists entry.
    rewrite attempts_snoc, (st_rule _ _ _ _ _ _ _ Hst), (st_target _ _ _ _ _ _ _ Hst). unfold act_key. cbn [fst snd].
    rewrite !py_eq_itself. split; [done|]. split; [exact (st_said _ _ _ _ _ _ _ Hst)|exact (st_stake _ _ _ _ _ _ _ Hst)].
Qed.
End Loop.

(** ** A small world for the witnesses: one pair of one line, no grammar, an inducer that
    fails after two calls, one unknown brand nobody identifies. *)
#[local] Instance toy_case : CaseMap := ascii_case.
#[local] Instance toy : Surroundings unit := {|
  look _ _ := Ok (mkObservation [("Northgate", "depository", [("CARD 1", 2%Z)])]%string [] 1 0 2 1 0 []);
  latest_for _ _ _ := Ok None; drift _ _ _ := mkDrift None;
  machinery_version := "m1"; ENRICHMENT_VERSION := "e1";
  is_never_templatable _ := false; MIN_LINES_TO_INDUCE := 1; extractor _ _ := None;
  induce_once _ _ _ s := (Raise OSError, 2%Z, s);
  write_profile _ _ p _ _ s := (Ok p, s);
  sync_records _ s := (Ok 0%Z, [], s);
  enrich_merchants _ s := (Ok (0, 0, 1)%Z, 1%Z, [], s);
  say _ := ""%string
|}.
#[local] Instance toy_laws : SurroundingsLaws (S := unit).
Proof.
  constructor.
  - intros inst kind c s r calls s' [= _ <- _]. lia.
  - intros log s r calls events s' [= _ <- _ _]. lia.
  - intros log s r events s' [= _ <- _]. constructor.
  - intros log s r calls events s' [= _ _ <- _]. constructor.
Qed.
Definition toy_rules : Rules := config (mkOverrides (Some (mkInduceRule 1 (Some 3%Z) "enough")) None None None).
Definition toy_mint (log : list Event) : string := "e"%string.
Definition toy_wake (ceiling : Z) (override : option Z) :=
  wake (S := unit) 5 toy_rules ceiling false override true "2026-01-02" toy_mint (tt, []).
Definition toy_spent (ceiling : Z) (override : option Z) : option (list (string * string * Z) * Z) :=
  match toy_wake ceiling override with
  | Some (Ok run, _) => Some (List.map (fun p => (act_key p.1, o_calls p.2)) (performed run), calls_spent run)
  | _ => None
  end.
Example toy_does_both : toy_spent 60 None = Some ([("induce_missing", "Northgate/depository", 6); ("enrich_unknown", "brands", 1)]%string%Z, 7%Z).
Proof. by vm_compute. Qed.

(** ** The claims *)

(** C30: a wake ends.  Where the accounts a vault can show are of finitely many institutions
    and kinds, a bounded number of turns finishes the loop, whatever the model, the store and
    the catalog answer, and no rule is tried on a target twice. *)
Theorem wake_ends `{case_map : CaseMap} {S : Type} {surroundings : Surroundings S} {laws : SurroundingsLaws (S := S)}
    K fuel cfg ceiling dry override configured today mint w :
  (forall log s o, look log s = Ok o -> Forall (fun p => p.1 ∈ K) (pairs o)) -> (2 * length K + 2 < fuel)%nat ->
  exists r w', wake fuel cfg ceiling dry override configured today mint w = Some (r, w')
  /\ forall run, r = Ok run -> dry = false -> NoDup (List.map (fun p => act_key p.1) (performed run)).
Proof.
  intros HK Hf. destruct dry.
  { unfold wake. destruct (observe w) as [obs|]; [|by do 2 eexists]. destruct (plan _ _ _ _) as [[[[? ?] ?] ?]|]; [|by do 2 eexists].
    destruct (agent_calls_spent _ _); by do 2 eexists. }
  assert (Hsome : is_Some (wake fuel cfg ceiling false override configured today mint w)).
  { unfold wake. destruct (observe w) as [obs|] eqn:Hobs; [|done]. destruct (plan _ _ _ _) as [[[[con held] fits] later0]|]; [|done].
    destruct (agent_calls_spent _ _); [|done].
    destruct (loop_ends cfg ceiling override configured today mint K HK fuel (mkProgress [] [] 0) w obs Hobs) as [[[[p later]|e] w1] ->];
      [apply NoDup_nil_2|by intros x ?%elem_of_nil|rewrite universe_length; cbn [length attempted]; lia|done|done]. }
  destruct Hsome as [[r w'] Hw]. exists r, w'. split; [done|]. intros run -> _.
  destruct (finished_keeps cfg ceiling override configured today mint
    (fun p _ => attempted p = List.rev (List.map (fun ao => act_key ao.1) (done_so_far p)) /\ NoDup (attempted p)) fuel w run w') as (p & obs' & [E Hn] & _ & -> & _).
  - intros obs _. split; [done|apply NoDup_nil_2].
  - intros a o entry p obs p' obs' [E Hn] Hst. rewrite (st_attempted _ _ _ _ _ _ _ _ _ _ Hst), (st_done _ _ _ _ _ _ _ _ _ _ Hst).
    rewrite List.map_app, List.rev_app_distr. cbn. rewrite E. split; [done|]. rewrite <- E. apply NoDup_cons.
    split; [exact (st_new _ _ _ _ _ _ _ _ _ _ Hst)|done].
  - exact Hw.
  - rewrite E in Hn. rewrite <- (List.rev_involutive (List.map _ _)). apply NoDup_ListNoDup, List.NoDup_rev, NoDup_ListNoDup, Hn.
Qed.
Lemma wake_ends_witness : exists r w', toy_wake 60 None = Some (r, w')
  /\ forall run, r = Ok run -> false = false -> NoDup (List.map (fun p => act_key p.1) (performed run)).
Proof.
  apply (wake_ends [("Northgate", "depository")]%string 5 toy_rules 60 false None true "2026-01-02" toy_mint (tt, [])); [|cbn; lia].
  intros log s o [= <-]. constructor; [|constructor]. by left.
Defined.

(** C29: a wake passes its ceiling only by what an enrichment spent past its estimate.  The
    calls it spent are those its actions made, counted by their meters; with no more attempts
    than the rules allow, they are at most what it was allowed and what its enrichments
    spent past their estimates, so a wake that enriches nothing keeps its ceiling.  Nothing
    is assumed of how many calls an enrichment makes. *)
Theorem wake_keeps_its_ceiling `{case_map : CaseMap} {S : Type} {surroundings : Surroundings S} {laws : SurroundingsLaws (S := S)}
    fuel cfg ceiling override configured today mint w run w' :
  match override with Some n => forall rule, (n <= best_of_rule cfg rule)%Z | None => True end ->
  wake fuel cfg ceiling false override configured today mint w = Some (Ok run, w') ->
  (0 <= calls_spent run <= Z.max 0 ceiling + overrun (performed run))%Z /\ calls_spent run = bill (performed run)
  /\ (Forall (fun x => a_kind x.1 <> "enrich"%string) (performed run) -> (calls_spent run <= Z.max 0 ceiling)%Z).
Proof.
  intros Hm Hw. destruct (finished_keeps cfg ceiling override configured today mint
    (fun p _ => (0 <= spent p <= Z.max 0 ceiling + overrun (done_so_far p))%Z /\ spent p = bill (done_so_far p)) fuel w run w')
    as (p & obs' & HI & _ & -> & ->); [..|exact Hw|].
  - intros obs _. split; [cbn; lia|done].
  - intros a o entry p obs p' obs' [H1 H2] Hst. pose proof (step_within _ _ _ _ _ _ _ _ _ _ Hm Hst) as Hin.
    pose proof (st_fits _ _ _ _ _ _ _ _ _ _ Hst). pose proof (st_calls _ _ _ _ _ _ _ _ _ _ Hst).
    pose proof (overrun_pos (done_so_far p)).
    rewrite (st_spent _ _ _ _ _ _ _ _ _ _ Hst), (st_done _ _ _ _ _ _ _ _ _ _ Hst), bill_app, overrun_snoc. cbn [bill fold_right fst snd]. lia.
  - destruct HI as [HI HB]. split; [done|]. split; [done|]. intros HF. rewrite (no_overrun _ HF) in HI. lia.
Qed.
Lemma wake_keeps_its_ceiling_witness : exists run w', toy_wake 60 None = Some (Ok run, w')
  /\ (0 <= calls_spent run <= Z.max 0 60 + overrun (performed run))%Z /\ calls_spent run = bill (performed run)
  /\ (Forall (fun x => a_kind x.1 <> "enrich"%string) (performed run) -> (calls_spent run <= Z.max 0 60)%Z).
Proof.
  destruct (toy_wake 60 None) as [[[run|e] w']|] eqn:E; [|by vm_compute in E..]. exists run, w'. split; [done|].
  exact (wake_keeps_its_ceiling 5 toy_rules 60 None true "2026-01-02" toy_mint (tt, []) run w' I E).
Defined.

(** a wake is billed for what it spent.  The journal after it holds the journal before,
    with what it performed after it, and the lifetime figure read off the journal has grown
    by exactly the calls of this wake. *)
Theorem wake_is_billed `{case_map : CaseMap} {S : Type} {surroundings : Surroundings S} {laws : SurroundingsLaws (S := S)}
    fuel cfg ceiling override configured today mint w run w' entries :
  wake fuel cfg ceiling false override configured today mint w = Some (Ok run, w') -> agent_log (snd w) = Ok entries ->
  exists added, agent_log (snd w') = Ok (entries ++ added)
  /\ List.map (fun e => (get_or e "rule" (JStr ""), get_or e "target" (JStr ""), get_or e "outcome" JNull)) added
     = List.map (fun p => (JStr (a_rule p.1), JStr (a_target p.1), JStr (o_outcome p.2))) (performed run)
  /\ agent_calls_spent (entries ++ added) "" = Ok (calls_lifetime run + calls_spent run)%Z.
Proof.
  intros Hw He. destruct (wake_finished _ _ _ _ _ _ _ _ _ _ Hw) as (obs0 & p0 & later & Hobs0 & Hlife & _).
  rewrite (observe_journal _ _ Hobs0) in He. injection He as He. rewrite He in Hlife.
  destruct (finished_keeps cfg ceiling override configured today mint
    (fun p obs => exists added, journal obs = entries ++ added
      /\ List.map (fun e => (get_or e "rule" (JStr ""), get_or e "target" (JStr ""), get_or e "outcome" JNull)) added
         = List.map (fun p => (JStr (a_rule p.1), JStr (a_target p.1), JStr (o_outcome p.2))) (done_so_far p)
      /\ agent_calls_spent (entries ++ added) "" = Ok (calls_lifetime run + spent p)%Z) fuel w run w') as (p & obs' & HI & Hobs' & -> & ->).
  - intros obs Hobs. exists []. rewrite app_nil_r. rewrite Hobs0 in Hobs. injection Hobs as <-. split; [done|]. split; [done|].
    rewrite Hlife. cbn [spent]. f_equal. lia.
  - intros a o entry p obs p' obs' (added & HJ & Hm & Hb) Hst. exists (added ++ [entry]).
    rewrite (st_journal _ _ _ _ _ _ _ _ _ _ Hst), HJ, <- app_assoc. split; [done|]. split.
    + rewrite (st_done _ _ _ _ _ _ _ _ _ _ Hst), !List.map_app, Hm. cbn [List.map fst snd].
      by rewrite (st_rule _ _ _ _ _ _ _ _ _ _ Hst), (st_target _ _ _ _ _ _ _ _ _ _ Hst), (st_said _ _ _ _ _ _ _ _ _ _ Hst).
    + rewrite app_assoc, (spent_snoc _ _ _ _ Hb (st_billed _ _ _ _ _ _ _ _ _ _ Hst)), (st_spent _ _ _ _ _ _ _ _ _ _ Hst).
      f_equal. lia.
  - exact Hw.
  - destruct HI as (added & HJ & HI). exists added. rewrite (observe_journal _ _ Hobs'), HJ. by split.
Qed.
Lemma wake_is_billed_witness : exists run w' added, toy_wake 60 None = Some (Ok run, w')
  /\ agent_log (snd w') = Ok ([] ++ added)
  /\ List.map (fun e => (get_or e "rule" (JStr ""), get_or e "target" (JStr ""), get_or e "outcome" JNull)) added
     = List.map (fun p => (JStr (a_rule p.1), JStr (a_target p.1), JStr (o_outcome p.2))) (performed run)
  /\ agent_calls_spent ([] ++ added) "" = Ok (calls_lifetime run + calls_spent run)%Z.
Proof.
  destruct (toy_wake 60 None) as [[[run|e] w']|] eqn:E; [|by vm_compute in E..].
  destruct (wake_is_billed 5 toy_rules 60 None true "2026-01-02" toy_mint (tt, []) run w' [] E eq_refl) as (added & H).
  by exists run, w', added.
Defined.

(** C28: a refusal is not bought twice.  After a wake, whatever it tried that did not come out
    done is held back by every plan made over the journal it left, under any rules and any
    ceiling, for as long as the action is proposed on the same evidence. *)
Theorem refusals_are_not_retried `{case_map : CaseMap} {S : Type} {surroundings : Surroundings S} {laws : SurroundingsLaws (S := S)}
    fuel cfg ceiling override configured today mint w run w' a o :
  wake fuel cfg ceiling false override configured today mint w = Some (Ok run, w') ->
  (a, o) ∈ performed run -> o_outcome o <> "done"%string ->
  forall s obs cfg' left considered held fits later again,
    agent_log (snd w') = Ok (journal obs) -> plan s obs cfg' left = Ok (considered, held, fits, later) ->
    again ∈ fits -> act_key again = act_key a -> a_kind again = a_kind a -> a_evidence again <> a_evidence a.
Proof.
  intros Hw Hin Hne s obs cfg' left considered held fits later again Hlog Hplan Hfit Hkey Hkind Hev.
  destruct (finished_keeps cfg ceiling override configured today mint remembered fuel w run w') as (p & obs' & HI & Hobs' & E & _);
    [intros ? _; constructor|intros; by eapply step_remembers|exact Hw|].
  rewrite E in Hin. unfold remembered in HI. rewrite Forall_forall in HI. destruct (HI _ Hin) as (_ & Hnd & last & Hl & Ho & Hs).
  cbn [fst snd] in *. rewrite (observe_journal _ _ Hobs') in Hlog. injection Hlog as Hlog. rewrite Hlog in Hl.
  destruct (plan_fits _ _ _ _ _ _ _ _ Hplan again Hfit) as (_ & _ & Hwarm & _).
  unfold cooled_by in Hwarm. rewrite Hkey, Hl, Ho, Hs in Hwarm.
  assert (Hst : stake_of again = stake_of a) by (unfold stake_of; by rewrite Hkind, Hev).
  rewrite Hst, same_stake_refl in Hwarm by done. cbn [py_eq_str] in Hwarm.
  by rewrite (proj2 (String.eqb_neq _ _) Hne) in Hwarm.
Qed.
Lemma refusals_are_not_retried_witness : exists run w' a o, toy_wake 60 None = Some (Ok run, w')
  /\ (a, o) ∈ performed run /\ act_key a = ("induce_missing", "Northgate/depository")%string
  /\ forall s obs cfg' left considered held fits later again,
    agent_log (snd w') = Ok (journal obs) -> plan (S := unit) s obs cfg' left = Ok (considered, held, fits, later) ->
    again ∈ fits -> act_key again = act_key a -> a_kind again = a_kind a -> a_evidence again <> a_evidence a.
Proof.
  destruct (toy_wake 60 None) as [[[run|e] w']|] eqn:E; [|by vm_compute in E..].
  assert (Hp : exists a o rest, performed run = (a, o) :: rest /\ act_key a = ("induce_missing", "Northgate/depository")%string /\ o_outcome o = "failed"%string).
  { vm_compute in E. injection E as <- _. do 3 eexists. split; [reflexivity|]. by split. }
  destruct Hp as (a & o & rest & Hp & Hk & Ho). assert (Hin : (a, o) ∈ performed run) by (rewrite Hp; by left).
  exists run, w', a, o. split; [done|]. split; [done|]. split; [done|].
  apply (refusals_are_not_retried 5 toy_rules 60 None true "2026-01-02" toy_mint (tt, []) run w' a o E Hin). by rewrite Ho.
Defined.

(** ** Observed *)

(** An action no agent may take alone is taken: the wake never asks [autonomous]. *)
Lemma enrichment_runs_unattended : exists run w' a o, toy_wake 60 None = Some (Ok run, w')
  /\ (a, o) ∈ performed run /\ autonomous a = false /\ o_calls o = 1%Z.
Proof.
  destruct (toy_wake 60 None) as [[[run|e] w']|] eqn:E; [|by vm_compute in E..]. vm_compute in E. injection E as <- _.
  do 4 eexists. split; [reflexivity|]. split; [right; left|]. by split.
Qed.
(** With more attempts than the rules', the estimate does not know of them, and the ceiling
    is passed. *)
Lemma override_passes_the_ceiling : toy_spent 9 (Some 5%Z) = Some ([("induce_missing", "Northgate/depository", 10)]%string%Z, 10%Z).
Proof. by vm_compute. Qed.
(** Brands an earlier call queued and failed to ask about are asked about again, and the
    estimate counts only those not queued yet: one new brand over a queue of three hundred
    is estimated at a call and costs eight. *)
Definition queued_toy : Surroundings unit := {|
  look := look; latest_for := latest_for; drift := drift; machinery_version := machinery_version; ENRICHMENT_VERSION := ENRICHMENT_VERSION;
  is_never_templatable := is_never_templatable; MIN_LINES_TO_INDUCE := MIN_LINES_TO_INDUCE; extractor := extractor; induce_once := induce_once;
  write_profile := write_profile; sync_records := sync_records; enrich_merchants _ s := (Ok (0, 0, 1)%Z, 8%Z, [], s); say := say
|}.
Lemma queued_brands_pass_the_ceiling :
  match wake (S := unit) (surroundings := queued_toy) 5 toy_rules 7 false None true "2026-01-02" toy_mint (tt, []) with
  | Some (Ok run, _) => calls_spent run = 8%Z /\ overrun (performed run) = 7%Z
  | _ => False
  end.
Proof. vm_compute. by split. Qed.
