(* ===== verification/Identity.v ===== *)
(** * Identity: product/viva/ledger/identity.py

    Account numbers and what may be shown of them, the keys accounts are opened under, and
    the tokens that tell one account from another.  Text is read by code points where the
    code's patterns do; a set of tokens is its sorted list. *)
From Stdlib Require Import ZArith NArith Ascii String Lia ZifyBool ZifyN ZifyNat.
From stdpp Require Import base list numbers strings.
From S2P Require Import Prelude Text Words Json Unicode Dates Decimals Schedule Normalize Render Policy Grammars.
#[local] Open Scope string_scope.

Definition points (s : string) : list N := uchars (enc s).
Definition of_points (l : list N) : string := dec (of_uchars l).
Definition bullets : list N := [8226; 8226; 8226; 8226]%N.
(** [l[-4:]]. *)
Definition last_four {A} (l : list A) : list A := drop (List.length l - 4) l.

(** ** Numbers *)
Definition normalize_number (account_number : string) : list N := List.filter is_decimal (points account_number).
Definition usable_full_number (account_number : string) : list N :=
  let printed := points (strip account_number) in
  let digits := List.filter is_decimal printed in
  if (4 <? List.length digits)%nat && negb (bool_decide (printed = []))
     && forallb (fun c => is_decimal c || space_point c || (c =? 45)%N) printed
  then digits else [].
Definition number_key (account_number : string) : list N :=
  let digits := normalize_number account_number in
  if (4 <=? List.length digits)%nat then last_four digits else [].

(** *** A last-four printed in a reference *)

(** What the pattern's letters match without regard to case. *)
Definition fold_letter (c : N) : N :=
  if ((65 <=? c) && (c <=? 90))%N then (c + 32)%N
  else if (c =? 383)%N then 115%N else if (c =? 304)%N || (c =? 305)%N then 105%N else c.
Fixpoint after_word (w l : list N) : option (list N) :=
  match w, l with
  | [], _ => Some l
  | a :: w', b :: l' => if (a =? fold_letter b)%N then after_word w' l' else None
  | _ :: _, [] => None
  end.
Definition word_points (s : string) : list N := points s.
(** After [\s+], or after [\s*]: every rest the pattern may go on from. *)
Fixpoint after_spaces (l : list N) : list (list N) :=
  l :: match l with c :: r => if space_point c then after_spaces r else [] | [] => [] end.
Definition some_of {A} (o : option A) : list A := match o with Some a => [a] | None => [] end.
Definition then_in (l : list N) : list (list N) :=
  l :: match l with
       | c :: r => if space_point c then List.flat_map (fun x => some_of (after_word (word_points "in") x)) (after_spaces r) else []
       | [] => []
       end.
(** [c{2,}]. *)
Fixpoint repeated (c : N) (l : list N) : list (list N) :=
  match l with
  | b :: r => if (c =? fold_letter b)%N then r :: repeated c r else []
  | [] => []
  end.
Definition twice (c : N) (l : list N) : list (list N) := tail (repeated c l).
Definition after_marker (l : list N) : list (list N) :=
  List.flat_map then_in (some_of (after_word (word_points "ending") l))
  ++ List.flat_map then_in (some_of (after_word (word_points "ends") l) ++ some_of (after_word (word_points "end") l))
  ++ List.flat_map (fun r => List.flat_map (fun x => some_of (after_word (word_points "4") x)) (after_spaces r))
       (some_of (after_word (word_points "last") l))
  ++ twice 120 l ++ twice 42 l ++ twice 8226 l ++ twice 46 l.
Section Reference.
Context `{word_table : WordTable}.
(** [\D{0,12}(\d{4})\b]. *)
Definition four_after (l : list N) : option (list N) :=
  let '(gap, r) := take_while (fun c => negb (is_decimal c)) l in
  let four := take 4 r in
  if (List.length gap <=? 12)%nat && (List.length four =? 4)%nat && forallb is_decimal four
     && match drop 4 r with c :: _ => negb (word_char c) | [] => true end
  then Some four else None.
Fixpoint first_some {A B} (f : A -> option B) (l : list A) : option B :=
  match l with
  | [] => None
  | a :: l' => match f a with Some b => Some b | None => first_some f l' end
  end.
Fixpoint search_reference (l : list N) : option (list N) :=
  match first_some four_after (after_marker l), l with
  | Some four, _ => Some four
  | None, _ :: r => search_reference r
  | None, [] => None
  end.
Definition reference_number_key (account_ref : string) : list N := default [] (search_reference (points account_ref)).
Definition identity_number_key (account_number account_ref : string) : list N :=
  match number_key account_number with [] => reference_number_key account_ref | key => key end.
Definition conflicting_number_signals (account_number account_ref : string) : bool :=
  let direct := number_key account_number in
  let printed := reference_number_key account_ref in
  negb (bool_decide (direct = [])) && negb (bool_decide (printed = [])) && negb (bool_decide (direct = printed)).

(** *** A reference a page of a statement makes *)

(** The fields hold whatever the caller put there.  [printed.casefold() != "unknown"]: what
    folds to the letters of the word is those letters, their capitals, and the Kelvin sign. *)
Record SourceAccountIdentity := mk_source_identity
  { sai_reference : json; sai_doc_id : json; sai_page : json; sai_page_count : json }.
Definition casefold_point (c : N) : N :=
  if ((65 <=? c) && (c <=? 90))%N then (c + 32)%N else if (c =? 8490)%N then 107%N else c.
Definition unnamed (reference : string) : bool :=
  bool_decide (List.map casefold_point (points (strip reference)) = word_points "unknown").
Definition pages_in (page count : json) : bool :=
  match page, count with
  | JInt p, JInt n => (1 <=? p)%Z && (p <=? n)%Z && (n <=? 200)%Z
  | _, _ => false
  end.
Definition eligible (x : SourceAccountIdentity) : bool :=
  match sai_reference x with
  | JStr reference =>
      negb (blank reference) && negb (unnamed reference)
      && match sai_doc_id x with JStr d => negb (String.eqb d "") | _ => false end
      && pages_in (sai_page x) (sai_page_count x)
      && bool_decide (identity_number_key reference reference = [])
  | _ => false
  end.
End Reference.

(** ** What may be shown *)
Definition masked (account_number : string) : string :=
  match number_key account_number with [] => "" | key => of_points (bullets ++ key)%list end.

(** [_ACCOUNT_LABEL_NUMBER]: from a digit, digits and separators as far as they go, back to
    the last digit. *)
Definition number_like (c : N) : bool :=
  is_decimal c || space_point c || (c =? 46)%N || (c =? 47)%N || (c =? 58)%N || (c =? 45)%N.
Definition to_last_digit (l : list N) : list N * list N :=
  let '(tail, body) := take_while (fun c => negb (is_decimal c)) (List.rev l) in (List.rev body, List.rev tail).
Definition safe (run : list N) : list N :=
  let digits := List.filter is_decimal run in
  if (List.length digits <=? 4)%nat then run else (bullets ++ last_four digits)%list.
Fixpoint masked_points (fuel : nat) (l : list N) : list N :=
  match fuel with
  | O => l
  | S f =>
      match l with
      | [] => []
      | c :: r =>
          if is_decimal c then
            let '(run, rest) := take_while number_like l in
            let '(number, gap) := to_last_digit run in
            (safe number ++ gap ++ masked_points f rest)%list
          else c :: masked_points f r
      end
  end.
Definition masked_label (text : string) : string := of_points (masked_points (List.length (points text)) (points text)).

(** ** Keys *)
Section Keys.
Context `{case_map : CaseMap}.
Definition key_slug (text : string) : string := dec (strip_hyphens (hyphened false (enc (str_lower (strip text))))).
Definition canonical_institution (institution : string) : string := key_slug institution.
(** [re.split(r"[^a-z0-9]+", value)], the empty parts left out. *)
Definition alnum_words (value : string) : list string :=
  List.filter (fun w => negb (String.eqb w ""))
    (split "-" (dec (hyphened false (enc value)))).
Definition INSTITUTION_LEGAL_WORDS : list string :=
  ["the"; "bank"; "national"; "association"; "na"; "n"; "a"; "inc"; "incorporated"; "corp"; "corporation"; "company"; "co"; "llc"].
Definition institution_tokens (value : string) : list string :=
  List.filter (fun t => negb (in_words t INSTITUTION_LEGAL_WORDS)) (alnum_words (str_lower value)).
Definition within (a b : list string) : bool := forallb (fun t => in_words t b) a.
Definition institution_names_overlap (a b : string) : bool :=
  let left := institution_tokens a in
  let right := institution_tokens b in
  negb (bool_decide (left = [])) && negb (bool_decide (right = [])) && (within left right || within right left).
Definition account_labels_overlap (a b : string) : bool :=
  let tokens v := List.filter (fun t => negb (in_words t ["account"; "statement"; "of"; "the"])) (alnum_words (str_lower v)) in
  existsb (fun t => in_words t (tokens b)) (tokens a).

Context `{word_table : WordTable}.
Definition account_key (institution account_number account_ref : string) : string :=
  match identity_number_key account_number account_ref with
  | [] => "acct:" ++ (let s := key_slug account_ref in if String.eqb s "" then "unknown" else s)
  | key =>
      let inst := canonical_institution institution in
      "acct:" ++ (if String.eqb inst "" then "" else inst ++ ":") ++ of_points key
  end.
Definition preferred_account_key (institution account_number account_ref : string) : string :=
  account_key institution account_number account_ref.
(** The token minted is an argument. *)
Definition opaque_account_key (token kind : string) : string :=
  "acct:" ++ (let s := key_slug kind in if String.eqb s "" then "account" else s) ++ ":" ++ token.

(** ** Tokens *)
Definition MIN_TOKEN : nat := 4.
Definition account_tokens (institution number ref : string) : list string :=
  sorted_set
    ((if (3 <=? List.length (points institution))%nat then [str_lower institution] else [])
     ++ (match identity_number_key number ref with [] => [] | key => [of_points key] end)
     ++ List.filter (fun w => (MIN_TOKEN <=? String.length w)%nat) (alnum_words (str_lower ref)))%list.
(** How many accounts carry a token, each account's tokens being a set. *)
Definition seen (per_account : list (string * list string)) (tok : string) : nat :=
  List.length (List.filter (fun p => in_words tok p.2) per_account).
Definition has_digit (tok : string) : bool :=
  existsb (fun c => match unicode_digit c with Some _ => true | None => false end) (points tok).
Definition keeps (per_account : list (string * list string)) (inst : list (string * string)) (acct tok : string) : bool :=
  (seen per_account tok =? 1)%nat
  && (has_digit tok || match dict_get inst acct with Some i => String.eqb tok i | None => false end).
Definition distinctive_tokens (per_account : list (string * list string)) (institution_of : list (string * string))
    : list (string * list string) :=
  let inst := List.map (fun p => (p.1, str_lower (strip p.2))) institution_of in
  List.map (fun p => (p.1, List.filter (keeps per_account inst p.1) p.2)) per_account.

(** A token at boundaries that are neither letters nor digits. *)
Fixpoint token_at (before : bool) (token l : bytes) : bool :=
  (negb before && match starts_with token l with
                  | Some (c :: _) => negb (slug_char c)
                  | Some [] => true
                  | None => false
                  end)
  || match l with c :: r => token_at (slug_char c) token r | [] => false end.
Definition text_has_token (text token : string) : bool := token_at false (enc (str_lower token)) (enc (str_lower text)).

Definition normalize_name (name : string) : string := of_points (fold_spaces false (points (str_lower (strip name)))).
Definition names_overlap (a b : list string) : bool :=
  let normal l := List.map normalize_name (List.filter (fun x => negb (blank x)) l) in
  existsb (fun x => in_words x (normal b)) (normal a).
End Keys.
