(* ===== verification/IdentityProperties.v ===== *)
(** * IdentityProperties: what a label shows, and what a token tells apart *)
From Stdlib Require Import ZArith NArith Ascii String Lia ZifyBool ZifyN ZifyNat.
From stdpp Require Import base list numbers strings.
From S2P Require Import Prelude Text Words Json Unicode Dates Decimals Schedule Normalize Render Policy Grammars ReadDates Identity.
#[local] Open Scope string_scope.
#[local] Open Scope list_scope.

(** ** Runs of digits and separators *)
Definition digit_total (l : list N) : nat := List.length (List.filter is_decimal l).
Definition weigh (c : N) : nat := if is_decimal c then 1 else 0.
(** Every maximal run holds at most four digits, [n] of the first already seen. *)
Fixpoint light (n : nat) (l : list N) : bool :=
  match l with
  | [] => (n <=? 4)%nat
  | c :: r => if number_like c then light (n + weigh c) r else (n <=? 4)%nat && light 0 r
  end.
Lemma digit_total_cons c l : digit_total (c :: l) = (weigh c + digit_total l)%nat.
Proof. unfold digit_total, weigh. cbn [List.filter]. by destruct (is_decimal c). Qed.
Lemma digit_total_app a b : digit_total (a ++ b) = (digit_total a + digit_total b)%nat.
Proof. unfold digit_total. by rewrite List.filter_app, length_app. Qed.
Lemma light_run n run l : Forall (fun c => number_like c = true) run -> light n (run ++ l) = light (n + digit_total run) l.
Proof.
  intros Hr. revert n. induction Hr as [|c run Hc Hr IH]; intros n; cbn [app light].
  - unfold digit_total. cbn. by rewrite Nat.add_0_r.
  - rewrite Hc, IH, digit_total_cons. f_equal. lia.
Qed.
Lemma light_break n c l : number_like c = false -> light n (c :: l) = (n <=? 4)%nat && light 0 l.
Proof. cbn [light]. by intros ->. Qed.
Lemma light_bound l : forall n, light n l = true -> (n <= 4)%nat.
Proof.
  induction l as [|c l IH]; intros n; cbn [light]; [lia|]. destruct (number_like c); [intros H%IH; lia|lia].
Qed.
(** So does every stretch of them. *)
Lemma light_stretch l : forall n a b c, light n l = true -> l = a ++ b ++ c -> Forall (fun x => number_like x = true) b ->
  (digit_total b <= 4)%nat.
Proof.
  induction l as [|x l IH]; intros n a b c Hl E Hb.
  - destruct a; [|done]. destruct b; [|done]. unfold digit_total. cbn. lia.
  - destruct a as [|y a]; [|injection E as <- E; cbn [light] in Hl; destruct (number_like x); [by eapply IH|]].
    + cbn [app] in E. rewrite E, light_run in Hl by done. apply light_bound in Hl. lia.
    + apply andb_true_iff in Hl as [_ Hl]. by eapply IH.
Qed.

(** ** Masking *)
Lemma decimal_like c : is_decimal c = true -> number_like c = true.
Proof. unfold number_like. by intros ->. Qed.
Lemma filter_kept {A} (f : A -> bool) l : Forall (fun x => f x = true) (List.filter f l).
Proof. apply Forall_forall. intros x Hx%list_elem_of_In. by apply List.filter_In in Hx as [_ Hx]. Qed.
Lemma safe_light run l : Forall (fun c => number_like c = true) run -> light 0 (safe run ++ l) = light (Nat.min 4 (digit_total run)) l.
Proof.
  intros Hr. unfold safe, digit_total. destruct (Nat.leb_spec (List.length (List.filter is_decimal run)) 4) as [H|H].
  - rewrite light_run by done. unfold digit_total. by replace (Nat.min 4 _) with (0 + List.length (List.filter is_decimal run))%nat by lia.
  - rewrite <- app_assoc. unfold bullets. cbn [app]. rewrite !light_break by done. cbn [Nat.leb andb].
    set (ds := List.filter is_decimal run) in *. assert (Hd : Forall (fun c => is_decimal c = true) (last_four ds)).
    { unfold last_four. apply Forall_drop, filter_kept. }
    rewrite light_run by (eapply Forall_impl; [exact Hd|]; apply decimal_like). f_equal.
    assert (Hlen : digit_total (last_four ds) = List.length (last_four ds)).
    { unfold digit_total. clear -Hd. induction Hd as [|c l Hc Hd IH]; [done|]. cbn [List.filter]. rewrite Hc. cbn [length]. by rewrite IH. }
    rewrite Hlen. unfold last_four. rewrite length_drop. lia.
Qed.
Lemma to_last_digit_spec run number gap : to_last_digit run = (number, gap) ->
  run = number ++ gap /\ Forall (fun c => is_decimal c = false) gap.
Proof.
  unfold to_last_digit. destruct (take_while _ (List.rev run)) as [t b] eqn:E. apply take_while_spec in E as (E & Ht & _).
  intros [= <- <-]. split.
  - rewrite <- List.rev_app_distr, <- E. by rewrite List.rev_involutive.
  - apply Forall_rev. eapply Forall_impl; [exact Ht|]. cbn beta. intros c. by destruct (is_decimal c).
Qed.
Lemma masked_light fuel : forall l, (List.length l <= fuel)%nat -> light 0 (masked_points fuel l) = true.
Proof.
  induction fuel as [|fuel IH]; intros l Hl; cbn [masked_points].
  - destruct l; [done|cbn in Hl; lia].
  - destruct l as [|c r]; [done|]. cbn [length] in Hl. destruct (is_decimal c) eqn:Hc.
    + destruct (take_while number_like (c :: r)) as [run rest] eqn:E. destruct (to_last_digit run) as [number gap] eqn:Eg.
      apply to_last_digit_spec in Eg as [-> Hgap]. pose proof E as E'. apply take_while_spec in E as (Eq & Hrun & Hrest).
      apply Forall_app in Hrun as [Hn Hg]. rewrite safe_light by done. rewrite light_run by done.
      assert (Hz : digit_total gap = 0%nat).
      { unfold digit_total. clear -Hgap. induction Hgap as [|x l Hx Hl IH]; [done|]. cbn [List.filter]. by rewrite Hx. }
      rewrite Hz, Nat.add_0_r. set (n := Nat.min 4 (digit_total number)). assert (Hn4 : (n <= 4)%nat) by lia. clearbody n.
      assert (Hlen : (List.length rest <= fuel)%nat).
      { assert (Hne : (0 < List.length (number ++ gap))%nat).
        { cbn [take_while] in E'. rewrite (decimal_like c Hc) in E'. destruct (take_while number_like r).
          injection E' as E1 _. rewrite <- E1. cbn [length]. lia. }
        apply (f_equal length) in Eq. rewrite length_app in Eq. cbn [length] in Eq. lia. }
      destruct fuel as [|fuel]; [destruct rest; [cbn; by apply Nat.leb_le|cbn in Hlen; lia]|].
      destruct rest as [|x rest]; [cbn; by apply Nat.leb_le|].
      assert (Hx : is_decimal x = false) by (destruct (is_decimal x) eqn:Ex; [by rewrite (decimal_like x Ex) in Hrest|done]).
      assert (Hm : masked_points (S fuel) (x :: rest) = x :: masked_points fuel rest) by (cbn [masked_points]; by rewrite Hx).
      specialize (IH (x :: rest) Hlen). rewrite Hm in *. rewrite light_break in * by done.
      cbn [Nat.leb andb] in IH. rewrite IH, andb_true_r. by apply Nat.leb_le.
    + cbn [light]. assert (Hr : light 0 (masked_points fuel r) = true) by (apply IH; lia).
      destruct (number_like c); [|by rewrite Hr]. unfold weigh. rewrite Hc. by rewrite Nat.add_0_r.
Qed.

(** C31: a masked label shows no account number.  However an issuer's text spells one out,
    with spaces, points, slashes, colons or dashes among its digits, no stretch of digits and
    separators of the label that is shown holds more than four digits. *)
Theorem masked_label_hides_numbers text before stretch after_ :
  let shown := masked_points (List.length (points text)) (points text) in
  masked_label text = of_points shown
  /\ (shown = before ++ stretch ++ after_ -> Forall (fun c => number_like c = true) stretch ->
      (List.length (List.filter is_decimal stretch) <= 4)%nat).
Proof.
  cbn zeta. split; [done|]. intros E Hs. eapply (light_stretch _ 0%nat); [|exact E|exact Hs]. by apply masked_light.
Qed.

Lemma masked_label_hides_numbers_witness :
  masked_label "Card 4111 1111/1111-1234" = ("Card " ++ of_points bullets ++ "1234")%string
  /\ (List.length (List.filter is_decimal (points "1234")) <= 4)%nat.
Proof.
  split; [vm_compute; reflexivity|].
  apply (proj2 (masked_label_hides_numbers "Card 4111 1111/1111-1234" (points "Card " ++ bullets) (points "1234") []));
    [vm_compute; reflexivity|]. by repeat constructor.
Defined.

(** ** Tokens *)
Section Tokens.
Context `{case_map : CaseMap}.

(** Two of a list's entries keep a list of two of them. *)
Lemma filter_two {A} (f : A -> bool) (l : list A) x y : x ∈ l -> y ∈ l -> x <> y -> f x = true -> f y = true ->
  (2 <= List.length (List.filter f l))%nat.
Proof.
  intros Hx Hy Hne Fx Fy. apply list_elem_of_In in Hx, Hy. assert (Hin : forall z, In z l -> f z = true -> z ∈ List.filter f l).
  { intros z H F. by apply list_elem_of_In, List.filter_In. }
  pose proof (Hin x Hx Fx) as Kx. pose proof (Hin y Hy Fy) as Ky. destruct (List.filter f l) as [|a [|b r]]; cbn; [| |lia].
  - by apply elem_of_nil in Kx.
  - apply list_elem_of_singleton in Kx, Ky. congruence.
Qed.
Lemma kept_seen_once per inst a t : keeps per inst a t = true -> seen per t = 1%nat.
Proof using Type. unfold keeps. intros [H _]%andb_true_iff. by apply Nat.eqb_eq. Qed.
(** A token that only one account holds is seen once. *)
Lemma seen_once per a all t : NoDup (List.map fst per) -> (a, all) ∈ per -> t ∈ all ->
  (forall b other, (b, other) ∈ per -> t ∈ other -> b = a) -> seen per t = 1%nat.
Proof using Type.
  intros Hn Ha Ht Hu. unfold seen. revert Hn Ha Hu. induction per as [|[b ts] per IH]; cbn [List.map fst]; intros Hn Ha Hu; [by apply elem_of_nil in Ha|].
  apply NoDup_cons in Hn as [Hb Hn]. cbn [List.filter snd]. apply elem_of_cons in Ha as [[= <- <-]|Ha].
  - replace (in_words t all) with true by (symmetry; by apply in_words_spec). cbn [length]. f_equal. apply length_zero_iff_nil.
    destruct (List.filter _ per) as [|[c us] r] eqn:E; [done|]. exfalso.
    assert (Hc : In (c, us) (List.filter (fun p => in_words t p.2) per)) by (rewrite E; by left).
    apply List.filter_In in Hc as [Hc Hw]. apply in_words_spec in Hw. rewrite (Hu c us) in Hc; [| |done].
    + apply Hb, list_elem_of_In, in_map_iff. by exists (a, us).
    + apply elem_of_cons. right. by apply list_elem_of_In.
  - destruct (in_words t ts) eqn:Ew.
    + exfalso. apply in_words_spec in Ew. assert (b = a) as -> by (by apply (Hu b ts); [left|]).
      apply Hb, list_elem_of_In, in_map_iff. exists (a, all). by rewrite <- list_elem_of_In.
    + apply IH; [done..|]. intros c other Hc. apply Hu. by right.
Qed.
Definition names_account (institution_of : list (string * string)) (a t : string) : bool :=
  has_digit t || match dict_get (List.map (fun p => (p.1, str_lower (strip p.2))) institution_of) a with
                 | Some i => String.eqb t i
                 | None => false
                 end.
Lemma distinctive_entry per inst a t : NoDup (List.map fst per) ->
  (exists ts, (a, ts) ∈ distinctive_tokens per inst /\ t ∈ ts) <->
  (exists all, (a, all) ∈ per /\ t ∈ all) /\ seen per t = 1%nat /\ names_account inst a t = true.
Proof using Type.
  intros Hn. unfold distinctive_tokens, names_account. split.
  - intros (ts & H & Ht). apply list_elem_of_In, in_map_iff in H as ([b all] & [= <- <-] & H).
    apply list_elem_of_In, List.filter_In in Ht as [Ht Hk]. apply andb_true_iff in Hk as [Hs Hk]. apply Nat.eqb_eq in Hs.
    split; [exists all; by rewrite !list_elem_of_In|done].
  - intros ((all & H & Ht) & Hs & Hk). eexists. split.
    + apply list_elem_of_In, in_map_iff. exists (a, all). split; [reflexivity|by apply list_elem_of_In].
    + apply list_elem_of_In, List.filter_In. split; [by apply list_elem_of_In|]. apply andb_true_iff. split; [by apply Nat.eqb_eq|exact Hk].
Qed.

(** a distinctive token tells accounts apart, and no token that does is lost.  Of the
    tokens of the accounts, an account keeps exactly those it holds that carry a digit or are
    its own issuer's name, and that no other account holds. *)
Theorem distinctive_tokens_name_one per inst a t : NoDup (List.map fst per) ->
  (exists ts, (a, ts) ∈ distinctive_tokens per inst /\ t ∈ ts) <->
  (exists all, (a, all) ∈ per /\ t ∈ all) /\ names_account inst a t = true /\
  forall b other, (b, other) ∈ per -> t ∈ other -> b = a.
Proof.
  intros Hn. rewrite distinctive_entry by done. split.
  - intros ((own & Ho & Hto) & Hs & Hk). split; [by exists own|]. split; [done|]. intros b other Hb Htb.
    destruct (decide (b = a)) as [->|Hne]; [done|]. exfalso. unfold seen in Hs.
    pose proof (filter_two (fun p => in_words t p.2) per (a, own) (b, other) Ho Hb) as H2. rewrite Hs in H2.
    assert (2 <= 1)%nat; [|lia]. apply H2; [congruence| |]; by apply in_words_spec.
  - intros ((own & Ho & Hto) & Hk & Hu). split; [by exists own|]. split; [|done]. by eapply seen_once.
Qed.
End Tokens.

#[local] Instance plain_case : CaseMap := ascii_case.
(** The two accounts of one bank: the numbers tell them apart, the bank does not. *)
Definition two_accounts : list (string * list string) := [("acct:a:1111", ["1111"; "northbank"]); ("acct:a:2222", ["2222"; "northbank"])].
Lemma distinctive_tokens_name_one_witness :
  distinctive_tokens two_accounts [("acct:a:1111", "Northbank"); ("acct:a:2222", "Northbank")]
    = [("acct:a:1111", ["1111"]); ("acct:a:2222", ["2222"])]
  /\ forall b other, (b, other) ∈ two_accounts -> "1111" ∈ other -> b = "acct:a:1111".
Proof.
  split; [vm_compute; reflexivity|].
  refine (proj2 (proj2 (proj1 (distinctive_tokens_name_one two_accounts [] "acct:a:1111" "1111" _) _))).
  - apply (bool_decide_unpack _). vm_compute. exact I.
  - exists ["1111"]. split; [left|left].
Defined.
