(* ===== verification/Dictionaries.v ===== *)
(** * Dictionaries: the laws of insertion-ordered dictionaries

    A dict is the list of its items ([Json]); setting a key keeps its place or appends it.
    The lemmas relate lookup, membership and the keys, which are never listed twice. *)
From Stdlib Require Import ZArith NArith Ascii String Lia.
From stdpp Require Import base list numbers strings.
From S2P Require Import Prelude Text Json Postings.
#[local] Open Scope string_scope.

Section Dict.
Context {A : Type}.
Implicit Types (d : list (string * A)) (k : string) (v : A).

Definition keyed d : Prop := NoDup (List.map fst d).

Lemma dict_get_setting d k v j : dict_get (dict_set d k v) j = if String.eqb k j then Some v else dict_get d j.
Proof. destruct (String.eqb_spec k j) as [->|H]; [apply dict_set_same|by apply dict_get_set]. Qed.
Lemma dict_get_elem d k v : dict_get d k = Some v -> (k, v) ∈ d.
Proof.
  induction d as [|[j w] d IH]; cbn [dict_get]; [done|]. destruct (String.eqb_spec k j) as [->|Hj].
  - intros [= ->]. by left.
  - intros H. right. by apply IH.
Qed.
Lemma dict_get_key d k v : dict_get d k = Some v -> k ∈ List.map fst d.
Proof. intros H%dict_get_elem. apply list_elem_of_In, in_map_iff. exists (k, v). by rewrite <- list_elem_of_In. Qed.
Lemma dict_get_none d k : dict_get d k = None <-> k ∉ List.map fst d.
Proof.
  induction d as [|[j w] d IH]; cbn [dict_get List.map fst].
  - split; [|done]. intros _ H. by apply elem_of_nil in H.
  - rewrite elem_of_cons. destruct (String.eqb_spec k j) as [->|Hj].
    + split; [done|]. intros H. exfalso. apply H. by left.
    + rewrite IH. tauto.
Qed.
Lemma elem_dict_get d k v : keyed d -> (k, v) ∈ d -> dict_get d k = Some v.
Proof.
  unfold keyed. induction d as [|[j w] d IH]; cbn [List.map fst dict_get]; intros Hn H; [by apply elem_of_nil in H|].
  apply NoDup_cons in Hn as [Hj Hn]. apply elem_of_cons in H as [E|H].
  - injection E as -> ->. by rewrite String.eqb_refl.
  - specialize (IH Hn H). destruct (String.eqb_spec k j) as [->|Hk]; [|done]. apply dict_get_key in IH. by apply Hj in IH.
Qed.
Lemma dict_set_elem d k v j w : (j, w) ∈ dict_set d k v -> (j = k /\ w = v) \/ (j, w) ∈ d.
Proof.
  induction d as [|[i u] d IH]; cbn [dict_set]; intros H.
  - apply list_elem_of_singleton in H as [= -> ->]. by left.
  - destruct (String.eqb_spec k i) as [->|Hk]; apply elem_of_cons in H as [E|H].
    + left. inversion E. subst. by split.
    + right. by right.
    + right. rewrite E. by left.
    + destruct (IH H) as [?|?]; [by left|right; by right].
Qed.
Lemma dict_set_keyed d k v : keyed d -> keyed (dict_set d k v).
Proof.
  unfold keyed. induction d as [|[j w] d IH]; cbn [dict_set List.map fst]; intros Hn.
  - apply NoDup_singleton.
  - apply NoDup_cons in Hn as [Hj Hn]. destruct (String.eqb_spec k j) as [->|Hk]; cbn [List.map fst]; apply NoDup_cons; [done|].
    split; [|by apply IH]. intros H. apply Hj. apply list_elem_of_In, in_map_iff in H as ([i u] & E & H). cbn in E. subst i.
    apply list_elem_of_In, dict_set_elem in H as [[-> _]|H]; [done|]. apply list_elem_of_In, in_map_iff.
    exists (j, u). by rewrite <- list_elem_of_In.
Qed.
Lemma filter_keyed (f : string * A -> bool) d : keyed d -> keyed (List.filter f d).
Proof.
  unfold keyed. induction d as [|[j w] d IH]; cbn [List.filter List.map fst]; intros Hn; [constructor|].
  apply NoDup_cons in Hn as [Hj Hn]. destruct (f (j, w)); [|by apply IH]. cbn [List.map fst]. apply NoDup_cons.
  split; [|by apply IH]. intros H. apply Hj. apply list_elem_of_In, in_map_iff in H as ([i u] & E & [H _]%List.filter_In).
  cbn in E. subst i. apply list_elem_of_In, in_map_iff. by exists (j, u).
Qed.
End Dict.

#[export] Hint Resolve dict_set_keyed filter_keyed : core.

(** ** Dictionaries under other keys *)
Section Assoc.
Context {K A : Type} `{!EqDecision K}.
Implicit Types (d : list (K * A)) (k : K) (v : A).

Fixpoint assoc_get d k : option A :=
  match d with
  | [] => None
  | (j, v) :: r => if decide (k = j) then Some v else assoc_get r k
  end.
Fixpoint assoc_set d k v : list (K * A) :=
  match d with
  | [] => [(k, v)]
  | (j, w) :: r => if decide (k = j) then (j, v) :: r else (j, w) :: assoc_set r k v
  end.
Definition assoc_pop d k : list (K * A) := List.filter (fun p => negb (bool_decide (p.1 = k))) d.
Definition assoc_keyed d : Prop := NoDup (List.map fst d).

Lemma assoc_get_set d k v j : assoc_get (assoc_set d k v) j = if decide (k = j) then Some v else assoc_get d j.
Proof.
  induction d as [|[i w] d IH]; cbn [assoc_set assoc_get].
  - destruct (decide (k = j)), (decide (j = k)); congruence.
  - destruct (decide (k = i)) as [->|Hk]; cbn [assoc_get].
    + destruct (decide (j = i)), (decide (i = j)); congruence.
    + rewrite IH. destruct (decide (j = i)), (decide (k = j)); congruence.
Qed.
Lemma assoc_set_elem d k v j w : (j, w) ∈ assoc_set d k v -> (j = k /\ w = v) \/ (j <> k /\ (j, w) ∈ d) \/ ~ assoc_keyed d.
Proof.
  induction d as [|[i u] d IH]; cbn [assoc_set]; intros H.
  - apply list_elem_of_singleton in H as [= -> ->]. by left.
  - destruct (decide (assoc_keyed ((i, u) :: d))) as [Hd|]; [|by right; right].
    unfold assoc_keyed in Hd. cbn [List.map fst] in Hd. apply NoDup_cons in Hd as [Hi Hd].
    destruct (decide (k = i)) as [->|Hk]; apply elem_of_cons in H as [E|H].
    + left. by inversion E.
    + right. left. split; [|by right]. intros ->. apply Hi, list_elem_of_In, in_map_iff. exists (i, w). by rewrite <- list_elem_of_In.
    + right. left. injection E as -> ->. split; [congruence|left].
    + destruct (IH H) as [?|[[? ?]|?]]; [by left|right; left; split; [done|by right]|done].
Qed.
Lemma assoc_set_keyed d k v : assoc_keyed d -> assoc_keyed (assoc_set d k v).
Proof.
  unfold assoc_keyed. induction d as [|[i u] d IH]; cbn [assoc_set List.map fst]; intros Hd; [apply NoDup_singleton|].
  apply NoDup_cons in Hd as [Hi Hd]. destruct (decide (k = i)) as [->|Hk]; cbn [List.map fst]; apply NoDup_cons; [done|].
  split; [|by apply IH]. intros H. apply list_elem_of_In, in_map_iff in H as ([j w] & E & H). cbn in E. subst j.
  apply list_elem_of_In, assoc_set_elem in H as [[-> _]|[[_ H]|H]]; [done| |by apply H].
  apply Hi, list_elem_of_In, in_map_iff. exists (i, w). by rewrite <- list_elem_of_In.
Qed.
Lemma assoc_elem_get d k v : assoc_keyed d -> (k, v) ∈ d <-> assoc_get d k = Some v.
Proof.
  unfold assoc_keyed. induction d as [|[i u] d IH]; cbn [List.map fst assoc_get]; intros Hd.
  - rewrite elem_of_nil. done.
  - apply NoDup_cons in Hd as [Hi Hd]. rewrite elem_of_cons. destruct (decide (k = i)) as [->|Hk].
    + split; [|by intros [= ->]; left]. intros [E|H]; [by inversion E|]. exfalso. apply Hi, list_elem_of_In, in_map_iff.
      exists (i, v). by rewrite <- list_elem_of_In.
    + rewrite <- IH by done. split; [intros [E|H]; [congruence|done]|by right].
Qed.
End Assoc.
