(* ===== verification/Registry.v ===== *)
(** * Registry: the accounts a ledger knows, and which one a statement belongs to

    The slice of product/viva/ledger/projection/core.py that says what each account is (its
    kind, names, numbers and lines), the rulings on identity, and the references printed in
    documents; and projection/accounts.py over it.  Balances are the slice of [Accounts],
    which also holds the refusals of a transaction's guards; what an event's body holds as
    other than text is a TypeError here.  Of a line, what it was matched to is left out, and of
    an account its documents; the token index and the memo of its reader are the value they
    hold. *)
From Stdlib Require Import ZArith NArith Ascii String Lia ZifyBool ZifyN ZifyNat.
From stdpp Require Import base list numbers strings.
From S2P Require Import Prelude Text Words Json Unicode Dates Decimals Arithmetic Events EventTypes Postings Accounts Schedule Normalize Render Policy Grammars Identity.
#[local] Open Scope string_scope.

(** ** State *)
Record TxnLine := mkLine
  { tl_date : string; tl_description : string; tl_amount : decimal; tl_grade : string;
    tl_provenance : Provenance; tl_doc : string; tl_currency : string; tl_transaction : string }.
Record reg_account := mkReg
  { r_seen : bool; r_kind : string; r_currency : string; r_name : string; r_institution : string;
    r_number : string; r_names : list string; r_origin : string; r_jurisdiction : string;
    r_opened_at : string; r_lines : list TxnLine }.
Definition new_reg : reg_account := mkReg false "" "" "" "" "" [] ISSUED "" "" [].

(** The holder and product a learned alias was ruled for. *)
Record AliasEvidence := mkEvidence { ev_names : list string; ev_label : string; ev_kind : string }.
Record AccountRef := mkRef { ar_claim : SourceAccountIdentity; ar_scope : string }.
Record registry := mkRegistry
  { g_acct : list (string * reg_account);
    g_captured : list (string * string);
    g_aliases : list (string * string);
    g_alias_evidence : list (string * AliasEvidence);
    g_document_aliases : list (string * string);
    g_account_refs : list (string * list AccountRef);
    g_cash_roles : list (string * string) }.
Definition empty_registry : registry := mkRegistry [] [] [] [] [] [] [].
Definition reg_of (g : registry) (a : string) : reg_account := default new_reg (dict_get (g_acct g) a).
Definition with_acct (g : registry) (acct : list (string * reg_account)) : registry :=
  mkRegistry acct (g_captured g) (g_aliases g) (g_alias_evidence g) (g_document_aliases g) (g_account_refs g) (g_cash_roles g).
Definition set_reg (g : registry) (a : string) (st : reg_account) : registry := with_acct g (dict_set (g_acct g) a st).

(** ** The fold *)
Definition text_list (v : json) : res (list string) := match v with JArr l => rmap text l | _ => Raise TypeError end.
Definition body_names (e : Event) (k : string) : res (list string) := let? v := py_get_default (body e) k (JArr []) in text_list v.
(** [list(body.get(k) or [])]. *)
Definition body_names_or (e : Event) (k : string) : res (list string) :=
  let? v := py_get (body e) k in if py_truthy v then text_list v else Ok [].
Definition has_key (v : json) (k : string) : bool :=
  match v with JObj kv => match dict_get kv k with Some _ => true | None => false end | _ => false end.

Definition has_key_in {A} (k : string) (kv : list (string * A)) : bool :=
  match dict_get kv k with Some _ => true | None => false end.

Definition reg_seen (st : reg_account) : reg_account :=
  mkReg true (r_kind st) (r_currency st) (r_name st) (r_institution st) (r_number st) (r_names st)
    (r_origin st) (r_jurisdiction st) (r_opened_at st) (r_lines st).
Definition reg_opened (kind_ currency_ name_ institution number : string) (names : list string)
    (origin_ jurisdiction at_ : string) (st : reg_account) : reg_account :=
  mkReg true kind_ currency_ name_ institution number names origin_ jurisdiction
    (if String.eqb (r_opened_at st) "" then at_ else r_opened_at st) (r_lines st).
Definition full_number (number : string) : bool := negb (bool_decide (usable_full_number number = [])).
(** [if name and name not in st.names: st.names.append(name)]. *)
Definition add_name (names : list string) (n : string) : list string :=
  if String.eqb n "" || in_words n names then names else (names ++ [n])%list.
Definition reg_observed (number institution : string) (names : list string) (st : reg_account) : reg_account :=
  mkReg (r_seen st) (r_kind st) (r_currency st) (r_name st)
    (if String.eqb (r_institution st) "" then institution else r_institution st)
    (if full_number number && negb (full_number (r_number st)) then number else r_number st)
    (List.fold_left add_name names (r_names st)) (r_origin st) (r_jurisdiction st) (r_opened_at st) (r_lines st).
Definition reg_line (l : TxnLine) (st : reg_account) : reg_account :=
  mkReg true (r_kind st) (r_currency st) (r_name st) (r_institution st) (r_number st) (r_names st)
    (r_origin st) (r_jurisdiction st) (r_opened_at st) (r_lines st ++ [l])%list.

(** The one currency of the accounts a transaction touches, when they have one. *)
Definition transaction_currency (g : registry) (ps : list Posting) : res string :=
  let? accts := rmap (fun p => text (account p)) ps in
  let found := List.flat_map (fun a => match dict_get (g_acct g) a with
                                       | Some st => if String.eqb (r_currency st) "" then [] else [r_currency st]
                                       | None => []
                                       end) accts in
  Ok (match sorted_set found with [c] => c | _ => "" end).
Definition record_line (e : Event) (at_ description doc event_ currency_ : string) (g : registry) (p : Posting) : res registry :=
  let? a := text (account p) in
  let st := reg_of g a in
  Ok (set_reg g a (reg_line (mkLine at_ description (amount p) (grade p) (provenance e) doc
                               (if String.eqb (r_currency st) "" then currency_ else r_currency st) event_) st)).
Definition record_lines (g : registry) (e : Event) (at_ : string) : res registry :=
  let? description := body_text e "description" in
  let? doc := text (doc_of e) in
  let? event_ := text (event_id e) in
  let? role := py_get (body e) "instrument_role" in
  let? roles := match role with
                | JNull => Ok (g_cash_roles g)
                | JStr r => if in_words r INSTRUMENT_ROLES then Ok (dict_set (g_cash_roles g) event_ r) else Raise ValueError
                | _ => Raise ValueError
                end in
  let? ps := postings_of e in
  let? cur := transaction_currency g ps in
  rfold (record_line e at_ description doc event_ cur) ps
    (mkRegistry (g_acct g) (g_captured g) (g_aliases g) (g_alias_evidence g) (g_document_aliases g) (g_account_refs g) roles).

Definition ACCOUNT_REF_KEYS : list string := ["account_id"; "reference"; "scope"; "instrument_declaration_key"; "identity_page_count"].
(** [SourcedDate]. *)
Definition iso_date (s : string) : bool :=
  match fromisoformat s with Ok d => String.eqb (isoformat d) s | Raise _ => false end.
Section Fold.
Context `{word_table : WordTable}.
(** [reference_event], and the keys the body may have. *)
Definition account_reference (e : Event) (at_ : string) : res (string * AccountRef) :=
  let? a := py_get (body e) "account_id" in
  let? r := py_get (body e) "reference" in
  let? s := py_get (body e) "scope" in
  let? n := py_get (body e) "identity_page_count" in
  match a, r, s, doc_of e, page (provenance e) with
  | JStr account_, JStr reference, JStr scope, JStr doc, JInt page_ =>
      let claim := mk_source_identity (JStr reference) (JStr doc) (JInt page_) n in
      let? _ := raise_if (blank doc || (page_ <? 1)%Z || blank account_ || blank reference
                          || negb (in_words scope ["account"; "continuous_escrow"]) || negb (iso_date at_)
                          || (negb (bool_decide (n = JNull)) && negb (eligible claim))
                          || match body e with
                             | JObj kv => negb (forallb (fun p => in_words p.1 ACCOUNT_REF_KEYS) kv)
                             | _ => false
                             end) ValueError in
      Ok (account_, mkRef claim scope)
  | _, _, _, _, _ => Raise ValueError
  end.

Definition learn_alias (g : registry) (e : Event) : res registry :=
  let? target := body_item e "account_id" in
  let? learn := py_get_default (body e) "learn_signal" (JBool true) in
  let? g1 :=
    if py_truthy learn then
      let? alias := body_item e "alias_key" in
      let? names := body_names_or e "match_names" in
      let? label := body_text e "match_label" in
      let? kind_ := body_text e "kind" in
      let signed := existsb (has_key (body e)) ["match_names"; "match_label"; "kind"] in
      Ok (mkRegistry (g_acct g) (g_captured g) (dict_set (g_aliases g) alias target)
            (if signed then dict_set (g_alias_evidence g) alias (mkEvidence names label kind_)
             else List.filter (fun p => negb (String.eqb p.1 alias)) (g_alias_evidence g))
            (g_document_aliases g) (g_account_refs g) (g_cash_roles g))
    else Ok g in
  let? doc := body_text e "doc_id" in
  Ok (if String.eqb doc "" then g1
      else mkRegistry (g_acct g1) (g_captured g1) (g_aliases g1) (g_alias_evidence g1)
             (dict_set (g_document_aliases g1) doc target) (g_account_refs g1) (g_cash_roles g1)).

Definition apply_registry (g : registry) (e : Event) : res registry :=
  let? et := text (event_type e) in
  let? at_ := text (occurred_at e) in
  if String.eqb et "AccountOpened" then
    let? a := body_item e "account_id" in
    let? k := body_text e "kind" in
    let? c := body_text e "currency" in
    let? n := body_text e "name" in
    let? i := body_text e "institution" in
    let? num := body_text e "account_number" in
    let? names := body_names e "account_names" in
    let? o := (let? v := py_get_default (body e) "origin" (JStr ISSUED) in text v) in
    let? j := body_text e "jurisdiction" in
    Ok (set_reg g a (reg_opened k c n i num names o j at_ (reg_of g a)))
  else if String.eqb et "AccountIdentityObserved" then
    let? a := body_item e "account_id" in
    let? num := body_text e "account_number" in
    let? i := body_text e "institution" in
    let? names := body_names e "account_names" in
    Ok (set_reg g a (reg_observed num i names (reg_of g a)))
  else if in_words et ["OpeningBalanceObserved"; "ClosingBalanceObserved"; "PositionObserved"] then
    let? a := body_item e "account_id" in
    Ok (set_reg g a (reg_seen (reg_of g a)))
  else if String.eqb et "TransactionRecorded" then record_lines g e at_
  else if String.eqb et "DocumentCaptured" then
    let? d := body_item e "doc_id" in
    let? t := body_text e "doc_type" in
    Ok (mkRegistry (g_acct g) (dict_set (g_captured g) d t) (g_aliases g) (g_alias_evidence g) (g_document_aliases g)
          (g_account_refs g) (g_cash_roles g))
  else if String.eqb et "AccountAliasConfirmed" then learn_alias g e
  else if String.eqb et "FinancialAccountReferenceObserved" then
    let? ar := account_reference e at_ in
    Ok (mkRegistry (g_acct g) (g_captured g) (g_aliases g) (g_alias_evidence g) (g_document_aliases g)
          (dict_set (g_account_refs g) ar.1 (default [] (dict_get (g_account_refs g) ar.1) ++ [ar.2])%list) (g_cash_roles g))
  else Ok g.
(** Over the events a projection folds, which [Visibility.visible_events] picks from a log. *)
Definition replay_registry (es : list Event) : res registry := rfold apply_registry es empty_registry.
End Fold.

(** ** Views *)
Definition accounts_seen (g : registry) : list string :=
  sorted_set (List.map fst (List.filter (fun p => r_seen p.2) (g_acct g))).
Definition seen_account (g : registry) (a : string) : bool :=
  match dict_get (g_acct g) a with Some st => r_seen st | None => false end.
Definition account_info (g : registry) (a : string) : res reg_account :=
  match dict_get (g_acct g) a with
  | Some st => if r_seen st then Ok st else Raise UnknownAccountError
  | None => Raise UnknownAccountError
  end.
Definition account_infos (g : registry) : res (list reg_account) := rmap (account_info g) (accounts_seen g).

Definition MONEY_KINDS : list string := ["depository"; "liability"; "investment"].
Section Tokens.
Context `{case_map : CaseMap} `{word_table : WordTable}.
Definition owned (st : reg_account) : bool :=
  r_seen st && in_words (r_kind st) MONEY_KINDS && String.eqb (r_origin st) ISSUED.
Definition own_account_tokens (g : registry) : list (string * list string) :=
  let held := List.filter (fun p => owned p.2) (g_acct g) in
  distinctive_tokens
    (List.map (fun p => (p.1, account_tokens (r_institution p.2) (r_number p.2) (r_name p.2))) held)
    (List.map (fun p => (p.1, r_institution p.2)) held).
End Tokens.

(** ** Which account a statement belongs to *)
Inductive Verdict := Same | New | Ambiguous.
#[export] Instance Verdict_eq_dec : EqDecision Verdict.
Proof. solve_decision. Defined.
(** Why a person is asked. *)
Inductive Reason :=
  | NumberSignalsDisagree
  | DigitsMatchWeakly
  | DigitsMatchSeveral
  | ReferenceConflicts
  | HolderMatches.
Record Resolution := mkResolution
  { res_account : string; res_key : string; res_verdict : Verdict; res_candidate : string;
    res_candidate_name : string; res_candidates : list string; res_reason : option Reason }.
Definition answered (a key : string) (v : Verdict) : Resolution := mkResolution a key v "" "" [] None.

Section Resolve.
Context `{case_map : CaseMap} `{word_table : WordTable}.
Implicit Types (g : registry) (p : string * reg_account).

Definition holders_agree (a b : list string) : bool :=
  (bool_decide (a = []) && bool_decide (b = [])) || names_overlap a b.
Definition learned_alias_matches g (key : string) (names : list string) (ref kind : string) : bool :=
  match dict_get (g_alias_evidence g) key with
  | None => false
  | Some ev =>
      if negb (String.eqb (ev_kind ev) "") && negb (String.eqb (ev_kind ev) kind) then false
      else
        let exact := key_slug ref in
        holders_agree names (ev_names ev)
        && ((negb (String.eqb exact "") && String.eqb exact (key_slug (ev_label ev))) || account_labels_overlap ref (ev_label ev))
  end.
(** [key not in core._alias_evidence or _learned_alias_matches(...)]. *)
Definition alias_in_scope g (key : string) (names : list string) (ref kind : string) : bool :=
  match dict_get (g_alias_evidence g) key with
  | None => true
  | Some _ => learned_alias_matches g key names ref kind
  end.

(** What a statement says of its account. *)
Record Signals := mkSignals
  { s_institution : string; s_number : string; s_ref : string; s_names : list string; s_kind : string;
    s_doc : string; s_currency : string; s_source : option SourceAccountIdentity }.
Definition signal_key (s : Signals) : string := account_key (s_institution s) (s_number s) (s_ref s).
Definition mine_number (s : Signals) : list N := identity_number_key (s_number s) (s_ref s).
Definition mine_full (s : Signals) : list N := usable_full_number (s_number s).
Definition their_number (st : reg_account) : list N := identity_number_key (r_number st) (r_name st).
Definition their_full (st : reg_account) : list N := usable_full_number (r_number st).
Definition given (l : list N) : bool := negb (bool_decide (l = [])).
(** Both print a full number, and not the same. *)
Definition numbers_differ (a b : list N) : bool := given a && given b && negb (bool_decide (a = b)).

Definition document_ruling g (s : Signals) : option string :=
  if String.eqb (s_doc s) "" then None
  else match dict_get (g_document_aliases g) (s_doc s) with
       | Some d =>
           if negb (String.eqb d "")
              && match dict_get (g_acct g) d with
                 | Some st => r_seen st && String.eqb (r_kind st) (s_kind s)
                 | None => starts_with_text ("acct:" ++ key_slug (s_kind s) ++ ":") d
                 end
           then Some d else None
       | None => None
       end.
Definition known g (s : Signals) : list (string * reg_account) :=
  List.filter (fun p => r_seen p.2 && String.eqb (r_kind p.2) (s_kind s)) (g_acct g).
Definition same_full (s : Signals) p : bool := given (their_full p.2) && bool_decide (mine_full s = their_full p.2).
Definition number_candidate (s : Signals) p : bool :=
  given (their_number p.2) && bool_decide (mine_number s = their_number p.2)
  && (String.eqb (account_key (r_institution p.2) (r_number p.2) (r_name p.2)) (signal_key s)
      || institution_names_overlap (s_institution s) (r_institution p.2))
  && negb (numbers_differ (mine_full s) (their_full p.2)).
Definition number_candidates g (s : Signals) : list (string * reg_account) :=
  if given (mine_number s) then List.filter (number_candidate s) (known g s) else [].
Definition compatible (s : Signals) p : bool :=
  holders_agree (s_names s) (r_names p.2) && account_labels_overlap (s_ref s) (r_name p.2).
Definition shown_name p : string := masked_label (if String.eqb (r_name p.2) "" then p.1 else r_name p.2).
Definition ask_about (s : Signals) p (why : Reason) : Resolution :=
  mkResolution (signal_key s) (signal_key s) Ambiguous p.1 (shown_name p) [p.1] (Some why).
Definition ask_among (s : Signals) (ps : list (string * reg_account)) (why : Reason) : Resolution :=
  mkResolution (signal_key s) (signal_key s) Ambiguous "" "" (List.map fst ps) (Some why).

Definition one_candidate g (s : Signals) p : Resolution :=
  let key := signal_key s in
  if bool_decide (dict_get (g_aliases g) key = Some p.1) && alias_in_scope g key (s_names s) (s_ref s) (s_kind s)
     && negb (given (mine_full s) && negb (given (their_full p.2)))
  then answered p.1 key Same
  else if compatible s p then answered p.1 key Same
  else ask_about s p DigitsMatchWeakly.
Definition several_candidates (s : Signals) (ps : list (string * reg_account)) : Resolution :=
  match List.filter (compatible s) ps with
  | [p] => answered p.1 (signal_key s) Same
  | _ => ask_among s ps DigitsMatchSeveral
  end.

Definition learned g (s : Signals) : option string :=
  let key := signal_key s in
  match dict_get (g_aliases g) key with
  | None => None
  | Some target =>
      if String.eqb target "" then None
      else
        match dict_get (g_acct g) target with
        | None => if String.eqb target key then Some target else None
        | Some st =>
            if alias_in_scope g key (s_names s) (s_ref s) (s_kind s) && r_seen st && String.eqb (r_kind st) (s_kind s)
               && negb (numbers_differ (mine_full s) (their_full st))
            then Some target else None
        end
  end.
(** *** The reference a page prints *)
Inductive Fate := Excluded | Matches (conflict : bool) | Open_.
Definition claims_of g (a : string) : list SourceAccountIdentity :=
  List.flat_map (fun r => if String.eqb (ar_scope r) "account"
                             && match sai_doc_id (ar_claim r) with JStr d => has_key_in d (g_captured g) | _ => false end
                          then [ar_claim r] else [])
    (default [] (dict_get (g_account_refs g) a)).
Definition reference_text (c : SourceAccountIdentity) : string := match sai_reference c with JStr r => r | _ => "" end.
(** The same claim with no bound on its pages. *)
Definition historical (c : SourceAccountIdentity) : SourceAccountIdentity :=
  mk_source_identity (sai_reference c) (sai_doc_id c) (sai_page c) (JInt 200).
Definition fate g (s : Signals) (reference : string) p : Fate :=
  let st := p.2 in
  if String.eqb (s_institution s) "" || String.eqb (r_institution st) ""
     || negb (institution_names_overlap (s_institution s) (r_institution st))
     || String.eqb (s_currency s) "" || negb (String.eqb (r_currency st) (s_currency s))
     || negb (bool_decide (s_names s = []) || bool_decide (r_names st = []) || names_overlap (s_names s) (r_names st))
  then Excluded
  else if given (their_number st) then Open_
  else
    let references := List.map reference_text (List.filter eligible (claims_of g p.1)) in
    let history := sorted_set (List.map reference_text (List.filter (fun c => eligible (historical c)) (claims_of g p.1))) in
    if in_words reference references then Matches (1 <? List.length history)%nat
    else if bool_decide (references = []) then Open_ else Excluded.
Definition eligible_source g (s : Signals) : option string :=
  match s_source s with
  | Some claim =>
      if eligible claim && py_eq_str (sai_doc_id claim) (s_doc s) && has_key_in (s_doc s) (g_captured g)
         && negb (given (mine_number s))
      then Some (reference_text claim) else None
  | None => None
  end.
Definition excluded (fates : list ((string * reg_account) * Fate)) (a : string) : bool :=
  existsb (fun pf => match pf.2 with Excluded => String.eqb pf.1.1 a | _ => false end) fates.
Definition matches (fates : list ((string * reg_account) * Fate)) : list (string * reg_account) :=
  List.flat_map (fun pf => match pf.2 with Matches _ => [pf.1] | _ => [] end) fates.
Definition conflicts (fates : list ((string * reg_account) * Fate)) : bool :=
  existsb (fun pf => match pf.2 with Matches c => c | _ => false end) fates.

(** *** What is left: the label's own account, or a holder's name *)
Definition holder_matches (s : Signals) p : bool :=
  negb (numbers_differ (mine_full s) (their_full p.2))
  && negb (bool_decide (r_names p.2 = [])) && names_overlap (s_names s) (r_names p.2)
  && negb (numbers_differ (mine_number s) (their_number p.2))
  && negb (negb (given (mine_number s)) && negb (given (their_number p.2))
           && negb (String.eqb (key_slug (s_ref s)) "") && negb (String.eqb (key_slug (r_name p.2)) "")
           && negb (String.eqb (key_slug (s_ref s)) (key_slug (r_name p.2)))).
Definition by_label g (s : Signals) (out : string -> bool) (held : list (string * reg_account)) : Resolution :=
  let key := signal_key s in
  if negb (given (mine_number s)) && negb (out key)
     && match dict_get (g_acct g) key with Some st => r_seen st && String.eqb (r_kind st) (s_kind s) | None => false end
  then answered key key Same
  else match List.find (holder_matches s) held with
       | Some p => ask_about s p HolderMatches
       | None => answered key key New
       end.
Definition by_reference g (s : Signals) : Resolution :=
  match eligible_source g s with
  | None => by_label g s (fun _ => false) (known g s)
  | Some reference =>
      let fates := List.map (fun p => (p, fate g s reference p)) (known g s) in
      match matches fates, conflicts fates with
      | [p], false => answered p.1 (signal_key s) Same
      | [p], true => mkResolution (signal_key s) (signal_key s) Ambiguous p.1
                       (if String.eqb p.1 "" then "" else masked_label (r_name p.2)) [p.1] (Some ReferenceConflicts)
      | [], _ => by_label g s (excluded fates) (List.filter (fun p => negb (excluded fates p.1)) (known g s))
      | ps, _ => ask_among s ps ReferenceConflicts
      end
  end.

Definition resolve g (s : Signals) : Resolution :=
  let key := signal_key s in
  match document_ruling g s with
  | Some d => answered d key Same
  | None =>
      if conflicting_number_signals (s_number s) (s_ref s) then ask_among s [] NumberSignalsDisagree
      else
        match (if given (mine_full s) then List.find (same_full s) (known g s) else None) with
        | Some p => answered p.1 key Same
        | None =>
            match number_candidates g s with
            | [p] => one_candidate g s p
            | _ :: _ :: _ => several_candidates s (number_candidates g s)
            | [] =>
                match learned g s with
                | Some target => answered target key Same
                | None => by_reference g s
                end
            end
        end
  end.
End Resolve.
