(* ===== verification/Visibility.v ===== *)
(** * Visibility: product/viva/ledger/instruments.py, which events a projection folds

    A document's figures may be read again: an instrument observation is corrected or
    retracted, and the effects booked of the one before stop counting.  [fold_change] keeps
    the chain of observations, [visible] is one turn of [visible_events], and [replay] is the
    loop of [ProjectionCore.__init__] over any slice of the core.

    The financial payload of an observation (a mortgage, a deposit, a tax receipt) and the
    receipt of a known allocation are arguments: nothing is assumed of them.  A
    [ContractError] is a [ValueError]. *)
From Stdlib Require Import ZArith NArith Ascii String Lia ZifyBool ZifyN ZifyNat.
From stdpp Require Import base list numbers strings.
From S2P Require Import Prelude Text Words Json Unicode Dates Decimals Floats Arithmetic Events EventTypes Postings Dictionaries Accounts Goals Registry.
#[local] Open Scope string_scope.

(** ** Observations *)
Inductive ObservationKind :=
  | APR_CONTEXT | DEPOSIT_TERMS | MORTGAGE_TERMS | AVAILABILITY | DEPOSIT_COMPONENTS | MORTGAGE_COMPONENTS | REFINANCE
  | TAX_RECEIPT | POSITION_CLASSIFICATION.
#[export] Instance ObservationKind_eq_dec : EqDecision ObservationKind.
Proof. solve_decision. Defined.
Definition ObservationKind_of (s : string) : option ObservationKind :=
  dict_get [("apr_context_v1", APR_CONTEXT); ("deposit_terms", DEPOSIT_TERMS); ("mortgage_terms", MORTGAGE_TERMS);
            ("availability", AVAILABILITY); ("deposit_components", DEPOSIT_COMPONENTS); ("mortgage_components", MORTGAGE_COMPONENTS);
            ("refinance", REFINANCE); ("tax_receipt", TAX_RECEIPT); ("position_classification", POSITION_CLASSIFICATION)] s.
Inductive Operation := CREATE | CORRECT | RETRACT.
#[export] Instance Operation_eq_dec : EqDecision Operation.
Proof. solve_decision. Defined.
Definition Operation_of (s : string) : option Operation := dict_get [("create", CREATE); ("correct", CORRECT); ("retract", RETRACT)] s.
Record Source := mkSource { s_doc : string; s_page : Z }.
Record SourcedDate := mkSourcedDate { sd_value : string; sd_source : Source }.

(** The typed payload of each kind: how it is stored, and the family of an availability. *)
Class Payloads := { payload : Type; decode_payload : ObservationKind -> json -> res payload; family_of : payload -> string }.

Section Observations.
Context `{payloads : Payloads}.
Record ObservationChange := mkChange
  { observation_id : string; subject_id : string; ob_kind : ObservationKind; ob_effective : SourcedDate; operation : Operation;
    ob_source : Source; ob_payload : option payload; prior_id : option string }.
(** [__post_init__] of the three. *)
Definition new_source (doc : string) (page_ : Z) : res Source :=
  let? _ := raise_if (blank doc || (page_ <? 1)%Z) ValueError in Ok (mkSource doc page_).
Definition new_sourced_date (v : string) (s : Source) : res SourcedDate :=
  let? _ := raise_if (negb (iso_date v)) ValueError in Ok (mkSourcedDate v s).
Definition new_change (schema_version : Z) (c : ObservationChange) : res ObservationChange :=
  let? _ := raise_if (negb (schema_version =? 1)%Z || blank (observation_id c) || blank (subject_id c)) ValueError in
  let? _ := raise_if (match operation c, prior_id c with
                      | CREATE, None => false
                      | CREATE, Some _ | _, None => true
                      | _, Some p => blank p
                      end) ValueError in
  let? _ := raise_if (match operation c, ob_payload c with
                      | RETRACT, Some _ => true
                      | RETRACT, None => bool_decide (ob_kind c = AVAILABILITY)
                      | _, o => negb (bool_decide (is_Some o))
                      end) ValueError in
  Ok c.
(** A stored dataclass has exactly its fields. *)
Definition closed_object (fields : list string) (v : json) : res (list (string * json)) :=
  match v with
  | JObj kv => if forallb (fun f => has_key_in f kv) fields && forallb (fun p => in_words p.1 fields) kv then Ok kv else Raise ValueError
  | _ => Raise ValueError
  end.
Definition stored_text (v : json) : res string := match v with JStr s => Ok s | _ => Raise ValueError end.
Definition stored (kv : list (string * json)) (k : string) : json := default JNull (dict_get kv k).
Definition decode_source (v : json) : res Source :=
  let? kv := closed_object ["doc_id"; "page"] v in
  let? d := stored_text (stored kv "doc_id") in
  let? p := (match stored kv "page" with JInt n => Ok n | _ => Raise ValueError end) in
  new_source d p.
Definition decode_date (v : json) : res SourcedDate :=
  let? kv := closed_object ["value"; "source"] v in
  let? t := stored_text (stored kv "value") in
  let? s := decode_source (stored kv "source") in
  new_sourced_date t s.
Definition decode_change (v : json) : res ObservationChange :=
  let? kv := closed_object ["observation_id"; "subject_id"; "kind"; "effective"; "operation"; "source"; "payload"; "prior_id"; "schema_version"] v in
  let? k := (let? t := stored_text (stored kv "kind") in res_of_option ValueError (ObservationKind_of t)) in
  let? oid := stored_text (stored kv "observation_id") in
  let? subject := stored_text (stored kv "subject_id") in
  let? eff := decode_date (stored kv "effective") in
  let? op := (let? t := stored_text (stored kv "operation") in res_of_option ValueError (Operation_of t)) in
  let? src := decode_source (stored kv "source") in
  let? prior := (match stored kv "prior_id" with JNull => Ok None | v => let? t := stored_text v in Ok (Some t) end) in
  let? schema := (match stored kv "schema_version" with JInt n => Ok n | _ => Raise ValueError end) in
  let? pay := (match stored kv "payload" with JNull => Ok None | v => let? p := decode_payload k v in Ok (Some p) end) in
  new_change schema (mkChange oid subject k eff op src pay prior).

(** ** The chain of observations *)
Record observed := mkObserved { o_change : ObservationChange; o_event : json; superseded : bool }.
Definition observations : Type := list (string * observed).
Definition validate_transition (c current : ObservationChange) : res unit :=
  let? _ := raise_if (bool_decide (operation current = RETRACT) || negb (bool_decide (prior_id c = Some (observation_id current)))
                      || String.eqb (observation_id c) (observation_id current) || negb (String.eqb (subject_id c) (subject_id current))
                      || negb (bool_decide (ob_kind c = ob_kind current))) ValueError in
  raise_if (match ob_kind c, ob_payload c, ob_payload current with
            | AVAILABILITY, Some p, Some q => negb (String.eqb (family_of p) (family_of q))
            | _, _, _ => false
            end) ValueError.
Definition page_is (n : Z) (v : json) : bool := match v with JInt m => (m =? n)%Z | JBool b => ((if b then 1 else 0) =? n)%Z | _ => false end.
Definition fold_change (history : observations) (e : Event) : res observations :=
  let? r := py_get (body e) "record" in
  let? c := decode_change r in
  let? _ := raise_if (negb (py_eq_str (doc_of e) (s_doc (ob_source c))) || negb (page_is (s_page (ob_source c)) (page (provenance e)))
                      || negb (py_eq_str (occurred_at e) (sd_value (ob_effective c)))
                      || negb (match body e with JObj [(k, _)] => String.eqb k "record" | _ => false end)) ValueError in
  let? _ := raise_if (has_key_in (observation_id c) history) ValueError in
  let? kept := (match operation c, prior_id c with
                | CREATE, _ | _, None => Ok history
                | _, Some p =>
                    match dict_get history p with
                    | None => Raise ValueError
                    | Some prior =>
                        let? _ := raise_if (superseded prior) ValueError in
                        let? _ := validate_transition c (o_change prior) in
                        Ok (dict_set history p (mkObserved (o_change prior) (o_event prior) true))
                    end
                end) in
  Ok (dict_set kept (observation_id c) (mkObserved c (event_id e) false)).
Definition is_observation (e : Event) : bool := py_eq_str (event_type e) "InstrumentObservationRecorded".
Definition chain (events : list Event) : res observations :=
  rfold (fun h e => if is_observation e then fold_change h e else Ok h) events [].
Definition live_observation (o : observed) : bool := negb (superseded o) && negb (bool_decide (operation (o_change o) = RETRACT)).
Definition current_observations (history : observations) : observations := List.filter (fun p => live_observation p.2) history.
Definition active (history : observations) (id : string) : bool := has_key_in id (current_observations history).

(** ** What a projection folds *)

(** Whether the receipt of a known allocation still holds, over the chain and the log. *)
Context (receipt_holds : observations -> list Event -> Event -> res bool).
Definition is_known_allocation (e : Event) : bool := py_eq_str (event_type e) "InstrumentKnownPaymentAllocated".
Definition dependency (history : observations) (v : json) : res string :=
  match v with JStr s => if has_key_in s history then Ok s else Raise ValueError | _ => Raise ValueError end.
Definition visible (history : observations) (events : list Event) (e : Event) : res bool :=
  let? holds := (if is_known_allocation e then receipt_holds history events e else Ok true) in
  if negb holds then Ok false
  else
    let? origin := py_get (body e) "instrument_observation_id" in
    let? ds := py_get_default (body e) "instrument_dependencies" (JArr []) in
    let? l := (match ds with JArr l => Ok l | _ => Raise ValueError end) in
    let? _ := raise_if (1000 <? List.length l)%nat ValueError in
    let? ids := rmap (dependency history) l in
    let? of_live := (match origin with
                     | JNull => Ok true
                     | JStr s => Ok (active history s)
                     | JArr _ | JObj _ => Raise TypeError
                     | _ => Ok false
                     end) in
    Ok (of_live && forallb (active history) ids).
Definition visible_events (events : list Event) : res (list Event) :=
  let? h := chain events in
  rfold (fun out e => let? v := visible h events e in Ok (if v then (out ++ [e])%list else out)) events [].
(** The loop that folds them, over any slice of the core. *)
Definition replay {A} (step : A -> Event -> res A) (init : A) (events : list Event) : res A :=
  let? h := chain events in
  rfold (fun s e => let? v := visible h events e in if v then step s e else Ok s) events init.
(** [ProjectionCore(events, as_of)], on the slice of accounts and goals. *)
Definition project_log (horizon : option string) (events : list Event) : res core := replay apply (empty_core horizon) events.

(** ** Laws *)

(** A replay folds the visible events. *)
Lemma visible_fold {A} (step : A -> Event -> res A) h es : forall l init out s,
  rfold (fun s e => let? v := visible h es e in if v then step s e else Ok s) l init = Ok s ->
  exists vis, rfold (fun out e => let? v := visible h es e in Ok (if v then (out ++ [e])%list else out)) l out = Ok (out ++ vis)%list
    /\ rfold step vis init = Ok s.
Proof using Type.
  induction l as [|e l IH]; intros init out s H; cbn [rfold] in *.
  - injection H as <-. exists []. by rewrite app_nil_r.
  - destruct (visible h es e) as [v|]; cbn [rbind] in *; [|done]. destruct v.
    + apply rbind_ok in H as (s1 & H1 & H). destruct (IH _ (out ++ [e])%list _ H) as (vis & E & Hv). exists (e :: vis).
      rewrite E, <- app_assoc. split; [done|]. cbn [rfold]. by rewrite H1.
    + cbn [rbind] in H. by apply IH.
Qed.
Lemma replay_visible {A} (step : A -> Event -> res A) init events s : replay step init events = Ok s ->
  exists vis, visible_events events = Ok vis /\ rfold step vis init = Ok s.
Proof using Type.
  unfold replay, visible_events. intros (h & -> & H)%rbind_ok. cbn [rbind]. by apply (visible_fold step h events events init [] s) in H.
Qed.
(** No visible event is an effect of an observation that was corrected or retracted. *)
Definition counts (h : observations) (e : Event) : Prop :=
  forall id, py_get (body e) "instrument_observation_id" = Ok (JStr id) -> active h id = true.
Lemma visible_counts h es e : visible h es e = Ok true -> counts h e.
Proof using Type.
  intros H id Ho. unfold visible in H. apply rbind_ok in H as (b & _ & H). destruct (negb b); [done|]. rewrite Ho in H. cbn [rbind] in H.
  do 4 (apply rbind_ok in H as (? & _ & H)). injection H as H. by apply andb_true_iff in H as [H _].
Qed.
Lemma visible_all_count es vis h : visible_events es = Ok vis -> chain es = Ok h -> Forall (counts h) vis.
Proof using Type.
  unfold visible_events. intros H E. rewrite E in H. cbn [rbind] in H. eapply (rfold_inv _ (Forall (counts h))); [|constructor|exact H].
  intros out e out' Ho Hs. apply rbind_ok in Hs as (v & Hv & Hs). injection Hs as <-. destruct v; [|done].
  apply Forall_app. split; [done|]. by apply Forall_singleton, (visible_counts h es).
Qed.
(** Later events that are no observations leave the chain, and what the earlier fold made. *)
Lemma chain_later l more : forallb (fun e => negb (is_observation e)) more = true -> chain (l ++ more) = chain l.
Proof using Type.
  unfold chain. intros Hm. rewrite rfold_app. destruct (rfold _ l ([] : observations)) as [h|x]; [|done]. cbn [rbind]. revert Hm. induction more as [|e more IH]; [done|].
  cbn [forallb rfold]. intros [He Hm]%andb_true_iff. apply negb_true_iff in He. rewrite He. cbn [rbind]. by apply IH.
Qed.
Lemma visible_log h es es' e : is_known_allocation e = false -> visible h es e = visible h es' e.
Proof using Type. unfold visible. by intros ->. Qed.
Lemma visible_later {A} (step : A -> Event -> res A) h es es' : (forall s e s', is_known_allocation e = true -> step s e = Ok s' -> s' = s) ->
  forall l init s s', rfold (fun s e => let? v := visible h es e in if v then step s e else Ok s) l init = Ok s ->
  rfold (fun s e => let? v := visible h es' e in if v then step s e else Ok s) l init = Ok s' -> s = s'.
Proof using Type.
  intros Hstep. induction l as [|e l IH]; intros init s s' H H'; cbn [rfold] in *; [congruence|].
  apply rbind_ok in H as (s1 & H1 & H). apply rbind_ok in H' as (s2 & H2 & H').
  assert (E : s1 = s2); [|subst; by eapply IH]. destruct (is_known_allocation e) eqn:Ek.
  - assert (Hs : forall ev x, (let? v := visible h ev e in if v then step init e else Ok init) = Ok x -> x = init).
    { intros ev x Hx. apply rbind_ok in Hx as ([] & _ & Hx); [by apply (Hstep _ e)|congruence]. }
    by rewrite (Hs _ _ H1), (Hs _ _ H2).
  - rewrite (visible_log h es es') in H1 by done. congruence.
Qed.
Lemma replay_later {A} (step : A -> Event -> res A) init es more s s' : (forall s e s', is_known_allocation e = true -> step s e = Ok s' -> s' = s) ->
  forallb (fun e => negb (is_observation e)) more = true -> replay step init es = Ok s -> replay step init (es ++ more) = Ok s' ->
  exists vis, sublist vis more /\ rfold step vis s = Ok s'.
Proof using Type.
  unfold replay. intros Hstep Hm (h & Hh & H)%rbind_ok. rewrite chain_later, Hh by done. cbn [rbind]. rewrite rfold_app. intros (s1 & H1 & H2)%rbind_ok.
  rewrite <- (visible_later step h es (es ++ more) Hstep _ _ _ _ H H1) in H2. clear H H1 Hm Hh. revert s H2. generalize (es ++ more)%list as log. intros log.
  induction more as [|e more IH]; intros s H2; cbn [rfold] in H2; [exists []; split; [constructor|done]|].
  apply rbind_ok in H2 as (s2 & Hs & H2). destruct (IH _ H2) as (vis & Hv & E). destruct (visible h log e) as [[]|]; cbn [rbind] in Hs; [| |done].
  - exists (e :: vis). split; [by constructor|]. cbn [rfold]. by rewrite Hs.
  - injection Hs as <-. exists vis. split; [by constructor|done].
Qed.
Lemma sublist_Forall {A} (P : A -> Prop) l k : sublist l k -> Forall P k -> Forall P l.
Proof using Type. induction 1; intros H'; [done|inversion_clear H'..]; [constructor; auto|auto]. Qed.

(** What was corrected or retracted stays so: no later history makes it count again. *)
Definition retired (h : observations) (id : string) : Prop := exists o, dict_get h id = Some o /\ live_observation o = false.
Lemma live_keys (h : observations) id : active h id = true -> exists o, (id, o) ∈ h /\ live_observation o = true.
Proof using Type.
  unfold active, has_key_in. destruct (dict_get _ id) as [o|] eqn:E; [|done]. intros _. exists o. apply dict_get_elem in E. unfold current_observations in E.
  apply list_elem_of_In, List.filter_In in E as [E1 E2]. by rewrite list_elem_of_In.
Qed.
Lemma retired_inactive h id : keyed h -> retired h id -> active h id = false.
Proof using Type.
  intros Hk (o & Ho & Hl). destruct (active h id) eqn:E; [|done]. apply live_keys in E as (o' & Ho' & Hl').
  apply elem_dict_get in Ho'; [|done]. congruence.
Qed.
Lemma fold_change_retired h e h' id : fold_change h e = Ok h' -> keyed h -> keyed h' /\ (retired h id -> retired h' id).
Proof using Type.
  unfold fold_change. intros H Hk. apply rbind_ok in H as (r & _ & H). apply rbind_ok in H as (c & _ & H). apply rbind_ok in H as (? & _ & H).
  apply rbind_ok in H as (? & Hn & H). apply rbind_ok in H as (kept & Hkept & H). injection H as <-.
  assert (HK : keyed kept /\ (retired h id -> retired kept id)).
  { assert (Hcase : kept = h \/ exists p prior, dict_get h p = Some prior /\ kept = dict_set h p (mkObserved (o_change prior) (o_event prior) true)).
    { destruct (operation c), (prior_id c) as [p|]; try (injection Hkept as <-; by left).
      all: destruct (dict_get h p) as [prior|] eqn:Ep; [|done]; apply rbind_ok in Hkept as (? & _ & Hkept); apply rbind_ok in Hkept as (? & _ & Hkept).
      all: injection Hkept as <-; right; by exists p, prior. }
    destruct Hcase as [->|(p & prior & Ep & ->)]; [done|]. split; [by apply dict_set_keyed|]. intros (o & Ho & Hl). unfold retired. rewrite dict_get_setting.
    destruct (String.eqb_spec p id) as [->|]; [eexists; split; [done|]; done|by exists o]. }
  destruct HK as [HK1 HK2]. split; [by apply dict_set_keyed|]. intros Hr. specialize (HK2 Hr). destruct HK2 as (o & Ho & Hl). destruct Hr as (o0 & Ho0 & _).
  unfold retired. rewrite dict_get_setting. destruct (String.eqb_spec (observation_id c) id) as [E|]; [|by exists o].
  unfold has_key_in in Hn. rewrite E, Ho0 in Hn. by cbn in Hn.
Qed.
Lemma chain_retired l more h h' id : chain l = Ok h -> chain (l ++ more) = Ok h' -> retired h id -> keyed h' /\ retired h' id.
Proof using Type.
  unfold chain. rewrite rfold_app. intros Hh. rewrite Hh. cbn [rbind].
  assert (Hinv : forall l h h', keyed h -> rfold (fun h e => if is_observation e then fold_change h e else Ok h) l h = Ok h' -> keyed h' /\ (retired h id -> retired h' id)).
  { clear. induction l as [|e l IH]; intros h h' Hk H; cbn [rfold] in H; [injection H as <-; done|]. apply rbind_ok in H as (h1 & H1 & H).
    assert (H2 : keyed h1 /\ (retired h id -> retired h1 id)); [destruct (is_observation e); [by eapply fold_change_retired|injection H1 as <-; done]|].
    destruct (IH _ _ (proj1 H2) H) as [H3 H4]. split; [done|]. intros ?%H2. by apply H4. }
  intros H2 Hr. assert (Hk : keyed h) by (apply (Hinv l [] h); [constructor|done]). destruct (Hinv _ _ _ Hk H2) as [H3 H4]. split; [done|by apply H4].
Qed.
(** Once an observation is corrected or retracted, no event of any longer log that is an
    effect of it is folded. *)
Theorem retired_never_counts l more h id vis : chain l = Ok h -> retired h id -> visible_events (l ++ more) = Ok vis ->
  Forall (fun e => py_get (body e) "instrument_observation_id" <> Ok (JStr id)) vis.
Proof using Type.
  intros Hh Hr Hv. assert (Hc : exists h', chain (l ++ more) = Ok h') by (unfold visible_events in Hv; apply rbind_ok in Hv as (h' & ? & _); by exists h').
  destruct Hc as [h' Hc]. destruct (chain_retired _ _ _ _ _ Hh Hc Hr) as [Hk Hr']. eapply Forall_impl; [exact (visible_all_count _ _ _ Hv Hc)|].
  intros e He Ho. apply He in Ho. by rewrite (retired_inactive h' id Hk Hr') in Ho.
Qed.
End Observations.

(** For examples: payloads of no content, and receipts that hold. *)
Definition bare_payloads : Payloads := {| payload := unit; decode_payload _ _ := Ok tt; family_of _ := "" |}.
Definition always_holds `{Payloads} (h : observations) (es : list Event) (e : Event) : res bool := Ok true.
