(* ===== verification/BalanceProperties.v ===== *)
(** * Balance properties: the grade ladder over a replayed log *)
From Stdlib Require Import ZArith NArith Ascii String Lia ZifyBool ZifyN ZifyNat.
From stdpp Require Import base list numbers strings.
From S2P Require Import Prelude Text Words Json Decimals Floats Arithmetic Events EventTypes Postings Accounts Goals Registry Visibility BalanceLaws.
#[local] Open Scope string_scope.

(** The events a projection with this horizon folds. *)
Definition within (horizon : option string) (e : Event) : bool :=
  match horizon with Some h => negb (String.ltb h (dated_at e)) | None => true end.
Lemma apply_accounts e c c' : apply c e = Ok c' ->
  as_of c' = as_of c
  /\ if within (as_of c) e then apply_account (acct c) e = Ok (acct c') else acct c' = acct c.
Proof.
  unfold apply, within, dated_at. intros Hx. apply rbind_ok in Hx as (t & Ht & Hx).
  destruct (occurred_at e) as [| | | |t'| |]; try done. injection Ht as ->.
  assert (Hin : forall b : bool, (if b then Ok c else
      let? a := apply_account (acct c) e in let? g := apply_goal (goals_ c) e in
      let? p := apply_proposal (goal_proposals_ c) e in Ok (mkCore (as_of c) a g p)) = Ok c' ->
    as_of c' = as_of c /\ if negb b then apply_account (acct c) e = Ok (acct c') else acct c' = acct c).
  { intros [] Hb; [by apply Ok_inj in Hb as <-|]. apply rbind_ok in Hb as (a & Ha & Hb).
    do 2 apply rbind_ok in Hb as (? & _ & Hb). by apply Ok_inj in Hb as <-. }
  destruct (as_of c) as [hz|]; [exact (Hin (String.ltb hz t) Hx)|exact (Hin false Hx)].
Qed.
Lemma fold_accounts l c c' : rfold apply l c = Ok c' ->
  as_of c' = as_of c /\ rfold apply_account (List.filter (within (as_of c)) l) (acct c) = Ok (acct c').
Proof.
  revert c. induction l as [|e l IH]; intros c Hx; [by apply Ok_inj in Hx as <-|]. cbn [rfold] in Hx.
  apply rbind_ok in Hx as (c1 & H1 & Hx). apply apply_accounts in H1 as [E1 H1]. destruct (IH _ Hx) as [E2 H2].
  rewrite E1 in *. split; [done|]. cbn [List.filter]. destruct (within (as_of c) e); cbn [rfold]; [by rewrite H1|].
  by rewrite <- H1.
Qed.

(** Every figure the history states is a whole number of units, and together they fit. *)
Definition figures (h : history) : list decimal := ((h_openings h).*2 ++ (h_closings h).*1.*2 ++ h_posted h)%list.
Definition measured_history (e0 : Z) (h : history) : Prop :=
  Forall (on_scale e0) (figures h) /\ fits default_ctx (mags (zunits e0 (figures h))).

(** The total of an opening and what was posted. *)
Definition replayed (e0 : Z) (h : history) (o : option (string * decimal)) : Z :=
  (match o with Some (_, d) => units e0 d | None => 0 end + zsum (zunits e0 (h_posted h)))%Z.

(** What the ladder rests on. *)
Lemma mags_elem z l : z ∈ l -> (Z.abs z <= mags l)%Z.
Proof.
  intros H. induction H as [|z y l H IH]; rewrite mags_cons; [pose proof (mags_nonneg l); lia|lia].
Qed.
Lemma earliest_elem {A} (f : A -> string) l x : earliest f l (Some x) -> x ∈ l.
Proof. intros (l1 & l2 & -> & _). apply elem_of_app. right. constructor. Qed.
Lemma latest_elem {A} (f : A -> string) l x : latest f l (Some x) -> x ∈ l.
Proof. intros (l1 & l2 & -> & _). apply elem_of_app. right. constructor. Qed.

Section Ladder.
Context (e0 : Z) (Hs : scale_ok default_ctx e0) (He0 : (e0 <= 0)%Z).
Context (h : history) (Hm : measured_history e0 h).

Lemma history_bounds : let z l := zunits e0 l in
  fits default_ctx (mags (z (h_openings h).*2) + mags (z (h_closings h).*1.*2) + mags (z (h_posted h)))
  /\ Forall (on_scale e0) (h_posted h).
Proof using Hm.
  destruct Hm as [Hf Hfit]. unfold figures, zunits in *. rewrite !List.map_app, !mags_app in Hfit.
  split; [by rewrite <- Z.add_assoc|]. apply Forall_app in Hf as [_ Hf]. by apply Forall_app in Hf as [_ Hf].
Qed.
Lemma opening_bounds t d : (t, d) ∈ h_openings h -> on_scale e0 d /\ (Z.abs (units e0 d) <= mags (zunits e0 (h_openings h).*2))%Z.
Proof using Hm.
  intros H%(list_elem_of_fmap_2 snd). cbn in H. destruct Hm as [Hf _]. apply Forall_app in Hf as [Hf _]. split.
  - by eapply Forall_forall in Hf.
  - apply mags_elem. by apply (list_elem_of_fmap_2 (units e0)).
Qed.
Lemma closing_bounds t d b : (t, d, b) ∈ h_closings h ->
  on_scale e0 d /\ (Z.abs (units e0 d) <= mags (zunits e0 (h_closings h).*1.*2))%Z.
Proof using Hm.
  intros H%(list_elem_of_fmap_2 fst)%(list_elem_of_fmap_2 snd). cbn in H. destruct Hm as [Hf _].
  apply Forall_app in Hf as [_ Hf]. apply Forall_app in Hf as [Hf _]. split.
  - by eapply Forall_forall in Hf.
  - apply mags_elem. by apply (list_elem_of_fmap_2 (units e0)).
Qed.

Lemma reads_decimal d : on_scale e0 d -> reads e0 (NumDec d) (units e0 d).
Proof using Type. clear Hm Hs He0. by exists d. Qed.

(** The replayed sum, and the check of it against a closing. *)
Lemma effective_is a st : keeps e0 a h st ->
  exists d, effective st = Ok d /\ on_scale e0 d
    /\ units e0 d = replayed e0 h (d ← opening st; Some (opening_date st, d)).
Proof using Hs He0 Hm.
  intros [K1 _ _ [K4 K5] _]. destruct history_bounds as [Hf _]. cbn zeta in Hf. pose proof (zsum_mags (zunits e0 (h_posted h))).
  pose proof (mags_nonneg (zunits e0 (h_closings h).*1.*2)). pose proof (mags_nonneg (zunits e0 (h_openings h).*2)).
  unfold effective, replayed. destruct (opening st) as [o|]; cbn [mbind option_bind] in *.
  - apply earliest_elem, opening_bounds in K1 as [Ho1 Ho2].
    assert (Hz : on_scale e0 (if is_zero o then dzero else o) /\ units e0 (if is_zero o then dzero else o) = units e0 o).
    { destruct o as [s n x| |]; [|done..]. destruct n as [|n]; [|done]. split; [exact He0|]. by destruct s. }
    destruct Hz as [Hz1 Hz2].
    destruct (dadd_exact default_ctx e0 _ _ Hs Hz1 K4) as (d & E & Hd & Hu); [eapply fits_le; [exact Hf|]; rewrite Hz2, K5; lia|].
    exists d. split; [done|]. split; [done|]. by rewrite Hu, Hz2, K5.
  - destruct (dadd_exact default_ctx e0 dzero (balance_sum st) Hs He0 K4) as (d & E & Hd & Hu).
    { eapply fits_le; [exact Hf|]. rewrite K5. change (units e0 dzero) with 0%Z. lia. }
    exists d. split; [done|]. split; [done|]. rewrite Hu, K5. done.
Qed.

Lemma reconcile_is a st o c : a <> EQUITY_OPENING -> keeps e0 a h st -> opening st = Some o -> closing st = Some c ->
  exists r, reconcile o c st = Ok r
    /\ passed r = (units e0 c =? replayed e0 h (Some (opening_date st, o)))%Z.
Proof using Hs He0 Hm.
  intros Ha [K1 K2 K3 _ _] Ho Hc. rewrite Ho, Hc in *. destruct history_bounds as [Hf Hp]. cbn zeta in Hf.
  apply earliest_elem, opening_bounds in K1 as [Ho1 Ho2]. apply latest_elem, closing_bounds in K2 as [Hc1 Hc2].
  apply String.eqb_neq in Ha. rewrite Ha in K3. unfold reconcile. rewrite K3.
  assert (Ht : reads e0 no_tolerance 0) by (exists dzero; split; [done|by split]).
  assert (Hx : Forall2 (reads e0) (List.map NumDec (h_posted h)) (zunits e0 (h_posted h))).
  { clear K3 Hf. unfold zunits. induction Hp as [|x l Hx _ IH]; cbn; [constructor|]. constructor; [by apply reads_decimal|exact IH]. }
  destruct (balance_check_exact e0 Hs He0 _ _ Ht _ _ _ _ _ _ (reads_decimal o Ho1) Hx (reads_decimal c Hc1)) as (r & -> & Hr & _).
  - eapply fits_le; [exact Hf|]. pose proof (mags_nonneg (zunits e0 (h_posted h))). lia.
  - exists r. split; [done|]. rewrite Hr. unfold replayed. lia.
Qed.
End Ladder.

(** What a balance answers of a history of the account. *)
Definition answers (e0 : Z) (horizon : option string) (c : core) (a : string) (h : history) : Prop :=
  if h_seen h
  then exists ans o cl, balance (acct c) (as_of c) a = Ok ans /\ b_as_of ans = horizon
    /\ earliest fst (h_openings h) o /\ latest (fun x => x.1.1) (h_closings h) cl
    /\ match cl, o with
       | None, _ => b_grade ans = UNVERIFIED /\ on_scale e0 (b_amount ans) /\ units e0 (b_amount ans) = replayed e0 h o
       | Some (_, d, _), None => b_grade ans = VERIFIED /\ b_amount ans = d
       | Some (_, d, human), Some _ => b_amount ans = d /\ b_grade ans =
           (if (units e0 d =? replayed e0 h o)%Z then if human then VERIFIED else CORROBORATED else CONFLICTED)
       end
  else balance (acct c) (as_of c) a = Raise UnknownAccountError.
Lemma folded_answers e0 horizon events c a : scale_ok default_ctx e0 -> (e0 <= 0)%Z -> project horizon events = Ok c -> a <> EQUITY_OPENING ->
  measured_history e0 (history_of (List.filter (within horizon) events) a) -> answers e0 horizon c a (history_of (List.filter (within horizon) events) a).
Proof.
  intros Hs He0 Hpr Ha Hm. unfold answers. set (h := history_of _ a) in *. apply fold_accounts in Hpr as [Eh Hpr].
  cbn [as_of acct empty_core] in Eh, Hpr.
  assert (K : keeps e0 a h (state_of (acct c) a)).
  { destruct (history_bounds e0 h Hm) as [Hf Hp]. apply keeps_history; try done. eapply fits_le; [exact Hf|].
    pose proof (mags_nonneg (zunits e0 (h_openings h).*2)). pose proof (mags_nonneg (zunits e0 (h_closings h).*1.*2)).
    pose proof (mags_nonneg (zunits e0 (h_posted h))). fold h. lia. }
  pose proof (k_seen _ _ _ _ K) as Hseen. unfold balance, state_of in *.
  destruct (dict_get (acct c) a) as [st|]; cbn [default id] in *; [|by rewrite <- Hseen].
  rewrite <- Hseen. destruct (seen st); cbn [negb]; [|done].
  destruct (effective_is e0 Hs He0 h Hm a st K) as (d & Ed & Hd1 & Hd2).
  pose proof (fun o cl => reconcile_is e0 Hs He0 h Hm a st o cl Ha K) as Hrec.
  destruct K as [K1 K2 _ _ _]. rewrite Eh.
  destruct (closing st) as [cl|]; [destruct (opening st) as [o|]|]; cbn [mbind option_bind] in *.
  - destruct (Hrec o cl eq_refl eq_refl) as (r & -> & Hr). cbn [rbind]. rewrite Hr.
    destruct (units e0 cl =? replayed e0 h (Some (opening_date st, o)))%Z eqn:Eq;
      (eexists _, (Some (opening_date st, o)), (Some (closing_date st, cl, closing_confirmed st));
       split; [done|]; split; [done|]; split; [exact K1|]; split; [exact K2|]; cbv beta iota; by rewrite Eq).
  - eexists _, _, _. split; [done|]. split; [done|]. split; [exact K1|]. split; [exact K2|]. done.
  - rewrite Ed. cbn [rbind]. eexists _, _, _. split; [done|]. split; [done|]. split; [exact K1|]. split; [exact K2|].
    split; [done|]. by split.
Qed.

(** C39: A balance is what the log says, as far as it still counts.  Over any log a
    projection folds, with any horizon, the events that count are those of no corrected or
    retracted observation; an account none of them states is unknown, and any other is
    answered from the earliest opening, the latest closing and all the postings they hold
    within the horizon: with no closing the replayed sum, unverified; with a closing and no
    opening that closing, verified; with both the closing, conflicted unless the replayed sum
    is exactly that figure, and then corroborated, or verified when a person confirmed it. *)
Theorem balance_is_the_history `{Payloads} receipt_holds e0 horizon events c a :
  scale_ok default_ctx e0 -> (e0 <= 0)%Z -> project_log receipt_holds horizon events = Ok c -> a <> EQUITY_OPENING ->
  exists observed_ counted, chain events = Ok observed_ /\ visible_events receipt_holds events = Ok counted /\ Forall (counts observed_) counted
    /\ let h := history_of (List.filter (within horizon) counted) a in measured_history e0 h -> answers e0 horizon c a h.
Proof.
  intros Hs He0 Hp Ha. apply replay_visible in Hp as (vis & Hv & Hf). assert (Hc : exists o, chain events = Ok o).
  { unfold visible_events in Hv. apply rbind_ok in Hv as (o & ? & _). by exists o. }
  destruct Hc as [o Ho]. exists o, vis. split; [done|]. split; [done|]. split; [by eapply visible_all_count|]. intros h Hm. by apply folded_answers.
Qed.


(** A log that back-fills its opening, whose last closing lies past the horizon, and whose
    deposit was read as 40 and corrected to 100: only the second reading counts. *)
#[local] Existing Instance bare_payloads.
Definition reading (id observation operation_ : string) (prior : json) : Event :=
  let src := JObj [("doc_id", JStr "d1"); ("page", JInt 1)] in
  event id "InstrumentObservationRecorded" "2026-01-15"
    [("record", JObj [("observation_id", JStr observation); ("subject_id", JStr "Assets:Chk"); ("kind", JStr "deposit_components");
        ("effective", JObj [("value", JStr "2026-01-15"); ("source", src)]); ("operation", JStr operation_); ("source", src);
        ("payload", JObj []); ("prior_id", prior); ("schema_version", JInt 1)])]
    (mkProvenance (JStr "d1") (JInt 1) (JStr "") (JStr "")).
Definition paid_in (id amount observation : string) : res Event :=
  let? e := simple_transaction id "Assets:Chk" (NumStr amount) "pay" "2026-01-15" [] None VERIFIED "depository" (JStr "") (JStr "") in
  Ok (set_body e "instrument_observation_id" (JStr observation)).
Definition checking_events : list Event :=
  omap (fun r => match r with Ok e => Some e | Raise _ => None end)
    [account_opened "e1" "Assets:Chk" "depository" "Checking" "USD" "2026-02-01" "" "" "" [] "issued" None;
     opening_balance_observed "e2" "Assets:Chk" (NumStr "1100") "2026-02-01" None;
     opening_balance_observed "e3" "Assets:Chk" (NumStr "1000.00") "2026-01-01" None;
     Ok (reading "e4" "o1" "create" JNull); paid_in "e5" "40" "o1";
     Ok (reading "e6" "o2" "correct" (JStr "o1")); paid_in "e7" "100" "o2";
     closing_balance_observed "e8" "Assets:Chk" (NumStr "1100") "2026-02-28" None "";
     closing_balance_observed "e9" "Assets:Chk" (NumStr "5000") "2026-03-31" None "human"].

Lemma balance_is_the_history_witness :
  exists c ans, project_log always_holds (Some "2026-02-28") checking_events = Ok c
    /\ balance (acct c) (as_of c) "Assets:Chk" = Ok ans
    /\ b_amount ans = Fin false 1100 0 /\ b_grade ans = CORROBORATED /\ b_as_of ans = Some "2026-02-28".
Proof.
  destruct (project_log always_holds (Some "2026-02-28") checking_events) as [c|] eqn:E; [|vm_compute in E; discriminate].
  destruct (visible_events always_holds checking_events) as [counted|] eqn:Ev; [|vm_compute in Ev; discriminate].
  pose (h := history_of (List.filter (within (Some "2026-02-28")) counted) "Assets:Chk").
  assert (Eh : h = mkHistory [("2026-02-01", Fin false 1100 0); ("2026-01-01", Fin false 100000 (-2))]
                     [("2026-02-28", Fin false 1100 0, false)] [Fin false 100 0] true).
  { vm_compute in Ev. injection Ev as <-. vm_compute. reflexivity. }
  assert (Hm : measured_history (-2) h).
  { rewrite Eh. split; [repeat constructor; vm_compute; discriminate|vm_compute; reflexivity]. }
  destruct (balance_is_the_history always_holds (-2) (Some "2026-02-28") checking_events c "Assets:Chk"
    ltac:(unfold scale_ok; split; [split|]; vm_compute; discriminate) ltac:(lia) E ltac:(discriminate)) as (o' & vis & _ & Hv & _ & Hb).
  rewrite Ev in Hv. injection Hv as <-. specialize (Hb Hm). fold h in Hb. rewrite Eh in Hb. unfold answers in Hb. cbn [h_seen h_openings h_closings] in Hb.
  destruct Hb as (ans & o & cl & Hans & Has & Ho & Hcl & Hx).
  exists c, ans. split; [done|]. split; [done|].
  destruct cl as [[[tc d] human]|]; [|discriminate].
  destruct o as [[t od]|]; [|discriminate].
  apply latest_elem, list_elem_of_singleton in Hcl. injection Hcl as -> -> ->.
  assert (Eo : od = Fin false 100000 (-2)).
  { destruct Ho as (l1 & l2 & El & H1 & H2). destruct l1 as [|x l1]; cbn in El; injection El as <-.
    - subst. apply Forall_cons in H2 as [H2 _]. exfalso. apply H2. vm_compute. reflexivity.
    - destruct l1 as [|y l1]; cbn in H; injection H as <-; [by subst|]. by destruct l1. }
  subst od. destruct Hx as [-> Hg]. rewrite Hg. split; [done|]. split; [vm_compute; reflexivity|exact Has].
Defined.
