(* ===== verification/LiveProjection.v ===== *)
(** * LiveProjection: LedgerProjection.apply against a rebuild, with visible_events

    [LedgerProjection] folds one more event into what it has, or builds all over again when
    the event can retire what an earlier one said.  Building folds the visible events only;
    folding on looks at nothing.  [folding_on_is_replaying] says when the two agree: when the
    event stands by itself in the log.  [hidden_effect_folded_live] is one that does not.
    Logs with known payment allocations, whose receipts are an argument of [Visibility], are
    left out. *)
From Stdlib Require Import ZArith NArith Ascii String Lia.
From stdpp Require Import base list numbers strings.
From S2P Require Import Prelude Json Events Crypto StoreFormat StoreLaws EventStore Ledger VaultLaws VaultProperties LedgerLaws.
From S2P Require Import Prelude Text Words Json Unicode Decimals Acquisition Events EventTypes Postings Dictionaries Accounts Goals Registry Visibility BalanceProperties.
#[local] Open Scope string_scope.

Section Live.
Context `{payloads : Payloads} (receipt_holds : observations -> list Event -> Event -> res bool).

(** [_changes_prior_instrument_visibility], where no known allocation was recorded. *)
Definition names_prior (e : Event) : res bool :=
  if is_observation e then
    let? record := py_get_default (body e) "record" (JObj []) in
    let? p := py_get record "prior_id" in
    Ok (py_truthy p)
  else Ok false.
Definition live_projection : Projection core := {|
  build := project_log receipt_holds; fold_in := apply; changes_prior _ e := names_prior e |}.

(** An observation that names no prior adds itself to the chain and retires nothing. *)
Lemma decoded_prior r c : decode_change r = Ok c -> operation c <> CREATE ->
  exists kv p, r = JObj kv /\ dict_get kv "prior_id" = Some (JStr p) /\ blank p = false.
Proof using Type.
  unfold decode_change. intros H Hop. apply rbind_ok in H as (kv & Hkv & H). do 4 (apply rbind_ok in H as (? & _ & H)).
  apply rbind_ok in H as (op & _ & H). apply rbind_ok in H as (? & _ & H). apply rbind_ok in H as (prior & Hp & H). do 2 (apply rbind_ok in H as (? & _ & H)). unfold new_change in H.
  apply rbind_ok in H as (? & _ & H). apply rbind_ok in H as (? & Hd & H). apply rbind_ok in H as (? & _ & H). injection H as <-. cbn [operation prior_id] in *.
  apply raise_if_ok in Hd. unfold closed_object in Hkv. destruct r as [| | | | | |kv']; try done. destruct (_ && _); [|done]. injection Hkv as <-.
  exists kv'. unfold stored in Hp. destruct prior as [p|]; [|by destruct op]. exists p. split; [done|]. split; [|by destruct op].
  destruct (dict_get kv' "prior_id") as [[| | | |s| |]|]; cbn in Hp; try done. by injection Hp as ->.
Qed.
Lemma first_reading h e h' : is_observation e = true -> names_prior e = Ok false -> fold_change h e = Ok h' ->
  exists c, operation c = CREATE /\ has_key_in (observation_id c) h = false
    /\ h' = dict_set h (observation_id c) (mkObserved c (event_id e) false).
Proof using Type.
  unfold names_prior, fold_change. intros -> Hn H. apply rbind_ok in H as (r & Hr & H). apply rbind_ok in H as (c & Hc & H).
  apply rbind_ok in H as (? & _ & H). apply rbind_ok in H as (? & Hk & H). apply raise_if_ok in Hk. apply rbind_ok in H as (kept & Hkept & H). injection H as <-.
  exists c. assert (Hop : operation c = CREATE).
  { destruct (decide (operation c = CREATE)) as [|Hop]; [done|]. destruct (decoded_prior _ _ Hc Hop) as (kv & p & -> & Hp & Hb).
    unfold py_get, py_get_default in *. destruct (body e) as [| | | | | |b]; try done. destruct (dict_get b "record") as [v|]; [|done].
    injection Hr as ->. cbn in Hn. rewrite Hp in Hn. cbn in Hn. by destruct p. }
  rewrite Hop in Hkept. injection Hkept as <-. done.
Qed.
Lemma dict_get_later {A} (l : list (string * A)) k v id : id <> k -> dict_get (l ++ [(k, v)])%list id = dict_get l id.
Proof using Type.
  intros Hne. induction l as [|[j w] l IH]; cbn [app dict_get]; [by destruct (String.eqb_spec id k)|]. by rewrite IH.
Qed.
Lemma fresh_key {A} k (l : list (string * A)) : has_key_in k l = false -> k ∉ l.*1.
Proof using Type.
  unfold has_key_in. induction l as [|[j w] l IH]; cbn; [intros _; apply not_elem_of_nil|].
  destruct (String.eqb_spec k j); [done|]. intros H. apply not_elem_of_cons. split; [done|by apply IH].
Qed.
Lemma active_later h k o id : has_key_in k h = false -> id <> k ->
  active (dict_set h k o) id = active h id /\ has_key_in id (dict_set h k o) = has_key_in id h.
Proof using Type.
  intros Hk Hne. rewrite dict_set_fresh by by apply fresh_key. unfold active, current_observations, has_key_in. rewrite List.filter_app. cbn [List.filter snd].
  rewrite !(dict_get_later _ _ _ _ Hne). split; [|done]. destruct (live_observation o); [by rewrite dict_get_later|by rewrite app_nil_r].
Qed.

(** Every effect names an observation the log holds. *)
Definition origin_known (h : observations) (e : Event) : Prop :=
  forall id, py_get (body e) "instrument_observation_id" = Ok (JStr id) -> has_key_in id h = true.
Definition origins_known (es : list Event) : Prop := exists h, chain es = Ok h /\ Forall (origin_known h) es.

Lemma visible_stays h k o es es' e v : has_key_in k h = false -> origin_known h e -> is_known_allocation e = false ->
  visible receipt_holds h es e = Ok v -> visible receipt_holds (dict_set h k o) es' e = Ok v.
Proof using Type.
  intros Hk Ho Ha. unfold visible. rewrite Ha. cbn [rbind negb]. intros H. apply rbind_ok in H as (origin & Eo & H). rewrite Eo. cbn [rbind].
  apply rbind_ok in H as (ds & -> & H). cbn [rbind]. apply rbind_ok in H as (l & -> & H). cbn [rbind]. apply rbind_ok in H as (? & -> & H). cbn [rbind].
  apply rbind_ok in H as (ids & Hids & H). apply rmap_ok in Hids.
  assert (Hf : Forall (fun id => has_key_in id h = true) ids /\ rmap (dependency (dict_set h k o)) l = Ok ids).
  { rewrite rmap_ok. clear H. induction Hids as [|v0 id l0 ids0 Hv _ [IH1 IH2]]; [done|]. unfold dependency in Hv. destruct v0 as [| | | |s| |]; try done.
    destruct (has_key_in s h) eqn:Es; [|done]. injection Hv as <-. split; [by constructor|]. constructor; [|done]. cbn [dependency].
    destruct (active_later h k o s Hk) as [_ ->]; [congruence|by rewrite Es]. }
  destruct Hf as [Hf ->]. cbn [rbind]. apply rbind_ok in H as (live & Hl & H).
  assert (El : (match origin with JNull => Ok true | JStr s => Ok (active (dict_set h k o) s) | JArr _ | JObj _ => Raise TypeError | _ => Ok false end) = Ok live).
  { destruct origin as [| | | |s| |]; try done. destruct (active_later h k o s Hk) as [-> _]; [|done]. pose proof (Ho s Eo). congruence. }
  rewrite El. cbn [rbind]. rewrite <- H. do 2 f_equal. clear -Hf Hk. induction Hf as [|id ids Hid _ IH]; [done|]. cbn [forallb]. rewrite IH. f_equal.
  apply active_later; [done|congruence].
Qed.

(** A log whose events stand by themselves as they are appended: the chain takes them, and
    what they are effects of is live. *)
Inductive written : list Event -> Prop :=
  | nothing_written : written []
  | wrote es e obs : written es -> is_known_allocation e = false -> chain (es ++ [e]) = Ok obs ->
      visible receipt_holds obs (es ++ [e]) e = Ok true -> written (es ++ [e]).

Lemma chain_snoc es e : chain (es ++ [e]) = let? h := chain es in if is_observation e then fold_change h e else Ok h.
Proof using Type. unfold chain. rewrite rfold_app. destruct (rfold _ es _) as [h|]; [|done]. cbn. by destruct (is_observation e), (fold_change h e). Qed.
Lemma fold_change_keys h e h' id : fold_change h e = Ok h' -> has_key_in id h = true -> has_key_in id h' = true.
Proof using Type.
  unfold fold_change. intros H Hid. apply rbind_ok in H as (r & _ & H). apply rbind_ok in H as (c & _ & H). do 2 (apply rbind_ok in H as (? & _ & H)).
  apply rbind_ok in H as (kept & Hk & H). injection H as <-.
  assert (Hset : forall (d : observations) k v, has_key_in id d = true -> has_key_in id (dict_set d k v) = true).
  { intros d k v. unfold has_key_in. rewrite dict_get_setting. by destruct (String.eqb k id). }
  apply Hset. destruct (operation c), (prior_id c) as [p|]; try (by injection Hk as <-).
  all: destruct (dict_get h p) as [prior|]; [|done]; do 2 (apply rbind_ok in Hk as (? & _ & Hk)); injection Hk as <-; by apply Hset.
Qed.
Lemma visible_origin_known obs es e : is_known_allocation e = false -> visible receipt_holds obs es e = Ok true -> origin_known obs e.
Proof using Type.
  intros _ Hv id Ho. apply visible_counts in Hv. specialize (Hv id Ho). apply live_keys in Hv as (o & Ho' & _).
  unfold has_key_in. destruct (dict_get obs id) eqn:E; [done|]. exfalso. apply list_elem_of_In in Ho'. clear -Ho' E.
  induction obs as [|[k w] l IH]; [done|]. cbn in E. destruct Ho' as [[= -> ->]|Ho']; [by rewrite String.eqb_refl in E|].
  destruct (String.eqb id k); [done|auto].
Qed.
Lemma written_origins es : written es -> origins_known es /\ Forall (fun e => is_known_allocation e = false) es.
Proof using Type.
  induction 1 as [|es e obs _ [(h & Hh & Hf) Ha] Hk Hc Hv]; [by split; [exists []|]|].
  split; [|apply Forall_app; split; [done|by apply Forall_singleton]]. exists obs. split; [done|]. apply Forall_app. split; [|by apply Forall_singleton, visible_origin_known with (2 := Hv)].
  rewrite chain_snoc, Hh in Hc. cbn [rbind] in Hc. eapply Forall_impl; [exact Hf|]. intros e' He' id Hid. apply He' in Hid.
  destruct (is_observation e); [by eapply fold_change_keys|by injection Hc as <-].
Qed.

(** Building again, when what was recorded before keeps its visibility. *)
Lemma rebuild_is_step h obs es log horizon c : Forall (fun e' => forall v, visible receipt_holds h es e' = Ok v -> visible receipt_holds obs log e' = Ok v) es ->
  chain es = Ok h -> project_log receipt_holds horizon es = Ok c ->
  rfold (fun s e => let? v := visible receipt_holds obs log e in if v then apply s e else Ok s) es (empty_core horizon) = Ok c.
Proof using Type.
  unfold project_log, replay. intros Hf -> H. cbn [rbind] in H.
  assert (Hg : forall l init, Forall (fun e' => forall v, visible receipt_holds h es e' = Ok v -> visible receipt_holds obs log e' = Ok v) l ->
    rfold (fun s e => let? v := visible receipt_holds h es e in if v then apply s e else Ok s) l init = Ok c ->
    rfold (fun s e => let? v := visible receipt_holds obs log e in if v then apply s e else Ok s) l init = Ok c); [|by apply Hg].
  clear Hf H. induction l as [|e0 l IH]; intros init Hf H; [done|]. apply Forall_cons in Hf as [He Hf]. cbn [rfold] in *. apply rbind_ok in H as (s & Hs & H).
  apply rbind_ok in Hs as (v & Hv & Hs). rewrite (He _ Hv). cbn [rbind]. rewrite Hs. cbn [rbind]. by apply IH.
Qed.

(** An observation the chain takes says whether it names a prior one, and is no effect. *)
Lemma names_prior_reads h e h' : is_observation e = true -> fold_change h e = Ok h' -> exists b, names_prior e = Ok b.
Proof using Type.
  unfold names_prior, fold_change. intros -> H. apply rbind_ok in H as (r & Hr & H). apply rbind_ok in H as (c & Hc & _).
  unfold decode_change in Hc. apply rbind_ok in Hc as (kv & Hkv & _). unfold closed_object in Hkv. destruct r as [| | | | | |kv']; try done.
  unfold py_get, py_get_default in *. destruct (body e) as [| | | | | |b]; try done. destruct (dict_get b "record") as [v|]; [|done].
  injection Hr as ->. cbn. destruct (dict_get kv' "prior_id"); cbn; eauto.
Qed.
(** What was recorded keeps its visibility when an event that retires nothing is appended. *)
Lemma earlier_stay h es e obs : chain es = Ok h -> Forall (origin_known h) es -> Forall (fun e => is_known_allocation e = false) es ->
  chain (es ++ [e]) = Ok obs -> names_prior e = Ok false ->
  Forall (fun e' => forall v, visible receipt_holds h es e' = Ok v -> visible receipt_holds obs (es ++ [e]) e' = Ok v) es.
Proof using Type.
  intros Hh Hf Ha Hc Hn. rewrite chain_snoc, Hh in Hc. cbn [rbind] in Hc. apply Forall_forall. intros e' He' v Hv.
  rewrite Forall_forall in Hf, Ha. destruct (is_observation e) eqn:Eo.
  - destruct (first_reading _ _ _ Eo Hn Hc) as (c & _ & Hk & ->). by eapply visible_stays; eauto.
  - injection Hc as <-. by rewrite <- (visible_log receipt_holds h es) by auto.
Qed.

#[local] Existing Instance live_projection.
(** The core a ledger keeps, folded on by one event, is the core built of the whole log, when
    the log is [written]: whether the event is a first reading, one that corrects or retracts,
    an effect, or anything else. *)
Theorem folding_on_is_replaying horizon es e p : written (es ++ [e]) -> LedgerProjection_new es horizon = Ok p ->
  agree (projection_apply p e) (LedgerProjection_new (es ++ [e]) horizon).
Proof using Type.
  intros Hw Hp. inversion Hw as [E|es' e' obs Hes Ha Hc Hv E]; [by destruct es|]. apply app_inj_tail in E as [-> ->].
  destruct (written_origins _ Hes) as [(h & Hh & Hf) Hka]. unfold LedgerProjection_new in Hp. apply rbind_ok in Hp as (c & Hb & Hp). injection Hp as <-.
  unfold projection_apply, LedgerProjection_new. cbn [source_events Ledger.horizon core_of revision build fold_in changes_prior live_projection] in *.
  rewrite List.fold_left_app. cbn [List.fold_left].
  assert (Hn : exists b, names_prior e = Ok b).
  { rewrite chain_snoc, Hh in Hc. cbn [rbind] in Hc. destruct (is_observation e) eqn:Eo; [by eapply names_prior_reads|]. unfold names_prior. rewrite Eo. eauto. }
  destruct Hn as [[] Hn]; rewrite Hn; cbn [rbind]; [done|].
  pose proof (earlier_stay h es e obs Hh Hf Hka Hc Hn) as Hst. apply (rebuild_is_step h obs es _ _ _ Hst Hh) in Hb.
  unfold project_log at 1, replay. rewrite Hc. cbn [rbind]. rewrite rfold_app, Hb. cbn [rbind rfold]. rewrite Hv. cbn [rbind]. by destruct (apply c e).
Qed.
(** So every core made by folding events on, from an empty log, is the log's replay. *)
Corollary folded_log_is_replay horizon es p0 p : written es -> LedgerProjection_new [] horizon = Ok p0 ->
  rfold projection_apply es p0 = Ok p -> LedgerProjection_new es horizon = Ok p.
Proof using Type.
  intros Hw Hp0. revert p. induction Hw as [|es e obs Hes IH Ha Hc Hv]; intros p H; [by injection H as <-|].
  rewrite rfold_app in H. apply rbind_ok in H as (p1 & H1 & H). cbn [rfold] in H. apply rbind_ok in H as (p2 & H2 & H). injection H as <-.
  apply IH in H1. pose proof (folding_on_is_replaying horizon es e p1 (wrote _ _ _ Hes Ha Hc Hv) H1) as G. rewrite H2 in G. symmetry in G. by apply agree_ok.
Qed.
End Live.

(** ** Where the two part

    The checking account of [BalanceProperties]: its log is [written], the correction and the
    effects of both readings included. *)
#[local] Existing Instance bare_payloads.
#[local] Existing Instance live_projection.
Fixpoint writes (es rest : list Event) : bool :=
  match rest with
  | [] => true
  | e :: rest' =>
      negb (is_known_allocation e)
      && match chain (es ++ [e]) with
         | Ok obs => match visible always_holds obs (es ++ [e]) e with Ok b => b | Raise _ => false end
         | Raise _ => false
         end
      && writes (es ++ [e]) rest'
  end.
Lemma writes_written es rest : written always_holds es -> writes es rest = true -> written always_holds (es ++ rest).
Proof.
  revert es. induction rest as [|e rest IH]; intros es Hw H; [by rewrite app_nil_r|]. cbn [writes] in H.
  apply andb_true_iff in H as [[Ha Hv]%andb_true_iff H]. rewrite (app_assoc es [e] rest : es ++ e :: rest = _)%list. apply IH; [|done].
  destruct (chain (es ++ [e])) as [obs|] eqn:Ec; [|done]. destruct (visible _ obs _ e) as [[]|] eqn:Ev; try done.
  eapply wrote; [done| |done|done]. by apply negb_true_iff.
Qed.
Lemma checking_is_written : written always_holds checking_events.
Proof. apply (writes_written [] checking_events); [constructor|]. by vm_compute. Qed.

(** The effect of a reading that was corrected before it was booked: folded on it counts,
    built again it does not. *)
Definition late_effect : list Event := match paid_in "e10" "7" "o1" with Ok e => [e] | Raise _ => [] end.
Definition checking_balance (r : res (LedgerProjection core)) : res (option decimal) :=
  let? p := r in running_balance (acct (core_of p)) "Assets:Chk".
Lemma hidden_effect_folded_live : exists e p, late_effect = [e] /\ LedgerProjection_new (P := core) (Projection0 := live_projection always_holds) checking_events None = Ok p
  /\ checking_balance (projection_apply (Projection0 := live_projection always_holds) p e) = Ok (Some (Fin false 110700 (-2)))
  /\ checking_balance (LedgerProjection_new (Projection0 := live_projection always_holds) (checking_events ++ late_effect) None) = Ok (Some (Fin false 110000 (-2))).
Proof. eexists _, _. split; [vm_compute; reflexivity|]. split; [vm_compute; reflexivity|]. split; vm_compute; reflexivity. Qed.
