(* ===== verification/RegistryProperties.v ===== *)
(** * RegistryProperties: what the fold keeps of an account, and when two statements are one account's

    The fold lists an account once and loses nothing it knew of it.  An answer that a
    statement belongs to a held account has grounds, and none that its numbers contradict;
    an answer that it is a new one means nothing held matches. *)
From Stdlib Require Import ZArith NArith Ascii String Lia ZifyBool ZifyN ZifyNat.
From stdpp Require Import base list numbers strings.
From S2P Require Import Prelude Text Words Json Unicode Dates Decimals Arithmetic Events EventTypes Postings Dictionaries Accounts Schedule Normalize Render Policy Grammars Identity Registry.
#[local] Open Scope string_scope.
#[local] Open Scope list_scope.

(** ** The fold *)
Section Fold.
Context `{word_table : WordTable}.

(** What one event does to the accounts: it leaves them, or it sets some. *)
Inductive touched (P : reg_account -> reg_account -> Prop) : registry -> registry -> Prop :=
  | touched_none g g' : g_acct g' = g_acct g -> touched P g g'
  | touched_one g g' g'' a st : P (reg_of g a) st -> g_acct g' = dict_set (g_acct g) a st -> touched P g' g'' -> touched P g g''.

Lemma touched_set (P : reg_account -> reg_account -> Prop) g a st : P (reg_of g a) st -> touched P g (set_reg g a st).
Proof. intros H. apply (touched_one P g (set_reg g a st) _ a st); [done..|by constructor]. Qed.

(** Everything an event that does not open the account may change of it. *)
Record grown (st st' : reg_account) : Prop := {
  gr_seen : r_seen st = true -> r_seen st' = true;
  gr_number : full_number (r_number st) = true -> r_number st' = r_number st;
  gr_institution : r_institution st <> "" -> r_institution st' = r_institution st;
  gr_names : r_names st `prefix_of` r_names st';
  gr_lines : r_lines st `prefix_of` r_lines st';
  gr_opened : r_opened_at st <> "" -> r_opened_at st' = r_opened_at st;
  gr_kind : r_kind st' = r_kind st /\ r_currency st' = r_currency st /\ r_name st' = r_name st /\ r_origin st' = r_origin st
}.
#[export] Instance grown_refl : Reflexive grown.
Proof. by intros st. Qed.
#[export] Instance grown_trans : Transitive grown.
Proof.
  intros x y z [A1 A2 A3 A4 A5 A6 (A7 & A8 & A9 & A0)] [B1 B2 B3 B4 B5 B6 (B7 & B8 & B9 & B0)]. split.
  - auto.
  - intros H. pose proof (A2 H) as E. rewrite <- E. apply B2. by rewrite E.
  - intros H. pose proof (A3 H) as E. rewrite <- E. apply B3. by rewrite E.
  - by etrans.
  - by etrans.
  - intros H. pose proof (A6 H) as E. rewrite <- E. apply B6. by rewrite E.
  - repeat split; congruence.
Qed.
Lemma add_names_prefix l names : names `prefix_of` List.fold_left add_name l names.
Proof.
  revert names. induction l as [|n l IH]; intros names; [done|]. cbn [List.fold_left]. etrans; [|apply IH].
  unfold add_name. destruct (_ || _); [done|]. by exists [n].
Qed.
Lemma grown_observed number inst names st : grown st (reg_observed number inst names st).
Proof.
  split; cbn; try done.
  - intros ->. by rewrite andb_false_r.
  - intros H%String.eqb_neq. by rewrite H.
  - apply add_names_prefix.
Qed.
Lemma grown_seen st : grown st (reg_seen st).
Proof. by split. Qed.
Lemma grown_line l st : grown st (reg_line l st).
Proof. split; cbn; try done. by eexists. Qed.

Lemma touched_lines e at_ d doc ev cur ps g g' : rfold (record_line e at_ d doc ev cur) ps g = Ok g' -> touched grown g g'.
Proof.
  revert g. induction ps as [|p ps IH]; cbn [rfold]; intros g H; run_ok; [by constructor|].
  unfold record_line in E. run_ok. apply IH in H. eapply (touched_one _ _ (set_reg _ _ _)); [|reflexivity|exact H]. apply grown_line.
Qed.
Lemma apply_touched g e g' : apply_registry g e = Ok g' -> event_type e <> JStr "AccountOpened" -> touched grown g g'.
Proof.
  unfold apply_registry. intros H Hne. run_ok. destruct (String.eqb_spec a "AccountOpened") as [->|_].
  { exfalso. apply Hne. unfold text in E. destruct (event_type e); cbn in E; congruence. }
  destruct (String.eqb _ _); [|destruct (in_words _ _); [|destruct (String.eqb _ _); [|destruct (String.eqb _ _);
    [|destruct (String.eqb _ _); [|destruct (String.eqb _ _)]]]]]; run_ok.
  - apply touched_set, grown_observed.
  - apply touched_set, grown_seen.
  - unfold record_lines in H. run_ok. apply touched_lines in H. inversion H; subst; [by constructor|]. by eapply touched_one.
  - by constructor.
  - unfold learn_alias in H. run_ok. constructor. destruct (py_truthy _); run_ok; by destruct (String.eqb _ _).
  - by constructor.
  - by constructor.
Qed.
Lemma touched_keyed P g g' : touched P g g' -> keyed (g_acct g) -> keyed (g_acct g').
Proof.
  induction 1 as [g g' E|g g' g'' a st HP E Ht IH]; intros Hk; [by rewrite E|]. apply IH. rewrite E. auto.
Qed.
Lemma apply_keyed g e g' : keyed (g_acct g) -> apply_registry g e = Ok g' -> keyed (g_acct g').
Proof.
  intros Hk H. destruct (decide (event_type e = JStr "AccountOpened")) as [Et|Hne].
  - unfold apply_registry in H. rewrite Et in H. cbn [text] in H. run_ok. rewrite String.eqb_refl in H. run_ok. by apply dict_set_keyed.
  - apply apply_touched in H; [|done]. by eapply touched_keyed.
Qed.
Lemma replay_keyed es g : replay_registry es = Ok g -> keyed (g_acct g).
Proof.
  intros H. eapply (rfold_inv apply_registry (fun x => keyed (g_acct x))); [| |exact H]; [|apply NoDup_nil_2].
  intros x b x' Hx Hb. by eapply apply_keyed.
Qed.
Lemma touched_get g g' a : touched grown g g' -> grown (reg_of g a) (reg_of g' a).
Proof.
  induction 1 as [g g' E|g g' g'' b st HP E Ht IH]; [unfold reg_of; by rewrite E|]. etrans; [|exact IH].
  unfold reg_of at 2. rewrite E, dict_get_setting. destruct (String.eqb_spec b a) as [->|_]; [exact HP|done].
Qed.
End Fold.

Section Kept.
Context `{word_table : WordTable}.
(** nothing known of an account is lost.  After any history, whatever events follow that
    do not open the account again: it stays seen, its full number once known, its issuer and
    the day it was opened stay, its holder names and its lines are only added to, its kind,
    currency, name and origin stay; and no account is listed twice. *)
Theorem nothing_known_is_lost es more g g' a : replay_registry es = Ok g ->
  Forall (fun e => event_type e <> JStr "AccountOpened") more -> rfold apply_registry more g = Ok g' ->
  grown (reg_of g a) (reg_of g' a) /\ keyed (g_acct g').
Proof.
  intros Hg%replay_keyed Hm. revert g Hg. induction Hm as [|e more He Hm IH]; cbn [rfold]; intros g Hg H; run_ok; [by split|].
  match goal with E : apply_registry g e = Ok ?x |- _ => rename E into Hx; rename x into g1 end.
  destruct (IH g1) as [Hgrown Hk]; [by eapply apply_keyed|done|]. split; [|done]. etrans; [|exact Hgrown].
  apply touched_get. by eapply apply_touched.
Qed.
End Kept.

(** ** Whose statement it is *)
Section Resolve.
Context `{case_map : CaseMap} `{word_table : WordTable}.

Definition holds (g : registry) (s : Signals) (p : string * reg_account) : Prop :=
  dict_get (g_acct g) p.1 = Some p.2 /\ r_seen p.2 = true /\ r_kind p.2 = s_kind s.
Lemma known_spec g s p : keyed (g_acct g) -> p ∈ known g s <-> holds g s p.
Proof using Type.
  intros Hk. unfold known, holds. rewrite list_elem_of_In, List.filter_In, andb_true_iff, String.eqb_eq, <- list_elem_of_In. split.
  - intros (H & Hs & Hkind). split; [|done]. destruct p. by apply elem_dict_get.
  - intros (H & Hs & Hkind). split; [|done]. destruct p. by apply dict_get_elem.
Qed.
Lemma filter_known g s f p : keyed (g_acct g) -> p ∈ List.filter f (known g s) -> holds g s p /\ f p = true.
Proof using Type.
  intros Hk H. apply list_elem_of_In, List.filter_In in H as [H Hf]. split; [|done]. apply known_spec; [done|]. by apply list_elem_of_In.
Qed.
Lemma find_known g s f p : keyed (g_acct g) -> List.find f (known g s) = Some p -> holds g s p /\ f p = true.
Proof using Type.
  intros Hk H. apply List.find_some in H as [H Hf]. split; [|done]. apply known_spec; [done|]. by apply list_elem_of_In.
Qed.
Lemma candidates_spec g s p : keyed (g_acct g) -> p ∈ number_candidates g s ->
  holds g s p /\ number_candidate s p = true /\ given (mine_number s) = true.
Proof using Type.
  intros Hk. unfold number_candidates. destruct (given _); [|by intros ?%elem_of_nil]. intros H%filter_known; tauto.
Qed.

(** The ways an answer may rest on what is held, when no person settled the document. *)
Inductive grounds (g : registry) (s : Signals) : string * reg_account -> Prop :=
  | by_full_number p : same_full s p = true -> given (mine_full s) = true -> grounds g s p
  | by_learned_alias p : dict_get (g_aliases g) (signal_key s) = Some p.1 -> grounds g s p
  | by_digits_holder_product p : number_candidate s p = true -> compatible s p = true -> grounds g s p
  | by_printed_reference p reference : eligible_source g s = Some reference ->
      (exists c, c ∈ claims_of g p.1 /\ eligible c = true /\ reference_text c = reference) -> grounds g s p
  | by_own_label p : given (mine_number s) = false -> p.1 = signal_key s -> grounds g s p.
(** The answer names a held account of the kind, which no number contradicts. *)
Definition sound_match (g : registry) (s : Signals) (p : string * reg_account) : Prop :=
  holds g s p /\ (given (mine_number s) = true -> numbers_differ (mine_full s) (their_full p.2) = false) /\ grounds g s p.
Definition awaited (g : registry) (s : Signals) (a : string) : Prop :=
  dict_get (g_acct g) a = None /\ dict_get (g_aliases g) (signal_key s) = Some a /\ a = signal_key s.

Lemma candidate_differs s p : number_candidate s p = true -> numbers_differ (mine_full s) (their_full p.2) = false.
Proof using Type. unfold number_candidate. intros [_ H]%andb_true_iff. by apply negb_true_iff. Qed.
Lemma one_candidate_sound g s p : holds g s p -> number_candidate s p = true ->
  res_verdict (one_candidate g s p) = Same -> sound_match g s p /\ res_account (one_candidate g s p) = p.1.
Proof using Type.
  intros Hh Hc. unfold one_candidate. destruct (_ && _ && _) eqn:E.
  - intros _. split; [|done]. split; [done|]. split; [intros _; by apply candidate_differs|]. apply by_learned_alias.
    apply andb_true_iff in E as [[E _]%andb_true_iff _]. by apply bool_decide_eq_true in E.
  - destruct (compatible s p) eqn:Ec; [|done]. intros _. split; [|done]. split; [done|]. split; [intros _; by apply candidate_differs|].
    by apply by_digits_holder_product.
Qed.
Lemma several_sound g s ps : (forall p, p ∈ ps -> holds g s p /\ number_candidate s p = true) ->
  res_verdict (several_candidates s ps) = Same -> exists p, sound_match g s p /\ res_account (several_candidates s ps) = p.1.
Proof using Type.
  intros Hall. unfold several_candidates. destruct (List.filter (compatible s) ps) as [|p [|q r]] eqn:E; [done| |done].
  intros _. exists p. split; [|done]. assert (Hp : In p (List.filter (compatible s) ps)) by (rewrite E; by left).
  apply List.filter_In in Hp as [Hp Hc]. apply list_elem_of_In in Hp. destruct (Hall p Hp) as [Hh Hn].
  split; [done|]. split; [intros _; by apply candidate_differs|]. by apply by_digits_holder_product.
Qed.
Lemma learned_sound g s t : learned g s = Some t ->
  awaited g s t \/ exists st, sound_match g s (t, st).
Proof using Type.
  unfold learned. destruct (dict_get (g_aliases g) (signal_key s)) as [u|] eqn:Ea; [|done].
  destruct (String.eqb_spec u ""); [done|]. destruct (dict_get (g_acct g) u) as [st|] eqn:Eg.
  - destruct (_ && _) eqn:E; [|done]. intros [= <-]. right. exists st.
    apply andb_true_iff in E as [[[_ Hs]%andb_true_iff Hk]%andb_true_iff Hd]. apply String.eqb_eq in Hk.
    split; [done|]. split; [intros _; by apply negb_true_iff|]. by apply by_learned_alias.
  - destruct (String.eqb_spec u (signal_key s)) as [->|]; [|done]. intros [= <-]. by left.
Qed.
Lemma by_label_sound g s out held : (forall p, p ∈ held -> holds g s p) ->
  let r := by_label g s out held in
  (res_verdict r = Same -> exists p, sound_match g s p /\ res_account r = p.1)
  /\ (res_verdict r = New -> res_account r = signal_key s
      /\ (given (mine_number s) = false -> out (signal_key s) = false -> forall st, ~ holds g s (signal_key s, st))
      /\ forall p, p ∈ held -> holder_matches s p = false).
Proof using Type.
  intros Hheld r. subst r. unfold by_label. destruct (_ && _) eqn:E.
  - split; [|done]. intros _. apply andb_true_iff in E as [[Hn _]%andb_true_iff E]. apply negb_true_iff in Hn.
    destruct (dict_get (g_acct g) (signal_key s)) as [st|] eqn:Eg; [|done]. apply andb_true_iff in E as [Es Ek].
    apply String.eqb_eq in Ek. exists (signal_key s, st). split; [|done]. split; [done|]. split; [congruence|].
    by apply by_own_label.
  - destruct (List.find _ _) as [p|] eqn:Ef; [done|]. split; [done|]. intros _. split; [done|]. split.
    + intros Hn Ho st (Hg & Hs & Hk). cbn in *. rewrite Hn, Ho, Hg, Hs, Hk, String.eqb_refl in E. done.
    + intros p Hp. eapply List.find_none; [exact Ef|]. by apply list_elem_of_In.
Qed.
Lemma fate_match g s reference p c : fate g s reference p = Matches c ->
  exists claim, claim ∈ claims_of g p.1 /\ eligible claim = true /\ reference_text claim = reference.
Proof using Type.
  unfold fate. destruct (_ || _); [done|]. destruct (given _); [done|]. destruct (in_words _ _) eqn:E; [|by destruct (bool_decide _)].
  intros _. apply in_words_spec, list_elem_of_In, in_map_iff in E as (claim & <- & E). apply List.filter_In in E as [E He].
  exists claim. by rewrite list_elem_of_In.
Qed.
Lemma matches_elem fates p : p ∈ matches fates -> exists c, (p, Matches c) ∈ fates.
Proof using Type.
  unfold matches. rewrite list_elem_of_In, List.in_flat_map. intros ([q f] & H & Hp). destruct f; try done. cbn in Hp.
  destruct Hp as [->|[]]. exists conflict. by apply list_elem_of_In.
Qed.
Lemma source_unnumbered g s reference : eligible_source g s = Some reference -> given (mine_number s) = false.
Proof using Type.
  unfold eligible_source. destruct (s_source s) as [c|]; [|done]. destruct (_ && _) eqn:E; [|done]. intros _.
  apply andb_true_iff in E as [_ E]. by apply negb_true_iff in E.
Qed.
Lemma by_reference_sound g s : keyed (g_acct g) -> res_verdict (by_reference g s) = Same ->
  exists p, sound_match g s p /\ res_account (by_reference g s) = p.1.
Proof using Type.
  intros Hk. unfold by_reference. destruct (eligible_source g s) as [reference|] eqn:Es.
  - pose proof (source_unnumbered _ _ _ Es) as Hn. set (fates := List.map _ (known g s)). destruct (matches fates) as [|p [|q r]] eqn:Em; [|destruct (conflicts fates); [done|]|done].
    + apply by_label_sound. intros p H. by apply filter_known in H as [? _].
    + intros _. exists p. split; [|done]. assert (Hp : p ∈ matches fates) by (rewrite Em; left).
      apply matches_elem in Hp as (c & Hp). apply list_elem_of_In, in_map_iff in Hp as (q & [= -> Hf] & Hq).
      apply list_elem_of_In, known_spec in Hq; [|done]. split; [done|]. split; [congruence|].
      eapply by_printed_reference; [exact Es|]. by eapply fate_match.
  - apply by_label_sound. intros p H. by apply known_spec.
Qed.
Lemma same_full_spec g s p : keyed (g_acct g) ->
  (if given (mine_full s) then List.find (same_full s) (known g s) else None) = Some p -> sound_match g s p /\ mine_full s = their_full p.2.
Proof using Type.
  intros Hk. destruct (given (mine_full s)) eqn:Hg; [|done]. intros [Hh Hf]%find_known; [|done].
  pose proof Hf as Hf'. unfold same_full in Hf'. apply andb_true_iff in Hf' as [Ht He]. apply bool_decide_eq_true in He.
  split; [|done]. split; [done|]. split; [|by apply by_full_number]. intros _. unfold numbers_differ. rewrite He, bool_decide_eq_true_2 by done.
  by rewrite andb_false_r.
Qed.
Lemma by_reference_new g s : keyed (g_acct g) -> res_verdict (by_reference g s) = New ->
  res_account (by_reference g s) = signal_key s
  /\ (eligible_source g s = None -> forall p, holds g s p ->
      holder_matches s p = false /\ (given (mine_number s) = false -> p.1 <> signal_key s)).
Proof using Type.
  intros Hk. unfold by_reference. destruct (eligible_source g s) as [reference|] eqn:Es.
  - intros Hv. split; [|done]. revert Hv. destruct (matches _) as [|p [|q r]]; [|by destruct (conflicts _)|done].
    intros Hv. by apply (by_label_sound g s _ _ (fun p H => proj1 (filter_known g s _ p Hk H))) in Hv as [? _].
  - intros Hv. assert (Hh : forall p, p ∈ known g s -> holds g s p) by (intros p; by apply known_spec).
    apply (by_label_sound g s _ _ Hh) in Hv as (Ha & Hl & Hm). split; [done|]. intros _ p Hp. split.
    + apply Hm. by apply known_spec.
    + intros Hn E. destruct p as [a st]. cbn in E. subst a. by eapply Hl.
Qed.

(** C10: a statement is never booked to a held account on a guess.  Unless a person settled
    the document, an answer "same" means that the printed numbers do not contradict each
    other, and that the account answered either is the one a person's ruling awaits and is
    not open yet, or is held, of the statement's kind, with no other full number than the
    statement's, on grounds: its full number, a learned ruling, its digits with its holder
    and product, a reference a document printed, or, when no number is printed, its own key. *)
Theorem same_is_never_a_guess es g s : replay_registry es = Ok g -> document_ruling g s = None ->
  res_verdict (resolve g s) = Same ->
  conflicting_number_signals (s_number s) (s_ref s) = false
  /\ (awaited g s (res_account (resolve g s)) \/ exists st, sound_match g s (res_account (resolve g s), st)).
Proof.
  intros Hg%replay_keyed Hd. unfold resolve. rewrite Hd. destruct (conflicting_number_signals _ _); [done|].
  destruct (if given _ then _ else _) as [p|] eqn:Ef.
  { intros _. split; [done|]. right. apply same_full_spec in Ef as [Hp _]; [|done]. exists p.2. by destruct p. }
  destruct (number_candidates g s) as [|p [|q r]] eqn:Ec.
  - destruct (learned g s) as [t|] eqn:El.
    + intros _. split; [done|]. by apply learned_sound in El.
    + intros (p & Hp & ->)%by_reference_sound; [|done]. split; [done|]. right. exists p.2. by destruct p.
  - intros H. destruct (candidates_spec g s p Hg) as (Hh & Hn & _); [rewrite Ec; left|].
    apply one_candidate_sound in H as [Hp ->]; [|done..]. split; [done|]. right. exists p.2. by destruct p.
  - intros H. rewrite <- Ec in *. apply (several_sound g) in H as (x & Hx & ->).
    + split; [done|]. right. exists x.2. by destruct x.
    + intros x Hx. apply candidates_spec in Hx; [|done]. tauto.
Qed.

(** an account is recognised by its full number, and "new" means nothing held matches.
    When no person settled the document and its number signals agree: a statement that
    prints in full the number of a held account of its kind is that account's, whatever
    name it prints; and one answered "new" gets its own key, prints the full number of no
    held account, shares the digits and issuer of none, and, when no page reference is at
    hand, shares no holder that could be told apart and does not own that key already. *)
Theorem full_numbers_decide es g s : replay_registry es = Ok g -> document_ruling g s = None ->
  conflicting_number_signals (s_number s) (s_ref s) = false ->
  (given (mine_full s) = true -> (exists p, holds g s p /\ mine_full s = their_full p.2) ->
     res_verdict (resolve g s) = Same
     /\ exists st, holds g s (res_account (resolve g s), st) /\ mine_full s = their_full st)
  /\ (res_verdict (resolve g s) = New ->
        res_account (resolve g s) = signal_key s
        /\ forall p, holds g s p ->
             (given (mine_full s) = true -> mine_full s <> their_full p.2)
             /\ (given (mine_number s) = true -> number_candidate s p = false)
             /\ (eligible_source g s = None -> holder_matches s p = false
                 /\ (given (mine_number s) = false -> p.1 <> signal_key s))).
Proof.
  intros Hg%replay_keyed Hd Hc. unfold resolve. rewrite Hd, Hc.
  destruct (if given (mine_full s) then _ else _) as [q|] eqn:Ef.
  - split; [|done]. intros _ _. split; [done|]. apply same_full_spec in Ef as [[Hq _] He]; [|done]. exists q.2. by destruct q.
  - assert (Hfull : forall p, holds g s p -> given (mine_full s) = true -> mine_full s <> their_full p.2).
    { intros p Hp Hgi E. rewrite Hgi in Ef. apply known_spec, list_elem_of_In in Hp; [|done].
      apply (List.find_none _ _ Ef) in Hp. unfold same_full in Hp. rewrite <- E, Hgi, bool_decide_eq_true_2 in Hp; done. }
    split; [intros Hgi (p & Hp & E); by apply Hfull in E|].
    destruct (number_candidates g s) as [|p [|q r]] eqn:Ec.
    + destruct (learned g s); [done|]. intros [Ha Hn]%by_reference_new; [|done]. split; [done|]. intros p Hp.
      split; [by apply Hfull|]. split; [|by intros ?; apply Hn]. intros Hgi. destruct (number_candidate s p) eqn:E; [|done].
      exfalso. apply known_spec, list_elem_of_In in Hp; [|done]. unfold number_candidates in Ec. rewrite Hgi in Ec.
      assert (Hin : In p (List.filter (number_candidate s) (known g s))) by (by apply List.filter_In). by rewrite Ec in Hin.
    + unfold one_candidate. destruct (_ && _); [done|]. by destruct (compatible s p).
    + unfold several_candidates. by destruct (List.filter _ _) as [|? [|? ?]].
Qed.
End Resolve.

(** ** Two cards with the same last four *)
#[local] Instance plain_case : CaseMap := ascii_case.
#[local] Instance plain_words : WordTable := ascii_word.
Definition opened_card (a number name holder : string) : Event :=
  event ("e:" ++ a)%string "AccountOpened" "2026-01-01"
    [("account_id", JStr a); ("kind", JStr "liability"); ("name", JStr name); ("currency", JStr "USD");
     ("jurisdiction", JStr ""); ("institution", JStr "Northbank"); ("account_number", JStr number);
     ("account_names", words [holder]); ("origin", JStr ISSUED)] (Provenance_doc "d1").
Definition two_cards : list Event :=
  [opened_card "acct:northbank:2222" "4000111122222222" "Rewards Card" "A Person";
   opened_card "acct:liability:77" "4999111122222222" "Travel Card" "A Person"].
Definition cards : registry := match replay_registry two_cards with Ok g => g | Raise _ => empty_registry end.
Definition from_card (number ref : string) : Signals := mkSignals "Northbank N.A." number ref ["A Person"] "liability" "d2" "USD" None.
Definition seen_again : Event := account_identity_observed "e3" "acct:liability:77" "2026-02-01" "Other" "1111" ["B Person"] None.

Lemma nothing_known_is_lost_witness : exists g', rfold apply_registry [seen_again] cards = Ok g'
  /\ r_number (reg_of g' "acct:liability:77") = "4999111122222222" /\ r_names (reg_of g' "acct:liability:77") = ["A Person"; "B Person"]
  /\ grown (reg_of cards "acct:liability:77") (reg_of g' "acct:liability:77") /\ keyed (g_acct g').
Proof.
  eexists. split; [vm_compute; reflexivity|]. split; [vm_compute; reflexivity|]. split; [vm_compute; reflexivity|].
  apply (nothing_known_is_lost two_cards [seen_again]); [vm_compute; reflexivity|by repeat constructor|vm_compute; reflexivity].
Defined.
Lemma same_is_never_a_guess_witness :
  res_account (resolve cards (from_card "x2222" "Travel")) = "acct:liability:77"
  /\ (awaited cards (from_card "x2222" "Travel") (res_account (resolve cards (from_card "x2222" "Travel")))
      \/ exists st, sound_match cards (from_card "x2222" "Travel") (res_account (resolve cards (from_card "x2222" "Travel")), st)).
Proof.
  split; [vm_compute; reflexivity|].
  apply (same_is_never_a_guess two_cards cards (from_card "x2222" "Travel")); vm_compute; reflexivity.
Defined.
Lemma full_numbers_decide_witness :
  res_verdict (resolve cards (from_card "4000 1111 2222 2222" "Anything")) = Same
  /\ res_account (resolve cards (from_card "4000 1111 2222 2222" "Anything")) = "acct:northbank:2222"
  /\ res_verdict (resolve cards (from_card "x2222" "Card")) = Ambiguous.
Proof.
  split; [|split; vm_compute; reflexivity].
  destruct (full_numbers_decide two_cards cards (from_card "4000 1111 2222 2222" "Anything")) as [Hs _]; [vm_compute; reflexivity..|].
  apply Hs; [vm_compute; reflexivity|]. exists ("acct:northbank:2222", reg_of cards "acct:northbank:2222").
  split; [split; [|split]|]; vm_compute; reflexivity.
Defined.
