(* ===== verification/Overlays.v ===== *)
(** * Overlays: what is said of movements without moving money

    The slice of product/viva/ledger/projection/core.py that keeps transfer links and
    suggestions, categories, rulings and the merchant catalog, over the accounts of
    [Registry].  The label aliases, tags, attribute history and the indexes the same
    handlers keep are left out; payment allocations are an instrument effect and are given. *)
From Stdlib Require Import ZArith NArith Ascii String Lia ZifyBool ZifyN ZifyNat.
From stdpp Require Import base list numbers strings.
From S2P Require Import Prelude Text Words Json Unicode Dates Decimals Arithmetic Acquisition Events EventTypes Postings Dictionaries Accounts Schedule Normalize Render Policy Grammars Identity Registry.
#[local] Open Scope string_scope.

Definition dict : Type := list (string * json).

(** ** State *)
Inductive link := Linked (grade by_ decided_by : json) | Unlinked.
#[export] Instance link_eq_dec : EqDecision link.
Proof. solve_decision. Defined.
(** What the body of a TransferSuggested is read for. *)
Record suggestion := mkSuggestion { sg_a : string; sg_candidates : list string }.
Record core := mkCore
  { k_registry : registry;
    k_links : list ((string * string) * link);
    k_suggestions : list (string * suggestion);
    k_categories : list (string * dict);
    k_rulings : list ((string * string) * dict);
    k_catalog : list (string * dict);
    k_allocations : list (string * decimal) }.
Definition empty_core (allocations : list (string * decimal)) : core := mkCore empty_registry [] [] [] [] [] allocations.

(** [frozenset({a, b})]. *)
Definition pair_of (a b : string) : string * string := if String.leb a b then (a, b) else (b, a).
Definition with_links (c : core) (l : list ((string * string) * link)) (s : list (string * suggestion)) : core :=
  mkCore (k_registry c) l s (k_categories c) (k_rulings c) (k_catalog c) (k_allocations c).
Definition with_rulings (c : core) (cats : list (string * dict)) (r : list ((string * string) * dict)) : core :=
  mkCore (k_registry c) (k_links c) (k_suggestions c) cats r (k_catalog c) (k_allocations c).
Definition with_catalog (c : core) (m : list (string * dict)) : core :=
  mkCore (k_registry c) (k_links c) (k_suggestions c) (k_categories c) (k_rulings c) m (k_allocations c).
Definition with_registry (c : core) (g : registry) : core :=
  mkCore g (k_links c) (k_suggestions c) (k_categories c) (k_rulings c) (k_catalog c) (k_allocations c).

Definition dict_pop {A} (d : list (string * A)) (k : string) : list (string * A) := List.filter (fun p => negb (String.eqb p.1 k)) d.
Definition body_dict (e : Event) : res dict := match body e with JObj kv => Ok kv | _ => Raise TypeError end.
(** [(v or {}).get(k)]. *)
Definition jget (v : json) (k : string) : json := match v with JObj kv => default JNull (dict_get kv k) | _ => JNull end.
Definition dget (d : dict) (k : string) (v : json) : json := default v (dict_get d k).

(** ** Transfers *)
Definition link_transfer (c : core) (a b : string) (l : link) : core :=
  with_links c (assoc_set (k_links c) (pair_of a b) l) (dict_pop (dict_pop (k_suggestions c) a) b).
Definition suggest_transfer (c : core) (a : string) (candidates : list string) : core :=
  with_links c (k_links c) (dict_set (k_suggestions c) a (mkSuggestion a candidates)).

(** ** Categories *)
Definition _GRADE_RANK : list (string * nat) := [(VERIFIED, 3); (CORROBORATED, 2); (UNVERIFIED, 1)].
Definition _grade_rank (grade : json) : nat := match grade with JStr g => default 0 (dict_get _GRADE_RANK g) | _ => 0 end.
(** [d.get(part + "_" + what, d.get(what, ""))]. *)
Definition component (d : dict) (part what : string) : json := dget d (part ++ "_" ++ what) (dget d what (JStr "")).
Definition has_subcategory (d : dict) : bool := py_truthy (dget d "subcategory" JNull).
Definition subcategory_grade (d : dict) : json := if has_subcategory d then component d "subcategory" "grade" else JStr "".
Definition dict_update (d : dict) (l : list (string * json)) : dict := List.fold_left (fun d p => dict_set d p.1 p.2) l d.
Definition merge_category (prior incoming : dict) : dict :=
  let category := if (_grade_rank (component prior "category" "grade") <=? _grade_rank (component incoming "category" "grade"))%nat
                  then incoming else prior in
  let subcategory := if (_grade_rank (subcategory_grade prior) <=? _grade_rank (subcategory_grade incoming))%nat
                     then incoming else prior in
  let cat_grade := component category "category" "grade" in
  let sub_grade := component subcategory "subcategory" "grade" in
  let cat_by := component category "category" "by" in
  let sub_by := component subcategory "subcategory" "by" in
  dict_update category
    [("subcategory", dget subcategory "subcategory" (JStr "")); ("subcategory_grade", sub_grade); ("subcategory_by", sub_by);
     ("category_grade", cat_grade); ("category_by", cat_by);
     ("grade", if (_grade_rank sub_grade <? _grade_rank cat_grade)%nat then sub_grade else cat_grade);
     ("by", if bool_decide (cat_by = sub_by) then cat_by else JStr "mixed")].
Definition assign_category (c : core) (key : string) (d : dict) : core :=
  with_rulings c (dict_set (k_categories c) key
                    match dict_get (k_categories c) key with None => d | Some prior => merge_category prior d end) (k_rulings c).

(** ** Rulings *)
Definition verified (d : dict) : bool := py_eq_str (dget d "grade" JNull) VERIFIED.
Definition record_ruling (c : core) (scope subject : string) (ruling : dict) : core :=
  let standing := match assoc_get (k_rulings c) (scope, subject) with
                  | None => true
                  | Some prior => verified ruling || negb (verified prior)
                  end in
  if standing then with_rulings c (k_categories c) (assoc_set (k_rulings c) (scope, subject) ruling) else c.
Definition restore_treatment (c : core) (movement : string) (previous previous_category : json) : core :=
  let key := (SCOPE_MOVEMENT, movement) in
  with_rulings c
    (match previous_category with JObj kv => if py_truthy previous_category then dict_set (k_categories c) movement kv
                                             else dict_pop (k_categories c) movement
     | _ => dict_pop (k_categories c) movement end)
    (match previous with JObj kv => if py_truthy previous then assoc_set (k_rulings c) key kv else assoc_pop (k_rulings c) key
     | _ => assoc_pop (k_rulings c) key end).

(** ** The catalog *)
Definition text_items (v : json) : list string :=
  match v with JArr l => List.flat_map (fun x => match x with JStr s => [s] | _ => [] end) l | _ => [] end.
Definition aliases_of (d : dict) : list string := text_items (dget d "aliases" JNull).
Definition catalog_record (c : core) (merchant : string) (d : dict) : core :=
  match dict_get (k_catalog c) merchant with
  | None =>
      with_catalog c (dict_set (k_catalog c) merchant
                        match aliases_of d with [] => d | al => dict_set d "aliases" (words (sorted_set al)) end)
  | Some prior =>
      let both := sorted_set (aliases_of d ++ aliases_of prior)%list in
      if (_grade_rank (dget prior "grade" JNull) <=? _grade_rank (dget d "grade" JNull))%nat then
        with_catalog c (dict_set (k_catalog c) merchant
                          match both with [] => d | _ => dict_set d "aliases" (words both) end)
      else
        match aliases_of d with
        | [] => c
        | _ => if bool_decide (both = sorted_set (aliases_of prior)) then c
               else with_catalog c (dict_set (k_catalog c) merchant (dict_set prior "aliases" (words both)))
        end
  end.

(** ** The fold *)
Definition apply_overlay (c : core) (e : Event) : res core :=
  let? et := text (event_type e) in
  if String.eqb et "TransferLinked" then
    let? a := body_item e "a" in
    let? b := body_item e "b" in
    let? kv := body_dict e in
    Ok (link_transfer c a b (Linked (dget kv "grade" (JStr "")) (dget kv "by" (JStr ""))
                               (let ev := dget kv "evidence" JNull in
                                match ev with JObj ekv => dget ekv "decided_by" (JStr "") | _ => JStr "" end)))
  else if String.eqb et "TransferUnlinked" then
    let? a := body_item e "a" in
    let? b := body_item e "b" in
    Ok (link_transfer c a b Unlinked)
  else if String.eqb et "TransferSuggested" then
    let? a := body_item e "a" in
    let? cands := body_names_or e "candidates" in
    Ok (suggest_transfer c a cands)
  else if String.eqb et "CategoryAssigned" then
    let? key := body_item e "movement_key" in
    let? kv := body_dict e in
    Ok (assign_category c key kv)
  else if String.eqb et "AccountingTreatmentRestored" then
    let? movement := body_item e "movement" in
    let? previous := py_getitem (body e) "previous" in
    let? category := py_get (body e) "previous_category" in
    Ok (restore_treatment c movement previous category)
  else if String.eqb et "RulingRecorded" then
    let? kv := body_dict e in
    let? scope := body_item e "scope" in
    let? subject := body_item e "subject" in
    Ok (record_ruling c scope subject
          match dict_get kv "occurred_at" with Some _ => kv | None => (kv ++ [("occurred_at", occurred_at e)])%list end)
  else if in_words et ["MerchantCategorized"; "MerchantEnriched"] then
    let? merchant := body_item e "merchant" in
    let? kv := body_dict e in
    Ok (catalog_record c merchant kv)
  else Ok c.

Definition apply_core `{word_table : WordTable} (c : core) (e : Event) : res core :=
  let? g := apply_registry (k_registry c) e in
  apply_overlay (with_registry c g) e.
(** Over the events a projection folds, which [Visibility.visible_events] picks from a log. *)
Definition replay_core `{word_table : WordTable} (allocations : list (string * decimal)) (es : list Event) : res core :=
  rfold apply_core es (empty_core allocations).
