(* ===== verification/OverlayProperties.v ===== *)
(** * OverlayProperties: what is known of money is not weakened

    Rulings, categories and the merchant catalog carry a grade.  Whatever is recorded later,
    a verified ruling is replaced only by a verified one, the parts of a category and the
    record of a merchant keep their grade or gain, and no alias is lost; only an undone
    correction puts back what was before it. *)
From Stdlib Require Import ZArith NArith Ascii String Lia ZifyBool ZifyN ZifyNat.
From stdpp Require Import base list numbers strings.
From S2P Require Import Prelude Text Words Json Unicode Dates Decimals Arithmetic Acquisition Events EventTypes Postings Dictionaries Accounts Schedule Normalize Render Policy Grammars Identity Registry Overlays.
#[local] Open Scope string_scope.
#[local] Open Scope list_scope.

(** ** Ranks *)
Definition category_rank (d : dict) : nat := _grade_rank (component d "category" "grade").
Definition subcategory_rank (d : dict) : nat := _grade_rank (subcategory_grade d).
Definition record_rank (d : dict) : nat := _grade_rank (dget d "grade" JNull).

Lemma dget_set d k v j w : dget (dict_set d k v) j w = if String.eqb k j then v else dget d j w.
Proof. unfold dget. rewrite dict_get_setting. by case_match. Qed.
Definition category_source (prior incoming : dict) : dict :=
  if (category_rank prior <=? category_rank incoming)%nat then incoming else prior.
Definition subcategory_source (prior incoming : dict) : dict :=
  if (subcategory_rank prior <=? subcategory_rank incoming)%nat then incoming else prior.
Lemma merged_category prior incoming :
  component (merge_category prior incoming) "category" "grade" = component (category_source prior incoming) "category" "grade".
Proof.
  unfold merge_category, dict_update. cbn [List.fold_left fst snd]. unfold component at 1. rewrite !dget_set.
  cbn [String.eqb Ascii.eqb Bool.eqb append]. reflexivity.
Qed.
Lemma merged_subcategory prior incoming :
  subcategory_grade (merge_category prior incoming) = subcategory_grade (subcategory_source prior incoming).
Proof.
  unfold merge_category, dict_update. cbn [List.fold_left fst snd]. unfold subcategory_grade at 1, has_subcategory at 1.
  rewrite !dget_set. cbn [String.eqb Ascii.eqb Bool.eqb append]. fold (subcategory_rank prior). fold (subcategory_rank incoming).
  fold (subcategory_source prior incoming). unfold subcategory_grade, has_subcategory, dget. destruct (dict_get (subcategory_source prior incoming) "subcategory") as [v|]; cbn [default id]; [|done].
  change (id v) with v. destruct (py_truthy v); [|done]. unfold component at 1. by rewrite !dget_set.
Qed.
Lemma merge_category_rank prior incoming :
  category_rank (merge_category prior incoming) = Nat.max (category_rank prior) (category_rank incoming).
Proof.
  unfold category_rank at 1. rewrite merged_category. unfold category_source.
  destruct (Nat.leb_spec (category_rank prior) (category_rank incoming)); unfold category_rank in *; lia.
Qed.
Lemma merge_subcategory_rank prior incoming :
  subcategory_rank (merge_category prior incoming) = Nat.max (subcategory_rank prior) (subcategory_rank incoming).
Proof.
  unfold subcategory_rank at 1. rewrite merged_subcategory. unfold subcategory_source.
  destruct (Nat.leb_spec (subcategory_rank prior) (subcategory_rank incoming)); unfold subcategory_rank in *; lia.
Qed.

(** ** What is kept *)
Record knows_more (c c' : core) : Prop := {
  km_catalog m d : dict_get (k_catalog c) m = Some d ->
    exists d', dict_get (k_catalog c') m = Some d' /\ (record_rank d <= record_rank d')%nat /\ forall a, a ∈ aliases_of d -> a ∈ aliases_of d';
  km_categories k d : dict_get (k_categories c) k = Some d ->
    exists d', dict_get (k_categories c') k = Some d' /\ (category_rank d <= category_rank d')%nat /\ (subcategory_rank d <= subcategory_rank d')%nat;
  km_rulings s d : assoc_get (k_rulings c) s = Some d ->
    exists d', assoc_get (k_rulings c') s = Some d' /\ (verified d = true -> verified d' = true)
}.
#[export] Instance knows_more_refl : Reflexive knows_more.
Proof. intros c. split; intros; eexists; repeat split; try done; lia. Qed.
#[export] Instance knows_more_trans : Transitive knows_more.
Proof.
  intros x y z [A1 A2 A3] [B1 B2 B3]. split.
  - intros m d (d1 & H1 & R1 & L1)%A1. destruct (B1 m d1 H1) as (d2 & H2 & R2 & L2). exists d2. split; [done|]. split; [lia|auto].
  - intros m d (d1 & H1 & R1 & L1)%A2. destruct (B2 m d1 H1) as (d2 & H2 & R2 & L2). exists d2. split; [done|]. lia.
  - intros s d (d1 & H1 & V1)%A3. destruct (B3 s d1 H1) as (d2 & H2 & V2). exists d2. split; [done|auto].
Qed.
Lemma same_knowledge c c' : k_catalog c' = k_catalog c -> k_categories c' = k_categories c -> k_rulings c' = k_rulings c -> knows_more c c'.
Proof.
  intros E1 E2 E3. split; rewrite ?E1, ?E2, ?E3; intros; eexists; repeat split; try done; lia.
Qed.
Lemma assign_knows c key d : knows_more c (assign_category c key d).
Proof.
  split; try (intros; eexists; by repeat split; try done; lia). intros k d0 H. cbn [assign_category with_rulings k_categories].
  rewrite dict_get_setting. destruct (String.eqb_spec key k) as [->|_].
  - rewrite H. eexists. split; [done|]. rewrite merge_category_rank, merge_subcategory_rank. lia.
  - exists d0. split; [done|]. lia.
Qed.
Lemma ruling_knows c scope subject d : knows_more c (record_ruling c scope subject d).
Proof.
  unfold record_ruling. destruct (match assoc_get (k_rulings c) (scope, subject) with Some _ => _ | None => _ end) eqn:Es; [|reflexivity].
  split; try (intros; eexists; by repeat split; try done; lia). intros s d0 H. cbn [with_rulings k_rulings]. rewrite assoc_get_set.
  destruct (decide ((scope, subject) = s)) as [<-|_]; [|by exists d0]. rewrite H in Es. exists d. split; [done|]. intros Hv.
  rewrite Hv in Es. by destruct (verified d).
Qed.
Lemma text_items_words l : text_items (words l) = l.
Proof. cbn. induction l as [|x l IH]; [done|]. cbn. by rewrite IH. Qed.
Lemma aliases_set d l : aliases_of (dict_set d "aliases" (words l)) = l.
Proof. unfold aliases_of. rewrite dget_set. apply text_items_words. Qed.
Lemma rank_set d l : record_rank (dict_set d "aliases" (words l)) = record_rank d.
Proof. unfold record_rank. by rewrite dget_set. Qed.
Lemma catalog_knows c m d : knows_more c (catalog_record c m d).
Proof.
  unfold catalog_record. destruct (dict_get (k_catalog c) m) as [prior|] eqn:Ep.
  - set (both := sorted_set (aliases_of d ++ aliases_of prior)).
    assert (Hin : forall a, a ∈ aliases_of prior -> a ∈ both) by (intros a Ha; subst both; rewrite sorted_set_elem, elem_of_app; by right).
    assert (Hset : forall d', (record_rank prior <= record_rank d')%nat -> (forall a, a ∈ both -> a ∈ aliases_of d') ->
                   knows_more c (with_catalog c (dict_set (k_catalog c) m d'))).
    { intros d' Hr Ha. split; try (intros; eexists; by repeat split; try done; lia). intros k d0 H. cbn [with_catalog k_catalog].
      rewrite dict_get_setting. destruct (String.eqb_spec m k) as [<-|_]; [|exists d0; by repeat split; try done; lia].
      rewrite Ep in H. injection H as <-. exists d'. split; [done|]. split; [done|]. auto. }
    destruct (Nat.leb_spec (_grade_rank (dget prior "grade" JNull)) (_grade_rank (dget d "grade" JNull))) as [Hr|Hr].
    + apply Hset; [destruct both; [done|by rewrite rank_set]|]. destruct both; [by intros a Ha%elem_of_nil|]. by rewrite aliases_set.
    + destruct (aliases_of d); [reflexivity|]. destruct (bool_decide _); [reflexivity|]. apply Hset; [by rewrite rank_set|]. by rewrite aliases_set.
  - split; try (intros; eexists; by repeat split; try done; lia). intros k d0 H. cbn [with_catalog k_catalog]. rewrite dict_get_setting.
    destruct (String.eqb_spec m k) as [<-|_]; [congruence|]. exists d0. by repeat split; try done; lia.
Qed.

(** ** Any history *)
Section History.
Context `{word_table : WordTable}.
Lemma step_knows c e c' : event_type e <> JStr "AccountingTreatmentRestored" -> apply_core c e = Ok c' -> knows_more c c'.
Proof using Type.
  unfold apply_core, apply_overlay. intros Hne H. run_ok.
  match goal with E : text (event_type e) = Ok ?t |- _ => rename E into Et; rename t into et end.
  transitivity (with_registry c a); [by apply same_knowledge|].
  destruct (String.eqb _ _); [run_ok; by apply same_knowledge|]. destruct (String.eqb _ _); [run_ok; by apply same_knowledge|].
  destruct (String.eqb _ _); [run_ok; by apply same_knowledge|]. destruct (String.eqb _ _); [run_ok; apply assign_knows|].
  destruct (String.eqb_spec et "AccountingTreatmentRestored") as [->|_].
  { exfalso. apply Hne. destruct (event_type e); cbn in Et; congruence. }
  destruct (String.eqb _ _); [run_ok; apply ruling_knows|]. destruct (in_words _ _); run_ok; [apply catalog_knows|reflexivity].
Qed.

(** C17: what is known is never weakened.  After any core, whatever events follow but the undoing
    of a correction: a verified ruling stands until a verified one replaces it; a movement's
    category and its subcategory each keep their grade or gain; a merchant's record keeps its
    grade or gains, and every alias it had. *)
Theorem knowledge_never_weakens es c c' : Forall (fun e => event_type e <> JStr "AccountingTreatmentRestored") es ->
  rfold apply_core es c = Ok c' -> knows_more c c'.
Proof.
  intros HF. revert c. induction HF as [|e es He HF IH]; cbn [rfold]; intros c H; run_ok; [reflexivity|].
  etrans; [by eapply step_knows|by apply IH].
Qed.
End History.

(** ** A person, then a model *)
#[local] Instance plain_words : WordTable := ascii_word.
Definition stated (grade by_ category : string) : Event :=
  event "e1" "CategoryAssigned" "2026-02-01" [("movement_key", JStr "m1"); ("category", JStr category); ("grade", JStr grade); ("by", JStr by_)] (Provenance_doc "d1").
Definition catalogued (grade alias : string) : Event :=
  event "e2" "MerchantEnriched" "2026-02-01" [("merchant", JStr "corner"); ("grade", JStr grade); ("aliases", words [alias])] (Provenance_doc "d1").
Definition ruled (grade nature : string) : Event :=
  event "e3" "RulingRecorded" "2026-02-01" [("scope", JStr "movement"); ("subject", JStr "m1"); ("grade", JStr grade); ("legs", JStr nature)] (Provenance_doc "d1").
Definition known_core : core :=
  match replay_core [] [stated VERIFIED "human" "groceries"; catalogued VERIFIED "CORNER STORE"; ruled VERIFIED "gift"] with Ok c => c | Raise _ => empty_core [] end.
Definition guessed_core : core :=
  match rfold apply_core [stated UNVERIFIED "model" "travel"; catalogued UNVERIFIED "CORNER SHOP"; ruled UNVERIFIED "loan"] known_core with
  | Ok c => c | Raise _ => empty_core [] end.
Lemma knowledge_never_weakens_witness : knows_more known_core guessed_core
  /\ dget (default [] (dict_get (k_categories guessed_core) "m1")) "category" JNull = JStr "groceries"
  /\ aliases_of (default [] (dict_get (k_catalog guessed_core) "corner")) = ["CORNER SHOP"; "CORNER STORE"].
Proof.
  split; [|split; vm_compute; reflexivity].
  apply (knowledge_never_weakens [stated UNVERIFIED "model" "travel"; catalogued UNVERIFIED "CORNER SHOP"; ruled UNVERIFIED "loan"]).
  - by repeat constructor.
  - vm_compute. reflexivity.
Defined.
