(* ===== verification/Merchants.v ===== *)
(** * Merchants: who a movement's counterparty is

    product/viva/ledger/merchant_keys.py and product/viva/ledger/projection/merchants.py over
    the catalog of [Overlays].  How one descriptor decomposes (merchantcore/resolve.py and
    descriptor.py: grammars and published formats, regular expressions) is the interface
    [Descriptors].  The memos of the projection are the values they hold. *)
From Stdlib Require Import ZArith NArith Ascii String Lia ZifyBool ZifyN ZifyNat.
From stdpp Require Import base list numbers strings.
From S2P Require Import Prelude Text Words Json Unicode Dates Decimals Arithmetic Acquisition Events EventTypes Postings Dictionaries Accounts Schedule Normalize Render Policy Grammars Identity Registry Overlays.
#[local] Open Scope string_scope.

(** ** Descriptors *)

(** What [resolve_descriptor] says of one line. *)
Record DescriptorParts := mkParts
  { dp_fields : list (string * string); dp_personal : list (string * string); dp_layer : string; dp_refused : bool;
    dp_person : bool; dp_merchant_key : string; dp_candidates : list string; dp_insufficient : bool }.
Class Descriptors := {
  DescriptorProfile : Type;
  AchHeads : Type;
  split_ach_heads : list string -> AchHeads;
  resolve_descriptor : string -> option DescriptorProfile -> option AchHeads -> res DescriptorParts;
  latest_profile : string -> string -> option DescriptorProfile;
  normalize_merchant : string -> string;
  resolver_installed : bool
}.

Section Merchants.
Context `{desc : Descriptors}.

(** ** Keys of a whole vault *)
Record MerchantKeys := mkMerchantKeys
  { mk_key : list ((string * string) * string);
    mk_persons : list (string * string);
    mk_candidates : list ((string * string) * list string);
    mk_insufficient : list ((string * string) * bool) }.
Definition no_keys : MerchantKeys := mkMerchantKeys [] [] [] [].
Definition or_text (s d : string) : string := if String.eqb s "" then d else s.
Definition Row : Type := string * string * string * string.   (** account, institution, kind, descriptor *)
Definition resolve_row (heads : AchHeads) (k : MerchantKeys) (r : Row) : res MerchantKeys :=
  let '(account, institution, kind, descriptor) := r in
  let at_ := (account, descriptor) in
  match assoc_get (mk_insufficient k) at_ with
  | Some _ => Ok k
  | None =>
      let? p := resolve_descriptor descriptor (latest_profile (or_text institution "?") (or_text kind "?")) (Some heads) in
      Ok (mkMerchantKeys
            (if String.eqb (dp_merchant_key p) "" then mk_key k else assoc_set (mk_key k) at_ (dp_merchant_key p))
            (if dp_person p then at_ :: mk_persons k else mk_persons k)
            (assoc_set (mk_candidates k) at_ (dp_candidates p))
            (assoc_set (mk_insufficient k) at_ (dp_insufficient p)))
  end.
Definition resolve_keys (rows : list Row) : res MerchantKeys :=
  rfold (resolve_row (split_ach_heads (List.map snd rows))) rows no_keys.

Definition merchant_key_map (c : core) : res MerchantKeys :=
  if resolver_installed then
    resolve_keys (List.flat_map (fun p => if in_words (r_kind p.2) MONEY_KINDS
                                          then List.map (fun l => (p.1, r_institution p.2, r_kind p.2, tl_description l)) (r_lines p.2)
                                          else []) (g_acct (k_registry c)))
  else Ok no_keys.

(** ** One movement's keys *)
Fixpoint uniq (seen l : list string) : list string :=
  match l with
  | [] => []
  | x :: r => if in_words x seen then uniq seen r else x :: uniq (x :: seen) r
  end.
(** [tuple(dict.fromkeys(key for key in ... if key)) or ("",)]. *)
Definition candidate_keys (canonical brand : string) (structural : list string) (descriptor : string) : list string :=
  match uniq [] (List.filter (fun k => negb (String.eqb k "")) (canonical :: brand :: structural ++ [descriptor])%list) with
  | [] => [""]
  | l => l
  end.
(** The catalog's aliases, and those two records claim. *)
Definition claim_alias (merchant : string) (o : list (string * string) * list string) (alias : string)
    : list (string * string) * list string :=
  match dict_get o.1 alias with
  | Some owner => if String.eqb owner merchant then (dict_set o.1 alias merchant, o.2) else (o.1, alias :: o.2)
  | None => (dict_set o.1 alias merchant, o.2)
  end.
Definition alias_owners (catalog : list (string * dict)) : list (string * string) * list string :=
  List.fold_left (fun o p => List.fold_left (claim_alias p.1) (aliases_of p.2) o) catalog ([], []).
Definition canonical_id (catalog : list (string * dict)) (structural : list string) : string :=
  let '(owners, conflicted) := alias_owners catalog in
  match List.find (fun k => match dict_get owners k with Some _ => negb (in_words k conflicted) | None => false end) structural with
  | Some k => default "" (dict_get owners k)
  | None => ""
  end.
Definition merchant_keys_of (c : core) (keys : MerchantKeys) (account description : string) : res (list string) :=
  let at_ := (account, description) in
  let? insufficient := match assoc_get (mk_insufficient keys) at_ with
                       | Some b => Ok b
                       | None => let? p := resolve_descriptor description None None in Ok (dp_insufficient p)
                       end in
  if insufficient then Ok [""]
  else
    let descriptor := normalize_merchant description in
    let brand := default descriptor (assoc_get (mk_key keys) at_) in
    let structural := default [] (assoc_get (mk_candidates keys) at_) in
    Ok (candidate_keys (canonical_id (k_catalog c) structural) brand structural descriptor).
Definition merchant_key_of (c : core) (keys : MerchantKeys) (account description : string) : res string :=
  let? l := merchant_keys_of c keys account description in Ok (hd "" l).
Definition is_person (keys : MerchantKeys) (account description : string) : bool :=
  bool_decide ((account, description) ∈ mk_persons keys).
End Merchants.

(** ** Records *)
(** The record of the highest grade; of equals, the first. *)
Definition better (best : option dict) (found : dict) : option dict :=
  match best with
  | None => Some found
  | Some b => if (_grade_rank (dget b "grade" JNull) <? _grade_rank (dget found "grade" JNull))%nat then Some found else best
  end.
Definition record_for_keys (keys : list string) (get : string -> option dict) : option dict :=
  List.fold_left (fun best k => if String.eqb k "" then best else match get k with Some d => better best d | None => best end) keys None.
Definition merchant_record (c : core) (keys : list string) : option dict := record_for_keys keys (dict_get (k_catalog c)).
Definition merchant_ruling (c : core) (keys : list string) : option dict :=
  record_for_keys keys (fun k => assoc_get (k_rulings c) (SCOPE_MERCHANT, k)).
Definition attribute (record : option dict) (k : string) : json :=
  match record with Some d => jget (dget d "attributes" JNull) k | None => JNull end.
Definition implication_in (record : option dict) (inflow : bool) : option dict :=
  let want := if inflow then "inflow" else "outflow" in
  match attribute record "implies" with
  | JArr l =>
      match List.find (fun i => py_eq_str (jget i "on") want || py_eq_str (jget i "on") "both") l with
      | Some (JObj kv) => Some kv
      | _ => None
      end
  | _ => None
  end.
Definition implication_for (c : core) (merchant : string) (inflow : bool) : option dict :=
  implication_in (dict_get (k_catalog c) merchant) inflow.
Definition counterparty_kind (c : core) (keys : list string) : json :=
  match merchant_record c keys with Some d => (match jget (dget d "attributes" JNull) "counterparty_kind" with JNull => JStr "" | v => v end) | None => JStr "" end.
Definition kind_of_merchant (c : core) (merchant : string) : json :=
  match dict_get (k_catalog c) merchant with
  | Some d => (match jget (dget d "attributes" JNull) "counterparty_kind" with JNull => JStr "" | v => v end)
  | None => JStr ""
  end.
