(* ===== verification/Movements.v ===== *)
(** * Movements: the posted lines of a person's accounts, and what counts as spending

    product/viva/ledger/projection/movements.py, product/viva/ledger/movement_identity.py,
    [money_effect] of ledger/streams.py and [apply_cash_role] of ledger/instruments.py, over
    the core of [Overlays].  A movement's key is made from what its document prints, its
    nature is decided by the strongest evidence there is, and the spending figures read the
    one predicate. *)
From Stdlib Require Import ZArith NArith Ascii String Lia ZifyBool ZifyN ZifyNat.
From stdpp Require Import base list numbers strings.
From S2P Require Import Prelude Text Words Json Unicode Dates Decimals Arithmetic Acquisition Events EventTypes Postings Dictionaries Accounts Schedule Normalize Render Policy Grammars Identity Registry Overlays Merchants.
#[local] Open Scope string_scope.

(** ** Keys *)
Definition movement_key (doc account date amount description : string) (occurrence : nat) : string :=
  doc ++ "|" ++ account ++ "|" ++ date ++ "|" ++ amount ++ "|" ++ description ++ "|" ++ dec (digits_of_N (N.of_nat occurrence)).
(** What tells a line from another, but for its twins. *)
Definition signature : Type := string * string * string * string * string.
Definition signature_of (account : string) (l : TxnLine) : signature :=
  (tl_doc l, account, tl_date l, dec_str (tl_amount l), tl_description l).
Definition key_of (s : signature) (occurrence : nat) : string :=
  let '(doc, account, date, amount, description) := s in movement_key doc account date amount description occurrence.
(** [sorted(lines, key=lambda l: (l.date, l.description, str(l.amount)))]: lines that compare
    equal keep their order. *)
Definition line_after (a b : TxnLine) : bool :=
  match String.compare (tl_date a) (tl_date b) with
  | Gt => true
  | Lt => false
  | Eq => match String.compare (tl_description a) (tl_description b) with
          | Gt => true
          | Lt => false
          | Eq => match String.compare (dec_str (tl_amount a)) (dec_str (tl_amount b)) with Gt => true | _ => false end
          end
  end.
Fixpoint insert_line (x : TxnLine) (l : list TxnLine) : list TxnLine :=
  match l with
  | [] => [x]
  | y :: r => if line_after x y then y :: insert_line x r else x :: l
  end.
Definition sorted_lines (l : list TxnLine) : list TxnLine := fold_right insert_line [] l.
Definition money_lines (g : registry) : list (string * reg_account * TxnLine) :=
  List.flat_map (fun a => let st := reg_of g a in
                          if in_words (r_kind st) MONEY_KINDS
                          then List.map (fun l => (a, st, l)) (sorted_lines (r_lines st)) else [])
    (accounts_seen g).
(** Twins are counted in the order of the enumeration. *)
Definition occurrences (seen_ : list signature) (s : signature) : nat := List.length (List.filter (fun t => bool_decide (t = s)) seen_).
Fixpoint numbered {A} (sig : A -> signature) (seen_ : list signature) (l : list A) : list (string * A) :=
  match l with
  | [] => []
  | x :: r => (key_of (sig x) (occurrences seen_ (sig x)), x) :: numbered sig (sig x :: seen_) r
  end.
Definition enumerated (g : registry) : list (string * (string * reg_account * TxnLine)) :=
  numbered (fun x => signature_of x.1.1 x.2) [] (money_lines g).

(** ** Movements *)
Inductive Nature := Spending | Transfer | Settlement | Mixed.
Inductive NatureReason := ByLink | ByRuling | ByOwnAccount | ByCategory | ByDefault | ByComponents.
#[export] Instance Nature_eq_dec : EqDecision Nature.
Proof. solve_decision. Defined.
#[export] Instance NatureReason_eq_dec : EqDecision NatureReason.
Proof. solve_decision. Defined.
Definition nature_named (v : json) : option Nature :=
  match v with
  | JStr s => dict_get [("transfer", Transfer); ("settlement", Settlement); ("spending", Spending)] s
  | _ => None
  end.
Record MovementInfo := mkMovement
  { m_key : string; m_account : string; m_kind : string; m_date : string; m_amount : decimal; m_description : string;
    m_currency : string; m_provenance : Provenance; m_linked : bool; m_nature : Nature; m_reason : NatureReason;
    m_provisional : bool; m_ruling_account : string; m_component_spending : option decimal }.
(** What a rung decides. *)
Record Decision_ := mkDecision
  { d_nature : Nature; d_reason : NatureReason; d_provisional : bool; d_account : string; d_component : option decimal }.
Definition decided (n : Nature) (why : NatureReason) (provisional : bool) : Decision_ := mkDecision n why provisional "" None.

Definition _NATURE_OF_MAJOR : list (string * Nature) :=
  [("expense", Spending); ("asset", Transfer); ("liability", Settlement); ("income", Spending)].
Definition nature_of_major (v : json) : Nature :=
  match v with JStr m => default Spending (dict_get _NATURE_OF_MAJOR m) | _ => Spending end.
Definition legs_of (ruling : dict) : list json := match dget ruling "legs" JNull with JArr l => l | _ => [] end.
Definition nature_of_legs (legs : list json) : Nature :=
  match remove_dups (List.map (fun leg => nature_of_major (jget leg "major")) legs) with
  | [] => Spending
  | [n] => n
  | _ => Mixed
  end.
Definition leg_account (major : string) (leg : json) : list string :=
  if py_eq_str (jget leg "major") major then match jget leg "account" with JStr a => if String.eqb a "" then [] else [a] | _ => [] end else [].
(** The account a ruling brings into being: a debt before an asset. *)
Definition leading_account (legs : list json) : string :=
  hd "" (List.flat_map (fun major => List.flat_map (leg_account major) legs) ["liability"; "asset"]).

(** [streams.money_effect]. *)
Definition money_effect (kind : string) (amount : decimal) : res decimal :=
  if blank kind then Raise ValueError
  else if String.eqb kind "liability" then dneg default_ctx amount else Ok amount.

(** ** Transfer links *)
Definition live (l : link) : bool := match l with Linked _ _ _ => true | Unlinked => false end.
Definition linked_keys (c : core) : list string :=
  List.flat_map (fun p => if live p.2 then [p.1.1; p.1.2] else []) (k_links c).
Definition is_linked (c : core) (key : string) : bool := in_words key (linked_keys c).
Definition transfer_suggestions (c : core) : list suggestion :=
  List.filter (fun s => negb (is_linked c (sg_a s))
                        && negb (negb (bool_decide (sg_candidates s = [])) && forallb (is_linked c) (sg_candidates s)))
    (List.map snd (k_suggestions c)).
Definition transfer_links (c : core) : list ((string * string) * link) := List.filter (fun p => live p.2) (k_links c).

(** ** What a movement is *)
Section Nature.
Context `{case_map : CaseMap} `{word_table : WordTable} `{desc : Descriptors}.

(** A movement's merchant is looked up only where the strongest evidence is missing. *)
Definition ruling_on (c : core) (key : string) (mkeys : res (list string)) : res (option dict) :=
  match assoc_get (k_rulings c) (SCOPE_MOVEMENT, key) with
  | Some ((_ :: _) as d) => Ok (Some d)
  | _ => let? keys := mkeys in Ok (merchant_ruling c keys)
  end.
Definition stated_nature (c : core) (key : string) (mkeys : res (list string)) : res (option Nature) :=
  match nature_named (match dict_get (k_categories c) key with Some d => dget d "nature" JNull | None => JNull end) with
  | Some n => Ok (Some n)
  | None => let? keys := mkeys in Ok (nature_named (attribute (merchant_record c keys) "nature"))
  end.
Definition names_own_account (tokens : list (string * list string)) (account description : string) : bool :=
  existsb (fun p => negb (String.eqb p.1 account) && existsb (text_has_token (str_lower description)) p.2) tokens.
(** The rungs below a payment's known components, strongest first. *)
Definition decide_nature (c : core) (tokens : list (string * list string)) (mk : res MerchantKeys)
    (key account kind description : string) (amount : decimal) (linked : bool) : res Decision_ :=
  if linked then Ok (decided Transfer ByLink false)
  else
    let mkeys := (let? resolved := mk in merchant_keys_of c resolved account description) in
    let? ruling := ruling_on c key mkeys in
    match (match ruling with Some r => match legs_of r with [] => None | legs => Some (r, legs) end | None => None end) with
    | Some (r, legs) =>
        let n := nature_of_legs legs in
        let path := leading_account legs in
        Ok (mkDecision n ByRuling (bool_decide (n = Mixed) || py_eq_str (dget r "grade" JNull) UNVERIFIED)
              (default path (dict_get (g_aliases (k_registry c)) path)) None)
    | None =>
        let? stated := stated_nature c key mkeys in
        match stated with
        | Some n => Ok (decided n ByRuling false)
        | None =>
            if names_own_account tokens account description then Ok (decided Transfer ByOwnAccount false)
            else
              let? keys := mkeys in
              let? effect := money_effect kind amount in
              let? inflow := positive effect in
              match implication_in (merchant_record c keys) inflow with
              | Some i =>
                  let? major := res_of_option KeyError (dict_get i "major") in
                  let n := nature_of_major major in
                  if bool_decide (n = Spending) then Ok (decided Spending ByDefault true)
                  else Ok (decided n ByCategory (negb (py_eq_str (dget i "confidence" JNull) "forced")))
              | None => Ok (decided Spending ByDefault true)
              end
        end
    end.
(** [apply_cash_role]. *)
Definition cash_role_nature (role : string) : Nature :=
  if String.eqb role "principal" then Settlement
  else if in_words role ["escrow_deposit"; "escrow_adjustment"; "term_funding"; "term_redemption"] then Transfer else Spending.
Definition apply_cash_role (role : string) (d : Decision_) : res Decision_ :=
  if in_words role INSTRUMENT_ROLES
  then Ok (mkDecision (cash_role_nature role) ByComponents false (d_account d) (d_component d)) else Raise ValueError.
Definition decision (c : core) (tokens : list (string * list string)) (mk : res MerchantKeys) (key account kind description transaction : string)
    (amount : decimal) (linked : bool) : res Decision_ :=
  match dict_get (k_allocations c) key with
  | Some spent => Ok (mkDecision Mixed ByComponents false "" (Some spent))
  | None =>
      let? d := decide_nature c tokens mk key account kind description amount linked in
      match dict_get (g_cash_roles (k_registry c)) transaction with
      | Some role => apply_cash_role role d
      | None => Ok d
      end
  end.
Definition movement (c : core) (tokens : list (string * list string)) (mk : res MerchantKeys) (x : string * (string * reg_account * TxnLine))
    : res MovementInfo :=
  let '(key, (account, st, l)) := x in
  let linked := is_linked c key in
  let? d := decision c tokens mk key account (r_kind st) (tl_description l) (tl_transaction l) (tl_amount l) linked in
  Ok (mkMovement key account (r_kind st) (tl_date l) (tl_amount l) (tl_description l) (r_currency st) (tl_provenance l) linked
        (d_nature d) (d_reason d) (d_provisional d) (d_account d) (d_component d)).
Definition movements (c : core) : res (list MovementInfo) :=
  rmap (movement c (own_account_tokens (k_registry c)) (merchant_key_map c)) (enumerated (k_registry c)).
End Nature.

(** ** Spending *)
Definition is_expense (m : MovementInfo) : res bool :=
  if String.eqb (m_kind m) "depository" then dlt (m_amount m) dzero
  else if String.eqb (m_kind m) "liability" then dlt dzero (m_amount m) else Ok false.
Definition movement_effect (m : MovementInfo) : res decimal := money_effect (m_kind m) (m_amount m).
Definition counts_as_spending (m : MovementInfo) : res bool :=
  let? e := is_expense m in
  if e then match m_component_spending m with
            | Some spent => dlt dzero spent
            | None => Ok (bool_decide (m_nature m = Spending))
            end
  else Ok false.
Definition counted_spending_amount (m : MovementInfo) : res decimal :=
  match m_component_spending m with Some spent => Ok spent | None => dabs default_ctx (m_amount m) end.
Definition excluded (m : MovementInfo) : res bool :=
  let? e := is_expense m in
  Ok (e && negb (bool_decide (m_nature m = Spending)) && bool_decide (m_component_spending m = None)).
Definition add_spending (out : list (string * decimal)) (m : MovementInfo) : res (list (string * decimal)) :=
  let? counted := counts_as_spending m in
  if counted then
    let? amount := counted_spending_amount m in
    let? total := dadd default_ctx (default dzero (dict_get out (m_currency m))) amount in
    Ok (dict_set out (m_currency m) total)
  else Ok out.
Definition in_currency (currency : option string) (m : MovementInfo) : bool :=
  match currency with Some c => String.eqb (m_currency m) c | None => true end.
Definition add_provisional (currency : option string) (predicate : MovementInfo -> bool) (total : decimal) (m : MovementInfo) : res decimal :=
  let? e := is_expense m in
  if e && m_provisional m && in_currency currency m && predicate m
  then let? a := dabs default_ctx (m_amount m) in dadd default_ctx total a
  else Ok total.
Section Spending.
Context `{case_map : CaseMap} `{word_table : WordTable} `{desc : Descriptors}.
Definition excluded_from_spending (c : core) : res (list MovementInfo) :=
  let? ms := movements c in rfilter excluded ms.
Definition spending_by_currency (c : core) : res (list (string * decimal)) :=
  let? ms := movements c in rfold add_spending ms [].
Definition provisional_spending (c : core) (currency : option string) (predicate : MovementInfo -> bool) : res decimal :=
  let? ms := movements c in rfold (add_provisional currency predicate) ms dzero.
End Spending.
Definition movement_grades (g : registry) : list (string * string) :=
  List.fold_left (fun d x => dict_set d x.1 (tl_grade x.2.2)) (enumerated g) [].
(** [sorted(st.lines, key=lambda ln: ln.date)]. *)
Fixpoint insert_dated (x : TxnLine) (l : list TxnLine) : list TxnLine :=
  match l with
  | [] => [x]
  | y :: r => if String.ltb (tl_date y) (tl_date x) then y :: insert_dated x r else x :: l
  end.
Definition transactions (g : registry) (account : string) : res (list TxnLine) :=
  let? st := account_info g account in Ok (fold_right insert_dated [] (r_lines st)).
