(* ===== verification/Transfers.v ===== *)
(** * Transfers: product/viva/ingest/transfers.py

    Which two movements are one transfer between a person's accounts.  A scan reads one
    projection and appends links and suggestions; a person confirms or rejects.  The core is
    [Overlays], the movements [Movements]; how a descriptor decomposes is [Descriptors].  A
    pattern's [\d] is a decimal digit of any script. *)
From Stdlib Require Import ZArith NArith Ascii String Lia ZifyBool ZifyN ZifyNat.
From stdpp Require Import base list numbers strings.
From S2P Require Import Prelude Text Words Json Unicode Dates Decimals Arithmetic Acquisition Events EventTypes Postings Dictionaries Accounts Schedule Normalize Render Policy Grammars Identity Registry Overlays Merchants Movements.
#[local] Open Scope string_scope.

Definition DATE_WINDOW_DAYS : Z := 5.

(** ** The candidate gate *)
Inductive flow := Source | Destination | Neither.
#[export] Instance flow_eq_dec : EqDecision flow.
Proof. solve_decision. Defined.
Definition flow_of (m : MovementInfo) : res flow :=
  if in_words (m_kind m) ["depository"; "investment"] then
    let? down := dlt (m_amount m) dzero in Ok (if down then Source else Destination)
  else if String.eqb (m_kind m) "liability" then
    let? down := dlt (m_amount m) dzero in Ok (if down then Destination else Neither)
  else Ok Neither.
(** [date.fromisoformat(s[:10])]. *)
Definition day_number (s : string) : res Z := let? d := fromisoformat (first_ten s) in Ok (toordinal d).
Definition days_apart (a b : string) : Z :=
  match day_number a, day_number b with Ok x, Ok y => Z.abs (x - y) | _, _ => 10000 end.
Definition andr (a : res bool) (b : res bool) : res bool := let? x := a in if x then b else Ok false.
Definition same_magnitude (a b : decimal) : res bool :=
  let? x := dabs default_ctx a in let? y := dabs default_ctx b in deq x y.
Definition is_transfer_candidate (source destination : MovementInfo) : res bool :=
  andr (let? f := flow_of source in Ok (bool_decide (f = Source)))
    (andr (let? f := flow_of destination in Ok (bool_decide (f = Destination)))
      (andr (Ok (negb (String.eqb (m_account destination) (m_account source))))
        (andr (Ok (String.eqb (m_currency destination) (m_currency source)))
          (andr (same_magnitude (m_amount destination) (m_amount source))
            (Ok (days_apart (m_date source) (m_date destination) <=? DATE_WINDOW_DAYS)%Z))))).

(** By a source's key, the movements it could pair with; and the sources by key. *)
Definition graph : Type := list (string * list MovementInfo).
Definition flowing (f : flow) (m : MovementInfo) : res bool := let? g := flow_of m in Ok (bool_decide (g = f)).
(** The bucket of a currency and a magnitude. *)
Definition in_bucket (s d : MovementInfo) : res bool :=
  andr (Ok (String.eqb (m_currency d) (m_currency s))) (same_magnitude (m_amount d) (m_amount s)).
Definition matches_of (dests : list MovementInfo) (s : MovementInfo) : res (list MovementInfo) :=
  let? bucket := rfilter (in_bucket s) dests in rfilter (is_transfer_candidate s) bucket.
Definition add_candidates (dests : list MovementInfo) (g : graph) (s : MovementInfo) : res graph :=
  let? l := matches_of dests s in
  Ok (match l with [] => g | _ => dict_set g (m_key s) l end).
Definition candidates (ms : list MovementInfo) : res (graph * list (string * MovementInfo)) :=
  let unlinked := List.filter (fun m => negb (m_linked m)) ms in
  let? sources := rfilter (flowing Source) unlinked in
  let? dests := rfilter (flowing Destination) unlinked in
  let? g := rfold (add_candidates dests) sources [] in
  Ok (g, dict_of (List.map (fun s => (m_key s, s)) sources)).

(** ** Evidence *)
Section Evidence.
Context `{case_map : CaseMap} `{word_table : WordTable} `{desc : Descriptors}.

(** [_distinctive]. *)
Definition distinctive (g : registry) : list (string * list string) :=
  let held := List.map (fun a => (a, reg_of g a)) (accounts_seen g) in
  distinctive_tokens (List.map (fun p => (p.1, account_tokens (r_institution p.2) (r_number p.2) (r_name p.2))) held)
    (List.map (fun p => (p.1, r_institution p.2)) held).
Definition names_account (text : string) (tokens : list string) : bool := existsb (text_has_token text) tokens.
Definition tokens_of (dist : list (string * list string)) (a : string) : list string := default [] (dict_get dist a).
Definition strong_hint (dist : list (string * list string)) (src dst : MovementInfo) : bool :=
  let text := str_lower (m_description src ++ " " ++ m_description dst) in
  names_account text (tokens_of dist (m_account src)) || names_account text (tokens_of dist (m_account dst)).

(** The named parts of a description that bear on matching. *)
Record Parts := mkPartsOf { pt_date : string; pt_account_ref : string; pt_layer : string }.
Definition no_parts : Parts := mkPartsOf "" "" "".
Definition part (d : list (string * string)) (k : string) : string := default "" (dict_get d k).
Definition parts_of (profile_for : MovementInfo -> res (option DescriptorProfile)) (m : MovementInfo) : Parts :=
  let profile := match profile_for m with Ok p => p | Raise _ => None end in
  match resolve_descriptor (m_description m) profile None with
  | Raise _ => no_parts
  | Ok p =>
      if dp_refused p then mkPartsOf "" "" "refused"
      else mkPartsOf (or_text (part (dp_fields p) "date") (part (dp_fields p) "posting_date"))
             (part (dp_personal p) "account_ref") (dp_layer p)
  end.
(** [default_profile_for]. *)
Definition default_profile_for (g : registry) (m : MovementInfo) : res (option DescriptorProfile) :=
  match account_info g (m_account m) with
  | Ok st => Ok (latest_profile (or_text (r_institution st) "?") (or_text (r_kind st) "?"))
  | Raise _ => Ok None
  end.

(** [\s*(\d{1,2})[/-](\d{1,2})], and the two numbers. *)
Definition two_digits (l : list N) : option (N * list N) :=
  match l with
  | a :: r => match decimal_digit a with
              | None => None
              | Some x => match r with
                          | b :: r' => match decimal_digit b with Some y => Some (10 * x + y, r')%N | None => Some (x, r) end
                          | [] => Some (x, r)
                          end
              end
  | [] => None
  end.
Definition printed_pair (printed : string) : option (Z * Z) :=
  match two_digits (snd (take_while space_point (points printed))) with
  | Some (a, c :: r) => if (c =? 47)%N || (c =? 45)%N then match two_digits r with Some (b, _) => Some (Z.of_N a, Z.of_N b) | None => None end else None
  | _ => None
  end.
(** [int(iso[i:j])] of two characters: a space or a sign may stand beside one digit. *)
Definition int_of_two (l : list N) : option Z :=
  match l with
  | [a; b] =>
      match decimal_digit a, decimal_digit b with
      | Some x, Some y => Some (Z.of_N (10 * x + y))
      | Some x, None => if space_point b then Some (Z.of_N x) else None
      | None, Some y => if space_point a || (a =? 43)%N then Some (Z.of_N y)
                        else if (a =? 45)%N then Some (- Z.of_N y)%Z else None
      | None, None => None
      end
  | _ => None
  end.
Definition month_day (iso : string) : option (Z * Z) :=
  let l := points iso in
  if (List.length l <? 10)%nat then None
  else match int_of_two (take 2 (drop 5 l)), int_of_two (take 2 (drop 8 l)) with
       | Some m, Some d => Some (m, d)
       | _, _ => None
       end.
Definition prints_date (printed iso : string) : bool :=
  match printed_pair printed, month_day iso with
  | Some (a, b), Some (month, day) => bool_decide ((a, b) = (month, day)) || bool_decide ((b, a) = (month, day))
  | _, _ => false
  end.

Inductive Evidence := AccountRefSlot | NamedAccount.
Definition account_evidence (dist : list (string * list string)) (p : Parts) (src dst : MovementInfo) : option Evidence :=
  let ref := str_lower (strip (pt_account_ref p)) in
  if negb (String.eqb ref "") && in_words ref (tokens_of dist (m_account dst)) then Some AccountRefSlot
  else if strong_hint dist src dst then Some NamedAccount else None.
Definition _EV_ACCOUNT : nat := 2.
Definition _EV_DATE : nat := 1.
Definition _EV_FLOOR : nat := _EV_ACCOUNT.
Definition dated (p : Parts) (c : MovementInfo) : bool := negb (String.eqb (pt_date p) "") && prints_date (pt_date p) (m_date c).
Definition score (e : option Evidence) (d : bool) : nat :=
  ((match e with Some _ => _EV_ACCOUNT | None => 0 end) + (if d then _EV_DATE else 0))%nat.
Definition evidence_name (e : Evidence) : string := match e with AccountRefSlot => "account_ref_slot" | NamedAccount => "named_account" end.
Definition reason_of (e : option Evidence) (d : bool) : string :=
  match e, d with
  | Some e, true => evidence_name e ++ "+printed_date"
  | Some e, false => evidence_name e
  | None, true => "printed_date"
  | None, false => ""
  end.
(** Every pair's score and reason, under the pair's keys. *)
Definition weights : Type := list ((string * string) * (nat * string)).
Definition weigh_pair (dist : list (string * list string)) (pt : Parts) (skey : string) (src : MovementInfo) (w : weights) (c : MovementInfo)
    : weights :=
  let e := account_evidence dist pt src c in
  let d := dated pt c in
  assoc_set w (skey, m_key c) (score e d, reason_of e d).
Definition weigh (profile_for : MovementInfo -> res (option DescriptorProfile)) (dist : list (string * list string)) (g : graph)
    (sources : list (string * MovementInfo)) : res weights :=
  rfold (fun w p => let? src := res_of_option KeyError (dict_get sources p.1) in
                    Ok (List.fold_left (weigh_pair dist (parts_of profile_for src) p.1 src) p.2 w)) g [].
End Evidence.

(** ** The decision *)

(** The only item of the highest score, when that is account evidence at least. *)
Definition sole_max (items : list string) (score : string -> nat) : option string :=
  let best := list_max (List.map score items) in
  if (best <? _EV_FLOOR)%nat then None
  else match List.filter (fun i => (score i =? best)%nat) items with [i] => Some i | _ => None end.
Definition strength (w : weights) (s d : string) : nat := match assoc_get w (s, d) with Some (n, _) => n | None => 0%nat end.
Definition claimants (w : weights) (d : string) : list string :=
  List.flat_map (fun p => if String.eqb p.1.2 d then [p.1.1] else []) w.
Definition verdict (g : graph) (w : weights) (consumed : list string) (s : string) : option string :=
  if in_words s consumed then None
  else
    let free k := negb (in_words k consumed) in
    match sole_max (List.filter free (List.map m_key (default [] (dict_get g s)))) (strength w s) with
    | None => None
    | Some d =>
        match sole_max (List.filter free (claimants w d)) (fun x => strength w x d) with
        | Some s' => if String.eqb s' s then Some d else None
        | None => None
        end
    end.
Definition decide_pairs (g : graph) (w : weights) (consumed : list string) : list (string * string) :=
  List.flat_map (fun s => match verdict g w consumed s with Some d => [(s, d)] | None => [] end) (sorted_set (List.map fst g)).

(** ** The scan *)
Inductive Stage := Decisive | Suggested.
Definition stage_name (s : Stage) : string := match s with Decisive => "decisive" | Suggested => "suggested" end.
Definition evidence_of (src dst : MovementInfo) (stage : Stage) (decided_by : string) : res json :=
  let? amount := dabs default_ctx (m_amount src) in
  Ok (JObj [("verdict", JStr (stage_name stage)); ("amount", JStr (dec_str amount)); ("currency", JStr (m_currency src));
            ("days_apart", JInt (days_apart (m_date src) (m_date dst))); ("source", JStr (m_account src));
            ("destination", JStr (m_account dst)); ("decided_by", JStr decided_by);
            ("source_desc", JStr (m_description src)); ("destination_desc", JStr (m_description dst))]).
Definition later (a b : string) : string := if String.ltb a b then b else a.
(** What a scan has appended, the movements it linked, and its counts. *)
Record scanning := mkScanning { sc_events : list Event; sc_consumed : list string; sc_auto : nat; sc_suggested : nat }.
Definition counts : Type := nat * nat * nat.   (** linked, auto, suggested *)
Section Scan.
(** The identity of the n-th event a scan appends. *)
Context (fresh : nat -> string).
Definition append_link (st : scanning) (src dst : MovementInfo) (reason : string) : res scanning :=
  let? ev := evidence_of src dst Decisive reason in
  Ok (mkScanning (sc_events st ++ [transfer_linked (fresh (List.length (sc_events st))) (m_key src) (m_key dst) CORROBORATED ev
                                     (later (m_date src) (m_date dst)) "auto" None])%list
        (m_key dst :: m_key src :: sc_consumed st) (S (sc_auto st)) (sc_suggested st)).
Definition append_suggestion (st : scanning) (src : MovementInfo) (cands : list MovementInfo) : res scanning :=
  match cands with
  | [] => Ok st
  | first :: _ =>
      let? ev := evidence_of src first Suggested "" in
      Ok (mkScanning (sc_events st ++ [transfer_suggested (fresh (List.length (sc_events st))) (m_key src) (List.map m_key cands) ev
                                         (later (m_date src) (m_date first)) None])%list
            (sc_consumed st) (sc_auto st) (S (sc_suggested st)))
  end.
Definition scan_source (g : graph) (sources : list (string * MovementInfo)) (w : weights) (verdicts : list (string * string))
    (open_ : list string) (st : scanning) (skey : string) : res scanning :=
  let free k := negb (in_words k (sc_consumed st)) in
  if negb (free skey) then Ok st
  else
    let? src := res_of_option KeyError (dict_get sources skey) in
    let cands := List.filter (fun c => free (m_key c)) (default [] (dict_get g skey)) in
    match cands with
    | [] => Ok st
    | _ =>
        let settle := match dict_get verdicts skey with
                      | Some d => if free d then List.find (fun c => String.eqb (m_key c) d) cands else None
                      | None => None
                      end in
        match settle with
        | Some dst => append_link st src dst (match assoc_get w (skey, m_key dst) with Some (_, why) => why | None => "" end)
        | None => if in_words skey open_ then Ok st else append_suggestion st src cands
        end
    end.

Context `{case_map : CaseMap} `{word_table : WordTable} `{desc : Descriptors}.
Definition scan (profile_for : MovementInfo -> res (option DescriptorProfile)) (c : core) : res scanning :=
  let dist := distinctive (k_registry c) in
  let? ms := movements c in
  let? gs := candidates ms in
  let? w := weigh profile_for dist gs.1 gs.2 in
  let open_ := List.map sg_a (transfer_suggestions c) in
  rfold (scan_source gs.1 gs.2 w (decide_pairs gs.1 w []) open_) (sorted_set (List.map fst gs.1)) (mkScanning [] [] 0 0).
(** The core after, and the counts. *)
Definition link_transfers (profile_for : MovementInfo -> res (option DescriptorProfile)) (c : core) : res (core * counts) :=
  let? st := scan profile_for c in
  let? c' := rfold apply_core (sc_events st) c in
  Ok (c', (sc_auto st, sc_auto st, sc_suggested st)).
End Scan.

(** ** A person's word *)
Section Person.
Context `{word_table : WordTable}.
Definition confirm_transfer (fresh today : string) (c : core) (a b : string) : res (core * bool) :=
  if is_linked c a || is_linked c b then Ok (c, false)
  else let? c' := apply_core c (transfer_linked fresh a b VERIFIED (JObj [("kind", JStr "confirmed")]) today "human" None) in Ok (c', true).
Definition reject_transfer (fresh today : string) (c : core) (a b : string) : res core :=
  apply_core c (transfer_unlinked fresh a b today "human" None).
End Person.

(** ** Closing a statement's gap *)
Definition _CORROBORATION_DAYS : Z := 45.
(** [itertools.combinations]. *)
Fixpoint combinations {A} (n : nat) (l : list A) : list (list A) :=
  match n, l with
  | O, _ => [[]]
  | S _, [] => []
  | S k, x :: r => (List.map (cons x) (combinations k r) ++ combinations n r)%list
  end.
Definition sum_of (l : list MovementInfo) : res decimal :=
  rfold (fun t m => let? a := dabs default_ctx (m_amount m) in dadd default_ctx t a) l dzero.
Definition sums_to (target : decimal) (l : list MovementInfo) : res bool := let? t := sum_of l in deq t target.
Definition subsets_summing_to (items : list MovementInfo) (target : decimal) (max_size : nat) : res (list (list MovementInfo)) :=
  let n := Nat.min (List.length items) 12 in
  rfilter (sums_to target) (List.flat_map (fun size => combinations size (take n items)) (List.seq 1 (Nat.min max_size n))).
Section Gap.
Context `{case_map : CaseMap} `{word_table : WordTable} `{desc : Descriptors}.
Definition account_tokens_held (g : registry) (account : string) : list string :=
  match account_info g account with
  | Ok st => account_tokens (r_institution st) (r_number st) (r_name st)
  | Raise _ => []
  end.
Definition wanted (kind : string) (delta : decimal) : res (option flow) :=
  let? zero := deq delta dzero in
  if zero || negb (in_words kind ["depository"; "liability"]) then Ok None
  else
    let? down := dlt delta dzero in
    Ok (if String.eqb kind "depository" then Some (if down then Destination else Source)
        else if down then Some Source else None).
Definition corroborates (account : string) (want : flow) (delta : decimal) (currency o_date c_date : string) (tokens : list string)
    (m : MovementInfo) : res bool :=
  if m_linked m || String.eqb (m_account m) account || negb (String.eqb (m_currency m) currency) then Ok false
  else
    let? f := flow_of m in
    if negb (bool_decide (f = want)) then Ok false
    else
      let? a := dabs default_ctx (m_amount m) in
      let? d := dabs default_ctx delta in
      let? larger := dlt d a in
      if larger then Ok false
      else if (_CORROBORATION_DAYS <? days_apart (m_date m) o_date)%Z && (_CORROBORATION_DAYS <? days_apart (m_date m) c_date)%Z then Ok false
      else Ok (names_account (m_description m) tokens).
Definition find_corroborating_legs (c : core) (account kind : string) (delta : decimal) (currency o_date c_date : string)
    (own_tokens : option (list string)) : res (list MovementInfo) :=
  let? want := wanted kind delta in
  match want with
  | None => Ok []
  | Some f =>
      match (match own_tokens with Some t => t | None => account_tokens_held (k_registry c) account end) with
      | [] => Ok []
      | tokens =>
          let? ms := movements c in
          let? cands := rfilter (corroborates account f delta currency o_date c_date tokens) ms in
          let? target := dabs default_ctx delta in
          let? found := subsets_summing_to cands target 6 in
          Ok (match found with [only] => only | _ => [] end)
      end
  end.
End Gap.
