(* ===== verification/TransferLaws.v ===== *)
(** * TransferLaws: what one scan does to the links, and scanning again

    The choice of a sole best item; which events a scan appends and what each does to the
    core; the links of a core as a matching, which those events keep one; and why scanning
    comes to an end. *)
From Stdlib Require Import ZArith NArith Ascii String Lia ZifyBool ZifyN ZifyNat.
From stdpp Require Import base list numbers strings relations.
From S2P Require Import Prelude Text Words Json Unicode Dates Decimals Arithmetic Acquisition Events EventTypes Postings Dictionaries Accounts Schedule Normalize Render Policy Grammars Identity Registry RegistryProperties Overlays Merchants Movements Transfers.
#[local] Open Scope string_scope.
#[local] Open Scope list_scope.

(** ** The sole best *)

(** [x] is listed once, scores account evidence at least, and more than every other. *)
Definition best_of (items : list string) (score : string -> nat) (x : string) : Prop :=
  List.filter (String.eqb x) items = [x] /\ (_EV_FLOOR <= score x)%nat /\ forall y, y ∈ items -> y = x \/ (score y < score x)%nat.

Lemma list_max_ge l n : n ∈ l -> (n <= list_max l)%nat.
Proof.
  intros H. pose proof (proj1 (list_max_le l (list_max l)) (Nat.le_refl _)) as HF. rewrite List.Forall_forall in HF.
  by apply HF, list_elem_of_In.
Qed.
Lemma list_max_elem l : (0 < list_max l)%nat -> list_max l ∈ l.
Proof.
  induction l as [|n l IH]; [cbn; lia|]. change (list_max (n :: l)) with (Nat.max n (list_max l)). intros H.
  destruct (Nat.max_spec n (list_max l)) as [[? ->]|[? ->]]; [right; apply IH; lia|left].
Qed.
Lemma filter_one items x : x ∈ items -> (forall y, y ∈ List.filter (String.eqb x) items -> y = x).
Proof. intros _ y H. apply list_elem_of_In, List.filter_In in H as [_ H]. by apply String.eqb_eq in H. Qed.
Lemma sole_max_spec items score x : sole_max items score = Some x <-> best_of items score x.
Proof.
  unfold sole_max, best_of. set (best := list_max (List.map score items)).
  assert (Hup : forall y, y ∈ items -> (score y <= best)%nat).
  { intros y Hy. apply list_max_ge, list_elem_of_In, in_map_iff. exists y. by rewrite <- list_elem_of_In. }
  split.
  - destruct (Nat.ltb_spec best _EV_FLOOR) as [|Hf]; [done|].
    destruct (List.filter _ items) as [|z [|? ?]] eqn:E; [done| |done]. intros [= ->].
    assert (Hx : In x (List.filter (fun i => (score i =? best)%nat) items)) by (rewrite E; by left).
    apply List.filter_In in Hx as [Hx Hb]. apply Nat.eqb_eq in Hb. split; [|split; [lia|]].
    + clear -E Hx Hb. clearbody best. revert E Hx. induction items as [|y l IH]; [done|]. cbn [List.filter].
      destruct (Nat.eqb_spec (score y) best) as [Hy|Hy].
      * intros [= -> E] _. rewrite String.eqb_refl. f_equal. destruct (List.filter (String.eqb x) l) as [|z r] eqn:E'; [done|].
        assert (Hz : In z (List.filter (String.eqb x) l)) by (rewrite E'; by left). apply List.filter_In in Hz as [Hz ->%String.eqb_eq].
        assert (Hin : In z (List.filter (fun i => (score i =? best)%nat) l)).
        { apply List.filter_In. split; [done|]. by apply Nat.eqb_eq. }
        by rewrite E in Hin.
      * intros E [->|Hx]; [done|]. destruct (String.eqb_spec x y) as [->|]; [done|]. by apply IH.
    + intros y Hy. destruct (String.eqb_spec y x); [by left|right]. pose proof (Hup y Hy). assert (score y <> best); [|lia].
      intros Eb. assert (Hi : In y (List.filter (fun i => (score i =? best)%nat) items)).
      { apply List.filter_In. split; [by apply list_elem_of_In|]. by apply Nat.eqb_eq. }
      rewrite E in Hi. destruct Hi as [->|[]]. done.
  - intros (H1 & Hf & Hmax). assert (Hx : x ∈ items).
    { apply list_elem_of_In. assert (Hi : In x (List.filter (String.eqb x) items)) by (rewrite H1; by left). by apply List.filter_In in Hi as [? _]. }
    assert (Eb : best = score x).
    { apply Nat.le_antisymm; [|by apply Hup]. unfold best. apply list_max_le. apply List.Forall_forall. intros n Hn.
      apply in_map_iff in Hn as (y & <- & Hy). apply list_elem_of_In in Hy. destruct (Hmax y Hy) as [->|]; lia. }
    rewrite Eb. destruct (Nat.ltb_spec (score x) _EV_FLOOR); [lia|].
    replace (List.filter (fun i => (score i =? score x)%nat) items) with (List.filter (String.eqb x) items); [by rewrite H1|].
    apply List.filter_ext_in. intros y Hy%list_elem_of_In. destruct (Hmax y Hy) as [->|Hlt].
    + by rewrite String.eqb_refl, Nat.eqb_refl.
    + destruct (String.eqb_spec x y) as [->|]; [lia|]. symmetry. apply Nat.eqb_neq. lia.
Qed.
Lemma best_unique items score x y : best_of items score x -> best_of items score y -> x = y.
Proof. rewrite <- !sole_max_spec. congruence. Qed.
Lemma best_elem items score x : best_of items score x -> x ∈ items.
Proof.
  intros (H1 & _ & _). apply list_elem_of_In. assert (Hi : In x (List.filter (String.eqb x) items)) by (rewrite H1; by left).
  by apply List.filter_In in Hi as [? _].
Qed.
Lemma best_perm items items' score score' x : items ≡ₚ items' -> (forall y, score y = score' y) -> best_of items score x -> best_of items' score' x.
Proof.
  intros Hp He (H1 & H2 & H3). split; [|split].
  - assert (Hp' : List.filter (String.eqb x) items ≡ₚ List.filter (String.eqb x) items').
    { clear -Hp. induction Hp; cbn [List.filter]; try done.
      - destruct (_ =? _); [by apply perm_skip|done].
      - destruct (_ =? _), (_ =? _); try done. apply perm_swap.
      - by etrans. }
    rewrite H1 in Hp'. by apply Permutation_singleton_l in Hp'.
  - by rewrite <- He.
  - intros y Hy. rewrite <- !He. apply H3. by rewrite Hp.
Qed.
Lemma sole_max_perm items items' score score' : items ≡ₚ items' -> (forall y, score y = score' y) ->
  sole_max items score = sole_max items' score'.
Proof.
  intros Hp He. destruct (sole_max items score) as [x|] eqn:E.
  - symmetry. apply sole_max_spec. apply sole_max_spec in E. by eapply best_perm.
  - destruct (sole_max items' score') as [x|] eqn:E'; [|done]. exfalso. apply sole_max_spec in E'.
    assert (sole_max items score = Some x); [|congruence]. apply sole_max_spec.
    apply (best_perm items' items score' score); [by symmetry|intros y; by rewrite He|done].
Qed.

(** ** The decision *)
Definition keys_for (g : graph) (s : string) : list string := List.map m_key (default [] (dict_get g s)).
Lemma filter_true {A} (f : A -> bool) l : (forall x, f x = true) -> List.filter f l = l.
Proof. intros H. induction l as [|x l IH]; cbn [List.filter]; [done|]. by rewrite H, IH. Qed.
Lemma verdict_spec g w s d : verdict g w [] s = Some d <->
  best_of (keys_for g s) (strength w s) d /\ best_of (claimants w d) (fun x => strength w x d) s.
Proof.
  unfold verdict. cbn [in_words existsb]. rewrite filter_true by done. rewrite <- !sole_max_spec. fold (keys_for g s).
  destruct (sole_max (keys_for g s) (strength w s)) as [x|]; [|by split; [|intros [? ?]]].
  rewrite filter_true by done. split.
  - destruct (sole_max (claimants w x) _) as [y|] eqn:E; [|done]. destruct (String.eqb_spec y s) as [->|]; [|done]. by intros [= <-].
  - intros [[= ->] ->]. by rewrite String.eqb_refl.
Qed.
Lemma decide_elem g w s d : (s, d) ∈ decide_pairs g w [] <-> s ∈ List.map fst g /\ verdict g w [] s = Some d.
Proof.
  unfold decide_pairs. rewrite list_elem_of_In, in_flat_map. split.
  - intros (x & Hx & H). rewrite <- list_elem_of_In, sorted_set_elem in Hx. destruct (verdict g w [] x) as [y|] eqn:E; [|done].
    destruct H as [[= -> ->]|[]]. by split.
  - intros [Hs H]. exists s. rewrite <- list_elem_of_In, sorted_set_elem. split; [done|]. rewrite H. by left.
Qed.
Lemma decide_get g w s : dict_get (decide_pairs g w []) s = if in_words s (List.map fst g) then verdict g w [] s else None.
Proof.
  unfold decide_pairs. assert (Hm : in_words s (List.map fst g) = in_words s (sorted_set (List.map fst g))).
  { apply eq_iff_eq_true. rewrite !in_words_spec. symmetry. apply sorted_set_elem. }
  rewrite Hm. clear Hm. induction (sorted_set (List.map fst g)) as [|x l IH]; [done|]. cbn [flat_map].
  unfold in_words in *. cbn [existsb]. destruct (String.eqb_spec s x) as [->|Hn].
  - cbn [orb]. destruct (verdict g w [] x) as [d|] eqn:E; [cbn; by rewrite String.eqb_refl|]. cbn [app].
    rewrite IH. by destruct (existsb _ l).
  - cbn [orb]. rewrite <- IH. destruct (verdict g w [] x) as [d|]; [|done]. cbn. by apply String.eqb_neq in Hn as ->.
Qed.

Lemma decide_get_some g w s d : dict_get (decide_pairs g w []) s = Some d -> s ∈ List.map fst g /\ verdict g w [] s = Some d.
Proof. rewrite decide_get. destruct (in_words _ _) eqn:E; [|done]. by apply in_words_spec in E. Qed.

Lemma assoc_get_perm {K A} `{!EqDecision K} (d d' : list (K * A)) k : assoc_keyed d -> d ≡ₚ d' -> assoc_get d k = assoc_get d' k.
Proof.
  intros Hd Hp. assert (Hd' : assoc_keyed d') by (unfold assoc_keyed in *; by rewrite <- Hp).
  destruct (assoc_get d k) as [v|] eqn:E.
  - symmetry. apply assoc_elem_get in E; [|done]. apply assoc_elem_get; [done|]. by rewrite <- Hp.
  - destruct (assoc_get d' k) as [v|] eqn:E'; [|done]. exfalso. apply assoc_elem_get in E'; [|done].
    assert (assoc_get d k = Some v); [|congruence]. apply assoc_elem_get; [done|]. by rewrite Hp.
Qed.
(** The same candidates, listed in any order. *)
Definition same_graph (g g' : graph) : Prop :=
  (forall s, s ∈ List.map fst g <-> s ∈ List.map fst g') /\ forall s, keys_for g s ≡ₚ keys_for g' s.
Lemma verdict_perm g g' w w' s : same_graph g g' -> assoc_keyed w -> w ≡ₚ w' -> verdict g w [] s = verdict g' w' [] s.
Proof.
  intros [_ Hk] Hw Hp. unfold verdict. cbn [in_words existsb]. rewrite !filter_true by done. fold (keys_for g s) (keys_for g' s).
  assert (Hs : forall x y, strength w x y = strength w' x y) by (intros x y; unfold strength; by erewrite assoc_get_perm).
  rewrite (sole_max_perm (keys_for g s) (keys_for g' s) (strength w s) (strength w' s)) by done.
  destruct (sole_max _ _) as [d|]; [|done]. rewrite !filter_true by done.
  erewrite (sole_max_perm (claimants w d) (claimants w' d)); [done| |done]. by apply Permutation_flat_map.
Qed.

(** ** The links of a core *)
Definition mentions (p : string * string) (k : string) : Prop := k = p.1 \/ k = p.2.
Lemma mentions_pair a b k : mentions (pair_of a b) k <-> k = a \/ k = b.
Proof. unfold mentions, pair_of. destruct (String.leb a b); cbn; tauto. Qed.
Lemma is_linked_spec c k : is_linked c k = true <-> exists p l, (p, l) ∈ k_links c /\ live l = true /\ mentions p k.
Proof.
  unfold is_linked, linked_keys. rewrite in_words_spec, list_elem_of_In, in_flat_map. split.
  - intros ([p l] & H & Hk). cbn [fst snd] in Hk. destruct (live l) eqn:Hl; [|done]. exists p, l. rewrite list_elem_of_In.
    split; [done|]. split; [done|]. destruct Hk as [<-|[<-|[]]]; [by left|by right].
  - intros (p & l & H & Hl & Hk). exists (p, l). rewrite <- list_elem_of_In. split; [done|]. cbn. rewrite Hl.
    destruct Hk as [->| ->]; [by left|right; by left].
Qed.
(** No movement stands in two live links, and a pair has one entry. *)
Record matching (c : core) : Prop := {
  ma_keyed : assoc_keyed (k_links c);
  ma_disjoint p q l l' k : (p, l) ∈ k_links c -> (q, l') ∈ k_links c -> live l = true -> live l' = true ->
    mentions p k -> mentions q k -> p = q
}.
Lemma link_elem c a b l p v : assoc_keyed (k_links c) -> (p, v) ∈ k_links (link_transfer c a b l) ->
  (p = pair_of a b /\ v = l) \/ (p <> pair_of a b /\ (p, v) ∈ k_links c).
Proof. intros Hk H. apply assoc_set_elem in H as [?|[?|?]]; [by left|by right|done]. Qed.
Lemma link_linked c a b l k : assoc_keyed (k_links c) -> is_linked (link_transfer c a b l) k = true ->
  (live l = true /\ (k = a \/ k = b)) \/ is_linked c k = true.
Proof.
  intros Hk (p & v & H & Hl & Hm)%is_linked_spec. apply link_elem in H as [[-> ->]|[_ H]]; [|..|done].
  - left. split; [done|]. by rewrite mentions_pair in Hm.
  - right. apply is_linked_spec. by exists p, v.
Qed.
Lemma link_keeps c a b l k : is_linked c a = false -> is_linked c b = false -> assoc_keyed (k_links c) ->
  is_linked c k = true -> is_linked (link_transfer c a b l) k = true.
Proof.
  intros Ha Hb Hk (p & v & H & Hl & Hm)%is_linked_spec. apply is_linked_spec. exists p, v. split; [|done].
  cbn [link_transfer with_links k_links]. apply assoc_elem_get; [by apply assoc_set_keyed|].
  rewrite assoc_get_set. destruct (decide (pair_of a b = p)) as [<-|_]; [|by apply assoc_elem_get].
  exfalso. assert (Hx : is_linked c k = true) by (apply is_linked_spec; by eexists _, _).
  rewrite mentions_pair in Hm. destruct Hm as [->| ->]; congruence.
Qed.
Lemma link_links c a b l : live l = true -> is_linked (link_transfer c a b l) a = true /\ is_linked (link_transfer c a b l) b = true.
Proof.
  intros Hl. split; apply is_linked_spec; exists (pair_of a b), l.
  all: assert (Hin : (pair_of a b, l) ∈ k_links (link_transfer c a b l)).
  all: try (cbn [link_transfer with_links k_links]; induction (k_links c) as [|[q u] r IH]; cbn [assoc_set]; [left|];
    destruct (decide _) as [->|]; [left|by right]).
  all: split; [done|]; split; [done|]; rewrite mentions_pair; auto.
Qed.
Lemma link_matching c a b l : matching c -> (live l = true -> is_linked c a = false /\ is_linked c b = false) ->
  matching (link_transfer c a b l).
Proof.
  intros [Hk Hd] Hfree. split; [cbn; by apply assoc_set_keyed|].
  assert (Hnew : forall q v k, q <> pair_of a b -> (q, v) ∈ k_links c -> live v = true -> mentions q k -> live l = true ->
                               mentions (pair_of a b) k -> False).
  { intros q v k _ Hq Hv Hm Hl Hp. destruct (Hfree Hl) as [Ha Hb].
    assert (Hx : is_linked c k = true) by (apply is_linked_spec; by exists q, v). rewrite mentions_pair in Hp. destruct Hp as [->| ->]; congruence. }
  intros p q v v' k Hp Hq Hv Hv' Hmp Hmq. apply link_elem in Hp as [[-> ->]|[Np Hp]]; [| |done];
    apply link_elem in Hq as [[-> ->]|[Nq Hq]]; try done.
  - exfalso. by eapply Hnew.
  - exfalso. by eapply (Hnew p).
  - by eapply Hd.
Qed.
Lemma suggest_links c a cands : k_links (suggest_transfer c a cands) = k_links c.
Proof. done. Qed.
Lemma suggest_matching c a cands : matching c -> matching (suggest_transfer c a cands).
Proof. by intros [Hk Hd]. Qed.

(** ** Events *)
Section Events.
Context `{word_table : WordTable}.

Lemma with_same_registry c : with_registry c (k_registry c) = c.
Proof. by destruct c. Qed.
Lemma apply_linked c f a b g ev at_ by_ : exists d, apply_core c (transfer_linked f a b g ev at_ by_ None)
  = Ok (link_transfer c a b (Linked (JStr g) (JStr by_) d)).
Proof. eexists. unfold apply_core. cbn. by rewrite with_same_registry. Qed.
Lemma apply_unlinked c f a b at_ by_ : apply_core c (transfer_unlinked f a b at_ by_ None) = Ok (link_transfer c a b Unlinked).
Proof. unfold apply_core. cbn. by rewrite with_same_registry. Qed.
Lemma text_list_words l : text_list (words l) = Ok l.
Proof. unfold words. cbn [text_list]. induction l as [|x l IH]; [done|]. cbn [List.map rmap text rbind]. by rewrite IH. Qed.
Lemma apply_suggested c f a cands ev at_ : apply_core c (transfer_suggested f a cands ev at_ None) = Ok (suggest_transfer c a cands).
Proof.
  unfold apply_core. cbn. rewrite with_same_registry. pose proof (text_list_words cands) as H. unfold words in H. cbn [text_list] in H.
  unfold body_names_or. cbn. rewrite H. by destruct cands.
Qed.
End Events.

(** ** The events of a scan *)
Section Trace.
Context `{word_table : WordTable}.

Inductive scan_event (c : core) (taken : list string) : Event -> list string -> Prop :=
  | scan_link f a b ev at_ : is_linked c a = false -> is_linked c b = false -> a ∉ taken -> b ∉ taken ->
      scan_event c taken (transfer_linked f a b CORROBORATED ev at_ "auto" None) (b :: a :: taken)
  | scan_suggest f a cands ev at_ : is_linked c a = false -> a ∉ taken -> cands <> [] ->
      (forall k, k ∈ cands -> is_linked c k = false /\ k ∉ taken) ->
      scan_event c taken (transfer_suggested f a cands ev at_ None) taken.
Inductive scan_trace (c : core) : list Event -> list string -> Prop :=
  | trace_nil : scan_trace c [] []
  | trace_snoc es taken e taken' : scan_trace c es taken -> scan_event c taken e taken' -> scan_trace c (es ++ [e]) taken'.

(** What the events of a scan leave as it was. *)
Record same_but_links (c c' : core) : Prop := {
  sb_registry : k_registry c' = k_registry c;
  sb_categories : k_categories c' = k_categories c;
  sb_rulings : k_rulings c' = k_rulings c;
  sb_catalog : k_catalog c' = k_catalog c;
  sb_allocations : k_allocations c' = k_allocations c
}.
#[export] Instance same_but_links_refl : Reflexive same_but_links.
Proof. by intros c. Qed.
#[export] Instance same_but_links_trans : Transitive same_but_links.
Proof. intros x y z [] []. split; congruence. Qed.
Record traced (c c' : core) (taken : list string) : Prop := {
  tr_same : same_but_links c c';
  tr_matching : matching c';
  tr_linked k : is_linked c' k = true <-> is_linked c k = true \/ k ∈ taken
}.
Lemma traced_free c c' taken k : traced c c' taken -> is_linked c k = false -> k ∉ taken -> is_linked c' k = false.
Proof. intros [_ _ Hl] Hk Ht. destruct (is_linked c' k) eqn:E; [|done]. apply Hl in E as [E|E]; [congruence|done]. Qed.
Lemma trace_runs c es taken : matching c -> scan_trace c es taken -> exists c', rfold apply_core es c = Ok c' /\ traced c c' taken.
Proof.
  intros Hm. induction 1 as [|es taken e taken' _ (c1 & Hr & Ht) He].
  - exists c. split; [done|]. split; [done|done|]. intros k. rewrite elem_of_nil. tauto.
  - rewrite rfold_app, Hr. cbn [rbind rfold]. pose proof Ht as [Hs Hm1 Hl].
    destruct He as [f a b ev at_ Ha Hb Na Nb|f a cands ev at_ Ha Na Hne Hc].
    + destruct (apply_linked c1 f a b CORROBORATED ev at_ "auto") as (d & ->). cbn [rbind]. eexists. split; [done|].
      pose proof (traced_free _ _ _ _ Ht Ha Na) as Fa. pose proof (traced_free _ _ _ _ Ht Hb Nb) as Fb. pose proof Hm1 as [Hk Hd]. split.
      * etrans; [exact Hs|done].
      * by apply link_matching.
      * intros k. rewrite !elem_of_cons. split.
        -- intros H. apply link_linked in H as [[_ [->| ->]]|H]; [tauto|tauto| |done]. apply Hl in H. tauto.
        -- pose proof (link_links c1 a b (Linked (JStr CORROBORATED) (JStr "auto") d) eq_refl) as [La Lb].
           intros [H|[->|[->|H]]]; [|done|done|]; apply link_keeps; try done; apply Hl; tauto.
    + rewrite apply_suggested. cbn [rbind]. eexists. split; [done|]. split; [by etrans|by apply suggest_matching|].
      intros k. rewrite <- Hl. unfold is_linked, linked_keys. by rewrite suggest_links.
Qed.
Lemma trace_take c es taken n : scan_trace c es taken -> exists taken', scan_trace c (take n es) taken'.
Proof.
  induction 1 as [|es taken e taken' Ht (t & IH) He].
  - rewrite take_nil. exists []. constructor.
  - destruct (decide (n <= length es)%nat) as [Hn|Hn].
    + rewrite take_app_le by done. by exists t.
    + rewrite take_ge; [|rewrite length_app; cbn; lia]. exists taken'. by econstructor.
Qed.
End Trace.

(** ** What a scan works on *)
Section Candidates.
Context (ms : list MovementInfo).

(** A movement a scan may pair. *)
Definition pairable (f : flow) (m : MovementInfo) : Prop := m ∈ ms /\ m_linked m = false /\ flow_of m = Ok f.
Lemma holds_true {r : res bool} : holds_ok r = true -> r = Ok true.
Proof. destruct r as [[]|]; done. Qed.
Lemma flowing_spec f ms' x : rfilter (flowing f) (List.filter (fun m => negb (m_linked m)) ms) = Ok ms' -> x ∈ ms' <-> pairable f x.
Proof.
  intros [-> Hok]%rfilter_ok. unfold pairable. rewrite list_elem_of_In, !List.filter_In, <- list_elem_of_In, negb_true_iff. split.
  - intros [[H Hl] Hf%holds_true]. unfold flowing in Hf. run_ok. split; [done|]. split; [done|].
    match goal with E : flow_of x = Ok ?g, H : _ = _ |- _ => rewrite E; apply bool_decide_eq_true in H; by subst end.
  - intros (H & Hl & Hf). split; [done|]. unfold flowing. rewrite Hf. cbn. by rewrite bool_decide_eq_true_2.
Qed.
Lemma matches_spec dests s l d : matches_of dests s = Ok l -> d ∈ l -> d ∈ dests /\ is_transfer_candidate s d = Ok true.
Proof.
  unfold matches_of. intros H Hd. run_ok. repeat match goal with H : rfilter _ _ = Ok _ |- _ => apply rfilter_ok in H as [-> _] end.
  apply list_elem_of_In, List.filter_In in Hd as [Hd Hc]. apply List.filter_In in Hd as [Hd _]. apply holds_true in Hc.
  by rewrite list_elem_of_In.
Qed.
Definition sound_entry (s : string) (l : list MovementInfo) : Prop :=
  l <> [] /\ exists src, m_key src = s /\ pairable Source src /\ forall d, d ∈ l -> pairable Destination d /\ is_transfer_candidate src d = Ok true.
Lemma add_candidates_sound dests g s g' : (forall d, d ∈ dests -> pairable Destination d) -> pairable Source s ->
  (forall k l, dict_get g k = Some l -> sound_entry k l) -> add_candidates dests g s = Ok g' ->
  forall k l, dict_get g' k = Some l -> sound_entry k l.
Proof.
  intros Hd Hs Hg H k l HG. unfold add_candidates in H. run_ok. revert HG.
  match goal with E : matches_of dests s = Ok ?x |- _ => rename E into Em; destruct x as [|d r] end; [by apply Hg|].
  rewrite dict_get_setting. destruct (String.eqb_spec (m_key s) k) as [<-|_]; [|by apply Hg]. intros [= <-]. split; [done|].
  exists s. split; [done|]. split; [done|]. intros x Hx. destruct (matches_spec dests s _ x Em Hx) as [Hx' Hc]. split; [by apply Hd|done].
Qed.
Lemma fold_dict_get {A} (l d : list (string * A)) k v :
  dict_get (List.fold_left (fun d p => dict_set d p.1 p.2) l d) k = Some v -> (k, v) ∈ l \/ dict_get d k = Some v.
Proof.
  revert d. induction l as [|[j w] l IH]; intros d; cbn [List.fold_left fst snd]; [by right|]. intros [H|H]%IH; [left; by right|].
  rewrite dict_get_setting in H. destruct (String.eqb_spec j k) as [->|_]; [|by right]. injection H as ->. left. by left.
Qed.
Lemma dict_of_get {A} (l : list (string * A)) k v : dict_get (dict_of l) k = Some v -> (k, v) ∈ l.
Proof. intros [H|H]%fold_dict_get; done. Qed.
Lemma candidates_sound g sources : candidates ms = Ok (g, sources) ->
  (forall k l, dict_get g k = Some l -> sound_entry k l)
  /\ (forall k src, dict_get sources k = Some src -> m_key src = k /\ pairable Source src).
Proof.
  unfold candidates. intros H. run_ok.
  match goal with Hs : rfilter (flowing Source) _ = Ok ?a, Hd : rfilter (flowing Destination) _ = Ok ?b |- _ =>
    pose proof (fun x => flowing_spec _ _ x Hs) as Es; pose proof (fun x => flowing_spec _ _ x Hd) as Ed; clear Hs Hd; rename a into srcs; rename b into dests end.
  split.
  - match goal with H : rfold _ srcs _ = Ok _ |- _ => rename H into Hf end.
    assert (Hall : forall x, x ∈ srcs -> pairable Source x) by (intros x; apply Es). clear Es.
    assert (H0 : forall k l, dict_get (@nil (string * list MovementInfo)) k = Some l -> sound_entry k l) by done.
    revert Hf H0. generalize (@nil (string * list MovementInfo)) as g0. induction srcs as [|s srcs IH]; intros g0 Hf H0; cbn [rfold] in Hf; run_ok; [by eapply H0|].
    eapply IH; [intros x Hx; apply Hall; by right|eassumption|]. eapply add_candidates_sound; [|apply Hall; left|exact H0|eassumption].
    intros d. apply Ed.
  - intros k src Hg. apply dict_of_get, list_elem_of_In, in_map_iff in Hg as (x & [= <- <-] & Hx). split; [done|].
    apply Es. by apply list_elem_of_In.
Qed.
End Candidates.

(** ** A scan is such a trace *)
Section Scan.
Context `{case_map : CaseMap} `{word_table : WordTable} `{desc : Descriptors} (fresh : nat -> string).

Lemma movement_fields c tokens mk x m : movement c tokens mk x = Ok m ->
  m_key m = x.1 /\ m_linked m = is_linked c x.1 /\ m_account m = x.2.1.1 /\ m_kind m = r_kind x.2.1.2
  /\ m_date m = tl_date x.2.2 /\ m_amount m = tl_amount x.2.2 /\ m_description m = tl_description x.2.2 /\ m_currency m = r_currency x.2.1.2.
Proof. destruct x as [key [[a st] l]]. unfold movement. intros H. run_ok. by cbn. Qed.
Lemma movements_fields c ms : movements c = Ok ms -> Forall2 (fun x m => m_key m = x.1 /\ m_linked m = is_linked c x.1) (enumerated (k_registry c)) ms.
Proof.
  unfold movements. intros H%rmap_ok. eapply Forall2_impl; [exact H|]. intros x m Hm%movement_fields. tauto.
Qed.
Lemma movements_linked c ms m : movements c = Ok ms -> m ∈ ms -> m_linked m = is_linked c (m_key m).
Proof.
  intros H%movements_fields Hm. eapply Forall2_Forall_r in H; [|apply Forall_forall; intros x _ y [Ek El]; rewrite <- Ek in El; exact El].
  rewrite Forall_forall in H. by apply H.
Qed.
Lemma movements_keys c ms : movements c = Ok ms -> List.map m_key ms = List.map fst (enumerated (k_registry c)).
Proof. intros H%movements_fields. induction H as [|x m l r [Hk _] _ IH]; [done|]. cbn [List.map]. by rewrite Hk, IH. Qed.

Section Fixed.
Context (c : core) (ms : list MovementInfo) (g : graph) (sources : list (string * MovementInfo)) (w : weights).
Context (verdicts : list (string * string)) (open_ : list string).
Hypothesis Hms : movements c = Ok ms.
Hypothesis Hg : candidates ms = Ok (g, sources).

Lemma pairable_unlinked f m : pairable ms f m -> is_linked c (m_key m) = false.
Proof using Hms. intros (Hm & Hl & _). by rewrite <- (movements_linked c ms m). Qed.
Lemma source_unlinked k src : dict_get sources k = Some src -> m_key src = k /\ is_linked c k = false.
Proof using Hms Hg. intros H. apply (candidates_sound ms g sources Hg) in H as [<- H]. split; [done|]. by eapply pairable_unlinked. Qed.
Lemma candidate_unlinked k d : d ∈ default [] (dict_get g k) -> is_linked c (m_key d) = false.
Proof using Hms Hg.
  destruct (dict_get g k) as [l|] eqn:E; [|by intros ?%elem_of_nil]. intros Hd.
  apply (candidates_sound ms g sources Hg) in E as (_ & src & _ & _ & Hall). eapply pairable_unlinked, Hall, Hd.
Qed.
Definition free_in (taken : list string) (k : string) : bool := negb (in_words k taken).
Definition free_candidates (taken : list string) (k : string) : list MovementInfo :=
  List.filter (fun d => free_in taken (m_key d)) (default [] (dict_get g k)).
(** What a scan does for one source, by cases. *)
Inductive source_step (st : scanning) (k : string) : scanning -> Prop :=
  | step_none : source_step st k st
  | step_link src dst st' : free_in (sc_consumed st) k = true -> dict_get sources k = Some src ->
      dict_get verdicts k = Some (m_key dst) -> dst ∈ free_candidates (sc_consumed st) k ->
      append_link fresh st src dst (match assoc_get w (k, m_key dst) with Some (_, why) => why | None => "" end) = Ok st' ->
      source_step st k st'
  | step_suggest src st' : free_in (sc_consumed st) k = true -> dict_get sources k = Some src -> k ∉ open_ ->
      free_candidates (sc_consumed st) k <> [] -> append_suggestion fresh st src (free_candidates (sc_consumed st) k) = Ok st' ->
      source_step st k st'.
Lemma free_spec taken k : free_in taken k = true <-> k ∉ taken.
Proof using Type. unfold free_in. rewrite negb_true_iff. apply in_words_false. Qed.
Lemma scan_source_step st k st' : scan_source fresh g sources w verdicts open_ st k = Ok st' -> source_step st k st'.
Proof using Type.
  unfold scan_source. cbv zeta. fold (free_in (sc_consumed st) k). destruct (free_in (sc_consumed st) k) eqn:Hf; cbn [negb]; [|intros [= <-]; constructor].
  intros H. run_ok. match goal with E : dict_get sources k = Some ?x |- _ => rename E into Hs; rename x into src end.
  change (List.filter (fun c0 => negb (in_words (m_key c0) (sc_consumed st))) (default [] (dict_get g k))) with (free_candidates (sc_consumed st) k) in H.
  destruct (free_candidates (sc_consumed st) k) as [|d0 r0] eqn:Ec.
  { injection H as <-. constructor. }
  rewrite <- Ec in H. revert H. destruct (match dict_get verdicts k with Some d => _ | None => None end) as [dst|] eqn:Ed; intros H.
  - destruct (dict_get verdicts k) as [d|] eqn:Ev; [|done]. fold (free_in (sc_consumed st) d) in Ed. destruct (free_in (sc_consumed st) d); [|done].
    apply List.find_some in Ed as [Hd <-%String.eqb_eq]. eapply step_link; [done|exact Hs|exact Ev| |exact H].
    rewrite list_elem_of_In. exact Hd.
  - destruct (in_words k open_) eqn:Eo; [injection H as <-; constructor|]. apply in_words_false in Eo.
    eapply step_suggest; [done|exact Hs|done|by rewrite Ec|exact H].
Qed.
Lemma free_candidate_spec taken k d : d ∈ free_candidates taken k -> d ∈ default [] (dict_get g k) /\ m_key d ∉ taken.
Proof using Type. intros H. apply list_elem_of_In, List.filter_In in H as [H Hf]. rewrite list_elem_of_In. split; [done|]. by apply free_spec. Qed.
Lemma step_traced st k st' : source_step st k st' -> scan_trace c (sc_events st) (sc_consumed st) -> scan_trace c (sc_events st') (sc_consumed st').
Proof using Hms Hg.
  intros Hstep Ht. destruct Hstep as [|src dst st' Hf Hs Hv Hd Ha|src st' Hf Hs Ho Hne Ha]; [done| |].
  - unfold append_link in Ha. run_ok. cbn [sc_events sc_consumed]. econstructor; [exact Ht|].
    destruct (source_unlinked k src Hs) as [-> Hu]. destruct (free_candidate_spec _ _ _ Hd) as [Hd' Hfree].
    apply scan_link; [done|by eapply candidate_unlinked|by apply free_spec|done].
  - destruct (source_unlinked k src Hs) as [Ek Hu]. pose proof (free_candidate_spec (sc_consumed st) k) as Hc.
    destruct (free_candidates (sc_consumed st) k) as [|d0 r0] eqn:Ec; [done|]. unfold append_suggestion in Ha. run_ok. cbn [sc_events sc_consumed].
    econstructor; [exact Ht|]. apply scan_suggest; [done|by apply free_spec|done|].
    intros x Hx. change (m_key d0 :: List.map m_key r0) with (List.map m_key (d0 :: r0)) in Hx. apply list_elem_of_In, in_map_iff in Hx as (d & <- & Hd). apply list_elem_of_In, Hc in Hd as [Hd Hfree].
    split; [by eapply candidate_unlinked|done].
Qed.
Lemma scan_fold_inv (P : scanning -> Prop) ks st st' : (forall st k st', P st -> source_step st k st' -> P st') ->
  P st -> rfold (scan_source fresh g sources w verdicts open_) ks st = Ok st' -> P st'.
Proof using Type. intros Hstep. apply rfold_inv. intros x k x' Hx Hr. eapply Hstep; [exact Hx|]. by apply scan_source_step. Qed.
End Fixed.

(** The parts of a scan. *)
Lemma scan_parts pf c st : scan fresh pf c = Ok st -> exists ms g sources w,
  movements c = Ok ms /\ candidates ms = Ok (g, sources) /\ weigh pf (distinctive (k_registry c)) g sources = Ok w
  /\ rfold (scan_source fresh g sources w (decide_pairs g w []) (List.map sg_a (transfer_suggestions c)))
       (sorted_set (List.map fst g)) (mkScanning [] [] 0 0) = Ok st.
Proof.
  unfold scan. intros H. run_ok.
  match goal with E : movements c = Ok ?m, E2 : candidates ?m = Ok ?gs, E3 : weigh _ _ _ _ = Ok ?w |- _ => exists m, gs.1, gs.2, w; split; [exact E|]; split; [by rewrite E2; destruct gs|]; by split end.
Qed.
Lemma scan_traced pf c st : scan fresh pf c = Ok st -> scan_trace c (sc_events st) (sc_consumed st).
Proof.
  intros (ms & g & sources & w & Hm & Hg & _ & Hf)%scan_parts.
  eapply (scan_fold_inv g sources w _ _ (fun s => scan_trace c (sc_events s) (sc_consumed s))); [| |exact Hf]; [|constructor].
  intros s k s' Hs Hstep. by eapply step_traced.
Qed.

(** ** The weights *)
Definition weighed (pf : MovementInfo -> res (option DescriptorProfile)) (dist : list (string * list string)) (g : graph)
    (sources : list (string * MovementInfo)) (s d : string) (v : nat * string) : Prop :=
  exists src x l, dict_get sources s = Some src /\ (s, l) ∈ g /\ x ∈ l /\ m_key x = d
    /\ v = (score (account_evidence dist (parts_of pf src) src x) (dated (parts_of pf src) x),
            reason_of (account_evidence dist (parts_of pf src) src x) (dated (parts_of pf src) x)).
Lemma weigh_pairs_get dist pt s src l w0 x y v :
  assoc_get (List.fold_left (weigh_pair dist pt s src) l w0) (x, y) = Some v ->
  assoc_get w0 (x, y) = Some v \/ (x = s /\ exists d, d ∈ l /\ m_key d = y
    /\ v = (score (account_evidence dist pt src d) (dated pt d), reason_of (account_evidence dist pt src d) (dated pt d))).
Proof.
  revert w0. induction l as [|d l IH]; intros w0; cbn [List.fold_left]; [by left|]. intros [H|(-> & d' & Hd & Ek & Ev)]%IH.
  - unfold weigh_pair in H. rewrite assoc_get_set in H. destruct (decide ((s, m_key d) = (x, y))) as [E|_]; [|by left].
    right. injection E as -> Ek. injection H as <-. split; [done|]. exists d. split; [left|done].
  - right. split; [done|]. exists d'. split; [by right|done].
Qed.
Lemma weigh_get pf dist g sources w s d v : weigh pf dist g sources = Ok w -> assoc_get w (s, d) = Some v -> weighed pf dist g sources s d v.
Proof.
  unfold weigh. intros Hr Hv. assert (Hall : forall p, p ∈ g -> p ∈ g) by done. assert (H0 : assoc_get (@nil ((string * string) * (nat * string))) (s, d) = Some v -> weighed pf dist g sources s d v) by done.
  revert Hr H0. generalize (@nil ((string * string) * (nat * string))) as w0. revert Hall. generalize g at 1 3 as rest.
  induction rest as [|[k l] rest IH]; intros Hall w0 Hr H0; cbn [rfold fst snd] in Hr; run_ok; [by apply H0|].
  eapply IH; [intros p Hp; apply Hall; by right|eassumption|]. intros [H|(-> & x & Hx & Ek & Ev)]%weigh_pairs_get; [by apply H0|].
  exists a0, x, l. split; [done|]. split; [apply Hall; left|done].
Qed.
Lemma weighed_strength pf dist g sources w s d : weigh pf dist g sources = Ok w -> (_EV_FLOOR <= strength w s d)%nat ->
  exists src x l e, dict_get sources s = Some src /\ (s, l) ∈ g /\ x ∈ l /\ m_key x = d
    /\ account_evidence dist (parts_of pf src) src x = Some e
    /\ assoc_get w (s, d) = Some (strength w s d, reason_of (Some e) (dated (parts_of pf src) x)).
Proof.
  intros Hw Hf. unfold strength in *. destruct (assoc_get w (s, d)) as [[n why]|] eqn:Ea; [|unfold _EV_FLOOR, _EV_ACCOUNT in Hf; lia].
  destruct (weigh_get _ _ _ _ _ _ _ _ Hw Ea) as (src & x & l & Hs & Hl & Hx & Ek & Ev).
  destruct (account_evidence dist (parts_of pf src) src x) as [e|] eqn:Ee.
  - exists src, x, l, e. injection Ev as -> ->. done.
  - exfalso. injection Ev as -> _. unfold score, _EV_FLOOR, _EV_ACCOUNT, _EV_DATE in Hf. destruct (dated _ _); lia.
Qed.
End Scan.

Lemma add_candidates_keyed dests g s g' : keyed g -> add_candidates dests g s = Ok g' -> keyed g'.
Proof. unfold add_candidates. intros Hk H. run_ok. match goal with |- keyed (match ?x with _ => _ end) => destruct x end; auto. Qed.
Lemma candidates_keyed ms g sources : candidates ms = Ok (g, sources) -> keyed g.
Proof.
  unfold candidates. intros H. run_ok. eapply (rfold_inv _ (fun x => keyed x)); [| |eassumption]; [|apply NoDup_nil_2].
  intros x s y Hx Hr. by eapply add_candidates_keyed.
Qed.

(** * Scanning again

    A scan reads the movements and the open suggestions, and a link is all it appends that
    changes a movement; so a scan that links nothing is followed by scans that append
    nothing, and as each link takes two movements out of reach, scanning comes to an end. *)
(** ** Open suggestions *)
Definition suggestions_ok (c : core) : Prop :=
  keyed (k_suggestions c) /\ forall k s, dict_get (k_suggestions c) k = Some s -> sg_a s = k.
Definition visible (c : core) (s : suggestion) : bool :=
  negb (is_linked c (sg_a s)) && negb (negb (bool_decide (sg_candidates s = [])) && forallb (is_linked c) (sg_candidates s)).
Definition open_keys (c : core) : list string := List.map sg_a (transfer_suggestions c).
Lemma open_spec c k : suggestions_ok c -> k ∈ open_keys c <-> exists s, dict_get (k_suggestions c) k = Some s /\ visible c s = true.
Proof.
  intros [Hk Ha]. unfold open_keys, transfer_suggestions. rewrite list_elem_of_In, in_map_iff. split.
  - intros (s & <- & [Hs Hv]%List.filter_In). apply in_map_iff in Hs as ([j s'] & E & Hs). cbn in E. subst s'.
    apply list_elem_of_In, elem_dict_get in Hs; [|done]. exists s. by rewrite (Ha j s Hs).
  - intros (s & Hs & Hv). exists s. split; [by apply Ha|]. apply List.filter_In. split; [|exact Hv].
    apply in_map_iff. exists (k, s). split; [done|]. by apply list_elem_of_In, dict_get_elem.
Qed.
Lemma pop_get {A} (d : list (string * A)) k j v : keyed d -> dict_get (dict_pop d k) j = Some v -> dict_get d j = Some v.
Proof.
  intros Hk H%dict_get_elem. apply list_elem_of_In, List.filter_In in H as [H _]. apply elem_dict_get; [done|]. by apply list_elem_of_In.
Qed.
Lemma link_suggestions_ok c a b l : suggestions_ok c -> suggestions_ok (link_transfer c a b l).
Proof.
  intros [Hk Ha]. assert (Hk1 : keyed (dict_pop (k_suggestions c) a)) by (unfold dict_pop; auto). split.
  - cbn [link_transfer with_links k_suggestions]. unfold dict_pop. auto.
  - cbn [link_transfer with_links k_suggestions]. intros k s H%pop_get; [|done]. apply pop_get in H; [|done]. by apply Ha.
Qed.
Lemma suggest_suggestions_ok c a cands : suggestions_ok c -> suggestions_ok (suggest_transfer c a cands).
Proof.
  intros [Hk Ha]. split; [cbn [suggest_transfer with_links k_suggestions]; auto|]. cbn [suggest_transfer with_links k_suggestions].
  intros k s. rewrite dict_get_setting. destruct (String.eqb_spec a k) as [->|_]; [by intros [= <-]|apply Ha].
Qed.
Lemma same_suggestions_ok c c' : suggestions_ok c -> k_suggestions c' = k_suggestions c -> suggestions_ok c'.
Proof. unfold suggestions_ok. by intros H ->. Qed.
Lemma apply_suggestions_ok `{word_table : WordTable} c e c' : suggestions_ok c -> apply_core c e = Ok c' -> suggestions_ok c'.
Proof.
  unfold apply_core, apply_overlay. intros Hc H. run_ok. assert (Hg : suggestions_ok (with_registry c a)) by exact Hc.
  repeat (match type of H with (if ?b then _ else _) = _ => destruct b end; [run_ok|]); run_ok; try done.
  - by apply link_suggestions_ok.
  - by apply link_suggestions_ok.
  - by apply suggest_suggestions_ok.
  - unfold record_ruling. by repeat case_match.
  - unfold catalog_record. by repeat case_match.
Qed.

(** ** Amounts a scan can read *)
Definition readable (d : decimal) : bool := match d with Fin _ c e => is_ok (fix_dec default_ctx (Fin false c e)) | _ => false end.
Lemma fix_finite cx s c e x : fix_dec cx (Fin s c e) = Ok x -> exists t d f, x = Fin t d f.
Proof.
  unfold fix_dec. repeat case_match; try done; intros [= <-]; by eexists _, _, _.
Qed.
Lemma readable_abs d : readable d = true -> exists t c e, dabs default_ctx d = Ok (Fin t c e).
Proof.
  destruct d as [s c e|s|s g n]; [|done..]. cbn [readable dabs]. destruct (fix_dec _ _) as [x|] eqn:E; [|done].
  apply fix_finite in E as (t & c' & e' & ->). by eexists _, _, _.
Qed.
Lemma readable_sign d : readable d = true -> exists b, dlt d dzero = Ok b.
Proof. destruct d as [s c e|s|s g n]; [|done..]. intros _. unfold dlt. cbn. destruct (cmp_fin _ _ _ _ _ _); by eexists. Qed.
Lemma readable_same a b : readable a = true -> readable b = true -> exists x, same_magnitude a b = Ok x.
Proof.
  intros (s & c & e & Ha)%readable_abs (t & d & f & Hb)%readable_abs. unfold same_magnitude. rewrite Ha, Hb. cbn. by eexists.
Qed.
Lemma flow_total m : readable (m_amount m) = true -> exists f, flow_of m = Ok f.
Proof.
  intros (b & Hb)%readable_sign. unfold flow_of. rewrite Hb. cbn [rbind]. destruct (in_words _ _); [by eexists|]. destruct (_ =? _); by eexists.
Qed.
Lemma andr_total a b : is_ok a = true -> is_ok b = true -> is_ok (andr a b) = true.
Proof. unfold andr. destruct a as [[]|]; done. Qed.
Lemma candidate_total s d : readable (m_amount s) = true -> readable (m_amount d) = true -> is_ok (is_transfer_candidate s d) = true.
Proof.
  intros Hs Hd. destruct (flow_total s Hs) as (f & Ef), (flow_total d Hd) as (f' & Ef'), (readable_same _ _ Hd Hs) as (b & Eb).
  unfold is_transfer_candidate. rewrite Ef, Ef', Eb. by repeat (apply andr_total; [done|]).
Qed.
Lemma candidates_total ms : Forall (fun m => readable (m_amount m) = true) ms -> exists gs, candidates ms = Ok gs.
Proof.
  intros Hall. unfold candidates. set (un := List.filter (fun m => negb (m_linked m)) ms).
  assert (Hun : Forall (fun m => readable (m_amount m) = true) un).
  { apply Forall_forall. intros x Hx. apply list_elem_of_In, List.filter_In in Hx as [Hx _]. rewrite Forall_forall in Hall.
    by apply Hall, list_elem_of_In. }
  assert (Hflow : forall f, Forall (fun m => is_ok (flowing f m) = true) un).
  { intros f. eapply Forall_impl; [exact Hun|]. cbn beta. intros x Hx. destruct (flow_total x Hx) as (f' & E). unfold flowing. by rewrite E. }
  assert (Hsub : forall f, Forall (fun m => readable (m_amount m) = true) (List.filter (fun x => holds_ok (flowing f x)) un)).
  { intros f. apply Forall_forall. intros x Hx. apply list_elem_of_In, List.filter_In in Hx as [Hx _]. rewrite Forall_forall in Hun.
    by apply Hun, list_elem_of_In. }
  rewrite !rfilter_total by apply Hflow. cbn [rbind].
  pose proof (Hsub Source) as Hsrc. pose proof (Hsub Destination) as Hdst. set (dests := List.filter _ un) in Hdst |- *.
  generalize (List.filter (fun x => holds_ok (flowing Source x)) un) at 2 as names. intros names.
  revert Hsrc. generalize (List.filter (fun x => holds_ok (flowing Source x)) un) as srcs. intros srcs Hsrc.
  assert (Hf : forall g0, exists g, rfold (add_candidates dests) srcs g0 = Ok g).
  { induction Hsrc as [|s srcs Hs Hsrc IH]; intros g0; cbn [rfold]; [by eexists|].
    assert (Hm : exists l, matches_of dests s = Ok l).
    { unfold matches_of. rewrite rfilter_total; [cbn [rbind]; rewrite rfilter_total; [by eexists|]|].
      - apply Forall_forall. intros d Hd. apply list_elem_of_In, List.filter_In in Hd as [Hd _]. rewrite Forall_forall in Hdst.
        apply candidate_total; [done|]. by apply Hdst, list_elem_of_In.
      - eapply Forall_impl; [exact Hdst|]. cbn beta. intros d Hd. unfold in_bucket. destruct (readable_same _ _ Hd Hs) as (b & Eb).
        by apply andr_total; [|rewrite Eb]. }
    destruct Hm as (l & Hm). unfold add_candidates at 1. rewrite Hm. cbn [rbind]. apply IH. }
  destruct (Hf []) as (g & ->). by eexists.
Qed.

(** ** The movements after *)
Section Again.
Context `{case_map : CaseMap} `{word_table : WordTable} `{desc : Descriptors}.

Lemma rmap_ext {A B} (f g : A -> res B) l : (forall x, f x = g x) -> rmap f l = rmap g l.
Proof using Type. intros H. induction l as [|x l IH]; cbn [rmap]; [done|]. by rewrite H, IH. Qed.
Lemma movements_same c c' : same_but_links c c' -> (forall k, is_linked c' k = is_linked c k) -> movements c' = movements c.
Proof using Type.
  intros [E1 E2 E3 E4 E5] Hl. destruct c as [g l s cats r cat al], c' as [g' l' s' cats' r' cat' al'].
  cbn [k_registry k_categories k_rulings k_catalog k_allocations] in *. subst. unfold movements. apply rmap_ext.
  intros [key [[a st] ln]]. unfold movement. rewrite Hl. reflexivity.
Qed.
Lemma decision_kept c c' tokens mk key account kind description transaction amount d : same_but_links c c' ->
  decision c tokens mk key account kind description transaction amount (is_linked c key) = Ok d -> (is_linked c key = true -> is_linked c' key = true) ->
  exists d', decision c' tokens mk key account kind description transaction amount (is_linked c' key) = Ok d'
    /\ (is_linked c' key = is_linked c key -> d' = d)
    /\ (is_linked c key = false -> is_linked c' key = true -> d_reason d <> ByComponents -> d' = decided Transfer ByLink false).
Proof using Type.
  intros [E1 E2 E3 E4 E5] Hd Hl. destruct c as [g l s cats r cat al], c' as [g' l' s' cats' r' cat' al'].
  cbn [k_registry k_categories k_rulings k_catalog k_allocations] in *. subst.
  set (c := mkCore g l s cats r cat al) in *. set (c' := mkCore g l' s' cats r cat al) in *.
  destruct (is_linked c key) eqn:El, (is_linked c' key) eqn:El'; try (exfalso; by specialize (Hl eq_refl)).
  - exists d. split; [exact Hd|]. done.
  - unfold decision in Hd |- *. cbn [k_allocations c c'] in *. destruct (dict_get al key) as [a|].
    { eexists. split; [done|]. split; [done|]. intros _ _ Hr. injection Hd as <-. by destruct Hr. }
    unfold decide_nature in Hd |- *. cbn [rbind]. run_ok. cbn [k_registry c c'] in *. destruct (dict_get (g_cash_roles g) transaction) as [role|].
    + unfold apply_cash_role in *. destruct (in_words role _); [|done]. eexists. split; [done|]. split; [done|]. intros _ _ Hr. injection Hd as <-. by destruct Hr.
    + eexists. by repeat split.
  - exists d. split; [exact Hd|]. done.
Qed.
(** What links leave of a movement, and what they make of it. *)
Record after_links (c c' : core) (m m' : MovementInfo) : Prop := {
  af_printed : m_key m' = m_key m /\ m_account m' = m_account m /\ m_kind m' = m_kind m /\ m_date m' = m_date m
    /\ m_amount m' = m_amount m /\ m_description m' = m_description m /\ m_currency m' = m_currency m;
  af_linked : m_linked m' = is_linked c' (m_key m);
  af_same : is_linked c' (m_key m) = is_linked c (m_key m) -> m' = m;
  af_netted : is_linked c (m_key m) = false -> is_linked c' (m_key m) = true -> m_reason m <> ByComponents ->
    m_nature m' = Transfer /\ m_reason m' = ByLink /\ m_provisional m' = false /\ m_component_spending m' = None
}.
Lemma movements_after c c' ms : same_but_links c c' -> (forall k, is_linked c k = true -> is_linked c' k = true) -> movements c = Ok ms ->
  exists ms', movements c' = Ok ms' /\ Forall2 (after_links c c') ms ms'.
Proof using Type.
  intros Hs Hl. unfold movements. replace (k_registry c') with (k_registry c) by (symmetry; apply Hs).
  replace (merchant_key_map c') with (merchant_key_map c) by (unfold merchant_key_map; by rewrite (sb_registry _ _ Hs)).
  generalize (own_account_tokens (k_registry c)) as tokens, (merchant_key_map c) as mk. intros tokens mk.
  revert ms. induction (enumerated (k_registry c)) as [|[key [[a st] ln]] l IH]; intros ms H; cbn [rmap] in H |- *; run_ok.
  - exists []. split; [done|constructor].
  - match goal with E : rmap _ l = Ok ?r |- _ => destruct (IH r E) as (ms' & Hr & HF) end.
    match goal with E : movement c _ _ _ = Ok ?m0 |- _ => rename E into Em; rename m0 into m end. unfold movement in Em. run_ok.
    match goal with E : decision _ _ _ _ _ _ _ _ _ _ = Ok ?d0 |- _ => rename E into Ed; rename d0 into d end.
    destruct (decision_kept c c' _ _ _ _ _ _ _ _ d Hs Ed (Hl key)) as (d' & Ed' & Hsame & Hnet).
    unfold movement at 1. rewrite Ed'. cbn [rbind]. rewrite Hr. cbn [rbind]. eexists. split; [done|]. constructor; [|done].
    split; cbn [m_key m_account m_kind m_date m_amount m_description m_currency m_linked m_nature m_reason m_provisional m_component_spending]; [by repeat split|done| |].
    + intros E. rewrite (Hsame E), E. done.
    + intros H1 H2 H3. by rewrite (Hnet H1 H2 H3).
Qed.
Lemma trace_quiet c es taken : suggestions_ok c -> matching c -> scan_trace c es taken -> taken = [] ->
  exists c', rfold apply_core es c = Ok c' /\ suggestions_ok c' /\ same_but_links c c' /\ (forall k, is_linked c' k = is_linked c k)
    /\ (forall k, k ∈ open_keys c -> k ∈ open_keys c')
    /\ forall f a cands ev at_, transfer_suggested f a cands ev at_ None ∈ es -> a ∈ open_keys c'.
Proof using Type.
  intros Hc Hm Ht. induction Ht as [|es taken e taken' Ht IH He]; intros Et.
  - exists c. split; [done|]. repeat split; try done; try apply Hc. intros f a cands ev at_ H. by apply elem_of_nil in H.
  - destruct He as [f a b ev at_ Ha Hb Na Nb|f a cands ev at_ Ha Na Hne Hfree]; [done|].
    destruct (IH Et) as (c1 & Hr & Hc1 & Hs & Hl & Ho & He). rewrite rfold_app, Hr. cbn [rbind rfold].
    rewrite apply_suggested. cbn [rbind]. eexists. split; [done|].
    assert (Hc2 : suggestions_ok (suggest_transfer c1 a cands)) by (by apply suggest_suggestions_ok).
    assert (Hl2 : forall k, is_linked (suggest_transfer c1 a cands) k = is_linked c1 k) by done.
    assert (Ha2 : a ∈ open_keys (suggest_transfer c1 a cands)).
    { apply open_spec; [done|]. exists (mkSuggestion a cands). split; [apply dict_set_same|]. unfold visible. cbn [sg_a sg_candidates].
      rewrite Hl2, Hl, Ha. destruct cands as [|k0 r0]; [done|]. cbn [forallb]. destruct (Hfree k0 ltac:(left)) as [Hk0 _].
      rewrite Hl2, Hl, Hk0. by rewrite andb_false_r. }
    assert (Hopen : forall k, k ∈ open_keys c1 -> k ∈ open_keys (suggest_transfer c1 a cands)).
    { intros k Hk. destruct (String.eqb_spec a k) as [<-|Hn]; [done|]. apply open_spec in Hk as (s & Hs1 & Hv); [|done].
      apply open_spec; [done|]. exists s. split; [|exact Hv]. cbn [suggest_transfer with_links k_suggestions].
      rewrite dict_get_setting. by apply String.eqb_neq in Hn as ->. }
    split; [done|]. split; [by etrans|]. split; [intros k; by rewrite Hl2, Hl|]. split; [intros k Hk; by apply Hopen, Ho|].
    intros f' a' cands' ev' at' Hin. apply elem_of_app in Hin as [Hin|Hin]; [by eapply Hopen, He|].
    apply list_elem_of_singleton in Hin. assert (a' = a) as -> by (unfold transfer_suggested, event in Hin; congruence). done.
Qed.

(** ** One source again *)
Section Source.
Context (fresh : nat -> string) (g : graph) (sources : list (string * MovementInfo)) (w : weights) (verdicts : list (string * string)).
Lemma step_auto open_ st k st' : source_step fresh g sources w verdicts open_ st k st' ->
  (sc_auto st <= sc_auto st')%nat /\ (length (sc_consumed st) = 2 * sc_auto st -> length (sc_consumed st') = 2 * sc_auto st')%nat.
Proof using Type.
  intros [|src dst st1 _ _ _ _ Ha|src st1 _ _ _ _ Ha]; [by split| |].
  - unfold append_link in Ha. run_ok. cbn. lia.
  - unfold append_suggestion in Ha. destruct (free_candidates _ _ _); run_ok; cbn; lia.
Qed.
(** Before anything is linked, what a source is paired with does not depend on the scan. *)
Definition settle (k : string) (cands : list MovementInfo) : option MovementInfo :=
  match dict_get verdicts k with Some d => List.find (fun x => String.eqb (m_key x) d) cands | None => None end.
Lemma scan_source_fresh fresh' open_ st k : sc_consumed st = [] ->
  scan_source fresh' g sources w verdicts open_ st k =
  (let? src := res_of_option KeyError (dict_get sources k) in
   match default [] (dict_get g k) with
   | [] => Ok st
   | cands => match settle k cands with
              | Some dst => append_link fresh' st src dst (match assoc_get w (k, m_key dst) with Some (_, why) => why | None => "" end)
              | None => if in_words k open_ then Ok st else append_suggestion fresh' st src cands
              end
   end).
Proof using Type.
  intros Hc. unfold scan_source, settle. rewrite Hc. cbn [in_words existsb negb].
  destruct (dict_get sources k) as [src|]; [|done]. cbn [res_of_option rbind].
  rewrite filter_true by done. by destruct (default [] (dict_get g k)).
Qed.
Definition silent (open_ : list string) (k : string) : Prop :=
  forall fresh' st, sc_consumed st = [] -> scan_source fresh' g sources w verdicts open_ st k = Ok st.
(** A source that was not linked asks once: it stays silent while its question is open. *)
Lemma source_silent open_ st k st' : sc_consumed st = [] -> sc_auto st' = sc_auto st ->
  scan_source fresh g sources w verdicts open_ st k = Ok st' ->
  (forall open', k ∈ open' -> silent open' k)
  /\ sc_consumed st' = []
  /\ (exists more, sc_events st' = sc_events st ++ more)
  /\ ((forall open', silent open' k) \/ k ∈ open_
      \/ exists f src cands ev at_, dict_get sources k = Some src /\ transfer_suggested f (m_key src) cands ev at_ None ∈ sc_events st').
Proof using Type.
  intros Hc Ha. rewrite (scan_source_fresh _ _ _ _ Hc). unfold silent. intros H.
  assert (Hsil : forall open' fresh' st0, sc_consumed st0 = [] -> _) by exact (fun open' fresh' st0 H => scan_source_fresh fresh' open' st0 k H).
  destruct (dict_get sources k) as [src|] eqn:Es; [|done]. cbn [res_of_option rbind] in H, Hsil.
  destruct (default [] (dict_get g k)) as [|d0 r0] eqn:Ed.
  { injection H as <-. split; [intros; by apply Hsil|]. split; [done|]. split; [exists []; by rewrite app_nil_r|left]. intros. by apply Hsil. }
  destruct (settle k (d0 :: r0)) as [dst|] eqn:Et.
  { exfalso. unfold append_link in H. run_ok. cbn in Ha. lia. }
  split.
  { intros open' Hk fresh' st0 H0. rewrite Hsil by done. by apply in_words_spec in Hk as ->. }
  destruct (in_words k open_) eqn:Ek.
  - injection H as <-. split; [done|]. split; [exists []; by rewrite app_nil_r|]. right. left. by apply in_words_spec.
  - unfold append_suggestion in H. run_ok. cbn [sc_consumed sc_events]. split; [done|]. split; [by eexists|]. right. right.
    eexists _, src, _, _, _. split; [done|]. apply elem_of_app. right. by left.
Qed.
Lemma keys_silent open_ ks : forall st st', sc_consumed st = [] -> sc_auto st' = sc_auto st ->
  rfold (scan_source fresh g sources w verdicts open_) ks st = Ok st' ->
  (exists more, sc_events st' = sc_events st ++ more)
  /\ forall k, k ∈ ks -> (forall open', k ∈ open' -> silent open' k)
      /\ ((forall open', silent open' k) \/ k ∈ open_
          \/ exists f src cands ev at_, dict_get sources k = Some src /\ transfer_suggested f (m_key src) cands ev at_ None ∈ sc_events st').
Proof using Type.
  induction ks as [|k ks IH]; intros st st' Hc Ha H; cbn [rfold] in H; run_ok.
  - split; [exists []; by rewrite app_nil_r|]. intros k Hk. by apply elem_of_nil in Hk.
  - match goal with E : scan_source _ _ _ _ _ _ st k = Ok ?x |- _ => rename E into E1; rename x into st1 end.
    assert (Hmono : (sc_auto st1 <= sc_auto st')%nat).
    { refine (scan_fold_inv fresh g sources w verdicts open_ (fun s => (sc_auto st1 <= sc_auto s)%nat) _ _ _ _ _ H); [|done].
      intros s j s' Hs [Hstep _]%step_auto. lia. }
    assert (Hmono1 : (sc_auto st <= sc_auto st1)%nat) by (apply scan_source_step, step_auto in E1; tauto).
    destruct (source_silent open_ st k st1 Hc ltac:(lia) E1) as (Hs & Hc1 & (m1 & Em1) & Hcase).
    destruct (IH st1 st' Hc1 ltac:(lia) H) as ((m2 & Em2) & Hall). split; [exists (m1 ++ m2); by rewrite app_assoc, <- Em1|].
    intros j [->|Hj]%elem_of_cons; [|by apply Hall]. split; [done|].
    destruct Hcase as [?|[?|(f & src & cands & ev & at_ & Hsrc & Hin)]]; [by left|by right; left|right; right].
    exists f, src, cands, ev, at_. split; [done|]. rewrite Em2. apply elem_of_app. by left.
Qed.
Lemma silent_fold fresh' open_ ks st : sc_consumed st = [] -> (forall k, k ∈ ks -> silent open_ k) ->
  rfold (scan_source fresh' g sources w verdicts open_) ks st = Ok st.
Proof using Type.
  intros Hc. induction ks as [|k ks IH]; intros Hs; cbn [rfold]; [done|]. rewrite (Hs k ltac:(left)) by done. cbn [rbind].
  apply IH. intros j Hj. apply Hs. by right.
Qed.
End Source.

(** ** A scan again *)
Lemma scan_counts fresh pf c st : scan fresh pf c = Ok st -> (length (sc_consumed st) = 2 * sc_auto st)%nat.
Proof using Type.
  intros (ms & g & sources & w & _ & _ & _ & Hf)%scan_parts.
  refine (scan_fold_inv fresh g sources w _ _ (fun s => (length (sc_consumed s) = 2 * sc_auto s)%nat) _ _ _ _ _ Hf); [|done].
  intros s k s' Hs [_ Hstep]%step_auto. auto.
Qed.
Lemma settled_again fresh fresh' pf c c' n : suggestions_ok c -> matching c -> link_transfers fresh pf c = Ok (c', (0, 0, n)) ->
  link_transfers fresh' pf c' = Ok (c', (0, 0, 0)).
Proof using Type.
  intros Hc Hm H. unfold link_transfers in H. run_ok. match goal with E : scan fresh pf c = Ok ?s |- _ => rename E into Hscan; rename s into st end.
  match goal with E : sc_auto st = 0 |- _ => rename E into Ha end.
  pose proof (scan_counts _ _ _ _ Hscan) as Hlen. rewrite Ha in Hlen. apply nil_length_inv in Hlen.
  destruct (trace_quiet c _ _ Hc Hm (scan_traced _ _ _ _ Hscan) Hlen) as (x & Hr & Hcx & Hs & Hl & Ho & Hev).
  assert (x = c') as -> by congruence. clear Hr.
  apply scan_parts in Hscan as (ms & g & sources & w & E1 & E2 & E3 & Hf).
  destruct (keys_silent fresh g sources w _ _ _ (mkScanning [] [] 0 0) st eq_refl Ha Hf) as (_ & Hall).
  assert (Hscan' : scan fresh' pf c' = Ok (mkScanning [] [] 0 0)).
  { unfold scan. rewrite (movements_same c c' Hs Hl), E1. cbn [rbind]. rewrite E2. cbn [rbind fst snd].
    replace (k_registry c') with (k_registry c) by (symmetry; apply Hs). rewrite E3. cbn [rbind].
    apply silent_fold; [done|]. intros k Hk. destruct (Hall k Hk) as (Hq & [Hq'|[Hin|(f & src & cands & ev & at_ & Hsrc & Hin)]]).
    - apply Hq'.
    - apply Hq. by apply Ho.
    - apply Hq. apply (candidates_sound ms g sources E2) in Hsrc as [<- _]. by eapply Hev. }
  unfold link_transfers. rewrite Hscan'. done.
Qed.

(** ** A scan returns *)
Lemma fold_dict_has {A} (l d : list (string * A)) k : k ∈ List.map fst l \/ dict_get d k <> None ->
  dict_get (List.fold_left (fun d p => dict_set d p.1 p.2) l d) k <> None.
Proof using Type.
  revert d. induction l as [|[j v] l IH]; intros d H; cbn [List.fold_left fst snd List.map] in *.
  - destruct H as [H|H]; [by apply elem_of_nil in H|done].
  - apply IH. rewrite dict_get_setting. destruct (String.eqb_spec j k) as [->|Hn]; [by right|].
    destruct H as [H|H]; [|by right]. apply elem_of_cons in H as [->|H]; [done|by left].
Qed.
Lemma candidates_sources ms g sources k : candidates ms = Ok (g, sources) -> k ∈ List.map fst g ->
  exists src, dict_get sources k = Some src /\ src ∈ ms.
Proof using Type.
  intros Hg Hk. pose proof (candidates_keyed _ _ _ Hg) as Hkey. pose proof (candidates_sound _ _ _ Hg) as [Hent Hsrc].
  apply list_elem_of_In, in_map_iff in Hk as ([j l] & E & Hk). cbn in E. subst j.
  apply list_elem_of_In, elem_dict_get in Hk; [|done]. destruct (Hent k l Hk) as (_ & s & Ek & Hs & _).
  assert (Hn : dict_get sources k <> None).
  { unfold candidates in Hg. run_ok. apply fold_dict_has. left. apply list_elem_of_In, in_map_iff.
    match goal with H : rfilter (flowing Source) _ = Ok ?srcs |- _ => exists (m_key s, s); split; [done|];
      apply in_map_iff; exists s; split; [done|]; apply list_elem_of_In; eapply flowing_spec; [exact H|exact Hs] end. }
  destruct (dict_get sources k) as [src|] eqn:Es; [|done]. exists src. split; [done|]. by destruct (Hsrc k src Es) as [_ [? _]].
Qed.
Lemma rfold_total {A B} (f : A -> B -> res A) l : (forall a b, b ∈ l -> exists a', f a b = Ok a') -> forall a, exists a', rfold f l a = Ok a'.
Proof using Type.
  induction l as [|b l IH]; intros H a; cbn [rfold]; [by eexists|]. destruct (H a b ltac:(left)) as (a' & ->). cbn [rbind].
  apply IH. intros x y Hy. apply H. by right.
Qed.
Lemma evidence_total src dst stage why : readable (m_amount src) = true -> exists ev, evidence_of src dst stage why = Ok ev.
Proof using Type. intros (s & c & e & H)%readable_abs. unfold evidence_of. rewrite H. by eexists. Qed.
Lemma scan_total fresh pf c ms : movements c = Ok ms -> Forall (fun m => readable (m_amount m) = true) ms ->
  exists st, scan fresh pf c = Ok st.
Proof using Type.
  intros Hm Hall. unfold scan. rewrite Hm. cbn [rbind]. destruct (candidates_total ms Hall) as ([g sources] & Hg). rewrite Hg.
  cbn [rbind fst snd]. pose proof (fun k Hk => candidates_sources ms g sources k Hg Hk) as Hsrc. rewrite Forall_forall in Hall.
  assert (Hw : exists w, weigh pf (distinctive (k_registry c)) g sources = Ok w).
  { apply rfold_total. intros w0 [k l] Hp. destruct (Hsrc k) as (src & Es & _).
    - apply list_elem_of_In, in_map_iff. exists (k, l). by rewrite <- list_elem_of_In.
    - cbn [fst snd]. rewrite Es. by eexists. }
  destruct Hw as (w & ->). cbn [rbind]. apply rfold_total. intros st k Hk. rewrite sorted_set_elem in Hk.
  destruct (Hsrc k Hk) as (src & Es & Hin). specialize (Hall src Hin). unfold scan_source. destruct (negb (negb _)); [by eexists|].
  rewrite Es. cbn [res_of_option rbind]. match goal with |- exists a, match ?x with _ => _ end = _ => destruct x as [|d0 r0]; [by eexists|] end.
  match goal with |- exists a, match ?x with _ => _ end = _ => destruct x as [dst|] end.
  - unfold append_link. destruct (evidence_total src dst Decisive (match assoc_get w (k, m_key dst) with Some (_, why) => why | None => "" end) Hall) as (ev & ->).
    by eexists.
  - destruct (in_words _ _); [by eexists|]. unfold append_suggestion. destruct (evidence_total src d0 Suggested "" Hall) as (ev & ->). by eexists.
Qed.
Lemma link_total fresh pf c ms : matching c -> movements c = Ok ms -> Forall (fun m => readable (m_amount m) = true) ms ->
  exists r, link_transfers fresh pf c = Ok r.
Proof using Type.
  intros Hm Hms Hall. destruct (scan_total fresh pf c ms Hms Hall) as (st & Hs). unfold link_transfers. rewrite Hs. cbn [rbind].
  destruct (trace_runs c _ _ Hm (scan_traced _ _ _ _ Hs)) as (x & -> & _). by eexists.
Qed.

(** ** The end of scanning *)
Definition unlinked (c : core) : nat := length (List.filter (fun k => negb (is_linked c k)) (List.map fst (enumerated (k_registry c)))).
Lemma filter_shrinks {A} (f g : A -> bool) l x : (forall y, g y = true -> f y = true) -> x ∈ l -> f x = true -> g x = false ->
  (length (List.filter g l) < length (List.filter f l))%nat.
Proof using Type.
  intros Hgf Hx Fx Gx. assert (Hle : forall l', (length (List.filter g l') <= length (List.filter f l'))%nat).
  { induction l' as [|y l' IH]; cbn [List.filter]; [lia|]. pose proof (Hgf y). destruct (g y), (f y); cbn; try lia; by rewrite H in *. }
  induction l as [|y l IH]; [by apply elem_of_nil in Hx|]. cbn [List.filter]. apply elem_of_cons in Hx as [<-|Hx].
  - rewrite Fx, Gx. cbn. pose proof (Hle l). lia.
  - pose proof (IH Hx). pose proof (Hgf y). destruct (g y), (f y); cbn; try lia; by rewrite H0 in *.
Qed.
Lemma consumed_held fresh pf c st : scan fresh pf c = Ok st ->
  sc_consumed st = [] \/ exists k, k ∈ sc_consumed st /\ k ∈ List.map fst (enumerated (k_registry c)) /\ is_linked c k = false.
Proof using Type.
  intros (ms & g & sources & w & E1 & E2 & _ & Hf)%scan_parts.
  refine (scan_fold_inv fresh g sources w _ _ (fun s => sc_consumed s = [] \/ exists k, k ∈ sc_consumed s
           /\ k ∈ List.map fst (enumerated (k_registry c)) /\ is_linked c k = false) _ _ _ _ _ Hf); [|by left].
  intros s k s' Hs Hstep. destruct Hstep as [|src dst s' _ Hsrc _ _ Ha|src s' _ _ _ _ Ha]; [done| |].
  - unfold append_link in Ha. run_ok. cbn. right. exists (m_key src). split; [right; left|].
    destruct (source_unlinked c ms g sources E1 E2 _ _ Hsrc) as [-> Hu]. split; [|done]. rewrite <- (movements_keys c ms E1).
    apply (candidates_sound ms g sources E2) in Hsrc as [<- (Hin & _)]. apply list_elem_of_In, in_map_iff. exists src. by rewrite <- list_elem_of_In.
  - unfold append_suggestion in Ha. destruct (free_candidates _ _ _); run_ok; done.
Qed.
Lemma scan_shrinks fresh pf c c' n : matching c -> link_transfers fresh pf c = Ok (c', n) ->
  matching c' /\ k_registry c' = k_registry c /\ (n.1.2 = 0 \/ unlinked c' < unlinked c)%nat /\ n.1.1 = n.1.2.
Proof using Type.
  intros Hm H. unfold link_transfers in H. run_ok. match goal with E : scan _ _ _ = Ok ?s |- _ => rename E into Hscan; rename s into st end.
  destruct (trace_runs c _ _ Hm (scan_traced _ _ _ _ Hscan)) as (x & Hr & [Hs Hm' Hl]). assert (x = c') as -> by congruence.
  split; [done|]. pose proof (sb_registry _ _ Hs) as Eg. split; [done|]. cbn [fst snd]. split; [|done].
  destruct (consumed_held _ _ _ _ Hscan) as [He|(k & Hk & Hin & Hu)].
  - left. apply scan_counts in Hscan. rewrite He in Hscan. cbn in Hscan. lia.
  - right. unfold unlinked. rewrite Eg. eapply filter_shrinks; [|exact Hin|by rewrite Hu|].
    + intros y Hy. apply negb_true_iff in Hy. apply negb_true_iff. destruct (is_linked c y) eqn:E; [|done].
      assert (Hx : is_linked c' y = true) by (apply Hl; by left). congruence.
    + apply negb_false_iff, Hl. by right.
Qed.
Lemma link_suggestions_kept fresh pf c c' n : suggestions_ok c -> link_transfers fresh pf c = Ok (c', n) -> suggestions_ok c'.
Proof using Type.
  intros Hc H. unfold link_transfers in H. run_ok. eapply (rfold_inv apply_core suggestions_ok); [|exact Hc|eassumption].
  intros x e y Hx Hy. by eapply apply_suggestions_ok.
Qed.
Lemma replay_suggestions_ok al es c : replay_core al es = Ok c -> suggestions_ok c.
Proof using Type.
  intros H. eapply (rfold_inv apply_core suggestions_ok); [| |exact H].
  - intros x e y Hx Hy. by eapply apply_suggestions_ok.
  - split; [apply NoDup_nil_2|done].
Qed.

(** Scans one after the other, and the counts of the last. *)
Fixpoint scans (pf : MovementInfo -> res (option DescriptorProfile)) (fresh : list (nat -> string)) (c : core) (last : counts) : res (core * counts) :=
  match fresh with
  | [] => Ok (c, last)
  | f :: rest => let? r := link_transfers f pf c in scans pf rest r.1 r.2
  end.
Lemma scans_settled pf rest c n0 c' n f0 c0 m : suggestions_ok c0 -> matching c0 -> link_transfers f0 pf c0 = Ok (c, (0, 0, m)) ->
  rest <> [] -> scans pf rest c n0 = Ok (c', n) -> c' = c /\ n = (0, 0, 0).
Proof using Type.
  intros Hc Hm H0. revert n0. induction rest as [|f rest IH]; intros n0 Hne H; [done|]. cbn [scans] in H.
  rewrite (settled_again f0 f pf c0 c m Hc Hm H0) in H. cbn [rbind fst snd] in H.
  destruct rest as [|f' rest]; [cbn in H; by injection H as <- <-|]. by eapply IH.
Qed.
Lemma scans_end pf fresh : forall c n0 c' n, suggestions_ok c -> matching c -> (S (unlinked c) < length fresh)%nat ->
  scans pf fresh c n0 = Ok (c', n) -> n = (0, 0, 0) /\ forall f, link_transfers f pf c' = Ok (c', (0, 0, 0)).
Proof using Type.
  induction fresh as [|f rest IH]; intros c n0 c' n Hc Hm Hlen H; [cbn in Hlen; lia|]. cbn [scans] in H. run_ok.
  match goal with E : link_transfers f pf c = Ok ?r |- _ => rename E into Hl; destruct r as [c1 [[a b] m]]; cbn [fst snd] in H end.
  destruct (scan_shrinks f pf c c1 _ Hm Hl) as (Hm1 & _ & Hdec & Eab). cbn [fst snd] in Hdec, Eab. subst b.
  destruct Hdec as [-> | Hlt].
  - assert (Hne : rest <> []) by (intros ->; cbn in Hlen; lia). destruct (scans_settled _ _ _ _ _ _ _ _ _ Hc Hm Hl Hne H) as [-> ->].
    split; [done|]. intros f'. by eapply settled_again.
  - apply (IH c1 (a, a, m)); [by eapply link_suggestions_kept|done|cbn in Hlen; lia|done].
Qed.
Lemma scans_total pf fresh : forall c n0 ms, matching c -> movements c = Ok ms -> Forall (fun m => readable (m_amount m) = true) ms ->
  exists r, scans pf fresh c n0 = Ok r.
Proof using Type.
  induction fresh as [|f rest IH]; intros c n0 ms Hm Hms Hall; cbn [scans]; [by eexists|].
  destruct (link_total f pf c ms Hm Hms Hall) as ([c1 n1] & Hl). rewrite Hl. cbn [rbind fst snd].
  pose proof Hl as Hl'. unfold link_transfers in Hl'. run_ok. match goal with E : scan _ _ _ = Ok ?s |- _ => rename E into Hscan; rename s into st end.
  destruct (trace_runs c _ _ Hm (scan_traced _ _ _ _ Hscan)) as (x & Hr & [Hs Hm1 Hk]). assert (x = c1) as -> by congruence.
  destruct (movements_after c c1 ms Hs) as (ms' & Hms' & HF); [intros k Hk'; apply Hk; by left|done|].
  apply (IH c1 _ ms'); [done|done|]. clear -HF Hall. induction HF as [|m m' l l' Hm HF IH]; [constructor|].
  apply Forall_cons in Hall as [Ha Hall]. constructor; [|by apply IH]. destruct Hm as [(_ & _ & _ & _ & -> & _) _ _ _]. done.
Qed.
End Again.
