(* ===== verification/MovementLaws.v ===== *)
(** * MovementLaws: what a key is made of

    Strings joined by bars read back when their parts hold none; the twins of a list of
    lines are counted the same in any order; and a fold that sums per currency is, for each
    currency, the fold over its own amounts. *)
From Stdlib Require Import ZArith NArith Ascii String Lia ZifyBool ZifyN ZifyNat.
From stdpp Require Import base list numbers strings.
From S2P Require Import Prelude Text Words Json Unicode Dates Decimals Arithmetic Acquisition Events EventTypes Postings Dictionaries Accounts Schedule Normalize Render Policy Grammars Identity Registry RegistryProperties Overlays Merchants Movements.
#[local] Open Scope string_scope.
#[local] Open Scope list_scope.

(** ** Bars *)
Definition no_bar (c : ascii) : bool := negb (Ascii.eqb c "|").
Definition bar_free (s : string) : bool := forallb no_bar (enc s).

Lemma cut_first (a b x y : bytes) : forallb no_bar a = true -> forallb no_bar b = true ->
  a ++ "|"%char :: x = b ++ "|"%char :: y -> a = b /\ x = y.
Proof.
  revert b. induction a as [|c a IH]; intros [|d b] Ha Hb H; cbn [app forallb] in *; [by injection H| | |].
  - injection H as <- _. done.
  - injection H as -> _. done.
  - apply andb_true_iff in Ha as [_ Ha], Hb as [_ Hb]. injection H as -> H. by apply IH in H as [-> ->].
Qed.
Lemma cut_last (a b x y : bytes) : forallb no_bar x = true -> forallb no_bar y = true ->
  a ++ "|"%char :: x = b ++ "|"%char :: y -> a = b /\ x = y.
Proof.
  intros Hx Hy H. assert (Hr : forall l, forallb no_bar l = true -> forallb no_bar (rev l) = true).
  { intros l. rewrite !forallb_forall. intros Hl c Hc. apply Hl. by apply in_rev. }
  apply (f_equal (@rev ascii)) in H. rewrite !rev_app_distr in H. cbn [rev] in H. rewrite <- !app_assoc in H. cbn [app] in H.
  apply cut_first in H as [H1 H2]; [|by apply Hr..]. split; by apply rev_inj.
Qed.
Lemma forallb_app_true {A} (f : A -> bool) a b : forallb f a = true -> forallb f b = true -> forallb f (a ++ b) = true.
Proof. intros Ha Hb. by rewrite forallb_app, Ha, Hb. Qed.
Lemma digits_no_bar n : forallb no_bar (digits_of_N n) = true.
Proof.
  apply forallb_forall. intros c Hc. pose proof (digits_all n) as H. rewrite List.Forall_forall in H. specialize (H c Hc).
  unfold no_bar. destruct (Ascii.eqb_spec c "|"); [by subst|done].
Qed.
Lemma zeros_no_bar k : forallb no_bar (zeros k) = true.
Proof. unfold zeros. induction (Z.to_nat k); done. Qed.
Lemma sub_no_bar (l m : bytes) : (forall c, In c m -> In c l) -> forallb no_bar l = true -> forallb no_bar m = true.
Proof. rewrite !forallb_forall. auto. Qed.
Lemma take_in {A} n (l : list A) x : In x (take n l) -> In x l.
Proof. rewrite <- !list_elem_of_In. apply subseteq_take. Qed.
Lemma drop_in {A} n (l : list A) x : In x (drop n l) -> In x l.
Proof. rewrite <- !list_elem_of_In. apply subseteq_drop. Qed.
Lemma dec_str_no_bar d : bar_free (dec_str d) = true.
Proof.
  unfold bar_free, dec_str. rewrite enc_dec. pose proof digits_no_bar as Hd. pose proof zeros_no_bar as Hz.
  destruct d as [s c e|s|s g n]; cbn [dec_text].
  - apply forallb_app_true; [by destruct s|]. apply forallb_app_true.
    + set (ds := digits_of_N c). assert (Hds : forallb no_bar ds = true) by apply Hd. repeat case_match; repeat apply forallb_app_true; try done; by eapply sub_no_bar; [|exact Hds]; intros x; first [apply take_in | apply drop_in].
    + destruct (_ =? _)%Z; [done|]. unfold signed_exponent. cbn [forallb]. rewrite Hd. by destruct (_ <? 0)%Z.
  - by destruct s.
  - repeat apply forallb_app_true; [by destruct s|by destruct g|by case_match].
Qed.

Lemma key_of_bytes doc account date amount description n : enc (key_of (doc, account, date, amount, description) n) =
  enc doc ++ "|"%char :: enc account ++ "|"%char :: enc date ++ "|"%char :: enc amount ++ "|"%char :: enc description ++ "|"%char :: digits_of_N (N.of_nat n).
Proof. unfold key_of, movement_key. by rewrite !enc_app, enc_dec. Qed.
(** Of a line whose first fields hold no bar. *)
Definition plain_signature (s : signature) : bool :=
  let '(doc, account, date, amount, description) := s in bar_free doc && bar_free account && bar_free date && bar_free amount.
Lemma key_of_inj s t n m : plain_signature s = true -> plain_signature t = true -> key_of s n = key_of t m -> s = t /\ n = m.
Proof.
  destruct s as [[[[doc account] date] amount] description], t as [[[[doc' account'] date'] amount'] description'].
  intros [[[H1 H2]%andb_true_iff H3]%andb_true_iff H4]%andb_true_iff [[[G1 G2]%andb_true_iff G3]%andb_true_iff G4]%andb_true_iff H.
  apply (f_equal enc) in H. rewrite !key_of_bytes in H.
  apply cut_first in H as [E1%enc_inj H]; [|done..]. apply cut_first in H as [E2%enc_inj H]; [|done..].
  apply cut_first in H as [E3%enc_inj H]; [|done..]. apply cut_first in H as [E4%enc_inj H]; [|done..].
  apply cut_last in H as [E5%enc_inj H]; [|apply digits_no_bar..].
  apply (f_equal value_of_digits) in H. rewrite !value_digits in H. split; [congruence|lia].
Qed.

(** ** Twins *)
Section Twins.
Context {A : Type} (sig : A -> signature).
Lemma occurrences_perm l l' s : l ≡ₚ l' -> occurrences l s = occurrences l' s.
Proof using Type. intros H. unfold occurrences. induction H; cbn [List.filter]; try done; [|by repeat case_match|by etrans]. case_match; cbn; by rewrite ?IHPermutation. Qed.
Lemma occurrences_cons t l s : occurrences (t :: l) s = ((if bool_decide (t = s) then 1 else 0) + occurrences l s)%nat.
Proof using Type. unfold occurrences. cbn [List.filter]. by case_match. Qed.
Lemma numbered_in seen_ l k x : (k, x) ∈ numbered sig seen_ l -> x ∈ l /\ exists n, k = key_of (sig x) n /\ (occurrences seen_ (sig x) <= n)%nat.
Proof using Type.
  revert seen_. induction l as [|y l IH]; intros seen_; cbn [numbered]; [by intros H%elem_of_nil|].
  intros [[= -> ->]|H]%elem_of_cons; [split; [by left|by eexists]|]. apply IH in H as (Hx & n & -> & Hn). split; [by right|].
  exists n. split; [done|]. rewrite occurrences_cons in Hn. lia.
Qed.
Lemma numbered_nodup seen_ l : Forall (fun x => plain_signature (sig x) = true) l -> NoDup (List.map fst (numbered sig seen_ l)).
Proof using Type.
  intros HF. revert seen_. induction HF as [|x l Hx HF IH]; intros seen_; cbn [numbered List.map fst]; [apply NoDup_nil_2|].
  apply NoDup_cons. split; [|apply IH]. intros H. apply list_elem_of_In, in_map_iff in H as ([k y] & E & H). cbn in E. subst k.
  apply list_elem_of_In, numbered_in in H as (Hy & n & E & Hn). rewrite Forall_forall in HF.
  apply key_of_inj in E as [E <-]; [|done|by apply HF]. rewrite occurrences_cons, E, bool_decide_eq_true_2 in Hn by done. lia.
Qed.
Definition keyed_signatures (seen_ : list signature) (l : list A) : list (string * signature) :=
  List.map (fun p => (p.1, sig p.2)) (numbered sig seen_ l).
Lemma keyed_seen l : forall s s', s ≡ₚ s' -> keyed_signatures s l = keyed_signatures s' l.
Proof using Type.
  unfold keyed_signatures. induction l as [|x l IH]; intros s s' H; cbn [numbered List.map fst snd]; [done|].
  rewrite (occurrences_perm _ _ _ H). f_equal. apply IH. by constructor.
Qed.
Lemma keyed_perm l l' : l ≡ₚ l' -> forall s, keyed_signatures s l ≡ₚ keyed_signatures s l'.
Proof using Type.
  intros H. induction H as [|x l l' H IH|x y l|l1 l2 l3 H1 IH1 H2 IH2]; intros s.
  - done.
  - unfold keyed_signatures in *. cbn [numbered List.map]. by constructor.
  - assert (Hs : keyed_signatures (sig x :: sig y :: s) l = keyed_signatures (sig y :: sig x :: s) l) by (apply keyed_seen; constructor).
    unfold keyed_signatures in *. cbn [numbered List.map fst snd]. rewrite !occurrences_cons, Hs.
    destruct (decide (sig x = sig y)) as [E|E]; [by rewrite E|].
    rewrite (bool_decide_eq_false_2 (sig x = sig y)), (bool_decide_eq_false_2 (sig y = sig x)) by congruence. apply perm_swap.
  - etrans; [apply IH1|apply IH2].
Qed.
End Twins.

Lemma insert_line_perm x l : insert_line x l ≡ₚ x :: l.
Proof. induction l as [|y l IH]; cbn [insert_line]; [done|]. case_match; [|done]. rewrite IH. apply perm_swap. Qed.
Lemma sorted_lines_perm l : sorted_lines l ≡ₚ l.
Proof. unfold sorted_lines. induction l as [|x l IH]; cbn [fold_right]; [done|]. by rewrite insert_line_perm, IH. Qed.
Lemma flat_map_perm {A B} (f g : A -> list B) l : (forall x, x ∈ l -> f x ≡ₚ g x) -> List.flat_map f l ≡ₚ List.flat_map g l.
Proof.
  induction l as [|x l IH]; intros H; cbn [List.flat_map]; [done|]. apply Permutation_app; [apply H; left|]. apply IH. intros y Hy. apply H. by right.
Qed.

(** The keys of a list of lines: for each signature, one per line that has it. *)
Section Spec.
Context {A : Type} (sig : A -> signature).
Lemma keyed_spec l : forall s k t, (k, t) ∈ keyed_signatures sig s l <->
  exists n, k = key_of t n /\ (occurrences s t <= n < occurrences s t + occurrences (List.map sig l) t)%nat.
Proof using Type.
  induction l as [|x l IH]; intros s k t; unfold keyed_signatures in *; cbn [numbered List.map fst snd].
  - split; [by intros H%elem_of_nil|]. intros (n & _ & H). change (occurrences [] t) with 0%nat in H. lia.
  - rewrite elem_of_cons, IH, !occurrences_cons. split.
    + intros [[= -> ->]|(n & -> & H)]; [exists (occurrences s (sig x))|exists n].
      * rewrite bool_decide_eq_true_2 by done. split; [done|lia].
      * split; [done|lia].
    + intros (n & -> & H). destruct (decide (sig x = t)) as [<-|Hn].
      * rewrite bool_decide_eq_true_2 in * by done. destruct (decide (n = occurrences s (sig x))) as [->|]; [by left|right].
        exists n. split; [done|lia].
      * rewrite (bool_decide_eq_false_2 _ Hn) in *. right. exists n. split; [done|lia].
Qed.
End Spec.
Lemma occurrences_app l l' t : occurrences (l ++ l') t = (occurrences l t + occurrences l' t)%nat.
Proof. unfold occurrences. by rewrite List.filter_app, List.length_app. Qed.
(** The signatures an account's lines have among the money lines. *)
Definition account_signatures (g : registry) (a : string) : list signature :=
  if in_words (r_kind (reg_of g a)) MONEY_KINDS then List.map (signature_of a) (r_lines (reg_of g a)) else [].
Definition signatures (g : registry) : list (string * signature) :=
  keyed_signatures (fun x => signature_of x.1.1 x.2) [] (money_lines g).
Lemma map_flat_map {A B C} (f : B -> C) (h : A -> list B) l : List.map f (List.flat_map h l) = List.flat_map (fun x => List.map f (h x)) l.
Proof. induction l as [|x l IH]; cbn [List.flat_map]; [done|]. by rewrite List.map_app, IH. Qed.
Lemma money_signatures g : List.map (fun x : string * reg_account * TxnLine => signature_of x.1.1 x.2) (money_lines g)
  ≡ₚ List.flat_map (account_signatures g) (accounts_seen g).
Proof.
  unfold money_lines. rewrite map_flat_map. apply flat_map_perm. intros a _. unfold account_signatures.
  destruct (in_words _ _); [|done]. rewrite List.map_map. cbn [fst snd]. apply Permutation_map, sorted_lines_perm.
Qed.
Lemma keyed_map {A} (sig : A -> signature) l : forall s, keyed_signatures sig s l = keyed_signatures id s (List.map sig l).
Proof.
  unfold keyed_signatures. induction l as [|x l IH]; intros s; cbn [numbered List.map fst snd id]; [done|]. by rewrite IH.
Qed.
Lemma signatures_perm g g' : accounts_seen g' = accounts_seen g ->
  (forall a, a ∈ accounts_seen g -> account_signatures g' a ≡ₚ account_signatures g a) -> signatures g' ≡ₚ signatures g.
Proof.
  intros E H. unfold signatures. rewrite (keyed_map _ (money_lines g)), (keyed_map _ (money_lines g')). apply keyed_perm.
  etrans; [apply money_signatures|]. etrans; [|symmetry; apply money_signatures]. rewrite E. by apply flat_map_perm.
Qed.
Lemma seen_nodup g : NoDup (accounts_seen g).
Proof.
  unfold accounts_seen. pose proof (sorted_set_sorted (List.map fst (List.filter (fun p => r_seen p.2) (g_acct g)))) as H.
  induction H as [|x l Hs IH HF]; [apply NoDup_nil_2|]. apply NoDup_cons. split; [|exact IH]. intros Hx.
  rewrite List.Forall_forall in HF. apply list_elem_of_In, HF in Hx. by apply word_lt_irrefl in Hx.
Qed.
Definition of_account (t : signature) : string := let '(_, a, _, _, _) := t in a.
Lemma foreign_occurrences g a t : of_account t <> a -> occurrences (account_signatures g a) t = 0%nat.
Proof.
  intros Ha. unfold account_signatures. destruct (in_words _ _); [|done]. induction (r_lines (reg_of g a)) as [|l ls IH]; [done|].
  cbn [List.map]. rewrite occurrences_cons, IH, bool_decide_eq_false_2; [done|]. intros <-. by apply Ha.
Qed.
Lemma seen_occurrences g t : occurrences (List.map (fun x : string * reg_account * TxnLine => signature_of x.1.1 x.2) (money_lines g)) t =
  if in_words (of_account t) (accounts_seen g) then occurrences (account_signatures g (of_account t)) t else 0%nat.
Proof.
  rewrite (occurrences_perm _ _ _ (money_signatures g)). pose proof (seen_nodup g) as Hn. induction Hn as [|a l Ha Hn IH]; [done|].
  cbn [List.flat_map]. rewrite occurrences_app, IH. destruct (String.eqb_spec (of_account t) a) as [E|E].
  - replace (in_words (of_account t) l) with false by (symmetry; apply not_true_iff_false; rewrite in_words_spec; by rewrite E).
    replace (in_words (of_account t) (a :: l)) with true by (symmetry; rewrite in_words_spec, E; left). rewrite E. lia.
  - rewrite foreign_occurrences by done. replace (in_words (of_account t) (a :: l)) with (in_words (of_account t) l); [done|].
    apply eq_iff_eq_true. rewrite !in_words_spec, elem_of_cons. by firstorder.
Qed.
Lemma signatures_spec g k t : (k, t) ∈ signatures g <->
  of_account t ∈ accounts_seen g /\ exists n, k = key_of t n /\ (n < occurrences (account_signatures g (of_account t)) t)%nat.
Proof.
  unfold signatures. rewrite keyed_spec, seen_occurrences. change (occurrences [] t) with 0%nat. rewrite <- in_words_spec.
  destruct (in_words (of_account t) (accounts_seen g)).
  - split; [intros (n & -> & H); split; [done|]; exists n; split; [done|lia]|intros (_ & n & -> & H); exists n; split; [done|lia]].
  - split; [intros (n & _ & H); lia|by intros [H _]].
Qed.

(** ** Later events *)
Section Later.
Context `{word_table : WordTable}.
(** The event opens no account that [g] holds. *)
Definition opens_new (g : registry) (e : Event) : Prop :=
  event_type e = JStr "AccountOpened" -> forall a, body_item e "account_id" = Ok a -> dict_get (g_acct g) a = None.
Lemma reg_of_set g a st b : reg_of (set_reg g a st) b = if String.eqb a b then st else reg_of g b.
Proof using Type. unfold reg_of, set_reg, with_acct. cbn [g_acct]. rewrite dict_get_setting. by case_match. Qed.
Lemma opened_grown g e g' a : apply_registry g e = Ok g' -> (forall b, event_type e = JStr "AccountOpened" -> body_item e "account_id" = Ok b -> b <> a) ->
  grown (reg_of g a) (reg_of g' a).
Proof using Type.
  intros H Hb. destruct (decide (event_type e = JStr "AccountOpened")) as [Et|Hne]; [|by eapply touched_get, apply_touched].
  specialize (fun b => Hb b Et). unfold apply_registry in H. rewrite Et in H. cbn [text] in H. run_ok. rewrite String.eqb_refl in H. run_ok.
  match goal with E : body_item e "account_id" = Ok ?b |- _ => specialize (Hb b E) end.
  rewrite reg_of_set. apply String.eqb_neq in Hb as ->. reflexivity.
Qed.
Lemma later_grown g0 more : Forall (opens_new g0) more -> forall g g' a, dict_get (g_acct g0) a <> None ->
  rfold apply_registry more g = Ok g' -> grown (reg_of g a) (reg_of g' a).
Proof using Type.
  induction 1 as [|e more He HF IH]; cbn [rfold]; intros g g' a Ha H; run_ok; [done|].
  match goal with E : apply_registry g e = Ok ?x |- _ => rename E into Hx; rename x into g1 end.
  etrans; [|by apply (IH g1)]. apply opened_grown with e; [done|]. intros b Et Hb ->. by apply Ha, (He Et).
Qed.
Lemma seen_spec g a : keyed (g_acct g) -> a ∈ accounts_seen g <-> r_seen (reg_of g a) = true /\ dict_get (g_acct g) a <> None.
Proof using Type.
  intros Hk. unfold accounts_seen. rewrite sorted_set_elem, list_elem_of_In, in_map_iff. split.
  - intros ([b st] & E & H). cbn in E. subst b. apply List.filter_In in H as [H Hs]. apply list_elem_of_In, elem_dict_get in H; [|done].
    unfold reg_of. rewrite H. by split.
  - intros [Hs Hn]. unfold reg_of in Hs. destruct (dict_get (g_acct g) a) as [st|] eqn:E; [|done]. exists (a, st). split; [done|].
    apply List.filter_In. split; [|done]. by apply list_elem_of_In, dict_get_elem.
Qed.
Lemma rfold_keyed more : forall g g', keyed (g_acct g) -> rfold apply_registry more g = Ok g' -> keyed (g_acct g').
Proof using Type. intros g g' Hk H. eapply (rfold_inv apply_registry (fun x => keyed (g_acct x))); [|exact Hk|exact H]. intros x b x' Hx Hb. by eapply apply_keyed. Qed.
Lemma later_signatures g g' more p : keyed (g_acct g) -> Forall (opens_new g) more -> rfold apply_registry more g = Ok g' ->
  p ∈ signatures g -> p ∈ signatures g'.
Proof using Type.
  destruct p as [k t]. intros Hk HF H (Hs & n & -> & Hn)%signatures_spec. apply seen_spec in Hs as [Hs Hd]; [|done].
  destruct (later_grown g more HF g g' _ Hd H) as [G1 _ _ _ [l' G5] _ (G7 & _)]. apply signatures_spec. split.
  - apply seen_spec; [by eapply rfold_keyed|]. split; [by apply G1|]. intros E. unfold reg_of in G1 at 2. rewrite E in G1. by specialize (G1 Hs).
  - exists n. split; [done|]. unfold account_signatures in *. rewrite G7. destruct (in_words _ _); [|done].
    rewrite G5, List.map_app, occurrences_app. lia.
Qed.
End Later.

(** ** Sums *)
Section Spent.
Context (e0 : Z) (Hs : scale_ok default_ctx e0) (He : (e0 <= 0)%Z).
(** Money leaves: it is taken from a depository account, or added to what is owed. *)
Definition outflow (m : MovementInfo) : bool :=
  if String.eqb (m_kind m) "depository" then (units e0 (m_amount m) <? 0)%Z
  else if String.eqb (m_kind m) "liability" then (0 <? units e0 (m_amount m))%Z else false.
(** What a movement spends, in units: the components of a payment that are spending, and
    otherwise the whole of an outflow whose nature is spending. *)
Definition spent (m : MovementInfo) : Z :=
  if outflow m then match m_component_spending m with
                    | Some d => Z.max 0 (units e0 d)
                    | None => if bool_decide (m_nature m = Spending) then Z.abs (units e0 (m_amount m)) else 0
                    end
  else 0%Z.
Definition spent_in (currency : string) (ms : list MovementInfo) : Z :=
  zsum (List.map spent (List.filter (fun m => String.eqb (m_currency m) currency) ms)).
Definition on_grid (m : MovementInfo) : Prop :=
  on_scale e0 (m_amount m) /\ from_option (on_scale e0) True (m_component_spending m).
Definition on_scaleb (d : decimal) : bool := match d with Fin _ _ e => (e0 <=? e)%Z | _ => false end.
Definition on_gridb (m : MovementInfo) : bool := on_scaleb (m_amount m) && from_option on_scaleb true (m_component_spending m).
Lemma on_gridb_spec m : on_gridb m = true -> on_grid m.
Proof using Type.
  assert (H : forall d, on_scaleb d = true -> on_scale e0 d) by (intros [s c e|s|s g n]; [|done..]; apply Z.leb_le).
  intros [Ha Hc]%andb_true_iff. split; [by apply H|]. destruct (m_component_spending m); [by apply H|done].
Qed.
Lemma grid_list ms : forallb on_gridb ms = true -> Forall on_grid ms.
Proof using Type. rewrite forallb_forall, Forall_forall. intros H m Hm. apply on_gridb_spec, H. by apply list_elem_of_In. Qed.

Lemma spent_nonneg m : (0 <= spent m)%Z.
Proof using Type. unfold spent. repeat case_match; lia. Qed.
Lemma zero_on_scale : on_scale e0 dzero /\ units e0 dzero = 0%Z.
Proof using He. by split. Qed.
Lemma expense_units m : on_grid m -> is_expense m = Ok (outflow m).
Proof using He.
  intros [Ha _]. destruct zero_on_scale as [Hz Ez]. unfold is_expense, outflow. by repeat case_match; rewrite ?(dlt_units e0), ?Ez by done.
Qed.
Lemma counts_units m : on_grid m -> counts_as_spending m = Ok (0 <? spent m)%Z.
Proof using He.
  intros Hm. destruct zero_on_scale as [Hz Ez]. unfold counts_as_spending. rewrite expense_units by done. cbn [rbind]. unfold spent.
  destruct (outflow m) eqn:Eo; [|done]. destruct Hm as [Ha Hc]. destruct (m_component_spending m) as [d|].
  - rewrite (dlt_units e0), Ez by done. f_equal. lia.
  - unfold outflow in Eo. destruct (bool_decide _); [|done]. f_equal. symmetry. apply Z.ltb_lt. repeat case_match; lia.
Qed.
Lemma amount_units m : on_grid m -> (0 < spent m)%Z -> fits default_ctx (spent m) ->
  exists d, counted_spending_amount m = Ok d /\ on_scale e0 d /\ units e0 d = spent m.
Proof using Hs.
  intros [Ha Hc] Hp Hf. unfold spent, counted_spending_amount in *. destruct (outflow m); [|lia].
  destruct (m_component_spending m) as [d|]; [exists d; split; [done|]; split; [done|lia]|].
  destruct (bool_decide _); [|lia]. apply dabs_exact; [done..|]. unfold fits in *. lia.
Qed.
Definition spent_all (ms : list MovementInfo) : Z := zsum (List.map spent ms).
Lemma spent_in_snoc cur ms m : spent_in cur (ms ++ [m]) = (spent_in cur ms + if String.eqb (m_currency m) cur then spent m else 0)%Z.
Proof using Type.
  unfold spent_in. rewrite List.filter_app, List.map_app, zsum_app. cbn [List.filter]. destruct (String.eqb _ _); cbn; lia.
Qed.
Lemma spent_in_bounds cur ms : (0 <= spent_in cur ms <= spent_all ms)%Z.
Proof using Type.
  unfold spent_in, spent_all. induction ms as [|m ms IH]; [done|]. pose proof (spent_nonneg m). cbn [List.filter List.map].
  rewrite zsum_cons. destruct (String.eqb _ _); cbn [List.map]; rewrite ?zsum_cons; lia.
Qed.
(** What the totals hold after a list of movements. *)
Definition totals_are (ms : list MovementInfo) (out : list (string * decimal)) : Prop :=
  forall cur, let d := default dzero (dict_get out cur) in
    on_scale e0 d /\ units e0 d = spent_in cur ms /\ (dict_get out cur = None <-> spent_in cur ms = 0%Z).
Lemma add_spending_exact ms m out : totals_are ms out -> on_grid m -> fits default_ctx (spent_all ms + spent m) ->
  exists out', add_spending out m = Ok out' /\ totals_are (ms ++ [m]) out'.
Proof using Hs He.
  intros Ht Hm Hf. pose proof (spent_nonneg m) as Hn. unfold add_spending. rewrite counts_units by done. cbn [rbind].
  destruct (Z.ltb_spec 0 (spent m)) as [Hp|Hz].
  - destruct (spent_in_bounds (m_currency m) ms) as [B1 B2].
    destruct (amount_units m Hm Hp) as (d & -> & Hd & Ed); [eapply fits_le; [exact Hf|]; lia|]. cbn [rbind].
    destruct (Ht (m_currency m)) as (Ho & Eo & _).
    destruct (dadd_exact default_ctx e0 _ d Hs Ho Hd) as (t & -> & Hto & Et); [eapply fits_le; [exact Hf|]; lia|]. cbn [rbind].
    eexists. split; [done|]. intros cur. rewrite dict_get_setting, spent_in_snoc. destruct (String.eqb_spec (m_currency m) cur) as [<-|_].
    + cbn [default]. split; [done|]. split; [unfold default in *; cbn in *; lia|]. split; [done|lia].
    + rewrite Z.add_0_r. apply Ht.
  - eexists. split; [done|]. intros cur. rewrite spent_in_snoc. replace (spent m) with 0%Z by lia.
    replace (if String.eqb (m_currency m) cur then 0%Z else 0%Z) with 0%Z by (by case_match). rewrite Z.add_0_r. apply Ht.
Qed.
Lemma add_spendings_exact ms : Forall on_grid ms -> fits default_ctx (spent_all ms) ->
  exists out, rfold add_spending ms [] = Ok out /\ totals_are ms out.
Proof using Hs He.
  induction ms as [|m ms IH] using rev_ind; intros HF Hf.
  - exists []. split; [done|]. intros cur. split; [apply zero_on_scale|]. split; [apply zero_on_scale|done].
  - apply Forall_app in HF as [HF Hm]. rewrite Forall_singleton in Hm. unfold spent_all in Hf. rewrite List.map_app, zsum_app in Hf.
    change (zsum (List.map spent [m])) with (zsum [spent m]) in Hf. rewrite zsum_cons in Hf. change (zsum []) with 0%Z in Hf.
    pose proof (spent_nonneg m). pose proof (spent_in_bounds "" ms) as [B1 B2]. unfold spent_all in B2.
    destruct (IH HF) as (out & Hr & Ht); [eapply fits_le; [exact Hf|]; unfold spent_all; lia|].
    destruct (add_spending_exact ms m out Ht Hm) as (out' & Ha & Ht'); [eapply fits_le; [exact Hf|]; unfold spent_all; lia|].
    exists out'. split; [|done]. rewrite rfold_app, Hr. cbn [rbind rfold]. by rewrite Ha.
Qed.
End Spent.
