(* ===== verification/TransferProperties.v ===== *)
(** * TransferProperties: links are a matching, made on evidence, and settle

    The guarantees of ingest/transfers.py: from links that are a matching, no history of its
    scans, confirmations and rejections makes a movement stand in two live links; the pairs chosen are
    the mutual best whatever the order they are listed in; each automatic link joins an own
    account's outflow to another's inflow of the same money, days apart, on evidence; and
    repeated scans come to one that appends nothing. *)
From Stdlib Require Import ZArith NArith Ascii String Lia ZifyBool ZifyN ZifyNat.
From stdpp Require Import base list numbers strings relations.
From S2P Require Import Prelude Text Words Json Unicode Dates Decimals Arithmetic Acquisition Events EventTypes Postings Dictionaries Accounts Schedule Normalize Render Policy Grammars Identity Registry RegistryProperties Overlays Merchants Movements Transfers TransferLaws.
#[local] Open Scope string_scope.
#[local] Open Scope list_scope.

(** ** The decision *)

(** C12: the pairs a scan links are the mutual best.  A source is paired with a destination
    exactly when that destination scores account evidence and strictly more than every other
    candidate of the source, and the source scores strictly more than every other claimant
    of the destination; so no source and no destination is paired twice.  What is chosen
    depends on which candidates there are and not on the order they are listed in. *)
Theorem decide_is_mutual_best g w : assoc_keyed w ->
  (forall s d, (s, d) ∈ decide_pairs g w [] <->
     s ∈ List.map fst g /\ best_of (keys_for g s) (strength w s) d /\ best_of (claimants w d) (fun x => strength w x d) s)
  /\ (forall s s' d d', (s, d) ∈ decide_pairs g w [] -> (s', d') ∈ decide_pairs g w [] -> s = s' <-> d = d')
  /\ forall g' w', same_graph g g' -> w ≡ₚ w' -> decide_pairs g' w' [] = decide_pairs g w [].
Proof.
  intros Hw. assert (Hspec : forall s d, (s, d) ∈ decide_pairs g w [] <->
     s ∈ List.map fst g /\ best_of (keys_for g s) (strength w s) d /\ best_of (claimants w d) (fun x => strength w x d) s).
  { intros s d. by rewrite decide_elem, verdict_spec. }
  split; [exact Hspec|]. split.
  - intros s s' d d' (_ & H1 & H2)%Hspec (_ & H3 & H4)%Hspec. split; intros ->.
    + by eapply best_unique.
    + by eapply best_unique.
  - intros g' w' Hg Hp. unfold decide_pairs. replace (sorted_set (List.map fst g')) with (sorted_set (List.map fst g)).
    + apply flat_map_ext. intros s. by rewrite (verdict_perm g g' w w' s).
    + apply sorted_set_ext. apply Hg.
Qed.

(** ** Any history *)
Section History.
Context `{case_map : CaseMap} `{word_table : WordTable} `{desc : Descriptors}.

(** One thing that happens to a core, from its first read to its last append: a scan, or one
    cut short after some of its appends; a person's word; any event but a link.  A link that
    a term deposit's statement states (ingest/instrument_projector.py, [_deposit]) is none of
    these: it is recorded without a look at the links there are. *)
Inductive transfer_step : core -> core -> Prop :=
  | ts_scan fresh pf c c' n : link_transfers fresh pf c = Ok (c', n) -> transfer_step c c'
  | ts_cut fresh pf c st n c' : scan fresh pf c = Ok st -> rfold apply_core (take n (sc_events st)) c = Ok c' -> transfer_step c c'
  | ts_confirm fresh today c a b c' made : confirm_transfer fresh today c a b = Ok (c', made) -> transfer_step c c'
  | ts_reject fresh today c a b c' : reject_transfer fresh today c a b = Ok c' -> transfer_step c c'
  | ts_event c e c' : event_type e <> JStr "TransferLinked" -> apply_core c e = Ok c' -> transfer_step c c'.

Lemma other_event_links c e c' : event_type e <> JStr "TransferLinked" -> apply_core c e = Ok c' ->
  k_links c' = k_links c \/ exists a b, k_links c' = assoc_set (k_links c) (pair_of a b) Unlinked.
Proof using Type.
  intros Hne H. unfold apply_core, apply_overlay in H. run_ok.
  match goal with E : text (event_type e) = Ok ?t |- _ => rename E into Et; rename t into et end.
  destruct (String.eqb_spec et "TransferLinked") as [->|_].
  { exfalso. apply Hne. destruct (event_type e); cbn in Et; congruence. }
  destruct (String.eqb _ _); [run_ok; right; by eexists _, _|].
  destruct (String.eqb _ _); [run_ok; by left|]. destruct (String.eqb _ _); [run_ok; by left|].
  destruct (String.eqb _ _); [run_ok; by left|].
  destruct (String.eqb _ _); [run_ok; left; unfold record_ruling; by repeat case_match|].
  destruct (in_words _ _); run_ok; [left; unfold catalog_record; by repeat case_match|by left].
Qed.
Lemma matching_links c c' : matching c -> k_links c' = k_links c -> matching c'.
Proof. intros [H1 H2] E. split; rewrite E; done. Qed.
Lemma step_matching c c' : matching c -> transfer_step c c' -> matching c'.
Proof using Type.
  intros Hm H. destruct H as [fresh pf c c' n H|fresh pf c st n c' Hs H|fresh today c a b c' made H|fresh today c a b c' H|c e c' Hne H].
  - unfold link_transfers in H. run_ok. match goal with E : scan _ _ _ = Ok ?st |- _ => apply scan_traced, (trace_runs c) in E as (x & Hr & Ht); [|done] end.
    destruct Ht as [_ Hx _]. congruence.
  - apply scan_traced in Hs. destruct (trace_take _ _ _ n Hs) as (t & Ht). apply trace_runs in Ht as (x & Hr & [_ Hx _]); [|done]. congruence.
  - unfold confirm_transfer in H. destruct (is_linked c a) eqn:Ha; [by injection H as <- <-|]. destruct (is_linked c b) eqn:Hb; [by injection H as <- <-|].
    cbn [orb] in H. run_ok. match goal with E : apply_core c _ = Ok _ |- _ => destruct (apply_linked c fresh a b VERIFIED (JObj [("kind", JStr "confirmed")]) today "human") as (d & Hd) end.
    assert (c' = link_transfer c a b (Linked (JStr VERIFIED) (JStr "human") d)) as -> by congruence. by apply link_matching.
  - unfold reject_transfer in H. rewrite apply_unlinked in H. injection H as <-. by apply link_matching.
  - destruct (other_event_links c e c' Hne H) as [E|(a & b & E)]; [by eapply matching_links|].
    apply (matching_links (link_transfer c a b Unlinked)); [by apply link_matching|done].
Qed.
Lemma empty_matching al : matching (empty_core al).
Proof. split; [apply NoDup_nil_2|]. intros p q l l' k H. by apply elem_of_nil in H. Qed.

Lemma steps_matching c c' : matching c -> rtc transfer_step c c' -> matching c'.
Proof using Type. intros Hm H. induction H as [|x y z Hxy _ IH]; [done|]. apply IH. by eapply step_matching. Qed.
Lemma history_matching al c : rtc transfer_step (empty_core al) c -> matching c.
Proof using Type. apply steps_matching, empty_matching. Qed.
Lemma trace_unlinked c es taken : scan_trace c es taken -> forall e a b, e ∈ es -> event_type e = JStr "TransferLinked" ->
  body_item e "a" = Ok a -> body_item e "b" = Ok b -> is_linked c a = false /\ is_linked c b = false.
Proof using Type.
  induction 1 as [|es taken e' taken' _ IH He]; intros e a b Hin Ht Ha Hb; [by apply elem_of_nil in Hin|].
  apply elem_of_app in Hin as [Hin| ->%list_elem_of_singleton]; [by eapply IH|]. destruct He as [f x y ev at_ Hx Hy _ _|]; [|done].
  cbn in Ha, Hb. by injection Ha as <-; injection Hb as <-.
Qed.

(** C6: the transfers of ingest/transfers.py give no movement two.  While no two live links
    share a movement, no history of scans (also ones cut short between two appends),
    confirmations, rejections, unlinkings and other events that record no link brings two
    that do, nor a second entry of a pair; and whatever links a core holds, whoever recorded
    them, a scan links only movements that stand in none, and a confirmation that names a
    movement already linked changes nothing. *)
Theorem links_are_a_matching c c' : matching c -> rtc transfer_step c c' ->
  matching c'
  /\ (forall d fresh pf st e a b, scan fresh pf d = Ok st -> e ∈ sc_events st -> event_type e = JStr "TransferLinked" ->
        body_item e "a" = Ok a -> body_item e "b" = Ok b -> is_linked d a = false /\ is_linked d b = false)
  /\ forall d fresh today a b, is_linked d a = true \/ is_linked d b = true -> confirm_transfer fresh today d a b = Ok (d, false).
Proof.
  intros Hm H. split; [by eapply steps_matching|]. split.
  - intros d fresh pf st e a b Hs. apply scan_traced in Hs. by eapply trace_unlinked.
  - intros d fresh today a b Hl. unfold confirm_transfer. destruct Hl as [-> | ->]; [done|]. by rewrite orb_true_r.
Qed.
(** A document's link is recorded whatever stands: after it one movement is in two. *)
Lemma document_link_shares (c : core) (a b d : string) : pair_of a d <> pair_of a b -> exists f ev at_ c1 c2,
  apply_core c (transfer_linked f a b CORROBORATED ev at_ "auto" None) = Ok c1
  /\ apply_core c1 (transfer_linked f a d CORROBORATED ev at_ "document" None) = Ok c2
  /\ is_linked c1 a = true /\ assoc_get (k_links c2) (pair_of a b) = assoc_get (k_links c1) (pair_of a b)
  /\ exists l, assoc_get (k_links c2) (pair_of a d) = Some l /\ live l = true.
Proof using Type.
  intros Hne. exists "", JNull, "2026-01-01". destruct (apply_linked c "" a b CORROBORATED JNull "2026-01-01" "auto") as (d1 & E1). rewrite E1.
  destruct (apply_linked (link_transfer c a b (Linked (JStr CORROBORATED) (JStr "auto") d1)) "" a d CORROBORATED JNull "2026-01-01" "document") as (d2 & E2).
  do 2 eexists. split; [reflexivity|]. rewrite E2. split; [reflexivity|]. split; [apply link_links; done|]. cbn [link_transfer with_links k_links]. rewrite !assoc_get_set. split; [by rewrite decide_False|].
  rewrite decide_True by done. by eexists.
Qed.

(** ** What an automatic link rests on *)
Lemma andr_true a b : andr a b = Ok true -> a = Ok true /\ b = Ok true.
Proof using Type. unfold andr. intros H. run_ok. by destruct a0. Qed.
Lemma candidate_facts src dst : is_transfer_candidate src dst = Ok true ->
  flow_of src = Ok Source /\ flow_of dst = Ok Destination /\ m_account src <> m_account dst /\ m_currency src = m_currency dst
  /\ same_magnitude (m_amount dst) (m_amount src) = Ok true /\ (days_apart (m_date src) (m_date dst) <= DATE_WINDOW_DAYS)%Z.
Proof using Type.
  unfold is_transfer_candidate. intros (H1 & (H2 & (H3 & (H4 & (H5 & H6)%andr_true)%andr_true)%andr_true)%andr_true)%andr_true.
  run_ok. repeat match goal with H : bool_decide _ = true |- _ => apply bool_decide_eq_true in H; subst end.
  apply negb_true_iff, String.eqb_neq in H3. match goal with H : (_ =? _)%string = true |- _ => apply String.eqb_eq in H end.
  repeat split; try done; try congruence. by apply Z.leb_le.
Qed.
Record grounded (pf : MovementInfo -> res (option DescriptorProfile)) (c : core) (ms : list MovementInfo) (e : Event) (src dst : MovementInfo) : Prop := {
  gd_held : src ∈ ms /\ dst ∈ ms;
  gd_unlinked : is_linked c (m_key src) = false /\ is_linked c (m_key dst) = false;
  gd_flows : flow_of src = Ok Source /\ flow_of dst = Ok Destination;
  gd_accounts : m_account src <> m_account dst;
  gd_money : m_currency src = m_currency dst /\ same_magnitude (m_amount dst) (m_amount src) = Ok true;
  gd_days : (days_apart (m_date src) (m_date dst) <= DATE_WINDOW_DAYS)%Z;
  gd_evidence : exists f why ev at_,
    account_evidence (distinctive (k_registry c)) (parts_of pf src) src dst = Some why
    /\ jget ev "decided_by" = JStr (reason_of (Some why) (dated (parts_of pf src) dst))
    /\ e = transfer_linked f (m_key src) (m_key dst) CORROBORATED ev at_ "auto" None
}.
Definition good_event (pf : MovementInfo -> res (option DescriptorProfile)) (c : core) (ms : list MovementInfo) (e : Event) : Prop :=
  event_type e = JStr "TransferLinked" -> exists src dst, grounded pf c ms e src dst.
Lemma unique_key (ms : list MovementInfo) x y : NoDup (List.map m_key ms) -> x ∈ ms -> y ∈ ms -> m_key x = m_key y -> x = y.
Proof using Type.
  induction ms as [|z l IH]; cbn [List.map]; intros Hn Hx Hy E; [by apply elem_of_nil in Hx|].
  apply NoDup_cons in Hn as [Hz Hn]. apply elem_of_cons in Hx as [->|Hx]; apply elem_of_cons in Hy as [->|Hy]; try done; [exfalso..|by apply IH].
  - apply Hz, list_elem_of_In, in_map_iff. exists y. by rewrite <- list_elem_of_In.
  - apply Hz, list_elem_of_In, in_map_iff. exists x. by rewrite <- list_elem_of_In.
Qed.
Lemma step_good fresh pf c ms g sources w open_ st k st' : movements c = Ok ms -> NoDup (List.map m_key ms) -> candidates ms = Ok (g, sources) ->
  weigh pf (distinctive (k_registry c)) g sources = Ok w -> Forall (good_event pf c ms) (sc_events st) ->
  source_step fresh g sources w (decide_pairs g w []) open_ st k st' -> Forall (good_event pf c ms) (sc_events st').
Proof using Type.
  intros Hm Hn Hg Hw HF Hstep. destruct (candidates_sound ms g sources Hg) as [Hent Hsrc].
  destruct Hstep as [|src dst st' Hf Hs Hv Hd Ha|src st' Hf Hs Ho Hne Ha]; [done| |].
  - unfold append_link in Ha. run_ok. cbn [sc_events]. apply Forall_app. split; [done|]. apply Forall_singleton. intros _.
    destruct (Hsrc k src Hs) as [Ek Hps]. destruct (free_candidate_spec g _ _ _ Hd) as [Hd' _].
    destruct (dict_get g k) as [l|] eqn:El; [|by apply elem_of_nil in Hd']. cbn [default] in Hd'.
    destruct (Hent k l El) as (_ & src' & Ek' & Hps' & Hall). destruct (Hall dst Hd') as [Hpd Hc].
    assert (src' = src) as -> by (apply (unique_key ms); [done|apply Hps'|apply Hps|congruence]).
    apply decide_get_some in Hv as [_ (_ & (_ & Hfloor & _))%verdict_spec].
    assert (Hst : (_EV_FLOOR <= strength w k (m_key dst))%nat) by exact Hfloor.
    destruct (weighed_strength pf _ g sources w k (m_key dst) Hw Hst) as (src1 & x & l1 & why & Hs1 & Hl1 & Hx & Exd & Hev & Hwd).
    assert (src1 = src) as -> by congruence.
    assert (l1 = l) as -> by (apply elem_dict_get in Hl1; [congruence|by eapply candidates_keyed]).
    assert (x = dst) as -> by (apply (unique_key ms); [done|apply (Hall x Hx)|apply Hpd|done]).
    exists src, dst. destruct (candidate_facts src dst Hc) as (F1 & F2 & F3 & F4 & F5 & F6). split; try done.
    + split; [apply Hps|apply Hpd].
    + split; by eapply pairable_unlinked.
    + eexists _, why, _, _. split; [done|]. split; [|reflexivity]. unfold evidence_of in *. run_ok. cbn. by rewrite Hwd.
  - destruct (free_candidates g (sc_consumed st) k) as [|d0 r0]; [done|]. unfold append_suggestion in Ha. run_ok. cbn [sc_events].
    apply Forall_app. split; [done|]. by apply Forall_singleton.
Qed.

(** C11: a scan links only on evidence.  When movement keys are distinct, every link a scan
    appends joins two movements of different accounts, linked to nothing, money out of one
    and into the other, in one currency and of one magnitude, at most five days apart, and
    one of the descriptions names an account of the two (or the slot for an account does);
    the record names the rule that decided and the grade is corroborated, never verified. *)
Theorem automatic_links_are_grounded fresh pf c st ms : scan fresh pf c = Ok st -> movements c = Ok ms ->
  NoDup (List.map fst (enumerated (k_registry c))) ->
  forall e, e ∈ sc_events st -> event_type e = JStr "TransferLinked" -> exists src dst, grounded pf c ms e src dst.
Proof.
  intros (ms' & g & sources & w & Hm & Hg & Hw & Hf)%scan_parts Hm' Hn. assert (ms' = ms) as -> by congruence.
  rewrite <- (movements_keys c ms Hm) in Hn.
  assert (HF : Forall (good_event pf c ms) (sc_events st)); [|intros e He; rewrite Forall_forall in HF; by apply HF].
  refine (scan_fold_inv fresh g sources w _ _ (fun s => Forall (good_event pf c ms) (sc_events s)) _ _ _ _ _ Hf); [|apply Forall_nil_2].
  intros s k s' Hs Hstep. by eapply step_good.
Qed.

(** ** Scanning again *)
Lemma step_suggestions_ok c c' : suggestions_ok c -> transfer_step c c' -> suggestions_ok c'.
Proof using Type.
  assert (Hall : forall es x y, suggestions_ok x -> rfold apply_core es x = Ok y -> suggestions_ok y).
  { intros es x y Hx H. eapply (rfold_inv apply_core suggestions_ok); [|exact Hx|exact H]. intros a e b Ha Hb. by eapply apply_suggestions_ok. }
  intros Hc H. destruct H as [fresh pf c c' n H|fresh pf c st n c' Hs H|fresh today c a b c' made H|fresh today c a b c' H|c e c' Hne H].
  - by eapply link_suggestions_kept.
  - by eapply Hall.
  - unfold confirm_transfer in H. destruct (_ || _); [by injection H as <- <-|]. run_ok. by eapply apply_suggestions_ok.
  - by eapply apply_suggestions_ok.
  - by eapply apply_suggestions_ok.
Qed.

(** C13: scanning settles.  Over any history, when the movements can be read and their amounts
    are figures: a scan returns; one that links nothing is followed by scans that append
    nothing, since its questions stay open; and after two scans more than there are unlinked
    movements, scanning has come to an end: the last appended nothing and no later one will. *)
Theorem scans_settle al c pf ms : rtc transfer_step (empty_core al) c -> movements c = Ok ms ->
  Forall (fun m => readable (m_amount m) = true) ms ->
  (forall fresh, exists c' n, link_transfers fresh pf c = Ok (c', n)
     /\ (n.1.2 = 0%nat -> forall fresh', link_transfers fresh' pf c' = Ok (c', (0, 0, 0)%nat)))
  /\ forall fresh, (S (unlinked c) < length fresh)%nat -> exists c', scans pf fresh c (0, 0, 0)%nat = Ok (c', (0, 0, 0)%nat)
       /\ forall fresh', link_transfers fresh' pf c' = Ok (c', (0, 0, 0)%nat).
Proof.
  intros Hr Hms Hall. assert (Hm : matching c) by (apply (history_matching al); exact Hr).
  assert (Hs : suggestions_ok c).
  { assert (H0 : suggestions_ok (empty_core al)) by (split; [apply NoDup_nil_2|done]).
    clear -Hr H0. induction Hr as [|x y z Hxy _ IH]; [done|]. apply IH. by eapply step_suggestions_ok. }
  split.
  - intros fresh. destruct (link_total fresh pf c ms Hm Hms Hall) as ([c' [[l a] m]] & H). exists c', (l, a, m). split; [done|].
    cbn [fst snd]. intros ->. destruct (scan_shrinks _ _ _ _ _ Hm H) as (_ & _ & _ & E). cbn in E. subst l. intros fresh'. by eapply settled_again.
  - intros fresh Hlen. destruct (scans_total pf fresh c (0, 0, 0)%nat ms Hm Hms Hall) as ([c' n] & H).
    destruct (scans_end pf fresh c _ c' n Hs Hm Hlen H) as [-> Hq]. by exists c'.
Qed.
(** ** Closing a statement's gap *)
Lemma combinations_spec {A} (l : list A) : forall n x, x ∈ combinations n l <-> x `sublist_of` l /\ length x = n.
Proof using Type.
  induction l as [|y l IH]; intros [|n] x; cbn [combinations].
  - rewrite list_elem_of_singleton. split; [intros ->; by split|]. intros [_ H]. by apply nil_length_inv.
  - split; [by intros H%elem_of_nil|]. intros [H E]. apply sublist_nil_r in H as ->. done.
  - rewrite list_elem_of_singleton. split; [intros ->; split; [apply sublist_nil_l|done]|]. intros [_ H]. by apply nil_length_inv.
  - rewrite elem_of_app, IH, list_elem_of_In, in_map_iff. split.
    + intros [(z & <- & Hz)|[Hs Hl]]; [|by split; [constructor|]]. apply list_elem_of_In, IH in Hz as [Hz Hl].
      split; [by constructor|]. cbn. by rewrite Hl.
    + intros [Hs Hl]. apply sublist_cons_r in Hs as [Hs|(z & -> & Hs)]; [right; by split|left].
      exists z. split; [done|]. apply list_elem_of_In, IH. split; [done|]. by injection Hl.
Qed.
(** What may be a missing leg of an account's statement. *)
Record may_be_missing (account : string) (f : flow) (delta : decimal) (currency o_date c_date : string) (tokens : list string) (m : MovementInfo) : Prop := {
  mm_free : m_linked m = false;
  mm_elsewhere : m_account m <> account;
  mm_currency : m_currency m = currency;
  mm_flow : flow_of m = Ok f;
  mm_near : (days_apart (m_date m) o_date <= _CORROBORATION_DAYS \/ days_apart (m_date m) c_date <= _CORROBORATION_DAYS)%Z;
  mm_names : names_account (m_description m) tokens = true
}.
Lemma corroborates_spec account f delta currency o_date c_date tokens m :
  corroborates account f delta currency o_date c_date tokens m = Ok true -> may_be_missing account f delta currency o_date c_date tokens m.
Proof using Type.
  unfold corroborates. destruct (m_linked m || _ || _) eqn:E; [done|]. apply orb_false_iff in E as [[E1 E2]%orb_false_iff E3].
  intros H. run_ok. destruct (negb (bool_decide _)) eqn:E4; [done|]. apply negb_false_iff, bool_decide_eq_true in E4. subst. run_ok.
  match type of H with (if ?b then _ else _) = _ => destruct b; [done|] end.
  destruct ((_ <? _)%Z && (_ <? _)%Z) eqn:Enear; [done|]. injection H as H. apply String.eqb_neq in E2. apply negb_false_iff, String.eqb_eq in E3.
  split; try done. apply andb_false_iff in Enear. lia.
Qed.
Definition missing_candidates (ms : list MovementInfo) (account : string) (f : flow) (delta : decimal) (currency o_date c_date : string)
    (tokens : list string) : list MovementInfo :=
  List.filter (fun m => holds_ok (corroborates account f delta currency o_date c_date tokens m)) ms.
Lemma subsets_spec items target n found x : subsets_summing_to items target n = Ok found ->
  x ∈ found <-> x `sublist_of` take 12 items /\ (1 <= length x <= n)%nat /\ sums_to target x = Ok true.
Proof using Type.
  intros [-> Hall]%rfilter_ok. rewrite list_elem_of_In, List.filter_In.
  assert (Hin : In x (List.flat_map (fun size => combinations size (take (Nat.min (length items) 12) items)) (List.seq 1 (Nat.min n (Nat.min (length items) 12))))
    <-> x `sublist_of` take 12 items /\ (1 <= length x <= n)%nat).
  { assert (Et : take (Nat.min (length items) 12) items = take 12 items).
    { destruct (Nat.min_spec (length items) 12) as [[? ->]|[? ->]]; [by rewrite !take_ge by lia|done]. }
    rewrite Et, in_flat_map. split.
    - intros (k & Hk & Hx). apply list_elem_of_In, combinations_spec in Hx as [Hx <-]. apply List.in_seq in Hk. split; [done|lia].
    - intros [Hs Hl]. exists (length x). split; [|by apply list_elem_of_In, combinations_spec]. apply List.in_seq.
      pose proof (sublist_length _ _ Hs) as Hx. rewrite length_take in Hx. lia. }
  split.
  - intros [H1 H2]. apply Hin in H1 as [Hs Hl]. split; [done|]. split; [done|]. by apply holds_true.
  - intros (Hs & Hl & H). rewrite Hin, H. done.
Qed.

(** C16: a statement's gap is closed by its only explanation.  Legs answered for a gap are
    among the first twelve movements that could be missing (of another account, linked to
    nothing, in the currency, flowing the way the gap asks, near the statement, and naming
    the account), at most six of them add up to the gap, and no other one to six of those
    twelve do; with none or several explanations nothing is answered. *)
Theorem gap_has_one_explanation c account kind delta currency o_date c_date own legs :
  find_corroborating_legs c account kind delta currency o_date c_date own = Ok legs -> legs <> [] ->
  exists ms f tokens target, movements c = Ok ms /\ wanted kind delta = Ok (Some f) /\ tokens <> [] /\ dabs default_ctx delta = Ok target
    /\ Forall (may_be_missing account f delta currency o_date c_date tokens) legs
    /\ forall x, (x `sublist_of` take 12 (missing_candidates ms account f delta currency o_date c_date tokens)
                  /\ (1 <= length x <= 6)%nat /\ sums_to target x = Ok true) <-> x = legs.
Proof.
  unfold find_corroborating_legs. intros H Hne. run_ok. destruct a as [f|]; run_ok; [|done].
  destruct (match own with Some t => t | None => account_tokens_held (k_registry c) account end) as [|t0 tokens] eqn:Et; run_ok; [done|].
  match goal with E : movements c = Ok ?l, F : rfilter _ ?l = Ok ?cs |- _ => apply rfilter_ok in F as [-> _]; rename l into ms end.
  match goal with E : subsets_summing_to _ ?t _ = Ok ?l |- _ => rename E into Es; rename l into found; rename t into target end.
  destruct found as [|only [|? ?]]; [done| |done]. exists ms, f, (t0 :: tokens), target.
  assert (Hx : forall x, x `sublist_of` take 12 (missing_candidates ms account f delta currency o_date c_date (t0 :: tokens))
                  /\ (1 <= length x <= 6)%nat /\ sums_to target x = Ok true <-> x = only).
  { intros x. rewrite <- (subsets_spec _ _ _ _ _ Es). apply list_elem_of_singleton. }
  do 4 (split; [done|]). split; [|exact Hx]. apply Forall_forall. intros m Hm. destruct (proj2 (Hx only) eq_refl) as [Hsub _].
  apply corroborates_spec, holds_true. apply (sublist_subseteq _ _ Hsub), (subseteq_take 12) in Hm. unfold missing_candidates in Hm.
  by apply list_elem_of_In, List.filter_In in Hm as [_ Hm].
Qed.
End History.

(** ** A card payment *)
#[local] Instance plain_case : CaseMap := ascii_case.
#[local] Instance plain_words : WordTable := ascii_word.
(** A resolver that finds no structure in a line. *)
#[local] Instance plain_lines : Descriptors :=
  {| DescriptorProfile := unit; AchHeads := unit; split_ach_heads := fun _ => tt;
     resolve_descriptor := fun d _ _ => Ok (mkParts [] [] "heuristic" false false d [d] false);
     latest_profile := fun _ _ => None; normalize_merchant := fun d => d; resolver_installed := true |}.
Definition opened_account (a kind number name : string) : Event :=
  event ("e:" ++ a)%string "AccountOpened" "2026-01-01"
    [("account_id", JStr a); ("kind", JStr kind); ("name", JStr name); ("currency", JStr "USD"); ("jurisdiction", JStr "");
     ("institution", JStr "Acme"); ("account_number", JStr number); ("account_names", words []); ("origin", JStr ISSUED)] (Provenance_doc "d1").
Definition posted (id a at_ description : string) (cents : Z) : Event :=
  transaction_recorded id [mkPosting (JStr a) (Fin (cents <? 0)%Z (Z.to_N (Z.abs cents)) (-2)) CORROBORATED] description at_ [] (Some (Provenance_doc id)).
Definition card_payment : list Event :=
  [opened_account "checking" "depository" "4000111122221111" "Everyday"; opened_account "card" "liability" "4999111122222222" "Rewards Card";
   posted "t1" "checking" "2026-02-03" "Payment to card ending in 2222" (-50000); posted "t2" "card" "2026-02-04" "Payment thank you" (-50000);
   posted "t3" "checking" "2026-02-05" "Corner grocery" (-4000)].
Definition paid : core := match replay_core [] card_payment with Ok c => c | Raise _ => empty_core [] end.
Definition no_profile : MovementInfo -> res (option DescriptorProfile) := fun _ => Ok None.
Definition numbered_ids (n : nat) : string := ("f" ++ dec (digits_of_N (N.of_nat n)))%string.
Definition leg_out : string := "t1|checking|2026-02-03|-500.00|Payment to card ending in 2222|0".
Definition leg_in : string := "t2|card|2026-02-04|-500.00|Payment thank you|0".
Definition read_movements : list MovementInfo := match movements paid with Ok l => l | Raise _ => [] end.
Definition found_pairs : graph * list (string * MovementInfo) := match candidates read_movements with Ok x => x | Raise _ => ([], []) end.
Definition pair_weights : weights :=
  match weigh no_profile (distinctive (k_registry paid)) found_pairs.1 found_pairs.2 with Ok w => w | Raise _ => [] end.
Definition first_scan : scanning := match scan numbered_ids no_profile paid with Ok st => st | Raise _ => mkScanning [] [] 0 0 end.
Definition linked_core : core := match link_transfers numbered_ids no_profile paid with Ok (c, _) => c | Raise _ => paid end.

Lemma paid_history : rtc transfer_step (empty_core []) paid.
Proof.
  assert (H : forall es c c', Forall (fun e => bool_decide (event_type e <> JStr "TransferLinked") = true) es -> rfold apply_core es c = Ok c' -> rtc transfer_step c c').
  { intros es. induction es as [|e es IH]; cbn [rfold]; intros c c' HF Hr; run_ok; [constructor|].
    apply Forall_cons in HF as [He HF]. apply bool_decide_eq_true in He. eapply rtc_l; [by eapply ts_event|by eapply IH]. }
  apply (H card_payment); [repeat constructor|vm_compute; reflexivity].
Qed.

Lemma decide_is_mutual_best_witness : decide_pairs found_pairs.1 pair_weights [] = [(leg_out, leg_in)]
  /\ best_of (keys_for found_pairs.1 leg_out) (strength pair_weights leg_out) leg_in.
Proof.
  destruct (decide_is_mutual_best found_pairs.1 pair_weights) as [H _].
  - apply (bool_decide_unpack _). vm_compute. reflexivity.
  - split; [vm_compute; reflexivity|]. apply (H leg_out leg_in).
    replace (decide_pairs found_pairs.1 pair_weights []) with [(leg_out, leg_in)] by (vm_compute; reflexivity). by left.
Defined.
Lemma links_are_a_matching_witness : rtc transfer_step (empty_core []) linked_core
  /\ is_linked linked_core leg_out = true /\ matching linked_core
  /\ confirm_transfer "h1" "2026-03-01" linked_core leg_out "another" = Ok (linked_core, false).
Proof.
  assert (H : rtc transfer_step (empty_core []) linked_core).
  { eapply rtc_r; [exact paid_history|]. apply (ts_scan numbered_ids no_profile paid linked_core (1, 1, 0)%nat). vm_compute. reflexivity. }
  split; [exact H|]. split; [vm_compute; reflexivity|]. destruct (links_are_a_matching (empty_core []) linked_core (empty_matching []) H) as (Hm & _ & Hc).
  split; [exact Hm|]. apply Hc. left. vm_compute. reflexivity.
Defined.
Lemma automatic_links_are_grounded_witness : exists e src dst, sc_events first_scan = [e] /\ grounded no_profile paid read_movements e src dst.
Proof.
  destruct (sc_events first_scan) as [|e [|? ?]] eqn:E; [by vm_compute in E| |by vm_compute in E].
  destruct (automatic_links_are_grounded numbered_ids no_profile paid first_scan read_movements) with (e := e) as (src & dst & H).
  - vm_compute. reflexivity.
  - vm_compute. reflexivity.
  - apply (bool_decide_unpack _). vm_compute. reflexivity.
  - rewrite E. by left.
  - vm_compute in E. injection E as <-. reflexivity.
  - exists e, src, dst. by split.
Defined.
Lemma scans_settle_witness : exists c', scans no_profile (repeat numbered_ids 5) paid (0, 0, 0)%nat = Ok (c', (0, 0, 0)%nat)
  /\ forall fresh', link_transfers fresh' no_profile c' = Ok (c', (0, 0, 0)%nat).
Proof.
  destruct (scans_settle [] paid no_profile read_movements paid_history) as [_ H].
  - vm_compute. reflexivity.
  - apply (Forall_impl (fun m => Is_true (readable (m_amount m)))); [|by intros m ?%Is_true_true]. apply (bool_decide_unpack _). vm_compute. reflexivity.
  - apply H. vm_compute. lia.
Defined.

(** A statement of the card that dropped its payment is 500 off. *)
Definition gap_legs : list MovementInfo :=
  match find_corroborating_legs paid "card" "liability" (Fin true 50000 (-2)) "USD" "2026-01-05" "2026-02-10" None with
  | Ok l => l | Raise _ => [] end.
Lemma gap_has_one_explanation_witness : List.map m_key gap_legs = [leg_out] /\ exists ms f tokens target,
  forall x, (x `sublist_of` take 12 (missing_candidates ms "card" f (Fin true 50000 (-2)) "USD" "2026-01-05" "2026-02-10" tokens)
             /\ (1 <= length x <= 6)%nat /\ sums_to target x = Ok true) <-> x = gap_legs.
Proof.
  split; [vm_compute; reflexivity|].
  destruct (gap_has_one_explanation paid "card" "liability" (Fin true 50000 (-2)) "USD" "2026-01-05" "2026-02-10" None gap_legs)
    as (ms & f & tokens & target & _ & _ & _ & _ & _ & H).
  - vm_compute. reflexivity.
  - intros E. apply (f_equal (@length _)) in E. vm_compute in E. discriminate E.
  - by exists ms, f, tokens, target.
Defined.

(** ** What a scan does not remember *)

(** A pair a person unlinked is linked again by the next scan. *)
Lemma unlinked_pair_is_linked_again : exists c1 c2, reject_transfer "h1" "2026-03-01" linked_core leg_out leg_in = Ok c1
  /\ is_linked c1 leg_out = false /\ link_transfers numbered_ids no_profile c1 = Ok (c2, (1, 1, 0)%nat) /\ is_linked c2 leg_out = true.
Proof.
  exists (match reject_transfer "h1" "2026-03-01" linked_core leg_out leg_in with Ok c => c | Raise _ => linked_core end).
  exists (match reject_transfer "h1" "2026-03-01" linked_core leg_out leg_in with
          | Ok c => match link_transfers numbered_ids no_profile c with Ok (d, _) => d | Raise _ => c end | Raise _ => linked_core end).
  split; [vm_compute; reflexivity|]. split; [vm_compute; reflexivity|]. split; vm_compute; reflexivity.
Qed.
(** A rejection that names one movement leaves its link. *)
Lemma rejecting_one_leg_keeps_the_link : exists c1, reject_transfer "h1" "2026-03-01" linked_core leg_out "" = Ok c1
  /\ is_linked c1 leg_out = true.
Proof. eexists. split; [vm_compute; reflexivity|vm_compute; reflexivity]. Qed.
(** A thirteenth movement that explains a gap is not looked at. *)
Definition payment_of (cents : N) : MovementInfo :=
  mkMovement "" "checking" "depository" "2026-02-03" (Fin true cents (-2)) "card" "USD" (Provenance_doc "d") false Spending ByDefault true "" None.
Lemma thirteenth_is_not_seen : let items := payment_of 500 :: repeat (payment_of 10000) 11 ++ [payment_of 500] in
  rmap (fun l => Ok (List.map m_amount l)) (match subsets_summing_to items (Fin false 500 (-2)) 6 with Ok l => l | Raise _ => [] end) = Ok [[Fin true 500 (-2)]]
  /\ sums_to (Fin false 500 (-2)) (drop 12 items) = Ok true.
Proof. split; vm_compute; reflexivity. Qed.
(** The tokens a gap is closed on are not those that tell the account from the others. *)
Lemma gap_tokens_are_shared : account_tokens_held (k_registry paid) "card" = ["2222"; "acme"; "card"; "rewards"]
  /\ account_tokens_held (k_registry paid) "checking" = ["1111"; "acme"; "everyday"]
  /\ in_words "acme" (tokens_of (distinctive (k_registry paid)) "card") = false.
Proof. split; [|split]; vm_compute; reflexivity. Qed.
