(* ===== verification/MovementProperties.v ===== *)
(** * MovementProperties: movements keep their names, links net both legs, spending is a sum

    What may be said of a movement is kept under its key, so the key must be one line's and
    stay it: keys are distinct, do not depend on the order documents arrive in, and outlive
    later events that correct no reading.  A link takes both its legs out of spending and changes no other movement;
    unlinking gives back what was there; and the spending figures are exact sums. *)
From Stdlib Require Import ZArith NArith Ascii String Lia ZifyBool ZifyN ZifyNat.
From stdpp Require Import base list numbers strings relations.
From S2P Require Import Prelude Text Words Json Unicode Dates Decimals Arithmetic Acquisition Events EventTypes Postings LedgerProperties Dictionaries Accounts Schedule Normalize Render Policy Grammars Identity Registry Visibility RegistryProperties Overlays Merchants Movements MovementLaws Transfers TransferLaws TransferProperties.
#[local] Open Scope string_scope.
#[local] Open Scope list_scope.

(** ** Keys *)
(** The document, account and date of a line hold no bar. *)
Definition no_bars (x : string * reg_account * TxnLine) : bool :=
  bar_free (tl_doc x.2) && bar_free x.1.1 && bar_free (tl_date x.2).
(** The same accounts, with the same lines in another order. *)
Definition same_lines (g g' : registry) : Prop :=
  accounts_seen g' = accounts_seen g
  /\ forall a, a ∈ accounts_seen g -> r_kind (reg_of g' a) = r_kind (reg_of g a) /\ r_lines (reg_of g' a) ≡ₚ r_lines (reg_of g a).

(** C9: a movement's key names one line.  No two posted money lines share a key, also lines
    that print the same date, amount and description, when the documents, accounts and dates
    hold no bar; and which keys there are, and which line each is made of, does not depend on
    the order the lines were recorded in. *)
Theorem movement_keys_name_lines g :
  (Forall (fun x => no_bars x = true) (money_lines g) -> NoDup (List.map fst (enumerated g)))
  /\ forall g', same_lines g g' -> signatures g' ≡ₚ signatures g.
Proof.
  split.
  - intros HF. apply numbered_nodup. eapply Forall_impl; [exact HF|]. intros [[a st] l] H. unfold no_bars in H. cbn in H |- *.
    rewrite dec_str_no_bar. apply andb_true_iff in H as [H ->]. by rewrite H.
  - intros g' [E H]. apply signatures_perm; [done|]. intros a Ha. apply H in Ha as [Ek Hp]. unfold account_signatures. rewrite Ek.
    destruct (in_words _ _); [|done]. by apply Permutation_map.
Qed.

Section Names.
Context `{word_table : WordTable}.
Context `{payloads : Payloads} (receipt_holds : observations -> list Event -> Event -> res bool).
(** The registry of a log, superseded interpretations left out. *)
Definition registry_of (es : list Event) : res registry := replay receipt_holds apply_registry empty_registry es.
Lemma registry_ignores g e g' : is_known_allocation e = true -> apply_registry g e = Ok g' -> g' = g.
Proof using Type.
  unfold is_known_allocation, apply_registry. intros Hk H. apply rbind_ok in H as (et & Ht & H). destruct (event_type e); try done. injection Ht as ->.
  apply String.eqb_eq in Hk as ->. apply rbind_ok in H as (? & _ & H). by injection H.
Qed.
(** C8: a key outlives what is read later.  Over any log, whatever events follow that record
    no instrument observation (a correction retires what the reading before booked) and open
    no account already held again, each movement there was is there with the key it had; so
    links, rulings and categories kept under the key stay the movement's. *)
Theorem movement_keys_survive es g more g' : registry_of es = Ok g -> registry_of (es ++ more) = Ok g' ->
  forallb (fun e => negb (is_observation e)) more = true -> Forall (opens_new g) more ->
  forall k s, (k, s) ∈ signatures g -> (k, s) ∈ signatures g'.
Proof.
  intros Hg Hg' Hm HF k s. destruct (replay_later receipt_holds apply_registry empty_registry es more g g' registry_ignores Hm Hg Hg') as (vis & Hv & Hf).
  apply replay_visible in Hg as (v0 & _ & Hg). apply replay_keyed in Hg. eapply later_signatures; [exact Hg| |exact Hf]. by eapply sublist_Forall.
Qed.
End Names.

(** ** Links *)
Section Links.
Context `{case_map : CaseMap} `{word_table : WordTable} `{desc : Descriptors}.
(** A movement before and after some links were made: out of spending if it was linked now,
    the same if not. *)
Record netted (c c' : core) (m m' : MovementInfo) : Prop := {
  nt_printed : m_key m' = m_key m /\ m_account m' = m_account m /\ m_kind m' = m_kind m /\ m_date m' = m_date m
    /\ m_amount m' = m_amount m /\ m_description m' = m_description m /\ m_currency m' = m_currency m;
  nt_other : is_linked c' (m_key m) = is_linked c (m_key m) -> m' = m;
  nt_leg : is_linked c (m_key m) = false -> is_linked c' (m_key m) = true -> m_reason m <> ByComponents ->
    m_nature m' = Transfer /\ m_reason m' = ByLink /\ m_provisional m' = false
    /\ (readable (m_amount m) = true -> counts_as_spending m' = Ok false /\ forall out, add_spending out m' = Ok out)
}.
(** One act of linking: a scan, or a person's confirmation. *)
Definition linking (c c' : core) : Prop :=
  (exists fresh pf n, link_transfers fresh pf c = Ok (c', n)) \/ exists fresh today a b made, confirm_transfer fresh today c a b = Ok (c', made).

Lemma confirmed fresh today c a b c' : matching c -> confirm_transfer fresh today c a b = Ok (c', true) ->
  exists l, live l = true /\ c' = link_transfer c a b l /\ is_linked c a = false /\ is_linked c b = false.
Proof using Type.
  intros Hm. unfold confirm_transfer. destruct (is_linked c a) eqn:Ha; [by intros [= <-]|]. destruct (is_linked c b) eqn:Hb; [by intros [= <-]|].
  cbn [orb]. destruct (apply_linked c fresh a b VERIFIED (JObj [("kind", JStr "confirmed")]) today "human") as (d & ->). cbn [rbind].
  intros [= <-]. exists (Linked (JStr VERIFIED) (JStr "human") d). done.
Qed.
Lemma same_link c a b l : same_but_links c (link_transfer c a b l).
Proof using Type. by split. Qed.
Lemma linking_after c c' : matching c -> linking c c' -> same_but_links c c' /\ forall k, is_linked c k = true -> is_linked c' k = true.
Proof using Type.
  intros Hm [(fresh & pf & n & H)|(fresh & today & a & b & made & H)].
  - unfold link_transfers in H. run_ok. match goal with E : scan _ _ _ = Ok ?s |- _ => rename E into Hscan; rename s into st end.
    destruct (trace_runs c _ _ Hm (scan_traced _ _ _ _ Hscan)) as (x & Hr & [Hs _ Hl]). assert (x = c') as -> by congruence.
    split; [done|]. intros k Hk. apply Hl. by left.
  - destruct made; [|unfold confirm_transfer in H; destruct (_ || _); [injection H as <-; by split|by run_ok]].
    destruct (confirmed _ _ _ _ _ _ Hm H) as (l & Hl & -> & Ha & Hb). split; [apply same_link|]. intros k. apply link_keeps; [done..|apply Hm].
Qed.
Lemma after_netted c c' m m' : after_links c c' m m' -> netted c c' m m'.
Proof using Type.
  intros [Hp _ Hsame Hnet]. split; [done..|]. intros H1 H2 H3. destruct (Hnet H1 H2 H3) as (N1 & N2 & N3 & N4). split; [done|].
  split; [done|]. split; [done|]. intros Hr. destruct Hp as (_ & _ & Ek & _ & Ea & _ & _).
  assert (Hc : counts_as_spending m' = Ok false).
  { unfold counts_as_spending, is_expense. rewrite N1, N4, Ek, Ea. destruct (readable_sign _ Hr) as (x & Hx).
    assert (exists y, dlt dzero (m_amount m) = Ok y) as (y & Hy).
    { clear -Hr. destruct (m_amount m) as [s c e|s|s g n]; [|done..]. unfold dlt. cbn. destruct (cmp_fin _ _ _ _ _ _); by eexists. }
    destruct (m_kind m =? "depository")%string; [rewrite Hx; by destruct x|].
    destruct (m_kind m =? "liability")%string; [rewrite Hy; by destruct y|done]. }
  split; [done|]. intros out. unfold add_spending. by rewrite Hc.
Qed.

(** C7: a link nets both its legs and touches nothing else.  After any history, a scan or a
    confirmation leaves every movement's printed facts; one it did not link reads exactly as
    before; one it linked is a transfer, settled, and adds nothing to what was spent, unless
    the components of a payment already say what it was. *)
Theorem links_net_both_legs al c c' ms : rtc transfer_step (empty_core al) c -> movements c = Ok ms -> linking c c' ->
  exists ms', movements c' = Ok ms' /\ Forall2 (netted c c') ms ms'.
Proof.
  intros Hr Hms Hl. assert (Hm : matching c) by (by eapply history_matching). destruct (linking_after c c' Hm Hl) as [Hs Hk].
  destruct (movements_after c c' ms Hs Hk Hms) as (ms' & Hms' & HF). exists ms'. split; [done|].
  eapply Forall2_impl; [exact HF|]. apply after_netted.
Qed.

Lemma unlinked_again c a b l k : matching c -> live l = true -> is_linked c a = false -> is_linked c b = false ->
  is_linked (link_transfer (link_transfer c a b l) a b Unlinked) k = is_linked c k.
Proof using Type.
  intros Hm Hl Ha Hb. assert (Hm1 : matching (link_transfer c a b l)) by (by apply link_matching).
  apply eq_iff_eq_true. rewrite !is_linked_spec. split.
  - intros (p & v & Hin & Hv & Hk). apply link_elem in Hin as [[-> ->]|[Hn Hin]]; [done| |apply Hm1].
    apply link_elem in Hin as [[-> _]|[_ Hin]]; [done| |apply Hm]. by exists p, v.
  - intros (p & v & Hin & Hv & Hk).
    assert (Hp : p <> pair_of a b).
    { intros ->. assert (H : is_linked c a = true); [|congruence]. apply is_linked_spec. exists (pair_of a b), v.
      split; [done|]. split; [done|]. apply mentions_pair. by left. }
    exists p, v. split; [|done]. cbn [link_transfer with_links k_links]. apply assoc_elem_get; [by apply assoc_set_keyed, Hm1|].
    rewrite !assoc_get_set, !decide_False by done. by apply assoc_elem_get; [apply Hm|].
Qed.
Lemma rejected_links c a b p v : matching c -> p <> pair_of a b -> (p, v) ∈ k_links c -> (p, v) ∈ k_links (link_transfer c a b Unlinked).
Proof using Type.
  intros [Hk _] Hp Hin. cbn [link_transfer with_links k_links]. apply assoc_elem_get; [by apply assoc_set_keyed|].
  rewrite assoc_get_set, decide_False by done. by apply assoc_elem_get.
Qed.

(** C14: rejecting a confirmed transfer gives every movement back.  After any history, a
    confirmation that made a link, followed by a rejection of the same pair, leaves all
    movements, and so every figure read from them, as they were before both; and a rejection
    revokes the link of the pair it names and of no other, so one that names a single
    movement keeps that movement's link. *)
Theorem rejecting_gives_back al fresh fresh' today today' c a b c' c'' : rtc transfer_step (empty_core al) c ->
  confirm_transfer fresh today c a b = Ok (c', true) -> reject_transfer fresh' today' c' a b = Ok c'' ->
  movements c'' = movements c
  /\ forall x y d, reject_transfer fresh' today' c' x y = Ok d ->
       forall p v, p <> pair_of x y -> live v = true -> (p, v) ∈ k_links c' -> (p, v) ∈ k_links d.
Proof.
  intros Hr Hc Hj. assert (Hm : matching c) by (by eapply history_matching). destruct (confirmed _ _ _ _ _ _ Hm Hc) as (l & Hl & -> & Ha & Hb).
  assert (Hm1 : matching (link_transfer c a b l)) by (by apply link_matching). split.
  - unfold reject_transfer in Hj. rewrite apply_unlinked in Hj. injection Hj as <-. apply movements_same; [by split|].
    intros k. by apply unlinked_again.
  - intros x y d Hd p v Hp _ Hin. unfold reject_transfer in Hd. rewrite apply_unlinked in Hd. injection Hd as <-. by apply rejected_links.
Qed.

(** ** Spending *)

(** C15: spending is the exact sum.  When amounts are figures on one scale whose total is
    within the precision, the figures exist, and each currency's is the sum of the magnitudes
    of its outflows that are spending and of the spending components of its composed
    payments; no currency is mixed with another, nothing is rounded, and a currency is listed
    exactly when something was spent in it. *)
Theorem spending_is_the_sum e0 c ms : scale_ok default_ctx e0 -> (e0 <= 0)%Z -> movements c = Ok ms ->
  Forall (on_grid e0) ms -> fits default_ctx (spent_all e0 ms) ->
  exists out, spending_by_currency c = Ok out /\ totals_are e0 ms out.
Proof.
  intros Hs He Hms HF Hf. destruct (add_spendings_exact e0 Hs He ms HF Hf) as (out & Hr & Ht). exists out. split; [|done].
  unfold spending_by_currency. rewrite Hms. exact Hr.
Qed.
End Links.

(** ** The card payment *)
#[local] Existing Instance plain_case.
#[local] Existing Instance plain_words.
#[local] Existing Instance plain_lines.
Definition read_registry : registry := k_registry paid.
(** The same payment read twice more: two lines that print the same. *)
Definition read_again : list Event :=
  [posted "t4" "checking" "2026-02-05" "Corner grocery" (-4000);
   event "e4" "AccountOpened" "2026-02-01" [("account_id", JStr "savings"); ("kind", JStr "depository"); ("name", JStr "Savings")] (Provenance_doc "d4")].
Definition grown_registry : registry := match rfold apply_registry read_again read_registry with Ok g => g | Raise _ => empty_registry end.
Definition twins : registry := set_reg read_registry "checking" (let st := reg_of read_registry "checking" in
  mkReg (r_seen st) (r_kind st) (r_currency st) (r_name st) (r_institution st) (r_number st) (r_names st) (r_origin st) (r_jurisdiction st)
    (r_opened_at st) (r_lines st ++ r_lines st)).

Lemma movement_keys_name_lines_witness : NoDup (List.map fst (enumerated twins)) /\ length (enumerated twins) = 5%nat.
Proof.
  split; [|vm_compute; reflexivity]. apply (movement_keys_name_lines twins).
  apply (bool_decide_unpack _). vm_compute. reflexivity.
Defined.
Definition grocery : string * signature :=
  ("t3|checking|2026-02-05|-40.00|Corner grocery|0", ("t3", "checking", "2026-02-05", "-40.00", "Corner grocery")).
#[local] Existing Instance bare_payloads.
Lemma movement_keys_survive_witness : grocery ∈ signatures grown_registry /\ length (signatures grown_registry) = 4%nat.
Proof.
  split; [|vm_compute; reflexivity]. apply (movement_keys_survive always_holds card_payment read_registry read_again grown_registry).
  - vm_compute. reflexivity.
  - vm_compute. reflexivity.
  - vm_compute. reflexivity.
  - repeat constructor; try (by intros E; vm_compute in E). intros _ a E. vm_compute in E. injection E as <-. vm_compute. reflexivity.
  - apply (bool_decide_unpack _). vm_compute. reflexivity.
Defined.
Lemma links_net_both_legs_witness : exists ms', movements linked_core = Ok ms' /\ Forall2 (netted paid linked_core) read_movements ms'
  /\ List.map m_nature ms' = [Transfer; Transfer; Spending].
Proof.
  destruct (links_net_both_legs [] paid linked_core read_movements paid_history) as (ms' & Hms & HF).
  - vm_compute. reflexivity.
  - left. exists numbered_ids, no_profile, (1, 1, 0)%nat. vm_compute. reflexivity.
  - exists ms'. split; [exact Hms|]. split; [exact HF|]. vm_compute in Hms. injection Hms as <-. reflexivity.
Defined.
Definition confirmed_core : core := match confirm_transfer "h1" "2026-03-01" paid leg_out leg_in with Ok (c, _) => c | Raise _ => paid end.
Definition rejected_core : core := match reject_transfer "h2" "2026-03-02" confirmed_core leg_out leg_in with Ok c => c | Raise _ => paid end.
Lemma rejecting_gives_back_witness : is_linked confirmed_core leg_out = true /\ movements rejected_core = movements paid.
Proof.
  split; [vm_compute; reflexivity|].
  destruct (rejecting_gives_back [] "h1" "h2" "2026-03-01" "2026-03-02" paid leg_out leg_in confirmed_core rejected_core paid_history) as [H _];
    [vm_compute; reflexivity..|exact H].
Defined.
Lemma spending_is_the_sum_witness : exists out, spending_by_currency linked_core = Ok out /\ dict_get out "USD" = Some (Fin false 4000 (-2))
  /\ spent_in (-2) "USD" (match movements linked_core with Ok l => l | Raise _ => [] end) = 4000%Z.
Proof.
  destruct (spending_is_the_sum (-2) linked_core (match movements linked_core with Ok l => l | Raise _ => [] end)) as (out & H & Ht).
  - exact LedgerProperties.cents_scale.
  - done.
  - vm_compute. reflexivity.
  - apply grid_list. vm_compute. reflexivity.
  - vm_compute. reflexivity.
  - exists out. split; [exact H|]. destruct (Ht "USD") as (_ & E & _). split; [|vm_compute; reflexivity].
    vm_compute in H. injection H as <-. reflexivity.
Defined.
