(* ===== verification/Holdings.v ===== *)
(** * Holdings: projection/positions.py and the measurements of networth.py

    What an account was measured to hold and what it is worth: the part of
    product/viva/ledger/projection/core.py that keeps position measurements, over the
    accounts of [Accounts]; product/viva/ledger/projection/positions.py, but for the bounded
    capture of its sources; and the part of product/viva/ledger/networth.py that reads
    measured accounts.  What rulings assert of net worth, and which accounts an undone
    correction retires, is not modelled; the latter is an argument. *)
From Stdlib Require Import ZArith NArith Ascii String Lia ZifyBool ZifyN ZifyNat.
From stdpp Require Import base list numbers strings.
From S2P Require Import Prelude Text Words Json Unicode Decimals Floats Arithmetic Events EventTypes Postings Dictionaries Accounts.
#[local] Open Scope string_scope.

(** ** Measurements *)
Record observation := mkObservation
  { ob_units : decimal; ob_value : decimal; ob_currency : string; ob_as_of : string; ob_cost : option decimal;
    ob_class : string; ob_grade : string; ob_provenance : Provenance; ob_cash : bool }.
(** By instrument: every measurement in arrival order, and the latest cash rows and holdings. *)
Record measured := mkMeasured
  { h_history : list (string * list observation); h_cash : list (string * observation); h_positions : list (string * observation) }.
Definition unmeasured : measured := mkMeasured [] [] [].
Record holder := mkHolder { v_accounts : accounts; v_measured : list (string * measured); v_as_of : option string }.
Definition new_holder (as_of : option string) : holder := mkHolder [] [] as_of.
Definition measured_of (v : holder) (a : string) : measured := default unmeasured (dict_get (v_measured v) a).

Definition _CASH_INSTRUMENTS : list string :=
  ["cash"; "cash balance"; "cash & cash investments"; "cash and equivalents"; "cash equivalents"; "sweep"; "cash sweep";
   "core position"; "money market"].
Definition _CASH_MARKERS : list string := ["money market"; "cash sweep"; "core position"; "sweep account"].
Fixpoint infix_of (p l : bytes) : bool :=
  match starts_with p l with
  | Some _ => true
  | None => match l with [] => false | _ :: r => infix_of p r end
  end.
(** [sorted({...})[0]] and the like are over text. *)
Definition later_text (a b : string) : string := if String.ltb a b then b else a.
Definition keep_latest (d : list (string * observation)) (instrument at_ : string) (ob : observation) : list (string * observation) :=
  match dict_get d instrument with
  | Some prior => if String.ltb at_ (ob_as_of prior) then d else dict_set d instrument ob
  | None => dict_set d instrument ob
  end.
Section Measure.
Context `{case_map : CaseMap}.
Definition is_cash_row (instrument : string) : bool :=
  let label := str_lower (strip instrument) in
  in_words label _CASH_INSTRUMENTS || existsb (fun m => infix_of (enc m) (enc label)) _CASH_MARKERS.
Definition read_cost (v : json) : res (option decimal) :=
  match v with
  | JNull => Ok None
  | JStr t => if String.eqb t "" then Ok None else let? d := Decimal_of_json v in Ok (Some d)
  | _ => let? d := Decimal_of_json v in Ok (Some d)
  end.
Definition read_observation (e : Event) (at_ instrument : string) : res observation :=
  let? cb := py_get_default (body e) "cost_basis" (JStr "") in
  let? u := py_getitem (body e) "units" in
  let? units_ := Decimal_of_json u in
  let? v := py_getitem (body e) "market_value" in
  let? value := Decimal_of_json v in
  let? c := body_text e "currency" in
  let? cost := read_cost cb in
  let? k := (let? w := py_get_default (body e) "valuation_class" (JStr "measured") in text w) in
  let? g := body_text e "grade" in
  Ok (mkObservation units_ value c at_ cost k g (provenance e) (is_cash_row instrument)).
Definition measure (instrument at_ : string) (ob : observation) (m : measured) : measured :=
  mkMeasured (dict_set (h_history m) instrument (default [] (dict_get (h_history m) instrument) ++ [ob])%list)
    (if is_cash_row instrument then keep_latest (h_cash m) instrument at_ ob else h_cash m)
    (if is_cash_row instrument then h_positions m else keep_latest (h_positions m) instrument at_ ob).
(** One event of those a projection folds: the figures of a reading that was corrected are
    hidden by [Visibility.visible_events] before they come here. *)
Definition apply_holder (v : holder) (e : Event) : res holder :=
  let? at_ := text (occurred_at e) in
  if match v_as_of v with Some d => String.ltb d at_ | None => false end then Ok v
  else
    let? accts := apply_account (v_accounts v) e in
    let? et := text (event_type e) in
    if String.eqb et "PositionObserved" then
      let? a := body_item e "account_id" in
      let? instrument := body_item e "instrument" in
      let? ob := read_observation e at_ instrument in
      Ok (mkHolder accts (dict_set (v_measured v) a (measure instrument at_ ob (measured_of v a))) (v_as_of v))
    else Ok (mkHolder accts (v_measured v) (v_as_of v)).
End Measure.

(** ** The newest statement *)
Definition listed (m : measured) : list (string * observation) :=
  List.flat_map (fun p => List.map (fun ob => (p.1, ob)) p.2) (h_history m).
Definition eligible_row (as_of : string) (cash : bool) (p : string * observation) : bool :=
  negb (String.eqb (ob_as_of p.2) "") && (String.eqb as_of "" || negb (String.ltb as_of (ob_as_of p.2))) && Bool.eqb (ob_cash p.2) cash.
Definition newest (l : list (string * observation)) : string := List.fold_left (fun d p => later_text d (ob_as_of p.2)) l "".
Definition snapshot_positions (m : measured) (as_of : string) (cash : bool) : list (string * observation) :=
  let obs := List.filter (eligible_row as_of cash) (listed m) in
  List.fold_left (fun d p => dict_set d p.1 p.2) (List.filter (fun p => String.eqb (ob_as_of p.2) (newest obs)) obs) [].

(** [sorted(d.items())]: names are distinct, so only they are compared. *)
Definition sorted_items {A} (d : list (string * A)) : list (string * A) :=
  List.flat_map (fun k => match dict_get d k with Some x => [(k, x)] | None => [] end) (sorted_set (List.map fst d)).
Record PositionRecord := mkPosition { pr_account : string; pr_instrument : string; pr_observation : observation }.
Definition positions (v : holder) (account : option string) : list PositionRecord :=
  List.flat_map (fun p => if match account with Some a => String.eqb p.1 a | None => true end
                          then List.map (fun q => mkPosition p.1 q.1 q.2) (sorted_items (snapshot_positions (measured_of v p.1) "" false))
                          else []) (v_accounts v).
Definition sum_values (l : list observation) (start : decimal) : res decimal :=
  rfold (fun t ob => dadd default_ctx t (ob_value ob)) l start.
Definition holdings_value (v : holder) (a : string) : res decimal :=
  match dict_get (v_accounts v) a with
  | None => Ok dzero
  | Some _ => sum_values (List.map snd (snapshot_positions (measured_of v a) "" false)) dzero
  end.
Definition seen_state (v : holder) (a : string) : res account_state :=
  match dict_get (v_accounts v) a with
  | Some st => if seen st then Ok st else Raise UnknownAccountError
  | None => Raise UnknownAccountError
  end.
Definition cash_value (v : holder) (a : string) : res decimal :=
  let? st := seen_state v a in
  let? base := match closing st with Some c => Ok c | None => effective st end in
  let? cash := sum_values (List.map snd (h_cash (measured_of v a))) dzero in
  dadd default_ctx base cash.
Definition position_gain (ob : observation) : res (option decimal) :=
  match ob_cost ob with None => Ok None | Some c => let? d := dsub default_ctx (ob_value ob) c in Ok (Some d) end.
Definition unrealized_gain (v : holder) (account : option string) : res (option decimal) :=
  rfold (fun t r => let? g := position_gain (pr_observation r) in
                    match g with
                    | None => Ok t
                    | Some d => let? s := dadd default_ctx (default dzero t) d in Ok (Some s)
                    end) (positions v account) None.

(** ** One value per currency *)

(** The weakest of the terms, and no grade where a term has none. *)
Definition grade_index (g : string) : nat := match list_find (eq g) GRADES with Some (i, _) => i | None => 0 end.
Definition composed_grade (grades : list string) : string :=
  if bool_decide (grades = []) || existsb (fun g => negb (in_words g GRADES)) grades then ""
  else nth (list_max (List.map grade_index grades)) GRADES "".
Record ComposedValue := mkComposed
  { cv_account : string; cv_amount : decimal; cv_currency : string; cv_dates : list string; cv_grade : string; cv_proves : string }.
Definition cv_as_of (c : ComposedValue) : string := hd "" (cv_dates c).
Definition mixed_vintage (c : ComposedValue) : bool := (1 <? List.length (cv_dates c))%nat.

Record term := mkTerm { t_amount : decimal; t_currency : string; t_date : string; t_grade : string; t_doc : string }.
(** The closing of the latest date at or before the day; of two of a date, the later said. *)
Definition pick_closing (as_of : string) (best : option (string * decimal * string * json)) (c : string * decimal * string * json)
    : option (string * decimal * string * json) :=
  let date := c.1.1.1 in
  if String.ltb as_of date then best
  else match best with
       | Some b => if String.ltb date b.1.1.1 then best else Some c
       | None => Some c
       end.
Definition cash_term (v : holder) (st : account_state) (a as_of : string) : res (option term) :=
  let? cur := text (currency st) in
  if String.eqb as_of "" then
    let? ba := balance (v_accounts v) (v_as_of v) a in
    let? doc := text (doc_id (b_provenance ba)) in
    Ok (Some (mkTerm (b_amount ba) cur (b_dated ba) (b_grade ba) doc))
  else
    match List.fold_left (pick_closing as_of) (closings st) None with
    | None => Ok None
    | Some (date, amount, grade, doc) => let? d := text doc in Ok (Some (mkTerm amount cur date grade d))
    end.
Definition position_term (cur : string) (ob : observation) : term :=
  mkTerm (ob_value ob) (if String.eqb (ob_currency ob) "" then cur else ob_currency ob) (ob_as_of ob) (ob_grade ob) "".
Definition terms_of (v : holder) (a as_of : string) : res (list term) :=
  let? st := seen_state v a in
  let? cash := cash_term v st a as_of in
  let? cur := text (currency st) in
  let m := measured_of v a in
  Ok ((match cash with Some t => [t] | None => [] end)
      ++ List.map (fun p => position_term cur p.2) (snapshot_positions m as_of true ++ snapshot_positions m as_of false))%list.
Record group := mkGroup { gr_amount : decimal; gr_dates : list string; gr_grades : list string; gr_proves : string }.
Definition new_group : group := mkGroup dzero [] [] "".
Definition add_term (gs : list (string * group)) (t : term) : res (list (string * group)) :=
  let g := default new_group (dict_get gs (t_currency t)) in
  let? amount := dadd default_ctx (gr_amount g) (t_amount t) in
  Ok (dict_set gs (t_currency t)
        (mkGroup amount (gr_dates g ++ if String.eqb (t_date t) "" then [] else [t_date t])%list (gr_grades g ++ [t_grade t])%list
           (if String.eqb (gr_proves g) "" then t_doc t else gr_proves g))).
Definition composed (a : string) (p : string * group) : ComposedValue :=
  mkComposed a (gr_amount p.2) p.1 (sorted_set (gr_dates p.2)) (composed_grade (gr_grades p.2)) (gr_proves p.2).
Definition composed_values (v : holder) (a as_of : string) : res (list ComposedValue) :=
  let? ts := terms_of v a as_of in
  let? gs := rfold add_term ts [] in
  Ok (List.map (composed a) (sorted_items gs)).
Definition holdings_as_of (v : holder) (a : string) : res (string * bool) :=
  match seen_state v a with
  | Raise _ => Ok ("", false)
  | Ok _ =>
      let? cvs := composed_values v a "" in
      let dates := sorted_set (List.flat_map cv_dates cvs) in
      Ok (hd "" dates, (1 <? List.length dates)%nat)
  end.
Definition account_value (v : holder) (a : string) : res decimal :=
  let? cvs := composed_values v a "" in
  match cvs with
  | [c] => Ok (cv_amount c)
  | _ => let? st := seen_state v a in
         let? own := text (currency st) in
         Ok (match List.find (fun c => String.eqb (cv_currency c) own) cvs with Some c => cv_amount c | None => dzero end)
  end.

(** ** Measured net worth *)
Record NetWorthLine := mkNetLine
  { n_account : string; n_amount : decimal; n_currency : string; n_as_of : string; n_grade : string; n_origin : json; n_kind : string;
    n_proves : string; n_mixed : bool }.
Definition provable (l : NetWorthLine) : bool := String.eqb (n_grade l) CORROBORATED.
(** [_side]: what is owed counts against. *)
Definition side (kind : string) (balance : decimal) : res decimal :=
  if String.eqb kind "liability" then dneg default_ctx balance else Ok balance.
Definition net_line (st : account_state) (kind : string) (c : ComposedValue) : res NetWorthLine :=
  let? amount := side kind (cv_amount c) in
  Ok (mkNetLine (cv_account c) amount (cv_currency c) (cv_as_of c) (cv_grade c) (if py_truthy (origin st) then origin st else JStr ISSUED)
        kind (cv_proves c) (mixed_vintage c)).
(** An account held but not valued by the day, and the first closing after it. *)
Record Skipped := mkSkipped { sk_account : string; sk_kind : string; sk_first : string }.
Definition first_after (as_of : string) (st : account_state) : string :=
  hd "" (sorted_set (List.filter (String.ltb as_of) (List.map (fun c => c.1.1.1) (closings st)))).
Record NetWorthPoint := mkPoint { p_as_of : string; p_lines : list NetWorthLine; p_skipped : list Skipped }.
Definition NET_WORTH_KINDS : list string := ["depository"; "liability"; "investment"].
Definition seen_accounts (v : holder) : list string := sorted_set (List.map fst (List.filter (fun p => seen p.2) (v_accounts v))).
Definition add_account (v : holder) (inactive : list string) (p : NetWorthPoint) (a : string) : res NetWorthPoint :=
  if in_words a inactive then Ok p
  else
    let? st := seen_state v a in
    let? k := text (kind st) in
    if negb (in_words k NET_WORTH_KINDS) then Ok p
    else
      let? cvs := composed_values v a (p_as_of p) in
      match cvs with
      | [] => Ok (mkPoint (p_as_of p) (p_lines p) (p_skipped p ++ [mkSkipped a k (first_after (p_as_of p) st)])%list)
      | _ => let? lines := rmap (net_line st k) cvs in
             Ok (mkPoint (p_as_of p) (p_lines p ++ lines)%list (p_skipped p))
      end.
Definition measured_point (v : holder) (inactive : list string) (as_of : string) : res NetWorthPoint :=
  if String.eqb as_of "" then Ok (mkPoint as_of [] [])
  else rfold (add_account v inactive) (seen_accounts v) (mkPoint as_of [] []).
(** The days a measurement was made: the part of [change_dates] that reads measurements. *)
Definition measured_dates (v : holder) (inactive : list string) : list string :=
  sorted_set (List.filter (fun d => negb (String.eqb d ""))
    (List.flat_map (fun a => if in_words a inactive then []
                             else (List.map (fun c => c.1.1.1) (closings (state_of (v_accounts v) a))
                                   ++ List.map (fun p => ob_as_of p.2) (listed (measured_of v a)))%list)
       (seen_accounts v))).
Definition oldest_input (p : NetWorthPoint) : string := hd "" (sorted_set (List.map n_as_of (p_lines p))).
Record NetRow := mkRow { w_assets : decimal; w_liabilities : decimal; w_net : decimal; w_provable : decimal }.
Definition zero_row : NetRow := mkRow dzero dzero dzero dzero.
Definition add_line (out : list (string * NetRow)) (l : NetWorthLine) : res (list (string * NetRow)) :=
  let r := default zero_row (dict_get out (n_currency l)) in
  let? down := dlt (n_amount l) dzero in
  let? assets := if down then Ok (w_assets r) else dadd default_ctx (w_assets r) (n_amount l) in
  let? liabilities := if down then (let? owed := dneg default_ctx (n_amount l) in dadd default_ctx (w_liabilities r) owed)
                      else Ok (w_liabilities r) in
  let? net := dadd default_ctx (w_net r) (n_amount l) in
  let? prov := if provable l then dadd default_ctx (w_provable r) (n_amount l) else Ok (w_provable r) in
  Ok (dict_set out (n_currency l) (mkRow assets liabilities net prov)).
Definition by_currency (lines : list NetWorthLine) : res (list (string * NetRow)) := rfold add_line lines [].
