(* ===== verification/HoldingsLaws.v ===== *)
(** * HoldingsLaws: statements, sums and days of measured accounts

    Which measurements a snapshot lists; the groups a composed value is summed in; what later
    events leave of the measurements at or before a day. *)
From Stdlib Require Import ZArith NArith Ascii String Lia ZifyBool ZifyN ZifyNat Sorting.
From stdpp Require Import base list numbers strings sorting.
From S2P Require Import Prelude Text Words Json Unicode Decimals Floats Arithmetic Events EventTypes Postings Dictionaries Accounts BalanceLaws Holdings.
#[local] Open Scope string_scope.
#[local] Open Scope list_scope.

(** ** The newest statement *)
Lemma later_text_or a b : later_text a b = a \/ later_text a b = b.
Proof. unfold later_text. case_match; auto. Qed.
Lemma later_text_ub a b : ~ word_lt (later_text a b) a /\ ~ word_lt (later_text a b) b.
Proof.
  unfold later_text. destruct (String.ltb a b) eqn:E.
  - apply ltb_word in E. split; [|apply word_lt_irrefl]. intros H. apply (word_lt_irrefl a). by transitivity b.
  - apply ltb_word_not in E. split; [apply word_lt_irrefl|done].
Qed.
Lemma not_lt_trans a b c : ~ word_lt a b -> ~ word_lt b c -> ~ word_lt a c.
Proof. intros H1 H2 H. destruct (word_tri a b) as [?|[->|?]]; [done|done|]. apply H2. by transitivity a. Qed.
Lemma newest_from l : forall d0, let d := List.fold_left (fun d (p : string * observation) => later_text d (ob_as_of p.2)) l d0 in
  ~ word_lt d d0 /\ Forall (fun p => ~ word_lt d (ob_as_of p.2)) l /\ (d = d0 \/ exists p, p ∈ l /\ ob_as_of p.2 = d).
Proof.
  induction l as [|p l IH]; intros d0; cbn [List.fold_left].
  - split; [apply word_lt_irrefl|]. split; [constructor|by left].
  - destruct (IH (later_text d0 (ob_as_of p.2))) as (H1 & H2 & H3). destruct (later_text_ub d0 (ob_as_of p.2)) as [U1 U2].
    split; [by eapply not_lt_trans|]. split; [constructor; [by eapply not_lt_trans|done]|].
    destruct H3 as [->|(q & Hq & E)]; [|right; exists q; split; [by right|done]].
    destruct (later_text_or d0 (ob_as_of p.2)) as [->| ->]; [by left|right; exists p; split; [left|done]].
Qed.
Lemma newest_ub l : Forall (fun p => ~ word_lt (newest l) (ob_as_of p.2)) l.
Proof. apply newest_from. Qed.
Definition eligible_rows (m : measured) (as_of : string) (cash : bool) : list (string * observation) :=
  List.filter (eligible_row as_of cash) (listed m).
Lemma fold_dict (l : list (string * observation)) : forall d, keyed d ->
  let d' := List.fold_left (fun d p => dict_set d p.1 p.2) l d in
  keyed d' /\ (forall i ob, dict_get d' i = Some ob -> (i, ob) ∈ l \/ dict_get d i = Some ob)
  /\ (forall i, dict_get d' i <> None <-> i ∈ List.map fst l \/ dict_get d i <> None).
Proof.
  induction l as [|[j w] l IH]; intros d Hd; cbn [List.fold_left List.map fst snd].
  - split; [done|]. split; [by right|]. intros i. rewrite elem_of_nil. tauto.
  - destruct (IH (dict_set d j w)) as (K & H1 & H2); [auto|]. split; [done|]. split.
    + intros i ob Hi. destruct (H1 i ob Hi) as [H|H]; [left; by right|]. rewrite dict_get_setting in H.
      destruct (String.eqb_spec j i) as [->|_]; [|by right]. injection H as ->. left. left.
    + intros i. rewrite H2, dict_get_setting, elem_of_cons. destruct (String.eqb_spec j i) as [->|Hn]; [|split; intros [?|?]; auto; by destruct H as [->|?]; auto].
      split; [|by right]. intros _. left. by left.
Qed.
Record one_statement (m : measured) (as_of : string) (cash : bool) (s : list (string * observation)) : Prop := {
  os_keyed : keyed s;
  os_measured i ob : dict_get s i = Some ob -> (i, ob) ∈ eligible_rows m as_of cash;
  os_newest i ob j ob' : dict_get s i = Some ob -> (j, ob') ∈ eligible_rows m as_of cash -> ~ word_lt (ob_as_of ob) (ob_as_of ob');
  os_whole i ob : (i, ob) ∈ eligible_rows m as_of cash -> (forall j ob', (j, ob') ∈ eligible_rows m as_of cash -> ~ word_lt (ob_as_of ob) (ob_as_of ob')) ->
    dict_get s i <> None
}.
Lemma snapshot_one m as_of cash : one_statement m as_of cash (snapshot_positions m as_of cash).
Proof.
  unfold snapshot_positions. fold (eligible_rows m as_of cash). set (obs := eligible_rows m as_of cash).
  set (now := List.filter _ obs). assert (Hnow : forall i ob, (i, ob) ∈ now <-> (i, ob) ∈ obs /\ ob_as_of ob = newest obs).
  { intros i ob. unfold now. rewrite list_elem_of_In, List.filter_In, String.eqb_eq, <- list_elem_of_In. done. }
  destruct (fold_dict now []) as (K & H1 & H2); [apply NoDup_nil_2|]. pose proof (newest_ub obs) as Hub. rewrite Forall_forall in Hub.
  assert (Hin : forall i ob, dict_get (List.fold_left (fun d p => dict_set d p.1 p.2) now []) i = Some ob -> (i, ob) ∈ obs /\ ob_as_of ob = newest obs).
  { intros i ob H. destruct (H1 i ob H) as [H'|H']; [by apply Hnow|done]. }
  split; [done|..].
  - intros i ob H. by apply Hin.
  - intros i ob j ob' [_ ->]%Hin Hj. by apply (Hub (j, ob')).
  - intros i ob Hi Hmax. apply H2. left. apply list_elem_of_In, in_map_iff. exists (i, ob). split; [done|]. apply list_elem_of_In, Hnow.
    split; [done|]. destruct (newest_from obs "") as (_ & _ & [E|([j ob'] & Hj & E)]).
    + pose proof (Hub (i, ob) Hi) as Hu. cbn [snd] in Hu. unfold newest in *. rewrite E in *.
      destruct (word_tri (ob_as_of ob) "") as [H|[->|H]]; [|done|done]. unfold word_lt in H. by destruct (ob_as_of ob).
    + pose proof (Hub (i, ob) Hi) as Hu. pose proof (Hmax j ob' Hj) as Hm. cbn [snd] in *. unfold newest in *. rewrite E in *.
      destruct (word_tri (ob_as_of ob) (List.fold_left (fun d p => later_text d (ob_as_of p.2)) obs "")) as [?|[?|?]]; done.
Qed.

(** ** The weakest grade *)
Lemma grade_index_nth g : in_words g GRADES = true -> nth (grade_index g) GRADES "" = g.
Proof. rewrite in_words_spec. unfold GRADES. rewrite !elem_of_cons, elem_of_nil. intros [->|[->|[->|[->|[]]]]]; reflexivity. Qed.
Lemma composed_grade_weakest gs : gs <> [] -> Forall (fun g => in_words g GRADES = true) gs ->
  composed_grade gs ∈ gs /\ Forall (fun g => (grade_index g <= grade_index (composed_grade gs))%nat) gs.
Proof.
  intros Hne HF. unfold composed_grade. rewrite bool_decide_eq_false_2 by done.
  assert (E : existsb (fun g => negb (in_words g GRADES)) gs = false).
  { apply not_true_iff_false. rewrite existsb_exists. intros (g & Hg & H). rewrite Forall_forall in HF. rewrite HF in H; [done|by apply list_elem_of_In]. }
  rewrite E. cbn [orb].
  assert (Hm : forall l : list nat, l <> [] -> list_max l ∈ l).
  { intros l. induction l as [|n [|k l] IH]; intros H; [done|cbn; rewrite Nat.max_0_r; left|].
    change (list_max (n :: k :: l)) with (Nat.max n (list_max (k :: l))). destruct (Nat.max_spec n (list_max (k :: l))) as [[_ ->]|[_ ->]]; [right; by apply IH|left]. }
  assert (Hin : list_max (List.map grade_index gs) ∈ List.map grade_index gs) by (apply Hm; by destruct gs).
  apply list_elem_of_In, in_map_iff in Hin as (g & Eg & Hg). rewrite <- Eg. rewrite Forall_forall in HF.
  pose proof (HF g (proj2 (list_elem_of_In _ _) Hg)) as Hw. rewrite (grade_index_nth g Hw). split; [by apply list_elem_of_In|].
  rewrite Eg. apply Forall_forall. intros x Hx.
  pose proof (proj1 (list_max_le (List.map grade_index gs) _) (Nat.le_refl _)) as Hle. rewrite List.Forall_forall in Hle.
  apply Hle, in_map_iff. exists x. by rewrite <- list_elem_of_In.
Qed.

(** ** Groups *)
Section Sums.
Context (e0 : Z) (Hs : scale_ok default_ctx e0) (He : (e0 <= 0)%Z).
Definition in_cur (cur : string) (ts : list term) : list term := List.filter (fun t => String.eqb (t_currency t) cur) ts.
Definition units_of (ts : list term) : list Z := List.map (fun t => units e0 (t_amount t)) ts.
Definition days_of (ts : list term) : list string := List.flat_map (fun t => if String.eqb (t_date t) "" then [] else [t_date t]) ts.
Record group_of (ts : list term) (g : group) : Prop := {
  go_amount : on_scale e0 (gr_amount g) /\ units e0 (gr_amount g) = zsum (units_of ts);
  go_dates : gr_dates g = days_of ts;
  go_grades : gr_grades g = List.map t_grade ts
}.
Definition grouped_as (ts : list term) (gs : list (string * group)) : Prop :=
  keyed gs /\ forall cur, match dict_get gs cur with Some g => in_cur cur ts <> [] /\ group_of (in_cur cur ts) g | None => in_cur cur ts = [] end.
Lemma new_group_of : group_of [] new_group.
Proof using He. split; [|done..]. split; [exact He|done]. Qed.
Lemma in_cur_mags cur ts : (mags (units_of (in_cur cur ts)) <= mags (units_of ts))%Z.
Proof using Type.
  induction ts as [|t ts IH]; [cbn; lia|]. unfold in_cur. cbn [List.filter]. fold (in_cur cur ts). cbn [units_of List.map].
  rewrite mags_cons. fold (units_of ts). destruct (String.eqb _ _); cbn [units_of List.map]; rewrite ?mags_cons; fold (units_of (in_cur cur ts)); lia.
Qed.
Lemma add_term_exact ts t gs : grouped_as ts gs -> on_scale e0 (t_amount t) -> fits default_ctx (mags (units_of (ts ++ [t]))) ->
  exists gs', add_term gs t = Ok gs' /\ grouped_as (ts ++ [t]) gs'.
Proof using Hs He.
  intros [Hk Hg] Ht Hf. unfold add_term. set (cur := t_currency t). set (g := default new_group (dict_get gs cur)).
  assert (Hgo : group_of (in_cur cur ts) g).
  { unfold g. specialize (Hg cur). destruct (dict_get gs cur) as [g0|]; [apply Hg|]. rewrite Hg. apply new_group_of. }
  assert (Happ : forall c, in_cur c (ts ++ [t]) = in_cur c ts ++ if String.eqb cur c then [t] else []).
  { intros c. unfold in_cur. rewrite List.filter_app. cbn [List.filter]. by destruct (String.eqb _ _). }
  destruct (go_amount _ _ Hgo) as [Ha Hu].
  destruct (dadd_exact default_ctx e0 _ _ Hs Ha Ht) as (r & Hr & Hrs & Hru).
  { eapply fits_le; [exact Hf|]. rewrite Hu. unfold units_of at 2. rewrite List.map_app, mags_app. fold (units_of ts). cbn [List.map].
    pose proof (zsum_mags (units_of (in_cur cur ts))). pose proof (in_cur_mags cur ts). pose proof (mags_nonneg (units_of ts)).
    assert (E1 : mags [units e0 (t_amount t)] = Z.abs (units e0 (t_amount t))) by (rewrite mags_cons; cbn; lia). rewrite E1. lia. }
  fold g. rewrite Hr. cbn [rbind]. eexists. split; [done|]. split; [auto|]. intros c. rewrite dict_get_setting, Happ.
  destruct (String.eqb_spec cur c) as [<-|Hn]; [|rewrite app_nil_r; apply Hg]. split; [by destruct (in_cur cur ts)|].
  split; cbn [gr_amount gr_dates gr_grades].
  - split; [done|]. rewrite Hru, Hu. unfold units_of. rewrite List.map_app, zsum_app. cbn [List.map].
    change (zsum [units e0 (t_amount t)]) with (zsum (units e0 (t_amount t) :: [])). rewrite zsum_cons. cbn. lia.
  - rewrite (go_dates _ _ Hgo). unfold days_of. rewrite List.flat_map_app. cbn [List.flat_map]. by rewrite app_nil_r.
  - rewrite (go_grades _ _ Hgo). by rewrite List.map_app.
Qed.
Lemma add_terms_exact ts : Forall (fun t => on_scale e0 (t_amount t)) ts -> fits default_ctx (mags (units_of ts)) ->
  exists gs, rfold add_term ts [] = Ok gs /\ grouped_as ts gs.
Proof using Hs He.
  induction ts as [|t ts IH] using rev_ind; intros HF Hf; [exists []; split; [done|]; split; [apply NoDup_nil_2|done]|].
  apply Forall_app in HF as [HF Ht]. rewrite Forall_singleton in Ht.
  destruct (IH HF) as (gs & Hr & Hg).
  { eapply fits_le; [exact Hf|]. unfold units_of at 2. rewrite List.map_app, mags_app. fold (units_of ts).
    pose proof (mags_nonneg (units_of ts)). pose proof (mags_nonneg (List.map (fun t => units e0 (t_amount t)) [t])). lia. }
  destruct (add_term_exact ts t gs Hg Ht Hf) as (gs' & Ha & Hg'). exists gs'. split; [|done]. rewrite rfold_app, Hr. cbn [rbind rfold]. by rewrite Ha.
Qed.
End Sums.
Lemma sorted_items_elem {A} (d : list (string * A)) k x : (k, x) ∈ sorted_items d <-> dict_get d k = Some x.
Proof.
  unfold sorted_items. rewrite list_elem_of_In, in_flat_map. split.
  - intros (j & _ & H). destruct (dict_get d j) as [y|] eqn:E; [|done]. by destruct H as [[= -> ->]|[]].
  - intros H. exists k. rewrite H. split; [|by left]. apply list_elem_of_In, sorted_set_elem. by apply dict_get_key in H.
Qed.
Lemma sorted_items_keys {A} (d : list (string * A)) : List.map fst (sorted_items d) = sorted_set (List.map fst d).
Proof.
  unfold sorted_items. assert (H : forall k, k ∈ sorted_set (List.map fst d) -> dict_get d k <> None).
  { intros k Hk E. apply dict_get_none in E. by rewrite sorted_set_elem in Hk. }
  induction (sorted_set (List.map fst d)) as [|k l IH]; cbn [List.flat_map List.map]; [done|]. rewrite List.map_app, IH by (intros j Hj; apply H; by right).
  destruct (dict_get d k) as [x|] eqn:E; [done|]. exfalso. apply (H k); [left|done].
Qed.

(** ** Subtotals of net worth *)
Section Rows.
Context (e0 : Z) (Hs : scale_ok default_ctx e0) (He : (e0 <= 0)%Z).
Definition line_units (l : NetWorthLine) : Z := units e0 (n_amount l).
(** What the lines a test keeps come to. *)
Definition part (f : NetWorthLine -> bool) (ls : list NetWorthLine) : Z := zsum (List.map line_units (List.filter f ls)).
Definition in_currency (cur : string) (l : NetWorthLine) : bool := String.eqb (n_currency l) cur.
Definition is_total (z : Z) (d : decimal) : Prop := on_scale e0 d /\ units e0 d = z.
Record row_of (cur : string) (ls : list NetWorthLine) (r : NetRow) : Prop := {
  rw_assets : is_total (part (fun l => in_currency cur l && (0 <=? line_units l)%Z) ls) (w_assets r);
  rw_liabilities : is_total (- part (fun l => in_currency cur l && (line_units l <? 0)%Z) ls) (w_liabilities r);
  rw_net : is_total (part (in_currency cur) ls) (w_net r);
  rw_provable : is_total (part (fun l => in_currency cur l && provable l) ls) (w_provable r)
}.
Definition rows_of (ls : list NetWorthLine) (rows : list (string * NetRow)) : Prop :=
  keyed rows /\ forall cur, match dict_get rows cur with
                           | Some r => row_of cur ls r
                           | None => existsb (in_currency cur) ls = false
                           end.
Lemma part_snoc f ls l : part f (ls ++ [l]) = (part f ls + if f l then line_units l else 0)%Z.
Proof using Type.
  unfold part. rewrite List.filter_app, List.map_app, zsum_app. cbn [List.filter]. destruct (f l); cbn [List.map]; [|done].
  rewrite zsum_cons. change (zsum []) with 0%Z. lia.
Qed.
Lemma part_mags f ls : (Z.abs (part f ls) <= mags (List.map line_units ls))%Z.
Proof using Type.
  induction ls as [|l ls IH]; [done|]. unfold part. cbn [List.filter List.map]. rewrite mags_cons. fold (part f ls).
  destruct (f l); cbn [List.map]; [rewrite zsum_cons|]; fold (part f ls); lia.
Qed.
Lemma part_none f ls : existsb f ls = false -> forall g, part (fun l => f l && g l) ls = 0%Z.
Proof using Type.
  intros H g. induction ls as [|l ls IH]; [done|]. cbn [existsb] in H. apply orb_false_iff in H as [H1 H2].
  unfold part. cbn [List.filter]. rewrite H1. by apply IH.
Qed.
Lemma part_split f ls : part f ls
  = (part (fun l => f l && (0 <=? line_units l)%Z) ls + part (fun l => f l && (line_units l <? 0)%Z) ls)%Z.
Proof using Type.
  induction ls as [|l ls IH] using rev_ind; [done|]. rewrite !part_snoc, IH. destruct (f l); cbn [andb]; [|lia].
  destruct (Z.leb_spec 0 (line_units l)), (Z.ltb_spec (line_units l) 0); lia.
Qed.
Lemma part_nonneg f ls : (0 <= part (fun l => f l && (0 <=? line_units l)%Z) ls)%Z.
Proof using Type.
  induction ls as [|l ls IH] using rev_ind; [done|]. rewrite part_snoc. destruct (f l); cbn [andb]; [|lia]. destruct (Z.leb_spec 0 (line_units l)); lia.
Qed.
Lemma part_neg f ls : (part (fun l => f l && (line_units l <? 0)%Z) ls <= 0)%Z.
Proof using Type.
  induction ls as [|l ls IH] using rev_ind; [done|]. rewrite part_snoc. destruct (f l); cbn [andb]; [|lia]. destruct (Z.ltb_spec (line_units l) 0); lia.
Qed.
Lemma zero_total : is_total 0 dzero.
Proof using He. split; [exact He|done]. Qed.
Lemma zero_row_of cur ls : existsb (in_currency cur) ls = false -> row_of cur ls zero_row.
Proof using He.
  intros H. pose proof (part_none _ _ H) as Hp. assert (Hn : part (in_currency cur) ls = 0%Z).
  { rewrite <- (Hp (fun _ => true)). unfold part. f_equal. f_equal. apply filter_ext. intros l. by rewrite andb_true_r. }
  split; cbn [zero_row w_assets w_liabilities w_net w_provable]; rewrite ?Hp, ?Hn; apply zero_total.
Qed.
(** Adding a line to the total of what a test keeps of the lines before it. *)
Lemma total_add f ls l d x z : is_total (part f ls) d -> f l = true -> on_scale e0 x -> units e0 x = line_units l ->
  fits default_ctx (mags (List.map line_units (ls ++ [l]))) -> z = part f (ls ++ [l]) ->
  exists d', dadd default_ctx d x = Ok d' /\ is_total z d'.
Proof using Hs.
  intros [H1 H2] Hl Hx Hux Hf ->. destruct (dadd_exact default_ctx e0 d x Hs H1 Hx) as (r & Hr & Hrs & Hru).
  - eapply fits_le; [exact Hf|]. pose proof (part_mags f (ls ++ [l])) as Hp. rewrite part_snoc, Hl in Hp. rewrite H2, Hux. lia.
  - exists r. split; [done|]. split; [done|]. rewrite Hru, H2, Hux, part_snoc, Hl. done.
Qed.
Lemma same_total f ls l d : is_total (part f ls) d -> f l = false -> is_total (part f (ls ++ [l])) d.
Proof using Type. intros H Hl. by rewrite part_snoc, Hl, Z.add_0_r. Qed.
Lemma owed_add cur ls l d : let f := fun l => in_currency cur l && (line_units l <? 0)%Z in
  is_total (- part f ls) d -> f l = true -> on_scale e0 (n_amount l) -> fits default_ctx (mags (List.map line_units (ls ++ [l]))) ->
  exists d', (let? owed := dneg default_ctx (n_amount l) in dadd default_ctx d owed) = Ok d' /\ is_total (- part f (ls ++ [l])) d'.
Proof using Hs.
  intros f [H1 H2] Hl Hx Hf. pose proof (part_mags f (ls ++ [l])) as Hp. rewrite part_snoc, Hl in Hp.
  destruct (dneg_exact default_ctx e0 (n_amount l) Hs Hx) as (o & Ho & Hos & Hou).
  { eapply fits_le; [exact Hf|]. rewrite List.map_app, mags_app. cbn [List.map]. rewrite mags_cons.
    pose proof (mags_nonneg (List.map line_units ls)). change (mags []) with 0%Z. change (line_units l) with (units e0 (n_amount l)). lia. }
  rewrite Ho. cbn [rbind]. destruct (dadd_exact default_ctx e0 d o Hs H1 Hos) as (r & Hr & Hrs & Hru).
  - eapply fits_le; [exact Hf|]. rewrite H2, Hou. change (line_units l) with (units e0 (n_amount l)) in Hp. lia.
  - exists r. split; [done|]. split; [done|]. rewrite Hru, H2, Hou, part_snoc, Hl. change (line_units l) with (units e0 (n_amount l)). lia.
Qed.
Lemma add_line_exact ls rows l : rows_of ls rows -> on_scale e0 (n_amount l) -> fits default_ctx (mags (List.map line_units (ls ++ [l]))) ->
  exists rows', add_line rows l = Ok rows' /\ rows_of (ls ++ [l]) rows'.
Proof using Hs He.
  intros [Hk Hr] Hx Hf. unfold add_line. set (cur := n_currency l). set (r := default zero_row (dict_get rows cur)).
  assert (Hro : row_of cur ls r).
  { unfold r. specialize (Hr cur). destruct (dict_get rows cur); [done|]. by apply zero_row_of. }
  destruct Hro as [R1 R2 R3 R4]. assert (Hin : in_currency cur l = true) by apply String.eqb_refl.
  rewrite (dlt_units e0) by (done || exact He). change (units e0 dzero) with 0%Z. cbn [rbind]. fold (line_units l).
  destruct (total_add (in_currency cur) ls l (w_net r) (n_amount l) _ R3 Hin Hx eq_refl Hf eq_refl) as (net & Hnet & N).
  assert (HA : exists x, (if (line_units l <? 0)%Z then Ok (w_assets r) else dadd default_ctx (w_assets r) (n_amount l)) = Ok x
     /\ is_total (part (fun l => in_currency cur l && (0 <=? line_units l)%Z) (ls ++ [l])) x).
  { destruct (Z.ltb_spec (line_units l) 0) as [E|E]; [eexists; split; [done|]; apply same_total; [done|]; rewrite Hin; cbn; lia|].
    by apply (total_add _ ls l _ _ _ R1); [rewrite Hin; cbn; lia|..]. }
  assert (HL : exists x, (if (line_units l <? 0)%Z then (let? owed := dneg default_ctx (n_amount l) in dadd default_ctx (w_liabilities r) owed) else Ok (w_liabilities r)) = Ok x
     /\ is_total (- part (fun l => in_currency cur l && (line_units l <? 0)%Z) (ls ++ [l])) x).
  { destruct (Z.ltb_spec (line_units l) 0) as [E|E]; [by apply owed_add; [done|rewrite Hin; cbn; lia|..]|]. eexists. split; [done|].
    rewrite part_snoc. replace (_ && _) with false by (rewrite Hin; cbn; lia). by rewrite Z.add_0_r. }
  assert (HP : exists x, (if provable l then dadd default_ctx (w_provable r) (n_amount l) else Ok (w_provable r)) = Ok x
     /\ is_total (part (fun l => in_currency cur l && provable l) (ls ++ [l])) x).
  { destruct (provable l) eqn:E; [by apply (total_add _ ls l _ _ _ R4); [rewrite Hin, E|..]|]. eexists. split; [done|].
    apply same_total; [done|]. by rewrite Hin, E. }
  destruct HA as (a & -> & A), HL as (o & -> & L), HP as (p & HP & P). cbn [rbind]. rewrite Hnet. cbn [rbind]. rewrite HP. cbn [rbind].
  eexists. split; [done|]. split; [auto|]. intros c. rewrite dict_get_setting. destruct (String.eqb_spec cur c) as [<-|Hn]; [by split|].
  assert (Hout : in_currency c l = false) by (by apply String.eqb_neq).
  specialize (Hr c). destruct (dict_get rows c); [|by rewrite existsb_app; cbn [existsb]; rewrite Hr, Hout].
  destruct Hr as [Q1 Q2 Q3 Q4]. split; rewrite part_snoc, ?Hout; cbn [andb]; by rewrite Z.add_0_r.
Qed.
Lemma by_currency_exact ls : Forall (fun l => on_scale e0 (n_amount l)) ls -> fits default_ctx (mags (List.map line_units ls)) ->
  exists rows, by_currency ls = Ok rows /\ rows_of ls rows.
Proof using Hs He.
  induction ls as [|l ls IH] using rev_ind; intros HF Hf; [exists []; split; [done|]; split; [apply NoDup_nil_2|done]|].
  apply Forall_app in HF as [HF Hl]. rewrite Forall_singleton in Hl. destruct (IH HF) as (rows & Hr & HR).
  { eapply fits_le; [exact Hf|]. rewrite List.map_app, mags_app. pose proof (mags_nonneg (List.map line_units ls)).
    pose proof (mags_nonneg (List.map line_units [l])). lia. }
  destruct (add_line_exact ls rows l HR Hl Hf) as (rows' & Ha & HR'). exists rows'. split; [|done].
  unfold by_currency in *. rewrite rfold_app, Hr. cbn [rbind rfold]. by rewrite Ha.
Qed.
End Rows.

(** * What later events leave of a day's measurements

    An event dated after a day adds no closing and no measurement at or before it, and only
    an opening changes what an account is; so the terms an account is valued by on that day
    are the same terms after it. *)
Definition closings_by (day : string) (st : account_state) : list (string * decimal * string * json) :=
  List.filter (fun c => negb (String.ltb day c.1.1.1)) (closings st).
(** What later events leave of an account, as far as a day sees it, and whether they open it. *)
Record still (day : string) (opened : bool) (st st' : account_state) : Prop := {
  sl_seen : seen st = true -> seen st' = true;
  sl_closings : closings_by day st' = closings_by day st;
  sl_same : opened = false -> kind st' = kind st /\ currency st' = currency st /\ origin st' = origin st
}.
Lemma still_refl day o st : still day o st st.
Proof. by split. Qed.
Lemma still_trans day o o' x y z : still day o x y -> still day o' y z -> still day (o || o') x z.
Proof.
  intros [A1 A2 A3] [B1 B2 B3]. split; [auto|congruence|]. intros [H1 H2]%orb_false_iff.
  destruct (A3 H1) as (? & ? & ?), (B3 H2) as (? & ? & ?). repeat split; congruence.
Qed.
(** What every account's entry keeps of the one before, event by event. *)
Definition grown (st st' : account_state) : Prop :=
  (seen st = true -> seen st' = true) /\ (seen st' = false -> closings st' = closings st).
Definition opens (e : Event) (a : string) : bool := py_eq_str (event_type e) "AccountOpened" && names e a.

Section Related.
Context (R : account_state -> account_state -> Prop) `{!Reflexive R} `{!Transitive R}.
Lemma related_set s b st a : (b = a -> R (state_of s a) st) -> R (state_of s a) (state_of (dict_set s b st) a).
Proof using Reflexive0. intros H. rewrite state_of_set. destruct (String.eqb_spec b a); [auto|reflexivity]. Qed.
Lemma related_legs a ps : (forall b x st st', post b x st = Ok st' -> R st st') ->
  forall s s', rfold post_leg ps s = Ok s' -> R (state_of s a) (state_of s' a).
Proof using All.
  intros Hp. induction ps as [|p ps IH]; cbn [rfold]; intros s s' H; run_ok; [reflexivity|]. unfold post_leg in E. run_ok.
  etrans; [|by eapply IH]. subst. apply related_set. intros ->. by eapply Hp.
Qed.
Lemma event_related s e s' at_ a : apply_account s e = Ok s' -> occurred_at e = JStr at_ ->
  (forall st st', open_account e at_ st = Ok st' -> opens e a = true -> R st st') ->
  (forall d p st, R st (observe_opening d at_ p st)) -> (forall d p h st, R st (observe_closing d at_ p h st)) ->
  (forall b x st st', post b x st = Ok st' -> R st st') -> (forall st, R st (mark_seen st)) -> R (state_of s a) (state_of s' a).
Proof using All.
  unfold apply_account. intros H Hat Hopen Ho Hc Hp Hm. rewrite Hat in H. cbn [text] in H. run_ok. rename a0 into et.
  destruct (String.eqb_spec et "AccountOpened") as [->|_].
  { run_ok. subst. apply related_set. intros ->. eapply Hopen; [done|].
    unfold opens, names. destruct (event_type e); cbn in E; try done. injection E as ->. cbn. rewrite E0. apply String.eqb_refl. }
  destruct (String.eqb et _); [run_ok; subst; apply related_set; intros ->; reflexivity|].
  destruct (String.eqb et _); [run_ok; subst; apply related_set; intros ->; apply Ho|].
  destruct (String.eqb et _); [run_ok; subst; apply related_set; intros ->; apply Hc|].
  destruct (String.eqb et _); [unfold observe_position in H; run_ok; subst; apply related_set; intros ->; apply Hm|].
  destruct (String.eqb et _); [unfold record_transaction in H; run_ok; by eapply related_legs|].
  run_ok. subst. reflexivity.
Qed.
End Related.

Lemma event_still day s e s' at_ a : apply_account s e = Ok s' -> occurred_at e = JStr at_ -> String.ltb day at_ = true ->
  still day (opens e a) (state_of s a) (state_of s' a).
Proof.
  intros H Hat Hlt. eapply event_related; [|..]; [by intros ?| |exact H|exact Hat|..].
  - intros x y z H1 H2. rewrite <- (orb_diag (opens e a)). by eapply still_trans.
  - unfold open_account. intros st st' Hop ->. run_ok. subst. by split.
  - by split.
  - intros. split; [done| |done]. unfold closings_by, observe_closing. cbn [closings]. rewrite List.filter_app. cbn [List.filter fst].
    rewrite Hlt. cbn [negb]. by rewrite app_nil_r.
  - unfold post. intros b x st st' Hp. run_ok. subst. by split.
  - by split.
Qed.
Lemma event_grown s e s' a : apply_account s e = Ok s' -> grown (state_of s a) (state_of s' a).
Proof.
  intros H. assert (Hat : exists at_, occurred_at e = JStr at_).
  { unfold apply_account in H. run_ok. destruct (occurred_at e); try done. by eexists. }
  destruct Hat as [at_ Hat]. eapply event_related; [|..]; [by intros ?| |exact H|exact Hat|..]; try by split.
  - intros x y z [A1 A2] [B1 B2]. split; [auto|]. intros Hz. rewrite (B2 Hz). apply A2. destruct (seen y); [by rewrite B1 in Hz|done].
  - unfold open_account. intros st st' Hop _. run_ok. subst. by split.
  - unfold post. intros b x st st' Hp. run_ok. subst. by split.
Qed.
Lemma event_keyed s e s' : keyed s -> apply_account s e = Ok s' -> keyed s'.
Proof.
  unfold apply_account. intros Hk H. run_ok. do 5 (destruct (String.eqb _ _) in H; [unfold observe_position in H; run_ok; subst; auto; apply dict_set_keyed; auto|]).
  destruct (String.eqb _ _) in H; [|run_ok; by subst]. unfold record_transaction in H. run_ok.
  eapply (rfold_inv post_leg keyed); [|exact Hk|exact H]. unfold post_leg. intros x b x' Hx Hb. run_ok. subst. auto.
Qed.

(** ** Measurements *)
Lemma listed_append day cash i ob m : String.ltb day (ob_as_of ob) = true -> day <> "" ->
  List.filter (eligible_row day cash) (List.flat_map (fun p : string * list observation => List.map (fun ob => (p.1, ob)) p.2)
      (dict_set m i (default [] (dict_get m i) ++ [ob]))) = List.filter (eligible_row day cash) (List.flat_map (fun p => List.map (fun ob => (p.1, ob)) p.2) m).
Proof.
  intros Hd Hn. assert (Hout : eligible_row day cash (i, ob) = false).
  { unfold eligible_row. cbn [snd]. apply String.eqb_neq in Hn. rewrite Hn, Hd. cbn. by rewrite andb_false_r. }
  induction m as [|[j l] m IH]; cbn [dict_set dict_get].
  - cbn [default app List.flat_map List.map fst snd List.filter]. by rewrite Hout.
  - destruct (String.eqb_spec i j) as [<-|Hj].
    + cbn [default List.flat_map fst snd]. rewrite List.map_app, !List.filter_app. cbn [List.map List.filter]. by rewrite Hout, app_nil_r.
    + cbn [List.flat_map fst snd]. rewrite !List.filter_app. f_equal. exact IH.
Qed.

(** ** A replayed holder *)
Section Curve.
Context `{case_map : CaseMap}.
Definition rows_on (v : holder) (a day : string) (cash : bool) : list (string * observation) :=
  eligible_rows (measured_of v a) day cash.
(** Nothing is measured of an account no event has made known. *)
Record tidy (v : holder) : Prop := {
  td_keyed : keyed (v_accounts v);
  td_unseen a : seen (state_of (v_accounts v) a) = false -> closings (state_of (v_accounts v) a) = [] /\ measured_of v a = unmeasured
}.
Lemma new_holder_tidy as_of : tidy (new_holder as_of).
Proof. split; [apply NoDup_nil_2|by split]. Qed.
Lemma apply_holder_inv v e v' : apply_holder v e = Ok v' -> v' = v \/
  (exists at_, occurred_at e = JStr at_ /\ apply_account (v_accounts v) e = Ok (v_accounts v') /\ v_as_of v' = v_as_of v /\
    (v_measured v' = v_measured v \/ exists b i ob, ob_as_of ob = at_ /\ seen (state_of (v_accounts v') b) = true /\
       v_measured v' = dict_set (v_measured v) b (measure i at_ ob (measured_of v b)))).
Proof using Type.
  unfold apply_holder. intros H. run_ok. destruct (match v_as_of v with Some _ => _ | None => _ end); [run_ok; by left|]. run_ok. right.
  exists a. split; [by destruct (occurred_at e); cbn in E; congruence|]. destruct (String.eqb_spec a1 "PositionObserved") as [->|_].
  - run_ok. subst. split; [done|]. split; [done|]. right. cbn [v_measured v_accounts]. exists a1, a2, a3. split.
    + unfold read_observation in *. run_ok. by subst.
    + split; [|done]. unfold apply_account in E0. rewrite E1 in E0. run_ok. cbn in E0. unfold observe_position in E0. run_ok. subst.
      rewrite state_of_set.
      match goal with |- seen (if String.eqb ?x ?y then _ else _) = true => destruct (String.eqb_spec x y); [done|congruence] end.
  - run_ok. subst. split; [done|]. split; [done|]. by left.
Qed.
Lemma holder_tidy v e v' : tidy v -> apply_holder v e = Ok v' -> tidy v'.
Proof using Type.
  intros [K U] [->|(at_ & Hat & Ha & Hd & Hm)]%apply_holder_inv; [by split|]. split; [by eapply event_keyed|].
  intros a Hs. destruct (event_grown _ _ _ a Ha) as [G1 G2].
  assert (Hsa : seen (state_of (v_accounts v) a) = false) by (destruct (seen (state_of (v_accounts v) a)); [by rewrite G1 in Hs|done]).
  destruct (U a Hsa) as [U1 U2]. split; [by rewrite G2|]. unfold measured_of in *. destruct Hm as [->|(b & i & ob & _ & Hb & ->)]; [done|].
  rewrite dict_get_setting. destruct (String.eqb_spec b a) as [->|_]; [congruence|done].
Qed.
(** A later event leaves what a day reads of every account. *)
Record same_day (day : string) (opened : bool) (v v' : holder) (a : string) : Prop := {
  sd_still : still day opened (state_of (v_accounts v) a) (state_of (v_accounts v') a);
  sd_rows cash : rows_on v' a day cash = rows_on v a day cash
}.
Lemma holder_same_day day v e v' a : apply_holder v e = Ok v' -> day <> "" ->
  (forall at_, occurred_at e = JStr at_ -> String.ltb day at_ = true) -> same_day day (opens e a) v v' a.
Proof using Type.
  intros [->|(at_ & Hat & Ha & Hd & Hm)]%apply_holder_inv Hn Hl; [by split|]. pose proof (Hl at_ Hat) as Hlt.
  split; [by eapply event_still|]. intros cash. unfold rows_on, eligible_rows, measured_of.
  destruct Hm as [->|(b & i & ob & Hob & _ & ->)]; [done|]. rewrite dict_get_setting. destruct (String.eqb_spec b a) as [->|_]; [|done].
  cbn [default id]. apply listed_append; [by rewrite Hob|done].
Qed.
Definition dated_after (day : string) (e : Event) : Prop := forall at_, occurred_at e = JStr at_ -> String.ltb day at_ = true.
Lemma holders_same_day day a es : day <> "" -> Forall (dated_after day) es -> forall v v', rfold apply_holder es v = Ok v' ->
  same_day day (existsb (fun e => opens e a) es) v v' a.
Proof using Type.
  intros Hn. induction 1 as [|e es He _ IH]; cbn [rfold existsb]; intros v v' H; run_ok; [by subst; split|].
  destruct (holder_same_day day v e _ a E Hn He) as [S1 R1], (IH _ _ H) as [S2 R2]. split; [by eapply still_trans|].
  intros cash. by rewrite R2, R1.
Qed.

(** ** Terms of a day *)
Lemma pick_by day l : forall b, List.fold_left (pick_closing day) l b
  = List.fold_left (pick_closing day) (List.filter (fun c => negb (String.ltb day c.1.1.1)) l) b.
Proof using Type.
  induction l as [|c l IH]; intros b; cbn [List.fold_left List.filter]; [done|]. rewrite IH. destruct (String.ltb day c.1.1.1) eqn:E; cbn [negb]; [|done].
  unfold pick_closing at 2. by rewrite E.
Qed.
Lemma cash_same day o v v' a st st' : day <> "" -> still day o st st' -> o = false -> cash_term v' st' a day = cash_term v st a day.
Proof using Type.
  intros Hn%String.eqb_neq [_ C S] Ho. destruct (S Ho) as (_ & HC & _). unfold cash_term. rewrite HC, Hn, pick_by, (pick_by _ (closings st)).
  unfold closings_by in C. by rewrite C.
Qed.
Lemma snapshot_rows m m' day cash : eligible_rows m' day cash = eligible_rows m day cash ->
  snapshot_positions m' day cash = snapshot_positions m day cash.
Proof using Type. unfold snapshot_positions, eligible_rows. by intros ->. Qed.
Lemma seen_state_spec v a st : seen_state v a = Ok st <-> st = state_of (v_accounts v) a /\ seen st = true.
Proof using Type.
  unfold seen_state, state_of. destruct (dict_get (v_accounts v) a) as [x|]; cbn [default id].
  - destruct (seen x) eqn:E; split; [intros [= ->]|intros [-> _]|done|intros [-> ?]; congruence]; done.
  - split; [done|]. by intros [-> ?].
Qed.

(** ** The lines of a point, account by account *)
Definition lines_at (v : holder) (inactive : list string) (day a : string) : list NetWorthLine :=
  match add_account v inactive (mkPoint day [] []) a with Ok p => p_lines p | Raise _ => [] end.
Lemma add_account_lines v inactive p a p' : add_account v inactive p a = Ok p' ->
  p_as_of p' = p_as_of p /\ p_lines p' = p_lines p ++ lines_at v inactive (p_as_of p) a
  /\ is_ok (add_account v inactive (mkPoint (p_as_of p) [] []) a) = true.
Proof using Type.
  unfold lines_at, add_account. cbn [p_as_of p_lines p_skipped].
  destruct (in_words a inactive); [intros [= <-]; by rewrite app_nil_r|]. intros H. run_ok. rewrite E. cbn [rbind]. rewrite E0. cbn [rbind].
  destruct (negb _); [run_ok; subst; by rewrite app_nil_r|]. run_ok. rewrite E1. cbn [rbind].
  destruct a2; run_ok; subst; [by rewrite app_nil_r|]. rewrite E2. done.
Qed.
Lemma points_lines v inactive day l : forall p p', p_as_of p = day -> rfold (add_account v inactive) l p = Ok p' ->
  p_lines p' = p_lines p ++ List.flat_map (lines_at v inactive day) l /\ Forall (fun a => is_ok (add_account v inactive (mkPoint day [] []) a) = true) l.
Proof using Type.
  induction l as [|a l IH]; cbn [rfold List.flat_map]; intros p p' Hp H; run_ok; [subst; by rewrite app_nil_r|].
  apply add_account_lines in E as (E1 & E2 & E3). rewrite Hp in *. destruct (IH _ _ E1 H) as [-> HF]. rewrite E2, <- app_assoc. split; [done|]. by constructor.
Qed.
Lemma points_total v inactive day l : Forall (fun a => is_ok (add_account v inactive (mkPoint day [] []) a) = true) l -> forall p, p_as_of p = day ->
  exists p', rfold (add_account v inactive) l p = Ok p'.
Proof using Type.
  induction 1 as [|a l Ha _ IH]; cbn [rfold]; intros p Hp; [by eexists|].
  assert (E : exists p', add_account v inactive p a = Ok p').
  { revert Ha. unfold add_account. cbn [p_as_of p_lines p_skipped]. rewrite Hp. destruct (in_words a inactive); [by eexists|].
    destruct (seen_state v a); [cbn [rbind]|done]. destruct (text _); [cbn [rbind]|done]. destruct (negb _); [by eexists|].
    destruct (composed_values v a day) as [[|c cs]|]; [by eexists|cbn [rbind]|done]. destruct (rmap _ _); [by eexists|done]. }
  destruct E as [p' E]. rewrite E. apply IH. apply add_account_lines in E as (-> & _). done.
Qed.
Lemma seen_accounts_elem v a : keyed (v_accounts v) -> a ∈ seen_accounts v <-> seen (state_of (v_accounts v) a) = true.
Proof using Type.
  intros Hk. unfold seen_accounts. rewrite sorted_set_elem, list_elem_of_In, in_map_iff. unfold state_of. split.
  - intros ([b st] & <- & [H1 H2]%List.filter_In). cbn [fst snd] in *. rewrite (elem_dict_get _ b st); [done..|]. by apply list_elem_of_In.
  - destruct (dict_get (v_accounts v) a) as [st|] eqn:E; cbn [default id]; [|done]. intros Hs. exists (a, st).
    split; [done|]. apply List.filter_In. split; [|done]. by apply list_elem_of_In, dict_get_elem.
Qed.
(** A later account adds nothing at its end; the accounts before keep their order. *)
Lemma flat_map_sub {A} (f g : string -> list A) l l' : StronglySorted word_lt l -> StronglySorted word_lt l' ->
  (forall a, a ∈ l -> a ∈ l') -> (forall a, a ∈ l -> f a = g a) -> (forall a, a ∈ l' -> a ∉ l -> f a = []) -> List.flat_map f l' = List.flat_map g l.
Proof using Type.
  intros Hl Hl' Hsub Hfg Hnew. assert (E : List.filter (fun a => in_words a l) l' = l).
  { apply sorted_unique; [|done|].
    - clear -Hl'. induction Hl' as [|x l' _ IH Hx]; cbn [List.filter]; [constructor|]. destruct (in_words x l); [|done]. constructor; [done|].
      rewrite Forall_forall in *. intros y Hy. apply Hx. apply list_elem_of_In, List.filter_In in Hy as [Hy _]. by apply list_elem_of_In.
    - intros x. rewrite list_elem_of_In, List.filter_In, <- list_elem_of_In, in_words_spec. split; [by intros []|auto]. }
  assert (E2 : List.flat_map g l = List.flat_map f l).
  { clear -Hfg. induction l as [|a l IH]; cbn [List.flat_map]; [done|]. rewrite IH by (intros b Hb; apply Hfg; by right). by rewrite Hfg by left. }
  rewrite E2. clear -E Hnew. trans (List.flat_map f (List.filter (fun a => in_words a l) l')); [clear E|by rewrite E]. induction l' as [|a l' IH]; cbn [List.filter List.flat_map]; [done|].
  rewrite IH by (intros b Hb; apply Hnew; by right). destruct (in_words a l) eqn:Ea; cbn [List.flat_map]; [done|].
  rewrite Hnew; [done|left|]. intros H%in_words_spec. congruence.
Qed.

(** ** What later events leave of a point *)
Section Later.
Context (day : string) (Hday : day <> "").
Lemma composed_same v v' a : same_day day false v v' a -> seen (state_of (v_accounts v) a) = true ->
  composed_values v' a day = composed_values v a day.
Proof using Hday.
  intros [S R] Hs. unfold composed_values. replace (terms_of v' a day) with (terms_of v a day); [done|]. unfold terms_of.
  pose proof (sl_seen _ _ _ _ S Hs) as Hs'. destruct (sl_same _ _ _ _ S eq_refl) as (_ & HC & _).
  rewrite (proj2 (seen_state_spec v a _) (conj eq_refl Hs)), (proj2 (seen_state_spec v' a _) (conj eq_refl Hs')). cbn [rbind].
  rewrite (cash_same day false v v' a _ _ Hday S eq_refl), HC. by rewrite !(snapshot_rows (measured_of v a) (measured_of v' a)) by apply R.
Qed.
Lemma point_same v v' inactive a : same_day day false v v' a -> seen (state_of (v_accounts v) a) = true ->
  lines_at v' inactive day a = lines_at v inactive day a
  /\ is_ok (add_account v' inactive (mkPoint day [] []) a) = is_ok (add_account v inactive (mkPoint day [] []) a).
Proof using Hday.
  intros S Hs. unfold lines_at, add_account. cbn [p_as_of p_lines p_skipped]. destruct (in_words a inactive); [done|].
  pose proof (sl_seen _ _ _ _ (sd_still _ _ _ _ _ S) Hs) as Hs'. destruct (sl_same _ _ _ _ (sd_still _ _ _ _ _ S) eq_refl) as (HK & _ & HO).
  rewrite (proj2 (seen_state_spec v a _) (conj eq_refl Hs)), (proj2 (seen_state_spec v' a _) (conj eq_refl Hs')). cbn [rbind].
  rewrite HK, (composed_same v v' a S Hs). destruct (text _) as [k|]; cbn [rbind]; [|done]. destruct (negb _); [done|].
  destruct (composed_values v a day) as [[|c cs]|]; cbn [rbind]; [done| |done].
  assert (E : forall l, rmap (net_line (state_of (v_accounts v') a) k) l = rmap (net_line (state_of (v_accounts v) a) k) l).
  { intros l. induction l as [|x l IH]; [done|]. cbn [rmap]. rewrite IH. unfold net_line. by rewrite HO. }
  rewrite E. by destruct (rmap _ _).
Qed.
(** An account nothing was measured of on the day adds no line. *)
Lemma unmeasured_no_line o v v' inactive a : tidy v -> same_day day o v v' a -> seen (state_of (v_accounts v) a) = false ->
  lines_at v' inactive day a = [].
Proof using Hday.
  intros [_ U] [S R] Hs. destruct (U a Hs) as [U1 U2]. unfold lines_at, add_account. cbn [p_as_of p_lines p_skipped].
  destruct (in_words a inactive); [done|]. destruct (seen_state v' a) as [st|] eqn:E; cbn [rbind]; [|done].
  apply seen_state_spec in E as [-> E]. destruct (text _); cbn [rbind]; [|done]. destruct (negb _); [done|].
  assert (Hc : composed_values v' a day = Ok [] \/ is_ok (composed_values v' a day) = false).
  { unfold composed_values, terms_of. rewrite (proj2 (seen_state_spec v' a _) (conj eq_refl E)). cbn [rbind].
    unfold cash_term. rewrite (proj2 (String.eqb_neq _ _) Hday), pick_by. pose proof (sl_closings _ _ _ _ S) as C. unfold closings_by in C.
    rewrite C, U1. cbn [List.filter List.fold_left]. destruct (text (currency _)); cbn [rbind]; [|by right]. left.
    rewrite !(snapshot_rows unmeasured (measured_of v' a)); [done|..].
    - pose proof (R false) as Hr. unfold rows_on in Hr. by rewrite U2 in Hr.
    - pose proof (R true) as Hr. unfold rows_on in Hr. by rewrite U2 in Hr. }
  destruct Hc as [->|Hc]; [done|]. by destruct (composed_values v' a day).
Qed.
Lemma point_stable v v' inactive p' : tidy v -> tidy v' ->
  (forall a, exists o, same_day day o v v' a /\ (seen (state_of (v_accounts v) a) = true -> o = false)) ->
  measured_point v' inactive day = Ok p' -> exists p, measured_point v inactive day = Ok p /\ p_lines p' = p_lines p.
Proof using Hday.
  intros T T' HS H. unfold measured_point in *. rewrite (proj2 (String.eqb_neq _ _) Hday) in *.
  apply (points_lines v' inactive day) in H as [HL HF]; [|done]. rewrite HL. cbn [p_lines app]. pose proof (td_keyed v T) as K. pose proof (td_keyed v' T') as K'.
  assert (Hin : forall a, a ∈ seen_accounts v -> same_day day false v v' a /\ seen (state_of (v_accounts v) a) = true).
  { intros a Ha%seen_accounts_elem; [|done]. destruct (HS a) as (o & S & Ho). by rewrite (Ho Ha) in S. }
  assert (Hsub : forall a, a ∈ seen_accounts v -> a ∈ seen_accounts v').
  { intros a [S Ha]%Hin. apply seen_accounts_elem; [done|]. by apply (sl_seen _ _ _ _ (sd_still _ _ _ _ _ S)). }
  destruct (points_total v inactive day (seen_accounts v)) with (p := mkPoint day [] []) as [p Hp]; [|done|].
  { rewrite Forall_forall in *. intros a Ha. destruct (Hin a Ha) as [S Hs]. destruct (point_same v v' inactive a S Hs) as [_ <-]. auto. }
  exists p. split; [done|]. apply (points_lines v inactive day) in Hp as [-> _]; [|done]. cbn [p_lines app].
  apply flat_map_sub; [apply sorted_set_sorted..|done| |].
  - intros a [S Hs]%Hin. by apply point_same.
  - intros a _ Ha. destruct (HS a) as (o & S & _). apply (unmeasured_no_line o v v'); [done..|]. rewrite seen_accounts_elem in Ha by done.
    by destruct (seen (state_of (v_accounts v) a)).
Qed.
End Later.

(** ** The last closing, and the days a value rests on *)
Lemma pick_latest day l : latest (fun c : string * decimal * string * json => c.1.1.1) (List.filter (fun c => negb (String.ltb day c.1.1.1)) l)
  (List.fold_left (pick_closing day) l None).
Proof using Type.
  induction l as [|c l IH] using rev_ind; [done|]. rewrite List.fold_left_app, List.filter_app. cbn [List.fold_left List.filter].
  unfold pick_closing at 1. destruct (String.ltb day c.1.1.1); cbn [negb]; [by rewrite app_nil_r|].
  pose proof (latest_snoc _ _ _ c IH) as H. destruct (List.fold_left _ l None); [|done]. by destruct (String.ltb _ _).
Qed.
Definition by_day (day d : string) : Prop := ~ word_lt day d.
Lemma snapshot_by_day m day cash : day <> "" -> Forall (fun p => by_day day (ob_as_of p.2)) (snapshot_positions m day cash).
Proof using Type.
  intros Hd. pose proof (snapshot_one m day cash) as [K H _ _]. apply Forall_forall. intros [i ob] Hi. apply elem_dict_get in Hi; [|done].
  apply H, list_elem_of_In, List.filter_In in Hi as [_ Hi]. unfold eligible_row in Hi. cbn [snd] in *. apply String.eqb_neq in Hd. rewrite Hd in Hi.
  apply ltb_word_not. by destruct (String.ltb day (ob_as_of ob)), (ob_as_of ob =? "").
Qed.
Lemma terms_by_day v a day ts : day <> "" -> terms_of v a day = Ok ts -> Forall (fun t => by_day day (t_date t)) ts.
Proof using Type.
  intros Hd H. unfold terms_of in H. run_ok. subst. apply Forall_app. split.
  - unfold cash_term in *. run_ok. apply String.eqb_neq in Hd. rewrite Hd in *. pose proof (pick_latest day (closings a0)) as HL.
    destruct (List.fold_left _ _ _) as [[[[date amount] grade] doc]|]; [|run_ok; by subst]. run_ok. subst. constructor; [|constructor]. cbn [t_date].
    destruct HL as (l1 & l2 & EL & _). assert (Hin : In (date, amount, grade, doc) (l1 ++ (date, amount, grade, doc) :: l2)) by (apply in_app_iff; right; by left).
    rewrite <- EL in Hin. apply List.filter_In in Hin as [_ Hin]. apply ltb_word_not. cbn [fst] in Hin. by destruct (String.ltb day date).
  - apply Forall_forall. intros t Ht. apply list_elem_of_In, in_map_iff in Ht as (p & <- & Hp). apply list_elem_of_In, elem_of_app in Hp.
    pose proof (fun cash => proj1 (Forall_forall _ _) (snapshot_by_day (measured_of v a) day cash Hd) p) as HS. by destruct Hp as [Hp|Hp]; apply HS in Hp.
Qed.
Lemma composed_by_day v a day cvs : day <> "" -> composed_values v a day = Ok cvs ->
  Forall (fun c => cv_account c = a /\ Forall (by_day day) (cv_dates c)) cvs.
Proof using Type.
  intros Hd H. unfold composed_values in H. run_ok. subst. apply terms_by_day in E; [|done].
  assert (HI : forall cur g, (cur, g) ∈ a1 -> Forall (by_day day) (gr_dates g)).
  { clear - E E0. revert E0. assert (H0 : forall cur g, (cur, g) ∈ ([] : list (string * group)) -> Forall (by_day day) (gr_dates g)) by (intros cur g []%elem_of_nil).
    revert H0. generalize (@nil (string * group)) as gs. induction E as [|t ts Ht _ IH]; cbn [rfold]; intros gs H0 H; run_ok; [by apply (H0 cur)|].
    apply (IH a); [|done]. unfold add_term in E. run_ok. subst.
    match goal with Hin : _ ∈ dict_set _ _ _ |- _ => apply dict_set_elem in Hin as [[-> ->]|Hin]; [|by apply (H0 cur)] end.
    cbn [gr_dates]. apply Forall_app. split; [|destruct (_ =? _); by repeat constructor].
    destruct (dict_get gs (t_currency t)) eqn:Eg; [|constructor]. apply dict_get_elem in Eg. by apply (H0 (t_currency t)). }
  apply Forall_forall. intros c Hc. apply list_elem_of_In, in_map_iff in Hc as ([cur g] & <- & Hc). split; [done|].
  apply list_elem_of_In, sorted_items_elem, dict_get_elem in Hc. cbn [composed cv_dates fst snd]. pose proof (HI cur g Hc) as HF.
  rewrite Forall_forall in *. intros d Hin. rewrite !sorted_set_elem in Hin. auto.
Qed.

(** ** Every account of a point *)
Record counted (v : holder) (inactive : list string) (a : string) (st : account_state) (k : string) : Prop := {
  ct_active : in_words a inactive = false;
  ct_seen : seen_state v a = Ok st;
  ct_kind : kind st = JStr k /\ k ∈ NET_WORTH_KINDS
}.
Record accounted (v : holder) (inactive : list string) (day : string) (l : list string) (p : NetWorthPoint) : Prop := {
  ac_lines n : n ∈ p_lines p -> exists st k cvs c, n_account n ∈ l /\ counted v inactive (n_account n) st k
    /\ composed_values v (n_account n) day = Ok cvs /\ c ∈ cvs /\ net_line st k c = Ok n;
  ac_skipped s : s ∈ p_skipped p -> exists st k, sk_account s ∈ l /\ counted v inactive (sk_account s) st k
    /\ composed_values v (sk_account s) day = Ok [] /\ s = mkSkipped (sk_account s) k (first_after day st);
  ac_all a st k : a ∈ l -> counted v inactive a st k -> exists cvs, composed_values v a day = Ok cvs
    /\ (cvs = [] -> mkSkipped a k (first_after day st) ∈ p_skipped p) /\ forall c, c ∈ cvs -> exists n, n ∈ p_lines p /\ net_line st k c = Ok n
}.
(** What one more account adds. *)
Lemma accounted_snoc v inactive day l p a p' : accounted v inactive day l p ->
  (forall n, n ∈ p_lines p' -> n ∈ p_lines p \/ exists st k cvs c, n_account n = a /\ counted v inactive a st k
     /\ composed_values v a day = Ok cvs /\ c ∈ cvs /\ net_line st k c = Ok n) ->
  (forall s, s ∈ p_skipped p' -> s ∈ p_skipped p \/ exists st k, s = mkSkipped a k (first_after day st) /\ counted v inactive a st k
     /\ composed_values v a day = Ok []) ->
  (forall n, n ∈ p_lines p -> n ∈ p_lines p') -> (forall s, s ∈ p_skipped p -> s ∈ p_skipped p') ->
  (forall st k, counted v inactive a st k -> exists cvs, composed_values v a day = Ok cvs
     /\ (cvs = [] -> mkSkipped a k (first_after day st) ∈ p_skipped p') /\ forall c, c ∈ cvs -> exists n, n ∈ p_lines p' /\ net_line st k c = Ok n) ->
  accounted v inactive day (l ++ [a]) p'.
Proof using Type.
  intros [A1 A2 A3] B1 B2 B3 B4 B5. split.
  - intros n [Hn|(st & k & cvs & c & E & HC & H1 & H2 & H3)]%B1.
    + destruct (A1 n Hn) as (st & k & cvs & c & Hin & R). exists st, k, cvs, c. split; [apply elem_of_app; by left|done].
    + exists st, k, cvs, c. rewrite E. split; [apply elem_of_app; right; left|done].
  - intros s [Hn|(st & k & -> & HC & H1)]%B2.
    + destruct (A2 s Hn) as (st & k & Hin & R). exists st, k. split; [apply elem_of_app; by left|done].
    + exists st, k. cbn [sk_account]. split; [apply elem_of_app; right; left|done].
  - intros b st k [Hb|Hb]%elem_of_app HC; [|apply list_elem_of_singleton in Hb as ->; by apply B5].
    destruct (A3 b st k Hb HC) as (cvs & E & R1 & R2). exists cvs. split; [done|]. split; [auto|].
    intros c Hc. destruct (R2 c Hc) as (n & ? & ?). exists n. auto.
Qed.
Lemma accounted_add v inactive day l p a p' : day <> "" -> p_as_of p = day -> accounted v inactive day l p -> add_account v inactive p a = Ok p' ->
  accounted v inactive day (l ++ [a]) p'.
Proof using Type.
  intros Hd Hp HA0 H. destruct p as [d ls sk]. cbn [p_as_of] in Hp. subst d. unfold add_account in H. cbn [p_as_of p_lines p_skipped] in H.
  destruct (in_words a inactive) eqn:Ea.
  { run_ok. subst. apply (accounted_snoc v inactive day l (mkPoint day ls sk)); auto. intros st k [? _ _]. congruence. }
  run_ok. assert (HK : kind a0 = JStr a1) by (destruct (kind a0); cbn in E0; congruence).
  assert (HC : forall st k, counted v inactive a st k -> st = a0 /\ k = a1) by (intros st k [_ ? [? _]]; split; congruence).
  destruct (negb _) eqn:Ek.
  { run_ok. subst. apply (accounted_snoc v inactive day l (mkPoint day ls sk)); auto. intros st k Hc. destruct (HC st k Hc) as [-> ->]. apply ct_kind in Hc as [_ Hc]. apply in_words_spec in Hc. by rewrite Hc in Ek. }
  assert (Hct : counted v inactive a a0 a1) by (split; [done..|split; [done|]; apply in_words_spec; by destruct (in_words a1 NET_WORTH_KINDS)]).
  run_ok. pose proof (composed_by_day v a day a2 Hd E1) as HA. destruct a2 as [|c0 cs].
  - run_ok. subst. apply (accounted_snoc v inactive day l (mkPoint day ls sk)); cbn [p_lines p_skipped]; auto.
    + intros s [Hs| ->%list_elem_of_singleton]%elem_of_app; [by left|right; by exists a0, a1].
    + intros s Hs. apply elem_of_app. by left.
    + intros st k Hc. destruct (HC st k Hc) as [-> ->]. exists []. split; [done|]. split; [intros _; apply elem_of_app; right; left|]. intros c []%elem_of_nil.
  - run_ok. subst. apply rmap_ok in E2. apply (accounted_snoc v inactive day l (mkPoint day ls sk)); cbn [p_lines p_skipped]; auto.
    + intros n [Hn|Hn]%elem_of_app; [by left|right]. apply list_elem_of_lookup in Hn as (i & Hn). destruct (Forall2_lookup_r _ _ _ _ _ E2 Hn) as (c & Hc & Hnl).
      apply list_elem_of_lookup_2 in Hc. exists a0, a1, (c0 :: cs), c. split; [|done]. unfold net_line in Hnl. run_ok. subst. cbn [n_account].
      rewrite Forall_forall in HA. by destruct (HA c Hc).
    + intros n Hn. apply elem_of_app. by left.
    + intros st k Hc. destruct (HC st k Hc) as [-> ->]. exists (c0 :: cs). split; [done|]. split; [done|]. intros c Hin.
      apply list_elem_of_lookup in Hin as (i & Hin). destruct (Forall2_lookup_l _ _ _ _ _ E2 Hin) as (n & Hn & Hnl). exists n. split; [|done].
      apply elem_of_app. right. by eapply list_elem_of_lookup_2.
Qed.
Lemma point_accounted v inactive day p : day <> "" -> measured_point v inactive day = Ok p -> accounted v inactive day (seen_accounts v) p.
Proof using Type.
  intros Hd H. unfold measured_point in H. rewrite (proj2 (String.eqb_neq _ _) Hd) in H.
  assert (G : forall l l0 p0 p', p_as_of p0 = day -> accounted v inactive day l0 p0 -> rfold (add_account v inactive) l p0 = Ok p' -> accounted v inactive day (l0 ++ l) p').
  { induction l as [|a l IH]; cbn [rfold]; intros l0 p0 p' Hp HA Hr; run_ok; [subst; by rewrite app_nil_r|].
    change (a :: l) with ([a] ++ l). rewrite app_assoc. eapply IH; [|by eapply accounted_add|done]. apply add_account_lines in E as (-> & _). done. }
  apply (G _ [] (mkPoint day [] [])); [done| |done]. split; cbn [p_lines p_skipped].
  - intros n []%elem_of_nil.
  - intros s []%elem_of_nil.
  - intros a st k []%elem_of_nil.
Qed.
End Curve.
