(* ===== verification/HoldingsProperties.v ===== *)
(** * HoldingsProperties: what an account is worth, and a curve that does not move

    The guarantees of projection/positions.py and of the measured part of networth.py: a
    snapshot is one statement; a composed value is the exact sum of its terms in each
    currency, dated by the oldest and graded by the weakest; the subtotals of a point add up;
    and later events that correct no reading leave the lines of an earlier point. *)
From Stdlib Require Import ZArith NArith Ascii String Lia ZifyBool ZifyN ZifyNat Sorting.
From stdpp Require Import base list numbers strings sorting.
From S2P Require Import Prelude Text Words Json Unicode Decimals Floats Arithmetic Events EventTypes Postings Dictionaries Accounts Registry Visibility BalanceLaws Holdings HoldingsLaws.
#[local] Open Scope string_scope.
#[local] Open Scope list_scope.

(** ** Terms *)
Definition closing_term (cur : string) (c : string * decimal * string * json) : term :=
  mkTerm c.1.1.2 cur c.1.1.1 c.1.2 (match c.2 with JStr d => d | _ => "" end).

(** C19: an account is valued on a day by the last measurements made of it by then.  Its cash
    is the latest closing said of a day at or before it, the later said where two are of one
    day; its cash rows and its holdings each are one statement, the newest that measured
    any of the kind: each instrument once, and every instrument that statement lists. *)
Theorem terms_are_the_last_measured v a day st ts : day <> "" -> seen_state v a = Ok st -> terms_of v a day = Ok ts ->
  exists cur o cash holds, currency st = JStr cur
    /\ latest (fun c : string * decimal * string * json => c.1.1.1) (closings_by day st) o
    /\ one_statement (measured_of v a) day true cash /\ one_statement (measured_of v a) day false holds
    /\ ts = match o with Some c => [closing_term cur c] | None => [] end ++ List.map (fun p => position_term cur p.2) (cash ++ holds).
Proof.
  intros Hd Hs H. unfold terms_of in H. rewrite Hs in H. cbn [rbind] in H. run_ok. subst.
  match goal with Hc : text (currency st) = Ok ?x |- _ => exists x; assert (currency st = JStr x) by (destruct (currency st); cbn in Hc; congruence) end.
  exists (List.fold_left (pick_closing day) (closings st) None), (snapshot_positions (measured_of v a) day true), (snapshot_positions (measured_of v a) day false).
  split; [done|]. split; [apply pick_latest|]. split; [apply snapshot_one|]. split; [apply snapshot_one|]. f_equal.
  unfold cash_term in *. apply String.eqb_neq in Hd. rewrite Hd in *. run_ok.
  destruct (List.fold_left _ _ _) as [[[[date amount] grade] doc]|]; run_ok; subst; [|done]. unfold closing_term. cbn [fst snd].
  destruct doc; cbn in *; try done. congruence.
Qed.

(** ** The curve *)
Section Curve.
Context `{case_map : CaseMap}.
Lemma replayed_tidy l v v' : tidy v -> rfold apply_holder l v = Ok v' -> tidy v'.
Proof using Type. intros T. apply (rfold_inv apply_holder tidy); [|done]. intros x e x'. apply holder_tidy. Qed.

Context `{payloads : Payloads} (receipt_holds : observations -> list Event -> Event -> res bool).
(** The holdings of a log, superseded interpretations left out. *)
Definition holder_of_log (as_of : option string) (es : list Event) : res holder := replay receipt_holds apply_holder (new_holder as_of) es.
Lemma holder_ignores v e v' : is_known_allocation e = true -> apply_holder v e = Ok v' -> v' = v.
Proof using Type.
  unfold is_known_allocation, apply_holder, apply_account. intros Hk H. apply rbind_ok in H as (t & Ht & H).
  destruct (event_type e) as [| | | |et| |]; try done. apply String.eqb_eq in Hk as ->. rewrite Ht in H. cbn in H.
  destruct (match v_as_of v with Some d => String.ltb d t | None => false end); injection H as <-; by destruct v.
Qed.

(** C18: an earlier point of the curve does not change when a later event arrives.  Over any
    log, later events dated after a day that record no instrument observation (a correction
    retires the figures of the reading before, at whatever day they stood) and open no
    account known by then leave the lines of the measured point of that day exactly as they
    were. *)
Theorem curve_is_stable l1 l2 as_of v v' inactive day p' :
  holder_of_log as_of l1 = Ok v -> holder_of_log as_of (l1 ++ l2) = Ok v' ->
  day <> "" -> Forall (dated_after day) l2 -> forallb (fun e => negb (is_observation e)) l2 = true ->
  (forall e a, e ∈ l2 -> opens e a = true -> seen (state_of (v_accounts v) a) = false) ->
  measured_point v' inactive day = Ok p' ->
  exists p, measured_point v inactive day = Ok p /\ p_lines p' = p_lines p.
Proof using Type.
  intros H1 H2 Hday Hl Hn Ho Hp. destruct (replay_later receipt_holds apply_holder (new_holder as_of) l1 l2 v v' holder_ignores Hn H1 H2) as (l & Hsub & H3).
  apply replay_visible in H1 as (v0 & _ & H1). assert (T : tidy v) by (eapply replayed_tidy; [apply new_holder_tidy|exact H1]).
  eapply point_stable; [done|exact T|by eapply replayed_tidy| |exact Hp]. intros a.
  exists (existsb (fun e => opens e a) l). split; [apply holders_same_day; [done|by eapply sublist_Forall|done]|]. intros Hs.
  destruct (existsb _ l) eqn:E; [|done]. apply existsb_exists in E as (e & He & E). rewrite (Ho e a) in Hs; [done| |done].
  eapply (elem_of_submseteq _ _ _), sublist_submseteq; [by apply list_elem_of_In|exact Hsub].
Qed.
End Curve.

(** ** Values *)

(** The figure one currency's terms compose to. *)
Record composes (e0 : Z) (ts : list term) (c : ComposedValue) : Prop := {
  co_amount : on_scale e0 (cv_amount c) /\ units e0 (cv_amount c) = zsum (units_of e0 ts);
  co_dates : StronglySorted word_lt (cv_dates c) /\ forall d, d ∈ cv_dates c <-> d <> "" /\ d ∈ List.map t_date ts;
  co_grade : if forallb (fun g => in_words g GRADES) (List.map t_grade ts)
             then cv_grade c ∈ List.map t_grade ts /\ Forall (fun g => (grade_index g <= grade_index (cv_grade c))%nat) (List.map t_grade ts)
             else cv_grade c = ""
}.
Lemma days_of_elem ts d : d ∈ days_of ts <-> d <> "" /\ d ∈ List.map t_date ts.
Proof.
  unfold days_of. rewrite !list_elem_of_In, in_flat_map, in_map_iff. split.
  - intros (t & Ht & H). destruct (String.eqb_spec (t_date t) "") as [E|E]; [done|]. destruct H as [<-|[]]. split; [done|]. by exists t.
  - intros (Hd & t & <- & Ht). exists t. split; [done|]. rewrite (proj2 (String.eqb_neq _ _) Hd). by left.
Qed.
Lemma group_composes e0 a cur ts g : ts <> [] -> group_of e0 ts g -> composes e0 ts (composed a (cur, g)).
Proof.
  intros Hne [G1 G2 G3]. split; cbn [composed cv_amount cv_dates cv_grade fst snd]; [done|..].
  - split; [apply sorted_set_sorted|]. intros d. by rewrite sorted_set_elem, G2, days_of_elem.
  - rewrite G3. destruct (forallb _ _) eqn:E.
    + apply composed_grade_weakest; [by destruct ts|]. rewrite forallb_forall in E. apply Forall_forall. intros g' Hg. apply E. by apply list_elem_of_In.
    + unfold composed_grade. apply not_true_iff_false in E. rewrite forallb_forall in E. destruct (existsb _ _) eqn:Ee; [by rewrite orb_true_r|].
      exfalso. apply E. intros x Hx. apply not_true_iff_false in Ee. rewrite existsb_exists in Ee.
      destruct (in_words x GRADES) eqn:Ex; [done|]. exfalso. apply Ee. exists x. by rewrite Ex.
Qed.

(** C20: what an account is worth is exactly what was measured.  Where the terms are amounts
    of a common scale whose sizes together fit the arithmetic's precision, there is one
    value for each currency some term is in, in order, and none else: its amount is the
    exact sum of that currency's terms, its days are their days, its grade the weakest of
    theirs, or none where a term has none. *)
Theorem composed_values_add_up v a as_of ts e0 : scale_ok default_ctx e0 -> (e0 <= 0)%Z ->
  terms_of v a as_of = Ok ts -> Forall (fun t => on_scale e0 (t_amount t)) ts -> fits default_ctx (mags (units_of e0 ts)) ->
  exists cvs, composed_values v a as_of = Ok cvs /\ StronglySorted word_lt (List.map cv_currency cvs)
    /\ (forall cur, cur ∈ List.map cv_currency cvs <-> cur ∈ List.map t_currency ts)
    /\ Forall (fun c => cv_account c = a /\ composes e0 (in_cur (cv_currency c) ts) c) cvs.
Proof.
  intros Hs He Ht HF Hf. destruct (add_terms_exact e0 Hs He ts HF Hf) as (gs & Hg & Hk & Hgs).
  unfold composed_values. rewrite Ht. cbn [rbind]. rewrite Hg. cbn [rbind]. eexists. split; [done|].
  assert (Hc : List.map cv_currency (List.map (composed a) (sorted_items gs)) = sorted_set (List.map fst gs)).
  { rewrite List.map_map. apply sorted_items_keys. }
  assert (Hcur : forall cur, cur ∈ List.map fst gs <-> cur ∈ List.map t_currency ts).
  { intros cur. transitivity (in_cur cur ts <> []).
    - specialize (Hgs cur). destruct (dict_get gs cur) eqn:E; [split; [by intros _; apply Hgs|intros _; by eapply dict_get_key]|].
      apply dict_get_none in E. by split.
    - rewrite list_elem_of_In, in_map_iff. split.
      + intros H. destruct (in_cur cur ts) as [|t l] eqn:E; [done|]. assert (Hin : In t (in_cur cur ts)) by (rewrite E; by left).
        apply List.filter_In in Hin as [Hin Hcu]. exists t. split; [by apply String.eqb_eq|done].
      + intros (t & <- & Hin) E. assert (Hi : In t (in_cur (t_currency t) ts)) by (apply List.filter_In; split; [done|apply String.eqb_refl]).
        by rewrite E in Hi. }
  rewrite Hc. split; [apply sorted_set_sorted|]. split; [intros cur; by rewrite sorted_set_elem|].
  apply Forall_forall. intros c Hin. apply list_elem_of_In, in_map_iff in Hin as ([cur g] & <- & Hin). apply list_elem_of_In, sorted_items_elem in Hin.
  cbn [composed cv_account cv_currency fst snd]. split; [done|]. specialize (Hgs cur). rewrite Hin in Hgs. destruct Hgs as [Hne Hgo]. by apply (group_composes e0 a cur).
Qed.

(** ** Points *)

(** C21: a measured point accounts for every account.  Each of its lines is one composed value
    of an active account of a kind that counts, on its side; each such account has a line for
    each of its values, or, where it has none, is listed as skipped with its first closing
    after the day; and every day a value rests on is at or before the point's. *)
Theorem point_accounts_for_everything v inactive day p : day <> "" -> measured_point v inactive day = Ok p ->
  accounted v inactive day (seen_accounts v) p
  /\ forall n, n ∈ p_lines p -> ~ word_lt day (n_as_of n).
Proof.
  intros Hd H. pose proof (point_accounted v inactive day p Hd H) as HA. split; [done|]. intros n Hn.
  destruct (ac_lines _ _ _ _ _ HA n Hn) as (st & k & cvs & c & _ & _ & Hc & Hin & Hl). apply composed_by_day in Hc; [|done].
  rewrite Forall_forall in Hc. destruct (Hc c Hin) as [_ HD]. unfold net_line in Hl. run_ok. subst. cbn [n_as_of]. unfold cv_as_of.
  destruct HD as [|d ds Hdd _]; [|exact Hdd]. cbn [hd]. unfold word_lt. by destruct day.
Qed.

(** C22: the subtotals of a point add up.  Where its lines are amounts of a common scale whose
    sizes together fit the arithmetic's precision, each currency some line is in, and no
    other, has a row: assets are the exact sum of what is owned, liabilities of what is
    owed, as positive figures, net their difference, and the provable part exactly the
    lines a document corroborates. *)
Theorem net_worth_adds_up e0 lines : scale_ok default_ctx e0 -> (e0 <= 0)%Z ->
  Forall (fun l => on_scale e0 (n_amount l)) lines -> fits default_ctx (mags (List.map (line_units e0) lines)) ->
  exists rows, by_currency lines = Ok rows /\ rows_of e0 lines rows
    /\ forall cur r, dict_get rows cur = Some r ->
         units e0 (w_net r) = (units e0 (w_assets r) - units e0 (w_liabilities r))%Z
         /\ (0 <= units e0 (w_assets r))%Z /\ (0 <= units e0 (w_liabilities r))%Z.
Proof.
  intros Hs He HF Hf. destruct (by_currency_exact e0 Hs He lines HF Hf) as (rows & H & HR). exists rows. split; [done|]. split; [done|].
  intros cur r Hr. destruct HR as [_ HR]. specialize (HR cur). rewrite Hr in HR. destruct HR as [[_ ->] [_ ->] [_ ->] _].
  rewrite (part_split e0 (in_currency cur)). pose proof (part_nonneg e0 (in_currency cur) lines). pose proof (part_neg e0 (in_currency cur) lines). lia.
Qed.

(** ** A brokerage, a card, and what came later *)
Definition kept_events (l : list (res Event)) : list Event := omap (fun r => match r with Ok e => Some e | Raise _ => None end) l.
Definition january : list Event := kept_events
  [account_opened "e1" "Assets:Broker" "investment" "Broker" "USD" "2026-01-01" "" "" "" [] "issued" None;
   account_opened "e2" "Liabilities:Card" "liability" "Card" "USD" "2026-01-01" "" "" "" [] "issued" None;
   closing_balance_observed "e3" "Assets:Broker" (NumStr "250.00") "2026-01-31" None "";
   position_observed "e4" "Assets:Broker" "FUND A" (NumStr "10") (NumStr "1000.00") "USD" "2026-01-31" (Some (NumStr "800")) "measured" CORROBORATED None;
   position_observed "e5" "Assets:Broker" "Cash Sweep" (NumStr "40") (NumStr "40.00") "USD" "2026-01-15" None "measured" UNVERIFIED None;
   position_observed "e6" "Assets:Broker" "FUND E" (NumStr "3") (NumStr "300") "EUR" "2026-01-31" None "measured" CORROBORATED None;
   closing_balance_observed "e7" "Liabilities:Card" (NumStr "120.50") "2026-01-20" None ""].
Definition february : list Event := kept_events
  [closing_balance_observed "f1" "Assets:Broker" (NumStr "900") "2026-02-28" None "";
   position_observed "f2" "Assets:Broker" "FUND A" (NumStr "10") (NumStr "1100.00") "USD" "2026-02-28" None "measured" CORROBORATED None;
   account_opened "f3" "Assets:Chk" "depository" "Checking" "USD" "2026-02-10" "" "" "" [] "issued" None;
   closing_balance_observed "f4" "Assets:Chk" (NumStr "50") "2026-02-28" None ""].
Definition reopened : list Event := kept_events
  [account_opened "f5" "Liabilities:Card" "depository" "Card" "USD" "2026-02-10" "" "" "" [] "issued" None].
Section Example.
#[local] Existing Instance ascii_case.
Definition holder_of (l : list Event) : holder :=
  match rfold apply_holder l (new_holder None) with Ok v => v | Raise _ => new_holder None end.
Definition point_of (l : list Event) (day : string) : NetWorthPoint :=
  match measured_point (holder_of l) [] day with Ok p => p | Raise _ => mkPoint day [] [] end.
Definition broker_terms : list term :=
  [mkTerm (Fin false 25000 (-2)) "USD" "2026-01-31" CORROBORATED ""; mkTerm (Fin false 4000 (-2)) "USD" "2026-01-15" UNVERIFIED "";
   mkTerm (Fin false 100000 (-2)) "USD" "2026-01-31" CORROBORATED ""; mkTerm (Fin false 300 0) "EUR" "2026-01-31" CORROBORATED ""].
Lemma january_terms : terms_of (holder_of january) "Assets:Broker" "2026-01-31" = Ok broker_terms.
Proof. vm_compute. reflexivity. Qed.
Lemma january_point : measured_point (holder_of january) [] "2026-01-31" = Ok (point_of january "2026-01-31").
Proof. vm_compute. reflexivity. Qed.
Lemma two_places : scale_ok default_ctx (-2).
Proof. unfold scale_ok. split; [split|]; vm_compute; discriminate. Qed.

Lemma terms_are_the_last_measured_witness : exists ts, terms_of (holder_of january) "Assets:Broker" "2026-01-31" = Ok ts
  /\ exists cash holds, one_statement (measured_of (holder_of january) "Assets:Broker") "2026-01-31" true cash
     /\ one_statement (measured_of (holder_of january) "Assets:Broker") "2026-01-31" false holds.
Proof.
  exists broker_terms. split; [apply january_terms|].
  destruct (terms_are_the_last_measured (holder_of january) "Assets:Broker" "2026-01-31"
    (state_of (v_accounts (holder_of january)) "Assets:Broker") broker_terms) as (cur & o & cash & holds & _ & _ & H1 & H2 & _);
    [discriminate|vm_compute; reflexivity|apply january_terms|]. by exists cash, holds.
Defined.
#[local] Existing Instance bare_payloads.
Lemma curve_is_stable_witness : exists p, measured_point (holder_of january) [] "2026-01-31" = Ok p
  /\ p_lines (point_of (january ++ february) "2026-01-31") = p_lines p /\ List.length (p_lines p) = 3
  /\ List.length (p_lines (point_of (january ++ february) "2026-02-28")) = 3.
Proof.
  destruct (curve_is_stable always_holds january february None (holder_of january) (holder_of (january ++ february)) [] "2026-01-31"
    (point_of (january ++ february) "2026-01-31")) as (p & Hp & E).
  - vm_compute. reflexivity.
  - vm_compute. reflexivity.
  - discriminate.
  - repeat constructor; intros at_ H; injection H as <-; vm_compute; reflexivity.
  - vm_compute. reflexivity.
  - intros e a He [Ht Hn]%andb_true_iff. apply list_elem_of_In in He. vm_compute in He.
    repeat (destruct He as [<-|He]; [vm_compute in Ht; try discriminate Ht; change (String.eqb "Assets:Chk" a = true) in Hn;
      apply String.eqb_eq in Hn as <-; vm_compute; reflexivity|]). destruct He.
  - vm_compute. reflexivity.
  - exists p. split; [exact Hp|]. split; [exact E|]. rewrite <- E. split; vm_compute; reflexivity.
Defined.
Lemma composed_values_add_up_witness : exists cvs, composed_values (holder_of january) "Assets:Broker" "2026-01-31" = Ok cvs
  /\ List.map cv_currency cvs = ["EUR"; "USD"] /\ List.map cv_grade cvs = [CORROBORATED; UNVERIFIED]
  /\ List.map cv_as_of cvs = ["2026-01-31"; "2026-01-15"].
Proof.
  destruct (composed_values_add_up (holder_of january) "Assets:Broker" "2026-01-31" broker_terms (-2)) as (cvs & H & _);
    [apply two_places|lia|apply january_terms|repeat constructor; vm_compute; discriminate|vm_compute; reflexivity|].
  exists cvs. split; [exact H|]. assert (E : composed_values (holder_of january) "Assets:Broker" "2026-01-31" = Ok cvs) by exact H.
  vm_compute in E. injection E as <-. repeat split.
Defined.
Lemma point_accounts_for_everything_witness : List.length (p_lines (point_of january "2026-01-31")) = 3
  /\ forall n, n ∈ p_lines (point_of january "2026-01-31") -> ~ word_lt "2026-01-31" (n_as_of n).
Proof.
  split; [vm_compute; reflexivity|].
  destruct (point_accounts_for_everything (holder_of january) [] "2026-01-31" (point_of january "2026-01-31")) as [_ H];
    [discriminate|apply january_point|exact H].
Defined.
Lemma net_worth_adds_up_witness : exists rows, by_currency (p_lines (point_of january "2026-01-31")) = Ok rows
  /\ forall r, dict_get rows "USD" = Some r -> units (-2) (w_net r) = (units (-2) (w_assets r) - units (-2) (w_liabilities r))%Z.
Proof.
  destruct (net_worth_adds_up (-2) (p_lines (point_of january "2026-01-31"))) as (rows & H & _ & HN);
    [apply two_places|lia|vm_compute; repeat constructor; discriminate|vm_compute; reflexivity|].
  exists rows. split; [exact H|]. intros r Hr. by apply (HN "USD" r).
Defined.

(** The hypothesis on openings is needed: one dated after the day that says another kind
    turns what is owed on the day into something owned. *)
Theorem later_opening_moves_the_curve :
  Forall (dated_after "2026-01-31") reopened
  /\ (exists n, n ∈ p_lines (point_of january "2026-01-31") /\ n_account n = "Liabilities:Card" /\ n_amount n = Fin true 12050 (-2))
  /\ (exists n, n ∈ p_lines (point_of (january ++ reopened) "2026-01-31") /\ n_account n = "Liabilities:Card" /\ n_amount n = Fin false 12050 (-2)).
Proof.
  split; [repeat constructor; intros at_ H; injection H as <-; vm_compute; reflexivity|]. split.
  - exists (List.nth 2 (p_lines (point_of january "2026-01-31")) (mkNetLine "" dzero "" "" "" JNull "" "" false)).
    split; [apply list_elem_of_In; vm_compute; auto|split; vm_compute; reflexivity].
  - exists (List.nth 2 (p_lines (point_of (january ++ reopened) "2026-01-31")) (mkNetLine "" dzero "" "" "" JNull "" "" false)).
    split; [apply list_elem_of_In; vm_compute; auto|split; vm_compute; reflexivity].
Qed.
End Example.
