(* ===== verification/Statements.v ===== *)
(** * Statements: a read statement, its document type, and why it does not reconcile

    The facts of product/viva/ingest/statement.py with their dictionaries, the document types
    of ingest/registry.py, and ingest/diagnose.py: the arithmetic that localises a failed
    reconciliation and says whether a correction is forced.  Text a dictionary holds as
    another kind of value is a TypeError here. *)
From Stdlib Require Import ZArith NArith Ascii String Lia ZifyBool ZifyN ZifyNat.
From stdpp Require Import base list numbers strings.
From S2P Require Import Prelude Text Words Json Unicode Decimals Floats Arithmetic Acquisition Events EventTypes Postings Dictionaries Accounts Registry.
#[local] Open Scope string_scope.

(** ** Document types *)
Definition BALANCE_IDENTITY : string := "balance".
Definition PAYSTUB_IDENTITY : string := "paystub".
Definition BROKERAGE_IDENTITY : string := "brokerage".
Definition INSTRUMENT_IDENTITY : string := "instrument".
Definition PROJECTABLE_IDENTITIES : list string := [BALANCE_IDENTITY; PAYSTUB_IDENTITY; BROKERAGE_IDENTITY; INSTRUMENT_IDENTITY].
Definition DEPOSITORY : string := "depository".
Definition LIABILITY : string := "liability".
Definition INVESTMENT : string := "investment".
Record DocProfile := mkDocProfile
  { dp_type : string; dp_kind : string; dp_identity : string; dp_version : string; dp_aliases : list string; dp_base : string;
    dp_fragment : string; dp_contract : option string }.
Definition is_liability (p : DocProfile) : bool := String.eqb (dp_kind p) LIABILITY.
Definition _SEED : list DocProfile :=
  [mkDocProfile "checking_statement" DEPOSITORY BALANCE_IDENTITY "bal-v1"
     ["checking"; "bank_statement"; "combined_bank_statement"; "checking_account_statement"; "bank_account_statement"] "base-v2" "checking-v1" None;
   mkDocProfile "savings_statement" DEPOSITORY BALANCE_IDENTITY "bal-v1"
     ["savings"; "savings_account_statement"; "money_market_statement"] "base-v2" "savings-v1" None;
   mkDocProfile "credit_card_statement" LIABILITY BALANCE_IDENTITY "bal-v1"
     ["credit_card"; "card_statement"; "creditcard_statement"; "credit_card_account_statement"] "base-v2" "card-v2" None;
   mkDocProfile "term_deposit_statement" DEPOSITORY INSTRUMENT_IDENTITY "term-deposit-v2" [] "term-deposit-base-v1" "term-deposit-v2" None;
   mkDocProfile "mortgage_statement" LIABILITY INSTRUMENT_IDENTITY "mortgage-principal-source-v2" [] "mortgage-base-v2" "mortgage-v3"
     (Some "mortgage-principal-source-v2");
   mkDocProfile "refinance_settlement" LIABILITY INSTRUMENT_IDENTITY "instrument-v1" [] "refinance-base-v1" "refinance-v1" None;
   mkDocProfile "property_tax_receipt" "" INSTRUMENT_IDENTITY "instrument-v1" [] "property-tax-base-v1" "property-tax-v1" None;
   mkDocProfile "pay_stub" "" PAYSTUB_IDENTITY "payroll-source-v2"
     ["paystub"; "pay_slip"; "payslip"; "salary_slip"; "earnings_statement"; "wage_statement"; "payroll_statement"] "paystub-base-v2"
     "paystub-v2" None;
   mkDocProfile "brokerage_statement" INVESTMENT BROKERAGE_IDENTITY "brk-v7"
     ["brokerage"; "brokerage_account_statement"; "investment_statement"; "investment_account_statement"; "retirement_statement";
      "retirement_account_statement"; "ira_statement"; "401k_statement"] "brokerage-base-v7" "brokerage-v2" None].
Definition register (index : list (string * DocProfile)) (p : DocProfile) : list (string * DocProfile) :=
  List.fold_left (fun d a => dict_set d a p) (dp_aliases p) (dict_set index (dp_type p) p).
Definition _INDEX : list (string * DocProfile) := List.fold_left register _SEED [].
Section Types.
Context `{case_map : CaseMap}.
Definition profile_for (doc_type : string) : option DocProfile := dict_get _INDEX (str_lower (strip doc_type)).
Definition account_kind_for (doc_type : string) : string :=
  match profile_for doc_type with Some p => dp_kind p | None => DEPOSITORY end.
Definition can_project (doc_type : string) : bool :=
  match profile_for doc_type with Some p => in_words (dp_identity p) PROJECTABLE_IDENTITIES | None => false end.
Definition identity_of_facts (facts : json) : res string :=
  let? t := (let? v := py_get_default (if py_truthy facts then facts else JObj []) "doc_type" (JStr "") in text v) in
  Ok (match profile_for t with Some p => dp_identity p | None => "" end).
End Types.

(** ** Facts *)
Record TxnFact := mkTxn
  { x_date : string; x_description : string; x_amount : decimal; x_page : json; x_running : option decimal; x_source : string;
    x_grade : string; x_note : string; x_reference : string; x_counterparty : string }.
Record StatementFacts := mkFacts
  { f_doc : string; f_type : string; f_confidence : json; f_ref : string; f_currency : string; f_opening : decimal;
    f_opening_date : string; f_closing : decimal; f_closing_date : string; f_txns : list TxnFact; f_opening_page : json;
    f_closing_page : json; f_number : string; f_institution : string; f_names : list string; f_source_ref : string;
    f_source_page : json; f_acquisition : json; f_page_count : json }.
Definition with_txns (f : StatementFacts) (ts : list TxnFact) : StatementFacts :=
  mkFacts (f_doc f) (f_type f) (f_confidence f) (f_ref f) (f_currency f) (f_opening f) (f_opening_date f) (f_closing f) (f_closing_date f)
    ts (f_opening_page f) (f_closing_page f) (f_number f) (f_institution f) (f_names f) (f_source_ref f) (f_source_page f)
    (f_acquisition f) (f_page_count f).
Definition with_closing (f : StatementFacts) (c : decimal) : StatementFacts :=
  mkFacts (f_doc f) (f_type f) (f_confidence f) (f_ref f) (f_currency f) (f_opening f) (f_opening_date f) c (f_closing_date f)
    (f_txns f) (f_opening_page f) (f_closing_page f) (f_number f) (f_institution f) (f_names f) (f_source_ref f) (f_source_page f)
    (f_acquisition f) (f_page_count f).
(** [__post_init__]: a classified reading, or a local one of this document. *)
Definition new_facts (f : StatementFacts) : res StatementFacts :=
  let? _ := classification (f_doc f) (f_confidence f) (f_acquisition f) in Ok f.
Definition txn_provenance (t : TxnFact) (doc : string) : Provenance :=
  mkProvenance (JStr (if String.eqb (x_source t) "" then doc else x_source t)) (x_page t) (JStr "") (JStr (x_note t)).
Definition opening_provenance (f : StatementFacts) : Provenance := mkProvenance (JStr (f_doc f)) (f_opening_page f) (JStr "") (JStr "opening balance").
Definition closing_provenance (f : StatementFacts) : Provenance := mkProvenance (JStr (f_doc f)) (f_closing_page f) (JStr "") (JStr "closing balance").

Definition TxnFact_to_dict (t : TxnFact) : json :=
  JObj [("date", JStr (x_date t)); ("description", JStr (x_description t)); ("amount", JStr (dec_str (x_amount t))); ("page", x_page t);
        ("running_balance", match x_running t with Some d => JStr (dec_str d) | None => JNull end); ("source_doc_id", JStr (x_source t));
        ("grade", JStr (x_grade t)); ("note", JStr (x_note t)); ("source_reference", JStr (x_reference t));
        ("counterparty_reference", JStr (x_counterparty t))].
Definition item_text (d : json) (k : string) : res string := let? v := py_getitem d k in text v.
Definition get_text (d : json) (k : string) : res string := let? v := py_get_default d k (JStr "") in text v.
Definition item_decimal (d : json) (k : string) : res decimal := let? v := py_getitem d k in Decimal_of_json v.
Definition TxnFact_from_dict (d : json) : res TxnFact :=
  let? rb := py_get d "running_balance" in
  let? date := item_text d "date" in
  let? desc := get_text d "description" in
  let? amount := item_decimal d "amount" in
  let? page := py_get d "page" in
  let? running := (match rb with JNull => Ok None | _ => let? x := Decimal_of_json rb in Ok (Some x) end) in
  let? source := get_text d "source_doc_id" in
  let? grade := get_text d "grade" in
  let? note := get_text d "note" in
  let? reference := get_text d "source_reference" in
  let? counterparty := get_text d "counterparty_reference" in
  Ok (mkTxn date desc amount page running source grade note reference counterparty).

Definition given_key (k : string) (v : json) : list (string * json) := match v with JNull => [] | _ => [(k, v)] end.
Definition StatementFacts_to_dict (f : StatementFacts) : json :=
  JObj ([("doc_id", JStr (f_doc f)); ("doc_type", JStr (f_type f)); ("doc_type_confidence", f_confidence f)]
        ++ given_key "acquisition" (f_acquisition f) ++ given_key "validated_source_page_count" (f_page_count f)
        ++ [("account_ref", JStr (f_ref f)); ("currency", JStr (f_currency f)); ("opening_amount", JStr (dec_str (f_opening f)));
            ("opening_date", JStr (f_opening_date f)); ("closing_amount", JStr (dec_str (f_closing f)));
            ("closing_date", JStr (f_closing_date f)); ("opening_page", f_opening_page f); ("closing_page", f_closing_page f);
            ("transactions", JArr (List.map TxnFact_to_dict (f_txns f))); ("account_number", JStr (f_number f));
            ("institution", JStr (f_institution f)); ("account_names", words (f_names f)); ("source_account_ref", JStr (f_source_ref f));
            ("source_account_ref_page", f_source_page f)])%list.
Definition list_items (v : json) : res (list json) := match v with JArr l => Ok l | _ => Raise TypeError end.
Definition StatementFacts_from_dict (d : json) : res StatementFacts :=
  let? doc := item_text d "doc_id" in
  let? ty := item_text d "doc_type" in
  let? conf := py_get_default d "doc_type_confidence" (JFloat "0.0") in
  let? acq := py_get d "acquisition" in
  let? count := py_get d "validated_source_page_count" in
  let? ref := get_text d "account_ref" in
  let? cur := item_text d "currency" in
  let? opening := item_decimal d "opening_amount" in
  let? odate := item_text d "opening_date" in
  let? closing := item_decimal d "closing_amount" in
  let? cdate := item_text d "closing_date" in
  let? ts := (let? v := py_get_default d "transactions" (JArr []) in let? l := list_items v in rmap TxnFact_from_dict l) in
  let? opage := py_get d "opening_page" in
  let? cpage := py_get d "closing_page" in
  let? number := get_text d "account_number" in
  let? inst := get_text d "institution" in
  let? names := (let? v := py_get_default d "account_names" (JArr []) in text_list v) in
  let? sref := get_text d "source_account_ref" in
  let? spage := py_get d "source_account_ref_page" in
  new_facts (mkFacts doc ty conf ref cur opening odate closing cdate ts opage cpage number inst names sref spage acq count).

(** ** Diagnosis *)
Definition DIAGNOSIS_VERSION : string := "diag-v1".
Definition FORCED : string := "forced".
Definition SUGGESTED : string := "suggested".
Definition UNLOCALIZED : string := "unlocalized".
Definition NONE : string := "none".
Record ReconciliationFinding := mkFinding
  { fd_reconciles : bool; fd_kind : string; fd_status : string; fd_delta : string; fd_message : string; fd_target : string;
    fd_index : option nat; fd_observed : option string; fd_implied : option string; fd_confidence : string }.
Definition or_null (o : option string) : json := match o with Some s => JStr s | None => JNull end.
Definition Finding_to_dict (f : ReconciliationFinding) : json :=
  JObj [("reconciles", JBool (fd_reconciles f)); ("kind", JStr (fd_kind f)); ("status", JStr (fd_status f)); ("delta", JStr (fd_delta f));
        ("message", JStr (fd_message f)); ("target", JStr (fd_target f));
        ("target_index", match fd_index f with Some n => JInt (Z.of_nat n) | None => JNull end); ("observed", or_null (fd_observed f));
        ("implied", or_null (fd_implied f)); ("confidence", JFloat (fd_confidence f)); ("version", JStr DIAGNOSIS_VERSION)].

(** [int((d * 100).to_integral_value())]. *)
Definition _cents (d : decimal) : res Z :=
  let? h := dmul default_ctx d (Fin false 100 0) in
  match h with
  | Fin s c e => Ok (signed s (if (0 <=? e)%Z then (c * pow10 e)%N else (round_half_even c (- e)).1))
  | Inf _ => Raise OverflowError
  | NaN _ _ _ => Raise ValueError
  end.
Definition number_text (n : nat) : string := dec (digits_of_N (N.of_nat n)).
Definition line_of (i : nat) (t : TxnFact) : string := "transaction " ++ number_text i ++ " (" ++ x_description t ++ ")".

(** The lines whose printed balance does not follow, from the [i]-th on, and the balance printed last. *)
Fixpoint chain_breaks (i : nat) (prev : decimal) (ts : list TxnFact) : res (list nat * decimal) :=
  match ts with
  | [] => Ok ([], prev)
  | t :: r =>
      match x_running t with
      | None => Raise TypeError
      | Some rb =>
          let? want := dadd default_ctx prev (x_amount t) in
          let? same := deq rb want in
          let? rest := chain_breaks (S i) rb r in
          Ok (if same then rest.1 else i :: rest.1, rest.2)
      end
  end.
Definition balance_before (opening : decimal) (ts : list TxnFact) (i : nat) : res decimal :=
  match i with
  | O => Ok opening
  | S j => match nth_error ts j with
           | Some t => match x_running t with Some rb => Ok rb | None => Raise TypeError end
           | None => Raise IndexError
           end
  end.
Definition balance_misread (closing last delta : decimal) : ReconciliationFinding :=
  mkFinding false "balance_misread" FORCED (dec_str delta)
    ("The transactions and their running balances are internally consistent and end at " ++ dec_str last
     ++ ", but the closing balance reads " ++ dec_str closing ++ ". Closing looks misread; using " ++ dec_str last ++ ".")
    "closing balance" None (Some (dec_str closing)) (Some (dec_str last)) "0.95".
Definition amount_misread (i : nat) (t : TxnFact) (implied delta : decimal) : ReconciliationFinding :=
  mkFinding false "amount_misread" FORCED (dec_str delta)
    ("Line " ++ number_text i ++ " (" ++ x_description t ++ "): I read " ++ dec_str (x_amount t) ++ ", but the running balance implies "
     ++ dec_str implied ++ ", which makes the statement reconcile. Using the implied value.")
    (line_of i t) (Some i) (Some (dec_str (x_amount t))) (Some (dec_str implied)) "0.95".
Definition via_running_balance (opening closing total : decimal) (ts : list TxnFact) (delta : decimal) : res (option ReconciliationFinding) :=
  let? walk := chain_breaks 0 opening ts in
  match walk.1 with
  | [] => Ok (Some (balance_misread closing walk.2 delta))
  | [i] =>
      match nth_error ts i with
      | None => Raise IndexError
      | Some t =>
          match x_running t with
          | None => Raise TypeError
          | Some rb =>
              let? before := balance_before opening ts i in
              let? implied := dsub default_ctx rb before in
              let? a := dsub default_ctx total (x_amount t) in
              let? b := dadd default_ctx a implied in
              let? c := dadd default_ctx opening b in
              let? same := deq c closing in
              Ok (if same then Some (amount_misread i t implied delta) else None)
          end
      end
  | _ => Ok None
  end.
(** The first line as large as the gap. *)
Fixpoint line_like (i : nat) (delta : decimal) (ts : list TxnFact) : res (option (nat * TxnFact)) :=
  match ts with
  | [] => Ok None
  | t :: r =>
      let? a := dabs default_ctx (x_amount t) in
      let? d := dabs default_ctx delta in
      let? same := deq a d in
      if same then Ok (Some (i, t)) else line_like (S i) delta r
  end.
Definition suggested (ts : list TxnFact) (delta : decimal) : res ReconciliationFinding :=
  let gap := dec_str delta in
  let? like := line_like 0 delta ts in
  match like with
  | Some (i, t) =>
      Ok (mkFinding false "missing_or_extra" SUGGESTED gap
            ("The gap of " ++ gap ++ " equals this line's amount — it may be duplicated in my read, or one like it is missing. Please check against the statement.")
            (line_of i t) (Some i) (Some (dec_str (x_amount t))) None "0.5")
  | None =>
      let? d := dabs default_ctx delta in
      let? n := _cents d in
      if (n mod 9 =? 0)%Z then
        Ok (mkFinding false "transposition" SUGGESTED gap
              ("The gap of " ++ gap ++ " is a multiple of 9 — the signature of two swapped digits somewhere. I couldn't pin the line; please check the figures against the statement.")
              "" None None None "0.4")
      else
        Ok (mkFinding false "unknown" UNLOCALIZED gap
              ("Off by " ++ gap ++ ", with no clean explanation. This may not be a checking statement, or several figures are wrong. Held for review.")
              "" None None None "0.1")
  end.
Definition txn_total (f : StatementFacts) : res decimal := rfold (dadd default_ctx) (List.map x_amount (f_txns f)) dzero.
(** [closing - (opening + total)]. *)
Definition _gap_delta (f : StatementFacts) : res decimal :=
  let? total := txn_total f in
  let? want := dadd default_ctx (f_opening f) total in
  dsub default_ctx (f_closing f) want.
Definition printed_chain (ts : list TxnFact) : bool :=
  negb (bool_decide (ts = [])) && forallb (fun t => match x_running t with Some _ => true | None => false end) ts.
Definition diagnose (f : StatementFacts) : res ReconciliationFinding :=
  let? total := txn_total f in
  let? delta := _gap_delta f in
  let? zero := deq delta dzero in
  if zero then Ok (mkFinding true "ok" NONE "0" "Statement reconciles." "" None None None "1.0")
  else
    let? forced := (if printed_chain (f_txns f) then via_running_balance (f_opening f) (f_closing f) total (f_txns f) delta else Ok None) in
    match forced with
    | Some x => Ok x
    | None => suggested (f_txns f) delta
    end.
Definition _reconciles (f : StatementFacts) : res CheckResult :=
  check_balance_identity (NumDec (f_opening f)) (List.map (fun t => NumDec (x_amount t)) (f_txns f)) (NumDec (f_closing f)) no_tolerance.
(** [txns[i] = replace(txns[i], amount=...)]. *)
Definition with_amount (t : TxnFact) (d : decimal) : TxnFact :=
  mkTxn (x_date t) (x_description t) d (x_page t) (x_running t) (x_source t) (x_grade t) (x_note t) (x_reference t) (x_counterparty t).
Definition _apply_forced (f : StatementFacts) (x : ReconciliationFinding) : res StatementFacts :=
  match String.eqb (fd_kind x) "amount_misread", fd_index x with
  | true, Some i =>
      match nth_error (f_txns f) i, fd_implied x with
      | Some t, Some d => let? a := Decimal_of_str d in Ok (with_txns f (<[i := with_amount t a]> (f_txns f)))
      | None, _ => Raise IndexError
      | _, None => Raise TypeError
      end
  | _, _ =>
      if String.eqb (fd_kind x) "balance_misread" then
        match fd_implied x with
        | Some d => let? c := Decimal_of_str d in Ok (with_closing f c)
        | None => Raise TypeError
        end
      else Ok f
  end.
