(* ===== verification/StatementProperties.v ===== *)
(** * StatementProperties: the two identities of a statement, and corrections that are implied

    The figures of a statement as whole units: its balance identity and its printed chain of
    running balances; what [chain_breaks] lists, and what the forced corrections imply. *)
From Stdlib Require Import ZArith NArith Ascii String Lia ZifyBool ZifyN ZifyNat.
From stdpp Require Import base list numbers strings.
From S2P Require Import Prelude Text Words Json Unicode Decimals Floats Arithmetic Acquisition Events EventTypes Postings Dictionaries Accounts BalanceLaws Registry Statements.
#[local] Open Scope string_scope.
#[local] Open Scope list_scope.

Section Units.
Context (e0 : Z).
Definition amounts (ts : list TxnFact) : list Z := List.map (fun t => units e0 (x_amount t)) ts.
(** Every line prints the balance before it and its amount. *)
Fixpoint follows (prev : Z) (ts : list TxnFact) : Prop :=
  match ts with
  | [] => True
  | t :: r => match x_running t with
              | Some rb => units e0 rb = (prev + units e0 (x_amount t))%Z /\ follows (units e0 rb) r
              | None => False
              end
  end.
Definition reconciled (f : StatementFacts) : Prop := units e0 (f_closing f) = (units e0 (f_opening f) + zsum (amounts (f_txns f)))%Z.
(** Both identities hold. *)
Definition consistent (f : StatementFacts) : Prop := follows (units e0 (f_opening f)) (f_txns f) /\ reconciled f.
Definition line_size (t : TxnFact) : Z :=
  (Z.abs (units e0 (x_amount t)) + 2 * match x_running t with Some rb => Z.abs (units e0 rb) | None => 0 end)%Z.
Definition lines_size (ts : list TxnFact) : Z := zsum (List.map line_size ts).
Definition size (f : StatementFacts) : Z := (2 * Z.abs (units e0 (f_opening f)) + Z.abs (units e0 (f_closing f)) + lines_size (f_txns f))%Z.
Definition line_on_scale (t : TxnFact) : Prop :=
  on_scale e0 (x_amount t) /\ match x_running t with Some rb => on_scale e0 rb | None => True end.
(** The statement's figures are of a common scale, and together fit the precision. *)
Record in_cents (f : StatementFacts) : Prop := {
  ic_opening : on_scale e0 (f_opening f);
  ic_closing : on_scale e0 (f_closing f);
  ic_lines : Forall line_on_scale (f_txns f);
  ic_fits : fits default_ctx (100 * size f)
}.

Lemma follows_amounts prev ts us : follows prev ts -> follows prev us -> List.map x_running ts = List.map x_running us -> amounts ts = amounts us.
Proof.
  revert prev us. induction ts as [|t ts IH]; intros prev [|u us] Ht Hu E; try done. cbn [List.map] in E. injection E as E1 E2.
  cbn [follows] in Ht, Hu. rewrite <- E1 in Hu. destruct (x_running t) as [rb|]; [|done]. destruct Ht as [Ht1 Ht2], Hu as [Hu1 Hu2].
  cbn [amounts List.map]. f_equal; [lia|]. by apply (IH (units e0 rb)).
Qed.
(** Where both identities hold, the printed balances leave no choice of the other figures. *)
Lemma consistent_unique f g : consistent f -> consistent g -> f_opening g = f_opening f ->
  List.map x_running (f_txns g) = List.map x_running (f_txns f) ->
  amounts (f_txns g) = amounts (f_txns f) /\ units e0 (f_closing g) = units e0 (f_closing f).
Proof.
  intros [F1 R1] [F2 R2] Ho Hr. rewrite Ho in *. pose proof (follows_amounts _ _ _ F2 F1 Hr) as E. split; [done|].
  unfold reconciled in *. rewrite R1, R2, E, Ho. done.
Qed.
Lemma lines_size_nonneg ts : (0 <= lines_size ts)%Z.
Proof. induction ts as [|t ts IH]; [done|]. unfold lines_size. cbn [List.map]. rewrite zsum_cons. fold (lines_size ts). unfold line_size. destruct (x_running t); lia. Qed.
Lemma lines_size_cons t ts : lines_size (t :: ts) = (line_size t + lines_size ts)%Z.
Proof. done. Qed.
Lemma lines_size_mags ts : (mags (amounts ts) <= lines_size ts)%Z.
Proof.
  induction ts as [|t ts IH]; [done|]. cbn [amounts List.map]. rewrite mags_cons, lines_size_cons. fold (amounts ts). unfold line_size at 1. destruct (x_running t); lia.
Qed.
Lemma lines_size_elem ts i t : nth_error ts i = Some t -> (line_size t <= lines_size ts)%Z.
Proof.
  revert i. induction ts as [|u ts IH]; intros [|i] H; try done; cbn [nth_error] in H.
  - injection H as ->. rewrite lines_size_cons. pose proof (lines_size_nonneg ts). lia.
  - rewrite lines_size_cons. specialize (IH i H). unfold line_size at 2. destruct (x_running u); lia.
Qed.
End Units.

(** ** The walk *)
Section Walk.
Context (e0 : Z) (Hs : scale_ok default_ctx e0) (He : (e0 <= 0)%Z).
Definition printed (t : TxnFact) : bool := match x_running t with Some _ => true | None => false end.
Definition running_units (p : Z) (t : TxnFact) : Z := match x_running t with Some rb => units e0 rb | None => p end.
(** The lines whose printed balance does not follow. *)
Fixpoint broken (i : nat) (p : Z) (ts : list TxnFact) : list nat :=
  match ts with
  | [] => []
  | t :: r => (if (running_units p t =? p + units e0 (x_amount t))%Z then [] else [i]) ++ broken (S i) (running_units p t) r
  end.
Fixpoint last_printed (p : Z) (ts : list TxnFact) : Z :=
  match ts with [] => p | t :: r => last_printed (running_units p t) r end.
Fixpoint before (p : Z) (ts : list TxnFact) (j : nat) : Z :=
  match j, ts with
  | S k, t :: r => before (running_units p t) r k
  | _, _ => p
  end.
Lemma walk_is prev p ts i : Forall (line_on_scale e0) ts -> on_scale e0 prev -> units e0 prev = p -> forallb printed ts = true ->
  fits default_ctx (Z.abs p + lines_size e0 ts) ->
  exists last, chain_breaks i prev ts = Ok (broken i p ts, last) /\ on_scale e0 last /\ units e0 last = last_printed p ts.
Proof using Hs.
  revert prev p i. induction ts as [|t ts IH]; intros prev p i HF Hp Hu Hr Hf; cbn [chain_breaks]; [by exists prev|].
  apply Forall_cons in HF as [[Ha Hrb] HF]. cbn [forallb] in Hr. apply andb_true_iff in Hr as [Hr1 Hr]. unfold printed in Hr1.
  cbn [broken last_printed]. unfold running_units. rewrite lines_size_cons in Hf. unfold line_size in Hf.
  destruct (x_running t) as [rb|] eqn:Ex; [|done].
  pose proof (lines_size_nonneg e0 ts). destruct (dadd_exact default_ctx e0 prev (x_amount t) Hs Hp Ha) as (w & -> & Hw & Hwu).
  { eapply fits_le; [exact Hf|]. rewrite Hu. lia. }
  cbn [rbind]. rewrite (deq_units e0) by done. cbn [rbind].
  destruct (IH rb (units e0 rb) (S i) HF Hrb eq_refl Hr) as (last & -> & Hl & Hsum); [eapply fits_le; [exact Hf|]; lia|].
  cbn [rbind fst snd]. exists last. split; [|done]. rewrite Hwu, Hu. by destruct (_ =? _)%Z.
Qed.
Lemma broken_ge i p ts : Forall (fun b => (i <= b < i + List.length ts)%nat) (broken i p ts).
Proof using Type.
  revert i p. induction ts as [|t ts IH]; intros i p; cbn [broken]; [constructor|]. apply Forall_app. split; [destruct (_ =? _)%Z; repeat constructor; cbn; lia|].
  eapply Forall_impl; [apply IH|]. cbn. lia.
Qed.
Lemma broken_sorted i p ts : NoDup (broken i p ts).
Proof using Type.
  revert i p. induction ts as [|t ts IH]; intros i p; cbn [broken]; [constructor|]. destruct (_ =? _)%Z; [apply IH|]. apply NoDup_cons. split; [|apply IH].
  intros Hin. pose proof (broken_ge (S i) (running_units p t) ts) as H. rewrite Forall_forall in H. specialize (H i Hin). lia.
Qed.
Lemma follows_broken i p ts : forallb printed ts = true -> follows e0 p ts <-> broken i p ts = [].
Proof using Type.
  revert i p. induction ts as [|t ts IH]; intros i p; cbn [forallb follows broken]; [done|]. intros [H1 H2]%andb_true_iff.
  unfold printed in H1. unfold running_units. destruct (x_running t) as [rb|]; [|done]. rewrite (IH (S i)) by done.
  destruct (Z.eqb_spec (units e0 rb) (p + units e0 (x_amount t))) as [E|E]; cbn [app]; [tauto|]. split; [by intros []|done].
Qed.
Lemma follows_last p ts : follows e0 p ts -> last_printed p ts = (p + zsum (amounts e0 ts))%Z.
Proof using Type.
  revert p. induction ts as [|t ts IH]; intros p; cbn [follows last_printed amounts List.map]; [intros _; cbn; lia|]. unfold running_units.
  destruct (x_running t) as [rb|]; [|done]. intros [H1 H2]. rewrite (IH _ H2), zsum_cons. fold (amounts e0 ts). lia.
Qed.
(** Changing one line's amount mends the chain exactly when no other line breaks it and the
    amount is what the balances around it differ by. *)
Lemma mended i p ts j t d : forallb printed ts = true -> nth_error ts j = Some t ->
  follows e0 p (<[j := with_amount t d]> ts) <->
  Forall (fun b => b = (i + j)%nat) (broken i p ts) /\ units e0 d = (running_units 0 t - before p ts j)%Z.
Proof using Type.
  revert i p j. induction ts as [|u ts IH]; intros i p [|j]; cbn [forallb nth_error]; try done; intros [H1 H2]%andb_true_iff Hn.
  - injection Hn as ->. cbn [insert list_insert follows with_amount x_running x_amount broken before]. unfold printed in H1. unfold running_units.
    destruct (x_running t) as [rb|]; [|done]. rewrite (follows_broken (S i)) by done. rewrite Forall_app.
    assert (HE : broken (S i) (units e0 rb) ts = [] <-> Forall (fun b => b = (i + 0)%nat) (broken (S i) (units e0 rb) ts)).
    { split; [intros ->; constructor|]. intros HF. pose proof (broken_ge (S i) (units e0 rb) ts) as HG. destruct (broken _ _ _) as [|b bs]; [done|].
      apply Forall_cons in HF as [HF _]. apply Forall_cons in HG as [HG _]. lia. }
    rewrite HE. split; [intros [Ha Hb]; split; [split; [destruct (_ =? _)%Z; repeat constructor; lia|done]|lia]|intros [[_ Hb] Ha]; split; [lia|done]].
  - cbn [insert list_insert follows broken before]. unfold printed in H1. destruct (x_running u) as [rb|] eqn:Eu; [|done].
    assert (Hq : running_units p u = units e0 rb) by (unfold running_units; by rewrite Eu). rewrite Hq.
    change (list_insert j (with_amount t d) ts) with (<[j := with_amount t d]> ts). rewrite (IH (S i) (units e0 rb) j H2 Hn), Forall_app.
    replace (S i + j)%nat with (i + S j)%nat by lia.
    destruct (Z.eqb_spec (units e0 rb) (p + units e0 (x_amount u))) as [E|E].
    + split; [intros (_ & Ha & Hb); split; [split; [constructor|done]|done]|intros [[_ Ha] Hb]; done].
    + split; [by intros [? _]|]. intros [[Ha _] _]. apply Forall_cons in Ha as [Ha _]. lia.
Qed.
Lemma before_zero p ts : before p ts 0 = p.
Proof using Type. by destruct ts. Qed.
Lemma before_succ p ts j u : nth_error ts j = Some u -> printed u = true -> before p ts (S j) = running_units 0 u.
Proof using Type.
  revert p j. induction ts as [|v ts IH]; intros p [|j] Hn Hu; try done; cbn [nth_error] in Hn; cbn [before].
  - injection Hn as ->. rewrite before_zero. unfold running_units, printed in *. by destruct (x_running u).
  - by apply IH.
Qed.
Lemma before_is prev p ts j t : nth_error ts j = Some t -> Forall (line_on_scale e0) ts -> forallb printed ts = true -> on_scale e0 prev -> units e0 prev = p ->
  exists b, balance_before prev ts j = Ok b /\ on_scale e0 b /\ units e0 b = before p ts j
    /\ (Z.abs (running_units 0 t) + Z.abs (before p ts j) <= Z.abs p + lines_size e0 ts)%Z.
Proof using Type.
  intros Hn HF Hr Hp Hu. pose proof (lines_size_elem e0 ts j t Hn) as Ht. assert (Hline : (2 * Z.abs (running_units 0 t) <= line_size e0 t)%Z).
  { unfold line_size, running_units. destruct (x_running t); lia. }
  pose proof (lines_size_nonneg e0 ts). destruct j as [|j]; cbn [balance_before].
  - exists prev. split; [done|]. split; [done|]. rewrite before_zero. split; [done|]. lia.
  - assert (Hj : exists u, nth_error ts j = Some u).
    { destruct (nth_error ts j) eqn:E; [by eexists|]. apply nth_error_None in E. assert (nth_error ts (S j) = None) by (apply nth_error_None; lia). congruence. }
    destruct Hj as [u Hju]. rewrite Hju. rewrite forallb_forall in Hr. pose proof (Hr u (nth_error_In _ _ Hju)) as Hpu. rewrite (before_succ p ts j u) by done.
    rewrite Forall_forall in HF. destruct (HF u) as [_ Hb]; [by eapply list_elem_of_In, nth_error_In|]. pose proof (lines_size_elem e0 ts j u Hju) as Hsu.
    unfold printed in Hpu. unfold running_units, line_size in *. destruct (x_running u) as [rb|]; [|done]. exists rb. split; [done|]. split; [done|]. split; [done|]. lia.
Qed.
End Walk.

Lemma amounts_insert e0 ts i t d : nth_error ts i = Some t ->
  zsum (amounts e0 (<[i := with_amount t d]> ts)) = (zsum (amounts e0 ts) - units e0 (x_amount t) + units e0 d)%Z.
Proof.
  revert i. induction ts as [|u ts IH]; intros [|i] H; try done; cbn [nth_error] in H.
  - injection H as ->. change (<[0%nat := with_amount t d]> (t :: ts)) with (with_amount t d :: ts). unfold amounts. cbn [List.map].
    rewrite !zsum_cons. cbn [with_amount x_amount]. lia.
  - change (<[S i := with_amount t d]> (u :: ts)) with (u :: <[i := with_amount t d]> ts). specialize (IH i H). unfold amounts in *. cbn [List.map].
    rewrite !zsum_cons, IH. lia.
Qed.
Lemma running_insert ts i t d : nth_error ts i = Some t -> List.map x_running (<[i := with_amount t d]> ts) = List.map x_running ts.
Proof.
  revert i. induction ts as [|u ts IH]; intros [|i] H; try done; cbn [nth_error] in H; [by injection H as ->|].
  change (<[S i := with_amount t d]> (u :: ts)) with (u :: <[i := with_amount t d]> ts). cbn [List.map]. f_equal. by apply (IH i).
Qed.
Lemma follows_printed e0 p ts : follows e0 p ts -> forallb printed ts = true.
Proof.
  revert p. induction ts as [|t ts IH]; intros p; cbn [follows forallb]; [done|]. unfold printed at 1. destruct (x_running t) as [rb|]; [|done].
  intros [_ H]. by apply (IH (units e0 rb)).
Qed.
Lemma printed_insert ts i t d : nth_error ts i = Some t -> forallb printed (<[i := with_amount t d]> ts) = forallb printed ts.
Proof.
  revert i. induction ts as [|u ts IH]; intros [|i] H; try done; cbn [nth_error] in H; [by injection H as ->|].
  change (<[S i := with_amount t d]> (u :: ts)) with (u :: <[i := with_amount t d]> ts). cbn [forallb]. f_equal. by apply (IH i).
Qed.

(** ** Figures that fit are read exactly *)
Section Exact.
Context (e0 : Z) (Hs : scale_ok default_ctx e0) (He : (e0 <= 0)%Z).
Lemma on_scale_text d : on_scale e0 d -> Decimal_of_str (dec_str d) = Ok d.
Proof using Type. destruct d; [|done..]. intros _. apply Decimal_str_round. Qed.
Lemma sum_amounts_exact ts : Forall (line_on_scale e0) ts -> fits default_ctx (mags (amounts e0 ts)) ->
  forall acc, on_scale e0 acc -> fits default_ctx (Z.abs (units e0 acc) + mags (amounts e0 ts)) ->
  exists r, rfold (dadd default_ctx) (List.map x_amount ts) acc = Ok r /\ on_scale e0 r /\ units e0 r = (units e0 acc + zsum (amounts e0 ts))%Z.
Proof using Hs.
  induction 1 as [|t ts [Ha _] _ IH]; cbn [List.map rfold amounts]; intros Hf acc Hc Hfa; [exists acc; split; [done|]; split; [done|]; cbn; lia|].
  fold (amounts e0 ts) in *. rewrite mags_cons in *. pose proof (mags_nonneg (amounts e0 ts)).
  destruct (dadd_exact default_ctx e0 acc (x_amount t) Hs Hc Ha) as (r & -> & Hr & Hu); [eapply fits_le; [exact Hfa|]; lia|]. cbn [rbind].
  destruct (IH ltac:(eapply fits_le; [exact Hf|]; lia) r Hr) as (r' & -> & Hr' & Hu'); [eapply fits_le; [exact Hfa|]; lia|].
  exists r'. split; [done|]. split; [done|]. rewrite zsum_cons. lia.
Qed.
Lemma cents_total d : on_scale e0 d -> fits default_ctx (100 * units e0 d) -> exists n, _cents d = Ok n.
Proof using Hs.
  intros Hd Hf. unfold _cents. destruct d as [s c e| |]; [|done..]. unfold dmul, check_nans.
  destruct (fix_exact default_ctx e0 (xorb s false) (c * 100) (e + 0) Hs) as (r & Hr & Hrs & _).
  - cbn [on_scale] in Hd. lia.
  - eapply fits_le; [exact Hf|]. unfold units, signed. rewrite xorb_false_r, Z.add_0_r. destruct s; nia.
  - rewrite Hr. cbn [rbind]. destruct r; [by eexists|done..].
Qed.

Section Facts.
Context (f : StatementFacts) (Hf : in_cents e0 f).
Let ts := f_txns f.
Let gap := (units e0 (f_closing f) - (units e0 (f_opening f) + zsum (amounts e0 ts)))%Z.
Lemma size_bound z : (Z.abs z <= 100 * size e0 f)%Z -> fits default_ctx z.
Proof using Hf. intros H. eapply fits_le; [apply (ic_fits _ _ Hf)|]. lia. Qed.
Lemma total_is : exists r, txn_total f = Ok r /\ on_scale e0 r /\ units e0 r = zsum (amounts e0 ts).
Proof using Hs He Hf.
  pose proof (lines_size_mags e0 ts) as Hm. pose proof (mags_nonneg (amounts e0 ts)).
  destruct (sum_amounts_exact ts (ic_lines _ _ Hf)) with (acc := dzero) as (r & H1 & H2 & H3).
  - apply size_bound. unfold size. fold ts. lia.
  - exact He.
  - apply size_bound. unfold size. fold ts. change (units e0 dzero) with 0%Z. lia.
  - exists r. split; [done|]. split; [done|]. rewrite H3. change (units e0 dzero) with 0%Z. lia.
Qed.
Lemma gap_is : exists d, _gap_delta f = Ok d /\ on_scale e0 d /\ units e0 d = gap /\ (Z.abs gap <= size e0 f)%Z.
Proof using Hs He Hf.
  pose proof (lines_size_mags e0 ts) as Hm. pose proof (zsum_mags (amounts e0 ts)) as Hz. destruct total_is as (t & Ht & Hts & Htu).
  assert (Hb : (Z.abs gap <= size e0 f)%Z) by (unfold gap, size; fold ts; lia).
  unfold _gap_delta. rewrite Ht. cbn [rbind].
  destruct (dadd_exact default_ctx e0 (f_opening f) t Hs (ic_opening _ _ Hf) Hts) as (w & -> & Hw & Hwu); [apply size_bound; unfold size; fold ts; lia|].
  cbn [rbind]. destruct (dsub_exact default_ctx e0 (f_closing f) w Hs (ic_closing _ _ Hf) Hw) as (d & -> & Hd & Hdu).
  { apply size_bound. unfold gap in Hb. lia. }
  exists d. split; [done|]. split; [done|]. split; [unfold gap; lia|done].
Qed.
Lemma line_like_total i delta us : Forall (line_on_scale e0) us -> on_scale e0 delta -> fits default_ctx (units e0 delta) ->
  (forall t, t ∈ us -> fits default_ctx (units e0 (x_amount t))) -> exists o, line_like i delta us = Ok o.
Proof using Hs.
  intros HF Hd Hfd. revert i. induction HF as [|t us [Ha _] _ IH]; intros i Hfu; cbn [line_like]; [by eexists|].
  destruct (dabs_exact default_ctx e0 (x_amount t) Hs Ha) as (a & -> & Has & _); [apply Hfu; left|]. cbn [rbind].
  destruct (dabs_exact default_ctx e0 delta Hs Hd Hfd) as (b & -> & Hbs & _). cbn [rbind]. rewrite (deq_units e0) by done. cbn [rbind].
  destruct (_ =? _)%Z; [by eexists|]. apply IH. intros u Hu. apply Hfu. by right.
Qed.
Lemma suggested_total delta : on_scale e0 delta -> units e0 delta = gap ->
  exists x, suggested ts delta = Ok x /\ (fd_status x = SUGGESTED \/ fd_status x = UNLOCALIZED).
Proof using Hs He Hf.
  intros Hd Hu. destruct gap_is as (_ & _ & _ & _ & Hb). unfold suggested.
  assert (Hfd : fits default_ctx (units e0 delta)) by (apply size_bound; lia).
  destruct (line_like_total 0 delta ts (ic_lines _ _ Hf) Hd Hfd) as (o & ->).
  { intros t Ht. apply size_bound. apply list_elem_of_In, In_nth_error in Ht as (j & Hj). pose proof (lines_size_elem e0 ts j t Hj) as Hl.
    unfold line_size, size in *. fold ts. destruct (x_running t); lia. }
  cbn [rbind]. destruct o as [[i t]|]; [eexists; split; [done|]; by left|].
  destruct (dabs_exact default_ctx e0 delta Hs Hd Hfd) as (b & -> & Hbs & Hbu). cbn [rbind].
  destruct (cents_total b Hbs) as (n & ->); [eapply fits_le; [apply (ic_fits _ _ Hf)|]; lia|]. cbn [rbind].
  destruct (_ =? 0)%Z; (eexists; split; [done|]); [by left|by right].
Qed.
(** What the printed chain decides. *)
Lemma via_is total delta : on_scale e0 total -> units e0 total = zsum (amounts e0 ts) -> forallb printed ts = true ->
  exists o, via_running_balance (f_opening f) (f_closing f) total ts delta = Ok o
  /\ match broken e0 0 (units e0 (f_opening f)) ts with
     | [] => exists last, o = Some (balance_misread (f_closing f) last delta) /\ on_scale e0 last
             /\ units e0 last = (units e0 (f_opening f) + zsum (amounts e0 ts))%Z
     | [i] => exists t d, nth_error ts i = Some t /\ on_scale e0 d
              /\ units e0 d = (running_units e0 0 t - before e0 (units e0 (f_opening f)) ts i)%Z
              /\ o = (if (units e0 (f_opening f) + (zsum (amounts e0 ts) - units e0 (x_amount t) + units e0 d) =? units e0 (f_closing f))%Z
                      then Some (amount_misread i t d delta) else None)
     | _ => o = None
     end.
Proof using Hs He Hf.
  intros Ht Hu Hp. set (p := units e0 (f_opening f)). pose proof (ic_lines _ _ Hf) as HF. fold ts in HF. unfold via_running_balance.
  destruct (walk_is e0 Hs (f_opening f) p ts 0 HF (ic_opening _ _ Hf) eq_refl Hp) as (last & -> & Hl & Hlu).
  { apply size_bound. unfold size. fold ts. pose proof (lines_size_nonneg e0 ts). unfold p. lia. }
  cbn [rbind fst snd]. pose proof (broken_ge e0 0 p ts) as HG. destruct (broken e0 0 p ts) as [|i [|j bs]] eqn:EB; [|..|by eexists].
  - eexists. split; [done|]. exists last. split; [done|]. split; [done|]. rewrite Hlu. apply follows_last. by apply (follows_broken e0 0).
  - apply Forall_cons in HG as [HG _]. destruct (nth_error ts i) as [t|] eqn:Et; [|apply nth_error_None in Et; lia].
    destruct (before_is e0 (f_opening f) p ts i t Et HF Hp (ic_opening _ _ Hf) eq_refl) as (b & Eb & Hb & Hbu & Hbb).
    rewrite forallb_forall in Hp. pose proof (Hp t (nth_error_In _ _ Et)) as Hpt. rewrite Forall_forall in HF.
    destruct (HF t) as [Hta Htr]; [by eapply list_elem_of_In, nth_error_In|]. unfold printed in Hpt. unfold running_units in *.
    destruct (x_running t) as [rb|] eqn:Er; [|done]. rewrite Eb. cbn [rbind].
    pose proof (lines_size_elem e0 ts i t Et) as Hle. unfold line_size in Hle. rewrite Er in Hle.
    pose proof (lines_size_mags e0 ts) as Hm. pose proof (zsum_mags (amounts e0 ts)) as Hz. pose proof (lines_size_nonneg e0 ts).
    destruct (dsub_exact default_ctx e0 rb b Hs Htr Hb) as (d & -> & Hd & Hdu); [apply size_bound; unfold size; fold ts; fold p; lia|]. cbn [rbind].
    destruct (dsub_exact default_ctx e0 total (x_amount t) Hs Ht Hta) as (y & -> & Hy & Hyu); [apply size_bound; unfold size; fold ts; lia|]. cbn [rbind].
    destruct (dadd_exact default_ctx e0 y d Hs Hy Hd) as (z & -> & Hzs & Hzu); [apply size_bound; unfold size; fold ts; fold p; lia|]. cbn [rbind].
    destruct (dadd_exact default_ctx e0 (f_opening f) z Hs (ic_opening _ _ Hf) Hzs) as (w & -> & Hw & Hwu); [apply size_bound; unfold size; fold ts; fold p; lia|]. cbn [rbind].
    rewrite (deq_units e0) by (done || apply Hf). cbn [rbind]. eexists. split; [done|]. exists t, d. rewrite Er. split; [done|]. split; [done|]. split; [lia|].
    f_equal. unfold p. rewrite Hwu, Hzu, Hyu, Hu. done.
Qed.
End Facts.
End Exact.

(** * Corrections are implied, never guessed

    The guarantees of ingest/diagnose.py and of the facts a held statement keeps. *)
(** One figure read otherwise: the closing, or one line's amount. *)
Definition one_figure_apart (f g : StatementFacts) : Prop :=
  exists d, g = with_closing f d \/ exists i t, nth_error (f_txns f) i = Some t /\ g = with_txns f (<[i := with_amount t d]> (f_txns f)).

Section Forced.
Context (e0 : Z) (f : StatementFacts).
Let p := units e0 (f_opening f).
Lemma mending_line i t d : forallb printed (f_txns f) = true -> nth_error (f_txns f) i = Some t ->
  consistent e0 (with_txns f (<[i := with_amount t d]> (f_txns f))) <->
  Forall (fun b => b = i) (broken e0 0 p (f_txns f)) /\ units e0 d = (running_units e0 0 t - before e0 p (f_txns f) i)%Z
  /\ (p + (zsum (amounts e0 (f_txns f)) - units e0 (x_amount t) + units e0 d))%Z = units e0 (f_closing f).
Proof using Type.
  intros Hp Hi. unfold consistent, reconciled. cbn [with_txns f_txns f_opening f_closing]. fold p. rewrite (mended e0 0 p _ i t d Hp Hi), amounts_insert by done.
  cbn [Nat.add]. split; [intros [[? ?] ?]|intros (? & ? & ?)]; repeat split; try done; lia.
Qed.
Lemma mending_closing d : forallb printed (f_txns f) = true ->
  consistent e0 (with_closing f d) <-> broken e0 0 p (f_txns f) = [] /\ units e0 d = (p + zsum (amounts e0 (f_txns f)))%Z.
Proof using Type. intros Hp. unfold consistent, reconciled. cbn [with_closing f_txns f_opening f_closing]. fold p. by rewrite (follows_broken e0 0). Qed.
Definition only_reading (g : StatementFacts) : Prop :=
  one_figure_apart f g /\ consistent e0 g
  /\ forall h, consistent e0 h -> f_opening h = f_opening f -> List.map x_running (f_txns h) = List.map x_running (f_txns f) ->
       amounts e0 (f_txns h) = amounts e0 (f_txns g) /\ units e0 (f_closing h) = units e0 (f_closing g).
Lemma only_line i t d : nth_error (f_txns f) i = Some t -> consistent e0 (with_txns f (<[i := with_amount t d]> (f_txns f))) ->
  only_reading (with_txns f (<[i := with_amount t d]> (f_txns f))).
Proof using Type.
  intros Hi Hc. split; [exists d; right; by exists i, t|]. split; [done|]. intros h Hh Ho Hr. apply consistent_unique; [done..|].
  cbn [with_txns f_txns]. by rewrite running_insert.
Qed.
Lemma only_closing d : consistent e0 (with_closing f d) -> only_reading (with_closing f d).
Proof using Type. intros Hc. split; [exists d; by left|]. split; [done|]. intros h Hh Ho Hr. by apply consistent_unique. Qed.
(** What a diagnosis that found the statement off answers. *)
Record answers_as (x : ReconciliationFinding) : Prop := {
  an_status : fd_status x <> NONE;
  an_forced : fd_status x = FORCED -> exists g, _apply_forced f x = Ok g /\ only_reading g;
  an_implied : (exists g, one_figure_apart f g /\ consistent e0 g) -> fd_status x = FORCED
}.
Lemma forced_closing last delta : forallb printed (f_txns f) = true -> on_scale e0 last -> broken e0 0 p (f_txns f) = [] ->
  units e0 last = (p + zsum (amounts e0 (f_txns f)))%Z -> answers_as (balance_misread (f_closing f) last delta).
Proof using Type.
  intros Hp Hl Hb Hu. split; [discriminate| |done]. intros _. exists (with_closing f last). split.
  - unfold _apply_forced, balance_misread. cbn [fd_kind fd_index fd_implied]. cbn. by rewrite (on_scale_text e0).
  - by apply only_closing, mending_closing.
Qed.
Lemma forced_line i t d delta : forallb printed (f_txns f) = true -> nth_error (f_txns f) i = Some t -> on_scale e0 d -> broken e0 0 p (f_txns f) = [i] ->
  units e0 d = (running_units e0 0 t - before e0 p (f_txns f) i)%Z ->
  (p + (zsum (amounts e0 (f_txns f)) - units e0 (x_amount t) + units e0 d))%Z = units e0 (f_closing f) -> answers_as (amount_misread i t d delta).
Proof using Type.
  intros Hp Hi Hd Hb Hu Hc. split; [discriminate| |done]. intros _. exists (with_txns f (<[i := with_amount t d]> (f_txns f))). split.
  - unfold _apply_forced, amount_misread. cbn [fd_kind fd_index fd_implied]. cbn -[insert]. rewrite Hi, (on_scale_text e0) by done. done.
  - apply only_line; [done|]. apply mending_line; [done..|]. rewrite Hb. repeat constructor; done.
Qed.
Lemma not_forced x : forallb printed (f_txns f) = true -> fd_status x = SUGGESTED \/ fd_status x = UNLOCALIZED ->
  (forall g, one_figure_apart f g -> ~ consistent e0 g) -> answers_as x.
Proof using Type.
  intros Hp Hx Hno. split; [by destruct Hx as [-> | ->]|by destruct Hx as [-> | ->]|]. intros (g & Hg & Hc). by apply Hno in Hc.
Qed.
Lemma diagnosis_answers x o delta : forallb printed (f_txns f) = true -> suggested (f_txns f) delta = Ok x ->
  fd_status x = SUGGESTED \/ fd_status x = UNLOCALIZED ->
  match broken e0 0 p (f_txns f) with
  | [] => exists last, o = Some (balance_misread (f_closing f) last delta) /\ on_scale e0 last /\ units e0 last = (p + zsum (amounts e0 (f_txns f)))%Z
  | [i] => exists t d, nth_error (f_txns f) i = Some t /\ on_scale e0 d
           /\ units e0 d = (running_units e0 0 t - before e0 p (f_txns f) i)%Z
           /\ o = (if (p + (zsum (amounts e0 (f_txns f)) - units e0 (x_amount t) + units e0 d) =? units e0 (f_closing f))%Z
                   then Some (amount_misread i t d delta) else None)
  | _ => o = None
  end -> exists y, match o with Some z => Ok z | None => suggested (f_txns f) delta end = Ok y /\ answers_as y.
Proof using Type.
  intros Hp Hx Hst Ho. destruct (broken e0 0 p (f_txns f)) as [|i [|j bs]] eqn:EB.
  - destruct Ho as (last & -> & Hl & Hu). eexists. split; [done|]. by apply forced_closing.
  - destruct Ho as (t & d & Hi & Hd & Hu & ->). destruct (Z.eqb_spec (p + (zsum (amounts e0 (f_txns f)) - units e0 (x_amount t) + units e0 d)) (units e0 (f_closing f))) as [E|E].
    + eexists. split; [done|]. by apply forced_line.
    + exists x. split; [done|]. apply not_forced; [done..|]. intros g (c & [->|(k & u & Hk & ->)]) Hc.
      * apply mending_closing in Hc as [Hc _]; [congruence|done].
      * apply mending_line in Hc as (H1 & H2 & H3); [|done..]. rewrite EB in H1. apply Forall_cons in H1 as [-> _].
        rewrite Hi in Hk. injection Hk as <-. rewrite H2, <- Hu in H3. done.
  - subst o. exists x. split; [done|]. apply not_forced; [done..|]. intros g (c & [->|(k & u & Hk & ->)]) Hc.
    + apply mending_closing in Hc as [Hc _]; [congruence|done].
    + apply mending_line in Hc as (H1 & _); [|done..]. rewrite EB in H1. apply Forall_cons in H1 as [-> H1]. apply Forall_cons in H1 as [-> _].
      pose proof (broken_sorted e0 0 p (f_txns f)) as HN. rewrite EB in HN. apply NoDup_cons in HN as [HN _]. apply HN. left.
Qed.
End Forced.

(** C24: a correction is forced exactly when one misread figure explains everything printed.
    Of a statement whose figures fit the arithmetic's precision, the diagnosis always
    returns; it finds nothing wrong exactly when opening and lines come to the closing; a
    forced correction changes one figure, makes the balance identity and every printed
    running balance agree, and no other reading of the figures would; and where one figure
    read otherwise would make both agree, on a statement with lines, the correction is
    forced. *)
Theorem forced_exactly_when_implied e0 f : scale_ok default_ctx e0 -> (e0 <= 0)%Z -> in_cents e0 f ->
  exists x, diagnose f = Ok x
    /\ (fd_status x = NONE <-> reconciled e0 f)
    /\ (fd_status x = FORCED -> exists g, _apply_forced f x = Ok g /\ one_figure_apart f g /\ consistent e0 g
          /\ forall h, consistent e0 h -> f_opening h = f_opening f -> List.map x_running (f_txns h) = List.map x_running (f_txns f) ->
               amounts e0 (f_txns h) = amounts e0 (f_txns g) /\ units e0 (f_closing h) = units e0 (f_closing g))
    /\ (~ reconciled e0 f -> f_txns f <> [] -> (exists g, one_figure_apart f g /\ consistent e0 g) -> fd_status x = FORCED).
Proof.
  intros Hs He Hf. destruct (total_is e0 Hs He f Hf) as (total & Ht & Hts & Htu). destruct (gap_is e0 Hs He f Hf) as (d & Hd & Hds & Hdu & _).
  unfold diagnose. rewrite Ht, Hd. cbn [rbind]. rewrite (deq_units e0) by (done || exact He). change (units e0 dzero) with 0%Z. cbn [rbind].
  destruct (Z.eqb_spec (units e0 d) 0) as [E|E].
  { eexists. split; [done|]. split; [split; [intros _; unfold reconciled; lia|done]|]. split; [done|]. intros Hn. exfalso. apply Hn. unfold reconciled. lia. }
  assert (Hn : ~ reconciled e0 f) by (unfold reconciled; lia).
  destruct (suggested_total e0 Hs He f Hf d Hds Hdu) as (x & Hx & Hst).
  assert (Hsug : fd_status x <> FORCED /\ fd_status x <> NONE) by (destruct Hst as [-> | ->]; split; discriminate).
  destruct (forallb printed (f_txns f)) eqn:Ep.
  2:{ exists x. replace (printed_chain (f_txns f)) with false by (unfold printed_chain; fold printed; by rewrite Ep, andb_false_r).
      cbn [rbind]. split; [done|]. split; [split; [by intros ?%Hsug|done]|]. split; [by intros ?%Hsug|].
      intros _ _ (g & (c & [->|(i & t & Hi & ->)]) & Hc & _); apply follows_printed in Hc; cbn [with_closing with_txns f_txns f_opening] in Hc; [congruence|].
      rewrite printed_insert in Hc by done. congruence. }
  destruct (bool_decide (f_txns f = [])) eqn:Eb.
  { exists x. unfold printed_chain. rewrite Eb. cbn [negb andb rbind]. split; [done|]. split; [split; [by intros ?%Hsug|done]|]. split; [by intros ?%Hsug|].
    apply bool_decide_eq_true in Eb. done. }
  replace (printed_chain (f_txns f)) with true by (unfold printed_chain; fold printed; by rewrite Eb, Ep).
  destruct (via_is e0 Hs He f Hf total d Hts Htu Ep) as (o & -> & Ho). cbn [rbind].
  destruct (diagnosis_answers e0 f x o d Ep Hx Hst Ho) as (y & -> & [A1 A2 A3]). exists y. split; [done|].
  split; [by split|]. split; [exact A2|]. intros _ _. exact A3.
Qed.

(** ** A misread month *)
Definition cents (z : Z) : decimal := Fin (z <? 0)%Z (Z.abs_N z) (-2).
Definition printed_line (date description : string) (amount : Z) (running : option Z) : TxnFact :=
  mkTxn date description (cents amount) (JInt 1) (cents <$> running) "" "" "" "" "".
(** A checking statement, from its opening to its closing. *)
Definition checking (doc from_ until : string) (opening closing : Z) (ts : list TxnFact) : StatementFacts :=
  mkFacts doc "checking_statement" (JFloat "0.9") "CHK 4821" "USD" (cents opening) from_ (cents closing) until ts (JInt 1) (JInt 2) "" "Northgate" ["A Person"]
    "" JNull JNull JNull.
Definition january : StatementFacts :=
  checking "d1" "2026-01-01" "2026-01-31" 10000 8500
    [printed_line "2026-01-10" "Grocer" (-2500) (Some 7500); printed_line "2026-01-20" "Refund" 1000 (Some 8500)]%Z.
(** The same, with the refund of 10.00 read as 100.00. *)
Definition january_misread : StatementFacts :=
  checking "d1" "2026-01-01" "2026-01-31" 10000 8500
    [printed_line "2026-01-10" "Grocer" (-2500) (Some 7500); printed_line "2026-01-20" "Refund" 10000 (Some 8500)]%Z.
Lemma statement_scale : scale_ok default_ctx (-2).
Proof. unfold scale_ok. split; [split|]; vm_compute; discriminate. Qed.
Lemma misread_in_cents : in_cents (-2) january_misread.
Proof. split; [by vm_compute..| |by vm_compute]. repeat constructor; by vm_compute. Qed.
Lemma forced_exactly_when_implied_witness : exists x, diagnose january_misread = Ok x /\ fd_status x = FORCED
  /\ exists g, _apply_forced january_misread x = Ok g /\ one_figure_apart january_misread g /\ consistent (-2) g.
Proof.
  destruct (forced_exactly_when_implied (-2) january_misread statement_scale ltac:(lia) misread_in_cents) as (x & Hx & _ & Hforced & _).
  exists x. split; [exact Hx|]. assert (E : fd_status x = FORCED) by (vm_compute in Hx; injection Hx as <-; reflexivity). split; [exact E|].
  destruct (Hforced E) as (g & Hg & H1 & H2 & _). by exists g.
Defined.
