(* ===== verification/StatementPosting.v ===== *)
(** * StatementPosting: product/viva/ingest/statement_projector.py

    The ladder a read statement goes down before anything is booked, over the books it is
    booked in: the core of [Overlays], the accounts of [Accounts], and what projection/core.py
    keeps of captured statements (posted documents, holds and claimed periods, read by
    projection/coverage.py).  An append folds the event; a handler that raises keeps what it
    appended before.  Results are without their sentences; the identities of events and the
    token of an opaque key are arguments. *)
From Stdlib Require Import ZArith NArith Ascii String Lia ZifyBool ZifyN ZifyNat.
From stdpp Require Import base list numbers strings.
From S2P Require Import Prelude Text Words Json Unicode Dates Decimals Floats Arithmetic Acquisition Events EventTypes Postings Dictionaries Accounts Normalize Identity Registry Overlays Merchants Movements Transfers Statements.
#[local] Open Scope string_scope.

(** ** The books *)
Record books := mkBooks
  { bk_core : core; bk_accounts : accounts; bk_posted : list string; bk_held : list (string * json);
    bk_periods : list ((string * string) * (string * string)); bk_log : list Event }.
Definition empty_books (allocations : list (string * decimal)) : books := mkBooks (empty_core allocations) [] [] [] [] [].
Record coverage := mkCoverage
  { cv_posted : list string; cv_held : list (string * json); cv_periods : list ((string * string) * (string * string)) }.
Definition coverage_of (b : books) : coverage := mkCoverage (bk_posted b) (bk_held b) (bk_periods b).
Definition add_posted (did : string) (l : list string) : list string := if String.eqb did "" || in_words did l then l else (l ++ [did])%list.
Definition apply_coverage (v : coverage) (e : Event) : res coverage :=
  let? et := text (event_type e) in
  let? at_ := text (occurred_at e) in
  let? did := text (doc_of e) in
  if in_words et ["OpeningBalanceObserved"; "PositionObserved"; "TransactionRecorded"] then
    Ok (mkCoverage (add_posted did (cv_posted v)) (cv_held v) (cv_periods v))
  else if String.eqb et "ClosingBalanceObserved" then
    let? a := body_item e "account_id" in
    let? amount := body_item e "amount" in
    if String.eqb did "" then Ok v
    else Ok (mkCoverage (add_posted did (cv_posted v)) (cv_held v)
               (match assoc_get (cv_periods v) (a, at_) with
                | Some _ => cv_periods v
                | None => assoc_set (cv_periods v) (a, at_) (did, amount)
                end))
  else if String.eqb et "StatementHeld" then
    let? r := py_get (body e) "reason" in
    let? d := body_item e "doc_id" in
    if py_eq_str r "activity" then Ok v
    else Ok (mkCoverage (cv_posted v) (dict_set (cv_held v) d (body e)) (cv_periods v))
  else Ok v.
Definition posted_period (b : books) (a day : string) : option (string * string) := assoc_get (bk_periods b) (a, day).
Definition captured (b : books) (doc : string) : bool := has_key_in doc (g_captured (k_registry (bk_core b))).
Definition open_holds (b : books) : list json :=
  List.map snd (List.filter (fun p => negb (in_words p.1 (bk_posted b))) (bk_held b)).
Definition gap_holds (b : books) : list json := List.filter (fun v => match py_get v "reason" with Ok r => py_eq_str r "gap" | Raise _ => false end) (open_holds b).

(** ** Results *)
Definition POSTED : string := "posted".
Definition DUPLICATE : string := "duplicate".
Definition CONFLICT : string := "conflict".
Definition GAP : string := "gap".
Definition IDENTITY : string := "identity".
Record IngestResult := mkIngest
  { i_doc : string; i_action : string; i_type : string; i_account : option string; i_grade : option string; i_recon : option CheckResult;
    i_finding : option ReconciliationFinding; i_corrected : bool }.

(** ** Whose it is *)
Definition reason_text (r : Resolution) : string :=
  match res_reason r with
  | None => ""
  | Some NumberSignalsDisagree =>
      "the extracted account number and the printed last four disagree, so neither can safely identify the account"
  | Some DigitsMatchWeakly =>
      "the trailing digits and institution match " ++ res_candidate_name r
      ++ ", but the holder or product evidence is not strong enough to merge them safely"
  | Some DigitsMatchSeveral =>
      "the available trailing digits identify more than one account, and this statement does not contain enough information to choose safely"
  | Some ReferenceConflicts => "the printed account reference identifies conflicting or multiple accounts"
  | Some HolderMatches => "a holder name matches " ++ res_candidate_name r ++ ", and nothing stronger tells them apart"
  end.
Section Identity.
Context `{word_table : WordTable}.
Definition _source_identity (f : StatementFacts) : option SourceAccountIdentity :=
  let claim := mk_source_identity (JStr (f_source_ref f)) (JStr (f_doc f)) (f_source_page f) (f_page_count f) in
  if eligible claim then Some claim else None.
(** [reference_event]: of an account, at the first page that printed its reference. *)
Definition reference_event (fresh account_ reference dated doc : string) (page_ count_ : json) : res Event :=
  let? _ := raise_if (blank doc || match page_ with JInt n => (n <? 1)%Z | _ => true end) ValueError in
  let? _ := raise_if (blank account_ || blank reference) ValueError in
  let? _ := raise_if (negb (iso_date dated)) ValueError in
  let? _ := raise_if (negb (bool_decide (count_ = JNull)) && negb (eligible (mk_source_identity (JStr reference) (JStr doc) page_ count_))) ValueError in
  Ok (event fresh "FinancialAccountReferenceObserved" dated
        ([("account_id", JStr account_); ("reference", JStr reference); ("scope", JStr "account")] ++ given_key "identity_page_count" count_)%list
        (mkProvenance (JStr doc) page_ (JStr "") (JStr ""))).
End Identity.

Section Posting.
Context `{case_map : CaseMap} `{word_table : WordTable} `{desc : Descriptors}.
(** The identity of the n-th event of the log, the token of a minted key, and the grammar of a movement. *)
Context (fresh : nat -> string) (token : string) (pf : MovementInfo -> res (option DescriptorProfile)).

Definition apply_books (b : books) (e : Event) : res books :=
  let? c := apply_core (bk_core b) e in
  let? a := apply_account (bk_accounts b) e in
  let? v := apply_coverage (coverage_of b) e in
  Ok (mkBooks c a (cv_posted v) (cv_held v) (cv_periods v) (bk_log b ++ [e])%list).
Definition next_id (b : books) : string := fresh (List.length (bk_log b)).
(** [ledger.append(make(...))]. *)
Definition append (make : string -> res Event) : M books unit :=
  fun b => match (let? e := make (next_id b) in apply_books b e) with
           | Ok b' => (Ok tt, b')
           | Raise x => (Raise x, b)
           end.
Fixpoint append_each (l : list (string -> res Event)) : M books unit :=
  match l with [] => mret tt | make :: r => run! append make; append_each r end.

Definition signals_of (f : StatementFacts) : Signals :=
  mkSignals (f_institution f) (f_number f) (f_ref f) (f_names f) (account_kind_for (f_type f)) (f_doc f) (f_currency f) (_source_identity f).
Definition _resolve (b : books) (f : StatementFacts) : Resolution := resolve (k_registry (bk_core b)) (signals_of f).
Definition _account_for_resolution (b : books) (r : Resolution) (kind_ : string) : string :=
  if bool_decide (res_verdict r = New) && seen_account (k_registry (bk_core b)) (res_account r) then opaque_account_key token kind_
  else res_account r.
Definition _record_stronger_identity (f : StatementFacts) (a : string) : M books unit :=
  if negb (full_number (f_number f)) then mret tt
  else
    do! b <- mget;
    match account_info (k_registry (bk_core b)) a with
    | Raise UnknownAccountError => mret tt
    | Raise x => mraise x
    | Ok known =>
        if full_number (r_number known) then mret tt
        else append (fun id => Ok (account_identity_observed id a (f_closing_date f) (f_institution f) (f_number f) (f_names f)
                                     (Some (Provenance_doc (f_doc f)))))
    end.
(** Where a reconciled statement joins its account's chain. *)
Inductive Joins := Forward | Backward | Apart.
Definition same_as (d : decimal) (o : option decimal) : res bool := match o with Some x => deq d x | None => Ok false end.
Definition _connects (f : StatementFacts) (b : books) (a : string) : res Joins :=
  let? held := running_balance (bk_accounts b) a in
  let? fwd := same_as (f_opening f) held in
  if fwd then Ok Forward
  else let? back := same_as (f_closing f) (earliest_opening (bk_accounts b) a) in
       Ok (if back then Backward else Apart).

(** ** The post gate *)
Definition hold (f : StatementFacts) (finding : json) (reason : string) : M books unit :=
  append (fun id => Ok (statement_held id (f_doc f) (StatementFacts_to_dict f) finding reason (f_closing_date f) (Some (Provenance_doc (f_doc f))))).
Definition result_of (f : StatementFacts) (action : string) (a g : option string) (recon : option CheckResult)
    (x : option ReconciliationFinding) (corrected : bool) : IngestResult := mkIngest (f_doc f) action (f_type f) a g recon x corrected.
Definition reissue (f : StatementFacts) (prior_doc prior_closing : string) : json :=
  JObj [("kind", JStr "reissue"); ("prior_doc_id", JStr prior_doc); ("prior_closing", JStr prior_closing);
        ("closing", JStr (dec_str (f_closing f))); ("period_end", JStr (f_closing_date f));
        ("message", JStr "another statement already covers this period")].
Definition _period_already_posted (f : StatementFacts) (a : string) : M books (option IngestResult) :=
  do! b <- mget;
  match posted_period b a (f_closing_date f) with
  | None => mret None
  | Some (prior_doc, prior_closing) =>
      if String.eqb (dec_str (f_closing f)) prior_closing then mret (Some (result_of f DUPLICATE (Some a) None None None false))
      else run! hold f (reissue f prior_doc prior_closing) "reissue";
           mret (Some (result_of f CONFLICT (Some a) (Some CONFLICTED) None None false))
  end.
Definition identity_finding (r : Resolution) : json :=
  JObj [("kind", JStr "identity"); ("candidate", JStr (res_candidate r)); ("candidate_name", JStr (res_candidate_name r));
        ("candidates", words (res_candidates r)); ("key", JStr (res_key r)); ("message", JStr (reason_text r))].
Definition opening_event (f : StatementFacts) (a id : string) : res Event :=
  opening_balance_observed id a (NumDec (f_opening f)) (f_opening_date f) (Some (opening_provenance f)).
Definition opened_event (f : StatementFacts) (a kind_ id : string) : res Event :=
  account_opened id a kind_ (if String.eqb (f_ref f) "" then a else f_ref f) (f_currency f) (f_opening_date f) "" (f_institution f)
    (f_number f) (f_names f) ISSUED None.
Definition line_event (f : StatementFacts) (a kind_ : string) (t : TxnFact) (id : string) : res Event :=
  simple_transaction id a (NumDec (x_amount t)) (x_description t) (x_date t) [] (Some (txn_provenance t (f_doc f)))
    (if String.eqb (x_grade t) "" then VERIFIED else x_grade t) kind_ (JStr (x_reference t)) (JStr (x_counterparty t)).
Definition closing_event (f : StatementFacts) (a by_ id : string) : res Event :=
  closing_balance_observed id a (NumDec (f_closing f)) (f_closing_date f) (Some (closing_provenance f)) by_.
Definition record_reference (f : StatementFacts) (a : string) : M books unit :=
  if String.eqb (f_source_ref f) "" || bool_decide (f_source_page f = JNull) then mret tt
  else
    do! b <- mget;
    let count_ := match _source_identity f with Some _ => if captured b (f_doc f) then f_page_count f else JNull | None => JNull end in
    append (fun id => reference_event id a (f_source_ref f) (f_opening_date f) (f_doc f) (f_source_page f) count_).
(** The lines, then the closing they come to. *)
Definition book_lines (f : StatementFacts) (a kind_ by_ : string) : M books unit :=
  run! append_each (List.map (line_event f a kind_) (f_txns f));
  run! append (closing_event f a by_);
  record_reference f a.
Definition posted_result (f : StatementFacts) (a by_ : string) (recon : CheckResult) (x : option ReconciliationFinding) (corrected : bool) : IngestResult :=
  result_of f POSTED (Some a) (Some (if String.eqb by_ "human" then VERIFIED else CORROBORATED)) (Some recon) x corrected.
(** Onto the account it is of: seeded, stitched on, filled in before, or held as a gap. *)
Definition post_onto (f : StatementFacts) (a : string) (recon : CheckResult) (x : option ReconciliationFinding) (corrected : bool) (by_ : string)
    : M books IngestResult :=
  let kind_ := account_kind_for (f_type f) in
  run! _record_stronger_identity f a;
  do! already <- _period_already_posted f a;
  match already with
  | Some out => mret out
  | None =>
      do! b <- mget;
      if negb (is_seeded (bk_accounts b) a) then
        run! append (opened_event f a kind_);
        run! append (opening_event f a);
        run! book_lines f a kind_ by_;
        mret (posted_result f a by_ recon x corrected)
      else
        do! how <- mlift (_connects f b a);
        match how with
        | Forward => run! book_lines f a kind_ by_; mret (posted_result f a by_ recon x corrected)
        | Backward => run! append (opening_event f a); run! book_lines f a kind_ by_; mret (posted_result f a by_ recon x corrected)
        | Apart => run! hold f JNull "gap"; mret (result_of f GAP (Some a) (Some CONFLICTED) (Some recon) None false)
        end
  end.
Definition _post_reconciled (f : StatementFacts) (recon : CheckResult) (x : option ReconciliationFinding) (corrected : bool) (by_ : string)
    : M books IngestResult :=
  do! b <- mget;
  let r := _resolve b f in
  if bool_decide (res_verdict r = Ambiguous) then
    run! hold f (identity_finding r) "identity";
    mret (result_of f IDENTITY (if String.eqb (res_candidate r) "" then None else Some (res_candidate r)) (Some CONFLICTED) None None false)
  else post_onto f (_account_for_resolution b r (account_kind_for (f_type f))) recon x corrected by_.

(** ** The ladder *)
Definition _name (b : books) (a : string) : string :=
  match account_info (k_registry (bk_core b)) a with Ok st => if String.eqb (r_name st) "" then a else r_name st | Raise _ => a end.
Definition supplied_leg (b : books) (negative : bool) (m : MovementInfo) : res TxnFact :=
  let? size_ := dabs default_ctx (m_amount m) in
  let? amount := dmul default_ctx (Fin negative 1 0) size_ in
  let? doc := text (doc_id (m_provenance m)) in
  Ok (mkTxn (m_date m) ("Payment (corroborated by " ++ _name b (m_account m) ++ ")") amount JNull None doc CORROBORATED
        "supplied by cross-document corroboration; attested by the counterparty statement, not read from this document" "" "").
Definition join_text (sep : string) (l : list string) : string :=
  match l with [] => "" | x :: r => List.fold_left (fun s y => s ++ sep ++ y) r x end.
Definition cross_document (b : books) (delta : decimal) (legs : list MovementInfo) : ReconciliationFinding :=
  let n := number_text (List.length legs) in
  let who := join_text ", " (sorted_set (List.map (fun m => _name b (m_account m)) legs)) in
  mkFinding false "cross_document" FORCED (dec_str delta)
    ("This statement was off by " ++ dec_str delta ++ "; " ++ n ++ " matching movement(s) on your " ++ who
     ++ " attest the missing line(s). I supplied them (corroborated) and linked them as transfers — this document's own read was incomplete.")
    (n ++ " missing leg(s) supplied from " ++ who) None None (Some (dec_str delta)) "0.95".
(** What [link_transfers] appends. *)
Definition link_pairs : M books unit :=
  do! b <- mget;
  do! st <- mlift (scan (fun n => fresh (List.length (bk_log b) + n)) pf (bk_core b));
  append_each (List.map (fun e _ => Ok e) (sc_events st)).
Definition missing_legs (b : books) (f : StatementFacts) (a : string) (delta : decimal) : res (list MovementInfo) :=
  find_corroborating_legs (bk_core b) a (account_kind_for (f_type f)) delta (f_currency f) (f_opening_date f) (f_closing_date f)
    (Some (account_tokens (f_institution f) (f_number f) (f_ref f))).
Definition _try_corroboration (f : StatementFacts) : M books (option IngestResult) :=
  do! b <- mget;
  let r := _resolve b f in
  if bool_decide (res_verdict r = Ambiguous) then mret None
  else
    do! delta <- mlift (_gap_delta f);
    do! legs <- mlift (missing_legs b f (res_account r) delta);
    match legs with
    | [] => mret None
    | _ =>
        do! down <- mlift (dlt delta dzero);
        do! supplied <- mlift (rmap (supplied_leg b down) legs);
        let g := with_txns f (f_txns f ++ supplied)%list in
        do! recon <- mlift (_reconciles g);
        if negb (passed recon) then mret None
        else
          do! out <- _post_reconciled g recon (Some (cross_document b delta legs)) true "";
          run! mwhen (String.eqb (i_action out) POSTED) link_pairs;
          mret (Some out)
    end.
Definition post_statement (f : StatementFacts) (by_ : string) : M books IngestResult :=
  do! recon <- mlift (_reconciles f);
  if passed recon then _post_reconciled f recon None false by_
  else
    do! x <- mlift (diagnose f);
    do! forced <- (if String.eqb (fd_status x) FORCED then
                     do! g <- mlift (_apply_forced f x);
                     do! recon2 <- mlift (_reconciles g);
                     if passed recon2 then do! out <- _post_reconciled g recon2 (Some x) true ""; mret (Some out) else mret None
                   else mret None);
    match forced with
    | Some out => mret out
    | None =>
        do! corroborated <- _try_corroboration f;
        match corroborated with
        | Some out => mret out
        | None =>
            run! hold f (Finding_to_dict x) "conflict";
            do! b <- mget;
            let r := _resolve b f in
            mret (result_of f CONFLICT (if bool_decide (res_verdict r = Same) then Some (res_account r) else None) (Some CONFLICTED)
                    (Some recon) (Some x) false)
        end
    end.

(** ** Healing *)

(** The first hold not tried yet that a test lets through. *)
Fixpoint first_hold (test : StatementFacts -> res bool) (attempted : list string) (l : list json) : res (option (string * StatementFacts)) :=
  match l with
  | [] => Ok None
  | v :: r =>
      let? doc := item_text v "doc_id" in
      if in_words doc attempted then first_hold test attempted r
      else
        let? facts := py_get v "facts" in
        let? family := identity_of_facts facts in
        if negb (String.eqb family BALANCE_IDENTITY) then first_hold test attempted r
        else
        let? w := py_getitem v "facts" in
        let? f := StatementFacts_from_dict w in
        let? fits_ := test f in
        if fits_ then Ok (Some (doc, f)) else first_hold test attempted r
  end.
Definition stitches (b : books) (f : StatementFacts) : res bool :=
  let r := _resolve b f in
  if bool_decide (res_verdict r = Ambiguous) then Ok false
  else let? how := _connects f b (res_account r) in Ok (match how with Apart => false | _ => true end).
Definition attested (b : books) (f : StatementFacts) : res bool :=
  let r := _resolve b f in
  if bool_decide (res_verdict r = Ambiguous) then Ok false
  else
    let? delta := _gap_delta f in
    let? legs := missing_legs b f (res_account r) delta in
    Ok (negb (bool_decide (List.length legs = 0%nat))).
Definition conflict_holds (b : books) : list json :=
  List.filter (fun v => match py_get v "reason" with Ok r => py_eq_str r "conflict" | Raise _ => false end) (open_holds b).
Fixpoint heal (fuel : nat) (holds : books -> list json) (test : books -> StatementFacts -> res bool) (attempted : list string) (n : nat)
    : M books (option nat) :=
  match fuel with
  | O => mret None
  | S k =>
      do! b <- mget;
      do! found <- mlift (first_hold (test b) attempted (holds b));
      match found with
      | None => mret (Some n)
      | Some (doc, f) =>
          do! out <- post_statement f "";
          heal k holds test (doc :: attempted) (if String.eqb (i_action out) POSTED then S n else n)
      end
  end.
(** One turn for each document held, and one that finds nothing. *)
Definition turns (b : books) : nat := S (List.length (bk_held b)).
Definition heal_gaps : M books (option nat) := do! b <- mget; heal (turns b) gap_holds stitches [] 0.
Definition heal_corroboration : M books (option nat) := do! b <- mget; heal (turns b) conflict_holds attested [] 0.
End Posting.
