(* ===== verification/PostingLaws.v ===== *)
(** * PostingLaws: what posting a statement appends

    The events each rung of the ladder appends, read off a run that returned; what the books
    keep of them, claimed periods, holds and the balances of an account; and why healing
    ends. *)
From Stdlib Require Import ZArith NArith Ascii String Lia ZifyBool ZifyN ZifyNat.
From stdpp Require Import base list numbers strings.
From S2P Require Import TransferLaws Prelude Text Words Json Unicode Dates Decimals Floats Arithmetic Acquisition Events EventTypes Postings Dictionaries Normalize Identity Registry Overlays Merchants Movements Transfers Accounts BalanceLaws BalanceProperties Statements StatementProperties StatementPosting.
#[local] Open Scope string_scope.
#[local] Open Scope list_scope.

Section Laws.
Context `{case_map : CaseMap} `{word_table : WordTable} `{desc : Descriptors}.
Context (fresh : nat -> string) (token : string) (pf : MovementInfo -> res (option DescriptorProfile)).

(** ** Runs that returned *)
Lemma bind_get {S B} (k : S -> M S B) s o s' : mbind mget k s = (Ok o, s') -> k s s = (Ok o, s').
Proof using Type. done. Qed.
Lemma bind_lift {S A B} (r : res A) (k : A -> M S B) s o s' : mbind (mlift r) k s = (Ok o, s') -> exists a, r = Ok a /\ k a s = (Ok o, s').
Proof using Type. intros (a & s1 & [= -> ->] & H)%mbind_ok. by exists a. Qed.

(** ** Appends *)
Definition appended (b : books) (es : list Event) (b' : books) : Prop := rfold apply_books es b = Ok b'.
Lemma apply_books_log b e b' : apply_books b e = Ok b' -> bk_log b' = bk_log b ++ [e].
Proof using Type. unfold apply_books. intros H. run_ok. by subst. Qed.
Lemma appended_log b es b' : appended b es b' -> bk_log b' = bk_log b ++ es.
Proof using Type.
  unfold appended. revert b. induction es as [|e es IH]; intros b H; cbn [rfold] in H; run_ok; [by subst; rewrite app_nil_r|].
  rewrite (IH _ H), (apply_books_log _ _ _ E), <- app_assoc. done.
Qed.
Lemma appended_nil b : appended b [] b.
Proof using Type. done. Qed.
Lemma appended_app b es b1 es' b2 : appended b es b1 -> appended b1 es' b2 -> appended b (es ++ es') b2.
Proof using Type. unfold appended. intros H1 H2. rewrite rfold_app, H1. exact H2. Qed.
Lemma append_wrote make b u b' : append fresh make b = (Ok u, b') -> exists id e, make id = Ok e /\ appended b [e] b'.
Proof using Type.
  unfold append. destruct (make (next_id fresh b)) as [e|] eqn:E; cbn [rbind]; [|done]. destruct (apply_books b e) as [b1|] eqn:E1; [|done].
  intros [= <- <-]. exists (next_id fresh b), e. split; [done|]. unfold appended. cbn [rfold]. by rewrite E1.
Qed.
Definition made (make : string -> res Event) (e : Event) : Prop := exists id, make id = Ok e.
Lemma append_each_wrote makes : forall b u b', append_each fresh makes b = (Ok u, b') -> exists es, Forall2 made makes es /\ appended b es b'.
Proof using Type.
  induction makes as [|make makes IH]; cbn [append_each]; intros b u b' H; run_ok; [subst; by exists []|].
  apply append_wrote in E as (id & e & He & Ha). destruct (IH _ _ _ H) as (es & HF & Hes). exists (e :: es). split; [constructor; [by exists id|done]|].
  by apply (appended_app b [e] s es b').
Qed.
Definition of_type (t : string) (e : Event) : Prop := event_type e = JStr t.
(** A hold of a document, and the events that move no money: that, and a number learnt of an account. *)
Definition hold_of (doc : string) (e : Event) : Prop := exists id g x reason, f_doc g = doc
  /\ e = statement_held id (f_doc g) (StatementFacts_to_dict g) x reason (f_closing_date g) (Some (Provenance_doc (f_doc g))).
Definition quiet (doc : string) (e : Event) : Prop := hold_of doc e \/ of_type "AccountIdentityObserved" e.
Lemma hold_wrote f x reason b u b' : hold fresh f x reason b = (Ok u, b') -> exists e, hold_of (f_doc f) e /\ appended b [e] b'.
Proof using Type. unfold hold. intros (id & e & [= <-] & H)%append_wrote. eexists. split; [|exact H]. by exists id, f, x, reason. Qed.
Lemma stronger_wrote f a b u b' : _record_stronger_identity fresh f a b = (Ok u, b') ->
  exists es, Forall (of_type "AccountIdentityObserved") es /\ appended b es b'.
Proof using Type.
  unfold _record_stronger_identity. destruct (negb _); intros H; run_ok; [subst; by exists []|]. unfold mget in E. injection E as <- <-.
  destruct (account_info _ a) as [known|x] eqn:Ek.
  - destruct (full_number _); [run_ok; subst; by exists []|]. apply append_wrote in H as (id & e & [= <-] & H). eexists. split; [|exact H]. by repeat constructor.
  - destruct x; try done; run_ok; subst; by exists [].
Qed.
Lemma reference_wrote f a b u b' : record_reference fresh f a b = (Ok u, b') ->
  exists es, Forall (of_type "FinancialAccountReferenceObserved") es /\ appended b es b'.
Proof using Type.
  unfold record_reference. destruct (_ || _); intros H; run_ok; [subst; by exists []|]. unfold mget in E. injection E as <- <-.
  apply append_wrote in H as (id & e & He & H). unfold reference_event in He. run_ok. subst. eexists. split; [|exact H]. by repeat constructor.
Qed.
(** What booking a statement's lines on an account appends. *)
Record lines_of (f : StatementFacts) (a kind_ by_ : string) (es : list Event) : Prop := {
  li_parts : exists lines close refs, es = lines ++ close :: refs /\ Forall2 made (List.map (line_event f a kind_) (f_txns f)) lines
    /\ made (closing_event f a by_) close /\ Forall (of_type "FinancialAccountReferenceObserved") refs
}.
Lemma book_lines_wrote f a kind_ by_ b u b' : book_lines fresh f a kind_ by_ b = (Ok u, b') ->
  exists es, lines_of f a kind_ by_ es /\ appended b es b'.
Proof using Type.
  unfold book_lines. intros H. run_ok. apply append_each_wrote in E as (lines & HF & Hl). apply append_wrote in E0 as (id & close & Hc & Hca).
  apply reference_wrote in H as (refs & Hr & Hra). exists (lines ++ close :: refs). split.
  - split. exists lines, close, refs. split; [done|]. split; [done|]. split; [by exists id|done].
  - apply (appended_app b lines s (close :: refs) b' Hl). by apply (appended_app s [close] s0 refs b').
Qed.

(** ** The post gate *)
Inductive seated (f : StatementFacts) (a kind_ : string) (b : books) : list Event -> Prop :=
  | seat_new e e' : is_seeded (bk_accounts b) a = false -> made (opened_event f a kind_) e -> made (opening_event f a) e' -> seated f a kind_ b [e; e']
  | seat_forward : is_seeded (bk_accounts b) a = true -> _connects f b a = Ok Forward -> seated f a kind_ b []
  | seat_backward e : is_seeded (bk_accounts b) a = true -> _connects f b a = Ok Backward -> made (opening_event f a) e -> seated f a kind_ b [e].
(** A statement booked on an account: a number learnt of it, how it joins, its lines. *)
Record booked (f : StatementFacts) (by_ a : string) (b b' : books) : Prop := {
  bo_parts : exists known b1 seat lines, Forall (of_type "AccountIdentityObserved") known /\ appended b known b1
    /\ posted_period b1 a (f_closing_date f) = None /\ seated f a (account_kind_for (f_type f)) b1 seat
    /\ lines_of f a (account_kind_for (f_type f)) by_ lines /\ appended b1 (seat ++ lines) b'
}.
Definition held_back (doc : string) (out : IngestResult) (b b' : books) : Prop :=
  i_action out <> POSTED /\ exists es, Forall (quiet doc) es /\ appended b es b'.
Lemma quiet_known doc es : Forall (of_type "AccountIdentityObserved") es -> Forall (quiet doc) es.
Proof using Type. intros H. eapply Forall_impl; [exact H|]. by right. Qed.
Lemma period_wrote f a b o b' : _period_already_posted fresh f a b = (Ok o, b') ->
  match o with
  | None => b' = b /\ posted_period b a (f_closing_date f) = None
  | Some out => posted_period b a (f_closing_date f) <> None /\ held_back (f_doc f) out b b'
  end.
Proof using Type.
  unfold _period_already_posted. intros H. run_ok. unfold mget in E. injection E as <- <-.
  destruct (posted_period b a (f_closing_date f)) as [[doc c]|]; [|run_ok; by subst]. destruct (String.eqb _ _); run_ok; subst.
  - split; [done|]. split; [done|]. by exists [].
  - apply hold_wrote in E as (e & He & Ha). split; [done|]. split; [done|]. exists [e]. split; [by apply Forall_singleton; left|done].
Qed.
Lemma held_after known doc out b b1 b' : Forall (of_type "AccountIdentityObserved") known -> appended b known b1 -> held_back doc out b1 b' -> held_back doc out b b'.
Proof using Type.
  intros HF Ha [Hn (es & Hes & Hb)]. split; [done|]. exists (known ++ es). split; [apply Forall_app; split; [by apply quiet_known|done]|].
  by apply (appended_app b known b1 es b').
Qed.
Lemma post_onto_wrote f a recon x corrected by_ b out b' : post_onto fresh f a recon x corrected by_ b = (Ok out, b') ->
  held_back (f_doc f) out b b' \/ (i_action out = POSTED /\ i_account out = Some a /\ booked f by_ a b b').
Proof using Type.
  unfold post_onto. intros H. apply mbind_ok in H as (u & b1 & E & H). apply stronger_wrote in E as (known & Hk & Hka).
  apply mbind_ok in H as (o & b2 & E & H). apply period_wrote in E. destruct o as [o|].
  { run_ok. subst. left. destruct E as [_ E]. by apply (held_after known _ _ b b1). }
  destruct E as [-> Hp]. apply bind_get in H.
  assert (Hbook : forall seat b2 lines, seated f a (account_kind_for (f_type f)) b1 seat -> appended b1 seat b2 ->
     lines_of f a (account_kind_for (f_type f)) by_ lines -> appended b2 lines b' -> booked f by_ a b b').
  { intros seat b2 lines H1 H2 H3 H4. split. exists known, b1, seat, lines. repeat (split; [done|]). by apply (appended_app b1 seat b2 lines b'). }
  destruct (is_seeded (bk_accounts b1) a) eqn:Es; cbn [negb] in H.
  - apply bind_lift in H as (how & E & H). destruct how; run_ok; subst.
    + right. split; [done|]. split; [done|]. apply book_lines_wrote in E0 as (lines & HL & HLa).
      eapply (Hbook []); [by apply seat_forward|apply appended_nil|done|done].
    + right. split; [done|]. split; [done|]. apply append_wrote in E0 as (id & e & He & Ha). apply book_lines_wrote in E1 as (lines & HL & HLa).
      eapply (Hbook [e]); [apply seat_backward; [done..|by exists id]|done|done|done].
    + left. apply hold_wrote in E0 as (e & He & Ha). eapply (held_after known); [done..|]. split; [done|]. exists [e]. split; [by apply Forall_singleton; left|done].
  - run_ok. subst. right. split; [done|]. split; [done|]. apply append_wrote in E as (id & e & He & Ha). apply append_wrote in E0 as (id' & e' & He' & Ha').
    apply book_lines_wrote in E1 as (lines & HL & HLa).
    eapply (Hbook [e; e']); [apply seat_new; [done|by exists id|by exists id']|by apply (appended_app b1 [e] _ [e'] _ Ha)|done|done].
Qed.
Definition chosen (b : books) (f : StatementFacts) : string :=
  _account_for_resolution token b (_resolve b f) (account_kind_for (f_type f)).
Lemma post_reconciled_wrote f recon x corrected by_ b out b' : _post_reconciled fresh token f recon x corrected by_ b = (Ok out, b') ->
  held_back (f_doc f) out b b' \/ (i_action out = POSTED /\ i_account out = Some (chosen b f) /\ res_verdict (_resolve b f) <> Ambiguous
     /\ booked f by_ (chosen b f) b b').
Proof using Type.
  unfold _post_reconciled. intros H%bind_get.
  destruct (bool_decide _) eqn:Ev.
  - run_ok. subst. apply hold_wrote in E as (e & He & Ha). left. split; [done|]. exists [e]. split; [by apply Forall_singleton; left|done].
  - apply bool_decide_eq_false in Ev. apply post_onto_wrote in H as [H|(H1 & H2 & H3)]; [by left|by right].
Qed.
End Laws.

(** * The whole ladder, and what it leaves

    What [post_statement] appends, whichever rung it ends on; the holds it leaves, and the
    turns of healing. *)
Section Ladder.
Context `{case_map : CaseMap} `{word_table : WordTable} `{desc : Descriptors}.
Context (fresh : nat -> string) (token : string) (pf : MovementInfo -> res (option DescriptorProfile)).

Definition linking (e : Event) : Prop := of_type "TransferLinked" e \/ of_type "TransferSuggested" e.
Lemma scan_links ids c st : scan ids pf c = Ok st -> Forall linking (sc_events st).
Proof using Type.
  intros (ms & g & sources & w & _ & _ & _ & Hf)%scan_parts. refine (scan_fold_inv ids g sources w _ _ (fun s => Forall linking (sc_events s)) _ _ _ _ _ Hf); [|constructor].
  intros s k s' Hs [|src dst st' _ _ _ _ Ha|src st' _ _ _ Hne Ha]; [done| |].
  - unfold append_link in Ha. run_ok. cbn [sc_events]. apply Forall_app. split; [done|]. by apply Forall_singleton; left.
  - destruct (free_candidates g (sc_consumed s) k) as [|d0 r0]; [done|]. unfold append_suggestion in Ha. run_ok. cbn [sc_events].
    apply Forall_app. split; [done|]. by apply Forall_singleton; right.
Qed.
Lemma link_pairs_wrote b u b' : link_pairs fresh pf b = (Ok u, b') -> exists es, Forall linking es /\ appended b es b'.
Proof using Type.
  unfold link_pairs. intros H%bind_get.
  apply bind_lift in H as (st & E & H). apply scan_links in E.
  apply append_each_wrote in H as (es & HF & Ha). exists es. split; [|done]. clear Ha. revert es HF. induction E as [|e l He _ IH]; intros es HF;
    cbn [List.map] in HF; inversion HF as [|? e' ? es' Hm HF']; subst; [constructor|]. destruct Hm as [id Hm]. injection Hm as <-. constructor; [done|by apply IH].
Qed.

(** ** What may be posted for a statement: as it was read, under a forced correction, or with the legs another document attests *)
Inductive entitled (b : books) (f : StatementFacts) : StatementFacts -> Prop :=
  | as_read : entitled b f f
  | as_forced x g : diagnose f = Ok x -> fd_status x = FORCED -> _apply_forced f x = Ok g -> entitled b f g
  | as_attested delta legs down supplied : _gap_delta f = Ok delta -> missing_legs b f (res_account (_resolve b f)) delta = Ok legs -> legs <> [] ->
      dlt delta dzero = Ok down -> rmap (supplied_leg b down) legs = Ok supplied -> entitled b f (with_txns f (f_txns f ++ supplied)).
(** Posted, on which account, and what else. *)
Record posted_as (f g : StatementFacts) (out : IngestResult) (b b' : books) : Prop := {
  pa_action : i_action out = POSTED;
  pa_checked : exists recon, _reconciles g = Ok recon /\ passed recon = true;
  pa_account : i_account out = Some (chosen token b g) /\ res_verdict (_resolve b g) <> Ambiguous;
  pa_booked : exists by_ b1 links, booked g by_ (chosen token b g) b b1 /\ Forall linking links /\ appended b1 links b'
}.
Lemma forced_same_doc f x g : _apply_forced f x = Ok g -> f_doc g = f_doc f.
Proof using Type. unfold _apply_forced. intros H. destruct (String.eqb _ _), (fd_index x); repeat (case_match; run_ok; try by subst). Qed.
Lemma entitled_doc b f g : entitled b f g -> f_doc g = f_doc f.
Proof using Type. intros [|x g' _ _ H|]; [done|by eapply forced_same_doc|done]. Qed.
Lemma gate_wrote f g recon x corrected by_ b out b' : entitled b f g -> _reconciles g = Ok recon -> passed recon = true ->
  _post_reconciled fresh token g recon x corrected by_ b = (Ok out, b') ->
  held_back (f_doc f) out b b' \/ exists g, entitled b f g /\ posted_as f g out b b'.
Proof using Type.
  intros Hg Hr Hp H. apply post_reconciled_wrote in H as [H|(H1 & H2 & H3 & H4)]; [left; by rewrite <- (entitled_doc _ _ _ Hg)|]. right. exists g. split; [done|].
  split; [done|by exists recon|done|]. exists by_, b', []. split; [done|]. by split; [constructor|].
Qed.
Lemma attempt_wrote f b o b' : _try_corroboration fresh token pf f b = (Ok o, b') ->
  match o with
  | None => b' = b
  | Some out => held_back (f_doc f) out b b' \/ exists g, entitled b f g /\ posted_as f g out b b'
  end.
Proof using Type.
  unfold _try_corroboration. intros H%bind_get.
  destruct (bool_decide _); [by run_ok; subst|]. apply bind_lift in H as (delta & Ed & H).
  apply bind_lift in H as (legs & El & H). destruct legs as [|l0 legs]; [by run_ok; subst|].
  apply bind_lift in H as (down & Edn & H).
  apply bind_lift in H as (supplied & Es & H).
  apply bind_lift in H as (recon & Er & H). destruct (passed recon) eqn:Ep; cbn [negb] in H; [|by run_ok; subst].
  apply mbind_ok in H as (out & s6 & E & H). apply mbind_ok in H as (u & s7 & E1 & H). unfold mret in H. injection H as <- <-.
  eapply gate_wrote in E as [E|(g & Hg & E)]; [|..|exact Er|exact Ep].
  - left. destruct (String.eqb_spec (i_action out) POSTED) as [Ha|Ha]; [by destruct E|]. unfold mwhen in E1. by injection E1 as _ <-.
  - right. exists g. split; [done|]. destruct E as [H1 H2 H3 (by_ & b1 & links & H4 & H5 & H6)]. split; [done..|].
    rewrite H1 in E1. cbn in E1. apply link_pairs_wrote in E1 as (es & Hes & Ha). exists by_, b1, (links ++ es).
    split; [done|]. split; [by apply Forall_app|]. by apply (appended_app b1 links s6 es s7).
  - by eapply as_attested.
Qed.
Lemma ladder_wrote f by_ b out b' : post_statement fresh token pf f by_ b = (Ok out, b') ->
  held_back (f_doc f) out b b' \/ exists g, entitled b f g /\ posted_as f g out b b'.
Proof using Type.
  unfold post_statement. intros H. apply bind_lift in H as (recon & Er & H).
  destruct (passed recon) eqn:Ep; [eapply gate_wrote; [apply as_read|done..]|]. apply bind_lift in H as (x & Ex & H).
  apply mbind_ok in H as (forced & s2 & E & H).
  assert (HF : match forced with None => s2 = b | Some o => held_back (f_doc f) o b s2 \/ exists g, entitled b f g /\ posted_as f g o b s2 end).
  { destruct (String.eqb_spec (fd_status x) FORCED) as [Hx|]; [|by run_ok; subst]. apply bind_lift in E as (g & Eg & H'). apply bind_lift in H' as (r2 & Er2 & H').
    destruct (passed r2) eqn:Ep2; [|by run_ok; subst]. run_ok. subst. eapply gate_wrote; [by eapply as_forced|done..]. }
  destruct forced as [o|]; [by run_ok; subst|]. subst s2. apply mbind_ok in H as (tried & s5 & E1 & H). apply attempt_wrote in E1.
  destruct tried as [o|]; [by run_ok; subst|]. subst s5. apply mbind_ok in H as (u & s6 & E1 & H). apply bind_get in H. injection H as <- <-. left.
  apply hold_wrote in E1 as (e & He & Ha). split; [done|]. exists [e]. split; [by apply Forall_singleton; left|done].
Qed.

(** ** What a quiet event leaves *)
Definition same_money (b b' : books) : Prop :=
  (forall a, state_of (bk_accounts b') a = state_of (bk_accounts b) a) /\ bk_periods b' = bk_periods b /\ bk_posted b' = bk_posted b.
Lemma same_money_refl b : same_money b b.
Proof using Type. done. Qed.
Lemma same_money_trans b1 b2 b3 : same_money b1 b2 -> same_money b2 b3 -> same_money b1 b3.
Proof using Type. intros (H1 & H2 & H3) (H4 & H5 & H6). split; [intros a; by rewrite H4|]. split; congruence. Qed.
Lemma quiet_keeps doc e b b' : quiet doc e -> apply_books b e = Ok b' -> same_money b b'.
Proof using Type.
  intros Hq H. unfold apply_books in H. apply rbind_ok in H as (c & _ & H). apply rbind_ok in H as (ac & Ha & H). apply rbind_ok in H as (v & Hv & H).
  injection H as <-. unfold same_money. cbn [bk_accounts bk_periods bk_posted]. unfold apply_account in Ha. unfold apply_coverage in Hv. destruct Hq as [(id & g & x & r & _ & ->)|Ht].
  - cbn in Ha. injection Ha as <-. cbn in Hv. destruct (String.eqb r "activity"); run_ok; by subst.
  - rewrite Ht in Ha, Hv. cbn in Ha, Hv. run_ok. subst. split; [|done]. intros c0. unfold setdefault_state. rewrite state_of_set.
    by destruct (String.eqb_spec a2 c0) as [->|].
Qed.
Lemma quiets_keep doc es : forall b b', Forall (quiet doc) es -> appended b es b' -> same_money b b'.
Proof using Type.
  induction es as [|e es IH]; intros b b' HF Ha; unfold appended in Ha; cbn [rfold] in Ha; [by injection Ha as <-|].
  apply rbind_ok in Ha as (b1 & H1 & Ha). inversion_clear HF as [|? ? He HF']. eapply same_money_trans; [by eapply quiet_keeps|by apply IH].
Qed.

(** ** Claimed periods *)
Definition claimed (b : books) (a day : string) : bool := match posted_period b a day with Some _ => true | None => false end.
Lemma coverage_step b e b' : apply_books b e = Ok b' -> apply_coverage (coverage_of b) e = Ok (coverage_of b').
Proof using Type. unfold apply_books. intros H. run_ok. subst. unfold coverage_of at 2. cbn. rewrite E1. by match goal with v : coverage |- _ => destruct v end. Qed.
Lemma period_kept v e v' k x : apply_coverage v e = Ok v' -> assoc_get (cv_periods v) k = Some x -> assoc_get (cv_periods v') k = Some x.
Proof using Type.
  unfold apply_coverage. intros H Hk. do 3 apply rbind_ok in H as (? & _ & H). destruct (in_words _ _); [by injection H as <-|]. destruct (String.eqb _ _).
  - apply rbind_ok in H as (a & _ & H). apply rbind_ok in H as (m & _ & H). destruct (String.eqb _ ""); [by injection H as <-|]. injection H as <-. cbn [cv_periods].
    destruct (assoc_get (cv_periods v) (a, x1)) eqn:E; [done|]. rewrite assoc_get_set. destruct (decide _) as [<-|]; [congruence|done].
  - destruct (String.eqb _ _); [|by injection H as <-]. run_ok. destruct (py_eq_str _ _); by injection H as <-.
Qed.
Lemma period_stays es b b' a day x : appended b es b' -> posted_period b a day = Some x -> posted_period b' a day = Some x.
Proof using Type.
  unfold appended. revert b. induction es as [|e es IH]; intros b H Hp; cbn [rfold] in H; [by injection H as <-|]. apply rbind_ok in H as (b1 & H1 & H).
  eapply IH; [exact H|]. unfold posted_period in *. apply coverage_step in H1. by eapply (period_kept (coverage_of b) e (coverage_of b1)).
Qed.
Lemma period_free_before es b b' a day : appended b es b' -> posted_period b' a day = None -> posted_period b a day = None.
Proof using Type. intros Ha Hn. destruct (posted_period b a day) eqn:E; [|done]. rewrite (period_stays _ _ _ _ _ _ Ha E) in Hn. done. Qed.
Lemma closing_claims f a by_ e b b' : made (closing_event f a by_) e -> apply_books b e = Ok b' -> f_doc f <> "" -> 
  exists x, posted_period b' a (f_closing_date f) = Some x /\ (posted_period b a (f_closing_date f) = None -> x = (f_doc f, dec_str (f_closing f))).
Proof using Type.
  intros [id He] Hb Hd. apply coverage_step in Hb. unfold closing_event, closing_balance_observed in He. apply rbind_ok in He as (d & Ed & He). injection He as <-.
  cbn in Ed. injection Ed as <-. unfold posted_period.
  unfold apply_coverage in Hb. cbn in Hb. apply String.eqb_neq in Hd. rewrite Hd in Hb. cbn in Hb. injection Hb as _ _ Hb. rewrite <- Hb.
  destruct (assoc_get (bk_periods b) (a, f_closing_date f)) as [x|] eqn:E; [by exists x|]. rewrite assoc_get_set, decide_True by done. by eexists.
Qed.
Lemma appended_split es es' b b' : appended b (es ++ es') b' -> exists b1, appended b es b1 /\ appended b1 es' b'.
Proof using Type. unfold appended. rewrite rfold_app. intros (b1 & H1 & H2)%rbind_ok. by exists b1. Qed.
(** What is booked claims its period. *)
Lemma booked_claims f by_ a b b' : booked f by_ a b b' -> f_doc f <> "" -> posted_period b' a (f_closing_date f) <> None.
Proof using Type.
  intros [(known & b1 & seat & lines & _ & _ & _ & _ & [(ls & close & refs & -> & _ & Hc & _)] & Hb)] Hd.
  apply appended_split in Hb as (b2 & _ & Hb). apply appended_split in Hb as (b3 & _ & Hb). change (close :: refs) with ([close] ++ refs) in Hb.
  apply appended_split in Hb as (b4 & H4 & Hb). unfold appended in H4. cbn [rfold] in H4. apply rbind_ok in H4 as (b5 & H5 & H4). injection H4 as ->.
  destruct (closing_claims _ _ _ _ _ _ Hc H5 Hd) as (x & Hx & _). by rewrite (period_stays _ _ _ _ _ _ Hb Hx).
Qed.
(** What is booked had its period free. *)
Lemma booked_free f by_ a b b' : booked f by_ a b b' -> posted_period b a (f_closing_date f) = None.
Proof using Type. intros [(known & b1 & seat & lines & _ & Hka & Hp & _)]. by eapply period_free_before. Qed.
Lemma entitled_dated b f g : entitled b f g -> f_closing_date g = f_closing_date f.
Proof using Type.
  intros [|x g' _ _ H|]; [done| |done]. unfold _apply_forced in H. destruct (String.eqb _ _), (fd_index x); repeat (case_match; run_ok; try by subst).
Qed.
(** Transfers linked or suggested leave the accounts. *)
Lemma links_keep es : forall b b', Forall linking es -> appended b es b' -> bk_accounts b' = bk_accounts b.
Proof using Type.
  induction es as [|e es IH]; intros b b' HF Ha; unfold appended in Ha; cbn [rfold] in Ha; [by injection Ha as <-|].
  apply rbind_ok in Ha as (b1 & H1 & Ha). inversion_clear HF as [|? ? He HF']. rewrite (IH b1 b' HF' Ha).
  unfold apply_books in H1. apply rbind_ok in H1 as (? & _ & H1). apply rbind_ok in H1 as (ac & H & H1). apply rbind_ok in H1 as (? & _ & H1). injection H1 as <-. cbn [bk_accounts].
  unfold apply_account in H. destruct He as [He|He]; rewrite He in H; cbn in H; apply rbind_ok in H as (? & _ & H); by injection H.
Qed.
End Ladder.

(** * The holds a ladder leaves, and why retrying them ends

    A hold is kept under its document; posting the statement of a hold replaces that hold or
    leaves it, so a turn of [heal] adds no document to try. *)
Section Holds.
Context `{case_map : CaseMap} `{word_table : WordTable} `{desc : Descriptors}.
Context (fresh : nat -> string) (token : string) (pf : MovementInfo -> res (option DescriptorProfile)).

(** A hold names the document it is kept under, and so do the facts in it. *)
Definition own_hold (p : string * json) : Prop :=
  item_text p.2 "doc_id" = Ok p.1 /\ forall w f, py_getitem p.2 "facts" = Ok w -> StatementFacts_from_dict w = Ok f -> f_doc f = p.1.
Definition tidy (b : books) : Prop := Forall own_hold (bk_held b).
Definition held_docs (b : books) : list string := List.map fst (bk_held b).

Lemma from_dict_doc f g : StatementFacts_from_dict (StatementFacts_to_dict f) = Ok g -> f_doc g = f_doc f.
Proof using Type.
  unfold StatementFacts_from_dict. intros H. apply rbind_ok in H as (doc & Hd & H). cbn in Hd. injection Hd as <-.
  do 18 apply rbind_ok in H as (? & _ & H). unfold new_facts in H. apply rbind_ok in H as (? & _ & H). by injection H as <-.
Qed.
Lemma hold_is_own doc id g x reason : f_doc g = doc ->
  own_hold (doc, body (statement_held id (f_doc g) (StatementFacts_to_dict g) x reason (f_closing_date g) (Some (Provenance_doc (f_doc g))))).
Proof using Type.
  intros <-. split; [done|]. intros w f Hw Hf. change (Ok (StatementFacts_to_dict g) = Ok w) in Hw. injection Hw as <-. by apply from_dict_doc.
Qed.
Lemma dict_set_same_keys {A} (d : list (string * A)) k v : k ∈ List.map fst d -> List.map fst (dict_set d k v) = List.map fst d.
Proof using Type.
  induction d as [|[j w] d IH]; cbn [List.map fst dict_set]; intros H; [by apply elem_of_nil in H|].
  destruct (String.eqb_spec k j) as [->|Hk]; cbn [List.map fst]; [done|]. f_equal. apply IH. by apply elem_of_cons in H as [->|H].
Qed.
(** What may happen to the holds while document [doc] is posted. *)
Definition holds_step (doc : string) (b b' : books) : Prop :=
  (tidy b -> tidy b') /\ (doc ∈ held_docs b -> held_docs b' = held_docs b).
Lemma holds_step_refl doc b : holds_step doc b b.
Proof using Type. done. Qed.
Lemma holds_step_trans doc b1 b2 b3 : holds_step doc b1 b2 -> holds_step doc b2 b3 -> holds_step doc b1 b3.
Proof using Type. intros [H1 H2] [H3 H4]. split; [by intros ?%H1%H3|]. intros Hd. rewrite H4, H2; [done..|]. by rewrite H2. Qed.
Lemma other_keeps_holds b e b' t : apply_books b e = Ok b' -> of_type t e -> t <> "StatementHeld" -> bk_held b' = bk_held b.
Proof using Type.
  intros H%coverage_step Ht Hn. unfold apply_coverage in H. rewrite Ht in H. cbn [text] in H. apply rbind_ok in H as (et & [= <-] & H).
  apply rbind_ok in H as (at_ & _ & H). apply rbind_ok in H as (did & _ & H). apply String.eqb_neq in Hn. rewrite Hn in H.
  destruct (in_words _ _); [by injection H|]. destruct (String.eqb t _); [|by injection H]. run_ok. destruct (String.eqb did ""); by injection H.
Qed.
Lemma hold_step doc b e b' : apply_books b e = Ok b' -> hold_of doc e -> holds_step doc b b'.
Proof using Type.
  intros H%coverage_step (id & g & x & reason & Hd & ->). unfold apply_coverage in H. cbn in H. rewrite Hd in H.
  destruct (String.eqb reason "activity").
  - injection H as _ H _. unfold holds_step, tidy, held_docs. by rewrite H.
  - injection H as _ H _. pose proof (hold_is_own doc id g x reason Hd) as Ho. unfold holds_step, tidy, held_docs. rewrite <- H. split.
    + intros HF. apply Forall_forall. intros [k v] Hk. apply dict_set_elem in Hk as [[-> ->]|Hk]; [|by rewrite Forall_forall in HF; apply HF].
      rewrite Hd in Ho. cbn in Ho. rewrite ?Hd in Ho. exact Ho.
    + apply dict_set_same_keys.
Qed.
Definition other (e : Event) : Prop := exists t, of_type t e /\ t <> "StatementHeld".
Definition of_ladder (doc : string) (e : Event) : Prop := hold_of doc e \/ other e.
Lemma all_other t es : Forall (of_type t) es -> t <> "StatementHeld" -> Forall other es.
Proof using Type. intros H Ht. eapply Forall_impl; [exact H|]. intros e He. by exists t. Qed.
Lemma lines_other makes : forall es, Forall2 made makes es -> (forall make e id, make ∈ makes -> make id = Ok e -> other e) -> Forall other es.
Proof using Type.
  induction makes as [|m makes IH]; intros es H Hm; inversion H as [|? e ? es' [id He] H']; subst; [constructor|].
  constructor; [apply (Hm m e id); [left|done]|]. apply IH; [done|]. intros make e' id' Hin. apply Hm. by right.
Qed.
Lemma line_other f a kind_ t id e : line_event f a kind_ t id = Ok e -> other e.
Proof using Type.
  unfold line_event, simple_transaction. intros H. exists "TransactionRecorded". split; [|done]. run_ok. cbv zeta in H. destruct (py_truthy _ || py_truthy _); injection H as <-; done.
Qed.
Lemma book_other f a kind_ by_ es : lines_of f a kind_ by_ es -> Forall other es.
Proof using Type.
  intros [(lines & close & refs & -> & HF & [id Hc] & Hr)]. apply Forall_app. split; [|constructor].
  - eapply lines_other; [exact HF|]. intros make e id' Hin He. apply list_elem_of_In, in_map_iff in Hin as (t & <- & _). by eapply line_other.
  - exists "ClosingBalanceObserved". split; [|done]. unfold closing_event, closing_balance_observed in Hc. run_ok. by subst.
  - by eapply all_other.
Qed.
Lemma seat_other f a kind_ b es : seated f a kind_ b es -> Forall other es.
Proof using Type.
  assert (Ho : forall e, made (opening_event f a) e -> other e).
  { intros e [id He]. exists "OpeningBalanceObserved". split; [|done]. unfold opening_event, opening_balance_observed in He. run_ok. by subst. }
  intros [e e' _ [id He] He'| |e _ _ He]; [|constructor|by apply Forall_singleton, Ho]. constructor; [|by apply Forall_singleton, Ho].
  exists "AccountOpened". split; [|done]. unfold opened_event, account_opened in He. run_ok. by subst.
Qed.
Lemma quiet_ladder doc es : Forall (quiet doc) es -> Forall (of_ladder doc) es.
Proof using Type. intros H. eapply Forall_impl; [exact H|]. intros e [He|He]; [by left|right; by exists "AccountIdentityObserved"]. Qed.
Lemma ladder_steps doc es : forall b b', Forall (of_ladder doc) es -> appended b es b' -> holds_step doc b b'.
Proof using Type.
  induction es as [|e es IH]; intros b b' HF Ha; unfold appended in Ha; cbn [rfold] in Ha; [by injection Ha as <-; apply holds_step_refl|].
  apply rbind_ok in Ha as (b1 & H1 & Ha). inversion_clear HF as [|? ? He HF']. eapply holds_step_trans; [|by apply (IH b1)].
  destruct He as [He|(t & He & Ht)]; [by eapply hold_step|]. pose proof (other_keeps_holds _ _ _ _ H1 He Ht) as E. unfold holds_step, tidy, held_docs. by rewrite E.
Qed.
Lemma others_ladder doc es : Forall other es -> Forall (of_ladder doc) es.
Proof using Type. intros H. eapply Forall_impl; [exact H|]. by right. Qed.
Lemma post_keeps_holds f by_ b out b' : post_statement fresh token pf f by_ b = (Ok out, b') -> holds_step (f_doc f) b b'.
Proof using Type.
  intros H%ladder_wrote. destruct H as [[_ (es & HF & Ha)]|(g & Hg & [_ _ _ (by' & b1 & links & [(known & b0 & seat & lines & Hk & Hka & _ & Hs & Hl & Hb)] & Hlk & Ha)])].
  { eapply ladder_steps; [by apply quiet_ladder|exact Ha]. }
  assert (Hall : appended b (known ++ (seat ++ lines) ++ links) b').
  { apply (appended_app b known b0); [done|]. by apply (appended_app b0 (seat ++ lines) b1). }
  eapply ladder_steps; [|exact Hall]. apply others_ladder, Forall_app. split; [by eapply all_other|]. apply Forall_app. split.
  - apply Forall_app. split; [by eapply seat_other|by eapply book_other].
  - eapply Forall_impl; [exact Hlk|]. by intros e [He|He]; eexists.
Qed.

(** ** The turns of healing *)
Lemma first_hold_in test attempted l doc f : Forall own_hold l -> first_hold test attempted (List.map snd l) = Ok (Some (doc, f)) ->
  doc ∈ List.map fst l /\ (doc ∉ attempted) /\ f_doc f = doc /\ test f = Ok true.
Proof using Type.
  induction l as [|[k v] l IH]; cbn [List.map first_hold snd fst]; intros HF H; [done|]. inversion_clear HF as [|? ? Ho HF'].
  destruct Ho as [Hk Hf]. cbn [fst snd] in *. rewrite Hk in H. cbn [rbind] in H.
  assert (Hrest : first_hold test attempted (List.map snd l) = Ok (Some (doc, f)) -> doc ∈ k :: List.map fst l /\ (doc ∉ attempted) /\ f_doc f = doc /\ test f = Ok true).
  { intros H'. destruct (IH HF' H') as (? & ?). split; [by right|done]. }
  destruct (in_words k attempted) eqn:Ek; [by apply Hrest|]. apply rbind_ok in H as (facts & _ & H). apply rbind_ok in H as (family & _ & H).
  destruct (negb _); [by apply Hrest|]. apply rbind_ok in H as (w & Hw & H). apply rbind_ok in H as (g & Hg & H). apply rbind_ok in H as (fits_ & Ht & H).
  destruct fits_; [|by apply Hrest]. injection H as -> ->. split; [left|]. split; [by apply in_words_false|]. by split; [eapply Hf|].
Qed.
(** The holds a pass looks at: some of those kept. *)
Definition some_held (holds : books -> list json) : Prop := forall b, exists l, holds b = List.map snd l /\ incl l (bk_held b).
Lemma filter_snd {A B} (p : B -> bool) (l : list (A * B)) : List.filter p (List.map snd l) = List.map snd (List.filter (fun x => p x.2) l).
Proof using Type. induction l as [|[x y] l IH]; [done|]. cbn. destruct (p y); cbn; by rewrite IH. Qed.
Lemma some_open p : some_held (fun b => List.filter p (open_holds b)).
Proof using Type.
  intros b. unfold open_holds. rewrite filter_snd. eexists. split; [done|]. intros x Hx. apply List.filter_In in Hx as [Hx _]. by apply List.filter_In in Hx as [Hx _].
Qed.
(** A hold was retried: its statement was posted again, whatever came of it. *)
Definition retried (doc : string) : Prop := exists f b out b', f_doc f = doc /\ post_statement fresh token pf f "" b = (Ok out, b').
Lemma heal_ends holds test : some_held holds -> forall fuel attempted n b r b', heal fresh token pf fuel holds test attempted n b = (r, b') ->
  tidy b -> NoDup attempted -> incl attempted (held_docs b) -> (length (held_docs b) < fuel + length attempted)%nat -> (n <= length attempted)%nat -> Forall retried attempted ->
  match r with
  | Ok None => False
  | Ok (Some m) => tidy b' /\ held_docs b' = held_docs b /\ exists tried, NoDup tried /\ incl tried (held_docs b) /\ Forall retried tried /\ (m <= length tried)%nat
        /\ first_hold (test b') tried (holds b') = Ok None
  | Raise _ => True
  end.
Proof using Type.
  intros Hh. induction fuel as [|fuel IH]; intros attempted n b r b' H Ht Hd Hi Hk Hn HR.
  { pose proof (NoDup_incl_length (proj1 (NoDup_ListNoDup _) Hd) Hi). lia. }
  cbn [heal] in H. unfold mbind at 1, mget in H. unfold mbind at 1, mlift in H. destruct (first_hold (test b) attempted (holds b)) as [[[doc f]|]|x] eqn:Ef.
  2:{ injection H as <- <-. split; [done|]. split; [done|]. by exists attempted. }
  2:{ by injection H as <- <-. }
  unfold mbind in H. destruct (post_statement fresh token pf f "" b) as [[out|x] b1] eqn:Ep; [|by injection H as <- _].
  destruct (Hh b) as (l & El & Hl). rewrite El in Ef. apply first_hold_in in Ef as (Hin & Hna & Hfd & _).
  2:{ apply Forall_forall. intros p Hp. unfold tidy in Ht. rewrite Forall_forall in Ht. apply Ht, list_elem_of_In, Hl. by apply list_elem_of_In. }
  assert (Hin' : doc ∈ held_docs b).
  { apply list_elem_of_In, in_map_iff in Hin as (p & <- & Hp). apply list_elem_of_In, in_map. by apply Hl. }
  destruct (post_keeps_holds _ _ _ _ _ Ep) as [Ht1 Hk1]. rewrite Hfd in Hk1. specialize (Ht1 Ht). specialize (Hk1 Hin').
  apply IH in H; [|done|by apply NoDup_cons| | |..].
  - rewrite Hk1 in H. exact H.
  - rewrite Hk1. intros x [<-|Hx]; [by apply list_elem_of_In|by apply Hi].
  - rewrite Hk1. cbn [length]. lia.
  - cbn [length]. destruct (String.eqb _ _); lia.
  - constructor; [|done]. by exists f, b, out, b1.
Qed.
End Holds.

(** * Where posting a statement leaves its account

    What each event of a posting states about the account, and the running balance of the
    history that results, for a statement booked on a new account, onto the end of a chain,
    or before its start. *)
(** ** An account by its state *)
Lemma running_of_state s a : running_balance s a = (if Accounts.seen (state_of s a) then let? d := effective (state_of s a) in Ok (Some d) else Ok None).
Proof. unfold running_balance, state_of. by destruct (dict_get s a). Qed.
Lemma earliest_of_state s a : earliest_opening s a = Accounts.opening (state_of s a).
Proof. unfold earliest_opening, state_of. by destruct (dict_get s a). Qed.
Lemma seeded_of_state s a : is_seeded s a = match Accounts.opening (state_of s a) with Some _ => true | None => false end.
Proof. unfold is_seeded, state_of. by destruct (dict_get s a). Qed.

Section Balances.
Context `{case_map : CaseMap} `{word_table : WordTable} `{desc : Descriptors}.
Context (e0 : Z) (Hs : scale_ok default_ctx e0) (He0 : (e0 <= 0)%Z).

Lemma appended_accounts es : forall b b', appended b es b' -> rfold apply_account es (bk_accounts b) = Ok (bk_accounts b').
Proof using Type.
  unfold appended. induction es as [|e es IH]; intros b b' H; cbn [rfold] in *; [by injection H as <-|]. apply rbind_ok in H as (b1 & H1 & H).
  apply IH in H. unfold apply_books in H1. apply rbind_ok in H1 as (? & _ & H1). apply rbind_ok in H1 as (ac & Ha & H1). apply rbind_ok in H1 as (? & _ & H1).
  injection H1 as <-. by rewrite Ha.
Qed.
Definition after (h : history) (es : list Event) (a : string) : history := fold_left (fun h e => join h (states e a)) es h.
Lemma after_cons h e es a : after h (e :: es) a = after (join h (states e a)) es a.
Proof using Type. done. Qed.
Lemma after_app h es es' a : after h (es ++ es') a = after (after h es a) es' a.
Proof using Type. unfold after. by rewrite fold_left_app. Qed.
Lemma after_posted es : forall h a, exists ds, h_posted (after h es a) = h_posted h ++ ds.
Proof using Type.
  induction es as [|e es IH]; intros h a; [exists []; by rewrite app_nil_r|]. cbn [after fold_left]. destruct (IH (join h (states e a)) a) as (ds & E).
  exists (h_posted (states e a) ++ ds). unfold after in E. rewrite E. cbn [join h_posted]. by rewrite <- app_assoc.
Qed.
Lemma keeps_run es : forall a h s s', rfold apply_account es s = Ok s' -> keeps e0 a h (state_of s a) ->
  Forall (on_scale e0) (h_posted (after h es a)) -> fits default_ctx (mags (zunits e0 (h_posted (after h es a)))) ->
  keeps e0 a (after h es a) (state_of s' a).
Proof using Hs He0.
  induction es as [|e es IH]; intros a h s s' H K Hf Hm; cbn [rfold] in H; [by injection H as <-|]. apply rbind_ok in H as (s1 & H1 & H).
  rewrite after_cons in *. eapply IH; [exact H| |done|done].
  destruct (after_posted es (join h (states e a)) a) as (ds & E). rewrite E in *. apply Forall_app in Hf as [Hf _].
  cbn [join h_posted] in *. apply Forall_app in Hf as [_ Hf]. eapply (keeps_event e0 Hs a h s e); [exact H1|exact K|exact Hf|]. eapply fits_le; [exact Hm|].
  unfold zunits. cbn [join h_posted]. rewrite !List.map_app, !mags_app. pose proof (mags_nonneg (List.map (units e0) ds)).
  pose proof (mags_nonneg (List.map (units e0) (h_posted h))). pose proof (mags_nonneg (List.map (units e0) (h_posted (states e a)))). lia.
Qed.

(** ** What each event of a posting states *)
Definition UNCATEGORIZED : list string := [INCOME_UNCATEGORIZED; EXPENSE_UNCATEGORIZED; TRANSFERS_UNCATEGORIZED].
Lemma counter_uncategorized kind_ d c : counter_account kind_ d = Ok c -> in_words c UNCATEGORIZED = true.
Proof using Type. unfold counter_account. intros H. run_ok. destruct (String.eqb _ _), a; injection H as <-; done. Qed.
Lemma line_states f a kind_ t e : in_words a UNCATEGORIZED = false -> made (line_event f a kind_ t) e -> states e a = mkHistory [] [] [x_amount t] true.
Proof using Type.
  intros Ha [id He]. pose proof He as Hx. apply simple_ok in Hx as (amt & c & n & [= <-] & _ & Hc & _ & Hp & _).
  assert (Ht : event_type e = JStr "TransactionRecorded").
  { unfold line_event, simple_transaction in He. run_ok. cbv zeta in He. destruct (py_truthy _ || py_truthy _); injection He as <-; done. }
  unfold states. rewrite Ht. cbn [py_eq_str String.eqb Ascii.eqb Bool.eqb]. rewrite Hp. unfold legs_on. cbn. rewrite String.eqb_refl.
  destruct (String.eqb_spec c a) as [->|]; [|done]. apply counter_uncategorized in Hc. congruence.
Qed.
Lemma opening_states f a e : on_scale e0 (f_opening f) -> made (opening_event f a) e -> states e a = mkHistory [(f_opening_date f, f_opening f)] [] [] true.
Proof using Type.
  intros Ho [id He]. unfold opening_event, opening_balance_observed in He. cbn in He. injection He as <-. unfold states, names, amount_in, dated_at. cbn.
  by rewrite String.eqb_refl, (on_scale_text e0).
Qed.
Lemma opened_states f a kind_ e : made (opened_event f a kind_) e -> states e a = mkHistory [] [] [] true.
Proof using Type.
  intros [id He]. unfold opened_event, account_opened in He. apply rbind_ok in He as (? & _ & He). injection He as <-. unfold states, names. cbn. by rewrite String.eqb_refl.
Qed.
Lemma closing_states f a by_ e : on_scale e0 (f_closing f) -> made (closing_event f a by_) e ->
  states e a = mkHistory [] [(f_closing_date f, f_closing f, by_human e)] [] true.
Proof using Type.
  intros Hc [id He]. unfold closing_event, closing_balance_observed in He. cbn in He. injection He as <-. unfold states, names, amount_in, dated_at. cbn.
  by rewrite String.eqb_refl, (on_scale_text e0).
Qed.
Lemma stateless t e a : of_type t e -> in_words t ["AccountIdentityObserved"; "FinancialAccountReferenceObserved"] = true -> states e a = unstated.
Proof using Type.
  unfold of_type. intros Ht Hin. unfold states. rewrite Ht. cbn in Hin. rewrite orb_false_r in Hin. apply orb_true_iff in Hin as [->%String.eqb_eq| ->%String.eqb_eq]; cbn; by destruct (names e a).
Qed.
Lemma after_stateless t es a h : Forall (of_type t) es -> in_words t ["AccountIdentityObserved"; "FinancialAccountReferenceObserved"] = true -> after h es a = h.
Proof using Type.
  intros HF Hin. revert h. induction HF as [|e es He _ IH]; intros h; [done|]. rewrite after_cons.
  rewrite IH, (stateless t) by done. apply join_unstated.
Qed.
Lemma after_lines f a kind_ ts es : in_words a UNCATEGORIZED = false -> Forall2 made (List.map (line_event f a kind_) ts) es ->
  forall h, after h es a = join h (legs_history (List.map x_amount ts)).
Proof using Type.
  intros Ha. revert es. induction ts as [|t ts IH]; cbn [List.map]; intros es HF h; inversion HF as [|? e ? es' He HF']; subst; [symmetry; exact (join_unstated h)|].
  rewrite after_cons. rewrite (IH _ HF'), (line_states f a kind_ t e Ha He), join_join. f_equal.
Qed.
(** What booking states: the lines, and the closing. *)
Definition booking (f : StatementFacts) (human : bool) : history :=
  mkHistory [] [(f_closing_date f, f_closing f, human)] (List.map x_amount (f_txns f)) true.
Lemma after_booked f a kind_ by_ es h : in_words a UNCATEGORIZED = false -> on_scale e0 (f_closing f) -> lines_of f a kind_ by_ es ->
  exists human, after h es a = join h (booking f human).
Proof using Type.
  intros Ha Hc [(lines & close & refs & -> & HF & Hm & Hr)]. exists (by_human close). rewrite after_app, (after_lines f a kind_ (f_txns f) lines) by done.
  rewrite after_cons.
  rewrite (after_stateless _ refs), (closing_states f a by_), join_join by done. f_equal. unfold join. cbn. rewrite app_nil_r. by rewrite orb_true_r.
Qed.
(** How it is seated: on nothing, onto the end, or before the start. *)
Definition seating (f : StatementFacts) (how : Joins) : history :=
  match how with Forward => unstated | _ => mkHistory [(f_opening_date f, f_opening f)] [] [] true end.
Lemma after_seated f a kind_ b es h : on_scale e0 (f_opening f) -> seated f a kind_ b es ->
  match is_seeded (bk_accounts b) a with
  | false => after h es a = join h (seating f Apart)
  | true => exists how, _connects f b a = Ok how /\ how <> Apart /\ after h es a = join h (seating f how)
  end.
Proof using Type.
  intros Ho [e e' -> He He'| -> Hc|e -> Hc He]; cbn [after fold_left].
  - rewrite (opened_states f a kind_ e), (opening_states f a e'), join_join by done. done.
  - exists Forward. split; [done|]. split; [done|]. by rewrite join_unstated.
  - exists Backward. split; [done|]. split; [done|]. by rewrite (opening_states f a e).
Qed.

(** ** The history a booking leaves *)
Lemma earliest_unique {A} (at_ : A -> string) l o o' : earliest at_ l o -> earliest at_ l o' -> o = o'.
Proof using Type.
  destruct o as [x|], o' as [y|]; cbn; [|intros (? & ? & -> & _) E; by destruct x0|intros -> (? & ? & E & _); by destruct x|done].
  intros (l1 & l2 & -> & H1 & H2) (k1 & k2 & E & H3 & H4).
  assert (Hlt : forall (u v : A) (p q r : list A), p = q ++ u :: r -> Forall (fun z => word_lt (at_ v) (at_ z)) p -> word_lt (at_ v) (at_ u)).
  { intros u v p q r -> HF. apply Forall_app in HF as [_ HF]. by inversion HF. }
  apply app_eq_app in E as (m & [(-> & E)|(-> & E)]); destruct m as [|w m]; cbn in E; injection E as E1 E2; subst.
  - done.
  - apply Forall_app in H1 as [_ H1]. inversion_clear H1 as [|? ? Hx _]. apply Forall_app in H4 as [_ H4]. inversion_clear H4 as [|? ? Hy _]. done.
  - done.
  - apply Forall_app in H3 as [_ H3]. inversion_clear H3 as [|? ? Hx _]. apply Forall_app in H2 as [_ H2]. inversion_clear H2 as [|? ? Hy _]. done.
Qed.
Definition joined (h : history) (f : StatementFacts) (how : Joins) (human : bool) : history := join (join h (seating f how)) (booking f human).
Lemma measured_joined h f how human : measured_history e0 (joined h f Apart true) -> measured_history e0 (joined h f how human).
Proof using Type.
  unfold measured_history, figures, joined. cbn [join h_openings h_closings h_posted seating booking]. intros [HF Hm]. rewrite !app_nil_r in *.
  destruct how; cbn [seating unstated h_openings h_closings h_posted]; rewrite ?app_nil_r in *;
    rewrite ?fmap_app in *; cbn [fmap list_fmap fst snd] in *; [|split; [exact HF|exact Hm]..].
  unfold zunits in *. rewrite ?List.map_app, ?mags_app in *. rewrite ?Forall_app in *. split; [tauto|]. eapply fits_le; [exact Hm|].
  assert (HP : forall l, (0 <= mags (List.map (units e0) l))%Z) by (intros l; apply mags_nonneg). cbn [fmap list_fmap fst snd] in *.
  repeat match goal with |- context [mags (List.map (units e0) ?l)] => lazymatch goal with H : (0 <= mags (List.map (units e0) l))%Z |- _ => fail | _ => pose proof (HP l) end end.
  lia.
Qed.
Lemma reconciles_is f r : in_cents e0 f -> _reconciles f = Ok r -> passed r = true -> reconciled e0 f.
Proof using Hs He0.
  intros [Ho Hc Hl Hf] Hr Hp. unfold _reconciles in Hr.
  assert (Ht : reads e0 no_tolerance 0) by (exists dzero; split; [done|by split]).
  assert (Hx : Forall2 (reads e0) (List.map (fun t => NumDec (x_amount t)) (f_txns f)) (amounts e0 (f_txns f))).
  { clear Hr Hf. unfold amounts. induction Hl as [|t ts [Ha _] _ IH]; cbn [List.map]; [constructor|]. constructor; [by apply reads_decimal|exact IH]. }
  destruct (balance_check_exact e0 Hs He0 _ _ Ht _ _ _ _ _ _ (reads_decimal e0 _ Ho) Hx (reads_decimal e0 _ Hc)) as (r' & E & Hr' & _).
  - eapply fits_le; [exact Hf|]. pose proof (lines_size_mags e0 (f_txns f)). pose proof (mags_nonneg (amounts e0 (f_txns f))). unfold size. lia.
  - rewrite E in Hr. injection Hr as ->. unfold reconciled. lia.
Qed.
Lemma posted_bounds h : measured_history e0 h -> Forall (on_scale e0) (h_posted h) /\ fits default_ctx (mags (zunits e0 (h_posted h))).
Proof using Type.
  intros Hm. destruct (history_bounds e0 h Hm) as [Hf Hp]. split; [done|]. eapply fits_le; [exact Hf|].
  pose proof (mags_nonneg (zunits e0 (h_openings h).*2)). pose proof (mags_nonneg (zunits e0 (h_closings h).*1.*2)).
  pose proof (mags_nonneg (zunits e0 (h_posted h))). lia.
Qed.
Lemma same_connects g b b1 a : same_money b b1 -> _connects g b1 a = _connects g b a /\ is_seeded (bk_accounts b1) a = is_seeded (bk_accounts b) a.
Proof using Type.
  intros (Hst & _). unfold _connects. by rewrite !running_of_state, !earliest_of_state, !seeded_of_state, Hst.
Qed.
Lemma booked_keeps g by_ a b b' h : in_words a UNCATEGORIZED = false -> keeps e0 a h (state_of (bk_accounts b) a) ->
  on_scale e0 (f_opening g) -> on_scale e0 (f_closing g) -> measured_history e0 (joined h g Apart true) -> booked g by_ a b b' ->
  exists how human, keeps e0 a (joined h g how human) (state_of (bk_accounts b') a)
    /\ if is_seeded (bk_accounts b) a then _connects g b a = Ok how /\ how <> Apart else how = Apart.
Proof using Hs He0.
  intros Ha K Ho Hc Hm [(known & b1 & seat & lines & Hk & Hka & _ & Hseat & Hl & Hb)].
  assert (Hsame : same_money b b1) by (eapply (quiets_keep ""); [by apply quiet_known|exact Hka]).
  destruct (same_connects g b b1 a Hsame) as [Ec Es]. destruct Hsame as [Hst _]. rewrite <- Hst in K. apply appended_accounts in Hb.
  pose proof (after_seated g a _ b1 seat h Ho Hseat) as Hseated. destruct (after_booked g a _ by_ lines (after h seat a) Ha Hc Hl) as [human Hbook].
  rewrite <- after_app in Hbook. rewrite Es in Hseated.
  assert (HJ : exists how, after h seat a = join h (seating g how) /\ if is_seeded (bk_accounts b) a then _connects g b a = Ok how /\ how <> Apart else how = Apart).
  { destruct (is_seeded (bk_accounts b) a); [|by exists Apart]. destruct Hseated as (how & Hh & Hn & E). exists how. by rewrite <- Ec. }
  destruct HJ as (how & E & HJ). exists how, human. split; [|done]. rewrite E in Hbook. fold (joined h g how human) in Hbook. rewrite <- Hbook.
  pose proof (measured_joined h g how human Hm) as Hm'. rewrite <- Hbook in Hm'. apply posted_bounds in Hm' as [H1 H2]. by eapply keeps_run.
Qed.
(** Where the running balance ends. *)
Lemma running_joined g a b h how human : keeps e0 a (joined h g how human) (state_of (bk_accounts b) a) -> measured_history e0 (joined h g Apart true) ->
  exists d, running_balance (bk_accounts b) a = Ok (Some d) /\ on_scale e0 d
    /\ forall o, earliest fst (h_openings (joined h g how human)) o -> units e0 d = (replayed e0 h o + zsum (amounts e0 (f_txns g)))%Z.
Proof using Hs He0.
  intros K Hm. pose proof (measured_joined h g how human Hm) as Hm'. destruct (effective_is e0 Hs He0 _ Hm' a _ K) as (d & Ed & Hd & Hu).
  rewrite running_of_state, (k_seen _ _ _ _ K). replace (h_seen (joined h g how human)) with true by (cbn; by rewrite orb_true_r). rewrite Ed. cbn [rbind].
  exists d. split; [done|]. split; [done|]. intros o Ho. rewrite (earliest_unique _ _ _ _ (k_opening _ _ _ _ K) Ho) in Hu. rewrite Hu. unfold replayed, joined.
  cbn [join h_posted booking seating]. replace (h_posted (seating g how)) with (@nil decimal) by (by destruct how). rewrite app_nil_r. unfold zunits.
  rewrite List.map_app, zsum_app. unfold amounts. rewrite List.map_map. lia.
Qed.
(** ** The three ways in *)
Lemma measured_part h f : measured_history e0 (joined h f Apart true) -> measured_history e0 h.
Proof using Type.
  unfold measured_history, figures, joined. cbn [join h_openings h_closings h_posted seating booking]. intros [HF Hm]. rewrite !app_nil_r in *.
  rewrite ?fmap_app in *. unfold zunits in *. rewrite ?List.map_app, ?mags_app in *. rewrite ?Forall_app in *. split; [tauto|]. eapply fits_le; [exact Hm|].
  assert (HP : forall l, (0 <= mags (List.map (units e0) l))%Z) by (intros l; apply mags_nonneg).
  repeat match goal with |- context [mags (List.map (units e0) ?l)] => lazymatch goal with H : (0 <= mags (List.map (units e0) l))%Z |- _ => fail | _ => pose proof (HP l) end end.
  lia.
Qed.
(** What an account whose history is [h] holds before a booking. *)
Lemma running_before b a h g : keeps e0 a h (state_of (bk_accounts b) a) -> measured_history e0 (joined h g Apart true) ->
  exists d0, effective (state_of (bk_accounts b) a) = Ok d0 /\ on_scale e0 d0
    /\ units e0 d0 = replayed e0 h (d ← Accounts.opening (state_of (bk_accounts b) a); Some (opening_date (state_of (bk_accounts b) a), d)).
Proof using Hs He0. intros K Hm. exact (effective_is e0 Hs He0 h (measured_part _ _ Hm) a _ K). Qed.
Lemma earliest_scale h g a st d : keeps e0 a h st -> Accounts.opening st = Some d -> measured_history e0 (joined h g Apart true) -> on_scale e0 d.
Proof using Hs He0.
  intros K Ho Hm. pose proof (k_opening _ _ _ _ K) as Hk. rewrite Ho in Hk. apply earliest_elem in Hk. by eapply opening_bounds in Hk as [Hk _]; [|exact (measured_part _ _ Hm)].
Qed.
(** Whether the books join a statement to the end, and what that says of its figures. *)
Lemma connects_says g b a h how : keeps e0 a h (state_of (bk_accounts b) a) -> measured_history e0 (joined h g Apart true) ->
  on_scale e0 (f_opening g) -> on_scale e0 (f_closing g) -> _connects g b a = Ok how -> how <> Apart ->
  exists d0 o, effective (state_of (bk_accounts b) a) = Ok d0 /\ on_scale e0 d0
    /\ units e0 d0 = replayed e0 h (d ← Accounts.opening (state_of (bk_accounts b) a); Some (opening_date (state_of (bk_accounts b) a), d))
    /\ match how with
       | Forward => units e0 (f_opening g) = units e0 d0
       | _ => Accounts.opening (state_of (bk_accounts b) a) = Some o /\ units e0 (f_closing g) = units e0 o
       end.
Proof using Hs He0.
  intros K Hm Ho Hc H Hn. destruct (running_before b a h g K Hm) as (d0 & Ed & Hd & Hu). exists d0.
  unfold _connects in H. rewrite running_of_state, earliest_of_state, Ed in H. apply rbind_ok in H as (held & Hh & H). apply rbind_ok in H as (fwd & Hf & H).
  destruct fwd.
  - injection H as <-. exists dzero. split; [done|]. split; [done|]. split; [done|]. destruct (Accounts.seen _); injection Hh as <-; [|done].
    unfold same_as in Hf. rewrite (deq_units e0) in Hf by done. injection Hf as Hf. lia.
  - apply rbind_ok in H as (back & Hb & H). injection H as <-. destruct back; [|done].
    destruct (Accounts.opening (state_of (bk_accounts b) a)) as [o|] eqn:Eo; [|done]. exists o. split; [done|]. split; [done|]. split; [done|]. split; [done|].
    cbn [same_as] in Hb. assert (Hos : on_scale e0 o) by (eapply (earliest_scale h g a); [exact K|exact Eo|exact Hm]). rewrite (deq_units e0) in Hb by done. injection Hb as Hb. lia.
Qed.
(** The running balance after a booking. *)
Lemma booked_balance g by_ a b b' h : in_words a UNCATEGORIZED = false -> keeps e0 a h (state_of (bk_accounts b) a) ->
  on_scale e0 (f_opening g) -> on_scale e0 (f_closing g) -> reconciled e0 g -> measured_history e0 (joined h g Apart true) ->
  (is_seeded (bk_accounts b) a = false -> h_posted h = []) -> booked g by_ a b b' ->
  exists d, running_balance (bk_accounts b') a = Ok (Some d) /\ on_scale e0 d
    /\ if is_seeded (bk_accounts b) a
       then exists how d0, _connects g b a = Ok how /\ effective (state_of (bk_accounts b) a) = Ok d0
            /\ match how with
               | Forward => units e0 d = units e0 (f_closing g)
               | Backward => units e0 d = (units e0 d0 + if String.ltb (f_opening_date g) (opening_date (state_of (bk_accounts b) a)) then 0
                                                       else units e0 (f_closing g) - units e0 (f_opening g))%Z
               | Apart => False
               end
       else units e0 d = units e0 (f_closing g).
Proof using Hs He0.
  intros Ha K Ho Hc Hr Hm Hnew Hb. destruct (booked_keeps g by_ a b b' h Ha K Ho Hc Hm Hb) as (how & human & K' & Hhow).
  destruct (running_joined g a b' h how human K' Hm) as (d & Hd & Hds & Hu). exists d. split; [done|]. split; [done|].
  pose proof (k_opening _ _ _ _ K) as Hk. unfold reconciled in Hr. rewrite seeded_of_state in Hhow, Hnew |- *.
  assert (Hjo : h_openings (joined h g how human) = h_openings h ++ h_openings (seating g how)).
  { unfold joined. cbn [join h_openings booking]. by rewrite app_nil_r. }
  rewrite Hjo in Hu. destruct (Accounts.opening (state_of (bk_accounts b) a)) as [o|] eqn:Eo.
  - destruct Hhow as [Hcon Hn]. destruct (connects_says g b a h how K Hm Ho Hc Hcon Hn) as (d0 & o' & Ed & Hd0 & Hu0 & Hsay). exists how, d0.
    split; [done|]. split; [done|]. rewrite Eo in Hu0. cbn [base.mbind option_bind] in Hk, Hu0. destruct how; [| |done].
    + cbn [seating unstated h_openings] in Hu. rewrite app_nil_r in Hu. rewrite (Hu _ Hk). lia.
    + cbn [seating h_openings] in Hu. pose proof (earliest_snoc _ _ _ (f_opening_date g, f_opening g) Hk) as Hsn. rewrite (Hu _ Hsn). cbn [fst].
      destruct Hsay as [Eo' Hsay]. rewrite Eo in Eo'. injection Eo' as <-. unfold replayed in *. destruct (String.ltb _ _); cbn [fst snd] in *; lia.
  - subst how. cbn [base.mbind option_bind earliest] in Hk. rewrite Hk in Hu. cbn [seating h_openings app] in Hu.
    assert (He : earliest fst [(f_opening_date g, f_opening g)] (Some (f_opening_date g, f_opening g))) by (exists [], []; by repeat constructor).
    rewrite (Hu _ He). unfold replayed. rewrite Hnew by done. cbn. lia.
Qed.
End Balances.
