(* ===== verification/PostingProperties.v ===== *)
(** * PostingProperties: what posting a statement may do

    The guarantees of the ladder of ingest/statement_projector.py. *)
From Stdlib Require Import ZArith NArith Ascii String Lia ZifyBool ZifyN ZifyNat.
From stdpp Require Import base list numbers strings.
From S2P Require Import Prelude Text Words Json Unicode Dates Decimals Floats Arithmetic Acquisition Events EventTypes Postings Dictionaries Normalize Identity Registry Visibility Overlays Merchants Movements Transfers TransferProperties Accounts BalanceLaws BalanceProperties Statements StatementProperties StatementPosting PostingLaws.
#[local] Open Scope string_scope.
#[local] Open Scope list_scope.

Section Guarantees.
Context `{case_map : CaseMap} `{word_table : WordTable} `{desc : Descriptors}.
Context (fresh : nat -> string) (token : string) (pf : MovementInfo -> res (option DescriptorProfile)).

(** C23: only what reconciles is posted, and everything else moves no money.  Whatever rung
    the ladder ends on, either it did not post, and all it appended are holds of this
    document and numbers learnt of its account, every balance, opening and posting of every
    account, every posted document and every claimed period as before; or it posted what it
    is entitled to, the statement as read, under its forced correction, or completed by the
    legs other documents attest, whose balance identity passed, on the account it resolves
    to, booked as its opening where there was none or it goes before, its lines, then its
    closing, and nothing else but links and suggestions of transfers. *)
Theorem only_what_reconciles_is_posted f by_ b out b' : post_statement fresh token pf f by_ b = (Ok out, b') ->
  (i_action out <> POSTED /\ same_money b b' /\ exists es, bk_log b' = bk_log b ++ es /\ Forall (quiet (f_doc f)) es)
  \/ exists g recon known seat lines close refs links,
       entitled b f g /\ _reconciles g = Ok recon /\ passed recon = true
       /\ i_action out = POSTED /\ i_account out = Some (chosen token b g) /\ res_verdict (_resolve b g) <> Ambiguous
       /\ bk_log b' = bk_log b ++ known ++ seat ++ lines ++ close :: refs ++ links
       /\ Forall (of_type "AccountIdentityObserved") known
       /\ (exists b1, same_money b b1 /\ seated g (chosen token b g) (account_kind_for (f_type g)) b1 seat)
       /\ Forall2 made (List.map (line_event g (chosen token b g) (account_kind_for (f_type g))) (f_txns g)) lines
       /\ (exists by', made (closing_event g (chosen token b g) by') close)
       /\ Forall (of_type "FinancialAccountReferenceObserved") refs /\ Forall linking links.
Proof using Type.
  intros H%ladder_wrote. destruct H as [[Hn (es & HF & Ha)]|(g & Hg & [H1 (recon & H2 & H3) [H4 H5] (by' & b1 & links & [(known & b0 & seat & lines & Hk & Hka & _ & Hs & Hl & Hb)] & Hlk & Ha)])].
  - left. split; [done|]. split; [by eapply quiets_keep|]. exists es. split; [|done]. by apply appended_log.
  - right. destruct Hl as [(ls & close & refs & -> & HF & Hc & Hr)]. exists g, recon, known, seat, ls, close, refs, links. do 6 (split; [done|]).
    split. { rewrite (appended_log _ _ _ Ha), (appended_log _ _ _ Hb), (appended_log _ _ _ Hka). by rewrite <- !app_assoc. }
    split; [done|]. split; [exists b0; split; [by eapply (quiets_keep ""); [apply quiet_known|]|done]|]. split; [done|]. split; [by exists by'|]. done.
Qed.

(** An account's period is posted once.  After a statement of a named document is posted on
    an account, whatever events follow that record no instrument observation (a correction
    retires what was booked before), another statement of a period ending the same day that
    resolves to that account is never posted: whatever it is answered, every balance and
    posting is as before. *)
Theorem a_period_is_posted_once f by_ b out b1 es b2 f2 by2 out2 b3 a :
  post_statement fresh token pf f by_ b = (Ok out, b1) -> i_action out = POSTED -> i_account out = Some a -> f_doc f <> "" ->
  appended b1 es b2 -> forallb (fun e => negb (is_observation e)) es = true ->
  post_statement fresh token pf f2 by2 b2 = (Ok out2, b3) -> f_closing_date f2 = f_closing_date f -> i_account out2 = Some a ->
  i_action out2 <> POSTED /\ same_money b2 b3.
Proof using Type.
  intros H1 Hp Hacc Hd Hes _ H2 Hdate Hacc2. apply ladder_wrote in H1 as [[Hn _]|(g & Hg & [_ _ [Ha _] (by' & b0 & links & Hb & _ & Hl)])]; [done|].
  rewrite Hacc in Ha. injection Ha as Ha. rewrite <- Ha in Hb. apply booked_claims in Hb; [|by rewrite (entitled_doc _ _ _ Hg)].
  rewrite (entitled_dated _ _ _ Hg), <- Hdate in Hb. destruct (posted_period b0 a (f_closing_date f2)) as [x|] eqn:Ex; [|done].
  apply (period_stays _ _ _ _ _ _ Hl) in Ex. apply (period_stays _ _ _ _ _ _ Hes) in Ex.
  apply ladder_wrote in H2 as [[Hn (es2 & HF & Hq)]|(g2 & Hg2 & [_ _ [Ha2 _] (by3 & b4 & links2 & Hb2 & _ & _)])]; [split; [done|by eapply quiets_keep]|].
  rewrite Hacc2 in Ha2. injection Ha2 as Ha2. rewrite <- Ha2 in Hb2. apply booked_free in Hb2. rewrite (entitled_dated _ _ _ Hg2) in Hb2. congruence.
Qed.

(** Healing ends.  On books whose holds are kept under their own documents, a pass that does
    not raise stops after one turn for each hold at most; it keeps the same documents held,
    counts no more posts than it tried, and leaves no hold it could still post but those it
    retried. *)
Theorem healing_ends b r b' : tidy b -> heal_gaps fresh token pf b = (r, b') \/ heal_corroboration fresh token pf b = (r, b') ->
  r <> Ok None
  /\ forall n, r = Ok (Some n) -> tidy b' /\ held_docs b' = held_docs b /\ exists tried, NoDup tried /\ incl tried (held_docs b)
       /\ Forall (retried fresh token pf) tried /\ (n <= length tried)%nat
       /\ (first_hold (stitches b') tried (gap_holds b') = Ok None \/ first_hold (attested b') tried (conflict_holds b') = Ok None).
Proof using Type.
  intros Ht H. assert (Hlen : (length (held_docs b) < turns b + length (@nil string))%nat) by (unfold turns, held_docs; rewrite length_map; cbn; lia).
  assert (HN : NoDup (@nil string)) by constructor. assert (HI : incl [] (held_docs b)) by (intros x []). 
  assert (Hdone : forall holds test, some_held holds -> heal fresh token pf (turns b) holds test [] 0 b = (r, b') -> r <> Ok None
    /\ forall n, r = Ok (Some n) -> tidy b' /\ held_docs b' = held_docs b /\ exists tried, NoDup tried /\ incl tried (held_docs b)
         /\ Forall (retried fresh token pf) tried /\ (n <= length tried)%nat /\ first_hold (test b') tried (holds b') = Ok None).
  { intros holds test Hh Hr. pose proof (heal_ends fresh token pf holds test Hh _ _ _ _ _ _ Hr Ht HN HI Hlen (le_n _) (Forall_nil_2 _)) as Hx.
    destruct r as [[m|]|]; [|done|by split]. split; [done|]. intros n [= <-]. destruct Hx as (H1 & H2 & tried & H3 & H4 & H5 & H6 & H7).
    split; [done|]. split; [done|]. by exists tried. }
  destruct H as [H|H]; (apply Hdone in H as [H1 H2]; [|apply some_open]); (split; [done|]; intros n Hn;
    destruct (H2 n Hn) as (H3 & H4 & tried & H5 & H6 & H7 & H8 & H9); split; [done|]; split; [done|]; exists tried; do 4 (split; [done|])).
  - by left.
  - by right.
Qed.

(** Posting reaches the printed closing.  On books that are the fold of their log, a posted
    statement whose figures and the account's history fit the arithmetic leaves the running
    balance of its account at exactly the closing it prints, where it opens the account or
    continues it; one that goes before the account's start leaves the balance as it was if
    it is dated before that start, and otherwise moves it by what the statement moved. *)
Theorem posting_reaches_the_closing e0 al f by_ b out b' a : scale_ok default_ctx e0 -> (e0 <= 0)%Z ->
  appended (empty_books al) (bk_log b) b -> post_statement fresh token pf f by_ b = (Ok out, b') -> i_action out = POSTED -> i_account out = Some a ->
  in_words a UNCATEGORIZED = false -> (is_seeded (bk_accounts b) a = false -> h_posted (history_of (bk_log b) a) = []) ->
  (forall g, entitled b f g -> in_cents e0 g /\ measured_history e0 (joined (history_of (bk_log b) a) g Apart true)) ->
  exists g d, entitled b f g /\ reconciled e0 g /\ running_balance (bk_accounts b') a = Ok (Some d) /\ on_scale e0 d
    /\ if is_seeded (bk_accounts b) a
       then exists how d0, _connects g b a = Ok how /\ effective (state_of (bk_accounts b) a) = Ok d0
            /\ match how with
               | Forward => units e0 d = units e0 (f_closing g)
               | Backward => units e0 d = (units e0 d0 + if String.ltb (f_opening_date g) (opening_date (state_of (bk_accounts b) a)) then 0
                                                       else units e0 (f_closing g) - units e0 (f_opening g))%Z
               | Apart => False
               end
       else units e0 d = units e0 (f_closing g).
Proof using Type.
  intros Hs He Hlog H Hp Hacc Ha Hnew Hm. apply ladder_wrote in H as [[Hn _]|(g & Hg & [_ (recon & Hr & Hpass) [Hga _] (by' & b1 & links & Hb & Hl & Hla)])]; [done|].
  rewrite Hacc in Hga. injection Hga as Hga. rewrite <- Hga in Hb. destruct (Hm g Hg) as [Hc Hmg]. exists g. pose proof Hc as [Ho Hcl _ _].
  assert (K : keeps e0 a (history_of (bk_log b) a) (state_of (bk_accounts b) a)).
  { destruct (posted_bounds e0 _ (measured_part e0 _ _ Hmg)) as [H1 H2]. apply (keeps_history e0 Hs He); [exact (appended_accounts _ _ _ Hlog)|done|done]. }
  assert (Hrec : reconciled e0 g) by (by eapply reconciles_is).
  destruct (booked_balance e0 Hs He g by' a b b1 _ Ha K Ho Hcl Hrec Hmg Hnew Hb) as (d & Hd & Hds & Hcase). exists d. split; [done|]. split; [done|].
  split; [|by split]. by rewrite running_of_state, (links_keep links b1 b'), <- running_of_state.
Qed.
End Guarantees.

(** ** A small month *)
#[local] Existing Instance plain_case.
#[local] Existing Instance plain_words.
#[local] Existing Instance plain_lines.
Definition month_ids (n : nat) : string := "b" ++ number_text n.
#[local] Abbreviation post_at b f := (post_statement month_ids "t" no_profile f "" b).
(** What each statement of a list is answered, posted one after the other. *)
Definition outcomes (l : list StatementFacts) : list (res (string * option string)) * books :=
  List.fold_left (fun s f => let r := post_at s.2 f in ((s.1 ++ [let? o := r.1 in Ok (i_action o, i_account o)])%list, r.2)) l ([], empty_books []).
Example misread_then_read_again :
  (outcomes [january_misread; january]).1 = [Ok ("posted", Some "acct:chk-4821"); Ok ("duplicate", Some "acct:chk-4821")].
Proof. vm_compute. reflexivity. Qed.
Lemma only_what_reconciles_is_posted_witness : exists out b', post_at (empty_books []) january_misread = (Ok out, b') /\ i_action out = POSTED
  /\ exists g recon, entitled (empty_books []) january_misread g /\ _reconciles g = Ok recon /\ passed recon = true.
Proof.
  destruct (post_at (empty_books []) january_misread) as [[out|x] b'] eqn:E; [|vm_compute in E; discriminate].
  assert (Ha : i_action out = POSTED) by (vm_compute in E; injection E as <- <-; reflexivity).
  pose proof (only_what_reconciles_is_posted month_ids "t" no_profile january_misread "" (empty_books []) out b') as H.
  destruct (H E) as [[Hn _]|(g & recon & known & seat & lines & close & refs & links & H1 & H2 & H3 & _)]; [by destruct Hn|].
  exists out, b'. split; [exact eq_refl|]. split; [exact Ha|]. exists g, recon. exact (conj H1 (conj H2 H3)).
Defined.
(** A line of nothing reconciles and cannot be booked: the account is opened, seeded and
    booked up to that line, and then the ladder raises. *)
Definition with_nothing : StatementFacts :=
  checking "d1" "2026-01-01" "2026-01-31" 10000 7500
    [printed_line "2026-01-10" "Grocer" (-2500) (Some 7500); printed_line "2026-01-31" "Monthly fee" 0 (Some 7500)]%Z.
Lemma zero_line_leaves_half_a_statement :
  let r := post_at (empty_books []) with_nothing in
  r.1 = Raise ValueError /\ List.map event_type (bk_log r.2) = List.map JStr ["AccountOpened"; "OpeningBalanceObserved"; "TransactionRecorded"].
Proof. vm_compute. by split. Qed.
(** A later statement whose closing is the account's first opening is taken for an earlier
    one: March, after a missing February, is booked, and the balance is not its closing. *)
Definition march : StatementFacts :=
  checking "d3" "2026-03-01" "2026-03-31" 9000 10000 [printed_line "2026-03-10" "Pay" 1000 (Some 10000)]%Z.
Lemma later_statement_taken_as_earlier :
  let r := outcomes [january; march] in
  r.1 = [Ok ("posted", Some "acct:chk-4821"); Ok ("posted", Some "acct:chk-4821")]
  /\ running_balance (bk_accounts r.2) "acct:chk-4821" = Ok (Some (cents 9500)).
Proof. vm_compute. by split. Qed.
